(* ===== verification/_CoqProject ===== *)
-Q . S2P
Prelude.v
Base64.v
Messages.v
Metadata.v
MetadataJSON.v
Handler.v
GoStrings.v
ConfigHTTP.v
Http.v
ConfigSSH.v
ConfigAuth.v
ConfigLog.v
ConfigBackend.v
SecurityConfig.v
Security.v
SecuritySpec.v
AuthIntegration.v
AuthSpec.v
Webhook.v
WebhookSpec.v
Requests.v
OAuth2.v
OAuth2Spec.v
Kerberos.v
AuthFactory.v
Logger.v
LoggerSpec.v
AgentProtocol.v
AgentSpec.v
AgentForward.v
AgentForwardSpec.v
AuditMessage.v
AuditLog.v
AppConfig.v
Backend.v
BackendSpec.v
DockerClient.v
DockerExec.v
Docker.v
DockerSpec.v
KubernetesClient.v
Kubernetes.v
KubernetesSpec.v
SSHProxy.v
SSHProxySpec.v
AuditSpec.v
AuditIntegration.v
AuditIntegrationSpec.v
AuditCodec.v
AuditCodecSpec.v
AuditEndToEnd.v
AuditStorage.v
AuditStorageSpec.v
Metrics.v
MetricsIntegration.v
MetricsSpec.v
Endpoints.v
Lifecycle.v
LifecycleSpec.v
Service.v
Main.v
MainSpec.v
Pool.v
PoolSpec.v
ServerStore.v
Server.v
ServerConnection.v
ServerSpec.v
ServerConnectionSpec.v
KerberosSpec.v
EndToEnd.v
WholeServer.v
