(* ===== verification/Prelude.v ===== *)
(** * Verification of libcontainerssh

    ContainerSSH is an SSH server that runs every session in a container.  A
    client's connection passes through a chain of handlers: the SSH server
    ([internal/sshserver]) takes it from [golang.org/x/crypto/ssh], the
    authentication layer ([internal/authintegration]) decides who the user is,
    the security overlay ([internal/security]) decides what the user may do, the
    audit log ([internal/auditlogintegration], [internal/auditlog]) records what
    happens, and a backend chosen by the connection's own configuration
    ([internal/backend], [internal/config]; [internal/docker],
    [internal/kubernetes] or [internal/sshproxy]) runs the program;
    forwarded connections reach the container through an agent
    ([agentprotocol], [internal/agentforward]).  Operators decide about logins
    and configurations over HTTP ([http], [internal/auth]) and watch the server
    through metrics and a health check.  All of them run as services
    under [service.Lifecycle].  The handler interfaces of
    [internal/sshserver/handler.go] connect the layers.

    ** The files, and the code they model

    - [Prelude]: results of Go calls (return, panic, blocked forever), programs
      over a store, machine integers, [fmt.Sprintf], fields of shared objects.
    - [Messages]: [message/message.go], [config/error.go]: error values.
    - [GoStrings]: what the code uses of [strings], [regexp] and [strconv].
    - [ConfigHTTP], [ConfigSSH], [ConfigAuth], [ConfigLog], [ConfigBackend],
      [AppConfig]: [config/*.go]: the sections of the configuration, their own
      unmarshalling and validation, and the validation of the whole.
    - [Http]: [http/*.go]: the HTTP client, handlers and server.
    - [Webhook]: [internal/auth], [auth/protocol.go]: authentication by webhook,
      both sides of the protocol; theorems in [WebhookSpec].
    - [OAuth2]: [internal/auth/oauth2_*.go], [oidc_discovery.go]: keyboard-interactive
      logins through GitHub, OpenID Connect and generic OAuth2 servers; theorems in
      [OAuth2Spec].
    - [Kerberos]: [internal/auth/kerberos_*.go]: passwords and GSSAPI conversations;
      theorems in [KerberosSpec].
    - [AuthFactory]: [authentication_factory.go] and
      [internal/authintegration/handler_factory.go]: the authenticators of a
      configuration.
    - [Backend]: [internal/config] (client, loaders, server side) and
      [internal/backend]: the configuration of a connection and the choice of its
      backend; theorems in [BackendSpec].
    - [Metrics], [MetricsIntegration]: [internal/metrics] and
      [internal/metricsintegration]; theorems in [MetricsSpec].
    - [Endpoints]: [internal/health], the HTTP side of [internal/metrics] and
      [internal/geoip], with their theorem.
    - [Metadata]: [metadata/*.go]: connection metadata, its getters and [Merge].
    - [MetadataJSON]: the JSON document that carries the metadata through the
      permissions of a connection; [RemoteAddress.MarshalText], [UnmarshalText];
      [Base64] for the bytes in it.
    - [Handler]: [sshserver/handler.go], [sshserver/rejection.go]: the interfaces
      as records of operations.
    - [SecurityConfig], [Security]: [config/security.go], [internal/security]: one
      definition per handler method; [SecuritySpec] states the access policy and
      proves that the handlers implement it.
    - [AuthIntegration]: [internal/authintegration]; [AuthSpec] has its theorems.
    - [AgentProtocol]: [agentprotocol/server.go]; [AgentForward]:
      [internal/agentforward]; theorems in [AgentSpec], [AgentForwardSpec].
    - [AuditMessage], [AuditLog], [AuditCodec]: [auditlog/message],
      [internal/auditlog] and its codecs; theorems in [AuditSpec],
      [AuditCodecSpec].
    - [AuditIntegration]: [internal/auditlogintegration]: the handlers that feed
      the audit log; theorems in [AuditIntegrationSpec], and about the way of a
      session into the recording and back in [AuditEndToEnd].
    - [AuditStorage]: [internal/auditlog/storage] and
      [internal/auditlog/factory.go]: the queue that uploads logs while they are
      written, its loops as steps between which other goroutines run; theorems in
      [AuditStorageSpec].
    - [DockerClient], [DockerExec]: [internal/docker/docker_impl.go]: images,
      containers and programs over a daemon that answers by the history of
      requests; [Docker]: the handlers of [internal/docker]; theorems in
      [DockerSpec].
    - [Requests]: retry loops, and what a call preserves of a store, shared by the
      clients of other systems.
    - [KubernetesClient], [Kubernetes]: [internal/kubernetes] in the same way:
      pods and the programs in them, the handlers; theorems in [KubernetesSpec].
    - [SSHProxy]: [internal/sshproxy]: the backend that hands a connection on to
      another SSH server; theorems in [SSHProxySpec].
    - [Lifecycle]: [service/lifecycle_impl.go]; theorems in [LifecycleSpec].
    - [Logger]: [log/*.go]: the logger, its writers and its factory; theorems in
      [LoggerSpec].
    - [Service]: [factory.go]: the services and the chain of handlers that [New] makes
      of a configuration, and the health status, with their theorems.
    - [Main]: [main.go], [internal/config/saver_writer.go]: the command; theorems in
      [MainSpec].
    - [Pool]: [service/pool_impl.go] as a step relation; theorems in [PoolSpec].
    - [ServerStore]: the objects of the SSH server: [serverImpl]'s fields, the
      shutdown registry, [channelWrapper], [ReverseForwardHandler].
    - [Server]: [serverImpl.go]: global requests, channels, session requests;
      theorems in [ServerSpec].
    - [ServerConnection]: [serverImpl.go]: authentication callbacks, the life of
      a connection, keep-alives, start and stop; theorems in
      [ServerConnectionSpec].
    - [EndToEnd]: the server on top of the authentication layer; [WholeServer]: the
      server that [New] makes of a configuration, with all its layers.

    A Go struct is a record, a method is a definition of the same name (with the
    type in front where methods share a name), an interface is a record of
    operations over the store of its implementation, a nil pointer or error is
    [None].  Mutable fields live in a store [W] reached through the class [Field];
    code of other packages is any program over [W], and the theorems say what
    they require of it (classes such as [QuietSession], [KeepingNetwork]).

    ** What the theorems show

    - Access: [every_connection_is_authenticated] for the whole server that is made of
      a configuration; [served_users_are_authenticated], [no_login_without_authentication],
      [passthrough_behavior] (who gets in); [security_session_refines_policy],
      [security_forwarding_refines_policy], [force_command_is_forced],
      [session_limit], [default_disable_locks_down] (what they may do);
      [operator_decides_logins], [webhook_asks_until_answered],
      [operator_verdict_arrives], [oauth2_login_is_proved],
      [kerberos_login_is_verified], [kerberos_allows_signed_logins] (who decides);
      [authenticators_follow_configuration], [container_is_guarded] (the decision of
      the configured method stands in front of every backend);
      [connections_are_overlaid] (no connection is served without the overlay of its
      configuration).
    - The server: every session request and every global request is dispatched
      once, in order, each in the store the one before it has left, and answered
      as SSH asks ([session_channel_served], [global_requests_served]), every
      channel is answered ([channel_open_answered]), connections are released
      however the end of one runs beside the registration of its handler
      ([connection_bookkeeping]), exit codes are reported once
      ([exit_notifications]), and the metadata survives its way through the
      permissions of the connection but for the zone of the address
      ([metadata_json_roundtrip]).
    - The audit trail is complete and can be read back while the encoder can
      write; when it cannot, the next call never returns
      ([audit_trail_complete], [audit_calls_record_one_message],
      [binary_roundtrip], [asciinema_recording]); the handlers record every
      request, also those that are unknown or cannot be decoded, and every login
      ([session_requests_are_audited], [authentication_is_audited],
      [session_channels_are_audited]), and a whole session reads back from its
      recording as exactly what the client and the backend did
      ([recorded_session_reads_back]).
    - The storage removes the local file of a log only when the object store has
      all of it ([no_log_is_lost]), and does so when nothing is refused
      ([finished_log_is_stored]), unless the log is finished at a bad moment
      ([late_finish_loses_the_end]), is empty ([empty_log_is_uploaded_forever]) or
      was left by an earlier run ([recovered_log_stops_the_server]).
    - Docker: containers carry the labels of their connection whatever the daemon
      answers ([containers_are_labelled]), are removed at its end
      ([disconnect_removes_container]), run one program per channel
      ([one_program_per_channel]) and report its exit code once
      ([exit_status_is_reported]).
    - Kubernetes: pods carry the marks of their connection whatever the cluster
      answers, unless the configuration uses their names or the user name is too
      long for a label ([pods_are_marked]), and are deleted at its end
      ([disconnect_removes_pod]); the client gets the output of a program and its
      exit code ([program_output_is_delivered], [output_follows_pid]).
    - The SSH proxy only connects to a server it knows ([backend_is_verified]),
      hands on exactly the requests that make sense
      ([session_requests_are_proxied]), and the client gets the output and exit
      codes ([output_is_proxied], [exit_reaches_client]).
    - Configuration: validation accepts exactly the configurations it describes
      ([app_config_valid_iff], [auth_config_valid_iff],
      [docker_config_valid_iff], [kubernetes_config_valid_iff],
      [security_config_validate_iff]).
    - Operation: the gauges count the open connections
      ([gauge_counts_open_connections]), the health check tells the truth
      ([health_check_agrees]) about the services ([health_follows_services]), the
      logger writes what its level asks for ([logger_writes_up_to_its_level]) to the
      file it has opened last ([rotated_file]), generated host keys never leave a torn
      configuration file ([configuration_file_is_never_torn]) and are found again
      ([host_key_is_kept]), and the exit code is that of the services
      ([exit_code_tells_how_services_ended]).
    - The agent protocol delivers data in order and its calls return
      ([agent_data_roundtrip], [agent_packet_order], [agent_calls_return]).
    - Services end as they should ([lifecycle_run_ends]), and pools with them, for
      every interleaving of their goroutines ([pool_outlives_services],
      [pool_runs_when_services_run], [pool_executions_are_finite],
      [pool_rests]).
    - Where the code deviates from what it means to do there is a theorem that
      says exactly when, e.g. [x11_channels_panic], [unknown_close_blocks_forever],
      [wait_after_end_blocks_everything], [shutdown_never_returns],
      [closed_input_loses_exit_status], [pool_can_hang],
      [window_change_after_exit_panics], [unready_pods_are_left],
      [disconnect_waits_for_forwards], [unrequested_channel_panics],
      [org_membership_is_not_checked], [pasted_state_is_ignored],
      [unreachable_server_blocks_login], [github_refused_code_never_returns],
      [kerberos_password_login], [partial_lines_are_repeated],
      [late_success_reopens], [x11_request_of_a_running_program].  Where a
      deviation lies in the way of a general theorem, the theorem states it: the
      deny lists that the filter mode does not look at and the mode of signals
      in [security_session_refines_policy], the registration that outlives its
      connection in [connection_bookkeeping], the writes that fail in
      [audit_trail_complete], the panic on an address in
      [webhook_asks_until_answered].

    ** What is abstracted, and why

    - What the components log is dropped from their models: no decision reads it.
      [Logger] models what becomes of a message.
    - An operation that holds a mutex from beginning to end is atomic.  Locks that
      are held across calls of other packages, or returned with, are part of the
      state, and waiting for one that is never released is [Blocked].  Goroutines
      are separate definitions, run in the order a theorem states; where two race
      for the same fields without a common lock they are split into their steps
      ([ServerConnection.closing_steps], [AgentProtocol.handleSuccess_look] and
      [handleSuccess_act]).
    - The services of a pool call [Running] and [Stopping] at most once each.
    - The files of two audit logs are different: their names are the identifiers
      of connections.
    - [golang.org/x/crypto/ssh], CBOR, gzip, the GeoIP database, Docker,
      Kubernetes and the network are arguments of the definitions.  JSON text is below the model: a
      document is a tree, with the replacement of invalid UTF-8.
    - The object store answers as it likes; what it holds is computed from the
      calls it has accepted ([AuditStorageSpec.stored]).
    - Unbuffered Go channels and pipes are queues of what was sent on them.
    - Times are integers of nanoseconds.
    - Loops recurse over the list of inputs they consume.  The receive loop of the
      agent protocol takes fuel: one round per packet and one for the end of the
      stream, proved to be enough in [receive_loop_drains]; the keep-alive
      loop takes the number of intervals that pass.

    - The text of a configuration file, a host key, a ticket and a web page is made
      and read by arguments ([Main], [Kerberos], [OAuth2]).
    - The run of [Main] goes from the start of the services to their end in one piece;
      the requests to stop that signals cause are inputs of the services
      ([Lifecycle], [Pool]).

    ** What is not modelled

    - The bytes that [serveConnection] copies, socket options, signals and the rotation
      of logs by a signal.
    - The test clients, the handlers for tests and the conformance suite of
      [internal/sshserver], [internal/test] and [log/test_main.go]: they check the code
      modelled here and are no part of the server.
    - [internal/auditlog/logger_empty.go], whose methods do nothing.
    - [internal/unixutils], [internal/structutils]: calls of libraries for command lines,
      defaults, copies and merges, which are arguments where they matter.
    - The tools under [cmd/], the tables of message codes in [message/*.go], and what is
      generated from them. *)

From Stdlib Require Import ZArith Lia Ascii.
From Stdlib Require Strings.Byte.
From stdpp Require Import base gmap strings list fin_maps pretty relations.


(** ** Go calls: results, panics, blocked goroutines *)

(** What one call of a Go function does: it returns, it panics (nil
    dereference, failed type assertion, send on or close of a closed channel),
    or it never returns because it waits for a mutex, a channel or a wait group
    that nobody will release. *)
Inductive outcome (A : Type) : Type :=
| Done (a : A)
| Panic (why : string)
| Blocked (why : string).

Arguments Done {A} a.
Arguments Panic {A} why.
Arguments Blocked {A} why.

(** A call that reads and updates a shared store [W]. *)
Definition prog (W A : Type) : Type := W → outcome (A * W).

Definition prog_ret {W A} (a : A) : prog W A := λ w, Done (a, w).

Definition prog_bind {W A B} (f : A → prog W B) (c : prog W A) : prog W B :=
  λ w,
    match c w with
    | Done (a, w') => f a w'
    | Panic s => Panic s
    | Blocked s => Blocked s
    end.

Definition get {W} : prog W W := λ w, Done (w, w).
Definition put {W} (w : W) : prog W unit := λ _, Done (tt, w).
Definition modify {W} (f : W → W) : prog W unit := λ w, Done (tt, f w).
Definition panic {W A} (why : string) : prog W A := λ _, Panic why.
Definition block {W A} (why : string) : prog W A := λ _, Blocked why.

Declare Scope go_scope.
Delimit Scope go_scope with go.

Notation "'let*' x ':=' c 'in' k" := (prog_bind (λ x, k) c)
  (at level 200, x name, c at level 100, k at level 200, right associativity) : go_scope.
Notation "'let*' ' p ':=' c 'in' k" := (prog_bind (λ x, match x with p => k end) c)
  (at level 200, p pattern, c at level 100, k at level 200, right associativity) : go_scope.
Notation "'do*' c 'in' k" := (prog_bind (λ _, k) c)
  (at level 200, c at level 100, k at level 200, right associativity) : go_scope.

Open Scope go_scope.

(** [for _, x := range l { f(x) }] *)
Fixpoint range {W A} (l : list A) (f : A → prog W unit) : prog W unit :=
  match l with
  | [] => prog_ret tt
  | x :: l' => do* f x in range l' f
  end.

(** ** Machine integers *)

(** A [uint64] (also Go's [uint] on the 64-bit targets) is a [Z] in
    [0, 2^64); arithmetic on it wraps around. *)
Definition u64 (z : Z) : Z := (z `mod` 2 ^ 64)%Z.
Definition u32 (z : Z) : Z := (z `mod` 2 ^ 32)%Z.
Definition is_u64 (z : Z) : Prop := (0 ≤ z < 2 ^ 64)%Z.
Definition is_u32 (z : Z) : Prop := (0 ≤ z < 2 ^ 32)%Z.

Lemma u64_range z : is_u64 (u64 z).
Proof. unfold is_u64, u64. apply Z.mod_pos_bound. lia. Qed.

Lemma u64_id z : is_u64 z → u64 z = z.
Proof. unfold is_u64, u64. intros. by apply Z.mod_small. Qed.

Lemma u64_succ_small z : (0 ≤ z < 2 ^ 64 - 1)%Z → u64 (z + 1) = (z + 1)%Z.
Proof. intros. apply u64_id. unfold is_u64. lia. Qed.

#[export] Instance byte_eq_decision : EqDecision Byte.byte := Byte.byte_eq_dec.

(** A byte and its value; a value is reduced to the eight bits of a byte. *)
Definition byte_of (z : Z) : Byte.byte := default Byte.x00 (Byte.of_N (Z.to_N (z `mod` 256))).
Definition Z_of_byte (b : Byte.byte) : Z := Z.of_N (Byte.to_N b).

Lemma byte_roundtrip b : byte_of (Z_of_byte b) = b.
Proof. by destruct b. Qed.

Lemma Z_of_byte_of z : Z_of_byte (byte_of z) = (z `mod` 256)%Z.
Proof.
  unfold byte_of, Z_of_byte.
  assert (0 ≤ z `mod` 256 < 256)%Z as Hz by (apply Z.mod_pos_bound; lia).
  destruct (Byte.of_N (Z.to_N (z `mod` 256))) as [b|] eqn:E; cbn.
  - apply Byte.to_of_N in E. rewrite E. lia.
  - apply Byte.of_N_None_iff in E. lia.
Qed.

Lemma Z_of_byte_range b : (0 ≤ Z_of_byte b < 256)%Z.
Proof. destruct b; vm_compute; split; congruence. Qed.

(** ** Strings *)

Lemma string_app_nil (s : string) : (s +:+ "")%string = s.
Proof. induction s as [|c s IH]; [done|]. exact (f_equal (String c) IH). Qed.

Lemma string_app_assoc (a b c : string) : (a +:+ (b +:+ c) = (a +:+ b) +:+ c)%string.
Proof. induction a as [|x a IH]; [done|]. exact (f_equal (String x) IH). Qed.

(** ** fmt.Sprintf *)

(** The arguments the program passes to [fmt.Sprintf]; an error argument is
    passed as the text its [Error] method returns. *)
Inductive value :=
| VString (s : string)
| VInt (z : Z)
| VBool (b : bool).

#[export] Instance value_eq_dec : EqDecision value.
Proof. solve_decision. Defined.

Definition value_text (v : value) : string :=
  match v with
  | VString s => s
  | VInt z => pretty z
  | VBool true => "true"
  | VBool false => "false"
  end.

Definition value_type (v : value) : string :=
  match v with
  | VString _ => "string"
  | VInt _ => "int"
  | VBool _ => "bool"
  end.

(** One verb: [%s] and [%v] and [%w] print the text, [%d] needs an integer,
    [%t] a boolean; a mismatch prints Go's [%!verb(type=value)]. *)
Definition format_verb (c : Ascii.ascii) (v : value) : string :=
  let bad := ("%!" ++ String c ("(" ++ value_type v ++ "=" ++ value_text v ++ ")"))%string in
  match c, v with
  | "s"%char, VString _ | "w"%char, VString _ => value_text v
  | "v"%char, _ => value_text v
  | "d"%char, VInt _ => value_text v
  | "t"%char, VBool _ => value_text v
  | _, _ => bad
  end.

(** Arguments that no verb used are printed at the end. *)
Definition extra_text (v : value) : string := (value_type v ++ "=" ++ value_text v)%string.
Fixpoint extra_texts (args : list value) : string :=
  match args with
  | [] => ""
  | [v] => extra_text v
  | v :: args' => (extra_text v ++ ", " ++ extra_texts args')%string
  end.

Definition surplus_text (args : list value) : string :=
  match args with
  | [] => EmptyString
  | _ => ("%!(EXTRA " ++ extra_texts args ++ ")")%string
  end.

Fixpoint Sprintf (fmt : string) (args : list value) : string :=
  match fmt with
  | EmptyString => surplus_text args
  | String "%"%char EmptyString => ("%!(NOVERB)" ++ surplus_text args)%string
  | String "%"%char (String c rest) =>
      if decide (c = "%"%char) then String "%"%char (Sprintf rest args)
      else
        match args with
        | [] => ("%!" ++ String c ("(MISSING)" ++ Sprintf rest []))%string
        | v :: args' => (format_verb c v ++ Sprintf rest args')%string
        end
  | String c rest => String c (Sprintf rest args)
  end.

Example Sprintf_demo :
  Sprintf "user %s from port %d (%v)" [VString "bob"; VInt 22; VBool true]
  = "user bob from port 22 (true)"%string.
Proof. reflexivity. Qed.
Example Sprintf_surplus :
  Sprintf "100%d%" [VInt 1; VString "x"; VBool true] = "1001%!(NOVERB)%!(EXTRA string=x, bool=true)"%string.
Proof. reflexivity. Qed.

(** ** Proof automation of the development *)

(** Facts about the stores and the monad that [eauto with go] may use. *)
Create HintDb go.
#[export] Hint Resolve u64_range : go.

(** [run_prog] unfolds a call down to the calls it makes and computes. *)
Ltac run_prog :=
  cbv beta delta [prog_bind prog_ret get put modify panic block] in *;
  cbn beta iota in *.

(** Case analysis on whatever the goal's outermost [match] or [if] looks at. *)
Ltac split_match :=
  match goal with
  | |- context [match ?x with _ => _ end] => destruct x eqn:?
  | |- context [if ?x then _ else _] => destruct x eqn:?
  end.

Ltac split_hyp H :=
  match type of H with
  | context [match ?x with _ => _ end] => destruct x eqn:?
  | context [if ?x then _ else _] => destruct x eqn:?
  end.

Ltac split_all := repeat (split_match; simplify_eq/=); try done.

(** ** Fields of objects in a shared store

    An object keeps a mutable field of type [S] in the store [W].  The laws say
    that the field behaves like a variable. *)
Class Field (W S : Type) := {
  fget : W → S;
  fset : S → W → W;
  fget_fset s w : fget (fset s w) = s;
  fset_fset s s' w : fset s' (fset s w) = fset s' w;
  fset_fget w : fset (fget w) w = w;
}.

#[export] Hint Rewrite @fget_fset @fset_fset @fset_fget : go.

(** [c] returns and leaves the field alone: what the code of another package
    does to the objects it cannot name. *)
Definition framed {W S A} `{!Field W S} (c : prog W A) : Prop :=
  ∀ w, ∃ a w', c w = Done (a, w') ∧ fget w' = fget w.

(** A store that is a pair holds a field in its first component. *)
#[export, refine] Instance field_fst {S T} : Field (S * T) S := {
  fget := fst;
  fset s w := (s, w.2);
}.
Proof. all: by intros; repeat (match goal with x : _ * _ |- _ => destruct x end). Defined.

#[export, refine] Instance field_self {S} : Field S S | 20 := { fget w := w; fset s _ := s; }.
Proof. all: done. Defined.

(** ... or deeper in its second component. *)
#[export, refine] Instance field_snd {R S T} `{!Field T S} : Field (R * T) S | 10 := {
  fget w := fget w.2;
  fset s w := (w.1, fset s w.2);
}.
Proof.
  - intros s [r t]. cbn. apply fget_fset.
  - intros s s' [r t]. cbn. by rewrite fset_fset.
  - intros [r t]. cbn. by rewrite fset_fget.
Defined.

(** Two fields of a store that do not overlap. *)
Class Separate (W S T : Type) `{!Field W S} `{!Field W T} := {
  fget_other_l (t : T) (w : W) : fget (fset t w) =@{S} fget w;
  fget_other_r (s : S) (w : W) : fget (fset s w) =@{T} fget w;
}.

#[export] Instance separate_pair {S T U} `{!Field U T} :
  @Separate (S * U) S T field_fst field_snd.
Proof. split; by intros ? []. Qed.

Lemma framed_ret {W S A} `{!Field W S} (a : A) : framed (prog_ret (W:=W) a).
Proof. intros w. by exists a, w. Qed.

Lemma framed_bind {W S A B} `{!Field W S} (c : prog W A) (f : A → prog W B) :
  framed c → (∀ a, framed (f a)) → framed (prog_bind f c).
Proof.
  intros Hc Hf w. destruct (Hc w) as (a & w1 & E & H1).
  destruct (Hf a w1) as (b & w2 & E' & H2).
  exists b, w2. unfold prog_bind. rewrite E. split; [done | congruence].
Qed.

#[export] Hint Resolve framed_ret framed_bind : go.

(** ** Reasoning about calls

    [wp c w Q]: the call [c] returns from the store [w], and [Q] holds of its
    result and of the store it leaves.  [wlp c w Q]: if it returns, [Q] holds. *)
Definition wp {W A} (c : prog W A) (w : W) (Q : A → W → Prop) : Prop :=
  match c w with Done (a, w') => Q a w' | _ => False end.
Definition wlp {W A} (c : prog W A) (w : W) (Q : A → W → Prop) : Prop :=
  match c w with Done (a, w') => Q a w' | _ => True end.

Section calls.
Context {W : Type}.
Implicit Types w : W.

Lemma wp_done {A} (c : prog W A) w Q : wp c w Q → ∃ a w', c w = Done (a, w') ∧ Q a w'.
Proof. unfold wp. destruct (c w) as [[a w']| |]; naive_solver. Qed.

Lemma wlp_done {A} (c : prog W A) w Q a w' : wlp c w Q → c w = Done (a, w') → Q a w'.
Proof. unfold wlp. intros H E. by rewrite E in H. Qed.

Lemma wp_ret {A} (a : A) w Q : Q a w → wp (prog_ret a) w Q.
Proof. done. Qed.
Lemma wlp_ret {A} (a : A) w Q : Q a w → wlp (prog_ret a) w Q.
Proof. done. Qed.

Lemma wp_bind {A B} (f : A → prog W B) (c : prog W A) w Q :
  wp c w (λ a w', wp (f a) w' Q) → wp (prog_bind f c) w Q.
Proof. unfold wp, prog_bind. by destruct (c w) as [[a w']| |]. Qed.
Lemma wlp_bind {A B} (f : A → prog W B) (c : prog W A) w Q :
  wlp c w (λ a w', wlp (f a) w' Q) → wlp (prog_bind f c) w Q.
Proof. unfold wlp, prog_bind. by destruct (c w) as [[a w']| |]. Qed.

Lemma wp_mono {A} (c : prog W A) w (Q Q' : A → W → Prop) :
  wp c w Q → (∀ a w', Q a w' → Q' a w') → wp c w Q'.
Proof. unfold wp. destruct (c w) as [[a w']| |]; naive_solver. Qed.
Lemma wlp_mono {A} (c : prog W A) w (Q Q' : A → W → Prop) :
  wlp c w Q → (∀ a w', Q a w' → Q' a w') → wlp c w Q'.
Proof. unfold wlp. destruct (c w) as [[a w']| |]; naive_solver. Qed.

Lemma wlp_panic {A} why w (Q : A → W → Prop) : wlp (panic why) w Q.
Proof. done. Qed.
Lemma wlp_block {A} why w (Q : A → W → Prop) : wlp (block why) w Q.
Proof. done. Qed.

End calls.

(** Computing a sequence of calls from the left. *)
Lemma bind_done {W A B} (f : A → prog W B) (c : prog W A) w a w' :
  c w = Done (a, w') → prog_bind f c w = f a w'.
Proof. unfold prog_bind. by intros ->. Qed.

Lemma bind_blocked {W A B} (f : A → prog W B) (c : prog W A) w why : c w = Blocked why → prog_bind f c w = Blocked why.
Proof. unfold prog_bind. by intros ->. Qed.

Lemma bind_same {W A B} (f g : A → prog W B) (c : prog W A) w :
  (∀ a w', f a w' = g a w') → prog_bind f c w = prog_bind g c w.
Proof. unfold prog_bind. intros H. by destruct (c w) as [[a w']| |]. Qed.

Lemma bind_bind {W A B C} (f : B → prog W C) (g : A → prog W B) (c : prog W A) w :
  prog_bind f (prog_bind g c) w = prog_bind (λ a, prog_bind f (g a)) c w.
Proof. unfold prog_bind. by destruct (c w) as [[a w']| |]. Qed.

Lemma bind_ret {W A B} (f : A → prog W B) a w : prog_bind f (prog_ret a) w = f a w.
Proof. done. Qed.

Lemma bind_if {W A B} (f : A → prog W B) (b : bool) c d w :
  prog_bind f (if b then c else d) w = if b then prog_bind f c w else prog_bind f d w.
Proof. by destruct b. Qed.

(** One step through a sequence of calls. *)
Ltac wlp_step :=
  lazymatch goal with
  | |- wlp (prog_bind _ _) _ _ => apply wlp_bind
  | |- wlp (prog_ret _) _ _ => apply wlp_ret
  | |- wlp (panic _) _ _ => exact I
  | |- wlp (block _) _ _ => exact I
  | |- wp (prog_bind _ _) _ _ => apply wp_bind
  | |- wp (prog_ret _) _ _ => apply wp_ret
  end.

(** ** Lists *)

Lemma alter_alter {A} (f g : A → A) (i : nat) (l : list A) : alter f i (alter g i l) = alter (λ x, f (g x)) i l.
Proof. revert i. induction l as [|x l IH]; intros [|i]; [done..|]. cbn. f_equal. apply IH. Qed.

Lemma alter_is_insert {A} (f : A → A) (l : list A) i x : l !! i = Some x → alter f i l = <[i := f x]> l.
Proof. revert i. induction l as [|y l IH]; intros [|i] [=]; cbn; [by subst|]. f_equal. by apply IH. Qed.
