(* ===== verification/Base64.v ===== *)
(** * encoding/base64

    [base64.StdEncoding]: the text form of byte slices in JSON documents and of
    the passwords sent to a webhook server. *)

From Stdlib Require Import ZArith Lia Ascii.
From Stdlib Require Import Strings.Byte.
From stdpp Require Import base list strings.
From S2P Require Import Prelude.

Local Open Scope Z_scope.

(** The alphabet: a digit of base 64 as a character. *)
Definition digit64 (n : Z) : ascii :=
  ascii_of_nat (Z.to_nat
    (if decide (n < 26) then 65 + n
     else if decide (n < 52) then 97 + (n - 26)
     else if decide (n < 62) then 48 + (n - 52)
     else if decide (n = 62) then 43 else 47)).

Definition value64 (c : ascii) : option Z :=
  let n := Z.of_nat (nat_of_ascii c) in
  if decide (65 ≤ n ≤ 90) then Some (n - 65)
  else if decide (97 ≤ n ≤ 122) then Some (n - 97 + 26)
  else if decide (48 ≤ n ≤ 57) then Some (n - 48 + 52)
  else if decide (n = 43) then Some 62
  else if decide (n = 47) then Some 63
  else None.

Definition StdPadding : ascii := "="%char.

(** Three bytes become four characters; what is left over is padded. *)
Fixpoint encode (src : list byte) : list ascii :=
  match src with
  | b0 :: b1 :: b2 :: rest =>
      let val := 65536 * Z_of_byte b0 + 256 * Z_of_byte b1 + Z_of_byte b2 in
      digit64 (val / 262144 mod 64) :: digit64 (val / 4096 mod 64) :: digit64 (val / 64 mod 64)
        :: digit64 (val mod 64) :: encode rest
  | [b0; b1] =>
      let val := 65536 * Z_of_byte b0 + 256 * Z_of_byte b1 in
      [digit64 (val / 262144 mod 64); digit64 (val / 4096 mod 64); digit64 (val / 64 mod 64); StdPadding]
  | [b0] =>
      let val := 65536 * Z_of_byte b0 in
      [digit64 (val / 262144 mod 64); digit64 (val / 4096 mod 64); StdPadding; StdPadding]
  | [] => []
  end.

Definition EncodeToString (src : list byte) : string := String.string_of_list_ascii (encode src).

(** Padding may only end the text, and the text must be complete. *)
Fixpoint decode (s : list ascii) : option (list byte) :=
  match s with
  | [] => Some []
  | c0 :: c1 :: c2 :: c3 :: rest =>
      match value64 c0, value64 c1 with
      | Some v0, Some v1 =>
          if decide (c2 = StdPadding) then
            if decide (c3 = StdPadding ∧ rest = []) then Some [byte_of ((64 * v0 + v1) / 16)] else None
          else
            match value64 c2 with
            | None => None
            | Some v2 =>
                let high := 4096 * v0 + 64 * v1 + v2 in
                if decide (c3 = StdPadding) then
                  if decide (rest = []) then Some [byte_of (high / 1024); byte_of (high / 4)] else None
                else
                  match value64 c3, decode rest with
                  | Some v3, Some bytes =>
                      let val := 64 * high + v3 in
                      Some (byte_of (val / 65536) :: byte_of (val / 256) :: byte_of val :: bytes)
                  | _, _ => None
                  end
            end
      | _, _ => None
      end
  | _ => None
  end.

(** Carriage returns and newlines are skipped. *)
Definition newline (c : ascii) : bool := bool_decide (c = ascii_of_nat 10 ∨ c = ascii_of_nat 13).

Definition DecodeString (s : string) : option (list byte) :=
  decode (filter (λ c, newline c = false) (String.list_ascii_of_string s)).

(** ** Reading back *)

Lemma digits64_ok :
  Forall (λ n, value64 (digit64 (Z.of_nat n)) = Some (Z.of_nat n) ∧ digit64 (Z.of_nat n) ≠ StdPadding
               ∧ newline (digit64 (Z.of_nat n)) = false ∧ (nat_of_ascii (digit64 (Z.of_nat n)) < 128)%nat) (seq 0 64).
Proof. apply (bool_decide_unpack _). vm_compute. exact I. Qed.

Lemma digit64_ok n : 0 ≤ n < 64 →
  value64 (digit64 n) = Some n ∧ digit64 n ≠ StdPadding ∧ newline (digit64 n) = false
  ∧ (nat_of_ascii (digit64 n) < 128)%nat.
Proof.
  intros H. pose proof (proj1 (Forall_forall _ _) digits64_ok (Z.to_nat n)) as Hd. cbn beta in Hd.
  rewrite Z2Nat.id in Hd by lia. apply Hd, elem_of_seq. lia.
Qed.

Lemma digit_ok z : value64 (digit64 (z mod 64)) = Some (z mod 64).
Proof. apply digit64_ok, Z.mod_pos_bound. lia. Qed.

Lemma digit_not_padding z : digit64 (z mod 64) ≠ StdPadding.
Proof. apply digit64_ok, Z.mod_pos_bound. lia. Qed.

Lemma byte_of_eq z b : z = Z_of_byte b → byte_of z = b.
Proof. intros ->. apply byte_roundtrip. Qed.

Lemma byte_of_eq' z b k : z = Z_of_byte b + 256 * k → byte_of z = b.
Proof.
  intros ->. rewrite <- (byte_roundtrip b) at 2. unfold byte_of. do 3 f_equal.
  rewrite Z.mul_comm. by rewrite Z_mod_plus_full.
Qed.

Ltac bytes_arith :=
  repeat match goal with b : byte |- _ => pose proof (Z_of_byte_range b); generalize dependent (Z_of_byte b); clear b end;
  intros; Z.to_euclidean_division_equations; lia.

(** The four digits of a number of 24 bits. *)
Lemma four_digits v : 0 ≤ v < 16777216 →
  64 * (4096 * (v / 262144 mod 64) + 64 * (v / 4096 mod 64) + v / 64 mod 64) + v mod 64 = v.
Proof.
  intros H. replace (v / 262144) with (v / 64 / 64 / 64) by (rewrite !Z.div_div by lia; done).
  replace (v / 4096) with (v / 64 / 64) by (rewrite !Z.div_div by lia; done).
  rewrite (Z.mod_small (v / 64 / 64 / 64)).
  - pose proof (Z.div_mod v 64). pose proof (Z.div_mod (v / 64) 64). pose proof (Z.div_mod (v / 64 / 64) 64). lia.
  - rewrite !Z.div_div by lia. split; [apply Z.div_pos; lia|]. apply Z.div_lt_upper_bound; lia.
Qed.

Lemma list3_ind {A} (P : list A → Prop) :
  P [] → (∀ x, P [x]) → (∀ x y, P [x; y]) → (∀ x y z l, P l → P (x :: y :: z :: l)) → ∀ l, P l.
Proof.
  intros H0 H1 H2 H3. fix IH 1. intros [|x [|y [|z l]]]; [exact H0|apply H1|apply H2|apply H3, IH].
Qed.

Lemma decode_encode bytes : decode (encode bytes) = Some bytes.
Proof.
  induction bytes as [|x|x y|x y z l IH] using list3_ind; [done|..];
    cbn [encode decode]; rewrite !digit_ok.
  - rewrite decide_True by done. rewrite decide_True by done. do 2 f_equal. apply byte_of_eq. bytes_arith.
  - rewrite decide_False by apply digit_not_padding. rewrite decide_True by done. rewrite decide_True by done.
    do 2 f_equal; [apply byte_of_eq; bytes_arith|f_equal].
    apply (byte_of_eq' _ _ (Z_of_byte x)). bytes_arith.
  - rewrite !decide_False by apply digit_not_padding. rewrite IH.
    rewrite four_digits by (pose proof (Z_of_byte_range x); pose proof (Z_of_byte_range y); pose proof (Z_of_byte_range z); lia).
    do 2 f_equal; [apply byte_of_eq; bytes_arith|f_equal].
    + apply (byte_of_eq' _ _ (Z_of_byte x)). bytes_arith.
    + f_equal. apply (byte_of_eq' _ _ (256 * Z_of_byte x + Z_of_byte y)). bytes_arith.
Qed.

(** The characters of the text: ASCII, and no newlines. *)
Lemma encode_chars bytes :
  Forall (λ c, newline c = false ∧ (nat_of_ascii c < 128)%nat) (encode bytes).
Proof.
  assert (∀ z, newline (digit64 (z mod 64)) = false ∧ (nat_of_ascii (digit64 (z mod 64)) < 128)%nat) as Hd.
  { intros z. apply digit64_ok, Z.mod_pos_bound. lia. }
  assert (newline StdPadding = false ∧ (nat_of_ascii StdPadding < 128)%nat) as Hp by (split; [done|vm_compute; lia]).
  induction bytes as [|x|x y|x y z l IH] using list3_ind; cbn [encode]; auto 10.
Qed.

Lemma base64_roundtrip bytes : DecodeString (EncodeToString bytes) = Some bytes.
Proof.
  unfold DecodeString, EncodeToString. rewrite String.list_ascii_of_string_of_list_ascii.
  transitivity (decode (encode bytes)); [f_equal|apply decode_encode].
  induction (encode_chars bytes) as [|c l [Hc _] _ IH]; [done|]. by rewrite filter_cons_True, IH.
Qed.
