(* ===== verification/Messages.v ===== *)
(** * Messages and errors

    The structured messages of [message/message.go] and the configuration errors
    of [config/error.go], as one type of Go error values. *)

From stdpp Require Import base gmap strings list.
From S2P Require Import Prelude.

Record message := Message {
  code : string;
  userMessage : string;
  explanation : string;
  labels : gmap string value;
}.

(** The dynamic types behind Go's [error] interface in this program.  A nil
    error is [None] of [option error]. *)
Inductive error :=
| ErrorString (text : string)
| WrapError (text : string) (cause : error)
| ConfigError (text : string) (optionPath : list string) (cause : option error)
| MsgError (m : message)
| WrappingMsg (m : message) (cause : option error).

(** ** Constructors *)

Definition UserMessage (Code UserMsg Explanation : string) (Args : list value) : message :=
  {| code := Code; userMessage := UserMsg; explanation := Sprintf Explanation Args; labels := ∅ |}.

Definition NewMessage (Code Explanation : string) (Args : list value) : message :=
  UserMessage Code "Internal Error" Explanation Args.

(** [m.Label(name, value)] *)
Definition Label (name : string) (v : value) (m : message) : message :=
  {| code := code m; userMessage := userMessage m; explanation := explanation m;
     labels := <[name := v]> (labels m) |}.

(** [strings.Join] *)
Fixpoint Join (sep : string) (parts : list string) : string :=
  match parts with
  | [] => ""
  | [p] => p
  | p :: rest => (p ++ sep ++ Join sep rest)%string
  end.

(** [err.Error()] *)
Definition Error (e : error) : string :=
  match e with
  | ErrorString t => t
  | WrapError t _ => t
  | ConfigError t path _ =>
      Sprintf "invalid configuration option: %s (%s)" [VString (Join "." path); VString t]
  | MsgError m => explanation m
  | WrappingMsg m _ => explanation m
  end.

(** What [%v] prints for an error that may be nil. *)
Definition error_value (e : option error) : value :=
  VString (match e with Some e => Error e | None => "<nil>" end).

Definition WrapUser (Cause : option error) (Code User Explanation : string) (Args : list value) : error :=
  WrappingMsg (UserMessage Code User (Explanation ++ " (%v)") (Args ++ [error_value Cause])) Cause.

Definition Wrap (Cause : option error) (Code Explanation : string) (Args : list value) : error :=
  WrappingMsg (NewMessage Code (Explanation ++ " (%v)") (Args ++ [error_value Cause])) Cause.

(** [errors.Unwrap] *)
Definition Unwrap (e : error) : option error :=
  match e with
  | WrapError _ c => Some c
  | ConfigError _ _ c => c
  | WrappingMsg _ c => c
  | _ => None
  end.

(** [Label] called on a wrapping message is the promoted method of the
    embedded [Message]: it returns the inner message, no longer the wrapper. *)
Definition error_Label (name : string) (v : value) (e : error) : error :=
  match e with
  | MsgError m => MsgError (Label name v m)
  | WrappingMsg m _ => MsgError (Label name v m)
  | _ => e
  end.

(** [e.Code()], for the errors that are messages. *)
Definition error_Code (e : error) : option string :=
  match e with
  | MsgError m | WrappingMsg m _ => Some (code m)
  | _ => None
  end.

(** ** Configuration errors *)

(** [errors.As(err, &typedErr)] with [typedErr] a [*configError]: the first
    configuration error along the chain of causes. *)
Fixpoint as_configError (e : error) : option (string * list string) :=
  match e with
  | ConfigError t path _ => Some (t, path)
  | WrapError _ c => as_configError c
  | WrappingMsg _ (Some c) => as_configError c
  | _ => None
  end.

Definition newError (option_ msg : string) (args : list value) : error :=
  ConfigError (Sprintf msg args) [option_] None.

Definition wrapWithMessage (err : option error) (option_ msg : string) (args : list value) : option error :=
  match err with
  | None => None
  | Some e =>
      match as_configError e with
      | Some (typedMessage, typedPath) =>
          let m := if decide (msg = "") then typedMessage else Sprintf msg args in
          Some (ConfigError m (option_ :: typedPath) err)
      | None =>
          let m := if decide (msg = "") then Error e
                   else (Sprintf msg args ++ " (" ++ Error e ++ ")")%string in
          Some (ConfigError m [option_] err)
      end
  end.

Definition wrap (err : option error) (option_ : string) : option error :=
  wrapWithMessage err option_ "" [].

(** [if err := f(); err != nil { return wrap(err, option) }], then [k]. *)
Definition check_field (err : option error) (option_ : string) (k : option error) : option error :=
  match err with
  | None => k
  | Some _ => wrap err option_
  end.

Lemma wrap_Some e o : wrap (Some e) o ≠ None.
Proof. unfold wrap, wrapWithMessage. by destruct (as_configError e) as [[]|]. Qed.

Lemma check_field_None err o k : check_field err o k = None ↔ err = None ∧ k = None.
Proof.
  destruct err as [e|]; cbn; [|naive_solver].
  split; [intros H; by apply wrap_Some in H | naive_solver].
Qed.

(** Results of validation that depend on a condition. *)
Lemma wrap_None err o : wrap err o = None ↔ err = None.
Proof. destruct err; [|done]. split; [intros H; by apply wrap_Some in H | done]. Qed.

Lemma guarded_wrap_None (P : Prop) `{!Decision P} e r o :
  (if decide P then Some e else wrap r o) = None ↔ ¬ P ∧ r = None.
Proof. case_decide; rewrite ?wrap_None; naive_solver. Qed.

Lemma guarded_None (P : Prop) `{!Decision P} (r : option error) :
  (if decide P then r else None) = None ↔ (P → r = None).
Proof. case_decide; naive_solver. Qed.

Lemma check_None (P : Prop) `{!Decision P} e k :
  (if decide P then Some (A:=error) e else k) = None ↔ ¬ P ∧ k = None.
Proof. case_decide; naive_solver. Qed.

#[export] Hint Rewrite check_field_None : go.
