(* ===== verification/Metadata.v ===== *)
(** * Connection metadata

    The metadata that travels with a connection through authentication,
    authorization, configuration and the backends ([metadata/connection.go],
    [metadata/channel.go], [metadata/common.go]). *)

From stdpp Require Import base gmap strings list.
From Stdlib Require Import Strings.Byte.
From S2P Require Import Prelude Messages.

(** ** Data *)

Record Value := MkValue { Value_Value : string; Value_Sensitive : bool }.

Record BinaryValue := MkBinaryValue { BinaryValue_Value : list byte; BinaryValue_Sensitive : bool }.

(** [net.TCPAddr]: the address bytes of a [net.IP], the port, and the zone of an
    IPv6 address, which is empty for most. *)
Record RemoteAddress := MkTCPAddr { IP : list byte; Port : Z; Zone : string }.
Abbreviation MkRemoteAddress ip port := (MkTCPAddr ip port "").

(** A Go map field: [None] is the nil map. *)
Record ConnectionMetadata := MkConnectionMetadata {
  RemoteAddr : RemoteAddress;
  ConnectionID : string;
  Metadata_ : option (gmap string Value);
  Environment : option (gmap string Value);
  Files : option (gmap string BinaryValue);
}.

Record ConnectionAuthPendingMetadata := MkAuthPending {
  pending_conn : ConnectionMetadata;
  ClientVersion : string;
  Username : string;
}.

Record ConnectionAuthenticatedMetadata := MkAuthenticated {
  auth_pending : ConnectionAuthPendingMetadata;
  AuthenticatedUsername : string;
}.

Record ChannelMetadata := MkChannelMetadata {
  Connection : ConnectionAuthenticatedMetadata;
  ChannelID : Z;
}.

(** ** State transitions of the metadata *)

Definition StartAuthentication (meta : ConnectionMetadata) (clientVersion username : string)
  : ConnectionAuthPendingMetadata :=
  MkAuthPending meta clientVersion username.

Definition Authenticated (c : ConnectionAuthPendingMetadata) (username : string)
  : ConnectionAuthenticatedMetadata :=
  MkAuthenticated c username.

Definition AuthFailed (c : ConnectionAuthPendingMetadata) : ConnectionAuthenticatedMetadata :=
  MkAuthenticated c "".

Definition Channel (meta : ConnectionAuthenticatedMetadata) (channelID : Z) : ChannelMetadata :=
  MkChannelMetadata meta channelID.

(** ** Getters

    The getters have a pointer receiver: they return a map and may initialise
    the field of the receiver.  The result is the map returned and the receiver
    afterwards; a nil receiver is [None]. *)

Definition GetMetadata (meta : option ConnectionMetadata)
  : option (gmap string Value) * option ConnectionMetadata :=
  match meta with
  | None => (None, None)
  | Some m =>
      match Metadata_ m with
      | None =>
          (Some ∅, Some (MkConnectionMetadata (RemoteAddr m) (ConnectionID m) (Some ∅) (Environment m) (Files m)))
      | Some x => (Some x, Some m)
      end
  end.

Definition GetFiles (meta : option ConnectionMetadata)
  : option (gmap string BinaryValue) * option ConnectionMetadata :=
  match meta with
  | None => (None, None)
  | Some m =>
      match Files m with
      | None =>
          (Some ∅, Some (MkConnectionMetadata (RemoteAddr m) (ConnectionID m) (Metadata_ m) (Environment m) (Some ∅)))
      | Some x => (Some x, Some m)
      end
  end.

Definition GetEnvironment (meta : option ConnectionMetadata)
  : option (gmap string Value) * option ConnectionMetadata :=
  match meta with
  | None => (None, None)
  | Some m =>
      match Environment m with
      | None =>
          (Some ∅, Some (MkConnectionMetadata (RemoteAddr m) (ConnectionID m) (Metadata_ m) (Some ∅) (Files m)))
      | Some x => (Some x, Some m)
      end
  end.

(** ** Merging

    [newMeta] is a copy, so the initialisation its getters perform is lost; each
    getter is called twice, for the test and for the assignment. *)


Definition ConnectionMetadata_Merge (meta newMeta : ConnectionMetadata) : ConnectionMetadata :=
  let '(md, n1) := GetMetadata (Some newMeta) in
  let '(md', n1) := GetMetadata n1 in
  let meta := match md with
              | Some _ => MkConnectionMetadata (RemoteAddr meta) (ConnectionID meta) md' (Environment meta) (Files meta)
              | None => meta
              end in
  let '(fs, n2) := GetFiles n1 in
  let '(fs', n2) := GetFiles n2 in
  let meta := match fs with
              | Some _ => MkConnectionMetadata (RemoteAddr meta) (ConnectionID meta) (Metadata_ meta) (Environment meta) fs'
              | None => meta
              end in
  let '(env, n3) := GetEnvironment n2 in
  let '(env', n3) := GetEnvironment n3 in
  match env with
  | Some _ => MkConnectionMetadata (RemoteAddr meta) (ConnectionID meta) (Metadata_ meta) env' (Files meta)
  | None => meta
  end.

Definition ConnectionAuthenticatedMetadata_Merge (c newMeta : ConnectionAuthenticatedMetadata)
  : ConnectionAuthenticatedMetadata :=
  let p := auth_pending c in
  let conn := ConnectionMetadata_Merge (pending_conn p) (pending_conn (auth_pending newMeta)) in
  MkAuthenticated
    (MkAuthPending conn (ClientVersion p) (Username p))
    (if decide (AuthenticatedUsername newMeta ≠ "") then AuthenticatedUsername newMeta
     else AuthenticatedUsername c).

(** ** Theorems *)

(** What a map field reads as: an absent map is empty. *)
Definition or_empty {A} (m : option (gmap string A)) : gmap string A := default ∅ m.

Lemma ConnectionMetadata_Merge_eq meta newMeta :
  ConnectionMetadata_Merge meta newMeta =
  MkConnectionMetadata (RemoteAddr meta) (ConnectionID meta)
    (Some (or_empty (Metadata_ newMeta)))
    (Some (or_empty (Environment newMeta)))
    (Some (or_empty (Files newMeta))).
Proof. by destruct meta, newMeta as [? ? [?|] [?|] [?|]]. Qed.

(** Merging keeps the identity of the connection and the client's login data,
    takes over a non-empty authenticated username and always replaces the three
    maps: a map that [newMeta] does not set at all erases the current one,
    because the getter it is tested with turns the nil map into an empty one.
    (The comment on [Merge] says that unset maps keep the current result.) *)
Theorem authenticated_merge_spec c newMeta :
  let r := ConnectionAuthenticatedMetadata_Merge c newMeta in
  let new := pending_conn (auth_pending newMeta) in
  let conn := pending_conn (auth_pending r) in
  ConnectionID conn = ConnectionID (pending_conn (auth_pending c)) ∧
  RemoteAddr conn = RemoteAddr (pending_conn (auth_pending c)) ∧
  Username (auth_pending r) = Username (auth_pending c) ∧
  ClientVersion (auth_pending r) = ClientVersion (auth_pending c) ∧
  AuthenticatedUsername r =
    (if decide (AuthenticatedUsername newMeta = "") then AuthenticatedUsername c
     else AuthenticatedUsername newMeta) ∧
  Metadata_ conn = Some (or_empty (Metadata_ new)) ∧
  Environment conn = Some (or_empty (Environment new)) ∧
  Files conn = Some (or_empty (Files new)).
Proof.
  cbn zeta. unfold ConnectionAuthenticatedMetadata_Merge. cbn [auth_pending pending_conn AuthenticatedUsername].
  rewrite ConnectionMetadata_Merge_eq. cbn.
  repeat split. repeat case_decide; naive_solver.
Qed.

(** ** The metadata of the connection in that of a user *)

Definition meta_conn (meta : ConnectionAuthenticatedMetadata) : ConnectionMetadata := pending_conn (auth_pending meta).
Definition set_meta_conn (c : option ConnectionMetadata) (meta : ConnectionAuthenticatedMetadata) : ConnectionAuthenticatedMetadata :=
  match c with
  | Some c => MkAuthenticated (MkAuthPending c (ClientVersion (auth_pending meta)) (Username (auth_pending meta)))
                (AuthenticatedUsername meta)
  | None => meta
  end.

(** The texts of a map that may not be set. *)
Definition value_texts (m : option (gmap string Value)) : gmap string string := Value_Value <$> default ∅ m.
