(* ===== verification/MetadataJSON.v ===== *)
(** * The JSON form of the connection metadata

    Between authentication and the backends the authenticated metadata travels
    as a JSON document in [ssh.Permissions.Extensions].  This file models that
    document: the text form of [RemoteAddress] ([MarshalText], [UnmarshalText])
    and the fields, names and [omitempty] flags of the structs in
    [metadata/connection.go] and [metadata/common.go].

    A document is a tree: the quoting of strings and the order of the members
    of an object are those of [encoding/json] and are not modelled.  What is
    modelled of its string encoder is that bytes which are not valid UTF-8 are
    replaced, of its decoder that the names of members are matched without
    regard to case.  [net.IP]'s
    text form is the pair [IP_String], [ParseIP]. *)

From stdpp Require Import base gmap strings list pretty.
From Stdlib Require Import Ascii Strings.Byte.
From S2P Require Import Prelude Base64 Messages Metadata.

(** ** UTF-8 *)

Definition byte_code (c : Ascii.ascii) : N := Ascii.N_of_ascii c.
Definition between (lo hi : N) (c : Ascii.ascii) : bool := (N.leb lo (byte_code c) && N.leb (byte_code c) hi)%bool.
Definition continuation (c : Ascii.ascii) : bool := between 128 191 c.

(** The well-formed multi-byte sequences of [unicode/utf8]. *)
Definition two_bytes (a b : Ascii.ascii) : bool := (between 194 223 a && continuation b)%bool.

Definition three_bytes (a b c : Ascii.ascii) : bool :=
  (((between 224 224 a && between 160 191 b)
    || ((between 225 236 a || between 238 239 a) && continuation b)
    || (between 237 237 a && between 128 159 b)) && continuation c)%bool.

Definition four_bytes (a b c d : Ascii.ascii) : bool :=
  (((between 240 240 a && between 144 191 b)
    || (between 241 243 a && continuation b)
    || (between 244 244 a && between 128 143 b)) && continuation c && continuation d)%bool.

Definition bad_rune (rest : string) : string :=
  String (Ascii.ascii_of_N 239) (String (Ascii.ascii_of_N 191) (String (Ascii.ascii_of_N 189) rest)).

(** What [json.Marshal] makes of a string: every byte that does not belong to a
    well-formed sequence becomes the replacement character U+FFFD. *)
Fixpoint coerce_utf8 (s : string) : string :=
  match s with
  | EmptyString => EmptyString
  | String a s1 =>
      if N.ltb (byte_code a) 128 then String a (coerce_utf8 s1)
      else
        match s1 with
        | EmptyString => bad_rune EmptyString
        | String b s2 =>
            if two_bytes a b then String a (String b (coerce_utf8 s2))
            else
              match s2 with
              | EmptyString => bad_rune (coerce_utf8 s1)
              | String c s3 =>
                  if three_bytes a b c then String a (String b (String c (coerce_utf8 s3)))
                  else
                    match s3 with
                    | EmptyString => bad_rune (coerce_utf8 s1)
                    | String d s4 =>
                        if four_bytes a b c d
                        then String a (String b (String c (String d (coerce_utf8 s4))))
                        else bad_rune (coerce_utf8 s1)
                    end
              end
        end
  end.

Definition valid_utf8 (s : string) : Prop := coerce_utf8 s = s.

(** ** Numbers and separators *)

(** [strconv.Itoa] *)
Definition Itoa (n : Z) : string := pretty n.

Definition digit (c : Ascii.ascii) : option N :=
  if between 48 57 c then Some (byte_code c - 48)%N else None.

Fixpoint digits (acc : N) (s : string) : option N :=
  match s with
  | EmptyString => Some acc
  | String c s' =>
      match digit c with
      | Some d => digits (10 * acc + d) s'
      | None => None
      end
  end.

(** [strconv.ParseUint] in base ten and 64 bits: the value, and the reason why
    there is none.  The first character that is no digit ends it, and so does
    the first digit that makes the number too large. *)
Inductive NumError := ErrSyntax | ErrRange.

Fixpoint ParseUint (acc : N) (s : string) : N * option NumError :=
  match s with
  | EmptyString => (acc, None)
  | String c s' =>
      match digit c with
      | None => (0%N, Some ErrSyntax)
      | Some d =>
          if decide (10 * acc + d < 2 ^ 64)%N then ParseUint (10 * acc + d) s'
          else ((2 ^ 64 - 1)%N, Some ErrRange)
      end
  end.

(** [strconv.Atoi] on a 64-bit [int]: the number, and whether there was an
    error.  A number out of range is returned as the nearest one, next to the
    error. *)
Definition Atoi (s : string) : Z * bool :=
  let number (negative : bool) (s : string) : Z * bool :=
    match s with
    | EmptyString => (0%Z, true)
    | _ => match ParseUint 0 s with
           | (_, Some ErrSyntax) => (0%Z, true)
           | (n, _) =>
               if negative
               then if decide (2 ^ 63 < Z.of_N n)%Z then ((- 2 ^ 63)%Z, true) else ((- Z.of_N n)%Z, false)
               else if decide (2 ^ 63 ≤ Z.of_N n)%Z then ((2 ^ 63 - 1)%Z, true) else (Z.of_N n, false)
           end
    end in
  match s with
  | String "-"%char s' => number true s'
  | String "+"%char s' => number false s'
  | _ => number false s
  end.

Example Atoi_demo :
  (Atoi "-12", Atoi "x1", Atoi "99999999999999999999x") = ((-12)%Z, false, (0%Z, true), ((2 ^ 63 - 1)%Z, true)).
Proof. reflexivity. Qed.

(** [strings.Split(s, ":")] *)
Fixpoint Split (s : string) : list string :=
  match s with
  | EmptyString => [EmptyString]
  | String c s' =>
      if decide (c = ":"%char) then EmptyString :: Split s'
      else match Split s' with
           | p :: ps => String c p :: ps
           | [] => [String c EmptyString]
           end
  end.

(** [ip[1 : len(ip)-1]]: [None] when the bounds are out of range. *)
Fixpoint drop_last (s : string) : string :=
  match s with
  | EmptyString => EmptyString
  | String c EmptyString => EmptyString
  | String c s' => String c (drop_last s')
  end.

Definition strip_brackets (ip : string) : option string :=
  match ip with
  | String _ (String _ _ as rest) => Some (drop_last rest)
  | _ => None
  end.

(** ** RemoteAddress *)

Definition index_out_of_range : string := "runtime error: index out of range".
Definition slice_out_of_range : string := "runtime error: slice bounds out of range".

Section address.
Context (IP_String : list byte → string) (ParseIP : string → list byte).

Fixpoint has_colon (s : string) : bool :=
  match s with
  | EmptyString => false
  | String c s' => if decide (c = ":"%char) then true else has_colon s'
  end.

(** [net.JoinHostPort] *)
Definition JoinHostPort (host port : string) : string :=
  if has_colon host then ("[" ++ host ++ "]:" ++ port)%string else (host ++ ":" ++ port)%string.

Definition MarshalText (r : RemoteAddress) : string :=
  JoinHostPort (IP_String (IP r)) (Itoa (Port r)).

(** The address read and the error; an empty host is indexed and panics. *)
Definition UnmarshalText (input : string) : outcome (option RemoteAddress * option error) :=
  let parts := Split input in
  if decide (length parts < 2) then
    Done (None, Some (ErrorString ("invalid IP:port combination: " ++ input)))
  else
    match Atoi (default "" (last parts)) with
    | (port, true) => Done (None, Some (ErrorString (Sprintf "invalid port number: %d" [VInt port])))
    | (port, false) =>
        if decide (port < 0 ∨ port > 65535)%Z then
          Done (None, Some (ErrorString (Sprintf "invalid port number: %d" [VInt port])))
        else
          let ip := Join ":" (take (length parts - 1) parts) in
          match ip with
          | EmptyString => Panic index_out_of_range
          | String c _ =>
              if decide (c = "["%char) then
                match strip_brackets ip with
                | Some ip' => Done (Some (MkRemoteAddress (ParseIP ip') port), None)
                | None => Panic slice_out_of_range
                end
              else Done (Some (MkRemoteAddress (ParseIP ip) port), None)
          end
    end.

(** ** The document *)

Inductive json :=
| JNull
| JBool (b : bool)
| JNumber (text : string)
| JString (s : string)
| JArray (elements : list json)
| JObject (fields : list (string * json)).

(** Names are compared after folding the case: capital letters, and the two
    letters of Unicode that fold to an ASCII letter (the Kelvin sign and the
    long s). *)
Definition lower (c : Ascii.ascii) : Ascii.ascii :=
  if between 65 90 c then Ascii.ascii_of_N (byte_code c + 32) else c.

(** [strings.ToLower] on ASCII text *)
Fixpoint ToLower (s : string) : string :=
  match s with
  | EmptyString => EmptyString
  | String c s' => String (lower c) (ToLower s')
  end.

Fixpoint foldName (s : string) : string :=
  match s with
  | EmptyString => EmptyString
  | String a s1 =>
      match s1 with
      | String b s2 =>
          if (between 197 197 a && between 191 191 b)%bool then String "s" (foldName s2)
          else
            match s2 with
            | String c s3 =>
                if (between 226 226 a && between 132 132 b && between 170 170 c)%bool
                then String "k" (foldName s3)
                else String (lower a) (foldName s1)
            | EmptyString => String (lower a) (foldName s1)
            end
      | EmptyString => String (lower a) EmptyString
      end
  end.

Definition same_name (k name : string) : bool := String.eqb (foldName k) (foldName name).
#[global] Arguments same_name : simpl never.

(** The last member of that name counts. *)
Fixpoint member (name : string) (fields : list (string * json)) : option json :=
  match fields with
  | [] => None
  | (k, j) :: rest =>
      match member name rest with
      | Some x => Some x
      | None => if same_name k name then Some j else None
      end
  end.

Definition Value_Marshal (v : Value) : json :=
  JObject [("value", JString (coerce_utf8 (Value_Value v))); ("sensitive", JBool (Value_Sensitive v))].

Definition BinaryValue_Marshal (v : BinaryValue) : json :=
  JObject [("value", JString (EncodeToString (BinaryValue_Value v))); ("sensitive", JBool (BinaryValue_Sensitive v))].

(** A map field with [omitempty]: an empty map writes no member. *)
Definition map_Marshal {A} (name : string) (f : A → json) (m : option (gmap string A)) : list (string * json) :=
  match m with
  | None => []
  | Some m =>
      if decide (m = ∅) then []
      else [(name, JObject ((λ '(k, v), (coerce_utf8 k, f v)) <$> map_to_list m))]
  end.

(** The members the structs write: the fields of an embedded struct are those of
    the struct that embeds it. *)
Definition pending_members (p : ConnectionAuthPendingMetadata) : list (string * json) :=
  let conn := pending_conn p in
  [("remoteAddress", JString (coerce_utf8 (MarshalText (RemoteAddr conn))));
   ("connectionId", JString (coerce_utf8 (ConnectionID conn)))]
  ++ map_Marshal "metadata" Value_Marshal (Metadata_ conn)
  ++ map_Marshal "environment" Value_Marshal (Environment conn)
  ++ map_Marshal "files" BinaryValue_Marshal (Files conn)
  ++ [("clientVersion", JString (coerce_utf8 (ClientVersion p)));
      ("username", JString (coerce_utf8 (Username p)))].

Definition authenticated_members (c : ConnectionAuthenticatedMetadata) : list (string * json) :=
  pending_members (auth_pending c)
  ++ (if decide (AuthenticatedUsername c = "") then []
      else [("authenticatedUsername", JString (coerce_utf8 (AuthenticatedUsername c)))]).

Definition Marshal (c : ConnectionAuthenticatedMetadata) : json := JObject (authenticated_members c).

(** Decoding: an absent member keeps the zero value and so does [null], a
    member of the wrong type is an error. *)
Definition type_error : error := ErrorString "json: cannot unmarshal value into Go struct field".

Definition read_string (j : option json) : string + error :=
  match j with
  | None | Some JNull => inl ""
  | Some (JString s) => inl s
  | Some _ => inr type_error
  end.

Definition read_bool (j : option json) : bool + error :=
  match j with
  | None | Some JNull => inl false
  | Some (JBool b) => inl b
  | Some _ => inr type_error
  end.

Definition read_bytes (j : option json) : list byte + error :=
  match j with
  | None | Some JNull => inl []
  | Some (JString s) =>
      match DecodeString s with
      | Some b => inl b
      | None => inr (ErrorString "illegal base64 data")
      end
  | Some _ => inr type_error
  end.

Definition sum_bind {A B} (f : A → B + error) (x : A + error) : B + error :=
  match x with inl a => f a | inr e => inr e end.

Definition Value_Unmarshal (j : json) : Value + error :=
  match j with
  | JObject fs =>
      sum_bind (λ v, sum_bind (λ s, inl (MkValue v s)) (read_bool (member "sensitive" fs)))
        (read_string (member "value" fs))
  | JNull => inl (MkValue "" false)
  | _ => inr type_error
  end.

Definition BinaryValue_Unmarshal (j : json) : BinaryValue + error :=
  match j with
  | JObject fs =>
      sum_bind (λ v, sum_bind (λ s, inl (MkBinaryValue v s)) (read_bool (member "sensitive" fs)))
        (read_bytes (member "value" fs))
  | JNull => inl (MkBinaryValue [] false)
  | _ => inr type_error
  end.

Fixpoint members_Unmarshal {A} (f : json → A + error) (l : list (string * json)) : list (string * A) + error :=
  match l with
  | [] => inl []
  | (k, j) :: rest =>
      sum_bind (λ v, sum_bind (λ vs, inl ((k, v) :: vs)) (members_Unmarshal f rest)) (f j)
  end.

Definition map_Unmarshal {A} (f : json → A + error) (j : option json) : option (gmap string A) + error :=
  match j with
  | None | Some JNull => inl None
  | Some (JObject fs) =>
      sum_bind (λ vs, inl (Some (list_to_map (reverse vs)))) (members_Unmarshal f fs)
  | Some _ => inr type_error
  end.

Definition address_Unmarshal (j : option json) : outcome (RemoteAddress + error) :=
  match j with
  | None => Done (inl (MkRemoteAddress [] 0))
  | Some (JString s) =>
      match UnmarshalText s with
      | Done (Some a, None) => Done (inl a)
      | Done (_, Some e) => Done (inr e)
      | Done (None, None) => Done (inl (MkRemoteAddress [] 0))
      | Panic w => Panic w
      | Blocked w => Blocked w
      end
  | Some _ => Done (inr type_error)
  end.

Definition pending_Unmarshal (fs : list (string * json)) : outcome (ConnectionAuthPendingMetadata + error) :=
  match address_Unmarshal (member "remoteAddress" fs) with
  | Panic w => Panic w
  | Blocked w => Blocked w
  | Done addr =>
      Done
        (sum_bind (λ addr,
         sum_bind (λ id,
         sum_bind (λ md,
         sum_bind (λ env,
         sum_bind (λ files,
         sum_bind (λ version,
         sum_bind (λ user,
           inl (MkAuthPending (MkConnectionMetadata addr id md env files) version user))
           (read_string (member "username" fs)))
           (read_string (member "clientVersion" fs)))
           (map_Unmarshal BinaryValue_Unmarshal (member "files" fs)))
           (map_Unmarshal Value_Unmarshal (member "environment" fs)))
           (map_Unmarshal Value_Unmarshal (member "metadata" fs)))
           (read_string (member "connectionId" fs)))
           addr)
  end.

(** Reading one more field after an embedded struct. *)
Definition and_field {A B C} (r : outcome (A + error)) (field : B + error) (f : A → B → C) : outcome (C + error) :=
  match r with
  | Panic w => Panic w
  | Blocked w => Blocked w
  | Done r => Done (sum_bind (λ a, sum_bind (λ b, inl (f a b)) field) r)
  end.

Definition authenticated_Unmarshal (fs : list (string * json)) : outcome (ConnectionAuthenticatedMetadata + error) :=
  and_field (pending_Unmarshal fs) (read_string (member "authenticatedUsername" fs)) MkAuthenticated.

(** [json.Unmarshal] into a struct: [null] leaves it as it is. *)
Definition struct_Unmarshal {A} (read : list (string * json) → outcome (A + error)) (j : json) : outcome (A + error) :=
  match j with
  | JObject fs => read fs
  | JNull => read []
  | _ => Done (inr type_error)
  end.

Definition Unmarshal : json → outcome (ConnectionAuthenticatedMetadata + error) :=
  struct_Unmarshal authenticated_Unmarshal.
End address.

(** ** Lemmas: the text form of an address *)

Lemma Split_cons s : ∃ p ps, Split s = p :: ps.
Proof.
  destruct s as [|c s]; [by eexists _, _|]. cbn. case_decide; [by eexists _, _|].
  destruct (Split s); by eexists _, _.
Qed.

Lemma Split_app a b : Split (a ++ String ":" b) = Split a ++ Split b.
Proof.
  induction a as [|c a IH]; [done|].
  change (String c a +:+ String ":" b)%string with (String c (a +:+ String ":" b)%string).
  cbn [Split]. rewrite IH. case_decide; [done|]. destruct (Split_cons a) as (p & ps & ->). done.
Qed.

Lemma Split_no_colon s : has_colon s = false → Split s = [s].
Proof.
  induction s as [|c s IH]; [done|]. cbn. case_decide; [done|]. intros E. by rewrite IH.
Qed.

Lemma Join_Split s : Join ":" (Split s) = s.
Proof.
  induction s as [|c s IH]; [done|]. cbn. destruct (Split_cons s) as (p & ps & E).
  rewrite E in IH |- *. case_decide as Hc.
  - subst c. change (Join ":" ("" :: p :: ps)) with (String ":" (Join ":" (p :: ps))). by rewrite IH.
  - transitivity (String c (Join ":" (p :: ps))); [by destruct ps | by rewrite IH].
Qed.

Lemma pretty_N_char_digit d : (d < 10)%N → digit (pretty_N_char d) = Some d.
Proof.
  intros H. assert (d ∈ [0;1;2;3;4;5;6;7;8;9])%N as Hd by (rewrite !elem_of_cons; lia).
  repeat (apply elem_of_cons in Hd as [->|Hd]; [done|]). by apply not_elem_of_nil in Hd.
Qed.

Lemma digits_pretty x s : digits 0 (pretty_N_go x s) = digits x s.
Proof.
  revert s. induction (N.lt_wf_0 x) as [x _ IH]. intros s.
  destruct (decide (x = 0)%N) as [->|Hx]; [by rewrite pretty_N_go_0|].
  rewrite pretty_N_go_step by lia. rewrite IH by (apply N.div_lt; lia).
  cbn. rewrite pretty_N_char_digit by (apply N.mod_lt; lia).
  f_equal. pose proof (N.div_mod x 10). lia.
Qed.

Lemma digits_Itoa n : (0 ≤ n)%Z → digits 0 (Itoa n) = Some (Z.to_N n).
Proof.
  intros H. destruct n as [|p|p]; [done| |lia].
  change (Itoa (Z.pos p)) with (pretty_N_go (N.pos p) ""). by rewrite digits_pretty.
Qed.

Lemma digits_chars acc s n : digits acc s = Some n → ∀ c s', s = String c s' → digit c ≠ None.
Proof. intros H c s' ->. cbn in H. by destruct (digit c). Qed.

Lemma digits_no_colon acc s n : digits acc s = Some n → has_colon s = false.
Proof.
  revert acc. induction s as [|c s IH]; intros acc; [done|]. cbn.
  destruct (digit c) eqn:E; [|done]. intros H. apply IH in H. case_decide; [by subst c|done].
Qed.

Lemma Itoa_nonempty n : (0 ≤ n)%Z → Itoa n ≠ "".
Proof.
  intros H E. pose proof (digits_Itoa n H) as Hd. rewrite E in Hd. cbn in Hd.
  assert (n = 0)%Z as -> by (injection Hd; lia). done.
Qed.

Lemma digits_grow acc s n : digits acc s = Some n → (acc ≤ n)%N.
Proof.
  revert acc. induction s as [|c s IH]; intros acc; [by intros [= ->]|]. cbn.
  destruct (digit c) as [d|]; [|done]. intros H%IH. lia.
Qed.

Lemma ParseUint_digits acc s n : digits acc s = Some n → (n < 2 ^ 64)%N → ParseUint acc s = (n, None).
Proof.
  revert acc. induction s as [|c s IH]; intros acc; [by intros [= ->]|]. cbn [digits ParseUint].
  destruct (digit c) as [d|]; [|done]. intros H Hn. pose proof (digits_grow _ _ _ H).
  rewrite decide_True by lia. by apply IH.
Qed.

(** Reading back a printed number. *)
Lemma Atoi_Itoa n : (0 ≤ n < 2 ^ 63)%Z → Atoi (Itoa n) = (n, false).
Proof.
  intros H. pose proof (digits_Itoa n ltac:(lia)) as Hd.
  pose proof (Itoa_nonempty n ltac:(lia)) as Hne.
  destruct (Itoa n) as [|c s] eqn:E; [done|].
  pose proof (digits_chars _ _ _ Hd c s eq_refl) as Hc. unfold Atoi.
  rewrite (ParseUint_digits 0 (String c s) (Z.to_N n)) by (done || lia).
  rewrite Z2N.id by lia. rewrite !decide_False by lia.
  destruct (decide (c = "-"%char)) as [->|N1]; [done|].
  destruct (decide (c = "+"%char)) as [->|N2]; [done|].
  destruct c as [[] [] [] [] [] [] [] []]; done.
Qed.

Section roundtrip.
Context (IP_String : list byte → string) (ParseIP : string → list byte).

(** Reading [host:port]: the host is everything before the last colon. *)
Lemma UnmarshalText_parts host port :
  (0 ≤ port ≤ 65535)%Z →
  UnmarshalText ParseIP (host ++ String ":" (Itoa port)) =
  match host with
  | EmptyString => Panic index_out_of_range
  | String c _ =>
      if decide (c = "["%char) then
        match strip_brackets host with
        | Some ip' => Done (Some (MkRemoteAddress (ParseIP ip') port), None)
        | None => Panic slice_out_of_range
        end
      else Done (Some (MkRemoteAddress (ParseIP host) port), None)
  end.
Proof.
  intros Hp. unfold UnmarshalText. rewrite Split_app.
  rewrite (Split_no_colon (Itoa port)) by (eapply digits_no_colon, digits_Itoa; lia).
  destruct (Split_cons host) as (p & ps & E).
  rewrite length_app, decide_False by (rewrite E; cbn; lia).
  rewrite last_snoc. cbn [from_option id]. rewrite Atoi_Itoa by lia.
  rewrite decide_False by lia. cbn [length].
  rewrite Nat.add_sub, take_app_length, Join_Split. done.
Qed.

Lemma drop_last_app s c : drop_last (s ++ String c "") = s.
Proof.
  induction s as [|a s IH]; [done|].
  change (String a s +:+ String c "")%string with (String a (s +:+ String c "")%string).
  transitivity (String a (drop_last (s +:+ String c "")%string)); [by destruct s|by rewrite IH].
Qed.

(** An address whose text is not empty and is not bracketed is read back. *)
Lemma UnmarshalText_MarshalText r c host :
  IP_String (IP r) = String c host → c ≠ "["%char → (0 ≤ Port r ≤ 65535)%Z →
  UnmarshalText ParseIP (MarshalText IP_String r)
  = Done (Some (MkRemoteAddress (ParseIP (IP_String (IP r))) (Port r)), None).
Proof.
  intros E Hc Hp. unfold MarshalText, JoinHostPort.
  destruct (has_colon (IP_String (IP r))) eqn:Hcolon.
  - transitivity (UnmarshalText ParseIP
      (("[" +:+ (IP_String (IP r) +:+ "]")) +:+ String ":" (Itoa (Port r)))%string).
    { f_equal. change ("]:" ++ Itoa (Port r))%string with ("]" +:+ String ":" (Itoa (Port r)))%string.
      by rewrite !string_app_assoc. }
    rewrite UnmarshalText_parts by done.
    assert (strip_brackets ("[" +:+ (IP_String (IP r) +:+ "]"))%string = Some (IP_String (IP r))) as ->; [|done].
    rewrite E. exact (f_equal Some (drop_last_app (String c host) "]"%char)).
  - change (":" ++ Itoa (Port r))%string with (String ":" (Itoa (Port r))).
    rewrite UnmarshalText_parts by done. rewrite E. by rewrite decide_False.
Qed.

(** ** Lemmas: maps and documents *)

(** Decides which members a name stands for. *)
Ltac names :=
  repeat match goal with
  | |- context [same_name ?k ?name] =>
      let b := eval vm_compute in (same_name k name) in
      lazymatch b with true => idtac | false => idtac end;
      change (same_name k name) with b
  end; cbv iota.

Lemma members_roundtrip {A} (f : json → A + error) (g : A → json) (l : list (string * A)) :
  (∀ k v, (k, v) ∈ l → valid_utf8 k ∧ f (g v) = inl v) →
  members_Unmarshal f ((λ '(k, v), (coerce_utf8 k, g v)) <$> l) = inl l.
Proof.
  induction l as [|[k v] l IH]; intros H; [done|]. cbn.
  destruct (H k v ltac:(left)) as [Hk Hv]. rewrite Hv. cbn.
  rewrite IH by (intros ???; apply H; by right). cbn. by rewrite Hk.
Qed.

(** The maps a document can carry: their strings are valid UTF-8. *)
Definition utf8_values (m : option (gmap string Value)) : Prop :=
  ∀ k v, default ∅ m !! k = Some v → valid_utf8 k ∧ valid_utf8 (Value_Value v).

Definition utf8_files (m : option (gmap string BinaryValue)) : Prop :=
  ∀ k v, default ∅ m !! k = Some v → valid_utf8 k.

(** What is left of a map after [omitempty]: an empty one is not set. *)
Definition omit_empty {A} (m : option (gmap string A)) : option (gmap string A) :=
  match m with
  | Some m => if decide (m = ∅) then None else Some m
  | None => None
  end.

(** A map written under its name is read back, unless it was left out. *)
Lemma map_roundtrip {A} (f : json → A + error) (g : A → json) (m : option (gmap string A)) name :
  (∀ k v, default ∅ m !! k = Some v → valid_utf8 k ∧ f (g v) = inl v) →
  (map_Marshal name g m = [] ∧ omit_empty m = None) ∨
  (∃ d, map_Marshal name g m = [(name, d)] ∧ map_Unmarshal f (Some d) = inl (omit_empty m)).
Proof.
  intros H. destruct m as [m|]; [|by left]. cbn. destruct (decide (m = ∅)); [by left|].
  right. eexists. split; [done|]. cbn [map_Unmarshal].
  rewrite members_roundtrip by (intros k v Hin; apply H, elem_of_map_to_list; done).
  cbn. do 3 f_equal. transitivity (list_to_map (map_to_list m) : gmap string A).
  - symmetry. apply list_to_map_proper; [apply NoDup_fst_map_to_list|].
    symmetry. apply reverse_Permutation.
  - apply list_to_map_to_list.
Qed.

Lemma Value_roundtrip v : valid_utf8 (Value_Value v) → Value_Unmarshal (Value_Marshal v) = inl v.
Proof. intros H. destruct v. cbn -[same_name] in *. names. cbn. by rewrite H. Qed.

Lemma BinaryValue_roundtrip v : BinaryValue_Unmarshal (BinaryValue_Marshal v) = inl v.
Proof.
  destruct v as [l b]. pose proof (base64_roundtrip l) as E.
  unfold BinaryValue_Marshal. cbn [BinaryValue_Value]. generalize dependent (EncodeToString l). intros s E.
  cbn -[DecodeString same_name]. names. cbn -[DecodeString same_name]. by rewrite E.
Qed.

(** The strings of the metadata are valid UTF-8. *)
Record utf8_pending (p : ConnectionAuthPendingMetadata) : Prop := {
  utf8_id : valid_utf8 (ConnectionID (pending_conn p));
  utf8_md : utf8_values (Metadata_ (pending_conn p));
  utf8_env : utf8_values (Environment (pending_conn p));
  utf8_fs : utf8_files (Files (pending_conn p));
  utf8_version : valid_utf8 (ClientVersion p);
  utf8_user : valid_utf8 (Username p);
}.

Record utf8_metadata (c : ConnectionAuthenticatedMetadata) : Prop := {
  utf8_p : utf8_pending (auth_pending c);
  utf8_auser : valid_utf8 (AuthenticatedUsername c);
}.

(** The text of the address can be read back. *)
Record readable_address (r : RemoteAddress) : Prop := {
  addr_utf8 : valid_utf8 (MarshalText IP_String r);
  addr_first : ∃ c host, IP_String (IP r) = String c host ∧ c ≠ "["%char;
  addr_port : (0 ≤ Port r ≤ 65535)%Z;
}.

(** The metadata that arrives: the address in the form [ParseIP] returns, and no
    empty maps. *)
Definition carried_pending (p : ConnectionAuthPendingMetadata) : ConnectionAuthPendingMetadata :=
  let conn := pending_conn p in
  MkAuthPending
    (MkConnectionMetadata
       (MkRemoteAddress (ParseIP (IP_String (IP (RemoteAddr conn)))) (Port (RemoteAddr conn)))
       (ConnectionID conn) (omit_empty (Metadata_ conn)) (omit_empty (Environment conn))
       (omit_empty (Files conn)))
    (ClientVersion p) (Username p).

Definition carried (c : ConnectionAuthenticatedMetadata) : ConnectionAuthenticatedMetadata :=
  MkAuthenticated (carried_pending (auth_pending c)) (AuthenticatedUsername c).

Lemma member_app name fs gs :
  member name (fs ++ gs) = match member name gs with Some x => Some x | None => member name fs end.
Proof.
  induction fs as [|[k j] fs IH]; [cbn; by destruct (member name gs)|].
  cbn [app member]. rewrite IH. by destruct (member name gs).
Qed.

(** Members under names that the structs do not have. *)
Definition pending_names : list string :=
  ["remoteAddress"; "connectionId"; "metadata"; "environment"; "files"; "clientVersion"; "username"].
Definition foreign (names : list string) (fs : list (string * json)) : Prop :=
  Forall (λ name, member name fs = None) names.

(** The metadata is read back from among other members. *)
Lemma pending_roundtrip p extra :
  utf8_pending p → readable_address (RemoteAddr (pending_conn p)) → foreign pending_names extra →
  pending_Unmarshal ParseIP (pending_members IP_String p ++ extra) = Done (inl (carried_pending p)).
Proof.
  intros [Hid Hmd Henv Hfs Hver Huser] [Ha (ch & host & Ehost & Hch) Hp] Hex.
  repeat (apply Forall_cons in Hex as [? Hex]). unfold pending_Unmarshal. rewrite !member_app.
  repeat match goal with E : member _ extra = None |- _ => rewrite E; clear E end.
  unfold carried_pending. destruct p as [[addr id md env fs] version user].
  cbn [pending_conn RemoteAddr ConnectionID Metadata_ Environment Files ClientVersion Username] in *.
  unfold pending_members. cbn [pending_conn RemoteAddr ConnectionID Metadata_ Environment Files ClientVersion Username].
  pose proof (UnmarshalText_MarshalText addr ch host Ehost Hch Hp) as Haddr.
  rewrite Ha, Hid, Hver, Huser.
  generalize dependent (MarshalText IP_String addr). intros text _ Haddr.
  destruct (map_roundtrip Value_Unmarshal Value_Marshal md "metadata") as [[-> ->]|(dm & -> & Em)];
    [intros k v E; destruct (Hmd k v E); auto using Value_roundtrip|..];
  (destruct (map_roundtrip Value_Unmarshal Value_Marshal env "environment") as [[-> ->]|(de & -> & Ee)];
    [intros k v E; destruct (Henv k v E); auto using Value_roundtrip|..]);
  (destruct (map_roundtrip BinaryValue_Unmarshal BinaryValue_Marshal fs "files") as [[-> ->]|(df & -> & Ef)];
    [intros k v E; pose proof (Hfs k v E); auto using BinaryValue_roundtrip|..]);
  (cbn -[map_Unmarshal UnmarshalText same_name]; names; cbn -[map_Unmarshal UnmarshalText];
   rewrite Haddr; cbn -[map_Unmarshal UnmarshalText]; rewrite ?Em, ?Ee, ?Ef; done).
Qed.

Lemma pending_members_foreign name p :
  Forall (λ n, same_name n name = false) pending_names → member name (pending_members IP_String p) = None.
Proof.
  intros H. repeat (apply Forall_cons in H as [? H]). unfold pending_members. rewrite !member_app. cbn.
  repeat match goal with E : same_name _ _ = false |- _ => rewrite E end.
  assert (∀ (A : Type) (f : A → json) n m, same_name n name = false → member name (map_Marshal n f m) = None) as Hm.
  { intros A f n [m|] E; [|done]. cbn. case_decide; [done|]. cbn. by rewrite E. }
  rewrite !Hm by assumption. reflexivity.
Qed.

Lemma authenticated_roundtrip c extra :
  utf8_metadata c → readable_address (RemoteAddr (pending_conn (auth_pending c))) →
  foreign ("authenticatedUsername" :: pending_names) extra →
  authenticated_Unmarshal ParseIP (authenticated_members IP_String c ++ extra) = Done (inl (carried c)).
Proof.
  intros [Hp Hu] Ha [Hau Hex]%Forall_cons. unfold authenticated_Unmarshal, authenticated_members.
  rewrite <- (assoc_L app). rewrite pending_roundtrip; [|done..|].
  - cbn [and_field sum_bind]. rewrite !member_app, Hau, pending_members_foreign by (by repeat constructor).
    unfold carried. case_decide as E; cbn; [by rewrite E | by rewrite Hu].
  - unfold foreign, pending_names in *. rewrite !Forall_cons in *.
    destruct_and!. repeat split; try apply Forall_nil_2; rewrite member_app;
    repeat match goal with E : member _ extra = None |- _ => rewrite E; clear E end; by case_decide.
Qed.

Lemma Unmarshal_Marshal c :
  utf8_metadata c → readable_address (RemoteAddr (pending_conn (auth_pending c))) →
  Unmarshal ParseIP (Marshal IP_String c) = Done (inl (carried c)).
Proof.
  intros Hc Ha. unfold Unmarshal, Marshal. cbn [struct_Unmarshal].
  rewrite <- (app_nil_r (authenticated_members IP_String c)). apply authenticated_roundtrip; [done..|].
  by repeat constructor.
Qed.

End roundtrip.

(** ** Theorems *)

(** [net.IP.To16]: an IPv4 address in its 16-byte form. *)
Definition To16 (ip : list byte) : list byte :=
  if decide (length ip = 4) then (replicate 10 "000" ++ ["255"; "255"] ++ ip)%byte else ip.

(** What is documented of [net.IP.String] and [net.ParseIP] for an IPv4 or IPv6
    address: the text is of hexadecimal digits, dots and colons and is not
    empty, and reading it gives the 16-byte form of the address. *)
Definition address_char (c : Ascii.ascii) : Prop :=
  (between 48 57 c || between 97 102 c || between 46 46 c || between 58 58 c)%bool = true.
Record ip_text (IP_String : list byte → string) (ParseIP : string → list byte) (ip : list byte) : Prop := {
  ip_text_chars : Forall address_char (String.list_ascii_of_string (IP_String ip));
  ip_text_some : IP_String ip ≠ "";
  ip_text_read : ParseIP (IP_String ip) = To16 ip;
}.

Lemma address_char_ascii c : address_char c → (byte_code c < 128)%N ∧ c ≠ "["%char.
Proof.
  unfold address_char, between. intros H. split.
  - repeat match type of H with
    | (_ || _)%bool = true => apply orb_true_iff in H as [H|H]
    | (_ && _)%bool = true => apply andb_true_iff in H as [H1%N.leb_le H2%N.leb_le]
    end; lia.
  - by intros ->.
Qed.

Lemma coerce_prefix s t :
  Forall (λ c, (byte_code c < 128)%N) (String.list_ascii_of_string s) →
  coerce_utf8 (s +:+ t)%string = (s +:+ coerce_utf8 t)%string.
Proof.
  induction s as [|c s IH]; [done|]. cbn [String.list_ascii_of_string]. intros [Hc Hs]%Forall_cons.
  change (String c s +:+ t)%string with (String c (s +:+ t)). cbn [coerce_utf8].
  rewrite (proj2 (N.ltb_lt _ _) Hc), IH by done. done.
Qed.

Lemma digits_ascii acc s n :
  digits acc s = Some n → Forall (λ c, (byte_code c < 128)%N) (String.list_ascii_of_string s).
Proof.
  revert acc. induction s as [|c s IH]; intros acc H; [constructor|]. cbn in *.
  unfold digit in H. destruct (between 48 57 c) eqn:E; [|done]. constructor; [|by eapply IH].
  unfold between in E. apply andb_true_iff in E as [_ E%N.leb_le]. lia.
Qed.

Lemma ip_text_readable IP_String ParseIP r :
  ip_text IP_String ParseIP (IP r) → (0 ≤ Port r ≤ 65535)%Z → readable_address IP_String r.
Proof.
  intros [Hc Hn _] Hp. constructor; [|destruct (IP_String (IP r)) as [|c host]; [done|]|done].
  - assert (Forall (λ c, (byte_code c < 128)%N) (String.list_ascii_of_string (IP_String (IP r)))) as Ha.
    { eapply Forall_impl; [exact Hc|]. by intros c [? _]%address_char_ascii. }
    pose proof (digits_ascii _ _ _ (digits_Itoa (Port r) ltac:(lia))) as Hd.
    pose proof (coerce_prefix _ "" Hd) as Ed. rewrite !string_app_nil in Ed.
    unfold valid_utf8, MarshalText, JoinHostPort. destruct (has_colon _).
    + change (coerce_utf8 (String "[" (IP_String (IP r) +:+ String "]" (String ":" (Itoa (Port r))))) =
              String "[" (IP_String (IP r) +:+ String "]" (String ":" (Itoa (Port r))))).
      change (String "[" (coerce_utf8 (IP_String (IP r) +:+ String "]" (String ":" (Itoa (Port r))))) =
              String "[" (IP_String (IP r) +:+ String "]" (String ":" (Itoa (Port r))))).
      rewrite coerce_prefix by done. f_equal. f_equal.
      change (String "]" (String ":" (coerce_utf8 (Itoa (Port r)))) = String "]" (String ":" (Itoa (Port r)))).
      by rewrite Ed.
    + change (":" ++ Itoa (Port r))%string with (String ":" (Itoa (Port r))). rewrite coerce_prefix by done. f_equal.
      change (String ":" (coerce_utf8 (Itoa (Port r))) = String ":" (Itoa (Port r))). by rewrite Ed.
  - apply Forall_cons in Hc as [Hc _]. exists c, host. split; [done|]. by apply address_char_ascii in Hc as [_ ?].
Qed.

(** The entries of a map field, nil or not. *)
Definition entries {A} (m : option (gmap string A)) : gmap string A := default ∅ m.

Lemma omit_empty_entries {A} (m : option (gmap string A)) : entries (omit_empty m) = entries m.
Proof. unfold entries, omit_empty. destruct m as [m|]; [|done]. cbn. by case_decide. Qed.

(** Claim C39. The metadata that authentication puts into the connection's permissions and
    the metadata the server takes out of them after the handshake agree in the
    users, the version, the connection, and every entry of the three maps, for
    strings that are valid UTF-8.  An IPv4 or IPv6 address arrives with its port
    in its 16-byte form; the zone of an address does not arrive. *)
Theorem metadata_json_roundtrip (IP_String : list byte → string) (ParseIP : string → list byte)
    (c : ConnectionAuthenticatedMetadata)
    (Hutf8 : utf8_metadata c)
    (Hip : ip_text IP_String ParseIP (IP (RemoteAddr (pending_conn (auth_pending c)))))
    (Hport : (0 ≤ Port (RemoteAddr (pending_conn (auth_pending c))) ≤ 65535)%Z) :
  ∃ c', Unmarshal ParseIP (Marshal IP_String c) = Done (inl c') ∧
    let p := auth_pending c in let p' := auth_pending c' in
    let conn := pending_conn p in let conn' := pending_conn p' in
    AuthenticatedUsername c' = AuthenticatedUsername c ∧
    Username p' = Username p ∧ ClientVersion p' = ClientVersion p ∧ ConnectionID conn' = ConnectionID conn ∧
    entries (Metadata_ conn') = entries (Metadata_ conn) ∧
    entries (Environment conn') = entries (Environment conn) ∧
    entries (Files conn') = entries (Files conn) ∧
    RemoteAddr conn' = MkTCPAddr (To16 (IP (RemoteAddr conn))) (Port (RemoteAddr conn)) "".
Proof.
  eexists. split; [apply Unmarshal_Marshal; [done|by eapply ip_text_readable]|]. cbn zeta.
  cbn [carried carried_pending auth_pending pending_conn AuthenticatedUsername Username ClientVersion ConnectionID
       Metadata_ Environment Files RemoteAddr]. rewrite !omit_empty_entries, (ip_text_read _ _ _ Hip). by split_and!.
Qed.

(** A remote address without a host, [":22"], is not rejected: reading it
    indexes the empty string and panics.  So does an unclosed bracket. *)
Theorem address_without_host_panics (ParseIP : string → list byte) (port : Z)
    (Hport : (0 ≤ port ≤ 65535)%Z) :
  UnmarshalText ParseIP (String ":" (Itoa port)) = Panic index_out_of_range ∧
  UnmarshalText ParseIP (String "[" (String ":" (Itoa port))) = Panic slice_out_of_range.
Proof.
  split.
  - exact (UnmarshalText_parts ParseIP "" port Hport).
  - exact (UnmarshalText_parts ParseIP "[" port Hport).
Qed.

Lemma address_without_host_panics_witness :
  UnmarshalText (λ _, []) ":22" = Panic index_out_of_range ∧
  UnmarshalText (λ _, []) "[:22" = Panic slice_out_of_range.
Proof. exact (address_without_host_panics (λ _, []) 22 ltac:(lia)). Defined.

(** A concrete instance: an IPv4 client with one metadata value. *)
Definition demo_IP_String (ip : list byte) : string :=
  Join "." ((λ b, Itoa (Z.of_N (Byte.to_N b))) <$> ip).

Definition demo_ParseIP (s : string) : list byte :=
  if decide (s = "192.0.2.7") then
    ["000"; "000"; "000"; "000"; "000"; "000"; "000"; "000"; "000"; "000"; "255"; "255";
     "192"; "000"; "002"; "007"]%byte
  else [].

Definition demo_authenticated : ConnectionAuthenticatedMetadata :=
  Authenticated
    (StartAuthentication
       (MkConnectionMetadata (MkRemoteAddress ["192"; "000"; "002"; "007"]%byte 54022) "0123abcd"
          (Some {[ "team" := MkValue "ops" false ]}) (Some ∅) None)
       "SSH-2.0-OpenSSH_9.6" "alice") "alice".

Lemma demo_authenticated_utf8 : utf8_metadata demo_authenticated.
Proof.
  constructor; [constructor|reflexivity]; try reflexivity.
  - intros k v H. cbn in H. apply lookup_singleton_Some in H as [<- <-]. done.
  - intros k v H. cbn in H. by rewrite lookup_empty in H.
  - intros k v H. cbn in H. by rewrite lookup_empty in H.
Qed.

Lemma demo_address_readable :
  readable_address demo_IP_String (RemoteAddr (pending_conn (auth_pending demo_authenticated))).
Proof.
  constructor.
  - vm_compute. reflexivity.
  - exists "1"%char, "92.0.2.7". split; [vm_compute; reflexivity|done].
  - cbn. lia.
Qed.

Lemma demo_ip_text :
  ip_text demo_IP_String demo_ParseIP (IP (RemoteAddr (pending_conn (auth_pending demo_authenticated)))).
Proof. constructor; [vm_compute; repeat constructor|vm_compute; discriminate|vm_compute; reflexivity]. Qed.

Lemma metadata_json_roundtrip_witness :
  ∃ c', Unmarshal demo_ParseIP (Marshal demo_IP_String demo_authenticated) = Done (inl c') ∧
    AuthenticatedUsername c' = "alice" ∧
    entries (Metadata_ (pending_conn (auth_pending c'))) = {[ "team" := MkValue "ops" false ]} ∧
    entries (Environment (pending_conn (auth_pending c'))) = ∅.
Proof.
  destruct (metadata_json_roundtrip demo_IP_String demo_ParseIP demo_authenticated demo_authenticated_utf8
              demo_ip_text ltac:(cbn; lia)) as (c' & E & Hu & _ & _ & _ & Hm & He & _).
  exists c'. split_and!; [exact E|exact Hu|exact Hm|exact He].
Defined.
