(* ===== verification/Handler.v ===== *)
(** * The handler interfaces

    [internal/sshserver/handler.go]: the interfaces through which the SSH server,
    the security overlay, the authentication layer, the audit log and the
    backends call each other.  An interface value is a record of operations over
    the store [W] in which the object behind it keeps its state. *)

From stdpp Require Import base gmap strings list.
From Stdlib Require Import Strings.Byte.
From S2P Require Import Prelude Messages Metadata.

(** References to objects of other packages, passed on and never inspected here. *)
Abbreviation Context := nat (only parsing).
Abbreviation SessionChannel := nat (only parsing).
Abbreviation ForwardChannel := nat (only parsing).

(** ** Channel rejections *)

(** [ssh.RejectionReason] *)
Inductive RejectionReason :=
| Prohibited
| ConnectionFailed
| UnknownChannelType
| ResourceShortage.

#[export] Instance RejectionReason_eq_dec : EqDecision RejectionReason.
Proof. solve_decision. Defined.

(** The two implementations of [ChannelRejection]: the rejection message of
    [sshserver/rejection.go] and [security.ErrTooManySessions]. *)
Inductive ChannelRejection :=
| Rejection (reason : RejectionReason) (m : message)
| ErrTooManySessions (tooManyLabels : gmap string value).

Definition NewChannelRejection (Reason : RejectionReason) (Code UserMsg Explanation : string)
    (Args : list value) : ChannelRejection :=
  Rejection Reason (UserMessage Code UserMsg Explanation Args).

(** ** The interfaces *)

(** The result of [OnAuthPassword], [OnAuthPubKey] and [OnAuthKeyboardInteractive].
    The Go type is a [uint8]; [AuthResponseOther] stands for the values without a name. *)
Inductive AuthResponse :=
| AuthResponseSuccess
| AuthResponseFailure
| AuthResponseUnavailable
| AuthResponseOther (n : Z).

#[export] Instance AuthResponse_eq_dec : EqDecision AuthResponse.
Proof. solve_decision. Defined.

Record ReverseForward (W : Type) := MkReverseForward {
  NewChannelTCP : string → Z → string → Z → prog W (option ForwardChannel * Z * option error);
  NewChannelUnix : string → prog W (option ForwardChannel * Z * option error);
  NewChannelX11 : string → Z → prog W (option ForwardChannel * Z * option error);
}.

Arguments NewChannelTCP {W} _ _ _ _ _.
Arguments NewChannelUnix {W} _ _.
Arguments NewChannelX11 {W} _ _ _.

Record SessionChannelHandler (W : Type) := MkSessionChannelHandler {
  OnUnsupportedChannelRequest : Z → string → list byte → prog W unit;
  OnFailedDecodeChannelRequest : Z → string → list byte → option error → prog W unit;
  OnEnvRequest : Z → string → string → prog W (option error);
  OnPtyRequest : Z → string → Z → Z → Z → Z → list byte → prog W (option error);
  OnX11Request : Z → bool → string → string → Z → ReverseForward W → prog W (option error);
  OnExecRequest : Z → string → prog W (option error);
  OnShell : Z → prog W (option error);
  OnSubsystem : Z → string → prog W (option error);
  OnSignal : Z → string → prog W (option error);
  OnWindow : Z → Z → Z → Z → Z → prog W (option error);
  OnClose : prog W unit;
  OnShutdown : Context → prog W unit;
}.

Arguments OnUnsupportedChannelRequest {W} _ _ _ _.
Arguments OnFailedDecodeChannelRequest {W} _ _ _ _ _.
Arguments OnEnvRequest {W} _ _ _ _.
Arguments OnPtyRequest {W} _ _ _ _ _ _ _ _.
Arguments OnX11Request {W} _ _ _ _ _ _ _.
Arguments OnExecRequest {W} _ _ _.
Arguments OnShell {W} _ _.
Arguments OnSubsystem {W} _ _ _.
Arguments OnSignal {W} _ _ _.
Arguments OnWindow {W} _ _ _ _ _ _.
Arguments OnClose {W} _.
Arguments OnShutdown {W} _ _.

Record SSHConnectionHandler (W : Type) := MkSSHConnectionHandler {
  OnUnsupportedGlobalRequest : Z → string → list byte → prog W unit;
  OnFailedDecodeGlobalRequest : Z → string → list byte → option error → prog W unit;
  OnUnsupportedChannel : Z → string → list byte → prog W unit;
  OnSessionChannel : ChannelMetadata → list byte → SessionChannel →
    prog W (option (SessionChannelHandler W) * option ChannelRejection);
  OnTCPForwardChannel : Z → string → Z → string → Z →
    prog W (option ForwardChannel * option ChannelRejection);
  OnRequestTCPReverseForward : string → Z → ReverseForward W → prog W (option error);
  OnRequestCancelTCPReverseForward : string → Z → prog W (option error);
  OnDirectStreamLocal : Z → string → prog W (option ForwardChannel * option ChannelRejection);
  OnRequestStreamLocal : string → ReverseForward W → prog W (option error);
  OnRequestCancelStreamLocal : string → prog W (option error);
  OnConnShutdown : Context → prog W unit;
}.

Arguments OnUnsupportedGlobalRequest {W} _ _ _ _.
Arguments OnFailedDecodeGlobalRequest {W} _ _ _ _ _.
Arguments OnUnsupportedChannel {W} _ _ _ _.
Arguments OnSessionChannel {W} _ _ _ _.
Arguments OnTCPForwardChannel {W} _ _ _ _ _ _.
Arguments OnRequestTCPReverseForward {W} _ _ _ _.
Arguments OnRequestCancelTCPReverseForward {W} _ _ _.
Arguments OnDirectStreamLocal {W} _ _ _.
Arguments OnRequestStreamLocal {W} _ _ _.
Arguments OnRequestCancelStreamLocal {W} _ _.
Arguments OnConnShutdown {W} _ _.

(** ** Keyboard-interactive questions and answers *)

Record KeyboardInteractiveQuestion := MkQuestion {
  QuestionID : string;
  Question : string;
  EchoResponse : bool;
}.

Definition getID (k : KeyboardInteractiveQuestion) : string :=
  if decide (QuestionID k ≠ "") then QuestionID k else Question k.

Record KeyboardInteractiveAnswers := MkAnswers { answers : gmap string string }.

Definition Answers_Get (k : KeyboardInteractiveAnswers) (q : KeyboardInteractiveQuestion)
  : string * option error :=
  match answers k !! getID q with
  | Some val => (val, None)
  | None => ("", Some (ErrorString "no answer for question"))
  end.

Definition Answers_GetByQuestionText (k : KeyboardInteractiveAnswers) (q : string)
  : string * option error :=
  match answers k !! q with
  | Some val => (val, None)
  | None => ("", Some (ErrorString "no answer for question"))
  end.

(** A challenge issued to the user while authenticating. *)
Abbreviation Challenge W :=
  (string → list KeyboardInteractiveQuestion → prog W (KeyboardInteractiveAnswers * option error)).

(** The GSSAPI conversation ([internal/auth/authentication.go]). *)
Record GSSAPIServer (W : Type) := MkGSSAPIServer {
  gss_Success : prog W bool;
  gss_Error : prog W (option error);
  gss_AcceptSecContext : list byte → prog W (list byte * string * bool * option error);
  gss_VerifyMIC : list byte → list byte → prog W (option error);
  gss_DeleteSecContext : prog W (option error);
  gss_AllowLogin : string → ConnectionAuthPendingMetadata →
    prog W (ConnectionAuthenticatedMetadata * option error);
}.

Arguments gss_Success {W} _.
Arguments gss_Error {W} _.
Arguments gss_AcceptSecContext {W} _ _.
Arguments gss_VerifyMIC {W} _ _ _.
Arguments gss_DeleteSecContext {W} _.
Arguments gss_AllowLogin {W} _ _ _.

Record NetworkConnectionHandler (W : Type) := MkNetworkConnectionHandler {
  OnAuthPassword : ConnectionAuthPendingMetadata → list byte →
    prog W (AuthResponse * ConnectionAuthenticatedMetadata * option error);
  OnAuthPubKey : ConnectionAuthPendingMetadata → string →
    prog W (AuthResponse * ConnectionAuthenticatedMetadata * option error);
  OnAuthKeyboardInteractive : ConnectionAuthPendingMetadata → Challenge W →
    prog W (AuthResponse * ConnectionAuthenticatedMetadata * option error);
  OnAuthGSSAPI : ConnectionMetadata → prog W (option (GSSAPIServer W));
  OnHandshakeFailed : ConnectionMetadata → option error → prog W unit;
  OnHandshakeSuccess : ConnectionAuthenticatedMetadata →
    prog W (option (SSHConnectionHandler W) * ConnectionAuthenticatedMetadata * option error);
  OnDisconnect : prog W unit;
  OnNetShutdown : Context → prog W unit;
}.

Arguments OnAuthPassword {W} _ _ _.
Arguments OnAuthPubKey {W} _ _ _.
Arguments OnAuthKeyboardInteractive {W} _ _ _.
Arguments OnAuthGSSAPI {W} _ _.
Arguments OnHandshakeFailed {W} _ _ _.
Arguments OnHandshakeSuccess {W} _ _.
Arguments OnDisconnect {W} _.
Arguments OnNetShutdown {W} _ _.

(** ** Channels, readers and writers *)

(** A reader or writer over the store it works on. *)
Abbreviation Reader W := (nat → prog W (list byte * option error)).
Abbreviation Writer W := (list byte → prog W (Z * option error)).

(** The methods of session channels, readers, writers and forwarding channels,
    as a backend sees them. *)
Record Objects (W : Type) := MkObjects {
  obj_Stdin : SessionChannel → prog W nat;
  obj_Stdout : SessionChannel → prog W nat;
  obj_Stderr : SessionChannel → prog W nat;
  obj_ExitStatus : SessionChannel → Z → prog W unit;
  obj_ExitSignal : SessionChannel → string → bool → string → string → prog W unit;
  obj_CloseWrite : SessionChannel → prog W (option error);
  obj_Close : SessionChannel → prog W (option error);
  obj_Read : nat → Reader W;
  obj_Write : nat → Writer W;
}.

Arguments obj_Stdin {W} _ _.
Arguments obj_Stdout {W} _ _.
Arguments obj_Stderr {W} _ _.
Arguments obj_ExitStatus {W} _ _ _.
Arguments obj_ExitSignal {W} _ _ _ _ _ _.
Arguments obj_CloseWrite {W} _ _.
Arguments obj_Close {W} _ _.
Arguments obj_Read {W} _ _ _.
Arguments obj_Write {W} _ _ _.

(** An answer can be read back under the question it was stored for. *)
Lemma Answers_Get_insert m q a :
  Answers_Get (MkAnswers (<[getID q := a]> m)) q = (a, None).
Proof. unfold Answers_Get. cbn. by rewrite lookup_insert_eq. Qed.

(** ** Default implementations

    The methods handlers inherit that do not implement them: [Abstract*.go]. *)

Definition not_supported {W} : prog W (option error) := prog_ret (Some (ErrorString "not supported")).

Definition AbstractSessionChannelHandler {W} : SessionChannelHandler W :=
  {| OnUnsupportedChannelRequest := λ _ _ _, prog_ret tt;
     OnFailedDecodeChannelRequest := λ _ _ _ _, prog_ret tt;
     OnEnvRequest := λ _ _ _, not_supported;
     OnPtyRequest := λ _ _ _ _ _ _ _, not_supported;
     OnX11Request := λ _ _ _ _ _ _, not_supported;
     OnExecRequest := λ _ _, not_supported;
     OnShell := λ _, not_supported;
     OnSubsystem := λ _ _, not_supported;
     OnSignal := λ _ _, not_supported;
     OnWindow := λ _ _ _ _ _, not_supported;
     OnClose := prog_ret tt;
     OnShutdown := λ _, prog_ret tt |}.

Definition unavailable {W} (pendingMeta : ConnectionAuthPendingMetadata)
  : prog W (AuthResponse * ConnectionAuthenticatedMetadata * option error) :=
  prog_ret (AuthResponseUnavailable, AuthFailed pendingMeta, None).

Definition AbstractNetworkConnectionHandler {W} : NetworkConnectionHandler W :=
  {| OnAuthPassword := λ meta _, unavailable meta;
     OnAuthPubKey := λ meta _, unavailable meta;
     OnAuthKeyboardInteractive := λ meta _, unavailable meta;
     OnAuthGSSAPI := λ _, prog_ret None;
     OnHandshakeFailed := λ _ _, prog_ret tt;
     OnHandshakeSuccess := λ meta, prog_ret (None, meta, Some (ErrorString "not implemented"));
     OnDisconnect := prog_ret tt;
     OnNetShutdown := λ _, prog_ret tt |}.

(** ** Nil interface values

    Calling a method on a nil interface value panics. *)

Definition nil_pointer : string := "runtime error: invalid memory address or nil pointer dereference".

Definition nil_SessionChannelHandler {W} : SessionChannelHandler W :=
  {| OnUnsupportedChannelRequest := λ _ _ _, panic nil_pointer;
     OnFailedDecodeChannelRequest := λ _ _ _ _, panic nil_pointer;
     OnEnvRequest := λ _ _ _, panic nil_pointer;
     OnPtyRequest := λ _ _ _ _ _ _ _, panic nil_pointer;
     OnX11Request := λ _ _ _ _ _ _, panic nil_pointer;
     OnExecRequest := λ _ _, panic nil_pointer;
     OnShell := λ _, panic nil_pointer;
     OnSubsystem := λ _ _, panic nil_pointer;
     OnSignal := λ _ _, panic nil_pointer;
     OnWindow := λ _ _ _ _ _, panic nil_pointer;
     OnClose := panic nil_pointer;
     OnShutdown := λ _, panic nil_pointer |}.

Definition nil_SSHConnectionHandler {W} : SSHConnectionHandler W :=
  {| OnUnsupportedGlobalRequest := λ _ _ _, panic nil_pointer;
     OnFailedDecodeGlobalRequest := λ _ _ _ _, panic nil_pointer;
     OnUnsupportedChannel := λ _ _ _, panic nil_pointer;
     OnSessionChannel := λ _ _ _, panic nil_pointer;
     OnTCPForwardChannel := λ _ _ _ _ _, panic nil_pointer;
     OnRequestTCPReverseForward := λ _ _ _, panic nil_pointer;
     OnRequestCancelTCPReverseForward := λ _ _, panic nil_pointer;
     OnDirectStreamLocal := λ _ _, panic nil_pointer;
     OnRequestStreamLocal := λ _ _, panic nil_pointer;
     OnRequestCancelStreamLocal := λ _, panic nil_pointer;
     OnConnShutdown := λ _, panic nil_pointer |}.

(** ** Session requests as data

    The client's requests on a session channel and the method each one calls. *)

Inductive session_request (W : Type) :=
| ReqEnv (id : Z) (name val : string)
| ReqPty (id : Z) (term : string) (columns rows width height : Z) (modeList : list byte)
| ReqX11 (id : Z) (single : bool) (protocol cookie : string) (screen : Z) (rev : ReverseForward W)
| ReqExec (id : Z) (program : string)
| ReqShell (id : Z)
| ReqSubsystem (id : Z) (subsystem : string)
| ReqSignal (id : Z) (signal : string)
| ReqWindow (id : Z) (columns rows width height : Z).

Arguments ReqEnv {W} _ _ _.
Arguments ReqPty {W} _ _ _ _ _ _ _.
Arguments ReqX11 {W} _ _ _ _ _ _.
Arguments ReqExec {W} _ _.
Arguments ReqShell {W} _.
Arguments ReqSubsystem {W} _ _.
Arguments ReqSignal {W} _ _.
Arguments ReqWindow {W} _ _ _ _ _.

Definition session_call {W} (h : SessionChannelHandler W) (r : session_request W) : prog W (option error) :=
  match r with
  | ReqEnv id n v => OnEnvRequest h id n v
  | ReqPty id t c r w hh ml => OnPtyRequest h id t c r w hh ml
  | ReqX11 id s p c sc rev => OnX11Request h id s p c sc rev
  | ReqExec id p => OnExecRequest h id p
  | ReqShell id => OnShell h id
  | ReqSubsystem id s => OnSubsystem h id s
  | ReqSignal id s => OnSignal h id s
  | ReqWindow id c r w hh => OnWindow h id c r w hh
  end.

Definition nil_NetworkConnectionHandler {W} : NetworkConnectionHandler W :=
  {| OnAuthPassword := λ _ _, panic nil_pointer;
     OnAuthPubKey := λ _ _, panic nil_pointer;
     OnAuthKeyboardInteractive := λ _ _, panic nil_pointer;
     OnAuthGSSAPI := λ _, panic nil_pointer;
     OnHandshakeFailed := λ _ _, panic nil_pointer;
     OnHandshakeSuccess := λ _, panic nil_pointer;
     OnDisconnect := panic nil_pointer;
     OnNetShutdown := λ _, panic nil_pointer |}.

Definition nil_GSSAPIServer {W} : GSSAPIServer W :=
  {| gss_Success := panic nil_pointer;
     gss_Error := panic nil_pointer;
     gss_AcceptSecContext := λ _, panic nil_pointer;
     gss_VerifyMIC := λ _ _, panic nil_pointer;
     gss_DeleteSecContext := panic nil_pointer;
     gss_AllowLogin := λ _ _, panic nil_pointer |}.

(** The entry point of the SSH server into the layers below it. *)
Record Handler (W : Type) := MkHandler {
  OnReady : prog W (option error);
  OnHandlerShutdown : Context → prog W unit;
  OnNetworkConnection : ConnectionMetadata →
    prog W (option (NetworkConnectionHandler W) * ConnectionMetadata * option error);
}.

Arguments OnReady {W} _.
Arguments OnHandlerShutdown {W} _ _.
Arguments OnNetworkConnection {W} _ _.
