(* ===== verification/GoStrings.v ===== *)
(** * Strings of the Go standard library

    What the configuration code uses of [strings] and [regexp].  A Go string is a
    sequence of bytes, here a [string] of 8-bit characters. *)

From Stdlib Require Import Ascii Strings.String.
From stdpp Require Import base strings list.
From S2P Require Import Prelude.

Local Open Scope string_scope.

(** The double quote character. *)
Definition quote : string := String (ascii_of_nat 34) EmptyString.

Definition HasPrefix (s p : string) : bool := String.prefix p s.

(** [strings.Split] for a separator of one character. *)
Fixpoint Split (s : string) (sep : ascii) : list string :=
  match s with
  | EmptyString => [""]
  | String c s =>
      if decide (c = sep) then "" :: Split s sep
      else match Split s sep with
           | [] => [String c ""]
           | w :: ws => String c w :: ws
           end
  end.

(** ** [strings.TrimSpace] *)

Definition bytes (l : list nat) : string := foldr (λ n s, String (ascii_of_nat n) s) "" l.

(** The UTF-8 encodings of the characters [unicode.IsSpace] accepts. *)
Definition spaces : list string :=
  map bytes (app [[9]; [10]; [11]; [12]; [13]; [32]; [194; 133]; [194; 160]; [225; 154; 128]; [226; 128; 168];
                  [226; 128; 169]; [226; 128; 175]; [226; 129; 159]; [227; 128; 128]]
                 (map (λ n, [226; 128; n]) (seq 128 11))).

Definition rev_string (s : string) : string := string_of_list_ascii (rev (list_ascii_of_string s)).

(** What is left of [s] after the prefix [p]. *)
Fixpoint strip (p s : string) : option string :=
  match p, s with
  | EmptyString, _ => Some s
  | String c p, String d s => if decide (c = d) then strip p s else None
  | String _ _, EmptyString => None
  end.

Fixpoint strip_any (ps : list string) (s : string) : option string :=
  match ps with
  | [] => None
  | p :: ps => match strip p s with Some r => Some r | None => strip_any ps s end
  end.

(** The words [ps] are removed from the beginning of [s] until none is left; a
    round removes at least one character, [fuel] is the length of [s]. *)
Fixpoint trim (ps : list string) (fuel : nat) (s : string) : string :=
  match fuel with
  | 0 => s
  | S fuel => match strip_any ps s with Some r => trim ps fuel r | None => s end
  end.

Definition TrimSpace (s : string) : string :=
  let l := trim spaces (String.length s) s in
  rev_string (trim (map rev_string spaces) (String.length l) (rev_string l)).

Lemma strip_length p s r : strip p s = Some r → String.length s = (String.length p + String.length r)%nat.
Proof.
  revert s. induction p as [|c p IH]; intros s; cbn; [by intros [= ->]|].
  destruct s as [|d s]; [done|]. case_decide; [|done]. intros Hs. cbn. by rewrite (IH s Hs).
Qed.

Lemma strip_any_length ps s r :
  Forall (λ p, p ≠ "") ps → strip_any ps s = Some r → (String.length r < String.length s)%nat.
Proof.
  induction 1 as [|p ps Hp _ IH]; [done|]. cbn. destruct (strip p s) eqn:E; [|done]. intros [= ->].
  apply strip_length in E. destruct p; [done|]. cbn in E. lia.
Qed.

(** The fuel is enough: nothing more can be removed at the end. *)
Lemma trim_done ps fuel s :
  Forall (λ p, p ≠ "") ps → (String.length s ≤ fuel)%nat → strip_any ps (trim ps fuel s) = None.
Proof.
  intros Hps. revert s. induction fuel as [|fuel IH]; intros s Hf; cbn.
  - destruct s; [|cbn in Hf; lia]. destruct (strip_any ps "") eqn:E; [|done].
    apply strip_any_length in E; [cbn in E; lia | done].
  - destruct (strip_any ps s) as [r|] eqn:E; [|done]. apply IH. apply strip_any_length in E; [lia | done].
Qed.

Example TrimSpace_demo : TrimSpace "  -----BEGIN " = "-----BEGIN".
Proof. reflexivity. Qed.

(** [strings.Contains] and [strings.HasSuffix] *)
Fixpoint Contains (s substr : string) : bool :=
  HasPrefix s substr || match s with EmptyString => false | String _ s => Contains s substr end.

Fixpoint HasSuffix (s suffix : string) : bool :=
  bool_decide (s = suffix) || match s with EmptyString => false | String _ s => HasSuffix s suffix end.

(** ** Regular expressions *)

Inductive regexp :=
| RNone
| REmpty
| RClass (f : ascii → bool)
| RSeq (r s : regexp)
| RAlt (r s : regexp)
| RPlus (r : regexp).

(** The strings an expression stands for. *)
Inductive matches : regexp → string → Prop :=
| m_empty : matches REmpty ""
| m_class f c : f c = true → matches (RClass f) (String c "")
| m_seq r s a b : matches r a → matches s b → matches (RSeq r s) (a +:+ b)
| m_alt_l r s a : matches r a → matches (RAlt r s) a
| m_alt_r r s a : matches s a → matches (RAlt r s) a
| m_plus_one r a : matches r a → matches (RPlus r) a
| m_plus_more r a b : matches r a → matches (RPlus r) b → matches (RPlus r) (a +:+ b).

Fixpoint nullable (r : regexp) : bool :=
  match r with
  | RNone | RClass _ => false
  | REmpty => true
  | RSeq r s => nullable r && nullable s
  | RAlt r s => nullable r || nullable s
  | RPlus r => nullable r
  end.

Definition ROpt (r : regexp) : regexp := RAlt REmpty r.

(** The rest of a match after the character [c]. *)
Fixpoint derive (c : ascii) (r : regexp) : regexp :=
  match r with
  | RNone | REmpty => RNone
  | RClass f => if f c then REmpty else RNone
  | RSeq r s => if nullable r then RAlt (RSeq (derive c r) s) (derive c s) else RSeq (derive c r) s
  | RAlt r s => RAlt (derive c r) (derive c s)
  | RPlus r => RSeq (derive c r) (ROpt (RPlus r))
  end.

(** [regexp.MatchString] for an expression anchored at both ends. *)
Fixpoint MatchString (r : regexp) (s : string) : bool :=
  match s with
  | EmptyString => nullable r
  | String c s => MatchString (derive c r) s
  end.

Lemma nullable_matches r : nullable r = true ↔ matches r "".
Proof.
  split.
  - induction r as [| |f|r IHr s IHs|r IHr s IHs|r IHr]; cbn; try done; intros H.
    + constructor.
    + apply andb_true_iff in H as [H1 H2]. change "" with ("" +:+ ""). constructor; auto.
    + apply orb_true_iff in H as [H|H]; [apply m_alt_l | apply m_alt_r]; auto.
    + by apply m_plus_one, IHr.
  - assert (∀ s, matches r s → s = "" → nullable r = true) as Hm; [|intros H; by apply (Hm "")].
    intros s. induction 1 as [|f c H|r s a b _ IH1 _ IH2|r s a _ IH|r s a _ IH|r a _ IH|r a b _ IH1 _ IH2]; intros E;
      cbn; try done.
    + destruct a; [|done]. destruct b; [|done]. by rewrite IH1, IH2.
    + by rewrite IH.
    + rewrite IH by done. by destruct (nullable r).
    + by apply IH.
    + destruct a; [|done]. by apply IH1.
Qed.

Lemma derive_sound c r s : matches (derive c r) s → matches r (String c s).
Proof.
  revert s. induction r as [| |f|r1 IH1 r2 IH2|r1 IH1 r2 IH2|r IH]; intros s; cbn; intros H; try by inversion H.
  - destruct (f c) eqn:E; inversion H; subst. by constructor.
  - destruct (nullable r1) eqn:E; inversion H as [| |? ? a b Ha Hb|? ? ? Ha|? ? ? Ha| |]; subst.
    + inversion Ha as [| |? ? a b Ha1 Ha2| | | |]; subst. change (String c (a +:+ b)) with (String c a +:+ b).
      constructor; auto.
    + change (String c s) with ("" +:+ String c s). constructor; [by apply nullable_matches | auto].
    + change (String c (a +:+ b)) with (String c a +:+ b). constructor; auto.
  - inversion H; subst; [apply m_alt_l | apply m_alt_r]; auto.
  - inversion H as [| |? ? a b Ha Hb| | | |]; subst. change (String c (a +:+ b)) with (String c a +:+ b).
    inversion Hb as [| | |? ? ? He|? ? ? Hp| |]; subst.
    + inversion He; subst. rewrite string_app_nil. apply m_plus_one. auto.
    + apply m_plus_more; auto.
Qed.

Lemma derive_complete c r s : matches r (String c s) → matches (derive c r) s.
Proof.
  remember (String c s) as t eqn:E. intros H. revert s E.
  induction H as [|f d Hf|r1 r2 a b H1 IH1 H2 IH2|r1 r2 a H IH|r1 r2 a H IH|r a H IH|r a b H1 IH1 H2 IH2];
    intros s E; cbn; try done.
  - injection E as -> <-. rewrite Hf. constructor.
  - destruct a as [|d a]; cbn in E.
    + assert (nullable r1 = true) as -> by by apply nullable_matches. apply m_alt_r. auto.
    + injection E as -> <-. destruct (nullable r1); [apply m_alt_l|]; constructor; auto.
  - apply m_alt_l. auto.
  - apply m_alt_r. auto.
  - subst a. rewrite <- (string_app_nil s). constructor; [auto|]. apply m_alt_l. constructor.
  - destruct a as [|d a]; cbn in E; [auto|]. injection E as -> <-. constructor; [auto|]. by apply m_alt_r.
Qed.

Lemma MatchString_matches r s : MatchString r s = true ↔ matches r s.
Proof.
  revert r. induction s as [|c s IH]; intros r; cbn; [apply nullable_matches|].
  rewrite IH. split; [apply derive_sound | apply derive_complete].
Qed.

(** ** Building expressions *)

Fixpoint RLit (s : string) : regexp :=
  match s with
  | EmptyString => REmpty
  | String c s => RSeq (RClass (λ d, bool_decide (d = c))) (RLit s)
  end.

Definition in_range (lo hi : nat) (c : ascii) : bool :=
  bool_decide (lo ≤ nat_of_ascii c)%nat && bool_decide (nat_of_ascii c ≤ hi)%nat.
Definition RRange (lo hi : nat) : regexp := RClass (in_range lo hi).

(** [.]: one character (of one or more bytes) other than a newline; a byte
    that is no part of a character counts as one. *)
Definition RDot : regexp :=
  let t := RRange 128 191 in
  RAlt (RClass (λ c, negb (bool_decide (nat_of_ascii c = 10))))
 (RAlt (RSeq (RRange 194 223) t)
 (RAlt (RSeq (RRange 224 224) (RSeq (RRange 160 191) t))
 (RAlt (RSeq (RRange 225 236) (RSeq t t))
 (RAlt (RSeq (RRange 237 237) (RSeq (RRange 128 159) t))
 (RAlt (RSeq (RRange 238 239) (RSeq t t))
 (RAlt (RSeq (RRange 240 240) (RSeq (RRange 144 191) (RSeq t t)))
 (RAlt (RSeq (RRange 241 243) (RSeq t (RSeq t t)))
       (RSeq (RRange 244 244) (RSeq (RRange 128 143) (RSeq t t)))))))))).

(** A class of letters, digits and further characters. *)
Definition alphanumeric (c : ascii) : bool :=
  in_range 97 122 c || in_range 65 90 c || in_range 48 57 c.
Definition one_of (s : string) (c : ascii) : bool := bool_decide (c ∈ list_ascii_of_string s).

Lemma RSeq_matches r s t : matches (RSeq r s) t ↔ ∃ a b, t = a +:+ b ∧ matches r a ∧ matches s b.
Proof.
  split; [inversion 1; subst; by eauto|]. intros (a & b & -> & Ha & Hb). by constructor.
Qed.

Lemma ROpt_matches r t : matches (ROpt r) t ↔ t = "" ∨ matches r t.
Proof.
  split.
  - inversion 1 as [| | |? ? ? He| | |]; subst; [left; by inversion He | by right].
  - intros [->|H]; [apply m_alt_l, m_empty | by apply m_alt_r].
Qed.

Lemma RLit_matches s t : matches (RLit s) t ↔ t = s.
Proof.
  revert t. induction s as [|c s IH]; intros t; cbn; split.
  - by inversion 1.
  - intros ->. constructor.
  - inversion 1 as [| |? ? a b Ha Hb| | | |]; subst. inversion Ha as [|? d Hd| | | | |]; subst.
    apply bool_decide_eq_true in Hd as ->. apply IH in Hb as ->. done.
  - intros ->. change (String c s) with (String c "" +:+ s). constructor; [constructor; by apply bool_decide_eq_true | by apply IH].
Qed.

(** A nonempty run of characters of a class. *)
Lemma RPlus_class f t :
  matches (RPlus (RClass f)) t ↔ t ≠ "" ∧ Forall (λ c, f c = true) (list_ascii_of_string t).
Proof.
  split.
  - remember (RPlus (RClass f)) as r eqn:E. induction 1 as [| | | | |r a H _|r a b H _ H2 IH]; try discriminate; injection E as ->.
    + inversion H; subst. split; [done|]. cbn. by repeat constructor.
    + inversion H; subst. destruct IH as [_ IH]; [done|]. split; [done|]. by constructor.
  - induction t as [|c t IH]; [by intros [? _]|]. intros [_ H]. cbn in H. inversion H as [|? ? Hc Ht]; subst.
    destruct t as [|d t].
    + by apply m_plus_one, m_class.
    + change (String c (String d t)) with (String c "" +:+ String d t). apply m_plus_more; [by constructor|]. by apply IH.
Qed.
