(* ===== verification/ConfigHTTP.v ===== *)
(** * HTTP client and server configuration

    [config/http.go]: TLS versions, curves and cipher suites, the configuration
    of HTTP clients and servers and its validation; [config/validate.go]. *)

From stdpp Require Import base gmap strings list.
From Stdlib Require Import Ascii Strings.Byte.
From S2P Require Import Prelude Messages GoStrings.

Local Open Scope Z_scope.

(** ** The libraries the validation asks

    The file system, [net/url], [net], [crypto/x509] and [crypto/tls]: what each
    call answers, [None] being no error. *)
Record Library := MkLibrary {
  os_Stat : string → bool + error;                (** [IsDir()] of the file *)
  os_ReadFile : string → list byte + error;
  url_ParseRequestURI : string → option error;
  url_Parse : string → option error;
  net_SplitHostPort : string → option error;
  net_Dial : string → string → option error;
  x509_AppendCertsFromPEM : list byte → bool;
  x509_SystemCertPool : option error;
  tls_X509KeyPair : list byte → list byte → option error;
  Duration_String : Z → string;
}.

(** [fmt.Errorf("...(%w)", err)] *)
Definition wrap_error (text : string) (e : error) : error :=
  WrapError (Sprintf (text ++ " (%w)") [VString (Error e)]) e.

Definition Errorf (format : string) (args : list value) : error := ErrorString (Sprintf format args).

(** [if err != nil { return f(err) }], then [k]. *)
Definition or_return (err : option error) (f : error → error) (k : option error) : option error :=
  match err with Some e => Some (f e) | None => k end.

Definition Millisecond : Z := 1000000.
Definition Second : Z := 1000 * Millisecond.

(** ** Enumerations *)

Definition validateEnum (val : string) (enum : list string) : option error :=
  if decide (val ∈ enum) then None
  else Some (Errorf "invalid value: %s, expected one of: %s" [VString val; VString (Join ", " enum)]).

Definition TLSVersion12 : string := "1.2".
Definition TLSVersion13 : string := "1.3".

Definition TLSVersion_Validate (t : string) : option error :=
  if decide (t = TLSVersion13) then None
  else if decide (t = TLSVersion12) then None
  else Some (Errorf "unsupported TLS version: %s" [VString t]).

(** [tls.VersionTLS12]; both versions give it. *)
Definition VersionTLS12 : Z := 771.
Definition VersionTLS13 : Z := 772.

Definition GetTLSVersion (t : string) : outcome Z :=
  if decide (t = TLSVersion13) then Done VersionTLS12
  else if decide (t = TLSVersion12) then Done VersionTLS12
  else Panic (Sprintf "invalid TLS version: %s" [VString t]).

Definition curveToID : gmap string Z :=
  list_to_map [("x25519", 29); ("X25519", 29); ("secp256r1", 23); ("prime256v1", 23); ("secp384r1", 24);
               ("secp521r1", 25)].

Definition ECDHCurve_Validate (c : string) : option error :=
  if decide (c ∈ ["x25519"; "X25519"; "secp256r1"; "prime256v1"; "secp384r1"; "secp521r1"]) then None
  else Some (Errorf "invalid ECDH curve: %s" [VString c]).

Definition getCurveID (c : string) : outcome Z :=
  match curveToID !! c with
  | Some curveID => Done curveID
  | None => Panic (Sprintf "invalid ECDH curve: %s" [VString c])
  end.

(** [for _, x := range l { if err := f(x); err != nil { return err } }], then [k]. *)
Fixpoint validate_each {A} (f : A → option error) (l : list A) (k : option error) : option error :=
  match l with
  | [] => k
  | x :: l => match f x with Some e => Some e | None => validate_each f l k end
  end.

(** [GetList]: the loop over the entries, which panics at an unknown one. *)
Fixpoint get_list {A B} (f : A → outcome B) (l : list A) : outcome (list B) :=
  match l with
  | [] => Done []
  | x :: l =>
      match f x with
      | Done b => match get_list f l with Done bs => Done (b :: bs) | Panic s => Panic s | Blocked s => Blocked s end
      | Panic s => Panic s
      | Blocked s => Blocked s
      end
  end.

Definition ECDHCurveList_Validate (c : list string) : option error :=
  validate_each ECDHCurve_Validate c
    (if decide (length c = 0%nat) then Some (Errorf "no ECDH curves provided" []) else None).

Definition ECDHCurveList_GetList (c : list string) : outcome (list Z) := get_list getCurveID c.

Definition stringToCipherSuite : gmap string Z :=
  list_to_map
    [("TLS_AES_128_GCM_SHA256", 4865); ("TLS_AES_256_GCM_SHA384", 4866); ("TLS_CHACHA20_POLY1305_SHA256", 4867);
     ("TLS_ECDHE_ECDSA_WITH_AES_128_GCM_SHA256", 49195); ("TLS_ECDHE_RSA_WITH_AES_128_GCM_SHA256", 49199);
     ("TLS_ECDHE_ECDSA_WITH_AES_256_GCM_SHA384", 49196); ("TLS_ECDHE_RSA_WITH_AES_256_GCM_SHA384", 49200);
     ("TLS_ECDHE_ECDSA_WITH_CHACHA20_POLY1305", 52393); ("TLS_ECDHE_RSA_WITH_CHACHA20_POLY1305", 52392);
     ("ECDHE-ECDSA-AES128-GCM-SHA256", 49195); ("ECDHE-RSA-AES128-GCM-SHA256", 49199);
     ("ECDHE-ECDSA-AES256-GCM-SHA384", 49196); ("ECDHE-RSA-AES256-GCM-SHA384", 49200);
     ("ECDHE-ECDSA-CHACHA20-POLY1305", 52393); ("ECDHE-RSA-CHACHA20-POLY1305", 52392);
     ("TLS_ECDHE_ECDSA_AES_128_GCM_SHA256", 49195); ("TLS_ECDHE_RSA_AES_128_GCM_SHA256", 49199);
     ("TLS_ECDHE_ECDSA_AES_256_GCM_SHA384", 49196); ("TLS_ECDHE_RSA_AES_256_GCM_SHA384", 49200);
     ("TLS_ECDHE_ECDSA_CHACHA20_POLY1305", 52393); ("TLS_ECDHE_RSA_CHACHA20_POLY1305", 52392)].

Definition CipherSuite_Validate (c : string) : option error :=
  match stringToCipherSuite !! c with
  | None => Some (Errorf "unsupported cipher suite: %s" [VString c])
  | Some _ => None
  end.

Definition getCipher (c : string) : outcome Z :=
  match stringToCipherSuite !! c with
  | Some suite => Done suite
  | None => Panic (Sprintf "unsupported cipher suite: %s" [VString c])
  end.

Definition CipherSuiteList_Validate (c : list string) : option error :=
  validate_each CipherSuite_Validate c
    (if decide (length c = 0%nat) then Some (Errorf "no cipher suites provided" []) else None).

Definition CipherSuiteList_GetList (c : list string) : outcome (list Z) := get_list getCipher c.

(** [UnmarshalJSON] and [UnmarshalYAML] of the two lists: [as_list] and
    [as_string] are the results of decoding the document into a list of strings
    and into a string; the entries are appended to what is there. *)
Definition unmarshal_list (what : string) (as_list : list string + error) (as_string : string + error)
    (c : list string) : list string * option error :=
  match as_list with
  | inl decoded => ((c ++ decoded)%list, None)
  | inr _ =>
      match as_string with
      | inr _ => (c, Some (Errorf "failed to unmarshal %s list, neither a list nor a string is provided" [VString what]))
      | inl decodedString => ((c ++ Split decodedString ":"%char)%list, None)
      end
  end.

Definition ECDHCurveList_Unmarshal : list string + error → string + error → list string → list string * option error :=
  unmarshal_list "ECDH curve".
Definition CipherSuiteList_Unmarshal : list string + error → string + error → list string → list string * option error :=
  unmarshal_list "cipher suite".

Definition RequestEncoding_Validate (r : string) : option error :=
  if decide (r = "") then None
  else if decide (r = "JSON") then None
  else if decide (r = "WWW-URLENCODED") then None
  else Some (Errorf "invalid request encoding: %s" [VString r]).

(** ** HTTP clients *)

Record HTTPClientConfiguration := MkHTTPClientConfiguration {
  hc_URL : string;
  hc_AllowRedirects : bool;
  hc_Timeout : Z;
  hc_CACert : string;
  hc_ClientCert : string;
  hc_ClientKey : string;
  hc_TLSVersion : string;
  hc_ECDHCurves : list string;
  hc_CipherSuites : list string;
  hc_RequestEncoding : string;
}.

(** What was loaded: where the CA certificates come from, the client's
    certificate and key. *)
Inductive CertPool := PoolFromPEM (pem : list byte) | PoolOfSystem.

Record HTTPClientCerts := MkHTTPClientCerts {
  CACertPool : option CertPool;
  Cert : option (list byte * list byte);
}.

Section library.
Context (lib : Library).

Definition loadPEM (spec : string) : list byte + error :=
  if negb (HasPrefix (TrimSpace spec) "-----") then os_ReadFile lib spec
  else inl (String.list_byte_of_string spec).

Definition validateCACert (c : HTTPClientConfiguration) : option CertPool + error :=
  if decide (TrimSpace (hc_CACert c) ≠ "") then
    match loadPEM (hc_CACert c) with
    | inr err => inr (wrap_error "failed to load CA certificate" err)
    | inl caCert =>
        if negb (x509_AppendCertsFromPEM lib caCert) then inr (Errorf "invalid CA certificate provided" [])
        else inl (Some (PoolFromPEM caCert))
    end
  else if HasPrefix (hc_URL c) "https://" then
    match x509_SystemCertPool lib with
    | Some err => inr (wrap_error "system certificate pool unusable and no explicit CA certificate was given" err)
    | None => inl (Some PoolOfSystem)
    end
  else inl None.

Definition validateClientCert (c : HTTPClientConfiguration) : option (list byte * list byte) + error :=
  let fail err o m := match wrapWithMessage (Some err) o m [] with Some e => inr e | None => inl None end in
  if decide (hc_ClientCert c ≠ "" ∧ hc_ClientKey c = "") then
    inr (newError "clientCert" "client certificate provided without client key" [])
  else if decide (hc_ClientCert c = "" ∧ hc_ClientKey c ≠ "") then
    inr (newError "clientKey" "client key provided without client certificate" [])
  else if decide (hc_ClientCert c ≠ "" ∧ hc_ClientKey c ≠ "") then
    match loadPEM (hc_ClientCert c) with
    | inr err => fail err "clientCert" "failed to load client certificate"
    | inl clientCert =>
        match loadPEM (hc_ClientKey c) with
        | inr err => fail err "clientKey" "failed to load client certificate"
        | inl clientKey =>
            match tls_X509KeyPair lib clientCert clientKey with
            | Some err => fail err "clientCert" "failed to load certificate or key"
            | None => inl (Some (clientCert, clientKey))
            end
        end
    end
  else inl None.

(** [HTTPClientConfiguration.ValidateWithCerts]; on the last error the
    certificates loaded so far are returned with it, here only the error. *)
Definition HTTPClient_ValidateWithCerts (c : HTTPClientConfiguration) : HTTPClientCerts + error :=
  let or_fail (err : option error) (k : HTTPClientCerts + error) := match err with Some e => inr e | None => k end in
  or_fail (match url_ParseRequestURI lib (hc_URL c) with
           | Some _ => Some (newError "url" "invalid URL: %s" [VString (hc_URL c)]) | None => None end)
  (or_fail (if decide (hc_Timeout c < 100 * Millisecond) then
              Some (newError "timeout" "timeout value %s is too low, must be at least 100ms"
                      [VString (Duration_String lib (hc_Timeout c))]) else None)
  (match validateCACert c with
   | inr err => or_fail (wrap (Some err) "cacert") (inr err)
   | inl pool =>
       or_fail (RequestEncoding_Validate (hc_RequestEncoding c))
       (or_fail (if HasPrefix (hc_URL c) "https://" then
                   check_field (TLSVersion_Validate (hc_TLSVersion c)) "tlsVersion"
                   (check_field (ECDHCurveList_Validate (hc_ECDHCurves c)) "curves"
                   (check_field (CipherSuiteList_Validate (hc_CipherSuites c)) "cipher" None))
                 else None)
       (match validateClientCert c with
        | inr err => inr err
        | inl cert => inl (MkHTTPClientCerts pool cert)
        end))
   end)).

Definition error_of {A} (r : A + error) : option error := match r with inl _ => None | inr e => Some e end.

Definition HTTPClient_Validate (c : HTTPClientConfiguration) : option error :=
  error_of (HTTPClient_ValidateWithCerts c).

(** ** HTTP servers *)

Record HTTPServerConfiguration := MkHTTPServerConfiguration {
  hs_Listen : string;
  hs_Key : string;
  hs_Cert : string;
  hs_ClientCACert : string;
  hs_TLSVersion : string;
  hs_ECDHCurves : list string;
  hs_CipherSuites : list string;
}.

Record HTTPServerCerts := MkHTTPServerCerts {
  server_Cert : option (list byte * list byte);
  ClientCAPool : option CertPool;
}.

(** The part that loads the certificate and checks the TLS options. *)
Definition load_server_cert (c : HTTPServerConfiguration) : (list byte * list byte) + error :=
  match loadPEM (hs_Cert c) with
  | inr err => inr (wrap_error "failed to load certificate" err)
  | inl pemCert =>
      match loadPEM (hs_Key c) with
      | inr err => inr (wrap_error "failed to load key" err)
      | inl pemKey =>
          match tls_X509KeyPair lib pemCert pemKey with
          | Some err => inr (wrap_error "failed to load key/certificate" err)
          | None =>
              match or_return (TLSVersion_Validate (hs_TLSVersion c)) (wrap_error "invalid TLS version")
                   (or_return (ECDHCurveList_Validate (hs_ECDHCurves c)) (wrap_error "invalid curve algorithms")
                   (or_return (CipherSuiteList_Validate (hs_CipherSuites c)) (wrap_error "invalid cipher suites") None))
              with
              | Some e => inr e
              | None => inl (pemCert, pemKey)
              end
          end
      end
  end.

Definition load_client_ca (c : HTTPServerConfiguration) : option CertPool + error :=
  if decide (hs_ClientCACert c ≠ "") then
    match loadPEM (hs_ClientCACert c) with
    | inr err => inr (wrap_error "failed to load client CA certificate" err)
    | inl clientCaCert =>
        if negb (x509_AppendCertsFromPEM lib clientCaCert)
        then inr (Errorf "failed to load client CA certificate" [])
        else inl (Some (PoolFromPEM clientCaCert))
    end
  else inl None.

Definition HTTPServer_ValidateWithCerts (c : HTTPServerConfiguration) : HTTPServerCerts + error :=
  if decide (hs_Listen c = "") then inr (Errorf "no listen address provided" [])
  else match net_SplitHostPort lib (hs_Listen c) with
  | Some err => inr (wrap_error "invalid listen address provided" err)
  | None =>
      if decide (hs_Cert c ≠ "" ∧ hs_Key c = "") then inr (Errorf "certificate provided without a key" [])
      else if decide (hs_Cert c = "" ∧ hs_Key c ≠ "") then inr (Errorf "key provided without certificate" [])
      else
        let cert := if decide (hs_Cert c ≠ "" ∧ hs_Key c ≠ "") then
                      match load_server_cert c with inr e => inr e | inl p => inl (Some p) end
                    else inl None in
        match cert with
        | inr e => inr e
        | inl cert =>
            match load_client_ca c with
            | inr e => inr e
            | inl pool => inl (MkHTTPServerCerts cert pool)
            end
        end
  end.

Definition HTTPServer_Validate (c : HTTPServerConfiguration) : option error :=
  error_of (HTTPServer_ValidateWithCerts c).

End library.

(** ** Theorems *)

Lemma validate_each_None {A} (f : A → option error) l k :
  validate_each f l k = None ↔ Forall (λ x, f x = None) l ∧ k = None.
Proof.
  induction l as [|x l IH]; cbn; [naive_solver|]. destruct (f x) eqn:E; rewrite Forall_cons, E; naive_solver.
Qed.

Lemma TLSVersion_Validate_None t : TLSVersion_Validate t = None ↔ t = TLSVersion12 ∨ t = TLSVersion13.
Proof. unfold TLSVersion_Validate. repeat case_decide; naive_solver. Qed.

(** A list is valid exactly when it is not empty and can be translated into the
    identifiers of the TLS library; so the translation never panics on a
    validated list. *)
Lemma get_list_total {A B} (f : A → outcome B) l :
  Forall (λ x, ∃ b, f x = Done b) l ↔ ∃ bs, get_list f l = Done bs ∧ length bs = length l.
Proof.
  induction l as [|x l IH]; cbn.
  - split; [by exists []|done].
  - rewrite Forall_cons, IH. destruct (f x) as [b| |] eqn:E.
    + split.
      * intros [_ (bs & -> & Hl)]. exists (b :: bs). cbn. by rewrite Hl.
      * intros (bs & H & Hl). split; [by exists b|]. destruct (get_list f l) as [bs'| |]; [|done..].
        exists bs'. injection H as <-. split; [done|]. by injection Hl.
    + naive_solver.
    + naive_solver.
Qed.

(** Accepted names of curves and cipher suites are exactly those that have an
    identifier of the TLS library, so translating a validated list never
    panics; and the minimum version 1.3 is translated into 1.2, as 1.2 is. *)
Theorem tls_options_translate curves suites version :
  (ECDHCurveList_Validate curves = None ↔
     curves ≠ [] ∧ ∃ ids, ECDHCurveList_GetList curves = Done ids ∧ length ids = length curves) ∧
  (CipherSuiteList_Validate suites = None ↔
     suites ≠ [] ∧ ∃ ids, CipherSuiteList_GetList suites = Done ids ∧ length ids = length suites) ∧
  (TLSVersion_Validate version = None ↔ GetTLSVersion version = Done VersionTLS12) ∧
  GetTLSVersion TLSVersion13 ≠ Done VersionTLS13.
Proof.
  assert (∀ c, ECDHCurve_Validate c = None ↔ ∃ b, getCurveID c = Done b) as Hc.
  { intros c. unfold ECDHCurve_Validate, getCurveID. case_decide as Hin.
    - split; [intros _|done]. rewrite !elem_of_cons in Hin.
      destruct Hin as [->|[->|[->|[->|[->|[->|H]]]]]]; try (by eexists); by apply not_elem_of_nil in H.
    - split; [done|]. intros [b Hb]. destruct (curveToID !! c) as [id|] eqn:E; [|done]. exfalso. apply Hin.
      unfold curveToID in E. apply elem_of_list_to_map_2 in E. set_solver. }
  assert (∀ c, CipherSuite_Validate c = None ↔ ∃ b, getCipher c = Done b) as Hs.
  { intros c. unfold CipherSuite_Validate, getCipher. destruct (stringToCipherSuite !! c); naive_solver. }
  split; [|split; [|split]].
  - unfold ECDHCurveList_Validate, ECDHCurveList_GetList. rewrite validate_each_None, <- get_list_total.
    setoid_rewrite Hc. case_decide as Hl; destruct curves; naive_solver.
  - unfold CipherSuiteList_Validate, CipherSuiteList_GetList. rewrite validate_each_None, <- get_list_total.
    setoid_rewrite Hs. case_decide as Hl; destruct suites; naive_solver.
  - rewrite TLSVersion_Validate_None. unfold GetTLSVersion. repeat case_decide; naive_solver.
  - done.
Qed.
