(* ===== verification/Http.v ===== *)
(** * The HTTP client and server

    [http/client_impl.go], [http/client_factory.go]: requests to the webhook and
    configuration servers.  [http/handler_impl.go], [http/handler_factory.go],
    [http/marshaller.go]: the handlers behind such a server.
    [http/server_impl.go], [http/server_factory.go]: the server as a service.

    [net/http]'s client and listener and [gorilla/schema] are arguments; the text
    of a document is below the model, a body is a document or a form. *)

From stdpp Require Import base gmap strings list.
From Stdlib Require Import Ascii Strings.Byte.
From S2P Require Import Prelude Messages MetadataJSON Handler GoStrings ConfigHTTP.

Local Open Scope Z_scope.

(** ** Requests *)

(** [textproto.CanonicalMIMEHeaderKey]: a name with a character that is not
    allowed in it is left alone. *)
Definition token_char (c : ascii) : bool :=
  alphanumeric c || one_of "!#$%&'*+-.^_`|~" c.

Definition upper (c : ascii) : ascii :=
  if between 97 122 c then Ascii.ascii_of_N (byte_code c - 32) else c.

Fixpoint capitalize (first : bool) (s : string) : string :=
  match s with
  | EmptyString => EmptyString
  | String c s' =>
      String (if first then upper c else lower c) (capitalize (bool_decide (c = "-"%char)) s')
  end.

Definition CanonicalMIMEHeaderKey (s : string) : string :=
  if forallb token_char (String.list_ascii_of_string s) then capitalize true s else s.

Abbreviation http_Header := (gmap string (list string)).

Definition Header_Set (key value : string) (h : http_Header) : http_Header := <[CanonicalMIMEHeaderKey key := [value]]> h.
Definition Header_Add (key value : string) (h : http_Header) : http_Header :=
  <[CanonicalMIMEHeaderKey key := (default [] (h !! CanonicalMIMEHeaderKey key) ++ [value])%list]> h.
Definition Header_Get (key : string) (h : http_Header) : string :=
  default "" (head (default [] (h !! CanonicalMIMEHeaderKey key))).

Inductive content :=
| NoContent
| Document (j : json)
| Text (s : string).

Record http_Request := MkHttpRequest {
  rq_Method : string;
  rq_URL : string;
  rq_Header : http_Header;
  rq_Body : content;
}.

(** What reading the body gives: a read error, or a text, of which the JSON
    value it starts with matters. *)
Record http_Response := MkHttpResponse {
  rs_StatusCode : Z;
  rs_Body : option json + error;
}.

(** What the client is configured with when it sends a request. *)
Record tls_Config := MkTLSConfig {
  tls_MinVersion : Z;
  tls_CurvePreferences : list Z;
  tls_CipherSuites : list Z;
  tls_RootCAs : option CertPool;
  tls_Certificates : list (list byte * list byte);
  tls_ClientCAs : option CertPool;
  tls_RequireClientCert : bool;
}.

Record http_Client := MkHttpClient {
  hcl_TLSClientConfig : option tls_Config;
  hcl_CheckRedirect : string → option error;
  hcl_Timeout : Z;
}.

(** A value that can be sent: what the two encoders make of it. *)
Record payload := MkPayload {
  as_json : json + error;
  as_form : string + error;
}.

Record client := MkClient {
  cl_config : HTTPClientConfiguration;
  cl_tlsConfig : option tls_Config;
  cl_extraHeaders : list (string * list string);
  cl_allowLaxDecoding : bool;
}.

(** [errors.As(err, &typedErr)] for messages: the first along the causes. *)
Fixpoint as_message (e : error) : option message :=
  match e with
  | MsgError m | WrappingMsg m _ => Some m
  | WrapError _ c | ConfigError _ _ (Some c) => as_message c
  | _ => None
  end.

(** ** The client *)

(** [createTLSConfig]: nothing to configure without TLS. *)
Definition createTLSConfig (config : HTTPClientConfiguration) (certs : HTTPClientCerts) : outcome (option tls_Config) :=
  if negb (HasPrefix (hc_URL config) "https://") then Done None
  else
    match GetTLSVersion (hc_TLSVersion config), ECDHCurveList_GetList (hc_ECDHCurves config),
          CipherSuiteList_GetList (hc_CipherSuites config) with
    | Done version, Done curves, Done suites =>
        Done (Some (MkTLSConfig version curves suites (CACertPool certs)
                      (match Cert certs with Some cert => [cert] | None => [] end) None false))
    | Panic why, _, _ | Done _, Panic why, _ | Done _, Done _, Panic why => Panic why
    | Blocked why, _, _ | Done _, Blocked why, _ | Done _, Done _, Blocked why => Blocked why
    end.

Definition NewClientWithHeaders (lib : Library) (config : HTTPClientConfiguration)
    (extraHeaders : list (string * list string)) (allowLaxDecoding : bool) : outcome (client + error) :=
  match HTTPClient_ValidateWithCerts lib config with
  | inr err => Done (inr err)
  | inl certs =>
      match createTLSConfig config certs with
      | Done tlsConfig => Done (inl (MkClient config tlsConfig extraHeaders allowLaxDecoding))
      | Panic why => Panic why
      | Blocked why => Blocked why
      end
  end.

Definition NewClient (lib : Library) (config : HTTPClientConfiguration) : outcome (client + error) :=
  NewClientWithHeaders lib config [] false.

Definition encode_failed (err : error) : error :=
  Wrap (Some err) "HTTP_CLIENT_ENCODE_FAILED" "BUG: HTTP request encoding failed" [].

Definition connection_failed (method u : string) (err : error) : error :=
  Wrap (Some err) "HTTP_CLIENT_CONNECTION_FAILED" "HTTP %s request to %s failed" [VString method; VString u].

Section client.
Context {W : Type}.
(** [http.NewRequest] fails on a method or URL it cannot parse; [Do] sends. *)
Context (NewRequest : string → string → option error)
        (Do : http_Client → http_Request → prog W (http_Response + error)).
Context (c : client).

Definition add_header (h : http_Header) (kvs : string * list string) : http_Header :=
  foldl (λ h '(i, value), if decide (i = 0%nat) then Header_Set kvs.1 value h else Header_Add kvs.1 value h)
    h (zip (seq 0 (length kvs.2)) kvs.2).

Definition invalid_encoding : string :=
  Sprintf "invalid request encoding: %s" [VString (hc_RequestEncoding (cl_config c))].

(** [createRequestForURL] *)
Definition createRequestForURL (method u : string) (requestBody : option payload) : outcome (http_Request + error) :=
  let encoding := hc_RequestEncoding (cl_config c) in
  let buffer : outcome (content + error) :=
    match requestBody with
    | None => Done (inl NoContent)
    | Some body =>
        if decide (encoding = "" ∨ encoding = "JSON") then
          Done (match as_json body with inl j => inl (Document j) | inr err => inr (encode_failed err) end)
        else if decide (encoding = "WWW-URLENCODED") then
          Done (match as_form body with inl s => inl (Text s) | inr err => inr (encode_failed err) end)
        else Panic invalid_encoding
    end in
  match buffer with
  | Panic why => Panic why
  | Blocked why => Blocked why
  | Done (inr err) => Done (inr err)
  | Done (inl buffer) =>
      match NewRequest method u with
      | Some err => Done (inr (encode_failed err))
      | None =>
          let header := foldl add_header ∅ (cl_extraHeaders c) in
          if decide (encoding = "" ∨ encoding = "JSON") then
            Done (inl (MkHttpRequest method u
              (Header_Set "Accept" "application/json" (Header_Set "Content-Type" "application/json" header)) buffer))
          else if decide (encoding = "WWW-URLENCODED") then
            Done (inl (MkHttpRequest method u
              (Header_Set "Accept" "application/json"
                 (Header_Set "Content-Type" "application/x-www-form-urlencoded" header)) buffer))
          else Panic invalid_encoding
      end
  end.

Definition createHTTPClient : http_Client :=
  MkHttpClient (cl_tlsConfig c)
    (λ url,
       if negb (hc_AllowRedirects (cl_config c)) then
         Some (MsgError (Label "redirect" (VString url)
           (NewMessage "HTTP_CLIENT_REDIRECTS_DISABLED" "Redirects disabled, server tried to redirect to %s" [VString url])))
       else None)
    (hc_Timeout (cl_config c)).

Definition of_outcome {A} (o : outcome A) : prog W A :=
  λ w, match o with Done a => Done (a, w) | Panic why => Panic why | Blocked why => Blocked why end.

(** A response is read into a value by a decoder of its type, which is told
    whether to refuse unknown fields and returns what has been read, also next to
    an error; a nil [responseBody] is no decoder.  The status, the error, and the
    value when something was read. *)
Abbreviation decoder A := (option (bool → json → outcome (A * option error))).

Definition decode_failed (err : error) : error :=
  Wrap (Some err) "HTTP_CLIENT_DECODE_FAILED" "Failed to decode HTTP response" [].

Definition no_document : error := ErrorString "invalid character in JSON text".

Definition requestURLWithLogger {A} (method u : string) (requestBody : option payload) (responseBody : decoder A)
  : prog W (Z * option error * option A) :=
  let httpClient := createHTTPClient in
  let* req := of_outcome (createRequestForURL method u requestBody) in
  match req with
  | inr err => prog_ret (0, Some err, None)
  | inl req =>
      let* resp := Do httpClient req in
      match resp with
      | inr err =>
          match as_message err with
          | Some _ => prog_ret (0, Some err, None)
          | None => prog_ret (0, Some (connection_failed method u err), None)
          end
      | inl resp =>
          match rs_Body resp with
          | inr err => prog_ret (0, Some (connection_failed method u err), None)
          | inl body =>
              match responseBody with
              | None => prog_ret (rs_StatusCode resp, None, None)
              | Some decode =>
                  let* r := match body with
                            | None => prog_ret None
                            | Some j =>
                                let* r := of_outcome (decode (negb (cl_allowLaxDecoding c)) j) in prog_ret (Some r)
                            end in
                  match r with
                  | None => prog_ret (rs_StatusCode resp, Some (decode_failed no_document), None)
                  | Some (value, Some err) => prog_ret (rs_StatusCode resp, Some (decode_failed err), Some value)
                  | Some (value, None) => prog_ret (rs_StatusCode resp, None, Some value)
                  end
              end
          end
      end
  end.

Definition requestURL {A} (method u : string) (requestBody : option payload) (responseBody : decoder A)
  : prog W (Z * option error * option A) :=
  requestURLWithLogger method u requestBody responseBody.

Definition request {A} (method path : string) (requestBody : option payload) (responseBody : decoder A)
  : prog W (Z * option error * option A) :=
  requestURLWithLogger method (hc_URL (cl_config c) ++ path) requestBody responseBody.

Definition client_Get {A} (path : string) (responseBody : decoder A) := request "GET" path None responseBody.
Definition client_Post {A} (path : string) (requestBody : option payload) (responseBody : decoder A) :=
  request "POST" path requestBody responseBody.
Definition client_Put {A} (path : string) (requestBody : option payload) (responseBody : decoder A) :=
  request "PUT" path requestBody responseBody.
Definition client_Patch {A} (path : string) (requestBody : option payload) (responseBody : decoder A) :=
  request "PATCH" path requestBody responseBody.
Definition client_Delete {A} (path : string) (requestBody : option payload) (responseBody : decoder A) :=
  request "DELETE" path requestBody responseBody.
Definition client_Request {A} (method path : string) (requestBody : option payload) (responseBody : decoder A) :=
  request method path requestBody responseBody.
Definition client_RequestURL {A} (method url : string) (requestBody : option payload) (responseBody : decoder A) :=
  requestURL method url requestBody responseBody.
End client.

(** ** The handlers of a server *)

(** What a handler sees of a request: the path of its URL, its header, and what
    reading the body gives. *)
Record server_request := MkServerRequest {
  sr_Path : string;
  sr_Header : http_Header;
  sr_Body : option json + error;
}.

(** The dynamic type of a response body and what [json.Marshal] makes of it. *)
Inductive dynamic_type :=
| DTextMarshallable (text : string)
| DString (s : string)
| DInteger (z : Z)
| DBool (b : bool)
| DUintptr
| DOther.

Record body := MkBody {
  body_type : dynamic_type;
  body_json : json + error;
}.

Definition nil_body : body := MkBody DOther (inl JNull).

Record serverResponse := MkServerResponse {
  statusCode : Z;
  response_body : body;
}.

Definition error_body (text : string) : body := MkBody DOther (inl (JObject [("error", JString text)])).

Definition internalErrorResponse : serverResponse := MkServerResponse 500 (error_body "Internal Server Error").
Definition badRequestResponse : serverResponse := MkServerResponse 400 (error_body "Bad Request").

(** An error of a request handler: the response object [badRequestResponse],
    which is recognized by its identity, or another error. *)
Inductive request_error := BadRequest | Failed (err : error).

(** [internalRequest.Decode] *)
Definition Decode {A} (unmarshal : json → outcome (A + error)) (request : server_request)
  : outcome (A + request_error) :=
  match sr_Body request with
  | inr _ => Done (inr BadRequest)
  | inl None => Done (inr (Failed no_document))
  | inl (Some j) =>
      match unmarshal j with
      | Done (inl a) => Done (inl a)
      | Done (inr err) => Done (inr (Failed err))
      | Panic why => Panic why
      | Blocked why => Blocked why
      end
  end.

(** A request handler gets the response it may change and returns it. *)
Abbreviation RequestHandler W := (server_request → serverResponse → prog W (serverResponse * option request_error)).

(** *** Marshalling *)

Inductive responseMarshaller := jsonMarshaller | textMarshaller.

Definition SupportsMIME (m : responseMarshaller) (mime : string) : bool :=
  match m with
  | jsonMarshaller => bool_decide (mime ∈ ["application/json"; "application/*"; "*/*"])
  | textMarshaller => bool_decide (mime ∈ ["text/html"; "text/plain"; "text/*"; "*/*"])
  end.

Definition marshal_text (b : body) : outcome (string + error) :=
  match body_type b with
  | DTextMarshallable text => Done (inl text)
  | DString s => Done (inl s)
  | DInteger z => Done (inl (Sprintf "%d" [VInt z]))
  | DBool true => Done (inl "true")
  | DBool false => Done (inl "false")
  | DUintptr => Panic "reflect: call of reflect.Value.Elem on uintptr Value"
  | DOther => Done (inr (ErrorString "cannot marshal unknown type"))
  end.

Definition Marshaller_Marshal (m : responseMarshaller) (b : body) : outcome (content + error) :=
  match m with
  | jsonMarshaller => Done (match body_json b with inl j => inl (Document j) | inr err => inr err end)
  | textMarshaller =>
      match marshal_text b with
      | Done (inl s) => Done (inl (Text s))
      | Done (inr err) => Done (inr err)
      | Panic why => Panic why
      | Blocked why => Blocked why
      end
  end.

(** *** The response writer of [net/http]

    Only the first status is sent, and with it the header as it is then. *)
Record ResponseWriter := MkResponseWriter {
  rw_header : http_Header;
  rw_sent : option (Z * http_Header);
  rw_body : list content;
}.

Definition new_writer : ResponseWriter := MkResponseWriter ∅ None [].
Definition WriteHeader (code : Z) (rw : ResponseWriter) : ResponseWriter :=
  MkResponseWriter (rw_header rw)
    (match rw_sent rw with Some s => Some s | None => Some (code, rw_header rw) end) (rw_body rw).
Definition writer_AddHeader (key value : string) (rw : ResponseWriter) : ResponseWriter :=
  MkResponseWriter (Header_Add key value (rw_header rw)) (rw_sent rw) (rw_body rw).
Definition writer_Write (bytes : content) (rw : ResponseWriter) : ResponseWriter :=
  let rw := WriteHeader 200 rw in
  MkResponseWriter (rw_header rw) (rw_sent rw) (rw_body rw ++ [bytes]).

(** *** Content negotiation *)

(** [strings.SplitN(s, sep, 2)] *)
Fixpoint SplitN2 (s : string) (sep : ascii) : string * option string :=
  match s with
  | EmptyString => ("", None)
  | String c s' =>
      if decide (c = sep) then ("", Some s')
      else let '(a, b) := SplitN2 s' sep in (String c a, b)
  end.

Record http_handler (W : Type) := MkHttpHandler {
  requestHandler : RequestHandler W;
  defaultResponseMarshaller : responseMarshaller;
  defaultResponseType : string;
  responseMarshallers : list responseMarshaller;
}.
Arguments requestHandler {W} _.
Arguments defaultResponseMarshaller {W} _.
Arguments defaultResponseType {W} _.
Arguments responseMarshallers {W} _.
Arguments MkHttpHandler {W} _ _ _ _.

Definition NewServerHandler {W} (h : RequestHandler W) : http_handler W :=
  MkHttpHandler h jsonMarshaller "application/json" [jsonMarshaller].

Definition NewServerHandlerNegotiate {W} (h : RequestHandler W) : http_handler W :=
  MkHttpHandler h jsonMarshaller "application/json" [jsonMarshaller; textMarshaller].

Section handler.
Context {W : Type}.
(** Floating point numbers, for the quality of an accepted type. *)
Context {float : Type} (one : float) (greater : float → float → bool) (ParseFloat : string → option float).
Context (h : http_handler W).

(** One element of the [Accept] header: the type and its quality. *)
Definition parse_accept (accept : string) : option (string * float) :=
  match SplitN2 (TrimSpace accept) ";" with
  | (mime, None) => Some (mime, one)
  | (mime, Some parameter) =>
      match SplitN2 parameter "=" with
      | (name, Some value) =>
          if decide (name = "q") then (λ q, (mime, q)) <$> ParseFloat value else None
      | _ => None
      end
  end.

(** [sort.SliceStable] *)
Fixpoint insert_stable {A} (less : A → A → bool) (x : A) (l : list A) : list A :=
  match l with
  | [] => [x]
  | y :: l' => if less y x then y :: insert_stable less x l' else x :: l
  end.
Definition SliceStable {A} (less : A → A → bool) (l : list A) : list A := foldr (insert_stable less) [] l.

Definition findMarshaller (header : http_Header) : option responseMarshaller * string * Z :=
  let acceptHeader := Header_Get "Accept" header in
  if decide (acceptHeader = "") then (Some (defaultResponseMarshaller h), defaultResponseType h, 200)
  else
    match mapM parse_accept (Split acceptHeader ",") with
    | None => (None, defaultResponseType h, 400)
    | Some accepted =>
        let acceptMap : gmap string float := list_to_map (reverse accepted) in
        let quality mime := default one (acceptMap !! mime) in
        let acceptList := SliceStable (λ a b, greater (quality a) (quality b)) (fst <$> accepted) in
        let pairs := a ← acceptList; m ← responseMarshallers h; [(a, m)] in
        match filter (λ p : string * responseMarshaller, SupportsMIME p.2 p.1 = true) pairs with
        | (a, m) :: _ => (Some m, a, 200)
        | [] => (None, defaultResponseType h, 406)
        end
    end.

(** [handler.ServeHTTP]; errors of writing are only logged. *)
Definition ServeHTTP (request : server_request) (writer : ResponseWriter) : prog W ResponseWriter :=
  let* '(response, err) := requestHandler h request (MkServerResponse 200 nil_body) in
  let response :=
    match err with
    | None => response
    | Some BadRequest => badRequestResponse
    | Some (Failed _) => internalErrorResponse
    end in
  let '(marshaller, responseType, status) := findMarshaller (sr_Header request) in
  let writer := if decide (status ≠ 200) then WriteHeader status writer else writer in
  match marshaller with
  | None => panic nil_pointer
  | Some m =>
      let* bytes := of_outcome (Marshaller_Marshal m (response_body response)) in
      let '(response, bytes) :=
        match bytes with
        | inl bytes => (response, bytes)
        | inr _ =>
            (internalErrorResponse,
             match body_json (response_body internalErrorResponse) with inl j => Document j | inr _ => NoContent end)
        end in
      let writer := WriteHeader (statusCode response) writer in
      let writer := writer_AddHeader "Content-Type" responseType writer in
      prog_ret (writer_Write bytes writer)
  end.
End handler.

(** ** The server as a service *)

Record http_server := MkHttpServer {
  srv_lock : bool;
  srv_running : bool;
}.

Section server.
Context {W : Type} `{!Field W http_server}.
(** [net.Listen], [http.Server.Serve] and [Shutdown]; [lifecycle.Running] and
    [onReady] are calls. *)
Context (Listen : string → prog W (option error)) (Serve : bool → prog W (option error)) (Close_listener : prog W unit)
        (Shutdown : prog W unit) (Running : prog W unit) (onReady : string → prog W unit).
Context (config : HTTPServerConfiguration) (tlsConfig : option tls_Config).

Definition srv : prog W http_server := λ w, Done (fget w, w).
Definition srv_put (s : http_server) : prog W unit := λ w, Done (tt, fset s w).

Definition server_Lock : prog W unit :=
  let* s := srv in if srv_lock s then block "server.lock" else srv_put (MkHttpServer true (srv_running s)).
Definition server_Unlock : prog W unit :=
  let* s := srv in srv_put (MkHttpServer false (srv_running s)).
Definition set_running (b : bool) : prog W unit :=
  let* s := srv in srv_put (MkHttpServer (srv_lock s) b).

(** The deferred function that forgets the server. *)
Definition forget_server : prog W unit :=
  do* server_Lock in do* set_running false in server_Unlock.

(** [Serve] ends without an error when the server was shut down. *)
Definition server_RunWithLifecycle : prog W (option error) :=
  do* server_Lock in
  let* s := srv in
  if srv_running s then prog_ret (Some (ErrorString "server is already running"))
  else
    do* set_running true in
    let* err := Listen (hs_Listen config) in
    match err with
    | Some e =>
        do* server_Unlock in
        do* forget_server in
        prog_ret (Some (Wrap (Some e) "HTTP_LISTEN_FAILED" "Failed to listen on %s" [VString (hs_Listen config)]))
    | None =>
        let tls := match tlsConfig with Some _ => true | None => false end in
        do* onReady (Sprintf (if tls then "https://%s" else "http://%s") [VString (hs_Listen config)]) in
        do* Running in
        do* server_Unlock in
        let* err := Serve tls in
        do* Close_listener in
        do* forget_server in
        prog_ret err
    end.

(** The goroutine that waits for the end of the lifecycle's context. *)
Definition server_stopped : prog W unit :=
  do* server_Lock in
  let* s := srv in
  if srv_running s then do* server_Unlock in Shutdown else server_Unlock.
End server.

(** [createServerTLSConfig] and [NewServer]: TLS is used when there is a
    certificate; client certificates are required when their CA is given. *)
Definition createServerTLSConfig (config : HTTPServerConfiguration) (cert : list byte * list byte) (clientCA : option CertPool)
  : outcome tls_Config :=
  match GetTLSVersion (hs_TLSVersion config), ECDHCurveList_GetList (hs_ECDHCurves config),
        CipherSuiteList_GetList (hs_CipherSuites config) with
  | Done version, Done curves, Done suites =>
      Done (MkTLSConfig version curves suites None [cert] clientCA
              (match clientCA with Some _ => true | None => false end))
  | Panic why, _, _ | Done _, Panic why, _ | Done _, Done _, Panic why => Panic why
  | Blocked why, _, _ | Done _, Blocked why, _ | Done _, Done _, Blocked why => Blocked why
  end.

Definition NewServer (lib : Library) (config : HTTPServerConfiguration) : outcome ((HTTPServerConfiguration * option tls_Config) + error) :=
  match HTTPServer_ValidateWithCerts lib config with
  | inr err => Done (inr err)
  | inl certs =>
      match server_Cert certs with
      | None => Done (inl (config, None))
      | Some cert =>
          match createServerTLSConfig config cert (ClientCAPool certs) with
          | Done tlsConfig => Done (inl (config, Some tlsConfig))
          | Panic why => Panic why
          | Blocked why => Blocked why
          end
      end
  end.
