(* ===== verification/ConfigSSH.v ===== *)
(** * SSH server and SSH proxy configuration

    [config/ssh.go] and [config/sshproxy.go]: the algorithm names, the versions
    sent to the other side, loading of keys and validation. *)

From stdpp Require Import base gmap strings list.
From Stdlib Require Import Ascii Strings.Byte.
From S2P Require Import Prelude Messages GoStrings ConfigHTTP.

Local Open Scope Z_scope.

(** ** Algorithms *)

(** A name is checked against the list of supported ones; the empty name has an
    error of its own. *)
Definition validate_algorithm (empty_ format : string) (supported : list string) (k : string) : option error :=
  if decide (k = "") then Some (Errorf empty_ [])
  else if decide (k ∈ supported) then None
  else Some (Errorf format [VString k]).

Definition supportedKexAlgos : list string :=
  ["curve25519-sha256@libssh.org"; "ecdh-sha2-nistp256"; "ecdh-sha2-nistp384"; "ecdh-sha2-nistp521";
   "diffie-hellman-group1-sha1"; "diffie-hellman-group14-sha1"].

Definition SSHKex_Validate : string → option error :=
  validate_algorithm "empty key exchange algorithm" "key exchange algorithm not supported: %s" supportedKexAlgos.

Definition SSHKexList_Validate (k : list string) : option error :=
  if decide (length k = 0%nat) then Some (Errorf "the key exchange list cannot be empty" [])
  else validate_each SSHKex_Validate k None.

Definition supportedHostKeyAlgos : list string :=
  ["ssh-rsa-cert-v01@openssh.com"; "ssh-dss-cert-v01@openssh.com"; "ecdsa-sha2-nistp256-cert-v01@openssh.com";
   "ecdsa-sha2-nistp384-cert-v01@openssh.com"; "ecdsa-sha2-nistp521-cert-v01@openssh.com";
   "ssh-ed25519-cert-v01@openssh.com"; "ssh-rsa"; "ssh-dss"; "ssh-ed25519"].

Definition SSHKeyAlgo_Validate : string → option error :=
  validate_algorithm "empty host key algorithm" "unsupported host key algorithm: %s" supportedHostKeyAlgos.

Definition SSHKeyAlgoList_Validate (h : list string) : option error :=
  if decide (length h = 0%nat) then Some (Errorf "host key algorithm list cannot be empty" [])
  else validate_each SSHKeyAlgo_Validate h None.

Definition SSHKeyAlgoListFromStringList (hostKeyAlgorithms : list string) : list string * option error :=
  (hostKeyAlgorithms, SSHKeyAlgoList_Validate hostKeyAlgorithms).

Definition MustSSHKeyAlgoListFromStringList (hostKeyAlgorithms : list string) : outcome (list string) :=
  let '(l, err) := SSHKeyAlgoListFromStringList hostKeyAlgorithms in
  match err with Some e => Panic (Error e) | None => Done l end.

Definition supportedMACs : list string :=
  ["hmac-sha2-256-etm@openssh.com"; "hmac-sha2-256"; "hmac-sha1-96"; "hmac-sha1"].

Definition SSHMAC_Validate : string → option error :=
  validate_algorithm "empty SSHMAC" "SSHMAC not supported: %s" supportedMACs.

Definition SSHMACList_Validate (m : list string) : option error :=
  if decide (length m = 0%nat) then Some (Errorf "empty SSHMAC list" [])
  else validate_each (λ mac, or_return (SSHMAC_Validate mac) (wrap_error "invalid SSHMAC") None) m None.

Definition supportedCiphers : list string :=
  ["chacha20-poly1305@openssh.com"; "aes256-gcm@openssh.com"; "aes128-gcm@openssh.com"; "aes256-ctr"; "aes192-ctr";
   "aes128-ctr"; "aes128-cbc"; "arcfour256"; "arcfour128"; "arcfour"; "tripledescbcID"].

Definition SSHCipher_Validate : string → option error :=
  validate_algorithm "empty cipher name" "invalid cipher name: %s" supportedCiphers.

(** An empty list of ciphers is accepted. *)
Definition SSHCipherList_Validate (c : list string) : option error :=
  if decide (length c = 0%nat) then None else validate_each SSHCipher_Validate c None.

(** ** Version strings *)

(** [^SSH-2.0-[!-,.-~]+( [a-zA-Z0-9- _.]+)?$]; the dot stands for any character. *)
Definition comment_class (c : ascii) : bool := alphanumeric c || one_of "- _." c.
Definition software_class (c : ascii) : bool := in_range 33 44 c || in_range 46 126 c.

Definition serverVersionRegexp : regexp :=
  RSeq (RLit "SSH-2") (RSeq RDot (RSeq (RLit "0-") (RSeq (RPlus (RClass software_class))
    (ROpt (RSeq (RLit " ") (RPlus (RClass comment_class))))))).

Definition serverVersionMaxLen : nat := 253.

Definition SSHServerVersion_Validate (s : string) : option error :=
  if decide (serverVersionMaxLen < String.length s)%nat then
    Some (Errorf "invalid server version string (%s), see https://tools.ietf.org/html/rfc4253#page-4 section 4.2. for details" [VString s])
  else if negb (MatchString serverVersionRegexp s) then
    Some (Errorf "invalid server version string (%s), see https://tools.ietf.org/html/rfc4253#page-4 section 4.2. for details" [VString s])
  else None.

(** [^SSH-2.0-[a-zA-Z0-9]+(| [a-zA-Z0-9- _.]+)$] *)
Definition clientVersionRegexp : regexp :=
  RSeq (RLit "SSH-2") (RSeq RDot (RSeq (RLit "0-") (RSeq (RPlus (RClass alphanumeric))
    (RAlt REmpty (RSeq (RLit " ") (RPlus (RClass comment_class))))))).

Definition SSHProxyClientVersion_Validate (s : string) : option error :=
  if negb (MatchString clientVersionRegexp s) then
    Some (Errorf "invalid client version string (%s), see https://tools.ietf.org/html/rfc4253#page-4 section 4.2. for details" [VString s])
  else None.

(** [^SSH256:[a-zA-Z0-9/+]+$] *)
Definition fingerprintValidator : regexp :=
  RSeq (RLit "SSH256:") (RPlus (RClass (λ c, alphanumeric c || one_of "/+" c))).

Definition SSHProxyAllowedHostKeyFingerprints_Validate (a : list string) : option error :=
  if decide (length a = 0%nat) then Some (Errorf "no host keys provided" [])
  else validate_each (λ fp, if negb (MatchString fingerprintValidator fp)
                           then Some (Errorf "invalid fingerprint: %s (must start with SHA256:)" [VString fp]) else None)
         a None.

(** ** Keys *)

(** Files and private keys: opening, reading and closing a file; parsing gives a
    reference to the signer and the type of its public key. *)
Record KeyLibrary := MkKeyLibrary {
  os_Open : string → option error;
  io_ReadAll : string → string + error;
  fh_Close : string → option error;
  ssh_ParsePrivateKey : string → (nat * string) + error;
}.

Section keys.
Context (keys : KeyLibrary).

(** [s[:5]] *)
Definition slice5 (s : string) : outcome string :=
  if decide (String.length s < 5)%nat
  then Panic (Sprintf "runtime error: slice bounds out of range [:5] with length %d" [VInt (Z.of_nat (String.length s))])
  else Done (String.substring 0 5 s).

(** The key as text: the value itself, or the contents of the file it names;
    [unopened], [failed] and [unclosed] are the messages for the errors. *)
Definition key_text (unopened failed unclosed : string) (hostKey : string) : outcome (string + error) :=
  match slice5 (TrimSpace hostKey) with
  | Panic s => Panic s
  | Blocked s => Blocked s
  | Done start =>
      Done
        (if decide (start = "-----") then inl hostKey
         else
           match os_Open keys hostKey with
           | Some err => inr (WrapError (Sprintf unopened [VString hostKey; VString (Error err)]) err)
           | None =>
               match io_ReadAll keys hostKey with
               | inr err => inr (WrapError (Sprintf failed [VString hostKey; VString (Error err)]) err)
               | inl data =>
                   match fh_Close keys hostKey with
                   | Some err => inr (WrapError (Sprintf unclosed [VString hostKey; VString (Error err)]) err)
                   | None => inl data
                   end
               end
           end)
  end.

(** One round of the loop of [LoadHostKeys]. *)
Definition load_host_key (index : nat) (hostKey : string) : outcome (nat + error) :=
  match key_text "failed to load host key %s (%w)" "failed to load host key %s (%w)"
    "failed to close host key file %s (%w)" hostKey with
  | Panic s => Panic s
  | Blocked s => Blocked s
  | Done (inr err) => Done (inr err)
  | Done (inl hostKey) =>
      Done
        match ssh_ParsePrivateKey keys hostKey with
        | inr err => inr (wrap_error "failed to parse host key" err)
        | inl (private, keyType) =>
            match SSHKeyAlgo_Validate keyType with
            | Some _ => inr (Errorf "unsupported host key algorithm %s on host key %d" [VString keyType; VInt (Z.of_nat index)])
            | None => inl private
            end
        end
  end.

Fixpoint load_host_keys (index : nat) (hostKeys : list string) : outcome (list nat + error) :=
  match hostKeys with
  | [] => Done (inl [])
  | k :: rest =>
      match load_host_key index k with
      | Panic s => Panic s
      | Blocked s => Blocked s
      | Done (inr err) => Done (inr err)
      | Done (inl private) =>
          match load_host_keys (S index) rest with
          | Done (inl l) => Done (inl (private :: l))
          | r => r
          end
      end
  end.

(** ** The configurations *)

Record SSHConfig := MkSSHConfig {
  Listen : string;
  ServerVersion : string;
  Ciphers : list string;
  KexAlgorithms : list string;
  MACs : list string;
  Banner : string;
  cfg_HostKeys : list string;
  ClientAliveInterval : Z;
  ClientAliveCountMax : Z;
}.

Definition LoadHostKeys (cfg : SSHConfig) : outcome (list nat + error) := load_host_keys 0 (cfg_HostKeys cfg).

Definition SSHConfig_Validate (cfg : SSHConfig) : option error :=
  check_field (SSHServerVersion_Validate (ServerVersion cfg)) "serverVersion"
  (check_field (SSHCipherList_Validate (Ciphers cfg)) "ciphers"
  (check_field (SSHKexList_Validate (KexAlgorithms cfg)) "kex"
  (check_field (SSHMACList_Validate (MACs cfg)) "macs"
  (if decide (ClientAliveInterval cfg ≠ 0 ∧ ClientAliveInterval cfg < 1 * Second)
   then Some (newError "clientAliveInterval" "clientAliveInterval should be at least 1 second long" [])
   else if decide (ClientAliveCountMax cfg ≤ 0)
   then Some (newError "clientAliveCountMax" "clientAliveCountMax should be at least 1" [])
   else None)))).

Record SSHProxyConfig := MkSSHProxyConfig {
  px_Server : string;
  px_Port : Z;
  px_UsernamePassThrough : bool;
  px_Username : string;
  px_Password : string;
  px_PrivateKey : string;
  px_AllowedHostKeyFingerprints : list string;
  px_Ciphers : list string;
  px_KexAlgorithms : list string;
  px_MACs : list string;
  px_HostKeyAlgorithms : list string;
  px_Timeout : Z;
  px_ClientVersion : string;
}.

Definition SSHProxyConfig_Validate (c : SSHProxyConfig) : option error :=
  if decide (px_Server c = "") then Some (newError "server" "server cannot be empty" [])
  else if decide (px_Username c = "" ∧ px_UsernamePassThrough c = false)
  then Some (newError "username" "username cannot be empty when usernamePassThrough is not set" [])
  else if decide (length (px_AllowedHostKeyFingerprints c) = 0%nat)
  then Some (newError "allowedHostKeyFingerprints" "allowedHostKeyFingerprints cannot be empty" [])
  else
    check_field (SSHCipherList_Validate (px_Ciphers c)) "ciphers"
    (check_field (SSHKexList_Validate (px_KexAlgorithms c)) "kex"
    (check_field (SSHMACList_Validate (px_MACs c)) "macs"
    (check_field (SSHKeyAlgoList_Validate (px_HostKeyAlgorithms c)) "hostKeyAlgos"
    (check_field (SSHProxyClientVersion_Validate (px_ClientVersion c)) "clientVersion" None)))).

Definition LoadPrivateKey (c : SSHProxyConfig) : outcome (option nat + error) :=
  if decide (px_PrivateKey c = "") then Done (inl None)
  else
    match key_text "failed load private key %s (%w)" "failed to load private key %s (%w)"
      "failed to close host key file %s (%w)" (px_PrivateKey c) with
    | Panic s => Panic s
    | Blocked s => Blocked s
    | Done (inr err) => Done (inr err)
    | Done (inl privateKey) =>
        Done
          match ssh_ParsePrivateKey keys privateKey with
          | inr err => inr (wrap_error "failed to parse private key" err)
          | inl (private, keyType) =>
              match SSHKeyAlgo_Validate keyType with
              | Some _ => inr (Errorf "unsupported host key algorithm %s" [VString keyType])
              | None => inl (Some private)
              end
          end
    end.

End keys.

(** ** Theorems *)

Lemma validate_algorithm_None empty_ format supported k :
  "" ∉ supported → validate_algorithm empty_ format supported k = None ↔ k ∈ supported.
Proof. intros H. unfold validate_algorithm. repeat case_decide; set_solver. Qed.

(** One byte, or the bytes of one character. *)
Lemma RDot_matches_dot : matches RDot ".".
Proof. apply MatchString_matches. vm_compute. reflexivity. Qed.

(** The version a server announces: [SSH-2.0-] and a nonempty name of printable
    characters other than spaces and dashes, then optionally a space and a
    comment. *)
Definition proper_version (s : string) : Prop :=
  ∃ name comment,
    s = ("SSH-2.0-" ++ name ++ comment)%string ∧
    name ≠ "" ∧ Forall (λ c, software_class c = true) (String.list_ascii_of_string name) ∧
    (comment = "" ∨ ∃ t, comment = (" " ++ t)%string ∧ t ≠ "" ∧
       Forall (λ c, comment_class c = true) (String.list_ascii_of_string t)).

Lemma optional_comment t :
  matches (ROpt (RSeq (RLit " ") (RPlus (RClass comment_class)))) t ↔
  t = "" ∨ (∃ u, t = (" " ++ u)%string ∧ u ≠ "" ∧
    Forall (λ c, comment_class c = true) (String.list_ascii_of_string u)).
Proof.
  rewrite ROpt_matches, RSeq_matches. split.
  - intros [->|(a & b & -> & Ha & Hb)]; [by left|]. right. apply RLit_matches in Ha as ->.
    apply RPlus_class in Hb. by exists b.
  - intros [->|(u & -> & Hu)]; [by left|]. right. exists " ", u. split; [done|].
    split; [by apply RLit_matches | by apply RPlus_class].
Qed.

(** Every proper version of at most 253 bytes is accepted. *)
Lemma proper_version_accepted s :
  proper_version s → (String.length s ≤ serverVersionMaxLen)%nat → SSHServerVersion_Validate s = None.
Proof.
  intros (name & comment & -> & Hn & Hc & Ht) Hl. unfold SSHServerVersion_Validate.
  case_decide; [lia|].
  assert (MatchString serverVersionRegexp ("SSH-2.0-" ++ name ++ comment) = true) as ->; [|done].
  apply MatchString_matches. unfold serverVersionRegexp.
  change ("SSH-2.0-" ++ name ++ comment)%string with ("SSH-2" +:+ ("." +:+ ("0-" +:+ (name +:+ comment)))).
  repeat apply m_seq; [by apply RLit_matches | apply RDot_matches_dot | by apply RLit_matches | by apply RPlus_class |].
  by apply optional_comment.
Qed.

(** What is accepted has this form up to the character in the place of the
    dot. *)
Lemma accepted_version_form s :
  SSHServerVersion_Validate s = None →
  (String.length s ≤ serverVersionMaxLen)%nat ∧
  ∃ dot name comment,
    s = ("SSH-2" ++ dot ++ "0-" ++ name ++ comment)%string ∧ matches RDot dot ∧
    name ≠ "" ∧ Forall (λ c, software_class c = true) (String.list_ascii_of_string name) ∧
    (comment = "" ∨ ∃ t, comment = (" " ++ t)%string ∧ t ≠ "" ∧
       Forall (λ c, comment_class c = true) (String.list_ascii_of_string t)).
Proof.
  unfold SSHServerVersion_Validate. case_decide as Hl; [done|].
  destruct (MatchString serverVersionRegexp s) eqn:E; [|done]. intros _. split; [lia|].
  apply MatchString_matches in E. unfold serverVersionRegexp in E.
  apply RSeq_matches in E as (a1 & b1 & -> & H1 & E). apply RSeq_matches in E as (dot & b2 & -> & Hd & E).
  apply RSeq_matches in E as (a3 & b3 & -> & H3 & E). apply RSeq_matches in E as (name & comment & -> & Hn & Hc).
  apply RLit_matches in H1 as ->. apply RLit_matches in H3 as ->. apply RPlus_class in Hn as [Hn Hnc].
  exists dot, name, comment. split_and!; try done. by apply optional_comment.
Qed.

(** The version check: every proper version of at most 253 bytes is accepted;
    whatever is accepted is one up to the character in the place of the dot, so
    it contains no line break after that place; and since the dot is not quoted
    a version such as [SSH-2x0-Go] is accepted too. *)
Theorem server_version_check s :
  (proper_version s → (String.length s ≤ serverVersionMaxLen)%nat → SSHServerVersion_Validate s = None) ∧
  (SSHServerVersion_Validate s = None →
   (String.length s ≤ serverVersionMaxLen)%nat ∧
   ∃ dot name comment,
     s = ("SSH-2" ++ dot ++ "0-" ++ name ++ comment)%string ∧ matches RDot dot ∧
     name ≠ "" ∧ Forall (λ c, software_class c = true) (String.list_ascii_of_string name) ∧
     (comment = "" ∨ ∃ t, comment = (" " ++ t)%string ∧ t ≠ "" ∧
        Forall (λ c, comment_class c = true) (String.list_ascii_of_string t))) ∧
  SSHServerVersion_Validate "SSH-2x0-Go" = None.
Proof.
  split; [apply proper_version_accepted|]. split; [apply accepted_version_form|]. vm_compute. reflexivity.
Qed.

(** A host key given as text shorter than five characters, such as a short file
    name, makes loading panic instead of returning an error. *)
Theorem short_host_key_panics keys cfg k rest :
  cfg_HostKeys cfg = k :: rest → (String.length (TrimSpace k) < 5)%nat →
  ∃ why, LoadHostKeys keys cfg = Panic why.
Proof.
  intros E Hl. unfold LoadHostKeys. rewrite E. cbn. unfold load_host_key, key_text, slice5.
  case_decide; [|lia]. by eexists.
Qed.

Lemma short_host_key_panics_witness :
  ∃ why, LoadHostKeys (MkKeyLibrary (λ _, None) (λ _, inl "") (λ _, None) (λ _, inr (ErrorString "")))
           (MkSSHConfig "" "" [] [] [] "" ["key"] 0 0) = Panic why.
Proof. apply (short_host_key_panics _ _ "key" []); [reflexivity|vm_compute; lia]. Defined.
