(* ===== verification/ConfigAuth.v ===== *)
(** * Authentication configuration

    [config/auth.go]: which authenticator is used for which method, the
    configuration of webhooks, OAuth2, Kerberos and authorization, reading of the
    legacy format, and validation. *)

From stdpp Require Import base gmap strings list.
From S2P Require Import Prelude Messages GoStrings ConfigHTTP.

Local Open Scope Z_scope.

(** ** Methods *)

Definition AuthMethodDisabled : string := "".
Definition AuthMethodWebhook : string := "webhook".
Definition AuthMethodOAuth2 : string := "oauth2".
Definition AuthMethodKerberos : string := "kerberos".

Definition AuthMethod_Validate (m : string) : option error :=
  if decide (m = AuthMethodWebhook ∨ m = AuthMethodOAuth2 ∨ m = AuthMethodKerberos) then None
  else Some (Errorf "invalid value for method: %s" [VString m]).

Definition PasswordAuthMethod_Validate (m : string) : option error :=
  if decide (m = AuthMethodDisabled ∨ m = AuthMethodWebhook ∨ m = AuthMethodKerberos) then None
  else Some (Errorf "invalid value for method: %s" [VString m]).

Definition PublicKeyAuthMethod_Validate (m : string) : option error :=
  if decide (m = AuthMethodDisabled ∨ m = AuthMethodWebhook) then None
  else Some (Errorf "invalid value for method: %s" [VString m]).

Definition KeyboardInteractiveAuthMethod_Validate (m : string) : option error :=
  if decide (m = AuthMethodDisabled ∨ m = AuthMethodOAuth2) then None
  else Some (Errorf "invalid value for method for keyboard-interactive authentication: %s" [VString m]).

Definition GSSAPIAuthMethod_Validate (m : string) : option error :=
  if decide (m = AuthMethodDisabled ∨ m = AuthMethodKerberos) then None
  else Some (Errorf "invalid value for method for GSSAPI authentication: %s" [VString m]).

Definition AuthzMethod_Validate (m : string) : option error :=
  if decide (m = AuthMethodDisabled ∨ m = AuthMethodWebhook) then None
  else Some (Errorf "invalid value for method for authorization: %s" [VString m]).

(** ** The configurations *)

Record AuthWebhookClientConfig := MkAuthWebhookClientConfig {
  wh_HTTP : HTTPClientConfiguration;
  wh_AuthTimeout : Z;
}.

Record AuthKerberosClientConfig := MkAuthKerberosClientConfig {
  krb_Keytab : string;
  krb_Acceptor : string;
  krb_EnforceUsername : bool;
  krb_CredentialCachePath : string;
  krb_ConfigPath : string;
  krb_ClockSkew : Z;
}.

Record OAuth2RedirectConfig := MkOAuth2RedirectConfig {
  redirect_HTTP : HTTPServerConfiguration;
  redirect_Webroot : string;
}.

Record AuthGitHubConfig := MkAuthGitHubConfig {
  gh_CACert : string;
  gh_URL : string;
  gh_APIURL : string;
  gh_ClientCert : string;
  gh_ClientKey : string;
  gh_TLSVersion : string;
  gh_ECDHCurves : list string;
  gh_CipherSuites : list string;
  gh_EnforceUsername : bool;
  gh_RequireOrgMembership : string;
  gh_Require2FA : bool;
  gh_ExtraScopes : list string;
  gh_EnforceScopes : bool;
  gh_RequestTimeout : Z;
}.

Record AuthOIDCConfig := MkAuthOIDCConfig {
  oidc_HTTP : HTTPClientConfiguration;
  oidc_DeviceFlow : bool;
  oidc_AuthorizationCodeFlow : bool;
  oidc_UsernameField : string;
  oidc_RedirectURI : string;
}.

Record AuthGenericConfig := MkAuthGenericConfig {
  gen_AuthorizeEndpointURL : string;
  gen_TokenEndpoint : HTTPClientConfiguration;
  gen_RedirectURI : string;
}.

Record AuthOAuth2ClientConfig := MkAuthOAuth2ClientConfig {
  oa_Redirect : OAuth2RedirectConfig;
  oa_ClientID : string;
  oa_ClientSecret : string;
  oa_Provider : string;
  oa_GitHub : AuthGitHubConfig;
  oa_OIDC : AuthOIDCConfig;
  oa_Generic : AuthGenericConfig;
  oa_QRCodeClients : list string;
  oa_DeviceFlowClients : list string;
  oa_AuthTimeout : Z;
}.

Record PasswordAuthConfig := MkPasswordAuthConfig {
  pw_Method : string;
  pw_Webhook : AuthWebhookClientConfig;
  pw_Kerberos : AuthKerberosClientConfig;
}.

Record PublicKeyAuthConfig := MkPublicKeyAuthConfig {
  pk_Method : string;
  pk_Webhook : AuthWebhookClientConfig;
}.

Record KeyboardInteractiveAuthConfig := MkKeyboardInteractiveAuthConfig {
  kbd_Method : string;
  kbd_OAuth2 : AuthOAuth2ClientConfig;
}.

Record GSSAPIAuthConfig := MkGSSAPIAuthConfig {
  gss_Method : string;
  gss_Kerberos : AuthKerberosClientConfig;
}.

Record AuthzConfig := MkAuthzConfig {
  authz_Method : string;
  authz_Webhook : AuthWebhookClientConfig;
}.

Record AuthConfig := MkAuthConfig {
  PasswordAuth : PasswordAuthConfig;
  PublicKeyAuth : PublicKeyAuthConfig;
  KeyboardInteractiveAuth : KeyboardInteractiveAuthConfig;
  GSSAPIAuth : GSSAPIAuthConfig;
  Authz : AuthzConfig;
  AuthTimeout : Z;
  AuthHTTP : HTTPClientConfiguration;
  Password : option bool;
  PubKey : option bool;
}.

(** ** Reading the configuration *)

(** [legacyAuthConfig.Set] and [newAuthConfig.Set] copy the same fields; the
    temporary structures have the fields of [AuthConfig]. *)
Definition AuthConfig_Set (l c : AuthConfig) : AuthConfig :=
  MkAuthConfig (PasswordAuth l) (PublicKeyAuth l) (KeyboardInteractiveAuth l) (GSSAPIAuth l) (Authz l)
    (AuthTimeout c) (AuthHTTP l) (Password l) (PubKey l).

(** [UnmarshalJSON] and [UnmarshalYAML]: [legacy] and [new] are the results of
    decoding the document into the two structures; the legacy one is tried
    first. *)
Definition AuthConfig_Unmarshal (legacy new : AuthConfig + error) (c : AuthConfig) : AuthConfig * option error :=
  match legacy with
  | inl legacyConfig => (AuthConfig_Set legacyConfig c, None)
  | inr _ =>
      match new with
      | inr err => (c, Some err)
      | inl newConfig => (AuthConfig_Set newConfig c, None)
      end
  end.

(** ** Validation *)

Section validate.
Context (lib : Library).

Definition AuthWebhookClientConfig_Validate (c : AuthWebhookClientConfig) : option error :=
  if decide (wh_AuthTimeout c < 100 * Millisecond) then
    Some (newError "timeout" "auth timeout value %s is too low, must be at least 100ms"
            [VString (Duration_String lib (wh_AuthTimeout c))])
  else HTTPClient_Validate lib (wh_HTTP c).

(** The option name and the message are passed in each other's place. *)
Definition AuthKerberosClientConfig_Validate (k : AuthKerberosClientConfig) : option error :=
  match os_Stat lib (krb_Keytab k) with
  | inr err => wrapWithMessage (Some err) "keytab file %s does not exist or is inaccessible" (krb_Keytab k) []
  | inl _ => None
  end.

Definition PasswordAuthConfig_Validate (c : PasswordAuthConfig) : option error :=
  or_return (PasswordAuthMethod_Validate (pw_Method c)) (wrap_error "invalid method for password authentication")
  (if decide (pw_Method c = AuthMethodDisabled) then None
   else if decide (pw_Method c = AuthMethodWebhook) then AuthWebhookClientConfig_Validate (pw_Webhook c)
   else if decide (pw_Method c = AuthMethodKerberos) then AuthKerberosClientConfig_Validate (pw_Kerberos c)
   else Some (Errorf "BUG: unsupported password authenticator: %s" [VString (pw_Method c)])).

Definition PublicKeyAuthConfig_Validate (c : PublicKeyAuthConfig) : option error :=
  or_return (PublicKeyAuthMethod_Validate (pk_Method c)) (wrap_error "invalid public key authentication configuration")
  (if decide (pk_Method c = AuthMethodDisabled) then None
   else if decide (pk_Method c = AuthMethodWebhook) then AuthWebhookClientConfig_Validate (pk_Webhook c)
   else Some (Errorf "BUG: unsupported public key authenticator: %s" [VString (pk_Method c)])).

Definition OAuth2ProviderName_Validate (o : string) : option error :=
  if decide (o ∈ ["github"; "oidc"; "generic"]) then None else Some (Errorf "invalid oAuth2 provider" []).

(** [path.Join] of a directory and a file name, cleaned by the library. *)
Context (path_Join : string → string → string).

Definition OAuth2RedirectConfig_Validate (o : OAuth2RedirectConfig) : option error :=
  match HTTPServer_Validate lib (redirect_HTTP o) with
  | Some err => Some err
  | None =>
      if decide (redirect_Webroot o ≠ "") then
        match os_Stat lib (redirect_Webroot o) with
        | inr err => wrap (Some err) "webroot"
        | inl isDir =>
            if negb isDir then Some (newError "webroot" "invalid webroot (not a directory)" [])
            else
              match os_Stat lib (path_Join (redirect_Webroot o) "index.html") with
              | inr err => wrapWithMessage (Some err) "webroot" "webroot does not contain an index.html file" []
              | inl indexIsDir =>
                  if (indexIsDir : bool) then
                    Some (newError "webroot" "webroot does not contain an index.html file (index.html is a directory)" [])
                  else None
              end
        end
      else None
  end.

Definition AuthGitHubConfig_Validate (c : AuthGitHubConfig) : option error :=
  check_field (url_Parse lib (gh_URL c)) "url" None.

Definition AuthOIDCConfig_Validate (o : AuthOIDCConfig) : option error :=
  if decide (oidc_DeviceFlow o = false ∧ oidc_AuthorizationCodeFlow o = false) then
    Some (Errorf "at least one of deviceFlow or authorizationCodeFlow must be enabled" [])
  else if decide (oidc_AuthorizationCodeFlow o = true ∧ oidc_RedirectURI o = "") then
    wrap (Some (Errorf "redirectURI is required if the authorization code flow is enabled" [])) "redirectURI"
  else HTTPClient_Validate lib (oidc_HTTP o).

Definition AuthGenericConfig_Validate (o : AuthGenericConfig) : option error :=
  match url_ParseRequestURI lib (gen_AuthorizeEndpointURL o) with
  | Some _ => Some (newError "authorizeEndpointURL" "invalid URL: %s" [VString (gen_AuthorizeEndpointURL o)])
  | None =>
      match url_ParseRequestURI lib (gen_RedirectURI o) with
      | Some _ => Some (newError "redirectURI" "invalid URL: %s" [VString (gen_RedirectURI o)])
      | None => check_field (HTTPClient_Validate lib (gen_TokenEndpoint o)) "tokenEndpoint" None
      end
  end.

Definition AuthOAuth2ClientConfig_Validate (o : AuthOAuth2ClientConfig) : option error :=
  check_field (OAuth2RedirectConfig_Validate (oa_Redirect o)) "redirect"
  (if decide (oa_ClientID o = "") then Some (newError "clientId" "empty client ID" [])
   else if decide (oa_ClientSecret o = "") then Some (newError "clientSecret" "empty client secret" [])
   else
     check_field (OAuth2ProviderName_Validate (oa_Provider o)) "provider"
     (if decide (oa_Provider o = "github") then check_field (AuthGitHubConfig_Validate (oa_GitHub o)) "github" None
      else if decide (oa_Provider o = "oidc") then check_field (AuthOIDCConfig_Validate (oa_OIDC o)) "oidc" None
      else if decide (oa_Provider o = "generic") then check_field (AuthGenericConfig_Validate (oa_Generic o)) "generic" None
      else None)).

Definition KeyboardInteractiveAuthConfig_Validate (c : KeyboardInteractiveAuthConfig) : option error :=
  check_field (KeyboardInteractiveAuthMethod_Validate (kbd_Method c)) "method"
  (if decide (kbd_Method c = AuthMethodDisabled) then None
   else if decide (kbd_Method c = AuthMethodOAuth2) then wrap (AuthOAuth2ClientConfig_Validate (kbd_OAuth2 c)) "oauth2"
   else Some (newError "method" "BUG: unsupported keyboard-interactive authentication method: %s" [VString (kbd_Method c)])).

Definition GSSAPIAuthConfig_Validate (c : GSSAPIAuthConfig) : option error :=
  check_field (GSSAPIAuthMethod_Validate (gss_Method c)) "method"
  (if decide (gss_Method c = AuthMethodDisabled) then None
   else if decide (gss_Method c = AuthMethodKerberos) then wrap (AuthKerberosClientConfig_Validate (gss_Kerberos c)) "kerberos"
   else Some (newError "method" "BUG: unsupported GSSAPI authentication method: %s" [VString (gss_Method c)])).

Definition AuthzConfig_Validate (k : AuthzConfig) : option error :=
  check_field (AuthzMethod_Validate (authz_Method k)) "method"
  (if decide (authz_Method k = AuthMethodDisabled) then None
   else if decide (authz_Method k = AuthMethodWebhook) then wrap (AuthWebhookClientConfig_Validate (authz_Webhook k)) "webhook"
   else Some (newError "method" "BUG: invalid value for method for authorization: %s" [VString (authz_Method k)])).

(** [if c.X.Method != Disabled { if err := c.X.Validate(); err != nil { return wrap(err, name) } }] *)
Definition unless_disabled (method : string) (err : option error) (k : option error) : option error :=
  if decide (method ≠ AuthMethodDisabled) then match err with Some e => Some e | None => k end else k.

Definition AuthConfig_Validate (c : AuthConfig) : option error :=
  let password := default false (Password c) in
  let pubKey := default false (PubKey c) in
  let url := hc_URL (AuthHTTP c) in
  if decide (pw_Method (PasswordAuth c) = AuthMethodDisabled ∧ pk_Method (PublicKeyAuth c) = AuthMethodDisabled ∧
             kbd_Method (KeyboardInteractiveAuth c) = AuthMethodDisabled ∧ gss_Method (GSSAPIAuth c) = AuthMethodDisabled ∧
             password = false ∧ pubKey = false ∧ url = "")
  then Some (Errorf "no authentication method configured, please configure at least one" [])
  else
    unless_disabled (pw_Method (PasswordAuth c))
      (if decide (url ≠ "" ∧ password = true) then
         Some (newError "url" "both the password authentication and the legacy url have been provided, please use the new configuration format" [])
       else wrap (PasswordAuthConfig_Validate (PasswordAuth c)) "password")
    (unless_disabled (pk_Method (PublicKeyAuth c))
      (if decide (url ≠ "" ∧ pubKey = true) then
         Some (newError "url" "both the pubkey authentication and the legacy url have been provided, please use the new configuration format" [])
       else wrap (PublicKeyAuthConfig_Validate (PublicKeyAuth c)) "publicKey")
    (unless_disabled (kbd_Method (KeyboardInteractiveAuth c))
      (wrap (KeyboardInteractiveAuthConfig_Validate (KeyboardInteractiveAuth c)) "keyboardInteractive")
    (unless_disabled (gss_Method (GSSAPIAuth c)) (wrap (GSSAPIAuthConfig_Validate (GSSAPIAuth c)) "gssapi")
    (unless_disabled (authz_Method (Authz c)) (wrap (AuthzConfig_Validate (Authz c)) "authz")
    (if decide ((password = true ∨ pubKey = true) ∧ url ≠ "") then HTTPClient_Validate lib (AuthHTTP c) else None))))).

End validate.

(** ** Theorems *)

Lemma unless_disabled_None m err k :
  unless_disabled m err k = None ↔ (m ≠ AuthMethodDisabled → err = None) ∧ k = None.
Proof. unfold unless_disabled. case_decide; destruct err; naive_solver. Qed.

(** No authenticator at all: no method is chosen and the legacy settings do not
    point to a server. *)
Definition no_method (c : AuthConfig) : Prop :=
  pw_Method (PasswordAuth c) = "" ∧ pk_Method (PublicKeyAuth c) = "" ∧ kbd_Method (KeyboardInteractiveAuth c) = "" ∧
  gss_Method (GSSAPIAuth c) = "" ∧ default false (Password c) = false ∧ default false (PubKey c) = false ∧
  hc_URL (AuthHTTP c) = "".

(** The legacy server is in use for passwords or keys. *)
Definition legacy_used (c : AuthConfig) (flag : option bool) : Prop :=
  hc_URL (AuthHTTP c) ≠ "" ∧ default false flag = true.

(** An authentication configuration passes validation exactly when some method
    is configured, every configured method is valid and is not configured a
    second time in the legacy way, authorization is valid or disabled, and the
    legacy server, if in use, is valid. *)
Theorem auth_config_valid_iff lib path_Join c :
  AuthConfig_Validate lib path_Join c = None ↔
  ¬ no_method c ∧
  (pw_Method (PasswordAuth c) ≠ "" →
     ¬ legacy_used c (Password c) ∧ PasswordAuthConfig_Validate lib (PasswordAuth c) = None) ∧
  (pk_Method (PublicKeyAuth c) ≠ "" →
     ¬ legacy_used c (PubKey c) ∧ PublicKeyAuthConfig_Validate lib (PublicKeyAuth c) = None) ∧
  (kbd_Method (KeyboardInteractiveAuth c) ≠ "" →
     KeyboardInteractiveAuthConfig_Validate lib path_Join (KeyboardInteractiveAuth c) = None) ∧
  (gss_Method (GSSAPIAuth c) ≠ "" → GSSAPIAuthConfig_Validate lib (GSSAPIAuth c) = None) ∧
  (authz_Method (Authz c) ≠ "" → AuthzConfig_Validate lib (Authz c) = None) ∧
  (legacy_used c (Password c) ∨ legacy_used c (PubKey c) → HTTPClient_Validate lib (AuthHTTP c) = None).
Proof.
  unfold AuthConfig_Validate, no_method, legacy_used. case_decide as Hno; [naive_solver|].
  rewrite !unless_disabled_None. change AuthMethodDisabled with "" in *.
  rewrite !guarded_wrap_None, !wrap_None, guarded_None. naive_solver.
Qed.
