(* ===== verification/ConfigLog.v ===== *)
(** * Log configuration

    [config/log.go]: log levels and syslog facilities with their names, the
    formats and destinations, and validation. *)

From stdpp Require Import base gmap strings list pretty.
From S2P Require Import Prelude Messages GoStrings ConfigHTTP.

Local Open Scope Z_scope.

(** ** Levels: an [int8] *)

Definition LogLevelDebug : Z := 7.
Definition LogLevelInfo : Z := 6.
Definition LogLevelNotice : Z := 5.
Definition LogLevelWarning : Z := 4.
Definition LogLevelError : Z := 3.
Definition LogLevelCritical : Z := 2.
Definition LogLevelAlert : Z := 1.
Definition LogLevelEmergency : Z := 0.

(** The switches of [LogLevel.Name] and [LogLevelString.ToLevel]. *)
Definition LogLevel_Name (level : Z) : string + error :=
  match level with
  | 7 => inl "debug" | 6 => inl "info" | 5 => inl "notice" | 4 => inl "warning" | 3 => inl "error"
  | 2 => inl "crit" | 1 => inl "alert" | 0 => inl "emerg"
  | _ => inr (Errorf "invalid log level (%d)" [VInt level])
  end.

Definition ToLevel (level : string) : Z + error :=
  if decide (level = "debug") then inl LogLevelDebug
  else if decide (level = "info") then inl LogLevelInfo
  else if decide (level = "notice") then inl LogLevelNotice
  else if decide (level = "warning") then inl LogLevelWarning
  else if decide (level = "error") then inl LogLevelError
  else if decide (level = "crit") then inl LogLevelCritical
  else if decide (level = "alert") then inl LogLevelAlert
  else if decide (level = "emerg") then inl LogLevelEmergency
  else inr (Errorf "invalid log level (%s)" [VString level]).

Definition LogLevel_MustName (level : Z) : outcome string :=
  match LogLevel_Name level with inl n => Done n | inr e => Panic (Error e) end.

Definition LogLevel_Validate (level : Z) : option error :=
  if decide (level < LogLevelEmergency ∨ level > LogLevelDebug)
  then Some (Errorf "invalid log level (%d)" [VInt level]) else None.

(** A scalar of a JSON or YAML document. *)
Inductive scalar := SString (s : string) | SInt (z : Z) | SOther.

Definition LogLevel_Marshal (level : Z) : scalar + error :=
  match LogLevel_Name level with inl n => inl (SString n) | inr e => inr e end.

(** [json.Unmarshal] into an [int8]. *)
Definition unmarshal_int8 (data : scalar) : Z + error :=
  match data with
  | SInt z => if decide (-128 ≤ z ≤ 127) then inl z else inr (ErrorString "json: cannot unmarshal number into Go value of type config.levelAlias")
  | _ => inr (ErrorString "json: cannot unmarshal value into Go value of type config.levelAlias")
  end.

(** [LogLevel.UnmarshalJSON]: a value that is not a string is tried as a number. *)
Definition LogLevel_UnmarshalJSON (data : scalar) : Z + error :=
  match data with
  | SString levelString => ToLevel levelString
  | _ => unmarshal_int8 data
  end.

(** [LogLevel.UnmarshalYAML]: a number decodes into a string too, and is then
    no name of a level. *)
Definition LogLevel_UnmarshalYAML (data : scalar) : Z + error :=
  match data with
  | SString levelString => ToLevel levelString
  | SInt z =>
      match ToLevel (pretty z) with
      | inl l => inl l
      | inr err => match unmarshal_int8 data with inl l2 => inl l2 | inr _ => inr err end
      end
  | SOther => inr (ErrorString "yaml: unmarshal errors")
  end.

(** ** Formats and destinations *)

Definition LogFormat_Validate (format : string) : option error :=
  if decide (format ∈ ["ljson"; "text"]) then None else Some (Errorf "invalid log format: %s" [VString format]).

Definition LogDestination_Validate (o : string) : option error :=
  if decide (o ∈ ["stdout"; "file"; "syslog"; "test"]) then None else Some (Errorf "invalid destination: %s" [VString o]).

(** ** Syslog facilities *)

Definition facilityNames : list string :=
  ["kern"; "user"; "mail"; "daemon"; "auth"; "syslog"; "lpr"; "news"; "uucp"; "cron"; "authpriv"; "ftp"; "ntp";
   "logaudit"; "logalert"; "clock"; "local0"; "local1"; "local2"; "local3"; "local4"; "local5"; "local6"; "local7"].

(** [facilityToName] and [nameToFacility] *)
Definition facilityToName : gmap Z string := list_to_map (imap (λ i n, (Z.of_nat i, n)) facilityNames).
Definition nameToFacility : gmap string Z := list_to_map (imap (λ i n, (n, Z.of_nat i)) facilityNames).

Definition LogFacility_Validate (f : Z) : option error :=
  match facilityToName !! f with None => Some (Errorf "invalid facility: %d" [VInt f]) | Some _ => None end.

Definition LogFacility_Name (f : Z) : string + error :=
  match facilityToName !! f with Some name => inl name | None => inr (Errorf "invalid facility: %d" [VInt f]) end.

Definition LogFacility_MustName (f : Z) : outcome string :=
  match LogFacility_Name f with inl n => Done n | inr e => Panic (Error e) end.

Definition LogFacilityString_Validate (s : string) : option error :=
  match nameToFacility !! s with None => Some (Errorf "invalid facility: %s" [VString s]) | Some _ => None end.

Definition LogFacilityString_Number (s : string) : Z + error :=
  match nameToFacility !! s with Some val => inl val | None => inr (Errorf "invalid facility: %s" [VString s]) end.

Definition LogFacilityString_MustNumber (s : string) : outcome Z :=
  match LogFacilityString_Number s with inl n => Done n | inr e => Panic (Error e) end.

(** ** The configurations *)

(** [syslog_Connection] names what was dialled: the network and the address. *)
Record SyslogConfig := MkSyslogConfig {
  syslog_Destination : string;
  syslog_Facility : string;
  syslog_Tag : string;
  syslog_Pid : bool;
  syslog_Connection : option (string * string);
}.

Definition set_Connection (c : SyslogConfig) (network address : string) : SyslogConfig :=
  MkSyslogConfig (syslog_Destination c) (syslog_Facility c) (syslog_Tag c) (syslog_Pid c) (Some (network, address)).

(** [SyslogConfig.Validate] opens the connection and keeps it in the configuration. *)
Definition SyslogConfig_Validate (lib : Library) (c : SyslogConfig) : SyslogConfig * option error :=
  let destination := if decide (syslog_Destination c ≠ "") then syslog_Destination c else "/dev/log" in
  let dialled :=
    if HasPrefix (syslog_Destination c) "/" then
      match net_Dial lib "unix" destination with
      | None => inl (set_Connection c "unix" destination)
      | Some _ =>
          match net_Dial lib "unixgram" destination with
          | None => inl (set_Connection c "unixgram" destination)
          | Some err =>
              inr (WrapError (Sprintf "failed to open UNIX socket to %s (%w)"
                                [VString (syslog_Destination c); VString (Error err)]) err)
          end
      end
    else
      match net_Dial lib "udp" destination with
      | None => inl (set_Connection c "udp" destination)
      | Some err =>
          inr (WrapError (Sprintf "failed to open UDP socket to %s (%w)"
                            [VString (syslog_Destination c); VString (Error err)]) err)
      end in
  match dialled with
  | inr err => (c, Some err)
  | inl c => (c, LogFacilityString_Validate (syslog_Facility c))
  end.

(** [log_T] and [log_Stdout]: whether a test and a standard output are given. *)
Record LogConfig := MkLogConfig {
  log_Level : Z;
  log_Format : string;
  log_Destination : string;
  log_File : string;
  log_Syslog : SyslogConfig;
  log_T : bool;
  log_Stdout : bool;
}.

Definition LogConfig_Validate (c : LogConfig) : option error :=
  check_field (LogLevel_Validate (log_Level c)) "level"
  (check_field (LogFormat_Validate (log_Format c)) "format"
  (check_field (LogDestination_Validate (log_Destination c)) "destination"
  (if decide (log_Destination c = "test" ∧ log_T c = false)
   then Some (Errorf "test log destination selected but no test case provided" []) else None))).

(** ** Theorems *)

Lemma LogLevel_Validate_None level : LogLevel_Validate level = None ↔ 0 ≤ level ≤ 7.
Proof. unfold LogLevel_Validate, LogLevelEmergency, LogLevelDebug. case_decide; split; try done; lia. Qed.

(** A level between 0 and 7 is one of the eight. *)
Lemma level_cases level :
  0 ≤ level ≤ 7 → level = 0 ∨ level = 1 ∨ level = 2 ∨ level = 3 ∨ level = 4 ∨ level = 5 ∨ level = 6 ∨ level = 7.
Proof. lia. Qed.

Lemma level_roundtrip level :
  0 ≤ level ≤ 7 → ∃ n, LogLevel_Name level = inl n ∧ ToLevel n = inl level.
Proof. intros H%level_cases. destruct_or!; subst; eexists; split; reflexivity. Qed.

Lemma ToLevel_inv s level : ToLevel s = inl level → LogLevel_Name level = inl s ∧ 0 ≤ level ≤ 7.
Proof. unfold ToLevel. repeat case_decide; intros [= <-]; subst; (split; [reflexivity | vm_compute; split; discriminate]). Qed.

(** The facility tables are inverse to each other. *)
Lemma facility_lookup i s : facilityToName !! i = Some s ↔ nameToFacility !! s = Some i.
Proof.
  unfold facilityToName, nameToFacility. rewrite <- !elem_of_list_to_map by (apply (bool_decide_unpack _); vm_compute; exact I).
  rewrite !elem_of_lookup_imap. split; intros (k & y & E & H); simplify_eq; eauto.
Qed.

Lemma facility_range i s : facilityToName !! i = Some s → 0 ≤ i ≤ 23.
Proof.
  intros H%elem_of_list_to_map_2. apply elem_of_lookup_imap in H as (k & y & E & Hk). simplify_eq.
  apply lookup_lt_Some in Hk. cbn in Hk. lia.
Qed.

(** Log levels and syslog facilities survive being written and read back, by
    name as well as in a configuration file; exactly the levels 0 to 7 are
    valid; and a number in a configuration file is read as the level it names,
    in JSON and in YAML alike. *)
Theorem log_names_roundtrip level facility name :
  (LogLevel_Validate level = None ↔ ∃ n, LogLevel_Name level = inl n ∧ ToLevel n = inl level) ∧
  (LogLevel_Validate level = None →
     ∃ data, LogLevel_Marshal level = inl data ∧ LogLevel_UnmarshalJSON data = inl level ∧
       LogLevel_UnmarshalYAML data = inl level ∧
       LogLevel_UnmarshalJSON (SInt level) = inl level ∧ LogLevel_UnmarshalYAML (SInt level) = inl level) ∧
  (LogFacility_Name facility = inl name ↔ LogFacilityString_Number name = inl facility).
Proof.
  split; [|split].
  - rewrite LogLevel_Validate_None. split; [apply level_roundtrip|]. intros (n & _ & H). by apply ToLevel_inv in H as [_ ?].
  - rewrite LogLevel_Validate_None. intros H. destruct (level_roundtrip level H) as (n & E & E').
    exists (SString n). unfold LogLevel_Marshal. rewrite E. do 3 (split; [done|]).
    apply level_cases in H. by destruct_or!; subst.
  - unfold LogFacility_Name, LogFacilityString_Number. pose proof (facility_lookup facility name) as Hf.
    split.
    + destruct (facilityToName !! facility) as [n|]; [|done]. intros [= ->]. by rewrite (proj1 Hf eq_refl).
    + destruct (nameToFacility !! name) as [f|]; [|done]. intros [= ->]. by rewrite (proj2 Hf eq_refl).
Qed.

(** A syslog destination that is left empty is dialled as a UDP address, although
    it stands for the socket /dev/log. *)
Theorem empty_syslog_destination_dials_udp lib c :
  syslog_Destination c = "" → net_Dial lib "udp" "/dev/log" = None →
  syslog_Connection (SyslogConfig_Validate lib c).1 = Some ("udp", "/dev/log").
Proof. intros H E. unfold SyslogConfig_Validate. rewrite H. rewrite decide_False by (intros []; done). cbn. by rewrite E. Qed.
