(* ===== verification/ConfigBackend.v ===== *)
(** * Backend configuration

    [config/docker.go] and [config/kubernetes.go]: how containers and pods are
    launched, reading of the sections that need special treatment, and
    validation. *)

From stdpp Require Import base gmap strings list.
From Stdlib Require Import Strings.Byte.
From S2P Require Import Prelude Messages GoStrings ConfigHTTP.

Local Open Scope Z_scope.

(** ** Docker *)

(** The structures of the Docker client library, with the fields this program
    reads or sets; [*_rest] stands for the other settings, which are copied. *)
Record container_Config := MkContainerConfig {
  cc_Image : string;
  cc_Labels : option (gmap string string);
  cc_Cmd : list string;
  cc_Env : list string;
  cc_Tty : bool;
  cc_AttachStdin : bool;
  cc_AttachStdout : bool;
  cc_AttachStderr : bool;
  cc_OpenStdin : bool;
  cc_StdinOnce : bool;
  cc_rest : nat;
}.

Record container_HostConfig := MkHostConfig {
  hc_RestartPolicy_Name : string;
  hc_rest : nat;
}.

Definition DockerExecutionModeConnection : string := "connection".
Definition DockerExecutionModeSession : string := "session".

Definition DockerExecutionMode_Validate (e : string) : option error :=
  if decide (e = DockerExecutionModeConnection) then None
  else if decide (e = DockerExecutionModeSession) then None
  else Some (Errorf "invalid execution mode: %s" [VString e]).

Definition ImagePullPolicyAlways : string := "Always".
Definition ImagePullPolicyIfNotPresent : string := "IfNotPresent".
Definition ImagePullPolicyNever : string := "Never".

Definition DockerImagePullPolicy_Validate (p : string) : option error :=
  if decide (p = ImagePullPolicyAlways) then None
  else if decide (p = ImagePullPolicyIfNotPresent) then None
  else if decide (p = ImagePullPolicyNever) then None
  else Some (Errorf "invalid image pull policy: %s" [VString p]).

(** Network and platform settings and the registry credentials are only passed on. *)
Record DockerLaunchConfig := MkDockerLaunchConfig {
  ContainerConfig : option container_Config;
  HostConfig : option container_HostConfig;
  NetworkConfig : option nat;
  Platform : option nat;
  ContainerName : string;
}.

Record DockerExecutionConfig := MkDockerExecutionConfig {
  Launch : DockerLaunchConfig;
  Execution_Auth : option nat;
  Mode : string;
  IdleCommand : list string;
  ShellCommand : list string;
  AgentPath : string;
  DisableAgent : bool;
  Subsystems : gmap string string;
  ImagePullPolicy : string;
  ExposeAuthMetadataAsEnv : bool;
}.

Record DockerConnectionConfig := MkDockerConnectionConfig {
  dc_Host : string;
  dc_CaCert : string;
  dc_Cert : string;
  dc_Key : string;
}.

Record DockerTimeoutConfig := MkDockerTimeoutConfig {
  ContainerStart : Z;
  ContainerStop : Z;
  CommandStart : Z;
  Timeout_Signal : Z;
  Timeout_Window : Z;
  Timeout_HTTP : Z;
}.

Record DockerConfig := MkDockerConfig {
  Docker_Connection : DockerConnectionConfig;
  Execution : DockerExecutionConfig;
  Timeouts : DockerTimeoutConfig;
}.

(** *** Reading *)

(** A decoded value of type [interface{}]; a floating point number is given by
    the integer its conversion yields. *)
Inductive raw_value :=
| RawNil
| RawInt (z : Z)
| RawFloat (z : Z)
| RawString (s : string)
| RawOther (text : string).

Section durations.
Context (time_ParseDuration : string → Z + error).

(** The new value of the duration, also when there is an error: a string that
    cannot be parsed sets it to 0. *)
Definition parseRawDuration (rawValue : raw_value) (d : Z) : Z * option error :=
  match rawValue with
  | RawNil => (0, None)
  | RawInt v | RawFloat v => (v, None)
  | RawString s => match time_ParseDuration s with inl d => (d, None) | inr err => (0, Some err) end
  | RawOther t => (d, Some (Errorf "invalid duration: %v" [VString t]))
  end.

Record dockerTmpTimeoutConfig := MkTmpTimeouts {
  tmp_ContainerStart : raw_value;
  tmp_ContainerStop : raw_value;
  tmp_CommandStart : raw_value;
  tmp_Signal : raw_value;
  tmp_Window : raw_value;
  tmp_HTTP : raw_value;
}.

(** [unmarshalTmp]: the fields are set one after the other up to the first error. *)
Definition unmarshalTmp (tmp : dockerTmpTimeoutConfig) (t : DockerTimeoutConfig) : DockerTimeoutConfig * option error :=
  let '(a, err) := parseRawDuration (tmp_ContainerStart tmp) (ContainerStart t) in
  let t := MkDockerTimeoutConfig a (ContainerStop t) (CommandStart t) (Timeout_Signal t) (Timeout_Window t) (Timeout_HTTP t) in
  if decide (err ≠ None) then (t, err) else
  let '(b, err) := parseRawDuration (tmp_ContainerStop tmp) (ContainerStop t) in
  let t := MkDockerTimeoutConfig a b (CommandStart t) (Timeout_Signal t) (Timeout_Window t) (Timeout_HTTP t) in
  if decide (err ≠ None) then (t, err) else
  let '(c, err) := parseRawDuration (tmp_CommandStart tmp) (CommandStart t) in
  let t := MkDockerTimeoutConfig a b c (Timeout_Signal t) (Timeout_Window t) (Timeout_HTTP t) in
  if decide (err ≠ None) then (t, err) else
  let '(d, err) := parseRawDuration (tmp_Signal tmp) (Timeout_Signal t) in
  let t := MkDockerTimeoutConfig a b c d (Timeout_Window t) (Timeout_HTTP t) in
  if decide (err ≠ None) then (t, err) else
  let '(e, err) := parseRawDuration (tmp_Window tmp) (Timeout_Window t) in
  let t := MkDockerTimeoutConfig a b c d e (Timeout_HTTP t) in
  if decide (err ≠ None) then (t, err) else
  let '(f, err) := parseRawDuration (tmp_HTTP tmp) (Timeout_HTTP t) in
  (MkDockerTimeoutConfig a b c d e f, err).

End durations.

(** [DockerLaunchConfig.UnmarshalJSON] and [UnmarshalYAML]; [decoded] is the
    result of decoding the document into the temporary structure. *)
Definition DockerLaunchConfig_Unmarshal (decoded : DockerLaunchConfig + error) (l : DockerLaunchConfig)
  : DockerLaunchConfig * option error :=
  match decoded with inr err => (l, Some err) | inl tmp => (tmp, None) end.

(** [DockerExecutionConfig.UnmarshalJSON] and [UnmarshalYAML]: [decoded] is the
    result of decoding the document into [tmpDockerExecutionConfig] with unknown
    fields refused, [launch] of decoding it into the launch configuration. *)
Definition DockerExecutionConfig_Unmarshal (decoded : DockerExecutionConfig + error)
    (launch : DockerLaunchConfig + error) (d : DockerExecutionConfig) : DockerExecutionConfig * option error :=
  match decoded with
  | inr err => (d, Some err)
  | inl tmp =>
      match launch with
      | inr err => (d, Some err)
      | inl launch =>
          (MkDockerExecutionConfig launch (Execution_Auth d) (Mode tmp) (IdleCommand tmp) (ShellCommand tmp)
             (AgentPath tmp) (DisableAgent tmp) (Subsystems tmp) (ImagePullPolicy tmp) (ExposeAuthMetadataAsEnv tmp), None)
      end
  end.

(** *** Validation *)

Definition DockerConnectionConfig_Validate (c : DockerConnectionConfig) : option error :=
  if decide (dc_Host c = "") then Some (Errorf "missing host" []) else None.

Definition DockerLaunchConfig_Validate (l : DockerLaunchConfig) : option error :=
  match ContainerConfig l with
  | None => Some (newError "container" "no container config provided" [])
  | Some c =>
      if decide (cc_Image c = "") then wrap (Some (newError "image" "no image name provided" [])) "container"
      else None
  end.

Section docker.
(** [container.RestartPolicy.IsNone] *)
Context (RestartPolicy_IsNone : string → bool).

(** The [switch] on the mode. *)
Definition session_restart_policy (c : DockerExecutionConfig) : option error :=
  if decide (Mode c = DockerExecutionModeSession) then
    match HostConfig (Launch c) with
    | Some h =>
        if negb (RestartPolicy_IsNone (hc_RestartPolicy_Name h)) then
          wrap (Some (newError "restartPolicy"
                        ("unsupported restart policy for execution mode " ++ quote ++ "session" ++ quote ++
                         ": %s (session containers may not restart)")%string
                        [VString (hc_RestartPolicy_Name h)])) "hostConfig"
        else None
    | None => None
    end
  else None.

Definition DockerExecutionConfig_Validate (c : DockerExecutionConfig) : option error :=
  if decide (Mode c = DockerExecutionModeConnection ∧ length (IdleCommand c) = 0%nat)
  then Some (newError "idleCommand" ("idle command required for execution mode " ++ quote ++ "connection" ++ quote)%string [])
  else if decide (Mode c = DockerExecutionModeConnection ∧ length (ShellCommand c) = 0%nat)
  then Some (newError "shellCommand" ("shell command required for execution mode " ++ quote ++ "connection" ++ quote)%string [])
  else
    or_return (session_restart_policy c) (λ e, e)
    (check_field (DockerImagePullPolicy_Validate (ImagePullPolicy c)) "imagePullPolicy"
    (or_return (DockerLaunchConfig_Validate (Launch c)) (λ e, e)
    (check_field (DockerExecutionMode_Validate (Mode c)) "mode" None))).

(** The timeouts are not validated. *)
Definition DockerConfig_Validate (c : DockerConfig) : option error :=
  check_field (DockerConnectionConfig_Validate (Docker_Connection c)) "connection"
  (check_field (DockerExecutionConfig_Validate (Execution c)) "execution" None).

End docker.

(** ** Kubernetes *)

Record KubernetesConnectionConfig := MkKubernetesConnectionConfig {
  kc_Host : string;
  kc_APIPath : string;
  kc_Username : string;
  kc_Password : string;
  kc_ServerName : string;
  kc_CertFile : string;
  kc_KeyFile : string;
  kc_CAFile : string;
  kc_CertData : string;
  kc_KeyData : string;
  kc_CAData : string;
  kc_BearerToken : string;
  kc_BearerTokenFile : string;
  kc_QPS : Z;
  kc_Burst : Z;
}.

(** The structures of the Kubernetes client library, with the fields this
    program reads or sets. *)
Record k8s_Container := MkK8sContainer {
  ct_Name : string;
  ct_Image : string;
  ct_Command : list string;
  ct_Env : list (string * string);
  ct_TTY : bool;
  ct_Stdin : bool;
  ct_StdinOnce : bool;
  ct_rest : nat;
}.

Record k8s_PodSpec := MkPodSpec {
  Containers : list k8s_Container;
  InitContainers : list k8s_Container;
  ps_RestartPolicy : string;
  ps_rest : nat;
}.

Record k8s_ObjectMeta := MkObjectMeta {
  om_Namespace : string;
  om_Labels : option (gmap string string);
  om_Annotations : option (gmap string string);
  om_rest : nat;
}.

Record KubernetesPodConfig := MkKubernetesPodConfig {
  pod_Metadata : k8s_ObjectMeta;
  pod_Spec : k8s_PodSpec;
  ConsoleContainerNumber : Z;
  pod_IdleCommand : list string;
  pod_ShellCommand : list string;
  pod_AgentPath : string;
  pod_DisableAgent : bool;
  pod_Subsystems : gmap string string;
  pod_Mode : string;
  pod_ExposeAuthMetadataAsEnv : gmap string string;
  pod_ExposeAuthMetadataAsLabels : gmap string string;
  pod_ExposeAuthMetadataAsAnnotations : gmap string string;
}.

Record KubernetesTimeoutConfig := MkKubernetesTimeoutConfig {
  PodStart : Z;
  PodStop : Z;
  k8s_CommandStart : Z;
  k8s_Signal : Z;
  k8s_Window : Z;
  k8s_HTTP : Z;
}.

Record KubernetesConfig := MkKubernetesConfig {
  Kubernetes_Connection : KubernetesConnectionConfig;
  Pod : KubernetesPodConfig;
  Kubernetes_Timeouts : KubernetesTimeoutConfig;
}.

Definition KubernetesExecutionModeConnection : string := "connection".
Definition KubernetesExecutionModeSession : string := "session".

Definition KubernetesExecutionMode_Validate (e : string) : option error :=
  if decide (e = KubernetesExecutionModeConnection) then None
  else if decide (e = KubernetesExecutionModeSession) then None
  else Some (Errorf "invalid execution mode: %s" [VString e]).

Definition KubernetesTimeoutConfig_Validate (c : KubernetesTimeoutConfig) : option error := None.

Definition KubernetesConnectionConfig_Validate (lib : Library) (c : KubernetesConnectionConfig) : option error :=
  if decide (kc_Host c = "") then Some (newError "host" "no host specified" [])
  else if decide (kc_APIPath c = "") then Some (newError "path" "no API path specified" [])
  else if decide (kc_BearerTokenFile c ≠ "") then
    match os_Stat lib (kc_BearerTokenFile c) with
    | inr err => wrapWithMessage (Some err) "bearerTokenFile" "bearer token file %s not found" [VString (kc_BearerTokenFile c)]
    | inl _ => None
    end
  else None.

(** The loop over the containers of the pod. *)
Fixpoint containers_have_images (i : nat) (l : list k8s_Container) (k : option error) : option error :=
  match l with
  | [] => k
  | c :: l =>
      if decide (ct_Image c = "")
      then wrap (wrap (Some (newError "image" "missing image name" [])) (Sprintf "%d" [VInt (Z.of_nat i)])) "spec"
      else containers_have_images (S i) l k
  end.

Definition KubernetesPodConfig_Validate (c : KubernetesPodConfig) : option error :=
  if decide (om_Namespace (pod_Metadata c) = "")
  then wrap (Some (newError "namespace" "no namespace specified in pod config" [])) "metadata"
  else if decide (Z.of_nat (length (Containers (pod_Spec c))) ≤ ConsoleContainerNumber c)
  then Some (newError "consoleContainerNumber" "the specified container for consoles does not exist in the pod spec" [])
  else if decide (pod_DisableAgent c = false ∧ pod_AgentPath c = "")
  then Some (newError "agentPath" "the agent path is required when the agent is not disabled" [])
  else if decide (length (Containers (pod_Spec c)) = 0%nat)
  then wrap (Some (newError "containers" "no containers specified in the pod spec" [])) "spec"
  else
    containers_have_images 0 (Containers (pod_Spec c))
    (check_field (KubernetesExecutionMode_Validate (pod_Mode c)) "mode"
     (if decide (pod_Mode c = KubernetesExecutionModeConnection) then
        if decide (length (pod_IdleCommand c) = 0%nat)
        then Some (newError "idleCommand" "idle command is required when the execution mode is connection" [])
        else if decide (length (pod_ShellCommand c) = 0%nat)
        then Some (newError "shellCommand" "shell command is required when the execution mode is connection" [])
        else None
      else if decide (pod_Mode c = KubernetesExecutionModeSession) then
        if decide (ps_RestartPolicy (pod_Spec c) ≠ "" ∧ ps_RestartPolicy (pod_Spec c) ≠ "Never")
        then wrap (Some (newError "restartPolicy" ("invalid restart policy in session mode: %s only " ++ quote ++ "Never" ++ quote ++ " is allowed")%string
                           [VString (ps_RestartPolicy (pod_Spec c))])) "spec"
        else if decide (pod_DisableAgent c = false ∧ length (pod_ShellCommand c) = 0%nat)
        then Some (newError "shellCommand" "shell command is required when using the agent" [])
        else None
      else None)).

Definition KubernetesConfig_Validate (lib : Library) (c : KubernetesConfig) : option error :=
  check_field (KubernetesConnectionConfig_Validate lib (Kubernetes_Connection c)) "connection"
  (check_field (KubernetesPodConfig_Validate (Pod c)) "pod"
  (check_field (KubernetesTimeoutConfig_Validate (Kubernetes_Timeouts c)) "timeouts" None)).

(** ** Theorems *)

Lemma containers_have_images_None i l k :
  containers_have_images i l k = None ↔ Forall (λ c, ct_Image c ≠ "") l ∧ k = None.
Proof.
  revert i. induction l as [|c l IH]; intros i; cbn [containers_have_images]; [naive_solver|].
  rewrite Forall_cons. case_decide; [|rewrite IH; naive_solver].
  rewrite !wrap_None. naive_solver.
Qed.

Lemma DockerExecutionMode_Validate_None e :
  DockerExecutionMode_Validate e = None ↔ e = "connection" ∨ e = "session".
Proof. unfold DockerExecutionMode_Validate. repeat case_decide; naive_solver. Qed.

Lemma DockerImagePullPolicy_Validate_None p :
  DockerImagePullPolicy_Validate p = None ↔ p ∈ [ImagePullPolicyAlways; ImagePullPolicyIfNotPresent; ImagePullPolicyNever].
Proof. unfold DockerImagePullPolicy_Validate. rewrite !elem_of_cons, elem_of_nil. repeat case_decide; naive_solver. Qed.

Lemma or_return_None err f k : or_return err f k = None ↔ err = None ∧ k = None.
Proof. destruct err; cbn; naive_solver. Qed.

Lemma DockerLaunchConfig_Validate_None l :
  DockerLaunchConfig_Validate l = None ↔ ∃ cc, ContainerConfig l = Some cc ∧ cc_Image cc ≠ "".
Proof.
  unfold DockerLaunchConfig_Validate. destruct (ContainerConfig l) as [cc|]; [|naive_solver].
  case_decide; rewrite ?wrap_None; naive_solver.
Qed.

Lemma session_restart_policy_None IsNone c :
  session_restart_policy IsNone c = None ↔
  (Mode c = "session" → ∀ h, HostConfig (Launch c) = Some h → IsNone (hc_RestartPolicy_Name h) = true).
Proof.
  unfold session_restart_policy, DockerExecutionModeSession. case_decide as Hm; [|naive_solver].
  destruct (HostConfig (Launch c)) as [h|]; [|naive_solver].
  destruct (IsNone (hc_RestartPolicy_Name h)) eqn:E; cbn [negb]; [naive_solver|]. rewrite wrap_None.
  split; [done|]. intros H. specialize (H Hm h eq_refl). congruence.
Qed.

(** What the Docker backend relies on: a host, an image, a known mode and pull
    policy, commands for the idle process and the shell of a container per
    connection, no restarts of a container per session.  The validation accepts
    a configuration exactly when all of it holds. *)
Theorem docker_config_valid_iff IsNone c :
  let e := Execution c in
  DockerConfig_Validate IsNone c = None ↔
  dc_Host (Docker_Connection c) ≠ "" ∧
  (∃ cc, ContainerConfig (Launch e) = Some cc ∧ cc_Image cc ≠ "") ∧
  ImagePullPolicy e ∈ [ImagePullPolicyAlways; ImagePullPolicyIfNotPresent; ImagePullPolicyNever] ∧
  ((Mode e = "connection" ∧ IdleCommand e ≠ [] ∧ ShellCommand e ≠ []) ∨
   (Mode e = "session" ∧ ∀ h, HostConfig (Launch e) = Some h → IsNone (hc_RestartPolicy_Name h) = true)).
Proof.
  cbn zeta. unfold DockerConfig_Validate, DockerConnectionConfig_Validate, DockerExecutionConfig_Validate.
  rewrite !check_field_None, !check_None, !or_return_None, !check_field_None, or_return_None, check_field_None.
  rewrite session_restart_policy_None, DockerImagePullPolicy_Validate_None, DockerLaunchConfig_Validate_None.
  rewrite DockerExecutionMode_Validate_None, !length_zero_iff_nil. unfold DockerExecutionModeConnection.
  destruct (decide (Mode (Execution c) = "connection")) as [->|]; naive_solver.
Qed.

Lemma KubernetesExecutionMode_Validate_None e :
  KubernetesExecutionMode_Validate e = None ↔ e = "connection" ∨ e = "session".
Proof. unfold KubernetesExecutionMode_Validate. repeat case_decide; naive_solver. Qed.

Lemma wrapWithMessage_Some e o m args : wrapWithMessage (Some e) o m args ≠ None.
Proof. unfold wrapWithMessage. by destruct (as_configError e) as [[]|]. Qed.

Lemma KubernetesConnectionConfig_Validate_None lib c :
  KubernetesConnectionConfig_Validate lib c = None ↔
  kc_Host c ≠ "" ∧ kc_APIPath c ≠ "" ∧
  (kc_BearerTokenFile c ≠ "" → ∃ dir, os_Stat lib (kc_BearerTokenFile c) = inl dir).
Proof.
  unfold KubernetesConnectionConfig_Validate. rewrite !check_None, guarded_None.
  destruct (os_Stat lib (kc_BearerTokenFile c)); [naive_solver|].
  pose proof (wrapWithMessage_Some e "bearerTokenFile" "bearer token file %s not found" [VString (kc_BearerTokenFile c)]).
  naive_solver.
Qed.

Lemma wrapped_None (P : Prop) `{!Decision P} e o k :
  (if decide P then wrap (Some e) o else k) = None ↔ ¬ P ∧ k = None.
Proof. case_decide; rewrite ?wrap_None; naive_solver. Qed.

Lemma KubernetesPodConfig_Validate_None p :
  KubernetesPodConfig_Validate p = None ↔
  om_Namespace (pod_Metadata p) ≠ "" ∧
  Containers (pod_Spec p) ≠ [] ∧ (ConsoleContainerNumber p < Z.of_nat (length (Containers (pod_Spec p))))%Z ∧
  Forall (λ ct, ct_Image ct ≠ "") (Containers (pod_Spec p)) ∧
  (pod_DisableAgent p = false → pod_AgentPath p ≠ "") ∧
  ((pod_Mode p = "connection" ∧ pod_IdleCommand p ≠ [] ∧ pod_ShellCommand p ≠ []) ∨
   (pod_Mode p = "session" ∧ (ps_RestartPolicy (pod_Spec p) = "" ∨ ps_RestartPolicy (pod_Spec p) = "Never") ∧
    (pod_DisableAgent p = false → pod_ShellCommand p ≠ []))).
Proof.
  unfold KubernetesPodConfig_Validate.
  rewrite wrapped_None, !check_None, wrapped_None, containers_have_images_None, check_field_None.
  rewrite KubernetesExecutionMode_Validate_None, !length_zero_iff_nil, Z.nle_gt.
  unfold KubernetesExecutionModeConnection, KubernetesExecutionModeSession.
  destruct (decide (pod_Mode p = "connection")) as [->|Hm].
  - rewrite !check_None, !length_zero_iff_nil. split.
    + intros (? & ? & Hp & ? & ? & _ & ? & ? & _). split_and!; try done; [naive_solver | by left].
    + intros (? & ? & ? & ? & Hp & [(_ & ? & ?)|[? _]]); [|done]. split_and!; try done; [naive_solver | by left].
  - assert ((¬ (pod_DisableAgent p = false ∧ pod_AgentPath p = "")) ↔ (pod_DisableAgent p = false → pod_AgentPath p ≠ ""))
      as -> by naive_solver.
    case_decide as Hs; [|split; [|naive_solver]].
    + rewrite Hs, wrapped_None, check_None, length_zero_iff_nil. split.
      * intros (? & ? & ? & ? & ? & _ & Hr & Ha & _). split_and!; try done. right. split_and!; [done| |naive_solver].
        destruct (decide (ps_RestartPolicy (pod_Spec p) = "")); [by left|].
        destruct (decide (ps_RestartPolicy (pod_Spec p) = "Never")); [by right|]. tauto.
      * intros (? & ? & ? & ? & ? & [[? _]|(_ & Hr & Ha)]); [done|]. split_and!; try done; [by right|tauto|naive_solver].
    + intros (_ & _ & _ & _ & _ & [Hm'|Hm'] & _); done.
Qed.

(** The same for the Kubernetes backend.  A negative number of the console
    container is accepted. *)
Theorem kubernetes_config_valid_iff lib c :
  let conn := Kubernetes_Connection c in
  let p := Pod c in
  KubernetesConfig_Validate lib c = None ↔
  kc_Host conn ≠ "" ∧ kc_APIPath conn ≠ "" ∧
  (kc_BearerTokenFile conn ≠ "" → ∃ dir, os_Stat lib (kc_BearerTokenFile conn) = inl dir) ∧
  om_Namespace (pod_Metadata p) ≠ "" ∧
  Containers (pod_Spec p) ≠ [] ∧ (ConsoleContainerNumber p < Z.of_nat (length (Containers (pod_Spec p))))%Z ∧
  Forall (λ ct, ct_Image ct ≠ "") (Containers (pod_Spec p)) ∧
  (pod_DisableAgent p = false → pod_AgentPath p ≠ "") ∧
  ((pod_Mode p = "connection" ∧ pod_IdleCommand p ≠ [] ∧ pod_ShellCommand p ≠ []) ∨
   (pod_Mode p = "session" ∧ (ps_RestartPolicy (pod_Spec p) = "" ∨ ps_RestartPolicy (pod_Spec p) = "Never") ∧
    (pod_DisableAgent p = false → pod_ShellCommand p ≠ []))).
Proof.
  cbn zeta. unfold KubernetesConfig_Validate. rewrite !check_field_None.
  rewrite KubernetesConnectionConfig_Validate_None, KubernetesPodConfig_Validate_None. naive_solver.
Qed.
