(* ===== verification/SecurityConfig.v ===== *)
(** * Security configuration

    [config/security.go]: the execution policies and their validation. *)

From stdpp Require Import base gmap strings list.
From S2P Require Import Prelude Messages.

(** ** Execution policies *)

(** The Go type is a string. *)
Abbreviation SecurityExecutionPolicy := string (only parsing).
Definition ExecutionPolicyUnconfigured : SecurityExecutionPolicy := "".
Definition ExecutionPolicyEnable : SecurityExecutionPolicy := "enable".
Definition ExecutionPolicyFilter : SecurityExecutionPolicy := "filter".
Definition ExecutionPolicyDisable : SecurityExecutionPolicy := "disable".

Definition SecurityExecutionPolicy_Validate (e : SecurityExecutionPolicy) : option error :=
  if decide (e = ExecutionPolicyUnconfigured) then None
  else if decide (e = ExecutionPolicyEnable) then None
  else if decide (e = ExecutionPolicyFilter) then None
  else if decide (e = ExecutionPolicyDisable) then None
  else Some (ErrorString (Sprintf "invalid mode: %s" [VString e])).

(** ** The configuration structures *)

Record SecurityEnvConfig := {
  Env_Mode : SecurityExecutionPolicy;
  Env_Allow : list string;
  Env_Deny : list string;
}.

Record CommandConfig := {
  Command_Mode : SecurityExecutionPolicy;
  Command_Allow : list string;
}.

Record SecurityShellConfig := { Shell_Mode : SecurityExecutionPolicy }.

Record SubsystemConfig := {
  Subsystem_Mode : SecurityExecutionPolicy;
  Subsystem_Allow : list string;
  Subsystem_Deny : list string;
}.

Record ForwardingConfig := {
  ReverseForwardingMode : SecurityExecutionPolicy;
  ForwardingMode : SecurityExecutionPolicy;
  SocketForwardingMode : SecurityExecutionPolicy;
  SocketListenMode : SecurityExecutionPolicy;
  X11ForwardingMode : SecurityExecutionPolicy;
}.

Record SecurityTTYConfig := { TTY_Mode : SecurityExecutionPolicy }.

Record SecuritySignalConfig := {
  Signal_Mode : SecurityExecutionPolicy;
  Signal_Allow : list string;
  Signal_Deny : list string;
}.

Record SecurityConfig := {
  DefaultMode : SecurityExecutionPolicy;
  ForceCommand : string;
  Env : SecurityEnvConfig;
  Command : CommandConfig;
  Shell : SecurityShellConfig;
  Subsystem : SubsystemConfig;
  Forwarding : ForwardingConfig;
  TTY : SecurityTTYConfig;
  Signal : SecuritySignalConfig;
  MaxSessions : Z;
}.

(** ** Validation *)

Definition SecurityEnvConfig_Validate (e : SecurityEnvConfig) : option error :=
  check_field (SecurityExecutionPolicy_Validate (Env_Mode e)) "mode" None.

Definition CommandConfig_Validate (c : CommandConfig) : option error :=
  check_field (SecurityExecutionPolicy_Validate (Command_Mode c)) "mode" None.

Definition SecurityShellConfig_Validate (s : SecurityShellConfig) : option error :=
  check_field (SecurityExecutionPolicy_Validate (Shell_Mode s)) "mode" None.

Definition SubsystemConfig_Validate (s : SubsystemConfig) : option error :=
  check_field (SecurityExecutionPolicy_Validate (Subsystem_Mode s)) "mode" None.

Definition SecurityTTYConfig_Validate (t : SecurityTTYConfig) : option error :=
  check_field (SecurityExecutionPolicy_Validate (TTY_Mode t)) "mode" None.

Definition SecuritySignalConfig_Validate (s : SecuritySignalConfig) : option error :=
  check_field (SecurityExecutionPolicy_Validate (Signal_Mode s)) "mode" None.

(** [fmt.Errorf("invalid mode (%w)", err)] around a policy's error, then [k]. *)
Definition invalid_mode (err : option error) (k : option error) : option error :=
  match err with
  | None => k
  | Some e => Some (WrapError (Sprintf "invalid mode (%w)" [VString (Error e)]) e)
  end.

Definition ForwardingConfig_Validate (f : ForwardingConfig) : option error :=
  invalid_mode (SecurityExecutionPolicy_Validate (ReverseForwardingMode f))
  (invalid_mode (SecurityExecutionPolicy_Validate (ForwardingMode f))
  (invalid_mode (SecurityExecutionPolicy_Validate (SocketForwardingMode f))
  (invalid_mode (SecurityExecutionPolicy_Validate (SocketListenMode f))
  (invalid_mode (SecurityExecutionPolicy_Validate (X11ForwardingMode f)) None)))).

Definition SecurityConfig_Validate (c : SecurityConfig) : option error :=
  check_field (SecurityExecutionPolicy_Validate (DefaultMode c)) "defaultMode"
  (check_field (SecurityEnvConfig_Validate (Env c)) "env"
  (check_field (CommandConfig_Validate (Command c)) "command"
  (check_field (SecurityShellConfig_Validate (Shell c)) "shell"
  (check_field (SubsystemConfig_Validate (Subsystem c)) "subsystem"
  (check_field (SecurityTTYConfig_Validate (TTY c)) "tty"
  (check_field (SecuritySignalConfig_Validate (Signal c)) "signal"
  (if decide (MaxSessions c < -1)%Z
   then Some (newError "maxSessions" "invalid maxSessions setting: %d" [VInt (MaxSessions c)])
   else None))))))).

(** ** Theorems *)

Definition known_policy (e : SecurityExecutionPolicy) : Prop :=
  e ∈ [ExecutionPolicyUnconfigured; ExecutionPolicyEnable; ExecutionPolicyFilter; ExecutionPolicyDisable].

Lemma SecurityExecutionPolicy_Validate_None e :
  SecurityExecutionPolicy_Validate e = None ↔ known_policy e.
Proof.
  unfold SecurityExecutionPolicy_Validate, known_policy.
  repeat case_decide; set_solver.
Qed.

(** A security configuration passes validation exactly when its default mode,
    the modes of env, command, shell, subsystem, tty and signal are known
    policies and the session limit is at least -1.  The five forwarding modes do
    not occur: [SecurityConfig.Validate] never validates the forwarding section,
    although [ForwardingConfig] has a [Validate] of its own. *)
Theorem security_config_validate_iff c :
  SecurityConfig_Validate c = None ↔
    Forall known_policy
      [DefaultMode c; Env_Mode (Env c); Command_Mode (Command c); Shell_Mode (Shell c);
       Subsystem_Mode (Subsystem c); TTY_Mode (TTY c); Signal_Mode (Signal c)]
    ∧ (-1 ≤ MaxSessions c)%Z.
Proof.
  unfold SecurityConfig_Validate, SecurityEnvConfig_Validate, CommandConfig_Validate,
    SecurityShellConfig_Validate, SubsystemConfig_Validate, SecurityTTYConfig_Validate,
    SecuritySignalConfig_Validate.
  rewrite !check_field_None, !SecurityExecutionPolicy_Validate_None, !Forall_cons, Forall_nil.
  case_decide; split; intros; destruct_and?; split_and?; done || lia.
Qed.
