(* ===== verification/Security.v ===== *)
(** * The security overlay

    [internal/security]: the layer between the SSH server and a backend that
    filters session requests and forwardings, forces a command and limits the
    number of sessions ([handler_session.go], [handler_ssh.go],
    [handler_network.go], [handler_factory.go]). *)

From stdpp Require Import base gmap strings list.
From Stdlib Require Import Strings.Byte.
From S2P Require Import Prelude Messages Metadata Handler SecurityConfig.

(** ** Message codes ([message/security.go]) *)

Definition ESecurityExecRejected : string := "SECURITY_EXEC_REJECTED".
Definition ESecurityFailedSetEnv : string := "SECURITY_EXEC_FAILED_SETENV".
Definition ESecurityShellRejected : string := "SECURITY_SHELL_REJECTED".
Definition ESecuritySubsystemRejected : string := "SECURITY_SUBSYSTEM_REJECTED".
Definition ESecurityTTYRejected : string := "SECURITY_TTY_REJECTED".
Definition ESecurityEnvRejected : string := "SECURITY_ENV_REJECTED".
Definition ESecuritySignalRejected : string := "SECURITY_SIGNAL_REJECTED".
Definition ESecurityX11ForwardingRejected : string := "SECURITY_X11_FORWARDING_REJECTED".
Definition ESecurityMaxSessions : string := "SECURITY_MAX_SESSIONS".
Definition ESecurityForwardingRejected : string := "SECURITY_FORWARDING_REJECTED".
Definition ESecurityReverseForwardingRejected : string := "SECURITY_REVERSE_FORWARDING_REJECTED".

(** ** The session handler *)

(** [getPolicy], the same method on the session and on the connection handler. *)
Definition getPolicy (config : SecurityConfig) (primary : SecurityExecutionPolicy)
  : SecurityExecutionPolicy :=
  if decide (primary ≠ ExecutionPolicyUnconfigured) then primary
  else if decide (DefaultMode config ≠ ExecutionPolicyUnconfigured) then DefaultMode config
  else ExecutionPolicyEnable.

Fixpoint contains (items : list string) (item : string) : bool :=
  match items with
  | [] => false
  | searchItem :: rest => if decide (searchItem = item) then true else contains rest item
  end.

(** [return err] where [err] is a freshly built message. *)
Definition reject {W} (m : message) : prog W (option error) := prog_ret (Some (MsgError m)).

Section sessionHandler.
Context {W : Type} (config : SecurityConfig) (backend : SessionChannelHandler W).

Definition sessionHandler_OnEnvRequest (requestID : Z) (name val : string) : prog W (option error) :=
  let mode := getPolicy config (Env_Mode (Env config)) in
  if decide (mode = ExecutionPolicyDisable) then
    reject (Label "name" (VString name)
      (UserMessage ESecurityEnvRejected "Environment variable setting rejected."
         "Setting an environment variable is rejected because it is disabled in the security settings." []))
  else if decide (mode = ExecutionPolicyFilter) then
    if contains (Env_Allow (Env config)) name then OnEnvRequest backend requestID name val
    else
      reject (Label "name" (VString name)
        (UserMessage ESecurityEnvRejected "Environment variable setting rejected."
           "Setting an environment variable is rejected because it does not match the allow list." []))
  else
    if negb (contains (Env_Deny (Env config)) name) then OnEnvRequest backend requestID name val
    else
      reject (Label "name" (VString name)
        (UserMessage ESecurityEnvRejected "Environment variable setting rejected."
           "Setting an environment variable is rejected because it matches the deny list." [])).

Definition sessionHandler_OnPtyRequest (requestID : Z) (term : string) (columns rows width height : Z)
    (modeList : list byte) : prog W (option error) :=
  let mode := getPolicy config (TTY_Mode (TTY config)) in
  if decide (mode = ExecutionPolicyDisable ∨ mode = ExecutionPolicyFilter) then
    reject (UserMessage ESecurityTTYRejected "TTY allocation disabled."
              "TTY allocation is disabled in the security settings." [])
  else OnPtyRequest backend requestID term columns rows width height modeList.

(** The common end of [OnExecRequest] and [OnSubsystem] with a forced command:
    the original request goes into an environment variable first. *)
Definition force_command (requestID : Z) (original : string) : prog W (option error) :=
  let* err := OnEnvRequest backend requestID "SSH_ORIGINAL_COMMAND" original in
  match err with
  | Some _ =>
      prog_ret (Some (WrapUser err ESecurityFailedSetEnv "Could not execute program."
        "Command execution failed because the security layer could not set the SSH_ORIGINAL_COMMAND variable." []))
  | None => OnExecRequest backend requestID (ForceCommand config)
  end.

Definition sessionHandler_OnExecRequest (requestID : Z) (program : string) : prog W (option error) :=
  let mode := getPolicy config (Command_Mode (Command config)) in
  let run :=
    if decide (ForceCommand config = "") then OnExecRequest backend requestID program
    else force_command requestID program in
  if decide (mode = ExecutionPolicyDisable) then
    reject (UserMessage ESecurityExecRejected "Command execution disabled."
              "Command execution is disabled in the security settings." [])
  else if decide (mode = ExecutionPolicyFilter) then
    if negb (contains (Command_Allow (Command config)) program) then
      reject (UserMessage ESecurityExecRejected "Command execution disabled."
                "The specified command passed from the client does not match the specified allow list." [])
    else run
  else run.

Definition sessionHandler_OnShell (requestID : Z) : prog W (option error) :=
  let mode := getPolicy config (Shell_Mode (Shell config)) in
  if decide (mode = ExecutionPolicyDisable ∨ mode = ExecutionPolicyFilter) then
    reject (UserMessage ESecurityShellRejected "Shell execution disabled."
              "Shell execution is disabled in the security settings." [])
  else if decide (ForceCommand config = "") then OnShell backend requestID
  else OnExecRequest backend requestID (ForceCommand config).

Definition sessionHandler_OnSubsystem (requestID : Z) (subsystem : string) : prog W (option error) :=
  let mode := getPolicy config (Subsystem_Mode (Subsystem config)) in
  let run :=
    if decide (ForceCommand config = "") then OnSubsystem backend requestID subsystem
    else force_command requestID subsystem in
  if decide (mode = ExecutionPolicyDisable) then
    reject (UserMessage ESecuritySubsystemRejected "Subsystem execution disabled."
              "Subsystem execution is disabled in the security settings." [])
  else if decide (mode = ExecutionPolicyFilter) then
    if negb (contains (Subsystem_Allow (Subsystem config)) subsystem) then
      reject (UserMessage ESecuritySubsystemRejected "Subsystem execution disabled."
                "The specified subsystem does not match the allowed subsystems list." [])
    else run
  else if decide (mode = ExecutionPolicyEnable) then
    if contains (Subsystem_Deny (Subsystem config)) subsystem then
      reject (UserMessage ESecuritySubsystemRejected "Subsystem execution disabled."
                "The subsystem execution is rejected because the specified subsystem matches the deny list." [])
    else run
  else run.

(** The mode is read from the [Shell] section, as in the source. *)
Definition sessionHandler_OnSignal (requestID : Z) (signal : string) : prog W (option error) :=
  let mode := getPolicy config (Shell_Mode (Shell config)) in
  if decide (mode = ExecutionPolicyDisable) then
    reject (UserMessage ESecuritySignalRejected "Sending signals is rejected."
              "Sending the signal is rejected because signal delivery is disabled." [])
  else if decide (mode = ExecutionPolicyFilter) then
    if contains (Signal_Allow (Signal config)) signal then OnSignal backend requestID signal
    else
      reject (UserMessage ESecuritySignalRejected "Sending signals is rejected."
        "Sending the signal is rejected because the specified signal does not match the allow list." [])
  else
    if negb (contains (Signal_Deny (Signal config)) signal) then OnSignal backend requestID signal
    else
      reject (UserMessage ESecuritySignalRejected "Sending signals is rejected."
        "Sending the signal is rejected because the specified signal matches the deny list." []).

Definition sessionHandler_OnWindow (requestID columns rows width height : Z) : prog W (option error) :=
  OnWindow backend requestID columns rows width height.

Definition sessionHandler_OnX11Request (requestID : Z) (singleConnection : bool)
    (protocol cookie : string) (screen : Z) (reverseHandler : ReverseForward W) : prog W (option error) :=
  let mode := getPolicy config (X11ForwardingMode (Forwarding config)) in
  if decide (mode = ExecutionPolicyDisable) then
    reject (UserMessage ESecurityX11ForwardingRejected "X11 forwarding is rejected"
              "X11 forwarding is rejected because it is disabled in the config" [])
  else if decide (mode = ExecutionPolicyFilter) then
    reject (UserMessage ESecurityX11ForwardingRejected "X11 forwarding is rejected"
      "X11 forwarding is rejected because it is set to filter and filterint X11 requests is not supported" [])
  else OnX11Request backend requestID singleConnection protocol cookie screen reverseHandler.

(** The handler as a value of the interface; the remaining methods pass on. *)
Definition sessionHandler : SessionChannelHandler W :=
  {| OnUnsupportedChannelRequest := OnUnsupportedChannelRequest backend;
     OnFailedDecodeChannelRequest := OnFailedDecodeChannelRequest backend;
     OnEnvRequest := sessionHandler_OnEnvRequest;
     OnPtyRequest := sessionHandler_OnPtyRequest;
     OnX11Request := sessionHandler_OnX11Request;
     OnExecRequest := sessionHandler_OnExecRequest;
     OnShell := sessionHandler_OnShell;
     OnSubsystem := sessionHandler_OnSubsystem;
     OnSignal := sessionHandler_OnSignal;
     OnWindow := sessionHandler_OnWindow;
     OnClose := OnClose backend;
     OnShutdown := OnShutdown backend |}.

End sessionHandler.

(** ** The connection handler

    Its only mutable field is [sessionCount], a Go [uint]. *)

Section sshConnectionHandler.
Context {W : Type} `{!Field W Z} (config : SecurityConfig) (backend : SSHConnectionHandler W).

Definition sshConnectionHandler_OnSessionChannel (meta : ChannelMetadata) (extraData : list byte)
    (session : SessionChannel) : prog W (option (SessionChannelHandler W) * option ChannelRejection) :=
  let* w := get in
  if decide (MaxSessions config > -1 ∧ fget w >= u64 (MaxSessions config))%Z then
    prog_ret (None, Some (ErrTooManySessions ∅))
  else
    let* '(backend', err) := OnSessionChannel backend meta extraData session in
    match err with
    | Some e => prog_ret (None, Some e)
    | None =>
        do* modify (λ w, fset (u64 (fget w + 1)) w) in
        prog_ret (Some (sessionHandler config (default nil_SessionChannelHandler backend')), None)
    end.

(** The three-way switch the forwarding methods share: [disabled] and
    [filtered] are what the first two cases return. *)
Definition forwarding_switch {A} (primary : SecurityExecutionPolicy) (disabled filtered : A)
    (enabled : prog W A) : prog W A :=
  let mode := getPolicy config primary in
  if decide (mode = ExecutionPolicyDisable) then prog_ret disabled
  else if decide (mode = ExecutionPolicyFilter) then prog_ret filtered
  else enabled.

Definition sshConnectionHandler_OnTCPForwardChannel (channelID : Z) (hostToConnect : string)
    (portToConnect : Z) (originatorHost : string) (originatorPort : Z)
  : prog W (option ForwardChannel * option ChannelRejection) :=
  forwarding_switch (ForwardingMode (Forwarding config))
    (None, Some (NewChannelRejection Prohibited ESecurityForwardingRejected
       "Forwarding is rejected" "Forwarding is rejected because it is disabled" []))
    (None, Some (NewChannelRejection Prohibited ESecurityForwardingRejected
       "Forwarding is rejected"
       "Forwarding is rejected because it is set to filtered and filtering is currently not supported" []))
    (OnTCPForwardChannel backend channelID hostToConnect portToConnect originatorHost originatorPort).

Definition sshConnectionHandler_OnRequestTCPReverseForward (bindHost : string) (bindPort : Z)
    (reverseHandler : ReverseForward W) : prog W (option error) :=
  forwarding_switch (ReverseForwardingMode (Forwarding config))
    (Some (MsgError (UserMessage ESecurityReverseForwardingRejected "Reverse forwarding is rejected"
       "Reverse forwarding is rejected because it is disabled in the config" [])))
    (Some (MsgError (UserMessage ESecurityReverseForwardingRejected "Reverse forwarding is rejected"
       "Reverse forwarding is rejected because it is set to filter and filtering reverse forwarding requests is not supported" [])))
    (OnRequestTCPReverseForward backend bindHost bindPort reverseHandler).

Definition sshConnectionHandler_OnDirectStreamLocal (channelID : Z) (path : string)
  : prog W (option ForwardChannel * option ChannelRejection) :=
  forwarding_switch (SocketForwardingMode (Forwarding config))
    (None, Some (NewChannelRejection Prohibited ESecurityForwardingRejected
       "StreamLocal forwarding is rejected" "StreamLocal forwarding is rejected because it is disabled" []))
    (None, Some (NewChannelRejection Prohibited ESecurityForwardingRejected
       "StreamLocal forwarding is rejected"
       "StreamLocal forwarding is rejected because it is set to filtered and filtering is currently not supported" []))
    (OnDirectStreamLocal backend channelID path).

Definition sshConnectionHandler_OnRequestStreamLocal (path : string) (reverseHandler : ReverseForward W)
  : prog W (option error) :=
  forwarding_switch (SocketListenMode (Forwarding config))
    (Some (MsgError (UserMessage ESecurityReverseForwardingRejected "Reverse socket forwarding is rejected"
       "Reverse socket forwarding is rejected because it is disabled in the config" [])))
    (Some (MsgError (UserMessage ESecurityReverseForwardingRejected "Reverse socket forwarding is rejected"
       "Reverse socket forwarding is rejected because it is set to filter and filtering reverse forwarding requests is not supported" [])))
    (OnRequestStreamLocal backend path reverseHandler).

Definition security_sshConnectionHandler : SSHConnectionHandler W :=
  {| OnUnsupportedGlobalRequest := OnUnsupportedGlobalRequest backend;
     OnFailedDecodeGlobalRequest := OnFailedDecodeGlobalRequest backend;
     OnUnsupportedChannel := OnUnsupportedChannel backend;
     OnSessionChannel := sshConnectionHandler_OnSessionChannel;
     OnTCPForwardChannel := sshConnectionHandler_OnTCPForwardChannel;
     OnRequestTCPReverseForward := sshConnectionHandler_OnRequestTCPReverseForward;
     OnRequestCancelTCPReverseForward := OnRequestCancelTCPReverseForward backend;
     OnDirectStreamLocal := sshConnectionHandler_OnDirectStreamLocal;
     OnRequestStreamLocal := sshConnectionHandler_OnRequestStreamLocal;
     OnRequestCancelStreamLocal := OnRequestCancelStreamLocal backend;
     OnConnShutdown := OnConnShutdown backend |}.

End sshConnectionHandler.

(** The methods of the rejection value returned when the limit is reached. *)
Definition ChannelRejection_Reason (r : ChannelRejection) : RejectionReason :=
  match r with Rejection reason _ => reason | ErrTooManySessions _ => ResourceShortage end.

Definition ChannelRejection_Code (r : ChannelRejection) : string :=
  match r with Rejection _ m => code m | ErrTooManySessions _ => ESecurityMaxSessions end.

Definition ChannelRejection_UserMessage (r : ChannelRejection) : string :=
  match r with Rejection _ m => userMessage m | ErrTooManySessions _ => "Too many sessions." end.

(** ** The network handler and the factory *)

Section networkHandler.
Context {W : Type} `{!Field W Z} (config : SecurityConfig) (backend : NetworkConnectionHandler W).

(** A new connection handler starts with a session count of zero. *)
Definition security_networkHandler_OnHandshakeSuccess (meta : ConnectionAuthenticatedMetadata)
  : prog W (option (SSHConnectionHandler W) * ConnectionAuthenticatedMetadata * option error) :=
  let* '(backend', _, failureReason) := OnHandshakeSuccess backend meta in
  match failureReason with
  | Some _ => prog_ret (None, meta, failureReason)
  | None =>
      do* modify (fset 0%Z) in
      prog_ret (Some (security_sshConnectionHandler config (default nil_SSHConnectionHandler backend')),
                meta, None)
  end.

Definition security_networkHandler : NetworkConnectionHandler W :=
  {| OnAuthPassword := OnAuthPassword backend;
     OnAuthPubKey := OnAuthPubKey backend;
     OnAuthKeyboardInteractive := OnAuthKeyboardInteractive backend;
     OnAuthGSSAPI := OnAuthGSSAPI backend;
     OnHandshakeFailed := OnHandshakeFailed backend;
     OnHandshakeSuccess := security_networkHandler_OnHandshakeSuccess;
     OnDisconnect := OnDisconnect backend;
     OnNetShutdown := OnNetShutdown backend |}.

End networkHandler.

Definition security_New {W} `{!Field W Z} (config : SecurityConfig) (backend : NetworkConnectionHandler W)
  : option (NetworkConnectionHandler W) * option error :=
  match SecurityConfig_Validate config with
  | Some err =>
      (None, Some (WrapError (Sprintf "invalid security configuration (%w)" [VString (Error err)]) err))
  | None => (Some (security_networkHandler config backend), None)
  end.
