(* ===== verification/SecuritySpec.v ===== *)
(** * What the security overlay promises

    The access policy that the configuration documents, the policy that the
    overlay enforces, the requests on which the two differ, and the theorems
    that the handlers of [Security] implement them. *)

From stdpp Require Import base gmap strings list sets.
From Stdlib Require Import Strings.Byte.
From S2P Require Import Prelude Messages Metadata Handler SecurityConfig Security.

(** ** The documented policy *)

(** An unconfigured mode falls back to the default mode and then to "enable". *)
Definition effective_mode (cfg : SecurityConfig) (mode : string) : string :=
  if decide (mode = "") then if decide (DefaultMode cfg = "") then "enable" else DefaultMode cfg else mode.

(** What config/security.go says of a mode with its lists: "disable" disables,
    the allow list takes effect when the mode is "filter" (an empty or
    unsupported one then behaves like "disable"), and the deny list takes effect
    whenever the mode is not "disable". *)
Definition documented_item (cfg : SecurityConfig) (mode : string) (allow deny : list string) (item : string) : Prop :=
  effective_mode cfg mode ≠ "disable" ∧
  (effective_mode cfg mode = "filter" → item ∈ allow) ∧
  item ∉ deny.

#[export] Instance documented_item_dec cfg mode allow deny item :
  Decision (documented_item cfg mode allow deny item).
Proof. unfold documented_item. apply _. Defined.

(** What the configuration documents of a session request: each kind has its
    mode, signals the mode of the signal section. *)
Definition documented {W} (cfg : SecurityConfig) (r : session_request W) : Prop :=
  match r with
  | ReqEnv _ name _ => documented_item cfg (Env_Mode (Env cfg)) (Env_Allow (Env cfg)) (Env_Deny (Env cfg)) name
  | ReqPty _ _ _ _ _ _ _ => documented_item cfg (TTY_Mode (TTY cfg)) [] [] ""
  | ReqX11 _ _ _ _ _ _ => documented_item cfg (X11ForwardingMode (Forwarding cfg)) [] [] ""
  | ReqExec _ program => documented_item cfg (Command_Mode (Command cfg)) (Command_Allow (Command cfg)) [] program
  | ReqShell _ => documented_item cfg (Shell_Mode (Shell cfg)) [] [] ""
  | ReqSubsystem _ s =>
      documented_item cfg (Subsystem_Mode (Subsystem cfg)) (Subsystem_Allow (Subsystem cfg))
        (Subsystem_Deny (Subsystem cfg)) s
  | ReqSignal _ s =>
      documented_item cfg (Signal_Mode (Signal cfg)) (Signal_Allow (Signal cfg)) (Signal_Deny (Signal cfg)) s
  | ReqWindow _ _ _ _ _ => True
  end.

#[export] Instance documented_dec {W} cfg (r : session_request W) : Decision (documented cfg r).
Proof. destruct r; cbn; apply _. Defined.

(** The deny list is overlooked: in "filter" mode the code consults the allow
    list only, so an item that is on both lists gets through. *)
Definition deny_overlooked (cfg : SecurityConfig) (mode : string) (allow deny : list string) (item : string) : Prop :=
  effective_mode cfg mode = "filter" ∧ item ∈ allow ∧ item ∈ deny.

(** The requests on which the code departs from the documentation. *)
Definition departs {W} (cfg : SecurityConfig) (r : session_request W) : Prop :=
  match r with
  | ReqEnv _ name _ => deny_overlooked cfg (Env_Mode (Env cfg)) (Env_Allow (Env cfg)) (Env_Deny (Env cfg)) name
  | ReqSubsystem _ s =>
      deny_overlooked cfg (Subsystem_Mode (Subsystem cfg)) (Subsystem_Allow (Subsystem cfg))
        (Subsystem_Deny (Subsystem cfg)) s
  | ReqSignal _ s =>
      effective_mode cfg (Signal_Mode (Signal cfg)) ≠ effective_mode cfg (Shell_Mode (Shell cfg)) ∨
      deny_overlooked cfg (Signal_Mode (Signal cfg)) (Signal_Allow (Signal cfg)) (Signal_Deny (Signal cfg)) s
  | _ => False
  end.

#[export] Instance departs_dec {W} cfg (r : session_request W) : Decision (departs cfg r).
Proof. unfold departs, deny_overlooked. destruct r; apply _. Defined.

(** ** The policy the overlay enforces *)

Inductive policy :=
| DenyAll
| AllowOnly (items : gset string)
| AllowExcept (items : gset string).

Definition permits (p : policy) (item : string) : Prop :=
  match p with
  | DenyAll => False
  | AllowOnly s => item ∈ s
  | AllowExcept s => item ∉ s
  end.

#[export] Instance permits_dec p item : Decision (permits p item).
Proof. destruct p; cbn; apply _. Defined.

(** A mode with its allow and deny lists, as the handlers read them: one list
    for each mode. *)
Definition policy_of (cfg : SecurityConfig) (mode : string) (allow deny : list string) : policy :=
  if decide (effective_mode cfg mode = "disable") then DenyAll
  else if decide (effective_mode cfg mode = "filter") then AllowOnly (list_to_set allow)
  else AllowExcept (list_to_set deny).

(** The policy that governs a session request and the item it is checked on;
    requests without an allow or deny list have empty ones, and signals are
    governed by the mode of shells. *)
Definition session_policy {W} (cfg : SecurityConfig) (r : session_request W) : policy * string :=
  match r with
  | ReqEnv _ name _ => (policy_of cfg (Env_Mode (Env cfg)) (Env_Allow (Env cfg)) (Env_Deny (Env cfg)), name)
  | ReqPty _ _ _ _ _ _ _ => (policy_of cfg (TTY_Mode (TTY cfg)) [] [], "")
  | ReqX11 _ _ _ _ _ _ => (policy_of cfg (X11ForwardingMode (Forwarding cfg)) [] [], "")
  | ReqExec _ program =>
      (policy_of cfg (Command_Mode (Command cfg)) (Command_Allow (Command cfg)) [], program)
  | ReqShell _ => (policy_of cfg (Shell_Mode (Shell cfg)) [] [], "")
  | ReqSubsystem _ s =>
      (policy_of cfg (Subsystem_Mode (Subsystem cfg)) (Subsystem_Allow (Subsystem cfg))
         (Subsystem_Deny (Subsystem cfg)), s)
  | ReqSignal _ s =>
      (policy_of cfg (Shell_Mode (Shell cfg)) (Signal_Allow (Signal cfg)) (Signal_Deny (Signal cfg)), s)
  | ReqWindow _ _ _ _ _ => (AllowExcept ∅, "")
  end.

Definition permitted {W} (cfg : SecurityConfig) (r : session_request W) : Prop :=
  permits (session_policy cfg r).1 (session_policy cfg r).2.

#[export] Instance permitted_dec {W} cfg (r : session_request W) : Decision (permitted cfg r).
Proof. unfold permitted. apply _. Defined.

(** The code a rejected request is answered with. *)
Definition rejection_code {W} (r : session_request W) : string :=
  match r with
  | ReqEnv _ _ _ => ESecurityEnvRejected
  | ReqPty _ _ _ _ _ _ _ => ESecurityTTYRejected
  | ReqX11 _ _ _ _ _ _ => ESecurityX11ForwardingRejected
  | ReqExec _ _ => ESecurityExecRejected
  | ReqShell _ => ESecurityShellRejected
  | ReqSubsystem _ _ => ESecuritySubsystemRejected
  | ReqSignal _ _ => ESecuritySignalRejected
  | ReqWindow _ _ _ _ _ => ""
  end.

(** What an accepted request becomes: with a forced command, everything that
    would start a program starts the forced one, after the original command or
    subsystem has been recorded in the environment. *)
Definition forced {W} (cfg : SecurityConfig) (r : session_request W)
  : option (session_request W) * session_request W :=
  if decide (ForceCommand cfg = "") then (None, r)
  else
    match r with
    | ReqExec id p => (Some (ReqEnv id "SSH_ORIGINAL_COMMAND" p), ReqExec id (ForceCommand cfg))
    | ReqSubsystem id s => (Some (ReqEnv id "SSH_ORIGINAL_COMMAND" s), ReqExec id (ForceCommand cfg))
    | ReqShell id => (None, ReqExec id (ForceCommand cfg))
    | _ => (None, r)
    end.

Definition forward {W} (cfg : SecurityConfig) (backend : SessionChannelHandler W) (r : session_request W)
  : prog W (option error) :=
  match forced cfg r with
  | (None, r') => session_call backend r'
  | (Some env, r') =>
      let* err := session_call backend env in
      match err with
      | None => session_call backend r'
      | Some _ =>
          prog_ret (Some (WrapUser err ESecurityFailedSetEnv "Could not execute program."
            "Command execution failed because the security layer could not set the SSH_ORIGINAL_COMMAND variable." []))
      end
  end.

(** ** The handlers implement the policy *)

Lemma contains_spec l x : contains l x = true ↔ x ∈ (list_to_set l : gset string).
Proof.
  induction l as [|y l IH]; cbn; [set_solver|].
  case_decide; set_solver.
Qed.

Lemma contains_false l x : contains l x = false ↔ x ∉ (list_to_set l : gset string).
Proof. rewrite <- contains_spec. by destruct (contains l x). Qed.

Lemma getPolicy_eq cfg m :
  getPolicy cfg m = effective_mode cfg m.
Proof.
  unfold effective_mode, getPolicy, ExecutionPolicyUnconfigured, ExecutionPolicyEnable.
  repeat case_decide; naive_solver.
Qed.

Lemma getPolicy_known cfg m :
  known_policy (DefaultMode cfg) → known_policy m →
  getPolicy cfg m ∈ [ExecutionPolicyEnable; ExecutionPolicyFilter; ExecutionPolicyDisable].
Proof.
  unfold known_policy, getPolicy, ExecutionPolicyUnconfigured, ExecutionPolicyEnable,
    ExecutionPolicyFilter, ExecutionPolicyDisable.
  repeat case_decide; set_solver.
Qed.

(** The policy of a mode, by the value [getPolicy] returns. *)
Lemma policy_of_getPolicy cfg m allow deny :
  policy_of cfg m allow deny =
  if decide (getPolicy cfg m = ExecutionPolicyDisable) then DenyAll
  else if decide (getPolicy cfg m = ExecutionPolicyFilter) then AllowOnly (list_to_set allow)
  else AllowExcept (list_to_set deny).
Proof. unfold policy_of. by rewrite getPolicy_eq. Qed.

(** The error a handler returns without calling its backend. *)
Definition rejected_with {W} (c : prog W (option error)) (w : W) (code_ : string) : Prop :=
  ∃ e, c w = Done (Some e, w) ∧ error_Code e = Some code_.

Lemma reject_rejected {W} (w : W) m : rejected_with (reject m) w (code m).
Proof. by exists (MsgError m). Qed.

(** One branch of the refinement: decide the mode the code looks at, then the
    list lookup, and compare with the policy. *)
Ltac solve_policy :=
  unfold permitted; cbn; rewrite policy_of_getPolicy; cbn;
  repeat (case_decide || split_match; try done); destruct_or?;
  repeat match goal with
         | H : negb _ = true |- _ => apply negb_true_iff in H
         | H : negb _ = false |- _ => apply negb_false_iff in H
         end;
  repeat match goal with
         | H : contains _ _ = true |- _ => apply contains_spec in H
         | H : contains _ _ = false |- _ => apply contains_false in H
         end;
  cbn in *; try (split; intros; solve [done | apply reject_rejected | set_solver]);
  try naive_solver.

Section refinement.
Context {W : Type} (cfg : SecurityConfig) (backend : SessionChannelHandler W).

Definition implements_policy (r : session_request W) : Prop :=
  ∀ w,
    (permitted cfg r → session_call (sessionHandler cfg backend) r w = forward cfg backend r w) ∧
    (¬ permitted cfg r → rejected_with (session_call (sessionHandler cfg backend) r) w (rejection_code r)).

Lemma env_implements id n v : implements_policy (ReqEnv id n v).
Proof.
  intros w. unfold forward, forced. cbn. unfold sessionHandler_OnEnvRequest. solve_policy.
Qed.

Lemma pty_implements id t c r x y ml : implements_policy (ReqPty id t c r x y ml).
Proof. intros w. unfold forward, forced. cbn. unfold sessionHandler_OnPtyRequest. solve_policy. Qed.

Lemma x11_implements id s p c sc rev : implements_policy (ReqX11 id s p c sc rev).
Proof. intros w. unfold forward, forced. cbn. unfold sessionHandler_OnX11Request. solve_policy. Qed.

Lemma exec_implements id p : implements_policy (ReqExec id p).
Proof.
  intros w. unfold forward, forced. cbn. unfold sessionHandler_OnExecRequest, force_command.
  solve_policy.
Qed.

Lemma shell_implements id : implements_policy (ReqShell id).
Proof. intros w. unfold forward, forced. cbn. unfold sessionHandler_OnShell. solve_policy. Qed.

Lemma signal_implements id s : implements_policy (ReqSignal id s).
Proof. intros w. unfold forward, forced. cbn. unfold sessionHandler_OnSignal. solve_policy. Qed.

Lemma window_implements id c r x y : implements_policy (ReqWindow id c r x y).
Proof.
  intros w. unfold forward, forced, permitted. cbn. split; [by case_decide | set_solver].
Qed.

(** Only for the known modes: an unknown subsystem mode skips the deny list. *)
Lemma subsystem_implements id s :
  known_policy (DefaultMode cfg) → known_policy (Subsystem_Mode (Subsystem cfg)) →
  implements_policy (ReqSubsystem id s).
Proof.
  intros Hd Hs w. pose proof (getPolicy_known cfg _ Hd Hs) as Hk.
  unfold forward, forced. cbn. unfold sessionHandler_OnSubsystem, force_command.
  solve_policy.
Qed.

Lemma request_implements r :
  known_policy (DefaultMode cfg) → known_policy (Subsystem_Mode (Subsystem cfg)) →
  implements_policy r.
Proof.
  intros. destruct r; [apply env_implements | apply pty_implements | apply x11_implements
    | apply exec_implements | apply shell_implements | by apply subsystem_implements
    | apply signal_implements | apply window_implements].
Qed.

End refinement.

(** The enforced policy against the documented one, for one mode. *)
Lemma policy_of_documented cfg mode allow deny item :
  ¬ deny_overlooked cfg mode allow deny item →
  permits (policy_of cfg mode allow deny) item ↔ documented_item cfg mode allow deny item.
Proof.
  unfold policy_of, deny_overlooked, documented_item. intros.
  destruct (decide (item ∈ deny)); repeat case_decide; cbn; rewrite ?elem_of_list_to_set; naive_solver.
Qed.

Lemma policy_of_overlooked cfg mode allow deny item :
  deny_overlooked cfg mode allow deny item →
  permits (policy_of cfg mode allow deny) item ∧ ¬ documented_item cfg mode allow deny item.
Proof.
  unfold policy_of, deny_overlooked, documented_item. intros (-> & ? & ?). cbn. set_solver.
Qed.

(** Away from the departures, the overlay permits what is documented. *)
Lemma permitted_documented {W} cfg (r : session_request W) :
  ¬ departs cfg r → permitted cfg r ↔ documented cfg r.
Proof.
  assert (∀ mode allow item, ¬ deny_overlooked cfg mode allow [] item) as Hnil.
  { unfold deny_overlooked. set_solver. }
  destruct r; unfold permitted; cbn [departs session_policy documented fst snd]; intros Hd;
    try by apply policy_of_documented.
  - apply Decidable.not_or in Hd as [Hm Hd]. apply dec_stable in Hm.
    rewrite <- policy_of_documented by done. unfold policy_of. by rewrite Hm.
  - cbn. set_solver.
Qed.

(** ** Theorems about session requests *)

(** Claim C3. Under a configuration that passes validation, every session request the
    client can send is treated as the configuration documents: a request that
    its mode and lists allow reaches the backend, rewritten for a forced
    command, and any other is answered with the error of its kind while the
    backend is not called at all. The exceptions are exactly those of
    [departs]: an environment variable or subsystem that is on the allow and on
    the deny list is forwarded in "filter" mode although it is denied, and a
    signal is decided by the mode of shells over the lists of signals, whatever
    the mode of signals. *)
Theorem security_session_refines_policy {W} cfg (backend : SessionChannelHandler W) r w :
  SecurityConfig_Validate cfg = None →
  let forwarded := session_call (sessionHandler cfg backend) r w = forward cfg backend r w in
  let rejected := ∃ e, session_call (sessionHandler cfg backend) r w = Done (Some e, w) ∧
                       error_Code e = Some (rejection_code r) in
  (¬ departs cfg r → (documented cfg r → forwarded) ∧ (¬ documented cfg r → rejected)) ∧
  (departs cfg r →
   match r with
   | ReqSignal _ s =>
       let p := policy_of cfg (Shell_Mode (Shell cfg)) (Signal_Allow (Signal cfg)) (Signal_Deny (Signal cfg)) in
       (permits p s → forwarded) ∧ (¬ permits p s → rejected)
   | _ => ¬ documented cfg r ∧ forwarded
   end).
Proof.
  intros Hv forwarded rejected. apply security_config_validate_iff in Hv as [Hk _].
  rewrite !Forall_cons in Hk. destruct_and!.
  assert ((permitted cfg r → forwarded) ∧ (¬ permitted cfg r → rejected)) as [Hf Hr]
    by by apply request_implements.
  split; intros Hd.
  - rewrite <- permitted_documented by done. done.
  - destruct r; cbn in Hd |- *; try done.
    all: destruct (policy_of_overlooked _ _ _ _ _ Hd); split; [done | by apply Hf].
Qed.

(** A launch of a program by the backend. *)
Inductive launch :=
| LExec (program : string)
| LShell
| LSubsystem (subsystem : string).

(** The backend, writing down what it is asked to launch. *)
Definition spy {W} `{!Field W (list launch)} (b : SessionChannelHandler W) : SessionChannelHandler W :=
  {| OnUnsupportedChannelRequest := OnUnsupportedChannelRequest b;
     OnFailedDecodeChannelRequest := OnFailedDecodeChannelRequest b;
     OnEnvRequest := OnEnvRequest b;
     OnPtyRequest := OnPtyRequest b;
     OnX11Request := OnX11Request b;
     OnExecRequest := λ id p, do* modify (λ w, fset (fget w ++ [LExec p]) w) in OnExecRequest b id p;
     OnShell := λ id, do* modify (λ w, fset (fget w ++ [LShell]) w) in OnShell b id;
     OnSubsystem := λ id s, do* modify (λ w, fset (fget w ++ [LSubsystem s]) w) in OnSubsystem b id s;
     OnSignal := OnSignal b;
     OnWindow := OnWindow b;
     OnClose := OnClose b;
     OnShutdown := OnShutdown b |}.

(** A client sending requests one after the other. *)
Definition session_requests {W} (h : SessionChannelHandler W) (rs : list (session_request W)) : prog W unit :=
  range rs (λ r, do* session_call h r in prog_ret tt).

Section forced_command.
Context {W : Type} `{!Field W (list launch)} (cfg : SecurityConfig) (b : SessionChannelHandler W).
Context (Hforce : ForceCommand cfg ≠ "") (Hb : ∀ r, framed (session_call b r)).

(** [c] returns and all it launches is the forced command. *)
Definition launches_forced {A} (c : prog W A) : Prop :=
  ∀ w, ∃ a w' l, c w = Done (a, w') ∧ fget w' = fget w ++ l ∧ Forall (eq (LExec (ForceCommand cfg))) l.

Lemma framed_launches {A} (c : prog W A) : framed c → launches_forced c.
Proof.
  intros Hc w. destruct (Hc w) as (a & w' & E & H). exists a, w', [].
  by rewrite app_nil_r.
Qed.

Lemma bind_launches {A B} (c : prog W A) (f : A → prog W B) :
  launches_forced c → (∀ a, launches_forced (f a)) → launches_forced (prog_bind f c).
Proof.
  intros Hc Hf w. destruct (Hc w) as (a & w1 & l1 & E1 & G1 & F1).
  destruct (Hf a w1) as (a2 & w2 & l2 & E2 & G2 & F2).
  exists a2, w2, (l1 ++ l2). unfold prog_bind. rewrite E1.
  split_and!; [done | by rewrite G2, G1, app_assoc | by apply Forall_app].
Qed.

Lemma exec_launches id : launches_forced (OnExecRequest (spy b) id (ForceCommand cfg)).
Proof.
  intros w. cbn. run_prog.
  destruct (Hb (ReqExec id (ForceCommand cfg)) (fset (fget w ++ [LExec (ForceCommand cfg)]) w))
    as (a & w' & E & H).
  exists a, w', [LExec (ForceCommand cfg)].
  split_and!; [done | by rewrite H, fget_fset | by repeat constructor].
Qed.

Lemma force_command_launches id s : launches_forced (force_command cfg (spy b) id s).
Proof.
  apply bind_launches; [apply framed_launches, (Hb (ReqEnv _ _ _)) |].
  intros [e|]; [apply framed_launches, framed_ret | apply exec_launches].
Qed.

Lemma request_launches r : launches_forced (session_call (sessionHandler cfg (spy b)) r).
Proof.
  assert (∀ m, launches_forced (reject (W:=W) m)) by (intros; apply framed_launches, framed_ret).
  pose proof exec_launches. pose proof force_command_launches.
  destruct r; cbn; [unfold sessionHandler_OnEnvRequest | unfold sessionHandler_OnPtyRequest
    | unfold sessionHandler_OnX11Request | unfold sessionHandler_OnExecRequest
    | unfold sessionHandler_OnShell | unfold sessionHandler_OnSubsystem
    | unfold sessionHandler_OnSignal | unfold sessionHandler_OnWindow];
    repeat (case_decide || split_match); try done; apply framed_launches.
  all: first [apply (Hb (ReqEnv _ _ _)) | apply (Hb (ReqPty _ _ _ _ _ _ _))
    | apply (Hb (ReqX11 _ _ _ _ _ _)) | apply (Hb (ReqSignal _ _)) | apply (Hb (ReqWindow _ _ _ _ _))].
Qed.

Lemma requests_launch rs : launches_forced (session_requests (sessionHandler cfg (spy b)) rs).
Proof.
  induction rs as [|r rs IH]; cbn; [apply framed_launches, framed_ret |].
  apply bind_launches; [|done].
  apply bind_launches; [apply request_launches | intros; apply framed_launches, framed_ret].
Qed.

End forced_command.

(** Claim C4. With a forced command, whatever sequence of requests a client sends on a
    session channel, every program the backend launches is the forced command:
    no requested command, shell or subsystem ever gets through. *)
Theorem force_command_is_forced {W} `{!Field W (list launch)} cfg (b : SessionChannelHandler W) rs w :
  ForceCommand cfg ≠ "" →
  (∀ r, framed (session_call b r)) →
  ∃ w' l, session_requests (sessionHandler cfg (spy b)) rs w = Done (tt, w') ∧
          fget w' = fget w ++ l ∧ Forall (eq (LExec (ForceCommand cfg))) l.
Proof.
  intros Hf Hb. destruct (requests_launch cfg b Hf Hb rs w) as ([] & w' & l & E & H). eauto.
Qed.

(** Signals are governed by the shell mode: in any configuration that disables
    signals but whose shell mode resolves to "enable", every signal outside the
    deny list is still delivered to the backend. *)
Theorem disabled_signals_are_delivered {W} cfg (backend : SessionChannelHandler W) id s w :
  getPolicy cfg (Signal_Mode (Signal cfg)) = ExecutionPolicyDisable →
  getPolicy cfg (Shell_Mode (Shell cfg)) = ExecutionPolicyEnable →
  s ∉ Signal_Deny (Signal cfg) →
  OnSignal (sessionHandler cfg backend) id s w = OnSignal backend id s w.
Proof.
  intros _ Hshell Hs. cbn. unfold sessionHandler_OnSignal. rewrite Hshell. cbn.
  assert (contains (Signal_Deny (Signal cfg)) s = false) as -> by (apply contains_false; set_solver).
  done.
Qed.

(** ** Forwardings and connection-wide requests *)

(** The requests on the connection that open or announce a forwarding. *)
Inductive forward_request (W : Type) :=
| FwdTCP (channelID : Z) (host : string) (port : Z) (origHost : string) (origPort : Z)
| FwdReverseTCP (bindHost : string) (bindPort : Z) (rev : ReverseForward W)
| FwdSocket (channelID : Z) (path : string)
| FwdReverseSocket (path : string) (rev : ReverseForward W).

Arguments FwdTCP {W} _ _ _ _ _.
Arguments FwdReverseTCP {W} _ _ _.
Arguments FwdSocket {W} _ _.
Arguments FwdReverseSocket {W} _ _.

(** A forwarding either opens a channel, or is announced; both may be refused. *)
Inductive forward_answer :=
| AChannel (c : option ForwardChannel) (r : option ChannelRejection)
| AAnnounced (e : option error).

Definition forward_call {W} (h : SSHConnectionHandler W) (r : forward_request W) : prog W forward_answer :=
  match r with
  | FwdTCP id host port oh op =>
      let* '(c, rej) := OnTCPForwardChannel h id host port oh op in prog_ret (AChannel c rej)
  | FwdReverseTCP host port rev =>
      let* e := OnRequestTCPReverseForward h host port rev in prog_ret (AAnnounced e)
  | FwdSocket id path =>
      let* '(c, rej) := OnDirectStreamLocal h id path in prog_ret (AChannel c rej)
  | FwdReverseSocket path rev =>
      let* e := OnRequestStreamLocal h path rev in prog_ret (AAnnounced e)
  end.

Definition forward_mode {W} (cfg : SecurityConfig) (r : forward_request W) : string :=
  match r with
  | FwdTCP _ _ _ _ _ => ForwardingMode (Forwarding cfg)
  | FwdReverseTCP _ _ _ => ReverseForwardingMode (Forwarding cfg)
  | FwdSocket _ _ => SocketForwardingMode (Forwarding cfg)
  | FwdReverseSocket _ _ => SocketListenMode (Forwarding cfg)
  end.

(** The answer refuses the forwarding, with a security code. *)
Definition refused (a : forward_answer) : Prop :=
  match a with
  | AChannel c r => c = None ∧ ∃ rej, r = Some rej ∧
      ChannelRejection_Reason rej = Prohibited ∧ ChannelRejection_Code rej = ESecurityForwardingRejected
  | AAnnounced e => ∃ err, e = Some err ∧ error_Code err = Some ESecurityReverseForwardingRejected
  end.

Lemma forwarding_implements {W} `{!Field W Z} cfg (backend : SSHConnectionHandler W) r w :
  let h := security_sshConnectionHandler cfg backend in
  let p := policy_of cfg (forward_mode cfg r) [] [] in
  (permits p "" ∧ forward_call h r w = forward_call backend r w) ∨
  (¬ permits p "" ∧ ∃ a, forward_call h r w = Done (a, w) ∧ refused a).
Proof.
  cbn zeta. rewrite policy_of_getPolicy.
  destruct r; cbn [forward_mode forward_call security_sshConnectionHandler OnTCPForwardChannel
    OnRequestTCPReverseForward OnDirectStreamLocal OnRequestStreamLocal];
    unfold sshConnectionHandler_OnTCPForwardChannel, sshConnectionHandler_OnRequestTCPReverseForward,
      sshConnectionHandler_OnDirectStreamLocal, sshConnectionHandler_OnRequestStreamLocal, forwarding_switch;
    repeat case_decide; [right|right|left|right|right|left|right|right|left|right|right|left];
    (split; [set_solver|]); run_prog; try done; eexists; (split; [done|]); cbn; eauto.
Qed.

(** A mode without lists lets a request through unless it is "disable" or
    "filter". *)
Lemma permits_listless cfg mode :
  permits (policy_of cfg mode [] []) "" ↔ effective_mode cfg mode ∉ ["disable"; "filter"].
Proof. unfold policy_of. repeat case_decide; cbn; set_solver. Qed.

(** Claim C36. Each kind of forwarding (TCP, reverse TCP, sockets, listening sockets, and
    X11, which is asked for on a session channel) obeys its own mode: when that
    mode, or the default mode in its place, is "disable" or "filter" (there are
    no lists for forwardings) it is refused with the security layer's code and
    the backend is not called, and otherwise the answer is the backend's. *)
Theorem security_forwarding_refines_policy {W} `{!Field W Z} cfg (backend : SSHConnectionHandler W)
    (session : SessionChannelHandler W) r w :
  (let h := security_sshConnectionHandler cfg backend in
   let m := effective_mode cfg (forward_mode cfg r) in
   (m ∉ ["disable"; "filter"] ∧ forward_call h r w = forward_call backend r w) ∨
   (m ∈ ["disable"; "filter"] ∧ ∃ a, forward_call h r w = Done (a, w) ∧ refused a)) ∧
  (∀ id single protocol cookie screen rev,
   let x h := OnX11Request h id single protocol cookie screen rev w in
   let m := effective_mode cfg (X11ForwardingMode (Forwarding cfg)) in
   (m ∉ ["disable"; "filter"] ∧ x (sessionHandler cfg session) = x session) ∨
   (m ∈ ["disable"; "filter"] ∧ ∃ e, x (sessionHandler cfg session) = Done (Some e, w) ∧
      error_Code e = Some ESecurityX11ForwardingRejected)).
Proof.
  split.
  - cbn zeta. destruct (forwarding_implements cfg backend r w) as [[Hp H]|[Hp H]];
      rewrite permits_listless in Hp; [by left | right; split; [by apply dec_stable | done]].
  - intros. destruct (x11_implements cfg session id single protocol cookie screen rev w) as [Hf Hr].
    unfold permitted in Hf, Hr. cbn [session_policy fst snd] in Hf, Hr. rewrite permits_listless in Hf, Hr.
    destruct (decide (effective_mode cfg (X11ForwardingMode (Forwarding cfg)) ∈ ["disable"; "filter"])) as [Hm|Hm].
    + right. split; [done|]. apply Hr. tauto.
    + left. split; [done|]. specialize (Hf Hm). cbn in Hf |- *. rewrite Hf.
      unfold forward, forced. by case_decide.
Qed.

(** Locking down: with a default mode of "disable" and nothing else configured,
    every session request except window resizing is rejected and every
    forwarding is refused, without the backend being called. *)
Theorem default_disable_locks_down {W} `{!Field W Z} cfg (sb : SessionChannelHandler W)
    (cb : SSHConnectionHandler W) w :
  DefaultMode cfg = ExecutionPolicyDisable →
  Forall (eq ExecutionPolicyUnconfigured)
    [Env_Mode (Env cfg); Command_Mode (Command cfg); Shell_Mode (Shell cfg);
     Subsystem_Mode (Subsystem cfg); TTY_Mode (TTY cfg); ForwardingMode (Forwarding cfg);
     ReverseForwardingMode (Forwarding cfg); SocketForwardingMode (Forwarding cfg);
     SocketListenMode (Forwarding cfg); X11ForwardingMode (Forwarding cfg)] →
  (∀ r, (∀ id c rr x y, r ≠ ReqWindow id c rr x y) →
     ∃ e, session_call (sessionHandler cfg sb) r w = Done (Some e, w) ∧
          error_Code e = Some (rejection_code r)) ∧
  (∀ r, ∃ a, forward_call (security_sshConnectionHandler cfg cb) r w = Done (a, w) ∧ refused a).
Proof.
  intros Hd Hall. rewrite !Forall_cons in Hall. destruct_and!.
  assert (∀ m allow deny, m = ExecutionPolicyUnconfigured → policy_of cfg m allow deny = DenyAll) as Hp.
  { intros m allow deny ->. unfold policy_of, effective_mode. by rewrite Hd. }
  split.
  - intros r Hr. apply request_implements.
    + rewrite Hd. unfold known_policy. set_solver.
    + unfold known_policy. set_solver.
    + destruct r; unfold permitted; cbn; try rewrite Hp by done; naive_solver.
  - intros r. destruct (forwarding_implements cfg cb r w) as [[Hperm _]|[_ ?]]; [|done].
    rewrite Hp in Hperm; [done | by destruct r].
Qed.

(** ** The session limit *)

(** What happens on one connection: the client opens session channels, and
    channels that were opened are closed again (each close is that of the
    overlay around some backend channel). *)
Inductive session_action (W : Type) :=
| OpenSession (meta : ChannelMetadata) (extraData : list byte) (session : SessionChannel)
| CloseSession (b : SessionChannelHandler W).

Arguments OpenSession {W} _ _ _.
Arguments CloseSession {W} _.

(** Runs the actions and counts the sessions that were accepted. *)
Fixpoint session_actions {W} `{!Field W Z} (cfg : SecurityConfig) (backend : SSHConnectionHandler W)
    (acts : list (session_action W)) (accepted : Z) : prog W Z :=
  match acts with
  | [] => prog_ret accepted
  | OpenSession m x s :: rest =>
      let* '(h, _) := OnSessionChannel (security_sshConnectionHandler cfg backend) m x s in
      session_actions cfg backend rest (match h with Some _ => accepted + 1 | None => accepted end)%Z
  | CloseSession b :: rest =>
      do* OnClose (sessionHandler cfg b) in session_actions cfg backend rest accepted
  end.

Section limit.
Context {W : Type} `{!Field W Z} (cfg : SecurityConfig) (backend : SSHConnectionHandler W).
Context (Hmax : (0 ≤ MaxSessions cfg < 2 ^ 63)%Z).

Lemma at_limit_rejects w m x s :
  fget w = MaxSessions cfg →
  OnSessionChannel (security_sshConnectionHandler cfg backend) m x s w
  = Done ((None, Some (ErrTooManySessions ∅)), w).
Proof.
  intros Hw. cbn. unfold sshConnectionHandler_OnSessionChannel. run_prog.
  rewrite u64_id by (unfold is_u64; lia). by rewrite decide_True by lia.
Qed.

Lemma open_step w m x s :
  (∀ m x s, framed (OnSessionChannel backend m x s)) →
  (0 ≤ fget w ≤ MaxSessions cfg)%Z →
  ∃ h rej w', OnSessionChannel (security_sshConnectionHandler cfg backend) m x s w = Done ((h, rej), w') ∧
    fget w' = (match h with Some _ => fget w + 1 | None => fget w end)%Z ∧
    (fget w' ≤ MaxSessions cfg)%Z.
Proof.
  intros Hb Hw. cbn. unfold sshConnectionHandler_OnSessionChannel. run_prog.
  rewrite u64_id by (unfold is_u64; lia).
  case_decide as Hlim; [by eexists _, _, _; repeat split; lia |].
  destruct (Hb m x s w) as ([h' [e|]] & w1 & E & Hw1); rewrite E.
  - eexists _, _, _. repeat split; lia.
  - eexists _, _, _. split; [done|]. rewrite fget_fset, u64_succ_small; lia.
Qed.

Lemma session_actions_count acts w :
  (∀ m x s, framed (OnSessionChannel backend m x s)) →
  Forall (λ a, match a with CloseSession b => framed (OnClose b) | _ => True end) acts →
  (0 ≤ fget w ≤ MaxSessions cfg)%Z →
  ∃ n w', session_actions cfg backend acts (fget w) w = Done (n, w') ∧
    fget w' = n ∧ (0 ≤ n ≤ MaxSessions cfg)%Z.
Proof.
  intros Hb. revert w. induction acts as [|a acts IH]; intros w Hacts Hw.
  - by exists (fget w), w.
  - apply Forall_cons in Hacts as [Ha Hacts]. destruct a as [m x s|b]; cbn [session_actions].
    + destruct (open_step w m x s Hb Hw) as (h & rej & w1 & E & Hw1 & Hle).
      unfold prog_bind. rewrite E, <- Hw1. apply IH; [done|]. destruct h; lia.
    + destruct (Ha w) as ([] & w1 & E & Hw1). unfold prog_bind. cbn. rewrite E, <- Hw1.
      apply IH; [done | lia].
Qed.

End limit.

(** Claim C38. The session limit: from a fresh connection, however opens and closes
    interleave, the number of accepted sessions equals the counter and never
    exceeds [MaxSessions]; and once that many sessions have been accepted every
    further one is refused, also when all earlier ones were closed, because
    closing a session does not lower the counter (the configuration documents
    the limit as one on sessions open at the same time). *)
Theorem session_limit {W} `{!Field W Z} cfg (backend : SSHConnectionHandler W) acts w :
  (0 ≤ MaxSessions cfg < 2 ^ 63)%Z →
  fget w = 0%Z →
  (∀ m x s, framed (OnSessionChannel backend m x s)) →
  Forall (λ a, match a with CloseSession b => framed (OnClose b) | _ => True end) acts →
  ∃ n w', session_actions cfg backend acts 0 w = Done (n, w') ∧
    fget w' = n ∧ (n ≤ MaxSessions cfg)%Z ∧
    (n = MaxSessions cfg → ∀ m x s,
       OnSessionChannel (security_sshConnectionHandler cfg backend) m x s w'
       = Done ((None, Some (ErrTooManySessions ∅)), w')).
Proof.
  intros Hmax Hw Hb Hacts.
  destruct (session_actions_count cfg backend Hmax acts w Hb Hacts) as (n & w' & E & Hn & Hle); [lia|].
  rewrite Hw in E. exists n, w'. split_and!; [done|done|lia|].
  intros Heq m x s. apply at_limit_rejects; congruence.
Qed.

(** ** The hypotheses can hold *)

Definition demo_config (default force : string) (max : Z) : SecurityConfig :=
  {| DefaultMode := default; ForceCommand := force;
     Env := {| Env_Mode := ""; Env_Allow := []; Env_Deny := ["LD_PRELOAD"] |};
     Command := {| Command_Mode := ""; Command_Allow := [] |};
     Shell := {| Shell_Mode := "" |};
     Subsystem := {| Subsystem_Mode := ""; Subsystem_Allow := []; Subsystem_Deny := ["sftp"] |};
     Forwarding := {| ReverseForwardingMode := ""; ForwardingMode := ""; SocketForwardingMode := "";
                      SocketListenMode := ""; X11ForwardingMode := "" |};
     TTY := {| TTY_Mode := "" |};
     Signal := {| Signal_Mode := "disable"; Signal_Allow := []; Signal_Deny := ["KILL"] |};
     MaxSessions := max |}.

(** A backend that accepts everything and keeps no state. *)
Definition accepting_session {W} : SessionChannelHandler W :=
  {| OnUnsupportedChannelRequest := λ _ _ _, prog_ret tt;
     OnFailedDecodeChannelRequest := λ _ _ _ _, prog_ret tt;
     OnEnvRequest := λ _ _ _, prog_ret None;
     OnPtyRequest := λ _ _ _ _ _ _ _, prog_ret None;
     OnX11Request := λ _ _ _ _ _ _, prog_ret None;
     OnExecRequest := λ _ _, prog_ret None;
     OnShell := λ _, prog_ret None;
     OnSubsystem := λ _ _, prog_ret None;
     OnSignal := λ _ _, prog_ret None;
     OnWindow := λ _ _ _ _ _, prog_ret None;
     OnClose := prog_ret tt;
     OnShutdown := λ _, prog_ret tt |}.

Definition accepting_connection {W} : SSHConnectionHandler W :=
  {| OnUnsupportedGlobalRequest := λ _ _ _, prog_ret tt;
     OnFailedDecodeGlobalRequest := λ _ _ _ _, prog_ret tt;
     OnUnsupportedChannel := λ _ _ _, prog_ret tt;
     OnSessionChannel := λ _ _ _, prog_ret (Some accepting_session, None);
     OnTCPForwardChannel := λ _ _ _ _ _, prog_ret (Some 1, None);
     OnRequestTCPReverseForward := λ _ _ _, prog_ret None;
     OnRequestCancelTCPReverseForward := λ _ _, prog_ret None;
     OnDirectStreamLocal := λ _ _, prog_ret (Some 2, None);
     OnRequestStreamLocal := λ _ _, prog_ret None;
     OnRequestCancelStreamLocal := λ _, prog_ret None;
     OnConnShutdown := λ _, prog_ret tt |}.

Definition demo_channel : ChannelMetadata :=
  Channel (AuthFailed (StartAuthentication
    (MkConnectionMetadata (MkRemoteAddress [] 22) "c0ffee" None None None) "SSH-2.0-test" "alice")) 0.

(** A configuration that allows one variable, and denies it too. *)
Definition filter_config : SecurityConfig :=
  {| DefaultMode := "filter"; ForceCommand := "";
     Env := {| Env_Mode := ""; Env_Allow := ["LANG"; "LD_PRELOAD"]; Env_Deny := ["LD_PRELOAD"] |};
     Command := {| Command_Mode := ""; Command_Allow := [] |};
     Shell := {| Shell_Mode := "" |};
     Subsystem := {| Subsystem_Mode := ""; Subsystem_Allow := []; Subsystem_Deny := [] |};
     Forwarding := {| ReverseForwardingMode := ""; ForwardingMode := "enable"; SocketForwardingMode := "";
                      SocketListenMode := ""; X11ForwardingMode := "" |};
     TTY := {| TTY_Mode := "" |};
     Signal := {| Signal_Mode := ""; Signal_Allow := []; Signal_Deny := [] |};
     MaxSessions := 10 |}.

(** A decidable fact, by evaluation. *)
Ltac evaluate := match goal with |- ?P => apply (bool_decide_eq_true_1 P) end; vm_compute; reflexivity.

(** A denied variable is refused in "enable" mode and let through in "filter"
    mode; an allowed one that is not denied is let through. *)
Lemma security_session_refines_policy_witness :
  (∃ e, session_call (sessionHandler (demo_config "" "" 10) accepting_session)
          (ReqEnv 3 "LD_PRELOAD" "x") tt = Done (Some e, tt) ∧
        error_Code e = Some ESecurityEnvRejected) ∧
  session_call (sessionHandler filter_config accepting_session) (ReqEnv 4 "LANG" "C") tt = Done (None, tt) ∧
  (¬ documented filter_config (ReqEnv (W:=unit) 5 "LD_PRELOAD" "x") ∧
   session_call (sessionHandler filter_config accepting_session) (ReqEnv 5 "LD_PRELOAD" "x") tt = Done (None, tt)).
Proof.
  split_and!.
  - refine (proj2 (proj1 (security_session_refines_policy (demo_config "" "" 10) accepting_session (ReqEnv 3 "LD_PRELOAD" "x") tt _) _) _);
      [vm_compute; reflexivity | evaluate ..].
  - refine (proj1 (proj1 (security_session_refines_policy filter_config accepting_session (ReqEnv 4 "LANG" "C") tt _) _) _);
      [vm_compute; reflexivity | evaluate ..].
  - evaluate.
  - refine (proj2 (proj2 (security_session_refines_policy filter_config accepting_session (ReqEnv 5 "LD_PRELOAD" "x") tt _) _));
      [vm_compute; reflexivity | evaluate ..].
Defined.

(** A client to which nothing can be forwarded. *)
Definition no_reverse {W} : ReverseForward W :=
  {| NewChannelTCP := λ _ _ _ _, prog_ret (None, 0%Z, None); NewChannelUnix := λ _, prog_ret (None, 0%Z, None);
     NewChannelX11 := λ _ _, prog_ret (None, 0%Z, None) |}.

(** TCP forwarding that is enabled is the backend's answer; X11 forwarding, in
    "filter" mode by default, is refused. *)
Lemma security_forwarding_refines_policy_witness :
  forward_call (security_sshConnectionHandler (W:=Z * unit) filter_config accepting_connection)
    (FwdTCP 1 "db" 5432 "localhost" 4000) (0%Z, tt) = Done (AChannel (Some 1) None, (0%Z, tt)) ∧
  ∃ e, OnX11Request (sessionHandler (W:=Z * unit) filter_config accepting_session) 7 false "MIT" "cookie" 0 no_reverse (0%Z, tt)
       = Done (Some e, (0%Z, tt)) ∧ error_Code e = Some ESecurityX11ForwardingRejected.
Proof.
  destruct (security_forwarding_refines_policy filter_config (accepting_connection (W:=Z * unit)) accepting_session
    (FwdTCP 1 "db" 5432 "localhost" 4000) (0%Z, tt)) as [[[_ H]|[H _]] Hx].
  - split; [exact H|].
    destruct (Hx 7%Z false "MIT" "cookie" 0%Z no_reverse) as [[H1 _]|[_ H1]]; [|exact H1].
    exfalso. revert H1. evaluate.
  - exfalso. revert H. evaluate.
Defined.

Lemma force_command_is_forced_witness :
  ∃ w' l,
    session_requests (sessionHandler (demo_config "" "/bin/menu" 10) (spy (W:=list launch * unit) accepting_session))
      [ReqExec 1 "rm -rf /"; ReqShell 2; ReqSubsystem 3 "git"] ([], tt) = Done (tt, w') ∧
    fget w' = fget (([], tt) : list launch * unit) ++ l ∧
    Forall (eq (LExec (ForceCommand (demo_config "" "/bin/menu" 10)))) l.
Proof.
  apply (force_command_is_forced (W:=list launch * unit) (demo_config "" "/bin/menu" 10) accepting_session
           [ReqExec 1 "rm -rf /"; ReqShell 2; ReqSubsystem 3 "git"] ([], tt)).
  - vm_compute. intros H. discriminate H.
  - intros r. destruct r; apply framed_ret.
Defined.

Lemma disabled_signals_are_delivered_witness :
  OnSignal (sessionHandler (demo_config "" "" 10) accepting_session) 5 "TERM" tt = Done (None, tt).
Proof.
  apply (disabled_signals_are_delivered (demo_config "" "" 10) accepting_session 5 "TERM" tt).
  - vm_compute. reflexivity.
  - vm_compute. reflexivity.
  - apply (bool_decide_eq_true_1 ("TERM" ∉ ["KILL"])). vm_compute. reflexivity.
Defined.

Lemma default_disable_locks_down_witness :
  (∀ r, (∀ id c rr x y, r ≠ ReqWindow id c rr x y) →
     ∃ e, session_call (sessionHandler (demo_config "disable" "" 10) (accepting_session (W:=Z * unit))) r (0%Z, tt)
          = Done (Some e, (0%Z, tt)) ∧ error_Code e = Some (rejection_code r)) ∧
  (∀ r, ∃ a, forward_call (security_sshConnectionHandler (demo_config "disable" "" 10) accepting_connection) r (0%Z, tt)
             = Done (a, (0%Z, tt)) ∧ refused a).
Proof.
  apply (default_disable_locks_down (demo_config "disable" "" 10) accepting_session accepting_connection (0%Z, tt)).
  - vm_compute. reflexivity.
  - vm_compute. repeat constructor.
Defined.

Lemma session_limit_witness :
  ∃ n w',
    session_actions (W:=Z * unit) (demo_config "" "" 1) accepting_connection
      [OpenSession demo_channel [] 0; CloseSession accepting_session; OpenSession demo_channel [] 1] 0 (0%Z, tt)
    = Done (n, w') ∧ fget w' = n ∧ (n ≤ 1)%Z ∧
    (n = 1%Z → ∀ m x s,
       OnSessionChannel (security_sshConnectionHandler (demo_config "" "" 1) accepting_connection) m x s w'
       = Done ((None, Some (ErrTooManySessions ∅)), w')).
Proof.
  apply (session_limit (demo_config "" "" 1) accepting_connection _ (0%Z, tt)).
  - cbn. lia.
  - reflexivity.
  - intros. apply framed_ret.
  - repeat constructor. apply framed_ret.
Defined.
