(* ===== verification/AuthIntegration.v ===== *)
(** * Authentication and authorization in the handler chain

    [internal/authintegration/handler.go]: the network connection handlers that
    ask the configured authenticators, pass requests on to the backend depending
    on the configured behavior, and authorize users after authentication. *)

From stdpp Require Import base gmap strings list.
From Stdlib Require Import Strings.Byte.
From S2P Require Import Prelude Messages Metadata Handler.

(** ** The interfaces of [internal/auth] *)

(** An authentication context: a reference to the object and the results its
    getters return.  [OnDisconnect] is called through the reference. *)
Record AuthenticationContext := MkAuthContext {
  ctx_ref : nat;
  ctx_Success : bool;
  ctx_Error : option error;
  ctx_Metadata : ConnectionAuthenticatedMetadata;
}.

Record AuthorizationResponse := MkAuthorizationResponse {
  authz_Success : bool;
  authz_Error : option error;
  authz_Metadata : ConnectionAuthenticatedMetadata;
}.

Abbreviation PasswordAuthenticator W :=
  (ConnectionAuthPendingMetadata → list byte → prog W AuthenticationContext).
Abbreviation PublicKeyAuthenticator W :=
  (ConnectionAuthPendingMetadata → string → prog W AuthenticationContext).
(** The challenge callback of the authenticators answers with a map from question IDs. *)
Abbreviation KeyboardInteractiveAuthenticator W :=
  (ConnectionAuthPendingMetadata →
   (string → list KeyboardInteractiveQuestion → prog W (gmap string string * option error)) →
   prog W AuthenticationContext).
Abbreviation GSSAPIAuthenticator W := (ConnectionMetadata → prog W (GSSAPIServer W)).
Abbreviation AuthzProvider W := (ConnectionAuthenticatedMetadata → prog W AuthorizationResponse).

(** ** Behavior *)

Inductive Behavior :=
| BehaviorNoPassthrough
| BehaviorPassthroughOnFailure
| BehaviorPassthroughOnSuccess
| BehaviorPassthroughOnUnavailable
| BehaviorOther (n : Z).

#[export] Instance Behavior_eq_dec : EqDecision Behavior.
Proof. solve_decision. Defined.

Definition Behavior_validate (behavior : Behavior) : bool :=
  match behavior with
  | BehaviorNoPassthrough => true
  | BehaviorPassthroughOnFailure => true
  | BehaviorPassthroughOnSuccess => true
  | BehaviorPassthroughOnUnavailable => true
  | BehaviorOther _ => false
  end.

Definition ESSHAuthUnavailable : string := "SSH_AUTH_UNAVAILABLE".

(** ** The authenticating network connection handler *)

(** The fields of [networkConnectionHandler] that do not change. *)
Record authHandler (W : Type) := MkAuthHandler {
  ah_backend : NetworkConnectionHandler W;
  ah_behavior : Behavior;
  ah_password : option (PasswordAuthenticator W);
  ah_publicKey : option (PublicKeyAuthenticator W);
  ah_gssapi : option (GSSAPIAuthenticator W);
  ah_keyboard : option (KeyboardInteractiveAuthenticator W);
}.

Arguments ah_backend {W} _.
Arguments ah_behavior {W} _.
Arguments ah_password {W} _.
Arguments ah_publicKey {W} _.
Arguments ah_gssapi {W} _.
Arguments ah_keyboard {W} _.

Section networkConnectionHandler.
(** [authContext] is the handler's mutable field; [ctx_OnDisconnect] is the
    method of the context behind a reference. *)
Context {W : Type} `{!Field W (option AuthenticationContext)} (ctx_OnDisconnect : nat → prog W unit).
Context (h : authHandler W).

(** [if h.authContext != nil { h.authContext.OnDisconnect() }] *)
Definition disconnect_authContext : prog W unit :=
  let* w := get in
  match fget w with
  | Some ctx => ctx_OnDisconnect (ctx_ref ctx)
  | None => prog_ret tt
  end.

Definition method_disabled (meta : ConnectionAuthPendingMetadata) (explanation_ : string)
  : prog W (AuthResponse * ConnectionAuthenticatedMetadata * option error) :=
  prog_ret (AuthResponseUnavailable, AuthFailed meta,
    Some (MsgError (UserMessage ESSHAuthUnavailable
      "This authentication method is currently unavailable." explanation_ []))).

Definition networkConnectionHandler_OnAuthPassword (meta : ConnectionAuthPendingMetadata)
    (password : list byte) : prog W (AuthResponse * ConnectionAuthenticatedMetadata * option error) :=
  do* disconnect_authContext in
  match ah_password h with
  | None => method_disabled meta "Password authentication is disabled."
  | Some authenticator =>
      let* authContext := authenticator meta password in
      do* modify (fset (Some authContext)) in
      if negb (ctx_Success authContext) then
        match ctx_Error authContext with
        | Some _ =>
            if decide (ah_behavior h = BehaviorPassthroughOnUnavailable)
            then OnAuthPassword (ah_backend h) meta password
            else prog_ret (AuthResponseUnavailable, AuthFailed meta, ctx_Error authContext)
        | None =>
            if decide (ah_behavior h = BehaviorPassthroughOnFailure)
            then OnAuthPassword (ah_backend h) meta password
            else prog_ret (AuthResponseFailure, AuthFailed meta, None)
        end
      else if decide (ah_behavior h = BehaviorPassthroughOnSuccess)
      then OnAuthPassword (ah_backend h) meta password
      else prog_ret (AuthResponseSuccess, ctx_Metadata authContext, None)
  end.

Definition networkConnectionHandler_OnAuthPubKey (meta : ConnectionAuthPendingMetadata)
    (pubKey : string) : prog W (AuthResponse * ConnectionAuthenticatedMetadata * option error) :=
  do* disconnect_authContext in
  match ah_publicKey h with
  | None => method_disabled meta "Public key authentication is disabled."
  | Some authenticator =>
      let* authContext := authenticator meta pubKey in
      do* modify (fset (Some authContext)) in
      if negb (ctx_Success authContext) then
        match ctx_Error authContext with
        | Some _ =>
            if decide (ah_behavior h = BehaviorPassthroughOnUnavailable)
            then OnAuthPubKey (ah_backend h) meta pubKey
            else prog_ret (AuthResponseUnavailable, ctx_Metadata authContext, ctx_Error authContext)
        | None =>
            if decide (ah_behavior h = BehaviorPassthroughOnFailure)
            then OnAuthPubKey (ah_backend h) meta pubKey
            else prog_ret (AuthResponseFailure, ctx_Metadata authContext, ctx_Error authContext)
        end
      else if decide (ah_behavior h = BehaviorPassthroughOnSuccess)
      then OnAuthPubKey (ah_backend h) meta pubKey
      else prog_ret (AuthResponseSuccess, ctx_Metadata authContext, ctx_Error authContext)
  end.

(** The callback handed to the keyboard-interactive authenticator: it asks the
    user through the server's challenge and keys the answers by question ID; a
    missing answer becomes the empty string. *)
Definition wrap_challenge (challenge : Challenge W) (instruction : string)
    (questions : list KeyboardInteractiveQuestion) : prog W (gmap string string * option error) :=
  let q := questions in
  let* '(a, err) := challenge instruction q in
  match err with
  | Some _ => prog_ret (∅, err)
  | None =>
      prog_ret
        (foldl (λ m question, <[QuestionID question := (Answers_Get a question).1]> m) ∅ questions, None)
  end.

Definition networkConnectionHandler_OnAuthKeyboardInteractive (meta : ConnectionAuthPendingMetadata)
    (challenge : Challenge W) : prog W (AuthResponse * ConnectionAuthenticatedMetadata * option error) :=
  do* disconnect_authContext in
  match ah_keyboard h with
  | None => method_disabled meta "Keyboard-interactive authentication is disabled."
  | Some authenticator =>
      let* authContext := authenticator meta (wrap_challenge challenge) in
      do* modify (fset (Some authContext)) in
      if negb (ctx_Success authContext) then
        match ctx_Error authContext with
        | Some _ =>
            if decide (ah_behavior h = BehaviorPassthroughOnUnavailable)
            then OnAuthKeyboardInteractive (ah_backend h) meta challenge
            else prog_ret (AuthResponseUnavailable, ctx_Metadata authContext, ctx_Error authContext)
        | None =>
            if decide (ah_behavior h = BehaviorPassthroughOnFailure)
            then OnAuthKeyboardInteractive (ah_backend h) meta challenge
            else prog_ret (AuthResponseFailure, ctx_Metadata authContext, ctx_Error authContext)
        end
      else if decide (ah_behavior h = BehaviorPassthroughOnSuccess)
      then OnAuthKeyboardInteractive (ah_backend h) meta challenge
      else prog_ret (AuthResponseSuccess, ctx_Metadata authContext, ctx_Error authContext)
  end.

Definition networkConnectionHandler_OnAuthGSSAPI (meta : ConnectionMetadata)
  : prog W (option (GSSAPIServer W)) :=
  match ah_gssapi h with
  | None => prog_ret None
  | Some authenticator => let* s := authenticator meta in prog_ret (Some s)
  end.

Definition networkConnectionHandler_OnDisconnect : prog W unit :=
  do* disconnect_authContext in OnDisconnect (ah_backend h).

Definition networkConnectionHandler : NetworkConnectionHandler W :=
  {| OnAuthPassword := networkConnectionHandler_OnAuthPassword;
     OnAuthPubKey := networkConnectionHandler_OnAuthPubKey;
     OnAuthKeyboardInteractive := networkConnectionHandler_OnAuthKeyboardInteractive;
     OnAuthGSSAPI := networkConnectionHandler_OnAuthGSSAPI;
     OnHandshakeFailed := OnHandshakeFailed (ah_backend h);
     OnHandshakeSuccess := OnHandshakeSuccess (ah_backend h);
     OnDisconnect := networkConnectionHandler_OnDisconnect;
     OnNetShutdown := OnNetShutdown (ah_backend h) |}.

End networkConnectionHandler.

(** ** Authorization of GSSAPI conversations *)

Section authzGssApiServer.
(** [authzResponse] is the conversation's mutable field; the backend and the
    authorization provider may be nil interface values. *)
Context {W : Type} `{!Field W (option AuthorizationResponse)}.
Context (backend : option (GSSAPIServer W)) (authorizationProvider : option (AuthzProvider W)).

Definition gss_backend : GSSAPIServer W := default nil_GSSAPIServer backend.

Definition authzGssApiServer_Success : prog W bool :=
  let* backendResponse := gss_Success gss_backend in
  let* w := get in
  match fget w with
  | Some authzResponse =>
      if negb backendResponse then prog_ret false else prog_ret (authz_Success authzResponse)
  | None => prog_ret false
  end.

Definition authzGssApiServer_Error : prog W (option error) :=
  let* backendErr := gss_Error gss_backend in
  let* w := get in
  match backendErr, fget w with
  | None, Some authzResponse => prog_ret (authz_Error authzResponse)
  | _, _ => prog_ret backendErr
  end.

Definition authzGssApiServer_AllowLogin (username : string) (meta : ConnectionAuthPendingMetadata)
  : prog W (ConnectionAuthenticatedMetadata * option error) :=
  let* '(authenticatedMetadata, err) := gss_AllowLogin gss_backend username meta in
  match err with
  | Some _ => prog_ret (authenticatedMetadata, err)
  | None =>
      match authorizationProvider with
      | None => panic nil_pointer
      | Some Authorize =>
          let* authzResponse := Authorize authenticatedMetadata in
          do* modify (fset (Some authzResponse)) in
          prog_ret (authz_Metadata authzResponse, authz_Error authzResponse)
      end
  end.

Definition authzGssApiServer : GSSAPIServer W :=
  {| gss_Success := authzGssApiServer_Success;
     gss_Error := authzGssApiServer_Error;
     gss_AcceptSecContext := gss_AcceptSecContext gss_backend;
     gss_VerifyMIC := gss_VerifyMIC gss_backend;
     gss_DeleteSecContext := gss_DeleteSecContext gss_backend;
     gss_AllowLogin := authzGssApiServer_AllowLogin |}.

End authzGssApiServer.

(** ** The authorizing network connection handler *)

Section authzNetworkConnectionHandler.
Context {W : Type} `{!Field W (option AuthorizationResponse)}.
Context (backend : NetworkConnectionHandler W) (Authorize : AuthzProvider W).

Definition genericAuthorization (authResponse : AuthResponse)
    (authenticatedMeta : ConnectionAuthenticatedMetadata) (err : option error)
  : prog W (AuthResponse * ConnectionAuthenticatedMetadata * option error) :=
  if decide (authResponse ≠ AuthResponseSuccess)
  then prog_ret (authResponse, authenticatedMeta, err)
  else
    let* authzResponse := Authorize authenticatedMeta in
    if authz_Success authzResponse
    then prog_ret (AuthResponseSuccess, authz_Metadata authzResponse, err)
    else prog_ret (AuthResponseFailure, authz_Metadata authzResponse, authz_Error authzResponse).

Definition authzNetworkConnectionHandler_OnAuthPassword (meta : ConnectionAuthPendingMetadata)
    (password : list byte) : prog W (AuthResponse * ConnectionAuthenticatedMetadata * option error) :=
  let* '(authResponse, authenticatedMeta, err) := OnAuthPassword backend meta password in
  genericAuthorization authResponse authenticatedMeta err.

Definition authzNetworkConnectionHandler_OnAuthPubKey (meta : ConnectionAuthPendingMetadata)
    (pubKey : string) : prog W (AuthResponse * ConnectionAuthenticatedMetadata * option error) :=
  let* '(authResponse, authenticatedMeta, err) := OnAuthPubKey backend meta pubKey in
  genericAuthorization authResponse authenticatedMeta err.

Definition authzNetworkConnectionHandler_OnAuthKeyboardInteractive (meta : ConnectionAuthPendingMetadata)
    (challenge : Challenge W) : prog W (AuthResponse * ConnectionAuthenticatedMetadata * option error) :=
  let* '(authResponse, authenticatedMeta, err) := OnAuthKeyboardInteractive backend meta challenge in
  genericAuthorization authResponse authenticatedMeta err.

(** The new conversation object starts without an authorization response and
    without an authorization provider. *)
Definition authzNetworkConnectionHandler_OnAuthGSSAPI (meta : ConnectionMetadata)
  : prog W (option (GSSAPIServer W)) :=
  let* gssApiServer := OnAuthGSSAPI backend meta in
  do* modify (fset (None : option AuthorizationResponse)) in
  prog_ret (Some (authzGssApiServer gssApiServer None)).

Definition authzNetworkConnectionHandler : NetworkConnectionHandler W :=
  {| OnAuthPassword := authzNetworkConnectionHandler_OnAuthPassword;
     OnAuthPubKey := authzNetworkConnectionHandler_OnAuthPubKey;
     OnAuthKeyboardInteractive := authzNetworkConnectionHandler_OnAuthKeyboardInteractive;
     OnAuthGSSAPI := authzNetworkConnectionHandler_OnAuthGSSAPI;
     OnHandshakeFailed := OnHandshakeFailed backend;
     OnHandshakeSuccess := OnHandshakeSuccess backend;
     OnDisconnect := OnDisconnect backend;
     OnNetShutdown := OnNetShutdown backend |}.

End authzNetworkConnectionHandler.

(** ** The handler of the authentication layer *)

Record authIntegration (W : Type) := MkAuthIntegration {
  ai_backend : option (Handler W);
  ai_password : option (PasswordAuthenticator W);
  ai_publicKey : option (PublicKeyAuthenticator W);
  ai_gssapi : option (GSSAPIAuthenticator W);
  ai_keyboard : option (KeyboardInteractiveAuthenticator W);
  ai_authz : option (AuthzProvider W);
  ai_behavior : Behavior;
}.

Arguments ai_backend {W} _.
Arguments ai_password {W} _.
Arguments ai_publicKey {W} _.
Arguments ai_gssapi {W} _.
Arguments ai_keyboard {W} _.
Arguments ai_authz {W} _.
Arguments ai_behavior {W} _.

Section handler.
Context {W : Type} `{!Field W (option AuthenticationContext)} `{!Field W (option AuthorizationResponse)}.
Context (ctx_OnDisconnect : nat → prog W unit) (h : authIntegration W).

Definition handler_OnReady : prog W (option error) :=
  match ai_backend h with
  | Some backend => OnReady backend
  | None => prog_ret None
  end.

Definition handler_OnShutdown (shutdownContext : Context) : prog W unit :=
  match ai_backend h with
  | Some backend => OnHandlerShutdown backend shutdownContext
  | None => prog_ret tt
  end.

(** The chain of one connection: the authentication handler, with the
    authorization handler in front of it when a provider is configured. *)
Definition connection_chain (backend : NetworkConnectionHandler W) : NetworkConnectionHandler W :=
  let ah := networkConnectionHandler ctx_OnDisconnect
    {| ah_backend := backend; ah_behavior := ai_behavior h; ah_password := ai_password h;
       ah_publicKey := ai_publicKey h; ah_gssapi := ai_gssapi h; ah_keyboard := ai_keyboard h |} in
  match ai_authz h with
  | Some Authorize => authzNetworkConnectionHandler ah Authorize
  | None => ah
  end.

(** The connection's authentication handler is a new object: its
    [authContext] field starts as nil. *)
Definition handler_OnNetworkConnection (meta : ConnectionMetadata)
  : prog W (option (NetworkConnectionHandler W) * ConnectionMetadata * option error) :=
  let* '(backend, meta, err) :=
    match ai_backend h with
    | Some b => OnNetworkConnection b meta
    | None => prog_ret (None, meta, None)
    end in
  match err with
  | Some _ => prog_ret (None, meta, err)
  | None =>
      do* modify (fset (None : option AuthenticationContext)) in
      prog_ret (Some (connection_chain (default nil_NetworkConnectionHandler backend)), meta, None)
  end.

Definition authintegration_handler : Handler W :=
  {| OnReady := handler_OnReady; OnHandlerShutdown := handler_OnShutdown;
     OnNetworkConnection := handler_OnNetworkConnection |}.

End handler.

(** [New], after the authenticators have been built from the configuration:
    a nil backend and an unknown behavior are refused. *)
Definition authintegration_New {W} (cfg : authIntegration W) : authIntegration W + error :=
  match ai_backend cfg with
  | None => inr (ErrorString "the backend parameter to authintegration.New cannot be nil")
  | Some _ =>
      if negb (Behavior_validate (ai_behavior cfg))
      then inr (ErrorString (Sprintf "the behavior field contains an invalid value: %d"
                  [VInt (match ai_behavior cfg with BehaviorOther n => n | _ => 0%Z end)]))
      else inl cfg
  end.
