(* ===== verification/AuthSpec.v ===== *)
(** * What the authentication layer promises

    Theorems on the connection handlers of [AuthIntegration]: nobody logs in
    without the configured authenticator (and authorizer) agreeing, the backend
    is consulted exactly when the behavior says so, authentication contexts are
    disconnected, and what happens to GSSAPI logins when authorization is on. *)

From stdpp Require Import base gmap strings list.
From Stdlib Require Import Strings.Byte.
From S2P Require Import Prelude Messages Metadata Handler AuthIntegration.

(** ** Authentication attempts as data *)

Inductive auth_request (W : Type) :=
| AttemptPassword (password : list byte)
| AttemptPubKey (pubKey : string)
| AttemptKeyboard (challenge : Challenge W).

Arguments AttemptPassword {W} _.
Arguments AttemptPubKey {W} _.
Arguments AttemptKeyboard {W} _.

Definition auth_result : Type := AuthResponse * ConnectionAuthenticatedMetadata * option error.

Definition auth_call {W} (n : NetworkConnectionHandler W) (meta : ConnectionAuthPendingMetadata)
    (r : auth_request W) : prog W auth_result :=
  match r with
  | AttemptPassword p => OnAuthPassword n meta p
  | AttemptPubKey k => OnAuthPubKey n meta k
  | AttemptKeyboard c => OnAuthKeyboardInteractive n meta c
  end.

(** The configured authenticator's answer to an attempt, if the method is configured. *)
Definition authenticate {W} (h : authIntegration W) (meta : ConnectionAuthPendingMetadata)
    (r : auth_request W) : option (prog W AuthenticationContext) :=
  match r with
  | AttemptPassword p => (λ a, a meta p) <$> ai_password h
  | AttemptPubKey k => (λ a, a meta k) <$> ai_publicKey h
  | AttemptKeyboard c => (λ a, a meta (wrap_challenge c)) <$> ai_keyboard h
  end.

(** ** The specification of [Behavior] *)

(** When the backend decides instead of the authenticator. *)
Definition backend_decides (b : Behavior) (ctx : AuthenticationContext) : bool :=
  match b with
  | BehaviorPassthroughOnSuccess => ctx_Success ctx
  | BehaviorPassthroughOnFailure => negb (ctx_Success ctx) && bool_decide (ctx_Error ctx = None)
  | BehaviorPassthroughOnUnavailable => negb (ctx_Success ctx) && bool_decide (ctx_Error ctx ≠ None)
  | _ => false
  end.

(** The answer the authenticator's context stands for. *)
Definition context_verdict (ctx : AuthenticationContext) : AuthResponse :=
  if ctx_Success ctx then AuthResponseSuccess
  else match ctx_Error ctx with
       | Some _ => AuthResponseUnavailable
       | None => AuthResponseFailure
       end.

(** The metadata and the reason returned with it: a failed password attempt
    resets the metadata and a successful one drops the reason. *)
Definition verdict_meta {W} (meta : ConnectionAuthPendingMetadata) (r : auth_request W)
    (ctx : AuthenticationContext) : ConnectionAuthenticatedMetadata :=
  match r with
  | AttemptPassword _ => if ctx_Success ctx then ctx_Metadata ctx else AuthFailed meta
  | _ => ctx_Metadata ctx
  end.

Definition verdict_error {W} (r : auth_request W) (ctx : AuthenticationContext) : option error :=
  match r with
  | AttemptPassword _ => if ctx_Success ctx then None else ctx_Error ctx
  | _ => ctx_Error ctx
  end.

Definition disabled_text {W} (r : auth_request W) : string :=
  match r with
  | AttemptPassword _ => "Password authentication is disabled."
  | AttemptPubKey _ => "Public key authentication is disabled."
  | AttemptKeyboard _ => "Keyboard-interactive authentication is disabled."
  end.

Section chain.
Context {W : Type} `{!Field W (option AuthenticationContext)} `{!Field W (option AuthorizationResponse)}.
Context (ctx_OnDisconnect : nat → prog W unit) (h : authIntegration W).

Abbreviation chain := (connection_chain ctx_OnDisconnect h).

Definition plain_handler (b : NetworkConnectionHandler W) : NetworkConnectionHandler W :=
  networkConnectionHandler ctx_OnDisconnect
    {| ah_backend := b; ah_behavior := ai_behavior h; ah_password := ai_password h;
       ah_publicKey := ai_publicKey h; ah_gssapi := ai_gssapi h; ah_keyboard := ai_keyboard h |}.

(** Authorization in front of a handler, as one call. *)
Definition authorized (Authorize : AuthzProvider W) (c : prog W auth_result) : prog W auth_result :=
  let* '(resp, m, err) := c in genericAuthorization Authorize resp m err.

Lemma chain_call b meta r :
  auth_call (chain b) meta r =
  match ai_authz h with
  | Some Authorize => authorized Authorize (auth_call (plain_handler b) meta r)
  | None => auth_call (plain_handler b) meta r
  end.
Proof. unfold connection_chain. destruct (ai_authz h); by destruct r. Qed.

(** The three attempts follow one scheme. *)
Lemma plain_call b meta r w :
  auth_call (plain_handler b) meta r w =
  (do* disconnect_authContext ctx_OnDisconnect in
   match authenticate h meta r with
   | None => method_disabled meta (disabled_text r)
   | Some auth =>
       let* ctx := auth in
       do* modify (fset (Some ctx)) in
       if backend_decides (ai_behavior h) ctx then auth_call b meta r
       else prog_ret (context_verdict ctx, verdict_meta meta r ctx, verdict_error r ctx)
   end) w.
Proof.
  destruct r as [p|k|c]; cbn;
    cbv [networkConnectionHandler_OnAuthPassword networkConnectionHandler_OnAuthPubKey
         networkConnectionHandler_OnAuthKeyboardInteractive]; run_prog;
    (destruct (disconnect_authContext ctx_OnDisconnect w) as [[[] w1]| |]; [|done|done]).
  1: destruct (ai_password h) as [a|]; cbn; [|done].
  2: destruct (ai_publicKey h) as [a|]; cbn; [|done].
  3: destruct (ai_keyboard h) as [a|]; cbn; [|done].
  1: destruct (a meta p w1) as [[ctx w2]| |] eqn:Ea.
  4: destruct (a meta k w1) as [[ctx w2]| |] eqn:Ea.
  7: destruct (a meta (wrap_challenge c) w1) as [[ctx w2]| |] eqn:Ea.
  all: cbn; try done;
    unfold backend_decides, context_verdict;
    destruct (ctx_Success ctx) eqn:Es, (ctx_Error ctx) as [e|] eqn:Ee, (ai_behavior h);
    cbn; rewrite ?Es, ?Ee; done.
Qed.

(** An attempt that succeeds without the backend went through the authenticator. *)
Lemma plain_call_success b meta r w m err w' :
  (∀ ctx, backend_decides (ai_behavior h) ctx = false) →
  auth_call (plain_handler b) meta r w = Done ((AuthResponseSuccess, m, err), w') →
  ∃ auth w1 ctx w2, authenticate h meta r = Some auth ∧ auth w1 = Done (ctx, w2) ∧
    ctx_Success ctx = true ∧ m = ctx_Metadata ctx ∧ w' = fset (Some ctx) w2.
Proof.
  intros Hb. rewrite plain_call. unfold method_disabled. run_prog.
  destruct (disconnect_authContext ctx_OnDisconnect w) as [[[] w1]| |]; [|done|done].
  destruct (authenticate h meta r) as [auth|]; [|done].
  destruct (auth w1) as [[ctx w2]| |] eqn:Ec; [|done|done].
  rewrite Hb. unfold context_verdict, verdict_meta. intros E.
  destruct (ctx_Success ctx) eqn:Es; [|by destruct (ctx_Error ctx)].
  exists auth, w1, ctx, w2. destruct r; naive_solver.
Qed.

(** The backend plays no part when it never decides. *)
Lemma plain_call_backend b b' meta r w :
  (∀ ctx, backend_decides (ai_behavior h) ctx = false) →
  auth_call (plain_handler b) meta r w = auth_call (plain_handler b') meta r w.
Proof.
  intros Hb. rewrite !plain_call. run_prog.
  destruct (disconnect_authContext ctx_OnDisconnect w) as [[[] w1]| |]; [|done|done].
  destruct (authenticate h meta r) as [auth|]; [|done].
  destruct (auth w1) as [[ctx w2]| |]; [|done|done]. by rewrite Hb.
Qed.

Lemma chain_call_backend b b' meta r w :
  (∀ ctx, backend_decides (ai_behavior h) ctx = false) →
  auth_call (chain b) meta r w = auth_call (chain b') meta r w.
Proof.
  intros Hb. rewrite !chain_call. destruct (ai_authz h); [|by apply plain_call_backend].
  unfold authorized. unfold prog_bind at 1 2. by rewrite (plain_call_backend b b').
Qed.

End chain.

(** A login accepted without passthrough, traced back to the authenticator. *)
Lemma chain_login {W} `{!Field W (option AuthenticationContext)}
    `{!Field W (option AuthorizationResponse)} (ctx_OnDisconnect : nat → prog W unit)
    (h : authIntegration W) (b b' : NetworkConnectionHandler W) meta r w m err w' :
  ai_behavior h = BehaviorNoPassthrough →
  auth_call (connection_chain ctx_OnDisconnect h b) meta r w
    = Done ((AuthResponseSuccess, m, err), w') →
  auth_call (connection_chain ctx_OnDisconnect h b') meta r w
    = Done ((AuthResponseSuccess, m, err), w') ∧
  ∃ auth w1 ctx w2,
    authenticate h meta r = Some auth ∧ auth w1 = Done (ctx, w2) ∧ ctx_Success ctx = true ∧
    match ai_authz h with
    | None => m = ctx_Metadata ctx ∧ w' = fset (Some ctx) w2
    | Some Authorize =>
        ∃ resp, Authorize (ctx_Metadata ctx) (fset (Some ctx) w2) = Done (resp, w') ∧
          authz_Success resp = true ∧ m = authz_Metadata resp
    end.
Proof.
  intros Hb E.
  assert (∀ ctx, backend_decides (ai_behavior h) ctx = false) as Hn by (by rewrite Hb).
  split; [by rewrite <- E; apply chain_call_backend|].
  rewrite chain_call in E. destruct (ai_authz h) as [Authorize|].
  - unfold authorized, prog_bind at 1 in E.
    destruct (auth_call (plain_handler ctx_OnDisconnect h b) meta r w)
      as [[[[resp m1] e1] w1']| |] eqn:E1; [|done|done].
    unfold genericAuthorization in E. case_decide as Hr; [by injection E|].
    assert (resp = AuthResponseSuccess) as -> by (by destruct (decide (resp = AuthResponseSuccess))).
    apply plain_call_success in E1 as (auth & wa & ctx & w2 & ? & ? & ? & -> & ->); [|done].
    exists auth, wa, ctx, w2. do 3 (split; [done|]). revert E. run_prog.
    destruct (Authorize _ _) as [[az w3]| |] eqn:Ez; [|done|done].
    destruct (authz_Success az) eqn:Es; [|done]. intros [= <- <- <-]. eauto.
  - apply plain_call_success in E as (auth & wa & ctx & w2 & ? & ? & ? & ? & ?); [|done].
    exists auth, wa, ctx, w2. eauto.
Qed.

(** Claim C5. Without passthrough, a login is accepted only when the authenticator
    configured for that method ran and reported success, and, when an
    authorization provider is configured, that provider accepted the
    authenticated metadata; the metadata the connection continues with is the
    one that last step returned.  The backend has no influence: any two backends
    give the same run. *)
Theorem no_login_without_authentication {W} `{!Field W (option AuthenticationContext)}
    `{!Field W (option AuthorizationResponse)} (ctx_OnDisconnect : nat → prog W unit)
    (h : authIntegration W) (b b' : NetworkConnectionHandler W) meta r w m err w' :
  ai_behavior h = BehaviorNoPassthrough →
  auth_call (connection_chain ctx_OnDisconnect h b) meta r w
    = Done ((AuthResponseSuccess, m, err), w') →
  auth_call (connection_chain ctx_OnDisconnect h b') meta r w
    = Done ((AuthResponseSuccess, m, err), w') ∧
  ∃ auth w1 ctx w2,
    authenticate h meta r = Some auth ∧ auth w1 = Done (ctx, w2) ∧ ctx_Success ctx = true ∧
    match ai_authz h with
    | None => m = ctx_Metadata ctx ∧ w' = fset (Some ctx) w2
    | Some Authorize =>
        ∃ resp, Authorize (ctx_Metadata ctx) (fset (Some ctx) w2) = Done (resp, w') ∧
          authz_Success resp = true ∧ m = authz_Metadata resp
    end.
Proof. apply chain_login. Qed.

(** The answer to an attempt on a connection without authorization, by
    behavior: the backend's answer exactly in the case the behavior names
    (the authenticator succeeded, refused, or could not answer), and the
    authenticator's verdict otherwise; an attempt with a method that is not
    configured is unavailable and reaches neither. *)
Theorem passthrough_behavior {W} `{!Field W (option AuthenticationContext)}
    `{!Field W (option AuthorizationResponse)} (ctx_OnDisconnect : nat → prog W unit)
    (h : authIntegration W) (b : NetworkConnectionHandler W) meta r w w1 :
  ai_authz h = None →
  disconnect_authContext ctx_OnDisconnect w = Done (tt, w1) →
  match authenticate h meta r with
  | None =>
      ∃ e, auth_call (connection_chain ctx_OnDisconnect h b) meta r w
        = Done ((AuthResponseUnavailable, AuthFailed meta, Some e), w1)
        ∧ error_Code e = Some ESSHAuthUnavailable
  | Some auth =>
      ∀ ctx w2, auth w1 = Done (ctx, w2) →
      if backend_decides (ai_behavior h) ctx
      then auth_call (connection_chain ctx_OnDisconnect h b) meta r w
           = auth_call b meta r (fset (Some ctx) w2)
      else auth_call (connection_chain ctx_OnDisconnect h b) meta r w
           = Done ((context_verdict ctx, verdict_meta meta r ctx, verdict_error r ctx),
                   fset (Some ctx) w2)
  end.
Proof.
  intros Hz Hd. rewrite !chain_call, Hz.
  destruct (authenticate h meta r) as [auth|] eqn:Ea.
  - intros ctx w2 Hc. rewrite plain_call. run_prog. rewrite Hd, Ea, Hc.
    by destruct (backend_decides _ _).
  - eexists. rewrite plain_call. run_prog. rewrite Hd, Ea. split; reflexivity.
Qed.

(** ** Authentication contexts are disconnected *)

(** A store that counts the contexts created so far and logs, in order, the
    references [OnDisconnect] was called on. *)
Abbreviation ctx_log := (nat * list nat)%type.
Abbreviation ctx_world X := (option AuthenticationContext * (ctx_log * X))%type.

Section disconnects.
Context {X : Type} `{!Field X (option AuthorizationResponse)}.

Definition log_OnDisconnect (ref : nat) : prog (ctx_world X) unit :=
  modify (λ w, (w.1, ((w.2.1.1, w.2.1.2 ++ [ref]), w.2.2))).

(** A call that leaves the contexts alone, and one that creates a context. *)
Definition quiet {A} (c : prog (ctx_world X) A) : Prop :=
  ∀ w, ∃ a x, c w = Done (a, (w.1, (w.2.1, x))).
Definition creates (c : prog (ctx_world X) AuthenticationContext) : Prop :=
  ∀ w, ∃ ctx x, c w = Done (ctx, (w.1, ((S w.2.1.1, w.2.1.2), x))) ∧ ctx_ref ctx = w.2.1.1.

Context (h : authIntegration (ctx_world X)) (b : NetworkConnectionHandler (ctx_world X)).
Context (Hauth : ∀ meta r auth, authenticate h meta r = Some auth → creates auth).
Context (Hbackend : ∀ meta r, quiet (auth_call b meta r)).
Context (Hdisconnect : quiet (OnDisconnect b)).
Context (Hauthz : ∀ Authorize m, ai_authz h = Some Authorize → quiet (Authorize m)).

Definition all_configured : Prop :=
  ai_password h ≠ None ∧ ai_publicKey h ≠ None ∧ ai_keyboard h ≠ None.

(** All contexts but the current one have been disconnected; exactly once each,
    in order, when every method is configured. *)
Definition ctx_inv (f : option AuthenticationContext) (l : ctx_log) : Prop :=
  match f with
  | None => l = (0, [])
  | Some ctx =>
      l.1 = S (ctx_ref ctx) ∧
      (∀ i, i < ctx_ref ctx → i ∈ l.2) ∧ (∀ i, i ∈ l.2 → i < l.1) ∧
      (all_configured → l.2 = seq 0 (ctx_ref ctx))
  end.

Lemma configured_authenticate meta r : all_configured → authenticate h meta r ≠ None.
Proof.
  intros (Hp & Hk & Hi). destruct r; cbn; by destruct (ai_password h), (ai_publicKey h), (ai_keyboard h).
Qed.

(** After disconnecting the current context all contexts are disconnected. *)
Lemma disconnect_inv f l x :
  ctx_inv f l →
  ∃ l', disconnect_authContext log_OnDisconnect (f, (l, x)) = Done (tt, (f, (l', x))) ∧
    l'.1 = l.1 ∧ (∀ i, i < l.1 → i ∈ l'.2) ∧ (∀ i, i ∈ l'.2 → i < l.1) ∧
    (all_configured → l'.2 = seq 0 l.1) ∧ (f = None → l' = l).
Proof.
  destruct f as [ctx|]; cbn; unfold disconnect_authContext; run_prog.
  - intros (Hn & Hall & Hlt & Heq). destruct l as [n ds]; cbn in *. subst n.
    eexists. cbn. split; [reflexivity|]. cbn. split; [done|]. repeat split.
    + intros i Hi. apply elem_of_app.
      destruct (decide (i = ctx_ref ctx)) as [->|]; [right; by left | left; apply Hall; lia].
    + intros i [Hi|Hi]%elem_of_app; [by apply Hlt|]. apply list_elem_of_singleton in Hi. lia.
    + intros Hc. rewrite (Heq Hc). symmetry. apply (seq_S (ctx_ref ctx) 0).
    + done.
  - intros ->. eexists. cbn. split; [reflexivity|]. cbn. repeat split; [lia | by intros i ?%elem_of_nil].
Qed.

Lemma plain_attempt_inv meta r f l x :
  ctx_inv f l →
  ∃ a f' l' x', auth_call (plain_handler log_OnDisconnect h b) meta r (f, (l, x)) = Done (a, (f', (l', x')))
    ∧ ctx_inv f' l' ∧ (all_configured → l'.1 = S l.1).
Proof.
  intros Hi. destruct (disconnect_inv f l x Hi) as (l1 & E1 & Hn & Hall & Hlt & Hseq & Hnone).
  rewrite plain_call. run_prog. rewrite E1.
  destruct (authenticate h meta r) as [auth|] eqn:Ea.
  - destruct (Hauth _ _ _ Ea (f, (l1, x))) as (ctx & x2 & E2 & Href). rewrite E2.
    cbn in *. rewrite Hn.
    assert (ctx_inv (Some ctx) (S l.1, l1.2)) as Hi'.
    { cbn. rewrite Href, Hn. split_and!; auto. intros i Hi'. apply Hlt in Hi'. lia. }
    destruct (backend_decides (ai_behavior h) ctx).
    + destruct (Hbackend meta r (Some ctx, ((S l.1, l1.2), x2))) as (a & x3 & E3).
      do 4 eexists. split; [exact E3|]. cbn. auto.
    + eauto 10.
  - unfold method_disabled, prog_ret. exists (AuthResponseUnavailable, AuthFailed meta,
      Some (MsgError (UserMessage ESSHAuthUnavailable
      "This authentication method is currently unavailable." (disabled_text r) []))), f, l1, x.
    split; [done|]. split; [|by intros ?%(configured_authenticate meta r)].
    destruct f as [ctx|]; cbn in *; [|by rewrite Hnone].
    destruct Hi as (Hn' & _). rewrite Hn, Hn' in *. split_and!; auto.
    intros Hc. by destruct (configured_authenticate meta r Hc).
Qed.

Lemma attempt_inv meta r f l x :
  ctx_inv f l →
  ∃ a f' l' x', auth_call (connection_chain log_OnDisconnect h b) meta r (f, (l, x)) = Done (a, (f', (l', x')))
    ∧ ctx_inv f' l' ∧ (all_configured → l'.1 = S l.1).
Proof.
  intros Hi. destruct (plain_attempt_inv meta r f l x Hi) as ([[resp m] e] & f' & l' & x' & E & Hi' & Hn).
  rewrite chain_call. destruct (ai_authz h) as [Authorize|] eqn:Ez; [|eauto 10].
  unfold authorized. run_prog. rewrite E. unfold genericAuthorization.
  case_decide; [eauto 10|]. run_prog.
  destruct (Hauthz Authorize m eq_refl (f', (l', x'))) as (az & x2 & E2). rewrite E2.
  destruct (authz_Success az); cbn; eauto 10.
Qed.

(** Any number of attempts, then the disconnect. *)
Definition attempts_then_disconnect
    (attempts : list (ConnectionAuthPendingMetadata * auth_request (ctx_world X))) : prog (ctx_world X) unit :=
  do* range attempts (λ a, do* auth_call (connection_chain log_OnDisconnect h b) a.1 a.2 in prog_ret tt) in
  OnDisconnect (connection_chain log_OnDisconnect h b).

Lemma attempts_inv attempts f l x :
  ctx_inv f l →
  ∃ f' l' x',
    range attempts (λ a, do* auth_call (connection_chain log_OnDisconnect h b) a.1 a.2 in prog_ret tt)
      (f, (l, x)) = Done (tt, (f', (l', x')))
    ∧ ctx_inv f' l' ∧ (all_configured → l'.1 = l.1 + length attempts).
Proof.
  revert f l x. induction attempts as [|[meta r] attempts IH]; intros f l x Hi.
  - exists f, l, x. cbn. auto.
  - cbn. run_prog. destruct (attempt_inv meta r f l x Hi) as (a & f1 & l1 & x1 & E & Hi1 & Hn1).
    rewrite E. destruct (IH f1 l1 x1 Hi1) as (f' & l' & x' & E' & Hi' & Hn').
    run_prog. rewrite E'. exists f', l', x'. split_and!; [done|done|].
    intros Hc. rewrite (Hn' Hc), (Hn1 Hc). lia.
Qed.

Lemma disconnected_all attempts x :
  ∃ f n ds x',
    attempts_then_disconnect attempts (None, ((0, []), x)) = Done (tt, (f, ((n, ds), x')))
    ∧ (∀ i, i < n ↔ i ∈ ds)
    ∧ (all_configured → n = length attempts ∧ ds = seq 0 n).
Proof.
  unfold attempts_then_disconnect.
  destruct (attempts_inv attempts None (0, []) x eq_refl) as (f & [n ds] & x' & E & Hi & Hn).
  destruct (disconnect_inv f (n, ds) x' Hi) as ([n' ds'] & E' & Hn' & Hall & Hlt & Hseq & _).
  cbn in Hn', Hall, Hlt, Hseq, Hn.
  subst n'. destruct (Hdisconnect (f, ((n, ds'), x'))) as ([] & x2 & E2).
  exists f, n, ds', x2. split.
  - unfold prog_bind at 1. rewrite E. unfold connection_chain.
    destruct (ai_authz h); cbn; unfold networkConnectionHandler_OnDisconnect; run_prog;
      rewrite E'; apply E2.
  - split; [by split; auto|]. intros Hc. split; [by apply Hn | by apply Hseq].
Qed.

End disconnects.


(** Over any sequence of authentication attempts on one connection followed by
    the disconnect, the calls return and every authentication context an
    authenticator created has had [OnDisconnect] called, and no other has; when
    all three methods are configured each context is disconnected exactly once
    and in the order of creation. *)
Theorem auth_contexts_are_disconnected {X} `{!Field X (option AuthorizationResponse)}
    (h : authIntegration (ctx_world X)) (b : NetworkConnectionHandler (ctx_world X)) attempts x :
  (∀ meta r auth, authenticate h meta r = Some auth → creates auth) →
  (∀ meta r, quiet (auth_call b meta r)) →
  quiet (OnDisconnect b) →
  (∀ Authorize m, ai_authz h = Some Authorize → quiet (Authorize m)) →
  ∃ f n ds x',
    attempts_then_disconnect h b attempts (None, ((0, []), x)) = Done (tt, (f, ((n, ds), x')))
    ∧ (∀ i, i < n ↔ i ∈ ds)
    ∧ (all_configured h → n = length attempts ∧ ds = seq 0 n).
Proof. intros. by apply disconnected_all. Qed.

(** ** GSSAPI logins under authorization *)

(** What a GSSAPI conversation has to do for the server to let the user in:
    [AllowLogin] returns without an error and [Success] answers true. *)
Definition gssapi_login {W} (s : GSSAPIServer W) (username : string)
    (meta : ConnectionAuthPendingMetadata) : prog W bool :=
  let* '(m, err) := gss_AllowLogin s username meta in
  match err with
  | Some _ => prog_ret false
  | None => gss_Success s
  end.

(** When an authorization provider is configured no GSSAPI login ever
    succeeds, whatever the Kerberos conversation and the provider would answer:
    the conversation the connection handler returns was built without its
    authorization provider, so [AllowLogin] reports the authenticator's refusal
    or dereferences nil. *)
Theorem gssapi_with_authorization_never_succeeds {W} `{!Field W (option AuthenticationContext)}
    `{!Field W (option AuthorizationResponse)} (ctx_OnDisconnect : nat → prog W unit)
    (h : authIntegration W) (b : NetworkConnectionHandler W) cmeta w s w' username meta w1 ok w2 :
  is_Some (ai_authz h) →
  OnAuthGSSAPI (connection_chain ctx_OnDisconnect h b) cmeta w = Done (Some s, w') →
  gssapi_login s username meta w1 = Done (ok, w2) →
  ok = false.
Proof.
  intros [Authorize Hz]. unfold connection_chain. rewrite Hz. cbn.
  unfold authzNetworkConnectionHandler_OnAuthGSSAPI. run_prog.
  split_match; [|done|done].
  match goal with p : _ * _ |- _ => destruct p as [srv wa] end.
  intros [= <- <-]. unfold gssapi_login. cbn. unfold authzGssApiServer_AllowLogin. run_prog.
  destruct (gss_AllowLogin _ _ _ _) as [[[m err] wb]| |]; [|done|done].
  destruct err; [|done]. by intros [= <- <-].
Qed.

(** ** A concrete connection *)


Abbreviation demo_world := (ctx_world (option AuthorizationResponse)).

Definition demo_pending : ConnectionAuthPendingMetadata :=
  MkAuthPending (MkConnectionMetadata (MkRemoteAddress [] 2222) "c1" None None None) "SSH-2.0" "bob".

(** An authenticator that accepts a few credentials and creates a context each time. *)
Definition demo_answer (ok : bool) (meta : ConnectionAuthPendingMetadata) : prog demo_world AuthenticationContext :=
  λ w, Done (MkAuthContext w.2.1.1 ok None (if ok then Authenticated meta (Username meta) else AuthFailed meta),
             (w.1, ((S w.2.1.1, w.2.1.2), w.2.2))).

Definition demo_authorize (m : ConnectionAuthenticatedMetadata) : prog demo_world AuthorizationResponse :=
  prog_ret (MkAuthorizationResponse (bool_decide (AuthenticatedUsername m = "bob")) None
              (MkAuthenticated (auth_pending m) "robert")).

Definition demo_GSSAPI : GSSAPIServer demo_world :=
  {| gss_Success := prog_ret true; gss_Error := prog_ret None;
     gss_AcceptSecContext := λ _, prog_ret ([], "bob", false, None);
     gss_VerifyMIC := λ _ _, prog_ret None; gss_DeleteSecContext := prog_ret None;
     gss_AllowLogin := λ u m, if decide (u = "bob") then prog_ret (Authenticated m u, None)
                              else prog_ret (AuthFailed m, Some (ErrorString "not allowed")) |}.

Definition demo_net_backend : NetworkConnectionHandler demo_world :=
  {| OnAuthPassword := λ m _, prog_ret (AuthResponseFailure, AuthFailed m, None);
     OnAuthPubKey := λ m _, prog_ret (AuthResponseFailure, AuthFailed m, None);
     OnAuthKeyboardInteractive := λ m _, prog_ret (AuthResponseFailure, AuthFailed m, None);
     OnAuthGSSAPI := λ _, prog_ret None;
     OnHandshakeFailed := λ _ _, prog_ret tt;
     OnHandshakeSuccess := λ m, prog_ret (None, m, None);
     OnDisconnect := prog_ret tt;
     OnNetShutdown := λ _, prog_ret tt |}.

Definition demo_integration (behavior : Behavior) (authz : bool) : authIntegration demo_world :=
  {| ai_backend := None;
     ai_password := Some (λ m p, demo_answer (bool_decide (p = [x41])) m);
     ai_publicKey := Some (λ m k, demo_answer (bool_decide (k = "ssh-rsa A")) m);
     ai_gssapi := Some (λ _, prog_ret demo_GSSAPI);
     ai_keyboard := Some (λ m _, demo_answer false m);
     ai_authz := if authz then Some demo_authorize else None;
     ai_behavior := behavior |}.

Definition demo_w0 : demo_world := (None, ((0, []), None)).

Lemma no_login_without_authentication_witness :
  ∃ auth w1 ctx w2,
    authenticate (demo_integration BehaviorNoPassthrough true) demo_pending (AttemptPassword [x41]) = Some auth ∧
    auth w1 = Done (ctx, w2) ∧ ctx_Success ctx = true ∧
    ∃ resp w', demo_authorize (ctx_Metadata ctx) (fset (Some ctx) w2) = Done (resp, w') ∧ authz_Success resp = true.
Proof.
  destruct (no_login_without_authentication (W:=demo_world) log_OnDisconnect (demo_integration BehaviorNoPassthrough true)
    demo_net_backend demo_net_backend demo_pending (AttemptPassword [x41]) demo_w0
    (MkAuthenticated demo_pending "robert") None
    (Some (MkAuthContext 0 true None (Authenticated demo_pending "bob")), ((1, []), None)))
    as (_ & auth & w1 & ctx & w2 & Ea & Ec & Es & resp & Ez & Ezs & _).
  - reflexivity.
  - vm_compute. reflexivity.
  - exists auth, w1, ctx, w2. split; [exact Ea|]. split; [exact Ec|]. split; [exact Es|].
    exists resp. eexists. split; [exact Ez | exact Ezs].
Defined.

Lemma passthrough_behavior_witness :
  auth_call (connection_chain log_OnDisconnect (demo_integration BehaviorPassthroughOnSuccess false) demo_net_backend)
    demo_pending (AttemptPubKey "ssh-rsa A") demo_w0
  = auth_call demo_net_backend demo_pending (AttemptPubKey "ssh-rsa A")
      (Some (MkAuthContext 0 true None (Authenticated demo_pending "bob")), ((1, []), None)).
Proof.
  exact (passthrough_behavior (W:=demo_world) log_OnDisconnect (demo_integration BehaviorPassthroughOnSuccess false)
    demo_net_backend demo_pending (AttemptPubKey "ssh-rsa A") demo_w0 demo_w0 eq_refl eq_refl
    (MkAuthContext 0 true None (Authenticated demo_pending "bob")) (None, ((1, []), None)) eq_refl).
Defined.

Lemma auth_contexts_are_disconnected_witness :
  ∃ f n ds x',
    attempts_then_disconnect (demo_integration BehaviorNoPassthrough true) demo_net_backend
      [(demo_pending, AttemptPassword []); (demo_pending, AttemptPubKey "ssh-rsa A")]
      (None, ((0, []), None)) = Done (tt, (f, ((n, ds), x')))
    ∧ (∀ i, i < n ↔ i ∈ ds)
    ∧ (all_configured (demo_integration BehaviorNoPassthrough true) → n = 2 ∧ ds = seq 0 n).
Proof.
  apply (auth_contexts_are_disconnected (demo_integration BehaviorNoPassthrough true) demo_net_backend
    [(demo_pending, AttemptPassword []); (demo_pending, AttemptPubKey "ssh-rsa A")] None).
  - intros meta [p|k|c] auth [= <-] w; eexists _, _; by split.
  - intros meta [p|k|c] [f [l x]]; by eexists _, x.
  - intros [f [l x]]. by eexists _, x.
  - intros a m [= <-] [f [l x]]. by eexists _, x.
Defined.

Lemma gssapi_with_authorization_never_succeeds_witness : false = false.
Proof.
  apply (gssapi_with_authorization_never_succeeds (W:=demo_world) log_OnDisconnect
    (demo_integration BehaviorNoPassthrough true) demo_net_backend
    (pending_conn demo_pending) demo_w0 (authzGssApiServer (Some demo_GSSAPI) None) demo_w0
    "alice" demo_pending demo_w0 false demo_w0).
  - exists demo_authorize. reflexivity.
  - reflexivity.
  - vm_compute. reflexivity.
Defined.

(** Without authorization the same conversation lets the user in. *)
Example gssapi_without_authorization :
  gssapi_login demo_GSSAPI "bob" demo_pending demo_w0 = Done (true, demo_w0).
Proof. reflexivity. Qed.
