(* ===== verification/Webhook.v ===== *)
(** * Webhook authentication

    [internal/auth/webhook_client_impl.go], [webhook_client_factory.go],
    [webhook_client_context.go]: the authenticator that asks a webhook server.
    [internal/auth/handler_impl.go], [handler_factory.go]: the other side, the
    server that an operator builds on this library.  [auth/protocol.go]: the
    documents they exchange. *)

From stdpp Require Import base gmap strings list.
From Stdlib Require Import Ascii Strings.Byte.
From S2P Require Import Prelude Base64 Messages Metadata MetadataJSON Handler GoStrings ConfigHTTP ConfigAuth Http.
From S2P Require Import AuthIntegration.

Local Open Scope Z_scope.

(** ** The protocol *)

Record PasswordAuthRequest := MkPasswordAuthRequest {
  pw_meta : ConnectionAuthPendingMetadata;
  pw_Password : string;
}.

Record PublicKeyAuthRequest := MkPublicKeyAuthRequest {
  pk_meta : ConnectionAuthPendingMetadata;
  pk_PublicKey : string;
}.

Record AuthorizationRequest := MkAuthorizationRequest { az_meta : ConnectionAuthenticatedMetadata }.

Record ResponseBody := MkResponseBody {
  rb_meta : ConnectionAuthenticatedMetadata;
  rb_Success : bool;
}.

Section protocol.
Context (IP_String : list byte → string) (ParseIP : string → list byte).

Definition PasswordAuthRequest_Marshal (r : PasswordAuthRequest) : json :=
  JObject (pending_members IP_String (pw_meta r) ++ [("passwordBase64", JString (coerce_utf8 (pw_Password r)))]).
Definition PasswordAuthRequest_Unmarshal : json → outcome (PasswordAuthRequest + error) :=
  struct_Unmarshal (λ fs,
    and_field (pending_Unmarshal ParseIP fs) (read_string (member "passwordBase64" fs)) MkPasswordAuthRequest).

Definition PublicKeyAuthRequest_Marshal (r : PublicKeyAuthRequest) : json :=
  JObject (pending_members IP_String (pk_meta r) ++ [("publicKey", JString (coerce_utf8 (pk_PublicKey r)))]).
Definition PublicKeyAuthRequest_Unmarshal : json → outcome (PublicKeyAuthRequest + error) :=
  struct_Unmarshal (λ fs,
    and_field (pending_Unmarshal ParseIP fs) (read_string (member "publicKey" fs)) MkPublicKeyAuthRequest).

Definition AuthorizationRequest_Marshal (r : AuthorizationRequest) : json :=
  JObject (authenticated_members IP_String (az_meta r)).
Definition AuthorizationRequest_Unmarshal (j : json) : outcome (AuthorizationRequest + error) :=
  struct_Unmarshal (λ fs, and_field (authenticated_Unmarshal ParseIP fs) (inl tt) (λ m _, MkAuthorizationRequest m)) j.

Definition ResponseBody_Marshal (r : ResponseBody) : json :=
  JObject (authenticated_members IP_String (rb_meta r) ++ [("success", JBool (rb_Success r))]).

(** A strict decoder refuses members the struct does not have, also inside the
    values of its maps; it still reads the other members. *)
Definition response_names : list string := ["authenticatedUsername"; "success"] ++ pending_names.
Definition map_names : list string := ["metadata"; "environment"; "files"].
Definition value_names : list string := ["value"; "sensitive"].

Definition has_name (names : list string) (k : string) : bool := existsb (same_name k) names.

Definition known_value (j : json) : bool :=
  match j with JObject fs => forallb (λ kj : string * json, has_name value_names kj.1) fs | _ => true end.

Definition known_members (fs : list (string * json)) : bool :=
  forallb (λ kj : string * json,
    has_name response_names kj.1 &&
    (if has_name map_names kj.1
     then match kj.2 with JObject vs => forallb (λ kv : string * json, known_value kv.2) vs | _ => true end
     else true)) fs.

Definition ResponseBody_Unmarshal (strict : bool) (j : json) : outcome (ResponseBody + error) :=
  struct_Unmarshal (λ fs,
    match and_field (authenticated_Unmarshal ParseIP fs) (read_bool (member "success" fs)) MkResponseBody with
    | Done (inl r) => Done (if strict && negb (known_members fs) then inr (ErrorString "json: unknown field") else inl r)
    | r => r
    end) j.
End protocol.

(** ** The client *)

(** The kinds of authentication a client is created for. *)
Definition AuthenticationTypeAll : string := "".
Definition AuthenticationTypePassword : string := "password".
Definition AuthenticationTypePublicKey : string := "pubkey".
Definition AuthenticationTypeAuthz : string := "authz".

Record webhookClient := MkWebhookClient {
  wc_timeout : Z;
  wc_httpClient : client;
  wc_endpoint : string;
  enablePassword : bool;
  enablePubKey : bool;
  enableAuthz : bool;
}.

(** The factory leaves [endpoint] empty: the URL of the server is that of the
    HTTP client. *)
Definition NewWebhookClient (lib : Library) (authType : string) (cfg : AuthWebhookClientConfig)
  : outcome (webhookClient + error) :=
  match AuthWebhookClientConfig_Validate lib cfg with
  | Some err => Done (inr err)
  | None =>
      match NewClient lib (wh_HTTP cfg) with
      | Panic why => Panic why
      | Blocked why => Blocked why
      | Done (inr err) => Done (inr err)
      | Done (inl realClient) =>
          Done (inl (MkWebhookClient (wh_AuthTimeout cfg) realClient ""
            (bool_decide (authType = AuthenticationTypePassword ∨ authType = AuthenticationTypeAll))
            (bool_decide (authType = AuthenticationTypePublicKey ∨ authType = AuthenticationTypeAll))
            (bool_decide (authType = AuthenticationTypeAuthz ∨ authType = AuthenticationTypeAll))))
      end
  end.

Record webhookClientContext := MkWebhookContext {
  wx_meta : ConnectionAuthenticatedMetadata;
  wx_success : bool;
  wx_err : option error;
}.

(** The metrics of the client. *)
Inductive webhook_metric := BackendRequests | BackendFailure | AuthSuccess | AuthFailure.

Section webhook.
Context {W : Type}.
Context (IP_String : list byte → string) (ParseIP : string → list byte).
Context (NewRequest : string → string → option error)
        (Do : http_Client → http_Request → prog W (http_Response + error)).
(** [schema.Encoder] on a request, for servers that take forms. *)
Context (form : json → string + error).
(** Incrementing a counter with labels, and for a geographical one an address. *)
Context (Increment : webhook_metric → list (string * string) → prog W unit)
        (IncrementGeo : webhook_metric → list byte → list (string * string) → prog W unit).
(** How many waits of ten seconds fit into a timeout. *)
Context (waits : Z → nat).
Context (client : webhookClient).

Definition EAuthBackendError : string := "AUTH_BACKEND_ERROR".

Definition getReason (lastError : error) : string :=
  match as_message lastError with Some m => code m | None => "UNKNOWN_ERROR" end.

(** A new response is read for every attempt: what was read next to an error is
    not used. *)
Definition fresh_response (strict : bool) (j : json) : outcome (option ResponseBody * option error) :=
  match ResponseBody_Unmarshal ParseIP strict j with
  | Done (inl r) => Done (Some r, None)
  | Done (inr err) => Done (None, Some err)
  | Panic why => Panic why
  | Blocked why => Blocked why
  end.

Definition authServerRequest (endpoint : string) (requestObject : json) : prog W (option error * option ResponseBody) :=
  let* '(statusCode, err, response) :=
    client_Post NewRequest Do (wc_httpClient client) endpoint (Some (MkPayload (inl requestObject) (form requestObject)))
      (Some fresh_response) in
  match err with
  | Some _ => prog_ret (err, None)
  | None =>
      if decide (statusCode ≠ 200) then
        prog_ret (Some (MsgError (UserMessage "AUTH_INVALID_STATUS" "Cannot authenticate at this time."
                                    "auth server responded with an invalid status code: %d" [VInt statusCode])), None)
      else prog_ret (None, mjoin response)
  end.

Definition logAttempt (lastLabels : list (string * string)) : prog W unit := Increment BackendRequests lastLabels.

Definition logAuthResponse (authResponse : ResponseBody) (labels : list (string * string)) (remoteAddr : list byte)
  : prog W unit :=
  if rb_Success authResponse then IncrementGeo AuthSuccess remoteAddr labels
  else IncrementGeo AuthFailure remoteAddr labels.

Definition logTemporaryFailure (lastLabels : list (string * string)) : prog W unit :=
  Increment BackendFailure (("type", "soft") :: lastLabels).

Definition logAndReturnPermanentFailure (meta : ConnectionAuthPendingMetadata) (lastError : error) (method : string)
    (lastLabels : list (string * string)) : prog W webhookClientContext :=
  let err := Wrap (Some lastError) EAuthBackendError "Backend request for %s authentication failed, giving up"
               [VString (ToLower method)] in
  do* Increment BackendFailure (("type", "hard") :: lastLabels) in
  prog_ret (MkWebhookContext (AuthFailed meta) false (Some err)).

Definition logAndReturnPermanentAuthzFailure (meta : ConnectionAuthenticatedMetadata) (lastError : error)
    (lastLabels : list (string * string)) : prog W webhookClientContext :=
  let err := Wrap (Some lastError) EAuthBackendError "Backend request for authorization failed, giving up" [] in
  do* Increment BackendFailure (("type", "hard") :: lastLabels) in
  prog_ret (MkWebhookContext (AuthFailed (auth_pending meta)) false (Some err)).

Definition retry_label (lastError : option error) : string := match lastError with Some _ => "1" | None => "0" end.

(** The metadata after an answer: the pending metadata with what the server
    returned. *)
Definition answered (p : ConnectionAuthPendingMetadata) (authResponse : ResponseBody) : ConnectionAuthenticatedMetadata :=
  ConnectionAuthenticatedMetadata_Merge (Authenticated p "") (rb_meta authResponse).

(** The loop of [processAuthWithRetry]. *)
Fixpoint auth_rounds (waits : nat) (lastError : option error) (meta : ConnectionAuthPendingMetadata)
    (method authType url : string) (authRequest : json) : prog W webhookClientContext :=
  let lastLabels := [("authtype", authType); ("retry", retry_label lastError)] in
  do* logAttempt lastLabels in
  let* '(err, authResponse) := authServerRequest url authRequest in
  match err, authResponse with
  | None, Some authResponse =>
      let authenticatedMeta := answered meta authResponse in
      do* logAuthResponse authResponse lastLabels
            (IP (RemoteAddr (pending_conn (auth_pending authenticatedMeta)))) in
      prog_ret (MkWebhookContext authenticatedMeta (rb_Success authResponse) None)
  | None, None => panic nil_pointer
  | Some lastError, _ =>
      let lastLabels := lastLabels ++ [("reason", getReason lastError)] in
      do* logTemporaryFailure lastLabels in
      match waits with
      | O => logAndReturnPermanentFailure meta lastError method lastLabels
      | S waits => auth_rounds waits (Some lastError) meta method authType url authRequest
      end
  end.

Definition processAuthWithRetry (meta : ConnectionAuthPendingMetadata) (method authType url : string)
    (authRequest : json) : prog W webhookClientContext :=
  auth_rounds (waits (wc_timeout client)) None meta method authType url authRequest.

(** The loop of [processAuthzWithRetry]. *)
Fixpoint authz_rounds (waits : nat) (lastError : option error) (meta : ConnectionAuthenticatedMetadata)
    (url : string) (authzRequest : json) : prog W webhookClientContext :=
  let lastLabels := [("authtype", "authorization"); ("retry", retry_label lastError)] in
  do* logAttempt lastLabels in
  let* '(err, authResponse) := authServerRequest url authzRequest in
  match err, authResponse with
  | None, Some authResponse =>
      let authenticatedMeta := answered (auth_pending meta) authResponse in
      do* logAuthResponse authResponse lastLabels
            (IP (RemoteAddr (pending_conn (auth_pending authenticatedMeta)))) in
      prog_ret (MkWebhookContext authenticatedMeta (rb_Success authResponse) None)
  | None, None => panic nil_pointer
  | Some lastError, _ =>
      let lastLabels := lastLabels ++ [("reason", getReason lastError)] in
      do* logTemporaryFailure lastLabels in
      match waits with
      | O => logAndReturnPermanentAuthzFailure meta lastError lastLabels
      | S waits => authz_rounds waits (Some lastError) meta url authzRequest
      end
  end.

Definition processAuthzWithRetry (meta : ConnectionAuthenticatedMetadata) (url : string) (authzRequest : json)
  : prog W webhookClientContext :=
  authz_rounds (waits (wc_timeout client)) None meta url authzRequest.

Definition disabled (user_message explanation_ : string) : option error :=
  Some (MsgError (UserMessage "AUTH_DISABLED" user_message explanation_ [])).

Definition webhook_Authorize (meta : ConnectionAuthenticatedMetadata) : prog W webhookClientContext :=
  if negb (enableAuthz client) then
    prog_ret (MkWebhookContext (AuthFailed (auth_pending meta)) false
                (disabled "Authorization failed." "Authorization is disabled."))
  else
    processAuthzWithRetry meta (wc_endpoint client ++ "/authz")
      (AuthorizationRequest_Marshal IP_String (MkAuthorizationRequest meta)).

Definition webhook_Password (meta : ConnectionAuthPendingMetadata) (password : list byte) : prog W webhookClientContext :=
  if negb (enablePassword client) then
    prog_ret (MkWebhookContext (AuthFailed meta) false
                (disabled "Password authentication failed." "Password authentication is disabled."))
  else
    processAuthWithRetry meta "Password" "password" (wc_endpoint client ++ "/password")
      (PasswordAuthRequest_Marshal IP_String (MkPasswordAuthRequest meta (EncodeToString password))).

Definition webhook_PubKey (meta : ConnectionAuthPendingMetadata) (pubKey : string) : prog W webhookClientContext :=
  if negb (enablePubKey client) then
    prog_ret (MkWebhookContext (AuthFailed meta) false
                (disabled "Public key authentication failed." "Public key authentication is disabled."))
  else
    processAuthWithRetry meta "Public key" "pubkey" (wc_endpoint client ++ "/pubkey")
      (PublicKeyAuthRequest_Marshal IP_String (MkPublicKeyAuthRequest meta pubKey)).

(** The client as the authenticators of the authentication layer.  The
    disconnect of a context does nothing, so any reference stands for it. *)
Definition webhook_context (ref : nat) (c : webhookClientContext) : AuthenticationContext :=
  MkAuthContext ref (wx_success c) (wx_err c) (wx_meta c).

Definition webhook_passwords (ref : nat) : PasswordAuthenticator W :=
  λ meta password, let* c := webhook_Password meta password in prog_ret (webhook_context ref c).
Definition webhook_keys (ref : nat) : PublicKeyAuthenticator W :=
  λ meta pubKey, let* c := webhook_PubKey meta pubKey in prog_ret (webhook_context ref c).
Definition webhook_authz : AuthzProvider W :=
  λ meta, let* c := webhook_Authorize meta in prog_ret (MkAuthorizationResponse (wx_success c) (wx_err c) (wx_meta c)).
End webhook.

(** ** The server *)

Record auth_Handler (W : Type) := MkAuthHandlerInterface {
  OnPassword : ConnectionAuthPendingMetadata → list byte → prog W (bool * ConnectionAuthenticatedMetadata * option error);
  OnPubKey : ConnectionAuthPendingMetadata → string → prog W (bool * ConnectionAuthenticatedMetadata * option error);
  OnAuthorization : ConnectionAuthenticatedMetadata → prog W (bool * ConnectionAuthenticatedMetadata * option error);
}.
Arguments OnPassword {W} _ _ _.
Arguments OnPubKey {W} _ _ _.
Arguments OnAuthorization {W} _ _.

Section server.
Context {W : Type}.
Context (IP_String : list byte → string) (ParseIP : string → list byte).
Context {float : Type} (one : float) (greater : float → float → bool) (ParseFloat : string → option float).
Context (backend : auth_Handler W).

Definition response_of (meta : ConnectionAuthenticatedMetadata) (success : bool) : body :=
  MkBody DOther (inl (ResponseBody_Marshal IP_String (MkResponseBody meta success))).

Definition authzHandler_OnRequest : RequestHandler W := λ request response,
  let* requestObject := of_outcome (Decode (AuthorizationRequest_Unmarshal ParseIP) request) in
  match requestObject with
  | inr err => prog_ret (response, Some err)
  | inl requestObject =>
      let* '(success, meta, err) := OnAuthorization backend (az_meta requestObject) in
      match err with
      | Some _ => prog_ret (MkServerResponse 500 (response_of (az_meta requestObject) false), None)
      | None => prog_ret (MkServerResponse (statusCode response) (response_of meta success), None)
      end
  end.

Definition passwordHandler_OnRequest : RequestHandler W := λ request response,
  let* requestObject := of_outcome (Decode (PasswordAuthRequest_Unmarshal ParseIP) request) in
  match requestObject with
  | inr err => prog_ret (response, Some err)
  | inl requestObject =>
      match DecodeString (pw_Password requestObject) with
      | None => prog_ret (response, Some (Failed (ErrorString "failed to decode password")))
      | Some password =>
          let* '(success, meta, err) := OnPassword backend (pw_meta requestObject) password in
          match err with
          | Some _ => prog_ret (MkServerResponse 500 (response_of meta false), None)
          | None => prog_ret (MkServerResponse (statusCode response) (response_of meta success), None)
          end
      end
  end.

Definition pubKeyHandler_OnRequest : RequestHandler W := λ request response,
  let* requestObject := of_outcome (Decode (PublicKeyAuthRequest_Unmarshal ParseIP) request) in
  match requestObject with
  | inr err => prog_ret (response, Some err)
  | inl requestObject =>
      let* '(success, meta, err) := OnPubKey backend (pk_meta requestObject) (pk_PublicKey requestObject) in
      match err with
      | Some _ => prog_ret (MkServerResponse 500 (response_of meta false), None)
      | None => prog_ret (MkServerResponse (statusCode response) (response_of meta success), None)
      end
  end.

(** [handler.ServeHTTP]: the last part of the path selects the handler. *)
Definition auth_ServeHTTP (request : server_request) (writer : ResponseWriter) : prog W ResponseWriter :=
  let serve h := ServeHTTP one greater ParseFloat (NewServerHandler h) request writer in
  match last (Split (sr_Path request) "/"%char) with
  | Some "authz" => serve authzHandler_OnRequest
  | Some "password" => serve passwordHandler_OnRequest
  | Some "pubkey" => serve pubKeyHandler_OnRequest
  | _ => prog_ret (WriteHeader 404 writer)
  end.
End server.
