(* ===== verification/WebhookSpec.v ===== *)
(** * What webhook authentication guarantees

    Theorems on [Webhook] and [Http]: the client asks until it is answered or
    out of time and believes only an answer to its own request; client and
    server of the protocol together pass a login on to the operator's code
    unchanged. *)

From stdpp Require Import base gmap strings list.
From Stdlib Require Import Ascii Strings.Byte.
From S2P Require Import Prelude Base64 Messages Metadata MetadataJSON Handler GoStrings ConfigHTTP ConfigAuth Http.
From S2P Require Import AuthIntegration AuthSpec Webhook.

Local Open Scope Z_scope.

(** ** Sending a request *)

(** The clients this library creates for webhooks with JSON requests. *)
Record json_client (NewRequest : string → string → option error) (c : client) : Prop := {
  jc_encoding : hc_RequestEncoding (cl_config c) = "" ∨ hc_RequestEncoding (cl_config c) = "JSON";
  jc_parsed path : NewRequest "POST" (hc_URL (cl_config c) ++ path)%string = None;
}.

(** The request the client sends for a document. *)
Definition json_headers (c : client) : http_Header :=
  Header_Set "Accept" "application/json"
    (Header_Set "Content-Type" "application/json" (foldl add_header ∅ (cl_extraHeaders c))).
Definition json_request (c : client) (path : string) (j : json) : http_Request :=
  MkHttpRequest "POST" (hc_URL (cl_config c) ++ path) (json_headers c) (Document j).

Section sending.
Context (NewRequest : string → string → option error) (c : client) (Hc : json_client NewRequest c).

Lemma json_request_created path j form :
  createRequestForURL NewRequest c "POST" (hc_URL (cl_config c) ++ path) (Some (MkPayload (inl j) form))
  = Done (inl (json_request c path j)).
Proof.
  destruct Hc as [He Hn]. unfold createRequestForURL. cbn [as_json]. rewrite decide_True by done.
  by rewrite Hn, decide_True.
Qed.
End sending.

(** What a response is to the client: an answer it can read, or a failure. *)
Definition read_response (ParseIP : string → list byte) (c : client) (url : string) (resp : http_Response + error)
  : outcome (ResponseBody + error) :=
  match resp with
  | inr err => Done (inr (match as_message err with Some _ => err | None => connection_failed "POST" url err end))
  | inl resp =>
      match rs_Body resp with
      | inr err => Done (inr (connection_failed "POST" url err))
      | inl None => Done (inr (decode_failed no_document))
      | inl (Some j) =>
          match ResponseBody_Unmarshal ParseIP (negb (cl_allowLaxDecoding c)) j with
          | Done (inl r) =>
              if decide (rs_StatusCode resp ≠ 200) then
                Done (inr (MsgError (UserMessage "AUTH_INVALID_STATUS" "Cannot authenticate at this time."
                                       "auth server responded with an invalid status code: %d"
                                       [VInt (rs_StatusCode resp)])))
              else Done (inl r)
          | Done (inr err) => Done (inr (decode_failed err))
          | Panic why => Panic why
          | Blocked why => Blocked why
          end
      end
  end.

(** Reading a document returns or panics. *)
Lemma UnmarshalText_unblocked ParseIP s why : UnmarshalText ParseIP s ≠ Blocked why.
Proof.
  unfold UnmarshalText. case_decide; [done|]. destruct (Atoi _) as [port []]; [done|]. case_decide; [done|].
  destruct (Join _ _) as [|c rest]; [done|]. case_decide; [|done]. by destruct (strip_brackets _).
Qed.

Lemma ResponseBody_unblocked ParseIP strict j why : ResponseBody_Unmarshal ParseIP strict j ≠ Blocked why.
Proof.
  assert (∀ fs, pending_Unmarshal ParseIP fs ≠ Blocked why) as Hp.
  { intros fs. unfold pending_Unmarshal, address_Unmarshal. destruct (member "remoteAddress" fs) as [[]|]; try done.
    destruct (UnmarshalText ParseIP s) as [[[] []]| |] eqn:E; try done. by apply UnmarshalText_unblocked in E. }
  assert (∀ fs, authenticated_Unmarshal ParseIP fs ≠ Blocked why) as Ha.
  { intros fs. unfold authenticated_Unmarshal, and_field.
    destruct (pending_Unmarshal ParseIP fs) eqn:E; [done..|]. intros [= ->]. by apply Hp in E. }
  unfold ResponseBody_Unmarshal, struct_Unmarshal, and_field. destruct j as [| | | | |fs]; try done.
  all: match goal with |- context [authenticated_Unmarshal ?P ?fs] =>
         destruct (authenticated_Unmarshal P fs) as [r| |] eqn:E end; [|done|].
  all: try (intros [= ->]; by apply Ha in E).
  all: by destruct (sum_bind _ r).
Qed.

Section request.
Context {W : Type} (IP_String : list byte → string) (ParseIP : string → list byte).
Context (NewRequest : string → string → option error) (Do : http_Client → http_Request → prog W (http_Response + error)).
Context (form : json → string + error) (client : webhookClient).
Hypothesis json_http : json_client NewRequest (wc_httpClient client).

(** One request of the webhook client: the response read as above. *)
Lemma authServerRequest_eq path j w :
  authServerRequest ParseIP NewRequest Do form client path j w =
  match Do (createHTTPClient (wc_httpClient client)) (json_request (wc_httpClient client) path j) w with
  | Done (resp, w') =>
      match read_response ParseIP (wc_httpClient client) (hc_URL (cl_config (wc_httpClient client)) ++ path) resp with
      | Done (inl r) => Done ((None, Some r), w')
      | Done (inr err) => Done ((Some err, None), w')
      | Panic why => Panic why
      | Blocked why => Blocked why
      end
  | Panic why => Panic why
  | Blocked why => Blocked why
  end.
Proof.
  unfold authServerRequest, client_Post, Http.request, requestURLWithLogger. unfold prog_bind at 1 2.
  unfold of_outcome at 1. rewrite json_request_created by done. unfold prog_bind at 1.
  destruct (Do _ _ w) as [[[resp|err] w']| |]; [|cbn; by destruct (as_message err)|done..].
  cbn. destruct (rs_Body resp) as [[j'|]|err]; [|done..]. unfold prog_bind, of_outcome, fresh_response.
  destruct (ResponseBody_Unmarshal _ _ j') as [[r|err]| |]; [|done..]. cbn. by case_decide.
Qed.
End request.

(** ** Logging in through a webhook *)

(** The three things the client is asked. *)
Inductive login :=
| LoginPassword (meta : ConnectionAuthPendingMetadata) (password : list byte)
| LoginPubKey (meta : ConnectionAuthPendingMetadata) (pubKey : string)
| LoginAuthorize (meta : ConnectionAuthenticatedMetadata).

Definition login_meta (l : login) : ConnectionAuthPendingMetadata :=
  match l with LoginPassword meta _ | LoginPubKey meta _ => meta | LoginAuthorize meta => auth_pending meta end.

Definition login_name (l : login) : string :=
  match l with LoginPassword _ _ => "password" | LoginPubKey _ _ => "pubkey" | LoginAuthorize _ => "authz" end.

Definition login_enabled (c : webhookClient) (l : login) : bool :=
  match l with
  | LoginPassword _ _ => enablePassword c | LoginPubKey _ _ => enablePubKey c | LoginAuthorize _ => enableAuthz c
  end.

Definition login_document (IP_String : list byte → string) (l : login) : json :=
  match l with
  | LoginPassword meta password =>
      PasswordAuthRequest_Marshal IP_String (MkPasswordAuthRequest meta (EncodeToString password))
  | LoginPubKey meta pubKey => PublicKeyAuthRequest_Marshal IP_String (MkPublicKeyAuthRequest meta pubKey)
  | LoginAuthorize meta => AuthorizationRequest_Marshal IP_String (MkAuthorizationRequest meta)
  end.

Definition webhook_login {W} IP_String ParseIP NewRequest Do form
    (Increment : webhook_metric → list (string * string) → prog W unit) IncrementGeo waits client (l : login)
  : prog W webhookClientContext :=
  match l with
  | LoginPassword meta password =>
      webhook_Password IP_String ParseIP NewRequest Do form Increment IncrementGeo waits client meta password
  | LoginPubKey meta pubKey =>
      webhook_PubKey IP_String ParseIP NewRequest Do form Increment IncrementGeo waits client meta pubKey
  | LoginAuthorize meta =>
      webhook_Authorize IP_String ParseIP NewRequest Do form Increment IncrementGeo waits client meta
  end.

Section login.
Context {W : Type} `{!Field W (list http_Request)}.
Context (IP_String : list byte → string) (ParseIP : string → list byte).
Context (NewRequest : string → string → option error).
Context (form : json → string + error).
Context (Increment : webhook_metric → list (string * string) → prog W unit)
        (IncrementGeo : webhook_metric → list byte → list (string * string) → prog W unit).
Context (waits : Z → nat) (client : webhookClient).
(** A server answers by the requests it got so far, this one included. *)
Context (answer : list http_Request → http_Response + error).

Definition sent : http_Client → http_Request → prog W (http_Response + error) :=
  λ _ r w, let h := (fget w ++ [r])%list in Done (answer h, fset h w).

Definition login_path (l : login) : string := (wc_endpoint client ++ "/" ++ login_name l)%string.
Definition login_url (l : login) : string := (hc_URL (cl_config (wc_httpClient client)) ++ login_path l)%string.
Definition login_request (l : login) : http_Request :=
  json_request (wc_httpClient client) (login_path l) (login_document IP_String l).

(** How the client reads what the server answers after [h]. *)
Definition reading (url : string) (h : list http_Request) : outcome (ResponseBody + error) :=
  read_response ParseIP (wc_httpClient client) url (answer h).

Definition after (h : list http_Request) (req : http_Request) (n : nat) : list http_Request :=
  (h ++ replicate n req)%list.

(** The [k]-th retry is the last one: all attempts before it failed.  The call
    returns the answer to it, or a failure when no time is left.  An answer may
    also make the client panic, namely a document with an address it cannot
    read: nothing is returned then. *)
Definition ended_by (url : string) (req : http_Request) (p : ConnectionAuthPendingMetadata) (n k : nat)
    (h : list http_Request) (r : outcome (webhookClientContext * W)) : Prop :=
  (k ≤ n)%nat ∧
  (∀ i, (i < k)%nat → ∃ e, reading url (after h req (S i)) = Done (inr e)) ∧
  match reading url (after h req (S k)), r with
  | Done (inl resp), Done (c, w') =>
      fget w' = after h req (S k) ∧ c = MkWebhookContext (answered p resp) (rb_Success resp) None
  | Done (inr e), Done (c, w') =>
      fget w' = after h req (S k) ∧
      k = n ∧ wx_success c = false ∧ wx_meta c = AuthFailed p ∧ ∃ err, wx_err c = Some err ∧ Unwrap err = Some e
  | Panic why, Panic why' => why' = why
  | _, _ => False
  end.

Hypothesis json_http : json_client NewRequest (wc_httpClient client).
Hypothesis counts : ∀ m l, framed (Increment m l).
Hypothesis counts_geo : ∀ m ip l, framed (IncrementGeo m ip l).

Lemma after_S h req n : after (h ++ [req]) req n = after h req (S n).
Proof. unfold after. by rewrite <- (assoc_L app). Qed.

Lemma ended_by_retry url req p n k h r e :
  reading url (after h req 1) = Done (inr e) →
  ended_by url req p n k (h ++ [req]) r → ended_by url req p (S n) (S k) h r.
Proof.
  intros E (Hk & Hf & Hl). rewrite after_S in Hl. split_and!; [lia| |].
  - intros [|i] Hi; [by eexists|]. destruct (Hf i) as [e' He]; [lia|]. exists e'. by rewrite after_S in He.
  - destruct (reading url (after h req (S (S k)))) as [[]| |], r as [[c w']| |]; try done.
    by destruct Hl as (? & -> & Hl).
Qed.

(** Reading an answer does not block. *)
Lemma reading_unblocked url h why : reading url h ≠ Blocked why.
Proof.
  unfold reading, read_response. destruct (answer h) as [resp|err]; [|done].
  destruct (rs_Body resp) as [[j|]|err]; [|done..].
  destruct (ResponseBody_Unmarshal ParseIP _ j) as [[r|err]| |] eqn:E; [by case_decide|done..|].
  by apply ResponseBody_unblocked in E.
Qed.

(** One round: the request is sent and its answer read, whatever is counted. *)
Lemma round_sent path j w :
  authServerRequest ParseIP NewRequest sent form client path j w =
  let req := json_request (wc_httpClient client) path j in
  let h := (fget w ++ [req])%list in
  match reading (hc_URL (cl_config (wc_httpClient client)) ++ path)%string h with
  | Done (inl r) => Done ((None, Some r), fset h w)
  | Done (inr err) => Done ((Some err, None), fset h w)
  | Panic why => Panic why
  | Blocked why => Blocked why
  end.
Proof. by rewrite authServerRequest_eq. Qed.

Lemma wp_framed {A B} (c : prog W A) (f : A → prog W B) w Q :
  framed c → (∀ a w', fget w' = fget w → wp (f a) w' Q) → wp (prog_bind f c) w Q.
Proof.
  intros Hc Hf. apply wp_bind. destruct (Hc w) as (a & w' & E & Hw). unfold wp at 1. rewrite E. by apply Hf.
Qed.

(** What a loop has done when it ends. *)
Definition rounds_done (url : string) (req : http_Request) (p : ConnectionAuthPendingMetadata) (n : nat) (w : W)
    (r : outcome (webhookClientContext * W)) : Prop :=
  ∃ k, ended_by url req p n k (fget w) r.

(** The first round decides, or the rest of the loop does. *)
Lemma rounds_answered url req p n w c w' resp :
  reading url (after (fget w) req 1) = Done (inl resp) → fget w' = (fget w ++ [req])%list →
  c = MkWebhookContext (answered p resp) (rb_Success resp) None → rounds_done url req p n w (Done (c, w')).
Proof. intros E Hw ->. exists 0%nat. split_and!; [lia|lia|by rewrite E]. Qed.

Lemma rounds_given_up url req p w c w' e err :
  reading url (after (fget w) req 1) = Done (inr e) → fget w' = (fget w ++ [req])%list →
  c = MkWebhookContext (AuthFailed p) false (Some err) → Unwrap err = Some e → rounds_done url req p 0 w (Done (c, w')).
Proof.
  intros E Hw -> He. exists 0%nat. split_and!; [lia|lia|]. rewrite E. split_and!; [done..|by exists err].
Qed.

Lemma rounds_panicked url req p n w why :
  reading url (after (fget w) req 1) = Panic why → rounds_done url req p n w (Panic why).
Proof. intros E. exists 0%nat. split_and!; [lia|lia|by rewrite E]. Qed.

Lemma rounds_retried url req p n w w1 r e :
  reading url (after (fget w) req 1) = Done (inr e) → fget w1 = (fget w ++ [req])%list →
  rounds_done url req p n w1 r → rounds_done url req p (S n) w r.
Proof. intros E Hw (k & Ha). exists (S k). rewrite Hw in Ha. by eapply ended_by_retry. Qed.

(** Calls that only count let the rest go on. *)
Lemma framed_then {A B} (c : prog W A) (f : A → prog W B) w (Q : outcome (B * W) → Prop) :
  framed c → (∀ a w', fget w' = fget w → Q (f a w')) → Q (prog_bind f c w).
Proof. intros Hc Hf. destruct (Hc w) as (a & w' & E & Hw). unfold prog_bind. rewrite E. by apply Hf. Qed.

(** The two loops are alike. *)
Ltac rounds_tac IH :=
  cbn; apply framed_then; [apply counts|]; intros _ w1 Hw1; unfold prog_bind at 1; rewrite round_sent; cbn zeta;
  rewrite Hw1;
  let E := fresh "E" in
  match goal with |- context [reading ?url ?h] =>
    pose proof (reading_unblocked url h); destruct (reading url h) as [[r|e]|why|why] eqn:E;
  cbn beta iota; [ apply framed_then; [unfold logAuthResponse; by destruct (rb_Success r)|]; intros _ w2 Hw2;
    rewrite fget_fset in Hw2; by eapply rounds_answered
  | apply framed_then; [apply counts|]; intros _ w2 Hw2; rewrite fget_fset in Hw2
  | by apply rounds_panicked
  | naive_solver ] end.

Lemma auth_rounds_done n le meta method authType path j w :
  let url := (hc_URL (cl_config (wc_httpClient client)) ++ path)%string in
  let req := json_request (wc_httpClient client) path j in
  rounds_done url req meta n w
    (auth_rounds ParseIP NewRequest sent form Increment IncrementGeo client n le meta method authType path j w).
Proof.
  cbn zeta. revert le w. induction n as [|n IH]; intros le w; rounds_tac IH.
  - unfold logAndReturnPermanentFailure. apply framed_then; [apply counts|]. intros _ w3 Hw3. rewrite Hw2 in Hw3.
    by eapply rounds_given_up.
  - by eapply rounds_retried.
Qed.

Lemma authz_rounds_done n le meta path j w :
  let url := (hc_URL (cl_config (wc_httpClient client)) ++ path)%string in
  let req := json_request (wc_httpClient client) path j in
  rounds_done url req (auth_pending meta) n w
    (authz_rounds ParseIP NewRequest sent form Increment IncrementGeo client n le meta path j w).
Proof.
  cbn zeta. revert le w. induction n as [|n IH]; intros le w; rounds_tac IH.
  - unfold logAndReturnPermanentAuthzFailure. apply framed_then; [apply counts|]. intros _ w3 Hw3. rewrite Hw2 in Hw3.
    by eapply rounds_given_up.
  - by eapply rounds_retried.
Qed.

(** Claim C31. A login, or an authorization, sends the same request until the server gives
    an answer that can be read, with status 200, at most one attempt per wait
    that fits into the timeout and one more; the result is that answer, success
    and metadata; if there was none, the login fails with the last error.  So
    nobody gets in without the server having said so to this very request.  The
    one other way to end is a panic of the client, on an answer whose address
    cannot even be refused. *)
Theorem webhook_asks_until_answered l w :
  login_enabled client l = true →
  ∃ k, ended_by (login_url l) (login_request l) (login_meta l) (waits (wc_timeout client)) k (fget w)
         (webhook_login IP_String ParseIP NewRequest sent form Increment IncrementGeo waits client l w).
Proof.
  intros He. unfold webhook_login, login_url, login_request in *. destruct l as [meta pw|meta key|meta]; cbn in He.
  - unfold webhook_Password. rewrite He. by apply auth_rounds_done.
  - unfold webhook_PubKey. rewrite He. by apply auth_rounds_done.
  - unfold webhook_Authorize. rewrite He. by apply authz_rounds_done.
Qed.

(** A client that was created for another purpose refuses without asking. *)
Lemma webhook_disabled Do l w :
  login_enabled client l = false →
  wp (webhook_login IP_String ParseIP NewRequest Do form Increment IncrementGeo waits client l) w (λ c w', w' = w ∧ wx_success c = false ∧ wx_err c ≠ None).
Proof. destruct l; cbn; unfold webhook_Password, webhook_PubKey, webhook_Authorize; intros ->; by cbn. Qed.

End login.

(** ** Client and server together *)

Lemma coerce_ascii l : Forall (λ c, (nat_of_ascii c < 128)%nat) l →
  coerce_utf8 (String.string_of_list_ascii l) = String.string_of_list_ascii l.
Proof.
  induction 1 as [|c l Hc _ IH]; [done|]. cbn [String.string_of_list_ascii coerce_utf8].
  assert ((byte_code c <? 128)%N = true) as ->; [|by rewrite IH].
  apply N.ltb_lt. unfold byte_code. unfold nat_of_ascii in Hc. lia.
Qed.

Lemma base64_utf8 l : valid_utf8 (EncodeToString l).
Proof.
  apply coerce_ascii. eapply Forall_impl; [apply encode_chars|]. by intros c [_ ?].
Qed.

(** What is left out of a document does not matter for the answer. *)
Lemma answered_carried IP_String ParseIP p md s :
  answered p (MkResponseBody (carried IP_String ParseIP md) s) = answered p (MkResponseBody md s).
Proof.
  unfold answered, ConnectionAuthenticatedMetadata_Merge. rewrite !ConnectionMetadata_Merge_eq.
  destruct md as [[[a id m e f] v u] au]. cbn. unfold omit_empty, or_empty.
  destruct m as [m|], e as [e|], f as [f|]; repeat case_decide; by simplify_eq/=.
Qed.

Section exchange.
Context {W : Type}.
Context (IP_String : list byte → string) (ParseIP : string → list byte).
Context (NewRequest : string → string → option error).
Context (form : json → string + error).
Context (Increment : webhook_metric → list (string * string) → prog W unit)
        (IncrementGeo : webhook_metric → list byte → list (string * string) → prog W unit).
Context (waits : Z → nat) (client : webhookClient).
Context {float : Type} (one : float) (greater : float → float → bool) (ParseFloat : string → option float).
(** The path in a URL, and the operator's code. *)
Context (path_of : string → string) (operator : auth_Handler W).

(** A network that delivers: the request is what the server's handler sees, the
    first status and the body it writes are the response. *)
Definition received (r : http_Request) : server_request :=
  MkServerRequest (path_of (rq_URL r)) (rq_Header r)
    (inl (match rq_Body r with Document j => Some j | _ => None end)).

Definition response_from (rw : ResponseWriter) : http_Response :=
  MkHttpResponse (match rw_sent rw with Some (code, _) => code | None => 200 end)
    (inl (match rw_body rw with Document j :: _ => Some j | _ => None end)).

Definition delivered : http_Client → http_Request → prog W (http_Response + error) :=
  λ _ r, let* rw := auth_ServeHTTP IP_String ParseIP one greater ParseFloat operator (received r) new_writer in
         prog_ret (inl (response_from rw)).

(** What the operator's code is asked about a login. *)
Definition asked (l : login) : prog W (bool * ConnectionAuthenticatedMetadata * option error) :=
  match l with
  | LoginPassword meta password => OnPassword operator (carried_pending IP_String ParseIP meta) password
  | LoginPubKey meta pubKey => OnPubKey operator (carried_pending IP_String ParseIP meta) pubKey
  | LoginAuthorize meta => OnAuthorization operator (carried IP_String ParseIP meta)
  end.

(** The login can be put into a document: its strings are UTF-8 and its address
    can be read back. *)
Definition transportable (l : login) : Prop :=
  utf8_pending (login_meta l) ∧ readable_address IP_String (RemoteAddr (pending_conn (login_meta l))) ∧
  match l with
  | LoginPassword _ _ => True
  | LoginPubKey _ pubKey => valid_utf8 pubKey
  | LoginAuthorize meta => valid_utf8 (AuthenticatedUsername meta)
  end.

Hypothesis json_http : json_client NewRequest (wc_httpClient client).
Hypothesis strict_http : cl_allowLaxDecoding (wc_httpClient client) = false.
Hypothesis paths : ∀ l, last (Split (path_of (login_url client l)) "/"%char) = Some (login_name l).

Abbreviation request_of l := (login_request IP_String client l).

(** The handler negotiates JSON with this client. *)
Lemma accepts_json (h : RequestHandler W) :
  findMarshaller one greater ParseFloat (NewServerHandler h) (json_headers (wc_httpClient client))
  = (Some jsonMarshaller, "application/json", 200).
Proof.
  unfold findMarshaller. assert (Header_Get "Accept" (json_headers (wc_httpClient client)) = "application/json") as ->.
  { unfold Header_Get, json_headers, Header_Set. by rewrite lookup_insert_eq. }
  rewrite decide_False by done. reflexivity.
Qed.

Definition verdict_response (md : ConnectionAuthenticatedMetadata) (success : bool) (status : Z) : http_Response :=
  MkHttpResponse status (inl (Some (ResponseBody_Marshal IP_String (MkResponseBody md success)))).

(** The response to a request whose handler asks [op]. *)
Definition verdict_of (fail : ConnectionAuthenticatedMetadata → ConnectionAuthenticatedMetadata)
    (r : bool * ConnectionAuthenticatedMetadata * option error) : http_Response :=
  match r with
  | (success, md, None) => verdict_response md success 200
  | (_, md, Some _) => verdict_response (fail md) false 500
  end.

Lemma serve_verdict (h : RequestHandler W) req op fail w :
  sr_Header req = json_headers (wc_httpClient client) →
  h req (MkServerResponse 200 nil_body) w =
  (let* '(success, md, err) := op in
   match err with
   | Some _ => prog_ret (MkServerResponse 500 (response_of IP_String (fail md) false), None)
   | None => prog_ret (MkServerResponse 200 (response_of IP_String md success), None)
   end) w →
  (let* rw := ServeHTTP one greater ParseFloat (NewServerHandler h) req new_writer in
   prog_ret (inl (response_from rw))) w
  = (let* r := op in prog_ret (inl (verdict_of fail r) : _ + error)) w.
Proof.
  intros Hh E. unfold ServeHTTP, prog_bind in *. cbn [requestHandler NewServerHandler] in *.
  rewrite E, Hh, accepts_json. destruct (op w) as [[[[s md] [err|]] w']| |]; reflexivity.
Qed.

(** Every document of a login is read back by the server. *)
Lemma password_read meta password :
  utf8_pending meta → readable_address IP_String (RemoteAddr (pending_conn meta)) →
  PasswordAuthRequest_Unmarshal ParseIP
    (PasswordAuthRequest_Marshal IP_String (MkPasswordAuthRequest meta (EncodeToString password)))
  = Done (inl (MkPasswordAuthRequest (carried_pending IP_String ParseIP meta) (EncodeToString password))).
Proof.
  intros Hu Ha. unfold PasswordAuthRequest_Unmarshal, PasswordAuthRequest_Marshal. cbn [struct_Unmarshal pw_meta pw_Password].
  rewrite pending_roundtrip by (done || by repeat constructor). rewrite member_app.
  pose proof (base64_utf8 password) as E. unfold valid_utf8 in E. by rewrite E.
Qed.

Lemma key_read meta pubKey :
  utf8_pending meta → readable_address IP_String (RemoteAddr (pending_conn meta)) → valid_utf8 pubKey →
  PublicKeyAuthRequest_Unmarshal ParseIP (PublicKeyAuthRequest_Marshal IP_String (MkPublicKeyAuthRequest meta pubKey))
  = Done (inl (MkPublicKeyAuthRequest (carried_pending IP_String ParseIP meta) pubKey)).
Proof.
  intros Hu Ha E. unfold PublicKeyAuthRequest_Unmarshal, PublicKeyAuthRequest_Marshal. cbn [struct_Unmarshal pk_meta pk_PublicKey].
  rewrite pending_roundtrip by (done || by repeat constructor). rewrite member_app. unfold valid_utf8 in E. by rewrite E.
Qed.

Lemma authorization_read meta :
  utf8_metadata meta → readable_address IP_String (RemoteAddr (pending_conn (auth_pending meta))) →
  AuthorizationRequest_Unmarshal ParseIP (AuthorizationRequest_Marshal IP_String (MkAuthorizationRequest meta))
  = Done (inl (MkAuthorizationRequest (carried IP_String ParseIP meta))).
Proof.
  intros Hu Ha. unfold AuthorizationRequest_Unmarshal, AuthorizationRequest_Marshal. cbn [struct_Unmarshal az_meta].
  rewrite <- (app_nil_r (authenticated_members IP_String meta)).
  by rewrite authenticated_roundtrip by (done || by repeat constructor).
Qed.

(** What the server responds when the operator's code fails. *)
Definition failure_meta (l : login) (md : ConnectionAuthenticatedMetadata) : ConnectionAuthenticatedMetadata :=
  match l with LoginAuthorize meta => carried IP_String ParseIP meta | _ => md end.

(** Delivering a login is asking the operator's code. *)
Lemma delivered_login hc l w :
  transportable l →
  delivered hc (request_of l) w = (let* r := asked l in prog_ret (inl (verdict_of (failure_meta l) r) : _ + error)) w.
Proof.
  intros (Hu & Ha & Hx). pose proof (paths l) as Hp. unfold delivered, auth_ServeHTTP.
  assert (sr_Path (received (request_of l)) = path_of (login_url client l)) as -> by done. rewrite Hp.
  destruct l as [meta pw|meta key|meta]; cbn [login_name asked]; apply serve_verdict; try done.
  - unfold passwordHandler_OnRequest, of_outcome, Decode, prog_bind.
    cbn [sr_Body received rq_Body json_request login_request login_document].
    rewrite password_read by done. cbn [pw_Password pw_meta]. by rewrite base64_roundtrip.
  - unfold pubKeyHandler_OnRequest, of_outcome, Decode, prog_bind.
    cbn [sr_Body received rq_Body json_request login_request login_document]. by rewrite key_read by done.
  - unfold authzHandler_OnRequest, of_outcome, Decode, prog_bind.
    cbn [sr_Body received rq_Body json_request login_request login_document].
    by rewrite authorization_read by done.
Qed.

(** What the client reads from a response. *)
Lemma success_member md success : member "success" (authenticated_members IP_String md ++ [("success", JBool success)])
  = Some (JBool success).
Proof. by rewrite member_app. Qed.

Lemma response_read md success :
  utf8_metadata md → readable_address IP_String (RemoteAddr (pending_conn (auth_pending md))) →
  known_members (authenticated_members IP_String md ++ [("success", JBool success)]) = true →
  ResponseBody_Unmarshal ParseIP true (ResponseBody_Marshal IP_String (MkResponseBody md success))
  = Done (inl (MkResponseBody (carried IP_String ParseIP md) success)).
Proof.
  intros Hu Ha Hk. unfold ResponseBody_Unmarshal, ResponseBody_Marshal. cbn [struct_Unmarshal rb_meta rb_Success].
  rewrite authenticated_roundtrip by (done || by repeat constructor).
  rewrite success_member. cbn [and_field sum_bind read_bool]. by rewrite Hk.
Qed.

Lemma response_success strict md success r :
  ResponseBody_Unmarshal ParseIP strict (ResponseBody_Marshal IP_String (MkResponseBody md success)) = Done (inl r) →
  rb_Success r = success.
Proof.
  unfold ResponseBody_Unmarshal, ResponseBody_Marshal. cbn [struct_Unmarshal rb_meta rb_Success]. rewrite success_member.
  destruct (authenticated_Unmarshal ParseIP _) as [[m|e]| |]; cbn [and_field sum_bind read_bool]; try done.
  intros H. by destruct (strict && _)%bool; simplify_eq.
Qed.

(** The documents of the server have no members the client does not know. *)
Lemma map_known {A} (f : A → json) name m :
  has_name response_names name = true → (∀ v, known_value (f v) = true) → known_members (map_Marshal name f m) = true.
Proof.
  intros Hn Hf. destruct m as [m|]; [|done]. unfold map_Marshal. case_decide; [done|].
  unfold known_members. cbn [forallb fst snd]. rewrite Hn. cbn [andb].
  destruct (has_name map_names name); [|done]. rewrite andb_true_r.
  induction (map_to_list m) as [|[k v] l IH]; [done|]. cbn. by rewrite Hf, IH.
Qed.

Lemma response_known md success : known_members (authenticated_members IP_String md ++ [("success", JBool success)]) = true.
Proof.
  unfold known_members, authenticated_members, pending_members. rewrite !forallb_app.
  pose proof (@map_known) as Hm. unfold known_members in Hm. rewrite !Hm by (done || by intros []).
  case_decide; done.
Qed.

Abbreviation Login := (webhook_login IP_String ParseIP NewRequest delivered form Increment IncrementGeo waits client).
Abbreviation reads := (read_response ParseIP (wc_httpClient client)).

(** Claim C32. What the operator's code says arrives at the client. *)
Theorem operator_verdict_arrives l success md w w' :
  (∀ m labels w, Increment m labels w = Done (tt, w)) → (∀ m ip labels w, IncrementGeo m ip labels w = Done (tt, w)) →
  login_enabled client l = true → transportable l →
  utf8_metadata md → readable_address IP_String (RemoteAddr (pending_conn (auth_pending md))) →
  asked l w = Done ((success, md, None), w') →
  Login l w = Done (MkWebhookContext (answered (login_meta l) (MkResponseBody md success)) success None, w').
Proof.
  intros Hi Hg He Ht Hu Ha E.
  assert (∀ hc url, ∃ resp, delivered hc (request_of l) w = Done (resp, w') ∧
    reads url resp = Done (inl (MkResponseBody (carried IP_String ParseIP md) success))) as Hd.
  { intros hc url. rewrite delivered_login by done. unfold prog_bind. rewrite E. eexists. split; [reflexivity|].
    cbn [reads verdict_of verdict_response rs_Body rs_StatusCode read_response]. rewrite strict_http. cbn [negb].
    by rewrite response_read by (done || apply response_known). }
  rewrite <- (answered_carried IP_String ParseIP).
  destruct l as [meta pw|meta key|meta]; cbn in He |- *;
    unfold webhook_Password, webhook_PubKey, webhook_Authorize, processAuthWithRetry, processAuthzWithRetry; rewrite He; cbn [negb];
    destruct (waits (wc_timeout client)); cbn [auth_rounds authz_rounds];
    unfold logAttempt; rewrite (bind_done _ _ _ _ _ (Hi _ _ _)); unfold prog_bind at 1;
    rewrite authServerRequest_eq by done;
    match goal with |- context [delivered ?hc ?r w] =>
      match goal with |- context [read_response _ _ ?u _] =>
        destruct (Hd hc u) as (resp & E1 & E2); change (delivered hc r w = Done (resp, w')) in E1; rewrite E1, E2
      end end;
    cbv iota; unfold logAuthResponse; cbn [rb_Success]; destruct success; by rewrite (bind_done _ _ _ _ _ (Hg _ _ _ _)).
Qed.

(** Whatever the network is, the client reports success only for an answer that
    says so, to the request it sent. *)
Definition said_yes (Do : http_Client → http_Request → prog W (http_Response + error)) (url : string) (req : http_Request)
    (c : webhookClientContext) : Prop :=
  wx_success c = true →
  ∃ w1 resp w2 r, Do (createHTTPClient (wc_httpClient client)) req w1 = Done (resp, w2) ∧
    reads url resp = Done (inl r) ∧ rb_Success r = true.

Ltac success_tac IH :=
  cbn; apply wlp_bind; unfold wlp at 1; case_match; [|done..]; case_match;
  apply wlp_bind; unfold wlp at 1; rewrite authServerRequest_eq by done;
  let E := fresh "E" in
  destruct (_ (createHTTPClient _) _ _) as [[resp w2]| |] eqn:E; [|done..];
  let E' := fresh "E" in destruct (reads _ resp) as [[r|e]| |] eqn:E'; [| |done..];
  [ apply wlp_bind; unfold wlp at 1; case_match; [|done..]; case_match; apply wlp_ret; intros Hs; by eexists _, _, _, _
  | apply wlp_bind; unfold wlp at 1; case_match; [|done..]; case_match ].

Lemma auth_rounds_success Do n le meta method authType path j w :
  wlp (auth_rounds ParseIP NewRequest Do form Increment IncrementGeo client n le meta method authType path j) w
    (λ c _, said_yes Do (hc_URL (cl_config (wc_httpClient client)) ++ path) (json_request (wc_httpClient client) path j) c).
Proof.
  revert le w. induction n as [|n IH]; intros le w; success_tac IH; [|apply IH].
  unfold logAndReturnPermanentFailure. apply wlp_bind. unfold wlp at 1. case_match; [|done..]. by case_match.
Qed.

Lemma authz_rounds_success Do n le meta path j w :
  wlp (authz_rounds ParseIP NewRequest Do form Increment IncrementGeo client n le meta path j) w
    (λ c _, said_yes Do (hc_URL (cl_config (wc_httpClient client)) ++ path) (json_request (wc_httpClient client) path j) c).
Proof.
  revert le w. induction n as [|n IH]; intros le w; success_tac IH; [|apply IH].
  unfold logAndReturnPermanentAuthzFailure. apply wlp_bind. unfold wlp at 1. case_match; [|done..]. by case_match.
Qed.

Lemma login_success Do l w c w' :
  webhook_login IP_String ParseIP NewRequest Do form Increment IncrementGeo waits client l w = Done (c, w') →
  said_yes Do (login_url client l) (request_of l) c.
Proof.
  destruct l as [meta pw|meta key|meta]; cbn; unfold webhook_Password, webhook_PubKey, webhook_Authorize.
  - destruct (enablePassword client); cbn [negb]; [|by intros [= <- <-]].
    intros E. exact (wlp_done _ _ _ _ _ (auth_rounds_success Do _ _ _ _ _ _ _ _) E).
  - destruct (enablePubKey client); cbn [negb]; [|by intros [= <- <-]].
    intros E. exact (wlp_done _ _ _ _ _ (auth_rounds_success Do _ _ _ _ _ _ _ _) E).
  - destruct (enableAuthz client); cbn [negb]; [|by intros [= <- <-]].
    intros E. exact (wlp_done _ _ _ _ _ (authz_rounds_success Do _ _ _ _ _ _) E).
Qed.

(** The operator's code accepted the login. *)
Definition operator_accepted (l : login) : Prop :=
  ∃ w1 md w2, asked l w1 = Done ((true, md, None), w2).

Lemma login_accepted_by_operator l w c w' :
  transportable l → Login l w = Done (c, w') → wx_success c = true → operator_accepted l.
Proof.
  intros Ht E Hs. destruct (login_success _ _ _ _ _ E Hs) as (w1 & resp & w2 & r & Hd & Hr & Hy).
  rewrite delivered_login in Hd by done. unfold prog_bind in Hd.
  destruct (asked l w1) as [[[[s md] err] w3]| |] eqn:Ea; [|done..]. injection Hd as <- <-.
  destruct err as [err|]; cbn [read_response verdict_of verdict_response rs_Body rs_StatusCode] in Hr;
    (destruct (ResponseBody_Unmarshal _ _ _) as [[r'|]| |] eqn:Eu; [|done..]); [done|]. injection Hr as <-.
  apply response_success in Eu. rewrite Hy in Eu. subst s. by exists w1, md, w3.
Qed.

(** Claim C6. Nobody gets in whom the operator's code has not accepted: in a chain whose
    password or key authenticator is the webhook client, a password or key is
    only accepted if the operator's code, asked about this user with this
    password or key, said yes; whatever the backend, the authorization provider,
    the counters and the operator's code do. *)
Theorem operator_decides_logins `{!Field W (option AuthenticationContext)} `{!Field W (option AuthorizationResponse)}
    (ctx_OnDisconnect : nat → prog W unit) (h : authIntegration W) ref b meta w m err w' :
  ai_behavior h = BehaviorNoPassthrough → utf8_pending meta →
  readable_address IP_String (RemoteAddr (pending_conn meta)) →
  (∀ password,
     ai_password h = Some (webhook_passwords IP_String ParseIP NewRequest delivered form Increment IncrementGeo waits client ref) →
     OnAuthPassword (connection_chain ctx_OnDisconnect h b) meta password w = Done ((AuthResponseSuccess, m, err), w') →
     operator_accepted (LoginPassword meta password)) ∧
  (∀ pubKey,
     valid_utf8 pubKey →
     ai_publicKey h = Some (webhook_keys IP_String ParseIP NewRequest delivered form Increment IncrementGeo waits client ref) →
     OnAuthPubKey (connection_chain ctx_OnDisconnect h b) meta pubKey w = Done ((AuthResponseSuccess, m, err), w') →
     operator_accepted (LoginPubKey meta pubKey)).
Proof.
  intros Hb Hu Ha. split.
  - intros password Hp E.
    destruct (chain_login ctx_OnDisconnect h b b meta (AttemptPassword password) w m err w' Hb E)
      as (_ & auth & w1 & ctx & w2 & H1 & H2 & H3 & _).
    cbn in H1. rewrite Hp in H1. injection H1 as <-. unfold webhook_passwords, prog_bind in H2.
    destruct (webhook_Password _ _ _ _ _ _ _ _ _ _ _ w1) as [[c w3]| |] eqn:Ec; [|done..]. injection H2 as <- <-.
    by eapply (login_accepted_by_operator (LoginPassword meta password)).
  - intros pubKey Hk Hp E.
    destruct (chain_login ctx_OnDisconnect h b b meta (AttemptPubKey pubKey) w m err w' Hb E)
      as (_ & auth & w1 & ctx & w2 & H1 & H2 & H3 & _).
    cbn in H1. rewrite Hp in H1. injection H1 as <-. unfold webhook_keys, prog_bind in H2.
    destruct (webhook_PubKey _ _ _ _ _ _ _ _ _ _ _ w1) as [[c w3]| |] eqn:Ec; [|done..]. injection H2 as <- <-.
    by eapply (login_accepted_by_operator (LoginPubKey meta pubKey)).
Qed.
End exchange.

(** ** Deviations *)

(** A request that accepts no type the server has, or whose [Accept] header
    cannot be parsed, is not answered with 406 or 400: the handler goes on with
    no marshaller and panics.  And the type of a response is never sent, because
    it is set after the status. *)
Theorem unacceptable_requests_panic {W float} (one : float) greater ParseFloat (h : http_handler W) request writer w r w' :
  requestHandler h request (MkServerResponse 200 nil_body) w = Done (r, w') →
  ((findMarshaller one greater ParseFloat h (sr_Header request)).1.1 = None →
   ServeHTTP one greater ParseFloat h request writer w = Panic nil_pointer) ∧
  (∀ rw w2, rw_sent writer = None → ServeHTTP one greater ParseFloat h request writer w = Done (rw, w2) →
   ∃ code, rw_sent rw = Some (code, rw_header writer)).
Proof.
  intros E. destruct r as [response err]. unfold ServeHTTP. rewrite (bind_done _ _ _ _ _ E).
  destruct (findMarshaller one greater ParseFloat h (sr_Header request)) as [[[m|] ty] st] eqn:Em; cbn.
  - split; [done|]. intros rw w2 Hs. unfold prog_bind, of_outcome. destruct (Marshaller_Marshal _ _) as [[bytes|e]| |]; try done.
    all: intros [= <- <-]; cbn; case_decide; cbn; rewrite Hs; by eexists.
  - done.
Qed.

(** The name that authentication found is lost by an authorization server that
    does not repeat it, although the metadata of the authentication is
    documented to be kept. *)
Theorem authorization_forgets_username meta r :
  AuthenticatedUsername (rb_meta r) = "" → AuthenticatedUsername (answered (auth_pending meta) r) = "".
Proof. intros E. unfold answered, ConnectionAuthenticatedMetadata_Merge. cbn. by rewrite E. Qed.

(** Running a server that already runs returns with the lock held: the running
    server can then no longer be shut down. *)
Theorem second_run_blocks_shutdown {W} `{!Field W http_server} Listen Serve Close_listener Shutdown Running onReady config tls w :
  fget w = MkHttpServer false true →
  ∃ w', server_RunWithLifecycle Listen Serve Close_listener Running onReady config tls w
        = Done (Some (ErrorString "server is already running"), w') ∧
    server_stopped Shutdown w' = Blocked "server.lock".
Proof.
  intros E. unfold server_RunWithLifecycle, server_Lock, srv, srv_put, prog_bind. rewrite E. cbn.
  rewrite fget_fset. cbn. eexists. split; [reflexivity|].
  unfold server_stopped, server_Lock, srv, prog_bind. by rewrite fget_fset.
Qed.

(** ** An instance *)

Module webhook_demo.
Definition http_config : HTTPClientConfiguration :=
  MkHTTPClientConfiguration "https://auth.example.com" false (2 * Second) "" "" "" "1.2" [] [] "JSON".
Definition webhook : webhookClient :=
  MkWebhookClient (60 * Second) (MkClient http_config None [] false) "" true true true.
Definition waits (timeout : Z) : nat := Z.to_nat (timeout / (10 * Second)).
Definition parses (method url : string) : option error := None.
Definition no_form (j : json) : string + error := inr (ErrorString "no form").

Lemma webhook_json : json_client parses (wc_httpClient webhook).
Proof. by split; [right|]. Qed.

Definition alice : ConnectionAuthPendingMetadata := auth_pending demo_authenticated.
Definition secret : list byte := String.list_byte_of_string "secret".

Lemma alice_utf8 : utf8_pending alice.
Proof. apply demo_authenticated_utf8. Qed.

(** A server that is down for the first request. *)
Definition server (h : list http_Request) : http_Response + error :=
  if decide (length h = 1%nat) then inr (ErrorString "connection refused")
  else inl (MkHttpResponse 200 (inl (Some (ResponseBody_Marshal demo_IP_String (MkResponseBody demo_authenticated true))))).

Definition uncounted {W} (_ : webhook_metric) (_ : list (string * string)) : prog W unit := prog_ret tt.
Definition uncounted_geo {W} (_ : webhook_metric) (_ : list byte) (_ : list (string * string)) : prog W unit := prog_ret tt.

Definition password_login : login := LoginPassword alice secret.
Definition first_attempts : list http_Request := [].

Lemma webhook_asks_until_answered_witness :
  ∃ k, ended_by demo_ParseIP webhook server (login_url webhook password_login)
         (login_request demo_IP_String webhook password_login) (login_meta password_login)
         (waits (wc_timeout webhook)) k first_attempts
         (webhook_login demo_IP_String demo_ParseIP parses (sent server) no_form uncounted uncounted_geo waits webhook
            password_login first_attempts).
Proof.
  refine (webhook_asks_until_answered demo_IP_String demo_ParseIP parses no_form uncounted uncounted_geo waits webhook server
           webhook_json _ _ password_login first_attempts eq_refl).
  - intros m l. apply framed_ret.
  - intros m ip l. apply framed_ret.
Defined.

(** An operator who knows one user. *)
Abbreviation store := (option AuthenticationContext * option AuthorizationResponse)%type.
Definition operator : auth_Handler store := {|
  OnPassword := λ meta password,
    prog_ret (bool_decide (Username meta = "alice" ∧ password = secret), demo_authenticated, None);
  OnPubKey := λ meta _, prog_ret (false, demo_authenticated, None);
  OnAuthorization := λ meta, prog_ret (false, meta, None) |}.

Abbreviation network := (delivered demo_IP_String demo_ParseIP 1%Z Z.gtb (λ _ : string, None) (λ url : string, url) operator).

Lemma webhook_paths l : last (Split (login_url webhook l) "/"%char) = Some (login_name l).
Proof. by destruct l. Qed.

Lemma operator_verdict_arrives_witness :
  webhook_login demo_IP_String demo_ParseIP parses network no_form uncounted uncounted_geo waits webhook password_login (None, None)
  = Done (MkWebhookContext (answered alice (MkResponseBody demo_authenticated true)) true None, (None, None)).
Proof.
  apply (operator_verdict_arrives demo_IP_String demo_ParseIP parses no_form uncounted uncounted_geo waits webhook
           1%Z Z.gtb (λ _ : string, None) (λ url : string, url) operator webhook_json eq_refl webhook_paths).
  - reflexivity.
  - reflexivity.
  - reflexivity.
  - split_and!; [apply alice_utf8 | apply demo_address_readable | done].
  - apply demo_authenticated_utf8.
  - apply demo_address_readable.
  - vm_compute. reflexivity.
Defined.

Definition chain : authIntegration store :=
  MkAuthIntegration _ None
    (Some (webhook_passwords demo_IP_String demo_ParseIP parses network no_form uncounted uncounted_geo waits webhook 0))
    (Some (webhook_keys demo_IP_String demo_ParseIP parses network no_form uncounted uncounted_geo waits webhook 0))
    None None None BehaviorNoPassthrough.

Lemma operator_decides_logins_witness :
  operator_accepted demo_IP_String demo_ParseIP operator (LoginPassword alice secret).
Proof.
  refine (proj1 (operator_decides_logins demo_IP_String demo_ParseIP parses no_form uncounted uncounted_geo waits webhook
           1%Z Z.gtb (λ _ : string, None) (λ url : string, url) operator webhook_json webhook_paths
           (λ _, prog_ret tt) chain 0 nil_NetworkConnectionHandler alice (None, None)
           (answered alice (MkResponseBody demo_authenticated true)) None _ eq_refl alice_utf8 demo_address_readable)
           secret eq_refl _).
  vm_compute. reflexivity.
Defined.

Definition ping : http_handler unit := NewServerHandler (λ _ r, prog_ret (r, None)).
Definition wants_html : server_request :=
  MkServerRequest "/" (Header_Set "Accept" "text/html" ∅) (inl None).

Lemma unacceptable_requests_panic_witness :
  ServeHTTP 1%Z Z.gtb (λ _, None) ping wants_html new_writer tt = Panic nil_pointer.
Proof.
  apply (unacceptable_requests_panic 1%Z Z.gtb (λ _, None) ping wants_html new_writer tt
           (MkServerResponse 200 nil_body, None) tt eq_refl).
  vm_compute. reflexivity.
Defined.

Lemma authorization_forgets_username_witness :
  AuthenticatedUsername demo_authenticated = "alice" ∧
  AuthenticatedUsername (answered (auth_pending demo_authenticated) (MkResponseBody (AuthFailed alice) true)) = "".
Proof. split; [reflexivity|]. by apply (authorization_forgets_username demo_authenticated). Defined.

Lemma second_run_blocks_shutdown_witness :
  ∃ w', server_RunWithLifecycle (λ _, prog_ret None) (λ _, prog_ret None) (prog_ret tt) (prog_ret tt) (λ _, prog_ret tt)
          (MkHTTPServerConfiguration "0.0.0.0:8080" "" "" "" "1.2" [] []) None (MkHttpServer false true)
        = Done (Some (ErrorString "server is already running"), w') ∧
    server_stopped (prog_ret tt) w' = Blocked "server.lock".
Proof. by apply (second_run_blocks_shutdown (W:=http_server)). Defined.
End webhook_demo.
