(* ===== verification/Requests.v ===== *)
(** * Calling other systems

    Retry loops with a context, as the backends use them for Docker, Kubernetes
    and object storage, and the reasoning about the requests a call makes. *)

From stdpp Require Import base gmap strings list.
From S2P Require Import Prelude Messages.

(** ** Retrying

    A context with a deadline allows a number of waits before it is done, which
    depends on the time the calls take.  A context without one never ends; of a
    loop that waits on it, the given number of rounds is looked at. *)
Inductive ctx := Deadline (waits : nat) | Background (waits : nat).

(** One round of a retry loop: it returns from the function, or fails. *)
Inductive verdict (A : Type) := Return (a : A) | Again (lastError : error).
Arguments Return {A} a.
Arguments Again {A} lastError.

Fixpoint retry_loop {W A} (waits : nat) (round : prog W (verdict A)) (out_of_time : error → prog W A) : prog W A :=
  let* v := round in
  match v with
  | Return a => prog_ret a
  | Again lastError =>
      match waits with
      | 0%nat => out_of_time lastError
      | S waits => retry_loop waits round out_of_time
      end
  end.

Definition retry {W A} (c : ctx) (round : prog W (verdict A)) (out_of_time : error → prog W A) : prog W A :=
  match c with
  | Deadline waits => retry_loop waits round out_of_time
  | Background waits => retry_loop waits round (λ _, block "retrying")
  end.

Definition UserMessageInitializeSSHSession : string := "Failed to initialize SSH session.".

(** A loop with a deadline returns when each of its rounds does; it makes at most
    one round more than there are waits. *)
Lemma wp_retry {W A} (I : nat → W → Prop) (Q : A → W → Prop) round out_of_time waits w :
  (∀ n w, I n w → wp round w (λ v w', match v with
     | Return a => Q a w'
     | Again e => match n with 0%nat => wp (out_of_time e) w' Q | S n => I n w' end end)) →
  I waits w → wp (retry_loop waits round out_of_time) w Q.
Proof.
  intros H. revert w. induction waits as [|n IH]; intros w HI; cbn; apply wp_bind;
    (eapply wp_mono; [by apply H|]); intros [a|e] w' HQ; cbn; auto.
Qed.

Lemma wlp_retry {W A} (I : W → Prop) (Q : A → W → Prop) round out_of_time c w :
  (∀ w, I w → wlp round w (λ v w', match v with Return a => Q a w' | Again e => I w' ∧ wlp (out_of_time e) w' Q end)) →
  I w → wlp (retry c round out_of_time) w Q.
Proof.
  intros H HI.
  assert (∀ n out_of_time', (∀ e w, wlp (out_of_time e) w Q → wlp (out_of_time' e) w Q) →
    wlp (retry_loop n round out_of_time') w Q) as Hn.
  { intros n out_of_time' Hg. revert w HI. induction n as [|n IH]; intros w HI; cbn; apply wlp_bind;
      (eapply wlp_mono; [by apply H|]); intros [a|e] w' HQ; cbn; auto; destruct HQ; auto. }
  destruct c; cbn; apply Hn; [done|]. by intros.
Qed.

(** Loops that hand something on from round to round: a round returns from the
    function ([inl]) or goes on with [inr]. *)
Fixpoint rounds {W A S} (waits : nat) (round : S → prog W (A + S)) (out_of_time : S → prog W A) (s : S) : prog W A :=
  let* r := round s in
  match r with
  | inl a => prog_ret a
  | inr s =>
      match waits with
      | 0%nat => out_of_time s
      | S waits => rounds waits round out_of_time s
      end
  end.

Definition loop {W A S} (c : ctx) (round : S → prog W (A + S)) (out_of_time : S → prog W A) (s : S) : prog W A :=
  match c with
  | Deadline waits => rounds waits round out_of_time s
  | Background waits => rounds waits round (λ _, block "retrying") s
  end.

Lemma wlp_loop {W A S} (I : S → W → Prop) (Q : A → W → Prop) round out_of_time c s w :
  (∀ s w, I s w → wlp (round s) w (λ r w', match r with inl a => Q a w' | inr s => I s w' end)) →
  (∀ s w, I s w → wlp (out_of_time s) w Q) →
  I s w → wlp (loop c round out_of_time s) w Q.
Proof.
  intros Hr Ho HI.
  assert (∀ n out s w, (∀ s w, I s w → wlp (out s) w Q) → I s w → wlp (rounds n round out s) w Q) as Hn.
  { clear s w HI. intros n out. induction n as [|n IH]; intros s w Hout HI; cbn; apply wlp_bind;
      (eapply wlp_mono; [by apply Hr|]); intros [a|s'] w' H; cbn; auto. }
  destruct c; cbn; apply Hn; auto. by intros.
Qed.

(** A loop whose first round returns. *)
Lemma loop_first {W A S} (c : ctx) (round : S → prog W (A + S)) out s (w : W) a w' :
  round s w = Done (inl a, w') → loop c round out s w = Done (a, w').
Proof. intros Hr. destruct c as [[]|[]]; cbn; unfold prog_bind; by rewrite Hr. Qed.

(** ** What a call preserves

    [keeps R c]: whatever [c] does, if it returns, the store afterwards is related
    to the store before by [R]. *)
Definition keeps {W A} (R : relation W) (c : prog W A) : Prop := ∀ w, wlp c w (λ _ w', R w w').

Section keeps.
Context {W : Type} (R : relation W) `{!PreOrder R}.

Lemma call_keeps_ret {A} (a : A) : keeps R (prog_ret a).
Proof. intros w. cbn. reflexivity. Qed.
Lemma keeps_panic {A} why : keeps R (panic (A:=A) why).
Proof. done. Qed.
Lemma keeps_block {A} why : keeps R (block (A:=A) why).
Proof. done. Qed.

Lemma call_keeps_bind {A B} (f : A → prog W B) c : keeps R c → (∀ a, keeps R (f a)) → keeps R (prog_bind f c).
Proof.
  intros Hc Hf w. apply wlp_bind. eapply wlp_mono; [apply Hc|]. intros a w1 H1.
  eapply wlp_mono; [apply Hf|]. intros b w2 H2. by transitivity w1.
Qed.

Lemma keeps_retry {A} c (round : prog W (verdict A)) out_of_time :
  keeps R round → (∀ e, keeps R (out_of_time e)) → keeps R (retry c round out_of_time).
Proof.
  intros Hr Hg.
  assert (∀ n g, (∀ e, keeps R (g e)) → keeps R (retry_loop n round g)) as Hl.
  { intros n g Hg'. induction n as [|n IH]; cbn; (apply call_keeps_bind; [done|]); intros [a|e]; cbn; auto using call_keeps_ret. }
  destruct c; cbn; apply Hl; [done|]. intros e. apply keeps_block.
Qed.

Lemma keeps_range {A} (l : list A) f : (∀ x, keeps R (f x)) → keeps R (range l f).
Proof. intros H. induction l as [|x l IH]; cbn; [apply call_keeps_ret|]. by apply call_keeps_bind. Qed.
End keeps.

(** Opens the code of a call down to the calls known to the hints of [keeps]. *)
Create HintDb keeps.
Ltac keeps_step :=
  match goal with
  | |- keeps _ (prog_ret _) => apply call_keeps_ret; apply _
  | |- keeps _ (panic _) => apply keeps_panic
  | |- keeps _ (block _) => apply keeps_block
  | |- keeps _ (prog_bind _ _) => apply call_keeps_bind; [apply _| |intros]
  | |- keeps _ (retry _ _ _) => apply keeps_retry; [apply _| |intros]
  | |- keeps _ (range _ _) => apply keeps_range; [apply _|intros]
  | |- keeps _ (match ?x with _ => _ end) => destruct x
  | |- keeps _ (if ?x then _ else _) => destruct x
  end.
Ltac keeps_steps := repeat first [progress keeps_step | solve [eauto with keeps]].
