(* ===== verification/OAuth2.v ===== *)
(** * Authentication by OAuth2

    [internal/auth/oauth2*.go], [oidc_discovery.go]: the keyboard-interactive
    authenticator that sends the user to an OAuth2 server, with its providers
    (GitHub, OpenID Connect, generic) and their flows, and the page the server
    redirects the user to. *)

From stdpp Require Import base gmap strings list pretty sorting.
From Stdlib Require Import Ascii.
From S2P Require Import Prelude Base64 Messages Metadata MetadataJSON Handler GoStrings ConfigHTTP ConfigAuth Http.
From S2P Require Import Requests AuthIntegration.

Local Open Scope Z_scope.

(** ** Structs that are read from JSON

    The fields of a struct that have been set, by their names.  A value that does
    not fit its field is an error, and the fields after it are read all the same;
    [null] clears a pointer and leaves other fields alone. *)
Inductive field_kind := KString | KInt | KUint | KBoolPointer.

Definition read_int (text : string) : option Z :=
  match text with
  | String "-"%char s => (λ n, - Z.of_N n) <$> digits 0 s
  | s => Z.of_N <$> digits 0 s
  end.

Definition fits (k : field_kind) (j : json) : bool :=
  match k, j with
  | KString, JString _ => true
  | KInt, JNumber t => match read_int t with Some z => bool_decide (- 2 ^ 63 ≤ z < 2 ^ 63) | None => false end
  | KUint, JNumber t => match read_int t with Some z => bool_decide (0 ≤ z < 2 ^ 64 ∧ HasPrefix t "-" = false) | None => false end
  | KBoolPointer, JBool _ => true
  | _, _ => false
  end.

Abbreviation struct := (gmap string json).
Abbreviation struct_type := (list (string * field_kind)).

Definition unknown_field : error := ErrorString "json: unknown field".

Definition read_field (fields : struct_type) (strict : bool) (r : struct * option error) (m : string * json)
  : struct * option error :=
  let fail err := (r.1, match r.2 with Some e => Some e | None => Some err end) in
  match find (λ f, same_name m.1 f.1) fields with
  | None => if strict then fail unknown_field else r
  | Some (name, k) =>
      match m.2, k with
      | JNull, KBoolPointer => (delete name r.1, r.2)
      | JNull, _ => r
      | j, k => if fits k j then (<[name := j]> r.1, r.2) else fail type_error
      end
  end.

(** Reading into a struct that has been set to [old]. *)
Definition read_struct (fields : struct_type) (old : struct) (strict : bool) (j : json) : outcome (struct * option error) :=
  Done match j with
       | JObject ms => foldl (read_field fields strict) (old, None) ms
       | JNull => (old, None)
       | _ => (old, Some type_error)
       end.

(** Reading into a [map[string]interface{}]. *)
Definition read_map (strict : bool) (j : json) : outcome (struct * option error) :=
  Done match j with
       | JObject ms => (foldl (λ r m, <[m.1 := m.2]> r) ∅ ms, None)
       | JNull => (∅, None)
       | _ => (∅, Some type_error)
       end.

Definition text_of (name : string) (r : struct) : string := match r !! name with Some (JString s) => s | _ => "" end.
Definition number_of (name : string) (r : struct) : Z :=
  match r !! name with Some (JNumber t) => default 0 (read_int t) | _ => 0 end.
Definition flag_of (name : string) (r : struct) : option bool := match r !! name with Some (JBool b) => Some b | _ => None end.

Definition gitHubAccessTokenResponse : struct_type :=
  [("access_token", KString); ("scope", KString); ("token_type", KString); ("error", KString); ("error_description", KString);
   ("error_uri", KString); ("interval", KUint)].
Definition gitHubUserResponse : struct_type :=
  [("login", KString); ("id", KUint); ("node_id", KString); ("avatar_url", KString); ("html_url", KString); ("name", KString);
   ("company", KString); ("blog", KString); ("location", KString); ("email", KString); ("bio", KString);
   ("twitter_username", KString); ("two_factor_authentication", KBoolPointer)].
Definition gitHubDeviceResponse : struct_type :=
  [("device_code", KString); ("user_code", KString); ("verification_uri", KString); ("expires_in", KUint); ("interval", KUint);
   ("error", KString); ("error_description", KString); ("error_uri", KString)].
Definition oidcDiscoveryResponse : struct_type :=
  [("authorization_endpoint", KString); ("token_endpoint", KString); ("userinfo_endpoint", KString);
   ("device_authorization_endpoint", KString); ("revocation_endpoint", KString)].
Definition oidcDeviceResponse : struct_type :=
  [("device_code", KString); ("user_code", KString); ("verification_uri", KString); ("verification_uri_complete", KString);
   ("expires_in", KUint); ("interval", KUint); ("error", KString); ("error_description", KString); ("error_uri", KString)].
Definition oidcAccessTokenResponse : struct_type :=
  [("access_token", KString); ("token_type", KString); ("expires_in", KInt); ("refresh_token", KString); ("scope", KString);
   ("error", KString); ("error_description", KString); ("error_uri", KString)].
Definition genericAccessTokenResponse : struct_type := oidcAccessTokenResponse.
Definition deauthorizeResponse : struct_type := [("error", KString); ("error_description", KString)].

(** ** URLs

    What comes before the path, the path as it is escaped, and the parameters. *)
Record URL := MkURL {
  url_Base : string;
  url_Path : string;
  url_Query : gmap string (list string);
}.

Definition unreserved (c : ascii) : bool := alphanumeric c || one_of "-_.~" c.

Definition hex_digit (n : nat) : ascii := default "0"%char (String.get n "0123456789ABCDEF").

(** [url.QueryEscape] *)
Fixpoint QueryEscape (s : string) : string :=
  match s with
  | EmptyString => ""
  | String c s =>
      if unreserved c then String c (QueryEscape s)
      else if decide (c = " "%char) then String "+" (QueryEscape s)
      else String "%" (String (hex_digit (nat_of_ascii c / 16)) (String (hex_digit (nat_of_ascii c mod 16)) (QueryEscape s)))
  end.

Definition string_leb (a b : string) : bool := match String.compare a b with Gt => false | _ => true end.

Definition key_le (a b : string * list string) : Prop := string_leb a.1 b.1 = true.
#[export] Instance key_le_dec a b : Decision (key_le a b) := bool_eq_dec _ _.

(** [url.Values.Encode]: sorted by key. *)
Definition Values_Encode (q : gmap string (list string)) : string :=
  Join "&" (concat ((λ kv : string * list string, (λ v, QueryEscape kv.1 ++ "=" ++ QueryEscape v)%string <$> kv.2) <$>
                    merge_sort key_le (map_to_list q))).

Definition URL_String (u : URL) : string :=
  let query := Values_Encode (url_Query u) in
  url_Base u ++ url_Path u ++ (if decide (query = "") then "" else "?" ++ query).

Definition Values_Set (key value : string) (q : gmap string (list string)) : gmap string (list string) := <[key := [value]]> q.

(** ** The providers *)

Record gitHubProvider := MkGitHubProvider {
  gp_url : URL;
  gp_apiURL : URL;
  gp_clientID : string;
  gp_clientSecret : string;
  requiredOrgMembership : string;
  gp_scopes : list string;
  enforceScopes : bool;
  require2FA : bool;
  enforceUsername : bool;
  wwwClientConfig : HTTPClientConfiguration;
  jsonWWWClientConfig : HTTPClientConfiguration;
  apiClientConfig : HTTPClientConfiguration;
}.

Record oidcProvider := MkOIDCProvider {
  op_clientID : string;
  op_clientSecret : string;
  op_config : AuthOIDCConfig;
}.

Record genericProvider := MkGenericProvider {
  np_clientID : string;
  np_clientSecret : string;
  np_config : AuthGenericConfig;
}.

Inductive OAuth2Provider :=
| GitHub (p : gitHubProvider)
| OIDC (p : oidcProvider)
| Generic (p : genericProvider).

Definition EAuthConfigError : string := "AUTH_CONFIG_ERROR".

(** [structutils.Defaults] of an HTTP client, with URL, certificate, timeout and
    encoding set. *)
Definition github_client_config (url CACert : string) (timeout : Z) : HTTPClientConfiguration :=
  MkHTTPClientConfiguration url false timeout CACert "" "" "1.3" ["x25519"; "secp256r1"; "secp384r1"; "secp521r1"]
    ["TLS_AES_128_GCM_SHA256"; "TLS_AES_256_GCM_SHA384"; "TLS_CHACHA20_POLY1305_SHA256"; "TLS_ECDHE_RSA_WITH_AES_128_GCM_SHA256";
     "TLS_ECDHE_ECDSA_WITH_AES_128_GCM_SHA256"] "WWW-URLENCODED".

Definition with_form_encoding (c : HTTPClientConfiguration) : HTTPClientConfiguration :=
  MkHTTPClientConfiguration (hc_URL c) (hc_AllowRedirects c) (hc_Timeout c) (hc_CACert c) (hc_ClientCert c) (hc_ClientKey c)
    (hc_TLSVersion c) (hc_ECDHCurves c) (hc_CipherSuites c) "WWW-URLENCODED".

Section providers.
Context (lib : Library) (path_Join : string → string → string) (url_parse : string → URL + error).

Definition newGitHubProvider (cfg : AuthOAuth2ClientConfig) : gitHubProvider + error :=
  if decide (oa_Provider cfg ≠ "github") then inr (Errorf "GitHub is not configured as the oAuth2 provider" [])
  else
    let gh := oa_GitHub cfg in
    match AuthOAuth2ClientConfig_Validate lib path_Join cfg with
    | Some err => inr (wrap_error "invalid GitHub configuration" err)
    | None =>
        match url_parse (gh_URL gh) with
        | inr err => inr (Wrap (Some err) EAuthConfigError "Failed to parse GitHub URL (%s)" [VString (gh_URL gh)])
        | inl parsedURL =>
            match url_parse (gh_APIURL gh) with
            | inr err => inr (Wrap (Some err) EAuthConfigError "Failed to parse GitHub API URL (%s)" [VString (gh_APIURL gh)])
            | inl parsedAPIURL =>
                let www := github_client_config (gh_URL gh) (gh_CACert gh) (gh_RequestTimeout gh) in
                let api := github_client_config (gh_APIURL gh) (gh_CACert gh) (gh_RequestTimeout gh) in
                match HTTPClient_Validate lib www with
                | Some err => inr err
                | None =>
                    match HTTPClient_Validate lib www with
                    | Some err => inr err
                    | None =>
                        match HTTPClient_Validate lib api with
                        | Some err => inr err
                        | None =>
                            inl (MkGitHubProvider parsedURL parsedAPIURL (oa_ClientID cfg) (oa_ClientSecret cfg)
                                   (gh_RequireOrgMembership gh) (gh_ExtraScopes gh) (gh_EnforceScopes gh) (gh_Require2FA gh)
                                   (gh_EnforceUsername gh) www www api)
                        end
                    end
                end
            end
        end
    end.

Definition newOIDCProvider (cfg : AuthOAuth2ClientConfig) : oidcProvider :=
  MkOIDCProvider (oa_ClientID cfg) (oa_ClientSecret cfg) (oa_OIDC cfg).
Definition newGenericProvider (cfg : AuthOAuth2ClientConfig) : genericProvider :=
  MkGenericProvider (oa_ClientID cfg) (oa_ClientSecret cfg) (oa_Generic cfg).

(** [NewOAuth2Client]; [has_index]: whether the files to serve have an
    [index.html].  The server of the page is returned by its configuration. *)
Definition NewOAuth2Client (has_index : string → bool) (cfg : AuthOAuth2ClientConfig)
  : outcome ((OAuth2Provider * (HTTPServerConfiguration * option tls_Config)) + error) :=
  match AuthOAuth2ClientConfig_Validate lib path_Join cfg with
  | Some err => Done (inr err)
  | None =>
      if negb (has_index (redirect_Webroot (oa_Redirect cfg)))
      then Done (inr (Errorf "oAuth redirect server does not contain an index.html file" []))
      else
        match NewServer lib (redirect_HTTP (oa_Redirect cfg)) with
        | Panic why => Panic why
        | Blocked why => Blocked why
        | Done (inr err) => Done (inr (wrap_error "failed to create redirect page server" err))
        | Done (inl redirectServer) =>
            Done (if decide (oa_Provider cfg = "github") then
                    match newGitHubProvider cfg with inl p => inl (GitHub p, redirectServer) | inr err => inr err end
                  else if decide (oa_Provider cfg = "oidc") then inl (OIDC (newOIDCProvider cfg), redirectServer)
                  else if decide (oa_Provider cfg = "generic") then inl (Generic (newGenericProvider cfg), redirectServer)
                  else inr (MsgError (NewMessage EAuthConfigError "Invalid oAuth2 provider: %s" [VString (oa_Provider cfg)])))
        end
  end.
End providers.

Definition SupportsDeviceFlow (p : OAuth2Provider) : bool :=
  match p with GitHub _ => true | OIDC p => oidc_DeviceFlow (op_config p) | Generic _ => false end.
Definition SupportsAuthorizationCodeFlow (p : OAuth2Provider) : bool :=
  match p with GitHub _ => true | OIDC p => oidc_AuthorizationCodeFlow (op_config p) | Generic _ => true end.

Definition getScope (p : gitHubProvider) : string :=
  let scopes := gp_scopes p in
  let scopes :=
    if decide (requiredOrgMembership p ≠ "" ∧ ¬ Exists (λ scope, scope = "org" ∨ scope = "read:org") scopes)
    then scopes ++ ["read:org"] else scopes in
  let scopes :=
    if decide (require2FA p = true ∧ ¬ Exists (λ scope, scope = "user" ∨ scope = "read:user") scopes)
    then scopes ++ ["read:user"] else scopes in
  Join "," scopes.

Definition EAuthGitHubRequiredScopeNotGranted : string := "AUTH_GITHUB_REQUIRED_SCOPE_NOT_GRANTED".

Definition scope_granted (grantedScopes : list string) (requiredScope : string) : bool :=
  let requiredScopeParts := GoStrings.Split requiredScope ":" in
  existsb (λ grantedScope,
    bool_decide (grantedScope = requiredScope) ||
    Nat.ltb 1 (length requiredScopeParts) && bool_decide (head requiredScopeParts = Some grantedScope)) grantedScopes.

Definition checkGrantedScopes (p : gitHubProvider) (scope : string) : option error :=
  let grantedScopes := GoStrings.Split scope "," in
  let missing := if enforceScopes p then find (λ r, negb (scope_granted grantedScopes r)) (gp_scopes p) else None in
  match missing with
  | Some requiredScope =>
      Some (MsgError (UserMessage EAuthGitHubRequiredScopeNotGranted
                        (Sprintf "You have not granted us the required %s permission." [VString requiredScope])
                        "The user has not granted the %s permission." [VString requiredScope]))
  | None =>
      if decide (requiredOrgMembership p ≠ "") then
        if existsb (λ s, bool_decide (s = "org" ∨ s = "read:org")) grantedScopes then None
        else Some (MsgError (UserMessage EAuthGitHubRequiredScopeNotGranted
               "You have not granted us permissions to read your organization memberships required for login."
               "The user has not granted the org or read:org memberships required to validate the organization member ship." []))
      else None
  end.

(** ** The flows

    A flow is an object that the context of a login keeps until the connection
    ends. *)
Record oauth_flow := MkFlow {
  fl_meta : ConnectionAuthPendingMetadata;
  fl_client : client;
  fl_discovery : struct;
  fl_accessToken : string;
  fl_interval : Z;
  fl_deviceCode : string;
}.

Definition set_fl_accessToken (t : string) (f : oauth_flow) : oauth_flow :=
  MkFlow (fl_meta f) (fl_client f) (fl_discovery f) t (fl_interval f) (fl_deviceCode f).
Definition set_fl_device (interval : Z) (deviceCode : string) (f : oauth_flow) : oauth_flow :=
  MkFlow (fl_meta f) (fl_client f) (fl_discovery f) (fl_accessToken f) interval deviceCode.

(** [oauth2Context] objects: the flow of each. *)
Record oauth_store := MkOAuthStore {
  oa_flows : list oauth_flow;
  oa_contexts : list (option nat);
}.

(** The loops that wait; how often each can wait before its context is done
    depends on the time the calls take. *)
Inductive oauth_loop := DeviceCodeLoop | AccessTokenLoop | IdentityLoop | RevocationLoop.

(** An [int64] of nanoseconds from seconds. *)
Definition seconds (n : Z) : Z := (n * Second + 2 ^ 63) `mod` 2 ^ 64 - 2 ^ 63.

Definition newline : string := bytes [10%nat].

Definition user_message (code user explanation_ : string) (args : list value) : option error :=
  Some (MsgError (UserMessage code user explanation_ args)).

Definition EAuthOAuth2Timeout : string := "AUTH_OAUTH2_TIMEOUT".
Definition EAuthFailed : string := "AUTH_FAILED".
Definition cannot_authenticate : string := "Cannot authenticate at this time.".

Section flows.
Context {W : Type} `{!Field W oauth_store} (lib : Library).
Context (NewRequest : string → string → option error) (Do : http_Client → http_Request → prog W (http_Response + error)).
Context (url_parse : string → URL + error).
(** The [schema] library: the form of a struct, from the names and values of its
    fields. *)
Context (form : list (string * string) → string + error).
Context (waits : oauth_loop → Z → nat) (rounds_seen : nat).

Abbreviation call A := (prog W A).
Abbreviation request_fields := (list (string * string)).

(** [context.TODO()], and a context with a timeout as a loop sees it. *)
Inductive flow_ctx := TODO | WithTimeout (timeout : Z).
Definition ctx_of (l : oauth_loop) (c : flow_ctx) : ctx :=
  match c with TODO => Background rounds_seen | WithTimeout t => Deadline (waits l t) end.

Definition oa_store : call oauth_store := λ w, Done (fget w, w).
Definition oa_update (f : oauth_store → oauth_store) : call unit := λ w, Done (tt, fset (f (fget w)) w).

Definition flow_at (i : nat) : call oauth_flow :=
  let* s := oa_store in match oa_flows s !! i with Some f => prog_ret f | None => panic nil_pointer end.
Definition update_flow (i : nat) (g : oauth_flow → oauth_flow) : call unit :=
  oa_update (λ s, MkOAuthStore (alter g i (oa_flows s)) (oa_contexts s)).
Definition new_flow (f : oauth_flow) : call nat :=
  let* s := oa_store in
  do* oa_update (λ s, MkOAuthStore (oa_flows s ++ [f]) (oa_contexts s)) in prog_ret (length (oa_flows s)).

(** Requests of this package are sent as forms. *)
Definition form_payload (fields : request_fields) : payload := MkPayload (inr (ErrorString "not sent as JSON")) (form fields).

(** The status, the error, and the struct the response is read into. *)
Definition ask_url (c : client) (method url : string) (req : option request_fields)
    (read : bool → json → outcome (struct * option error)) (old : struct) : call (Z * option error * struct) :=
  let* '(statusCode, err, value) := client_RequestURL NewRequest Do c method url (form_payload <$> req) (Some read) in
  prog_ret (statusCode, err, default old value).
Definition ask (c : client) (method path : string) (req : option request_fields) (fields : struct_type) (old : struct)
  : call (Z * option error * struct) :=
  ask_url c method (hc_URL (cl_config c) ++ path) req (read_struct fields old) old.

Definition http_client (cfg : HTTPClientConfiguration) (headers : list (string * list string)) (lax : bool)
  : call (client + error) :=
  of_outcome (NewClientWithHeaders lib cfg headers lax).

Definition basic (clientID clientSecret : string) : string :=
  EncodeToString (String.list_byte_of_string (clientID ++ ":" ++ clientSecret)).

Definition set_metadata (entries : list (string * Value)) (meta : ConnectionAuthPendingMetadata) : ConnectionAuthPendingMetadata :=
  let conn := pending_conn meta in
  match GetMetadata (Some conn) with
  | (Some m, Some conn) =>
      MkAuthPending (MkConnectionMetadata (RemoteAddr conn) (ConnectionID conn)
                       (Some (foldl (λ m kv, <[kv.1 := kv.2]> m) m entries)) (Environment conn) (Files conn))
        (ClientVersion meta) (Username meta)
  | _ => meta
  end.

(** What a verification returns: the access token, the metadata and the error. *)
Abbreviation verified := (string * ConnectionAuthenticatedMetadata * option error)%type.

(** *** GitHub *)
Section github.
Context (p : gitHubProvider).

Definition EAuthGitHubHTTPClientCreateFailed : string := "AUTH_GITHUB_HTTP_CLIENT_CREATE_FAILED".

Definition github_createFlow (meta : ConnectionAuthPendingMetadata) (interval : Z) : call (oauth_flow + error) :=
  let failed err :=
    WrapUser (Some err) EAuthGitHubHTTPClientCreateFailed "Authentication currently unavailable."
      "Cannot create GitHub device flow authenticator because the HTTP urlEncodedClient configuration failed." [] in
  let* client := of_outcome (NewClient lib (wwwClientConfig p)) in
  match client with
  | inr err => prog_ret (inr (failed err))
  | inl client =>
      let* jsonClient := of_outcome (NewClient lib (jsonWWWClientConfig p)) in
      match jsonClient with
      | inr err => prog_ret (inr (failed err))
      | inl _ => prog_ret (inl (MkFlow meta client ∅ "" interval ""))
      end
  end.

Definition getAPIClient (token : string) (basicAuth : bool) : call (client + error) :=
  let headers :=
    if basicAuth then [("authorization", ["basic " +:+ basic (gp_clientID p) (gp_clientSecret p)])]
    else if decide (token ≠ "") then [("authorization", ["bearer " +:+ token])] else [] in
  let* c := http_client (apiClientConfig p) headers true in
  prog_ret match c with
           | inl c => inl c
           | inr err => inr (WrapUser (Some err) EAuthGitHubHTTPClientCreateFailed "Authentication currently unavailable."
                               "Cannot create GitHub authenticator because the HTTP urlEncodedClient configuration failed." [])
           end.

Definition github_device_url (i : nat) (c : flow_ctx) : call ((string * string * Z) + error) :=
  let* f := flow_at i in
  let req := [("client_id", gp_clientID p); ("scope", getScope p)] in
  loop (ctx_of DeviceCodeLoop c)
    (λ _,
       let* '(statusCode, lastError, resp) := ask (fl_client f) "POST" "/login/device/code" (Some req) gitHubDeviceResponse ∅ in
       match lastError with
       | Some _ => prog_ret (inr lastError)
       | None =>
           if decide (statusCode = 200) then
             do* update_flow i (set_fl_device (seconds (number_of "interval" resp)) (text_of "device_code" resp)) in
             prog_ret (inl (inl (text_of "verification_uri" resp, text_of "user_code" resp, seconds (number_of "expires_in" resp))))
           else if decide (text_of "error" resp = "slow_down") then
             prog_ret (inl (inr (MsgError (UserMessage "AUTH_GITHUB_DEVICE_AUTHORIZATION_LIMIT" cannot_authenticate
               "GitHub device authorization limit reached (%s)." [VString (text_of "error_description" resp)]))))
           else
             prog_ret (inr (user_message "AUTH_OAUTH2_DEVICE_CODE_REQUEST_FAILED" cannot_authenticate
               "Non-200 status code from GitHub device code API (%d; %s; %s)."
               [VInt statusCode; VString (text_of "error" resp); VString (text_of "error_description" resp)]))
       end)
    (λ lastError, prog_ret (inr (WrapUser lastError EAuthOAuth2Timeout cannot_authenticate
                                   "Timeout while trying to obtain a GitHub device code." [])))
    None.

Definition EAuthGitHubNo2FA : string := "AUTH_GITHUB_NO_2FA".
Definition EAuthGitHubUserRequestFailed : string := "AUTH_GITHUB_USER_REQUEST_FAILED".

(** What an answer about the user leads to. *)
Definition github_entries (accessToken : string) (response : struct) : list (string * Value) :=
  let sensitive name field := (name, MkValue (text_of field response) true) in
  [("GITHUB_METHOD", MkValue "device" false); ("GITHUB_TOKEN", MkValue accessToken true); sensitive "GITHUB_LOGIN" "login";
   ("GITHUB_ID", MkValue (pretty (number_of "id" response)) true); sensitive "GITHUB_NODE_ID" "node_id";
   sensitive "GITHUB_NAME" "name"; sensitive "GITHUB_AVATAR_URL" "avatar_url"; sensitive "GITHUB_BIO" "bio";
   sensitive "GITHUB_COMPANY" "company"; sensitive "GITHUB_EMAIL" "email"; sensitive "GITHUB_BLOG_URL" "blog";
   sensitive "GITHUB_LOCATION" "location"; sensitive "GITHUB_TWITTER_USERNAME" "twitter_username";
   sensitive "GITHUB_PROFILE_URL" "html_url"; sensitive "GITHUB_AVATAR_URL" "avatar_url"].

Definition github_user (meta : ConnectionAuthPendingMetadata) (token accessToken : string) (response : struct) : verified :=
  let failed code user explanation_ := (token, AuthFailed meta, user_message code user explanation_ []) in
  if decide (enforceUsername p = true ∧ text_of "login" response ≠ Username meta) then
    failed "AUTH_USERNAME_DOES_NOT_MATCH" "The username entered in your SSH urlEncodedClient does not match your GitHub login."
      "The user's username entered in the SSH username and on GitHub login do not match, but enforceUsername is enabled."
  else
    match flag_of "two_factor_authentication" response, require2FA p with
    | Some false, true =>
        failed EAuthGitHubNo2FA "Please enable two-factor authentication on GitHub to access this server."
          "The user does not have two-factor authentication enabled on their GitHub account."
    | None, true =>
        failed EAuthGitHubNo2FA "Please grant the read:user permission so we can check your 2FA status."
          "The user did not provide the read:user permission to read the 2FA status."
    | _, _ => (token, Authenticated (set_metadata (github_entries accessToken response) meta) (text_of "login" response), None)
    end.

Definition github_getIdentity (i : nat) (c : flow_ctx) (meta : ConnectionAuthPendingMetadata) (accessToken : string) : call verified :=
  let* apiClient := getAPIClient accessToken false in
  let* f := flow_at i in
  match apiClient with
  | inr err => prog_ret (fl_accessToken f, AuthFailed meta, Some err)
  | inl apiClient =>
      loop (ctx_of IdentityLoop c)
        (λ _,
           let* '(statusCode, lastError, response) := ask apiClient "GET" "/user" None gitHubUserResponse ∅ in
           match lastError with
           | None =>
               if decide (statusCode = 200) then
                 let* f := flow_at i in prog_ret (inl (github_user meta (fl_accessToken f) accessToken response))
               else prog_ret (inr None)
           | Some _ => prog_ret (inr lastError)
           end)
        (λ lastError,
           let* f := flow_at i in
           prog_ret (fl_accessToken f, AuthFailed meta,
                     Some (WrapUser lastError EAuthGitHubUserRequestFailed
                             "Timeout while trying to fetch your identity from GitHub."
                             "Timeout while trying fetch user identity from GitHub." [])))
        None
  end.

(** The struct of the request has no names for forms, so the field has its own. *)
Definition github_Deauthorize (i : nat) (c : flow_ctx) : call unit :=
  let* f := flow_at i in
  if decide (fl_accessToken f = "") then prog_ret tt
  else
    loop (ctx_of RevocationLoop c)
      (λ _ : unit,
         let* f := flow_at i in
         let* apiClient := getAPIClient (fl_accessToken f) true in
         match apiClient with
         | inr _ => prog_ret (inl tt)
         | inl apiClient =>
             let* '(statusCode, err, _) :=
               client_Delete NewRequest Do apiClient ("/applications/" ++ gp_clientID p ++ "/token")
                 (Some (form_payload [("AccessToken", fl_accessToken f)])) (@None (bool → json → outcome (struct * option error))) in
             if decide (err = None ∧ statusCode = 204) then
               do* update_flow i (set_fl_accessToken "") in prog_ret (inl tt)
             else prog_ret (inr tt)
         end)
      (λ _, prog_ret tt) tt.

(** The token of a login at GitHub; [again]: what a failed attempt leaves. *)
Definition github_token_failed (statusCode : Z) (resp : struct) : option error :=
  user_message "AUTH_GITHUB_ACCESS_TOKEN_FETCH_FAILED" cannot_authenticate
    "Non-200 status code from GitHub access token API (%d; %s; %s)."
    [VInt statusCode; VString (text_of "error" resp); VString (text_of "error_description" resp)].
Definition token_timeout (lastError : option error) : error :=
  WrapUser lastError EAuthOAuth2Timeout "Timeout while trying to obtain GitHub authentication data."
    "Timeout while trying to obtain GitHub authentication data." [].

Definition EAuthOAuth2AuthorizationPending : string := "AUTH_OAUTH2_AUTHORIZATION_PENDING".
Definition device_grant : string := "urn:ietf:params:oauth:grant-type:device_code".

(** The answers of a device token request with status 200 that [GitHub] and the
    OpenID Connect flow treat alike; [None]: none of them. *)
Definition device_refusal (err : string) : option error :=
  if decide (err = "expired_token") then Some (Errorf "BUG: expired token during device flow authentication" [])
  else if decide (err = "unsupported_grant_type") then
    Some (Errorf "BUG: unsupported grant type error while trying device authorization" [])
  else if decide (err = "incorrect_client_credentials") then
    user_message "AUTH_INCORRECT_CLIENT_CREDENTIALS" "GitHub authentication failed" "User entered incorrect device code" []
  else if decide (err = "incorrect_device_code") then
    user_message EAuthFailed "GitHub authentication failed" "User entered incorrect device code" []
  else if decide (err = "access_denied") then
    user_message EAuthFailed "GitHub authentication failed" "User canceled GitHub authentication" []
  else None.

Definition rate_limit : error :=
  MsgError (UserMessage "AUTH_DEVICE_FLOW_RATE_LIMIT_EXCEEDED" "Cannot authenticate at this time. Please try again later."
              "Rate limit for device flow exceeded, attempting authorization code flow." []).
Definition pending_user : option error :=
  user_message EAuthOAuth2AuthorizationPending "Authentication is still pending." "The user hasn't completed the authentication process." [].
Definition pending_retry (interval : Z) : option error :=
  Some (MsgError (NewMessage EAuthOAuth2AuthorizationPending "User authorization still pending, retrying in %d seconds." [VInt interval])).

Definition github_device_token (i : nat) (c : flow_ctx) : call (string * option error) :=
  loop (ctx_of AccessTokenLoop c)
    (λ _,
       let* f := flow_at i in
       let req := [("client_id", gp_clientID p); ("client_secret", ""); ("code", ""); ("device_code", fl_deviceCode f);
                   ("grant_type", device_grant); ("state", "")] in
       let* '(statusCode, lastError, resp) :=
         ask (fl_client f) "POST" "/login/oauth/access_token" (Some req) gitHubAccessTokenResponse ∅ in
       if decide (statusCode ≠ 200) then
         prog_ret (inr (if decide (text_of "error" resp = "authorization_pending") then pending_retry (fl_interval f)
                        else github_token_failed statusCode resp))
       else
         match lastError with
         | Some _ => prog_ret (inr lastError)
         | None =>
             let err := text_of "error" resp in
             if decide (err = "authorization_pending") then prog_ret (inr pending_user)
             else if decide (err = "slow_down") then
               if decide (number_of "interval" resp > 15) then prog_ret (inl ("", Some rate_limit)) else prog_ret (inr None)
             else
               match device_refusal err with
               | Some refusal => prog_ret (inl ("", Some refusal))
               | None =>
                   if decide (err = "") then
                     prog_ret (inl (text_of "access_token" resp, checkGrantedScopes p (text_of "scope" resp)))
                   else prog_ret (inr None)
               end
         end)
    (λ lastError, prog_ret ("", Some (token_timeout lastError)))
    None.

Definition github_code_token (i : nat) (c : flow_ctx) (code : string) : call (string * option error) :=
  loop (ctx_of AccessTokenLoop c)
    (λ _,
       let* f := flow_at i in
       let req := [("client_id", gp_clientID p); ("client_secret", gp_clientSecret p); ("code", code); ("device_code", "");
                   ("grant_type", ""); ("state", ConnectionID (pending_conn (fl_meta f)))] in
       let* '(statusCode, lastError, resp) :=
         ask (fl_client f) "POST" "/login/oauth/access_token" (Some req) gitHubAccessTokenResponse ∅ in
       if decide (statusCode ≠ 200) then prog_ret (inr (github_token_failed statusCode resp))
       else
         match lastError with
         | Some _ => prog_ret (inr lastError)
         | None => prog_ret (inl (text_of "access_token" resp, checkGrantedScopes p (text_of "scope" resp)))
         end)
    (λ lastError, prog_ret ("", Some (token_timeout lastError)))
    None.

(** What follows the request for a token; [on_error]: the token that is returned
    next to the error. *)
Definition github_with_token (i : nat) (c : flow_ctx) (on_error : oauth_flow → string) (accessToken : string) (err : option error)
  : call verified :=
  do* update_flow i (set_fl_accessToken accessToken) in
  match err with
  | Some _ =>
      do* (if decide (accessToken ≠ "") then github_Deauthorize i c else prog_ret tt) in
      let* f := flow_at i in
      prog_ret (on_error f, AuthFailed (fl_meta f), err)
  | None => let* f := flow_at i in github_getIdentity i c (fl_meta f) accessToken
  end.

Definition github_device_Verify (i : nat) (c : flow_ctx) : call verified :=
  let* '(accessToken, err) := github_device_token i c in github_with_token i c (λ _, "") accessToken err.

Definition github_code_url (i : nat) : call string :=
  let* f := flow_at i in
  let query :=
    Values_Set "state" (ConnectionID (pending_conn (fl_meta f))) (Values_Set "scope" (getScope p)
      (Values_Set "login" (Username (fl_meta f)) (Values_Set "client_id" (gp_clientID p) (url_Query (gp_url p))))) in
  prog_ret (URL_String (MkURL (url_Base (gp_url p)) "/login/oauth/authorize" query)).

Definition github_code_Verify (i : nat) (c : flow_ctx) (state authorizationCode : string) : call verified :=
  let* f := flow_at i in
  if decide (state ≠ ConnectionID (pending_conn (fl_meta f))) then
    prog_ret (fl_accessToken f, AuthFailed (fl_meta f),
      user_message "AUTH_GITHUB_STATE_DOES_NOT_MATCH" "The returned code is invalid."
        "The user provided a code that contained an invalid state component." [])
  else
    let* '(accessToken, err) := github_code_token i c authorizationCode in
    github_with_token i c fl_accessToken accessToken err.
End github.

(** *** OpenID Connect *)
Section oidc.
Context (p : oidcProvider).

Definition EAuthOIDCDiscoveryFailed : string := "AUTH_OIDC_DISCOVERY_FAILED".

Definition Discover (c : client) : call (struct + error) :=
  loop (Background rounds_seen)
    (λ _ : unit,
       let* '(statusCode, err, response) := ask c "GET" ".well-known/openid-configuration" None oidcDiscoveryResponse ∅ in
       if decide (err = None ∧ statusCode = 200) then prog_ret (inl (inl response))
       else if decide (399 < statusCode < 500) then
         prog_ret (inl (inr (WrapUser err EAuthOIDCDiscoveryFailed "Authentication currently unavailable"
                               "OIDC endpoint configuration request failed." [])))
       else prog_ret (inr tt))
    (λ _, block "retrying") tt.

Definition oidc_createFlow (meta : ConnectionAuthPendingMetadata) (interval : Z) : call (oauth_flow + error) :=
  let* c := http_client (with_form_encoding (oidc_HTTP (op_config p)))
              [("authorization", ["Basic " +:+ basic (op_clientID p) (op_clientSecret p)])] true in
  match c with
  | inr err =>
      prog_ret (inr (WrapUser (Some err) "AUTH_OIDC_HTTP_CLIENT_CREATE_FAILED" "Authentication currently unavailable."
        "Cannot create OIDC device flow authenticator because the HTTP urlEncodedClient configuration failed." []))
  | inl c =>
      let* discovery := Discover c in
      match discovery with
      | inr err => prog_ret (inr err)
      | inl discovery => prog_ret (inl (MkFlow meta c discovery "" interval ""))
      end
  end.

Definition oidc_Deauthorize (i : nat) (c : flow_ctx) : call unit :=
  let* f := flow_at i in
  do* (if decide (fl_accessToken f = "") then prog_ret tt
       else
         loop (ctx_of RevocationLoop c)
           (λ response,
              let* '(statusCode, err, response) :=
                ask_url (fl_client f) "POST" (text_of "revocation_endpoint" (fl_discovery f))
                  (Some [("token", fl_accessToken f); ("token_type_hint", "access_token")])
                  (read_struct deauthorizeResponse response) response in
              if decide (err = None ∧ text_of "error" response = "invalid_token") then prog_ret (inl tt)
              else
                let failed := bool_decide (err ≠ None ∨ text_of "error" response ≠ "") in
                if decide (failed = false ∨ statusCode = 200 ∨ 399 < statusCode < 500) then prog_ret (inl tt)
                else prog_ret (inr response))
           (λ _, prog_ret tt) (∅ : struct)) in
  update_flow i (set_fl_accessToken "").

Definition EAuthOIDCNoUsername : string := "AUTH_OIDC_NO_USERNAME".
Definition EAuthOIDCTimeout : string := "AUTH_OIDC_TIMEOUT".

(** What the answer about the user leads to.  Of members whose names agree up to
    capitals the code keeps any, here the last. *)
Definition oidc_user (meta : ConnectionAuthPendingMetadata) (token : string) (resp : struct) : verified :=
  let field := oidc_UsernameField (op_config p) in
  match resp !! field with
  | None =>
      (token, AuthFailed meta, user_message EAuthOIDCNoUsername "Authentication currently unavailable"
        ("The OIDC server did not return the %s field in the response, which was configured to " ++
         "be used as the username. Please check your ContainerSSH configuration against your OIDC " ++
         "server configuration.") [VString field])
  | Some (JString username) =>
      let entries :=
        ("OIDC_TOKEN", MkValue token true) ::
        omap (λ kv : string * json,
                match kv.2 with
                | JString v => Some ("OIDC_USERINFO_" +:+ String.string_of_list_ascii (upper <$> String.list_ascii_of_string kv.1), MkValue v false)
                | _ => None
                end) (map_to_list resp) in
      (token, Authenticated (set_metadata entries meta) username, None)
  | Some _ =>
      (token, AuthFailed meta, user_message EAuthOIDCNoUsername "Authentication currently unavailable"
        ("The OIDC server returned the %s field in the response, which was configured to " ++
         "be used as the username, but it was not a string.") [VString field])
  end.

Definition oidc_getIdentity (i : nat) (c : flow_ctx) (meta : ConnectionAuthPendingMetadata) (token : string) : call verified :=
  let* client := http_client (with_form_encoding (oidc_HTTP (op_config p))) [("authorization", ["Bearer " +:+ token])] true in
  match client with
  | inr err => prog_ret ("", AuthFailed meta, Some err)
  | inl client =>
      let* f := flow_at i in
      loop (ctx_of IdentityLoop c)
        (λ _,
           let* '(statusCode, err, resp) := ask_url client "GET" (text_of "userinfo_endpoint" (fl_discovery f)) None read_map ∅ in
           match err with
           | Some _ => prog_ret (inr err)
           | None =>
               if decide (100 < statusCode < 300) then prog_ret (inl (oidc_user meta token resp))
               else prog_ret (inr (user_message "AUTH_OIDC_USER_INFO_FETCH_FAILED" "Authentication currently unavailable"
                                     "Non-200 status code from OIDC userinfo API (%d)." [VInt statusCode]))
           end)
        (λ err, prog_ret ("", AuthFailed meta,
                          Some (Wrap err EAuthOIDCTimeout "Timeout while trying to get user info." [])))
        None
  end.

Definition oidc_device_url (i : nat) (c : flow_ctx) : call ((string * string * Z) + error) :=
  let* f := flow_at i in
  let req := [("client_id", op_clientID p); ("grant_type", device_grant); ("scope", "openid")] in
  loop (ctx_of DeviceCodeLoop c)
    (λ _,
       let* '(statusCode, lastError, resp) :=
         ask_url (fl_client f) "POST" (text_of "device_authorization_endpoint" (fl_discovery f)) (Some req)
           (read_struct oidcDeviceResponse ∅) ∅ in
       match lastError with
       | Some _ => prog_ret (inr lastError)
       | None =>
           if decide (statusCode = 200) then
             do* update_flow i (set_fl_device (seconds (number_of "interval" resp)) (text_of "device_code" resp)) in
             let complete := text_of "verification_uri_complete" resp in
             prog_ret (inl (inl (if decide (complete ≠ "") then complete else text_of "verification_uri" resp,
                                 text_of "user_code" resp, seconds (number_of "expires_in" resp))))
           else if decide (text_of "error" resp = "slow_down") then
             prog_ret (inl (inr (MsgError (UserMessage "AUTH_GITHUB_DEVICE_AUTHORIZATION_LIMIT" cannot_authenticate
               "GitHub device authorization limit reached (%s)." [VString (text_of "error_description" resp)]))))
           else
             prog_ret (inr (user_message "AUTH_OAUTH2_DEVICE_CODE_REQUEST_FAILED" cannot_authenticate
               "Non-200 status code from OAuth2 device code API (%d; %s; %s)."
               [VInt statusCode; VString (text_of "error" resp); VString (text_of "error_description" resp)]))
       end)
    (λ lastError, prog_ret (inr (WrapUser lastError EAuthOAuth2Timeout cannot_authenticate
                                   "Timeout while trying to obtain a OAuth2 device code." [])))
    None.

Definition oidc_device_token (i : nat) (c : flow_ctx) : call (string * option error) :=
  loop (ctx_of AccessTokenLoop c)
    (λ _,
       let* f := flow_at i in
       let req := [("grant_type", device_grant); ("code", ""); ("client_id", op_clientID p); ("device_code", fl_deviceCode f);
                   ("redirect_uri", "")] in
       let* '(statusCode, lastError, resp) :=
         ask_url (fl_client f) "POST" (text_of "token_endpoint" (fl_discovery f)) (Some req)
           (read_struct oidcAccessTokenResponse ∅) ∅ in
       if decide (statusCode ≠ 200) then
         prog_ret (inr (if decide (text_of "error" resp = "authorization_pending") then pending_retry (fl_interval f)
                        else github_token_failed statusCode resp))
       else
         match lastError with
         | Some _ => prog_ret (inr lastError)
         | None =>
             let err := text_of "error" resp in
             if decide (err = "authorization_pending") then prog_ret (inr pending_user)
             else if decide (err = "slow_down") then prog_ret (inl ("", Some rate_limit))
             else
               match device_refusal err with
               | Some refusal => prog_ret (inl ("", Some refusal))
               | None => if decide (err = "") then prog_ret (inl (text_of "access_token" resp, None)) else prog_ret (inr None)
               end
         end)
    (λ lastError, prog_ret ("", Some (token_timeout lastError)))
    None.

Definition oidc_with_token (i : nat) (c : flow_ctx) (accessToken : string) (err : option error) : call verified :=
  do* update_flow i (set_fl_accessToken accessToken) in
  match err with
  | Some _ =>
      do* (if decide (accessToken ≠ "") then oidc_Deauthorize i c else prog_ret tt) in
      let* f := flow_at i in prog_ret ("", AuthFailed (fl_meta f), err)
  | None => let* f := flow_at i in oidc_getIdentity i c (fl_meta f) accessToken
  end.

Definition oidc_device_Verify (i : nat) (c : flow_ctx) : call verified :=
  let* '(accessToken, err) := oidc_device_token i c in oidc_with_token i c accessToken err.

Definition oidc_code_url (i : nat) : call (string + error) :=
  let* f := flow_at i in
  prog_ret match url_parse (text_of "authorization_endpoint" (fl_discovery f)) with
           | inr err => inr err
           | inl link =>
               inl (URL_String (MkURL (url_Base link) (url_Path link)
                 (Values_Set "redirect_uri" (oidc_RedirectURI (op_config p))
                   (Values_Set "state" (ConnectionID (pending_conn (fl_meta f)))
                     (Values_Set "scope" "openid"
                       (Values_Set "client_id" (op_clientID p) (Values_Set "response_type" "code" (url_Query link))))))))
           end.
End oidc.

(** The token of an authorization code, as [oidcAuthorizationCodeFlow] and
    [genericAuthorizationCodeFlow] ask for it.  All attempts are read into the same
    struct. *)
Definition code_token (c : client) (cx : flow_ctx) (url clientID redirectURI code : string) (fields : struct_type)
    (fetch_failed server timeout_code timeout : string) : call (string * option error) :=
  let req := [("grant_type", "authorization_code"); ("code", code); ("client_id", clientID); ("redirect_uri", redirectURI)] in
  loop (ctx_of AccessTokenLoop cx)
    (λ state : option error * struct,
       let* '(statusCode, err, resp) := ask_url c "POST" url (Some req) (read_struct fields state.2) state.2 in
       if decide (err = None ∧ statusCode = 200 ∧ text_of "error" resp = "")
       then prog_ret (inl (text_of "access_token" resp, None))
       else
         let err :=
           if decide (err = None ∧ statusCode = 200) then
             user_message fetch_failed "Authentication failed" ("Error returned from " ++ server ++ " server (%s: %s)")
               [VString (text_of "error" resp); VString (text_of "error_description" resp)]
           else err in
         let err :=
           WrapUser err fetch_failed cannot_authenticate
             ("Non-200 status code from " ++ (if decide (server = "generic oAuth2") then "oAuth2" else server) ++
              " access token API (%d; %s; %s).")
             [VInt statusCode; VString (text_of "error" resp); VString (text_of "error_description" resp)] in
         if decide (399 < statusCode < 500) then prog_ret (inl ("", Some err)) else prog_ret (inr (Some err, resp)))
    (λ state, prog_ret ("", Some (Wrap state.1 timeout_code cannot_authenticate [VString timeout])))
    (None, ∅).

Definition oidc_code_Verify (p : oidcProvider) (i : nat) (c : flow_ctx) (state authorizationCode : string) : call verified :=
  let* f := flow_at i in
  let* '(accessToken, err) :=
    code_token (fl_client f) c (text_of "token_endpoint" (fl_discovery f)) (op_clientID p) (oidc_RedirectURI (op_config p))
      authorizationCode oidcAccessTokenResponse "AUTH_OIDC_ACCESS_TOKEN_FETCH_FAILED" "OIDC" EAuthOIDCTimeout
      "Timeout during OIDC authentication flow." in
  oidc_with_token p i c accessToken err.

(** *** A generic OAuth2 server *)
Section generic.
Context (p : genericProvider).

Definition generic_createFlow (meta : ConnectionAuthPendingMetadata) : call (oauth_flow + error) :=
  let* c := http_client (with_form_encoding (gen_TokenEndpoint (np_config p)))
              [("authorization", ["Basic " +:+ basic (np_clientID p) (np_clientSecret p)])] true in
  prog_ret match c with
           | inr err => inr (WrapUser (Some err) "AUTH_OAUTH2_HTTP_CLIENT_CREATE_FAILED" "Authentication currently unavailable."
                               "Cannot create authenticator because the token endpoint configuration failed." [])
           | inl c => inl (MkFlow meta c ∅ "" 0 "")
           end.

Definition generic_code_url (i : nat) : call (string + error) :=
  let* f := flow_at i in
  prog_ret match url_parse (gen_AuthorizeEndpointURL (np_config p)) with
           | inr err => inr err
           | inl l =>
               inl (URL_String (MkURL (url_Base l) (url_Path l)
                 (Values_Set "redirect_uri" (gen_RedirectURI (np_config p))
                   (Values_Set "state" (ConnectionID (pending_conn (fl_meta f)))
                     (Values_Set "scope" ""
                       (Values_Set "client_id" (np_clientID p) (Values_Set "response_type" "code" (url_Query l))))))))
           end.

Definition generic_Verify (i : nat) (c : flow_ctx) (state authorizationCode : string) : call verified :=
  let* f := flow_at i in
  let* '(accessToken, err) :=
    code_token (fl_client f) c (hc_URL (cl_config (fl_client f))) (np_clientID p) (gen_RedirectURI (np_config p)) authorizationCode
      genericAccessTokenResponse "AUTH_OAUTH2_ACCESS_TOKEN_FETCH_FAILED" "generic oAuth2" "AUTH_GENERIC_TIMEOUT"
      "Timeout during generic oAuth2 authentication flow." in
  do* update_flow i (set_fl_accessToken accessToken) in
  let* f := flow_at i in
  prog_ret match err with
           | Some _ => ("", AuthFailed (fl_meta f), err)
           | None => (accessToken, Authenticated (set_metadata [("OAUTH2_TOKEN", MkValue accessToken true)] (fl_meta f)) "", None)
           end.
End generic.

(** ** The authenticator *)
Context (provider : OAuth2Provider).

Definition flow_created (f : oauth_flow + error) : call (nat + error) :=
  match f with inr err => prog_ret (inr err) | inl f => let* i := new_flow f in prog_ret (inl i) end.

Definition GetDeviceFlow (meta : ConnectionAuthPendingMetadata) : call (nat + error) :=
  let* f := match provider with
            | GitHub p => github_createFlow p meta (10 * Second)
            | OIDC p => oidc_createFlow p meta (10 * Second)
            | Generic _ => prog_ret (inr (Errorf "the generic provider does not support the device flow" []))
            end in
  flow_created f.

Definition GetAuthorizationCodeFlow (meta : ConnectionAuthPendingMetadata) : call (nat + error) :=
  let* f := match provider with
            | GitHub p => github_createFlow p meta 0
            | OIDC p => oidc_createFlow p meta 0
            | Generic p => generic_createFlow p meta
            end in
  flow_created f.

Definition no_device_flow : error := Errorf "the generic provider does not support the device flow" [].

Definition device_GetAuthorizationURL (i : nat) (c : flow_ctx) : call ((string * string * Z) + error) :=
  match provider with
  | GitHub p => github_device_url p i c
  | OIDC p => oidc_device_url p i c
  | Generic _ => prog_ret (inr no_device_flow)
  end.
Definition device_Verify (i : nat) (c : flow_ctx) : call verified :=
  match provider with
  | GitHub p => github_device_Verify p i c
  | OIDC p => oidc_device_Verify p i c
  | Generic _ => panic nil_pointer
  end.
Definition code_GetAuthorizationURL (i : nat) : call (string + error) :=
  match provider with
  | GitHub p => let* u := github_code_url p i in prog_ret (inl u)
  | OIDC p => oidc_code_url p i
  | Generic p => generic_code_url p i
  end.
Definition code_Verify (i : nat) (c : flow_ctx) (state code : string) : call verified :=
  match provider with
  | GitHub p => github_code_Verify p i c state code
  | OIDC p => oidc_code_Verify p i c state code
  | Generic p => generic_Verify p i c state code
  end.
Definition Deauthorize (i : nat) (c : flow_ctx) : call unit :=
  match provider with
  | GitHub p => github_Deauthorize p i c
  | OIDC _ => oidc_Deauthorize i c
  | Generic _ => prog_ret tt
  end.

(** [&oauth2Context{...}] *)
Definition new_context (success : bool) (meta : ConnectionAuthenticatedMetadata) (err : option error) (flow : option nat)
  : call AuthenticationContext :=
  let* s := oa_store in
  do* oa_update (λ s, MkOAuthStore (oa_flows s) (oa_contexts s ++ [flow])) in
  prog_ret (MkAuthContext (length (oa_contexts s)) success err meta).

Definition oauth2_OnDisconnect (ref : nat) : call unit :=
  let* s := oa_store in
  match oa_contexts s !! ref with
  | Some (Some flow) => Deauthorize flow (WithTimeout (10 * Second))
  | Some None => prog_ret tt
  | None => panic nil_pointer
  end.

Definition code_question : KeyboardInteractiveQuestion := MkQuestion "code" "Please paste the received code: " false.

(** The login with a code the user pastes; [None]: there is no such flow. *)
Definition code_login (meta : ConnectionAuthPendingMetadata)
    (challenge : string → list KeyboardInteractiveQuestion → call (gmap string string * option error))
  : call (option AuthenticationContext) :=
  let answered (c : AuthenticationContext) : call (option AuthenticationContext) := prog_ret (Some c) in
  if negb (SupportsAuthorizationCodeFlow provider) then prog_ret None
  else
    let* flow := GetAuthorizationCodeFlow meta in
    match flow with
    | inr _ => prog_ret None
    | inl i =>
        let* link := code_GetAuthorizationURL i in
        match link with
        | inr _ => prog_ret None
        | inl link =>
            let* '(answers, err) :=
              challenge (Sprintf ("Please click the following link to log in: %s" ++ newline ++ newline) [VString link]) [code_question] in
            match err with
            | Some _ => let* c := new_context false (AuthFailed meta) err (Some i) in answered c
            | None =>
                match answers !! "code" with
                | None => let* c := new_context false (AuthFailed meta) None (Some i) in answered c
                | Some code =>
                    match SplitN2 code "|" with
                    | (_, None) =>
                        let* c := new_context false (AuthFailed meta)
                          (user_message EAuthFailed "Authentication failed."
                             "Authentication failed because the return code did not contain the requisite state and code." [])
                          (Some i) in answered c
                    | (state, Some code) =>
                        let* '(_, authenticatedMeta, err) := code_Verify i TODO state code in
                        let* c := match err with
                                  | Some _ => new_context false authenticatedMeta err (Some i)
                                  | None => new_context true authenticatedMeta None (Some i)
                                  end in
                        answered c
                    end
                end
            end
        end
    end.

(** The login on another device; [None]: there is no such flow. *)
Definition device_login (meta : ConnectionAuthPendingMetadata)
    (challenge : string → list KeyboardInteractiveQuestion → call (gmap string string * option error))
  : call (option AuthenticationContext) :=
  let answered (c : AuthenticationContext) : call (option AuthenticationContext) := prog_ret (Some c) in
  if negb (SupportsDeviceFlow provider) then prog_ret None
  else
    let* flow := GetDeviceFlow meta in
    match flow with
    | inr _ => prog_ret None
    | inl i =>
        let* link := device_GetAuthorizationURL i TODO in
        match link with
        | inr _ => prog_ret None
        | inl (authorizationURL, userCode, expiration) =>
            let* '(_, err) :=
              challenge (Sprintf ("Please click the following link: %s" ++ newline ++ newline ++ "Enter the following code: %s" ++ newline)
                           [VString authorizationURL; VString userCode]) [] in
            match err with
            | Some _ => let* c := new_context false (AuthFailed meta) err (Some i) in answered c
            | None =>
                let* '(_, authenticatedMeta, err) := device_Verify i (WithTimeout expiration) in
                match err with
                | Some _ =>
                    do* Deauthorize i TODO in
                    let* c := new_context false authenticatedMeta err (Some i) in answered c
                | None => let* c := new_context true authenticatedMeta None (Some i) in answered c
                end
            end
        end
    end.

(** The error at the end is the variable that nothing has been assigned to. *)
Definition KeyboardInteractive : KeyboardInteractiveAuthenticator W := λ meta challenge,
  let* c := device_login meta challenge in
  match c with
  | Some c => prog_ret c
  | None =>
      let* c := code_login meta challenge in
      match c with
      | Some c => prog_ret c
      | None =>
          new_context false (AuthFailed meta)
            (Some (WrapUser None EAuthFailed "Authentication failed." "Authentication failed." [])) None
      end
  end.
End flows.

(** ** The page the user is sent back to

    [ServeHTTP] of the redirect server for the path "/"; other paths are files.
    [index]: reading [index.html], [template]: parsing it, and what it makes of
    the code. *)
Definition ServeHTTP_redirect (index : string + error) (template : string → (string → string + error) + error)
    (path state code : string) (files : ResponseWriter → ResponseWriter) (writer : ResponseWriter) : outcome ResponseWriter :=
  if decide (path ≠ "/") then Done (files writer)
  else
    match index with
    | inr err => Panic (Error err)
    | inl data =>
        match template data with
        | inr err => Panic (Error err)
        | inl tpl =>
            let writer := writer_AddHeader "Content-Type" "text/html;charset=utf-8" (WriteHeader 200 writer) in
            match tpl (state +:+ "|" +:+ code) with
            | inr err => Panic (Error err)
            | inl page => Done (writer_Write (Text page) writer)
            end
        end
    end.
