(* ===== verification/OAuth2Spec.v ===== *)
(** * What OAuth2 authentication guarantees

    Theorems on [OAuth2]: a login only succeeds on what the server has said about
    it, and where it waits for ever. *)

From stdpp Require Import base gmap strings list pretty sorting.
From Stdlib Require Import Ascii.
From S2P Require Import Prelude Base64 Messages Metadata MetadataJSON Handler GoStrings ConfigHTTP ConfigAuth Http.
From S2P Require Import Requests AuthIntegration OAuth2.

Local Open Scope Z_scope.

(** ** What is said on the network

    A server answers by everything it has been asked before; requests and answers
    are kept. *)
Abbreviation exchange := (http_Request * (http_Response + error))%type.
Abbreviation world := (list exchange * oauth_store)%type.

(** An answer in JSON to such a request; the client's own header goes with it. *)
Definition heard (c : client) (method url : string) (e : exchange) (status : Z) (j : json) : Prop :=
  rq_Method e.1 = method ∧ rq_URL e.1 = url ∧
  (∀ v, cl_extraHeaders c = [("authorization", [v])] → Header_Get "authorization" (rq_Header e.1) = v) ∧
  ∃ resp, e.2 = inl resp ∧ rs_StatusCode resp = status ∧ rs_Body resp = inl (Some j).

Section network.
Context (answer : list exchange → http_Request → http_Response + error).
Context (lib : Library) (NewRequest : string → string → option error).
Context (form : list (string * string) → string + error).

Definition Do (_ : http_Client) (rq : http_Request) : prog world (http_Response + error) :=
  λ w, let r := answer w.1 rq in Done (r, (w.1 ++ [(rq, r)], w.2)).

Lemma created_request c method u body rq :
  createRequestForURL NewRequest c method u body = Done (inl rq) →
  rq_Method rq = method ∧ rq_URL rq = u ∧
  (∀ v, cl_extraHeaders c = [("authorization", [v])] → Header_Get "authorization" (rq_Header rq) = v).
Proof.
  unfold createRequestForURL. intros H.
  destruct (match body with Some _ => _ | None => _ end) as [[buffer|]| |]; [|done..]. destruct (NewRequest method u); [done|].
  repeat case_decide; [| |done]; injection H as <-; (split_and!; [done|done|]); intros v ->;
    unfold Header_Get, Header_Set; cbn -[lookup CanonicalMIMEHeaderKey].
  all: rewrite !lookup_insert_ne by (by vm_compute); rewrite decide_True by done; unfold Header_Set; by rewrite lookup_insert_eq.
Qed.

(** What asking does: nothing is sent, or one request. *)
Definition asked (c : client) (method url : string) (read : bool → json → outcome (struct * option error)) (old : struct)
    (t : list exchange) (r : Z * option error * struct) (t' : list exchange) : Prop :=
  (t' = t ∧ r.1.2 ≠ None ∧ r.2 = old) ∨
  ∃ e, t' = t ++ [e] ∧
    ((r.1.2 ≠ None ∧ r.2 = old) ∨
     ∃ j err, heard c method url e r.1.1 j ∧ read (negb (cl_allowLaxDecoding c)) j = Done (r.2, err) ∧ (r.1.2 = None ↔ err = None)).

Lemma ask_url_asked c method url req read old w :
  wlp (ask_url NewRequest Do form c method url req read old) w (λ r w', w'.2 = w.2 ∧ asked c method url read old w.1 r w'.1).
Proof.
  unfold ask_url, client_RequestURL, requestURL, requestURLWithLogger, asked. apply wlp_bind.
  unfold wlp, of_outcome, prog_bind. destruct (createRequestForURL _ _ _ _ _) as [[rq|err]| |] eqn:Hrq; [|cbn; by auto|done..].
  destruct (created_request _ _ _ _ _ Hrq) as (Hm & Hu & Hh). cbn.
  destruct (answer w.1 rq) as [resp|err] eqn:Hans.
  2:{ destruct (as_message err); cbn; (split; [done|]); right; eexists; (split; [reflexivity|]); by left. }
  destruct (rs_Body resp) as [[j|]|err] eqn:Hb; cbn.
  2-3: split; [done|]; right; eexists; (split; [reflexivity|]); by left.
  destruct (read (negb (cl_allowLaxDecoding c)) j) as [[value [err|]]| |] eqn:Hread; cbn; [| |done..].
  all: split; [done|]; right; eexists; (split; [reflexivity|]); right; exists j; eexists; split_and!;
    [split_and!; [done..|]; by exists resp|exact Hread|done].
Qed.

(** A request that succeeds is heard and read. *)
Lemma ask_url_heard c method url req read old w :
  wlp (ask_url NewRequest Do form c method url req read old) w (λ r w', w'.2 = w.2 ∧ ∃ l, w'.1 = w.1 ++ l ∧
    (r.1.2 = None → ∃ e j, l = [e] ∧ heard c method url e r.1.1 j ∧ read (negb (cl_allowLaxDecoding c)) j = Done (r.2, None))).
Proof.
  eapply wlp_mono; [apply ask_url_asked|]. intros r w' [Hs Ha]. split; [done|].
  destruct Ha as [(-> & Hne & _)|(e & -> & Ha)]; [exists []; rewrite app_nil_r; split; [done|]; intros; congruence|].
  exists [e]. split; [done|]. intros Hn. destruct Ha as [[Hne _]|(j & err & Hh & Hr & Hiff)]; [congruence|].
  exists e, j. rewrite (proj1 Hiff Hn) in Hr. done.
Qed.

Lemma NewClientWithHeaders_is cfg headers lax c :
  NewClientWithHeaders lib cfg headers lax = Done (inl c) → cl_config c = cfg ∧ cl_extraHeaders c = headers ∧ cl_allowLaxDecoding c = lax.
Proof.
  unfold NewClientWithHeaders. destruct (HTTPClient_ValidateWithCerts lib cfg); [|done].
  destruct (createTLSConfig _ _); [|done..]. by intros [= <-].
Qed.

Lemma wlp_http_client {A} cfg headers lax (k : client + error → prog world A) w Q :
  (∀ r, (∀ c, r = inl c → cl_config c = cfg ∧ cl_extraHeaders c = headers ∧ cl_allowLaxDecoding c = lax) → wlp (k r) w Q) →
  wlp (let* r := http_client lib cfg headers lax in k r) w Q.
Proof.
  intros Hk. unfold http_client, of_outcome, wlp, prog_bind. destruct (NewClientWithHeaders lib cfg headers lax) as [r| |] eqn:Hr; [|done..].
  apply Hk. intros c ->. by apply NewClientWithHeaders_is.
Qed.

(** A result that is not a success. *)
Ltac no_success := apply wlp_ret; cbn; let H := fresh in intros H; discriminate H.

(** *** What is known of a flow while it is used *)
Section flow.
Context (url_parse : string → URL + error) (waits : oauth_loop → Z → nat) (rounds_seen : nat).
Context (t0 : list exchange) (i : nat) (meta : ConnectionAuthPendingMetadata) (c : client) (disc : struct).

Definition flow_known (w : world) : Prop :=
  ∃ f, oa_flows w.2 !! i = Some f ∧ fl_meta f = meta ∧ fl_client f = c ∧ fl_discovery f = disc.

(** What has been exchanged since [t0] has the property. *)
Definition since (P : list exchange → Prop) (w : world) : Prop := ∃ l, w.1 = t0 ++ l ∧ P l.

Definition known (P : list exchange → Prop) (w : world) : Prop := flow_known w ∧ since P w.

(** Properties that further exchanges do not change. *)
Definition lasting (P : list exchange → Prop) : Prop := ∀ l l', P l → P (l ++ l').

Lemma lasting_true : lasting (λ _, True).
Proof. done. Qed.

Lemma known_more P (w w' : world) l : lasting P → known P w → w'.2 = w.2 → w'.1 = w.1 ++ l → known P w'.
Proof.
  intros HP [(f & Hf) (l0 & Hl & Hp)] H2 H1. split; [exists f; by rewrite H2|]. exists (l0 ++ l). rewrite H1, Hl, app_assoc. auto.
Qed.

Lemma wlp_true {A} (k : prog world A) w : wlp k w (λ _ _, True).
Proof. unfold wlp. by destruct (k w) as [[]| |]. Qed.

Lemma known_flow_at {A} (k : oauth_flow → prog world A) P w Q :
  known P w → (∀ f, fl_meta f = meta → fl_client f = c → fl_discovery f = disc → wlp (k f) w Q) → wlp (let* f := flow_at i in k f) w Q.
Proof.
  intros [(f & Hf & H1 & H2 & H3) _] Hk. unfold flow_at, oa_store. unfold wlp. rewrite bind_bind. unfold prog_bind at 1. cbn.
  rewrite Hf. by apply Hk.
Qed.

Lemma known_update_flow {A} g (k : prog world A) P w Q :
  known P w → (∀ f, fl_meta (g f) = fl_meta f ∧ fl_client (g f) = fl_client f ∧ fl_discovery (g f) = fl_discovery f) →
  (∀ w', known P w' → w'.1 = w.1 → wlp k w' Q) → wlp (do* update_flow i g in k) w Q.
Proof.
  intros [(f & Hf & H1 & H2 & H3) Hs] Hg Hk. unfold wlp, update_flow, oa_update, prog_bind. apply Hk; [|done].
  split; [|done]. exists (g f). cbn. rewrite list_lookup_alter_eq, Hf. destruct (Hg f) as (G1 & G2 & G3). split_and!; [done|congruence..].
Qed.

(** A request in the middle of a login. *)
Lemma known_ask {A} (k : Z * option error * struct → prog world A) P w Q c' method url req read old :
  lasting P → known P w →
  (∀ r w', known P w' →
    (r.1.2 = None → ∃ e j l, w'.1 = t0 ++ l ++ [e] ∧ P l ∧ heard c' method url e r.1.1 j ∧ read (negb (cl_allowLaxDecoding c')) j = Done (r.2, None)) →
    wlp (k r) w' Q) →
  wlp (let* r := ask_url NewRequest Do form c' method url req read old in k r) w Q.
Proof.
  intros HP Hw Hk. apply wlp_bind. eapply wlp_mono; [apply ask_url_heard|]. intros r w' (H2 & l & H1 & Hh).
  apply Hk; [by eapply known_more|]. intros Hn. destruct (Hh Hn) as (e & j & -> & H). destruct Hw as [_ (l0 & Hl & Hp)].
  exists e, j, l0. rewrite H1, Hl, app_assoc. done.
Qed.
End flow.

(** ** GitHub *)
Section github.
Context (url_parse : string → URL + error) (waits : oauth_loop → Z → nat) (rounds_seen : nat) (p : gitHubProvider).

(** GitHub has handed out the token, with the permissions that are asked for. *)
Definition github_issued (c : client) (token : string) (l : list exchange) : Prop :=
  ∃ e j r, e ∈ l ∧ heard c "POST" (hc_URL (cl_config c) ++ "/login/oauth/access_token") e 200 j ∧
    read_struct gitHubAccessTokenResponse ∅ (negb (cl_allowLaxDecoding c)) j = Done (r, None) ∧
    text_of "access_token" r = token ∧ checkGrantedScopes p (text_of "scope" r) = None.

Lemma github_issued_lasting c token : lasting (github_issued c token).
Proof. intros l l' (e & j & r & He & H). exists e, j, r. split; [apply elem_of_app; by left|done]. Qed.

(** The last thing that was said is who the user of the token is. *)
Definition github_identified (meta : ConnectionAuthPendingMetadata) (token username : string) (l : list exchange) : Prop :=
  ∃ l0 e j r c, l = l0 ++ [e] ∧ heard c "GET" (hc_URL (apiClientConfig p) ++ "/user") e 200 j ∧
    (token ≠ "" → Header_Get "authorization" (rq_Header e.1) = "bearer " +:+ token) ∧
    read_struct gitHubUserResponse ∅ false j = Done (r, None) ∧ text_of "login" r = username ∧
    (enforceUsername p = true → username = Username meta) ∧ (require2FA p = true → flag_of "two_factor_authentication" r = Some true).

Section flow.
Context (t0 : list exchange) (i : nat) (meta : ConnectionAuthPendingMetadata) (c : client).
Abbreviation known := (known t0 i meta c ∅).
Abbreviation nothing := (λ _ : list exchange, True).

Definition token_evidence (r : string * option error) (w : world) : Prop :=
  known nothing w ∧ (r.2 = None → known (github_issued c r.1) w).

Lemma token_known r w : known nothing w → (r.2 = None → since t0 (github_issued c r.1) w) → token_evidence r w.
Proof. intros [H1 H2] H. split; [done|]. intros Hn. split; [done|by apply H]. Qed.

Lemma github_issued_last w e j l r : w.1 = t0 ++ l ++ [e] →
  heard c "POST" (hc_URL (cl_config c) ++ "/login/oauth/access_token") e 200 j →
  read_struct gitHubAccessTokenResponse ∅ (negb (cl_allowLaxDecoding c)) j = Done (r, None) →
  checkGrantedScopes p (text_of "scope" r) = None → since t0 (github_issued c (text_of "access_token" r)) w.
Proof. intros Hw Hh Hr Hs. exists (l ++ [e]). split; [done|]. exists e, j, r. split_and!; try done. apply elem_of_app. right. by left. Qed.

Lemma github_code_token_known cx code w : known nothing w →
  wlp (github_code_token NewRequest Do form waits rounds_seen p i cx code) w token_evidence.
Proof.
  intros Hw. unfold github_code_token, ask. apply wlp_loop with (I := λ _, known nothing); [| |done].
  2:{ intros s w1 H1. apply wlp_ret, token_known; [done|by intros [=]]. }
  clear w Hw. intros s w Hw. eapply known_flow_at; [done|]. intros f _ -> _.
  eapply known_ask; [apply lasting_true|done|]. intros [[st err] r] w1 H1 Hh. case_decide as Hst; [by apply wlp_ret|].
  destruct err as [err|]; [by apply wlp_ret|]. apply wlp_ret, token_known; [done|]. cbn. intros Hs.
  destruct (Hh eq_refl) as (e & j & l & Hw1 & _ & Hheard & Hread). cbn in *. subst st.
  by eapply github_issued_last.
Qed.

Lemma github_device_token_known cx w : known nothing w →
  wlp (github_device_token NewRequest Do form waits rounds_seen p i cx) w token_evidence.
Proof.
  intros Hw. unfold github_device_token, ask. apply wlp_loop with (I := λ _, known nothing); [| |done].
  2:{ intros s w1 H1. apply wlp_ret, token_known; [done|by intros [=]]. }
  clear w Hw. intros s w Hw. eapply known_flow_at; [done|]. intros f _ -> _.
  eapply known_ask; [apply lasting_true|done|]. intros [[st err] r] w1 H1 Hh. case_decide as Hst; [by apply wlp_ret|].
  destruct err as [err|]; [by apply wlp_ret|]. cbn zeta. case_decide; [by apply wlp_ret|]. case_decide.
  { case_decide; apply wlp_ret; [|done]. apply token_known; [done|by intros [=]]. }
  destruct (device_refusal _); [apply wlp_ret, token_known; [done|by intros [=]]|]. case_decide; [|by apply wlp_ret].
  apply wlp_ret, token_known; [done|]. cbn. intros Hs.
  destruct (Hh eq_refl) as (e & j & l & Hw1 & _ & Hheard & Hread). cbn in *. subst st.
  by eapply github_issued_last.
Qed.

Lemma github_user_success m0 t t' r :
  (github_user p m0 t t' r).2 = None →
  text_of "login" r = AuthenticatedUsername (github_user p m0 t t' r).1.2 ∧
  (enforceUsername p = true → AuthenticatedUsername (github_user p m0 t t' r).1.2 = Username m0) ∧
  (require2FA p = true → flag_of "two_factor_authentication" r = Some true).
Proof.
  unfold github_user. case_decide as Hen; [done|].
  assert (enforceUsername p = true → text_of "login" r = Username m0) as Hen'.
  { intros H. destruct (decide (text_of "login" r = Username m0)); [done|]. by destruct Hen. }
  destruct (flag_of _ r) as [[]|], (require2FA p); try done.
Qed.

Definition github_evidence (token : string) (m : ConnectionAuthenticatedMetadata) (w : world) : Prop :=
  since t0 (λ l, github_issued c token l ∧ github_identified meta token (AuthenticatedUsername m) l) w.

Lemma github_getIdentity_known cx token w : known (github_issued c token) w →
  wlp (github_getIdentity lib NewRequest Do form waits rounds_seen p i cx meta token) w
    (λ r w', r.2 = None → github_evidence token r.1.2 w').
Proof.
  intros Hw. unfold github_getIdentity, getAPIClient. apply wlp_bind. apply wlp_http_client. intros r Hr. apply wlp_ret.
  eapply known_flow_at; [done|]. intros f _ _ _. destruct r as [api|err]; [|no_success]. destruct (Hr _ eq_refl) as (Hcfg & Hhd & Hlax).
  apply wlp_loop with (I := λ _, known (github_issued c token)); [| |done].
  2:{ intros s w1 H1. eapply known_flow_at; [done|]. intros f' _ _ _. no_success. }
  clear w Hw. intros s w Hw. unfold ask. eapply known_ask; [apply github_issued_lasting|done|]. intros [[st err] resp] w1 H1 Hh.
  destruct err as [err|]; [by apply wlp_ret|]. destruct (decide (st = 200)) as [->|]; [|by apply wlp_ret].
  eapply known_flow_at; [done|]. intros f' _ _ _. apply wlp_ret. cbn.
  destruct (Hh eq_refl) as (e & j & l & Hw1 & Hl & Hheard & Hread). cbn in *. rewrite Hlax in Hread. rewrite Hcfg in Hheard.
  intros Hnone. exists (l ++ [e]). split; [done|]. split; [by apply github_issued_lasting|].
  destruct (github_user_success meta (fl_accessToken f') token resp Hnone) as (Hlogin & Hen & H2).
  exists l, e, j, resp, api. split_and!; try done. intros Hne. apply Hheard. by rewrite Hhd, decide_True.
Qed.

Lemma github_with_token_known cx on_error token err w : token_evidence (token, err) w →
  wlp (github_with_token lib NewRequest Do form waits rounds_seen p i cx on_error token err) w
    (λ r w', r.2 = None → ∃ token, github_evidence token r.1.2 w').
Proof.
  intros [Hw Htok]. unfold github_with_token. eapply known_update_flow; [exact Hw|done|]. intros w1 H1 Hsame. destruct err as [err|].
  - apply wlp_bind. eapply wlp_mono; [apply wlp_true|]. intros [] w2 _. apply wlp_bind. eapply wlp_mono; [apply wlp_true|]. intros f w3 _. no_success.
  - assert (known (github_issued c token) w1) as H2.
    { destruct (Htok eq_refl) as [_ (l & Hl & Hp)]. split; [apply H1|]. exists l. by rewrite Hsame. }
    eapply known_flow_at; [exact H2|]. intros f -> _ _. eapply wlp_mono; [by apply github_getIdentity_known|].
    intros r w2 Hr Hn. exists token. by apply Hr.
Qed.

Lemma github_code_Verify_known cx state code w : known nothing w →
  wlp (github_code_Verify lib NewRequest Do form waits rounds_seen p i cx state code) w
    (λ r w', r.2 = None → state = ConnectionID (pending_conn meta) ∧ ∃ token, github_evidence token r.1.2 w').
Proof.
  intros Hw. unfold github_code_Verify. eapply known_flow_at; [done|]. intros f -> _ _. case_decide as Hst; [no_success|].
  apply wlp_bind. eapply wlp_mono; [by apply github_code_token_known|]. intros [token err] w1 H1. cbn beta iota.
  eapply wlp_mono; [by apply github_with_token_known|]. intros r w2 Hr Hn. split; [done|by apply Hr].
Qed.

Lemma github_device_Verify_known cx w : known nothing w →
  wlp (github_device_Verify lib NewRequest Do form waits rounds_seen p i cx) w (λ r w', r.2 = None → ∃ token, github_evidence token r.1.2 w').
Proof.
  intros Hw. unfold github_device_Verify. apply wlp_bind. eapply wlp_mono; [by apply github_device_token_known|]. intros [token err] w1 H1.
  by apply github_with_token_known.
Qed.

Lemma github_device_url_known cx w : known nothing w →
  wlp (github_device_url NewRequest Do form waits rounds_seen p i cx) w (λ _, known nothing).
Proof.
  intros Hw. unfold github_device_url, ask. eapply known_flow_at; [done|]. intros f _ -> _.
  apply wlp_loop with (I := λ _, known nothing); [| |done].
  2:{ intros s w1 H1. by apply wlp_ret. }
  clear w Hw. intros s w Hw. eapply known_ask; [apply lasting_true|done|]. intros [[st err] resp] w1 H1 _.
  destruct err as [err|]; [by apply wlp_ret|]. case_decide; [|case_decide; by apply wlp_ret].
  eapply known_update_flow; [done|done|]. intros w2 H2 _. by apply wlp_ret.
Qed.
End flow.
End github.

(** ** OpenID Connect *)

(** The server at this address has named the token. *)
Definition said_token (url token : string) (l : list exchange) : Prop :=
  token = "" ∨ ∃ e resp ms k, e ∈ l ∧ rq_Method e.1 = "POST" ∧ rq_URL e.1 = url ∧ e.2 = inl resp ∧ rs_Body resp = inl (Some (JObject ms)) ∧
    (k, JString token) ∈ ms ∧ same_name k "access_token" = true.

Lemma said_token_lasting url token : lasting (said_token url token).
Proof.
  intros l l' [->|(e & resp & ms & k & He & H)]; [by left|right]. exists e, resp, ms, k. split; [apply elem_of_app; by left|done].
Qed.

(** A string field of a struct was there before, or comes from the document. *)
Definition from_document (name text : string) (j : json) : Prop :=
  ∃ ms k, j = JObject ms ∧ (k, JString text) ∈ ms ∧ same_name k name = true.

Lemma read_field_text fields strict r m name :
  Forall (λ f : string * field_kind, f.1 = name → f.2 = KString) fields →
  text_of name (read_field fields strict r m).1 = text_of name r.1 ∨
  m.2 = JString (text_of name (read_field fields strict r m).1) ∧ same_name m.1 name = true.
Proof.
  intros Hall. unfold read_field. destruct (find _ fields) as [[f k]|] eqn:Hf; [|destruct strict; by left].
  apply find_some in Hf as [Hin Hsame]. rewrite Forall_forall in Hall. specialize (Hall _ ltac:(by apply list_elem_of_In)). cbn in *.
  set (r' := match m.2, k with JNull, KBoolPointer => _ | JNull, _ => _ | j, k => _ end).
  assert (r'.1 = r.1 ∨ fits k m.2 = true ∧ r'.1 = <[f:=m.2]> r.1 ∨ k = KBoolPointer ∧ r'.1 = delete f r.1) as Hr.
  { subst r'. destruct m.2, k; auto; by (destruct (fits _ _); auto). }
  destruct Hr as [->|[[Hfit ->]|[-> ->]]]; [by left| |].
  - destruct (decide (f = name)) as [->|Hne]; [|left; unfold text_of; by rewrite lookup_insert_ne].
    rewrite (Hall eq_refl) in Hfit. right. unfold text_of. rewrite lookup_insert_eq. by destruct m.2.
  - left. unfold text_of. rewrite lookup_delete_ne; [done|]. intros ->. by specialize (Hall eq_refl).
Qed.

Lemma read_struct_text fields old strict j r err name :
  read_struct fields old strict j = Done (r, err) → Forall (λ f : string * field_kind, f.1 = name → f.2 = KString) fields →
  text_of name r = text_of name old ∨ from_document name (text_of name r) j.
Proof.
  intros Hr Hall. unfold read_struct in Hr. destruct j as [| | | | |ms]; try (injection Hr as <- _; by left).
  injection Hr as Hr. assert (text_of name r = text_of name old ∨ ∃ k, (k, JString (text_of name r)) ∈ ms ∧ same_name k name = true) as H.
  { change old with (old, None : option error).1 at 1. replace r with (foldl (read_field fields strict) (old, None) ms).1 by by rewrite Hr.
    clear Hr r. generalize (old, None : option error). induction ms as [|m ms IH] using rev_ind; intros r0; [by left|].
    rewrite foldl_snoc. destruct (read_field_text fields strict (foldl (read_field fields strict) r0 ms) m name Hall) as [->|[Hm Hs]].
    - destruct (IH r0) as [->|(k & Hk & Hs)]; [by left|right]. exists k. split; [apply elem_of_app; by left|done].
    - right. exists m.1. split; [|done]. apply elem_of_app. right. rewrite <- Hm. destruct m. by left. }
  destruct H as [H|(k & Hk & Hs)]; [by left|right]. by exists ms, k.
Qed.

(** The answer to a request for a token states this error, read as the client
    reads it. *)
Definition states_error (strict : bool) (error : string) (j : json) : Prop :=
  ∃ old r, read_struct oidcAccessTokenResponse old strict j = Done (r, None) ∧ text_of "error" r = error.

Section codes.
Context (url_parse : string → URL + error) (waits : oauth_loop → Z → nat) (rounds_seen : nat).
Context (t0 : list exchange) (i : nat) (meta : ConnectionAuthPendingMetadata) (c : client) (disc : struct).
Context (P : list exchange → Prop) (HP : lasting P).
Abbreviation known := (known t0 i meta c disc).

Definition said (url token : string) (l : list exchange) : Prop := P l ∧ said_token url token l.

Lemma said_lasting url token : lasting (said url token).
Proof. intros l l' [H1 H2]. split; [by apply HP|by apply said_token_lasting]. Qed.

(** The last thing that was said is an answer to a request for a token; [error]
    is the error in it. *)
Definition answered (url : string) (status : Z) (error : string) (w : world) : Prop :=
  since t0 (λ l, ∃ l0 e j, l = l0 ++ [e] ∧ heard c "POST" url e status j ∧ states_error (negb (cl_allowLaxDecoding c)) error j) w.

(** Asking for a token, into a struct that may have been used before. *)
Lemma known_ask_token {A} (k : Z * option error * struct → prog world A) w Q url req old :
  known (said url (text_of "access_token" old)) w →
  (∀ r w', known (said url (text_of "access_token" r.2)) w' → (r.1.2 = None → answered url r.1.1 (text_of "error" r.2) w') → wlp (k r) w' Q) →
  wlp (let* r := ask_url NewRequest Do form c "POST" url req (read_struct oidcAccessTokenResponse old) old in k r) w Q.
Proof.
  intros Hw Hk. apply wlp_bind. eapply wlp_mono; [apply ask_url_asked|]. intros r w' [H2 Ha]. apply Hk.
  2:{ intros Hn. destruct Ha as [(_ & ? & _)|(e & H1 & [[? _]|(j & err & Hh & Hrd & Hiff)])]; [done..|].
      destruct Hw as [_ (l & Hl & _)]. exists (l ++ [e]). rewrite H1, Hl, app_assoc. split; [done|]. exists l, e, j.
      split_and!; [done|done|]. exists old, r.2. by rewrite Hrd, (proj1 Hiff Hn). }
  destruct Ha as [(H1 & _ & ->)|(e & H1 & Ha)].
  { eapply known_more with (l := []); [apply said_lasting|done|done|by rewrite app_nil_r]. }
  assert (known (said url (text_of "access_token" old)) w') as Hw' by (eapply known_more; [apply said_lasting|done|done|done]).
  destruct Ha as [[_ ->]|(j & err & Hh & Hr & _)]; [done|].
  destruct (read_struct_text _ _ _ _ _ _ "access_token" Hr) as [->|(ms & n & -> & Hin & Hname)]; [by repeat constructor|done|].
  destruct Hw as [_ (l & Hl & Hp)]. split; [apply Hw'|]. exists (l ++ [e]). rewrite H1, Hl, app_assoc. split; [done|].
  split; [by apply HP, Hp|]. right. destruct Hh as (Hm & Hu & _ & resp & He & _ & Hb). exists e, resp, ms, n.
  split_and!; try done. apply elem_of_app. right. by left.
Qed.

Definition token_said (url : string) (r : string * option error) (w : world) : Prop :=
  known P w ∧ (r.2 = None → known (said url r.1) w).

Lemma said_known url token w : known (said url token) w → known P w.
Proof. intros [H1 (l & Hl & Hp & _)]. split; [done|]. by exists l. Qed.

Lemma known_said_nothing url w : known P w → known (said url "") w.
Proof. intros [H1 (l & Hl & Hp)]. split; [done|]. exists l. split; [done|]. split; [done|by left]. Qed.

Lemma code_token_known cx url clientID redirect code failed server tcode timeout w : known P w →
  wlp (code_token NewRequest Do form waits rounds_seen c cx url clientID redirect code oidcAccessTokenResponse failed server tcode timeout) w
    (λ r w', token_said url r w' ∧ (r.2 = None → answered url 200 "" w')).
Proof.
  intros Hw. unfold code_token.
  apply wlp_loop with (I := λ (s : option error * struct) w, known (said url (text_of "access_token" s.2)) w); [| |by apply known_said_nothing].
  - clear w Hw. intros [e0 old] w Hw. eapply known_ask_token; [exact Hw|]. intros [[st err] r] w1 H1 Hans. cbn beta iota zeta.
    pose proof (said_known _ _ _ H1) as H1'.
    case_decide as Hok; [|case_decide; apply wlp_ret; [|done]; by split; [split|]].
    destruct Hok as (-> & -> & Herr). apply wlp_ret. split; [by split|]. intros _. rewrite <- Herr. by apply Hans.
  - intros s w1 H1. apply wlp_ret. split; [split; [by eapply said_known|done]|done].
Qed.

Lemma oidc_device_token_known (p : oidcProvider) cx w : known P w →
  wlp (oidc_device_token NewRequest Do form waits rounds_seen p i cx) w (token_said (text_of "token_endpoint" disc)).
Proof.
  intros Hw. unfold oidc_device_token. apply wlp_loop with (I := λ _, known P); [| |done].
  2:{ intros s w1 H1. apply wlp_ret. by split. }
  clear w Hw. intros s w Hw. eapply known_flow_at; [done|]. intros f _ -> ->.
  eapply known_ask_token; [by apply known_said_nothing|]. intros [[st err] r] w1 H1 _. pose proof (said_known _ _ _ H1) as H1'.
  case_decide; [by apply wlp_ret|]. destruct err as [err|]; [by apply wlp_ret|]. cbn zeta.
  case_decide; [by apply wlp_ret|]. case_decide; [apply wlp_ret; by split|].
  destruct (device_refusal _); [apply wlp_ret; by split|]. case_decide; apply wlp_ret; [|done]. by split.
Qed.
End codes.

Section oidc.
Context (url_parse : string → URL + error) (waits : oauth_loop → Z → nat) (rounds_seen : nat) (p : oidcProvider).

(** The server has told where it answers what. *)
Definition oidc_discovered (disc : struct) (l : list exchange) : Prop :=
  ∃ e j c, e ∈ l ∧ heard c "GET" (hc_URL (oidc_HTTP (op_config p)) ++ ".well-known/openid-configuration") e 200 j ∧
    read_struct oidcDiscoveryResponse ∅ false j = Done (disc, None).

Lemma oidc_discovered_lasting disc : lasting (oidc_discovered disc).
Proof. intros l l' (e & j & c & He & H). exists e, j, c. split; [apply elem_of_app; by left|done]. Qed.

(** The last thing that was said is who the user of the token is. *)
Definition oidc_identified (disc : struct) (token username : string) (l : list exchange) : Prop :=
  ∃ l0 e j r c status, l = l0 ++ [e] ∧ heard c "GET" (text_of "userinfo_endpoint" disc) e status j ∧ 100 < status < 300 ∧
    Header_Get "authorization" (rq_Header e.1) = "Bearer " +:+ token ∧ read_map false j = Done (r, None) ∧
    r !! oidc_UsernameField (op_config p) = Some (JString username).

Section flow.
Context (t0 : list exchange) (i : nat) (meta : ConnectionAuthPendingMetadata) (c : client) (disc : struct).
Abbreviation known := (known t0 i meta c disc).
Abbreviation found := (oidc_discovered disc).

Definition oidc_evidence (m : ConnectionAuthenticatedMetadata) (w : world) : Prop :=
  ∃ token, since t0 (λ l, found l ∧ said_token (text_of "token_endpoint" disc) token l ∧ oidc_identified disc token (AuthenticatedUsername m) l) w.

Lemma oidc_getIdentity_known cx token w : known (said found (text_of "token_endpoint" disc) token) w →
  wlp (oidc_getIdentity lib NewRequest Do form waits rounds_seen p i cx meta token) w (λ r w', r.2 = None → oidc_evidence r.1.2 w').
Proof.
  set (P := said _ _ _). assert (lasting P) as HP by apply said_lasting, oidc_discovered_lasting.
  intros Hw. unfold oidc_getIdentity. apply wlp_http_client. intros [api|err] Hr; [|no_success]. destruct (Hr _ eq_refl) as (Hcfg & Hhd & Hlax).
  eapply known_flow_at; [done|]. intros f _ _ ->.
  apply wlp_loop with (I := λ _, known P); [| |done].
  2:{ intros s w1 H1. no_success. }
  clear w Hw. intros s w Hw. eapply known_ask; [done|done|]. intros [[st err] resp] w1 H1 Hh.
  destruct err as [err|]; [by apply wlp_ret|]. case_decide as Hst; [|by apply wlp_ret]. apply wlp_ret.
  destruct (Hh eq_refl) as (e & j & l & Hw1 & Hl & Hheard & Hread). cbn in *. rewrite Hlax in Hread.
  intros Hnone. unfold oidc_user in *. destruct (resp !! _) as [v|] eqn:Hv; [|done]. destruct v as [| | |username| |]; try done.
  exists token, (l ++ [e]). split; [done|]. destruct (HP l [e] Hl) as [Hd Hs]. split_and!; [done|done|].
  exists l, e, j, resp, api, st. split_and!; try done; [lia..|]. by apply Hheard.
Qed.

Lemma oidc_with_token_known cx token err w : token_said t0 i meta c disc found (text_of "token_endpoint" disc) (token, err) w →
  wlp (oidc_with_token lib NewRequest Do form waits rounds_seen p i cx token err) w (λ r w', r.2 = None → oidc_evidence r.1.2 w').
Proof.
  intros [Hw Htok]. unfold oidc_with_token. eapply known_update_flow; [exact Hw|done|]. intros w1 H1 Hsame. destruct err as [err|].
  - apply wlp_bind. eapply wlp_mono; [apply wlp_true|]. intros [] w2 _. apply wlp_bind. eapply wlp_mono; [apply wlp_true|]. intros f w3 _. no_success.
  - assert (known (said found (text_of "token_endpoint" disc) token) w1) as H2.
    { destruct (Htok eq_refl) as [_ (l & Hl & Hp)]. split; [apply H1|]. exists l. by rewrite Hsame. }
    eapply known_flow_at; [exact H2|]. intros f -> _ _. by apply oidc_getIdentity_known.
Qed.

Lemma oidc_device_Verify_known cx w : known found w →
  wlp (oidc_device_Verify lib NewRequest Do form waits rounds_seen p i cx) w (λ r w', r.2 = None → oidc_evidence r.1.2 w').
Proof.
  intros Hw. unfold oidc_device_Verify. apply wlp_bind.
  eapply wlp_mono; [apply oidc_device_token_known; [apply oidc_discovered_lasting|exact Hw]|]. intros [token err] w1 H1.
  by apply oidc_with_token_known.
Qed.

Lemma oidc_code_Verify_known cx state code w : known found w →
  wlp (oidc_code_Verify lib NewRequest Do form waits rounds_seen p i cx state code) w (λ r w', r.2 = None → oidc_evidence r.1.2 w').
Proof.
  intros Hw. unfold oidc_code_Verify. eapply known_flow_at; [done|]. intros f _ -> ->. apply wlp_bind.
  eapply wlp_mono; [eapply code_token_known; [apply oidc_discovered_lasting|exact Hw]|]. intros [token err] w1 [H1 _].
  by apply oidc_with_token_known.
Qed.

Lemma oidc_device_url_known cx w : known found w →
  wlp (oidc_device_url NewRequest Do form waits rounds_seen p i cx) w (λ _, known found).
Proof.
  intros Hw. unfold oidc_device_url. eapply known_flow_at; [done|]. intros f _ -> ->.
  apply wlp_loop with (I := λ _, known found); [| |done].
  2:{ intros s w1 H1. by apply wlp_ret. }
  clear w Hw. intros s w Hw. eapply known_ask; [apply oidc_discovered_lasting|done|]. intros [[st err] resp] w1 H1 _.
  destruct err as [err|]; [by apply wlp_ret|]. case_decide; [|case_decide; by apply wlp_ret].
  eapply known_update_flow; [done|done|]. intros w2 H2 _. by apply wlp_ret.
Qed.
End flow.

Lemma Discover_known t0 c w :
  cl_config c = with_form_encoding (oidc_HTTP (op_config p)) → cl_allowLaxDecoding c = true → since t0 (λ _, True) w →
  wlp (Discover NewRequest Do form rounds_seen c) w (λ r w', since t0 (λ _, True) w' ∧ ∀ disc, r = inl disc → since t0 (oidc_discovered disc) w').
Proof.
  intros Hcfg Hlax Hw. unfold Discover, ask.
  apply wlp_loop with (I := λ _ w1, since t0 (λ _, True) w1); [| |done].
  2:{ intros s w1 H1. by apply wlp_block. }
  intros s w1 (l0 & Hl0 & _). apply wlp_bind. eapply wlp_mono; [apply ask_url_heard|]. intros [[st err] r] w2 (Hs & l & Hl & Hh).
  assert (since t0 (λ _, True) w2) as Hw2 by (exists (l0 ++ l); rewrite Hl, Hl0, app_assoc; done).
  case_decide as Hok; [|case_decide; apply wlp_ret; [split; [done|by intros disc [=]]|done]].
  apply wlp_ret. split; [done|]. intros disc [= ->]. destruct Hok as [-> ->].
  destruct (Hh eq_refl) as (e & j & -> & Hheard & Hread). cbn in *. rewrite Hlax in Hread.
  exists (l0 ++ [e]). split; [rewrite Hl, Hl0, app_assoc; done|]. exists e, j, c. rewrite Hcfg in Hheard. split_and!; [apply elem_of_app; right; by left|done|done].
Qed.
End oidc.

(** ** A generic server *)

Lemma generic_Verify_known waits rounds_seen p t0 i meta c cx state code w :
  known t0 i meta c ∅ (λ _, True) w →
  wlp (generic_Verify NewRequest Do form waits rounds_seen p i cx state code) w (λ r w',
    r.2 = None → AuthenticatedUsername r.1.2 = "" ∧
    since t0 (λ l, ∃ l0 e j, l = l0 ++ [e] ∧ heard c "POST" (hc_URL (cl_config c)) e 200 j ∧
      states_error (negb (cl_allowLaxDecoding c)) "" j) w').
Proof.
  intros Hw. unfold generic_Verify. eapply known_flow_at; [done|]. intros f _ -> _. apply wlp_bind.
  eapply wlp_mono; [eapply code_token_known; [apply lasting_true|exact Hw]|]. intros [token err] w1 [[H1 Htok] Hans]. cbn in *.
  eapply known_update_flow; [exact H1|done|]. intros w2 H2 Hsame. eapply known_flow_at; [done|]. intros f' _ _ _. apply wlp_ret.
  destruct err as [err|]; [done|]. intros _. split; [done|].
  destruct (Hans eq_refl) as (l & Hl & Hlast). exists l. by rewrite Hsame.
Qed.

(** ** The login *)
Section login.
Context (url_parse : string → URL + error) (waits : oauth_loop → Z → nat) (rounds_seen : nat) (provider : OAuth2Provider).

(** What the server has said about a login that succeeds. *)
Definition proved (meta : ConnectionAuthPendingMetadata) (username : string) (l : list exchange) : Prop :=
  match provider with
  | GitHub p => ∃ c token, cl_config c = wwwClientConfig p ∧ github_issued p c token l ∧ github_identified p meta token username l
  | OIDC p =>
      ∃ disc token, oidc_discovered p disc l ∧ said_token (text_of "token_endpoint" disc) token l ∧ oidc_identified p disc token username l
  | Generic p =>
      let url := hc_URL (gen_TokenEndpoint (np_config p)) in
      username = "" ∧ ∃ c l0 e j, l = l0 ++ [e] ∧ heard c "POST" url e 200 j ∧ states_error (negb (cl_allowLaxDecoding c)) "" j
  end.

(** The user answers questions and leaves the rest alone. *)
Definition quiet_challenge (challenge : string → list KeyboardInteractiveQuestion → prog world (gmap string string * option error)) : Prop :=
  ∀ text questions w, wlp (challenge text questions) w (λ _ w', w' = w).

(** What is known of a flow that has been created. *)
Definition created (t0 : list exchange) (meta : ConnectionAuthPendingMetadata) (i : nat) (w : world) : Prop :=
  ∃ c disc,
    match provider with
    | GitHub p => cl_config c = wwwClientConfig p ∧ disc = ∅ ∧ known t0 i meta c disc (λ _, True) w
    | OIDC p => known t0 i meta c disc (oidc_discovered p disc) w
    | Generic p => cl_config c = with_form_encoding (gen_TokenEndpoint (np_config p)) ∧ disc = ∅ ∧ known t0 i meta c disc (λ _, True) w
    end.

Lemma created_flow t0 f w (P : list exchange → Prop) :
  since t0 P w →
  wlp (flow_created (inl f)) w (λ r w', ∃ i, r = inl i ∧ known t0 i (fl_meta f) (fl_client f) (fl_discovery f) P w').
Proof.
  intros Hs. unfold flow_created, new_flow, oa_store, oa_update, wlp, prog_bind. cbn. eexists. split; [done|]. split; [|exact Hs].
  exists f. cbn. by rewrite list_lookup_middle.
Qed.

Abbreviation so_far t0 := (since t0 (λ _, True)).

Definition flow_made (t0 : list exchange) (meta : ConnectionAuthPendingMetadata) (r : nat + error) (w : world) : Prop :=
  so_far t0 w ∧ ∀ i, r = inl i → created t0 meta i w.

Lemma since_so_far t0 P w : since t0 P w → so_far t0 w.
Proof. intros (l & Hl & _). by exists l. Qed.

Lemma created_so_far t0 meta i w : created t0 meta i w → so_far t0 w.
Proof.
  intros (c & disc & H). destruct provider; [destruct H as (_ & _ & _ & H)|destruct H as [_ H]|destruct H as (_ & _ & _ & H)]; by eapply since_so_far.
Qed.

Lemma flow_not_made t0 meta err w : so_far t0 w → wlp (flow_created (inr err)) w (flow_made t0 meta).
Proof. intros Hw. by apply wlp_ret. Qed.

Lemma github_flow_made t0 meta p interval w : provider = GitHub p → so_far t0 w →
  wlp (let* f := github_createFlow lib p meta interval in flow_created f) w (flow_made t0 meta).
Proof.
  intros Hp Hw. unfold github_createFlow. apply wlp_bind. apply wlp_http_client. intros [c|err] Hc; [|by apply wlp_ret, flow_not_made].
  apply wlp_http_client. intros [j|err] _; [|by apply wlp_ret, flow_not_made]. apply wlp_ret.
  eapply wlp_mono; [by apply created_flow|]. intros r w' (i & -> & Hk). split; [apply Hk|]. intros i' [= <-]. exists c, ∅. rewrite Hp.
  destruct (Hc _ eq_refl) as [-> _]. done.
Qed.

Lemma oidc_flow_made t0 meta p interval w : provider = OIDC p → so_far t0 w →
  wlp (let* f := oidc_createFlow lib NewRequest Do form rounds_seen p meta interval in flow_created f) w (flow_made t0 meta).
Proof.
  intros Hp Hw. unfold oidc_createFlow. apply wlp_bind. apply wlp_http_client. intros [c|err] Hc; [|by apply wlp_ret, flow_not_made].
  destruct (Hc _ eq_refl) as (Hcfg & _ & Hlax).
  apply wlp_bind. eapply wlp_mono; [by apply (Discover_known rounds_seen p t0)|]. intros [disc|err] w1 [Hw1 Hd]; [|by apply wlp_ret, flow_not_made].
  apply wlp_ret. eapply wlp_mono; [apply created_flow; by apply Hd|]. intros r w' (i & -> & Hk). split; [by eapply since_so_far, Hk|].
  intros i' [= <-]. exists c, disc. by rewrite Hp.
Qed.

Lemma generic_flow_made t0 meta p w : provider = Generic p → so_far t0 w →
  wlp (let* f := generic_createFlow lib p meta in flow_created f) w (flow_made t0 meta).
Proof.
  intros Hp Hw. unfold generic_createFlow. apply wlp_bind. apply wlp_http_client. intros [c|err] Hc; apply wlp_ret; [|by apply flow_not_made].
  eapply wlp_mono; [by apply created_flow|]. intros r w' (i & -> & Hk). split; [apply Hk|]. intros i' [= <-]. exists c, ∅. rewrite Hp.
  destruct (Hc _ eq_refl) as [-> _]. done.
Qed.

Lemma GetDeviceFlow_made t0 meta w : so_far t0 w →
  wlp (GetDeviceFlow lib NewRequest Do form rounds_seen provider meta) w (flow_made t0 meta).
Proof.
  intros Hw. unfold GetDeviceFlow. destruct provider as [p|p|p] eqn:Hp;
    [by eapply github_flow_made|by eapply oidc_flow_made|by apply flow_not_made].
Qed.

Lemma GetAuthorizationCodeFlow_made t0 meta w : so_far t0 w →
  wlp (GetAuthorizationCodeFlow lib NewRequest Do form rounds_seen provider meta) w (flow_made t0 meta).
Proof.
  intros Hw. unfold GetAuthorizationCodeFlow. destruct provider as [p|p|p] eqn:Hp;
    [by eapply github_flow_made|by eapply oidc_flow_made|by eapply generic_flow_made].
Qed.

Definition login_proved (t0 : list exchange) (meta : ConnectionAuthPendingMetadata) (r : string * ConnectionAuthenticatedMetadata * option error)
    (w : world) : Prop :=
  r.2 = None → since t0 (proved meta (AuthenticatedUsername r.1.2)) w.

Lemma device_Verify_proved t0 meta i cx w : created t0 meta i w →
  wlp (device_Verify lib NewRequest Do form waits rounds_seen provider i cx) w (login_proved t0 meta).
Proof.
  intros (c & disc & H). unfold device_Verify, login_proved, proved. destruct provider as [p|p|p].
  - destruct H as (Hc & -> & H). eapply wlp_mono; [by eapply github_device_Verify_known|]. intros r w' Hr Hn.
    destruct (Hr Hn) as (token & l & Hl & H1 & H2). exists l. split; [done|]. by exists c, token.
  - eapply wlp_mono; [by eapply oidc_device_Verify_known|]. intros r w' Hr Hn. destruct (Hr Hn) as (token & l & Hl & H1). exists l. split; [done|].
    by exists disc, token.
  - apply wlp_panic.
Qed.

Lemma code_Verify_proved t0 meta i cx state code w : created t0 meta i w →
  wlp (code_Verify lib NewRequest Do form waits rounds_seen provider i cx state code) w (login_proved t0 meta).
Proof.
  intros (c & disc & H). unfold code_Verify, login_proved, proved. destruct provider as [p|p|p].
  - destruct H as (Hc & -> & H). eapply wlp_mono; [by eapply github_code_Verify_known|]. intros r w' Hr Hn.
    destruct (Hr Hn) as (_ & token & l & Hl & H1 & H2). exists l. split; [done|]. by exists c, token.
  - eapply wlp_mono; [by eapply oidc_code_Verify_known|]. intros r w' Hr Hn. destruct (Hr Hn) as (token & l & Hl & H1). exists l. split; [done|].
    by exists disc, token.
  - destruct H as (Hc & -> & H). eapply wlp_mono; [by eapply generic_Verify_known|]. intros r w' Hr Hn. rewrite Hc in Hr.
    destruct (Hr Hn) as (Hu & l & Hl & l0 & e & j & Hlast & Hh). exists l. split; [done|]. split; [done|].
    by exists c, l0, e, j.
Qed.

Lemma new_context_spec success m err flow w :
  wlp (new_context (W := world) success m err flow) w (λ c w', w'.1 = w.1 ∧ ctx_Success c = success ∧ ctx_Metadata c = m).
Proof. done. Qed.

(** What a login leaves: a success that is proved. *)
Definition settled (t0 : list exchange) (meta : ConnectionAuthPendingMetadata) (r : option AuthenticationContext) (w : world) : Prop :=
  match r with
  | Some c => ctx_Success c = true → since t0 (proved meta (AuthenticatedUsername (ctx_Metadata c))) w
  | None => so_far t0 w
  end.

Lemma refused t0 meta m err flow w :
  wlp (let* c := new_context (W := world) false m err flow in prog_ret (Some c)) w (settled t0 meta).
Proof. by apply wlp_bind, wlp_ret. Qed.

Lemma granted t0 meta (r : string * ConnectionAuthenticatedMetadata * option error) i w :
  r.2 = None → login_proved t0 meta r w →
  wlp (let* c := new_context (W := world) true r.1.2 None (Some i) in prog_ret (Some c)) w (settled t0 meta).
Proof. intros Hn Hr. apply wlp_bind, wlp_ret, wlp_ret. intros _. destruct (Hr Hn) as (l & Hl & Hp). by exists l. Qed.

Lemma device_url_known t0 meta i cx w : created t0 meta i w →
  wlp (device_GetAuthorizationURL NewRequest Do form waits rounds_seen provider i cx) w (λ _, created t0 meta i).
Proof.
  intros (c & disc & H). unfold device_GetAuthorizationURL, created. destruct provider as [p|p|p].
  - destruct H as (Hc & -> & H). eapply wlp_mono; [by eapply github_device_url_known|]. intros r w' H'. by exists c, ∅.
  - eapply wlp_mono; [by eapply oidc_device_url_known|]. intros r w' H'. by exists c, disc.
  - apply wlp_ret. by exists c, disc.
Qed.

Lemma code_url_same i w : wlp (code_GetAuthorizationURL (W := world) url_parse provider i) w (λ _ w', w' = w).
Proof.
  unfold code_GetAuthorizationURL, github_code_url, oidc_code_url, generic_code_url, flow_at, oa_store, wlp, prog_bind.
  destruct provider; cbn; destruct (oa_flows w.2 !! i); done.
Qed.

Context (challenge : string → list KeyboardInteractiveQuestion → prog world (gmap string string * option error)).
Context (Hchallenge : quiet_challenge challenge).

Lemma device_login_settled t0 meta w : so_far t0 w →
  wlp (device_login lib NewRequest Do form waits rounds_seen provider meta challenge) w (settled t0 meta).
Proof.
  intros Hw. unfold device_login. destruct (SupportsDeviceFlow provider); [|by apply wlp_ret].
  apply wlp_bind. eapply wlp_mono; [by apply GetDeviceFlow_made|]. intros [i|err] w1 [H1 Hi]; [|by apply wlp_ret].
  apply wlp_bind. eapply wlp_mono; [apply device_url_known; by apply Hi|]. intros [[[u code] expiration]|err] w2 H2;
    [|apply wlp_ret; by eapply created_so_far].
  apply wlp_bind. eapply wlp_mono; [apply Hchallenge|]. intros [answers [err|]] w3 ->; [by apply refused|].
  apply wlp_bind. eapply wlp_mono; [by apply device_Verify_proved|]. intros [[token m] [err|]] w4 H4.
  - apply wlp_bind. eapply wlp_mono; [apply wlp_true|]. intros [] w5 _. by apply refused.
  - by apply (granted t0 meta (token, m, None)).
Qed.

Lemma code_login_settled t0 meta w : so_far t0 w →
  wlp (code_login lib NewRequest Do url_parse form waits rounds_seen provider meta challenge) w (settled t0 meta).
Proof.
  intros Hw. unfold code_login. destruct (SupportsAuthorizationCodeFlow provider); [|by apply wlp_ret].
  apply wlp_bind. eapply wlp_mono; [by apply GetAuthorizationCodeFlow_made|]. intros [i|err] w1 [H1 Hi]; [|by apply wlp_ret].
  specialize (Hi _ eq_refl).
  apply wlp_bind. eapply wlp_mono; [apply code_url_same|]. intros [link|err] w2 ->; [|by apply wlp_ret].
  apply wlp_bind. eapply wlp_mono; [apply Hchallenge|]. intros [answers [err|]] w3 ->; [by apply refused|].
  destruct (answers !! "code") as [code|]; [|by apply refused]. destruct (SplitN2 code "|") as [state [code'|]]; [|by apply refused].
  apply wlp_bind. eapply wlp_mono; [by apply code_Verify_proved|]. intros [[token m] [err|]] w4 H4.
  - apply wlp_bind, wlp_ret, wlp_ret. done.
  - by apply (granted t0 meta (token, m, None)).
Qed.

End login.

(** ** Logins that never end *)

Lemma rounds_block {W A S} (I : S → W → Prop) (round : S → prog W (A + S)) why n s w :
  (∀ s w, I s w → ∃ s' w', round s w = Done (inr s', w') ∧ I s' w') → I s w → rounds n round (λ _, block why) s w = Blocked why.
Proof.
  intros Hr. revert s w. induction n as [|n IH]; intros s w HI; destruct (Hr s w HI) as (s' & w' & Hs & HI'); cbn; unfold prog_bind; rewrite Hs; [done|].
  by apply IH.
Qed.

(** A client that sends forms. *)
Record form_client (c : client) : Prop := {
  fc_encoding : hc_RequestEncoding (cl_config c) = "WWW-URLENCODED";
  fc_parsed method u : NewRequest method u = None;
  fc_form fields : ∃ s, form fields = inl s;
}.

Lemma form_request_created c method u req : form_client c →
  ∃ rq, createRequestForURL NewRequest c method u (form_payload form <$> req) = Done (inl rq) ∧ rq_Method rq = method ∧ rq_URL rq = u.
Proof.
  intros [He Hp Hf]. unfold createRequestForURL. rewrite He. destruct req as [fields|]; cbn.
  - destruct (Hf fields) as [s ->]. rewrite Hp. cbn. by eexists.
  - rewrite Hp. by eexists.
Qed.

(** What a client makes of an answer. *)
Lemma ask_url_run c method u req read old w : form_client c →
  ∃ rq, rq_Method rq = method ∧ rq_URL rq = u ∧
    ask_url NewRequest Do form c method u req read old w =
    match answer w.1 rq with
    | inr err => Done (0, Some match as_message err with Some _ => err | None => connection_failed method u err end, old, (w.1 ++ [(rq, inr err)], w.2))
    | inl resp =>
        let w' := (w.1 ++ [(rq, inl resp)], w.2) in
        match rs_Body resp with
        | inr err => Done (0, Some (connection_failed method u err), old, w')
        | inl None => Done (rs_StatusCode resp, Some (decode_failed no_document), old, w')
        | inl (Some j) =>
            match read (negb (cl_allowLaxDecoding c)) j with
            | Done (value, err) => Done (rs_StatusCode resp, decode_failed <$> err, value, w')
            | Panic why => Panic why
            | Blocked why => Blocked why
            end
        end
    end.
Proof.
  intros Hc. destruct (form_request_created c method u req Hc) as (rq & Hrq & Hm & Hu). exists rq. split_and!; [done|done|].
  unfold ask_url, client_RequestURL, requestURL, requestURLWithLogger, prog_bind, of_outcome. rewrite Hrq. cbn.
  destruct (answer w.1 rq) as [resp|err]; [|by destruct (as_message err)].
  destruct (rs_Body resp) as [[j|]|err]; cbn; [|done..]. by destruct (read _ j) as [[value [err|]]| |].
Qed.

Section never.
Context (url_parse : string → URL + error) (waits : oauth_loop → Z → nat) (rounds_seen : nat).

Definition unreachable : Prop := ∀ h rq, ∃ err, answer h rq = inr err.

Lemma ask_unreachable c method u req read old w : unreachable → form_client c →
  ∃ err t, ask_url NewRequest Do form c method u req read old w = Done (0, Some err, old, (t, w.2)).
Proof.
  intros Hun Hc. destruct (ask_url_run c method u req read old w Hc) as (rq & _ & _ & ->). destruct (Hun w.1 rq) as [err ->]. by do 2 eexists.
Qed.

(** The providers that ask their server before anything is shown to the user, with
    a client that can be made. *)
Definition asks_first (provider : OAuth2Provider) : Prop :=
  match provider with
  | GitHub p =>
      hc_RequestEncoding (wwwClientConfig p) = "WWW-URLENCODED" ∧
      (∃ c, NewClient lib (wwwClientConfig p) = Done (inl c)) ∧ (∃ c, NewClient lib (jsonWWWClientConfig p) = Done (inl c))
  | OIDC p =>
      (oidc_DeviceFlow (op_config p) = true ∨ oidc_AuthorizationCodeFlow (op_config p) = true) ∧
      ∃ c, NewClientWithHeaders lib (with_form_encoding (oidc_HTTP (op_config p)))
             [("authorization", ["Basic " +:+ basic (op_clientID p) (op_clientSecret p)])] true = Done (inl c)
  | Generic _ => False
  end.

Lemma Discover_blocks c w : unreachable → form_client c → Discover NewRequest Do form rounds_seen c w = Blocked "retrying".
Proof.
  intros Hun Hc. unfold Discover, ask, loop. apply rounds_block with (I := λ _ _, True); [|done]. intros s w1 _. unfold prog_bind.
  edestruct (ask_unreachable c) as (err & t & ->); [done|done|]. cbn. rewrite decide_False by (by intros [? _]). rewrite decide_False by lia.
  by do 2 eexists.
Qed.

Lemma github_device_url_blocks p i f w : unreachable → oa_flows w.2 !! i = Some f → form_client (fl_client f) →
  github_device_url NewRequest Do form waits rounds_seen p i TODO w = Blocked "retrying".
Proof.
  intros Hun Hi Hc. unfold github_device_url, ask, flow_at, oa_store. rewrite bind_bind. unfold prog_bind at 1. cbn. rewrite Hi. cbn.
  apply rounds_block with (I := λ _ _, True); [|done]. intros s w1 _. unfold prog_bind.
  edestruct (ask_unreachable (fl_client f)) as (err & t & ->); [done|done|]. by do 2 eexists.
Qed.

(** A login at a server that cannot be reached never returns: the context that
    ends the retrying has no deadline. *)
Theorem unreachable_server_blocks_login provider meta challenge w :
  unreachable → (∀ method u, NewRequest method u = None) → (∀ fields, ∃ s, form fields = inl s) → asks_first provider →
  KeyboardInteractive lib NewRequest Do url_parse form waits rounds_seen provider meta challenge w = Blocked "retrying".
Proof.
  intros Hun Hparsed Hform Hp. destruct provider as [p|p|p]; [| |done].
  - destruct Hp as (Henc & [c Hc] & [j Hj]). unfold KeyboardInteractive, device_login, GetDeviceFlow, github_createFlow. cbn [SupportsDeviceFlow negb].
    apply bind_blocked. unfold flow_created, new_flow, oa_store, oa_update.
    rewrite !bind_bind. erewrite bind_done by (unfold of_outcome; by rewrite Hc). cbv beta iota.
    rewrite !bind_bind. erewrite bind_done by (unfold of_outcome; by rewrite Hj). cbv beta iota. unfold prog_bind, prog_ret. cbn.
    erewrite github_device_url_blocks; [done|done|cbn; by rewrite list_lookup_middle|].
    destruct (NewClientWithHeaders_is _ _ _ _ Hc) as (Hcfg & _). by split; [cbn; rewrite Hcfg|..].
  - destruct Hp as [Hsup [c Hc]]. destruct (NewClientWithHeaders_is _ _ _ _ Hc) as (Hcfg & _).
    assert (form_client c) as Hfc by (split; [by rewrite Hcfg|done..]).
    assert (∀ interval w, (let* f := oidc_createFlow lib NewRequest Do form rounds_seen p meta interval in flow_created f) w = Blocked "retrying") as Hcreate.
    { intros interval w1. unfold oidc_createFlow, http_client. rewrite bind_bind. erewrite bind_done by (unfold of_outcome; by rewrite Hc).
      cbv beta iota. rewrite bind_bind. apply bind_blocked. by apply Discover_blocks. }
    unfold KeyboardInteractive, device_login, code_login. cbn [SupportsDeviceFlow SupportsAuthorizationCodeFlow].
    destruct (oidc_DeviceFlow (op_config p)); cbn [negb].
    + apply bind_blocked, bind_blocked, Hcreate.
    + rewrite bind_ret. destruct Hsup as [Hsup|Hsup]; [done|]. rewrite Hsup. apply bind_blocked, bind_blocked, Hcreate.
Qed.

(** GitHub refuses an authorization code with status 200 and no token. *)
Definition refuses_codes (p : gitHubProvider) (c : client) : Prop :=
  ∀ h rq, rq_URL rq = (hc_URL (cl_config c) ++ "/login/oauth/access_token")%string →
    ∃ resp j r, answer h rq = inl resp ∧ rs_StatusCode resp = 200 ∧ rs_Body resp = inl (Some j) ∧
      read_struct gitHubAccessTokenResponse ∅ (negb (cl_allowLaxDecoding c)) j = Done (r, None) ∧ text_of "access_token" r = "".
(** Nobody is known without a token. *)
Definition knows_nobody (p : gitHubProvider) : Prop :=
  ∀ h rq, rq_URL rq = (hc_URL (apiClientConfig p) ++ "/user")%string → ∃ resp, answer h rq = inl resp ∧ rs_StatusCode resp ≠ 200.

Lemma flow_at_run {A} (k : oauth_flow → prog world A) i f w :
  oa_flows w.2 !! i = Some f → prog_bind k (flow_at i) w = k f w.
Proof. intros Hf. unfold flow_at, oa_store, prog_bind. cbn. by rewrite Hf. Qed.

Lemma github_getIdentity_blocks p i f meta api w :
  knows_nobody p → oa_flows w.2 !! i = Some f → NewClientWithHeaders lib (apiClientConfig p) [] true = Done (inl api) → form_client api →
  github_getIdentity lib NewRequest Do form waits rounds_seen p i TODO meta "" w = Blocked "retrying".
Proof.
  intros Hno Hi Hapi Hfc. unfold github_getIdentity, getAPIClient, http_client. rewrite decide_False by auto. rewrite !bind_bind.
  erewrite bind_done by (unfold of_outcome; by rewrite Hapi). cbv beta iota. rewrite bind_ret, (flow_at_run _ _ f) by done. unfold ask.
  destruct (NewClientWithHeaders_is _ _ _ _ Hapi) as (Hcfg & _ & Hlax).
  apply rounds_block with (I := λ _ _, True); [|done]. intros s w1 _. unfold prog_bind at 1.
  destruct (ask_url_run api "GET" (hc_URL (cl_config api) ++ "/user") None (read_struct gitHubUserResponse ∅) ∅ w1 Hfc) as (rq & _ & Hu & ->).
  rewrite Hcfg in Hu. destruct (Hno w1.1 rq Hu) as (resp & -> & Hst). cbv zeta.
  destruct (rs_Body resp) as [[j|]|err]; [|by do 2 eexists..]. unfold read_struct. cbv beta iota.
  destruct (match j with JObject _ => _ | JNull => _ | _ => _ end) as [value [err|]]; cbn; [by do 2 eexists|].
  rewrite decide_False by done. by do 2 eexists.
Qed.

Lemma github_refused_token p i f code w :
  refuses_codes p (fl_client f) → enforceScopes p = false → requiredOrgMembership p = "" →
  oa_flows w.2 !! i = Some f → form_client (fl_client f) →
  ∃ t, github_code_token NewRequest Do form waits rounds_seen p i TODO code w = Done ("", None, (t, w.2)).
Proof.
  intros Hrefuse Hscopes Horg Hi Hfc.
  set (req := [("client_id", gp_clientID p); ("client_secret", gp_clientSecret p); ("code", code); ("device_code", "");
               ("grant_type", ""); ("state", ConnectionID (pending_conn (fl_meta f)))]).
  destruct (ask_url_run (fl_client f) "POST" (hc_URL (cl_config (fl_client f)) ++ "/login/oauth/access_token") (Some req)
    (read_struct gitHubAccessTokenResponse ∅) ∅ w Hfc) as (rq & _ & Hu & Hrun).
  destruct (Hrefuse w.1 rq Hu) as (resp & j & r & Hans & Hst & Hb & Hread & Htok). rewrite Hans, Hb, Hread in Hrun. cbn in Hrun.
  eexists. unfold github_code_token, ask. apply loop_first. rewrite (flow_at_run _ _ f) by done. fold req. unfold prog_bind at 1.
  rewrite Hrun, Hst. cbv beta iota. rewrite decide_False by auto. unfold checkGrantedScopes. rewrite Hscopes, decide_False by auto. by rewrite Htok.
Qed.

(** A wrong authorization code is not refused: the missing token is used to ask who
    the user is until GitHub knows somebody without one. *)
Theorem github_refused_code_never_returns p i f api code w :
  refuses_codes p (fl_client f) → knows_nobody p → enforceScopes p = false → requiredOrgMembership p = "" →
  oa_flows w.2 !! i = Some f → form_client (fl_client f) →
  NewClientWithHeaders lib (apiClientConfig p) [] true = Done (inl api) → form_client api →
  github_code_Verify lib NewRequest Do form waits rounds_seen p i TODO (ConnectionID (pending_conn (fl_meta f))) code w = Blocked "retrying".
Proof.
  intros Hrefuse Hno Hscopes Horg Hi Hfc Hapi Hfa. unfold github_code_Verify. rewrite (flow_at_run _ _ f) by done.
  rewrite decide_False by auto.
  destruct (github_refused_token p i f code w) as [t Ht]; [done..|].
  unfold prog_bind at 1. rewrite Ht. unfold github_with_token, update_flow, oa_update, prog_bind at 1. cbn.
  assert (oa_flows (MkOAuthStore (alter (set_fl_accessToken "") i (oa_flows w.2)) (oa_contexts w.2)) !! i = Some (set_fl_accessToken "" f)) as Hi'
    by (cbn; by rewrite list_lookup_alter_eq, Hi).
  rewrite (flow_at_run _ _ (set_fl_accessToken "" f)) by exact Hi'. by eapply github_getIdentity_blocks.
Qed.
End never.
End network.

(** ** Membership of an organization *)

Definition with_org (org : string) (p : gitHubProvider) : gitHubProvider :=
  MkGitHubProvider (gp_url p) (gp_apiURL p) (gp_clientID p) (gp_clientSecret p) org (gp_scopes p) (enforceScopes p) (require2FA p)
    (enforceUsername p) (wwwClientConfig p) (jsonWWWClientConfig p) (apiClientConfig p).

Lemma getScope_with_org org p : requiredOrgMembership p ≠ "" → org ≠ "" → getScope (with_org org p) = getScope p.
Proof.
  intros Hp Ho. unfold getScope. cbn. 
  assert (∀ A (P : Prop) `{!Decision P} (x y : A), (if decide (org ≠ "" ∧ P) then x else y) = if decide (requiredOrgMembership p ≠ "" ∧ P) then x else y) as ->; [|done].
  intros A P HP x y. repeat case_decide; tauto.
Qed.

(** Claim C25. The organization users have to be members of does not matter: a login takes the
    same course, whatever organization is required. *)
Theorem org_membership_is_not_checked {W} `{!Field W oauth_store} lib NewRequest (Do : http_Client → http_Request → prog W (http_Response + error))
    url_parse form waits rounds_seen p org meta challenge (w : W) :
  requiredOrgMembership p ≠ "" → org ≠ "" →
  KeyboardInteractive lib NewRequest Do url_parse form waits rounds_seen (GitHub (with_org org p)) meta challenge w =
  KeyboardInteractive lib NewRequest Do url_parse form waits rounds_seen (GitHub p) meta challenge w.
Proof.
  intros Hp Ho. pose proof (getScope_with_org org p Hp Ho) as Hscope.
  unfold KeyboardInteractive, device_login, code_login, device_GetAuthorizationURL, code_GetAuthorizationURL, device_Verify, code_Verify,
    github_device_url, github_code_url.
  rewrite Hscope. destruct p as [? ? ? ? org' ? ? ? ? ? ? ?]. cbn in Hp. destruct org as [|a org]; [done|]. destruct org' as [|b org']; [done|].
  reflexivity.
Qed.

(** ** The code that is pasted *)

Lemma SplitN2_app s rest sep : sep ∉ String.list_ascii_of_string s → SplitN2 (String.append s (String sep rest)) sep = (s, Some rest).
Proof.
  induction s as [|c s IH]; intros Hs.
  - change (SplitN2 (String sep rest) sep = ("", Some rest)). cbn. by case_decide.
  - change (sep ∉ c :: String.list_ascii_of_string s) in Hs. apply not_elem_of_cons in Hs as [Hc Hs].
    change (SplitN2 (String c (String.append s (String sep rest))) sep = (String c s, Some rest)).
    cbn [SplitN2]. case_decide; [congruence|]. by rewrite IH.
Qed.

(** The user answers with a state and a code as the page shows them. *)
Definition paste {W} (state code : string) (_ : string) (_ : list KeyboardInteractiveQuestion) : prog W (gmap string string * option error) :=
  prog_ret ({[ "code" := (state ++ String "|" code)%string ]}, None).

(** OpenID Connect and generic servers: the state of the page, which ties the code
    to the connection, is not looked at, so a code that was issued for another login
    serves as well. *)
Theorem pasted_state_is_ignored {W} `{!Field W oauth_store} lib NewRequest (Do : http_Client → http_Request → prog W (http_Response + error))
    url_parse form waits rounds_seen provider meta state state' code (w : W) :
  "|"%char ∉ String.list_ascii_of_string state → "|"%char ∉ String.list_ascii_of_string state' →
  match provider with GitHub _ => False | _ => True end →
  KeyboardInteractive lib NewRequest Do url_parse form waits rounds_seen provider meta (paste state code) w =
  KeyboardInteractive lib NewRequest Do url_parse form waits rounds_seen provider meta (paste state' code) w.
Proof.
  intros Hs Hs' Hp. unfold KeyboardInteractive.
  change (device_login lib NewRequest Do form waits rounds_seen provider meta (paste state code))
    with (device_login lib NewRequest Do form waits rounds_seen provider meta (paste state' code)).
  apply bind_same. intros [c|] w1; [done|].
  assert (code_login lib NewRequest Do url_parse form waits rounds_seen provider meta (paste state code) w1 =
          code_login lib NewRequest Do url_parse form waits rounds_seen provider meta (paste state' code) w1) as E;
    [|unfold prog_bind at 1 2; by rewrite E].
  unfold code_login. destruct (negb _); [done|]. apply bind_same. intros [i|] w2; [|done].
  apply bind_same. intros [link|] w3; [|done]. unfold paste. rewrite !bind_ret. cbv beta iota.
  rewrite !lookup_singleton_eq. cbv beta iota. rewrite !SplitN2_app by done. by destruct provider.
Qed.

(** ** Logins at example servers *)

Module oauth2_demo.
Definition files : Library :=
  MkLibrary (λ _, inl true) (λ _, inr (ErrorString "no such file")) (λ _, None) (λ _, None) (λ _, None) (λ _ _, None)
    (λ _, true) None (λ _ _, None) (λ _, "0s").
Definition parses (method url : string) : option error := None.
Definition as_form (fields : list (string * string)) : string + error := inl "form".
Definition parse_url (url : string) : URL + error := inl (MkURL url "" ∅).
Definition twice (l : oauth_loop) (interval : Z) : nat := 2%nat.

Definition client_config (url : string) : HTTPClientConfiguration := github_client_config url "" (10 * Second).
Definition github : gitHubProvider :=
  MkGitHubProvider (MkURL "https://github.com" "" ∅) (MkURL "https://api.github.com" "" ∅) "client" "hush" "" [] false false true
    (client_config "https://github.com") (client_config "https://github.com") (client_config "https://api.github.com").
Definition alice : ConnectionAuthPendingMetadata := auth_pending demo_authenticated.

(** GitHub hands out a token for the code of a device and knows it. *)
Definition github_says (_ : list exchange) (rq : http_Request) : http_Response + error :=
  let says j := inl (MkHttpResponse 200 (inl (Some (JObject j)))) in
  if decide (rq_URL rq = "https://github.com/login/device/code") then
    says [("device_code", JString "d1"); ("user_code", JString "AB-12"); ("verification_uri", JString "https://github.com/login/device");
          ("expires_in", JNumber "900"); ("interval", JNumber "5")]
  else if decide (rq_URL rq = "https://github.com/login/oauth/access_token") then
    says [("access_token", JString "t1"); ("token_type", JString "bearer"); ("scope", JString "")]
  else says [("login", JString "alice"); ("name", JString "Alice")].

Definition waves (_ : string) (_ : list KeyboardInteractiveQuestion) : prog world (gmap string string * option error) :=
  prog_ret (∅, None).
Definition nothing_yet : world := ([], MkOAuthStore [] []).

Definition summary (r : outcome (AuthenticationContext * world)) : option (bool * string * list string) :=
  match r with Done (c, w) => Some (ctx_Success c, AuthenticatedUsername (ctx_Metadata c), (λ e : exchange, rq_URL e.1) <$> w.1) | _ => None end.

Example alice_logs_in :
  summary (KeyboardInteractive files parses (Do github_says) parse_url as_form twice 2 (GitHub github) alice waves nothing_yet) =
  Some (true, "alice", ["https://github.com/login/device/code"; "https://github.com/login/oauth/access_token"; "https://api.github.com/user"]).
Proof. vm_compute. reflexivity. Qed.

Lemma waves_quiet : quiet_challenge waves.
Proof. by intros text questions w. Qed.


(** A provider that requires an organization. *)
Definition ours : gitHubProvider := with_org "ours" github.

Lemma org_membership_is_not_checked_witness :
  KeyboardInteractive files parses (Do github_says) parse_url as_form twice 2 (GitHub (with_org "theirs" ours)) alice waves nothing_yet =
  KeyboardInteractive files parses (Do github_says) parse_url as_form twice 2 (GitHub ours) alice waves nothing_yet.
Proof.
  apply (org_membership_is_not_checked files parses (Do github_says) parse_url as_form twice 2 ours "theirs" alice waves nothing_yet); discriminate.
Defined.

(** A network without servers. *)
Definition nobody_answers (_ : list exchange) (_ : http_Request) : http_Response + error := inr (ErrorString "connection refused").

Lemma unreachable_server_blocks_login_witness :
  KeyboardInteractive files parses (Do nobody_answers) parse_url as_form twice 2 (GitHub github) alice waves nothing_yet = Blocked "retrying".
Proof.
  apply (unreachable_server_blocks_login nobody_answers files parses as_form parse_url twice 2 (GitHub github) alice waves nothing_yet).
  - intros h rq. by eexists.
  - reflexivity.
  - intros fields. by eexists.
  - split; [reflexivity|]. split; by eexists.
Defined.

(** GitHub refuses codes, and knows nobody. *)
Definition github_refuses (_ : list exchange) (rq : http_Request) : http_Response + error :=
  if decide (rq_URL rq = "https://github.com/login/oauth/access_token") then
    inl (MkHttpResponse 200 (inl (Some (JObject [("error", JString "bad_verification_code")]))))
  else inl (MkHttpResponse 401 (inl (Some (JObject [("message", JString "Requires authentication")])))).

Definition github_client (url : string) (lax : bool) : client :=
  match NewClientWithHeaders files (client_config url) [] lax with Done (inl c) => c | _ => MkClient (client_config url) None [] lax end.
Definition code_flow : oauth_flow := MkFlow alice (github_client "https://github.com" false) ∅ "" 0 "".
Definition code_started : world := ([], MkOAuthStore [code_flow] []).

Lemma github_refused_code_never_returns_witness :
  github_code_Verify files parses (Do github_refuses) as_form twice 2 github 0 TODO (ConnectionID (pending_conn (fl_meta code_flow))) "wrong" code_started
  = Blocked "retrying".
Proof.
  eapply (github_refused_code_never_returns github_refuses files parses as_form twice 2 github 0 code_flow (github_client "https://api.github.com" true)
           "wrong" code_started).
  - intros h rq Hu. unfold github_refuses. change (hc_URL (cl_config (fl_client code_flow)) ++ "/login/oauth/access_token")%string with "https://github.com/login/oauth/access_token" in Hu.
    rewrite decide_True by done. do 3 eexists. split_and!; [reflexivity|reflexivity|reflexivity|vm_compute; reflexivity|reflexivity].
  - intros h rq Hu. unfold github_refuses. rewrite decide_False by (rewrite Hu; discriminate). by eexists.
  - reflexivity.
  - reflexivity.
  - reflexivity.
  - split; [reflexivity|reflexivity|]. intros fields. by eexists.
  - vm_compute. reflexivity.
  - split; [reflexivity|reflexivity|]. intros fields. by eexists.
Defined.

(** An OpenID Connect server; the page shows a state, but any other does. *)
Definition keycloak : oidcProvider :=
  MkOIDCProvider "client" "hush" (MkAuthOIDCConfig (client_config "https://sso.example.com/") false true "username" "https://ssh.example.com/").
Definition keycloak_says (_ : list exchange) (rq : http_Request) : http_Response + error :=
  let says j := inl (MkHttpResponse 200 (inl (Some (JObject j)))) in
  if decide (rq_URL rq = "https://sso.example.com/.well-known/openid-configuration") then
    says [("authorization_endpoint", JString "https://sso.example.com/auth"); ("token_endpoint", JString "https://sso.example.com/token");
          ("userinfo_endpoint", JString "https://sso.example.com/userinfo")]
  else if decide (rq_URL rq = "https://sso.example.com/token") then says [("access_token", JString "t2")]
  else says [("username", JString "mallory")].
Abbreviation at_keycloak state :=
  (KeyboardInteractive files parses (Do keycloak_says) parse_url as_form twice 2 (OIDC keycloak) alice (paste state "c1") nothing_yet).

Example mallory_logs_in : summary (at_keycloak "0123abcd") = Some (true, "mallory",
  ["https://sso.example.com/.well-known/openid-configuration"; "https://sso.example.com/token"; "https://sso.example.com/userinfo"]).
Proof. vm_compute. reflexivity. Qed.

Lemma pasted_state_is_ignored_witness : at_keycloak "another" = at_keycloak "0123abcd".
Proof.
  apply (pasted_state_is_ignored files parses (Do keycloak_says) parse_url as_form twice 2 (OIDC keycloak) alice "another" "0123abcd" "c1" nothing_yet);
    [by vm_compute; set_solver..|done].
Defined.
End oauth2_demo.
