(* ===== verification/Kerberos.v ===== *)
(** * Kerberos authentication

    [internal/auth/kerberos_impl.go], [kerberos_factory.go]: logins with a password
    that a Kerberos server checks, and the GSSAPI conversation with a client that
    has a ticket.  The library [gokrb5] is the argument [krb]; what it may do to the
    rest of the store (its replay cache, the network) is left to it. *)

From stdpp Require Import base gmap strings list.
From Stdlib Require Import Strings.Byte.
From S2P Require Import Prelude Messages Metadata Handler GoStrings ConfigHTTP ConfigAuth Http.
From S2P Require Import AuthIntegration Webhook OAuth2.

Local Open Scope Z_scope.

Definition EAuthKerberosVerificationFailed : string := "KRB_VERIFY_ERROR".
Definition AuthenticationTypeGSSAPI : string := "gssapi".

(** [types.PrincipalName] *)
Record PrincipalName := MkPrincipalName { NameType : Z; NameString : list string }.

(** What a client signs with its ticket (RFC 4462, section 3.5). *)
Record GSSAPIMicField := MkGSSAPIMicField {
  SessionIdentifier : string;
  mic_Request : Z;
  mic_UserName : string;
  mic_Service : string;
  mic_Method : string;
}.
Definition SSH_MSG_USERAUTH_REQUEST : Z := 50.

(** ** The library *)

Section kerberos.
Context {W Keytab KrbConfig Token APReq Key MICToken Delegation Login CCache : Type}.

(** [token_Verify] returns the verdict, the user name in the credentials of the
    token's context, and the token's request as verifying has left it;
    [DecryptEncPart] decrypts a delegated credential with the key of the request's
    ticket. *)
Record KerberosLibrary := MkKerberosLibrary {
  token_Unmarshal : list byte → Token + error;
  token_Verify : Keytab → Z → Token → prog W (bool * option string * APReq);
  HostAddressFromNetIP : list byte → list byte;
  APReq_Verify : Keytab → Z → list byte → option PrincipalName → APReq → prog W (bool * option error * APReq);
  SubKey : APReq → Key;
  reply_Marshal : APReq → list byte + error;
  NewAPRep : APReq → option error;
  GetCredDelegation : APReq → option (bool * list byte) + error;
  KRBCred_Unmarshal : list byte → Delegation + error;
  DecryptEncPart : APReq → Delegation → Delegation + error;
  ToCredentials : Delegation → CCache + error;
  ccache_Marshal : CCache → list byte + error;
  mic_Unmarshal : list byte → MICToken + error;
  mic_Verify : Key → list byte → MICToken → bool * option error;
  micField_Unmarshal : list byte → GSSAPIMicField + error;
  DefaultRealm : KrbConfig → string;
  client_Login : KrbConfig → string → string → list byte → prog W (Login + error);
  GetCCache : Login → CCache + error;
}.
Context (krb : KerberosLibrary) (no_key : Key).

(** ** Contexts *)

Record kerberosAuthClient := MkKerberosAuthClient {
  kl_config : AuthKerberosClientConfig;
  kl_keytab : Keytab;
  clientConf : option KrbConfig;
  acceptor : option PrincipalName;
  authType : string;
}.

Record kerberosAuthContext := MkKerberosAuthContext {
  kc_client : option kerberosAuthClient;
  kc_remoteAddr : list byte;
  kc_key : Key;
  principalUsername : string;
  loginUsername : string;
  kc_credentials : option (list byte);
  kc_meta : ConnectionAuthenticatedMetadata;
  kc_success : bool;
  kc_err : option error;
}.

Definition set_principal (p : string) (k : kerberosAuthContext) : kerberosAuthContext :=
  MkKerberosAuthContext (kc_client k) (kc_remoteAddr k) (kc_key k) p (loginUsername k) (kc_credentials k) (kc_meta k) (kc_success k) (kc_err k).
Definition set_key (s : Key) (k : kerberosAuthContext) : kerberosAuthContext :=
  MkKerberosAuthContext (kc_client k) (kc_remoteAddr k) s (principalUsername k) (loginUsername k) (kc_credentials k) (kc_meta k) (kc_success k) (kc_err k).
Definition set_credentials (c : list byte) (k : kerberosAuthContext) : kerberosAuthContext :=
  MkKerberosAuthContext (kc_client k) (kc_remoteAddr k) (kc_key k) (principalUsername k) (loginUsername k) (Some c) (kc_meta k) (kc_success k) (kc_err k).
Definition set_login (u : string) (k : kerberosAuthContext) : kerberosAuthContext :=
  MkKerberosAuthContext (kc_client k) (kc_remoteAddr k) (kc_key k) (principalUsername k) u (kc_credentials k) (kc_meta k) true (kc_err k).

(** A struct whose fields have not been set. *)
Definition no_metadata : ConnectionAuthenticatedMetadata :=
  MkAuthenticated (MkAuthPending (MkConnectionMetadata (MkRemoteAddress [] 0) "" None None None) "" "") "".

Definition kerberos_Success (k : kerberosAuthContext) : bool := kc_success k.

(** The receiver is a copy, so the error is not kept. *)
Definition kerberos_Error (k : kerberosAuthContext) : option error :=
  match kc_success k, kc_err k with
  | false, None => Some (Errorf "an unknown error happened during kerberos authentication" [])
  | _, err => err
  end.

Definition kerberos_Metadata (k : kerberosAuthContext) : ConnectionAuthenticatedMetadata :=
  match kc_client k with
  | None => kc_meta k
  | Some c =>
      let path := krb_CredentialCachePath (kl_config c) in
      match kc_credentials k with
      | Some credentials =>
          if decide (path ≠ "") then
            let pending := auth_pending (kc_meta k) in
            let conn := pending_conn pending in
            let files := or_empty (Files conn) in
            let environment := or_empty (Environment conn) in
            MkAuthenticated
              (MkAuthPending
                 (MkConnectionMetadata (RemoteAddr conn) (ConnectionID conn) (Metadata_ conn)
                    (Some (<["KRB5CCNAME" := MkValue ("FILE:" ++ path) false]> environment))
                    (Some (<[path := MkBinaryValue credentials true]> files)))
                 (ClientVersion pending) (Username pending))
              (AuthenticatedUsername (kc_meta k))
          else kc_meta k
      | None => kc_meta k
      end
  end.

(** [AllowLogin]: a refusal is metadata without a user, not an error. *)
Definition kerberos_AllowLogin (k : kerberosAuthContext) (username : string) (meta : ConnectionAuthPendingMetadata)
  : outcome (ConnectionAuthenticatedMetadata * option error) :=
  if negb (kerberos_Success k) then Done (AuthFailed meta, None)
  else if decide (loginUsername k ≠ username) then Done (AuthFailed meta, None)
  else
    match kc_client k with
    | None => Panic nil_pointer
    | Some c =>
        if decide (krb_EnforceUsername (kl_config c) = true ∧ username ≠ principalUsername k) then Done (AuthFailed meta, None)
        else Done (Authenticated meta username, None)
    end.

(** ** Logins with a password *)

(** What [Password] returns. [kerberosPasswordAuthContext] has a field of its own
    for the metadata, but its methods are those of the context it embeds. *)
Inductive kerberosPasswordResult :=
| PasswordRefused (k : kerberosAuthContext)
| kerberosPasswordAuthContext (k : kerberosAuthContext) (meta : ConnectionAuthenticatedMetadata).

Definition embedded (r : kerberosPasswordResult) : kerberosAuthContext :=
  match r with PasswordRefused k | kerberosPasswordAuthContext k _ => k end.

(** The result as an [AuthenticationContext]; its [OnDisconnect] does nothing. *)
Definition kerberos_context (ref : nat) (r : kerberosPasswordResult) : AuthenticationContext :=
  MkAuthContext ref (kerberos_Success (embedded r)) (kerberos_Error (embedded r)) (kerberos_Metadata (embedded r)).

Definition password_failed (c : kerberosAuthClient) (err : error) : kerberosPasswordResult :=
  PasswordRefused (MkKerberosAuthContext (Some c) [] no_key "" "" None no_metadata false (Some err)).

Definition not_configured (for_ : string) : error :=
  Errorf ("authentication urlEncodedClient not configured for " ++ for_ ++ " authentication") [].

Definition kerberos_Password (c : kerberosAuthClient) (meta : ConnectionAuthPendingMetadata) (password : list byte)
  : prog W kerberosPasswordResult :=
  if decide (authType c ≠ AuthenticationTypePassword ∧ authType c ≠ AuthenticationTypeAll) then
    prog_ret (PasswordRefused (MkKerberosAuthContext None [] no_key "" "" None (AuthFailed meta) false (Some (not_configured "password"))))
  else
    match clientConf c with
    | None => panic nil_pointer
    | Some conf =>
        let* cl := client_Login krb conf (Username meta) (DefaultRealm krb conf) password in
        match cl with
        | inr err => prog_ret (password_failed c err)
        | inl cl =>
            match GetCCache krb cl with
            | inr err => prog_ret (password_failed c err)
            | inl ccache =>
                match ccache_Marshal krb ccache with
                | inr err => prog_ret (password_failed c err)
                | inl ccacheMar =>
                    let ctx := MkKerberosAuthContext (Some c) (IP (RemoteAddr (pending_conn meta))) no_key (Username meta) (Username meta)
                                 (Some ccacheMar) no_metadata true None in
                    let* '(authMeta, err) := of_outcome (kerberos_AllowLogin ctx (Username meta) meta) in
                    match err with
                    | Some err => prog_ret (password_failed c err)
                    | None => prog_ret (kerberosPasswordAuthContext ctx authMeta)
                    end
                end
            end
        end
    end.

(** The client as an authenticator for passwords. *)
Definition kerberos_authenticator (ref : nat) (c : kerberosAuthClient) : PasswordAuthenticator W :=
  λ meta password, let* r := kerberos_Password c meta password in prog_ret (kerberos_context ref r).

(** ** GSSAPI conversations

    The contexts live in the store; a conversation works on one of them. *)
Context `{!Field W (list kerberosAuthContext)}.

Definition context_at (i : nat) : prog W kerberosAuthContext :=
  λ w, match fget w !! i with Some k => Done (k, w) | None => Panic nil_pointer end.
Definition update_context (i : nat) (f : kerberosAuthContext → kerberosAuthContext) : prog W unit :=
  λ w, Done (tt, fset (alter f i (fget w)) w).
Definition new_kerberos_context (k : kerberosAuthContext) : prog W nat :=
  λ w, Done (length (fget (S := list kerberosAuthContext) w), fset (fget w ++ [k]) w).

Definition GSSAPI (c : kerberosAuthClient) (meta : ConnectionMetadata) : prog W nat :=
  if decide (authType c ≠ AuthenticationTypeGSSAPI ∧ authType c ≠ AuthenticationTypeAll) then
    new_kerberos_context
      (MkKerberosAuthContext None (IP (RemoteAddr meta)) no_key "" "" None no_metadata false (Some (not_configured "GSSAPI")))
  else new_kerberos_context (MkKerberosAuthContext (Some c) (IP (RemoteAddr meta)) no_key "" "" None no_metadata false None).

(** What [AcceptSecContext] returns: the answer, the name, whether there is more to
    come, and the error. *)
Abbreviation accepted := (list byte * string * bool * option error)%type.
Definition not_accepted (err : error) : accepted := ([], "", false, Some err).
Definition verification_failed (cause : option error) (explanation_ : string) : accepted :=
  not_accepted (Wrap cause EAuthKerberosVerificationFailed explanation_ []).

(** Taking over the credentials the client delegates.  [inl]: the login goes on. *)
Definition delegated_credentials (a : APReq) : option (list byte) + accepted :=
  match GetCredDelegation krb a with
  | inr _ => inl None
  | inl (Some (true, Deleg)) =>
      match KRBCred_Unmarshal krb Deleg with
      | inr _ => inl None
      | inl cred =>
          match DecryptEncPart krb a cred with
          | inr err => inr (not_accepted err)
          | inl cred =>
              match ToCredentials krb cred with
              | inr err => inr (not_accepted err)
              | inl cache =>
                  match ccache_Marshal krb cache with
                  | inr err => inr (not_accepted err)
                  | inl mar => inl (Some mar)
                  end
              end
          end
      end
  | inl _ => inl None
  end.

(** What follows when the request has been verified: the answer to the client. *)
Definition answer_token (i : nat) (a : APReq) : prog W accepted :=
  do* update_context i (set_key (SubKey krb a)) in
  match NewAPRep krb a with
  | Some err => prog_ret (verification_failed (Some err) "Failed to generate an AP_REP packet")
  | None =>
      match reply_Marshal krb a with
      | inr err => prog_ret (verification_failed (Some err) "Failed to marshal the AP_REP packet")
      | inl mar2 =>
          match delegated_credentials a with
          | inr r => prog_ret r
          | inl credentials =>
              do* match credentials with Some mar => update_context i (set_credentials mar) | None => prog_ret tt end in
              let* k := context_at i in prog_ret (mar2, principalUsername k, false, None)
          end
      end
  end.

Definition AcceptSecContext (i : nat) (token : list byte) : prog W accepted :=
  match token_Unmarshal krb token with
  | inr err => prog_ret (verification_failed (Some err) "Failed to unmarshal the initial KRB token")
  | inl st =>
      let* k := context_at i in
      match kc_client k with
      | None => panic nil_pointer
      | Some c =>
          let skew := krb_ClockSkew (kl_config c) in
          let* '(verified, id, a) := token_Verify krb (kl_keytab c) skew st in
          if negb verified then prog_ret (not_accepted (Errorf "invalid token" []))
          else
            match id with
            | None => panic "interface conversion: interface {} is not goidentity.Identity"
            | Some userName =>
                do* update_context i (set_principal userName) in
                let* '(ok, err, a) := APReq_Verify krb (kl_keytab c) skew (HostAddressFromNetIP krb (kc_remoteAddr k)) (acceptor c) a in
                match err with
                | Some _ => prog_ret (verification_failed err "Failed to verify the AP_REQ packet (is the acceptor correct?)")
                | None =>
                    if negb ok then prog_ret (verification_failed None "Couldn't verify AP_REQ packet") else answer_token i a
                end
            end
      end
  end.

Definition VerifyMIC (i : nat) (micField micToken : list byte) : prog W (option error) :=
  match mic_Unmarshal krb micToken with
  | inr err => prog_ret (Some err)
  | inl t =>
      let* k := context_at i in
      match mic_Verify krb (kc_key k) micField t with
      | (_, Some err) => prog_ret (Some err)
      | (false, None) =>
          prog_ret (Some (MsgError (NewMessage EAuthKerberosVerificationFailed "Verify() returned unverified but no error" [])))
      | (true, None) =>
          match micField_Unmarshal krb micField with
          | inr err => prog_ret (Some err)
          | inl field =>
              if decide (mic_Request field ≠ SSH_MSG_USERAUTH_REQUEST ∨ mic_Service field ≠ "ssh-connection" ∨
                         mic_Method field ≠ "gssapi-with-mic") then
                prog_ret (Some (MsgError (NewMessage EAuthKerberosVerificationFailed "Received MIC packet with unexpected values" [])))
              else
                match kc_client k with
                | None => panic nil_pointer
                | Some c =>
                    if decide (krb_EnforceUsername (kl_config c) = true ∧ mic_UserName field ≠ principalUsername k) then
                      prog_ret (Some (MsgError (UserMessage EAuthKerberosVerificationFailed "Unable to login with the requested username"
                        "Cannot login to account %s using principal %s" [VString (mic_UserName field); VString (principalUsername k)])))
                    else do* update_context i (set_login (mic_UserName field)) in prog_ret None
                end
          end
      end
  end.

(** The conversation as the server sees it. *)
Definition kerberos_server (i : nat) : GSSAPIServer W :=
  {| gss_Success := let* k := context_at i in prog_ret (kerberos_Success k);
     gss_Error := let* k := context_at i in prog_ret (kerberos_Error k);
     gss_AcceptSecContext := AcceptSecContext i;
     gss_VerifyMIC := VerifyMIC i;
     gss_DeleteSecContext := prog_ret None;
     gss_AllowLogin := λ username meta,
       let* k := context_at i in of_outcome (kerberos_AllowLogin k username meta) |}.

(** ** The factory *)

(** [keytab_Load], [krb5cfg_Load] read files; [NewPrincipalName] takes a name apart. *)
Definition NewKerberosClient (lib : Library) (keytab_Load : string → Keytab + error) (krb5cfg_Load : string → KrbConfig + error)
    (Hostname : string + error) (KRB_NT_PRINCIPAL : Z) (NewPrincipalName : Z → string → PrincipalName)
    (type : string) (cfg : AuthKerberosClientConfig) : kerberosAuthClient + error :=
  match AuthKerberosClientConfig_Validate lib cfg with
  | Some err => inr (Wrap (Some err) EAuthConfigError "Kerberos configuration failed to validate" [])
  | None =>
      match keytab_Load (krb_Keytab cfg) with
      | inr err => inr (Wrap (Some err) EAuthConfigError "Failed to load kerberos keytab from %s" [VString (krb_Keytab cfg)])
      | inl kt =>
          match (if decide (type = AuthenticationTypePassword) then
                   match krb5cfg_Load (krb_ConfigPath cfg) with inl conf => inl (Some conf) | inr err => inr err end
                 else inl None) with
          | inr err => inr (Wrap (Some err) EAuthConfigError "Failed to load kerberos configuration file from %s" [VString (krb_ConfigPath cfg)])
          | inl conf =>
              if decide (krb_Acceptor cfg = "any") then inl (MkKerberosAuthClient cfg kt conf None type)
              else if decide (krb_Acceptor cfg = "host") then
                match Hostname with
                | inr err => inr (Wrap (Some err) EAuthConfigError "Failed to get hostname from OS" [])
                | inl hostname => inl (MkKerberosAuthClient cfg kt conf (Some (MkPrincipalName KRB_NT_PRINCIPAL ["host"; hostname])) type)
                end
              else inl (MkKerberosAuthClient cfg kt conf (Some (NewPrincipalName KRB_NT_PRINCIPAL (krb_Acceptor cfg))) type)
          end
      end
  end.
End kerberos.
