(* ===== verification/AuthFactory.v ===== *)
(** * The authenticators of a configuration

    [internal/auth/authentication_factory.go] and the factory of
    [internal/authintegration]: which clients decide about the logins of a server,
    and which services have to run for them. *)

From stdpp Require Import base gmap strings list.
From S2P Require Import Prelude Messages Metadata Handler GoStrings ConfigHTTP ConfigAuth Http.
From S2P Require Import AuthIntegration Webhook OAuth2 Kerberos.

Section factory.
Context {Keytab KrbConfig : Type}.
Context (lib : Library) (path_Join : string → string → string) (url_parse : string → URL + error) (has_index : string → bool).
Context (keytab_Load : string → Keytab + error) (krb5cfg_Load : string → KrbConfig + error) (Hostname : string + error)
        (KRB_NT_PRINCIPAL : Z) (NewPrincipalName : Z → string → PrincipalName).

(** The objects behind the interfaces of authenticators. *)
Inductive auth_client :=
| WebhookAuth (c : webhookClient)
| KerberosAuth (c : @kerberosAuthClient Keytab KrbConfig)
| OAuth2Auth (p : OAuth2Provider).

(** The only services are HTTP servers; both are nil for a disabled method. *)
Abbreviation service := (HTTPServerConfiguration * option tls_Config)%type.
Abbreviation made := (outcome ((option auth_client * option service) + error)).

Definition unsupported (method : string) : made := Done (inr (Errorf "unsupported method: %s" [VString method])).

Definition webhook_for (type : string) (cfg : AuthWebhookClientConfig) : made :=
  match NewWebhookClient lib type cfg with
  | Done (inl cli) => Done (inl (Some (WebhookAuth cli), None))
  | Done (inr err) => Done (inr err)
  | Panic why => Panic why
  | Blocked why => Blocked why
  end.
Definition kerberos_for (type : string) (cfg : AuthKerberosClientConfig) : made :=
  match NewKerberosClient lib keytab_Load krb5cfg_Load Hostname KRB_NT_PRINCIPAL NewPrincipalName type cfg with
  | inl cli => Done (inl (Some (KerberosAuth cli), None))
  | inr err => Done (inr err)
  end.
Definition oauth2_for (cfg : AuthOAuth2ClientConfig) : made :=
  match NewOAuth2Client lib path_Join url_parse has_index cfg with
  | Done (inl (provider, svc)) => Done (inl (Some (OAuth2Auth provider), Some svc))
  | Done (inr err) => Done (inr err)
  | Panic why => Panic why
  | Blocked why => Blocked why
  end.

Definition NewPasswordAuthenticator (cfg : PasswordAuthConfig) : made :=
  match PasswordAuthConfig_Validate lib cfg with
  | Some err => Done (inr err)
  | None =>
      if decide (pw_Method cfg = AuthMethodDisabled) then Done (inl (None, None))
      else if decide (pw_Method cfg = AuthMethodWebhook) then webhook_for AuthenticationTypePassword (pw_Webhook cfg)
      else if decide (pw_Method cfg = AuthMethodKerberos) then kerberos_for AuthenticationTypePassword (pw_Kerberos cfg)
      else unsupported (pw_Method cfg)
  end.

Definition NewPublicKeyAuthenticator (cfg : PublicKeyAuthConfig) : made :=
  match PublicKeyAuthConfig_Validate lib cfg with
  | Some err => Done (inr err)
  | None =>
      if decide (pk_Method cfg = AuthMethodDisabled) then Done (inl (None, None))
      else if decide (pk_Method cfg = AuthMethodWebhook) then webhook_for AuthenticationTypePublicKey (pk_Webhook cfg)
      else unsupported (pk_Method cfg)
  end.

Definition NewKeyboardInteractiveAuthenticator (cfg : KeyboardInteractiveAuthConfig) : made :=
  match KeyboardInteractiveAuthConfig_Validate lib path_Join cfg with
  | Some err => Done (inr err)
  | None =>
      if decide (kbd_Method cfg = AuthMethodDisabled) then Done (inl (None, None))
      else if decide (kbd_Method cfg = AuthMethodOAuth2) then oauth2_for (kbd_OAuth2 cfg)
      else unsupported (kbd_Method cfg)
  end.

Definition NewGSSAPIAuthenticator (cfg : GSSAPIAuthConfig) : made :=
  match GSSAPIAuthConfig_Validate lib cfg with
  | Some err => Done (inr err)
  | None =>
      if decide (gss_Method cfg = AuthMethodDisabled) then Done (inl (None, None))
      else if decide (gss_Method cfg = AuthMethodKerberos) then kerberos_for AuthenticationTypeGSSAPI (gss_Kerberos cfg)
      else unsupported (gss_Method cfg)
  end.

Definition NewAuthorizationProvider (cfg : AuthzConfig) : made :=
  match AuthzConfig_Validate lib cfg with
  | Some err => Done (inr err)
  | None =>
      if decide (authz_Method cfg = AuthMethodDisabled) then Done (inl (None, None))
      else if decide (authz_Method cfg = AuthMethodWebhook) then webhook_for AuthenticationTypeAuthz (authz_Webhook cfg)
      else unsupported (authz_Method cfg)
  end.

(** The fields of the authentication handler. *)
Record authenticators := MkAuthenticators {
  passwordAuthenticator : option auth_client;
  publicKeyAuthenticator : option auth_client;
  keyboardInteractiveAuthenticator : option auth_client;
  gssapiAuthenticator : option auth_client;
  authorizationProvider : option auth_client;
  auth_behavior : Behavior;
}.

(** Making one authenticator after another; their services are collected. *)
Definition and_then {A} (m : made) (services : list service) (k : option auth_client → list service → outcome (A + error)) : outcome (A + error) :=
  match m with
  | Done (inl (cli, svc)) => k cli (services ++ option_list svc)
  | Done (inr err) => Done (inr err)
  | Panic why => Panic why
  | Blocked why => Blocked why
  end.

(** [New] of [internal/authintegration]; [backend]: whether there is one. *)
Definition authintegration_factory (cfg : AuthConfig) (backend : bool) (behavior : Behavior)
  : outcome ((authenticators * list service) + error) :=
  if negb backend then Done (inr (Errorf "the backend parameter to authintegration.New cannot be nil" []))
  else if negb (Behavior_validate behavior) then
    Done (inr (Errorf "the behavior field contains an invalid value: %d" [VInt (match behavior with BehaviorOther n => n | _ => 0%Z end)]))
  else
    and_then (NewPasswordAuthenticator (PasswordAuth cfg)) [] (λ password services,
    and_then (NewPublicKeyAuthenticator (PublicKeyAuth cfg)) services (λ publicKey services,
    and_then (NewKeyboardInteractiveAuthenticator (KeyboardInteractiveAuth cfg)) services (λ keyboardInteractive services,
    and_then (NewGSSAPIAuthenticator (GSSAPIAuth cfg)) services (λ gssapi services,
    and_then (NewAuthorizationProvider (Authz cfg)) services (λ authorization services,
    Done (inl (MkAuthenticators password publicKey keyboardInteractive gssapi authorization behavior, services))))))).
End factory.

(** ** Who decides about logins *)

Definition AuthenticationTypeKeyboardInteractive : string := "keyboard-interactive".

Section choice.
Context {Keytab KrbConfig : Type}.
Context (lib : Library) (path_Join : string → string → string) (url_parse : string → URL + error) (has_index : string → bool).
Context (keytab_Load : string → Keytab + error) (krb5cfg_Load : string → KrbConfig + error) (Hostname : string + error)
        (KRB_NT_PRINCIPAL : Z) (NewPrincipalName : Z → string → PrincipalName).
Abbreviation client := (@auth_client Keytab KrbConfig).

(** A client that answers logins of a type and no others, as a method says. *)
Definition answers (type method : string) (a : option client) : Prop :=
  match a with
  | None => method = AuthMethodDisabled
  | Some (WebhookAuth c) =>
      method = AuthMethodWebhook ∧ enablePassword c = bool_decide (type = AuthenticationTypePassword) ∧
      enablePubKey c = bool_decide (type = AuthenticationTypePublicKey) ∧ enableAuthz c = bool_decide (type = AuthenticationTypeAuthz)
  | Some (KerberosAuth c) =>
      method = AuthMethodKerberos ∧ authType c = type ∧ (type = AuthenticationTypePassword → is_Some (clientConf c))
  | Some (OAuth2Auth _) => method = AuthMethodOAuth2 ∧ type = AuthenticationTypeKeyboardInteractive
  end.

(** The page the user is sent back to is only served for OAuth2. *)
Definition services_of (method : string) {A} (l : list A) : Prop :=
  if decide (method = AuthMethodOAuth2) then length l = 1 else l = [].

Lemma webhook_answers type cfg a svc : type ≠ AuthenticationTypeAll →
  webhook_for lib type cfg = Done (inl (a, svc)) → answers type AuthMethodWebhook a ∧ svc = None.
Proof.
  intros Ht. unfold webhook_for, NewWebhookClient. destruct (AuthWebhookClientConfig_Validate lib cfg); [done|].
  destruct (NewClient lib (wh_HTTP cfg)) as [[c|err]| |]; [|done..]. intros [= <- <-]. split; [|done]. cbn. split_and!; [done|..];
    apply bool_decide_ext; naive_solver.
Qed.

Lemma kerberos_answers type cfg a svc :
  kerberos_for lib keytab_Load krb5cfg_Load Hostname KRB_NT_PRINCIPAL NewPrincipalName type cfg = Done (inl (a, svc)) →
  answers type AuthMethodKerberos a ∧ svc = None.
Proof.
  unfold kerberos_for. destruct (NewKerberosClient _ _ _ _ _ _ _ _) as [c|err] eqn:Hc; intros [= <- <-]. split; [|done].
  assert (authType c = type ∧ (type = AuthenticationTypePassword → is_Some (clientConf c))) as [? ?]; [|by cbn].
  revert Hc. unfold NewKerberosClient. destruct (AuthKerberosClientConfig_Validate lib cfg); [done|]. destruct (keytab_Load _); [|done].
  case_decide as Ht; [destruct (krb5cfg_Load _); [|done]|]; (case_decide; [intros [= <-]; by cbn|]);
    (case_decide; [destruct Hostname; [|done]|]); intros [= <-]; by cbn.
Qed.

Lemma oauth2_answers cfg a svc :
  oauth2_for (Keytab := Keytab) (KrbConfig := KrbConfig) lib path_Join url_parse has_index cfg = Done (inl (a, svc)) →
  answers AuthenticationTypeKeyboardInteractive AuthMethodOAuth2 a ∧ is_Some svc.
Proof. unfold oauth2_for. destruct (NewOAuth2Client _ _ _ _ _) as [[[p s]|err]| |]; [|done..]. intros [= <- <-]. by split. Qed.

(** Looking at the method of a validated section. *)
Local Ltac by_method :=
  repeat lazymatch goal with
  | |- match ?v with Some _ => _ | None => _ end = _ → _ => destruct v; [discriminate|]
  | |- (if decide (?m = ?x) then _ else _) = _ → _ =>
      let H := fresh in case_decide as H; [rewrite H; first [by intros [= <- <-] | by apply webhook_answers | by apply kerberos_answers | by apply oauth2_answers]|]
  | |- unsupported _ = _ → _ => discriminate
  end.

Lemma password_answers cfg a svc :
  NewPasswordAuthenticator lib keytab_Load krb5cfg_Load Hostname KRB_NT_PRINCIPAL NewPrincipalName cfg = Done (inl (a, svc)) →
  answers AuthenticationTypePassword (pw_Method cfg) a ∧ svc = None.
Proof. unfold NewPasswordAuthenticator. by_method. Qed.
Lemma publicKey_answers cfg a svc :
  NewPublicKeyAuthenticator lib cfg = Done (inl (a, svc)) → answers AuthenticationTypePublicKey (pk_Method cfg) a ∧ svc = None.
Proof. unfold NewPublicKeyAuthenticator. by_method. Qed.
Lemma gssapi_answers cfg a svc :
  NewGSSAPIAuthenticator lib keytab_Load krb5cfg_Load Hostname KRB_NT_PRINCIPAL NewPrincipalName cfg = Done (inl (a, svc)) →
  answers AuthenticationTypeGSSAPI (gss_Method cfg) a ∧ svc = None.
Proof. unfold NewGSSAPIAuthenticator. by_method. Qed.
Lemma authorization_answers cfg a svc :
  NewAuthorizationProvider lib cfg = Done (inl (a, svc)) → answers AuthenticationTypeAuthz (authz_Method cfg) a ∧ svc = None.
Proof. unfold NewAuthorizationProvider. by_method. Qed.
Lemma keyboard_answers cfg a svc :
  NewKeyboardInteractiveAuthenticator lib path_Join url_parse has_index cfg = Done (inl (a, svc)) →
  answers AuthenticationTypeKeyboardInteractive (kbd_Method cfg) a ∧ services_of (kbd_Method cfg) (option_list svc).
Proof.
  unfold NewKeyboardInteractiveAuthenticator, services_of. destruct (KeyboardInteractiveAuthConfig_Validate _ _ _); [done|].
  case_decide as H1; [rewrite H1; by intros [= <- <-]|]. case_decide as H2; [|done]. rewrite H2.
  intros [? [s ->]]%oauth2_answers. done.
Qed.

Lemma and_then_made {A} m services (k : option client → list (HTTPServerConfiguration * option tls_Config) → outcome (A + error)) r :
  and_then m services k = Done (inl r) → ∃ a svc, m = Done (inl (a, svc)) ∧ k a (services ++ option_list svc) = Done (inl r).
Proof. unfold and_then. destruct m as [[[a svc]|]| |]; [|done..]. intros H. by exists a, svc. Qed.

(** The handler for a configuration: each method is answered by a client of its own,
    made for this method only, or by nobody when it is disabled, and the behavior is the
    one that was asked for. *)
Definition follows (cfg : AuthConfig) (behavior : Behavior) (a : @authenticators Keytab KrbConfig) : Prop :=
  answers AuthenticationTypePassword (pw_Method (PasswordAuth cfg)) (passwordAuthenticator a) ∧
  answers AuthenticationTypePublicKey (pk_Method (PublicKeyAuth cfg)) (publicKeyAuthenticator a) ∧
  answers AuthenticationTypeKeyboardInteractive (kbd_Method (KeyboardInteractiveAuth cfg)) (keyboardInteractiveAuthenticator a) ∧
  answers AuthenticationTypeGSSAPI (gss_Method (GSSAPIAuth cfg)) (gssapiAuthenticator a) ∧
  answers AuthenticationTypeAuthz (authz_Method (Authz cfg)) (authorizationProvider a) ∧
  auth_behavior a = behavior.

(** The handler that is made follows its configuration; a service runs exactly if the keyboard-interactive
    method is OAuth2. *)
Theorem authenticators_follow_configuration cfg backend behavior a services :
  authintegration_factory lib path_Join url_parse has_index keytab_Load krb5cfg_Load Hostname KRB_NT_PRINCIPAL NewPrincipalName cfg backend behavior
    = Done (inl (a, services)) →
  follows cfg behavior a ∧ services_of (kbd_Method (KeyboardInteractiveAuth cfg)) services.
Proof.
  unfold authintegration_factory. destruct backend; [|done]. destruct (Behavior_validate behavior); [|done]. cbn [negb].
  intros (pw & s1 & [Hpw ->]%password_answers & H)%and_then_made. revert H.
  intros (pk & s2 & [Hpk ->]%publicKey_answers & H)%and_then_made. revert H.
  intros (kbd & s3 & [Hkbd Hs]%keyboard_answers & H)%and_then_made. revert H.
  intros (gss & s4 & [Hgss ->]%gssapi_answers & H)%and_then_made. revert H.
  intros (az & s5 & [Haz ->]%authorization_answers & H)%and_then_made. revert H. cbn. rewrite !app_nil_r. intros [= <- <-]. by split_and!.
Qed.
End choice.

(** ** An example *)

Module auth_factory_demo.
Definition files : Library :=
  MkLibrary (λ _, inl true) (λ _, inr (ErrorString "no such file")) (λ _, None) (λ _, None) (λ _, None) (λ _ _, None)
    (λ _, true) None (λ _ _, None) (λ _, "0s").
Definition no_url (url : string) : URL + error := inr (ErrorString "not parsed").
Definition loaded (path : string) : unit + error := inl tt.
Definition split_name (t : Z) (name : string) : PrincipalName := MkPrincipalName t [name].

Definition webhook : AuthWebhookClientConfig := MkAuthWebhookClientConfig (github_client_config "https://auth.example.com" "" (2 * Second)) (60 * Second).
Definition krb : AuthKerberosClientConfig := MkAuthKerberosClientConfig "/etc/krb5.keytab" "host" true "/tmp/krb5cc" "/etc/krb5.conf" (300 * Second).
Definition no_server : HTTPServerConfiguration := MkHTTPServerConfiguration "" "" "" "" "" [] [].
Definition github_login : AuthOAuth2ClientConfig :=
  MkAuthOAuth2ClientConfig (MkOAuth2RedirectConfig no_server "") "client" "hush" "github"
    (MkAuthGitHubConfig "" "https://github.com" "https://api.github.com" "" "" "1.3" [] [] true "" false [] false (10 * Second))
    (MkAuthOIDCConfig (wh_HTTP webhook) false false "" "") (MkAuthGenericConfig "" (wh_HTTP webhook) "") [] [] 0%Z.

(** Passwords go to a webhook, tickets to Kerberos, there are no other methods. *)
Definition config : AuthConfig :=
  MkAuthConfig (MkPasswordAuthConfig "webhook" webhook krb) (MkPublicKeyAuthConfig "" webhook) (MkKeyboardInteractiveAuthConfig "" github_login)
    (MkGSSAPIAuthConfig "kerberos" krb) (MkAuthzConfig "" webhook) (60 * Second)%Z (wh_HTTP webhook) None None.

Definition made : outcome ((@authenticators unit unit * list (HTTPServerConfiguration * option tls_Config)) + error) :=
  authintegration_factory files (λ d f, d ++ "/" ++ f)%string no_url (λ _, true) loaded loaded (inl "ssh") 1%Z split_name config true BehaviorNoPassthrough.

Definition demo_authenticators : @authenticators unit unit :=
  match made with Done (inl (a, _)) => a | _ => MkAuthenticators None None None None None BehaviorNoPassthrough end.

Lemma authenticators_follow_configuration_witness :
  made = Done (inl (demo_authenticators, [])) ∧
  follows config BehaviorNoPassthrough demo_authenticators ∧
  services_of "" ([] : list (HTTPServerConfiguration * option tls_Config)).
Proof.
  assert (made = Done (inl (demo_authenticators, []))) as H by (vm_compute; reflexivity). split; [exact H|].
  exact (authenticators_follow_configuration files (λ d f, d ++ "/" ++ f)%string no_url (λ _, true) loaded loaded (inl "ssh") 1%Z split_name
    config true BehaviorNoPassthrough demo_authenticators [] H).
Defined.
End auth_factory_demo.
