(* ===== verification/Logger.v ===== *)
(** * Logging

    [log/*.go]: the logger with its level and labels, the adapter for Go's own log,
    and the writers for files, the standard output, syslog and tests. *)

From stdpp Require Import base gmap strings list pretty.
From Stdlib Require Import Ascii.
From S2P Require Import Prelude Messages GoStrings MetadataJSON ConfigHTTP ConfigLog.

Local Open Scope Z_scope.

Definition EUnknownError : string := "UNKNOWN_ERROR".
Definition ELogWriteFailed : string := "LOG_WRITE_FAILED".
Definition ELogRotateFailed : string := "LOG_ROTATE_FAILED".
Definition ELogFileOpenFailed : string := "LOG_FILE_OPEN_FAILED".
Definition line_feed : string := bytes [10%nat].
Definition tab : string := bytes [9%nat].

(** ** The system *)

(** What [time.Now()] gives. *)
Record time := MkTime { RFC3339 : string; t_Day : Z; t_Hour : Z; t_Minute : Z; t_Second : Z }.

(** Files, sockets and the test that is running.  [range_labels]: the order in which
    a loop visits a map, which Go leaves open; [json_Marshal]: the text of a
    document. *)
Record log_system (W : Type) := MkLogSystem {
  OpenFile : string → prog W (nat + error);
  file_Write : nat → string → prog W (option error);
  file_Close : nat → prog W (option error);
  conn_Write : (string * string) → string → prog W (option error);
  conn_Close : (string * string) → prog W (option error);
  Now : prog W time;
  Getpid : Z;
  t_Logf : string → prog W unit;
  testLoggerActive : bool;
  Caller : string * Z;
  json_Marshal : json → string + error;
  range_labels : gmap string value → list (string * value);
}.
Arguments OpenFile {W} _ _.
Arguments file_Write {W} _ _ _.
Arguments file_Close {W} _ _.
Arguments conn_Write {W} _ _ _.
Arguments conn_Close {W} _ _.
Arguments Now {W} _.
Arguments Getpid {W} _.
Arguments t_Logf {W} _ _.
Arguments testLoggerActive {W} _.
Arguments Caller {W} _.
Arguments json_Marshal {W} _ _.
Arguments range_labels {W} _ _.

(** ** Writers *)

(** The writers; a standard output is a handle that is never rotated. *)
Inductive log_writer :=
| fileWriter (filename format : string)
| stdoutWriter (format : string)
| syslogWriter (format : string)
| goTestWriter.

(** The fields of the writer that change: the handle, and the configuration and
    connection of syslog. *)
Record writer_state := MkWriterState {
  lw_fh : nat;
  lw_config : SyslogConfig;
  lw_connection : option (string * string);
}.

Definition message_of (e : error) : message :=
  match e with MsgError m | WrappingMsg m _ => m | _ => Message EUnknownError "" (Error e) ∅ end.

(** [encoding/json] on the value of a label. *)
Definition value_json (v : value) : json :=
  match v with VString s => JString s | VInt z => JNumber (pretty z) | VBool b => JBool b end.

(** A number in two places, filled up with [fill]. *)
Definition two_places (fill : ascii) (n : Z) : string :=
  if decide (0 ≤ n < 10) then String fill (pretty n) else pretty n.

Section writers.
Context {W : Type} `{!Field W writer_state} (lib : Library) (sys : log_system W).

Definition label_text (l : string * value) : string := Sprintf "%s=%s" [VString l.1; VString (value_text l.2)].

(** The text of a message with its labels, in files and for syslog. *)
Definition text_with_labels (m : message) : string :=
  match range_labels sys (labels m) with
  | [] => explanation m
  | ls => (explanation m ++ Sprintf " (%s)" [VString (Join " " (label_text <$> ls))])%string
  end.

Definition createLineText (now : time) (levelString : string) (m : message) : string :=
  (Sprintf ("%s" ++ tab ++ "%s" ++ tab ++ "%s") [VString (RFC3339 now); VString levelString; VString (text_with_labels m)] ++ line_feed)%string.

(** Maps are written with their keys in order; [details] is a map. *)
Definition details (m : message) : json := JObject ((λ l : string * value, (l.1, value_json l.2)) <$> map_to_list (labels m)).

Definition createLineLJSON (now : time) (levelString : string) (m : message) : string + error :=
  json_Marshal sys (JObject [("timestamp", JString (RFC3339 now)); ("level", JString levelString); ("code", JString (code m));
                             ("message", JString (explanation m)); ("details", details m)]).

Definition createLine (now : time) (format levelString : string) (m : message) : string + error :=
  if decide (format = "ljson") then createLineLJSON now levelString m
  else if decide (format = "text") then inl (createLineText now levelString m)
  else inr (Errorf "log format not supported: %s" [VString format]).

Definition write_failed (err : error) : option error := Some (Wrap (Some err) ELogWriteFailed "failed to write log message" []).

(** [fileHandleWriter.Write] *)
Definition fileHandleWriter_Write (format : string) (level : Z) (m : message) : prog W (option error) :=
  match LogLevel_Name level with
  | inr err => prog_ret (Some err)
  | inl levelString =>
      let* now := Now sys in
      match createLine now format levelString m with
      | inr err => prog_ret (write_failed err)
      | inl line =>
          let* w := get in
          let* err := file_Write sys (lw_fh (fget w)) (line ++ line_feed) in
          prog_ret match err with Some err => write_failed err | None => None end
      end
  end.

(** [syslogWriter.createMessage] *)
Definition createMessage (format : string) (m : message) : string + error :=
  if decide (format = "ljson") then
    json_Marshal sys (JObject [("code", JString (code m)); ("message", JString (explanation m)); ("details", details m)])
  else if decide (format = "text") then inl (text_with_labels m)
  else inr (Errorf "log format not supported: %s" [VString format]).

(** [t.Format("Feb")]: the layout of a month is "Jan"; what is not part of a layout
    is printed as it is. *)
Definition syslog_timestamp (t : time) : string :=
  ("Feb " ++ two_places " " (t_Day t) ++ " " ++ two_places "0" (t_Hour t) ++ ":" ++ two_places "0" (t_Minute t) ++ ":" ++
   two_places "0" (t_Second t))%string.

Definition syslogWriter_Write (format : string) (level : Z) (m : message) : prog W (option error) :=
  let* w := get in
  let config := lw_config (fget w) in
  match LogFacilityString_Number (syslog_Facility config) with
  | inr err => prog_ret (Some err)
  | inl facilityNumber =>
      let pri := facilityNumber * 8 + level in
      let* t := Now sys in
      let tag := if decide (syslog_Tag config = "") then "ContainerSSH" else syslog_Tag config in
      let tag := if syslog_Pid config then (tag ++ Sprintf "[%d]" [VInt (Getpid sys)])%string else tag in
      match createMessage format m with
      | inr err => prog_ret (Some err)
      | inl msg =>
          match lw_connection (fget w) with
          | None => panic "runtime error: invalid memory address or nil pointer dereference"
          | Some connection =>
              let* err := conn_Write sys connection
                            (Sprintf "<%d>%s %s: %s" [VInt pri; VString (syslog_timestamp t); VString tag; VString msg] ++ line_feed) in
              prog_ret match err with
                       | Some err => Some (Wrap (Some err) ELogWriteFailed "failed to write to syslog socket" [])
                       | None => None
                       end
          end
      end
  end.

Definition goTestWriter_Write (level : Z) (m : message) : prog W (option error) :=
  match LogLevel_Name level with
  | inr err => prog_ret (Some err)
  | inl levelString =>
      do* t_Logf sys
        (if testLoggerActive sys then
           Sprintf (tab ++ "%s" ++ tab ++ "%d" ++ tab ++ "%s" ++ tab ++ "%s" ++ tab ++ "%s" ++ line_feed)
             [VString (Caller sys).1; VInt (Caller sys).2; VString levelString; VString (code m); VString (explanation m)]
         else Sprintf ("%s" ++ tab ++ "%s") [VString levelString; VString (explanation m)]) in
      prog_ret None
  end.

Definition writer_Write (wr : log_writer) (level : Z) (m : message) : prog W (option error) :=
  match wr with
  | fileWriter _ format | stdoutWriter format => fileHandleWriter_Write format level m
  | syslogWriter format => syslogWriter_Write format level m
  | goTestWriter => goTestWriter_Write level m
  end.

Definition openLogFile (filename : string) : prog W (nat + error) :=
  let* fh := OpenFile sys filename in
  prog_ret match fh with
           | inl fh => inl fh
           | inr err => inr (Wrap (Some err) ELogFileOpenFailed "failed to open log file %s" [VString filename])
           end.

Definition set_writer (f : writer_state → writer_state) : prog W unit := modify (λ w, fset (f (fget w)) w).

Definition rotate_failed (err : error) (text : string) : option error := Some (Wrap (Some err) ELogRotateFailed text []).

Definition writer_Rotate (wr : log_writer) : prog W (option error) :=
  match wr with
  | fileWriter filename _ =>
      let* fh := openLogFile filename in
      match fh with
      | inr err => prog_ret (rotate_failed err "failed to rotate logs")
      | inl fh =>
          let* w := get in
          let oldFh := lw_fh (fget w) in
          do* set_writer (λ s, MkWriterState fh (lw_config s) (lw_connection s)) in
          let* err := file_Close sys oldFh in
          prog_ret match err with Some err => rotate_failed err "failed to close old log file" | None => None end
      end
  | syslogWriter _ =>
      let* w := get in
      let '(config, err) := SyslogConfig_Validate lib (lw_config (fget w)) in
      do* set_writer (λ s, MkWriterState (lw_fh s) config (lw_connection s)) in
      match err with
      | Some _ => prog_ret err
      | None =>
          match lw_connection (fget w) with
          | None => panic "runtime error: invalid memory address or nil pointer dereference"
          | Some connection =>
              let* err := conn_Close sys connection in
              match err with
              | Some err => prog_ret (rotate_failed err "failed to close old syslog connection")
              | None => do* set_writer (λ s, MkWriterState (lw_fh s) (lw_config s) (syslog_Connection config)) in prog_ret None
              end
          end
      end
  | stdoutWriter _ | goTestWriter => prog_ret None
  end.

Definition writer_Close (wr : log_writer) : prog W (option error) :=
  let* w := get in
  match wr with
  | fileWriter _ _ => file_Close sys (lw_fh (fget w))
  | syslogWriter _ =>
      match lw_connection (fget w) with
      | None => panic "runtime error: invalid memory address or nil pointer dereference"
      | Some connection => conn_Close sys connection
      end
  | stdoutWriter _ | goTestWriter => prog_ret None
  end.

(** ** The logger *)

Record logger := MkLogger {
  lg_level : Z;
  lg_labels : gmap string value;
  lg_writer : log_writer;
}.

Definition WithLevel (level : Z) (l : logger) : logger := MkLogger level (lg_labels l) (lg_writer l).
Definition WithLabel (labelName : string) (labelValue : value) (l : logger) : logger :=
  MkLogger (lg_level l) (<[labelName := labelValue]> (lg_labels l)) (lg_writer l).

(** What is logged: texts, errors (messages among them) and other values. *)
Inductive log_arg := LogString (s : string) | LogError (e : error) | LogValue (v : value).

Definition arg_text (a : log_arg) : string :=
  match a with LogString s => s | LogError e => Error e | LogValue v => value_text v end.

Definition wrapError (err : error) : error := Wrap (Some err) EUnknownError "An unexpected error has happened." [].

(** The message of a single argument: a text is the format of one. *)
Definition arg_message (a : log_arg) : error :=
  match a with
  | LogString s => MsgError (NewMessage EUnknownError s [])
  | LogError (MsgError m) => MsgError m
  | LogError (WrappingMsg m c) => WrappingMsg m c
  | LogError e => wrapError e
  | LogValue v => MsgError (NewMessage EUnknownError "%v" [v])
  end.

(** The labels of the logger on a message, and the result to the writer. *)
Definition emit (l : logger) (level : Z) (msg : error) : prog W unit :=
  let msg := foldl (λ msg (kv : string * value), error_Label kv.1 kv.2 msg) msg (range_labels sys (lg_labels l)) in
  let* err := writer_Write (lg_writer l) level (message_of msg) in
  match err with Some err => panic (Error err) | None => prog_ret tt end.

Definition logger_write (l : logger) (level : Z) (args : list log_arg) : prog W unit :=
  if decide (level ≤ lg_level l) then
    match args with
    | [] => prog_ret tt
    | [a] => emit l level (arg_message a)
    | _ => emit l level (MsgError (NewMessage EUnknownError "[%s]" [VString (Join " " (arg_text <$> args))]))
    end
  else prog_ret tt.

Definition logger_writef (l : logger) (level : Z) (format : string) (args : list value) : prog W unit :=
  if decide (level ≤ lg_level l) then emit l level (MsgError (NewMessage EUnknownError format args)) else prog_ret tt.

Definition logger_Emergency (l : logger) : list log_arg → prog W unit := logger_write l LogLevelEmergency.
Definition logger_Alert (l : logger) : list log_arg → prog W unit := logger_write l LogLevelAlert.
Definition logger_Critical (l : logger) : list log_arg → prog W unit := logger_write l LogLevelCritical.
Definition logger_Error (l : logger) : list log_arg → prog W unit := logger_write l LogLevelError.
Definition logger_Warning (l : logger) : list log_arg → prog W unit := logger_write l LogLevelWarning.
Definition logger_Notice (l : logger) : list log_arg → prog W unit := logger_write l LogLevelNotice.
Definition logger_Info (l : logger) : list log_arg → prog W unit := logger_write l LogLevelInfo.
Definition logger_Debug (l : logger) : list log_arg → prog W unit := logger_write l LogLevelDebug.

(** [Log] prints its first argument; Go appends a remark about others to the text,
    which is left out here. *)
Definition logger_Log (l : logger) (args : list value) : prog W unit := logger_writef l LogLevelInfo "%v" args.
Definition logger_Logf (l : logger) (format : string) (args : list value) : prog W unit := logger_writef l LogLevelInfo format args.

Definition logger_Rotate (l : logger) : prog W (option error) := writer_Rotate (lg_writer l).
Definition logger_Close (l : logger) : prog W (option error) := writer_Close (lg_writer l).

(** ** The adapter for Go's log *)

(** [logWriter.Write]: the buffer before and after, and the lines that are logged. *)
Fixpoint split_lines (buf : string) (p : string) : list string * string :=
  match p with
  | EmptyString => ([], buf)
  | String c p =>
      if decide (String c EmptyString = line_feed) then
        let '(ls, rest) := split_lines "" p in (TrimSpace buf :: ls, rest)
      else split_lines (buf ++ String c EmptyString) p
  end.

Definition golog_Write (l : logger) (buf p : string) : prog W string :=
  let '(ls, rest) := split_lines buf p in
  do* range ls (λ line, logger_Log l [VString line]) in
  do* (if decide (rest = "") then prog_ret tt else logger_Log l [VString (TrimSpace rest)]) in
  prog_ret rest.

(** ** The factory *)

Definition newSyslogWriter (config : SyslogConfig) (format : string) : prog W (log_writer + error) :=
  let '(config, err) := SyslogConfig_Validate lib config in
  match err with
  | Some err => prog_ret (inr err)
  | None => do* set_writer (λ s, MkWriterState (lw_fh s) config (syslog_Connection config)) in prog_ret (inl (syslogWriter format))
  end.

Definition newFileWriter (filename format : string) : prog W (log_writer + error) :=
  let* fh := openLogFile filename in
  match fh with
  | inr err => prog_ret (inr err)
  | inl fh => do* set_writer (λ s, MkWriterState fh (lw_config s) (lw_connection s)) in prog_ret (inl (fileWriter filename format))
  end.

(** [stdout]: the handle of the configured standard output or of the process. *)
Definition newStdoutWriter (stdout : nat) (format : string) : prog W log_writer :=
  do* set_writer (λ s, MkWriterState stdout (lw_config s) (lw_connection s)) in prog_ret (stdoutWriter format).

Definition logger_Make (stdout : nat) (cfg : LogConfig) : prog W (logger + error) :=
  match LogLevel_Validate (log_Level cfg), LogFormat_Validate (log_Format cfg), LogDestination_Validate (log_Destination cfg) with
  | Some err, _, _ | None, Some err, _ | None, None, Some err => prog_ret (inr err)
  | None, None, None =>
      let* writer :=
        if decide (log_Destination cfg = "file") then newFileWriter (log_File cfg) (log_Format cfg)
        else if decide (log_Destination cfg = "stdout") then let* wr := newStdoutWriter stdout (log_Format cfg) in prog_ret (inl wr)
        else if decide (log_Destination cfg = "syslog") then newSyslogWriter (log_Syslog cfg) (log_Format cfg)
        else if log_T cfg then prog_ret (inl goTestWriter)
        else panic "runtime error: invalid memory address or nil pointer dereference" in
      prog_ret match writer with inr err => inr err | inl writer => inl (MkLogger (log_Level cfg) ∅ writer) end
  end.

Definition MustMake (stdout : nat) (cfg : LogConfig) : prog W logger :=
  let* l := logger_Make stdout cfg in
  match l with inl l => prog_ret l | inr err => panic (Error err) end.
End writers.
