(* ===== verification/LoggerSpec.v ===== *)
(** * What the logger does

    Theorems on [Logger]: what reaches a writer, what rotation does to it, and what
    the adapter for Go's log makes of partial lines. *)

From stdpp Require Import base gmap strings list.
From Stdlib Require Import Ascii.
From S2P Require Import Prelude Messages GoStrings ConfigHTTP ConfigLog Logger.

Local Open Scope Z_scope.

Section logger.
Context {W : Type} `{!Field W writer_state} (lib : Library) (sys : log_system W).

(** Loops over maps visit every entry once. *)
Definition ranges_maps : Prop := ∀ m, range_labels sys m ≡ₚ map_to_list m.

(** ** Levels and labels *)

Lemma error_Label_labels kv e : (∃ m, e = MsgError m) ∨ (∃ m c, e = WrappingMsg m c) →
  ∃ m, error_Label kv.1 kv.2 e = MsgError m ∧ labels m = <[kv.1 := kv.2]> (labels (message_of e)) ∧
    code m = code (message_of e) ∧ explanation m = explanation (message_of e).
Proof. by intros [[m ->]|(m & c & ->)]; eexists. Qed.

Lemma labels_are_added (kvs : list (string * value)) e : NoDup kvs.*1 → (∃ m, e = MsgError m) ∨ (∃ m c, e = WrappingMsg m c) →
  let e' := foldl (λ e kv, error_Label kv.1 kv.2 e) e kvs in
  labels (message_of e') = list_to_map kvs ∪ labels (message_of e) ∧
  code (message_of e') = code (message_of e) ∧ explanation (message_of e') = explanation (message_of e).
Proof.
  revert e. induction kvs as [|kv kvs IH]; intros e Hnd He; cbn; [by rewrite (left_id_L ∅ (∪))|].
  apply NoDup_cons in Hnd as [Hkv Hnd]. destruct (error_Label_labels kv e He) as (m & Hm & Hl & Hc & Hx).
  rewrite Hm. destruct (IH (MsgError m) Hnd) as (-> & -> & ->); [left; by eexists|]. cbn. rewrite Hl, Hc, Hx. split; [|done].
  rewrite <- insert_union_r by by apply not_elem_of_list_to_map. by rewrite insert_union_l.
Qed.

Lemma arg_message_is_message a : (∃ m, arg_message a = MsgError m) ∨ (∃ m c, arg_message a = WrappingMsg m c).
Proof. destruct a as [s|[]|v]; cbn; eauto. Qed.

(** What is written for an argument: its message with the labels of the logger, which
    win over those of the message. *)
Definition logged (l : logger) (a : log_arg) : message :=
  let m := message_of (arg_message a) in Message (code m) "" (explanation m) (lg_labels l ∪ labels m).

(** Messages up to the level of the logger are written once, with the labels of the
    logger; what the writer cannot write stops the process.  Others change nothing. *)
Theorem logger_writes_up_to_its_level l level a w : ranges_maps →
  if decide (level ≤ lg_level l) then
    ∃ m, labels m = labels (logged l a) ∧ code m = code (logged l a) ∧ explanation m = explanation (logged l a) ∧
      logger_write sys l level [a] w =
      match writer_Write sys (lg_writer l) level m w with
      | Done (None, w') => Done (tt, w')
      | Done (Some err, _) => Panic (Error err)
      | Panic why => Panic why
      | Blocked why => Blocked why
      end
  else logger_write sys l level [a] w = Done (tt, w).
Proof.
  intros Hr. unfold logger_write. case_decide; [|done]. unfold emit.
  set (e := foldl _ _ _).
  destruct (labels_are_added (range_labels sys (lg_labels l)) (arg_message a)) as (Hl & Hc & Hx);
    [rewrite (Hr (lg_labels l)); apply NoDup_fst_map_to_list|apply arg_message_is_message|].
  exists (message_of e). split_and!; [|done|done|].
  - unfold e. rewrite Hl. cbn. f_equal. rewrite <- (list_to_map_to_list (lg_labels l)) at 2.
    apply list_to_map_proper; [|apply Hr]. rewrite (Hr (lg_labels l)). apply NoDup_fst_map_to_list.
  - unfold prog_bind. by destruct (writer_Write _ _ _ _ _) as [[[err|] w']| |].
Qed.

(** ** Rotation *)

(** The writer uses the file it has opened last: rotation that fails to open a file
    keeps the old one, and one that fails to close it keeps the new one. *)
Theorem rotated_file filename format w :
  wlp (writer_Rotate lib sys (fileWriter filename format)) w (λ err w', ∃ r w1,
    OpenFile sys filename w = Done (r, w1) ∧
    match r with
    | inr _ => is_Some err ∧ w' = w1
    | inl fh => ∃ e w2, w2 = fset (MkWriterState fh (lw_config (fget w1)) (lw_connection (fget w1))) w1 ∧
        file_Close sys (lw_fh (fget w1)) w2 = Done (e, w') ∧ (err = None ↔ e = None)
    end).
Proof.
  unfold wlp, writer_Rotate, openLogFile, prog_bind. destruct (OpenFile sys filename w) as [[[fh|err] w1]| |] eqn:Ho;
    [|cbn; exists (inr err), w1; split; [done|]; split; [by eexists|done]|done..].
  cbn. destruct (file_Close sys _ _) as [[e w2]| |] eqn:Hc; [|done..]. cbn. exists (inl fh), w1. split; [done|].
  do 2 eexists. split_and!; [done|done|]. by destruct e.
Qed.

(** ** Go's log *)

Lemma append_empty s : String.append s "" = s.
Proof. induction s as [|c s IH]; [done|]. change (String c (String.append s "") = String c s). by rewrite IH. Qed.
Lemma append_cons s c p : String.append (String.append s (String c "")) p = String.append s (String c p).
Proof.
  induction s as [|d s IH]; [done|].
  change (String d (String.append (String.append s (String c "")) p) = String d (String.append s (String c p))). by rewrite IH.
Qed.

Lemma split_lines_partial buf p : ascii_of_nat 10 ∉ String.list_ascii_of_string p → split_lines buf p = ([], (buf ++ p)%string).
Proof.
  revert buf. induction p as [|c p IH]; intros buf Hp.
  - cbn [split_lines]. f_equal. symmetry. apply append_empty.
  - change (ascii_of_nat 10 ∉ c :: String.list_ascii_of_string p) in Hp. apply not_elem_of_cons in Hp as [Hc Hp].
    cbn [split_lines]. rewrite decide_False; [|intros [= H]; by apply Hc]. rewrite IH by done. f_equal. apply append_cons.
Qed.

Lemma golog_partial l buf p w : ascii_of_nat 10 ∉ String.list_ascii_of_string p → (buf ++ p)%string ≠ "" →
  golog_Write sys l buf p w = (do* logger_Log sys l [VString (TrimSpace (buf ++ p))] in prog_ret (buf ++ p)%string) w.
Proof.
  intros Hp Hne. unfold golog_Write. rewrite split_lines_partial by done. cbv beta iota. cbn [range]. rewrite bind_ret.
  by rewrite decide_False.
Qed.

(** The rest of a write without a line end is logged, and logged again in front of
    the next. *)
Theorem partial_lines_are_repeated l p q w : p ≠ "" →
  ascii_of_nat 10 ∉ String.list_ascii_of_string p → ascii_of_nat 10 ∉ String.list_ascii_of_string q →
  (let* buf := golog_Write sys l "" p in golog_Write sys l buf q) w =
  (do* logger_Log sys l [VString (TrimSpace p)] in
   do* logger_Log sys l [VString (TrimSpace (p ++ q))] in
   prog_ret (p ++ q)%string) w.
Proof.
  intros Hp Hnp Hnq. unfold prog_bind at 1. rewrite golog_partial by done. unfold prog_bind at 1 2.
  change ("" ++ p)%string with p. destruct (logger_Log _ _ _ w) as [[[] w1]| |]; [|done..].
  cbn [prog_ret]. unfold prog_ret at 1. apply golog_partial; [done|]. by destruct p.
Qed.
End logger.

(** ** An example *)

Module logger_demo.
Abbreviation demo_world := (list (nat * string) * writer_state)%type.

(** Files keep what is written to them; the next handle is 8. *)
Definition files : log_system demo_world := {|
  OpenFile _ := prog_ret (inl 8%nat);
  file_Write fh line := λ w, Done (None, (w.1 ++ [(fh, line)], w.2));
  file_Close _ := prog_ret None;
  conn_Write _ line := λ w, Done (None, (w.1 ++ [(0%nat, line)], w.2));
  conn_Close _ := prog_ret None;
  Now := prog_ret (MkTime "2024-07-01T08:05:09Z" 1 8 5 9);
  Getpid := 42;
  t_Logf _ := prog_ret tt;
  testLoggerActive := false;
  Caller := ("", 0);
  json_Marshal _ := inr (ErrorString "not used");
  range_labels := map_to_list |}.
Definition unix : Library :=
  MkLibrary (λ _, inl true) (λ _, inr (ErrorString "no such file")) (λ _, None) (λ _, None) (λ _, None) (λ _ _, None)
    (λ _, true) None (λ _ _, None) (λ _, "0s").
Definition syslog : SyslogConfig := MkSyslogConfig "/dev/log" "auth" "" true (Some ("unix", "/dev/log")).
Definition started : demo_world := ([], MkWriterState 7 syslog (Some ("unix", "/dev/log"))).
Definition written {A} (c : prog demo_world A) : list (nat * string) := match c started with Done (_, w) => w.1 | _ => [] end.
Definition to_file : logger := MkLogger LogLevelNotice {[ "module" := VString "ssh" ]} (fileWriter "/var/log/containerssh.log" "text").

Example warnings_are_logged_until_debug :
  written (do* logger_Warning files to_file [LogString "careful"] in
           do* logger_Debug files to_file [LogString "details"] in
           do* logger_Rotate unix files to_file in
           logger_Error files to_file [LogError (ErrorString "broken")]) =
  [(7%nat, "2024-07-01T08:05:09Z" ++ tab ++ "warning" ++ tab ++ "careful (module=ssh)" ++ line_feed ++ line_feed);
   (8%nat, "2024-07-01T08:05:09Z" ++ tab ++ "error" ++ tab ++ "An unexpected error has happened. (broken) (module=ssh)" ++ line_feed ++ line_feed)]%string.
Proof. vm_compute. reflexivity. Qed.

(** In July. *)
Example syslog_is_always_in_february :
  written (logger_Warning files (MkLogger LogLevelNotice ∅ (syslogWriter "text")) [LogString "careful"]) =
  [(0%nat, "<36>Feb  1 08:05:09 ContainerSSH[42]: careful" ++ line_feed)]%string.
Proof. vm_compute. reflexivity. Qed.
End logger_demo.
