(* ===== verification/AgentProtocol.v ===== *)
(** * The agent protocol

    [agentprotocol/server.go] and [agentprotocol/Protocol.go]: multiplexing of
    forwarded connections over the standard input and output of the agent that
    runs in the container.  Packets are the unit of the transport; the CBOR
    encoder and the byte streams below it are parameters. *)

From stdpp Require Import base gmap strings list.
From Stdlib Require Import Strings.Byte.
From S2P Require Import Prelude Messages.

Local Open Scope Z_scope.

(** ** Packets *)

Definition CONNECTION_TYPE_X11 : Z := 0.
Definition CONNECTION_TYPE_PORT_FORWARD : Z := 1.
Definition CONNECTION_TYPE_PORT_DIAL : Z := 2.

Definition PROTOCOL_TCP : string := "tcp".
Definition PROTOCOL_UNIX : string := "unix".

Definition PACKET_SETUP : Z := 0.
Definition PACKET_SUCCESS : Z := 1.
Definition PACKET_ERROR : Z := 2.
Definition PACKET_DATA : Z := 3.
Definition PACKET_NEW_CONNECTION : Z := 4.
Definition PACKET_CLOSE_CONNECTION : Z := 5.
Definition PACKET_NO_MORE_CONNECTIONS : Z := 6.

Record SetupPacket := MkSetupPacket {
  ConnectionType : Z;
  BindHost : string;
  BindPort : Z;
  setup_Protocol : string;
  Screen : string;
  SingleConnection : bool;
  AuthProtocol : string;
  AuthCookie : string;
}.

Record NewConnectionPayload := MkNewConnectionPayload {
  Protocol : string;
  ConnectedAddress : string;
  ConnectedPort : Z;
  OriginatorAddress : string;
  OriginatorPort : Z;
}.

Record Packet := MkPacket {
  Type_ : Z;
  ConnectionId : Z;
  Payload : list byte;
}.

#[export] Instance Packet_eq_dec : EqDecision Packet.
Proof. solve_decision. Defined.

(** The zero value of [SetupPacket], and a packet without a payload. *)
Definition SetupPacket0 : SetupPacket := MkSetupPacket 0 "" 0 "" "" false "" "".
Definition NewConnectionPayload0 : NewConnectionPayload := MkNewConnectionPayload "" "" 0 "" 0.
Definition bare_packet (t id : Z) : Packet := MkPacket t id [].

(** ** Connections *)

(** The four values of [Connection.state]. *)
Inductive conn_state :=
| CONNECTION_STATE_WAITINIT
| CONNECTION_STATE_STARTED
| CONNECTION_STATE_WAITCLOSE
| CONNECTION_STATE_CLOSED.

#[export] Instance conn_state_eq_dec : EqDecision conn_state.
Proof. solve_decision. Defined.

Definition state_number (s : conn_state) : Z :=
  match s with
  | CONNECTION_STATE_WAITINIT => 0
  | CONNECTION_STATE_STARTED => 1
  | CONNECTION_STATE_WAITCLOSE => 2
  | CONNECTION_STATE_CLOSED => 3
  end.

(** A connection: [inbox] is what has been written to its pipe for the reader
    and [pipeClosed] that the pipe has been closed; [closeCallback] tells
    whether there is one. *)
Record Connection := MkConnection {
  state : conn_state;
  initiator : bool;
  id : Z;
  details : NewConnectionPayload;
  inbox : list byte;
  pipeClosed : bool;
  closeCallback : bool;
}.

Definition set_state (s : conn_state) (c : Connection) : Connection :=
  MkConnection s (initiator c) (id c) (details c) (inbox c) (pipeClosed c) (closeCallback c).
Definition set_inbox (b : list byte) (c : Connection) : Connection :=
  MkConnection (state c) (initiator c) (id c) (details c) b (pipeClosed c) (closeCallback c).
Definition set_pipeClosed (c : Connection) : Connection :=
  MkConnection (state c) (initiator c) (id c) (details c) (inbox c) true (closeCallback c).

(** ** The forwarding context *)

(** [connMapMu] is true while a call that has returned left the mutex locked;
    [offered] are the connections sent to [connectionChannel] and [closed_]
    that the channel is closed; [waitGroup] is the counter; [sent] are the
    packets written to the agent, [incoming] those the decoder has yet to
    return, [callbacks] the connections whose close callback ran.
    Connections are never removed from [connMap], so a pointer to one is its
    key there. *)
Record ForwardCtx := MkForwardCtx {
  connectionId : Z;
  connMapMu : bool;
  connMap : gmap Z Connection;
  stopped : bool;
  offered : list Z;
  closed_ : bool;
  waitGroup : Z;
  sent : list Packet;
  incoming : list Packet;
  callbacks : list Z;
}.

Definition set_connMapMu (b : bool) (c : ForwardCtx) : ForwardCtx :=
  MkForwardCtx (connectionId c) b (connMap c) (stopped c) (offered c) (closed_ c) (waitGroup c)
    (sent c) (incoming c) (callbacks c).
Definition set_connectionId (i : Z) (c : ForwardCtx) : ForwardCtx :=
  MkForwardCtx i (connMapMu c) (connMap c) (stopped c) (offered c) (closed_ c) (waitGroup c)
    (sent c) (incoming c) (callbacks c).
Definition set_connMap (m : gmap Z Connection) (c : ForwardCtx) : ForwardCtx :=
  MkForwardCtx (connectionId c) (connMapMu c) m (stopped c) (offered c) (closed_ c) (waitGroup c)
    (sent c) (incoming c) (callbacks c).
Definition set_stopped (c : ForwardCtx) : ForwardCtx :=
  MkForwardCtx (connectionId c) (connMapMu c) (connMap c) true (offered c) (closed_ c) (waitGroup c)
    (sent c) (incoming c) (callbacks c).
Definition set_offered (l : list Z) (c : ForwardCtx) : ForwardCtx :=
  MkForwardCtx (connectionId c) (connMapMu c) (connMap c) (stopped c) l (closed_ c) (waitGroup c)
    (sent c) (incoming c) (callbacks c).
Definition set_closed (c : ForwardCtx) : ForwardCtx :=
  MkForwardCtx (connectionId c) (connMapMu c) (connMap c) (stopped c) (offered c) true (waitGroup c)
    (sent c) (incoming c) (callbacks c).
Definition set_waitGroup (n : Z) (c : ForwardCtx) : ForwardCtx :=
  MkForwardCtx (connectionId c) (connMapMu c) (connMap c) (stopped c) (offered c) (closed_ c) n
    (sent c) (incoming c) (callbacks c).
Definition set_sent (l : list Packet) (c : ForwardCtx) : ForwardCtx :=
  MkForwardCtx (connectionId c) (connMapMu c) (connMap c) (stopped c) (offered c) (closed_ c) (waitGroup c)
    l (incoming c) (callbacks c).
Definition set_incoming (l : list Packet) (c : ForwardCtx) : ForwardCtx :=
  MkForwardCtx (connectionId c) (connMapMu c) (connMap c) (stopped c) (offered c) (closed_ c) (waitGroup c)
    (sent c) l (callbacks c).
Definition set_callbacks (l : list Z) (c : ForwardCtx) : ForwardCtx :=
  MkForwardCtx (connectionId c) (connMapMu c) (connMap c) (stopped c) (offered c) (closed_ c) (waitGroup c)
    (sent c) (incoming c) l.

(** [NewForwardCtx] followed by [init]: the agent will send [input]. *)
Definition NewForwardCtx (input : list Packet) : ForwardCtx :=
  MkForwardCtx 0 false ∅ false [] false 0 [] input [].

Section protocol.
(** [Encode] of the CBOR encoder over the pipe to the agent: whether writing
    the packet after those already written fails; and the CBOR marshalling of
    the payloads. *)
Context (encode_error : list Packet → Packet → option error).
Context (Marshal_setup : SetupPacket → list byte * option error).
Context (Unmarshal_setup : list byte → SetupPacket * option error).
Context (Marshal_new : NewConnectionPayload → list byte * option error).
Context (Unmarshal_new : list byte → NewConnectionPayload * option error).

Abbreviation call A := (prog ForwardCtx A).

(** ** Mutex, wait group, channel, transport *)

Definition connMapMu_Lock : call unit :=
  let* c := get in
  if connMapMu c then block "connMapMu" else put (set_connMapMu true c).

Definition connMapMu_Unlock : call unit := modify (set_connMapMu false).

(** [RLock] and [RUnlock] around a read: it waits for a writer to unlock. *)
Definition connMapMu_RLock : call unit :=
  let* c := get in
  if connMapMu c then block "connMapMu" else prog_ret tt.

Definition waitGroup_Add : call unit := modify (λ c, set_waitGroup (waitGroup c + 1) c).

Definition waitGroup_Done : call unit :=
  let* c := get in
  if decide (waitGroup c - 1 < 0) then panic "sync: negative WaitGroup counter"
  else put (set_waitGroup (waitGroup c - 1) c).

Definition send_connection (i : Z) : call unit :=
  let* c := get in
  if closed_ c then panic "send on closed channel" else put (set_offered (offered c ++ [i]) c).

Definition close_connectionChannel : call unit :=
  let* c := get in
  if closed_ c then panic "close of closed channel" else put (set_closed c).

Definition writePacket (p : Packet) : call (option error) :=
  let* c := get in
  match encode_error (sent c) p with
  | Some e => prog_ret (Some e)
  | None => do* put (set_sent (sent c ++ [p]) c) in prog_ret None
  end.

(** [decoder.Decode]: the next packet, or an error at the end of the stream. *)
Definition Decode : call (option Packet) :=
  let* c := get in
  match incoming c with
  | [] => prog_ret None
  | p :: rest => do* put (set_incoming rest c) in prog_ret (Some p)
  end.

(** ** Methods of a connection, called through a pointer *)

Definition deref (i : Z) : call Connection :=
  let* c := get in
  match connMap c !! i with
  | Some conn => prog_ret conn
  | None => panic "runtime error: invalid memory address or nil pointer dereference"
  end.

Definition update (i : Z) (f : Connection → Connection) : call unit :=
  modify (λ c, set_connMap (alter f i (connMap c)) c).

(** [stateCond.Wait] in the initial state: the call sleeps until another one
    changes the state. *)
Definition Connection_Write (i : Z) (data : list byte) : call (Z * option error) :=
  let* conn := deref i in
  match state conn with
  | CONNECTION_STATE_WAITINIT => block "stateCond"
  | CONNECTION_STATE_STARTED =>
      let* err := writePacket (MkPacket PACKET_DATA (id conn) data) in
      match err with
      | Some _ => prog_ret (0, err)
      | None => prog_ret (Z.of_nat (length data), None)
      end
  | CONNECTION_STATE_WAITCLOSE
  | CONNECTION_STATE_CLOSED =>
      do* update i set_pipeClosed in
      prog_ret (0, Some (ErrorString "connection closed"))
  end.

Definition Connection_Close (i : Z) : call (option error) :=
  let* conn := deref i in
  match state conn with
  | CONNECTION_STATE_WAITINIT
  | CONNECTION_STATE_STARTED =>
      do* update i (set_state CONNECTION_STATE_WAITCLOSE) in
      writePacket (bare_packet PACKET_CLOSE_CONNECTION (id conn))
  | CONNECTION_STATE_WAITCLOSE => prog_ret None
  | CONNECTION_STATE_CLOSED => prog_ret None
  end.

Definition Connection_CloseImm (i : Z) : call (option error) :=
  let* conn := deref i in
  if decide (state conn ≠ CONNECTION_STATE_WAITINIT ∧ state conn ≠ CONNECTION_STATE_STARTED ∧
             state conn ≠ CONNECTION_STATE_WAITCLOSE)
  then prog_ret (Some (ErrorString "unclosable state"))
  else
    do* update i (set_state CONNECTION_STATE_CLOSED) in
    do* (if closeCallback conn then modify (λ c, set_callbacks (callbacks c ++ [i]) c) else prog_ret tt) in
    do* update i set_pipeClosed in
    do* waitGroup_Done in
    prog_ret None.

Definition Connection_Accept (i : Z) : call (option error) :=
  let* conn := deref i in
  if initiator conn then prog_ret (Some (ErrorString "cannot accept connection that was initiated locally"))
  else if decide (state conn ≠ CONNECTION_STATE_WAITINIT)
  then prog_ret (Some (ErrorString (Sprintf "invalid state, cannot accept connection in state %d"
                                      [VInt (state_number (state conn))])))
  else
    do* update i (set_state CONNECTION_STATE_STARTED) in
    writePacket (bare_packet PACKET_SUCCESS (id conn)).

Definition Connection_Reject (i : Z) : call (option error) :=
  let* conn := deref i in
  if initiator conn then prog_ret (Some (ErrorString "cannot reject a connection that was initiated locally"))
  else if decide (state conn ≠ CONNECTION_STATE_WAITINIT)
  then prog_ret (Some (ErrorString (Sprintf "invalid state, cannot accept connection in state %d"
                                      [VInt (state_number (state conn))])))
  else
    do* update i (set_state CONNECTION_STATE_CLOSED) in
    writePacket (bare_packet PACKET_ERROR (id conn)).

(** ** Packets from the agent *)

(** The write to the pipe hands the payload to the reader, or fails when the
    pipe has been closed. *)
Definition handleData (packet : Packet) : call unit :=
  do* connMapMu_RLock in
  let* c := get in
  match connMap c !! ConnectionId packet with
  | None => prog_ret tt
  | Some conn =>
      if decide (state conn ≠ CONNECTION_STATE_STARTED) then prog_ret tt
      else if pipeClosed conn then prog_ret tt
      else update (ConnectionId packet) (set_inbox (inbox conn ++ Payload packet))
  end.

Definition handleClose (packet : Packet) : call unit :=
  do* connMapMu_Lock in
  let* c := get in
  match connMap c !! ConnectionId packet with
  | None => prog_ret tt
  | Some conn =>
      do* connMapMu_Unlock in
      let* err := Connection_CloseImm (ConnectionId packet) in
      let type := match err with Some _ => PACKET_ERROR | None => PACKET_SUCCESS end in
      let* _ := writePacket (bare_packet type (id conn)) in
      prog_ret tt
  end.

(** [handleSuccess] in two parts: the state of the connection is read without
    its lock, and what is then done relies on it, but other goroutines can change
    the state in between (only the receive loop and what needs [connMapMu]
    waits). *)
Definition handleSuccess_look (packet : Packet) : call (option conn_state) :=
  do* connMapMu_Lock in
  let* c := get in
  prog_ret (state <$> connMap c !! ConnectionId packet).

Definition handleSuccess_act (packet : Packet) (seen : option conn_state) : call unit :=
  do* match seen with
      | Some CONNECTION_STATE_WAITINIT => update (ConnectionId packet) (set_state CONNECTION_STATE_STARTED)
      | Some CONNECTION_STATE_WAITCLOSE => let* _ := Connection_CloseImm (ConnectionId packet) in prog_ret tt
      | _ => prog_ret tt
      end in
  connMapMu_Unlock.

Definition handleSuccess (packet : Packet) : call unit :=
  let* seen := handleSuccess_look packet in handleSuccess_act packet seen.

Definition handleError (packet : Packet) : call unit :=
  do* connMapMu_Lock in
  let* c := get in
  do* match connMap c !! ConnectionId packet with
      | None => prog_ret tt
      | Some _ => let* _ := Connection_CloseImm (ConnectionId packet) in prog_ret tt
      end in
  connMapMu_Unlock.

Definition handleNewConnection (packet : Packet) : call unit :=
  let '(newConnectionPacket, err) := Unmarshal_new (Payload packet) in
  match err with
  | Some _ => prog_ret tt
  | None =>
      let i := ConnectionId packet in
      do* connMapMu_Lock in
      let* c := get in
      match connMap c !! i with
      | Some _ => connMapMu_Unlock
      | None =>
          if decide (i <= connectionId c) then connMapMu_Unlock
          else
            do* modify (set_connectionId i) in
            do* modify (λ c, set_connMap
                  (<[i := MkConnection CONNECTION_STATE_WAITINIT false i newConnectionPacket [] false false]>
                     (connMap c)) c) in
            do* waitGroup_Add in
            do* connMapMu_Unlock in
            if stopped c then let* _ := Connection_Reject i in prog_ret tt
            else send_connection i
      end
  end.

Definition handleNoMoreConnections : call unit :=
  let* c := get in
  if negb (stopped c) then do* modify set_stopped in close_connectionChannel else prog_ret tt.

Definition handlePacket (packet : Packet) : call unit :=
  if decide (Type_ packet = PACKET_DATA) then handleData packet
  else if decide (Type_ packet = PACKET_CLOSE_CONNECTION) then handleClose packet
  else if decide (Type_ packet = PACKET_SUCCESS) then handleSuccess packet
  else if decide (Type_ packet = PACKET_ERROR) then handleError packet
  else if decide (Type_ packet = PACKET_NEW_CONNECTION) then handleNewConnection packet
  else if decide (Type_ packet = PACKET_NO_MORE_CONNECTIONS) then handleNoMoreConnections
  else prog_ret tt.

(** The receive loop: it ends when the decoder reports an error.  The fuel
    bounds the rounds; the result tells whether the loop ended by itself. *)
Fixpoint handleBackend_loop (fuel : nat) : call bool :=
  match fuel with
  | O => prog_ret false
  | S fuel' =>
      let* packet := Decode in
      match packet with
      | None => prog_ret true
      | Some p => do* handlePacket p in handleBackend_loop fuel'
      end
  end.

Definition handleBackend : call bool :=
  let* c := get in handleBackend_loop (S (length (incoming c))).

(** ** Connections to the agent *)

Definition newConnection (protocol connectedAddress : string) (connectedPort : Z)
    (origAddress : string) (origPort : Z) (closeFunc : bool) : call (option Z * option error) :=
  let connInfo := MkNewConnectionPayload protocol connectedAddress connectedPort origAddress origPort in
  let '(marInfo, err) := Marshal_new connInfo in
  match err with
  | Some _ => prog_ret (None, err)
  | None =>
      do* connMapMu_Lock in
      do* modify (λ c, set_connectionId (u64 (connectionId c + 1)) c) in
      let* c := get in
      let i := connectionId c in
      match connMap c !! i with
      | Some _ =>
          prog_ret (None, Some (ErrorString "Connection id already exists, something went terribly wrong"))
      | None =>
          do* modify (λ c, set_connMap
                (<[i := MkConnection CONNECTION_STATE_WAITINIT true i NewConnectionPayload0 [] false closeFunc]>
                   (connMap c)) c) in
          do* waitGroup_Add in
          do* connMapMu_Unlock in
          let* err := writePacket (MkPacket PACKET_NEW_CONNECTION i marInfo) in
          match err with
          | Some _ => prog_ret (None, err)
          | None => prog_ret (Some i, None)
          end
      end
  end.

Definition NewConnectionTCP (connectedAddress : string) (connectedPort : Z) (origAddress : string)
    (origPort : Z) (closeFunc : bool) : call (option Z * option error) :=
  newConnection PROTOCOL_TCP connectedAddress connectedPort origAddress origPort closeFunc.

Definition NewConnectionUnix (path : string) (closeFunc : bool) : call (option Z * option error) :=
  newConnection PROTOCOL_UNIX path 0 "" 0 closeFunc.

(** ** Setup *)

(** The receive loop these start runs beside the callers; [handleBackend] and
    its steps are the operations it performs. *)
Definition StartClient : call (Z * SetupPacket * bool * option error) :=
  let* packet := Decode in
  match packet with
  | None => prog_ret (0, SetupPacket0, false, Some (ErrorString "EOF"))
  | Some packet =>
      if decide (Type_ packet ≠ PACKET_SETUP)
      then prog_ret (0, SetupPacket0, false, Some (ErrorString "invalid packet type, expecting PACKET_SETUP"))
      else
        let '(setup, err) := Unmarshal_setup (Payload packet) in
        match err with
        | Some _ => prog_ret (0, setup, false, err)
        | None =>
            let* err := writePacket (bare_packet PACKET_SUCCESS 0) in
            match err with
            | Some _ => prog_ret (0, setup, false, err)
            | None => prog_ret (ConnectionType setup, setup, true, None)
            end
        end
  end.

(** The setup handshake of the server side; the boolean is whether the
    connection channel is returned. *)
Definition startReverseForwardingClient (setupPacket : SetupPacket) : call (bool * option error) :=
  let '(mar, err) := Marshal_setup setupPacket in
  match err with
  | Some _ => prog_ret (false, err)
  | None =>
      let* err := writePacket (MkPacket PACKET_SETUP 0 mar) in
      match err with
      | Some _ => prog_ret (false, err)
      | None =>
          let* resp := Decode in
          match resp with
          | None => prog_ret (false, Some (ErrorString "EOF"))
          | Some resp =>
              if decide (Type_ resp = PACKET_ERROR)
              then prog_ret (false, Some (ErrorString "received error packet from client"))
              else if decide (Type_ resp ≠ PACKET_SUCCESS)
              then prog_ret (false, Some (ErrorString "received invalid packet from client"))
              else prog_ret (true, None)
          end
      end
  end.

Definition StartServerForward : call (bool * option error) :=
  startReverseForwardingClient
    (MkSetupPacket CONNECTION_TYPE_PORT_DIAL "" 0 "" "" false "" "").

Definition StartX11ForwardClient (singleConnection : bool) (screen authProtocol authCookie : string)
  : call (bool * option error) :=
  startReverseForwardingClient
    (MkSetupPacket CONNECTION_TYPE_X11 "" 0 "tcp" screen singleConnection authProtocol authCookie).

Definition StartReverseForwardClient (bindHost : string) (bindPort : Z) (singleConnection : bool)
  : call (bool * option error) :=
  startReverseForwardingClient
    (MkSetupPacket CONNECTION_TYPE_PORT_FORWARD bindHost bindPort "tcp" "" singleConnection "" "").

Definition StartReverseForwardClientUnix (path : string) (singleConnection : bool)
  : call (bool * option error) :=
  startReverseForwardingClient
    (MkSetupPacket CONNECTION_TYPE_PORT_FORWARD path 0 "unix" "" singleConnection "" "").

(** ** Shutdown *)

Definition NoMoreConnections : call (option error) :=
  do* modify set_stopped in
  do* close_connectionChannel in
  writePacket (bare_packet PACKET_NO_MORE_CONNECTIONS 0).

Definition WaitFinish : call unit :=
  let* c := get in
  if decide (waitGroup c = 0) then prog_ret tt else block "waitGroup".

Definition ignore {A} (c : call A) : call unit := let* _ := c in prog_ret tt.

(** [for _, conn := range c.connMap]: the keys in the map's order. *)
Definition range_connMap (f : Z → call unit) : call unit :=
  let* c := get in range (map_to_list (connMap c)).*1 f.

(** [Kill] up to the point where it waits: it refuses new connections and
    closes the existing ones politely. *)
Definition Kill_start : call unit :=
  let* c := get in
  do* (if negb (stopped c) then ignore NoMoreConnections else prog_ret tt) in
  range_connMap (λ i, ignore (Connection_Close i)).

(** Its second half: while [WaitFinish] waits, the timer closes after five
    seconds whatever is still open.  Packets of the agent that the receive loop
    handles meanwhile are steps between the two halves. *)
Definition Kill_finish : call unit :=
  do* range_connMap (λ i, ignore (Connection_CloseImm i)) in
  WaitFinish.

Definition Kill : call unit := do* Kill_start in Kill_finish.

End protocol.
