(* ===== verification/AgentSpec.v ===== *)
(** * The agent protocol as a state machine

    An abstract automaton of the agent protocol, the proof that every operation
    of [AgentProtocol] is a run of it, and what follows for connections,
    packets, the wait group and shutdown. *)

From stdpp Require Import base gmap strings list.
From Stdlib Require Import Strings.Byte.
From S2P Require Import Prelude Messages AgentProtocol.

Local Open Scope Z_scope.

(** ** The automaton *)

Definition rank (s : conn_state) : nat := Z.to_nat (state_number s).

Definition conn_packet (p : Packet) : bool :=
  bool_decide (Type_ p = PACKET_DATA) || bool_decide (Type_ p = PACKET_CLOSE_CONNECTION).

(** One step; the boolean marks the steps that close a connection without
    settling its entry in the wait group. *)
Inductive proto_step : bool → ForwardCtx → ForwardCtx → Prop :=
| step_lock b c : proto_step false c (set_connMapMu b c)
| step_id i c : is_u64 i → proto_step false c (set_connectionId i c)
| step_decode l c : proto_step false c (set_incoming l c)
| step_offer i c : closed_ c = false → proto_step false c (set_offered (offered c ++ [i]) c)
| step_stop c : closed_ c = false → proto_step false c (set_closed (set_stopped c))
| step_new i conn c :
    is_u64 i → connMap c !! i = None → state conn = CONNECTION_STATE_WAITINIT → id conn = i →
    inbox conn = [] →
    proto_step false c (set_waitGroup (waitGroup c + 1) (set_connMap (<[i := conn]> (connMap c)) c))
| step_start i conn c :
    connMap c !! i = Some conn → state conn = CONNECTION_STATE_WAITINIT →
    proto_step false c (set_connMap (alter (set_state CONNECTION_STATE_STARTED) i (connMap c)) c)
| step_close i conn c l :
    connMap c !! i = Some conn → (rank (state conn) < 2)%nat →
    l = sent c ∨ l = sent c ++ [bare_packet PACKET_CLOSE_CONNECTION (id conn)] →
    proto_step false c
      (set_sent l (set_connMap (alter (set_state CONNECTION_STATE_WAITCLOSE) i (connMap c)) c))
| step_closed i conn c l :
    connMap c !! i = Some conn → (rank (state conn) < 3)%nat →
    proto_step false c
      (set_waitGroup (waitGroup c - 1) (set_callbacks l
         (set_connMap (alter (set_pipeClosed ∘ set_state CONNECTION_STATE_CLOSED) i (connMap c)) c)))
| step_reject i conn c :
    connMap c !! i = Some conn → state conn = CONNECTION_STATE_WAITINIT → initiator conn = false →
    proto_step true c (set_connMap (alter (set_state CONNECTION_STATE_CLOSED) i (connMap c)) c)
| step_pipe i conn c :
    connMap c !! i = Some conn → (2 ≤ rank (state conn))%nat →
    proto_step false c (set_connMap (alter set_pipeClosed i (connMap c)) c)
| step_receive i conn c data :
    connMap c !! i = Some conn → state conn = CONNECTION_STATE_STARTED →
    proto_step false c (set_connMap (alter (set_inbox (inbox conn ++ data)) i (connMap c)) c)
| step_data i conn c data :
    connMap c !! i = Some conn → state conn = CONNECTION_STATE_STARTED →
    proto_step false c (set_sent (sent c ++ [MkPacket PACKET_DATA (id conn) data]) c)
| step_write p c : conn_packet p = false → proto_step false c (set_sent (sent c ++ [p]) c).

(** Runs, with the number of rejections in them. *)
Inductive proto_run : nat → ForwardCtx → ForwardCtx → Prop :=
| run_done c : proto_run 0 c c
| run_step b n c c' c'' : proto_step b c c' → proto_run n c' c'' → proto_run (Nat.b2n b + n) c c''.

Lemma proto_run_one b c c' : proto_step b c c' → proto_run (Nat.b2n b) c c'.
Proof. intros. rewrite <- (Nat.add_0_r (Nat.b2n b)). eapply run_step; [done|constructor]. Qed.

Lemma proto_run_app n m c c' c'' : proto_run n c c' → proto_run m c' c'' → proto_run (n + m) c c''.
Proof.
  induction 1 as [|b n c c1 c2 Hs _ IH]; [done|]. intros Hm.
  rewrite <- Nat.add_assoc. econstructor; eauto.
Qed.

(** Whatever the call [p] does from [c] is a run with at most [n] rejections. *)
Definition refines_at (n : nat) (c : ForwardCtx) {A} (p : prog ForwardCtx A) : Prop :=
  ∀ a c', p c = Done (a, c') → ∃ k, (k ≤ n)%nat ∧ proto_run k c c'.
Abbreviation refines n p := (∀ c, refines_at n c p).

Lemma run_nothing n c : ∃ k, (k ≤ n)%nat ∧ proto_run k c c.
Proof. exists 0%nat. split; [lia | constructor]. Qed.

Lemma run_one n c c' : proto_step false c c' → ∃ k, (k ≤ n)%nat ∧ proto_run k c c'.
Proof. intros. exists 0%nat. split; [lia | by apply (proto_run_one false)]. Qed.

Lemma refines_bind n m c {A B} (p : prog ForwardCtx A) (f : A → prog ForwardCtx B) :
  refines_at n c p → (∀ a c1, p c = Done (a, c1) → refines_at m c1 (f a)) →
  refines_at (n + m) c (let* a := p in f a).
Proof.
  intros Hp Hf b c'. unfold prog_bind.
  destruct (p c) as [[a c1]| |] eqn:E; [|done|done]. intros E'.
  destruct (Hp _ _ E) as (k1 & ? & H1), (Hf _ _ eq_refl _ _ E') as (k2 & ? & H2).
  exists (k1 + k2)%nat. split; [lia | by eapply proto_run_app].
Qed.

Lemma refines_bind0 n c {A B} (p : prog ForwardCtx A) (f : A → prog ForwardCtx B) :
  refines_at 0 c p → (∀ a c1, p c = Done (a, c1) → refines_at n c1 (f a)) →
  refines_at n c (let* a := p in f a).
Proof. apply (refines_bind 0 n). Qed.

(** Two calls that make one step together. *)
Lemma refines_two n c {A} (p q : prog ForwardCtx unit) (k : prog ForwardCtx A) :
  refines_at 0 c (do* p in q) → refines n k → refines_at n c (do* p in do* q in k).
Proof.
  intros Hpq Hk. assert (refines_at n c (do* (do* p in q) in k)) as H.
  { apply refines_bind0; [done|]. intros. apply Hk. }
  intros a c' E. apply (H a c'). revert E. unfold prog_bind.
  by destruct (p c) as [[[] c1]| |].
Qed.

Lemma refines_get n c {B} (f : ForwardCtx → prog ForwardCtx B) :
  refines_at n c (f c) → refines_at n c (let* x := get in f x).
Proof. done. Qed.

Lemma refines_ret n c {A} (a : A) : refines_at n c (prog_ret a).
Proof. intros ? ? [= <- <-]. apply run_nothing. Qed.

Lemma refines_block n c {A} s : refines_at n c (block (A:=A) s).
Proof. by intros ? ?. Qed.

Lemma refines_panic n c {A} s : refines_at n c (panic (A:=A) s).
Proof. by intros ? ?. Qed.

Lemma refines_weaken n m c {A} (p : prog ForwardCtx A) :
  (n ≤ m)%nat → refines_at n c p → refines_at m c p.
Proof. intros ? H a c' E. destruct (H _ _ E) as (k & ? & ?). exists k. split; [lia | done]. Qed.

(** A call that takes one step. *)
Lemma refines_modify n b c f :
  proto_step b c (f c) → (Nat.b2n b ≤ n)%nat → refines_at n c (modify f).
Proof. intros Hs Hb a c' [= <- <-]. exists (Nat.b2n b). split; [done | by apply proto_run_one]. Qed.

Lemma refines_put n b c c1 :
  proto_step b c c1 → (Nat.b2n b ≤ n)%nat → refines_at n c (put c1).
Proof. intros. by apply (refines_modify n b c (λ _, c1)). Qed.

Lemma refines_ignore n c {A} (p : prog ForwardCtx A) : refines_at n c p → refines_at n c (ignore p).
Proof.
  intros H. replace n with (n + 0)%nat by lia. apply refines_bind; [done|].
  intros. apply refines_ret.
Qed.

Lemma refines_range n {A} (l : list A) (f : A → prog ForwardCtx unit) :
  (∀ x, refines n (f x)) → refines (length l * n) (range l f).
Proof.
  intros Hf. induction l as [|x l IH]; intros c; cbn; [apply refines_ret|].
  apply refines_bind; auto.
Qed.

#[export] Hint Resolve refines_ret refines_block refines_panic refines_ignore : go.
#[export] Hint Constructors proto_step : go.

(** ** Every operation is a run of the automaton *)

Section refinement.
Context (encode_error : list Packet → Packet → option error).
Context (Marshal_new : NewConnectionPayload → list byte * option error).
Context (Unmarshal_new : list byte → NewConnectionPayload * option error).

Lemma lock_refines n : refines n connMapMu_Lock.
Proof.
  intros c. apply refines_get. destruct (connMapMu c); [apply refines_block|].
  eapply refines_put; [constructor | cbn; lia].
Qed.

Lemma unlock_refines n : refines n connMapMu_Unlock.
Proof. intros c. eapply refines_modify; [constructor | cbn; lia]. Qed.

Lemma write_refines n p : conn_packet p = false → refines n (writePacket encode_error p).
Proof.
  intros Hp c. apply refines_get. destruct (encode_error _ _); [apply refines_ret|].
  apply refines_bind0; [|eauto with go]. eapply refines_put; [by constructor | cbn; lia].
Qed.

Lemma Write_refines n i data : refines n (Connection_Write encode_error i data).
Proof.
  intros c. unfold Connection_Write, deref. intros a c'. run_prog.
  destruct (connMap c !! i) as [conn|] eqn:El; [|done].
  destruct (state conn) eqn:Es; [done| | |]; unfold writePacket, update; run_prog.
  - destruct (encode_error _ _); intros [= <- <-]; [apply run_nothing|].
    eapply run_one, step_data; eauto.
  - intros [= <- <-]. eapply run_one, step_pipe; [eauto|]. rewrite Es. vm_compute. lia.
  - intros [= <- <-]. eapply run_one, step_pipe; [eauto|]. rewrite Es. vm_compute. lia.
Qed.

Lemma Close_refines n i : refines n (Connection_Close encode_error i).
Proof.
  intros c. unfold Connection_Close, deref. intros a c'. run_prog.
  destruct (connMap c !! i) as [conn|] eqn:El; [|done].
  unfold writePacket, update. run_prog.
  destruct (decide (rank (state conn) < 2)%nat) as [Hr|Hr].
  - intros E.
    assert (∃ l, (l = sent c ∨ l = sent c ++ [bare_packet PACKET_CLOSE_CONNECTION (id conn)]) ∧
      c' = set_sent l (set_connMap (alter (set_state CONNECTION_STATE_WAITCLOSE) i (connMap c)) c))
      as (l & Hl & ->).
    { destruct (state conn); try (vm_compute in Hr; lia); cbn in E;
        destruct (encode_error _ _); injection E as <- <-; eauto. }
    eapply run_one, step_close; eauto.
  - destruct (state conn); try (vm_compute in Hr; lia); intros [= <- <-];
      apply run_nothing.
Qed.

Lemma CloseImm_refines n i : refines n (Connection_CloseImm i).
Proof.
  intros c. unfold Connection_CloseImm, deref. intros a c'. run_prog.
  destruct (connMap c !! i) as [conn|] eqn:El; [|done].
  unfold update, waitGroup_Done. run_prog. case_decide as Hd.
  - intros [= <- <-]. apply run_nothing.
  - intros E.
    assert (∃ l, c' = set_waitGroup (waitGroup c - 1) (set_callbacks l
      (set_connMap (alter (set_pipeClosed ∘ set_state CONNECTION_STATE_CLOSED) i (connMap c)) c)))
      as (l & ->).
    { rewrite <- alter_alter_eq. destruct (closeCallback conn); cbn in E; case_decide; [done| |done|];
        injection E as <- <-; eauto. }
    eapply run_one, step_closed; [eauto|].
    destruct (state conn); vm_compute; try lia. destruct Hd. by split_and!.
Qed.

Lemma Accept_refines n i : refines n (Connection_Accept encode_error i).
Proof.
  intros c. unfold Connection_Accept, deref. intros a c'. run_prog.
  destruct (connMap c !! i) as [conn|] eqn:El; [|done].
  destruct (initiator conn) eqn:Ei; [intros [= <- <-]; apply run_nothing|].
  case_decide as Hs; [intros [= <- <-]; apply run_nothing|]. revert a c'.
  apply (refines_bind0 n c (update i _)); [|intros; apply write_refines; reflexivity].
  eapply refines_modify; [eapply step_start; [done|]|cbn; lia]. exact Hs.
Qed.

Lemma Reject_refines i : refines 1 (Connection_Reject encode_error i).
Proof.
  intros c. unfold Connection_Reject, deref. intros a c'. run_prog.
  destruct (connMap c !! i) as [conn|] eqn:El; [|done].
  destruct (initiator conn) eqn:Ei; [intros [= <- <-]; apply run_nothing|].
  case_decide as Hs; [intros [= <- <-]; apply run_nothing|]. revert a c'.
  apply (refines_bind 1 0 c (update i _)); [|intros; apply write_refines; reflexivity].
  eapply refines_modify; [eapply step_reject; [done| |done]|done]. exact Hs.
Qed.

Lemma handleData_refines n p : refines n (handleData p).
Proof.
  intros c. unfold handleData, connMapMu_RLock. intros a c'. run_prog.
  destruct (connMapMu c); [done|].
  destruct (connMap c !! ConnectionId p) as [conn|] eqn:El; [|intros [= <- <-]; apply run_nothing].
  case_decide as Hs; [intros [= <- <-]; apply run_nothing|].
  destruct (pipeClosed conn); [intros [= <- <-]; apply run_nothing|].
  intros [= <- <-]. eapply run_one, step_receive; [done|]. exact Hs.
Qed.

Lemma handleClose_refines n p : refines n (handleClose encode_error p).
Proof.
  intros c. apply refines_bind0; [apply lock_refines|]. intros _ c1 _. apply refines_get.
  destruct (connMap c1 !! _); [|apply refines_ret].
  apply refines_bind0; [apply unlock_refines|]. intros _ c2 _.
  apply refines_bind0; [apply CloseImm_refines|]. intros err c3 _.
  apply refines_bind0; [|eauto with go]. apply write_refines. by destruct err.
Qed.

Lemma look_refines n p : refines n (handleSuccess_look p).
Proof. intros c. apply refines_bind0; [apply lock_refines|]. intros _ c1 _. apply refines_get, refines_ret. Qed.

Lemma look_sees p c seen c1 :
  handleSuccess_look p c = Done (seen, c1) → c1 = set_connMapMu true c ∧ seen = state <$> connMap c1 !! ConnectionId p.
Proof.
  unfold handleSuccess_look, connMapMu_Lock. run_prog. destruct (connMapMu c); [done|]. by intros [= <- <-].
Qed.

Lemma handleSuccess_refines n p : refines n (handleSuccess p).
Proof.
  intros c. apply refines_bind0; [apply look_refines|]. intros seen c1 [_ ->]%look_sees.
  apply refines_bind0; [|intros; apply unlock_refines].
  destruct (connMap c1 !! _) as [conn|] eqn:El; cbn [fmap option_fmap option_map]; [|apply refines_ret].
  destruct (state conn) eqn:Es; auto with go.
  - eapply refines_modify; [by eapply step_start|cbn; lia].
  - apply refines_ignore, CloseImm_refines.
Qed.

Lemma handleError_refines n p : refines n (handleError p).
Proof.
  intros c. apply refines_bind0; [apply lock_refines|]. intros _ c1 _. apply refines_get.
  apply refines_bind0; [|intros; apply unlock_refines].
  destruct (connMap c1 !! _); [apply refines_ignore, CloseImm_refines|apply refines_ret].
Qed.

(** Registering a connection under a fresh identifier. *)
Lemma register_refines n i conn c :
  is_u64 i → connMap c !! i = None → state conn = CONNECTION_STATE_WAITINIT → id conn = i →
  inbox conn = [] →
  refines_at n c (do* modify (λ c, set_connMap (<[i := conn]> (connMap c)) c) in waitGroup_Add).
Proof. intros ????? a c' [= <- <-]. by eapply run_one, step_new. Qed.

Lemma send_refines n i : refines n (send_connection i).
Proof.
  intros c. apply refines_get. destruct (closed_ c) eqn:E; [apply refines_panic|].
  eapply refines_put; [by constructor | cbn; lia].
Qed.

(** The protocol's identifiers are unsigned 64-bit numbers. *)
Definition packet_ok (p : Packet) : Prop := is_u64 (ConnectionId p).

Lemma handleNewConnection_refines p :
  packet_ok p → refines 1 (handleNewConnection encode_error Unmarshal_new p).
Proof.
  intros Hp c. unfold handleNewConnection. destruct (Unmarshal_new _) as [np [e|]]; [apply refines_ret|].
  apply refines_bind0; [apply lock_refines|]. intros _ c1 _. apply refines_get.
  destruct (connMap c1 !! _) eqn:El; [apply unlock_refines|].
  case_decide; [apply unlock_refines|].
  apply refines_bind0; [eapply refines_modify; [by constructor | cbn; lia]|]. intros [] c2 [= <-].
  apply refines_two; [apply register_refines; [exact Hp | exact El | reflexivity..]|]. intros c3.
  apply refines_bind0; [apply unlock_refines|]. intros _ c4 _.
  destruct (stopped c1); [apply refines_ignore, Reject_refines | apply send_refines].
Qed.

Lemma stop_refines n c :
  refines_at n c (do* modify set_stopped in close_connectionChannel).
Proof.
  unfold close_connectionChannel. intros a c'. run_prog. cbn.
  destruct (closed_ c) eqn:E; [done|]. intros [= <- <-]. by eapply run_one, step_stop.
Qed.

Lemma handlePacket_refines p :
  packet_ok p → refines 1 (handlePacket encode_error Unmarshal_new p).
Proof.
  intros Hp c. unfold handlePacket. repeat case_decide.
  - apply handleData_refines.
  - apply handleClose_refines.
  - apply handleSuccess_refines.
  - apply handleError_refines.
  - by apply handleNewConnection_refines.
  - unfold handleNoMoreConnections. apply refines_get.
    destruct (stopped c); [apply refines_ret | apply stop_refines].
  - apply refines_ret.
Qed.

Lemma newConnection_refines n proto ca cp oa op cb :
  refines n (newConnection encode_error Marshal_new proto ca cp oa op cb).
Proof.
  intros c. unfold newConnection. destruct (Marshal_new _) as [mar [e|]]; [apply refines_ret|].
  apply refines_bind0; [apply lock_refines|]. intros _ c1 _.
  apply refines_bind0; [eapply refines_modify; [constructor; apply u64_range | cbn; lia]|].
  intros [] c2 [= <-]. apply refines_get.
  set (c2 := set_connectionId _ c1). destruct (connMap c2 !! connectionId c2) eqn:El; [apply refines_ret|].
  apply refines_two; [apply register_refines; try done; apply u64_range|]. intros c3.
  apply refines_bind0; [apply unlock_refines|]. intros _ c4 _.
  apply refines_bind0; [apply write_refines; reflexivity|]. intros [e|] c5 _; apply refines_ret.
Qed.

Lemma NoMoreConnections_refines n : refines n (NoMoreConnections encode_error).
Proof.
  intros c. apply refines_two; [apply stop_refines|]. intros. apply write_refines; reflexivity.
Qed.

Lemma Kill_start_refines n : refines n (Kill_start encode_error).
Proof.
  intros c. apply refines_get. apply refines_bind0.
  - destruct (stopped c); cbn; [apply refines_ret | apply refines_ignore, NoMoreConnections_refines].
  - intros _ c1 _. apply refines_get. eapply refines_weaken; [|apply (refines_range 0)]; [lia|].
    intros i c2. apply refines_ignore, Close_refines.
Qed.

Lemma timer_refines n : refines n (range_connMap (λ i, ignore (Connection_CloseImm i))).
Proof.
  intros c. apply refines_get. eapply refines_weaken; [|apply (refines_range 0)]; [lia|].
  intros i c2. apply refines_ignore, CloseImm_refines.
Qed.

End refinement.

(** ** The invariant of the automaton *)

Definition is_open (conn : Connection) : bool :=
  match state conn with CONNECTION_STATE_CLOSED => false | _ => true end.

Definition open_conns (m : gmap Z Connection) : Z :=
  Z.of_nat (size (filter (λ kv, is_open kv.2 = true) m)).

Lemma open_insert i conn m :
  m !! i = None → open_conns (<[i := conn]> m) = open_conns m + Z.b2z (is_open conn).
Proof.
  intros Hi. unfold open_conns. destruct (is_open conn) eqn:E.
  - rewrite map_filter_insert_True by done. rewrite map_size_insert_None; [cbn; lia|].
    by apply map_lookup_filter_None_2; left.
  - rewrite map_filter_insert_False by (cbn; congruence). rewrite delete_id by done. cbn. lia.
Qed.

Lemma open_alter i f conn m :
  m !! i = Some conn →
  open_conns (alter f i m) = open_conns m - Z.b2z (is_open conn) + Z.b2z (is_open (f conn)).
Proof.
  intros Hi. rewrite <- (insert_delete_id m i conn Hi) at 2.
  replace (alter f i m) with (<[i := f conn]> (delete i m)).
  - rewrite !open_insert by apply lookup_delete_eq. lia.
  - apply map_eq. intros j. destruct (decide (i = j)) as [<-|Hne].
    + by rewrite lookup_insert_eq, lookup_alter_eq, Hi.
    + by rewrite lookup_insert_ne, lookup_delete_ne, lookup_alter_ne.
Qed.

Lemma open_positive i conn m : m !! i = Some conn → is_open conn = true → 0 < open_conns m.
Proof.
  intros Hi Ho. rewrite <- (insert_delete_id m i conn Hi).
  rewrite open_insert by apply lookup_delete_eq. rewrite Ho. unfold open_conns. cbn. lia.
Qed.

Lemma open_zero m : open_conns m = 0 ↔ ∀ i conn, m !! i = Some conn → state conn = CONNECTION_STATE_CLOSED.
Proof.
  split.
  - intros H i conn Hi. destruct (is_open conn) eqn:Ho.
    + pose proof (open_positive _ _ _ Hi Ho). lia.
    + unfold is_open in Ho. by destruct (state conn).
  - intros H. unfold open_conns. rewrite map_empty_filter_2; [done|].
    intros i conn Hi. cbn. unfold is_open. by rewrite (H _ _ Hi).
Qed.

(** The data and close packets of one connection among those sent. *)
Definition conn_packets (i : Z) (l : list Packet) : list Packet :=
  filter (λ p, conn_packet p = true ∧ ConnectionId p = i) l.

Definition is_data (p : Packet) : Prop := Type_ p = PACKET_DATA.

(** Data only once the connection has started, and at most one close packet,
    after the data. *)
Definition sent_ok (i : Z) (st : option conn_state) (l : list Packet) : Prop :=
  match st with
  | None | Some CONNECTION_STATE_WAITINIT => conn_packets i l = []
  | Some CONNECTION_STATE_STARTED => Forall is_data (conn_packets i l)
  | Some _ =>
      ∃ data, Forall is_data data ∧
        (conn_packets i l = data ∨ conn_packets i l = data ++ [bare_packet PACKET_CLOSE_CONNECTION i])
  end.

Record ctx_wf (r : nat) (c : ForwardCtx) : Prop := {
  wf_id i conn : connMap c !! i = Some conn → id conn = i ∧ is_u64 i;
  wf_inbox i conn : connMap c !! i = Some conn → state conn = CONNECTION_STATE_WAITINIT → inbox conn = [];
  wf_wait : waitGroup c = open_conns (connMap c) + Z.of_nat r;
  wf_stop : closed_ c = stopped c;
  wf_sent i : sent_ok i (state <$> connMap c !! i) (sent c);
}.

Lemma conn_packets_app i l l' : conn_packets i (l ++ l') = conn_packets i l ++ conn_packets i l'.
Proof. apply filter_app. Qed.

(** Moving to a later state keeps what was sent in order. *)
Lemma sent_ok_later i st st' l : sent_ok i (Some st) l → (rank st ≤ rank st')%nat → sent_ok i (Some st') l.
Proof.
  destruct st, st'; cbn; intros H Hr; try (vm_compute in Hr; lia); try done.
  all: try (rewrite H; (by constructor) || (exists []; auto)).
  all: exists (conn_packets i l); auto.
Qed.

Lemma wf_alter r r' c c' i f conn :
  ctx_wf r c → connMap c !! i = Some conn →
  connMap c' = alter f i (connMap c) → sent c' = sent c → closed_ c' = stopped c' →
  id (f conn) = id conn → (rank (state conn) ≤ rank (state (f conn)))%nat →
  (state (f conn) = CONNECTION_STATE_WAITINIT → inbox (f conn) = inbox conn) →
  waitGroup c' = open_conns (alter f i (connMap c)) + Z.of_nat r' →
  ctx_wf r' c'.
Proof.
  intros [H1 H2 H3 H4 H5] Hi Hm Hsent Hstop Hid Hrank Hinbox Hw.
  assert (∀ j x, connMap c' !! j = Some x →
    (j = i ∧ x = f conn) ∨ (j ≠ i ∧ connMap c !! j = Some x)) as Hl.
  { intros j x. rewrite Hm. destruct (decide (i = j)) as [<-|Hne].
    - rewrite lookup_alter_eq, Hi. intros [= <-]. by left.
    - rewrite lookup_alter_ne by done. auto. }
  split.
  - intros j x [[-> ->]|[? ?]]%Hl; [rewrite Hid|]; eauto.
  - intros j x [[-> ->]|[? ?]]%Hl; [|eauto]. intros Hs. rewrite (Hinbox Hs).
    eapply H2; [done|]. rewrite Hs in Hrank. destruct (state conn); by try (vm_compute in Hrank; lia).
  - by rewrite Hw, Hm.
  - done.
  - intros j. rewrite Hm, Hsent. specialize (H5 j). destruct (decide (i = j)) as [<-|Hne].
    + rewrite lookup_alter_eq, Hi in *. cbn in *. by eapply sent_ok_later.
    + by rewrite lookup_alter_ne.
Qed.

Lemma wf_send r c l :
  ctx_wf r c → (∀ j, sent_ok j (state <$> connMap c !! j) l) → ctx_wf r (set_sent l c).
Proof. intros [H1 H2 H3 H4 H5] H. by split. Qed.

(** Packets of other connections, and packets that are not connection packets. *)
Lemma sent_ok_other i st l p :
  ¬ (conn_packet p = true ∧ ConnectionId p = i) → sent_ok i st l → sent_ok i st (l ++ [p]).
Proof.
  intros Hp. assert (conn_packets i (l ++ [p]) = conn_packets i l) as E.
  { rewrite conn_packets_app. unfold conn_packets at 2.
    rewrite filter_cons_False, filter_nil by done. apply app_nil_r. }
  unfold sent_ok. by rewrite E.
Qed.

Lemma conn_packets_snoc i l p :
  conn_packet p = true → ConnectionId p = i → conn_packets i (l ++ [p]) = conn_packets i l ++ [p].
Proof.
  intros. rewrite conn_packets_app. f_equal. unfold conn_packets.
  by rewrite filter_cons_True, filter_nil by done.
Qed.

Lemma sent_ok_close i st l :
  sent_ok i (Some st) l → (rank st < 2)%nat →
  sent_ok i (Some CONNECTION_STATE_WAITCLOSE) (l ++ [bare_packet PACKET_CLOSE_CONNECTION i]).
Proof.
  intros H Hr. exists (conn_packets i l). rewrite conn_packets_snoc by done. split; [|by right].
  destruct st; cbn in H; try (vm_compute in Hr; lia); [by rewrite H; constructor | done].
Qed.

Lemma wf_close r c i conn :
  ctx_wf r c → connMap c !! i = Some conn → (rank (state conn) < 2)%nat →
  ctx_wf r (set_connMap (alter (set_state CONNECTION_STATE_WAITCLOSE) i (connMap c)) c) ∧
  ctx_wf r (set_sent (sent c ++ [bare_packet PACKET_CLOSE_CONNECTION (id conn)])
             (set_connMap (alter (set_state CONNECTION_STATE_WAITCLOSE) i (connMap c)) c)).
Proof.
  intros Hwf Hi Hr.
  assert (ctx_wf r (set_connMap (alter (set_state CONNECTION_STATE_WAITCLOSE) i (connMap c)) c)) as H1.
  { eapply wf_alter; try done; try apply Hwf.
    - destruct (state conn); try (vm_compute in Hr; lia); vm_compute; lia.
    - cbn. rewrite (open_alter _ _ conn), (wf_wait _ _ Hwf) by done. unfold is_open.
      destruct (state conn); try (vm_compute in Hr; lia); cbn; lia. }
  split; [done|]. apply wf_send; [done|]. intros j. cbn.
  destruct (wf_id _ _ Hwf _ _ Hi) as [-> _]. pose proof (wf_sent _ _ Hwf j) as Hs.
  destruct (decide (i = j)) as [<-|Hne].
  - rewrite lookup_alter_eq, Hi in *. cbn in *. by eapply sent_ok_close.
  - rewrite lookup_alter_ne by done. apply sent_ok_other; [|done]. cbn. naive_solver.
Qed.

Lemma wf_new r c i conn :
  ctx_wf r c → is_u64 i → connMap c !! i = None → state conn = CONNECTION_STATE_WAITINIT → id conn = i →
  inbox conn = [] →
  ctx_wf r (set_waitGroup (waitGroup c + 1) (set_connMap (<[i := conn]> (connMap c)) c)).
Proof.
  intros [H1 H2 H3 H4 H5] Hu Hi Hs Hid Hin. split; cbn; try done.
  - intros j x [[<- <-]|[? ?]]%lookup_insert_Some; eauto.
  - intros j x [[<- <-]|[? ?]]%lookup_insert_Some; eauto.
  - rewrite open_insert, H3 by done. unfold is_open. rewrite Hs. cbn. lia.
  - intros j. specialize (H5 j). destruct (decide (i = j)) as [<-|Hne].
    + rewrite lookup_insert_eq. rewrite Hi in H5. cbn. by rewrite Hs.
    + by rewrite lookup_insert_ne.
Qed.

(** Every step of the automaton keeps the invariant; a rejection leaves one
    entry of the wait group unsettled. *)
Lemma step_wf r b c c' : proto_step b c c' → ctx_wf r c → ctx_wf (r + Nat.b2n b) c'.
Proof.
  intros Hs Hwf.
  destruct Hs as [b c|i c ?|l c|i c ?|c ?|i conn c Hu Hi Hst Hid Hin|i conn c Hi Hst|i conn c l Hi Hr Hl
    |i conn c l Hi Hr|i conn c Hi Hst Hin|i conn c Hi Hr|i conn c d Hi Hst|i conn c d Hi Hst|p c Hp];
    rewrite ?Nat.add_0_r.
  - by destruct Hwf; split.
  - by destruct Hwf; split.
  - by destruct Hwf; split.
  - by destruct Hwf; split.
  - destruct Hwf as [H1 H2 H3 H4 H5]. by split.
  - by apply wf_new.
  - eapply wf_alter; try done; try apply Hwf; cbn.
    + rewrite Hst. vm_compute. lia.
    + rewrite (open_alter _ _ conn), (wf_wait _ _ Hwf) by done. unfold is_open. rewrite Hst. cbn. lia.
  - destruct (wf_close _ _ _ _ Hwf Hi Hr) as [Ha Hb]. by destruct Hl as [->| ->].
  - eapply wf_alter; try done; try apply Hwf; cbn.
    + destruct (state conn); vm_compute; lia.
    + rewrite (open_alter _ _ conn), (wf_wait _ _ Hwf) by done. unfold is_open.
      destruct (state conn); try (vm_compute in Hr; lia); cbn; lia.
  - eapply wf_alter; try done; try apply Hwf; cbn.
    + rewrite Hst. vm_compute. lia.
    + rewrite (open_alter _ _ conn), (wf_wait _ _ Hwf) by done. unfold is_open. rewrite Hst. cbn. lia.
  - eapply wf_alter; try done; try apply Hwf; cbn.
    rewrite (open_alter _ _ conn), (wf_wait _ _ Hwf) by done. unfold is_open. cbn. lia.
  - eapply wf_alter; try done; try apply Hwf; cbn.
    + by rewrite Hst.
    + rewrite (open_alter _ _ conn), (wf_wait _ _ Hwf) by done. unfold is_open. cbn. lia.
  - apply wf_send; [done|]. destruct (wf_id _ _ Hwf _ _ Hi) as [-> _].
    intros j. pose proof (wf_sent _ _ Hwf j) as Hj. destruct (decide (i = j)) as [<-|Hne].
    + rewrite Hi in *. cbn in *. rewrite Hst in *. rewrite conn_packets_snoc by done.
      apply Forall_app. split; [done|]. by repeat constructor.
    + apply sent_ok_other; [|done]. cbn. naive_solver.
  - apply wf_send; [done|]. intros j. apply sent_ok_other; [|apply Hwf]. rewrite Hp. naive_solver.
Qed.

Lemma run_wf n r c c' : proto_run n c c' → ctx_wf r c → ctx_wf (r + n) c'.
Proof.
  intros Hr. revert r. induction Hr as [|b n c c1 c2 Hs _ IH]; intros r Hwf; [by rewrite Nat.add_0_r|].
  rewrite Nat.add_assoc. by eapply IH, step_wf.
Qed.

Lemma init_wf input : ctx_wf 0 (NewForwardCtx input).
Proof. split; cbn; try done. all: intros; by rewrite ?lookup_empty in *. Qed.

(** States only advance; identity never changes; received data only grows, and
    only while the connection is open. *)
Definition conn_advances (x y : Connection) : Prop :=
  (rank (state x) ≤ rank (state y))%nat ∧ id x = id y ∧ initiator x = initiator y ∧ details x = details y ∧
  inbox x `prefix_of` inbox y ∧ ((2 ≤ rank (state x))%nat → inbox x = inbox y).

Lemma conn_advances_trans x y z : conn_advances x y → conn_advances y z → conn_advances x z.
Proof.
  intros (R & I1 & I2 & I3 & I4 & I5) (R' & J1 & J2 & J3 & J4 & J5).
  split_and!; [lia | congruence.. | by etrans |].
  intros H. rewrite (I5 H). apply J5. lia.
Qed.

Lemma step_advances b c c' i x :
  proto_step b c c' → connMap c !! i = Some x → ∃ y, connMap c' !! i = Some y ∧ conn_advances x y.
Proof.
  assert (∀ x, conn_advances x x) as Hrefl by (intros; by split_and!).
  assert (∀ f j conn (m : gmap Z Connection), m !! j = Some conn → conn_advances conn (f conn) → m !! i = Some x →
    ∃ y, alter f j m !! i = Some y ∧ conn_advances x y) as Halter.
  { intros f j conn m Hj Hf Hx. destruct (decide (j = i)) as [->|].
    - rewrite lookup_alter_eq, Hx. simplify_eq. eauto.
    - rewrite lookup_alter_ne by done. eauto. }
  intros Hs Hx. destruct Hs as [| | | | |j conn c Hu Hj Hst Hid Hin|j conn c Hj Hst|j conn c l Hj Hr Hl
    |j conn c l Hj Hr|j conn c Hj Hst Hin|j conn c Hj Hr|j conn c d Hj Hst| |]; cbn; eauto.
  - exists x. split; [|done]. rewrite lookup_insert_ne; [done|]. by intros ->; simplify_eq.
  - apply (Halter _ _ conn); auto. split_and!; try done. cbn. rewrite Hst. vm_compute. lia.
  - apply (Halter _ _ conn); auto. split_and!; try done.
    cbn. destruct (state conn); try (vm_compute in Hr; lia); vm_compute; lia.
  - apply (Halter _ _ conn); auto. split_and!; try done. cbn. destruct (state conn); vm_compute; lia.
  - apply (Halter _ _ conn); auto. split_and!; try done. cbn. rewrite Hst. vm_compute. lia.
  - apply (Halter _ _ conn); auto. by split_and!.
  - apply (Halter _ _ conn); auto. split_and!; try done; cbn.
    + by apply prefix_app_r.
    + rewrite Hst. vm_compute. lia.
Qed.

Lemma run_advances n c c' i x :
  proto_run n c c' → connMap c !! i = Some x → ∃ y, connMap c' !! i = Some y ∧ conn_advances x y.
Proof.
  intros Hr. revert x. induction Hr as [|b n c c1 c2 Hs _ IH]; intros x Hx.
  - exists x. split; [done|]. by split_and!.
  - destruct (step_advances _ _ _ _ _ Hs Hx) as (y & Hy & A).
    destruct (IH _ Hy) as (z & Hz & B). exists z. split; [done|]. by eapply conn_advances_trans.
Qed.

(** ** Operations and reachable contexts *)

(** What the callers, the serving goroutines and the receive loop do to a
    context, one call at a time. *)
Inductive ctx_op :=
| OpPacket (p : Packet)
| OpNewConnection (proto ca : string) (cp : Z) (oa : string) (op : Z) (cb : bool)
| OpWrite (i : Z) (data : list byte)
| OpClose (i : Z)
| OpCloseImm (i : Z)
| OpAccept (i : Z)
| OpReject (i : Z)
| OpNoMoreConnections
| OpKillStart
| OpKillTimer.

(** The operations that may refuse a connection of the agent. *)
Definition may_reject (op : ctx_op) : nat :=
  match op with
  | OpReject _ => 1
  | OpPacket p => Nat.b2n (bool_decide (Type_ p = PACKET_NEW_CONNECTION))
  | _ => 0
  end.

Section reachable.
Context (encode_error : list Packet → Packet → option error).
Context (Marshal_new : NewConnectionPayload → list byte * option error).
Context (Unmarshal_new : list byte → NewConnectionPayload * option error).

Definition exec (op : ctx_op) : prog ForwardCtx unit :=
  match op with
  | OpPacket p => handlePacket encode_error Unmarshal_new p
  | OpNewConnection proto ca cp oa op cb => ignore (newConnection encode_error Marshal_new proto ca cp oa op cb)
  | OpWrite i data => ignore (Connection_Write encode_error i data)
  | OpClose i => ignore (Connection_Close encode_error i)
  | OpCloseImm i => ignore (Connection_CloseImm i)
  | OpAccept i => ignore (Connection_Accept encode_error i)
  | OpReject i => ignore (Connection_Reject encode_error i)
  | OpNoMoreConnections => ignore (NoMoreConnections encode_error)
  | OpKillStart => Kill_start encode_error
  | OpKillTimer => range_connMap (λ i, ignore (Connection_CloseImm i))
  end.

Definition op_ok (op : ctx_op) : Prop := match op with OpPacket p => packet_ok p | _ => True end.

Lemma handlePacket_refines_may p :
  packet_ok p → refines (may_reject (OpPacket p)) (handlePacket encode_error Unmarshal_new p).
Proof.
  intros Hp c. destruct (decide (Type_ p = PACKET_NEW_CONNECTION)) as [E|E]; cbn.
  - rewrite bool_decide_true by done. by apply handlePacket_refines.
  - rewrite bool_decide_false by done. unfold handlePacket. rewrite (decide_False _ _ E).
    repeat case_decide; eauto using handleData_refines, handleClose_refines, handleSuccess_refines,
      handleError_refines, refines_ret.
    unfold handleNoMoreConnections. apply refines_get.
    destruct (stopped c); [apply refines_ret | apply stop_refines].
Qed.

(** The simulation: every operation that returns is a run of the automaton. *)
Lemma exec_refines op : op_ok op → refines (may_reject op) (exec op).
Proof.
  intros Hop c. destruct op; cbn [exec].
  - by apply handlePacket_refines_may.
  - apply refines_ignore, newConnection_refines.
  - apply refines_ignore, Write_refines.
  - apply refines_ignore, Close_refines.
  - apply refines_ignore, CloseImm_refines.
  - apply refines_ignore, Accept_refines.
  - apply refines_ignore, Reject_refines.
  - apply refines_ignore, NoMoreConnections_refines.
  - apply Kill_start_refines.
  - apply timer_refines.
Qed.

(** The contexts reached by operations that returned, with the number of
    connections rejected on the way. *)
Inductive reachable : nat → ForwardCtx → Prop :=
| reach_init input : reachable 0 (NewForwardCtx input)
| reach_op r k op c c' :
    reachable r c → op_ok op → exec op c = Done (tt, c') →
    (k ≤ may_reject op)%nat → proto_run k c c' → reachable (r + k) c'.

Lemma reachable_wf r c : reachable r c → ctx_wf r c.
Proof. induction 1; [apply init_wf | by eapply run_wf]. Qed.

Lemma reachable_exec r c op c' :
  reachable r c → op_ok op → exec op c = Done (tt, c') →
  ∃ k, (k ≤ may_reject op)%nat ∧ reachable (r + k) c'.
Proof.
  intros Hr Hop E. destruct (exec_refines op Hop c tt c' E) as (k & Hk & Hrun).
  exists k. split; [done|]. by eapply reach_op.
Qed.

End reachable.

(** ** Theorems *)

(** No operation ever moves a connection backwards: along WAITINIT, STARTED,
    WAITCLOSE, CLOSED the state only advances, a connection keeps its
    identifier, origin and details, and the bytes delivered to its reader only
    grow and stop growing once it is closing. *)
Theorem agent_connections_advance encode_error Marshal_new Unmarshal_new op c c' i x :
  op_ok op → exec encode_error Marshal_new Unmarshal_new op c = Done (tt, c') →
  connMap c !! i = Some x → ∃ y, connMap c' !! i = Some y ∧ conn_advances x y.
Proof.
  intros Hop E Hx. destruct (exec_refines _ _ _ op Hop c tt c' E) as (k & _ & Hr).
  by eapply run_advances.
Qed.

(** *** Goroutines beside the receive loop *)

Section running.
Context (encode_error : list Packet → Packet → option error).
Context (Marshal_new : NewConnectionPayload → list byte * option error).
Context (Unmarshal_new : list byte → NewConnectionPayload * option error).

(** The connection whose success is being handled has not been closed or
    rejected since its state was read. *)
Definition undisturbed (p : Packet) (seen : option conn_state) (c : ForwardCtx) : Prop :=
  seen = Some CONNECTION_STATE_WAITINIT →
  ∃ conn, connMap c !! ConnectionId p = Some conn ∧ (rank (state conn) < 2)%nat.

(** The contexts reached when operations also run between the two parts of the
    handling of a success packet: that packet, with the state that was read, is
    pending, and the receive loop handles no other one. *)
Inductive running : nat → option (Packet * option conn_state) → ForwardCtx → Prop :=
| running_init input : running 0 None (NewForwardCtx input)
| running_op r k pending op c c' :
    running r pending c → op_ok op → (pending ≠ None → ∀ p, op ≠ OpPacket p) →
    exec encode_error Marshal_new Unmarshal_new op c = Done (tt, c') →
    (k ≤ may_reject op)%nat → proto_run k c c' → running (r + k) pending c'
| running_look r p seen c c' :
    running r None c → handleSuccess_look p c = Done (seen, c') → running r (Some (p, seen)) c'
| running_act r p seen c c' :
    running r (Some (p, seen)) c → undisturbed p seen c →
    handleSuccess_act p seen c = Done (tt, c') → running r None c'.

Lemma set_state_id st conn (m : gmap Z Connection) i :
  m !! i = Some conn → state conn = st → alter (set_state st) i m = m.
Proof.
  intros Hi <-. apply map_eq. intros j. destruct (decide (i = j)) as [<-|]; [|by rewrite lookup_alter_ne].
  rewrite lookup_alter_eq, Hi. cbn. by destruct conn.
Qed.

Lemma act_wf r p seen c c' :
  ctx_wf r c → undisturbed p seen c → handleSuccess_act p seen c = Done (tt, c') → ctx_wf r c'.
Proof.
  intros Hwf Hu E. assert (refines_at 0 c (handleSuccess_act p seen)) as Hr.
  { apply refines_bind0; [|intros; apply unlock_refines]. destruct seen as [[]|]; auto with go.
    - destruct (Hu eq_refl) as (conn & Hl & Hk). destruct (decide (state conn = CONNECTION_STATE_WAITINIT)) as [Hs|Hs].
      + eapply refines_modify; [by eapply step_start|cbn; lia].
      + assert (state conn = CONNECTION_STATE_STARTED) as Hst by (destruct (state conn); vm_compute in Hk; lia || done).
        intros a c1 [= <- <-]. rewrite (set_state_id _ conn) by done.
        replace (set_connMap (connMap c) c) with c by (by destruct c). apply run_nothing.
    - apply refines_ignore, CloseImm_refines. }
  destruct (Hr _ _ E) as (k & Hk & Hrun). replace r with (r + k)%nat by lia. by eapply run_wf.
Qed.

Lemma running_wf r pending c : running r pending c → ctx_wf r c.
Proof.
  induction 1 as [input|r k pending op c c' _ IH _ _ _ _ Hrun|r p seen c c' _ IH E|r p seen c c' _ IH Hu E].
  - apply init_wf.
  - by eapply run_wf.
  - destruct (look_refines 0 p c seen c' E) as (k & Hk & Hrun). replace r with (r + k)%nat by lia. by eapply run_wf.
  - by eapply act_wf.
Qed.

Lemma running_exec r pending c op c' :
  running r pending c → op_ok op → may_reject op = 0%nat → (pending ≠ None → ∀ p, op ≠ OpPacket p) →
  exec encode_error Marshal_new Unmarshal_new op c = Done (tt, c') → running r pending c'.
Proof.
  intros Hr Hop Hk Hp E. destruct (exec_refines _ _ _ op Hop c tt c' E) as (k & Hle & Hrun).
  replace r with (r + k)%nat by lia. by eapply running_op.
Qed.

Lemma reachable_running r c : reachable encode_error Marshal_new Unmarshal_new r c → running r None c.
Proof. induction 1; [constructor | by eapply running_op]. Qed.
End running.


(** Without that condition it fails: a connection that is closed while its success
    is being handled is open again, and what is written to it then is sent after
    its close packet. *)
Theorem late_success_reopens (encode_error : list Packet → Packet → option error) c i conn p data :
  (∀ l q, encode_error l q = None) → connMapMu c = false →
  connMap c !! i = Some conn → state conn = CONNECTION_STATE_WAITINIT → ConnectionId p = i →
  ∃ c', (let* seen := handleSuccess_look p in
         let* _ := Connection_Close encode_error i in
         do* handleSuccess_act p seen in
         Connection_Write encode_error i data) c = Done ((Z.of_nat (length data), None), c') ∧
    sent c' = sent c ++ [bare_packet PACKET_CLOSE_CONNECTION (id conn); MkPacket PACKET_DATA (id conn) data].
Proof.
  intros He Hm Hi Hs <-. unfold handleSuccess_look, Connection_Close, handleSuccess_act, Connection_Write, connMapMu_Lock,
    connMapMu_Unlock, deref, update, writePacket. run_prog. rewrite Hm. cbn. rewrite Hi. cbn.
  destruct conn as [st ini cid det inb pc cb]. cbn in *. subst st. cbn. rewrite He. cbn.
  rewrite !lookup_alter_eq, Hi. cbn. rewrite He. eexists. split; [done|]. cbn. by rewrite <- app_assoc.
Qed.

(** *** Shutdown *)

Section shutdown.
Context (encode_error : list Packet → Packet → option error).

(** A call on every connection of the map, each of which returns and
    establishes [Q] for its connection. *)
Lemma range_conns_returns (P : ForwardCtx → Prop) (Q : Z → ForwardCtx → Prop)
    (f : Z → prog ForwardCtx unit) l c :
  (∀ c i, P c → is_Some (connMap c !! i) → ∃ c', f i c = Done (tt, c') ∧ P c' ∧ Q i c') →
  (∀ i c c', proto_run 0 c c' → Q i c → Q i c') →
  (∀ i, refines 0 (f i)) →
  P c → (∀ i, i ∈ l → is_Some (connMap c !! i)) →
  ∃ c', range l f c = Done (tt, c') ∧ P c' ∧ (∀ i, i ∈ l → Q i c') ∧ proto_run 0 c c'.
Proof.
  intros Hf HQ Hrun. revert c. induction l as [|i l IH]; intros c Hc Hl.
  - exists c. split_and!; try done; [by intros i ?%elem_of_nil | constructor].
  - cbn. unfold prog_bind. destruct (Hf c i Hc) as (c1 & E & Hc1 & Hq1); [apply Hl; left|].
    rewrite E. destruct (Hrun i c tt c1 E) as (k & Hk & R). assert (k = 0)%nat as -> by lia.
    destruct (IH c1 Hc1) as (c' & E' & Hc' & Hq' & R').
    { intros j Hj. destruct (Hl j) as [x Hx]; [by right|].
      destruct (run_advances _ _ _ _ _ R Hx) as (y & Hy & _). by exists y. }
    exists c'. split_and!; [done|done| |by apply (proto_run_app 0 0 _ c1)].
    intros j [->|Hj]%elem_of_cons; eauto.
Qed.

Definition conn_closed (i : Z) (c : ForwardCtx) : Prop :=
  ∃ y, connMap c !! i = Some y ∧ state y = CONNECTION_STATE_CLOSED.

Lemma conn_closed_stable i n c c' : proto_run n c c' → conn_closed i c → conn_closed i c'.
Proof.
  intros R (y & Hy & Hs). destruct (run_advances _ _ _ _ _ R Hy) as (z & Hz & Hr & _).
  exists z. split; [done|]. rewrite Hs in Hr. destruct (state z); vm_compute in Hr; (lia || done).
Qed.

Lemma map_keys_registered (m : gmap Z Connection) i : i ∈ (map_to_list m).*1 ↔ is_Some (m !! i).
Proof.
  split.
  - intros ([j x] & -> & Hx)%list_elem_of_fmap. apply elem_of_map_to_list in Hx. by exists x.
  - intros [x Hx]. apply list_elem_of_fmap. exists (i, x). split; [done|]. by apply elem_of_map_to_list.
Qed.

Lemma Close_returns c i : is_Some (connMap c !! i) → ∃ a c', Connection_Close encode_error i c = Done (a, c').
Proof.
  intros [conn Hi]. unfold Connection_Close, deref, update, writePacket. run_prog. rewrite Hi.
  destruct (state conn); cbn; eauto; destruct (encode_error _ _); eauto.
Qed.

Lemma CloseImm_returns r c i :
  ctx_wf r c → is_Some (connMap c !! i) →
  ∃ a c', Connection_CloseImm i c = Done (a, c') ∧
    conn_closed i c' ∧ dom (connMap c') = dom (connMap c).
Proof.
  intros Hwf [conn Hi]. unfold Connection_CloseImm, deref, update, waitGroup_Done. run_prog. rewrite Hi.
  case_decide as Hd.
  - eexists _, c. split_and!; [done| |done]. exists conn. split; [done|].
    destruct Hd as (?&?&?). by destruct (state conn).
  - assert (0 < waitGroup c) as Hw.
    { rewrite (wf_wait _ _ Hwf). assert (0 < open_conns (connMap c)); [|lia].
      eapply open_positive; [done|]. unfold is_open. destruct (state conn); try done.
      destruct Hd. by split_and!. }
    destruct (closeCallback conn); cbn; (rewrite decide_False by lia); (eexists _, _; split; [done|]); cbn;
      unfold conn_closed; cbn; rewrite !lookup_alter_eq, Hi, !dom_alter_L; cbn; eauto.
Qed.

Lemma NoMore_returns c : closed_ c = false → ∃ a c', NoMoreConnections encode_error c = Done (a, c').
Proof.
  intros Hc. unfold NoMoreConnections, close_connectionChannel, writePacket. run_prog. cbn.
  rewrite Hc. cbn. destruct (encode_error _ _); eauto.
Qed.

Lemma Kill_start_returns r c :
  ctx_wf r c → ∃ c1, Kill_start encode_error c = Done (tt, c1) ∧ ctx_wf r c1.
Proof.
  intros Hwf.
  assert (∃ c0, (if negb (stopped c) then ignore (NoMoreConnections encode_error) else prog_ret tt) c
      = Done (tt, c0) ∧ ctx_wf r c0) as (c0 & E0 & Hwf0).
  { destruct (stopped c) eqn:Es; cbn; [by exists c|].
    destruct (NoMore_returns c) as (a & c0 & E); [by rewrite (wf_stop _ _ Hwf)|].
    exists c0. split; [by unfold ignore, prog_bind; rewrite E|].
    destruct (NoMoreConnections_refines encode_error 0 c a c0 E) as (k & Hk & R).
    assert (k = 0)%nat as -> by lia. rewrite <- (Nat.add_0_r r). by eapply run_wf. }
  destruct (range_conns_returns (λ _, True) (λ _ _, True) (λ i, ignore (Connection_Close encode_error i))
    (map_to_list (connMap c0)).*1 c0) as (c1 & E1 & _ & _ & R1); auto.
  - intros c2 i _ Hi. destruct (Close_returns c2 i Hi) as (a & c3 & E).
    exists c3. split; [|done]. by unfold ignore, prog_bind; rewrite E.
  - intros i c2. apply refines_ignore, Close_refines.
  - apply map_keys_registered.
  - exists c1. unfold Kill_start, range_connMap. run_prog. rewrite E0, E1. split; [done|].
    rewrite <- (Nat.add_0_r r). by eapply run_wf.
Qed.

Lemma timer_closes_all r c :
  ctx_wf r c → ∃ c1, range_connMap (λ i, ignore (Connection_CloseImm i)) c = Done (tt, c1) ∧
    ctx_wf r c1 ∧ waitGroup c1 = Z.of_nat r ∧
    ∀ i x, connMap c1 !! i = Some x → state x = CONNECTION_STATE_CLOSED.
Proof.
  intros Hwf.
  destruct (range_conns_returns (λ c1, ctx_wf r c1 ∧ dom (connMap c1) = dom (connMap c)) conn_closed (λ i, ignore (Connection_CloseImm i))
    (map_to_list (connMap c)).*1 c) as (c1 & E1 & [Hwf1 Hdom] & Hq & R1); auto.
  - intros c2 i [Hwf2 Hd] Hi. destruct (CloseImm_returns r c2 i Hwf2 Hi) as (a & c3 & E & Hq & Hd').
    exists c3. split_and!; [by unfold ignore, prog_bind; rewrite E| |congruence|done].
    destruct (CloseImm_refines 0 i c2 a c3 E) as (k & Hk & R).
    assert (k = 0)%nat as -> by lia. rewrite <- (Nat.add_0_r r). by eapply run_wf.
  - intros i c2 c3. apply conn_closed_stable.
  - intros i c2. apply refines_ignore, CloseImm_refines.
  - apply map_keys_registered.
  - exists c1. split; [done|]. split; [done|].
    assert (∀ i x, connMap c1 !! i = Some x → state x = CONNECTION_STATE_CLOSED) as Hall.
    { intros i x Hx. destruct (Hq i) as (z & Hz & Hs); [|congruence].
      apply map_keys_registered, elem_of_dom. rewrite <- Hdom. by eapply elem_of_dom_2. }
    split; [|done]. rewrite (wf_wait _ _ Hwf1). apply open_zero in Hall. lia.
Qed.

End shutdown.

(** [Kill] on a reachable context: when no connection of the agent was ever
    rejected it returns and leaves every connection closed, even if the agent
    answers nothing; after a rejection it waits forever, since [Reject] closes
    the connection but never settles its entry in the wait group. *)
Theorem kill_returns_unless_rejected encode_error Marshal_new Unmarshal_new r c :
  reachable encode_error Marshal_new Unmarshal_new r c →
  if decide (r = 0)%nat
  then ∃ c', Kill encode_error c = Done (tt, c') ∧
         ∀ i x, connMap c' !! i = Some x → state x = CONNECTION_STATE_CLOSED
  else Kill encode_error c = Blocked "waitGroup".
Proof.
  intros Hr%reachable_wf. destruct (Kill_start_returns encode_error r c Hr) as (c1 & E1 & H1).
  destruct (timer_closes_all r c1 H1) as (c2 & E2 & _ & Hw & Hall).
  unfold Kill, Kill_finish, WaitFinish. run_prog. rewrite E1, E2, Hw.
  case_decide as Hz.
  - subst r. cbn. eauto.
  - by rewrite decide_False by lia.
Qed.

(** *** The leaked lock *)

(** The calls that take [connMapMu]: all connection packets that decode, and
    new connections whose payload can be marshalled. *)
Definition takes_lock (Unmarshal_new : list byte → NewConnectionPayload * option error) (p : Packet) : Prop :=
  Type_ p = PACKET_DATA ∨ Type_ p = PACKET_CLOSE_CONNECTION ∨ Type_ p = PACKET_SUCCESS ∨
  Type_ p = PACKET_ERROR ∨ (Type_ p = PACKET_NEW_CONNECTION ∧ (Unmarshal_new (Payload p)).2 = None).

(** The dispatch of the receive loop. *)
Lemma handlePacket_dispatch encode_error Unmarshal_new p :
  (Type_ p = PACKET_DATA → handlePacket encode_error Unmarshal_new p = handleData p) ∧
  (Type_ p = PACKET_CLOSE_CONNECTION →
     handlePacket encode_error Unmarshal_new p = handleClose encode_error p) ∧
  (Type_ p = PACKET_SUCCESS → handlePacket encode_error Unmarshal_new p = handleSuccess p) ∧
  (Type_ p = PACKET_ERROR → handlePacket encode_error Unmarshal_new p = handleError p) ∧
  (Type_ p = PACKET_NEW_CONNECTION →
     handlePacket encode_error Unmarshal_new p = handleNewConnection encode_error Unmarshal_new p).
Proof. unfold handlePacket. split_and!; intros E; rewrite E; reflexivity. Qed.

Lemma locked_packet_blocks encode_error Unmarshal_new p c :
  connMapMu c = true → takes_lock Unmarshal_new p →
  handlePacket encode_error Unmarshal_new p c = Blocked "connMapMu".
Proof.
  intros Hc Hp. destruct (handlePacket_dispatch encode_error Unmarshal_new p) as (D1 & D2 & D3 & D4 & D5).
  destruct Hp as [E|[E|[E|[E|[E Hu]]]]];
    [rewrite (D1 E)|rewrite (D2 E)|rewrite (D3 E)|rewrite (D4 E)|rewrite (D5 E)];
    unfold handleData, handleClose, handleSuccess, handleSuccess_look, handleError, handleNewConnection,
      connMapMu_Lock, connMapMu_RLock; run_prog; try (by rewrite Hc).
  destruct (Unmarshal_new (Payload p)) as [np [e|]]; [done|]. by rewrite Hc.
Qed.

Lemma locked_new_blocks encode_error Marshal_new proto ca cp oa op cb c :
  connMapMu c = true → (∀ x, (Marshal_new x).2 = None) →
  newConnection encode_error Marshal_new proto ca cp oa op cb c = Blocked "connMapMu".
Proof.
  intros Hc Hm. unfold newConnection, connMapMu_Lock.
  specialize (Hm (MkNewConnectionPayload proto ca cp oa op)).
  destruct (Marshal_new _) as [mar [e|]]; [done|]. run_prog. by rewrite Hc.
Qed.

(** One close packet for an identifier that is not registered disables the
    context: the handler returns with [connMapMu] still locked, so every later
    data, close, success, error or new-connection packet, and every new
    connection of the server, waits forever. *)
Theorem unknown_close_blocks_forever encode_error Marshal_new Unmarshal_new c i :
  connMapMu c = false → connMap c !! i = None → (∀ x, (Marshal_new x).2 = None) →
  ∃ c', handlePacket encode_error Unmarshal_new (bare_packet PACKET_CLOSE_CONNECTION i) c = Done (tt, c') ∧
    (∀ p, takes_lock Unmarshal_new p → handlePacket encode_error Unmarshal_new p c' = Blocked "connMapMu") ∧
    (∀ proto ca cp oa op cb,
      newConnection encode_error Marshal_new proto ca cp oa op cb c' = Blocked "connMapMu").
Proof.
  intros Hc Hi Hm. exists (set_connMapMu true c). split_and!.
  - destruct (handlePacket_dispatch encode_error Unmarshal_new (bare_packet PACKET_CLOSE_CONNECTION i))
      as (_ & D & _). rewrite (D eq_refl).
    unfold handleClose, connMapMu_Lock. run_prog. rewrite Hc. cbn. by rewrite Hi.
  - intros p Hp. by apply locked_packet_blocks.
  - intros. by apply locked_new_blocks.
Qed.

(** The identifier counter is a [uint64] the agent can advance to its end.  Once
    it has wrapped around to an identifier that is still registered, the
    server's next connection fails and leaves the context locked for good. *)
Theorem identifier_collision_blocks_forever encode_error Marshal_new Unmarshal_new c x
    proto ca cp oa op cb :
  connMapMu c = false → connMap c !! u64 (connectionId c + 1) = Some x →
  (∀ x, (Marshal_new x).2 = None) →
  ∃ e c', newConnection encode_error Marshal_new proto ca cp oa op cb c = Done ((None, Some e), c') ∧
    (∀ p, takes_lock Unmarshal_new p → handlePacket encode_error Unmarshal_new p c' = Blocked "connMapMu").
Proof.
  intros Hc Hx Hm. exists (ErrorString "Connection id already exists, something went terribly wrong"),
    (set_connectionId (u64 (connectionId c + 1)) (set_connMapMu true c)). split.
  - unfold newConnection, connMapMu_Lock. specialize (Hm (MkNewConnectionPayload proto ca cp oa op)).
    destruct (Marshal_new _) as [mar [e|]]; [done|]. run_prog. rewrite Hc. cbn. by rewrite Hx.
  - intros p Hp. by apply locked_packet_blocks.
Qed.

(** *** Data *)

(** What a data packet may be delivered to. *)
Definition deliverable (conn : Connection) : bool :=
  bool_decide (state conn = CONNECTION_STATE_STARTED) && negb (pipeClosed conn).

Definition payload_for (i : Z) (ps : list Packet) : list byte :=
  mjoin (Payload <$> filter (λ p, ConnectionId p = i) ps).

Definition receive (ps : list Packet) (i : Z) (conn : Connection) : Connection :=
  if deliverable conn then set_inbox (inbox conn ++ payload_for i ps) conn else conn.

Lemma payload_for_cons i p ps :
  payload_for i (p :: ps) = (if decide (ConnectionId p = i) then Payload p else []) ++ payload_for i ps.
Proof. unfold payload_for. rewrite filter_cons. by case_decide. Qed.

Lemma handleData_effect p c :
  connMapMu c = false →
  ∃ c', handleData p c = Done (tt, c') ∧ connMapMu c' = false ∧ sent c' = sent c ∧
    ∀ i, connMap c' !! i = receive [p] i <$> connMap c !! i.
Proof.
  intros Hc. unfold handleData, connMapMu_RLock. run_prog. rewrite Hc.
  assert (∀ i conn, ConnectionId p ≠ i → receive [p] i conn = conn) as Hother.
  { intros i conn Hi. unfold receive, deliverable. rewrite payload_for_cons, decide_False by done. cbn.
    rewrite app_nil_r. by destruct (_ && _), conn. }
  destruct (connMap c !! ConnectionId p) as [conn|] eqn:Hl.
  - destruct (deliverable conn) eqn:Hd.
    + pose proof Hd as [Hs Hp]%andb_true_iff. apply bool_decide_eq_true in Hs.
      apply negb_true_iff in Hp. rewrite decide_False by (intros H; by apply H). rewrite Hp.
      eexists. split; [done|]. cbn. split_and!; try done. intros i.
      destruct (decide (ConnectionId p = i)) as [<-|Hne].
      * rewrite lookup_alter_eq, Hl. cbn. unfold receive. rewrite Hd, payload_for_cons, decide_True by done.
        by rewrite app_nil_r.
      * rewrite lookup_alter_ne by done. destruct (connMap c !! i); cbn; [|done]. by rewrite Hother.
    + exists c. split.
      { unfold deliverable in Hd. destruct (decide (state conn = CONNECTION_STATE_STARTED)) as [Hs|Hs].
        - rewrite bool_decide_true in Hd by done. rewrite decide_False by (intros H; by apply H).
          by destruct (pipeClosed conn).
        - by rewrite decide_True. }
      split_and!; try done. intros i. destruct (decide (ConnectionId p = i)) as [<-|Hne].
      * rewrite Hl. cbn. unfold receive. by rewrite Hd.
      * destruct (connMap c !! i); cbn; [|done]. by rewrite Hother.
  - exists c. split_and!; try done. intros i. destruct (connMap c !! i) eqn:Hi; cbn; [|done].
    rewrite Hother; [done|]. intros E. congruence.
Qed.

Lemma receive_app ps ps' i conn : receive (ps ++ ps') i conn = receive ps' i (receive ps i conn).
Proof.
  unfold receive, payload_for. destruct (deliverable conn) eqn:Hd; [|by rewrite Hd].
  assert (∀ b, deliverable (set_inbox b conn) = true) as -> by (intros; exact Hd).
  rewrite filter_app, fmap_app. unfold set_inbox. cbn. f_equal.
  by rewrite join_app, app_assoc.
Qed.

(** Receiving data packets for any number of connections in any order delivers
    to each started connection exactly the payloads addressed to it, in order. *)
Lemma demultiplex encode_error Unmarshal_new ps c :
  connMapMu c = false → Forall is_data ps →
  ∃ c', range ps (handlePacket encode_error Unmarshal_new) c = Done (tt, c') ∧ connMapMu c' = false ∧
    sent c' = sent c ∧ ∀ i, connMap c' !! i = receive ps i <$> connMap c !! i.
Proof.
  intros Hc Hps. revert c Hc. induction Hps as [|p ps Hp _ IH]; intros c Hc.
  - exists c. split_and!; try done. intros i. destruct (connMap c !! i) as [conn|]; cbn; [|done].
    unfold receive, payload_for. cbn. rewrite app_nil_r. by destruct (deliverable conn), conn.
  - destruct (handleData_effect p c Hc) as (c1 & E1 & Hc1 & Hs1 & H1).
    destruct (IH c1 Hc1) as (c' & E' & Hc' & Hs' & H').
    exists c'. split_and!; [| done | congruence |].
    + cbn. destruct (handlePacket_dispatch encode_error Unmarshal_new p) as (D & _).
      unfold prog_bind. rewrite (D Hp). by rewrite E1.
    + intros i. rewrite H', H1.
      destruct (connMap c !! i); cbn; [|done]. f_equal. symmetry. apply (receive_app [p] ps).
Qed.

Definition write_all (encode_error : list Packet → Packet → option error) (chunks : list (Z * list byte))
  : prog ForwardCtx unit :=
  range chunks (λ x, ignore (Connection_Write encode_error x.1 x.2)).

Definition chunks_for (i : Z) (chunks : list (Z * list byte)) : list byte :=
  mjoin (snd <$> filter (λ x, x.1 = i) chunks).

Lemma write_all_sends encode_error chunks a :
  (∀ l p, encode_error l p = None) →
  (∀ i conn, connMap a !! i = Some conn → id conn = i) →
  (∀ x, x ∈ chunks → ∃ conn, connMap a !! x.1 = Some conn ∧ state conn = CONNECTION_STATE_STARTED) →
  write_all encode_error chunks a =
  Done (tt, set_sent (sent a ++ ((λ x, MkPacket PACKET_DATA x.1 x.2) <$> chunks)) a).
Proof.
  intros He Hid. revert a Hid. induction chunks as [|[i d] chunks IH]; intros a Hid Hst.
  - cbn. rewrite app_nil_r. by destruct a.
  - destruct (Hst (i, d)) as (conn & Hi & Hs); [left|]. cbn in Hi.
    assert (ignore (Connection_Write encode_error i d) a =
      Done (tt, set_sent (sent a ++ [MkPacket PACKET_DATA i d]) a)) as E.
    { unfold ignore, Connection_Write, deref, writePacket. run_prog. by rewrite Hi, Hs, He, (Hid _ _ Hi). }
    unfold write_all in *. cbn. unfold prog_bind. rewrite E, IH; cbn.
    + by rewrite <- app_assoc.
    + apply Hid.
    + intros x Hx. apply Hst. by right.
Qed.

Lemma payload_for_chunks i chunks :
  payload_for i ((λ x, MkPacket PACKET_DATA x.1 x.2) <$> chunks) = chunks_for i chunks.
Proof.
  induction chunks as [|[j d] chunks IH]; [done|].
  rewrite fmap_cons, payload_for_cons, IH. unfold chunks_for. rewrite filter_cons. cbn.
  by case_decide.
Qed.

(** Claim C23. End to end: chunks written on any interleaving of started connections by
    one side and handled by the other arrive, per connection, as exactly the
    concatenation of what was written on it. *)
Theorem agent_data_roundtrip encode_error Marshal_new Unmarshal_new r a b chunks :
  reachable encode_error Marshal_new Unmarshal_new r a →
  (∀ l p, encode_error l p = None) → connMapMu b = false →
  (∀ x, x ∈ chunks → ∃ conn, connMap a !! x.1 = Some conn ∧ state conn = CONNECTION_STATE_STARTED) →
  ∃ a' b',
    write_all encode_error chunks a = Done (tt, a') ∧
    range (drop (length (sent a)) (sent a')) (handlePacket encode_error Unmarshal_new) b = Done (tt, b') ∧
    ∀ i conn, connMap b !! i = Some conn → deliverable conn = true →
      ∃ conn', connMap b' !! i = Some conn' ∧ inbox conn' = inbox conn ++ chunks_for i chunks.
Proof.
  intros Hr%reachable_wf He Hb Hst.
  pose proof (write_all_sends encode_error chunks a He (λ i conn H, proj1 (wf_id _ _ Hr i conn H)) Hst) as Ew.
  destruct (demultiplex encode_error Unmarshal_new
    ((λ x, MkPacket PACKET_DATA x.1 x.2) <$> chunks) b Hb) as (b' & Eb & _ & _ & Hm).
  { apply Forall_fmap, Forall_true. done. }
  eexists _, b'. split; [exact Ew|]. cbn. rewrite drop_app_length. split; [exact Eb|].
  intros i conn Hi Hd. rewrite Hm, Hi. eexists. split; [done|].
  unfold receive. rewrite Hd, payload_for_chunks. done.
Qed.

(** *** Calls return *)

(** When a call may be made: its connection is registered, a write waits for
    the connection to leave its initial state, and the channel is closed once. *)
Definition ready (op : ctx_op) (c : ForwardCtx) : Prop :=
  match op with
  | OpWrite i _ => ∃ conn, connMap c !! i = Some conn ∧ state conn ≠ CONNECTION_STATE_WAITINIT
  | OpClose i | OpCloseImm i | OpAccept i | OpReject i => is_Some (connMap c !! i)
  | OpNoMoreConnections => stopped c = false
  | _ => True
  end.

Local Arguments writePacket : simpl never.
Local Arguments Connection_CloseImm : simpl never.
Local Arguments Connection_Reject : simpl never.

Section returns.
Context (encode_error : list Packet → Packet → option error).
Context (Marshal_new : NewConnectionPayload → list byte * option error).
Context (Unmarshal_new : list byte → NewConnectionPayload * option error).

Lemma write_returns p c : ∃ e l, writePacket encode_error p c = Done (e, set_sent l c).
Proof.
  unfold writePacket. run_prog. destruct (encode_error _ _); [|by eexists _, _].
  exists (Some e), (sent c). by destruct c.
Qed.

Lemma ignore_returns {A} (p : prog ForwardCtx A) c :
  (∃ a c', p c = Done (a, c')) → ∃ c', ignore p c = Done (tt, c').
Proof. intros (a & c' & E). exists c'. unfold ignore, prog_bind. by rewrite E. Qed.

Lemma Accept_returns c i : is_Some (connMap c !! i) → ∃ a c', Connection_Accept encode_error i c = Done (a, c').
Proof.
  intros [conn Hi]. unfold Connection_Accept, deref, update. run_prog. rewrite Hi.
  destruct (initiator conn); [by eexists _, _|]. case_decide; [by eexists _, _|].
  edestruct write_returns as (e & l & E). rewrite E. by eexists _, _.
Qed.

Lemma Reject_returns c i : is_Some (connMap c !! i) → ∃ a c', Connection_Reject encode_error i c = Done (a, c').
Proof.
  intros [conn Hi]. unfold Connection_Reject, deref, update. run_prog. rewrite Hi.
  destruct (initiator conn); [by eexists _, _|]. case_decide; [by eexists _, _|].
  edestruct write_returns as (e & l & E). rewrite E. by eexists _, _.
Qed.

Lemma wf_locked b r c : ctx_wf r c → ctx_wf r (set_connMapMu b c).
Proof. intros [H1 H2 H3 H4 H5]. by split. Qed.

Lemma handleClose_returns r c p :
  ctx_wf r c → connMapMu c = false → ∃ c', handleClose encode_error p c = Done (tt, c').
Proof.
  intros Hwf Hc. unfold handleClose, connMapMu_Lock, connMapMu_Unlock. run_prog. rewrite Hc. cbn.
  destruct (connMap c !! ConnectionId p) eqn:Hl; [|by eexists].
  destruct (CloseImm_returns r (set_connMapMu false (set_connMapMu true c)) (ConnectionId p))
    as (a & c1 & E & _); [by apply wf_locked, wf_locked | by eexists |]. rewrite E.
  edestruct write_returns as (e & l & E'). rewrite E'. by eexists.
Qed.

Lemma handleSuccess_returns r c p :
  ctx_wf r c → connMapMu c = false → ∃ c', handleSuccess p c = Done (tt, c').
Proof.
  intros Hwf Hc. unfold handleSuccess, handleSuccess_look, handleSuccess_act, connMapMu_Lock, connMapMu_Unlock, update.
  run_prog. rewrite Hc. cbn.
  destruct (connMap c !! ConnectionId p) as [conn|] eqn:Hl; cbn; [|by eexists].
  destruct (CloseImm_returns r (set_connMapMu true c) (ConnectionId p))
    as (a & c1 & E & _); [by apply wf_locked | by eexists |].
  destruct (state conn); try (by eexists). rewrite E. by eexists.
Qed.

Lemma handleError_returns r c p :
  ctx_wf r c → connMapMu c = false → ∃ c', handleError p c = Done (tt, c').
Proof.
  intros Hwf Hc. unfold handleError, connMapMu_Lock, connMapMu_Unlock. run_prog. rewrite Hc. cbn.
  destruct (connMap c !! ConnectionId p) as [conn|] eqn:Hl; [|by eexists].
  destruct (CloseImm_returns r (set_connMapMu true c) (ConnectionId p))
    as (a & c1 & E & _); [by apply wf_locked | by eexists |]. rewrite E. by eexists.
Qed.

Lemma handleNewConnection_returns r c p :
  ctx_wf r c → connMapMu c = false → ∃ c', handleNewConnection encode_error Unmarshal_new p c = Done (tt, c').
Proof.
  intros Hwf Hc. unfold handleNewConnection. destruct (Unmarshal_new _) as [np [e|]]; [by eexists|].
  unfold connMapMu_Lock, connMapMu_Unlock, waitGroup_Add. run_prog. rewrite Hc. cbn.
  destruct (connMap c !! ConnectionId p); [by eexists|]. case_decide; [by eexists|].
  destruct (stopped c) eqn:Hs; cbn.
  - edestruct Reject_returns as (a & c1 & E); [|rewrite E; by eexists].
    cbn. rewrite lookup_insert_eq. by eexists.
  - unfold send_connection. run_prog. cbn. rewrite (wf_stop _ _ Hwf), Hs. by eexists.
Qed.

Lemma newConnection_returns c proto ca cp oa op cb :
  connMapMu c = false → ∃ a c', newConnection encode_error Marshal_new proto ca cp oa op cb c = Done (a, c').
Proof.
  intros Hc. unfold newConnection. destruct (Marshal_new _) as [mar [e|]]; [by eexists _, _|].
  unfold connMapMu_Lock, connMapMu_Unlock, waitGroup_Add. run_prog. rewrite Hc. cbn.
  destruct (connMap c !! _); [by eexists _, _|].
  edestruct write_returns as (e & l & E). rewrite E. destruct e; by eexists _, _.
Qed.

End returns.

Lemma calls_return encode_error Marshal_new Unmarshal_new r c op :
  ctx_wf r c → connMapMu c = false → ready op c →
  ∃ c', exec encode_error Marshal_new Unmarshal_new op c = Done (tt, c').
Proof.
  intros Hwf Hc Hop. destruct op; cbn in Hop |- *.
  - destruct (handlePacket_dispatch encode_error Unmarshal_new p) as (D1 & D2 & D3 & D4 & D5).
    destruct (decide (Type_ p = PACKET_DATA)) as [E|]; [rewrite (D1 E)|].
    { destruct (handleData_effect p c Hc) as (c' & E' & _). eauto. }
    destruct (decide (Type_ p = PACKET_CLOSE_CONNECTION)) as [E|];
      [rewrite (D2 E); by eapply handleClose_returns|].
    destruct (decide (Type_ p = PACKET_SUCCESS)) as [E|]; [rewrite (D3 E); by eapply handleSuccess_returns|].
    destruct (decide (Type_ p = PACKET_ERROR)) as [E|]; [rewrite (D4 E); by eapply handleError_returns|].
    destruct (decide (Type_ p = PACKET_NEW_CONNECTION)) as [E|];
      [rewrite (D5 E); by eapply handleNewConnection_returns|].
    unfold handlePacket. rewrite !decide_False by done. case_decide; [|by eexists].
    unfold handleNoMoreConnections, close_connectionChannel. run_prog.
    destruct (stopped c) eqn:Hs; cbn; [by eexists|]. rewrite (wf_stop _ _ Hwf), Hs. by eexists.
  - by apply ignore_returns, newConnection_returns.
  - destruct Hop as (conn & Hi & Hs). apply ignore_returns.
    unfold Connection_Write, deref, update. run_prog. rewrite Hi.
    edestruct write_returns as (e & l & E).
    destruct (state conn); [done|rewrite E; destruct e| |]; by eexists _, _.
  - by apply ignore_returns, Close_returns.
  - apply ignore_returns. destruct (CloseImm_returns r c i Hwf Hop) as (a & c' & E & _). eauto.
  - by apply ignore_returns, Accept_returns.
  - by apply ignore_returns, Reject_returns.
  - apply ignore_returns, NoMore_returns. by rewrite (wf_stop _ _ Hwf).
  - destruct (Kill_start_returns encode_error r c Hwf) as (c' & E & _). eauto.
  - destruct (timer_closes_all r c Hwf) as (c' & E & _). eauto.
Qed.

(** On a reachable context whose lock is free every call that may be made
    returns: the wait group never becomes negative, nothing is sent on or closes
    a closed channel and no connection pointer is nil, whatever packets the
    agent sends. *)
Theorem agent_calls_return encode_error Marshal_new Unmarshal_new r c op :
  reachable encode_error Marshal_new Unmarshal_new r c → connMapMu c = false → ready op c →
  ∃ c', exec encode_error Marshal_new Unmarshal_new op c = Done (tt, c').
Proof. intros Hr%reachable_wf. by apply (calls_return _ _ _ r). Qed.

(** *** The receive loop *)

(** Calls that leave a part of the context alone. *)
Definition keeps {X} (f : ForwardCtx → X) {A} (p : prog ForwardCtx A) : Prop :=
  ∀ c a c', p c = Done (a, c') → f c' = f c.

Lemma keeps_bind {X} (f : ForwardCtx → X) {A B} (p : prog ForwardCtx A) (k : A → prog ForwardCtx B) :
  keeps f p → (∀ a, keeps f (k a)) → keeps f (let* a := p in k a).
Proof.
  intros Hp Hk c b c'. unfold prog_bind. destruct (p c) as [[a c1]| |] eqn:E; [|done|done].
  intros E'. rewrite (Hk _ _ _ _ E'). by eapply Hp.
Qed.

Lemma keeps_ret {X} (f : ForwardCtx → X) {A} (a : A) : keeps f (prog_ret a).
Proof. by intros c ? c' [= <- <-]. Qed.

Lemma keeps_get {X} (f : ForwardCtx → X) : keeps f get.
Proof. by intros c ? c' [= <- <-]. Qed.

Lemma keeps_modify {X} (f : ForwardCtx → X) g : (∀ c, f (g c) = f c) → keeps f (modify g).
Proof. by intros H c ? c' [= <- <-]. Qed.

Lemma keeps_fail {X} (f : ForwardCtx → X) {A} s : keeps f (panic (A:=A) s) ∧ keeps f (block (A:=A) s).
Proof. by split; intros c a c'. Qed.

(** A call that looks at the context and then stores an updated one. *)
Lemma keeps_state {X} (f : ForwardCtx → X) {A} (k : ForwardCtx → prog ForwardCtx A) :
  (∀ c a c', k c c = Done (a, c') → f c' = f c) → keeps f (let* c := get in k c).
Proof. intros H c a c' E. by eapply H. Qed.

#[export] Hint Resolve keeps_bind keeps_ret keeps_get keeps_modify : go.

(** One step of a proof that a call keeps a field. *)
Ltac keeps1 :=
  first
    [ apply keeps_bind; [|intros ?] | apply keeps_ret | apply keeps_get | apply keeps_fail
    | apply keeps_modify; done | progress (repeat case_match) ].

Section receive_loop.
Context (encode_error : list Packet → Packet → option error).
Context (Unmarshal_new : list byte → NewConnectionPayload * option error).

(** The primitives, for the two fields the loop depends on. *)

Lemma writePacket_keeps p : keeps incoming (writePacket encode_error p) ∧ keeps connMapMu (writePacket encode_error p).
Proof. split; apply keeps_state; intros c a c'; run_prog; case_match; by intros [= <- <-]. Qed.

Lemma CloseImm_keeps i : keeps incoming (Connection_CloseImm i) ∧ keeps connMapMu (Connection_CloseImm i).
Proof.
  split; intros c a c'; unfold Connection_CloseImm, deref, update, waitGroup_Done; run_prog;
    (destruct (connMap c !! i) as [conn|]; [|done]); case_decide;
    try (by intros [= <- <-]); destruct (closeCallback conn); cbn; case_decide; try done; by intros [= <- <-].
Qed.

Lemma Reject_keeps i : keeps incoming (Connection_Reject encode_error i) ∧ keeps connMapMu (Connection_Reject encode_error i).
Proof.
  split; (apply keeps_bind; [intros c a c'; unfold deref; run_prog; case_match; by intros [= <- <-]|]);
    intros conn; repeat first [apply writePacket_keeps | keeps1].
Qed.

Lemma send_keeps i : keeps incoming (send_connection i) ∧ keeps connMapMu (send_connection i).
Proof. split; apply keeps_state; intros c a c'; run_prog; case_match; by intros [= <- <-]. Qed.

Lemma close_keeps : keeps incoming close_connectionChannel ∧ keeps connMapMu close_connectionChannel.
Proof. split; apply keeps_state; intros c a c'; run_prog; case_match; by intros [= <- <-]. Qed.

Lemma lock_keeps : keeps incoming connMapMu_Lock.
Proof. apply keeps_state; intros c a c'; run_prog; case_match; by intros [= <- <-]. Qed.

Lemma handlePacket_keeps_incoming p : keeps incoming (handlePacket encode_error Unmarshal_new p).
Proof.
  unfold handlePacket. repeat case_decide; try apply keeps_ret;
    unfold handleData, handleClose, handleSuccess, handleSuccess_look, handleSuccess_act, handleError, handleNewConnection, handleNoMoreConnections,
      connMapMu_RLock, connMapMu_Unlock, waitGroup_Add, update;
    repeat first
      [ apply lock_keeps | apply CloseImm_keeps | apply writePacket_keeps | apply Reject_keeps | apply send_keeps
      | apply close_keeps       | keeps1 ].
Qed.

(** Apart from close packets, handling a packet leaves the lock free. *)
Lemma handlePacket_unlocks p c a c' :
  Type_ p ≠ PACKET_CLOSE_CONNECTION → connMapMu c = false →
  handlePacket encode_error Unmarshal_new p c = Done (a, c') → connMapMu c' = false.
Proof.
  intros Hp Hc E. unfold handlePacket in E. rewrite (decide_False _ _ Hp) in E.
  assert (∀ (k : prog ForwardCtx unit) c0, (do* k in connMapMu_Unlock) c0 = Done (a, c') → connMapMu c' = false)
    as Hunlock.
  { intros k c0. run_prog. destruct (k c0) as [[[] c1]| |]; [|done|done]. by intros [= <- <-]. }
  assert (∀ {A} (k : prog ForwardCtx A) c0, connMapMu c0 = false → keeps connMapMu k →
    ∀ b, k c0 = Done (b, c') → connMapMu c' = false) as Hkeeps.
  { intros A k c0 H0 Hk b Ek. by rewrite (Hk _ _ _ Ek). }
  repeat case_decide.
  - revert E. apply (Hkeeps _ (handleData p) c Hc).
    unfold handleData, connMapMu_RLock, update. repeat keeps1.
  - revert E. unfold handleSuccess, handleSuccess_look, handleSuccess_act, connMapMu_Lock. run_prog. rewrite Hc. cbn. apply Hunlock.
  - revert E. unfold handleError, connMapMu_Lock. run_prog. rewrite Hc. cbn. apply Hunlock.
  - revert E. unfold handleNewConnection. destruct (Unmarshal_new _) as [np [e|]]; [by intros [= <- <-]|].
    unfold connMapMu_Lock, connMapMu_Unlock, waitGroup_Add. run_prog. rewrite Hc. cbn.
    destruct (connMap c !! ConnectionId p); [by intros [= <- <-]|].
    case_decide; [by intros [= <- <-]|]. destruct (stopped c).
    + apply (Hkeeps _ (ignore (Connection_Reject encode_error (ConnectionId p)))); [done|].
      apply keeps_bind; [apply Reject_keeps | intros; apply keeps_ret].
    + apply Hkeeps; [done|apply send_keeps].
  - revert E. apply (Hkeeps _ handleNoMoreConnections c Hc).
    unfold handleNoMoreConnections. repeat first [apply close_keeps | keeps1].
  - by injection E as <- <-.
Qed.

End receive_loop.

Lemma loop_drains encode_error Unmarshal_new n r c :
  ctx_wf r c → connMapMu c = false →
  Forall (λ p, packet_ok p ∧ Type_ p ≠ PACKET_CLOSE_CONNECTION) (incoming c) →
  (length (incoming c) < n)%nat →
  ∃ c', handleBackend_loop encode_error Unmarshal_new n c = Done (true, c') ∧ incoming c' = [] ∧ connMapMu c' = false.
Proof.
  revert r c. induction n as [|n IH]; intros r c Hwf Hc Hin Hn; [lia|].
  cbn [handleBackend_loop]. unfold Decode. run_prog.
  destruct (incoming c) as [|p ps] eqn:Ei; [by eexists|].
  apply Forall_cons in Hin as [[Hok Hp] Hin]. set (c1 := set_incoming ps c).
  assert (ctx_wf r c1) as Hwf1 by (destruct Hwf; by split).
  destruct (calls_return encode_error (λ _, ([], None)) Unmarshal_new r c1 (OpPacket p) Hwf1 Hc I)
    as (c2 & E2). cbn in E2. rewrite E2.
  destruct (handlePacket_refines encode_error Unmarshal_new p Hok c1 tt c2 E2) as (k & _ & R).
  assert (incoming c2 = ps) as Hi2 by apply (handlePacket_keeps_incoming _ _ _ _ _ _ E2).
  apply (IH (r + k)%nat c2).
  - by eapply run_wf.
  - by apply (handlePacket_unlocks encode_error Unmarshal_new p c1 tt).
  - by rewrite Hi2.
  - cbn in Hn. rewrite Hi2. lia.
Qed.

(** The receive loop on a reachable context: as long as the agent sends no
    close packets, the loop handles every packet and ends with the stream, and
    the lock is free again; the rounds needed are the packets plus one. *)
Theorem receive_loop_drains encode_error Marshal_new Unmarshal_new r c :
  reachable encode_error Marshal_new Unmarshal_new r c → connMapMu c = false →
  Forall (λ p, packet_ok p ∧ Type_ p ≠ PACKET_CLOSE_CONNECTION) (incoming c) →
  ∃ c', handleBackend encode_error Unmarshal_new c = Done (true, c') ∧ incoming c' = [] ∧ connMapMu c' = false.
Proof.
  intros Hr%reachable_wf Hc Hin. unfold handleBackend. run_prog. eapply loop_drains; eauto.
Qed.

(** ** A concrete context *)

Definition demo_encode (l : list Packet) (p : Packet) : option error := None.
Definition demo_Marshal (x : NewConnectionPayload) : list byte * option error := ([], None).
Definition demo_Unmarshal (l : list byte) : NewConnectionPayload * option error := (NewConnectionPayload0, None).

Abbreviation demo_exec := (exec demo_encode demo_Marshal demo_Unmarshal).
Abbreviation demo_reachable := (reachable demo_encode demo_Marshal demo_Unmarshal).

(** A direct connection, acknowledged by the agent, and one the agent opens. *)
Definition demo_ctx0 : ForwardCtx := NewForwardCtx [].
Definition demo_run (ops : list ctx_op) : ForwardCtx :=
  match range ops demo_exec demo_ctx0 with Done (_, c) => c | _ => demo_ctx0 end.
Definition demo_started : list ctx_op :=
  [OpNewConnection "tcp" "localhost" 80 "client" 1234 false; OpPacket (bare_packet PACKET_SUCCESS 1)].

(** The operations of a trace that return and reject nothing. *)
Lemma demo_reachable_run ops c c' :
  demo_reachable 0 c → Forall op_ok ops → Forall (λ op, may_reject op = 0%nat) ops →
  range ops demo_exec c = Done (tt, c') → demo_reachable 0 c'.
Proof.
  intros Hr Hok Hrej. revert c Hr. induction ops as [|op ops IH]; cbn; intros c Hr E; [by injection E as <-|].
  apply Forall_cons in Hok as [Ho Hok], Hrej as [Hj Hrej]. unfold prog_bind in E.
  destruct (demo_exec op c) as [[[] c1]| |] eqn:E1; [|done|done].
  destruct (reachable_exec _ _ _ 0 c op c1 Hr Ho E1) as (k & Hk & Hr1). apply (IH Hok Hrej c1); [|done].
  by replace 0%nat with (0 + k)%nat by lia.
Qed.

Lemma demo_started_reachable : demo_reachable 0 (demo_run demo_started).
Proof.
  eapply (demo_reachable_run demo_started demo_ctx0); [constructor | | by repeat constructor | (vm_compute; reflexivity)].
  repeat constructor; unfold is_u64; cbn; lia.
Qed.

Lemma agent_connections_advance_witness :
  ∃ y, connMap (demo_run (demo_started ++ [OpClose 1])) !! 1 = Some y ∧
    conn_advances (MkConnection CONNECTION_STATE_STARTED true 1 NewConnectionPayload0 [] false false) y.
Proof.
  apply (agent_connections_advance demo_encode demo_Marshal demo_Unmarshal (OpClose 1)
    (demo_run demo_started)); [exact I | (vm_compute; reflexivity) | (vm_compute; reflexivity)].
Defined.

(** A connection that is started while another one is closed in the middle of
    the handling of the success packet; then data is written to it. *)
Definition demo_two : list ctx_op :=
  [OpNewConnection "tcp" "localhost" 80 "client" 1234 false; OpNewConnection "tcp" "localhost" 81 "client" 1235 false].
Definition demo_seen : ForwardCtx :=
  match handleSuccess_look (bare_packet PACKET_SUCCESS 1) (demo_run demo_two) with Done (_, c) => c | _ => demo_ctx0 end.
Definition demo_between : ForwardCtx := match demo_exec (OpClose 2) demo_seen with Done (_, c) => c | _ => demo_ctx0 end.
Definition demo_acted : ForwardCtx :=
  match handleSuccess_act (bare_packet PACKET_SUCCESS 1) (Some CONNECTION_STATE_WAITINIT) demo_between with
  | Done (_, c) => c | _ => demo_ctx0 end.
Definition demo_written : ForwardCtx := match demo_exec (OpWrite 1 ["x"%byte]) demo_acted with Done (_, c) => c | _ => demo_ctx0 end.

Lemma demo_running : running demo_encode demo_Marshal demo_Unmarshal 0 None demo_written.
Proof.
  assert (running demo_encode demo_Marshal demo_Unmarshal 0 None (demo_run demo_two)) as H0.
  { apply reachable_running. eapply (demo_reachable_run demo_two demo_ctx0); [constructor | | by repeat constructor | (vm_compute; reflexivity)].
    by repeat constructor. }
  eapply (running_exec _ _ _ _ _ demo_acted (OpWrite 1 ["x"%byte])); [|done|done|done|vm_compute; reflexivity].
  eapply (running_act _ _ _ _ (bare_packet PACKET_SUCCESS 1) (Some CONNECTION_STATE_WAITINIT) demo_between); [| |vm_compute; reflexivity].
  - eapply (running_exec _ _ _ _ _ demo_seen (OpClose 2)); [|done|done|done|vm_compute; reflexivity].
    eapply running_look; [exact H0 | vm_compute; reflexivity].
  - intros _. eexists. split; [vm_compute; reflexivity | vm_compute; lia].
Qed.


Lemma late_success_reopens_witness :
  ∃ c', (let* seen := handleSuccess_look (bare_packet PACKET_SUCCESS 1) in
         let* _ := Connection_Close (λ _ _, None) 1 in
         do* handleSuccess_act (bare_packet PACKET_SUCCESS 1) seen in
         Connection_Write (λ _ _, None) 1 ["x"%byte]) (demo_run [OpNewConnection "tcp" "localhost" 80 "client" 1234 false])
      = Done ((1, None), c') ∧
    sent c' = sent (demo_run [OpNewConnection "tcp" "localhost" 80 "client" 1234 false]) ++
      [bare_packet PACKET_CLOSE_CONNECTION 1; MkPacket PACKET_DATA 1 ["x"%byte]].
Proof.
  apply (late_success_reopens (λ _ _, None) _ 1 (MkConnection CONNECTION_STATE_WAITINIT true 1 NewConnectionPayload0 [] false false)
    (bare_packet PACKET_SUCCESS 1) ["x"%byte]); [done | vm_compute; reflexivity..].
Defined.

Lemma kill_returns_unless_rejected_witness :
  ∃ c', Kill demo_encode (demo_run demo_started) = Done (tt, c') ∧
    ∀ i x, connMap c' !! i = Some x → state x = CONNECTION_STATE_CLOSED.
Proof.
  exact (kill_returns_unless_rejected demo_encode demo_Marshal demo_Unmarshal 0 _ demo_started_reachable).
Defined.

(** The agent's connection is rejected; the wait group keeps its entry. *)
Example rejected_kill_blocks :
  Kill demo_encode (demo_run [OpPacket (bare_packet PACKET_NEW_CONNECTION 1); OpReject 1]) = Blocked "waitGroup".
Proof. (vm_compute; reflexivity). Qed.

Lemma unknown_close_blocks_forever_witness :
  ∃ c', handlePacket demo_encode demo_Unmarshal (bare_packet PACKET_CLOSE_CONNECTION 7) demo_ctx0 = Done (tt, c') ∧
    (∀ p, takes_lock demo_Unmarshal p → handlePacket demo_encode demo_Unmarshal p c' = Blocked "connMapMu") ∧
    (∀ proto ca cp oa op cb,
      newConnection demo_encode demo_Marshal proto ca cp oa op cb c' = Blocked "connMapMu").
Proof.
  apply unknown_close_blocks_forever; [(vm_compute; reflexivity) | (vm_compute; reflexivity) | intros x; (vm_compute; reflexivity)].
Defined.

(** The server has connection 1, the agent opens the last identifier, and the
    counter wraps: the server's next connection gets 0, the one after it 1. *)
Definition demo_wrapped : ForwardCtx :=
  demo_run [OpNewConnection "tcp" "a" 1 "b" 2 false;
            OpPacket (bare_packet PACKET_NEW_CONNECTION (2 ^ 64 - 1));
            OpNewConnection "tcp" "a" 1 "b" 2 false].

Lemma identifier_collision_blocks_forever_witness :
  ∃ e c', newConnection demo_encode demo_Marshal "tcp" "a" 1 "b" 2 false demo_wrapped = Done ((None, Some e), c') ∧
    (∀ p, takes_lock demo_Unmarshal p → handlePacket demo_encode demo_Unmarshal p c' = Blocked "connMapMu").
Proof.
  eapply identifier_collision_blocks_forever;
    [(vm_compute; reflexivity) | (vm_compute; reflexivity) | intros y; (vm_compute; reflexivity)].
Defined.

Lemma agent_data_roundtrip_witness :
  ∃ a' b',
    write_all demo_encode [(1, [x41; x42]); (1, [x43])] (demo_run demo_started) = Done (tt, a') ∧
    range (drop (length (sent (demo_run demo_started))) (sent a'))
      (handlePacket demo_encode demo_Unmarshal) (demo_run demo_started) = Done (tt, b') ∧
    ∀ i conn, connMap (demo_run demo_started) !! i = Some conn → deliverable conn = true →
      ∃ conn', connMap b' !! i = Some conn' ∧
        inbox conn' = inbox conn ++ chunks_for i [(1, [x41; x42]); (1, [x43])].
Proof.
  apply (agent_data_roundtrip demo_encode demo_Marshal demo_Unmarshal 0).
  - exact demo_started_reachable.
  - (vm_compute; reflexivity).
  - (vm_compute; reflexivity).
  - intros x Hx. repeat (apply elem_of_cons in Hx as [->|Hx]; [by eexists|]). by apply elem_of_nil in Hx.
Defined.

Lemma agent_calls_return_witness : ∃ c', demo_exec (OpWrite 1 [x41]) (demo_run demo_started) = Done (tt, c').
Proof.
  apply (agent_calls_return demo_encode demo_Marshal demo_Unmarshal 0).
  - exact demo_started_reachable.
  - (vm_compute; reflexivity).
  - eexists. split; [(vm_compute; reflexivity)|]. discriminate.
Defined.

Lemma receive_loop_drains_witness :
  ∃ c', handleBackend demo_encode demo_Unmarshal
      (NewForwardCtx [bare_packet PACKET_NEW_CONNECTION 1; bare_packet PACKET_DATA 1]) = Done (true, c') ∧
    incoming c' = [] ∧ connMapMu c' = false.
Proof.
  apply (receive_loop_drains demo_encode demo_Marshal demo_Unmarshal 0); [constructor | (vm_compute; reflexivity) |].
  repeat constructor; unfold is_u64; cbn; (lia || discriminate).
Defined.
