(* ===== verification/AgentForward.v ===== *)
(** * Connection forwarding through the agent

    [internal/agentforward/agentForwardImpl.go]: one forwarding context per
    reverse forward, one for X11 and one for direct connections of an SSH
    connection, each a context of [AgentProtocol]. *)

From stdpp Require Import base gmap strings list pretty.
From Stdlib Require Import Strings.Byte.
From S2P Require Import Prelude Messages AgentProtocol.

Local Open Scope Z_scope.

Record agentForward := MkAgentForward {
  reverseForwards : gmap string ForwardCtx;
  nX11Channels : Z;
  x11Forward : option ForwardCtx;
  directForward : option ForwardCtx;
}.

Definition set_reverse (m : gmap string ForwardCtx) (f : agentForward) : agentForward :=
  MkAgentForward m (nX11Channels f) (x11Forward f) (directForward f).
Definition set_nX11 (n : Z) (f : agentForward) : agentForward :=
  MkAgentForward (reverseForwards f) n (x11Forward f) (directForward f).
Definition set_x11 (c : ForwardCtx) (f : agentForward) : agentForward :=
  MkAgentForward (reverseForwards f) (nX11Channels f) (Some c) (directForward f).
Definition set_direct (c : ForwardCtx) (f : agentForward) : agentForward :=
  MkAgentForward (reverseForwards f) (nX11Channels f) (x11Forward f) (Some c).

Definition NewAgentForward : agentForward := MkAgentForward ∅ 0 None None.

(** What [setupAgentCallback] returns: the stream of packets the started agent
    will send, or an error. *)
Abbreviation agent_setup := (list Packet * option error)%type.

Section forward.
Context (encode_error : list Packet → Packet → option error).
Context (Marshal_setup : SetupPacket → list byte * option error).
Context (Marshal_new : NewConnectionPayload → list byte * option error).

Abbreviation fcall A := (prog agentForward A).

(** A method call on the context a field points to. *)
Definition on_ctx {A} (c : option ForwardCtx) (set : ForwardCtx → agentForward → agentForward)
    (p : prog ForwardCtx A) : fcall A :=
  λ f,
    match c with
    | None => Panic "runtime error: invalid memory address or nil pointer dereference"
    | Some c =>
        match p c with
        | Done (a, c') => Done (a, set c' f)
        | Panic s => Panic s
        | Blocked s => Blocked s
        end
    end.

Definition on_x11 {A} (p : prog ForwardCtx A) : fcall A :=
  let* f := get in on_ctx (x11Forward f) set_x11 p.
Definition on_direct {A} (p : prog ForwardCtx A) : fcall A :=
  let* f := get in on_ctx (directForward f) set_direct p.
Definition on_reverse {A} (key : string) (p : prog ForwardCtx A) : fcall A :=
  let* f := get in
  on_ctx (reverseForwards f !! key) (λ c f, set_reverse (<[key := c]> (reverseForwards f)) f) p.

Definition HasDirectAgent : fcall bool := let* f := get in prog_ret (bool_decide (is_Some (directForward f))).
Definition HasX11 : fcall bool := let* f := get in prog_ret (bool_decide (is_Some (x11Forward f))).

Definition mangleForwardAddr (proto addr : string) (port : Z) : fcall string :=
  if decide (proto = "tcp") then prog_ret (Sprintf "tcp-%s:%d" [VString addr; VInt port])
  else if decide (proto = "unix") then prog_ret (Sprintf "unix-%s" [VString addr])
  else panic (Sprintf "Requested to mangle unknown protocol %s" [VString proto]).

(** ** Serving the agent's connections

    One round of each serving goroutine for the connection [i] received from
    the channel; the answer is whether the goroutine goes on.  [open] is the
    call of the reverse handler that opens the channel to the SSH client. *)

Definition serve_accept (on : ∀ A, prog ForwardCtx A → fcall A) (i : Z)
    (open : NewConnectionPayload → option error) : fcall bool :=
  let* conn := on _ (deref i) in
  match open (details conn) with
  | Some _ => prog_ret false
  | None =>
      let* err := on _ (Connection_Accept encode_error i) in
      match err with Some _ => prog_ret false | None => prog_ret true end
  end.

Definition serveX11_round (NewChannelX11 : string → Z → option error) (i : Z) : fcall bool :=
  let* f := get in
  if decide (nX11Channels f = 0) then
    let* _ := on_x11 (Connection_Reject encode_error i) in prog_ret true
  else serve_accept (@on_x11) i (λ d, NewChannelX11 (OriginatorAddress d) (OriginatorPort d)).

Definition serveReverseForward_round (key : string) (NewChannelTCP : string → Z → string → Z → option error)
    (i : Z) : fcall bool :=
  serve_accept (λ A, on_reverse key) i
    (λ d, NewChannelTCP (ConnectedAddress d) (ConnectedPort d) (OriginatorAddress d) (OriginatorPort d)).

Definition serveReverseForwardUnix_round (key : string) (NewChannelUnix : string → option error)
    (i : Z) : fcall bool :=
  serve_accept (λ A, on_reverse key) i (λ d, NewChannelUnix (ConnectedAddress d)).

(** Connections the agent opens on the direct context are refused. *)
Definition serveDirect_round (i : Z) : fcall bool :=
  let* _ := on_direct (Connection_Reject encode_error i) in prog_ret true.

(** ** Setting up forwards *)

Definition setupX11 (setupAgent : agent_setup) (singleConnection : bool) (proto cookie : string) (screen : Z)
  : fcall (option error) :=
  let* f := get in
  match x11Forward f with
  | Some _ => prog_ret (Some (ErrorString "X11 forwarding already setup"))
  | None =>
      let '(fromAgent, err) := setupAgent in
      match err with
      | Some _ => prog_ret err
      | None =>
          do* modify (set_x11 (NewForwardCtx fromAgent)) in
          let screenstr := Sprintf "%d" [VInt screen] in
          let* '(_, err) :=
            on_x11 (StartX11ForwardClient encode_error Marshal_setup singleConnection screenstr proto cookie) in
          prog_ret err
      end
  end.

Definition NewX11Forwarding (setupAgent : agent_setup) (singleConnection : bool) (proto cookie : string)
    (screen : Z) : fcall (option error) :=
  let* f := get in
  let* err :=
    match x11Forward f with
    | None => setupX11 setupAgent singleConnection proto cookie screen
    | Some _ => prog_ret None
    end in
  match err with
  | Some _ => prog_ret err
  | None => do* modify (λ f, set_nX11 (u32 (nX11Channels f + 1)) f) in prog_ret None
  end.

Definition NewTCPReverseForwarding (setupAgent : agent_setup) (bindHost : string) (bindPort : Z)
  : fcall (option error) :=
  let* key := mangleForwardAddr "tcp" bindHost bindPort in
  let* f := get in
  match reverseForwards f !! key with
  | Some _ => prog_ret (Some (ErrorString "Forwarding already started for this host/port combo"))
  | None =>
      let '(fromAgent, err) := setupAgent in
      match err with
      | Some _ => prog_ret err
      | None =>
          do* modify (λ f, set_reverse (<[key := NewForwardCtx fromAgent]> (reverseForwards f)) f) in
          let* '(_, err) :=
            on_reverse key (StartReverseForwardClient encode_error Marshal_setup bindHost bindPort false) in
          prog_ret err
      end
  end.

Definition NewUnixReverseForwarding (setupAgent : agent_setup) (path : string) : fcall (option error) :=
  let* key := mangleForwardAddr "unix" path 0 in
  let* f := get in
  match reverseForwards f !! key with
  | Some _ => prog_ret (Some (ErrorString "Forwarding already started for this socket"))
  | None =>
      let '(fromAgent, err) := setupAgent in
      match err with
      | Some _ => prog_ret err
      | None =>
          do* modify (λ f, set_reverse (<[key := NewForwardCtx fromAgent]> (reverseForwards f)) f) in
          let* '(_, err) :=
            on_reverse key (StartReverseForwardClientUnix encode_error Marshal_setup path false) in
          prog_ret err
      end
  end.

(** ** Cancelling forwards *)

Definition CancelTCPForwarding (bindHost : string) (bindPort : Z) : fcall (option error) :=
  let* key := mangleForwardAddr "tcp" bindHost bindPort in
  let* f := get in
  match reverseForwards f !! key with
  | None => prog_ret (Some (ErrorString "Forwarding not found"))
  | Some _ =>
      let* err := on_reverse key (NoMoreConnections encode_error) in
      match err with
      | Some _ => prog_ret err
      | None => do* modify (λ f, set_reverse (delete key (reverseForwards f)) f) in prog_ret None
      end
  end.

Definition CancelStreamLocalForwarding (path : string) : fcall (option error) :=
  let* key := mangleForwardAddr "unix" path 0 in
  let* f := get in
  match reverseForwards f !! key with
  | None => prog_ret (Some (ErrorString "Forwarding not found"))
  | Some _ =>
      let* err := on_reverse key (NoMoreConnections encode_error) in
      match err with
      | Some _ => prog_ret err
      | None => do* modify (λ f, set_reverse (delete key (reverseForwards f)) f) in prog_ret None
      end
  end.

Definition CloseX11Forwarding : fcall (option error) :=
  let* f := get in
  match x11Forward f with
  | None => prog_ret (Some (ErrorString "X11 forwarding not setup, please call NewX11Forwarding at least once"))
  | Some _ =>
      if decide (nX11Channels f = 0)
      then prog_ret (Some (ErrorString "Tried to close X11 session when there are already 0 X11 channels"))
      else do* put (set_nX11 (u32 (nX11Channels f - 1)) f) in prog_ret None
  end.

(** ** Direct forwards *)

Definition setupDirectForward (setupAgent : agent_setup) : fcall (option error) :=
  let* f := get in
  match directForward f with
  | Some _ => prog_ret (Some (ErrorString "Direct forwarding has already been setup for this connection"))
  | None =>
      let '(fromAgent, err) := setupAgent in
      match err with
      | Some _ => prog_ret err
      | None =>
          do* modify (set_direct (NewForwardCtx fromAgent)) in
          let* '(_, err) := on_direct (StartServerForward encode_error Marshal_setup) in
          prog_ret err
      end
  end.

Definition ensure_direct (setupAgent : agent_setup) : fcall (option error) :=
  let* f := get in
  match directForward f with
  | None => setupDirectForward setupAgent
  | Some _ => prog_ret None
  end.

Definition NewForwardTCP (setupAgent : agent_setup) (hostToConnect : string) (portToConnect : Z)
    (originatorHost : string) (originatorPort : Z) : fcall (option Z * option error) :=
  let* err := ensure_direct setupAgent in
  match err with
  | Some _ => prog_ret (None, err)
  | None => on_direct (NewConnectionTCP encode_error Marshal_new hostToConnect portToConnect
                         originatorHost originatorPort false)
  end.

Definition NewForwardUnix (setupAgent : agent_setup) (path : string) : fcall (option Z * option error) :=
  let* err := ensure_direct setupAgent in
  match err with
  | Some _ => prog_ret (None, err)
  | None => on_direct (NewConnectionUnix encode_error Marshal_new path false)
  end.

(** ** Shutdown *)

Definition agentForward_OnShutdown : fcall unit :=
  let* f := get in
  do* (match directForward f with
       | None => prog_ret tt
       | Some _ =>
           let* _ := on_direct (NoMoreConnections encode_error) in
           on_direct (Kill encode_error)
       end) in
  let* f := get in
  do* (match x11Forward f with
       | None => prog_ret tt
       | Some _ =>
           let* _ := on_direct (NoMoreConnections encode_error) in
           on_x11 (Kill encode_error)
       end) in
  let* f := get in
  range (map_to_list (reverseForwards f)).*1
    (λ key,
       let* _ := on_reverse key (NoMoreConnections encode_error) in
       on_reverse key (Kill encode_error)).

End forward.

(** Whether a call will have to start the agent. *)
Definition x11_needed (f : agentForward) : bool := match x11Forward f with None => true | Some _ => false end.
Definition direct_needed (f : agentForward) : bool := match directForward f with None => true | Some _ => false end.
Definition reverse_needed (key : string) (f : agentForward) : bool :=
  match reverseForwards f !! key with None => true | Some _ => false end.
