(* ===== verification/AgentForwardSpec.v ===== *)
(** * Forwards and their shutdown

    Theorems on [AgentForward]: forwards are told apart, a forward can be
    cancelled and set up again, and when the shutdown of a connection's forwards
    returns. *)

From stdpp Require Import base gmap strings list pretty.
From Stdlib Require Import Strings.Byte Ascii.
From S2P Require Import Prelude Messages AgentProtocol AgentSpec AgentForward.

Local Open Scope Z_scope.
Local Arguments String.append !_ _ /.

(** ** Keys of forwards *)

Fixpoint no_colon (s : string) : Prop :=
  match s with
  | EmptyString => True
  | String c s' => c ≠ ":"%char ∧ no_colon s'
  end.

Lemma no_colon_app a b : ¬ no_colon (a ++ String ":" b).
Proof. induction a as [|c a IH]; cbn; naive_solver. Qed.

Lemma pretty_N_no_colon n s : no_colon s → no_colon (pretty_N_go n s).
Proof.
  revert s. induction (N.lt_wf_0 n) as [n _ IH]; intros s Hs.
  assert (n = 0 ∨ 0 < n)%N as [->|?] by lia; [by rewrite pretty_N_go_0|].
  rewrite pretty_N_go_step by done. apply IH; [by apply N.div_lt|].
  cbn. split; [|done]. unfold pretty_N_char. by repeat case_match.
Qed.

Lemma pretty_Z_no_colon (z : Z) : no_colon (pretty z).
Proof.
  assert (∀ n : N, no_colon (pretty n)) as H.
  { intros n. unfold pretty, pretty_N. case_decide; [by vm_compute|]. by apply pretty_N_no_colon. }
  destruct z as [|p|p]; [apply (H 0%N) | apply (H (N.pos p)) |].
  change (pretty (Z.neg p)) with (String "-" (pretty (N.pos p))). cbn. split; [done | apply H].
Qed.

Lemma split_last_colon a b p q :
  no_colon p → no_colon q → (a ++ String ":" p)%string = (b ++ String ":" q)%string → a = b ∧ p = q.
Proof.
  revert b. induction a as [|c a IH]; intros [|d b] Hp Hq; cbn; intros E.
  - by injection E as <-.
  - injection E as <- ->. by destruct (no_colon_app b q).
  - injection E as -> <-. by destruct (no_colon_app a p).
  - injection E as <- E. destruct (IH b Hp Hq E) as [-> ->]. done.
Qed.

(** What a forward listens on. *)
Inductive forward_addr :=
| ForwardTCP (bindHost : string) (bindPort : Z)
| ForwardUnix (path : string).

Definition forward_key (a : forward_addr) : string :=
  match a with
  | ForwardTCP host port => Sprintf "tcp-%s:%d" [VString host; VInt port]
  | ForwardUnix path => Sprintf "unix-%s" [VString path]
  end.

Lemma forward_key_tcp host port : forward_key (ForwardTCP host port) = ("tcp-" ++ host ++ ":" ++ pretty port)%string.
Proof. rewrite <- (string_app_nil (pretty port)). reflexivity. Qed.

Lemma forward_key_unix path : forward_key (ForwardUnix path) = ("unix-" ++ path)%string.
Proof. rewrite <- (string_app_nil path) at 2. reflexivity. Qed.

Lemma forward_key_inj a b : forward_key a = forward_key b → a = b.
Proof.
  destruct a as [h p|p], b as [h' p'|p']; rewrite ?forward_key_tcp, ?forward_key_unix; cbn; try discriminate.
  - intros [= E]. apply split_last_colon in E as [-> E%(inj pretty)]; [by subst| apply pretty_Z_no_colon..].
  - by intros [= ->].
Qed.

(** ** Setting up and cancelling *)

Section table.
Context (encode_error : list Packet → Packet → option error).
Context (Marshal_setup : SetupPacket → list byte * option error).

Definition new_forward (a : forward_addr) (setup : agent_setup) : prog agentForward (option error) :=
  match a with
  | ForwardTCP host port => NewTCPReverseForwarding encode_error Marshal_setup setup host port
  | ForwardUnix path => NewUnixReverseForwarding encode_error Marshal_setup setup path
  end.

Definition cancel_forward (a : forward_addr) : prog agentForward (option error) :=
  match a with
  | ForwardTCP host port => CancelTCPForwarding encode_error host port
  | ForwardUnix path => CancelStreamLocalForwarding encode_error path
  end.

Definition forward_setup_packet (a : forward_addr) : SetupPacket :=
  match a with
  | ForwardTCP host port => MkSetupPacket CONNECTION_TYPE_PORT_FORWARD host port "tcp" "" false "" ""
  | ForwardUnix path => MkSetupPacket CONNECTION_TYPE_PORT_FORWARD path 0 "unix" "" false "" ""
  end.

(** Both kinds of forward follow one scheme. *)
Lemma new_forward_call a setup f :
  ∃ already, new_forward a setup f =
  (match reverseForwards f !! forward_key a with
   | Some _ => prog_ret (Some already)
   | None =>
       match setup.2 with
       | Some _ => prog_ret setup.2
       | None =>
           do* modify (λ f, set_reverse (<[forward_key a := NewForwardCtx setup.1]> (reverseForwards f)) f) in
           let* '(_, err) := on_reverse (forward_key a)
             (startReverseForwardingClient encode_error Marshal_setup (forward_setup_packet a)) in
           prog_ret err
       end
   end) f.
Proof. destruct a, setup as [inp [e|]]; eexists; reflexivity. Qed.

Lemma cancel_forward_call a f :
  cancel_forward a f =
  (match reverseForwards f !! forward_key a with
   | None => prog_ret (Some (ErrorString "Forwarding not found"))
   | Some _ =>
       let* err := on_reverse (forward_key a) (NoMoreConnections encode_error) in
       match err with
       | Some _ => prog_ret err
       | None => do* modify (λ f, set_reverse (delete (forward_key a) (reverseForwards f)) f) in prog_ret None
       end
   end) f.
Proof. by destruct a. Qed.

Lemma no_conn_packets l i : Forall (λ p, conn_packet p = false) l → conn_packets i l = [].
Proof.
  induction 1 as [|p l Hp _ IH]; [done|]. unfold conn_packets.
  rewrite filter_cons_False; [done|]. rewrite Hp. naive_solver.
Qed.

(** The handshake returns and leaves a context with the invariant. *)
Lemma start_returns sp input :
  ∃ b err c, startReverseForwardingClient encode_error Marshal_setup sp (NewForwardCtx input) = Done ((b, err), c)
    ∧ stopped c = false ∧ closed_ c = false ∧ ctx_wf 0 c.
Proof.
  assert (∀ l l', Forall (λ p, conn_packet p = false) l →
    ctx_wf 0 (set_incoming l' (set_sent l (NewForwardCtx input)))) as Hwf.
  { intros l l' Hl. destruct (init_wf input) as [H1 H2 H3 H4 H5]. split; try done.
    intros i. by apply no_conn_packets. }
  unfold startReverseForwardingClient. destruct (Marshal_setup sp) as [mar [e|]].
  { eexists _, _, _. split_and!; [reflexivity|done..|apply init_wf]. }
  unfold writePacket, Decode. run_prog. cbn.
  destruct (encode_error [] _).
  { eexists _, _, _. split_and!; [reflexivity|done..|apply init_wf]. }
  destruct input as [|p input]; cbn.
  - eexists _, _, _. split_and!; [reflexivity|done..|]. apply (Hwf [MkPacket PACKET_SETUP 0 mar] []). by repeat constructor.
  - repeat case_decide; (eexists _, _, _; split_and!; [reflexivity|done..|]);
      apply (Hwf [MkPacket PACKET_SETUP 0 mar] input); by repeat constructor.
Qed.

(** A forward that was set up is registered, a second one on the same address
    is refused until it is cancelled, and neither touches the forwards of other
    addresses; a forward whose agent handshake failed stays registered too. *)
Lemma new_forward_effect a setup f :
  reverseForwards f !! forward_key a = None → setup.2 = None →
  ∃ err c, new_forward a setup f = Done (err, set_reverse (<[forward_key a := c]> (reverseForwards f)) f)
    ∧ stopped c = false ∧ closed_ c = false ∧ ctx_wf 0 c.
Proof.
  intros Hf Hs. destruct (new_forward_call a setup f) as [x ->]. rewrite Hf, Hs.
  destruct (start_returns (forward_setup_packet a) setup.1) as (b & err & c & E & H1 & H2 & H3).
  exists err, c. split; [|done]. unfold on_reverse, on_ctx. run_prog. cbn.
  rewrite lookup_insert_eq, E. unfold set_reverse. cbn. by rewrite insert_insert_eq.
Qed.

Lemma new_forward_refused a setup f c :
  reverseForwards f !! forward_key a = Some c → ∃ e, new_forward a setup f = Done (Some e, f).
Proof. intros Hf. destruct (new_forward_call a setup f) as [x ->]. rewrite Hf. by exists x. Qed.

Lemma cancel_forward_effect a f c :
  reverseForwards f !! forward_key a = Some c → closed_ c = false → (∀ l p, encode_error l p = None) →
  cancel_forward a f = Done (None, set_reverse (delete (forward_key a) (reverseForwards f)) f).
Proof.
  intros Hf Hc He. rewrite cancel_forward_call, Hf.
  unfold on_reverse, on_ctx, NoMoreConnections, close_connectionChannel, writePacket. run_prog.
  rewrite Hf. cbn. rewrite Hc. cbn. rewrite He. cbn. unfold set_reverse. cbn. by rewrite delete_insert_eq.
Qed.

End table.

(** Setting up forwards, cancelling and setting up again: with [a] not yet
    registered and an agent that starts, setting up registers it without
    touching any other forward, doing so again is refused, cancelling removes it
    (when the packet to the agent can be written), and then it can be set up
    once more.  Distinct addresses never share an entry. *)
Theorem forward_table encode_error Marshal_setup a setup f :
  reverseForwards f !! forward_key a = None → setup.2 = None → (∀ l p, encode_error l p = None) →
  ∃ err f1,
    new_forward encode_error Marshal_setup a setup f = Done (err, f1) ∧
    (∀ b, b ≠ a → reverseForwards f1 !! forward_key b = reverseForwards f !! forward_key b) ∧
    (∃ e, new_forward encode_error Marshal_setup a setup f1 = Done (Some e, f1)) ∧
    (∃ f2, cancel_forward encode_error a f1 = Done (None, f2) ∧
       (∀ b, reverseForwards f2 !! forward_key b = reverseForwards f !! forward_key b) ∧
       ∃ err' f3, new_forward encode_error Marshal_setup a setup f2 = Done (err', f3)).
Proof.
  intros Hf Hs He.
  destruct (new_forward_effect encode_error Marshal_setup a setup f Hf Hs) as (err & c & E & _ & Hc & _).
  set (f1 := set_reverse (<[forward_key a := c]> (reverseForwards f)) f) in *.
  assert (reverseForwards f1 !! forward_key a = Some c) as Hf1 by (cbn; by rewrite lookup_insert_eq).
  exists err, f1. split; [done|]. split; [|split].
  - intros b Hb. cbn. rewrite lookup_insert_ne; [done|]. intros Hk. apply Hb. by apply forward_key_inj.
  - by eapply new_forward_refused.
  - eexists. split; [by eapply cancel_forward_effect|].
    assert (reverseForwards (set_reverse (delete (forward_key a) (reverseForwards f1)) f1) = reverseForwards f)
      as Hd by (cbn; rewrite delete_insert_id; done).
    split; [by intros b; rewrite Hd|].
    edestruct (new_forward_effect encode_error Marshal_setup a setup) as (err' & c' & E' & _);
      [by rewrite Hd | done |]. eauto.
Qed.

(** A forward whose agent handshake failed stays in the table: the failed setup
    is reported, and every later attempt on the address is refused as already
    started although nothing listens there. *)
Theorem failed_forward_stays_registered encode_error Marshal_setup a input setup f :
  reverseForwards f !! forward_key a = None →
  (∀ p, head input = Some p → Type_ p ≠ PACKET_SUCCESS) →
  ∃ e f1, new_forward encode_error Marshal_setup a (input, None) f = Done (Some e, f1) ∧
    ∃ e', new_forward encode_error Marshal_setup a setup f1 = Done (Some e', f1).
Proof.
  intros Hf Hin.
  destruct (new_forward_effect encode_error Marshal_setup a (input, None) f Hf eq_refl) as (err & c & E & _).
  assert (err ≠ None) as Hn.
  { destruct (new_forward_call encode_error Marshal_setup a (input, None) f) as [x E']. rewrite E' in E.
    rewrite Hf in E. cbn in E. revert E.
    unfold on_reverse, on_ctx, startReverseForwardingClient, writePacket, Decode. run_prog. cbn.
    rewrite lookup_insert_eq. destruct (Marshal_setup _) as [mar [e|]]; [by intros [= <- _]|]. cbn.
    destruct (encode_error [] _); [by intros [= <- _]|].
    destruct input as [|p input]; cbn; [by intros [= <- _]|].
    specialize (Hin p eq_refl). repeat case_decide; cbn; by intros [= <- _]. }
  destruct err as [e|]; [|done]. eexists e, _. split; [exact E|].
  apply (new_forward_refused _ _ a setup _ c). cbn. by rewrite lookup_insert_eq.
Qed.

(** ** Shutdown *)

Lemma step_keeps_closed b c c' : proto_step b c c' → closed_ c = true → closed_ c' = true.
Proof. by destruct 1. Qed.

Lemma run_keeps_closed n c c' : proto_run n c c' → closed_ c = true → closed_ c' = true.
Proof. induction 1; eauto using step_keeps_closed. Qed.

Section shutdown_panics.
Context (encode_error : list Packet → Packet → option error).

Lemma NoMore_closed c : closed_ c = true → NoMoreConnections encode_error c = Panic "close of closed channel".
Proof. intros Hc. unfold NoMoreConnections, close_connectionChannel. run_prog. cbn. by rewrite Hc. Qed.

Lemma NoMore_closes c a c' : NoMoreConnections encode_error c = Done (a, c') → closed_ c' = true.
Proof.
  unfold NoMoreConnections, close_connectionChannel, writePacket. run_prog. cbn.
  destruct (closed_ c); [done|]. cbn. destruct (encode_error _ _); by intros [= <- <-].
Qed.

Lemma Kill_refines n : refines n (Kill encode_error).
Proof.
  intros c. apply refines_bind0; [apply Kill_start_refines|]. intros _ c1 _.
  apply refines_bind0; [apply timer_refines|]. intros _ c2 _.
  apply refines_get. case_decide; [apply refines_ret | apply refines_block].
Qed.

Lemma Kill_keeps_closed c a c' : Kill encode_error c = Done (a, c') → closed_ c = true → closed_ c' = true.
Proof. intros E. destruct (Kill_refines 0 c a c' E) as (k & _ & R). by eapply run_keeps_closed. Qed.

(** A loop over keys does not return if one of its rounds cannot. *)
Lemma range_stuck {W A} (P : W → Prop) (l : list A) (g : A → prog W unit) x w :
  x ∈ l → P w → (∀ w, P w → ∀ w', g x w ≠ Done (tt, w')) →
  (∀ y w w', y ≠ x → P w → g y w = Done (tt, w') → P w') → (∀ y, y = x ∨ y ≠ x) →
  ∀ w', range l g w ≠ Done (tt, w').
Proof.
  intros Hx HP Hg Hpres Hdec. revert w HP. induction l as [|y l IH]; [by apply elem_of_nil in Hx|].
  intros w HP w'. cbn. unfold prog_bind. destruct (g y w) as [[[] w1]| |] eqn:E; [|done|done].
  destruct (Hdec y) as [->|Hne]; [by destruct (Hg w HP w1)|].
  apply elem_of_cons in Hx as [->|Hx]; [done|]. eapply IH; [done|]. by eapply Hpres.
Qed.

Lemma on_direct_done {A} (p : prog ForwardCtx A) f a f' :
  on_direct p f = Done (a, f') →
  ∃ c c', directForward f = Some c ∧ p c = Done (a, c') ∧ f' = set_direct c' f.
Proof.
  unfold on_direct, on_ctx. run_prog. destruct (directForward f) as [c|]; [|done].
  destruct (p c) as [[b c']| |] eqn:E; [|done|done]. intros [= <- <-]. eauto.
Qed.

Lemma on_reverse_done {A} key (p : prog ForwardCtx A) f a f' :
  on_reverse key p f = Done (a, f') →
  ∃ c c', reverseForwards f !! key = Some c ∧ p c = Done (a, c') ∧
    f' = set_reverse (<[key := c']> (reverseForwards f)) f.
Proof.
  unfold on_reverse, on_ctx. run_prog. destruct (reverseForwards f !! key) as [c|]; [|done].
  destruct (p c) as [[b c']| |] eqn:E; [|done|done]. intros [= <- <-]. eauto.
Qed.

Lemma on_x11_done {A} (p : prog ForwardCtx A) f a f' :
  on_x11 p f = Done (a, f') → ∃ c', f' = set_x11 c' f.
Proof.
  unfold on_x11, on_ctx. run_prog. destruct (x11Forward f) as [c|]; [|done].
  destruct (p c) as [[b c']| |] eqn:E; [|done|done]. intros [= <- <-]. eauto.
Qed.

(** The direct part of the shutdown leaves a closed context behind and the
    other forwards alone. *)
Lemma shutdown_direct f f' :
  (match directForward f with
   | None => prog_ret tt
   | Some _ => let* _ := on_direct (NoMoreConnections encode_error) in on_direct (Kill encode_error)
   end) f = Done (tt, f') →
  reverseForwards f' = reverseForwards f ∧ x11Forward f' = x11Forward f ∧
  (∀ c, directForward f' = Some c → closed_ c = true) ∧
  (∀ c, directForward f = Some c → closed_ c = false).
Proof.
  destruct (directForward f) as [c|] eqn:Ed; [|by intros [= <-]; rewrite Ed].
  unfold prog_bind. destruct (on_direct (NoMoreConnections encode_error) f) as [[a f1]| |] eqn:E1; [|done|done].
  apply on_direct_done in E1 as (c0 & c1 & E0 & E1 & ->). intros E2.
  apply on_direct_done in E2 as (c1' & c2 & [= <-] & E2 & ->). cbn. split_and!; try done.
  - intros ? [= <-]. eapply Kill_keeps_closed; [done|]. by eapply NoMore_closes.
  - intros ? [= <-]. assert (c0 = c) as -> by congruence.
    destruct (closed_ c) eqn:Hc; [|done]. by rewrite NoMore_closed in E1.
Qed.

Lemma shutdown_needs f f' :
  agentForward_OnShutdown encode_error f = Done (tt, f') →
  x11Forward f = None ∧ (∀ c, directForward f = Some c → closed_ c = false) ∧
  (∀ key c, reverseForwards f !! key = Some c → closed_ c = false).
Proof.
  unfold agentForward_OnShutdown, prog_bind at 1 2, get at 1.
  match goal with |- match ?p f with _ => _ end = _ → _ => destruct (p f) as [[[] f1]| |] eqn:E1 end;
    [|done|done].
  apply shutdown_direct in E1 as (Hr & Hx & Hd & Hd0). unfold prog_bind at 1, get at 1.
  destruct (x11Forward f1) as [c|] eqn:Ex.
  - (* NoMoreConnections is called on the direct context again *)
    unfold prog_bind.
    destruct (on_direct (NoMoreConnections encode_error) f1) as [[a f2]| |] eqn:E2; [|done|done].
    apply on_direct_done in E2 as (c0 & c1 & E0 & E2 & ->). by rewrite NoMore_closed in E2 by auto.
  - unfold prog_bind, prog_ret, get. intros E. split; [congruence|]. split; [done|].
    intros key c Hk. rewrite <- Hr in Hk. destruct (closed_ c) eqn:Hc; [|done]. exfalso. revert E.
    eapply (range_stuck (λ f, ∃ c, reverseForwards f !! key = Some c ∧ closed_ c = true)); [| |..].
    + apply list_elem_of_fmap. exists (key, c). split; [done|]. by apply elem_of_map_to_list.
    + eauto.
    + intros w (c1 & Hk1 & Hc1) w'. cbn [fst].
      destruct (on_reverse key (NoMoreConnections encode_error) w) as [[a f2]| |] eqn:E2; [|done|done].
      apply on_reverse_done in E2 as (c2 & c3 & H2 & E2 & _). simplify_eq.
      by rewrite NoMore_closed in E2.
    + intros y w w' Hy (c1 & Hk1 & Hc1). cbn [fst].
      destruct (on_reverse y (NoMoreConnections encode_error) w) as [[a f2]| |] eqn:E2; [|done|done].
      intros E. apply on_reverse_done in E2 as (?&?&_&_&->), E as (?&?&_&_&->). exists c1.
      cbn. by rewrite !lookup_insert_ne.
    + intros y. destruct (decide (y = key)); auto.
Qed.

End shutdown_panics.

(** Shutting down the forwards of a connection never returns once X11 forwarding
    was set up (the direct context is told twice that no more connections will
    come, or dereferenced while nil), nor when any context has already been
    told so, for instance by the agent: the call panics. *)
Theorem shutdown_never_returns encode_error f f' :
  is_Some (x11Forward f) ∨
  (∃ c, directForward f = Some c ∧ closed_ c = true) ∨
  (∃ key c, reverseForwards f !! key = Some c ∧ closed_ c = true) →
  agentForward_OnShutdown encode_error f ≠ Done (tt, f').
Proof.
  intros H E. apply shutdown_needs in E as (Hx & Hd & Hr).
  destruct H as [[c H]|[(c & H & Hc)|(k & c & H & Hc)]].
  - congruence.
  - by rewrite (Hd c H) in Hc.
  - by rewrite (Hr k c H) in Hc.
Qed.

Section shutdown_returns.
Context (encode_error : list Packet → Packet → option error).

Definition all_closed (c : ForwardCtx) : Prop :=
  ∀ i x, connMap c !! i = Some x → state x = CONNECTION_STATE_CLOSED.

(** A context none of whose connections was rejected and that still accepts
    connections. *)
Definition can_stop (c : ForwardCtx) : Prop := ctx_wf 0 c ∧ closed_ c = false.

Lemma stop_and_kill c :
  can_stop c →
  ∃ a c1 c2, NoMoreConnections encode_error c = Done (a, c1) ∧ Kill encode_error c1 = Done (tt, c2) ∧ all_closed c2.
Proof.
  intros [Hwf Hc]. destruct (NoMore_returns encode_error c Hc) as (a & c1 & E1).
  destruct (NoMoreConnections_refines encode_error 0 c a c1 E1) as (k & Hk & R).
  assert (k = 0)%nat as -> by lia. pose proof (run_wf 0 0 c c1 R Hwf) as Hwf1.
  destruct (Kill_start_returns encode_error 0 c1 Hwf1) as (c2 & E2 & H2).
  destruct (timer_closes_all 0 c2 H2) as (c3 & E3 & _ & Hw & Hall).
  exists a, c1, c3. split_and!; [done| |done].
  unfold Kill, Kill_finish, WaitFinish. run_prog. rewrite E2, E3, Hw. done.
Qed.

Lemma shutdown_reverse_round key f c :
  reverseForwards f !! key = Some c → can_stop c →
  ∃ c', (let* _ := on_reverse key (NoMoreConnections encode_error) in on_reverse key (Kill encode_error)) f
     = Done (tt, set_reverse (<[key := c']> (reverseForwards f)) f) ∧ all_closed c'.
Proof.
  intros Hk (a & c1 & c2 & E1 & E2 & Hall)%stop_and_kill. exists c2. split; [|done].
  unfold on_reverse, on_ctx. run_prog. rewrite Hk, E1. cbn. rewrite lookup_insert_eq, E2.
  unfold set_reverse. cbn. by rewrite insert_insert_eq.
Qed.

Lemma shutdown_reverse_loop keys f :
  NoDup keys →
  (∀ key, key ∈ keys → ∃ c, reverseForwards f !! key = Some c ∧ can_stop c) →
  ∃ f', range keys (λ key, let* _ := on_reverse key (NoMoreConnections encode_error) in
                           on_reverse key (Kill encode_error)) f = Done (tt, f') ∧
    directForward f' = directForward f ∧
    (∀ key, key ∉ keys → reverseForwards f' !! key = reverseForwards f !! key) ∧
    (∀ key, key ∈ keys → ∃ c, reverseForwards f' !! key = Some c ∧ all_closed c).
Proof.
  intros Hnd. revert f. induction Hnd as [|key keys Hnin Hnd IH]; intros f Hf.
  - exists f. split_and!; try done. by intros key ?%elem_of_nil.
  - destruct (Hf key) as (c & Hk & Hc); [left|].
    destruct (shutdown_reverse_round key f c Hk Hc) as (c' & E & Hall). cbn [range].
    unfold prog_bind at 1. rewrite E.
    destruct (IH (set_reverse (<[key := c']> (reverseForwards f)) f)) as (f' & E' & Hd & Hout & Hin).
    { intros k Hk'. cbn. rewrite lookup_insert_ne by (by intros ->). apply Hf. by right. }
    exists f'. split_and!; [done|done| |].
    + intros k Hk'. apply not_elem_of_cons in Hk' as [? ?]. rewrite Hout by done. cbn.
      by rewrite lookup_insert_ne.
    + intros k [->|Hk']%elem_of_cons; [|by apply Hin].
      exists c'. rewrite Hout by done. cbn. by rewrite lookup_insert_eq.
Qed.

End shutdown_returns.

(** Without X11 forwarding, when no context has been stopped and none had a
    connection rejected, the shutdown returns and every connection of every
    forward is closed, whatever the agents answer. *)
Theorem shutdown_returns encode_error f :
  x11Forward f = None →
  (∀ c, directForward f = Some c → can_stop c) →
  (∀ key c, reverseForwards f !! key = Some c → can_stop c) →
  ∃ f', agentForward_OnShutdown encode_error f = Done (tt, f') ∧
    (∀ c, directForward f' = Some c → all_closed c) ∧
    (∀ key, is_Some (reverseForwards f !! key) → ∃ c, reverseForwards f' !! key = Some c ∧ all_closed c).
Proof.
  intros Hx Hd Hr.
  assert (∃ f1, (match directForward f with
     | None => prog_ret tt
     | Some _ => let* _ := on_direct (NoMoreConnections encode_error) in on_direct (Kill encode_error)
     end) f = Done (tt, f1) ∧ x11Forward f1 = None ∧ reverseForwards f1 = reverseForwards f ∧
     ∀ c, directForward f1 = Some c → all_closed c) as (f1 & E1 & Hx1 & Hr1 & Hd1).
  { destruct (directForward f) as [c|] eqn:Ed.
    - destruct (stop_and_kill encode_error c (Hd c eq_refl)) as (a & c1 & c2 & E1 & E2 & Hall).
      exists (set_direct c2 f). unfold on_direct, on_ctx. run_prog. rewrite Ed, E1. cbn. rewrite E2.
      split_and!; try done. by intros ? [= <-].
    - exists f. by rewrite Ed. }
  destruct (shutdown_reverse_loop encode_error (map_to_list (reverseForwards f1)).*1 f1)
    as (f2 & E2 & Hd2 & _ & Hin).
  { apply NoDup_fst_map_to_list. }
  { intros key ([k c] & -> & Hk%elem_of_map_to_list)%list_elem_of_fmap. exists c. split; [done|].
    rewrite Hr1 in Hk. by eapply Hr. }
  exists f2. split_and!.
  - unfold agentForward_OnShutdown, prog_bind at 1 2, get at 1. rewrite E1.
    unfold prog_bind at 1 2, get at 1. rewrite Hx1. unfold prog_ret, prog_bind at 1, get. exact E2.
  - by rewrite Hd2.
  - intros key [c Hk]. apply Hin, list_elem_of_fmap. exists (key, c). split; [done|].
    apply elem_of_map_to_list. by rewrite Hr1.
Qed.

(** ** A concrete connection *)

Definition demo_setup (sp : SetupPacket) : list byte * option error := ([], None).
Definition demo_agent : agent_setup := ([bare_packet PACKET_SUCCESS 0], None).
Definition demo_addr : forward_addr := ForwardTCP "localhost" 8080.

Lemma forward_table_witness :
  ∃ err f1,
    new_forward demo_encode demo_setup demo_addr demo_agent NewAgentForward = Done (err, f1) ∧
    (∀ b, b ≠ demo_addr → reverseForwards f1 !! forward_key b = reverseForwards NewAgentForward !! forward_key b) ∧
    (∃ e, new_forward demo_encode demo_setup demo_addr demo_agent f1 = Done (Some e, f1)) ∧
    (∃ f2, cancel_forward demo_encode demo_addr f1 = Done (None, f2) ∧
       (∀ b, reverseForwards f2 !! forward_key b = reverseForwards NewAgentForward !! forward_key b) ∧
       ∃ err' f3, new_forward demo_encode demo_setup demo_addr demo_agent f2 = Done (err', f3)).
Proof.
  apply forward_table; [vm_compute; reflexivity | reflexivity | intros l p; reflexivity].
Defined.

Lemma failed_forward_stays_registered_witness :
  ∃ e f1, new_forward demo_encode demo_setup demo_addr ([bare_packet PACKET_ERROR 0], None) NewAgentForward
      = Done (Some e, f1) ∧
    ∃ e', new_forward demo_encode demo_setup demo_addr demo_agent f1 = Done (Some e', f1).
Proof.
  apply failed_forward_stays_registered; [vm_compute; reflexivity|].
  intros p [= <-]. vm_compute. discriminate.
Defined.

Definition demo_x11 : agentForward :=
  match NewX11Forwarding demo_encode demo_setup demo_agent false "MIT" "cookie" 0 NewAgentForward with
  | Done (_, f) => f
  | _ => NewAgentForward
  end.

Lemma shutdown_never_returns_witness :
  is_Some (x11Forward demo_x11) ∧ agentForward_OnShutdown demo_encode demo_x11 ≠ Done (tt, demo_x11).
Proof.
  split; [by eexists|]. apply shutdown_never_returns. left. by eexists.
Defined.

Definition demo_forwarded : agentForward :=
  match new_forward demo_encode demo_setup demo_addr demo_agent NewAgentForward with
  | Done (_, f) => f
  | _ => NewAgentForward
  end.

Lemma shutdown_returns_witness :
  ∃ f', agentForward_OnShutdown demo_encode demo_forwarded = Done (tt, f') ∧
    (∀ c, directForward f' = Some c → all_closed c) ∧
    (∀ key, is_Some (reverseForwards demo_forwarded !! key) →
       ∃ c, reverseForwards f' !! key = Some c ∧ all_closed c).
Proof.
  apply shutdown_returns.
  - vm_compute. reflexivity.
  - vm_compute. discriminate.
  - intros key c.
    destruct (new_forward_effect demo_encode demo_setup demo_addr demo_agent NewAgentForward
      eq_refl eq_refl) as (err & c0 & E & _ & Hc & Hwf).
    unfold demo_forwarded. rewrite E. cbn. intros [[_ <-]|[_ H]]%lookup_insert_Some; [by split|].
    by rewrite lookup_empty in H.
Defined.
