(* ===== verification/AuditMessage.v ===== *)
(** * Audit log messages

    [auditlog/message]: the messages of the audit log, their numeric types with
    the tables of identifiers, names and payload templates, and the comparison of
    messages. *)

From stdpp Require Import base gmap strings list.
From Stdlib Require Import Strings.Byte.
From S2P Require Import Prelude.

Local Open Scope Z_scope.

(** ** Payloads *)

Record MetadataValue := MkMetadataValue { MV_Value : string; MV_Sensitive : bool }.
Record MetadataBinaryValue := MkMetadataBinaryValue { MBV_Value : list byte; MBV_Sensitive : bool }.

(** [KeyboardInteractiveQuestion] and [KeyboardInteractiveAnswer] of the audit log. *)
Record KIQuestion := MkKIQuestion { KIQ_Question : string; KIQ_Echo : bool }.
Record KIAnswer := MkKIAnswer { KIA_Question : string; KIA_Answer : string }.

#[export] Instance MetadataValue_eq_dec : EqDecision MetadataValue.
Proof. solve_decision. Defined.
#[export] Instance MetadataBinaryValue_eq_dec : EqDecision MetadataBinaryValue.
Proof. solve_decision. Defined.
#[export] Instance KIQuestion_eq_dec : EqDecision KIQuestion.
Proof. solve_decision. Defined.
#[export] Instance KIAnswer_eq_dec : EqDecision KIAnswer.
Proof. solve_decision. Defined.

(** The payload structs, one constructor each; a nil payload is [None] of
    [option Payload]. *)
Inductive Payload :=
| PayloadConnect (RemoteAddr : string) (Country : string)
| PayloadAuthPassword (Username : string) (Password : list byte)
| PayloadAuthPasswordSuccessful (Username : string) (AuthenticatedUsername : string) (Password : list byte)
    (Metadata : option (gmap string MetadataValue)) (Environment : option (gmap string MetadataValue)) (Files
    : option (gmap string MetadataBinaryValue))
| PayloadAuthPasswordBackendError (Username : string) (Password : list byte) (Reason : string)
| PayloadAuthPubKey (Username : string) (Key : string)
| PayloadAuthPubKeyBackendError (Username : string) (Key : string) (Reason : string)
| PayloadAuthKeyboardInteractiveChallenge (Username : string) (Instruction : string) (Questions : list
    KIQuestion)
| PayloadAuthKeyboardInteractiveAnswer (Username : string) (Answers : list KIAnswer)
| PayloadAuthKeyboardInteractiveFailed (Username : string)
| PayloadAuthKeyboardInteractiveBackendError (Username : string) (Reason : string)
| PayloadHandshakeFailed (Reason : string)
| PayloadHandshakeSuccessful (Username : string)
| PayloadGlobalRequestUnknown (RequestType : string)
| PayloadGlobalRequestDecodeFailed (RequestID : Z) (RequestType : string) (Payload : list byte) (Reason :
    string)
| PayloadNewChannel (ChannelType : string)
| PayloadNewChannelFailed (ChannelType : string) (Reason : string)
| PayloadNewChannelSuccessful (ChannelType : string)
| PayloadRequestReverseForward (BindHost : string) (BindPort : Z)
| PayloadNewForwardChannel (HostToConnect : string) (PortToConnect : Z) (OriginatorHost : string)
    (OriginatorPort : Z)
| PayloadNewReverseForwardChannel (ConnectedHost : string) (ConnectedPort : Z) (OriginatorHost : string)
    (OriginatorPort : Z)
| PayloadNewReverseX11ForwardChannel (OriginatorHost : string) (OriginatorPort : Z)
| PayloadRequestStreamLocal (Path : string)
| PayloadChannelRequestUnknownType (RequestID : Z) (RequestType : string) (Payload : list byte)
| PayloadChannelRequestDecodeFailed (RequestID : Z) (RequestType : string) (Payload : list byte) (Reason :
    string)
| PayloadChannelRequestSetEnv (RequestID : Z) (Name : string) (Value : string)
| PayloadChannelRequestExec (RequestID : Z) (Program : string)
| PayloadChannelRequestPty (RequestID : Z) (Term : string) (Columns : Z) (Rows : Z) (Width : Z) (Height : Z)
    (ModeList : list byte)
| PayloadChannelRequestX11 (RequestID : Z) (SingleConnection : bool) (AuthProtocol : string) (Cookie : string)
    (Screen : Z)
| PayloadChannelRequestShell (RequestID : Z)
| PayloadChannelRequestSignal (RequestID : Z) (Signal : string)
| PayloadChannelRequestSubsystem (RequestID : Z) (Subsystem : string)
| PayloadChannelRequestWindow (RequestID : Z) (Columns : Z) (Rows : Z) (Width : Z) (Height : Z)
| PayloadExit (ExitStatus : Z)
| PayloadExitSignal (Signal : string) (CoreDumped : bool) (ErrorMessage : string) (LanguageTag : string)
| PayloadIO (Stream : Z) (Data : list byte)
| PayloadRequestFailed (RequestID : Z) (Reason : string).

Definition StreamStdin : Z := 0.
Definition StreamStdout : Z := 1.
Definition StreamStderr : Z := 2.

(** ** Types *)

Definition TypeConnect : Z := 0.
Definition TypeDisconnect : Z := 1.
Definition TypeAuthPassword : Z := 100.
Definition TypeAuthPasswordSuccessful : Z := 101.
Definition TypeAuthPasswordFailed : Z := 102.
Definition TypeAuthPasswordBackendError : Z := 103.
Definition TypeAuthPubKey : Z := 104.
Definition TypeAuthPubKeySuccessful : Z := 105.
Definition TypeAuthPubKeyFailed : Z := 106.
Definition TypeAuthPubKeyBackendError : Z := 107.
Definition TypeAuthKeyboardInteractiveChallenge : Z := 108.
Definition TypeAuthKeyboardInteractiveAnswer : Z := 109.
Definition TypeAuthKeyboardInteractiveFailed : Z := 110.
Definition TypeAuthKeyboardInteractiveBackendError : Z := 111.
Definition TypeHandshakeFailed : Z := 198.
Definition TypeHandshakeSuccessful : Z := 199.
Definition TypeGlobalRequestUnknown : Z := 200.
Definition TypeGlobalRequestDecodeFailed : Z := 201.
Definition TypeRequestReverseForward : Z := 202.
Definition TypeRequestCancelReverseForward : Z := 203.
Definition TypeRequestStreamLocal : Z := 204.
Definition TypeRequestCancelStreamLocal : Z := 205.
Definition TypeNewChannel : Z := 300.
Definition TypeNewChannelSuccessful : Z := 301.
Definition TypeNewChannelFailed : Z := 302.
Definition TypeNewForwardChannel : Z := 303.
Definition TypeNewReverseForwardChannel : Z := 304.
Definition TypeNewReverseX11ForwardChannel : Z := 305.
Definition TypeNewForwardStreamLocalChannel : Z := 306.
Definition TypeNewReverseStreamLocalChannel : Z := 307.
Definition TypeChannelRequestUnknownType : Z := 400.
Definition TypeChannelRequestDecodeFailed : Z := 401.
Definition TypeChannelRequestSetEnv : Z := 402.
Definition TypeChannelRequestExec : Z := 403.
Definition TypeChannelRequestPty : Z := 404.
Definition TypeChannelRequestShell : Z := 405.
Definition TypeChannelRequestSignal : Z := 406.
Definition TypeChannelRequestSubsystem : Z := 407.
Definition TypeChannelRequestWindow : Z := 408.
Definition TypeChannelRequestX11 : Z := 409.
Definition TypeWriteClose : Z := 496.
Definition TypeClose : Z := 497.
Definition TypeExitSignal : Z := 498.
Definition TypeExit : Z := 499.
Definition TypeIO : Z := 500.
Definition TypeRequestFailed : Z := 501.

Definition typeToID : list (Z * string) := [
  (TypeConnect, "connect");
  (TypeDisconnect, "disconnect");
  (TypeAuthPassword, "auth_password");
  (TypeAuthPasswordSuccessful, "auth_password_successful");
  (TypeAuthPasswordFailed, "auth_password_failed");
  (TypeAuthPasswordBackendError, "auth_password_backend_error");
  (TypeAuthPubKey, "auth_pubkey");
  (TypeAuthPubKeySuccessful, "auth_pubkey_successful");
  (TypeAuthPubKeyFailed, "auth_pubkey_failed");
  (TypeAuthPubKeyBackendError, "auth_pubkey_backend_error");
  (TypeAuthKeyboardInteractiveChallenge, "auth_keyboard_interactive_challenge");
  (TypeAuthKeyboardInteractiveAnswer, "auth_keyboard_interactive_answer");
  (TypeAuthKeyboardInteractiveFailed, "auth_keyboard_interactive_failed");
  (TypeAuthKeyboardInteractiveBackendError, "auth_keyboard_interactive_backend_error");
  (TypeGlobalRequestUnknown, "global_request_unknown");
  (TypeGlobalRequestDecodeFailed, "global_request_decode_failed");
  (TypeRequestReverseForward, "forward_tcpip");
  (TypeRequestCancelReverseForward, "cancel_forward_tcpip");
  (TypeRequestStreamLocal, "forward_streamlocal");
  (TypeRequestCancelStreamLocal, "cancel_forward_streamlocal");
  (TypeNewChannel, "new_channel");
  (TypeNewChannelSuccessful, "new_channel_successful");
  (TypeNewChannelFailed, "new_channel_failed");
  (TypeNewForwardChannel, "new_channel_direct_tcpip");
  (TypeNewReverseForwardChannel, "new_channel_forwarded_tcpip");
  (TypeNewReverseX11ForwardChannel, "new_channel_x11");
  (TypeNewForwardStreamLocalChannel, "new_channel_direct_streamlocal");
  (TypeNewReverseStreamLocalChannel, "new_channel_forwarded_streamlocal");
  (TypeChannelRequestUnknownType, "channel_request_unknown");
  (TypeChannelRequestDecodeFailed, "channel_request_decode_failed");
  (TypeChannelRequestSetEnv, "setenv");
  (TypeChannelRequestExec, "exec");
  (TypeChannelRequestPty, "pty");
  (TypeChannelRequestShell, "shell");
  (TypeChannelRequestSignal, "signal");
  (TypeChannelRequestSubsystem, "subsystem");
  (TypeChannelRequestWindow, "window");
  (TypeChannelRequestX11, "x11-req");
  (TypeWriteClose, "close_write");
  (TypeClose, "close");
  (TypeExit, "exit");
  (TypeExitSignal, "exit_signal");
  (TypeIO, "io");
  (TypeRequestFailed, "request_failed")
].

Definition typeToName : list (Z * string) := [
  (TypeConnect, "Connect");
  (TypeDisconnect, "Disconnect");
  (TypeAuthPassword, "Password authentication");
  (TypeAuthPasswordSuccessful, "Password authentication successful");
  (TypeAuthPasswordFailed, "Password authentication failed");
  (TypeAuthPasswordBackendError, "Password authentication backend error");
  (TypeAuthPubKey, "Public key authentication");
  (TypeAuthPubKeySuccessful, "Public key authentication successful");
  (TypeAuthPubKeyFailed, "Public key authentication failed");
  (TypeAuthPubKeyBackendError, "Public key authentication backend error");
  (TypeAuthKeyboardInteractiveChallenge, "Keyboard-interactive authentication challenge");
  (TypeAuthKeyboardInteractiveAnswer, "Keyboard-interactive authentication answer");
  (TypeAuthKeyboardInteractiveFailed, "Keyboard-interactive authentication failed");
  (TypeAuthKeyboardInteractiveBackendError, "Keyboard-interactive authentication backend error");
  (TypeGlobalRequestUnknown, "Unknown global request");
  (TypeGlobalRequestDecodeFailed, "Failed to decode global request");
  (TypeRequestReverseForward, "Request reverse port forwarding");
  (TypeRequestCancelReverseForward, "Request to stop reverse port forwarding");
  (TypeRequestStreamLocal, "Request reverse socket forwarding");
  (TypeRequestCancelStreamLocal, "Request to stop reverse socket forwarding");
  (TypeNewChannel, "New channel request");
  (TypeNewChannelSuccessful, "New channel successful");
  (TypeNewChannelFailed, "New channel failed");
  (TypeNewForwardChannel, "New client-to-server port forwarding channel");
  (TypeNewReverseForwardChannel, "New server-to-client port forwarding channel");
  (TypeNewReverseX11ForwardChannel, "New server-to-client X11 forwarding channel");
  (TypeNewForwardStreamLocalChannel, "New client-to-server unix socket forwarding channel");
  (TypeNewReverseStreamLocalChannel, "New server-to-client unix socket forwarding channel");
  (TypeChannelRequestUnknownType, "Unknown channel request");
  (TypeChannelRequestDecodeFailed, "Failed to decode channel request");
  (TypeChannelRequestSetEnv, "Set environment variable");
  (TypeChannelRequestExec, "Execute program");
  (TypeChannelRequestPty, "Request interactive terminal");
  (TypeChannelRequestShell, "Run shell");
  (TypeChannelRequestSignal, "Send signal to running process");
  (TypeChannelRequestSubsystem, "Request subsystem");
  (TypeChannelRequestWindow, "Change window size");
  (TypeChannelRequestX11, "Request X11 forwarding");
  (TypeWriteClose, "Close channel for writing");
  (TypeClose, "Close channel");
  (TypeExit, "Program exited");
  (TypeExitSignal, "Program exited with signal");
  (TypeIO, "I/O");
  (TypeRequestFailed, "Request failed")
].

Definition messageTypeToPayload : list (Z * option Payload) := [
  (TypeConnect, Some (PayloadConnect "" ""));
  (TypeDisconnect, None);
  (TypeAuthPassword, Some (PayloadAuthPassword "" []));
  (TypeAuthPasswordSuccessful, Some (PayloadAuthPassword "" []));
  (TypeAuthPasswordFailed, Some (PayloadAuthPassword "" []));
  (TypeAuthPasswordBackendError, Some (PayloadAuthPasswordBackendError "" [] ""));
  (TypeAuthKeyboardInteractiveChallenge, Some (PayloadAuthKeyboardInteractiveChallenge "" "" []));
  (TypeAuthKeyboardInteractiveAnswer, Some (PayloadAuthKeyboardInteractiveAnswer "" []));
  (TypeAuthKeyboardInteractiveFailed, Some (PayloadAuthKeyboardInteractiveFailed ""));
  (TypeAuthKeyboardInteractiveBackendError, Some (PayloadAuthKeyboardInteractiveBackendError "" ""));
  (TypeHandshakeFailed, Some (PayloadHandshakeFailed ""));
  (TypeHandshakeSuccessful, Some (PayloadHandshakeSuccessful ""));
  (TypeAuthPubKey, Some (PayloadAuthPubKey "" ""));
  (TypeAuthPubKeySuccessful, Some (PayloadAuthPubKey "" ""));
  (TypeAuthPubKeyFailed, Some (PayloadAuthPubKey "" ""));
  (TypeAuthPubKeyBackendError, Some (PayloadAuthPubKeyBackendError "" "" ""));
  (TypeGlobalRequestUnknown, Some (PayloadGlobalRequestUnknown ""));
  (TypeGlobalRequestDecodeFailed, Some (PayloadGlobalRequestDecodeFailed 0 "" [] ""));
  (TypeRequestReverseForward, Some (PayloadRequestReverseForward "" 0));
  (TypeRequestCancelReverseForward, Some (PayloadRequestReverseForward "" 0));
  (TypeRequestStreamLocal, Some (PayloadRequestStreamLocal ""));
  (TypeRequestCancelStreamLocal, Some (PayloadRequestStreamLocal ""));
  (TypeNewChannel, Some (PayloadNewChannel ""));
  (TypeNewChannelSuccessful, Some (PayloadNewChannelSuccessful ""));
  (TypeNewChannelFailed, Some (PayloadNewChannelFailed "" ""));
  (TypeNewForwardChannel, Some (PayloadNewForwardChannel "" 0 "" 0));
  (TypeNewReverseForwardChannel, Some (PayloadNewReverseForwardChannel "" 0 "" 0));
  (TypeNewReverseX11ForwardChannel, Some (PayloadNewReverseX11ForwardChannel "" 0));
  (TypeNewForwardStreamLocalChannel, Some (PayloadRequestStreamLocal ""));
  (TypeNewReverseStreamLocalChannel, Some (PayloadRequestStreamLocal ""));
  (TypeChannelRequestUnknownType, Some (PayloadChannelRequestUnknownType 0 "" []));
  (TypeChannelRequestDecodeFailed, Some (PayloadChannelRequestDecodeFailed 0 "" [] ""));
  (TypeChannelRequestSetEnv, Some (PayloadChannelRequestSetEnv 0 "" ""));
  (TypeChannelRequestExec, Some (PayloadChannelRequestExec 0 ""));
  (TypeChannelRequestPty, Some (PayloadChannelRequestPty 0 "" 0 0 0 0 []));
  (TypeChannelRequestShell, Some (PayloadChannelRequestShell 0));
  (TypeChannelRequestSignal, Some (PayloadChannelRequestSignal 0 ""));
  (TypeChannelRequestSubsystem, Some (PayloadChannelRequestSubsystem 0 ""));
  (TypeChannelRequestWindow, Some (PayloadChannelRequestWindow 0 0 0 0 0));
  (TypeChannelRequestX11, Some (PayloadChannelRequestX11 0 false "" "" 0));
  (TypeIO, Some (PayloadIO 0 []));
  (TypeRequestFailed, Some (PayloadRequestFailed 0 ""));
  (TypeExit, Some (PayloadExit 0));
  (TypeExitSignal, Some (PayloadExitSignal "" false "" ""));
  (TypeClose, None);
  (TypeWriteClose, None)
].

(** Lookup in one of the tables. *)
Fixpoint table_lookup {A} (t : Z) (l : list (Z * A)) : option A :=
  match l with
  | [] => None
  | (k, v) :: rest => if decide (t = k) then Some v else table_lookup t rest
  end.

Definition ListTypes : list Z := typeToID.*1.

Definition Type_ID (messageType : Z) : string := default "invalid" (table_lookup messageType typeToID).

Definition Type_Name (messageType : Z) : string := default "invalid" (table_lookup messageType typeToName).

(** [None] is the error for an unknown type; the template may be nil. *)
Definition Type_Payload (messageType : Z) : option (option Payload) := table_lookup messageType messageTypeToPayload.

(** ** Comparison of payloads *)

Definition KIQuestion_Equals (q q2 : KIQuestion) : bool :=
  bool_decide (KIQ_Question q = KIQ_Question q2) && bool_decide (KIQ_Echo q = KIQ_Echo q2).

Definition KIAnswer_Equals (k k2 : KIAnswer) : bool :=
  bool_decide (KIA_Question k = KIA_Question k2) && bool_decide (KIA_Answer k = KIA_Answer k2).

(** The loops over questions and answers: equal lengths and equal elements. *)
Fixpoint Equals_list {A} (eq : A → A → bool) (l l2 : list A) : bool :=
  match l, l2 with
  | [], [] => true
  | x :: l', y :: l2' => eq x y && Equals_list eq l' l2'
  | _, _ => false
  end.

Definition PayloadConnect_Equals (remoteAddr : string) (country : string) (other : Payload) : bool :=
  match other with
  | PayloadConnect remoteAddr2 _ => bool_decide (remoteAddr = remoteAddr2)
  | _ => false
  end.

Definition PayloadAuthPassword_Equals (username : string) (password : list byte) (other : Payload) : bool :=
  match other with
  | PayloadAuthPassword username2 password2 => bool_decide (username = username2) && bool_decide (password =
      password2)
  | _ => false
  end.

Definition PayloadAuthPasswordSuccessful_Equals (username : string) (authenticatedUsername : string) (password
    : list byte) (metadata : option (gmap string MetadataValue)) (environment : option (gmap string
    MetadataValue)) (files : option (gmap string MetadataBinaryValue)) (other : Payload) : bool :=
  match other with
  | PayloadAuthPasswordSuccessful username2 authenticatedUsername2 password2 _ _ _ => bool_decide (username
      = username2) && bool_decide (authenticatedUsername = authenticatedUsername2) && bool_decide (password
      = password2)
  | _ => false
  end.

Definition PayloadAuthPasswordBackendError_Equals (username : string) (password : list byte) (reason : string)
    (other : Payload) : bool :=
  match other with
  | PayloadAuthPasswordBackendError username2 password2 reason2 => bool_decide (username = username2) &&
      bool_decide (password = password2) && bool_decide (reason = reason2)
  | _ => false
  end.

Definition PayloadAuthPubKey_Equals (username : string) (key : string) (other : Payload) : bool :=
  match other with
  | PayloadAuthPubKey username2 key2 => bool_decide (username = username2) && bool_decide (key = key2)
  | _ => false
  end.

Definition PayloadAuthPubKeyBackendError_Equals (username : string) (key : string) (reason : string) (other :
    Payload) : bool :=
  match other with
  | PayloadAuthPubKeyBackendError username2 key2 reason2 => bool_decide (username = username2) &&
      bool_decide (key = key2) && bool_decide (reason = reason2)
  | _ => false
  end.

Definition PayloadAuthKeyboardInteractiveChallenge_Equals (username : string) (instruction : string)
    (questions : list KIQuestion) (other : Payload) : bool :=
  match other with
  | PayloadAuthKeyboardInteractiveChallenge username2 instruction2 questions2 => bool_decide (username =
      username2) && bool_decide (instruction = instruction2) && Equals_list KIQuestion_Equals questions
      questions2
  | _ => false
  end.

Definition PayloadAuthKeyboardInteractiveAnswer_Equals (username : string) (answers : list KIAnswer) (other :
    Payload) : bool :=
  match other with
  | PayloadAuthKeyboardInteractiveAnswer username2 answers2 => bool_decide (username = username2) &&
      Equals_list KIAnswer_Equals answers answers2
  | _ => false
  end.

Definition PayloadAuthKeyboardInteractiveFailed_Equals (username : string) (other : Payload) : bool :=
  match other with
  | PayloadAuthKeyboardInteractiveFailed username2 => bool_decide (username = username2)
  | _ => false
  end.

Definition PayloadAuthKeyboardInteractiveBackendError_Equals (username : string) (reason : string) (other :
    Payload) : bool :=
  match other with
  | PayloadAuthKeyboardInteractiveBackendError username2 reason2 => bool_decide (username = username2) &&
      bool_decide (reason = reason2)
  | _ => false
  end.

Definition PayloadHandshakeFailed_Equals (reason : string) (other : Payload) : bool :=
  match other with
  | PayloadHandshakeFailed reason2 => bool_decide (reason = reason2)
  | _ => false
  end.

Definition PayloadHandshakeSuccessful_Equals (username : string) (other : Payload) : bool :=
  match other with
  | PayloadHandshakeSuccessful username2 => bool_decide (username = username2)
  | _ => false
  end.

Definition PayloadGlobalRequestUnknown_Equals (requestType : string) (other : Payload) : bool :=
  match other with
  | PayloadGlobalRequestUnknown requestType2 => bool_decide (requestType = requestType2)
  | _ => false
  end.

Definition PayloadGlobalRequestDecodeFailed_Equals (requestID : Z) (requestType : string) (payload : list
    byte) (reason : string) (other : Payload) : bool :=
  match other with
  | PayloadGlobalRequestDecodeFailed requestID2 requestType2 _ reason2 => bool_decide (requestID =
      requestID2) && bool_decide (requestType = requestType2) && bool_decide (reason = reason2)
  | _ => false
  end.

Definition PayloadNewChannel_Equals (channelType : string) (other : Payload) : bool :=
  match other with
  | PayloadNewChannel channelType2 => bool_decide (channelType = channelType2)
  | _ => false
  end.

Definition PayloadNewChannelFailed_Equals (channelType : string) (reason : string) (other : Payload) : bool :=
  match other with
  | PayloadNewChannelFailed channelType2 reason2 => bool_decide (channelType = channelType2) && bool_decide
      (reason = reason2)
  | _ => false
  end.

Definition PayloadNewChannelSuccessful_Equals (channelType : string) (other : Payload) : bool :=
  match other with
  | PayloadNewChannelSuccessful channelType2 => bool_decide (channelType = channelType2)
  | _ => false
  end.

Definition PayloadRequestReverseForward_Equals (bindHost : string) (bindPort : Z) (other : Payload) : bool :=
  match other with
  | PayloadRequestReverseForward bindHost2 bindPort2 => bool_decide (bindHost = bindHost2) && bool_decide
      (bindPort = bindPort2)
  | _ => false
  end.

Definition PayloadNewForwardChannel_Equals (hostToConnect : string) (portToConnect : Z) (originatorHost :
    string) (originatorPort : Z) (other : Payload) : bool :=
  match other with
  | PayloadNewForwardChannel hostToConnect2 portToConnect2 originatorHost2 originatorPort2 => bool_decide
      (hostToConnect = hostToConnect2) && bool_decide (portToConnect = portToConnect2) && bool_decide
      (originatorHost = originatorHost2) && bool_decide (originatorPort = originatorPort2)
  | _ => false
  end.

Definition PayloadNewReverseForwardChannel_Equals (connectedHost : string) (connectedPort : Z) (originatorHost
    : string) (originatorPort : Z) (other : Payload) : bool :=
  match other with
  | PayloadNewReverseForwardChannel connectedHost2 connectedPort2 originatorHost2 originatorPort2 =>
      bool_decide (connectedHost = connectedHost2) && bool_decide (connectedPort = connectedPort2) &&
      bool_decide (originatorHost = originatorHost2) && bool_decide (originatorPort = originatorPort2)
  | _ => false
  end.

Definition PayloadNewReverseX11ForwardChannel_Equals (originatorHost : string) (originatorPort : Z) (other :
    Payload) : bool :=
  match other with
  | PayloadNewReverseX11ForwardChannel originatorHost2 originatorPort2 => bool_decide (originatorHost =
      originatorHost2) && bool_decide (originatorPort = originatorPort2)
  | _ => false
  end.

Definition PayloadRequestStreamLocal_Equals (path : string) (other : Payload) : bool :=
  match other with
  | PayloadRequestStreamLocal path2 => bool_decide (path = path2)
  | _ => false
  end.

Definition PayloadChannelRequestUnknownType_Equals (requestID : Z) (requestType : string) (payload : list
    byte) (other : Payload) : bool :=
  match other with
  | PayloadChannelRequestUnknownType requestID2 requestType2 _ => bool_decide (requestID = requestID2) &&
      bool_decide (requestType = requestType2)
  | _ => false
  end.

Definition PayloadChannelRequestDecodeFailed_Equals (requestID : Z) (requestType : string) (payload : list
    byte) (reason : string) (other : Payload) : bool :=
  match other with
  | PayloadChannelRequestDecodeFailed requestID2 requestType2 _ reason2 => bool_decide (requestID =
      requestID2) && bool_decide (requestType = requestType2) && bool_decide (reason = reason2)
  | _ => false
  end.

Definition PayloadChannelRequestSetEnv_Equals (requestID : Z) (name : string) (value : string) (other :
    Payload) : bool :=
  match other with
  | PayloadChannelRequestSetEnv requestID2 name2 value2 => bool_decide (requestID = requestID2) &&
      bool_decide (name = name2) && bool_decide (value = value2)
  | _ => false
  end.

Definition PayloadChannelRequestExec_Equals (requestID : Z) (program : string) (other : Payload) : bool :=
  match other with
  | PayloadChannelRequestExec requestID2 program2 => bool_decide (requestID = requestID2) && bool_decide
      (program = program2)
  | _ => false
  end.

Definition PayloadChannelRequestPty_Equals (requestID : Z) (term : string) (columns : Z) (rows : Z) (width :
    Z) (height : Z) (modeList : list byte) (other : Payload) : bool :=
  match other with
  | PayloadChannelRequestPty requestID2 term2 columns2 rows2 width2 height2 modeList2 => bool_decide
      (requestID = requestID2) && bool_decide (term = term2) && bool_decide (columns = columns2) &&
      bool_decide (rows = rows2) && bool_decide (width = width2) && bool_decide (height = height2) &&
      bool_decide (modeList = modeList2)
  | _ => false
  end.

Definition PayloadChannelRequestX11_Equals (requestID : Z) (singleConnection : bool) (authProtocol : string)
    (cookie : string) (screen : Z) (other : Payload) : bool :=
  match other with
  | PayloadChannelRequestX11 requestID2 singleConnection2 authProtocol2 cookie2 screen2 => bool_decide
      (requestID = requestID2) && bool_decide (singleConnection = singleConnection2) && bool_decide
      (authProtocol = authProtocol2) && bool_decide (cookie = cookie2) && bool_decide (screen = screen2)
  | _ => false
  end.

Definition PayloadChannelRequestShell_Equals (requestID : Z) (other : Payload) : bool :=
  match other with
  | PayloadChannelRequestShell requestID2 => bool_decide (requestID = requestID2)
  | _ => false
  end.

Definition PayloadChannelRequestSignal_Equals (requestID : Z) (signal : string) (other : Payload) : bool :=
  match other with
  | PayloadChannelRequestSignal requestID2 signal2 => bool_decide (requestID = requestID2) && bool_decide
      (signal = signal2)
  | _ => false
  end.

Definition PayloadChannelRequestSubsystem_Equals (requestID : Z) (subsystem : string) (other : Payload) : bool
    :=
  match other with
  | PayloadChannelRequestSubsystem requestID2 subsystem2 => bool_decide (requestID = requestID2) &&
      bool_decide (subsystem = subsystem2)
  | _ => false
  end.

Definition PayloadChannelRequestWindow_Equals (requestID : Z) (columns : Z) (rows : Z) (width : Z) (height :
    Z) (other : Payload) : bool :=
  match other with
  | PayloadChannelRequestWindow requestID2 columns2 rows2 width2 height2 => bool_decide (requestID =
      requestID2) && bool_decide (columns = columns2) && bool_decide (rows = rows2) && bool_decide (width =
      width2) && bool_decide (height = height2)
  | _ => false
  end.

Definition PayloadExit_Equals (exitStatus : Z) (other : Payload) : bool :=
  match other with
  | PayloadExit exitStatus2 => bool_decide (exitStatus = exitStatus2)
  | _ => false
  end.

Definition PayloadExitSignal_Equals (signal : string) (coreDumped : bool) (errorMessage : string) (languageTag
    : string) (other : Payload) : bool :=
  match other with
  | PayloadExitSignal signal2 coreDumped2 errorMessage2 languageTag2 => bool_decide (signal = signal2) &&
      bool_decide (coreDumped = coreDumped2) && bool_decide (errorMessage = errorMessage2) && bool_decide
      (languageTag = languageTag2)
  | _ => false
  end.

Definition PayloadIO_Equals (stream : Z) (data : list byte) (other : Payload) : bool :=
  match other with
  | PayloadIO stream2 data2 => bool_decide (stream = stream2) && bool_decide (data = data2)
  | _ => false
  end.

Definition PayloadRequestFailed_Equals (requestID : Z) (reason : string) (other : Payload) : bool :=
  match other with
  | PayloadRequestFailed requestID2 reason2 => bool_decide (requestID = requestID2) && bool_decide (reason =
      reason2)
  | _ => false
  end.

Definition Equals (p other : Payload) : bool :=
  match p with
  | PayloadConnect remoteAddr country => PayloadConnect_Equals remoteAddr country other
  | PayloadAuthPassword username password => PayloadAuthPassword_Equals username password other
  | PayloadAuthPasswordSuccessful username authenticatedUsername password metadata environment files =>
      PayloadAuthPasswordSuccessful_Equals username authenticatedUsername password metadata environment
      files other
  | PayloadAuthPasswordBackendError username password reason => PayloadAuthPasswordBackendError_Equals
      username password reason other
  | PayloadAuthPubKey username key => PayloadAuthPubKey_Equals username key other
  | PayloadAuthPubKeyBackendError username key reason => PayloadAuthPubKeyBackendError_Equals username key
      reason other
  | PayloadAuthKeyboardInteractiveChallenge username instruction questions =>
      PayloadAuthKeyboardInteractiveChallenge_Equals username instruction questions other
  | PayloadAuthKeyboardInteractiveAnswer username answers => PayloadAuthKeyboardInteractiveAnswer_Equals
      username answers other
  | PayloadAuthKeyboardInteractiveFailed username => PayloadAuthKeyboardInteractiveFailed_Equals username
      other
  | PayloadAuthKeyboardInteractiveBackendError username reason =>
      PayloadAuthKeyboardInteractiveBackendError_Equals username reason other
  | PayloadHandshakeFailed reason => PayloadHandshakeFailed_Equals reason other
  | PayloadHandshakeSuccessful username => PayloadHandshakeSuccessful_Equals username other
  | PayloadGlobalRequestUnknown requestType => PayloadGlobalRequestUnknown_Equals requestType other
  | PayloadGlobalRequestDecodeFailed requestID requestType payload reason =>
      PayloadGlobalRequestDecodeFailed_Equals requestID requestType payload reason other
  | PayloadNewChannel channelType => PayloadNewChannel_Equals channelType other
  | PayloadNewChannelFailed channelType reason => PayloadNewChannelFailed_Equals channelType reason other
  | PayloadNewChannelSuccessful channelType => PayloadNewChannelSuccessful_Equals channelType other
  | PayloadRequestReverseForward bindHost bindPort => PayloadRequestReverseForward_Equals bindHost bindPort
      other
  | PayloadNewForwardChannel hostToConnect portToConnect originatorHost originatorPort =>
      PayloadNewForwardChannel_Equals hostToConnect portToConnect originatorHost originatorPort other
  | PayloadNewReverseForwardChannel connectedHost connectedPort originatorHost originatorPort =>
      PayloadNewReverseForwardChannel_Equals connectedHost connectedPort originatorHost originatorPort other
  | PayloadNewReverseX11ForwardChannel originatorHost originatorPort =>
      PayloadNewReverseX11ForwardChannel_Equals originatorHost originatorPort other
  | PayloadRequestStreamLocal path => PayloadRequestStreamLocal_Equals path other
  | PayloadChannelRequestUnknownType requestID requestType payload =>
      PayloadChannelRequestUnknownType_Equals requestID requestType payload other
  | PayloadChannelRequestDecodeFailed requestID requestType payload reason =>
      PayloadChannelRequestDecodeFailed_Equals requestID requestType payload reason other
  | PayloadChannelRequestSetEnv requestID name value => PayloadChannelRequestSetEnv_Equals requestID name
      value other
  | PayloadChannelRequestExec requestID program => PayloadChannelRequestExec_Equals requestID program other
  | PayloadChannelRequestPty requestID term columns rows width height modeList =>
      PayloadChannelRequestPty_Equals requestID term columns rows width height modeList other
  | PayloadChannelRequestX11 requestID singleConnection authProtocol cookie screen =>
      PayloadChannelRequestX11_Equals requestID singleConnection authProtocol cookie screen other
  | PayloadChannelRequestShell requestID => PayloadChannelRequestShell_Equals requestID other
  | PayloadChannelRequestSignal requestID signal => PayloadChannelRequestSignal_Equals requestID signal other
  | PayloadChannelRequestSubsystem requestID subsystem => PayloadChannelRequestSubsystem_Equals requestID
      subsystem other
  | PayloadChannelRequestWindow requestID columns rows width height => PayloadChannelRequestWindow_Equals
      requestID columns rows width height other
  | PayloadExit exitStatus => PayloadExit_Equals exitStatus other
  | PayloadExitSignal signal coreDumped errorMessage languageTag => PayloadExitSignal_Equals signal
      coreDumped errorMessage languageTag other
  | PayloadIO stream data => PayloadIO_Equals stream data other
  | PayloadRequestFailed requestID reason => PayloadRequestFailed_Equals requestID reason other
  end.

(** ** Messages *)

Record Message := MkMessage {
  ConnectionID : string;
  Timestamp : Z;
  MessageType : Z;
  msg_Payload : option Payload;
  ChannelID : option Z;
}.

Record ExtendedMessage := MkExtendedMessage {
  ext_ConnectionID : string;
  ext_Timestamp : Z;
  ext_MessageType : Z;
  ext_TypeID : string;
  ext_TypeName : string;
  ext_Payload : option Payload;
  ext_ChannelID : option Z;
}.

Definition GetExtendedMessage (m : Message) : ExtendedMessage :=
  MkExtendedMessage (ConnectionID m) (Timestamp m) (MessageType m) (Type_ID (MessageType m))
    (Type_Name (MessageType m)) (msg_Payload m) (ChannelID m).

(** Channel identifiers are pointers: different pointers are compared by the
    numbers they point to. *)
Definition Message_Equals (m other : Message) : bool :=
  if decide (ConnectionID m ≠ ConnectionID other) then false
  else if decide (Timestamp m ≠ Timestamp other) then false
  else if decide (MessageType m ≠ MessageType other) then false
  else if decide (ChannelID m ≠ ChannelID other) then false
  else
    match msg_Payload m, msg_Payload other with
    | None, Some _ => false
    | Some _, None => false
    | Some p, Some p2 => Equals p p2
    | None, None => true
    end.

(** ** What comparison sees *)

(** A payload without the fields no comparison looks at: the country of a
    connect message, the metadata of a successful password login and the raw
    bytes of unknown and undecodable requests. *)
Definition erase (p : Payload) : Payload :=
  match p with
  | PayloadConnect remoteAddr _ => PayloadConnect remoteAddr ""
  | PayloadAuthPasswordSuccessful username authenticatedUsername password _ _ _ =>
      PayloadAuthPasswordSuccessful username authenticatedUsername password None None None
  | PayloadGlobalRequestDecodeFailed requestID requestType _ reason => PayloadGlobalRequestDecodeFailed
      requestID requestType [] reason
  | PayloadChannelRequestUnknownType requestID requestType _ => PayloadChannelRequestUnknownType requestID
      requestType []
  | PayloadChannelRequestDecodeFailed requestID requestType _ reason => PayloadChannelRequestDecodeFailed
      requestID requestType [] reason
  | _ => p
  end.

Lemma Equals_list_eq {A} (eq : A → A → bool) l l2 :
  (∀ x y, eq x y = true ↔ x = y) → Equals_list eq l l2 = true ↔ l = l2.
Proof.
  intros Heq. revert l2. induction l as [|x l IH]; intros [|y l2]; cbn; try done.
  rewrite andb_true_iff, Heq, IH. naive_solver.
Qed.

Lemma KIQuestion_Equals_eq q q2 : KIQuestion_Equals q q2 = true ↔ q = q2.
Proof.
  unfold KIQuestion_Equals. rewrite andb_true_iff, !bool_decide_eq_true. destruct q, q2; cbn. naive_solver.
Qed.

Lemma KIAnswer_Equals_eq q q2 : KIAnswer_Equals q q2 = true ↔ q = q2.
Proof.
  unfold KIAnswer_Equals. rewrite andb_true_iff, !bool_decide_eq_true. destruct q, q2; cbn. naive_solver.
Qed.

Create HintDb payload.
#[export] Hint Unfold PayloadConnect_Equals PayloadAuthPassword_Equals PayloadAuthPasswordSuccessful_Equals
    PayloadAuthPasswordBackendError_Equals PayloadAuthPubKey_Equals PayloadAuthPubKeyBackendError_Equals
    PayloadAuthKeyboardInteractiveChallenge_Equals PayloadAuthKeyboardInteractiveAnswer_Equals
    PayloadAuthKeyboardInteractiveFailed_Equals PayloadAuthKeyboardInteractiveBackendError_Equals
    PayloadHandshakeFailed_Equals PayloadHandshakeSuccessful_Equals PayloadGlobalRequestUnknown_Equals
    PayloadGlobalRequestDecodeFailed_Equals PayloadNewChannel_Equals PayloadNewChannelFailed_Equals
    PayloadNewChannelSuccessful_Equals PayloadRequestReverseForward_Equals PayloadNewForwardChannel_Equals
    PayloadNewReverseForwardChannel_Equals PayloadNewReverseX11ForwardChannel_Equals
    PayloadRequestStreamLocal_Equals PayloadChannelRequestUnknownType_Equals
    PayloadChannelRequestDecodeFailed_Equals PayloadChannelRequestSetEnv_Equals
    PayloadChannelRequestExec_Equals PayloadChannelRequestPty_Equals PayloadChannelRequestX11_Equals
    PayloadChannelRequestShell_Equals PayloadChannelRequestSignal_Equals PayloadChannelRequestSubsystem_Equals
    PayloadChannelRequestWindow_Equals PayloadExit_Equals PayloadExitSignal_Equals PayloadIO_Equals
    PayloadRequestFailed_Equals : payload.

Lemma Equals_erase p q : Equals p q = true ↔ erase p = erase q.
Proof.
  destruct p; cbn [Equals];
  autounfold with payload;
  destruct q; cbn [erase]; try (by split; intros H; discriminate H);
  rewrite ?andb_true_iff, ?bool_decide_eq_true, ?(Equals_list_eq _ _ _ KIQuestion_Equals_eq),
    ?(Equals_list_eq _ _ _ KIAnswer_Equals_eq);
  (split; [intros H; destruct_and? H; by subst | intros H; injection H; intros; by subst]).
Qed.
