(* ===== verification/AuditLog.v ===== *)
(** * The audit logger

    [internal/auditlog/logger_impl.go] and [intercept.go]: the connection and
    channel loggers that turn events into messages on the channel of the
    connection's encoder, and the proxies that record input and output. *)

From stdpp Require Import base gmap strings list.
From Stdlib Require Import Strings.Byte.
From S2P Require Import Prelude Messages Metadata Handler AuditMessage.

Local Open Scope Z_scope.

(** ** A connection's logger *)

(** [lc_received] are the messages the encoder has taken from the unbuffered
    channel, [lc_reading] that it still receives, [lc_chanClosed] that the
    channel is closed. *)
Record loggerConnection := MkLoggerConnection {
  lc_connectionID : string;
  lc_closed : bool;
  lc_chanClosed : bool;
  lc_received : list Message;
  lc_reading : bool;
}.

(** [config.AuditLogInterceptConfig] *)
Record AuditLogInterceptConfig := MkAuditLogInterceptConfig {
  intercept_Stdin : bool;
  intercept_Stdout : bool;
  intercept_Stderr : bool;
  intercept_Passwords : bool;
  intercept_Forwarding : bool;
}.

(** What ends a healthy encoder: the binary and the none encoder return after
    the disconnect message. *)
Definition at_disconnect (received : list Message) : bool :=
  match last received with
  | Some msg => bool_decide (MessageType msg = TypeDisconnect)
  | None => false
  end.

Section logger.
(** Whether the encoder has returned after these messages: at the disconnect
    message ([at_disconnect]; the asciinema encoder does not), and wherever a
    write to the storage fails, before the first message (the header) or while
    it writes the last one of them. *)
Context (stops : list Message → bool).

Abbreviation lcall A := (prog loggerConnection A).

(** The send on the unbuffered channel completes when the encoder receives; it
    waits forever, with the lock held, once the encoder is gone. *)
Definition log (msg : Message) : lcall unit :=
  let* l := get in
  if negb (lc_closed l) then
    if lc_chanClosed l then panic "send on closed channel"
    else if negb (lc_reading l) then block "messageChannel"
    else put (MkLoggerConnection (lc_connectionID l) (lc_closed l) (lc_chanClosed l) (lc_received l ++ [msg])
                (negb (stops (lc_received l ++ [msg]))))
  else prog_ret tt.

(** [OnConnect]: [openErr] is the result of opening the storage writer,
    [ip] and [country] the text of the address and the result of the lookup. *)
Definition loggerImplementation_OnConnect (now : Z) (connectionID : string) (openErr : option error)
    (ip country : string) : outcome (option loggerConnection * option error) :=
  match openErr with
  | Some _ => Done (None, openErr)
  | None =>
      match log (MkMessage connectionID now TypeConnect (Some (PayloadConnect ip country)) None)
              (MkLoggerConnection connectionID false false [] (negb (stops []))) with
      | Done (_, conn) => Done (Some conn, None)
      | Panic s => Panic s
      | Blocked s => Blocked s
      end
  end.

(** The second half of [OnDisconnect], after the message was logged. *)
Definition loggerConnection_close : lcall unit :=
  let* l := get in
  if lc_chanClosed l then panic "close of closed channel"
  else put (MkLoggerConnection (lc_connectionID l) true true (lc_received l) (lc_reading l)).

Definition loggerConnection_OnDisconnect (now : Z) : lcall unit :=
  let* l := get in
  do* log (MkMessage (lc_connectionID l) now TypeDisconnect None None) in
  loggerConnection_close.

Definition loggerConnection_OnAuthPassword (now : Z) (username : string) (password : list byte) : prog
    loggerConnection unit :=
  let* l := get in
  log (MkMessage (lc_connectionID l) now TypeAuthPassword (Some (PayloadAuthPassword username password))
      None).

Definition loggerConnection_OnAuthPasswordSuccess (now : Z) (username : string) (password : list byte) :
    prog loggerConnection unit :=
  let* l := get in
  log (MkMessage (lc_connectionID l) now TypeAuthPasswordSuccessful (Some (PayloadAuthPassword username
      password)) None).

Definition loggerConnection_OnAuthPasswordFailed (now : Z) (username : string) (password : list byte) : prog
    loggerConnection unit :=
  let* l := get in
  log (MkMessage (lc_connectionID l) now TypeAuthPasswordFailed (Some (PayloadAuthPassword username
      password)) None).

Definition loggerConnection_OnAuthPasswordBackendError (now : Z) (username : string) (password : list byte)
    (reason : string) : prog loggerConnection unit :=
  let* l := get in
  log (MkMessage (lc_connectionID l) now TypeAuthPasswordBackendError (Some (PayloadAuthPasswordBackendError
      username password reason)) None).

Definition loggerConnection_OnAuthPubKey (now : Z) (username : string) (pubKey : string) : prog
    loggerConnection unit :=
  let* l := get in
  log (MkMessage (lc_connectionID l) now TypeAuthPubKey (Some (PayloadAuthPubKey username pubKey)) None).

Definition loggerConnection_OnAuthPubKeySuccess (now : Z) (username : string) (pubKey : string) : prog
    loggerConnection unit :=
  let* l := get in
  log (MkMessage (lc_connectionID l) now TypeAuthPubKeySuccessful (Some (PayloadAuthPubKey username pubKey))
      None).

Definition loggerConnection_OnAuthPubKeyFailed (now : Z) (username : string) (pubKey : string) : prog
    loggerConnection unit :=
  let* l := get in
  log (MkMessage (lc_connectionID l) now TypeAuthPubKeyFailed (Some (PayloadAuthPubKey username pubKey))
      None).

Definition loggerConnection_OnAuthPubKeyBackendError (now : Z) (username : string) (pubKey : string) (reason
    : string) : prog loggerConnection unit :=
  let* l := get in
  log (MkMessage (lc_connectionID l) now TypeAuthPubKeyBackendError (Some (PayloadAuthPubKeyBackendError
      username pubKey reason)) None).

Definition loggerConnection_OnAuthKeyboardInteractiveChallenge (now : Z) (username : string) (instruction :
    string) (questions : list KIQuestion) : prog loggerConnection unit :=
  let* l := get in
  log (MkMessage (lc_connectionID l) now TypeAuthKeyboardInteractiveChallenge (Some
      (PayloadAuthKeyboardInteractiveChallenge username instruction questions)) None).

Definition loggerConnection_OnAuthKeyboardInteractiveAnswer (now : Z) (username : string) (answers : list
    KIAnswer) : prog loggerConnection unit :=
  let* l := get in
  log (MkMessage (lc_connectionID l) now TypeAuthKeyboardInteractiveAnswer (Some
      (PayloadAuthKeyboardInteractiveAnswer username answers)) None).

Definition loggerConnection_OnAuthKeyboardInteractiveFailed (now : Z) (username : string) : prog
    loggerConnection unit :=
  let* l := get in
  log (MkMessage (lc_connectionID l) now TypeAuthKeyboardInteractiveFailed (Some
      (PayloadAuthKeyboardInteractiveFailed username)) None).

Definition loggerConnection_OnAuthKeyboardInteractiveBackendError (now : Z) (username : string) (reason :
    string) : prog loggerConnection unit :=
  let* l := get in
  log (MkMessage (lc_connectionID l) now TypeAuthKeyboardInteractiveBackendError (Some
      (PayloadAuthKeyboardInteractiveBackendError username reason)) None).

Definition loggerConnection_OnHandshakeFailed (now : Z) (reason : string) : prog loggerConnection unit :=
  let* l := get in
  log (MkMessage (lc_connectionID l) now TypeHandshakeFailed (Some (PayloadHandshakeFailed reason)) None).

Definition loggerConnection_OnHandshakeSuccessful (now : Z) (username : string) : prog loggerConnection unit
    :=
  let* l := get in
  log (MkMessage (lc_connectionID l) now TypeHandshakeSuccessful (Some (PayloadHandshakeSuccessful
      username)) None).

Definition loggerConnection_OnGlobalRequestUnknown (now : Z) (requestType : string) : prog loggerConnection
    unit :=
  let* l := get in
  log (MkMessage (lc_connectionID l) now TypeGlobalRequestUnknown (Some (PayloadGlobalRequestUnknown
      requestType)) None).

Definition loggerConnection_OnGlobalRequestDecodeFailed (now : Z) (requestID : Z) (requestType : string)
    (payload : list byte) (reason : option error) : prog loggerConnection unit :=
  match reason with
  | None => panic nil_pointer
  | Some reason => let* l := get in
      log (MkMessage (lc_connectionID l) now TypeGlobalRequestDecodeFailed (Some
          (PayloadGlobalRequestDecodeFailed requestID requestType payload (Error reason))) None)
  end.

Definition loggerConnection_OnNewChannel (now : Z) (channelID : option Z) (channelType : string) : prog
    loggerConnection unit :=
  let* l := get in
  log (MkMessage (lc_connectionID l) now TypeNewChannel (Some (PayloadNewChannel channelType)) channelID).

Definition loggerConnection_OnNewChannelFailed (now : Z) (channelID : option Z) (channelType : string)
    (reason : string) : prog loggerConnection unit :=
  let* l := get in
  log (MkMessage (lc_connectionID l) now TypeNewChannelFailed (Some (PayloadNewChannelFailed channelType
      reason)) channelID).

Definition loggerConnection_OnNewChannelSuccess (now : Z) (channelID : option Z) (channelType : string) :
    prog loggerConnection (option Z) :=
  do* (let* l := get in
  log (MkMessage (lc_connectionID l) now TypeNewChannelSuccessful (Some (PayloadNewChannelSuccessful
      channelType)) channelID)) in prog_ret channelID.

Definition loggerConnection_OnRequestTCPReverseForward (now : Z) (bindHost : string) (bindPort : Z) : prog
    loggerConnection unit :=
  let* l := get in
  log (MkMessage (lc_connectionID l) now TypeRequestReverseForward (Some (PayloadRequestReverseForward
      bindHost bindPort)) None).

Definition loggerConnection_OnRequestCancelTCPReverseForward (now : Z) (bindHost : string) (bindPort : Z) :
    prog loggerConnection unit :=
  let* l := get in
  log (MkMessage (lc_connectionID l) now TypeRequestCancelReverseForward (Some (PayloadRequestReverseForward
      bindHost bindPort)) None).

Definition loggerConnection_OnTCPForwardChannel (now : Z) (channelID : option Z) (hostToConnect : string)
    (portToConnect : Z) (originatorHost : string) (originatorPort : Z) : prog loggerConnection unit :=
  let* l := get in
  log (MkMessage (lc_connectionID l) now TypeNewForwardChannel (Some (PayloadNewForwardChannel hostToConnect
      portToConnect originatorHost originatorPort)) channelID).

Definition loggerConnection_OnReverseForwardChannel (now : Z) (channelID : option Z) (connectedHost :
    string) (connectedPort : Z) (originatorHost : string) (originatorPort : Z) : prog loggerConnection unit
    :=
  let* l := get in
  log (MkMessage (lc_connectionID l) now TypeNewReverseForwardChannel (Some (PayloadNewReverseForwardChannel
      connectedHost connectedPort originatorHost originatorPort)) channelID).

Definition loggerConnection_OnReverseStreamLocalChannel (now : Z) (channelID : option Z) (path : string) :
    prog loggerConnection unit :=
  let* l := get in
  log (MkMessage (lc_connectionID l) now TypeNewReverseStreamLocalChannel (Some (PayloadRequestStreamLocal
      path)) channelID).

Definition loggerConnection_OnReverseX11ForwardChannel (now : Z) (channelID : option Z) (originatorHost :
    string) (originatorPort : Z) : prog loggerConnection unit :=
  let* l := get in
  log (MkMessage (lc_connectionID l) now TypeNewReverseX11ForwardChannel (Some
      (PayloadNewReverseX11ForwardChannel originatorHost originatorPort)) channelID).

Definition loggerConnection_OnDirectStreamLocal (now : Z) (channelID : option Z) (path : string) : prog
    loggerConnection unit :=
  let* l := get in
  log (MkMessage (lc_connectionID l) now TypeNewForwardStreamLocalChannel (Some (PayloadRequestStreamLocal
      path)) channelID).

Definition loggerConnection_OnRequestStreamLocal (now : Z) (path : string) : prog loggerConnection unit :=
  let* l := get in
  log (MkMessage (lc_connectionID l) now TypeRequestStreamLocal (Some (PayloadRequestStreamLocal path))
      None).

Definition loggerConnection_OnRequestCancelStreamLocal (now : Z) (path : string) : prog loggerConnection
    unit :=
  let* l := get in
  log (MkMessage (lc_connectionID l) now TypeRequestCancelStreamLocal (Some (PayloadRequestStreamLocal
      path)) None).

Definition loggerChannel_OnRequestUnknown (now : Z) (channelID : option Z) (requestID : Z) (requestType :
    string) (payload : list byte) : prog loggerConnection unit :=
  let* l := get in
  log (MkMessage (lc_connectionID l) now TypeChannelRequestUnknownType (Some
      (PayloadChannelRequestUnknownType requestID requestType payload)) channelID).

Definition loggerChannel_OnRequestDecodeFailed (now : Z) (channelID : option Z) (requestID : Z) (requestType
    : string) (payload : list byte) (reason : string) : prog loggerConnection unit :=
  let* l := get in
  log (MkMessage (lc_connectionID l) now TypeChannelRequestDecodeFailed (Some
      (PayloadChannelRequestDecodeFailed requestID requestType payload reason)) channelID).

Definition loggerChannel_OnRequestSetEnv (now : Z) (channelID : option Z) (requestID : Z) (name : string)
    (value_ : string) : prog loggerConnection unit :=
  let* l := get in
  log (MkMessage (lc_connectionID l) now TypeChannelRequestSetEnv (Some (PayloadChannelRequestSetEnv
      requestID name value_)) channelID).

Definition loggerChannel_OnRequestExec (now : Z) (channelID : option Z) (requestID : Z) (program : string) :
    prog loggerConnection unit :=
  let* l := get in
  log (MkMessage (lc_connectionID l) now TypeChannelRequestExec (Some (PayloadChannelRequestExec requestID
      program)) channelID).

Definition loggerChannel_OnRequestPty (now : Z) (channelID : option Z) (requestID : Z) (term : string)
    (columns : Z) (rows : Z) (width : Z) (height : Z) (modelist : list byte) : prog loggerConnection unit :=
  let* l := get in
  log (MkMessage (lc_connectionID l) now TypeChannelRequestPty (Some (PayloadChannelRequestPty requestID
      term columns rows width height modelist)) channelID).

Definition loggerChannel_OnRequestX11 (now : Z) (channelID : option Z) (requestID : Z) (singleConnection :
    bool) (protocol : string) (cookie : string) (screen : Z) : prog loggerConnection unit :=
  let* l := get in
  log (MkMessage (lc_connectionID l) now TypeChannelRequestX11 (Some (PayloadChannelRequestX11 requestID
      singleConnection protocol cookie screen)) channelID).

Definition loggerChannel_OnRequestShell (now : Z) (channelID : option Z) (requestID : Z) : prog
    loggerConnection unit :=
  let* l := get in
  log (MkMessage (lc_connectionID l) now TypeChannelRequestShell (Some (PayloadChannelRequestShell
      requestID)) channelID).

Definition loggerChannel_OnRequestSignal (now : Z) (channelID : option Z) (requestID : Z) (signal : string)
    : prog loggerConnection unit :=
  let* l := get in
  log (MkMessage (lc_connectionID l) now TypeChannelRequestSignal (Some (PayloadChannelRequestSignal
      requestID signal)) channelID).

Definition loggerChannel_OnRequestSubsystem (now : Z) (channelID : option Z) (requestID : Z) (subsystem :
    string) : prog loggerConnection unit :=
  let* l := get in
  log (MkMessage (lc_connectionID l) now TypeChannelRequestSubsystem (Some (PayloadChannelRequestSubsystem
      requestID subsystem)) channelID).

Definition loggerChannel_OnRequestWindow (now : Z) (channelID : option Z) (requestID : Z) (columns : Z)
    (rows : Z) (width : Z) (height : Z) : prog loggerConnection unit :=
  let* l := get in
  log (MkMessage (lc_connectionID l) now TypeChannelRequestWindow (Some (PayloadChannelRequestWindow
      requestID columns rows width height)) channelID).

Definition loggerChannel_io (now : Z) (channelID : option Z) (stream : Z) (data : list byte) : prog
    loggerConnection unit :=
  let* l := get in
  log (MkMessage (lc_connectionID l) now TypeIO (Some (PayloadIO stream data)) channelID).

Definition loggerChannel_OnRequestFailed (now : Z) (channelID : option Z) (requestID : Z) (reason : option
    error) : prog loggerConnection unit :=
  match reason with
  | None => panic nil_pointer
  | Some reason => let* l := get in
      log (MkMessage (lc_connectionID l) now TypeRequestFailed (Some (PayloadRequestFailed requestID (Error
          reason))) channelID)
  end.

Definition loggerChannel_OnExit (now : Z) (channelID : option Z) (exitStatus : Z) : prog loggerConnection
    unit :=
  let* l := get in
  log (MkMessage (lc_connectionID l) now TypeExit (Some (PayloadExit exitStatus)) channelID).

Definition loggerChannel_OnExitSignal (now : Z) (channelID : option Z) (signal : string) (coreDumped : bool)
    (errorMessage : string) (languageTag : string) : prog loggerConnection unit :=
  let* l := get in
  log (MkMessage (lc_connectionID l) now TypeExitSignal (Some (PayloadExitSignal signal coreDumped
      errorMessage languageTag)) channelID).

Definition loggerChannel_OnWriteClose (now : Z) (channelID : option Z) : prog loggerConnection unit :=
  let* l := get in
  log (MkMessage (lc_connectionID l) now TypeWriteClose None channelID).

Definition loggerChannel_OnClose (now : Z) (channelID : option Z) : prog loggerConnection unit :=
  let* l := get in
  log (MkMessage (lc_connectionID l) now TypeClose None channelID).

(** The calls of the audit log as data. *)
Inductive audit_call :=
| Call_OnAuthPassword (username : string) (password : list byte)
| Call_OnAuthPasswordSuccess (username : string) (password : list byte)
| Call_OnAuthPasswordFailed (username : string) (password : list byte)
| Call_OnAuthPasswordBackendError (username : string) (password : list byte) (reason : string)
| Call_OnAuthPubKey (username : string) (pubKey : string)
| Call_OnAuthPubKeySuccess (username : string) (pubKey : string)
| Call_OnAuthPubKeyFailed (username : string) (pubKey : string)
| Call_OnAuthPubKeyBackendError (username : string) (pubKey : string) (reason : string)
| Call_OnAuthKeyboardInteractiveChallenge (username : string) (instruction : string) (questions : list
    KIQuestion)
| Call_OnAuthKeyboardInteractiveAnswer (username : string) (answers : list KIAnswer)
| Call_OnAuthKeyboardInteractiveFailed (username : string)
| Call_OnAuthKeyboardInteractiveBackendError (username : string) (reason : string)
| Call_OnHandshakeFailed (reason : string)
| Call_OnHandshakeSuccessful (username : string)
| Call_OnGlobalRequestUnknown (requestType : string)
| Call_OnGlobalRequestDecodeFailed (requestID : Z) (requestType : string) (payload : list byte) (reason :
    option error)
| Call_OnNewChannel (channelID : option Z) (channelType : string)
| Call_OnNewChannelFailed (channelID : option Z) (channelType : string) (reason : string)
| Call_OnNewChannelSuccess (channelID : option Z) (channelType : string)
| Call_OnRequestTCPReverseForward (bindHost : string) (bindPort : Z)
| Call_OnRequestCancelTCPReverseForward (bindHost : string) (bindPort : Z)
| Call_OnTCPForwardChannel (channelID : option Z) (hostToConnect : string) (portToConnect : Z)
    (originatorHost : string) (originatorPort : Z)
| Call_OnReverseForwardChannel (channelID : option Z) (connectedHost : string) (connectedPort : Z)
    (originatorHost : string) (originatorPort : Z)
| Call_OnReverseStreamLocalChannel (channelID : option Z) (path : string)
| Call_OnReverseX11ForwardChannel (channelID : option Z) (originatorHost : string) (originatorPort : Z)
| Call_OnDirectStreamLocal (channelID : option Z) (path : string)
| Call_OnRequestStreamLocal (path : string)
| Call_OnRequestCancelStreamLocal (path : string)
| CallChannel_OnRequestUnknown (channelID : option Z) (requestID : Z) (requestType : string) (payload : list
    byte)
| CallChannel_OnRequestDecodeFailed (channelID : option Z) (requestID : Z) (requestType : string) (payload :
    list byte) (reason : string)
| CallChannel_OnRequestSetEnv (channelID : option Z) (requestID : Z) (name : string) (value_ : string)
| CallChannel_OnRequestExec (channelID : option Z) (requestID : Z) (program : string)
| CallChannel_OnRequestPty (channelID : option Z) (requestID : Z) (term : string) (columns : Z) (rows : Z)
    (width : Z) (height : Z) (modelist : list byte)
| CallChannel_OnRequestX11 (channelID : option Z) (requestID : Z) (singleConnection : bool) (protocol :
    string) (cookie : string) (screen : Z)
| CallChannel_OnRequestShell (channelID : option Z) (requestID : Z)
| CallChannel_OnRequestSignal (channelID : option Z) (requestID : Z) (signal : string)
| CallChannel_OnRequestSubsystem (channelID : option Z) (requestID : Z) (subsystem : string)
| CallChannel_OnRequestWindow (channelID : option Z) (requestID : Z) (columns : Z) (rows : Z) (width : Z)
    (height : Z)
| CallChannel_io (channelID : option Z) (stream : Z) (data : list byte)
| CallChannel_OnRequestFailed (channelID : option Z) (requestID : Z) (reason : option error)
| CallChannel_OnExit (channelID : option Z) (exitStatus : Z)
| CallChannel_OnExitSignal (channelID : option Z) (signal : string) (coreDumped : bool) (errorMessage :
    string) (languageTag : string)
| CallChannel_OnWriteClose (channelID : option Z)
| CallChannel_OnClose (channelID : option Z).

Definition audit_exec (now : Z) (c : audit_call) : prog loggerConnection unit :=
  match c with
  | Call_OnAuthPassword username password => loggerConnection_OnAuthPassword now username password
  | Call_OnAuthPasswordSuccess username password => loggerConnection_OnAuthPasswordSuccess now username
      password
  | Call_OnAuthPasswordFailed username password => loggerConnection_OnAuthPasswordFailed now username
      password
  | Call_OnAuthPasswordBackendError username password reason => loggerConnection_OnAuthPasswordBackendError
      now username password reason
  | Call_OnAuthPubKey username pubKey => loggerConnection_OnAuthPubKey now username pubKey
  | Call_OnAuthPubKeySuccess username pubKey => loggerConnection_OnAuthPubKeySuccess now username pubKey
  | Call_OnAuthPubKeyFailed username pubKey => loggerConnection_OnAuthPubKeyFailed now username pubKey
  | Call_OnAuthPubKeyBackendError username pubKey reason => loggerConnection_OnAuthPubKeyBackendError now
      username pubKey reason
  | Call_OnAuthKeyboardInteractiveChallenge username instruction questions =>
      loggerConnection_OnAuthKeyboardInteractiveChallenge now username instruction questions
  | Call_OnAuthKeyboardInteractiveAnswer username answers =>
      loggerConnection_OnAuthKeyboardInteractiveAnswer now username answers
  | Call_OnAuthKeyboardInteractiveFailed username => loggerConnection_OnAuthKeyboardInteractiveFailed now
      username
  | Call_OnAuthKeyboardInteractiveBackendError username reason =>
      loggerConnection_OnAuthKeyboardInteractiveBackendError now username reason
  | Call_OnHandshakeFailed reason => loggerConnection_OnHandshakeFailed now reason
  | Call_OnHandshakeSuccessful username => loggerConnection_OnHandshakeSuccessful now username
  | Call_OnGlobalRequestUnknown requestType => loggerConnection_OnGlobalRequestUnknown now requestType
  | Call_OnGlobalRequestDecodeFailed requestID requestType payload reason =>
      loggerConnection_OnGlobalRequestDecodeFailed now requestID requestType payload reason
  | Call_OnNewChannel channelID channelType => loggerConnection_OnNewChannel now channelID channelType
  | Call_OnNewChannelFailed channelID channelType reason => loggerConnection_OnNewChannelFailed now
      channelID channelType reason
  | Call_OnNewChannelSuccess channelID channelType => let* _ := loggerConnection_OnNewChannelSuccess now
      channelID channelType in prog_ret tt
  | Call_OnRequestTCPReverseForward bindHost bindPort => loggerConnection_OnRequestTCPReverseForward now
      bindHost bindPort
  | Call_OnRequestCancelTCPReverseForward bindHost bindPort =>
      loggerConnection_OnRequestCancelTCPReverseForward now bindHost bindPort
  | Call_OnTCPForwardChannel channelID hostToConnect portToConnect originatorHost originatorPort =>
      loggerConnection_OnTCPForwardChannel now channelID hostToConnect portToConnect originatorHost
      originatorPort
  | Call_OnReverseForwardChannel channelID connectedHost connectedPort originatorHost originatorPort =>
      loggerConnection_OnReverseForwardChannel now channelID connectedHost connectedPort originatorHost
      originatorPort
  | Call_OnReverseStreamLocalChannel channelID path => loggerConnection_OnReverseStreamLocalChannel now
      channelID path
  | Call_OnReverseX11ForwardChannel channelID originatorHost originatorPort =>
      loggerConnection_OnReverseX11ForwardChannel now channelID originatorHost originatorPort
  | Call_OnDirectStreamLocal channelID path => loggerConnection_OnDirectStreamLocal now channelID path
  | Call_OnRequestStreamLocal path => loggerConnection_OnRequestStreamLocal now path
  | Call_OnRequestCancelStreamLocal path => loggerConnection_OnRequestCancelStreamLocal now path
  | CallChannel_OnRequestUnknown channelID requestID requestType payload => loggerChannel_OnRequestUnknown
      now channelID requestID requestType payload
  | CallChannel_OnRequestDecodeFailed channelID requestID requestType payload reason =>
      loggerChannel_OnRequestDecodeFailed now channelID requestID requestType payload reason
  | CallChannel_OnRequestSetEnv channelID requestID name value_ => loggerChannel_OnRequestSetEnv now
      channelID requestID name value_
  | CallChannel_OnRequestExec channelID requestID program => loggerChannel_OnRequestExec now channelID
      requestID program
  | CallChannel_OnRequestPty channelID requestID term columns rows width height modelist =>
      loggerChannel_OnRequestPty now channelID requestID term columns rows width height modelist
  | CallChannel_OnRequestX11 channelID requestID singleConnection protocol cookie screen =>
      loggerChannel_OnRequestX11 now channelID requestID singleConnection protocol cookie screen
  | CallChannel_OnRequestShell channelID requestID => loggerChannel_OnRequestShell now channelID requestID
  | CallChannel_OnRequestSignal channelID requestID signal => loggerChannel_OnRequestSignal now channelID
      requestID signal
  | CallChannel_OnRequestSubsystem channelID requestID subsystem => loggerChannel_OnRequestSubsystem now
      channelID requestID subsystem
  | CallChannel_OnRequestWindow channelID requestID columns rows width height =>
      loggerChannel_OnRequestWindow now channelID requestID columns rows width height
  | CallChannel_io channelID stream data => loggerChannel_io now channelID stream data
  | CallChannel_OnRequestFailed channelID requestID reason => loggerChannel_OnRequestFailed now channelID
      requestID reason
  | CallChannel_OnExit channelID exitStatus => loggerChannel_OnExit now channelID exitStatus
  | CallChannel_OnExitSignal channelID signal coreDumped errorMessage languageTag =>
      loggerChannel_OnExitSignal now channelID signal coreDumped errorMessage languageTag
  | CallChannel_OnWriteClose channelID => loggerChannel_OnWriteClose now channelID
  | CallChannel_OnClose channelID => loggerChannel_OnClose now channelID
  end.

(** ** Interception of input and output *)

Section intercept.
Context {W : Type} `{!Field W loggerConnection} (now : Z) (channelID : option Z).

(** A call on the logger from code that runs on the store [W]. *)
Definition on_logger {A} (c : lcall A) : prog W A :=
  λ w, match c (fget w) with
       | Done (a, l) => Done (a, fset l w)
       | Panic s => Panic s
       | Blocked s => Blocked s
       end.

(** [Read] with a buffer of [n] bytes: the bytes read and the error. *)
Definition interceptingReader_Read (backend : Reader W) (stream : Z) : Reader W := λ n,
  let* '(data, err) := backend n in
  do* (if decide (0 < length data)%nat then on_logger (loggerChannel_io now channelID stream data)
       else prog_ret tt) in
  prog_ret (data, err).

Definition interceptingWriter_Write (backend : Writer W) (stream : Z) : Writer W := λ p,
  do* (if decide (0 < length p)%nat then on_logger (loggerChannel_io now channelID stream p)
       else prog_ret tt) in
  backend p.

(** [io.ReadWriteCloser] *)
Record ReadWriteCloser := MkReadWriteCloser {
  rwc_Read : Reader W;
  rwc_Write : Writer W;
  rwc_Close : prog W (option error);
}.

Context (intercept : AuditLogInterceptConfig).

Definition GetForwardingProxy (forward : ReadWriteCloser) : ReadWriteCloser :=
  if negb (intercept_Forwarding intercept) then forward
  else {| rwc_Read := interceptingReader_Read (rwc_Read forward) StreamStdin;
          rwc_Write := interceptingWriter_Write (rwc_Write forward) StreamStdout;
          rwc_Close := rwc_Close forward |}.

Definition GetStdinProxy (stdin : Reader W) : Reader W :=
  if negb (intercept_Stdin intercept) then stdin else interceptingReader_Read stdin StreamStdin.

Definition GetStdoutProxy (stdout : Writer W) : Writer W :=
  if negb (intercept_Stdout intercept) then stdout else interceptingWriter_Write stdout StreamStdout.

Definition GetStderrProxy (stderr : Writer W) : Writer W :=
  if negb (intercept_Stdout intercept) then stderr else interceptingWriter_Write stderr StreamStderr.

End intercept.

End logger.
