(* ===== verification/AppConfig.v ===== *)
(** * The configuration of the whole program

    [config/appconfig.go] with the remaining sections: [config/auditlog.go],
    [config/geoip.go], [config/health.go], [config/metrics.go] and
    [config/client.go]. *)

From stdpp Require Import base gmap strings list fin_maps.
From S2P Require Import Prelude Messages GoStrings ConfigHTTP ConfigSSH ConfigAuth ConfigLog ConfigBackend SecurityConfig AuditLog.

Local Open Scope Z_scope.

(** ** Audit log *)

Definition AuditLogFormat_Validate (f : string) : option error :=
  if decide (f = "binary" ∨ f = "asciinema" ∨ f = "none") then None
  else Some (Errorf "invalid audit log format: %s" [VString f]).

Definition AuditLogStorage_Validate (s : string) : option error :=
  if decide (s = "none" ∨ s = "file" ∨ s = "s3") then None
  else Some (Errorf "invalid audit log storage: %s" [VString s]).

Record AuditLogFileConfig := MkAuditLogFileConfig { file_Directory : string }.

Record AuditLogS3Config := MkAuditLogS3Config {
  s3_Local : string;
  s3_AccessKey : string;
  s3_SecretKey : string;
  s3_Bucket : string;
  s3_Region : string;
  s3_Endpoint : string;
  s3_CACert : string;
  s3_ACL : string;
  s3_PathStyleAccess : bool;
  s3_UploadPartSize : Z;
  s3_ParallelUploads : Z;
  s3_Metadata_IP : bool;
  s3_Metadata_Username : bool;
}.

Record AuditLogConfig := MkAuditLogConfig {
  audit_Enable : bool;
  audit_Format : string;
  audit_Storage : string;
  audit_File : AuditLogFileConfig;
  audit_S3 : AuditLogS3Config;
  audit_Intercept : AuditLogInterceptConfig;
}.

(** ** GeoIP, health check, metrics and the configuration server *)

Record GeoIPConfig := MkGeoIPConfig {
  geo_Provider : string;
  geo_GeoIP2File : string;
}.

Record HealthConfig := MkHealthConfig {
  health_Enable : bool;
  health_HTTPServer : HTTPServerConfiguration;
  health_Client : HTTPClientConfiguration;
}.

Record MetricsConfig := MkMetricsConfig {
  metrics_HTTPServer : HTTPServerConfiguration;
  metrics_Enable : bool;
  metrics_Path : string;
}.

Record ClientConfig := MkClientConfig {
  client_HTTP : HTTPClientConfiguration;
  TransmitSensitiveMetadata : bool;
}.

(** ** The validation queue

    A Go map from the name of a section to the section; a section is here the
    result of its [Validate].  The loop over the map visits the names in an
    arbitrary order. *)
Abbreviation validationQueue := (gmap string (option error)).

Definition newValidationQueue : validationQueue := ∅.
Definition queue_add (name : string) (item : option error) (v : validationQueue) : validationQueue := <[name := item]> v.

Fixpoint queue_Validate (order : list string) (v : validationQueue) : option error :=
  match order with
  | [] => None
  | name :: order => check_field (mjoin (v !! name)) name (queue_Validate order v)
  end.

Section validate.
Context (lib : Library).

(** [os.Stat] and [IsDir] of a directory for recordings. *)
Definition check_directory (option_ what path : string) (k : option error) : option error :=
  match os_Stat lib path with
  | inr err => wrapWithMessage (Some err) option_ (what ++ ": %s") [VString path]
  | inl dir => if negb dir then Some (newError option_ (what ++ ": %s (not a directory)") [VString path]) else k
  end.

Definition AuditLogFileConfig_Validate (c : AuditLogFileConfig) : option error :=
  check_directory "directory" "invalid audit log directory" (file_Directory c) None.

Definition AuditLogS3Config_Validate (c : AuditLogS3Config) : option error :=
  if decide (s3_Local c = "") then Some (newError "local" "empty local storage directory provided" [])
  else
    check_directory "local" "invalid local directory" (s3_Local c)
    (if decide (s3_AccessKey c = "") then Some (newError "accessKey" "no access key provided" [])
     else if decide (s3_SecretKey c = "") then Some (newError "secretKey" "no secret key provided" [])
     else if decide (s3_Bucket c = "") then Some (newError "bucket" "no bucket name provided" [])
     else if decide (s3_UploadPartSize c < 5242880)
     then Some (newError "uploadPartSize" "upload part size too low %d (minimum 5 MB)" [VInt (s3_UploadPartSize c)])
     else if decide (s3_ParallelUploads c < 1)
     then Some (newError "parallelUploads" "parallel uploads invalid: %d (must be positive)" [VInt (s3_ParallelUploads c)])
     else None).

Definition AuditLogConfig_Validate (c : AuditLogConfig) : option error :=
  if negb (audit_Enable c) then None
  else
    check_field (AuditLogFormat_Validate (audit_Format c)) "format"
    (check_field (AuditLogStorage_Validate (audit_Storage c)) "storage"
    (if decide (audit_Storage c = "file") then wrap (AuditLogFileConfig_Validate (audit_File c)) "file"
     else if decide (audit_Storage c = "s3") then wrap (AuditLogS3Config_Validate (audit_S3 c)) "s3"
     else None)).

Definition GeoIPProvider_Validate (p : string) : option error :=
  if decide (p = "dummy" ∨ p = "maxmind") then None
  else Some (Errorf "invalid GeoIP provider: %s" [VString p]).

Definition GeoIPConfig_Validate (c : GeoIPConfig) : option error :=
  check_field (GeoIPProvider_Validate (geo_Provider c)) "provider"
  (if decide (geo_Provider c = "maxmind") then
     match os_Stat lib (geo_GeoIP2File c) with
     | inr err => wrapWithMessage (Some err) "maxmind-geoip2-file" "invalid MaxMind GeoIP2 file: %s" [VString (geo_GeoIP2File c)]
     | inl dir => if dir then Some (Errorf "invalid MaxMind GeoIP2 file: %s (is a directory)" [VString (geo_GeoIP2File c)])
                  else None
     end
   else None).

Definition HealthConfig_Validate (c : HealthConfig) : option error :=
  if negb (health_Enable c) then None
  else or_return (HTTPServer_Validate lib (health_HTTPServer c)) (λ e, e)
    (check_field (HTTPClient_Validate lib (health_Client c)) "client" None).

Definition MetricsConfig_Validate (c : MetricsConfig) : option error :=
  if negb (metrics_Enable c) then None
  else if decide (metrics_Path c = "") then Some (newError "path" "metrics path cannot be empty" [])
  else HTTPServer_Validate lib (metrics_HTTPServer c).

Definition ClientConfig_Validate (c : ClientConfig) : option error :=
  if decide (hc_URL (client_HTTP c) = "") then None else HTTPClient_Validate lib (client_HTTP c).

(** ** The application *)

Definition BackendDocker : string := "docker".
Definition BackendKubernetes : string := "kubernetes".
Definition BackendSSHProxy : string := "sshproxy".

Definition BackendValues : list string := [BackendDocker; BackendKubernetes; BackendSSHProxy].

Definition Backend_Validate (b : string) : option error :=
  if decide (b = BackendDocker) then None
  else if decide (b = BackendKubernetes) then None
  else if decide (b = BackendSSHProxy) then None
  else if decide (b = "") then Some (Errorf "no backend configured" [])
  else Some (Errorf "invalid backend: %s" [VString b]).

(** [DockerRun] and [KubeRun] are the sections of removed backends, whatever
    they contain. *)
Record AppConfig := MkAppConfig {
  App_SSH : SSHConfig;
  App_ConfigServer : ClientConfig;
  App_Auth : AuthConfig;
  App_Log : LogConfig;
  App_Metrics : MetricsConfig;
  App_GeoIP : GeoIPConfig;
  App_Audit : AuditLogConfig;
  App_Health : HealthConfig;
  App_Security : SecurityConfig;
  App_Backend : string;
  App_Docker : DockerConfig;
  App_DockerRun : option nat;
  App_Kubernetes : KubernetesConfig;
  App_KubeRun : option nat;
  App_SSHProxy : SSHProxyConfig;
}.

Context (path_Join : string → string → string).
Context (RestartPolicy_IsNone : string → bool).

Definition static_queue (cfg : AppConfig) : validationQueue :=
  queue_add "health" (HealthConfig_Validate (App_Health cfg))
  (queue_add "audit" (AuditLogConfig_Validate (App_Audit cfg))
  (queue_add "geoip" (GeoIPConfig_Validate (App_GeoIP cfg))
  (queue_add "metrics" (MetricsConfig_Validate (App_Metrics cfg))
  (queue_add "log" (LogConfig_Validate (App_Log cfg))
  (queue_add "auth" (AuthConfig_Validate lib path_Join (App_Auth cfg))
  (queue_add "configserver" (ClientConfig_Validate (App_ConfigServer cfg))
  (queue_add "ssh" (SSHConfig_Validate (App_SSH cfg)) newValidationQueue))))))).

Definition dynamic_queue (cfg : AppConfig) (queue : validationQueue) : validationQueue :=
  let queue := queue_add "backend" (Backend_Validate (App_Backend cfg))
                 (queue_add "security" (SecurityConfig_Validate (App_Security cfg)) queue) in
  if decide (App_Backend cfg = BackendDocker)
  then queue_add "docker" (DockerConfig_Validate RestartPolicy_IsNone (App_Docker cfg)) queue
  else if decide (App_Backend cfg = BackendKubernetes)
  then queue_add "kubernetes" (KubernetesConfig_Validate lib (App_Kubernetes cfg)) queue
  else if decide (App_Backend cfg = BackendSSHProxy)
  then queue_add "sshproxy" (SSHProxyConfig_Validate (App_SSHProxy cfg)) queue
  else queue.

(** The queue [Validate] builds. *)
Definition validation_queue (dynamic : bool) (cfg : AppConfig) : validationQueue :=
  if decide (hc_URL (client_HTTP (App_ConfigServer cfg)) ≠ "" ∧ dynamic = false)
  then static_queue cfg
  else dynamic_queue cfg (static_queue cfg).

Definition AppConfig_Validate (dynamic : bool) (order : list string) (cfg : AppConfig) : option error :=
  match App_DockerRun cfg with
  | Some _ =>
      Some (MsgError (NewMessage "DOCKER_RUN_REMOVED"
        "You are using the `dockerrun` configuration which has been removed since ContainerSSH 0.5. Please switch to the Docker backend. For details and a migration guide see https://containerssh.io/deprecations/dockerrun/" []))
  | None =>
      match App_KubeRun cfg with
      | Some _ =>
          Some (MsgError (NewMessage "KUBERNETES_KUBERUN_REMOVED"
            "You are using the `kuberun` configuration which has been removed since ContainerSSH 0.5. Please switch to the Kubernetes backend. For details and a migration guide see https://containerssh.io/deprecations/kuberun/" []))
      | None => queue_Validate order (validation_queue dynamic cfg)
      end
  end.

End validate.

(** An order in which the loop may visit the sections. *)
Definition iteration_order (order : list string) (v : validationQueue) : Prop :=
  NoDup order ∧ ∀ name, name ∈ order ↔ is_Some (v !! name).

(** ** Theorems *)

Lemma check_field_Some err o k e :
  check_field err o k = Some e ↔ (∃ x, err = Some x ∧ wrap err o = Some e) ∨ (err = None ∧ k = Some e).
Proof. destruct err; cbn; naive_solver. Qed.

Lemma queue_Validate_None order v :
  queue_Validate order v = None ↔ ∀ name, name ∈ order → mjoin (v !! name) = None.
Proof.
  induction order as [|n order IH]; cbn; [set_solver|]. rewrite check_field_None, IH. set_solver.
Qed.

Lemma queue_Validate_Some order v e :
  queue_Validate order v = Some e →
  ∃ name err, name ∈ order ∧ v !! name = Some (Some err) ∧ wrap (Some err) name = Some e.
Proof.
  induction order as [|n order IH]; cbn; [done|]. rewrite check_field_Some. intros [(x & Hx & He)|[_ H]].
  - destruct (v !! n) as [o|] eqn:E; cbn in Hx; [|done]. subst o. exists n, x. set_solver.
  - destruct (IH H) as (name & err & ? & ?). exists name, err. set_solver.
Qed.

(** The order of the keys of the map is one. *)
Lemma map_order v : iteration_order (map_to_list v).*1 v.
Proof.
  split; [apply NoDup_fst_map_to_list|]. intros name. rewrite list_elem_of_fmap. split.
  - intros ([n e] & -> & H). apply elem_of_map_to_list in H. by exists e.
  - intros [e H]. exists (name, e). split; [done|]. by apply elem_of_map_to_list.
Qed.

(** Every section of the queue is valid. *)
Definition all_valid (v : validationQueue) : Prop := map_Forall (λ _ err, err = None) v.

Lemma queue_valid_iff order v : iteration_order order v → queue_Validate order v = None ↔ all_valid v.
Proof.
  intros [_ Ho]. rewrite queue_Validate_None. split.
  - intros H name err Hl. specialize (H name). rewrite Hl in H. apply H. apply Ho. by exists err.
  - intros H name Hn. apply Ho in Hn as [err Hl]. rewrite Hl. by apply H in Hl as ->.
Qed.

Lemma all_valid_add name item v :
  v !! name = None → all_valid (queue_add name item v) ↔ item = None ∧ all_valid v.
Proof. intros H. unfold all_valid, queue_add. by rewrite map_Forall_insert. Qed.

Lemma Backend_Validate_None b : Backend_Validate b = None ↔ b ∈ BackendValues.
Proof. unfold Backend_Validate, BackendValues. rewrite !elem_of_cons, elem_of_nil. repeat case_decide; naive_solver. Qed.

(** The sections that a configuration server cannot change. *)
Definition static_valid (lib : Library) (path_Join : string → string → string) (cfg : AppConfig) : Prop :=
  SSHConfig_Validate (App_SSH cfg) = None ∧ ClientConfig_Validate lib (App_ConfigServer cfg) = None ∧
  AuthConfig_Validate lib path_Join (App_Auth cfg) = None ∧ LogConfig_Validate (App_Log cfg) = None ∧
  MetricsConfig_Validate lib (App_Metrics cfg) = None ∧ GeoIPConfig_Validate lib (App_GeoIP cfg) = None ∧
  AuditLogConfig_Validate lib (App_Audit cfg) = None ∧ HealthConfig_Validate lib (App_Health cfg) = None.

(** The sections a connection is served with: the security settings and the
    chosen backend. *)
Definition dynamic_valid (lib : Library) (IsNone : string → bool) (cfg : AppConfig) : Prop :=
  SecurityConfig_Validate (App_Security cfg) = None ∧
  ((App_Backend cfg = BackendDocker ∧ DockerConfig_Validate IsNone (App_Docker cfg) = None) ∨
   (App_Backend cfg = BackendKubernetes ∧ KubernetesConfig_Validate lib (App_Kubernetes cfg) = None) ∨
   (App_Backend cfg = BackendSSHProxy ∧ SSHProxyConfig_Validate (App_SSHProxy cfg) = None)).

Lemma static_queue_valid lib path_Join cfg :
  all_valid (static_queue lib path_Join cfg) ↔ static_valid lib path_Join cfg.
Proof.
  unfold static_queue, static_valid. rewrite !all_valid_add by (unfold queue_add; by simplify_map_eq).
  unfold newValidationQueue, all_valid. pose proof (map_Forall_empty (λ (_ : string) (err : option error), err = None)).
  naive_solver.
Qed.

Lemma dynamic_queue_valid lib path_Join IsNone cfg :
  all_valid (dynamic_queue lib IsNone cfg (static_queue lib path_Join cfg)) ↔
  static_valid lib path_Join cfg ∧ dynamic_valid lib IsNone cfg.
Proof.
  assert (∀ name, name ∈ ["security"; "backend"; "docker"; "kubernetes"; "sshproxy"] →
    static_queue lib path_Join cfg !! name = None) as Hn.
  { unfold static_queue, queue_add, newValidationQueue. intros name Hin. rewrite !elem_of_cons, elem_of_nil in Hin.
    destruct Hin as [->|[->|[->|[->|[->|[]]]]]]; by simplify_map_eq. }
  rewrite <- static_queue_valid. unfold dynamic_queue, dynamic_valid.
  repeat case_decide; rewrite !all_valid_add, Backend_Validate_None
    by (unfold queue_add; rewrite ?lookup_insert_ne by done; apply Hn; set_solver);
    unfold BackendValues, BackendDocker, BackendKubernetes, BackendSSHProxy in *;
    rewrite !elem_of_cons, elem_of_nil; generalize dependent (App_Backend cfg); intros b **; naive_solver.
Qed.

(** Claim C28. A configuration is accepted exactly when it does not use a removed backend,
    its static sections are valid and, if it is complete (a connection's own
    configuration, or no configuration server), its security settings and the
    section of its backend are valid; the sections of the other backends do not
    matter, and neither does the order in which the sections are visited.  An
    error names a section that is in fact invalid. *)
Theorem app_config_valid_iff lib path_Join IsNone dynamic order cfg :
  iteration_order order (validation_queue lib path_Join IsNone dynamic cfg) →
  (AppConfig_Validate lib path_Join IsNone dynamic order cfg = None ↔
   App_DockerRun cfg = None ∧ App_KubeRun cfg = None ∧ static_valid lib path_Join cfg ∧
   (hc_URL (client_HTTP (App_ConfigServer cfg)) = "" ∨ dynamic = true → dynamic_valid lib IsNone cfg)) ∧
  (∀ e, App_DockerRun cfg = None → App_KubeRun cfg = None →
   AppConfig_Validate lib path_Join IsNone dynamic order cfg = Some e →
   ∃ name err, validation_queue lib path_Join IsNone dynamic cfg !! name = Some (Some err) ∧
     wrap (Some err) name = Some e).
Proof.
  intros Ho. unfold AppConfig_Validate. split.
  - destruct (App_DockerRun cfg); [naive_solver|]. destruct (App_KubeRun cfg); [naive_solver|].
    rewrite queue_valid_iff by done. unfold validation_queue. case_decide as Hd.
    + rewrite static_queue_valid. naive_solver.
    + rewrite dynamic_queue_valid.
      assert (hc_URL (client_HTTP (App_ConfigServer cfg)) = "" ∨ dynamic = true)
        by (destruct (decide (hc_URL (client_HTTP (App_ConfigServer cfg)) = "")), dynamic; naive_solver).
      naive_solver.
  - intros e -> ->. intros H. apply queue_Validate_Some in H as (name & err & _ & ? & ?). by exists name, err.
Qed.

(** ** A configuration

    Passwords checked by a webhook, containers per connection. *)
Module app_demo.

Definition files : Library :=
  MkLibrary (λ _, inl true) (λ _, inr (ErrorString "no such file")) (λ _, None) (λ _, None) (λ _, None) (λ _ _, None)
    (λ _, true) None (λ _ _, None) (λ _, "0s").

Definition no_http : HTTPClientConfiguration := MkHTTPClientConfiguration "" false 0 "" "" "" "" [] [] "".
Definition webhook : HTTPClientConfiguration :=
  MkHTTPClientConfiguration "http://127.0.0.1:8080" false Second "" "" "" "1.2" ["x25519"] ["TLS_AES_128_GCM_SHA256"] "".
Definition no_server : HTTPServerConfiguration := MkHTTPServerConfiguration "" "" "" "" "" [] [].
Definition no_webhook : AuthWebhookClientConfig := MkAuthWebhookClientConfig no_http 0.
Definition no_kerberos : AuthKerberosClientConfig := MkAuthKerberosClientConfig "" "" false "" "" 0.
Definition no_oauth2 : AuthOAuth2ClientConfig :=
  MkAuthOAuth2ClientConfig (MkOAuth2RedirectConfig no_server "") "" "" ""
    (MkAuthGitHubConfig "" "" "" "" "" "" [] [] false "" false [] false 0)
    (MkAuthOIDCConfig no_http false false "" "") (MkAuthGenericConfig "" no_http "") [] [] 0.

Definition auth : AuthConfig :=
  MkAuthConfig (MkPasswordAuthConfig "webhook" (MkAuthWebhookClientConfig webhook Second) no_kerberos)
    (MkPublicKeyAuthConfig "" no_webhook) (MkKeyboardInteractiveAuthConfig "" no_oauth2)
    (MkGSSAPIAuthConfig "" no_kerberos) (MkAuthzConfig "" no_webhook) 0 no_http None None.

Definition security : SecurityConfig :=
  {| DefaultMode := ""; ForceCommand := "";
     Env := {| Env_Mode := "filter"; Env_Allow := ["LANG"]; Env_Deny := [] |};
     Command := {| Command_Mode := "disable"; Command_Allow := [] |};
     Shell := {| Shell_Mode := "enable" |};
     Subsystem := {| Subsystem_Mode := ""; Subsystem_Allow := []; Subsystem_Deny := [] |};
     Forwarding := {| ReverseForwardingMode := "disable"; ForwardingMode := "disable"; SocketForwardingMode := "disable";
                      SocketListenMode := "disable"; X11ForwardingMode := "disable" |};
     TTY := {| TTY_Mode := "" |};
     Signal := {| Signal_Mode := ""; Signal_Allow := []; Signal_Deny := [] |};
     MaxSessions := -1 |}.

Definition docker : DockerConfig :=
  MkDockerConfig (MkDockerConnectionConfig "unix:///var/run/docker.sock" "" "" "")
    (MkDockerExecutionConfig
       (MkDockerLaunchConfig (Some (MkContainerConfig "containerssh/containerssh-guest-image" None [] [] false false false
                                      false false false 0)) None None None "")
       None "connection" ["/usr/bin/containerssh-agent"; "wait-signal"] ["/bin/bash"] "/usr/bin/containerssh-agent"
       false {[ "sftp" := "/usr/lib/openssh/sftp-server" ]} "IfNotPresent" false)
    (MkDockerTimeoutConfig (60 * Second) (60 * Second) (60 * Second) (60 * Second) (60 * Second) (15 * Second)).

Definition kubernetes : KubernetesConfig :=
  MkKubernetesConfig (MkKubernetesConnectionConfig "" "" "" "" "" "" "" "" "" "" "" "" "" 5 10)
    (MkKubernetesPodConfig (MkObjectMeta "" None None 0) (MkPodSpec [] [] "" 0) 0 [] [] "" false ∅ "" ∅ ∅ ∅)
    (MkKubernetesTimeoutConfig 0 0 0 0 0 0).

Definition config (backend : string) : AppConfig :=
  MkAppConfig
    (MkSSHConfig "0.0.0.0:2222" "SSH-2.0-ContainerSSH" ["aes256-ctr"] ["curve25519-sha256@libssh.org"]
       ["hmac-sha2-256"] "" ["-----BEGIN KEY"] 0 3)
    (MkClientConfig no_http false) auth
    (MkLogConfig 6 "ljson" "stdout" "" (MkSyslogConfig "" "" "" false None) false false)
    (MkMetricsConfig no_server false "/metrics") (MkGeoIPConfig "dummy" "")
    (MkAuditLogConfig true "binary" "file" (MkAuditLogFileConfig "/var/log/audit")
       (MkAuditLogS3Config "" "" "" "" "" "" "" "" false 0 0 false false)
       (MkAuditLogInterceptConfig true true true false false))
    (MkHealthConfig false no_server no_http) security backend docker None kubernetes None
    (MkSSHProxyConfig "" 0 false "" "" "" [] [] [] [] [] 0 "").

End app_demo.

Lemma app_config_valid_iff_witness :
  (let order := (map_to_list (validation_queue app_demo.files (λ a b, a ++ b)%string (λ _, true) false (app_demo.config "docker"))).*1 in
   dynamic_valid app_demo.files (λ _, true) (app_demo.config "docker") ∧
   AppConfig_Validate app_demo.files (λ a b, a ++ b)%string (λ _, true) false order (app_demo.config "docker") = None) ∧
  (let order := (map_to_list (validation_queue app_demo.files (λ a b, a ++ b)%string (λ _, true) false (app_demo.config "kubernetes"))).*1 in
   ¬ dynamic_valid app_demo.files (λ _, true) (app_demo.config "kubernetes")).
Proof.
  split; cbn zeta.
  - destruct (app_config_valid_iff app_demo.files (λ a b, a ++ b)%string (λ _, true) false
      (map_to_list (validation_queue app_demo.files (λ a b, a ++ b)%string (λ _, true) false (app_demo.config "docker"))).*1
      (app_demo.config "docker") (map_order _)) as [H _].
    assert (AppConfig_Validate app_demo.files (λ a b, a ++ b)%string (λ _, true) false
      (map_to_list (validation_queue app_demo.files (λ a b, a ++ b)%string (λ _, true) false (app_demo.config "docker"))).*1
      (app_demo.config "docker") = None) as Hv by (vm_compute; reflexivity).
    split; [|exact Hv]. apply H in Hv as (_ & _ & _ & Hv). apply Hv. by left.
  - intros (_ & [[H _]|[[_ H]|[H _]]]); [discriminate H| |discriminate H]. vm_compute in H. discriminate H.
Defined.
