(* ===== verification/Backend.v ===== *)
(** * The configuration of a connection and its backend

    [internal/config/client_impl.go], [client_factory.go], [loader_http.go],
    [loader_reader.go], [compat.go], [handler_impl.go]: where the configuration
    comes from.  [internal/backend/handler.go], [handler_factory.go]: the handler
    that fetches the configuration of a connection after the handshake, starts
    the backend it names and puts the security overlay in front of it.

    The decoders of the configuration, [mergo], [reprint] and the backends' [New]
    functions are arguments. *)

From stdpp Require Import base gmap strings list.
From Stdlib Require Import Strings.Byte.
From S2P Require Import Prelude Messages Metadata MetadataJSON Handler GoStrings ConfigHTTP Http ConfigSSH ConfigAuth ConfigLog ConfigBackend.
From S2P Require Import SecurityConfig Security AuditMessage AuditLog AppConfig.

Local Open Scope Z_scope.

(** ** Configuration files *)

Definition FormatJSON : string := "json".
Definition FormatYAML : string := "yaml".

Definition Format_Validate (f : string) : option error :=
  if decide (f = FormatJSON) then None
  else if decide (f = FormatYAML) then None
  else Some (ErrorString (Sprintf "invalid format: %s" [VString f])).

Definition zero_http : HTTPClientConfiguration := MkHTTPClientConfiguration "" false 0 "" "" "" "" [] [] "".

Definition set_auth (a : AuthConfig) (cfg : AppConfig) : AppConfig :=
  MkAppConfig (App_SSH cfg) (App_ConfigServer cfg) a (App_Log cfg) (App_Metrics cfg) (App_GeoIP cfg) (App_Audit cfg)
    (App_Health cfg) (App_Security cfg) (App_Backend cfg) (App_Docker cfg) (App_DockerRun cfg) (App_Kubernetes cfg)
    (App_KubeRun cfg) (App_SSHProxy cfg).

(** [fixCompatibility]: the deprecated [auth.url] becomes the webhook of both
    methods, unless the new option is set. *)
Definition fixCompatibility (cfg : AppConfig) : AppConfig :=
  let a := App_Auth cfg in
  if decide (hc_URL (AuthHTTP a) ≠ "") then
    if decide (hc_URL (wh_HTTP (ConfigAuth.pw_Webhook (PasswordAuth a))) = "") then
      set_auth
        (MkAuthConfig
           (MkPasswordAuthConfig "webhook"
              (MkAuthWebhookClientConfig (AuthHTTP a) (wh_AuthTimeout (ConfigAuth.pw_Webhook (PasswordAuth a))))
              (pw_Kerberos (PasswordAuth a)))
           (MkPublicKeyAuthConfig "webhook"
              (MkAuthWebhookClientConfig (AuthHTTP a) (wh_AuthTimeout (ConfigAuth.pk_Webhook (PublicKeyAuth a)))))
           (KeyboardInteractiveAuth a) (GSSAPIAuth a) (Authz a) (AuthTimeout a) zero_http (Password a) (PubKey a))
        cfg
    else cfg
  else cfg.

(** [readerLoader.Load]: the YAML and JSON decoders read into the structure
    that is there. *)
Definition readerLoader_Load (decode_yaml decode_json : AppConfig → AppConfig * option error)
    (Defaults : AppConfig → AppConfig) (format : string) (cfg : AppConfig) : AppConfig * option error :=
  let '(cfg, err) :=
    if decide (format = FormatYAML) then decode_yaml cfg
    else if decide (format = FormatJSON) then decode_json cfg
    else (cfg, Some (ErrorString (Sprintf "invalid format: %s" [VString format]))) in
  match err with
  | Some _ => (cfg, err)
  | None => (Defaults (fixCompatibility cfg), None)
  end.

(** ** The configuration client *)

Record config_ResponseBody := MkConfigResponse {
  cr_meta : ConnectionAuthenticatedMetadata;
  cr_Config : AppConfig;
}.

Inductive config_metric := ConfigBackendRequests | ConfigBackendFailure.

(** [ConnectionAuthenticatedMetadata{}] *)
Definition zero_meta : ConnectionAuthenticatedMetadata :=
  MkAuthenticated (MkAuthPending (MkConnectionMetadata (MkRemoteAddress [] 0) "" None None None) "" "") "".

Section client.
Context {W : Type}.
Context (IP_String : list byte → string).
Context (NewRequest : string → string → option error)
        (Do : http_Client → http_Request → prog W (http_Response + error)).
Context (form : json → string + error).
Context (Increment : config_metric → list (string * string) → prog W unit).
(** [AppConfig{}], and the JSON decoder reading a response into a structure. *)
Context (zero_config : AppConfig)
        (decode_into : bool → json → config_ResponseBody → outcome (config_ResponseBody * option error)).

(** [NewClient]: without a URL there is no HTTP client. *)
Definition config_NewClient (lib : Library) (config : ClientConfig) : outcome (option client + error) :=
  if decide (hc_URL (client_HTTP config) ≠ "") then
    match NewClient lib (client_HTTP config) with
    | Done (inl c) => Done (inl (Some c))
    | Done (inr err) => Done (inr err)
    | Panic why => Panic why
    | Blocked why => Blocked why
    end
  else Done (inl None).

Definition config_getReason (lastError : error) : string :=
  match as_message lastError with Some m => code m | None => "UNKNOWN_ERROR" end.

(** [configServerRequest]: the response structure is filled by every attempt. *)
Definition configServerRequest (httpClient : client) (requestObject : json) (response : config_ResponseBody)
  : prog W (option error * config_ResponseBody) :=
  let* '(statusCode, err, read) :=
    client_Post NewRequest Do httpClient "" (Some (MkPayload (inl requestObject) (form requestObject)))
      (Some (λ strict j, decode_into strict j response)) in
  let response := default response read in
  match err with
  | Some _ => prog_ret (err, response)
  | None =>
      if decide (statusCode ≠ 200) then
        prog_ret (Some (MsgError (UserMessage "CONFIG_INVALID_STATUS_CODE" "Cannot authenticate at this time."
                                    "Configuration server responded with an invalid status code: %d" [VInt statusCode])),
                  response)
      else prog_ret (None, response)
  end.

Definition config_logAndReturnPermanentFailure (meta : ConnectionAuthenticatedMetadata) (lastError : error)
    (lastLabels : list (string * string)) : prog W (AppConfig * ConnectionAuthenticatedMetadata * option error) :=
  let err := Wrap (Some lastError) "CONFIG_BACKEND_ERROR" "Configuration request to backend failed, giving up" [] in
  do* Increment ConfigBackendFailure (("type", "hard") :: lastLabels) in
  prog_ret (zero_config, meta, Some err).

(** The loop of [Get]; a context as the number of waits it leaves time for. *)
Fixpoint config_rounds (waits : nat) (lastError : option error) (httpClient : client)
    (meta : ConnectionAuthenticatedMetadata) (request : json) (response : config_ResponseBody)
  : prog W (AppConfig * ConnectionAuthenticatedMetadata * option error) :=
  let lastLabels := [("retry", match lastError with Some _ => "1" | None => "0" end)] in
  do* Increment ConfigBackendRequests lastLabels in
  let* '(err, response) := configServerRequest httpClient request response in
  match err with
  | None => prog_ret (cr_Config response, cr_meta response, None)
  | Some lastError =>
      let lastLabels := lastLabels ++ [("reason", config_getReason lastError)] in
      do* Increment ConfigBackendFailure (("type", "soft") :: lastLabels) in
      match waits with
      | O => config_logAndReturnPermanentFailure meta lastError lastLabels
      | S waits => config_rounds waits (Some lastError) httpClient meta request response
      end
  end.

Definition config_Get (httpClient : option client) (waits : nat) (meta : ConnectionAuthenticatedMetadata)
  : prog W (AppConfig * ConnectionAuthenticatedMetadata * option error) :=
  match httpClient with
  | None => prog_ret (zero_config, meta, None)
  | Some httpClient =>
      config_rounds waits None httpClient meta (Marshal IP_String meta) (MkConfigResponse zero_meta zero_config)
  end.

(** [httpLoader.LoadConnection]: what the server returned is merged into the
    configuration. *)
Definition LoadConnection (Merge : AppConfig → AppConfig → AppConfig + error) (httpClient : option client) (waits : nat)
    (meta : ConnectionAuthenticatedMetadata) (config : AppConfig)
  : prog W (AppConfig * ConnectionAuthenticatedMetadata * option error) :=
  let* '(newAppConfig, newMeta, err) := config_Get httpClient waits meta in
  match err with
  | Some _ => prog_ret (config, meta, err)
  | None =>
      match Merge config newAppConfig with
      | inr err => prog_ret (config, meta, Some err)
      | inl config => prog_ret (config, newMeta, None)
      end
  end.
End client.

(** The configuration server built on this library: the metadata of its
    responses is not set. *)
Section config_server.
Context {W : Type} (ParseIP : string → list byte).
Context (OnConfig : ConnectionAuthenticatedMetadata → prog W (AppConfig * option error)).
Context (response_json : config_ResponseBody → json + error).

Definition config_OnRequest : RequestHandler W := λ request response,
  let* requestObject := of_outcome (Decode (Unmarshal ParseIP) request) in
  match requestObject with
  | inr err => prog_ret (response, Some err)
  | inl requestObject =>
      let* '(appConfig, err) := OnConfig requestObject in
      match err with
      | Some err => prog_ret (response, Some (Failed err))
      | None => prog_ret (MkServerResponse 200 (MkBody DOther (response_json (MkConfigResponse zero_meta appConfig))), None)
      end
  end.
End config_server.

(** ** The backend of a connection *)

(** The state of [networkHandler]. *)
Record backend_networkHandler (W : Type) := MkBackendNetwork {
  bn_lock : bool;
  bn_backend : option (NetworkConnectionHandler W);
}.
Arguments MkBackendNetwork {W} _ _.
Arguments bn_lock {W} _.
Arguments bn_backend {W} _.

(** What a backend is created with. *)
Definition Constructor (W : Type) : Type := AppConfig → prog W (option (NetworkConnectionHandler W) * option error).

Section backend.
(** The connection's handler keeps its backend in a store of its own ([S]),
    around the store of the backends. *)
Context {W : Type} `{!Field W Z}.
Abbreviation state := (backend_networkHandler W * W)%type.
Context (lib : Library) (path_Join : string → string → string) (IsNone : string → bool).
Context (order : AppConfig → list string).
Context (docker_New kubernetes_New sshproxy_New : Constructor W).
(** The loader of the connection's configuration. *)
Context (load : ConnectionAuthenticatedMetadata → AppConfig → prog W (AppConfig * ConnectionAuthenticatedMetadata * option error)).
(** [structutils.Copy] fills a new configuration, and may fail on the way. *)
Context (Copy : AppConfig → AppConfig * option error).
Context (config : AppConfig) (defaultAuthResponse : AuthResponse).

(** A call of the layers below. *)
Definition below {A} (c : prog W A) : prog state A :=
  λ s, match c s.2 with
       | Done (a, w) => Done (a, (s.1, w))
       | Panic why => Panic why
       | Blocked why => Blocked why
       end.

Definition errorf (text : string) (err : error) : error :=
  WrapError (Sprintf (text ++ " (%w)") [VString (Error err)]) err.

Definition authResponse (meta : ConnectionAuthPendingMetadata)
  : prog state (AuthResponse * ConnectionAuthenticatedMetadata * option error) :=
  match defaultAuthResponse with
  | AuthResponseUnavailable =>
      prog_ret (AuthResponseUnavailable, AuthFailed meta,
                Some (ErrorString "the backend handler does not support authentication"))
  | AuthResponseSuccess => prog_ret (AuthResponseSuccess, Authenticated meta (Username meta), None)
  | _ => prog_ret (AuthResponseFailure, AuthFailed meta, None)
  end.

Definition getConfiguredBackend (appConfig : AppConfig) : prog W (option (NetworkConnectionHandler W) * option error) :=
  if decide (App_Backend appConfig = "docker") then docker_New appConfig
  else if decide (App_Backend appConfig = "kubernetes") then kubernetes_New appConfig
  else if decide (App_Backend appConfig = "sshproxy") then sshproxy_New appConfig
  else prog_ret (None, Some (ErrorString (Sprintf "invalid backend: %s" [VString (App_Backend appConfig)]))).

Definition loadConnectionSpecificConfig (meta : ConnectionAuthenticatedMetadata)
  : prog W (AppConfig * ConnectionAuthenticatedMetadata * option error) :=
  match Copy config with
  | (appConfig, Some err) => prog_ret (appConfig, meta, Some (errorf "failed to copy application configuration" err))
  | (appConfig, None) =>
      let* '(appConfig, newMeta, err) := load meta appConfig in
      match err with
      | Some err => prog_ret (appConfig, meta, Some (errorf "failed to load connections-specific configuration" err))
      | None =>
          match AppConfig_Validate lib path_Join IsNone true (order appConfig) appConfig with
          | Some err =>
              prog_ret (appConfig, meta, Some (errorf "configuration server returned invalid configuration" err))
          | None => prog_ret (appConfig, ConnectionAuthenticatedMetadata_Merge meta newMeta, None)
          end
      end
  end.

Definition set_backend (b : option (NetworkConnectionHandler W)) : prog state unit :=
  λ s, Done (tt, (MkBackendNetwork (bn_lock s.1) b, s.2)).

(** A connection handler of the layers below, called from here. *)
Definition initBackend (meta : ConnectionAuthenticatedMetadata) (appConfig : AppConfig)
  : prog state (option (SSHConnectionHandler W) * ConnectionAuthenticatedMetadata * option error) :=
  let* '(backend, failureReason) := below (getConfiguredBackend appConfig) in
  match failureReason with
  | Some _ => prog_ret (None, meta, failureReason)
  | None =>
      match security_New (App_Security appConfig) (default nil_NetworkConnectionHandler backend) with
      | (_, Some err) => prog_ret (None, meta, Some err)
      | (backend, None) =>
          do* set_backend backend in
          below (OnHandshakeSuccess (default nil_NetworkConnectionHandler backend) meta)
      end
  end.

Definition backend_OnHandshakeSuccess (meta : ConnectionAuthenticatedMetadata)
  : prog state (option (SSHConnectionHandler W) * ConnectionAuthenticatedMetadata * option error) :=
  let* '(appConfig, newMeta, err) := below (loadConnectionSpecificConfig meta) in
  match err with
  | Some _ => prog_ret (None, meta, err)
  | None => initBackend newMeta appConfig
  end.

Definition bn_Lock : prog state unit :=
  λ s, if bn_lock s.1 then Blocked "networkHandler.lock"
       else Done (tt, (MkBackendNetwork true (bn_backend s.1), s.2)).
Definition bn_Unlock : prog state unit :=
  λ s, Done (tt, (MkBackendNetwork false (bn_backend s.1), s.2)).
Definition current_backend : prog state (option (NetworkConnectionHandler W)) :=
  λ s, Done (bn_backend s.1, s).

Definition backend_OnDisconnect : prog state unit :=
  do* bn_Lock in
  let* backend := current_backend in
  match backend with
  | Some b => do* below (OnDisconnect b) in do* set_backend None in bn_Unlock
  | None => bn_Unlock
  end.

Definition backend_OnShutdown (ctx : Context) : prog state unit :=
  do* bn_Lock in
  let* backend := current_backend in
  do* bn_Unlock in
  match backend with
  | Some b => below (OnNetShutdown b ctx)
  | None => prog_ret tt
  end.
End backend.
