(* ===== verification/BackendSpec.v ===== *)
(** * What the selection of the backend guarantees

    Theorems on [Backend]: every connection handler it hands to the server is
    behind the security overlay of the connection's own, validated
    configuration; and where the configuration client deviates. *)

From stdpp Require Import base gmap strings list.
From Stdlib Require Import Strings.Byte.
From S2P Require Import Prelude Messages Metadata MetadataJSON Handler GoStrings ConfigHTTP Http ConfigSSH ConfigAuth ConfigLog ConfigBackend.
From S2P Require Import SecurityConfig Security SecuritySpec AuditMessage AuditLog AppConfig Backend.

Local Open Scope Z_scope.

(** ** Behind the overlay *)

(** The handler treats the requests of a session as the policy of the
    configuration says, in front of some backend. *)
Definition follows_policy {W} (cfg : SecurityConfig) (h : SessionChannelHandler W) : Prop :=
  ∃ backend, ∀ r w,
    (permitted cfg r → session_call h r w = forward cfg backend r w) ∧
    (¬ permitted cfg r →
     ∃ e, session_call h r w = Done (Some e, w) ∧ error_Code e = Some (rejection_code r)).

Lemma overlaid_sessions {W} cfg (backend : SessionChannelHandler W) :
  SecurityConfig_Validate cfg = None → follows_policy cfg (sessionHandler cfg backend).
Proof.
  intros [Hk _]%security_config_validate_iff. exists backend. intros r w.
  rewrite !Forall_cons in Hk. destruct_and!. by apply request_implements.
Qed.

Lemma session_channels_overlaid {W} `{!Field W Z} cfg (backend : SSHConnectionHandler W) meta extra session w h w' :
  SecurityConfig_Validate cfg = None →
  OnSessionChannel (security_sshConnectionHandler cfg backend) meta extra session w = Done ((Some h, None), w') →
  follows_policy cfg h.
Proof.
  intros Hv. cbn. unfold sshConnectionHandler_OnSessionChannel. run_prog.
  repeat (split_match; try done). all: try (intros [= <- <-]; by apply overlaid_sessions).
Qed.

Section overlay.
Context {W : Type} `{!Field W Z}.
Context (lib : Library) (path_Join : string → string → string) (IsNone : string → bool) (order : AppConfig → list string).
Context (docker_New kubernetes_New sshproxy_New : Constructor W).
Context (load : ConnectionAuthenticatedMetadata → AppConfig → prog W (AppConfig * ConnectionAuthenticatedMetadata * option error)).
Context (Copy : AppConfig → AppConfig * option error) (config : AppConfig).

Abbreviation chosen_handshake :=
  (backend_OnHandshakeSuccess lib path_Join IsNone order docker_New kubernetes_New sshproxy_New load Copy config).

Lemma below_done {A} (c : prog W A) s a s' :
  below c s = Done (a, s') → c s.2 = Done (a, s'.2) ∧ s'.1 = s.1.
Proof. unfold below. destruct (c s.2) as [[a' w]| |]; [|done..]. by intros [= <- <-]. Qed.

(** The configuration of the connection was loaded and is valid. *)
Definition configured (appConfig : AppConfig) : Prop :=
  AppConfig_Validate lib path_Join IsNone true (order appConfig) appConfig = None ∧
  ∃ meta base w meta' w', Copy config = (base, None) ∧ load meta base w = Done ((appConfig, meta', None), w').

Lemma loaded_config meta w appConfig m w' :
  loadConnectionSpecificConfig lib path_Join IsNone order load Copy config meta w = Done ((appConfig, m, None), w') →
  configured appConfig.
Proof.
  unfold loadConnectionSpecificConfig. destruct (Copy config) as [base []] eqn:Ec; [done|]. unfold prog_bind.
  destruct (load meta base w) as [[[[cfg newMeta] [err|]] w1]| |] eqn:El; try done.
  destruct (AppConfig_Validate _ _ _ _ _ cfg) eqn:Ev; [done|]. intros [= <- <- <-].
  split; [done|]. by exists meta, base, w, newMeta, w1.
Qed.

(** Claim C9. A connection is only served behind the security overlay: the handler the
    server gets for a connection is the overlay of the connection's own
    configuration, which has been loaded and passed validation, around the
    handler of the backend that this configuration names; and so every session
    on it follows the policy of that configuration. *)
Theorem connections_are_overlaid meta s conn m s' :
  chosen_handshake meta s = Done ((Some conn, m, None), s') →
  ∃ appConfig backend inner m' w1 w2 w3 w4,
    configured appConfig ∧
    getConfiguredBackend docker_New kubernetes_New sshproxy_New appConfig w1 = Done ((backend, None), w2) ∧
    OnHandshakeSuccess (default nil_NetworkConnectionHandler backend) m w3 = Done ((inner, m', None), w4) ∧
    conn = security_sshConnectionHandler (App_Security appConfig) (default nil_SSHConnectionHandler inner) ∧
    ∀ cm extra session w h w',
      OnSessionChannel conn cm extra session w = Done ((Some h, None), w') → follows_policy (App_Security appConfig) h.
Proof.
  unfold backend_OnHandshakeSuccess. unfold prog_bind at 1.
  destruct (below _ s) as [[[[appConfig newMeta] [err|]] s1]| |] eqn:El; try done.
  apply below_done in El as [El _]. apply loaded_config in El. unfold initBackend, prog_bind at 1.
  destruct (below _ s1) as [[[backend [err|]] s2]| |] eqn:Eb; try done. apply below_done in Eb as [Eb _].
  unfold security_New. destruct (SecurityConfig_Validate (App_Security appConfig)) as [err|] eqn:Ev; [done|].
  unfold prog_bind. cbn. intros [Eh _]%below_done. cbn in Eh. unfold security_networkHandler_OnHandshakeSuccess, prog_bind in Eh.
  destruct (OnHandshakeSuccess _ newMeta s2.2) as [[[[inner m'] [err|]] w4]| |] eqn:Ei; try done.
  injection Eh as <- <- _. exists appConfig, backend, inner, m', (s1.2), (s2.2), (s2.2), w4.
  split_and!; [done..|]. intros. by eapply session_channels_overlaid.
Qed.

(** The end of a connection disconnects its backend once. *)
Theorem backend_disconnected_once b w w' :
  OnDisconnect b w = Done (tt, w') →
  ∃ s' : backend_networkHandler W * W, backend_OnDisconnect (MkBackendNetwork false (Some b), w) = Done (tt, s') ∧ s'.2 = w' ∧
    backend_OnDisconnect s' = Done (tt, s').
Proof.
  intros E. unfold backend_OnDisconnect, bn_Lock, current_backend, set_backend, bn_Unlock, below, prog_bind.
  cbn [bn_lock bn_backend fst snd]. rewrite E. by eexists.
Qed.
End overlay.

(** ** The configuration client *)

(** Reading a response of the configuration server into the structure that is
    there: the error of the attempt and the structure afterwards. *)
Section fetching.
Context {W : Type} (IP_String : list byte → string) (NewRequest : string → string → option error).
Context (Do : http_Client → http_Request → prog W (http_Response + error)) (form : json → string + error).
Context (Increment : config_metric → list (string * string) → prog W unit).
Context (zero_config : AppConfig)
        (decode_into : bool → json → config_ResponseBody → outcome (config_ResponseBody * option error)).
Context (httpClient : client).
Hypothesis json_encoding : hc_RequestEncoding (cl_config httpClient) = "" ∨ hc_RequestEncoding (cl_config httpClient) = "JSON".
Hypothesis url_parses : NewRequest "POST" (hc_URL (cl_config httpClient) ++ "")%string = None.

Definition config_request (j : json) : http_Request :=
  MkHttpRequest "POST" (hc_URL (cl_config httpClient) ++ "")
    (Header_Set "Accept" "application/json"
       (Header_Set "Content-Type" "application/json" (foldl add_header ∅ (cl_extraHeaders httpClient)))) (Document j).

Lemma config_attempt j response w status doc w' response' :
  Do (createHTTPClient httpClient) (config_request j) w
  = Done (inl (MkHttpResponse status (inl (Some doc))), w') →
  decode_into (negb (cl_allowLaxDecoding httpClient)) doc response = Done (response', None) →
  configServerRequest NewRequest Do form decode_into httpClient j response w =
  Done (if decide (status ≠ 200)
        then (Some (MsgError (UserMessage "CONFIG_INVALID_STATUS_CODE" "Cannot authenticate at this time."
                                "Configuration server responded with an invalid status code: %d" [VInt status])), response')
        else (None, response'), w').
Proof.
  intros Ed Er. unfold configServerRequest, client_Post, Http.request, requestURLWithLogger, prog_bind, of_outcome.
  unfold createRequestForURL. cbn [as_json]. rewrite decide_True by done. rewrite url_parses.
  rewrite decide_True by done. fold (config_request j).
  change (MkHttpRequest _ _ _ _) with (config_request j). rewrite Ed. cbn [rs_Body]. rewrite Er. cbn. by case_decide.
Qed.

(** What a refused answer says is not forgotten: if the first answer of the
    server comes with an error status, the configuration it carries is the one
    the next answer is read into, so whatever the accepted answer leaves out
    takes effect as the refused one said. *)
Theorem refused_configuration_is_kept n meta w w1 w2 status doc1 doc2 r1 r2 :
  let request := config_request (Marshal IP_String meta) in
  let strict := negb (cl_allowLaxDecoding httpClient) in
  (∀ m l w, Increment m l w = Done (tt, w)) →
  Do (createHTTPClient httpClient) request w = Done (inl (MkHttpResponse status (inl (Some doc1))), w1) → status ≠ 200 →
  Do (createHTTPClient httpClient) request w1 = Done (inl (MkHttpResponse 200 (inl (Some doc2))), w2) →
  decode_into strict doc1 (MkConfigResponse zero_meta zero_config) = Done (r1, None) →
  decode_into strict doc2 r1 = Done (r2, None) →
  config_Get IP_String NewRequest Do form Increment zero_config decode_into (Some httpClient) (S n) meta w
  = Done ((cr_Config r2, cr_meta r2, None), w2).
Proof.
  cbn zeta. intros Hi E1 Hs E2 D1 D2. unfold config_Get. cbn [config_rounds].
  rewrite (bind_done _ _ _ _ _ (Hi _ _ _)).
  rewrite (bind_done _ _ _ _ _ (config_attempt _ _ _ _ _ _ _ E1 D1)). rewrite decide_True by done.
  rewrite (bind_done _ _ _ _ _ (Hi _ _ _)). destruct n as [|n]; cbn [config_rounds].
  all: rewrite (bind_done _ _ _ _ _ (Hi _ _ _)).
  all: rewrite (bind_done _ _ _ _ _ (config_attempt _ _ _ _ _ _ _ E2 D2)).
  all: reflexivity.
Qed.
End fetching.

(** A configuration server that does not repeat the metadata, as the one built on
    this library never does, erases it: the backend gets none of the metadata,
    environment variables and files that authentication found. *)
Theorem configuration_erases_metadata {W} lib path_Join IsNone order load Copy config meta appConfig (w w' : W) m :
  (∀ base, load meta base w = Done ((appConfig, zero_meta, None), w')) →
  loadConnectionSpecificConfig lib path_Join IsNone order load Copy config meta w = Done ((appConfig, m, None), w') →
  let conn := pending_conn (auth_pending m) in
  Metadata_ conn = Some ∅ ∧ Environment conn = Some ∅ ∧ Files conn = Some ∅ ∧
  AuthenticatedUsername m = AuthenticatedUsername meta.
Proof.
  intros Hl. unfold loadConnectionSpecificConfig. destruct (Copy config) as [base []]; [done|]. unfold prog_bind.
  rewrite Hl. destruct (AppConfig_Validate _ _ _ _ _ _); [done|]. intros [= <-]. cbn zeta.
  unfold ConnectionAuthenticatedMetadata_Merge. cbn [auth_pending pending_conn AuthenticatedUsername].
  rewrite ConnectionMetadata_Merge_eq. by cbn.
Qed.

(** ** An instance *)

Module backend_demo.
Definition join (a b : string) : string := (a ++ "/" ++ b)%string.
Definition visit (cfg : AppConfig) : list string :=
  (map_to_list (validation_queue app_demo.files join (λ _, true) true cfg)).*1.

Definition copied (cfg : AppConfig) : AppConfig * option error := (cfg, None).

(** A backend that accepts every connection. *)
Definition connection : SSHConnectionHandler Z :=
  security_sshConnectionHandler app_demo.security nil_SSHConnectionHandler.
Definition backend : NetworkConnectionHandler Z :=
  {| OnAuthPassword := λ m _, unavailable m; OnAuthPubKey := λ m _, unavailable m;
     OnAuthKeyboardInteractive := λ m _, unavailable m; OnAuthGSSAPI := λ _, prog_ret None;
     OnHandshakeFailed := λ _ _, prog_ret tt;
     OnHandshakeSuccess := λ m, prog_ret (Some connection, m, None);
     OnDisconnect := prog_ret tt; OnNetShutdown := λ _, prog_ret tt |}.
Definition New : Constructor Z := λ _, prog_ret (Some backend, None).

(** No configuration server: the configuration is that of the program. *)
Definition load (meta : ConnectionAuthenticatedMetadata) (cfg : AppConfig)
  : prog Z (AppConfig * ConnectionAuthenticatedMetadata * option error) := prog_ret (cfg, meta, None).
Definition own : AppConfig := app_demo.config "docker".

Definition fresh : backend_networkHandler Z * Z := (MkBackendNetwork false None, 0).
Definition user : ConnectionAuthenticatedMetadata := demo_authenticated.

Lemma connections_are_overlaid_witness :
  ∃ appConfig, configured app_demo.files join (λ _, true) visit load copied own appConfig ∧
    ∃ inner, security_sshConnectionHandler app_demo.security connection
             = security_sshConnectionHandler (App_Security appConfig) inner.
Proof.
  destruct (connections_are_overlaid app_demo.files join (λ _, true) visit New New New load copied own user fresh
              (security_sshConnectionHandler app_demo.security connection)
              (ConnectionAuthenticatedMetadata_Merge user user)
              (MkBackendNetwork false (Some (security_networkHandler app_demo.security backend)), 0))
    as (appConfig & b & inner & m' & w1 & w2 & w3 & w4 & Hc & _ & _ & E & _).
  - vm_compute. reflexivity.
  - exists appConfig. split; [exact Hc|]. eexists. exact E.
Defined.

Lemma backend_disconnected_once_witness :
  ∃ s' : backend_networkHandler Z * Z,
    backend_OnDisconnect (MkBackendNetwork false (Some backend), 0) = Done (tt, s') ∧ s'.2 = 0 ∧
    backend_OnDisconnect s' = Done (tt, s').
Proof. by apply (backend_disconnected_once backend). Defined.

(** A server that first refuses with one backend and then accepts without
    naming one: the refused one is used. *)
Definition docs (status : Z) : http_Response + error := inl (MkHttpResponse status (inl (Some JNull))).
Definition network : http_Client → http_Request → prog Z (http_Response + error) :=
  λ _ _ w, Done (if decide (w = 0) then docs 500 else docs 200, w + 1).
Definition demo_client : client := MkClient app_demo.webhook None [] false.
Definition read (strict : bool) (j : json) (r : config_ResponseBody) : outcome (config_ResponseBody * option error) :=
  Done (MkConfigResponse (cr_meta r) (app_demo.config (if decide (App_Backend (cr_Config r) = "") then "kubernetes"
                                                       else App_Backend (cr_Config r))), None).

Lemma refused_configuration_is_kept_witness :
  config_Get demo_IP_String (λ _ _, None) network (λ _, inr (ErrorString "no form")) (λ _ _, prog_ret tt)
    (app_demo.config "") read (Some demo_client) 1 user 0
  = Done ((app_demo.config "kubernetes", zero_meta, None), 2).
Proof.
  apply (refused_configuration_is_kept demo_IP_String (λ _ _, None) network (λ _, inr (ErrorString "no form"))
           (λ _ _, prog_ret tt) (app_demo.config "") read demo_client (or_introl eq_refl) eq_refl 0 user 0 1 2 500 JNull JNull
           (MkConfigResponse zero_meta (app_demo.config "kubernetes"))
           (MkConfigResponse zero_meta (app_demo.config "kubernetes"))); try reflexivity. done.
Defined.

Lemma configuration_erases_metadata_witness :
  Metadata_ (pending_conn (auth_pending user)) = Some {[ "team" := MkValue "ops" false ]} ∧
  Metadata_ (pending_conn (auth_pending (ConnectionAuthenticatedMetadata_Merge user zero_meta))) = Some ∅.
Proof.
  split; [reflexivity|].
  apply (configuration_erases_metadata app_demo.files join (λ _, true) visit
           (λ meta cfg, prog_ret (own, zero_meta, None)) copied own user own 0 0
           (ConnectionAuthenticatedMetadata_Merge user zero_meta)); [done|].
  vm_compute. reflexivity.
Defined.
End backend_demo.
