(* ===== verification/DockerClient.v ===== *)
(** * The Docker client

    [internal/docker/docker_impl.go] and [internal/docker/image.go]: images,
    containers and the programs run in them, on top of the client library of the
    Docker daemon. *)

From stdpp Require Import base gmap strings list fin_maps pretty.
From Stdlib Require Import Strings.Byte.
From S2P Require Import Prelude Messages GoStrings ConfigHTTP ConfigBackend Requests.

Local Open Scope Z_scope.

(** ** The daemon

    The calls of the client library, and what the program reads from an answer:
    identifiers, states, and the data that will arrive on an attached stream, cut
    into the pieces in which it arrives.  Options that are always the same are
    left out. *)

Record ExecConfig := MkExecConfig {
  ec_Tty : bool;
  ec_Env : list string;
  ec_Cmd : list string;
}.

Inductive request :=
| ImageInspectWithRaw (image : string)
| ImagePull (image RegistryAuth : string)
| ContainerCreate (config : container_Config) (host : option container_HostConfig) (network platform : option nat)
    (name : string)
| ContainerAttach (containerID : string)
| RContainerStart (containerID : string)
| ContainerInspect (containerID : string)
| ContainerRemove (containerID : string)
| RContainerStop (containerID : string) (timeout : Z)
| ContainerKill (containerID signal : string)
| ContainerResize (containerID : string) (height width : Z)
| ContainerExecCreate (containerID : string) (config : ExecConfig)
| ContainerExecAttach (execID : string) (tty : bool)
| ContainerExecInspect (execID : string)
| ContainerExecResize (execID : string) (height width : Z).

Record reply := MkReply {
  r_ID : string;
  r_Running : bool;
  r_Restarting : bool;
  r_ExitCode : Z;
  r_Status : string;
  r_Stream : list (list byte);
  r_ReadAll : option error;      (** reading and closing the answer of [ImagePull] *)
  r_Close : option error;
}.

(** What [reference.ParseNamed] says of an image name. *)
Inductive named := Canonical | ErrNameNotCanonical | NotAName (err : error).

(** The client library: the answer to a request may depend on everything that
    was asked before. *)
Record DockerLibrary := MkDockerLibrary {
  daemon : list request → request → reply + error;
  NewClient : DockerConfig → option error;       (** [getDockerClient] *)
  IsErrNotFound : error → bool;
  IsErrNotImplemented : error → bool;
  IsErrPluginPermissionDenied : error → bool;
  IsErrUnauthorized : error → bool;
  ParseNamed : string → named;
  encode_auth : nat → option string;             (** JSON in base64; [None]: it cannot be encoded *)
  StdCopy : list byte → list (bool * list byte); (** what it writes, to stderr ([true]) or stdout *)
}.

(** ** Objects *)

(** [removeLock] is held by [remove] only and is released whenever it returns. *)
Record dockerV20Container := MkDockerContainer {
  containerID : string;
  c_tty : bool;
  c_lock : bool;
  c_wg : Z;
  shuttingDown : bool;
  shutdown : bool;
}.

(** [e_stream] and [e_input] are the two directions of [attachResult]; [e_once]
    is the [once] of [run]. *)
Record dockerV20Exec := MkDockerExec {
  e_container : nat;
  execID : string;
  e_stream : list (list byte);
  e_input : list byte;
  e_input_closed : bool;
  e_tty : bool;
  pid : Z;
  doneClosed : bool;
  e_lock : bool;
  e_once : bool;
}.

Record docker_store := MkDockerStore {
  history : list request;
  containers : list dockerV20Container;
  execs : list dockerV20Exec;
  backendRequestsMetric : Z;
  backendFailuresMetric : Z;
}.

Definition add_history (r : request) (s : docker_store) : docker_store :=
  MkDockerStore (history s ++ [r]) (containers s) (execs s) (backendRequestsMetric s) (backendFailuresMetric s).
Definition set_containers (l : list dockerV20Container) (s : docker_store) : docker_store :=
  MkDockerStore (history s) l (execs s) (backendRequestsMetric s) (backendFailuresMetric s).
Definition set_execs (l : list dockerV20Exec) (s : docker_store) : docker_store :=
  MkDockerStore (history s) (containers s) l (backendRequestsMetric s) (backendFailuresMetric s).
Definition inc_requests (s : docker_store) : docker_store :=
  MkDockerStore (history s) (containers s) (execs s) (backendRequestsMetric s + 1) (backendFailuresMetric s).
Definition inc_failures (s : docker_store) : docker_store :=
  MkDockerStore (history s) (containers s) (execs s) (backendRequestsMetric s) (backendFailuresMetric s + 1).

Definition set_c_lock (b : bool) (c : dockerV20Container) :=
  MkDockerContainer (containerID c) (c_tty c) b (c_wg c) (shuttingDown c) (shutdown c).
Definition set_c_wg (n : Z) (c : dockerV20Container) :=
  MkDockerContainer (containerID c) (c_tty c) (c_lock c) n (shuttingDown c) (shutdown c).
Definition set_shuttingDown (c : dockerV20Container) :=
  MkDockerContainer (containerID c) (c_tty c) (c_lock c) (c_wg c) true (shutdown c).
Definition set_shutdown (c : dockerV20Container) :=
  MkDockerContainer (containerID c) (c_tty c) (c_lock c) (c_wg c) (shuttingDown c) true.

Definition set_e_stream (l : list (list byte)) (e : dockerV20Exec) :=
  MkDockerExec (e_container e) (execID e) l (e_input e) (e_input_closed e) (e_tty e) (pid e) (doneClosed e) (e_lock e) (e_once e).
Definition set_e_input (l : list byte) (e : dockerV20Exec) :=
  MkDockerExec (e_container e) (execID e) (e_stream e) l true (e_tty e) (pid e) (doneClosed e) (e_lock e) (e_once e).
Definition set_pid (n : Z) (e : dockerV20Exec) :=
  MkDockerExec (e_container e) (execID e) (e_stream e) (e_input e) (e_input_closed e) (e_tty e) n (doneClosed e) (e_lock e) (e_once e).
Definition set_doneClosed (e : dockerV20Exec) :=
  MkDockerExec (e_container e) (execID e) (e_stream e) (e_input e) (e_input_closed e) (e_tty e) (pid e) true (e_lock e) (e_once e).
Definition set_e_lock (b : bool) (e : dockerV20Exec) :=
  MkDockerExec (e_container e) (execID e) (e_stream e) (e_input e) (e_input_closed e) (e_tty e) (pid e) (doneClosed e) b (e_once e).
Definition set_e_once (e : dockerV20Exec) :=
  MkDockerExec (e_container e) (execID e) (e_stream e) (e_input e) (e_input_closed e) (e_tty e) (pid e) (doneClosed e) (e_lock e) true.

Section client.
Context {W : Type} `{!Field W docker_store}.
Context (lib : DockerLibrary) (config : DockerConfig).

Definition store : prog W docker_store := λ w, Done (fget w, w).
Definition update_store (f : docker_store → docker_store) : prog W unit := λ w, Done (tt, fset (f (fget w)) w).

Definition ask (r : request) : prog W (reply + error) :=
  let* s := store in
  do* update_store (add_history r) in
  prog_ret (daemon lib (history s) r).

(** A request counted by the metrics. *)
Definition counted (r : request) : prog W (reply + error) :=
  do* update_store inc_requests in ask r.
Definition failed : prog W unit := update_store inc_failures.

Definition container_at (c : nat) : prog W dockerV20Container :=
  let* s := store in
  match containers s !! c with
  | Some x => prog_ret x
  | None => panic "runtime error: invalid memory address or nil pointer dereference"
  end.
Definition update_container (c : nat) (f : dockerV20Container → dockerV20Container) : prog W unit :=
  update_store (λ s, set_containers (alter f c (containers s)) s).

Definition exec_at (e : nat) : prog W dockerV20Exec :=
  let* s := store in
  match execs s !! e with
  | Some x => prog_ret x
  | None => panic "runtime error: invalid memory address or nil pointer dereference"
  end.
Definition update_exec (e : nat) (f : dockerV20Exec → dockerV20Exec) : prog W unit :=
  update_store (λ s, set_execs (alter f e (execs s)) s).

(** [sync.Mutex] and [sync.WaitGroup] *)
Definition lock_container (c : nat) : prog W unit :=
  let* x := container_at c in
  if c_lock x then block "sync.Mutex.Lock" else update_container c (set_c_lock true).
Definition unlock_container (c : nat) : prog W unit := update_container c (set_c_lock false).
Definition lock_exec (e : nat) : prog W unit :=
  let* x := exec_at e in
  if e_lock x then block "sync.Mutex.Lock" else update_exec e (set_e_lock true).
Definition unlock_exec (e : nat) : prog W unit := update_exec e (set_e_lock false).

Definition wg_Add (c : nat) : prog W unit := update_container c (λ x, set_c_wg (c_wg x + 1) x).
Definition wg_Done (c : nat) : prog W unit :=
  let* x := container_at c in
  if decide (c_wg x - 1 < 0) then panic "sync: negative WaitGroup counter"
  else update_container c (set_c_wg (c_wg x - 1)).
(** The wait ends when all counted programs have ended. *)
Definition wg_Wait (c : nat) : prog W unit :=
  let* x := container_at c in
  if decide (c_wg x = 0) then prog_ret tt else block "sync.WaitGroup.Wait".

Definition isPermanentError (err : error) : bool :=
  IsErrNotFound lib err || IsErrNotImplemented lib err || IsErrPluginPermissionDenied lib err || IsErrUnauthorized lib err.

(** ** Images *)

Definition getCanonicalImageName (image : string) : string + error :=
  match ParseNamed lib image with
  | Canonical => inl image
  | ErrNameNotCanonical =>
      if negb (Contains image "/") then inl ("docker.io/library/" ++ image)%string
      else inl ("docker.io/" ++ image)%string
  | NotAName err => inr err
  end.

(** The check of [dockerV20ClientFactory.get] and the creation of the client. *)
Definition factory_get : option error :=
  match ContainerConfig (Launch (Execution config)) with
  | Some cc =>
      if decide (cc_Image cc = "") then Some (MsgError (NewMessage "DOCKER_CONFIG_ERROR" "no image name specified" []))
      else NewClient lib config
  | None => Some (MsgError (NewMessage "DOCKER_CONFIG_ERROR" "no image name specified" []))
  end.

Definition getImageName : prog W string :=
  match ContainerConfig (Launch (Execution config)) with
  | Some cc => prog_ret (cc_Image cc)
  | None => panic "runtime error: invalid memory address or nil pointer dereference"
  end.

(** The error returned at the end wraps the outer [lastError], which the loop
    never sets. *)
Definition hasImage (c : ctx) : prog W (bool * option error) :=
  let* image := getImageName in
  retry c
    (let* r := counted (ImageInspectWithRaw image) in
     match r with
     | inl _ => prog_ret (Return (true, None))
     | inr lastError =>
         if IsErrNotFound lib lastError then prog_ret (Return (false, None))
         else do* failed in prog_ret (Again lastError)
     end)
    (λ _, prog_ret (false, Some (Wrap None "DOCKER_IMAGE_LISTING_FAILED" "failed to list images, giving up" []))).

Definition pull_failed (image : string) (lastError : error) : option error :=
  Some (WrapUser (Some lastError) "DOCKER_IMAGE_PULL_FAILED" UserMessageInitializeSSHSession
          "failed to pull image %s, giving up" [VString image]).

Definition client_pullImage (c : ctx) : prog W (option error) :=
  let* image := getImageName in
  match getCanonicalImageName image with
  | inr err => prog_ret (Some err)
  | inl image =>
      match match Execution_Auth (Execution config) with None => Some "" | Some auth => encode_auth lib auth end with
      | None => prog_ret (Some (Errorf "BUG: could not marshal auth structure" []))
      | Some auth =>
          retry c
            (let* r := counted (ImagePull image auth) in
             let result := match r with
                           | inr err => Some err
                           | inl r => match r_ReadAll r with Some err => Some err | None => r_Close r end
                           end in
             match result with
             | None => prog_ret (Return None)
             | Some lastError =>
                 do* failed in
                 if IsErrUnauthorized lib lastError || IsErrNotFound lib lastError
                    || Contains (Error lastError) "no basic auth credential"
                 then prog_ret (Return (pull_failed image lastError))
                 else prog_ret (Again lastError)
             end)
            (λ lastError, prog_ret (pull_failed image lastError))
      end
  end.

(** ** Containers *)

Definition createEnv (env : gmap string string) : list string :=
  (λ kv, Sprintf "%s=%s" [VString kv.1; VString kv.2]) <$> map_to_list env.

Definition createConfig (containerConfig : option container_Config) (labels env : gmap string string)
    (tty : option bool) (cmd : list string) : container_Config :=
  let new := default (MkContainerConfig "" None [] [] false false false false false false 0) containerConfig in
  let new :=
    MkContainerConfig (cc_Image new) (Some (labels ∪ default ∅ (cc_Labels new))) (IdleCommand (Execution config))
      (cc_Env new ++ createEnv env)%list (cc_Tty new) (cc_AttachStdin new) (cc_AttachStdout new) (cc_AttachStderr new)
      (cc_OpenStdin new) (cc_StdinOnce new) (cc_rest new) in
  match tty with
  | None => new
  | Some tty =>
      MkContainerConfig (cc_Image new) (cc_Labels new) cmd (cc_Env new) tty true true true true true (cc_rest new)
  end.

Definition new_container (x : dockerV20Container) : prog W nat :=
  let* s := store in
  do* update_store (set_containers (containers s ++ [x])) in
  prog_ret (length (containers s)).

Definition createContainer (c : ctx) (labels env : gmap string string) (tty : option bool) (cmd : list string)
  : prog W (nat + error) :=
  let launch := Launch (Execution config) in
  let newConfig := createConfig (ContainerConfig launch) labels env tty cmd in
  retry c
    (let* r := counted (ContainerCreate newConfig (HostConfig launch) (NetworkConfig launch) (Platform launch)
                          (ContainerName launch)) in
     match r with
     | inl body =>
         let* i := new_container (MkDockerContainer (r_ID body) (cc_Tty newConfig) false 0 false false) in
         prog_ret (Return (inl i))
     | inr lastError => do* failed in prog_ret (Again lastError)
     end)
    (λ lastError, prog_ret (inr (WrapUser (Some lastError) "DOCKER_CONTAINER_CREATE_FAILED"
                                   UserMessageInitializeSSHSession "failed to create container, giving up" []))).

Definition new_exec (x : dockerV20Exec) : prog W nat :=
  let* s := store in
  do* update_store (set_execs (execs s ++ [x])) in
  prog_ret (length (execs s)).

Definition attach (i : nat) (c : ctx) : prog W (nat + error) :=
  let* d := container_at i in
  retry c
    (let* r := counted (ContainerAttach (containerID d)) in
     match r with
     | inl r =>
         let* e := new_exec (MkDockerExec i "" (r_Stream r) [] false (c_tty d) 1 false false false) in
         prog_ret (Return (inl e))
     | inr lastError => do* failed in prog_ret (Again lastError)
     end)
    (λ lastError, prog_ret (inr (WrapUser (Some lastError) "DOCKER_CONTAINER_ATTACH_FAILED"
                                   UserMessageInitializeSSHSession "failed to attach to exec, giving up" []))).

Definition start (i : nat) (c : ctx) : prog W (option error) :=
  let* d := container_at i in
  retry c
    (let* r := counted (RContainerStart (containerID d)) in
     match r with
     | inl _ => prog_ret (Return None)
     | inr lastError => do* failed in prog_ret (Again lastError)
     end)
    (λ lastError, prog_ret (Some (WrapUser (Some lastError) "DOCKER_CONTAINER_START_FAILED"
                                    UserMessageInitializeSSHSession "failed to start container, giving up" []))).

Definition remove_container (i : nat) (c : ctx) : prog W (option error) :=
  let* d := container_at i in
  if shuttingDown d then prog_ret None
  else
    do* lock_container i in
    do* update_container i set_shuttingDown in
    do* unlock_container i in
    do* wg_Wait i in
    do* lock_container i in
    do* update_container i set_shutdown in
    do* unlock_container i in
    retry c
      (let* r := counted (ContainerInspect (containerID d)) in
       match r with
       | inr lastError =>
           if IsErrNotFound lib lastError then prog_ret (Return None)
           else do* failed in prog_ret (Again lastError)
       | inl _ =>
           let* r := counted (ContainerRemove (containerID d)) in
           match r with
           | inl _ => prog_ret (Return None)
           | inr lastError => do* failed in prog_ret (Again lastError)
           end
       end)
      (λ lastError, prog_ret (Some (Wrap (Some lastError) "DOCKER_CONTAINER_REMOVE_FAILED"
                                      "failed to remove container on disconnect, giving up" []))).

(** ** Programs in a running container *)

Definition createExecConfig (env : gmap string string) (tty : bool) (program : list string) : ExecConfig :=
  MkExecConfig tty (createEnv env)
    (if negb (DisableAgent (Execution config))
     then ([AgentPath (Execution config); "console"; "--pid"; "--"] ++ program)%list else program).

Definition realCreateExec (i : nat) (c : ctx) (execConfig : ExecConfig) : prog W (string + error) :=
  let* d := container_at i in
  retry c
    (let* r := counted (ContainerExecCreate (containerID d) execConfig) in
     match r with
     | inl response => prog_ret (Return (inl (r_ID response)))
     | inr lastError =>
         do* failed in
         if isPermanentError lastError
         then prog_ret (Return (inr (Wrap (Some lastError) "DOCKER_EXEC_CREATE_FAILED" "failed to create exec, permanent error" [])))
         else prog_ret (Again lastError)
     end)
    (λ lastError, prog_ret (inr (Wrap (Some lastError) "DOCKER_EXEC_CREATE_FAILED" "failed to create exec, giving up" []))).

Definition attachExec (c : ctx) (execID : string) (tty : bool) : prog W (list (list byte) + error) :=
  retry c
    (let* r := counted (ContainerExecAttach execID tty) in
     match r with
     | inl attachResult => prog_ret (Return (inl (r_Stream attachResult)))
     | inr lastError =>
         do* failed in
         if isPermanentError lastError
         then prog_ret (Return (inr (Wrap (Some lastError) "DOCKER_EXEC_ATTACH_FAILED" "failed to attach to exec, permanent error" [])))
         else prog_ret (Again lastError)
     end)
    (λ lastError, prog_ret (inr (Wrap (Some lastError) "DOCKER_EXEC_ATTACH_FAILED" "failed to attach to exec, giving up" []))).

Definition lockedCreateExec (i : nat) (c : ctx) (program : list string) (env : gmap string string) (tty : bool)
  : prog W (nat + error) :=
  let* execID := realCreateExec i c (createExecConfig env tty program) in
  match execID with
  | inr err => do* wg_Done i in prog_ret (inr err)
  | inl execID =>
      let* attachResult := attachExec c execID tty in
      match attachResult with
      | inr err => do* wg_Done i in prog_ret (inr err)
      | inl stream =>
          let* e := new_exec (MkDockerExec i execID stream [] false tty 0 false false false) in
          prog_ret (inl e)
      end
  end.

(** A container that is being removed is left locked. *)
Definition createExec (i : nat) (c : ctx) (program : list string) (env : gmap string string) (tty : bool)
  : prog W (nat + error) :=
  do* lock_container i in
  let* d := container_at i in
  if shuttingDown d then
    prog_ret (inr (MsgError (UserMessage "DOCKER_CONTAINER_SHUTTING_DOWN" "Server is shutting down"
                               "Refusing new Docker execution because the container is shutting down." [])))
  else
    do* wg_Add i in
    do* unlock_container i in
    lockedCreateExec i c program env tty.

End client.
