(* ===== verification/DockerExec.v ===== *)
(** * Programs run through the Docker client

    The second half of [internal/docker/docker_impl.go]: [dockerV20Exec] with the
    process ID the agent announces, the copying goroutines, the exit status,
    signals and window sizes, and [writeFile]. *)

From stdpp Require Import base gmap strings list fin_maps pretty.
From Stdlib Require Import Strings.Byte.
From S2P Require Import Prelude Messages GoStrings ConfigHTTP ConfigBackend Requests DockerClient.

Local Open Scope Z_scope.

(** ** Reading from the attached stream *)

Definition EOF : error := ErrorString "EOF".

(** [readBytesFromReader], from [readIndex] on: one round per piece of data that
    arrives.  The piece is copied to [finalBuffer[readIndex:readBytes]]. *)
Fixpoint read_bytes (n : nat) (finalBuffer : list byte) (readIndex : nat) (stream : list (list byte))
  : outcome (list byte * option error * list (list byte)) :=
  match stream with
  | [] => Done (take readIndex finalBuffer, Some EOF, [])
  | piece :: rest =>
      let readBytes := Nat.min (length piece) (n - readIndex) in
      if decide (readBytes < readIndex)%nat then
        Panic (Sprintf "runtime error: slice bounds out of range [%d:%d]" [VInt (Z.of_nat readIndex); VInt (Z.of_nat readBytes)])
      else
        let m := (readBytes - readIndex)%nat in
        let finalBuffer := (take readIndex finalBuffer ++ take m piece ++ drop (readIndex + m) finalBuffer)%list in
        if decide (readIndex + readBytes = n)%nat then
          Done (finalBuffer, None, if decide (readBytes = length piece) then rest else drop readBytes piece :: rest)
        else read_bytes n finalBuffer (readIndex + readBytes) rest
  end.

(** [encoding/binary] *)
Definition byte_value (b : byte) : Z := Z.of_N (Byte.to_N b).
Definition LittleEndian (l : list byte) : Z := foldr (λ b n, byte_value b + 256 * n) 0 l.
Definition BigEndian (l : list byte) : Z := foldl (λ n b, 256 * n + byte_value b) 0 l.

Section execution.
Context {W : Type} `{!Field W docker_store}.
Context (lib : DockerLibrary) (config : DockerConfig).

(** For each round but the last that [finished] of a program may make before its
    60 seconds are over, how many times [stopContainer] may wait in it. *)
Context (finish_waits : nat → list nat).

Abbreviation call A := (prog W A).

Definition readBytesFromReader (e : nat) (n : nat) : call (list byte * option error) :=
  let* x := exec_at e in
  match read_bytes n (replicate n Byte.x00) 0 (e_stream x) with
  | Done (data, err, rest) => do* update_exec e (set_e_stream rest) in prog_ret (data, err)
  | Panic s => panic s
  | Blocked s => block s
  end.

(** One frame of the multiplexed stream, which has to hold the process ID. *)
Definition read_pid_frame (e : nat) (stdout : list byte → call (option error)) : call (list byte + error) :=
  let* '(headerBuffer, err) := readBytesFromReader e 8 in
  match err with
  | Some _ => prog_ret (inr (Wrap err "DOCKER_AGENT_READ_FAILED" "failed to read from ContainerSSH agent" []))
  | None =>
      let stream := byte_value (default Byte.x00 (headerBuffer !! 0%nat)) in
      if decide (2 < stream) then
        prog_ret (inr (Errorf "invalid stream type received from Docker daemon: %d" [VInt stream]))
      else
        let frameLength := BigEndian (drop 4 headerBuffer) in
        let* '(frameData, err) := readBytesFromReader e (Z.to_nat frameLength) in
        match err with
        | Some err => prog_ret (inr (wrap_error "failed to read pid from ContainerSSH agent" err))
        | None =>
            if decide (frameLength < 4) then
              prog_ret (inr (MsgError (NewMessage "DOCKER_AGENT_READ_FAILED"
                "not enough testdata received (%d bytes) from Docker daemon while trying to read pid from ContainerSSH agent"
                [VInt frameLength])))
            else if decide (stream = 2) then
              prog_ret (inr (Errorf "unexpected testdata on stderr when trying to read pid from ContainerSSH agent" []))
            else if decide (4 < frameLength) then
              let* err := stdout (drop 4 frameData) in
              match err with
              | Some err => prog_ret (inr (wrap_error "failed to write remaining frame testdata to stdout" err))
              | None => prog_ret (inl (take 4 frameData))
              end
            else prog_ret (inl (take 4 frameData))
        end
  end.

Definition readPIDFromStdout (e : nat) (stdout : list byte → call (option error)) : call (option error) :=
  let* x := exec_at e in
  let* pidBytes :=
    if e_tty x then
      let* '(pidBytes, err) := readBytesFromReader e 4 in
      prog_ret match err with Some err => inr err | None => inl pidBytes end
    else read_pid_frame e stdout in
  match pidBytes with
  | inr err => prog_ret (Some err)
  | inl pidBytes => do* update_exec e (set_pid (LittleEndian pidBytes)) in prog_ret None
  end.

(** ** The exit status

    [containerInspect], [execInspect] and what calls them also answer with the
    exit status they passed to the callback, if they called it. *)

Definition execInspect (e : nat) (onExit : Z → call unit) : call (option error * option Z) :=
  let* x := exec_at e in
  let* r := ask lib (ContainerExecInspect (execID x)) in
  match r with
  | inr lastError => prog_ret (Some lastError, None)
  | inl r =>
      if r_Running r then prog_ret (Some (MsgError (NewMessage "DOCKER_EXIT_CODE_STILL_RUNNING" "Program still running" [])), None)
      else if decide (r_ExitCode r < 0) then
        prog_ret (Some (MsgError (Label "exitCode" (VInt (r_ExitCode r))
          (NewMessage "DOCKER_EXIT_CODE_NEGATIVE" "Negative exit code: %d" [VInt (r_ExitCode r)]))), None)
      else do* onExit (r_ExitCode r) in prog_ret (None, Some (r_ExitCode r))
  end.

Definition containerInspect (e : nat) (onExit : Z → call unit) : call (option error * option Z) :=
  let* x := exec_at e in
  let* d := container_at (e_container x) in
  let* r := ask lib (ContainerInspect (containerID d)) in
  match r with
  | inr lastError => prog_ret (Some lastError, None)
  | inl r =>
      if r_Running r then prog_ret (Some (MsgError (NewMessage "DOCKER_EXIT_CODE_STILL_RUNNING" "container still running" [])), None)
      else if r_Restarting r then
        prog_ret (Some (MsgError (NewMessage "DOCKER_EXIT_CODE_CONTAINER_RESTARTING" "container is restarting" [])), None)
      else if decide (r_ExitCode r < 0) then
        prog_ret (Some (MsgError (NewMessage "DOCKER_EXIT_CODE_NEGATIVE" "negative exit code: %d" [VInt (r_ExitCode r)])), None)
      else do* onExit (r_ExitCode r) in prog_ret (None, Some (r_ExitCode r))
  end.

Definition stopContainer (e : nat) (c : ctx) : call (option error) :=
  let* x := exec_at e in
  let* d := container_at (e_container x) in
  retry c
    (let* r := counted lib (ContainerInspect (containerID d)) in
     match r with
     | inl r =>
         if decide (r_Status r = "stopped") then prog_ret (Return None)
         else
           let* r := ask lib (RContainerStop (containerID d) (ContainerStop (Timeouts config))) in
           match r with
           | inl _ => prog_ret (Return None)
           | inr lastError => prog_ret (Again lastError)
           end
     | inr lastError => do* failed in prog_ret (Again lastError)
     end)
    (λ lastError, prog_ret (Some (Wrap (Some lastError) "DOCKER_CONTAINER_STOP_FAILED"
                                    "failed to stop container, giving up" []))).

(** One round of the loop of [finished]: whether the function returns. *)
Definition finish_round (e : nat) (waits : nat) (onExit : Z → call unit) : call (bool * option Z) :=
  let* x := exec_at e in
  let again r :=
    prog_ret (match r.1 with None => true | Some err => isPermanentError lib err end, r.2) in
  if decide (execID x ≠ "") then
    let* r := execInspect e onExit in again r
  else
    let* err := stopContainer e (Deadline waits) in
    match err with
    | Some _ => do* onExit 137 in prog_ret (true, Some 137)
    | None => let* r := containerInspect e onExit in again r
    end.

Fixpoint finish_loop (e : nat) (waits : list nat) (onExit : Z → call unit) : call (option Z) :=
  let* '(stop, status) := finish_round e (hd 0%nat waits) onExit in
  if (stop : bool) then prog_ret status
  else match waits with [] => prog_ret None | _ :: waits => finish_loop e waits onExit end.

Definition finished (e : nat) (onExit : Z → call unit) : call (option Z) :=
  do* lock_exec e in
  let* x := exec_at e in
  if decide (pid x = -1) then do* unlock_exec e in prog_ret None
  else
    do* update_exec e (set_pid (-1)) in
    do* unlock_exec e in
    do* (if doneClosed x then panic "close of closed channel" else update_exec e set_doneClosed) in
    let* status := finish_loop e (finish_waits e) onExit in
    do* (if decide (execID x ≠ "") then wg_Done (e_container x) else prog_ret tt) in
    prog_ret status.

(** ** Running *)

(** [once.Do(exitFunc)] *)
Definition exit_once (e : nat) (onExit : Z → call unit) : call (option Z) :=
  let* x := exec_at e in
  if e_once x then prog_ret None else do* update_exec e set_e_once in finished e onExit.

(** [io.Copy]: the pieces are written one after the other up to the first error. *)
Fixpoint write_all (writes : list (call (option error))) : call unit :=
  match writes with
  | [] => prog_ret tt
  | w :: writes => let* err := w in match err with Some _ => prog_ret tt | None => write_all writes end
  end.

(** The two goroutines of [run], when their stream has come to its end.  The
    output is what is still to be read; the input is [data]. *)
Definition processOutput (e : nat) (stdout stderr : list byte → call (option error))
    (writeClose : call (option error)) (onExit : Z → call unit) : call (option Z) :=
  let* x := exec_at e in
  do* update_exec e (set_e_stream []) in
  do* (if e_tty x then write_all (stdout <$> e_stream x)
       else write_all ((λ w : bool * list byte, (if w.1 then stderr else stdout) w.2) <$> StdCopy lib (concat (e_stream x)))) in
  let* _ := writeClose in
  exit_once e onExit.

Definition processInput (e : nat) (data : list byte) (onExit : Z → call unit) : call (option Z) :=
  do* update_exec e (set_e_input data) in
  exit_once e onExit.

(** [run] answers whether the goroutines were started. *)
Definition run (e : nat) (stdout : list byte → call (option error)) (onExit : Z → call unit) : call bool :=
  do* lock_exec e in
  let* x := exec_at e in
  let* err :=
    if decide (Mode (Execution config) = DockerExecutionModeConnection ∧ DisableAgent (Execution config) = false)
    then readPIDFromStdout e stdout else prog_ret None in
  match err with
  | Some _ =>
      do* onExit 137 in
      do* wg_Done (e_container x) in
      do* unlock_exec e in
      prog_ret false
  | None => do* unlock_exec e in prog_ret true
  end.

(** The end of a program whose input is [data] and whose output goes to a buffer:
    the goroutines have copied everything. *)
Definition goroutines_end (e : nat) (data : list byte) : call (option Z) :=
  let* x := exec_at e in
  do* update_exec e (λ x, set_e_input data (set_e_stream [] x)) in
  exit_once e (λ _, prog_ret tt).

(** ** Writing files *)

(** What the program wrote to the standard error. *)
Definition stderr_of (stream : list (list byte)) : string :=
  String.string_of_list_byte (concat ((filter (λ w, w.1 = true) (StdCopy lib (concat stream))).*2)).

Definition writeFile (i : nat) (c : ctx) (path : string) (content : list byte) : call (option error) :=
  if DisableAgent (Execution config) then
    prog_ret (Some (MsgError (NewMessage "DOCKER_FILE_WRITE_FAILED"
      "The ContainerSSH guest agent is disabled. Failed to write file %s in the container" [VString path])))
  else
    let* exec := createExec lib config i c [AgentPath (Execution config); "write-file"; path] ∅ false in
    match exec with
    | inr err => prog_ret (Some (Wrap (Some err) "DOCKER_FILE_WRITE_FAILED" "Failed to write file inside container" []))
    | inl e =>
        let* started := run e (λ _, prog_ret None) (λ _, prog_ret tt) in
        let* x := exec_at e in
        let* status := if (started : bool) then goroutines_end e content else prog_ret (Some 137) in
        match status with
        | None => block "the callback never closes the channel"
        | Some exitCode =>
            if decide (exitCode ≠ 0) then
              prog_ret (Some (MsgError (NewMessage "DOCKER_FILE_WRITE_FAILED" "Agent exited with status %d error output: %s"
                [VInt exitCode; VString (if (started : bool) then stderr_of (e_stream x) else "")])))
            else prog_ret None
        end
    end.

(** ** Signals and window sizes *)

(** The callback sends on an unbuffered channel that is received from only after
    [run] has returned; a call of it from within [run] waits forever. *)
Definition realSendSignal (i : nat) (c : ctx) (sig : string) (pid : Z) : call (option error) :=
  let* exec := lockedCreateExec lib config i c
                 [AgentPath (Execution config); "signal"; "--pid"; pretty pid; "--signal"; sig] ∅ false in
  match exec with
  | inr err => prog_ret (Some err)
  | inl e =>
      let* _ := run e (λ _, prog_ret None) (λ _, block "send on channel") in
      let* status := goroutines_end e [] in
      match status with
      | None => block "the callback never sends on the channel"
      | Some exitStatus =>
          if decide (exitStatus ≠ 0) then
            prog_ret (Some (Errorf "signal program exited with status %d" [VInt exitStatus]))
          else prog_ret None
      end
  end.

Definition sendSignalToContainer (i : nat) (c : ctx) (sig : string) : call (option error) :=
  let* d := container_at i in
  let labelled e := Some (error_Label "signal" (VString sig) e) in
  retry c
    (let* r := ask lib (ContainerKill (containerID d) sig) in
     match r with
     | inl _ => prog_ret (Return None)
     | inr lastError =>
         if isPermanentError lib lastError
         then prog_ret (Return (labelled (WrapUser (Some lastError) "DOCKER_CONTAINER_SIGNAL_FAILED"
                "Cannot send signal to process." "Cannot send %s signal to container %s, permanent error"
                [VString sig; VString (containerID d)])))
         else prog_ret (Again lastError)
     end)
    (λ lastError, prog_ret (labelled (Wrap (Some lastError) "DOCKER_CONTAINER_SIGNAL_FAILED"
        "Cannot send %s signal to container %s, retrying in 10 seconds" [VString sig; VString (containerID d)]))).

Definition signal_error (code explanation : string) (args : list value) (sig : string) : option error :=
  Some (MsgError (Label "signal" (VString sig)
    (UserMessage code "Cannot send signal to process." explanation args))).

(** When the container has been removed the lock is kept. *)
Definition signal (e : nat) (c : ctx) (sig : string) : call (option error) :=
  if DisableAgent (Execution config) then
    prog_ret (signal_error "DOCKER_EXEC_SIGNAL_FAILED_NO_AGENT"
      "Cannot send signal %s to process because the ContainerSSH agent is disabled" [VString sig] sig)
  else
    do* lock_exec e in
    let* x := exec_at e in
    if decide (pid x ≤ 0) then
      do* unlock_exec e in
      prog_ret (Some (MsgError (UserMessage "DOCKER_SIGNAL_FAILED_NO_PID" "Cannot send signal to process"
        "could not send signal to exec, process ID not found" [])))
    else if decide (pid x = 1) then
      do* unlock_exec e in
      sendSignalToContainer (e_container x) c sig
    else
      let* d := container_at (e_container x) in
      if shutdown d then
        prog_ret (signal_error "DOCKER_EXEC_SIGNAL_FAILED"
          "Not sending signal to process, container is already shutting down." [] sig)
      else
        do* wg_Add (e_container x) in
        do* unlock_exec e in
        if decide (pid x < 1) then
          prog_ret (signal_error "DOCKER_EXEC_SIGNAL_FAILED" "No process ID recorded, not sending signal." [] sig)
        else realSendSignal (e_container x) c sig (pid x).

Definition term (e : nat) (c : ctx) : call unit :=
  let* x := exec_at e in
  if doneClosed x then prog_ret tt else let* _ := signal e c "TERM" in prog_ret tt.

(** [background]: how many rounds without an answer of the daemon are looked at. *)
Definition kill (e : nat) (background : nat) : call unit :=
  let* x := exec_at e in
  if doneClosed x then prog_ret tt
  else if decide (execID x ≠ "") then let* _ := signal e (Background background) "KILL" in prog_ret tt
  else prog_ret tt.

Definition resize (e : nat) (c : ctx) (height width : Z) : call (option error) :=
  let* x := exec_at e in
  let* d := container_at (e_container x) in
  let labelled err := Some (error_Label "width" (VInt width) (error_Label "height" (VInt height) err)) in
  retry c
    (let* r := ask lib (if decide (execID x ≠ "") then ContainerExecResize (execID x) height width
                        else ContainerResize (containerID d) height width) in
     match r with
     | inl _ => prog_ret (Return None)
     | inr lastError =>
         if isPermanentError lib lastError
         then prog_ret (Return (labelled (WrapUser (Some lastError) "DOCKER_EXEC_RESIZE_FAILED" "Cannot resize window."
                "cannot resize window, permanent error" [])))
         else prog_ret (Again lastError)
     end)
    (λ lastError, prog_ret (labelled (WrapUser (Some lastError) "DOCKER_EXEC_RESIZE_FAILED" "Cannot resize window."
        "cannot resize window, diving up" []))).

End execution.
