(* ===== verification/Docker.v ===== *)
(** * The Docker backend

    [internal/docker/handler_network.go], [handler_ssh.go], [handler_channel.go]
    and [factory.go]: the handlers of a network connection, of the SSH connection
    on it, and of its session channels. *)

From stdpp Require Import base gmap strings list fin_maps pretty.
From Stdlib Require Import Strings.Byte.
From S2P Require Import Prelude Messages Metadata Handler GoStrings ConfigHTTP ConfigBackend AgentProtocol AgentForward Requests DockerClient DockerExec.

Local Open Scope Z_scope.

(** ** Objects

    [n_mutex]: the mutex is held.  [ch_stdout], [ch_stderr]: where the program of
    the channel writes to. *)

Record networkHandler := MkNetworkHandler {
  n_mutex : bool;
  n_username : string;
  n_container : option nat;
  n_dockerClient : bool;
  n_disconnected : bool;
  n_labels : gmap string string;
  n_done : bool;
}.

Record docker_sshConnectionHandler := MkDockerConnection {
  s_username : string;
  s_env : gmap string string;
  s_agentForward : agentForward;
}.

Record channelHandler := MkChannelHandler {
  ch_channelID : Z;
  ch_connection : nat;
  ch_env : gmap string string;
  ch_pty : bool;
  ch_columns : Z;
  ch_rows : Z;
  ch_x11 : bool;
  ch_exec : option nat;
  ch_session : SessionChannel;
}.

Record docker_objects := MkDockerObjects {
  network : networkHandler;
  connections : list docker_sshConnectionHandler;
  channels : list channelHandler;
}.

Definition set_network (n : networkHandler) (o : docker_objects) := MkDockerObjects n (connections o) (channels o).
Definition set_connections (l : list docker_sshConnectionHandler) (o : docker_objects) :=
  MkDockerObjects (network o) l (channels o).
Definition set_channels (l : list channelHandler) (o : docker_objects) := MkDockerObjects (network o) (connections o) l.

Definition set_n_mutex (b : bool) (n : networkHandler) :=
  MkNetworkHandler b (n_username n) (n_container n) (n_dockerClient n) (n_disconnected n) (n_labels n) (n_done n).
Definition set_n_username (u : string) (n : networkHandler) :=
  MkNetworkHandler (n_mutex n) u (n_container n) (n_dockerClient n) (n_disconnected n) (n_labels n) (n_done n).
Definition set_n_container (c : nat) (n : networkHandler) :=
  MkNetworkHandler (n_mutex n) (n_username n) (Some c) (n_dockerClient n) (n_disconnected n) (n_labels n) (n_done n).
Definition set_n_dockerClient (n : networkHandler) :=
  MkNetworkHandler (n_mutex n) (n_username n) (n_container n) true (n_disconnected n) (n_labels n) (n_done n).
Definition set_n_disconnected (n : networkHandler) :=
  MkNetworkHandler (n_mutex n) (n_username n) (n_container n) (n_dockerClient n) true (n_labels n) (n_done n).
Definition set_n_labels (l : gmap string string) (n : networkHandler) :=
  MkNetworkHandler (n_mutex n) (n_username n) (n_container n) (n_dockerClient n) (n_disconnected n) l (n_done n).
Definition set_n_done (n : networkHandler) :=
  MkNetworkHandler (n_mutex n) (n_username n) (n_container n) (n_dockerClient n) (n_disconnected n) (n_labels n) true.

Definition set_ch_env (m : gmap string string) (c : channelHandler) :=
  MkChannelHandler (ch_channelID c) (ch_connection c) m (ch_pty c) (ch_columns c) (ch_rows c) (ch_x11 c) (ch_exec c) (ch_session c).
Definition set_ch_pty (columns rows : Z) (c : channelHandler) :=
  MkChannelHandler (ch_channelID c) (ch_connection c) (ch_env c) true columns rows (ch_x11 c) (ch_exec c) (ch_session c).
Definition set_ch_x11 (c : channelHandler) :=
  MkChannelHandler (ch_channelID c) (ch_connection c) (ch_env c) (ch_pty c) (ch_columns c) (ch_rows c) true (ch_exec c) (ch_session c).
Definition set_ch_exec (e : option nat) (c : channelHandler) :=
  MkChannelHandler (ch_channelID c) (ch_connection c) (ch_env c) (ch_pty c) (ch_columns c) (ch_rows c) (ch_x11 c) e (ch_session c).

(** ** The surroundings

    What the backend is created with, and the libraries it calls: the remote
    address as text, how long a timeout lasts in waits of the retry loops,
    [unixutils.ParseCMD], the encoding of the agent protocol. *)
Record Surroundings (W : Type) := MkSurroundings {
  library : DockerLibrary;
  cfg : DockerConfig;
  connectionID : string;
  client_IP : string;
  waits : Z → nat;
  background_waits : nat;
  finish_waits : nat → list nat;
  ParseCMD : string → list string + error;
  encode_error : list Packet → Packet → option error;
  Marshal_setup : SetupPacket → list byte * option error;
  Marshal_new : NewConnectionPayload → list byte * option error;
  agent_packets : nat → list Packet;     (** what the agent started as a program will send *)
  objects : Objects W;
}.

Arguments library {W} _.
Arguments cfg {W} _.
Arguments connectionID {W} _.
Arguments client_IP {W} _.
Arguments waits {W} _ _.
Arguments background_waits {W} _.
Arguments finish_waits {W} _ _.
Arguments ParseCMD {W} _ _.
Arguments encode_error {W} _ _ _.
Arguments Marshal_setup {W} _ _.
Arguments Marshal_new {W} _ _.
Arguments agent_packets {W} _ _.
Arguments objects {W} _.

Section docker.
Context {W : Type} `{!Field W docker_store} `{!Field W docker_objects}.
Context (env : Surroundings W).

Abbreviation call A := (prog W A).
Abbreviation lib := (library env).
Abbreviation config := (cfg env).
Abbreviation exec_config := (Execution (cfg env)).

Definition objs : call docker_objects := λ w, Done (fget w, w).
Definition update_objs (f : docker_objects → docker_objects) : call unit := λ w, Done (tt, fset (f (fget w)) w).
Definition net : call networkHandler := let* o := objs in prog_ret (network o).
Definition update_net (f : networkHandler → networkHandler) : call unit := update_objs (λ o, set_network (f (network o)) o).

Definition channel_at (i : nat) : call channelHandler :=
  let* o := objs in
  match channels o !! i with Some c => prog_ret c | None => panic nil_pointer end.
Definition update_channel (i : nat) (f : channelHandler → channelHandler) : call unit :=
  update_objs (λ o, set_channels (alter f i (channels o)) o).

(** [mutex.Lock(); defer mutex.Unlock()] *)
Definition with_mutex {A} (body : call A) : call A :=
  let* n := net in
  if n_mutex n then block "sync.Mutex.Lock"
  else
    do* update_net (set_n_mutex true) in
    let* a := body in
    do* update_net (set_n_mutex false) in
    prog_ret a.

Definition timeout (t : DockerTimeoutConfig → Z) : ctx := Deadline (waits env (t (Timeouts config))).

(** ** The network connection *)

Definition pullNeeded (c : ctx) : call (bool * option error) :=
  if decide (ImagePullPolicy exec_config = ImagePullPolicyNever) then prog_ret (false, None)
  else if decide (ImagePullPolicy exec_config = ImagePullPolicyAlways) then prog_ret (true, None)
  else
    let* image := getImageName config in
    if negb (Contains image ":") || HasSuffix image ":latest" then prog_ret (true, None)
    else
      let* '(hasImage, err) := hasImage lib config c in
      match err with
      | Some _ => prog_ret (true, err)
      | None => prog_ret (negb hasImage, None)
      end.

Definition docker_pullImage (c : ctx) : call (option error) :=
  let* '(pullNeeded, err) := pullNeeded c in
  if decide (err ≠ None ∨ pullNeeded = false) then prog_ret err
  else client_pullImage lib config c.

Definition setupDockerClient : call (option error) :=
  let* n := net in
  if n_dockerClient n then prog_ret None
  else
    match factory_get lib config with
    | Some err => prog_ret (Some (wrap_error "failed to create Docker client" err))
    | None => do* update_net set_n_dockerClient in prog_ret None
    end.

(** The environment of the container: the authentication metadata if it is
    exposed, then the environment of the connection.  The getters initialise
    maps of [meta] that are not set. *)
Definition connection_env (meta : ConnectionAuthenticatedMetadata) : gmap string string * ConnectionAuthenticatedMetadata :=
  let '(exposed, meta) :=
    if ExposeAuthMetadataAsEnv exec_config then
      let '(m, c) := GetMetadata (Some (meta_conn meta)) in (value_texts m, set_meta_conn c meta)
    else (∅, meta) in
  let '(m, c) := GetEnvironment (Some (meta_conn meta)) in
  (value_texts m ∪ exposed, set_meta_conn c meta).

Definition connection_labels (username : string) : gmap string string :=
  <["containerssh_username" := username]>
  (<["containerssh_ip" := client_IP env]>
  (<["containerssh_connection_id" := connectionID env]> ∅)).

(** Errors of writing files are only logged. *)
Fixpoint write_files (cnt : nat) (files : list (string * BinaryValue)) : call unit :=
  match files with
  | [] => prog_ret tt
  | (path, content) :: files =>
      let* _ := writeFile lib config (finish_waits env) cnt (timeout CommandStart) path (BinaryValue_Value content) in
      write_files cnt files
  end.

Definition new_connection (s : docker_sshConnectionHandler) : call nat :=
  let* o := objs in
  do* update_objs (set_connections (connections o ++ [s])) in
  prog_ret (length (connections o)).

(** [OnHandshakeSuccess]; the result is the new SSH connection handler. *)
Definition handshake (meta : ConnectionAuthenticatedMetadata)
  : call (option nat * ConnectionAuthenticatedMetadata * option error) :=
  with_mutex
    (let c := timeout ContainerStart in
     let username := Username (auth_pending meta) in
     do* update_net (set_n_username username) in
     let '(environment, meta) := connection_env meta in
     let* err := setupDockerClient in
     match err with Some _ => prog_ret (None, meta, err) | None =>
     let* err := docker_pullImage c in
     match err with Some _ => prog_ret (None, meta, err) | None =>
     let labels := connection_labels username in
     do* update_net (set_n_labels labels) in
     let connected meta :=
       let* s := new_connection (MkDockerConnection username environment NewAgentForward) in
       prog_ret (Some s, meta, None) in
     if decide (Mode exec_config = DockerExecutionModeConnection) then
       let* cnt := createContainer lib config c labels environment None [] in
       match cnt with
       | inr err => prog_ret (None, meta, Some err)
       | inl cnt =>
           do* update_net (set_n_container cnt) in
           let* err := start lib cnt c in
           match err with
           | Some _ => prog_ret (None, meta, err)
           | None =>
               let '(files, conn) := GetFiles (Some (meta_conn meta)) in
               do* write_files cnt (map_to_list (default ∅ files)) in
               connected (set_meta_conn conn meta)
           end
       end
     else connected meta
     end end).

Definition docker_OnDisconnect : call unit :=
  with_mutex
    (let* n := net in
     if n_disconnected n then prog_ret tt
     else
       do* update_net set_n_disconnected in
       do* (match n_container n with
            | Some cnt => let* _ := remove_container lib cnt (timeout ContainerStop) in prog_ret tt
            | None => prog_ret tt
            end) in
       if n_done n then panic "close of closed channel" else update_net set_n_done).

(** [OnShutdown] waits for the end of the shutdown context or of the connection. *)
Definition docker_OnNetShutdown : call unit :=
  let* n := net in
  if n_done n then prog_ret tt else docker_OnDisconnect.

(** ** The agent *)

(** The agent's output goes to a pipe that is read once [setupAgent] has
    returned: writing to it before waits forever. *)
Definition setupAgent (s_env : gmap string string) : call agent_setup :=
  if decide (Mode exec_config = DockerExecutionModeConnection) then
    let* n := net in
    match n_container n with
    | None => panic nil_pointer
    | Some cnt =>
        let* exec := createExec lib config cnt (timeout CommandStart) [AgentPath exec_config; "forward-server"] s_env false in
        match exec with
        | inr err => prog_ret ([], Some err)
        | inl e =>
            let* _ := run config e (λ _, block "write to a pipe") (λ _, prog_ret tt) in
            prog_ret (agent_packets env e, None)
        end
    end
  else prog_ret ([], Some (Errorf "port forwarding does not work in session mode" [])).

Definition connection_at (i : nat) : call docker_sshConnectionHandler :=
  let* o := objs in
  match connections o !! i with Some c => prog_ret c | None => panic nil_pointer end.

(** A call on the forwards of a connection. *)
Definition on_forwards {A} (i : nat) (op : prog agentForward A) : call A :=
  let* s := connection_at i in
  match op (s_agentForward s) with
  | Done (a, f) =>
      do* update_objs (λ o, set_connections (<[i := MkDockerConnection (s_username s) (s_env s) f]> (connections o)) o) in
      prog_ret a
  | Panic why => panic why
  | Blocked why => block why
  end.

(** ... that starts the agent if it is [needed]. *)
Definition on_forwards_with_agent {A} (i : nat) (needed : agentForward → bool) (op : agent_setup → prog agentForward A)
  : call A :=
  let* s := connection_at i in
  let* setup := if needed (s_agentForward s) then setupAgent (s_env s) else prog_ret ([], None) in
  on_forwards i (op setup).

(** ** Session channels *)

Definition already_running : option error :=
  Some (MsgError (UserMessage "DOCKER_PROGRAM_ALREADY_RUNNING" "program already running" "program already running" [])).

Definition docker_OnEnvRequest (i : nat) (name val : string) : call (option error) :=
  with_mutex
    (let* c := channel_at i in
     match ch_exec c with
     | Some _ => prog_ret already_running
     | None => do* update_channel i (set_ch_env (<[name := val]> (ch_env c))) in prog_ret None
     end).

Definition docker_OnPtyRequest (i : nat) (term : string) (columns rows : Z) : call (option error) :=
  with_mutex
    (let* c := channel_at i in
     match ch_exec c with
     | Some _ => prog_ret already_running
     | None =>
         do* update_channel i (set_ch_env (<["TERM" := term]> (ch_env c))) in
         do* update_channel i (set_ch_pty columns rows) in
         prog_ret None
     end).

(** A command line that the parser turns into no words at all makes the index
    fail. *)
Definition parseProgram (program : string) : call (list string) :=
  match ParseCMD env program with
  | inr _ => prog_ret ["/bin/sh"; "-c"; program]
  | inl [] => panic "runtime error: index out of range [0] with length 0"
  | inl (first :: rest) =>
      if HasPrefix first "/" || HasPrefix first "./" || HasPrefix first "../"
      then prog_ret (first :: rest)
      else prog_ret ["/bin/sh"; "-c"; program]
  end.

Definition handleExecModeConnection (i : nat) (c : ctx) (program : list string) : call (option error) :=
  let* n := net in
  let* ch := channel_at i in
  match n_container n with
  | None => panic nil_pointer
  | Some cnt =>
      let* exec := createExec lib config cnt c program (ch_env ch) (ch_pty ch) in
      match exec with
      | inr err => prog_ret (Some err)
      | inl e =>
          do* update_channel i (set_ch_exec (Some e)) in
          do* (if ch_pty ch then let* _ := resize lib e c (ch_rows ch) (ch_columns ch) in prog_ret tt
               else prog_ret tt) in
          prog_ret None
      end
  end.

Definition handleExecModeSession (i : nat) (c : ctx) (program : list string) : call (option error) :=
  let* n := net in
  let* ch := channel_at i in
  let* cnt := createContainer lib config c (n_labels n) (ch_env ch) (Some (ch_pty ch)) program in
  match cnt with
  | inr err => prog_ret (Some err)
  | inl cnt =>
      let removeContainer err :=
        let* _ := remove_container lib cnt (timeout ContainerStop) in prog_ret err in
      let* exec := attach lib cnt c in
      match exec with
      | inr err => do* update_channel i (set_ch_exec None) in removeContainer (Some err)
      | inl e =>
          do* update_channel i (set_ch_exec (Some e)) in
          let* err := start lib cnt c in
          match err with
          | Some _ => removeContainer err
          | None =>
              if ch_pty ch then
                let* err := resize lib e c (ch_rows ch) (ch_columns ch) in
                match err with Some _ => removeContainer err | None => prog_ret None end
              else prog_ret None
          end
      end
  end.

(** The callbacks that a channel's program is run with. *)
Definition channel_write (ref : nat) (data : list byte) : call (option error) :=
  let* '(_, err) := obj_Write (objects env) ref data in prog_ret err.

Definition channel_exit (session : SessionChannel) (exitStatus : Z) : call unit :=
  do* obj_ExitStatus (objects env) session (u32 exitStatus) in
  let* _ := obj_Close (objects env) session in
  prog_ret tt.

Definition run_channel (i : nat) (c : ctx) (program : list string) : call (option error) :=
  with_mutex
    (let* ch := channel_at i in
     match ch_exec ch with
     | Some _ => prog_ret already_running
     | None =>
         let* err :=
           if decide (Mode exec_config = DockerExecutionModeConnection) then handleExecModeConnection i c program
           else if decide (Mode exec_config = DockerExecutionModeSession) then handleExecModeSession i c program
           else prog_ret (Some (MsgError (UserMessage "DOCKER_CONFIG_ERROR" "cannot run program"
                                            "invalid execution mode: %s" [VString (Mode exec_config)]))) in
         match err with
         | Some _ => prog_ret err
         | None =>
             let* ch := channel_at i in
             match ch_exec ch with
             | None => panic nil_pointer
             | Some e =>
                 let* _ := obj_Stdin (objects env) (ch_session ch) in
                 let* stdout := obj_Stdout (objects env) (ch_session ch) in
                 let* _ := obj_Stderr (objects env) (ch_session ch) in
                 let* _ := run config e (channel_write stdout) (channel_exit (ch_session ch)) in
                 prog_ret None
             end
         end
     end).

Definition docker_OnExecRequest (i : nat) (program : string) : call (option error) :=
  let* program := parseProgram program in
  run_channel i (timeout CommandStart) program.

Definition docker_OnShell (i : nat) : call (option error) :=
  run_channel i (timeout CommandStart) (ShellCommand exec_config).

Definition docker_OnSubsystem (i : nat) (subsystem : string) : call (option error) :=
  match Subsystems exec_config !! subsystem with
  | Some binary => run_channel i (timeout CommandStart) [binary]
  | None =>
      prog_ret (Some (MsgError (UserMessage "DOCKER_SUBSYSTEM_NOT_SUPPORTED" "subsystem not supported"
                                  "the specified subsystem is not supported (%s)" [VString subsystem])))
  end.

Definition not_running (text : string) : option error :=
  Some (MsgError (UserMessage "DOCKER_PROGRAM_NOT_RUNNING" text text [])).

Definition docker_OnSignal (i : nat) (sig : string) : call (option error) :=
  with_mutex
    (let* c := channel_at i in
     match ch_exec c with
     | None => prog_ret (not_running "Cannot send signal, program is not running.")
     | Some e => signal lib config (finish_waits env) e (timeout Timeout_Signal) sig
     end).

Definition docker_OnWindow (i : nat) (columns rows : Z) : call (option error) :=
  with_mutex
    (let* c := channel_at i in
     match ch_exec c with
     | None => prog_ret (not_running "Cannot resize window, program is not running.")
     | Some e => resize lib e (timeout Timeout_Window) rows columns
     end).

Definition docker_OnX11Request (i : nat) (singleConnection : bool) (proto cookie : string) (screen : Z)
  : call (option error) :=
  let* c := channel_at i in
  if ch_x11 c then prog_ret (Some (Errorf "X11 forwarding already setup for this channel" []))
  else
    do* update_channel i (set_ch_env (<["DISPLAY" := "localhost:10"]> (ch_env c))) in
    let* err :=
      on_forwards_with_agent (ch_connection c) x11_needed
        (λ setup, NewX11Forwarding (encode_error env) (Marshal_setup env) setup singleConnection proto cookie screen) in
    match err with
    | Some _ => prog_ret err
    | None => do* update_channel i set_ch_x11 in prog_ret None
    end.

Definition docker_OnClose (i : nat) : call unit :=
  let* c := channel_at i in
  do* (match ch_exec c with
       | Some e => kill lib config (finish_waits env) e (background_waits env)
       | None => prog_ret tt
       end) in
  do* (if ch_x11 c then let* _ := on_forwards (ch_connection c) CloseX11Forwarding in prog_ret tt else prog_ret tt) in
  let* n := net in
  match n_container n with
  | Some cnt =>
      if decide (Mode exec_config = DockerExecutionModeSession) then
        let* _ := remove_container lib cnt (timeout ContainerStop) in prog_ret tt
      else prog_ret tt
  | None => prog_ret tt
  end.

(** The wait after the TERM signal ends with the program or with the context. *)
Definition docker_OnShutdown (i : nat) (shutdownContext : Context) : call unit :=
  let* c := channel_at i in
  match ch_exec c with
  | None => prog_ret tt
  | Some e =>
      do* term lib config (finish_waits env) e (Deadline shutdownContext) in
      let* x := exec_at e in
      if doneClosed x then prog_ret tt else kill lib config (finish_waits env) e (background_waits env)
  end.

Definition docker_channelHandler (i : nat) : SessionChannelHandler W :=
  {| OnUnsupportedChannelRequest := λ _ _ _, prog_ret tt;
     OnFailedDecodeChannelRequest := λ _ _ _ _, prog_ret tt;
     OnEnvRequest := λ _ name val, docker_OnEnvRequest i name val;
     OnPtyRequest := λ _ term columns rows _ _ _, docker_OnPtyRequest i term columns rows;
     OnX11Request := λ _ single proto cookie screen _, docker_OnX11Request i single proto cookie screen;
     OnExecRequest := λ _ program, docker_OnExecRequest i program;
     OnShell := λ _, docker_OnShell i;
     OnSubsystem := λ _ subsystem, docker_OnSubsystem i subsystem;
     OnSignal := λ _ sig, docker_OnSignal i sig;
     OnWindow := λ _ columns rows _ _, docker_OnWindow i columns rows;
     OnClose := docker_OnClose i;
     OnShutdown := docker_OnShutdown i |}.

(** The goroutines of a channel's program, when the output of the program or
    the input from the client has come to its end. *)
Definition channel_output_ends (i : nat) : call unit :=
  let* c := channel_at i in
  match ch_exec c with
  | None => prog_ret tt
  | Some e =>
      let* stdout := obj_Stdout (objects env) (ch_session c) in
      let* stderr := obj_Stderr (objects env) (ch_session c) in
      let* _ := processOutput lib config (finish_waits env) e (channel_write stdout) (channel_write stderr)
                  (obj_CloseWrite (objects env) (ch_session c)) (channel_exit (ch_session c)) in
      prog_ret tt
  end.

Definition channel_input_ends (i : nat) (data : list byte) : call unit :=
  let* c := channel_at i in
  match ch_exec c with
  | None => prog_ret tt
  | Some e =>
      let* _ := processInput lib config (finish_waits env) e data (channel_exit (ch_session c)) in prog_ret tt
  end.

(** ** The SSH connection *)

Definition docker_OnSessionChannel (s : nat) (meta : ChannelMetadata) (session : SessionChannel)
  : call (option (SessionChannelHandler W) * option ChannelRejection) :=
  let* o := objs in
  do* update_objs (set_channels (channels o ++ [MkChannelHandler (ChannelID meta) s ∅ false 0 0 false None session])) in
  prog_ret (Some (docker_channelHandler (length (channels o))), None).

Definition forward_failed (explanation : string) (args : list value) : option ChannelRejection :=
  Some (NewChannelRejection ConnectionFailed "DOCKER_FORWARDING_FAILED" "Error setting up the forwarding" explanation args).

Definition docker_OnTCPForwardChannel (s : nat) (hostToConnect : string) (portToConnect : Z) (originatorHost : string)
    (originatorPort : Z) : call (option ForwardChannel * option ChannelRejection) :=
  let* '(channel, err) :=
    on_forwards_with_agent s direct_needed
      (λ setup, NewForwardTCP (encode_error env) (Marshal_setup env) (Marshal_new env) setup
                  hostToConnect portToConnect originatorHost originatorPort) in
  match err with
  | Some _ => prog_ret (None, forward_failed "Error setting up the forwarding" [])
  | None => prog_ret (Z.to_nat <$> channel, None)
  end.

Definition docker_OnDirectStreamLocal (s : nat) (path : string) : call (option ForwardChannel * option ChannelRejection) :=
  let* '(channel, err) :=
    on_forwards_with_agent s direct_needed
      (λ setup, NewForwardUnix (encode_error env) (Marshal_setup env) (Marshal_new env) setup path) in
  match err with
  | Some e => prog_ret (None, forward_failed "Error setting up the forwarding (%s)" [VString (Error e)])
  | None => prog_ret (Z.to_nat <$> channel, None)
  end.

Definition docker_OnRequestTCPReverseForward (s : nat) (bindHost : string) (bindPort : Z) : call (option error) :=
  on_forwards_with_agent s (reverse_needed (Sprintf "tcp-%s:%d" [VString bindHost; VInt bindPort]))
    (λ setup, NewTCPReverseForwarding (encode_error env) (Marshal_setup env) setup bindHost bindPort).

Definition docker_OnRequestStreamLocal (s : nat) (path : string) : call (option error) :=
  on_forwards_with_agent s (reverse_needed (Sprintf "unix-%s" [VString path]))
    (λ setup, NewUnixReverseForwarding (encode_error env) (Marshal_setup env) setup path).

Definition docker_sshConnection (s : nat) : SSHConnectionHandler W :=
  {| OnUnsupportedGlobalRequest := λ _ _ _, prog_ret tt;
     OnFailedDecodeGlobalRequest := λ _ _ _ _, prog_ret tt;
     OnUnsupportedChannel := λ _ _ _, prog_ret tt;
     OnSessionChannel := λ meta _ session, docker_OnSessionChannel s meta session;
     OnTCPForwardChannel := λ _ host port ohost oport, docker_OnTCPForwardChannel s host port ohost oport;
     OnRequestTCPReverseForward := λ host port _, docker_OnRequestTCPReverseForward s host port;
     OnRequestCancelTCPReverseForward := λ host port, on_forwards s (CancelTCPForwarding (encode_error env) host port);
     OnDirectStreamLocal := λ _ path, docker_OnDirectStreamLocal s path;
     OnRequestStreamLocal := λ path _, docker_OnRequestStreamLocal s path;
     OnRequestCancelStreamLocal := λ path, on_forwards s (CancelStreamLocalForwarding (encode_error env) path);
     OnConnShutdown := λ _, on_forwards s (agentForward_OnShutdown (encode_error env)) |}.

(** ** The handler of the network connection *)

Definition no_authentication (meta : ConnectionAuthPendingMetadata)
  : call (AuthResponse * ConnectionAuthenticatedMetadata * option error) :=
  prog_ret (AuthResponseUnavailable, AuthFailed meta, Some (Errorf "docker does not support authentication" [])).

Definition docker_networkHandler : NetworkConnectionHandler W :=
  {| OnAuthPassword := λ meta _, no_authentication meta;
     OnAuthPubKey := λ meta _, no_authentication meta;
     OnAuthKeyboardInteractive := λ meta _, prog_ret (AuthResponseUnavailable, AuthFailed meta, None);
     OnAuthGSSAPI := λ _, prog_ret None;
     OnHandshakeFailed := λ _ _, prog_ret tt;
     OnHandshakeSuccess := λ meta,
       let* '(s, meta, err) := handshake meta in
       prog_ret (docker_sshConnection <$> s, meta, err);
     OnDisconnect := docker_OnDisconnect;
     OnNetShutdown := λ _, docker_OnNetShutdown |}.

(** [New] *)
Definition docker_New (IsNone : string → bool) : call (option (NetworkConnectionHandler W) * option error) :=
  match DockerConfig_Validate IsNone config with
  | Some err => prog_ret (None, Some err)
  | None =>
      do* update_objs (set_network (MkNetworkHandler false "" None false false ∅ false)) in
      prog_ret (Some docker_networkHandler, None)
  end.

End docker.
