(* ===== verification/DockerSpec.v ===== *)
(** * What the Docker backend guarantees

    Theorems on [DockerClient], [DockerExec] and [Docker]. *)

From stdpp Require Import base gmap strings list fin_maps pretty.
From Stdlib Require Import Strings.Byte.
From S2P Require Import Prelude Messages Metadata Handler GoStrings ConfigHTTP ConfigBackend AppConfig AgentProtocol AgentForward Requests DockerClient DockerExec Docker.

Local Open Scope Z_scope.

(** ** The store

    The client's and the backend's objects next to the rest [T] of the world. *)
Abbreviation world T := (docker_store * (docker_objects * T))%type.

Section steps.
Context {T A : Type}.
Let W := world T.
Implicit Types (s : docker_store) (p : docker_objects * T).

Lemma bind_store (f : docker_store → prog W A) s p : prog_bind f store (s, p) = f s (s, p).
Proof. done. Qed.
Lemma bind_update_store (f : unit → prog W A) g s p : prog_bind f (update_store g) (s, p) = f tt (g s, p).
Proof. done. Qed.
Lemma bind_ask lib (f : reply + error → prog W A) r s p :
  prog_bind f (ask lib r) (s, p) = f (daemon lib (history s) r) (add_history r s, p).
Proof. done. Qed.
Lemma bind_update_exec (f : unit → prog W A) e g s p :
  prog_bind f (update_exec e g) (s, p) = f tt (set_execs (alter g e (execs s)) s, p).
Proof. done. Qed.
Lemma bind_update_container (f : unit → prog W A) c g s p :
  prog_bind f (update_container c g) (s, p) = f tt (set_containers (alter g c (containers s)) s, p).
Proof. done. Qed.
Lemma bind_exec_at (f : dockerV20Exec → prog W A) e x s p :
  execs s !! e = Some x → prog_bind f (exec_at e) (s, p) = f x (s, p).
Proof. intros H. unfold exec_at, prog_bind, store. cbn. by rewrite H. Qed.
Lemma bind_container_at (f : dockerV20Container → prog W A) c x s p :
  containers s !! c = Some x → prog_bind f (container_at c) (s, p) = f x (s, p).
Proof. intros H. unfold container_at, prog_bind, store. cbn. by rewrite H. Qed.
Lemma bind_lock_exec (f : unit → prog W A) e x s p :
  execs s !! e = Some x → e_lock x = false →
  prog_bind f (lock_exec e) (s, p) = f tt (set_execs (alter (set_e_lock true) e (execs s)) s, p).
Proof. intros H Hl. unfold lock_exec. rewrite bind_bind, (bind_exec_at _ _ x) by done. by rewrite Hl. Qed.
Lemma bind_lock_container (f : unit → prog W A) c x s p :
  containers s !! c = Some x → c_lock x = false →
  prog_bind f (lock_container c) (s, p) = f tt (set_containers (alter (set_c_lock true) c (containers s)) s, p).
Proof. intros H Hl. unfold lock_container. rewrite bind_bind, (bind_container_at _ _ x) by done. by rewrite Hl. Qed.
Lemma bind_unlock_exec (f : unit → prog W A) e s p :
  prog_bind f (unlock_exec e) (s, p) = f tt (set_execs (alter (set_e_lock false) e (execs s)) s, p).
Proof. done. Qed.
Lemma bind_unlock_container (f : unit → prog W A) c s p :
  prog_bind f (unlock_container c) (s, p) = f tt (set_containers (alter (set_c_lock false) c (containers s)) s, p).
Proof. done. Qed.
Lemma bind_wg_Done (f : unit → prog W A) c x s p :
  containers s !! c = Some x → 1 ≤ c_wg x →
  prog_bind f (wg_Done c) (s, p) = f tt (set_containers (alter (set_c_wg (c_wg x - 1)) c (containers s)) s, p).
Proof.
  intros H Hw. unfold wg_Done. rewrite bind_bind, (bind_container_at _ _ x) by done. by rewrite decide_False by lia.
Qed.
Lemma bind_wg_Wait (f : unit → prog W A) c x s p :
  containers s !! c = Some x → c_wg x = 0 → prog_bind f (wg_Wait c) (s, p) = f tt (s, p).
Proof. intros H Hw. unfold wg_Wait. rewrite bind_bind, (bind_container_at _ _ x) by done. by rewrite Hw. Qed.

End steps.

(** Looking up an object that was just updated. *)
Ltac find_object :=
  cbn [containers execs history set_containers set_execs add_history inc_requests inc_failures];
  rewrite ?list_lookup_alter_eq;
  repeat match goal with
  | H : ?l !! ?i = Some _ |- context [?l !! ?i] => rewrite H
  end; cbn; reflexivity.

(** One call of a sequence. *)
Ltac step :=
  first
  [ rewrite bind_ret | rewrite bind_bind | rewrite bind_store | rewrite bind_update_store | rewrite bind_ask
  | rewrite bind_update_exec | rewrite bind_update_container
  | erewrite bind_exec_at by find_object | erewrite bind_container_at by find_object
  | erewrite bind_lock_exec; [|find_object|cbn; first [reflexivity|eassumption]]
  | erewrite bind_lock_container; [|find_object|cbn; first [reflexivity|eassumption]]
  | rewrite bind_unlock_exec | rewrite bind_unlock_container
  | erewrite bind_wg_Done; [|find_object|cbn; lia]
  | erewrite bind_wg_Wait; [|find_object|cbn; lia] ]; cbv beta.

Section client.
Context {T : Type}.
Abbreviation W := (world T).
Context (lib : DockerLibrary) (config : DockerConfig) (finish_waits : nat → list nat).
Implicit Types (s : docker_store) (o : docker_objects) (t : T).

(** The messages of this program are not errors of the Docker client library. *)
Definition own_errors_are_temporary : Prop := ∀ m, isPermanentError lib (MsgError m) = false.

(** The answers to [n] inspections of a program that follow each other. *)
Fixpoint inspections (h : list request) (id : string) (n : nat) : list (reply + error) :=
  match n with
  | 0%nat => []
  | S n => daemon lib h (ContainerExecInspect id) :: inspections (h ++ [ContainerExecInspect id]) id n
  end.

(** The exit status that they tell: that of the first answer that the program is
    no longer running, unless there is a permanent error before it. *)
Fixpoint exit_status (answers : list (reply + error)) : option Z :=
  match answers with
  | [] => None
  | inl r :: answers =>
      if r_Running r then exit_status answers
      else if decide (r_ExitCode r < 0) then exit_status answers
      else Some (r_ExitCode r)
  | inr err :: answers => if isPermanentError lib err then None else exit_status answers
  end.

(** A callback that is called with the exit status and changes only the rest of
    the world. *)
Definition callback (onExit : Z → prog W unit) (f : Z → T → T) : Prop :=
  ∀ z s o t, onExit z (s, (o, t)) = Done (tt, (s, (o, f z t))).

Definition told (f : Z → T → T) (status : option Z) (t : T) : T :=
  match status with Some z => f z t | None => t end.

Lemma finish_loop_exec e ws onExit f s o t x :
  own_errors_are_temporary → callback onExit f → execs s !! e = Some x → execID x ≠ "" →
  let status := exit_status (inspections (history s) (execID x) (S (length ws))) in
  ∃ h, finish_loop lib config e ws onExit (s, (o, t)) =
    Done (status, (MkDockerStore h (containers s) (execs s) (backendRequestsMetric s) (backendFailuresMetric s),
                   (o, told f status t))).
Proof.
  intros Hown Hcb He Hid. revert s He. induction ws as [|w ws IH]; intros s He; cbn [finish_loop hd];
    unfold finish_round, execInspect; repeat step; rewrite decide_True by done; repeat step; cbn [inspections exit_status];
    destruct (daemon lib (history s) (ContainerExecInspect (execID x))) as [r|err]; repeat step.
  - destruct (r_Running r); repeat step; [cbn [fst snd]; rewrite Hown; by eexists|].
    case_decide; repeat step; [cbn [fst snd]; rewrite Hown; by eexists|]. erewrite bind_done by apply Hcb. by eexists.
  - cbn [fst snd]. destruct (isPermanentError lib err); by eexists.
  - destruct (r_Running r); repeat step; [cbn [fst snd]; rewrite Hown; by apply (IH (add_history _ s))|].
    case_decide; repeat step; [cbn [fst snd]; rewrite Hown; by apply (IH (add_history _ s))|]. erewrite bind_done by apply Hcb. by eexists.
  - cbn [fst snd]. destruct (isPermanentError lib err); [by eexists|]. by apply (IH (add_history _ s)).
Qed.

(** A program whose goroutines copy its input and output, counted by its
    container. *)
Definition program_runs (e : nat) (x : dockerV20Exec) (d : dockerV20Container) s : Prop :=
  execs s !! e = Some x ∧ containers s !! e_container x = Some d ∧ execID x ≠ "" ∧ e_once x = false ∧
  e_lock x = false ∧ pid x ≠ -1 ∧ doneClosed x = false ∧ 1 ≤ c_wg d.

Definition program_over (x : dockerV20Exec) : dockerV20Exec :=
  set_doneClosed (set_e_lock false (set_pid (-1) (set_e_lock true (set_e_once x)))).

Lemma exit_once_runs e x d onExit f s o t :
  own_errors_are_temporary → callback onExit f → program_runs e x d s →
  let status := exit_status (inspections (history s) (execID x) (S (length (finish_waits e)))) in
  ∃ s', exit_once lib config finish_waits e onExit (s, (o, t)) = Done (status, (s', (o, told f status t))) ∧
    execs s' !! e = Some (program_over x) ∧ containers s' !! e_container x = Some (set_c_wg (c_wg d - 1) d).
Proof.
  intros Hown Hcb (He & Hd & Hid & Ho & Hl & Hp & Hdo & Hw). cbn zeta. unfold exit_once. step. rewrite Ho. step.
  unfold finished. do 2 step. rewrite decide_False by done. do 2 step.
  cbn [doneClosed pid execID e_container set_e_once set_e_lock set_pid set_doneClosed]. rewrite Hdo. step.
  match goal with |- ∃ s', prog_bind _ _ (?s1, _) = _ ∧ _ =>
    destruct (finish_loop_exec e (finish_waits e) onExit f s1 o t (program_over x)) as [h Hf];
      [exact Hown | exact Hcb | | exact Hid | rewrite (bind_done _ _ _ _ _ Hf)]
  end.
  { cbn. by rewrite !list_lookup_alter_eq, He. }
  cbn [execs containers set_execs history set_containers]. rewrite decide_True by done. repeat step.
  eexists. split; [reflexivity|]. cbn. by rewrite !list_lookup_alter_eq, He, Hd.
Qed.

(** The exit status of a program is reported to the client once: when the first
    of the two goroutines that copy its input and its output is done, it is the
    status of the first inspection, of those that fit into the time allowed, that
    finds the program no longer running; and then the container no longer counts
    the program.  When the other goroutine is done nothing is reported. *)
Theorem exit_status_is_reported e x d onExit f s o t data onExit' :
  own_errors_are_temporary → callback onExit f → program_runs e x d s →
  let status := exit_status (inspections (history s) (execID x) (S (length (finish_waits e)))) in
  ∃ s', processInput lib config finish_waits e data onExit (s, (o, t)) = Done (status, (s', (o, told f status t))) ∧
    containers s' !! e_container x = Some (set_c_wg (c_wg d - 1) d) ∧
    exit_once lib config finish_waits e onExit' (s', (o, told f status t)) = Done (None, (s', (o, told f status t))).
Proof.
  intros Hown Hcb Hr. cbn zeta. unfold processInput. step.
  assert (program_runs e (set_e_input data x) d (set_execs (alter (set_e_input data) e (execs s)) s)) as Hr'.
  { destruct Hr as (He & Hd & Hr). split; [|by split]. cbn. by rewrite list_lookup_alter_eq, He. }
  edestruct exit_once_runs as (s' & E & Hx & Hc); [exact Hown|exact Hcb|exact Hr'|].
  exists s'. split; [exact E|]. split; [exact Hc|]. unfold exit_once. by step.
Qed.

(** A client that closes its standard input while the program runs: when the
    program runs on for longer than the time allowed for the inspections, its exit
    status is never reported and the channel is never closed, also not when the
    program ends later and its output ends. *)
Theorem closed_input_loses_exit_status e x d onExit f s o t data onExit' :
  own_errors_are_temporary → callback onExit f → program_runs e x d s →
  Forall (λ a, ∃ r, a = inl r ∧ r_Running r = true)
    (inspections (history s) (execID x) (S (length (finish_waits e)))) →
  ∃ s', processInput lib config finish_waits e data onExit (s, (o, t)) = Done (None, (s', (o, t))) ∧
    ∀ t', exit_once lib config finish_waits e onExit' (s', (o, t')) = Done (None, (s', (o, t'))).
Proof.
  intros Hown Hcb Hr Hrun. unfold processInput. step.
  assert (program_runs e (set_e_input data x) d (set_execs (alter (set_e_input data) e (execs s)) s)) as Hr'.
  { destruct Hr as (He & Hd & Hr). split; [|by split]. cbn. by rewrite list_lookup_alter_eq, He. }
  assert (exit_status (inspections (history s) (execID x) (S (length (finish_waits e)))) = None) as Hn.
  { induction Hrun as [|a l (r & -> & Hr1) _ IH]; [done|]. cbn. by rewrite Hr1. }
  edestruct exit_once_runs as (s' & E & Hx & _); [exact Hown|exact Hcb|exact Hr'|].
  cbn [execID set_e_input history set_execs] in E. rewrite Hn in E.
  exists s'. split; [exact E|]. intros t'. unfold exit_once. by step.
Qed.

End client.

(** ** The process ID

    The agent sends it as four bytes before the output of the program.  With a
    terminal it is read as it is: when all four bytes arrive together, and what
    arrives after them stays; when three of them arrive first the copy fails with
    a panic; when one or two arrive first a wrong number is read. *)
Theorem pid_arrives_in_one_piece (a b c d : byte) (more : list byte) (rest : list (list byte)) :
  let zero := Byte.x00 in
  read_bytes 4 (replicate 4 zero) 0 ((a :: b :: c :: d :: more) :: rest) =
    Done ([a; b; c; d], None, if decide (more = []) then rest else more :: rest) ∧
  (∃ why, read_bytes 4 (replicate 4 zero) 0 ([a; b; c] :: [d] :: rest) = Panic why) ∧
  read_bytes 4 (replicate 4 zero) 0 ([a; b] :: [c; d] :: rest) = Done ([a; b; zero; zero], None, rest) ∧
  read_bytes 4 (replicate 4 zero) 0 ([a] :: [b; c; d] :: rest) = Done ([a; b; c; zero], None, rest).
Proof.
  cbn zeta. split; [|split; [by eexists|done]].
  destruct more as [|m more]; [done|]. cbn. done.
Qed.

Section removal.
Context {T : Type} (lib : DockerLibrary).

(** The daemon has said that the container is gone: it removed it, or it does not
    know it. *)
Definition container_gone (id : string) (h : list request) : Prop :=
  (∃ h' r, h = h' ++ [ContainerRemove id] ∧ daemon lib h' (ContainerRemove id) = inl r) ∨
  (∃ h' err, h = h' ++ [ContainerInspect id] ∧ daemon lib h' (ContainerInspect id) = inr err ∧ IsErrNotFound lib err = true).

(** Requests about the removal of the container were made, at least [n]. *)
Definition removal_attempts (id : string) (n : nat) (h h' : list request) : Prop :=
  ∃ rs, h' = (h ++ rs)%list ∧ Forall (λ r, r = ContainerInspect id ∨ r = ContainerRemove id) rs ∧ (n ≤ length rs)%nat.

Lemma alter_ext_at {A} (f g : A → A) i (l : list A) x : l !! i = Some x → f x = g x → alter f i l = alter g i l.
Proof.
  intros Hl Hfg. apply list_eq. intros j. rewrite !list_lookup_alter. case_decide; [|done]. subst. rewrite Hl. cbn. by rewrite Hfg.
Qed.

Implicit Types (s : docker_store) (p : docker_objects * T).

(** One round of the loop of [remove]. *)
Lemma remove_round_spec id s p :
  wp (let* r := counted lib (ContainerInspect id) in
      match r with
      | inr lastError =>
          if IsErrNotFound lib lastError then prog_ret (Return (A:=option error) None)
          else do* failed in prog_ret (Again lastError)
      | inl _ =>
          let* r := counted lib (ContainerRemove id) in
          match r with
          | inl _ => prog_ret (Return None)
          | inr lastError => do* failed in prog_ret (Again lastError)
          end
      end) (s, p)
    (λ v w, w.2 = p ∧ execs w.1 = execs s ∧ containers w.1 = containers s ∧
      match v with
      | Return err => err = None ∧ container_gone id (history w.1)
      | Again _ => ∃ rs, history w.1 = (history s ++ rs)%list ∧ (1 ≤ length rs)%nat ∧
                     Forall (λ r, r = ContainerInspect id ∨ r = ContainerRemove id) rs
      end).
Proof.
  unfold wp, counted, failed. repeat step. cbn [history inc_requests].
  destruct (daemon lib (history s) (ContainerInspect id)) as [r|err] eqn:E.
  - repeat step. cbn [history inc_requests add_history].
    destruct (daemon lib (history s ++ [ContainerInspect id]) (ContainerRemove id)) as [r'|err'] eqn:E'; cbn.
    + split_and!; try done. left. by eexists _, _.
    + split_and!; try done. eexists. rewrite <- app_assoc. split; [done|]. cbn. split; [lia|]. rewrite ?Forall_cons, Forall_nil. naive_solver.
  - destruct (IsErrNotFound lib err) eqn:En; cbn.
    + split_and!; try done. right. by eexists _, _.
    + split_and!; try done. eexists. split; [done|]. cbn. split; [lia|]. rewrite ?Forall_cons, Forall_nil. naive_solver.
Qed.

Lemma remove_container_spec c d n s p :
  containers s !! c = Some d → c_lock d = false → shuttingDown d = false → c_wg d = 0 →
  wp (remove_container lib c (Deadline n)) (s, p) (λ err w,
    w.2 = p ∧ execs w.1 = execs s ∧ containers w.1 = alter (λ d, set_shutdown (set_shuttingDown d)) c (containers s) ∧
    match err with
    | None => container_gone (containerID d) (history w.1)
    | Some _ => removal_attempts (containerID d) (S n) (history s) (history w.1)
    end).
Proof.
  intros Hd Hl Hsd Hwg. unfold wp, remove_container. repeat step. rewrite Hsd. repeat step.
  match goal with |- match retry _ _ _ (?s1, _) with _ => _ end => set (s1' := s1) end.
  assert (containers s1' = alter (λ d, set_shutdown (set_shuttingDown d)) c (containers s)) as Hc.
  { cbn. rewrite !list_alter_alter_eq. apply (alter_ext_at _ _ _ _ d); [done|]. destruct d. cbn in *. by subst. }
  assert (execs s1' = execs s ∧ history s1' = history s) as [He Hh] by done. clearbody s1'.
  eapply (wp_retry (λ m w, (m ≤ n)%nat ∧ w.2 = p ∧ execs w.1 = execs s ∧ containers w.1 = containers s1' ∧
    removal_attempts (containerID d) (n - m) (history s) (history w.1))).
  2:{ split_and!; try done. cbn. rewrite Hh. exists []. rewrite app_nil_r. split; [done|]. split; [constructor|cbn; lia]. }
  intros m [s2 p2] (Hm & Hp2 & He2 & Hc2 & Hr). cbn in *. subst p2.
  eapply wp_mono; [apply remove_round_spec|]. cbn. intros v [s3 p3] (-> & He3 & Hc3 & Hv). cbn in *.
  destruct v as [err|err].
  - destruct Hv as [-> Hv]. split_and!; congruence.
  - destruct Hv as (rs & Hh3 & Hn & Hrs).
    assert (removal_attempts (containerID d) (n - m + 1) (history s) (history s3)) as Hr3.
    { destruct Hr as (qs & Hq & Hfq & Hl'). exists (qs ++ rs)%list. rewrite Hh3, Hq, length_app, app_assoc.
      split; [done|]. split; [by apply Forall_app|lia]. }
    destruct m as [|m]; [|split_and!; try congruence; [lia|]; by replace (n - m)%nat with (n - S m + 1)%nat by lia].
    unfold wp. cbn. split_and!; try congruence. by replace (S n) with (n - 0 + 1)%nat by lia.
Qed.

End removal.

(** ** Steps of the handlers *)

Section handler_steps.
Context {T A : Type}.
Let W := world T.
Implicit Types (s : docker_store) (o : docker_objects) (t : T).

Lemma bind_objs (f : docker_objects → prog W A) s o t : prog_bind f objs (s, (o, t)) = f o (s, (o, t)).
Proof. done. Qed.
Lemma bind_net (f : networkHandler → prog W A) s o t : prog_bind f net (s, (o, t)) = f (network o) (s, (o, t)).
Proof. done. Qed.
Lemma bind_update_objs (f : unit → prog W A) g s o t : prog_bind f (update_objs g) (s, (o, t)) = f tt (s, (g o, t)).
Proof. done. Qed.
Lemma bind_update_net (f : unit → prog W A) g s o t :
  prog_bind f (update_net g) (s, (o, t)) = f tt (s, (set_network (g (network o)) o, t)).
Proof. done. Qed.
Lemma bind_update_channel (f : unit → prog W A) i g s o t :
  prog_bind f (update_channel i g) (s, (o, t)) = f tt (s, (set_channels (alter g i (channels o)) o, t)).
Proof. done. Qed.
Lemma bind_channel_at (f : channelHandler → prog W A) i c s o t :
  channels o !! i = Some c → prog_bind f (channel_at i) (s, (o, t)) = f c (s, (o, t)).
Proof. intros H. unfold channel_at, prog_bind, objs. cbn. by rewrite H. Qed.

Lemma with_mutex_eq (body : prog W A) s o t :
  n_mutex (network o) = false →
  with_mutex body (s, (o, t)) =
  (let* a := body in do* update_net (set_n_mutex false) in prog_ret a)
    (s, (set_network (set_n_mutex true (network o)) o, t)).
Proof. intros H. unfold with_mutex. rewrite bind_net, H. by rewrite bind_update_net. Qed.

Lemma with_mutex_blocks (body : prog W A) s o t :
  n_mutex (network o) = true → ∃ why, with_mutex body (s, (o, t)) = Blocked why.
Proof. intros H. unfold with_mutex. rewrite bind_net, H. by eexists. Qed.

End handler_steps.

(** Locking and unlocking the mutex. *)
Lemma unlocked o :
  n_mutex (network o) = false →
  set_network (set_n_mutex false (network (set_network (set_n_mutex true (network o)) o)))
    (set_network (set_n_mutex true (network o)) o) = o.
Proof. destruct o as [[] ? ?]. cbn. by intros ->. Qed.

Ltac hstep :=
  first
  [ step | rewrite bind_objs | rewrite bind_net | rewrite bind_update_objs | rewrite bind_update_net
  | rewrite bind_update_channel
  | erewrite bind_channel_at by (cbn; rewrite ?list_lookup_alter_eq;
      repeat match goal with H : ?l !! ?i = Some _ |- context [?l !! ?i] => rewrite H end; cbn; reflexivity) ]; cbv beta.

Section handlers.
Context {T : Type} (env : Surroundings (world T)).
Implicit Types (s : docker_store) (o : docker_objects) (t : T).

(** The container of the connection, ready to be removed: nobody holds its lock
    and no program in it is running. *)
Definition removable (c : nat) (d : dockerV20Container) s : Prop :=
  containers s !! c = Some d ∧ c_lock d = false ∧ shuttingDown d = false ∧ c_wg d = 0.

(** When a connection that has a container ends, the container is removed: the
    call returns once the daemon has confirmed that the container is gone, or
    after having tried for as long as the timeout allows; a second call does
    nothing. *)
Theorem disconnect_removes_container c d s o t :
  n_mutex (network o) = false → n_disconnected (network o) = false → n_done (network o) = false →
  n_container (network o) = Some c → removable c d s →
  wp (docker_OnDisconnect env) (s, (o, t)) (λ _ w,
    (container_gone (library env) (containerID d) (history w.1) ∨
     removal_attempts (containerID d) (S (waits env (ContainerStop (Timeouts (cfg env))))) (history s) (history w.1)) ∧
    n_done (network w.2.1) = true ∧ w.2.2 = t ∧ docker_OnDisconnect env w = Done (tt, w)).
Proof.
  intros Hm Hdis Hdone Hc (Hd & Hl & Hsd & Hwg). unfold wp, docker_OnDisconnect at 1. rewrite with_mutex_eq by done.
  repeat hstep. cbn [network set_network n_disconnected set_n_mutex n_container set_n_disconnected]. rewrite Hdis. repeat hstep.
  rewrite Hc. repeat hstep.
  match goal with |- match prog_bind _ _ (s, ?p1) with _ => _ end => set (p := p1) end.
  pose proof (remove_container_spec (library env) c d (waits env (ContainerStop (Timeouts (cfg env)))) s p Hd Hl Hsd Hwg) as Hr.
  apply wp_done in Hr as (err & [s' p'] & E & Hp & _ & _ & Hr). cbn in Hp. subst p'.
  unfold timeout. rewrite (bind_done _ _ _ _ _ E). subst p. repeat hstep.
  cbn [network set_network n_done set_n_mutex set_n_disconnected]. rewrite Hdone. repeat hstep.
  cbn [fst snd network set_network]. split_and!; try done.
  destruct err; [by right|by left].
Qed.

(** Once the container is being removed, the first program a client asks for is
    refused, and the container stays locked: the second one waits forever, with
    the mutex of the connection held, so that the connection cannot even be
    disconnected. *)
Theorem program_after_removal_blocks c d i ch s o t :
  Mode (Execution (cfg env)) = DockerExecutionModeConnection →
  n_mutex (network o) = false → n_container (network o) = Some c →
  containers s !! c = Some d → c_lock d = false → shuttingDown d = true →
  channels o !! i = Some ch → ch_exec ch = None →
  ∃ err s', docker_OnShell env i (s, (o, t)) = Done (Some err, (s', (o, t))) ∧
    ∃ why, docker_OnShell env i (s', (o, t)) = Blocked why.
Proof.
  intros Hmode Hm Hc Hd Hl Hsd Hch Hex. unfold docker_OnShell, run_channel. rewrite with_mutex_eq by done.
  repeat hstep. rewrite Hex. repeat hstep. rewrite decide_True by done. unfold handleExecModeConnection. repeat hstep.
  cbn [network set_network n_container set_n_mutex]. rewrite Hc. unfold createExec. repeat hstep.
  cbn [shuttingDown set_c_lock]. rewrite Hsd. repeat hstep. eexists _, _. split.
  { by rewrite unlocked. }
  rewrite with_mutex_eq by done. repeat hstep. rewrite Hex. repeat hstep.
  cbn [network set_network n_container set_n_mutex]. rewrite Hc.
  unfold lock_container. repeat hstep. cbn [c_lock set_c_lock]. by eexists.
Qed.

(** In session mode nobody removes the containers: neither the end of the
    channel nor the end of the connection makes a request to the daemon. *)
Theorem session_containers_are_left i ch e x s o t :
  n_mutex (network o) = false → n_done (network o) = false → n_disconnected (network o) = false →
  n_container (network o) = None →
  channels o !! i = Some ch → ch_x11 ch = false → ch_exec ch = Some e →
  execs s !! e = Some x → execID x = "" →
  docker_OnClose env i (s, (o, t)) = Done (tt, (s, (o, t))) ∧
  ∃ o', docker_OnDisconnect env (s, (o, t)) = Done (tt, (s, (o', t))) ∧ n_done (network o') = true.
Proof.
  intros Hm Hdone Hdis Hc Hch Hx Hex He Hid. split.
  - unfold docker_OnClose. hstep. rewrite Hex, Hx. unfold kill. repeat hstep.
    destruct (doneClosed x); repeat hstep; [by rewrite Hc|]. rewrite decide_False by auto. repeat hstep. by rewrite Hc.
  - unfold docker_OnDisconnect. rewrite with_mutex_eq by done. repeat hstep.
    cbn [network set_network n_disconnected set_n_mutex n_container set_n_disconnected n_done].
    rewrite Hdis, Hc. repeat hstep. cbn [network set_network n_disconnected set_n_mutex n_container set_n_disconnected n_done].
    rewrite Hdone. by eexists.
Qed.

End handlers.

(** ** Which requests are made

    [asks I P c]: the call [c] keeps the invariant [I] of the backend's objects,
    and all requests that it makes have the property [P]. *)
Section asks.
Context {T : Type}.
Abbreviation W := (world T).
Context (I : docker_objects → Prop) (P : request → Prop).
Implicit Types (s : docker_store) (o : docker_objects) (t : T).

Definition asked s (w : W) : Prop := ∃ rs, history w.1 = (history s ++ rs)%list ∧ Forall P rs.

Definition asks {A} (c : prog W A) : Prop :=
  ∀ s o t, I o → wlp c (s, (o, t)) (λ _ w, I w.2.1 ∧ asked s w).

Lemma asked_refl s p : asked s (s, p).
Proof. exists []. by rewrite app_nil_r. Qed.

Lemma asked_trans s (w w' : W) : asked s w → asked w.1 w' → asked s w'.
Proof.
  intros (rs & H & HP) (rs' & H' & HP'). exists (rs ++ rs')%list. rewrite H', H, app_assoc.
  split; [done|]. by apply Forall_app.
Qed.

Lemma asks_ret {A} (a : A) : asks (prog_ret a).
Proof. intros s o t HI. split; [done | apply asked_refl]. Qed.
Lemma asks_panic {A} why : asks (panic (A:=A) why).
Proof. done. Qed.
Lemma asks_block {A} why : asks (block (A:=A) why).
Proof. done. Qed.

Lemma asks_bind {A B} (f : A → prog W B) c : asks c → (∀ a, asks (f a)) → asks (prog_bind f c).
Proof.
  intros Hc Hf s o t HI. apply wlp_bind. eapply wlp_mono; [by apply Hc|]. intros a [s' [o' t']] [HI' Ha].
  eapply wlp_mono; [by apply Hf|]. intros b w' [HI'' Hb]. split; [done|]. by eapply asked_trans.
Qed.

Lemma asks_store : asks store.
Proof. intros s o t HI. split; [done | apply asked_refl]. Qed.
Lemma asks_objs : asks objs.
Proof. intros s o t HI. split; [done | apply asked_refl]. Qed.

Lemma asks_update_store g : (∀ s, history (g s) = history s) → asks (update_store g).
Proof. intros H s o t HI. split; [done|]. exists []. cbn. rewrite H. by rewrite app_nil_r. Qed.

Lemma asks_update_objs g : (∀ o, I o → I (g o)) → asks (update_objs g).
Proof. intros H s o t HI. split; [by apply H | apply asked_refl]. Qed.

Lemma asks_ask lib r : P r → asks (ask lib r).
Proof. intros H s o t HI. split; [done|]. exists [r]. cbn. split; [done|]. by constructor. Qed.

Lemma asks_retry {A} c (round : prog W (verdict A)) out_of_time :
  asks round → (∀ e, asks (out_of_time e)) → asks (retry c round out_of_time).
Proof.
  intros Hr Hg.
  assert (∀ n g, (∀ e, asks (g e)) → asks (retry_loop n round g)) as Hl.
  { intros n g Hg'. induction n as [|n IH]; cbn; (apply asks_bind; [done|]); intros [a|e]; cbn; auto using asks_ret. }
  destruct c; cbn; apply Hl; [done|]. intros e. apply asks_block.
Qed.

Lemma asks_with_mutex {A} (body : prog W A) :
  (∀ b o, I o → I (set_network (set_n_mutex b (network o)) o)) → asks body → asks (with_mutex body).
Proof.
  intros Hm Hb. unfold with_mutex, net, update_net. repeat (apply asks_bind; [|intros]); auto using asks_objs, asks_ret.
  destruct (n_mutex a); [apply asks_block|]. repeat (apply asks_bind; [|intros]); auto using asks_ret, asks_update_objs.
Qed.

End asks.

Ltac asks_step :=
  match goal with
  | |- asks _ _ (prog_ret _) => apply asks_ret
  | |- asks _ _ (panic _) => apply asks_panic
  | |- asks _ _ (block _) => apply asks_block
  | |- asks _ _ (prog_bind _ _) => apply asks_bind; [|intros]
  | |- asks _ _ store => apply asks_store
  | |- asks _ _ objs => apply asks_objs
  | |- asks _ _ (update_store _) => apply asks_update_store; intros; reflexivity
  | |- asks _ _ (ask _ _) => apply asks_ask
  | |- asks _ _ (retry _ _ _) => apply asks_retry; [|intros]
  | |- asks _ _ (with_mutex _) => apply asks_with_mutex; [done|]
  | |- asks _ _ (match ?x with _ => _ end) => destruct x
  | |- asks _ _ (if ?x then _ else _) => destruct x
  end.
Ltac asks_steps := repeat first [progress asks_step | solve [eauto with asks]].
Create HintDb asks.

(** The client makes only requests that fit the parameters of a call; it does not
    touch the objects of the handlers. *)
Section client_asks.
Context {T : Type}.
Abbreviation W := (world T).
Context (I : docker_objects → Prop) (P : request → Prop).
Context (lib : DockerLibrary) (config : DockerConfig) (finish_waits : nat → list nat).
Abbreviation asks := (asks (T:=T) I P).

(** Everything but the creation of a container is a request of this kind. *)
Definition harmless : Prop := ∀ r, (∀ a b c d e, r ≠ ContainerCreate a b c d e) → P r.
Context (HP : harmless).


Ltac client := unfold counted, failed, lock_exec, unlock_exec, lock_container, unlock_container, wg_Add, wg_Done,
  wg_Wait, new_exec, new_container; unfold update_exec, update_container, exec_at, container_at; asks_steps;
  try (apply HP; by intros).

Lemma asks_getImageName : asks (getImageName config).
Proof. unfold getImageName. client. Qed.
Hint Resolve asks_getImageName : asks.

Lemma asks_hasImage c : asks (hasImage lib config c).
Proof. unfold hasImage. client. Qed.

Lemma asks_client_pullImage c : asks (client_pullImage lib config c).
Proof. unfold client_pullImage. client. Qed.

Lemma asks_start i c : asks (start lib i c).
Proof. unfold start. client. Qed.
Lemma asks_attach i c : asks (attach lib i c).
Proof. unfold attach. client. Qed.
Lemma asks_remove_container i c : asks (remove_container lib i c).
Proof. unfold remove_container. client. Qed.

Lemma asks_lockedCreateExec i c program env tty : asks (lockedCreateExec lib config i c program env tty).
Proof. unfold lockedCreateExec, realCreateExec, attachExec. client. Qed.
Hint Resolve asks_lockedCreateExec : asks.
Lemma asks_createExec i c program env tty : asks (createExec lib config i c program env tty).
Proof. unfold createExec. client. Qed.
Hint Resolve asks_createExec : asks.

Lemma asks_createContainer c labels env tty cmd :
  (let launch := Launch (Execution config) in
   P (ContainerCreate (createConfig config (ContainerConfig launch) labels env tty cmd) (HostConfig launch)
        (NetworkConfig launch) (Platform launch) (ContainerName launch))) →
  asks (createContainer lib config c labels env tty cmd).
Proof. intros H. unfold createContainer. client. Qed.

Lemma asks_readBytesFromReader e n : asks (readBytesFromReader e n).
Proof. unfold readBytesFromReader. client. Qed.
Hint Resolve asks_readBytesFromReader : asks.

Lemma asks_run e stdout onExit : (∀ d, asks (stdout d)) → (∀ z, asks (onExit z)) → asks (run config e stdout onExit).
Proof. intros Ho Hx. unfold run, readPIDFromStdout, read_pid_frame. client. Qed.

Lemma asks_exit_once e onExit : (∀ z, asks (onExit z)) → asks (exit_once lib config finish_waits e onExit).
Proof.
  intros Hx.
  assert (∀ ws, asks (finish_loop lib config e ws onExit)) as Hl.
  { induction ws as [|w ws IH]; cbn [finish_loop]; unfold finish_round, execInspect, stopContainer, containerInspect; client. }
  unfold exit_once, finished. client.
Qed.
Hint Resolve asks_exit_once : asks.

Lemma asks_processOutput e stdout stderr close onExit :
  (∀ d, asks (stdout d)) → (∀ d, asks (stderr d)) → asks close → (∀ z, asks (onExit z)) →
  asks (processOutput lib config finish_waits e stdout stderr close onExit).
Proof.
  intros Ho He Hc Hx.
  assert (∀ ws : list (prog W (option error)), Forall (λ w, asks w) ws → asks (write_all ws)) as Hw.
  { induction 1 as [|w ws H _ IH]; cbn; asks_steps. }
  unfold processOutput. client; apply Hw, Forall_forall; intros w; rewrite list_elem_of_fmap; intros (d & -> & _); [done|].
  by destruct (d.1).
Qed.

Lemma asks_processInput e data onExit :
  (∀ z, asks (onExit z)) → asks (processInput lib config finish_waits e data onExit).
Proof. intros Hx. unfold processInput. client. Qed.

Lemma asks_goroutines_end e data : asks (goroutines_end lib config finish_waits e data).
Proof. unfold goroutines_end. client. apply asks_exit_once. intros. apply asks_ret. Qed.
Hint Resolve asks_goroutines_end : asks.

Lemma asks_writeFile i c path content : asks (writeFile lib config finish_waits i c path content).
Proof. unfold writeFile. client; apply asks_run; intros; apply asks_ret. Qed.

Lemma asks_signal e c sig : asks (signal lib config finish_waits e c sig).
Proof.
  unfold signal, realSendSignal, sendSignalToContainer. client; apply asks_run; intros; [apply asks_ret | apply asks_block].
Qed.
Hint Resolve asks_signal : asks.

Lemma asks_term e c : asks (term lib config finish_waits e c).
Proof. unfold term. client. Qed.
Lemma asks_kill e n : asks (kill lib config finish_waits e n).
Proof. unfold kill. client. Qed.
Lemma asks_resize e c height width : asks (resize lib e c height width).
Proof. unfold resize. client. case_decide; apply HP; by intros. Qed.

End client_asks.

(** ** Containers are labelled *)

(** What happens on a connection after the handshake: channels are opened, used
    and closed, programs end, forwards are set up and cancelled, the connection
    ends. *)
Inductive docker_op (W : Type) :=
| OpSession (s : nat) (meta : ChannelMetadata) (session : SessionChannel)
| OpRequest (i : nat) (r : session_request W)
| OpOutputEnds (i : nat)
| OpInputEnds (i : nat) (data : list byte)
| OpClose (i : nat)
| OpShutdown (i : nat) (c : Context)
| OpForwardTCP (s : nat) (host : string) (port : Z) (ohost : string) (oport : Z)
| OpForwardUnix (s : nat) (path : string)
| OpReverseTCP (s : nat) (host : string) (port : Z)
| OpReverseUnix (s : nat) (path : string)
| OpCancelTCP (s : nat) (host : string) (port : Z)
| OpCancelUnix (s : nat) (path : string)
| OpForwardsShutdown (s : nat)
| OpDisconnect.

Arguments OpSession {W} _ _ _.
Arguments OpRequest {W} _ _.
Arguments OpOutputEnds {W} _.
Arguments OpInputEnds {W} _ _.
Arguments OpClose {W} _.
Arguments OpShutdown {W} _ _.
Arguments OpForwardTCP {W} _ _ _ _ _.
Arguments OpForwardUnix {W} _ _.
Arguments OpReverseTCP {W} _ _ _.
Arguments OpReverseUnix {W} _ _.
Arguments OpCancelTCP {W} _ _ _.
Arguments OpCancelUnix {W} _ _.
Arguments OpForwardsShutdown {W} _.
Arguments OpDisconnect {W}.

Section ops.
Context {W : Type} `{!Field W docker_store} `{!Field W docker_objects} (env : Surroundings W).

Definition docker_call (op : docker_op W) : prog W unit :=
  match op with
  | OpSession s meta session => let* _ := docker_OnSessionChannel env s meta session in prog_ret tt
  | OpRequest i r => let* _ := session_call (docker_channelHandler env i) r in prog_ret tt
  | OpOutputEnds i => channel_output_ends env i
  | OpInputEnds i data => channel_input_ends env i data
  | OpClose i => docker_OnClose env i
  | OpShutdown i c => docker_OnShutdown env i c
  | OpForwardTCP s host port ohost oport =>
      let* _ := docker_OnTCPForwardChannel env s host port ohost oport in prog_ret tt
  | OpForwardUnix s path => let* _ := docker_OnDirectStreamLocal env s path in prog_ret tt
  | OpReverseTCP s host port => let* _ := docker_OnRequestTCPReverseForward env s host port in prog_ret tt
  | OpReverseUnix s path => let* _ := docker_OnRequestStreamLocal env s path in prog_ret tt
  | OpCancelTCP s host port => let* _ := on_forwards s (CancelTCPForwarding (encode_error env) host port) in prog_ret tt
  | OpCancelUnix s path => let* _ := on_forwards s (CancelStreamLocalForwarding (encode_error env) path) in prog_ret tt
  | OpForwardsShutdown s => on_forwards s (agentForward_OnShutdown (encode_error env))
  | OpDisconnect => docker_OnDisconnect env
  end.

End ops.

Section labels.
Context {T : Type} (env : Surroundings (world T)).
Abbreviation W := (world T).
Abbreviation execution := (Execution (cfg env)).

(** The session channel of the SSH server does not touch the backend's objects. *)
Definition quiet {A} (c : prog W A) : Prop :=
  ∀ s o t, wlp c (s, (o, t)) (λ _ w, w.1 = s ∧ w.2.1 = o).

Record quiet_objects (ob : Objects W) : Prop := {
  quiet_Stdin r : quiet (obj_Stdin ob r);
  quiet_Stdout r : quiet (obj_Stdout ob r);
  quiet_Stderr r : quiet (obj_Stderr ob r);
  quiet_ExitStatus r z : quiet (obj_ExitStatus ob r z);
  quiet_CloseWrite r : quiet (obj_CloseWrite ob r);
  quiet_Close r : quiet (obj_Close ob r);
  quiet_Write r data : quiet (obj_Write ob r data);
}.

Lemma quiet_asks {A} I P (c : prog W A) : quiet c → asks I P c.
Proof.
  intros H s o t HI. eapply wlp_mono; [apply H|]. intros a [s' [o' t']] [Hs Ho]. cbn in *. subst.
  split; [done | apply asked_refl].
Qed.

(** The container has the configured image and labels that tell the connection;
    labels of the configuration do not replace them. *)
Definition labelled (labels : gmap string string) (r : request) : Prop :=
  match r with
  | ContainerCreate c _ _ _ _ =>
      (∀ base, ContainerConfig (Launch execution) = Some base → cc_Image c = cc_Image base) ∧
      ∃ l, cc_Labels c = Some l ∧ labels ⊆ l
  | _ => True
  end.

Lemma labelled_harmless labels : harmless (labelled labels).
Proof. intros [] H; cbn; try done. exfalso. by eapply H. Qed.

Lemma createConfig_labelled labels e tty cmd h n p name :
  labelled labels (ContainerCreate (createConfig (cfg env) (ContainerConfig (Launch execution)) labels e tty cmd) h n p name).
Proof.
  cbn. unfold createConfig. split.
  - intros base ->. by destruct tty.
  - destruct tty; cbn; (eexists; split; [done|]); apply map_union_subseteq_l.
Qed.

Context (Hq : quiet_objects (objects env)).

Section channel.
Context (labels : gmap string string).
Let I (o : docker_objects) : Prop := n_labels (network o) = labels.
Abbreviation asks := (asks (T:=T) I (labelled labels)).

Lemma asks_net : asks net.
Proof. unfold net. asks_steps. Qed.
Hint Resolve asks_net : asks.

Lemma asks_update_net f : (∀ n, n_labels n = labels → n_labels (f n) = labels) → asks (update_net f).
Proof. intros H. apply asks_update_objs. intros o. apply H. Qed.

Lemma asks_channel_at i : asks (channel_at i).
Proof. unfold channel_at. asks_steps. Qed.
Lemma asks_update_channel i f : asks (update_channel i f).
Proof. by apply asks_update_objs. Qed.
Hint Resolve asks_channel_at asks_update_channel : asks.

Lemma asks_mutex {A} (body : prog W A) : asks body → asks (with_mutex body).
Proof. by apply asks_with_mutex. Qed.

Hint Resolve labelled_harmless createConfig_labelled asks_createContainer : asks.
Hint Resolve asks_createExec asks_run asks_resize asks_remove_container asks_attach asks_start asks_signal asks_kill
  asks_term asks_processOutput asks_processInput : asks.
Hint Resolve quiet_asks quiet_Stdin quiet_Stdout quiet_Stderr quiet_ExitStatus quiet_CloseWrite quiet_Close quiet_Write : asks.

Lemma asks_channel_write r data : asks (channel_write env r data).
Proof. unfold channel_write. asks_steps. Qed.
Lemma asks_channel_exit r z : asks (channel_exit env r z).
Proof. unfold channel_exit. asks_steps. Qed.
Hint Resolve asks_channel_write asks_channel_exit : asks.

Lemma asks_bind_net {A} (f : networkHandler → prog W A) :
  (∀ n, n_labels n = labels → asks (f n)) → asks (prog_bind f net).
Proof. intros H s o t HI. unfold net. apply wlp_bind. cbn. by apply H. Qed.

Lemma asks_handleExecModeSession i c program : asks (handleExecModeSession env i c program).
Proof. unfold handleExecModeSession. apply asks_bind_net. intros n Hn. rewrite Hn. asks_steps. Qed.
Hint Resolve asks_handleExecModeSession : asks.

Lemma asks_run_channel i c program : asks (run_channel env i c program).
Proof. unfold run_channel. apply asks_mutex. unfold handleExecModeConnection. asks_steps. Qed.
Hint Resolve asks_run_channel : asks.

Lemma asks_on_forwards {A} i (op : prog agentForward A) : asks (on_forwards i op).
Proof. unfold on_forwards, connection_at. asks_steps. Qed.
Hint Resolve asks_on_forwards : asks.

Lemma asks_with_agent {A} i needed (op : agent_setup → prog agentForward A) :
  asks (on_forwards_with_agent env i needed op).
Proof.
  unfold on_forwards_with_agent, connection_at, setupAgent. asks_steps; apply asks_run; auto with asks; intros.
  apply asks_block.
Qed.
Hint Resolve asks_with_agent : asks.

Lemma asks_request i r : asks (session_call (docker_channelHandler env i) r).
Proof.
  destruct r; cbn; unfold docker_OnEnvRequest, docker_OnPtyRequest, docker_OnX11Request, docker_OnExecRequest,
    docker_OnShell, docker_OnSubsystem, docker_OnSignal, docker_OnWindow, parseProgram;
    asks_steps.
Qed.

Lemma asks_OnDisconnect : asks (docker_OnDisconnect env).
Proof.
  unfold docker_OnDisconnect. asks_steps; by apply asks_update_objs.
Qed.
Hint Resolve asks_request asks_OnDisconnect : asks.

Lemma asks_docker_call op : asks (docker_call env op).
Proof.
  destruct op; cbn [docker_call]; unfold docker_OnSessionChannel, channel_output_ends, channel_input_ends, docker_OnClose,
    docker_OnShutdown, docker_OnTCPForwardChannel, docker_OnDirectStreamLocal, docker_OnRequestTCPReverseForward,
    docker_OnRequestStreamLocal, exec_at; asks_steps.
Qed.

Lemma asks_docker_calls ops : asks (range ops (docker_call env)).
Proof. induction ops as [|op ops IH]; cbn; asks_steps. apply asks_docker_call. Qed.

End channel.

(** The handshake sets the labels before it creates a container. *)
Lemma wlp_asks {A B} I P s (c : prog W A) (f : A → prog W B) w Q :
  asks I P c → I w.2.1 → asked P s w →
  (∀ a w', I w'.2.1 → asked P s w' → wlp (f a) w' Q) → wlp (prog_bind f c) w Q.
Proof.
  destruct w as [s1 [o t]]. intros Hc HI Ha Hf. apply wlp_bind. eapply wlp_mono; [by apply Hc|].
  intros a w' [HI' Ha']. apply Hf; [done|]. by eapply asked_trans.
Qed.

Lemma wlp_update_net f s o t (Q : unit → W → Prop) :
  Q tt (s, (set_network (f (network o)) o, t)) → wlp (update_net f) (s, (o, t)) Q.
Proof. done. Qed.

Lemma wlp_with_mutex {A} (body : prog W A) s o t (Q : A → W → Prop) :
  (∀ a w, Q a w → Q a (w.1, (set_network (set_n_mutex false (network w.2.1)) w.2.1, w.2.2))) →
  wlp body (s, (set_network (set_n_mutex true (network o)) o, t)) Q →
  wlp (with_mutex body) (s, (o, t)) Q.
Proof.
  intros HQ Hb. unfold with_mutex. apply wlp_bind. cbn. destruct (n_mutex (network o)); [done|].
  apply wlp_bind. cbn. apply wlp_bind. eapply wlp_mono; [exact Hb|]. intros a w H. by apply HQ.
Qed.

Lemma handshake_labels meta s o t :
  let labels := connection_labels env (Username (auth_pending meta)) in
  wlp (handshake env meta) (s, (o, t)) (λ r w,
    asked (labelled labels) s w ∧ (r.1.1 ≠ None → n_labels (network w.2.1) = labels)).
Proof.
  cbn zeta. set (L := connection_labels env (Username (auth_pending meta))).
  assert (asks (T:=T) (λ _, True) (labelled L) (setupDockerClient env)) as Hsetup.
  { unfold setupDockerClient, net. asks_steps. by apply asks_update_objs. }
  assert (∀ c, asks (T:=T) (λ _, True) (labelled L) (docker_pullImage env c)) as Hpull.
  { intros c. unfold docker_pullImage, pullNeeded. asks_steps;
      first [apply asks_getImageName | apply asks_hasImage | apply asks_client_pullImage]; apply labelled_harmless. }
  assert (∀ i c, asks (T:=T) (λ o, n_labels (network o) = L) (labelled L) (start (library env) i c)) as Hstart.
  { intros. apply asks_start, labelled_harmless. }
  assert (∀ files i, asks (T:=T) (λ o, n_labels (network o) = L) (labelled L) (write_files env i files)) as Hfiles.
  { induction files as [|[path f] files IH]; intros i; cbn; asks_steps. apply asks_writeFile, labelled_harmless. }
  unfold handshake. apply wlp_with_mutex with (Q := λ r w,
    asked (labelled L) s w ∧ (r.1.1 ≠ None → n_labels (network w.2.1) = L)); [by intros r [s' [o' t']]|].
  cbv zeta. apply wlp_bind, wlp_update_net. destruct (connection_env env meta) as [environment meta'].
  eapply wlp_asks; [exact Hsetup|done|apply asked_refl|]. intros [err|] w1 _ Ha1; [apply wlp_ret; by split|].
  eapply wlp_asks; [apply Hpull|done|exact Ha1|]. intros [err|] w2 _ Ha2; [apply wlp_ret; by split|].
  destruct w2 as [s2 [o2 t2]]. apply wlp_bind, wlp_update_net. cbv zeta.
  set (o3 := set_network (set_n_labels _ (network o2)) o2).
  assert (asked (labelled L) s (s2, (o3, t2)) ∧ n_labels (network o3) = L) as [Ha3 Hl3] by done.
  assert (∀ (m : ConnectionAuthenticatedMetadata) (w : W), n_labels (network w.2.1) = L → asked (labelled L) s w →
    wlp (W:=W) (let* i := new_connection (MkDockerConnection (Username (auth_pending meta)) environment NewAgentForward) in
         prog_ret (Some i, m, None (A:=error))) w
      (λ r (w : W), asked (labelled L) s w ∧ (r.1.1 ≠ None → n_labels (network w.2.1) = L))) as Hend.
  { intros m [s4 [o4 t4]] ? ?. done. }
  case_decide; [|by apply Hend].
  eapply (wlp_asks (λ o, n_labels (network o) = L)); [|done|done|].
  { apply asks_createContainer, createConfig_labelled. }
  intros [cnt|err] w5 Hl5 Ha5; [|apply wlp_ret; by split]. cbv iota.
  eapply (wlp_asks (λ o, n_labels (network o) = L)); [by apply asks_update_objs|done|done|]. intros _ w6 Hl6 Ha6.
  eapply (wlp_asks (λ o, n_labels (network o) = L)); [apply Hstart|done|done|]. intros [err|] w7 Hl7 Ha7; [apply wlp_ret; by split|].
  cbv iota. destruct (GetFiles (Some (meta_conn meta'))) as [files conn].
  eapply (wlp_asks (λ o, n_labels (network o) = L)); [apply Hfiles|done|done|]. intros _ w8 Hl8 Ha8. by apply Hend.
Qed.

(** A container that the daemon is asked for has the configured image and tells
    by three labels whose it is. *)
Definition tells_connection (connection ip user : string) (r : request) : Prop :=
  match r with
  | ContainerCreate c _ _ _ _ =>
      (∀ base, ContainerConfig (Launch execution) = Some base → cc_Image c = cc_Image base) ∧
      ∃ l, cc_Labels c = Some l ∧
        l !! "containerssh_connection_id" = Some connection ∧
        l !! "containerssh_ip" = Some ip ∧
        l !! "containerssh_username" = Some user
  | _ => True
  end.

Lemma labelled_tells user r :
  labelled (connection_labels env user) r → tells_connection (connectionID env) (client_IP env) user r.
Proof.
  destruct r; cbn; try done. intros [Hi (l & Hl & Hs)]. split; [done|]. exists l. split; [done|].
  split_and!; (eapply lookup_weaken; [|exact Hs]; unfold connection_labels; by simplify_map_eq).
Qed.

Lemma asked_tells user s (w : W) :
  asked (labelled (connection_labels env user)) s w → asked (tells_connection (connectionID env) (client_IP env) user) s w.
Proof. intros (rs & Hh & Hr). exists rs. split; [done|]. eapply Forall_impl; [exact Hr|]. apply labelled_tells. Qed.

(** Claim C12. All containers that are created for a connection, by its handshake and by
    whatever happens on it afterwards, have the configured image and carry the
    labels "containerssh_connection_id" with the identifier of the connection,
    "containerssh_ip" with the address of the client and "containerssh_username"
    with the name that the client logged in under, whatever labels the
    configuration has and whatever the daemon answers. *)
Theorem containers_are_labelled meta ops s o t :
  let own := tells_connection (connectionID env) (client_IP env) (Username (auth_pending meta)) in
  wlp (handshake env meta) (s, (o, t)) (λ r w,
    asked own s w ∧
    (r.1.1 ≠ None → wlp (range ops (docker_call env)) w (λ _ w', asked own s w'))).
Proof.
  intros own. eapply wlp_mono; [apply handshake_labels|]. intros r [s1 [o1 t1]] [Ha Hl]. split; [by apply asked_tells|]. intros Hr.
  eapply wlp_mono; [apply asks_docker_calls, Hl, Hr|]. intros _ w [_ Ha']. apply asked_tells. by eapply asked_trans.
Qed.

End labels.

(** ** One program per channel *)

Section programs.
Context {T : Type} (env : Surroundings (world T)) (Hq : quiet_objects (objects env)) (i : nat).
Abbreviation W := (world T).
Implicit Types (s : docker_store) (o : docker_objects) (t : T).

(** Requests that prepare the program of a channel, and those that start it. *)
Definition prepares (r : session_request W) : bool :=
  match r with ReqEnv _ _ _ | ReqPty _ _ _ _ _ _ _ => true | _ => false end.
Definition starts (r : session_request W) : bool :=
  match r with ReqExec _ _ | ReqShell _ | ReqSubsystem _ _ => true | _ => false end.

Fixpoint serve_requests (rs : list (session_request W)) : prog W (list (option error)) :=
  match rs with
  | [] => prog_ret []
  | r :: rs =>
      let* a := session_call (docker_channelHandler env i) r in
      let* answers := serve_requests rs in
      prog_ret (a :: answers)
  end.

(** How many programs were started. *)
Fixpoint started (rs : list (session_request W)) (answers : list (option error)) : nat :=
  match rs, answers with
  | r :: rs, a :: answers =>
      ((if starts r then match a with None => 1 | Some _ => 0 end else 0) + started rs answers)%nat
  | _, _ => 0%nat
  end.

Definition has_channel o : Prop := is_Some (channels o !! i).
Definition has_program o : Prop := ∃ ch e, channels o !! i = Some ch ∧ ch_exec ch = Some e.
Definition idle o : Prop := n_mutex (network o) = false.

Lemma any_harmless : harmless (λ _, True). Proof. done. Qed.

Lemma wlp_keeps {A B} I (c : prog W A) (f : A → prog W B) w Q :
  asks I (λ _, True) c → I w.2.1 → (∀ a w', I w'.2.1 → wlp (f a) w' Q) → wlp (prog_bind f c) w Q.
Proof.
  destruct w as [s [o t]]. intros Hc HI Hf. apply wlp_bind. eapply wlp_mono; [by apply Hc|].
  intros a w' [HI' _]. by apply Hf.
Qed.

Lemma with_mutex_unlocks {A} (body : prog W A) s o t Q :
  wlp body (s, (set_network (set_n_mutex true (network o)) o, t)) Q →
  wlp (with_mutex body) (s, (o, t)) (λ a w,
    idle w.2.1 ∧ ∃ w0, Q a w0 ∧ channels w.2.1 = channels w0.2.1 ∧ w.1 = w0.1).
Proof.
  intros Hb. unfold with_mutex. apply wlp_bind. cbn. destruct (n_mutex (network o)); [done|].
  apply wlp_bind. cbn. apply wlp_bind. eapply wlp_mono; [exact Hb|]. intros a [s' [o' t']] H. cbn.
  split; [done|]. by exists (s', (o', t')).
Qed.

Lemma has_program_channel o : has_program o → has_channel o.
Proof. intros (ch & e & H & _). by exists ch. Qed.

Lemma wlp_channel_at (w : W) : wlp (channel_at i) w (λ ch w', w' = w ∧ channels w.2.1 !! i = Some ch).
Proof. destruct w as [s [o t]]. unfold wlp, channel_at, prog_bind, objs. cbn. by destruct (channels o !! i). Qed.

Lemma wlp_net (w : W) : wlp net w (λ _ w', w' = w).
Proof. by destruct w as [s [o t]]. Qed.

Lemma wlp_set_exec e (w : W) :
  has_channel w.2.1 → wlp (update_channel i (set_ch_exec (Some e))) w (λ _ w', has_program w'.2.1).
Proof.
  destruct w as [s [o t]]. intros [ch H]. cbn. exists (set_ch_exec (Some e) ch), e. cbn. rewrite list_lookup_alter_eq.
  cbn in H. by rewrite H.
Qed.

Lemma asks_clear_exec : asks (T:=T) has_channel (λ _, True) (update_channel i (set_ch_exec None)).
Proof. apply asks_update_objs. intros o [ch H]. unfold has_channel. cbn. rewrite list_lookup_alter_eq, H. by eexists. Qed.

(** What [handleExecModeConnection] and [handleExecModeSession] leave behind. *)
Definition launched (a : option error) (w : W) : Prop := has_channel w.2.1 ∧ (a = None → has_program w.2.1).

Lemma launched_failed e (w : W) : has_channel w.2.1 → launched (Some e) w.
Proof. by split. Qed.
Lemma launched_program a (w : W) : has_program w.2.1 → launched a w.
Proof. intros H. split; [by apply has_program_channel | done]. Qed.

Hint Resolve any_harmless asks_createExec asks_createContainer asks_resize asks_remove_container asks_attach asks_start
  asks_run asks_ret : asks.
Hint Resolve quiet_asks quiet_Stdin quiet_Stdout quiet_Stderr quiet_ExitStatus quiet_CloseWrite quiet_Close quiet_Write : asks.

Lemma launch_connection c program (w : W) :
  has_channel w.2.1 → wlp (handleExecModeConnection env i c program) w launched.
Proof.
  intros Hch. unfold handleExecModeConnection. apply wlp_bind. eapply wlp_mono; [apply wlp_net|]. intros n w' ->.
  apply wlp_bind. eapply wlp_mono; [apply wlp_channel_at|]. intros ch w' [-> _].
  destruct (n_container n) as [cnt|]; [|done].
  apply (wlp_keeps has_channel); [eauto with asks|done|]. intros [e|err] w1 H1; [|by apply wlp_ret, launched_failed].
  apply wlp_bind. eapply wlp_mono; [by apply wlp_set_exec|]. intros ? w2 H2.
  apply (wlp_keeps has_program); [|done|].
  - destruct (ch_pty ch); asks_steps.
  - intros ? w3 H3. by apply wlp_ret, launched_program.
Qed.

Lemma launch_session c program (w : W) :
  has_channel w.2.1 → wlp (handleExecModeSession env i c program) w launched.
Proof.
  intros Hch. unfold handleExecModeSession. apply wlp_bind. eapply wlp_mono; [apply wlp_net|]. intros n w' ->.
  apply wlp_bind. eapply wlp_mono; [apply wlp_channel_at|]. intros ch w' [-> _].
  apply (wlp_keeps has_channel); [eauto with asks|done|]. intros [cnt|err] w1 H1; [|by apply wlp_ret, launched_failed].
  cbv zeta. apply (wlp_keeps has_channel); [eauto with asks|done|]. intros [e|err] w2 H2.
  - apply wlp_bind. eapply wlp_mono; [by apply wlp_set_exec|]. intros ? w3 H3.
    apply (wlp_keeps has_program); [eauto with asks|done|]. intros err w4 H4.
    assert (∀ err w, has_program w.2.1 →
      wlp (let* _ := remove_container (library env) cnt (timeout env ContainerStop) in prog_ret err) w launched) as Hrm.
    { intros err' w5 H5. apply (wlp_keeps has_program); [eauto with asks|done|]. intros ? w6 H6.
      by apply wlp_ret, launched_program. }
    destruct err; [by apply Hrm|]. destruct (ch_pty ch); [|by apply wlp_ret, launched_program].
    apply (wlp_keeps has_program); [eauto with asks|done|]. intros [err|] w5 H5; [by apply Hrm|].
    by apply wlp_ret, launched_program.
  - apply (wlp_keeps has_channel); [apply asks_clear_exec|done|]. intros ? w3 H3.
    apply (wlp_keeps has_channel); [eauto with asks|done|]. intros ? w4 H4. by apply wlp_ret, launched_failed.
Qed.

(** A request that starts a program and succeeds leaves the channel with one. *)
Lemma run_channel_starts c program (w : W) :
  has_channel w.2.1 →
  wlp (run_channel env i c program) w (λ a w, idle w.2.1 ∧ launched a w).
Proof.
  destruct w as [s [o t]]. intros Hch. unfold run_channel. eapply wlp_mono; [apply with_mutex_unlocks with (Q := launched)|].
  2:{ intros a w (Hi & w0 & Hl & Ho & _). unfold launched, has_channel, has_program in *. by rewrite Ho. }
  set (w0 := (s, _)). assert (has_channel w0.2.1) as H0 by exact Hch. clearbody w0.
  apply wlp_bind. eapply wlp_mono; [apply wlp_channel_at|]. intros ch w' [-> _].
  destruct (ch_exec ch) as [e|]; [by apply wlp_ret, launched_failed|].
  apply wlp_bind. eapply wlp_mono with (Q := launched).
  { repeat case_decide; [by apply launch_connection | by apply launch_session | by apply wlp_ret, launched_failed]. }
  intros [err|] w1 [H1 Hp]; [by apply wlp_ret, launched_failed|]. specialize (Hp eq_refl).
  apply wlp_bind. eapply wlp_mono; [apply wlp_channel_at|]. intros ch1 w' [-> _].
  destruct (ch_exec ch1) as [e|]; [|done].
  do 3 (apply (wlp_keeps has_program); [eauto with asks|done|]; intros ? ? ?).
  apply (wlp_keeps has_program); [|done|intros ? ? ?; by apply wlp_ret, launched_program].
  apply asks_run; intros; unfold channel_write, channel_exit; asks_steps.
Qed.

Lemma refused_with_mutex {A} (body : prog W A) (Q : A → Prop) s o t :
  idle o → wlp body (s, (set_network (set_n_mutex true (network o)) o, t))
    (λ a w, Q a ∧ w = (s, (set_network (set_n_mutex true (network o)) o, t))) →
  wlp (with_mutex body) (s, (o, t)) (λ a w, Q a ∧ w = (s, (o, t))).
Proof.
  intros Hi Hb. unfold wlp. rewrite with_mutex_eq by done. change (wlp (let* a := body in do* update_net (set_n_mutex false) in prog_ret a)
    (s, (set_network (set_n_mutex true (network o)) o, t)) (λ a w, Q a ∧ w = (s, (o, t)))).
  apply wlp_bind. eapply wlp_mono; [exact Hb|]. intros a w [HQ ->]. unfold wlp, prog_bind. cbn [update_net update_objs fget fset field_snd field_fst fst snd prog_ret].
  split; [done|]. unfold idle in Hi. destruct o as [[] ? ?]. cbn in *. by subst.
Qed.

Lemma run_channel_refused c program s o t :
  idle o → has_program o →
  wlp (run_channel env i c program) (s, (o, t)) (λ a w, a ≠ None ∧ w = (s, (o, t))).
Proof.
  intros Hi (ch & e & Hch & He). apply refused_with_mutex; [done|]. apply wlp_bind.
  eapply wlp_mono; [apply wlp_channel_at|]. intros ch' w [-> Hch']. cbn in Hch'. rewrite Hch in Hch'.
  injection Hch' as <-. by rewrite He.
Qed.

Lemma request_refused r s o t :
  prepares r || starts r = true → idle o → has_program o →
  wlp (session_call (docker_channelHandler env i) r) (s, (o, t)) (λ a w, a ≠ None ∧ w = (s, (o, t))).
Proof.
  intros Hr Hi Hp. destruct r; try done; cbn;
    unfold docker_OnEnvRequest, docker_OnPtyRequest, docker_OnExecRequest, docker_OnShell, docker_OnSubsystem, parseProgram.
  1,2: destruct Hp as (ch & e & Hch & He); apply refused_with_mutex; [done|]; apply wlp_bind;
    (eapply wlp_mono; [apply wlp_channel_at|]); intros ch' w [-> Hch']; cbn in Hch'; rewrite Hch in Hch';
    injection Hch' as <-; by rewrite He.
  - destruct (ParseCMD env program) as [[|first rest]|]; try done;
      [destruct (HasPrefix first "/" || HasPrefix first "./" || HasPrefix first "../")|]; apply wlp_bind, wlp_ret; by apply run_channel_refused.
  - by apply run_channel_refused.
  - destruct (_ !! _); [by apply run_channel_refused | done].
Qed.

(** What any of these requests leaves behind. *)
Lemma request_served r (w : W) :
  prepares r || starts r = true → has_channel w.2.1 → idle w.2.1 →
  wlp (session_call (docker_channelHandler env i) r) w (λ a w,
    idle w.2.1 ∧ has_channel w.2.1 ∧ (starts r = true → a = None → has_program w.2.1)).
Proof.
  assert (∀ c program (w : W), has_channel w.2.1 → wlp (run_channel env i c program) w (λ a w,
    idle w.2.1 ∧ has_channel w.2.1 ∧ (true = true → a = None → has_program w.2.1))) as Hrun.
  { intros c program w' Hc. eapply wlp_mono; [by apply run_channel_starts|]. intros a w'' (? & ? & ?). by split_and!. }
  destruct w as [s [o t]]. intros Hr Hc Hi. destruct r; try done; cbn;
    unfold docker_OnEnvRequest, docker_OnPtyRequest, docker_OnExecRequest, docker_OnShell, docker_OnSubsystem, parseProgram.
  1,2: (eapply wlp_mono; [apply with_mutex_unlocks with (Q := λ _ w, has_channel w.2.1)|]);
    [apply wlp_bind; (eapply wlp_mono; [apply wlp_channel_at|]); intros ch w' [-> Hch]; destruct (ch_exec ch); [done|];
     cbn in *; unfold wlp, has_channel; cbn; rewrite ?list_lookup_alter_eq; by rewrite Hch
    |intros a w' (Hi' & w0 & Hc' & Ho & _); unfold has_channel in *; rewrite Ho; by split_and!].
  - destruct (ParseCMD env program) as [[|first rest]|]; try done;
      [destruct (HasPrefix first "/" || HasPrefix first "./" || HasPrefix first "../")|]; apply wlp_bind, wlp_ret; by apply Hrun.
  - by apply Hrun.
  - destruct (_ !! _); [by apply Hrun | by split_and!].
Qed.

Lemma decide_program o : has_program o ∨ ¬ has_program o.
Proof.
  unfold has_program. destruct (channels o !! i) as [ch|]; [|naive_solver]. destruct (ch_exec ch) eqn:E; naive_solver.
Qed.

(** Everything else that a client can ask for: X11 forwarding, signals and
    changes of the window. *)
Definition asks_x11 (r : session_request W) : bool :=
  match r with ReqX11 _ _ _ _ _ _ => true | _ => false end.
Definition with_display (e : gmap string string) : gmap string string := <["DISPLAY" := "localhost:10"]> e.

(** A property of the channel that such a request keeps. *)
Definition on_channel (K : channelHandler → Prop) o : Prop := ∃ ch, channels o !! i = Some ch ∧ K ch.

Section others.
Context (K : channelHandler → Prop).
Let I o : Prop := idle o ∧ on_channel K o.

Lemma on_channel_alter f o : I o → (∀ ch, K ch → K (f ch)) → I (set_channels (alter f i (channels o)) o).
Proof.
  intros (Hi & ch & Hch & HK) Hf. split; [done|]. exists (f ch). cbn. rewrite list_lookup_alter_eq, Hch. split; [done|by apply Hf].
Qed.

Lemma asks_on_agent {A} j needed (op : agent_setup → prog agentForward A) :
  asks (T:=T) I (λ _, True) (on_forwards_with_agent env j needed op).
Proof.
  unfold on_forwards_with_agent, on_forwards, connection_at, setupAgent, net. asks_steps.
  all: try (by apply asks_update_objs); apply asks_run; intros; by first [apply asks_block | apply asks_ret].
Qed.

(** Under the mutex: the call on the daemon leaves the channels alone. *)
Lemma mutex_keeps (f : channelHandler → prog W (option error)) (w : W) :
  (∀ ch, asks (T:=T) (on_channel K) (λ _, True) (f ch)) → I w.2.1 →
  wlp (with_mutex (let* ch := channel_at i in f ch)) w (λ _ w, I w.2.1).
Proof.
  destruct w as [s [o t]]. intros Hf [Hi Hc]. eapply wlp_mono; [apply with_mutex_unlocks with (Q := λ _ w, on_channel K w.2.1)|].
  - apply wlp_bind. eapply wlp_mono; [apply wlp_channel_at|]. intros ch w [-> _]. eapply wlp_mono; [by apply Hf|]. by intros ? ? [? _].
  - intros a w (Hi' & w0 & Hc0 & Ho & _). split; [done|]. unfold on_channel in *. by rewrite Ho.
Qed.

Lemma other_keeps r (w : W) :
  prepares r || starts r = false →
  (asks_x11 r = true → ∀ ch, K ch → K (set_ch_env (with_display (ch_env ch)) ch)) → (∀ ch, K ch → K (set_ch_x11 ch)) →
  I w.2.1 → wlp (session_call (docker_channelHandler env i) r) w (λ _ w, I w.2.1).
Proof.
  intros Hr Hx Hy HI. destruct r as [| |id single protocol cookie screen rev| | | |id sig|id c rw x y]; try done; cbn.
  - unfold docker_OnX11Request. apply wlp_bind. eapply wlp_mono; [apply wlp_channel_at|]. intros ch w' [-> Hch].
    destruct (ch_x11 ch); [done|]. apply wlp_bind. destruct w as [s [o t]].
    assert (I (set_channels (alter (set_ch_env (with_display (ch_env ch))) i (channels o)) o)) as HI'.
    { destruct HI as (Hi & ch' & Hch' & HK). cbn in Hch, Hch'. rewrite Hch in Hch'. injection Hch' as <-. split; [done|].
      exists (set_ch_env (with_display (ch_env ch)) ch). cbn. rewrite list_lookup_alter_eq, Hch. split; [done|]. by apply Hx. }
    cbn. apply (wlp_keeps I); [apply asks_on_agent|done|]. intros [err|] [s1 [o1 t1]] H1; [by apply wlp_ret|].
    apply wlp_bind. cbn. by apply on_channel_alter.
  - unfold docker_OnSignal. apply mutex_keeps; [|done]. intros ch. destruct (ch_exec ch); [|apply asks_ret].
    by apply asks_signal.
  - unfold docker_OnWindow. apply mutex_keeps; [|done]. intros ch. destruct (ch_exec ch); [|apply asks_ret].
    by apply asks_resize.
Qed.
End others.

(** The requests that came too late were refused. *)
Definition late_refused (rs : list (session_request W)) (answers : list (option error)) : Prop :=
  Forall2 (λ r a, prepares r || starts r = true → a ≠ None) rs answers.

(** The channel after requests: its program is the one it had, and its
    environment too, but for the display that an X11 request sets. *)
Definition still_runs (rs : list (session_request W)) (ch : channelHandler) (e : nat) o : Prop :=
  on_channel (λ ch', ch_exec ch' = Some e ∧
    (ch_env ch' = ch_env ch ∨ existsb asks_x11 rs = true ∧ ch_env ch' = with_display (ch_env ch))) o.

Lemma still_runs_cons r rs ch ch1 e o :
  ch_exec ch1 = Some e → (ch_env ch1 = ch_env ch ∨ asks_x11 r = true ∧ ch_env ch1 = with_display (ch_env ch)) →
  still_runs rs ch1 e o → still_runs (r :: rs) ch e o.
Proof.
  intros _ H1 (ch2 & Hch & He & H2). exists ch2. split_and!; [done..|]. cbn.
  destruct H1 as [<-|[-> H1]]; [destruct H2 as [->|[-> ->]]; [by left | right; by rewrite orb_true_r]|].
  right. split; [done|]. destruct H2 as [->|[_ ->]]; [done|]. rewrite H1. apply insert_insert_eq.
Qed.

(** Claim C18. Whatever a client asks for on a session channel, at most one program is
    started on it. Once it is, every further request that would prepare or start
    a program (variables, a terminal, commands, shells, subsystems) is refused,
    without a request to the daemon or any other effect. Signals, changes of the
    window and requests for X11 forwarding are not refused on these grounds, but
    they leave the channel its program; and of its environment only the display
    is still changed, by a request for X11 forwarding. *)
Theorem one_program_per_channel rs s o t :
  has_channel o → idle o →
  wlp (serve_requests rs) (s, (o, t)) (λ answers w,
    (started rs answers ≤ 1)%nat ∧
    (∀ ch e, channels o !! i = Some ch → ch_exec ch = Some e →
       started rs answers = 0%nat ∧ late_refused rs answers ∧ still_runs rs ch e w.2.1)) ∧
  (∀ r, prepares r || starts r = true → has_program o →
     wlp (session_call (docker_channelHandler env i) r) (s, (o, t)) (λ a w, a ≠ None ∧ w = (s, (o, t)))).
Proof.
  intros Hc Hi. split; [|intros r Hr Hp; by apply request_refused].
  revert s o t Hc Hi. induction rs as [|r rs IH]; intros s o t Hc Hi.
  { apply wlp_ret. split; [cbn; lia|]. intros ch e Hch He. split_and!; [done|constructor|]. exists ch. split_and!; [done..|by left]. }
  cbn [serve_requests]. apply wlp_bind. destruct (prepares r || starts r) eqn:Hr.
  - destruct (decide_program o) as [Hp|Hn].
    + eapply wlp_mono; [by apply request_refused|]. intros a w [Ha ->]. apply wlp_bind.
      eapply wlp_mono; [by apply IH|]. intros answers w [_ Hrest]. apply wlp_ret.
      assert (started (r :: rs) (a :: answers) = started rs answers) as Hst.
      { cbn. destruct a; [|done]. by destruct (starts r). }
      rewrite Hst. destruct Hp as (ch & e & Hch & He). destruct (Hrest ch e Hch He) as (H0 & _). split; [lia|].
      intros ch' e' Hch' He'. destruct (Hrest ch' e' Hch' He') as (_ & Hl & Hs).
      split_and!; [done|by constructor|by eapply still_runs_cons; [|left|]].
    + eapply wlp_mono; [by apply request_served|]. intros a [s1 [o1 t1]] (Hi1 & Hc1 & Hp1). apply wlp_bind.
      eapply wlp_mono; [by apply IH|]. intros answers w [H1 Hrest]. apply wlp_ret. split.
      * cbn. destruct (starts r) eqn:Es; [|done]. destruct a; [done|]. destruct (Hp1 eq_refl eq_refl) as (ch & e & Hch & He).
        destruct (Hrest ch e Hch He) as (-> & _). lia.
      * intros ch e Hch He. destruct Hn. by exists ch, e.
  - assert (starts r = false) as Hs by (by apply orb_false_iff in Hr as [_ ?]).
    assert (∀ a answers, started (r :: rs) (a :: answers) = started rs answers) as Hst by (intros; cbn; by rewrite Hs).
    assert (∀ (a : option error), prepares r || starts r = true → a ≠ None) as Hno by (by rewrite Hr).
    destruct Hc as [ch Hch]. destruct (ch_exec ch) as [e|] eqn:He.
    + set (K ch' := ch_exec ch' = Some e ∧ (ch_env ch' = ch_env ch ∨ asks_x11 r = true ∧ ch_env ch' = with_display (ch_env ch))).
      eapply wlp_mono; [apply (other_keeps K); [done| | |]|].
      { intros Hx ch' [He' Henv]. split; [done|]. right. split; [done|]. cbn.
        destruct Henv as [->|[_ ->]]; [done|apply insert_insert_eq]. }
      { done. }
      { split; [done|]. exists ch. split; [done|]. split; [done|by left]. }
      intros a [s1 [o1 t1]] (Hi1 & ch1 & Hch1 & He1 & Henv1). apply wlp_bind.
      eapply wlp_mono; [apply IH; [by exists ch1|done]|]. intros answers w [H1 Hrest]. apply wlp_ret. rewrite Hst. split; [done|].
      intros ch' e' Hch' He'. rewrite Hch in Hch'. injection Hch' as <-. rewrite He in He'. injection He' as <-.
      destruct (Hrest ch1 e Hch1 He1) as (H0 & Hl & Hrun). split_and!; [done|by constructor; [apply Hno|]|by eapply still_runs_cons].
    + eapply wlp_mono; [apply (other_keeps (λ _, True)); [done..|by split; [|exists ch]]|].
      intros a [s1 [o1 t1]] (Hi1 & ch1 & Hch1 & _). apply wlp_bind.
      eapply wlp_mono; [apply IH; [by exists ch1|done]|]. intros answers w [H1 _]. apply wlp_ret. rewrite Hst. split; [done|].
      intros ch' e' Hch' He'. congruence.
Qed.

(** A request for X11 forwarding is not refused on the grounds that the program
    runs, and it sets the display for a program that does not see it any more. *)
Theorem x11_request_of_a_running_program id single protocol cookie screen rev s o t ch e :
  idle o → channels o !! i = Some ch → ch_exec ch = Some e → ch_x11 ch = false →
  wlp (session_call (docker_channelHandler env i) (ReqX11 id single protocol cookie screen rev)) (s, (o, t)) (λ a w,
    on_channel (λ ch', ch_exec ch' = Some e ∧ ch_env ch' = with_display (ch_env ch)) w.2.1).
Proof.
  intros Hi Hch He Hx. cbn. unfold docker_OnX11Request. apply wlp_bind. eapply wlp_mono; [apply wlp_channel_at|].
  intros ch' w [-> Hch']. cbn in Hch'. rewrite Hch in Hch'. injection Hch' as <-. rewrite Hx. apply wlp_bind. cbn.
  set (K ch' := ch_exec ch' = Some e ∧ ch_env ch' = with_display (ch_env ch)).
  assert (idle (set_channels (alter (set_ch_env (with_display (ch_env ch))) i (channels o)) o) ∧
          on_channel K (set_channels (alter (set_ch_env (with_display (ch_env ch))) i (channels o)) o)) as HI.
  { split; [done|]. exists (set_ch_env (with_display (ch_env ch)) ch). cbn. by rewrite list_lookup_alter_eq, Hch. }
  apply (wlp_keeps (λ o, idle o ∧ on_channel K o)); [apply asks_on_agent|done|].
  intros [err|] [s1 [o1 t1]] H1; [by apply wlp_ret, H1|]. apply wlp_bind. cbn. by apply (on_channel_alter K set_ch_x11).
Qed.

End programs.

(** ** A daemon

    It accepts everything; the process of a program has the number 7, prints
    nothing and is still running at the first inspection, and has ended with
    status 3 at the next.  The rest of the world is the list of reported exit
    statuses. *)
Module docker_demo.

Definition yes : reply + error := inl (MkReply "c1" false false 0 "" [] None None).
Definition pid_frame : list byte := [Byte.x01; Byte.x00; Byte.x00; Byte.x00; Byte.x00; Byte.x00; Byte.x00; Byte.x04].
Definition pid_7 : list byte := [Byte.x07; Byte.x00; Byte.x00; Byte.x00].

Fixpoint inspected (h : list request) : nat :=
  match h with [] => 0 | ContainerExecInspect _ :: h => S (inspected h) | _ :: h => inspected h end.

Definition answer (h : list request) (r : request) : reply + error :=
  match r with
  | ContainerExecAttach _ _ => inl (MkReply "" false false 0 "" [pid_frame; pid_7] None None)
  | ContainerExecInspect _ => inl (MkReply "" (Nat.eqb (inspected h) 0) false 3 "" [] None None)
  | _ => yes
  end.

Definition lib : DockerLibrary :=
  MkDockerLibrary answer (λ _, None) (λ _, false) (λ _, false) (λ _, false) (λ _, false) (λ _, Canonical) (λ _, None) (λ _, []).

Abbreviation W := (world (list Z)).
Definition session : Objects W :=
  MkObjects W (λ r, prog_ret r) (λ r, prog_ret r) (λ r, prog_ret r) (λ _ z w, Done (tt, (w.1, (w.2.1, w.2.2 ++ [z])%list)))
    (λ _ _ _ _ _, prog_ret tt) (λ _, prog_ret None) (λ _, prog_ret None) (λ _ _, prog_ret ([], None)) (λ _ d, prog_ret (Z.of_nat (length d), None)).

Definition env (mode : string) : Surroundings W :=
  let d := AppConfig.app_demo.docker in
  let e := Execution d in
  MkSurroundings W lib
    (MkDockerConfig (Docker_Connection d)
       (MkDockerExecutionConfig (Launch e) None mode (IdleCommand e) (ShellCommand e) (AgentPath e) (DisableAgent e)
          (Subsystems e) "Never" true) (Timeouts d))
    "id" "127.0.0.1" (λ _, 2%nat) 2 (λ _, [0; 0]%nat) (λ _, inl ["/bin/true"]) (λ _ _, None) (λ _, ([], None)) (λ _, ([], None))
    (λ _, []) session.

Definition meta : ConnectionAuthenticatedMetadata :=
  MkAuthenticated (MkAuthPending (MkConnectionMetadata (MkRemoteAddress [] 0) "id" None
    (Some {[ "LANG" := MkValue "C" false ]}) None) "" "bob") "bob".

Definition empty : W := (MkDockerStore [] [] [] 0 0, (MkDockerObjects (MkNetworkHandler false "" None false false ∅ false) [] [], [])).

(** A session channel is opened after the handshake. *)
Definition session_opened (mode : string) : outcome (unit * W) :=
  (let* _ := handshake (env mode) meta in
   docker_call (env mode) (OpSession 0 (Channel meta 0) 5)) empty.

Definition opened (mode : string) : W := match session_opened mode with Done (_, w) => w | _ => empty end.

(** ... and a program started in it. *)
Definition started (mode : string) : W :=
  match docker_OnShell (env mode) 0 (opened mode) with Done (_, w) => w | _ => empty end.

Definition program : dockerV20Exec := default (MkDockerExec 0 "" [] [] false false 0 false false false) (execs (started "connection").1 !! 0%nat).
Definition container : dockerV20Container := default (MkDockerContainer "" false false 0 false false) (containers (started "connection").1 !! 0%nat).

Definition report (z : Z) : prog W unit := λ w, Done (tt, (w.1, (w.2.1, w.2.2 ++ [z])%list)).

Lemma quiet_session : quiet_objects session.
Proof. split; by intros. Qed.

Lemma own_errors : own_errors_are_temporary lib.
Proof. done. Qed.

Lemma running : program_runs 0 program container (started "connection").1.
Proof. split_and!; vm_compute; try done; by intros. Qed.

(** The parts of the world. *)
Definition store1 : docker_store := (started "connection").1.
Definition objects1 : docker_objects := (started "connection").2.1.

Lemma exit_status_is_reported_witness :
  ∃ s', processInput lib (cfg (env "connection")) (λ _, [0; 0]%nat) 0 [] report (store1, (objects1, [])) =
      Done (Some 3, (s', (objects1, [3]))).
Proof.
  destruct (exit_status_is_reported lib (cfg (env "connection")) (λ _, [0; 0]%nat) 0 program container report
    (λ z t, t ++ [z])%list store1 objects1 [] [] report own_errors (λ z s o t, eq_refl) running) as (s' & H & _).
  assert (exit_status lib (inspections lib (history store1) (execID program) 3) = Some 3) as E by (vm_compute; reflexivity).
  cbn [length] in H. rewrite E in H. exists s'. exact H.
Defined.

Lemma closed_input_loses_exit_status_witness :
  ∃ s', processInput lib (cfg (env "connection")) (λ _, []) 0 [] report (store1, (objects1, [])) =
      Done (None, (s', (objects1, []))).
Proof.
  destruct (closed_input_loses_exit_status lib (cfg (env "connection")) (λ _, []) 0 program container report
    (λ z t, t ++ [z])%list store1 objects1 [] [] report own_errors (λ z s o t, eq_refl) running) as (s' & H & _).
  { vm_compute. constructor; [|constructor]. eexists. split; reflexivity. }
  exists s'. exact H.
Defined.

Definition opened_container : dockerV20Container :=
  default (MkDockerContainer "" false false 0 false false) (containers (opened "connection").1 !! 0%nat).

Definition store0 : docker_store := (opened "connection").1.
Definition objects0 : docker_objects := (opened "connection").2.1.

Lemma disconnect_removes_container_witness :
  wp (docker_OnDisconnect (env "connection")) (store0, (objects0, [])) (λ _ w,
    (container_gone lib (containerID opened_container) (history w.1) ∨
     removal_attempts (containerID opened_container) 3 (history store0) (history w.1)) ∧
    n_done (network w.2.1) = true ∧ w.2.2 = [] ∧ docker_OnDisconnect (env "connection") w = Done (tt, w)).
Proof.
  apply (disconnect_removes_container (env "connection") 0 opened_container store0 objects0 []); try (vm_compute; reflexivity).
  split_and!; vm_compute; reflexivity.
Defined.

(** After the removal. *)
Definition removed : W :=
  match docker_OnDisconnect (env "connection") (opened "connection") with Done (_, w) => w | _ => empty end.

Lemma program_after_removal_blocks_witness :
  ∃ err s', docker_OnShell (env "connection") 0 (removed.1, (removed.2.1, [])) = Done (Some err, (s', (removed.2.1, []))) ∧
    ∃ why, docker_OnShell (env "connection") 0 (s', (removed.2.1, [])) = Blocked why.
Proof.
  apply (program_after_removal_blocks (env "connection") 0 (set_shutdown (set_shuttingDown opened_container)) 0
    (MkChannelHandler 0 0 ∅ false 0 0 false None 5) removed.1 removed.2.1 []); vm_compute; reflexivity.
Defined.

Definition store2 : docker_store := (started "session").1.
Definition objects2 : docker_objects := (started "session").2.1.

Lemma session_containers_are_left_witness :
  docker_OnClose (env "session") 0 (store2, (objects2, [])) = Done (tt, (store2, (objects2, []))) ∧
  ∃ o', docker_OnDisconnect (env "session") (store2, (objects2, [])) = Done (tt, (store2, (o', []))) ∧
    n_done (network o') = true.
Proof.
  apply (session_containers_are_left (env "session") 0 (MkChannelHandler 0 0 ∅ false 0 0 false (Some 0%nat) 5) 0
    (MkDockerExec 0 "" [] [] false false 1 false false false) store2 objects2 []);
    vm_compute; reflexivity.
Defined.

Definition nowhere : ReverseForward W :=
  {| NewChannelTCP := λ _ _ _ _, prog_ret (None, 0, None); NewChannelUnix := λ _, prog_ret (None, 0, None);
     NewChannelX11 := λ _ _, prog_ret (None, 0, None) |}.
Definition requests : list (session_request W) :=
  [ReqEnv 1 "A" "1"; ReqShell 2; ReqWindow 3 80 25 0 0; ReqSignal 4 "TERM"; ReqExec 5 "ls"; ReqPty 6 "xterm" 80 25 0 0 []].

Definition answers : list (option error) :=
  match serve_requests (env "connection") 0 requests (store0, (objects0, [])) with Done (l, _) => l | _ => [] end.

Lemma one_program_per_channel_witness :
  DockerSpec.started requests answers = 1%nat ∧
  wlp (serve_requests (env "connection") 0 requests) (store0, (objects0, [])) (λ answers w,
    (DockerSpec.started requests answers ≤ 1)%nat ∧
    (∀ ch e, channels objects0 !! 0%nat = Some ch → ch_exec ch = Some e →
       DockerSpec.started requests answers = 0%nat ∧ late_refused requests answers ∧ still_runs 0 requests ch e w.2.1)).
Proof.
  split; [vm_compute; reflexivity|].
  refine (proj1 (one_program_per_channel (env "connection") quiet_session 0 requests store0 objects0 [] _ _));
    [vm_compute; by eexists | reflexivity].
Defined.

(** The channel after a program was started on it. *)
Definition objects_running : docker_objects := set_channels (alter (set_ch_exec (Some 0%nat)) 0%nat (channels objects0)) objects0.

Lemma x11_request_of_a_running_program_witness rev :
  ∃ ch, channels objects_running !! 0%nat = Some ch ∧ ch_exec ch = Some 0%nat ∧
    wlp (session_call (docker_channelHandler (env "connection") 0) (ReqX11 1 false "MIT-MAGIC-COOKIE-1" "" 0 rev))
      (store0, (objects_running, [])) (λ a w,
        on_channel 0 (λ ch', ch_exec ch' = Some 0%nat ∧ ch_env ch' = with_display (ch_env ch)) w.2.1).
Proof.
  destruct (channels objects_running !! 0%nat) as [ch|] eqn:E; [|vm_compute in E; discriminate].
  assert (ch_exec ch = Some 0%nat ∧ ch_x11 ch = false) as [He Hx].
  { vm_compute in E. injection E as <-. by split. }
  exists ch. split_and!; [done..|].
  apply (x11_request_of_a_running_program (env "connection") 0); [reflexivity|done..].
Defined.

Definition ops : list (docker_op W) := [OpSession 0 (Channel meta 0) 5; OpRequest 0 (ReqShell 1); OpClose 0; OpDisconnect].

Lemma containers_are_labelled_witness :
  wlp (handshake (env "session") meta) empty (λ r w,
    asked (tells_connection (env "session") "id" "127.0.0.1" "bob") empty.1 w ∧
    (r.1.1 ≠ None → wlp (range ops (docker_call (env "session"))) w (λ _ w',
       asked (tells_connection (env "session") "id" "127.0.0.1" "bob") empty.1 w'))).
Proof. exact (containers_are_labelled (env "session") quiet_session meta ops empty.1 empty.2.1 []). Defined.

End docker_demo.
