(* ===== verification/KubernetesClient.v ===== *)
(** * The Kubernetes client

    [internal/kubernetes/kubernetesClientImpl.go], [kubernetesPodImpl.go],
    [kubernetesExecutionImpl.go], [pushSizeQueueImpl.go] and the client factory:
    pods and the programs run in them, on top of the Kubernetes client library. *)

From stdpp Require Import base gmap strings list fin_maps pretty.
From Stdlib Require Import Strings.Byte.
From S2P Require Import Prelude Messages MetadataJSON Handler GoStrings ConfigHTTP ConfigBackend Requests.

Local Open Scope Z_scope.

(** ** The cluster *)

(** What the program reads of a pod; a container status is the exit code if the
    container has terminated. *)
Record core_Pod := MkPod {
  pod_Name : string;
  pod_Namespace : string;
  pod_Containers : list k8s_Container;
  pod_ContainerStatuses : list (option Z);
  pod_Phase : string;
  pod_Conditions : list (string * string);
}.

(** [exec] and [attach] ask for a stream. *)
Inductive stream_request :=
| PodExec (namespace name container : string) (command : list string) (tty : bool)
| PodAttach (namespace name container : string) (tty : bool).

(** A window size is sent on the stream of an execution. *)
Inductive request :=
| PodCreate (metadata : k8s_ObjectMeta) (spec : k8s_PodSpec)
| PodGet (namespace name : string)
| PodDelete (namespace name : string)
| PodWatch (namespace name : string)
| PodStream (r : stream_request)
| StreamSize (execution : nat) (width height : Z).

(** An event on a pod; its object may be of another type. *)
Record watch_Event := MkEvent { ev_Deleted : bool; ev_Object : option core_Pod }.

(** What the command streams produce: pieces of output, of the standard error if
    marked, and how the stream ends. *)
Record stream := MkStream { str_pieces : list (bool * list byte); str_result : option error }.

(** The configuration of the client library. *)
Record rest_Config := MkRestConfig {
  rc_Host : string;
  rc_APIPath : string;
  rc_Username : string;
  rc_Password : string;
  rc_BearerToken : string;
  rc_BearerTokenFile : string;
  rc_ServerName : string;
  rc_CertFile : string;
  rc_KeyFile : string;
  rc_CAFile : string;
  rc_CertData : string;
  rc_KeyData : string;
  rc_CAData : string;
  rc_UserAgent : string;
  rc_QPS : Z;
  rc_Burst : Z;
  rc_Timeout : Z;
}.

(** The client library: answers may depend on everything that was asked before.
    [UntilWithSync] gets the condition to wait for.  [takes_size]: the stream
    reads the next window size before the caller's context ends. *)
Record KubernetesLibrary := MkKubernetesLibrary {
  NewForConfig : rest_Config → option error;
  RESTClientFor : rest_Config → option error;
  Pods_Create : list request → k8s_ObjectMeta → k8s_PodSpec → core_Pod + error;
  Pods_Get : list request → string → string → core_Pod + error;
  Pods_Delete : list request → string → string → option error;
  UntilWithSync : list request → string → string → (watch_Event → bool * option error) → option watch_Event * option error;
  NewSPDYExecutor : stream_request → option error;
  Stream : list request → stream_request → bool → stream;
  takes_size : list request → nat → bool;
  IsNotFound : error → bool;
  NewNotFound : error;
  CodeExitError : error → option Z;                  (** [errors.As] *)
  Copy : KubernetesPodConfig → KubernetesPodConfig + error;
}.

(** ** Objects *)

(** [lock] is only held for a few assignments, [removeLock] by [remove] only;
    [tty] is that of the channel, which cannot change once it has a program. *)
Record kubernetesPodImpl := MkKubernetesPod {
  kp_pod : core_Pod;
  kp_tty : option bool;
  kp_wg : Z;
  kp_shuttingDown : bool;
  kp_shutdown : bool;
}.

(** For whom a program runs: for a session channel, or for the backend. *)
Inductive owner := ForChannel (i : nat) | Internal.

(** [x_exited]: the stream has ended, [doneChan] and the queue of window sizes are
    closed.  [x_stream], [x_result]: what is still to come on the stream. *)
Record kubernetesExecutionImpl := MkKubernetesExecution {
  x_pod : nat;
  x_request : stream_request;
  x_tty : bool;
  x_pid : Z;
  x_exited : bool;
  x_lock : bool;
  x_stream : list (bool * list byte);
  x_result : option error;
  x_owner : owner;
}.

Record kubernetes_store := MkKubernetesStore {
  history : list request;
  pods : list kubernetesPodImpl;
  executions : list kubernetesExecutionImpl;
  backendRequestsMetric : Z;
  backendFailuresMetric : Z;
}.

Definition add_history (r : request) (s : kubernetes_store) : kubernetes_store :=
  MkKubernetesStore (history s ++ [r]) (pods s) (executions s) (backendRequestsMetric s) (backendFailuresMetric s).
Definition set_pods (l : list kubernetesPodImpl) (s : kubernetes_store) : kubernetes_store :=
  MkKubernetesStore (history s) l (executions s) (backendRequestsMetric s) (backendFailuresMetric s).
Definition set_executions (l : list kubernetesExecutionImpl) (s : kubernetes_store) : kubernetes_store :=
  MkKubernetesStore (history s) (pods s) l (backendRequestsMetric s) (backendFailuresMetric s).
Definition inc_requests (s : kubernetes_store) : kubernetes_store :=
  MkKubernetesStore (history s) (pods s) (executions s) (backendRequestsMetric s + 1) (backendFailuresMetric s).
Definition inc_failures (s : kubernetes_store) : kubernetes_store :=
  MkKubernetesStore (history s) (pods s) (executions s) (backendRequestsMetric s) (backendFailuresMetric s + 1).

Definition set_kp_pod (p : core_Pod) (k : kubernetesPodImpl) :=
  MkKubernetesPod p (kp_tty k) (kp_wg k) (kp_shuttingDown k) (kp_shutdown k).
Definition set_kp_wg (n : Z) (k : kubernetesPodImpl) :=
  MkKubernetesPod (kp_pod k) (kp_tty k) n (kp_shuttingDown k) (kp_shutdown k).
Definition set_kp_shuttingDown (k : kubernetesPodImpl) :=
  MkKubernetesPod (kp_pod k) (kp_tty k) (kp_wg k) true (kp_shutdown k).
Definition set_kp_shutdown (k : kubernetesPodImpl) :=
  MkKubernetesPod (kp_pod k) (kp_tty k) (kp_wg k) (kp_shuttingDown k) true.

Definition set_x_pid (n : Z) (x : kubernetesExecutionImpl) :=
  MkKubernetesExecution (x_pod x) (x_request x) (x_tty x) n (x_exited x) (x_lock x) (x_stream x) (x_result x) (x_owner x).
Definition set_x_exited (x : kubernetesExecutionImpl) :=
  MkKubernetesExecution (x_pod x) (x_request x) (x_tty x) (x_pid x) true (x_lock x) [] (x_result x) (x_owner x).
Definition set_x_lock (b : bool) (x : kubernetesExecutionImpl) :=
  MkKubernetesExecution (x_pod x) (x_request x) (x_tty x) (x_pid x) (x_exited x) b (x_stream x) (x_result x) (x_owner x).
Definition set_x_stream (l : list (bool * list byte)) (r : option error) (x : kubernetesExecutionImpl) :=
  MkKubernetesExecution (x_pod x) (x_request x) (x_tty x) (x_pid x) (x_exited x) (x_lock x) l r (x_owner x).
Definition set_x_owner (o : owner) (x : kubernetesExecutionImpl) :=
  MkKubernetesExecution (x_pod x) (x_request x) (x_tty x) (x_pid x) (x_exited x) (x_lock x) (x_stream x) (x_result x) o.

(** ** The process ID on the standard output *)

Definition byte_value (b : byte) : Z := Z.of_N (Byte.to_N b).
Definition LittleEndian (l : list byte) : Z := foldr (λ b n, byte_value b + 256 * n) 0 l.

Record stdoutProxyWriter := MkStdoutProxyWriter {
  so_pidRead : bool;
  so_buf : list byte;
  so_tty : bool;
}.

(** [Write]: the writer afterwards, the process ID sent on the channel, and what
    is written to the backend. *)
Definition stdoutProxyWriter_Write (s : stdoutProxyWriter) (p : list byte)
  : stdoutProxyWriter * option Z * option (list byte) :=
  if so_pidRead s then (s, None, Some p)
  else
    let buf := (so_buf s ++ p)%list in
    if (so_tty s && Nat.leb 6 (length buf)) || (negb (so_tty s) && Nat.leb 4 (length buf)) then
      let remainingBytes := drop 4 buf in
      (MkStdoutProxyWriter true [] (so_tty s), Some (LittleEndian (take 4 buf)),
       match remainingBytes with [] => None | _ => Some remainingBytes end)
    else (MkStdoutProxyWriter false buf (so_tty s), None, None).

(** [stdinProxyReader.Read] into a buffer: the reader afterwards, the buffer and
    the number of bytes read; [None]: the backend is asked. *)
Record stdinProxyReader := MkStdinProxyReader { si_startWritten : bool; si_tty : bool }.

Definition stdinProxyReader_Read (s : stdinProxyReader) (b : list byte) : stdinProxyReader * option (list byte * nat) :=
  if si_startWritten s then (s, None)
  else
    match b with
    | [] => (s, Some ([], 0%nat))
    | b0 :: b' =>
        (MkStdinProxyReader true (si_tty s), Some ((if si_tty s then x0a else b0) :: b', 1%nat))
    end.

(** ** The callbacks of a stream *)
Record streams (W : Type) := MkStreams {
  st_stdout : list byte → prog W (option error);
  st_stderr : list byte → prog W (option error);
  st_closeWrite : prog W (option error);
  st_onExit : Z → prog W unit;
}.
Arguments MkStreams {W} _ _ _ _.
Arguments st_stdout {W} _ _.
Arguments st_stderr {W} _ _.
Arguments st_closeWrite {W} _.
Arguments st_onExit {W} _ _.

Definition to_buffers {W} : streams W :=
  MkStreams (λ _, prog_ret None) (λ _, prog_ret None) (prog_ret None) (λ _, prog_ret tt).

(** [l[i]] with Go's [int] as the index. *)
Definition index {W A} (l : list A) (i : Z) : prog W A :=
  if decide (0 ≤ i) then match l !! Z.to_nat i with Some a => prog_ret a | None => panic index_out_of_range end
  else panic index_out_of_range.

Section client.
Context {W : Type} `{!Field W kubernetes_store}.
Context (lib : KubernetesLibrary) (config : KubernetesConfig).
(** How often the retry loops wait within a timeout. *)
Context (waits : Z → nat).

Abbreviation call A := (prog W A).
Abbreviation pod_config := (Pod config).

Definition store : call kubernetes_store := λ w, Done (fget w, w).
Definition update_store (f : kubernetes_store → kubernetes_store) : call unit := λ w, Done (tt, fset (f (fget w)) w).

(** A request: it is recorded, and answered by what was asked before. *)
Definition ask {A} (r : request) (answer : list request → A) : call A :=
  let* s := store in
  do* update_store (add_history r) in
  prog_ret (answer (history s)).

Definition pod_at (p : nat) : call kubernetesPodImpl :=
  let* s := store in match pods s !! p with Some k => prog_ret k | None => panic nil_pointer end.
Definition update_pod (p : nat) (f : kubernetesPodImpl → kubernetesPodImpl) : call unit :=
  update_store (λ s, set_pods (alter f p (pods s)) s).
Definition exec_at (e : nat) : call kubernetesExecutionImpl :=
  let* s := store in match executions s !! e with Some x => prog_ret x | None => panic nil_pointer end.
Definition update_exec (e : nat) (f : kubernetesExecutionImpl → kubernetesExecutionImpl) : call unit :=
  update_store (λ s, set_executions (alter f e (executions s)) s).

Definition wg_Add (p : nat) : call unit := update_pod p (λ k, set_kp_wg (kp_wg k + 1) k).
Definition wg_Done (p : nat) : call unit :=
  let* k := pod_at p in
  if decide (kp_wg k - 1 < 0) then panic "sync: negative WaitGroup counter" else update_pod p (set_kp_wg (kp_wg k - 1)).
Definition wg_Wait (p : nat) : call unit :=
  let* k := pod_at p in
  if decide (kp_wg k = 0) then prog_ret tt else block "sync.WaitGroup.Wait".

Definition deadline (t : KubernetesTimeoutConfig → Z) : ctx := Deadline (waits (t (Kubernetes_Timeouts config))).

(** ** Creating the client *)

Definition createConnectionConfig : rest_Config :=
  let c := Kubernetes_Connection config in
  MkRestConfig (kc_Host c) (kc_APIPath c) (kc_Username c) (kc_Password c) (kc_BearerToken c) (kc_BearerTokenFile c)
    (kc_ServerName c) (kc_CertFile c) (kc_KeyFile c) (kc_CAFile c) (kc_CertData c) (kc_KeyData c) (kc_CAData c)
    "ContainerSSH" (kc_QPS c) (kc_Burst c) (k8s_HTTP (Kubernetes_Timeouts config)).

Definition factory_get : option error :=
  match NewForConfig lib createConnectionConfig with
  | Some err => Some (WrapUser (Some err) "KUBERNETES_CONFIG_ERROR" UserMessageInitializeSSHSession
                        "Failed to initialize Kubernetes client." [])
  | None =>
      match RESTClientFor lib createConnectionConfig with
      | Some err => Some (WrapUser (Some err) "KUBERNETES_CONFIG_ERROR" UserMessageInitializeSSHSession
                            "Failed to initialize Kubernetes REST client." [])
      | None => None
      end
  end.

(** ** Pods *)

Definition set_command (command : list string) (c : k8s_Container) :=
  MkK8sContainer (ct_Name c) (ct_Image c) command (ct_Env c) (ct_TTY c) (ct_Stdin c) (ct_StdinOnce c) (ct_rest c).
Definition set_console (tty : option bool) (command : list string) (c : k8s_Container) :=
  MkK8sContainer (ct_Name c) (ct_Image c) command (ct_Env c) (default (ct_TTY c) tty) true true (ct_rest c).
Definition add_container_env (env : gmap string string) (c : k8s_Container) :=
  MkK8sContainer (ct_Name c) (ct_Image c) (ct_Command c) (ct_Env c ++ map_to_list env)%list (ct_TTY c) (ct_Stdin c)
    (ct_StdinOnce c) (ct_rest c).

Definition set_pod_Spec (s : k8s_PodSpec) (p : KubernetesPodConfig) : KubernetesPodConfig :=
  MkKubernetesPodConfig (pod_Metadata p) s (ConsoleContainerNumber p) (pod_IdleCommand p) (pod_ShellCommand p)
    (pod_AgentPath p) (pod_DisableAgent p) (pod_Subsystems p) (pod_Mode p) (pod_ExposeAuthMetadataAsEnv p)
    (pod_ExposeAuthMetadataAsLabels p) (pod_ExposeAuthMetadataAsAnnotations p).
Definition set_pod_Metadata (m : k8s_ObjectMeta) (p : KubernetesPodConfig) : KubernetesPodConfig :=
  MkKubernetesPodConfig m (pod_Spec p) (ConsoleContainerNumber p) (pod_IdleCommand p) (pod_ShellCommand p)
    (pod_AgentPath p) (pod_DisableAgent p) (pod_Subsystems p) (pod_Mode p) (pod_ExposeAuthMetadataAsEnv p)
    (pod_ExposeAuthMetadataAsLabels p) (pod_ExposeAuthMetadataAsAnnotations p).

Definition addLabelsToPodConfig (labels : gmap string string) (p : KubernetesPodConfig) : KubernetesPodConfig :=
  let m := pod_Metadata p in
  set_pod_Metadata (MkObjectMeta (om_Namespace m) (Some (labels ∪ default ∅ (om_Labels m))) (om_Annotations m) (om_rest m)) p.

Definition addAnnotationsToPodConfig (annotations : gmap string string) (p : KubernetesPodConfig) : KubernetesPodConfig :=
  let m := pod_Metadata p in
  set_pod_Metadata (MkObjectMeta (om_Namespace m) (om_Labels m) (Some (annotations ∪ default ∅ (om_Annotations m))) (om_rest m)) p.

Definition addEnvToPodConfig (env : gmap string string) (p : KubernetesPodConfig) : KubernetesPodConfig :=
  let s := pod_Spec p in
  set_pod_Spec (MkPodSpec (add_container_env env <$> Containers s) (add_container_env env <$> InitContainers s)
                  (ps_RestartPolicy s) (ps_rest s)) p.

(** The spec with the console container changed; the index has to exist. *)
Definition change_console (f : k8s_Container → k8s_Container) (s : k8s_PodSpec) : call k8s_PodSpec :=
  let* _ := index (Containers s) (ConsoleContainerNumber pod_config) in
  prog_ret (MkPodSpec (alter f (Z.to_nat (ConsoleContainerNumber pod_config)) (Containers s)) (InitContainers s)
              (ps_RestartPolicy s) (ps_rest s)).

Definition getPodConfig (tty : option bool) (cmd : list string) (labels annotations env : gmap string string)
  : call (KubernetesPodConfig + error) :=
  match Copy lib pod_config with
  | inr err => prog_ret (inr err)
  | inl podConfig =>
      let* spec :=
        if decide (pod_Mode podConfig = KubernetesExecutionModeSession) then
          let command :=
            if negb (pod_DisableAgent podConfig)
            then (pod_AgentPath podConfig :: "console" :: "--wait" :: "--pid" :: "--" :: cmd) else cmd in
          let* spec := change_console (set_console tty command) (pod_Spec podConfig) in
          prog_ret (if decide (ps_RestartPolicy spec = "")
                    then MkPodSpec (Containers spec) (InitContainers spec) "Never" (ps_rest spec) else spec)
        else change_console (set_command (pod_IdleCommand pod_config)) (pod_Spec podConfig) in
      prog_ret (inl (addEnvToPodConfig env (addAnnotationsToPodConfig annotations
                       (addLabelsToPodConfig labels (set_pod_Spec spec podConfig)))))
  end.

Definition isPodAvailableEvent (event : watch_Event) : bool * option error :=
  if ev_Deleted event then (false, Some (NewNotFound lib))
  else
    match ev_Object event with
    | None => (false, None)
    | Some pod =>
        if decide (pod_Phase pod = "Failed" ∨ pod_Phase pod = "Succeeded") then (true, None)
        else if decide (pod_Phase pod = "Running" ∧ ("Ready", "True") ∈ pod_Conditions pod) then (true, None)
        else (false, None)
    end.

(** [wait]; it returns the pod also next to an error. *)
Definition pod_wait (p : nat) : call (option error) :=
  let* k := pod_at p in
  do* update_store inc_requests in
  let ns := pod_Namespace (kp_pod k) in
  let name := pod_Name (kp_pod k) in
  let* '(event, err) := ask (PodWatch ns name) (λ h, UntilWithSync lib h ns name isPodAvailableEvent) in
  do* (match event with
       | None => prog_ret tt
       | Some event =>
           match ev_Object event with
           | Some pod => update_pod p (set_kp_pod pod)
           | None => panic "interface conversion: interface is not *v1.Pod"
           end
       end) in
  match err with
  | Some err =>
      do* update_store inc_failures in
      prog_ret (Some (WrapUser (Some err) "KUBERNETES_POD_WAIT_FAILED" UserMessageInitializeSSHSession
                        "Failed to wait for pod to come up." []))
  | None => prog_ret None
  end.

Definition new_pod (k : kubernetesPodImpl) : call nat :=
  let* s := store in
  do* update_store (set_pods (pods s ++ [k])) in
  prog_ret (length (pods s)).

Definition attemptPodCreate (podConfig : KubernetesPodConfig) (tty : option bool) : call (nat + error) :=
  do* update_store inc_requests in
  let* r := ask (PodCreate (pod_Metadata podConfig) (pod_Spec podConfig))
              (λ h, Pods_Create lib h (pod_Metadata podConfig) (pod_Spec podConfig)) in
  match r with
  | inl pod =>
      let* p := new_pod (MkKubernetesPod pod tty 0 false false) in
      let* err := pod_wait p in
      match err with Some err => prog_ret (inr err) | None => prog_ret (inl p) end
  | inr lastError => do* update_store inc_failures in prog_ret (inr lastError)
  end.

(** A pod that did not come up is forgotten. *)
Definition createPod (c : ctx) (labels annotations env : gmap string string) (tty : option bool) (cmd : list string)
  : call (nat + error) :=
  let* podConfig := getPodConfig tty cmd labels annotations env in
  match podConfig with
  | inr err => prog_ret (inr err)
  | inl podConfig =>
      retry c
        (let* r := attemptPodCreate podConfig tty in
         prog_ret match r with inl p => Return (inl p) | inr lastError => Again lastError end)
        (λ lastError, prog_ret (inr (WrapUser (Some lastError) "KUBERNETES_POD_CREATE_FAILED" UserMessageInitializeSSHSession
                                       "Failed to create pod, giving up" [])))
  end.

Definition exit_code_failed (lastError : error) (text : string) : error :=
  Wrap (Some lastError) "KUBERNETES_EXIT_CODE_FAILED" text [].

Definition getExitCode (p : nat) (c : ctx) : call (Z * option error) :=
  let* k := pod_at p in
  let ns := pod_Namespace (kp_pod k) in
  let name := pod_Name (kp_pod k) in
  retry c
    (let* r := ask (PodGet ns name) (λ h, Pods_Get lib h ns name) in
     match r with
     | inl pod =>
         let* containerStatus := index (pod_ContainerStatuses pod) (ConsoleContainerNumber pod_config) in
         prog_ret match containerStatus with
                  | Some ExitCode => Return (ExitCode, None)
                  | None => Again (Errorf "pod has not terminated yet" [])
                  end
     | inr lastError =>
         if IsNotFound lib lastError
         then prog_ret (Return (137, Some (exit_code_failed lastError "failed to fetch pod exit status, pod already removed")))
         else prog_ret (Again lastError)
     end)
    (λ lastError, prog_ret (-1, Some (exit_code_failed lastError "failed to fetch pod exit status, giving up"))).

Definition remove_failed (lastError : error) : option error :=
  Some (Wrap (Some lastError) "KUBERNETES_POD_REMOVE_FAILED" "Failed to remove pod, giving up." []).

(** [remove] waits for the programs in session mode only. *)
Definition pod_remove (p : nat) (c : ctx) : call (option error) :=
  let* k := pod_at p in
  if kp_shuttingDown k then prog_ret None
  else
    do* update_pod p set_kp_shuttingDown in
    do* (if decide (pod_Mode pod_config = KubernetesExecutionModeSession) then wg_Wait p else prog_ret tt) in
    do* update_pod p set_kp_shutdown in
    let ns := pod_Namespace (kp_pod k) in
    let name := pod_Name (kp_pod k) in
    retry c
      (let* lastError := ask (PodDelete ns name) (λ h, Pods_Delete lib h ns name) in
       match lastError with
       | None => prog_ret (Return None)
       | Some lastError => prog_ret (if IsNotFound lib lastError then Return None else Again lastError)
       end)
      (λ lastError, prog_ret (remove_failed lastError)).

(** ** Executions *)

Definition new_exec (p : nat) (r : stream_request) (tty : bool) : call (nat + error) :=
  match NewSPDYExecutor lib r with
  | Some err => prog_ret (inr err)
  | None =>
      let* s := store in
      do* update_store (set_executions (executions s ++ [MkKubernetesExecution p r tty 0 false false [] None Internal])) in
      prog_ret (inl (length (executions s)))
  end.

Definition attach (p : nat) : call (nat + error) :=
  let* k := pod_at p in
  let* container := index (pod_Containers (kp_pod k)) (ConsoleContainerNumber pod_config) in
  match kp_tty k with
  | None => panic nil_pointer
  | Some tty => new_exec p (PodAttach (pod_Namespace (kp_pod k)) (pod_Name (kp_pod k)) (ct_Name container) tty) tty
  end.

Definition agent_command (program : list string) (env : gmap string string) : list string :=
  if negb (pod_DisableAgent pod_config) then
    (pod_AgentPath pod_config :: "console" :: "--pid" ::
       (map_to_list env ≫= λ kv, ["--env"; Sprintf "%s=%s" [VString kv.1; VString kv.2]]) ++ "--" :: program)%list
  else program.

Definition createExecLocked (p : nat) (program : list string) (env : gmap string string) (tty : bool) : call (nat + error) :=
  let* k := pod_at p in
  let* container := index (pod_Containers (kp_pod k)) (ConsoleContainerNumber pod_config) in
  new_exec p (PodExec (pod_Namespace (kp_pod k)) (pod_Name (kp_pod k)) (ct_Name container) (agent_command program env) tty) tty.

Definition createExec (p : nat) (program : list string) (env : gmap string string) (tty : bool) : call (nat + error) :=
  let* k := pod_at p in
  if kp_shuttingDown k then
    prog_ret (inr (MsgError (UserMessage "KUBERNETES_POD_SHUTTING_DOWN" "Server is shutting down"
                               "Refusing new Kubernetes execution because the pod is shutting down." [])))
  else
    do* wg_Add p in
    let* exec := createExecLocked p program env tty in
    match exec with
    | inr err => do* wg_Done p in prog_ret (inr err)
    | inl e => prog_ret (inl e)
    end.

(** *** Running *)

(** The output is copied piece by piece, each of the two streams up to its first
    error. *)
Fixpoint copy_pieces (st : streams W) (out_ok err_ok : bool) (pieces : list (bool * list byte)) : call unit :=
  match pieces with
  | [] => prog_ret tt
  | (true, data) :: pieces =>
      if err_ok then
        let* err := st_stderr st data in copy_pieces st out_ok (bool_decide (err = None)) pieces
      else copy_pieces st out_ok err_ok pieces
  | (false, data) :: pieces =>
      if out_ok then
        let* err := st_stdout st data in copy_pieces st (bool_decide (err = None)) err_ok pieces
      else copy_pieces st out_ok err_ok pieces
  end.

(** The part of the stream up to the process ID goes through the
    [stdoutProxyWriter]; the process ID and what is left of the stream. *)
Fixpoint read_pid (st : streams W) (s : stdoutProxyWriter) (err_ok : bool) (pieces : list (bool * list byte))
  : call (option (Z * list (bool * list byte))) :=
  match pieces with
  | [] => prog_ret None
  | (true, data) :: pieces =>
      if err_ok then
        let* err := st_stderr st data in read_pid st s (bool_decide (err = None)) pieces
      else read_pid st s err_ok pieces
  | (false, data) :: pieces =>
      match stdoutProxyWriter_Write s data with
      | (_, Some pid, written) =>
          prog_ret (Some (pid, ((λ d, (false, d)) <$> option_list written)
                               ++ (if err_ok then pieces else filter (λ p, p.1 = false) pieces)))%list
      | (s, None, _) => read_pid st s err_ok pieces
      end
  end.

(** [sendExitCodeToClient]; the exit code passed to the callback. *)
Definition sendExitCodeToClient (p : nat) (onExit : Z → call unit) : call Z :=
  let* '(exitCode, err) := getExitCode p (deadline PodStop) in
  let code := match err with None => exitCode | Some _ => 137 end in
  do* onExit code in prog_ret code.

(** [handleStream] from its start to the process ID: the stream is requested. *)
Definition start_stream (e : nat) : call stream :=
  let* x := exec_at e in
  let* tty :=
    if decide (pod_Mode pod_config = KubernetesExecutionModeSession) then
      let* k := pod_at (x_pod x) in
      match kp_tty k with Some tty => prog_ret tty | None => panic nil_pointer end
    else prog_ret (x_tty x) in
  do* update_store inc_requests in
  ask (PodStream (x_request x)) (λ h, Stream lib h (x_request x) tty).

(** [handleStream] from then on: the rest of the output, then the end. *)
Definition stream_ends (e : nat) (st : streams W) : call Z :=
  let* x := exec_at e in
  do* copy_pieces st true true (x_stream x) in
  do* (if x_exited x then panic "close of closed channel" else update_exec e set_x_exited) in
  let* _ := st_closeWrite st in
  let connection := bool_decide (pod_Mode pod_config = KubernetesExecutionModeConnection) in
  do* (if connection then wg_Done (x_pod x) else prog_ret tt) in
  match x_result x with
  | Some err =>
      match CodeExitError lib err with
      | Some code => do* st_onExit st code in prog_ret code
      | None => sendExitCodeToClient (x_pod x) (st_onExit st)
      end
  | None =>
      if connection then do* st_onExit st 0 in prog_ret 0
      else sendExitCodeToClient (x_pod x) (st_onExit st)
  end.

(** [run]: with the agent it waits for the process ID, which never comes if the
    stream ends without one. *)
Definition run (e : nat) (st : streams W) : call unit :=
  let* x := exec_at e in
  let* s := start_stream e in
  if pod_DisableAgent pod_config then update_exec e (set_x_stream (str_pieces s) (str_result s))
  else
    let* r := read_pid st (MkStdoutProxyWriter false [] (x_tty x)) true (str_pieces s) in
    match r with
    | None => block "pidChannel"
    | Some (pid, rest) =>
        do* update_exec e (set_x_stream rest (str_result s)) in
        update_exec e (set_x_pid pid)
    end.

(** The errors of the program that writes the file are not looked at. *)
Definition writeFile (p : nat) (path : string) (content : list byte) : call (option error) :=
  let writeCmd := [pod_AgentPath pod_config; "write-file"; path] in
  let writeCmd :=
    if decide (pod_Mode pod_config = KubernetesExecutionModeSession)
    then ([pod_AgentPath pod_config; "console"; "--wait"; "--"] ++ writeCmd)%list else writeCmd in
  let* exec := createExec p writeCmd ∅ false in
  match exec with
  | inr err => prog_ret (Some err)
  | inl e => do* run e to_buffers in prog_ret None
  end.

(** *** Signals and window sizes *)

Definition lock_exec (e : nat) : call unit :=
  let* x := exec_at e in
  if x_lock x then block "sync.Mutex.Lock" else update_exec e (set_x_lock true).
Definition unlock_exec (e : nat) : call unit := update_exec e (set_x_lock false).

Definition signal_error (code explanation : string) (args : list value) (sig : string) : option error :=
  Some (MsgError (Label "signal" (VString sig) (UserMessage code "Cannot send signal to process." explanation args))).

(** The program that sends the signal runs to its end within the call. *)
Definition processSignalExec (e : nat) (sig : string) (pid : Z) : call (option error) :=
  let* x := exec_at e in
  let* podExec := createExecLocked (x_pod x)
                    [pod_AgentPath pod_config; "signal"; "--pid"; pretty pid; "--signal"; sig] ∅ false in
  match podExec with
  | inr err => do* wg_Done (x_pod x) in prog_ret (Some err)
  | inl podExec =>
      do* run podExec to_buffers in
      let* exitStatus := stream_ends podExec to_buffers in
      if decide (exitStatus ≠ 0) then
        do* update_store inc_failures in
        prog_ret (Some (Errorf "non-zero exit status (%d)" [VInt exitStatus]))
      else prog_ret None
  end.

(** When the pod has been removed the lock is kept.  The test for a process ID
    below 1 after the lock has been released cannot succeed any more. *)
Definition signal (e : nat) (sig : string) : call (option error) :=
  if pod_DisableAgent pod_config then
    prog_ret (signal_error "KUBERNETES_EXEC_SIGNAL_FAILED_NO_AGENT"
      "Cannot send signal %s to process because the ContainerSSH agent is disabled" [VString sig] sig)
  else
    do* lock_exec e in
    let* x := exec_at e in
    if decide (x_pid x ≤ 0) then
      do* unlock_exec e in
      prog_ret (Some (MsgError (UserMessage "KUBERNETES_SIGNAL_FAILED_NO_PID" "Cannot send signal to process"
        "could not send signal to exec, process ID not found" [])))
    else if x_exited x then
      do* unlock_exec e in
      prog_ret (Some (MsgError (UserMessage "KUBERNETES_SIGNAL_FAILED_EXITED" "Cannot send signal to process"
        "could not send signal to exec, process already exited" [])))
    else
      let* k := pod_at (x_pod x) in
      if kp_shutdown k then
        prog_ret (signal_error "KUBERNETES_EXEC_SIGNAL_FAILED"
          "Not sending signal to process, pod is already shutting down." [] sig)
      else
        do* wg_Add (x_pod x) in
        do* unlock_exec e in
        if decide (x_pid x < 1) then
          do* wg_Done (x_pod x) in
          prog_ret (signal_error "KUBERNETES_EXEC_SIGNAL_FAILED" "No process ID recorded, not sending signal." [] sig)
        else
          let* err := processSignalExec e sig (x_pid x) in
          prog_ret match err with
                   | Some err => Some (error_Label "signal" (VString sig)
                       (Wrap (Some err) "KUBERNETES_EXEC_SIGNAL_FAILED" "Cannot send %s signal to pod %s pid %d"
                          [VString sig; VString (pod_Name (kp_pod k)); VInt (x_pid x)]))
                   | None => None
                   end.

Definition term (e : nat) : call unit :=
  let* x := exec_at e in
  if x_exited x then prog_ret tt else let* _ := signal e "TERM" in prog_ret tt.

Definition kill (e : nat) : call unit :=
  let* x := exec_at e in
  if x_exited x then prog_ret tt else let* _ := signal e "KILL" in prog_ret tt.

(** [pushSizeQueueImpl.Push]: the queue is an unbuffered channel, closed at the
    end of the stream. *)
Definition DeadlineExceeded : error := ErrorString "context deadline exceeded".

Definition Push (e : nat) (width height : Z) : call (option error) :=
  let* x := exec_at e in
  if x_exited x then panic "send on closed channel"
  else
    let* s := store in
    if takes_size lib (history s) e then ask (StreamSize e width height) (λ _, None)
    else prog_ret (Some DeadlineExceeded).

Definition resize (e : nat) (height width : Z) : call (option error) :=
  Push e (width `mod` 2 ^ 16) (height `mod` 2 ^ 16).
End client.
