(* ===== verification/Kubernetes.v ===== *)
(** * The Kubernetes backend

    [internal/kubernetes/networkHandler.go], [sshConnectionHandler.go],
    [channelHandler.go] and [New.go]: the handlers of a network connection, of the
    SSH connection on it, and of its session channels. *)

From stdpp Require Import base gmap strings list fin_maps pretty.
From Stdlib Require Import Ascii Strings.Byte.
From S2P Require Import Prelude Messages Metadata MetadataJSON Handler GoStrings ConfigHTTP ConfigBackend.
From S2P Require Import AgentProtocol AgentForward Requests KubernetesClient.

Local Open Scope Z_scope.

(** ** Objects *)

Record networkHandler := MkNetworkHandler {
  n_mutex : bool;
  n_pod : option nat;
  n_disconnected : bool;
  n_labels : gmap string string;
  n_annotations : gmap string string;
  n_done : bool;
}.

Record kubernetes_sshConnectionHandler := MkKubernetesConnection {
  s_username : string;
  s_env : gmap string string;
  s_files : gmap string (list byte);
  s_agentForward : agentForward;
}.

Record channelHandler := MkChannelHandler {
  ch_channelID : Z;
  ch_connection : nat;
  ch_env : gmap string string;
  ch_files : gmap string (list byte);
  ch_pty : bool;
  ch_x11 : bool;
  ch_columns : Z;
  ch_rows : Z;
  ch_exec : option nat;
  ch_session : SessionChannel;
  ch_pod : option nat;
}.

Record kubernetes_objects := MkKubernetesObjects {
  network : networkHandler;
  connections : list kubernetes_sshConnectionHandler;
  channels : list channelHandler;
}.

Definition set_network (n : networkHandler) (o : kubernetes_objects) := MkKubernetesObjects n (connections o) (channels o).
Definition set_connections (l : list kubernetes_sshConnectionHandler) (o : kubernetes_objects) :=
  MkKubernetesObjects (network o) l (channels o).
Definition set_channels (l : list channelHandler) (o : kubernetes_objects) :=
  MkKubernetesObjects (network o) (connections o) l.

Definition set_n_mutex (b : bool) (n : networkHandler) :=
  MkNetworkHandler b (n_pod n) (n_disconnected n) (n_labels n) (n_annotations n) (n_done n).
Definition set_n_pod (p : nat) (n : networkHandler) :=
  MkNetworkHandler (n_mutex n) (Some p) (n_disconnected n) (n_labels n) (n_annotations n) (n_done n).
Definition set_n_disconnected (n : networkHandler) :=
  MkNetworkHandler (n_mutex n) (n_pod n) true (n_labels n) (n_annotations n) (n_done n).
Definition set_n_marks (labels annotations : gmap string string) (n : networkHandler) :=
  MkNetworkHandler (n_mutex n) (n_pod n) (n_disconnected n) labels annotations (n_done n).
Definition set_n_done (n : networkHandler) :=
  MkNetworkHandler (n_mutex n) (n_pod n) (n_disconnected n) (n_labels n) (n_annotations n) true.

Definition set_ch_env (m : gmap string string) (c : channelHandler) :=
  MkChannelHandler (ch_channelID c) (ch_connection c) m (ch_files c) (ch_pty c) (ch_x11 c) (ch_columns c) (ch_rows c)
    (ch_exec c) (ch_session c) (ch_pod c).
Definition set_ch_pty (columns rows : Z) (c : channelHandler) :=
  MkChannelHandler (ch_channelID c) (ch_connection c) (ch_env c) (ch_files c) true (ch_x11 c) columns rows
    (ch_exec c) (ch_session c) (ch_pod c).
Definition set_ch_x11 (c : channelHandler) :=
  MkChannelHandler (ch_channelID c) (ch_connection c) (ch_env c) (ch_files c) (ch_pty c) true (ch_columns c) (ch_rows c)
    (ch_exec c) (ch_session c) (ch_pod c).
Definition set_ch_exec (e : option nat) (c : channelHandler) :=
  MkChannelHandler (ch_channelID c) (ch_connection c) (ch_env c) (ch_files c) (ch_pty c) (ch_x11 c) (ch_columns c) (ch_rows c)
    e (ch_session c) (ch_pod c).
Definition set_ch_pod (p : option nat) (c : channelHandler) :=
  MkChannelHandler (ch_channelID c) (ch_connection c) (ch_env c) (ch_files c) (ch_pty c) (ch_x11 c) (ch_columns c) (ch_rows c)
    (ch_exec c) (ch_session c) p.

(** ** Names in labels *)

(** [ReplaceAllString] of [[^[:alnum:]|\.]] by a dash: every character, or byte
    that does not belong to one, other than letters, digits, the bar and the dot. *)
Fixpoint label_safe (s : string) : string :=
  match s with
  | EmptyString => EmptyString
  | String a s1 =>
      if N.ltb (byte_code a) 128 then String (if alphanumeric a || one_of "|." a then a else "-") (label_safe s1)
      else
        match s1 with
        | EmptyString => "-"
        | String b s2 =>
            if two_bytes a b then String "-" (label_safe s2)
            else
              match s2 with
              | EmptyString => String "-" (label_safe s1)
              | String c s3 =>
                  if three_bytes a b c then String "-" (label_safe s3)
                  else
                    match s3 with
                    | EmptyString => String "-" (label_safe s1)
                    | String d s4 =>
                        if four_bytes a b c d then String "-" (label_safe s4) else String "-" (label_safe s1)
                    end
              end
        end
  end.

(** [strings.ReplaceAll(s, ":", "-")] *)
Fixpoint dashes (s : string) : string :=
  match s with
  | EmptyString => EmptyString
  | String c s => String (if decide (c = ":"%char) then "-"%char else c) (dashes s)
  end.

(** The values of metadata under the names the configuration gives them. *)
Definition exposed (names : gmap string string) (metadata : gmap string string) : list (string * string) :=
  map_to_list names ≫= λ kv, match metadata !! kv.1 with Some v => [(kv.2, v)] | None => [] end.
Definition set_all (l : list (string * string)) (m : gmap string string) : gmap string string :=
  foldl (λ m kv, <[kv.1 := kv.2]> m) m l.

(** ** The surroundings

    What the backend is created with, and the libraries it calls. *)
Record Surroundings (W : Type) := MkSurroundings {
  library : KubernetesLibrary;
  cfg : KubernetesConfig;
  connectionID : string;
  client_IP : string;
  waits : Z → nat;
  ParseCMD : string → list string + error;
  encode_error : list Packet → Packet → option error;
  Marshal_setup : SetupPacket → list byte * option error;
  Marshal_new : NewConnectionPayload → list byte * option error;
  agent_packets : nat → list Packet;
  objects : Objects W;
}.

Arguments library {W} _.
Arguments cfg {W} _.
Arguments connectionID {W} _.
Arguments client_IP {W} _.
Arguments waits {W} _ _.
Arguments ParseCMD {W} _ _.
Arguments encode_error {W} _ _ _.
Arguments Marshal_setup {W} _ _.
Arguments Marshal_new {W} _ _.
Arguments agent_packets {W} _ _.
Arguments objects {W} _.

Section kubernetes.
Context {W : Type} `{!Field W kubernetes_store} `{!Field W kubernetes_objects}.
Context (env : Surroundings W).

Abbreviation call A := (prog W A).
Abbreviation lib := (library env).
Abbreviation config := (cfg env).
Abbreviation pod_config := (Pod (cfg env)).

Definition objs : call kubernetes_objects := λ w, Done (fget w, w).
Definition update_objs (f : kubernetes_objects → kubernetes_objects) : call unit := λ w, Done (tt, fset (f (fget w)) w).
Definition net : call networkHandler := let* o := objs in prog_ret (network o).
Definition update_net (f : networkHandler → networkHandler) : call unit := update_objs (λ o, set_network (f (network o)) o).

Definition channel_at (i : nat) : call channelHandler :=
  let* o := objs in
  match channels o !! i with Some c => prog_ret c | None => panic nil_pointer end.
Definition update_channel (i : nat) (f : channelHandler → channelHandler) : call unit :=
  update_objs (λ o, set_channels (alter f i (channels o)) o).

(** [mutex.Lock(); defer mutex.Unlock()] *)
Definition with_mutex {A} (body : call A) : call A :=
  let* n := net in
  if n_mutex n then block "sync.Mutex.Lock"
  else
    do* update_net (set_n_mutex true) in
    let* a := body in
    do* update_net (set_n_mutex false) in
    prog_ret a.

Definition timeout (t : KubernetesTimeoutConfig → Z) : ctx := Deadline (waits env (t (Kubernetes_Timeouts config))).

(** ** The network connection *)

(** [GetMetadata], if there is anything to look up: the texts and the metadata
    with its map initialised. *)
Definition metadata_for (names : gmap string string) (meta : ConnectionAuthenticatedMetadata)
  : list (string * string) * ConnectionAuthenticatedMetadata :=
  if decide (names = ∅) then ([], meta)
  else
    let '(m, c) := GetMetadata (Some (meta_conn meta)) in (exposed names (value_texts m), set_meta_conn c meta).

Definition connection_env (meta : ConnectionAuthenticatedMetadata) : gmap string string * ConnectionAuthenticatedMetadata :=
  let '(m, c) := GetEnvironment (Some (meta_conn meta)) in
  let '(l, meta) := metadata_for (pod_ExposeAuthMetadataAsEnv pod_config) (set_meta_conn c meta) in
  (set_all l (value_texts m), meta).

(** The labels; the length of the name is that of the name before the
    replacement. *)
Definition connection_labels (meta : ConnectionAuthenticatedMetadata) : gmap string string * ConnectionAuthenticatedMetadata :=
  let labels : gmap string string := {[ "containerssh_connection_id" := connectionID env ]} in
  let labels :=
    if decide (String.length (AuthenticatedUsername meta) ≤ 63)%nat
    then <["containerssh_username" := label_safe (AuthenticatedUsername meta)]> labels else labels in
  let '(l, meta) := metadata_for (pod_ExposeAuthMetadataAsLabels pod_config) meta in
  (set_all l labels, meta).

Definition connection_annotations (meta : ConnectionAuthenticatedMetadata)
  : gmap string string * ConnectionAuthenticatedMetadata :=
  let '(l, meta) := metadata_for (pod_ExposeAuthMetadataAsAnnotations pod_config) meta in
  (set_all l {[ "containerssh_ip" := dashes (client_IP env) ]}, meta).

(** Errors of writing files are only logged. *)
Fixpoint write_files (p : nat) (files : list (string * list byte)) : call unit :=
  match files with
  | [] => prog_ret tt
  | (path, content) :: files =>
      let* _ := writeFile lib config p path content in
      write_files p files
  end.

Definition new_connection (s : kubernetes_sshConnectionHandler) : call nat :=
  let* o := objs in
  do* update_objs (set_connections (connections o ++ [s])) in
  prog_ret (length (connections o)).

Definition file_contents (files : option (gmap string BinaryValue)) : gmap string (list byte) :=
  BinaryValue_Value <$> default ∅ files.

(** [OnHandshakeSuccess]; the result is the new SSH connection handler.  The
    command of the console container is set in the configuration as well, where
    [getPodConfig] replaces it. *)
Definition handshake (meta : ConnectionAuthenticatedMetadata)
  : call (option nat * ConnectionAuthenticatedMetadata * option error) :=
  with_mutex
    (let* n := net in
     match n_pod n with
     | Some _ => prog_ret (None, meta, Some (Errorf "handshake already complete" []))
     | None =>
         let '(environment, meta) := connection_env meta in
         let* _ := index (Containers (pod_Spec pod_config)) (ConsoleContainerNumber pod_config) in
         let '(labels, meta) := connection_labels meta in
         let '(annotations, meta) := connection_annotations meta in
         do* update_net (set_n_marks labels annotations) in
         let connected meta :=
           let '(files, conn) := GetFiles (Some (meta_conn meta)) in
           let* s := new_connection (MkKubernetesConnection (Username (auth_pending meta)) environment
                                       (file_contents files) NewAgentForward) in
           prog_ret (Some s, set_meta_conn conn meta, None) in
         if decide (pod_Mode pod_config = KubernetesExecutionModeConnection) then
           let* pod := createPod lib config (timeout PodStart) labels annotations environment None [] in
           match pod with
           | inr err => prog_ret (None, meta, Some err)
           | inl p =>
               do* update_net (set_n_pod p) in
               let '(files, conn) := GetFiles (Some (meta_conn meta)) in
               do* write_files p (map_to_list (file_contents files)) in
               connected (set_meta_conn conn meta)
           end
         else connected meta
     end).

Definition kubernetes_OnDisconnect : call unit :=
  with_mutex
    (let* n := net in
     if n_disconnected n then prog_ret tt
     else
       do* update_net set_n_disconnected in
       do* (match n_pod n with
            | Some p => let* _ := pod_remove lib config p (timeout PodStop) in prog_ret tt
            | None => prog_ret tt
            end) in
       if n_done n then panic "close of closed channel" else update_net set_n_done).

(** [OnShutdown] waits for the end of the shutdown context or of the connection. *)
Definition kubernetes_OnNetShutdown : call unit :=
  let* n := net in
  if n_done n then prog_ret tt else kubernetes_OnDisconnect.

(** ** The agent *)

Definition setupAgent (s_env : gmap string string) : call agent_setup :=
  if decide (pod_Mode pod_config = KubernetesExecutionModeConnection) then
    let* n := net in
    match n_pod n with
    | None => panic nil_pointer
    | Some p =>
        let* exec := createExec lib config p [pod_AgentPath pod_config; "forward-server"] s_env false in
        match exec with
        | inr err => prog_ret ([], Some err)
        | inl e =>
            do* run lib config e to_buffers in
            prog_ret (agent_packets env e, None)
        end
    end
  else prog_ret ([], Some (Errorf "port forwarding does not work in session mode" [])).

Definition connection_at (i : nat) : call kubernetes_sshConnectionHandler :=
  let* o := objs in
  match connections o !! i with Some c => prog_ret c | None => panic nil_pointer end.

(** A call on the forwards of a connection. *)
Definition on_forwards {A} (i : nat) (op : prog agentForward A) : call A :=
  let* s := connection_at i in
  match op (s_agentForward s) with
  | Done (a, f) =>
      do* update_objs (λ o, set_connections
             (<[i := MkKubernetesConnection (s_username s) (s_env s) (s_files s) f]> (connections o)) o) in
      prog_ret a
  | Panic why => panic why
  | Blocked why => block why
  end.

(** ... that starts the agent if it is [needed]. *)
Definition on_forwards_with_agent {A} (i : nat) (needed : agentForward → bool) (op : agent_setup → prog agentForward A)
  : call A :=
  let* s := connection_at i in
  let* setup := if needed (s_agentForward s) then setupAgent (s_env s) else prog_ret ([], None) in
  on_forwards i (op setup).

(** ** Session channels *)

Definition already_running : option error :=
  Some (MsgError (UserMessage "KUBERNETES_PROGRAM_ALREADY_RUNNING" "program already running" "program already running" [])).

Definition kubernetes_OnEnvRequest (i : nat) (name val : string) : call (option error) :=
  let* c := channel_at i in
  match ch_exec c with
  | Some _ => prog_ret already_running
  | None => do* update_channel i (set_ch_env (<[name := val]> (ch_env c))) in prog_ret None
  end.

Definition kubernetes_OnPtyRequest (i : nat) (term : string) (columns rows : Z) : call (option error) :=
  let* c := channel_at i in
  match ch_exec c with
  | Some _ => prog_ret already_running
  | None =>
      do* update_channel i (set_ch_env (<["TERM" := term]> (ch_env c))) in
      do* update_channel i (set_ch_pty columns rows) in
      prog_ret None
  end.

(** A command line without words makes the index fail. *)
Definition parseProgram (program : string) : call (list string) :=
  match ParseCMD env program with
  | inr _ => prog_ret ["/bin/sh"; "-c"; program]
  | inl [] => panic "runtime error: index out of range [0] with length 0"
  | inl (first :: rest) =>
      if HasPrefix first "/" || HasPrefix first "./" || HasPrefix first "../"
      then prog_ret (first :: rest)
      else prog_ret ["/bin/sh"; "-c"; program]
  end.

Definition handleExecModeConnection (i : nat) (program : list string) : call (option error) :=
  let* n := net in
  let* ch := channel_at i in
  match n_pod n with
  | None => panic nil_pointer
  | Some p =>
      let* exec := createExec lib config p program (ch_env ch) (ch_pty ch) in
      match exec with
      | inr err => prog_ret (Some err)
      | inl e =>
          do* update_exec e (set_x_owner (ForChannel i)) in
          do* update_channel i (set_ch_exec (Some e)) in
          prog_ret None
      end
  end.

Definition removePod (p : nat) : call unit :=
  let* _ := pod_remove lib config p (timeout PodStop) in prog_ret tt.

Definition handleExecModeSession (i : nat) (c : ctx) (program : list string) : call (nat + error) :=
  let* n := net in
  let* ch := channel_at i in
  let* pod := createPod lib config c (n_labels n) (n_annotations n) (ch_env ch) (Some (ch_pty ch)) program in
  match pod with
  | inr err => prog_ret (inr err)
  | inl p =>
      do* write_files p (map_to_list (ch_files ch)) in
      let* exec := attach lib config p in
      match exec with
      | inr err =>
          do* update_channel i (set_ch_exec None) in
          do* removePod p in
          prog_ret (inr err)
      | inl e =>
          do* update_exec e (set_x_owner (ForChannel i)) in
          do* update_channel i (set_ch_exec (Some e)) in
          prog_ret (inl p)
      end
  end.

(** The callbacks a channel's program is run with. *)
Definition channel_write (ref : nat) (data : list byte) : call (option error) :=
  let* '(_, err) := obj_Write (objects env) ref data in prog_ret err.

Definition channel_exit (session : SessionChannel) (exitStatus : Z) : call unit :=
  do* obj_ExitStatus (objects env) session (u32 exitStatus) in
  let* _ := obj_Close (objects env) session in
  prog_ret tt.

Definition channel_streams (session : SessionChannel) : call (streams W) :=
  let* _ := obj_Stdin (objects env) session in
  let* stdout := obj_Stdout (objects env) session in
  let* stderr := obj_Stderr (objects env) session in
  prog_ret (MkStreams (channel_write stdout) (channel_write stderr) (obj_CloseWrite (objects env) session)
              (channel_exit session)).

(** There is no check for a program that already runs. *)
Definition run_channel (i : nat) (c : ctx) (program : list string) : call (option error) :=
  with_mutex
    (let* err :=
       if decide (pod_Mode pod_config = KubernetesExecutionModeConnection) then handleExecModeConnection i program
       else if decide (pod_Mode pod_config = KubernetesExecutionModeSession) then
         let* r := handleExecModeSession i c program in
         do* update_channel i (set_ch_pod (match r with inl p => Some p | inr _ => None end)) in
         prog_ret (match r with inl _ => None | inr err => Some err end)
       else prog_ret (Some (Errorf "invalid execution mode: %s" [VString (pod_Mode pod_config)])) in
     match err with
     | Some _ => prog_ret err
     | None =>
         let* ch := channel_at i in
         match ch_exec ch with
         | None => panic nil_pointer
         | Some e =>
             let* st := channel_streams (ch_session ch) in
             do* run lib config e st in
             do* (if ch_pty ch then let* _ := resize lib e (ch_rows ch) (ch_columns ch) in prog_ret tt
                  else prog_ret tt) in
             prog_ret None
         end
     end).

Definition kubernetes_OnExecRequest (i : nat) (program : string) : call (option error) :=
  let* program := parseProgram program in
  run_channel i (timeout k8s_CommandStart) program.

Definition kubernetes_OnShell (i : nat) : call (option error) :=
  run_channel i (timeout k8s_CommandStart) (pod_ShellCommand pod_config).

Definition kubernetes_OnSubsystem (i : nat) (subsystem : string) : call (option error) :=
  match pod_Subsystems pod_config !! subsystem with
  | Some binary => run_channel i (timeout k8s_CommandStart) [binary]
  | None =>
      prog_ret (Some (MsgError (UserMessage "KUBERNETES_SUBSYSTEM_NOT_SUPPORTED" "subsystem not supported"
                                  "the specified subsystem is not supported (%s)" [VString subsystem])))
  end.

Definition not_running (text : string) : option error :=
  Some (MsgError (UserMessage "KUBERNETES_PROGRAM_NOT_RUNNING" text text [])).

Definition kubernetes_OnSignal (i : nat) (sig : string) : call (option error) :=
  with_mutex
    (let* c := channel_at i in
     match ch_exec c with
     | None => prog_ret (not_running "Cannot send signal, program is not running.")
     | Some e => signal lib config (waits env) e sig
     end).

Definition kubernetes_OnWindow (i : nat) (columns rows : Z) : call (option error) :=
  with_mutex
    (let* c := channel_at i in
     match ch_exec c with
     | None => prog_ret (not_running "Cannot resize window, program is not running.")
     | Some e => resize lib e rows columns
     end).

Definition kubernetes_OnX11Request (i : nat) (singleConnection : bool) (proto cookie : string) (screen : Z)
  : call (option error) :=
  let* c := channel_at i in
  if ch_x11 c then prog_ret (Some (Errorf "X11 forwarding already setup for this channel" []))
  else
    do* update_channel i (set_ch_env (<["DISPLAY" := "localhost:10"]> (ch_env c))) in
    let* err :=
      on_forwards_with_agent (ch_connection c) x11_needed
        (λ setup, NewX11Forwarding (encode_error env) (Marshal_setup env) setup singleConnection proto cookie screen) in
    match err with
    | Some _ => prog_ret err
    | None => do* update_channel i set_ch_x11 in prog_ret None
    end.

(** The pod that is removed is that of the connection, which has none in session
    mode. *)
Definition kubernetes_OnClose (i : nat) : call unit :=
  let* c := channel_at i in
  do* (match ch_exec c with Some e => kill lib config (waits env) e | None => prog_ret tt end) in
  do* (if ch_x11 c then let* _ := on_forwards (ch_connection c) CloseX11Forwarding in prog_ret tt else prog_ret tt) in
  let* n := net in
  match n_pod n with
  | Some p =>
      if decide (pod_Mode pod_config = KubernetesExecutionModeSession) then removePod p else prog_ret tt
  | None => prog_ret tt
  end.

(** The wait after the TERM signal ends with the program or with the context. *)
Definition kubernetes_OnShutdown (i : nat) : call unit :=
  let* c := channel_at i in
  match ch_exec c with
  | None => prog_ret tt
  | Some e =>
      do* term lib config (waits env) e in
      let* x := exec_at e in
      if x_exited x then prog_ret tt else kill lib config (waits env) e
  end.

Definition kubernetes_channelHandler (i : nat) : SessionChannelHandler W :=
  {| OnUnsupportedChannelRequest := λ _ _ _, prog_ret tt;
     OnFailedDecodeChannelRequest := λ _ _ _ _, prog_ret tt;
     OnEnvRequest := λ _ name val, kubernetes_OnEnvRequest i name val;
     OnPtyRequest := λ _ term columns rows _ _ _, kubernetes_OnPtyRequest i term columns rows;
     OnX11Request := λ _ single proto cookie screen _, kubernetes_OnX11Request i single proto cookie screen;
     OnExecRequest := λ _ program, kubernetes_OnExecRequest i program;
     OnShell := λ _, kubernetes_OnShell i;
     OnSubsystem := λ _ subsystem, kubernetes_OnSubsystem i subsystem;
     OnSignal := λ _ sig, kubernetes_OnSignal i sig;
     OnWindow := λ _ columns rows _ _, kubernetes_OnWindow i columns rows;
     OnClose := kubernetes_OnClose i;
     OnShutdown := λ _, kubernetes_OnShutdown i |}.

(** The goroutine of a program comes to its end. *)
Definition program_ends (e : nat) : call unit :=
  let* x := exec_at e in
  match x_owner x with
  | Internal => let* _ := stream_ends lib config (waits env) e to_buffers in prog_ret tt
  | ForChannel i =>
      let* ch := channel_at i in
      let* st := channel_streams (ch_session ch) in
      let* _ := stream_ends lib config (waits env) e st in prog_ret tt
  end.

(** ** The SSH connection *)

Definition kubernetes_OnSessionChannel (s : nat) (meta : ChannelMetadata) (session : SessionChannel)
  : call (option (SessionChannelHandler W) * option ChannelRejection) :=
  let* conn := connection_at s in
  let* o := objs in
  do* update_objs (set_channels (channels o ++
        [MkChannelHandler (ChannelID meta) s (s_env conn) (s_files conn) false false 0 0 None session None])) in
  prog_ret (Some (kubernetes_channelHandler (length (channels o))), None).

Definition forward_failed : option ChannelRejection :=
  Some (NewChannelRejection ConnectionFailed "KUBERNETES_FORWARDING_FAILED" "Error setting up the forwarding"
          "Error setting up the forwarding" []).

Definition kubernetes_OnTCPForwardChannel (s : nat) (hostToConnect : string) (portToConnect : Z) (originatorHost : string)
    (originatorPort : Z) : call (option ForwardChannel * option ChannelRejection) :=
  let* '(channel, err) :=
    on_forwards_with_agent s direct_needed
      (λ setup, NewForwardTCP (encode_error env) (Marshal_setup env) (Marshal_new env) setup
                  hostToConnect portToConnect originatorHost originatorPort) in
  match err with
  | Some _ => prog_ret (None, forward_failed)
  | None => prog_ret (Z.to_nat <$> channel, None)
  end.

Definition kubernetes_OnDirectStreamLocal (s : nat) (path : string) : call (option ForwardChannel * option ChannelRejection) :=
  let* '(channel, err) :=
    on_forwards_with_agent s direct_needed
      (λ setup, NewForwardUnix (encode_error env) (Marshal_setup env) (Marshal_new env) setup path) in
  match err with
  | Some _ => prog_ret (None, forward_failed)
  | None => prog_ret (Z.to_nat <$> channel, None)
  end.

Definition kubernetes_OnRequestTCPReverseForward (s : nat) (bindHost : string) (bindPort : Z) : call (option error) :=
  on_forwards_with_agent s (reverse_needed (Sprintf "tcp-%s:%d" [VString bindHost; VInt bindPort]))
    (λ setup, NewTCPReverseForwarding (encode_error env) (Marshal_setup env) setup bindHost bindPort).

Definition kubernetes_OnRequestStreamLocal (s : nat) (path : string) : call (option error) :=
  on_forwards_with_agent s (reverse_needed (Sprintf "unix-%s" [VString path]))
    (λ setup, NewUnixReverseForwarding (encode_error env) (Marshal_setup env) setup path).

Definition kubernetes_sshConnection (s : nat) : SSHConnectionHandler W :=
  {| OnUnsupportedGlobalRequest := λ _ _ _, prog_ret tt;
     OnFailedDecodeGlobalRequest := λ _ _ _ _, prog_ret tt;
     OnUnsupportedChannel := λ _ _ _, prog_ret tt;
     OnSessionChannel := λ meta _ session, kubernetes_OnSessionChannel s meta session;
     OnTCPForwardChannel := λ _ host port ohost oport, kubernetes_OnTCPForwardChannel s host port ohost oport;
     OnRequestTCPReverseForward := λ host port _, kubernetes_OnRequestTCPReverseForward s host port;
     OnRequestCancelTCPReverseForward := λ host port, on_forwards s (CancelTCPForwarding (encode_error env) host port);
     OnDirectStreamLocal := λ _ path, kubernetes_OnDirectStreamLocal s path;
     OnRequestStreamLocal := λ path _, kubernetes_OnRequestStreamLocal s path;
     OnRequestCancelStreamLocal := λ path, on_forwards s (CancelStreamLocalForwarding (encode_error env) path);
     OnConnShutdown := λ _, prog_ret tt |}.

(** ** The handler of the network connection *)

Definition no_authentication (meta : ConnectionAuthPendingMetadata)
  : call (AuthResponse * ConnectionAuthenticatedMetadata * option error) :=
  prog_ret (AuthResponseUnavailable, AuthFailed meta,
            Some (Errorf "the backend handler does not support authentication" [])).

Definition kubernetes_networkHandler : NetworkConnectionHandler W :=
  {| OnAuthPassword := λ meta _, no_authentication meta;
     OnAuthPubKey := λ meta _, no_authentication meta;
     OnAuthKeyboardInteractive := OnAuthKeyboardInteractive AbstractNetworkConnectionHandler;
     OnAuthGSSAPI := OnAuthGSSAPI AbstractNetworkConnectionHandler;
     OnHandshakeFailed := λ _ _, prog_ret tt;
     OnHandshakeSuccess := λ meta,
       let* '(s, meta, err) := handshake meta in
       prog_ret (kubernetes_sshConnection <$> s, meta, err);
     OnDisconnect := kubernetes_OnDisconnect;
     OnNetShutdown := λ _, kubernetes_OnNetShutdown |}.

(** [New] *)
Definition kubernetes_New (files : Library) : call (option (NetworkConnectionHandler W) * option error) :=
  match KubernetesConfig_Validate files config with
  | Some err => prog_ret (None, Some err)
  | None =>
      match factory_get lib config with
      | Some err => prog_ret (None, Some err)
      | None =>
          do* update_objs (set_network (MkNetworkHandler false None false ∅ ∅ false)) in
          prog_ret (Some kubernetes_networkHandler, None)
      end
  end.
End kubernetes.
