(* ===== verification/KubernetesSpec.v ===== *)
(** * What the Kubernetes backend guarantees

    Theorems on [KubernetesClient] and [Kubernetes]. *)

From stdpp Require Import base gmap strings list fin_maps pretty.
From Stdlib Require Import Strings.Byte.
From S2P Require Import Prelude Messages Metadata MetadataJSON Handler GoStrings ConfigHTTP ConfigBackend.
From S2P Require Import AgentProtocol AgentForward Requests AppConfig KubernetesClient Kubernetes.

Local Open Scope Z_scope.

(** ** The process ID and the output *)

(** A program that writes its output in pieces through the proxy: the process IDs
    sent and what reaches the client. *)
Fixpoint proxied (s : stdoutProxyWriter) (pieces : list (list byte)) : stdoutProxyWriter * list Z * list (list byte) :=
  match pieces with
  | [] => (s, [], [])
  | p :: pieces =>
      let '(s, pid, written) := stdoutProxyWriter_Write s p in
      let '(s, pids, out) := proxied s pieces in
      (s, option_list pid ++ pids, option_list written ++ out)%list
  end.

(** How much output is needed before the process ID is looked at. *)
Definition threshold (tty : bool) : nat := if tty then 6 else 4.

Lemma proxied_open tty pieces : proxied (MkStdoutProxyWriter true [] tty) pieces = (MkStdoutProxyWriter true [] tty, [], pieces).
Proof. induction pieces as [|p pieces IH]; [done|]. cbn. by rewrite IH. Qed.

Lemma write_threshold tty buf p :
  stdoutProxyWriter_Write (MkStdoutProxyWriter false buf tty) p =
  if decide (threshold tty ≤ length (buf ++ p))%nat then
    (MkStdoutProxyWriter true [] tty, Some (LittleEndian (take 4 (buf ++ p))),
     match drop 4 (buf ++ p) with [] => None | r => Some r end)
  else (MkStdoutProxyWriter false (buf ++ p) tty, None, None).
Proof.
  unfold stdoutProxyWriter_Write. cbn [so_pidRead so_buf so_tty]. unfold threshold.
  destruct tty; cbn [andb orb negb]; rewrite ?orb_false_r; case_decide as H.
  all: first [rewrite (proj2 (Nat.leb_le _ _)) by done | rewrite (proj2 (Nat.leb_gt _ _)) by lia].
  all: by destruct (drop 4 (buf ++ p)).
Qed.

Lemma proxied_from tty buf pieces :
  (length buf < threshold tty)%nat →
  let all := (buf ++ concat pieces)%list in
  if decide (threshold tty ≤ length all)%nat then
    (proxied (MkStdoutProxyWriter false buf tty) pieces).1.2 = [LittleEndian (take 4 all)] ∧
    concat (proxied (MkStdoutProxyWriter false buf tty) pieces).2 = drop 4 all
  else proxied (MkStdoutProxyWriter false buf tty) pieces = (MkStdoutProxyWriter false all tty, [], []).
Proof.
  cbn zeta. assert (4 ≤ threshold tty)%nat as H4 by (destruct tty; cbn; lia).
  revert buf. induction pieces as [|p pieces IH]; intros buf Hb.
  - cbn [concat]. rewrite app_nil_r, decide_False by lia. done.
  - cbn [proxied concat]. rewrite write_threshold, app_assoc. destruct (decide (threshold tty ≤ length (buf ++ p))%nat) as [Hp|Hp].
    + rewrite decide_True by (rewrite !length_app in *; lia). rewrite proxied_open.
      assert (4 ≤ length (buf ++ p))%nat by lia. split.
      * cbn [fst snd app option_list]. by rewrite (take_app_le (buf ++ p)) by done.
      * cbn [snd]. rewrite concat_app, (drop_app_le (buf ++ p)) by done. f_equal.
        destruct (drop 4 (buf ++ p)) eqn:E; cbn; by rewrite ?app_nil_r.
    + specialize (IH (buf ++ p)%list). rewrite <- app_assoc in IH |- *. case_decide as Ha.
      * destruct IH as [H1 H2]; [lia|]. destruct (proxied _ pieces) as [[s pids] out]. by cbn in *.
      * rewrite IH by lia. done.
Qed.

(** However the output of a program is cut into pieces, the process ID is sent
    once, it is the number in the first four bytes, and the client gets exactly
    the bytes after them; with less output than needed for that, the client gets
    nothing and no process ID is sent. *)
Theorem output_follows_pid tty pieces :
  let all := concat pieces in
  if decide (threshold tty ≤ length all)%nat then
    (proxied (MkStdoutProxyWriter false [] tty) pieces).1.2 = [LittleEndian (take 4 all)] ∧
    concat (proxied (MkStdoutProxyWriter false [] tty) pieces).2 = drop 4 all
  else (proxied (MkStdoutProxyWriter false [] tty) pieces).1.2 = [] ∧ (proxied (MkStdoutProxyWriter false [] tty) pieces).2 = [].
Proof.
  cbn zeta. pose proof (proxied_from tty [] pieces) as H. cbn [app length] in H. cbn zeta in H. case_decide.
  - apply H. destruct tty; cbn; lia.
  - rewrite H; [done|]. destruct tty; cbn; lia.
Qed.

(** ** The store *)

Abbreviation world T := (kubernetes_store * (kubernetes_objects * T))%type.

Section steps.
Context {T A : Type}.
Let W := world T.
Implicit Types (s : kubernetes_store) (o : kubernetes_objects).

Lemma k_bind_store (f : kubernetes_store → prog W A) s p : prog_bind f store (s, p) = f s (s, p).
Proof. done. Qed.
Lemma k_bind_update_store (f : unit → prog W A) g s p : prog_bind f (update_store g) (s, p) = f tt (g s, p).
Proof. done. Qed.
Lemma k_bind_ask {B} (f : B → prog W A) r answer s p :
  prog_bind f (ask r answer) (s, p) = f (answer (history s)) (add_history r s, p).
Proof. done. Qed.
Lemma k_bind_update_pod (f : unit → prog W A) i g s p :
  prog_bind f (update_pod i g) (s, p) = f tt (set_pods (alter g i (pods s)) s, p).
Proof. done. Qed.
Lemma k_bind_update_exec (f : unit → prog W A) e g s p :
  prog_bind f (update_exec e g) (s, p) = f tt (set_executions (alter g e (executions s)) s, p).
Proof. done. Qed.
Lemma k_bind_pod_at (f : kubernetesPodImpl → prog W A) i k s p :
  pods s !! i = Some k → prog_bind f (pod_at i) (s, p) = f k (s, p).
Proof. intros H. unfold pod_at, prog_bind, store. cbn. by rewrite H. Qed.
Lemma k_bind_exec_at (f : kubernetesExecutionImpl → prog W A) e x s p :
  executions s !! e = Some x → prog_bind f (exec_at e) (s, p) = f x (s, p).
Proof. intros H. unfold exec_at, prog_bind, store. cbn. by rewrite H. Qed.
Lemma k_bind_wg_Done (f : unit → prog W A) i k s p :
  pods s !! i = Some k → 1 ≤ kp_wg k →
  prog_bind f (wg_Done i) (s, p) = f tt (set_pods (alter (set_kp_wg (kp_wg k - 1)) i (pods s)) s, p).
Proof. intros H Hw. unfold wg_Done. rewrite bind_bind, (k_bind_pod_at _ _ k) by done. by rewrite decide_False by lia. Qed.

Lemma k_bind_objs (f : kubernetes_objects → prog W A) s o t : prog_bind f objs (s, (o, t)) = f o (s, (o, t)).
Proof. done. Qed.
Lemma k_bind_net (f : networkHandler → prog W A) s o t : prog_bind f net (s, (o, t)) = f (network o) (s, (o, t)).
Proof. done. Qed.
Lemma k_bind_update_net (f : unit → prog W A) g s o t :
  prog_bind f (update_net g) (s, (o, t)) = f tt (s, (set_network (g (network o)) o, t)).
Proof. done. Qed.
Lemma k_bind_channel_at (f : channelHandler → prog W A) i c s o t :
  channels o !! i = Some c → prog_bind f (channel_at i) (s, (o, t)) = f c (s, (o, t)).
Proof. intros H. unfold channel_at, prog_bind, objs. cbn. by rewrite H. Qed.
Lemma k_with_mutex (body : prog W A) s o t :
  n_mutex (network o) = false →
  with_mutex body (s, (o, t)) =
  (let* a := body in do* update_net (set_n_mutex false) in prog_ret a)
    (s, (set_network (set_n_mutex true (network o)) o, t)).
Proof. intros H. unfold with_mutex. by rewrite k_bind_net, H. Qed.
End steps.

Ltac k_find :=
  cbn [pods executions history set_pods set_executions add_history inc_requests inc_failures
       channels network set_network set_channels];
  rewrite ?list_lookup_alter_eq;
  repeat match goal with H : ?l !! ?i = Some _ |- context [?l !! ?i] => rewrite H end; cbn; reflexivity.

(** One call of a sequence. *)
Ltac k_step :=
  first
  [ rewrite bind_ret | rewrite bind_bind | rewrite k_bind_store | rewrite k_bind_update_store | rewrite k_bind_ask
  | rewrite k_bind_update_pod | rewrite k_bind_update_exec
  | rewrite k_bind_objs | rewrite k_bind_net | rewrite k_bind_update_net
  | erewrite k_bind_pod_at by k_find | erewrite k_bind_exec_at by k_find | erewrite k_bind_channel_at by k_find
  | erewrite k_bind_wg_Done; [|k_find|cbn; lia] ]; cbv beta.

(** ** Removing the pod *)

Section removal.
Context {T : Type} (env : Surroundings (world T)).
Abbreviation W := (world T).
Implicit Types (s : kubernetes_store) (o : kubernetes_objects) (t : T).

(** The cluster answered that the pod is deleted or unknown. *)
Definition deleted ns name (h : list request) : Prop :=
  match Pods_Delete (library env) h ns name with
  | None => True
  | Some err => IsNotFound (library env) err = true
  end.

Definition deletes ns name (n : nat) (s : kubernetes_store) : kubernetes_store :=
  Nat.iter n (add_history (PodDelete ns name)) s.

Lemma history_deletes ns name n s : history (deletes ns name n s) = (history s ++ replicate n (PodDelete ns name))%list.
Proof.
  induction n as [|n IH]; [by rewrite app_nil_r|].
  change (history (deletes ns name (S n) s)) with (history (deletes ns name n s) ++ [PodDelete ns name])%list.
  rewrite IH, <- app_assoc. f_equal. by rewrite <- replicate_cons_app.
Qed.

Lemma deletes_S ns name n s : deletes ns name n (add_history (PodDelete ns name) s) = deletes ns name (S n) s.
Proof. unfold deletes. by rewrite <- Nat.iter_succ_r. Qed.

(** The loop asks until the pod is gone or there is no time left. *)
Lemma delete_loop ns name n s q :
  ∃ m r, (m ≤ n)%nat ∧
    retry_loop n
      (let* lastError := ask (PodDelete ns name) (λ h, Pods_Delete (library env) h ns name) in
       match lastError with
       | None => prog_ret (Return None)
       | Some lastError => prog_ret (if IsNotFound (library env) lastError then Return None else Again lastError)
       end) (λ lastError, prog_ret (remove_failed lastError)) (s, q : kubernetes_objects * T) = Done (r : option error, (deletes ns name (S m) s, q)) ∧
    (m = n ∨ deleted ns name (history (deletes ns name m s))).
Proof.
  revert s. induction n as [|n IH]; intros s; cbn [retry_loop].
  all: rewrite bind_bind, k_bind_ask; unfold deleted at 1.
  all: destruct (Pods_Delete (library env) (history s) ns name) as [err|] eqn:E;
    [destruct (IsNotFound (library env) err) eqn:En|].
  - exists 0%nat, None. by auto.
  - rewrite bind_ret. exists 0%nat, (remove_failed err). by auto.
  - exists 0%nat, None. by auto.
  - exists 0%nat, None. split; [lia|]. split; [done|]. right. unfold deleted. cbn. by rewrite E.
  - rewrite bind_ret. destruct (IH (add_history (PodDelete ns name) s)) as (m & r & Hm & Hr & Hd).
    exists (S m), r. split; [lia|]. rewrite !deletes_S in *. split; [done|]. destruct Hd as [->|Hd]; [by left|by right].
  - exists 0%nat, None. split; [lia|]. split; [done|]. right. unfold deleted. cbn. by rewrite E.
Qed.

(** When a connection with a pod ends, the call returns; the deletion of the pod
    has been asked for until the cluster said that the pod is gone or unknown, or
    once more than the timeout allows waits; a second call does nothing. *)
Theorem disconnect_removes_pod p k s o t :
  pod_Mode (Pod (cfg env)) = KubernetesExecutionModeConnection →
  n_mutex (network o) = false → n_disconnected (network o) = false → n_done (network o) = false →
  n_pod (network o) = Some p → pods s !! p = Some k → kp_shuttingDown k = false →
  let ns := pod_Namespace (kp_pod k) in
  let name := pod_Name (kp_pod k) in
  let limit := waits env (PodStop (Kubernetes_Timeouts (cfg env))) in
  ∃ m w, (m ≤ limit)%nat ∧ kubernetes_OnDisconnect env (s, (o, t)) = Done (tt, w) ∧
    history w.1 = (history s ++ replicate (S m) (PodDelete ns name))%list ∧
    (m = limit ∨ deleted ns name (history s ++ replicate m (PodDelete ns name))) ∧
    kubernetes_OnDisconnect env w = Done (tt, w).
Proof.
  intros Hmode Hm Hd Hn Hp Hk Hs. cbn zeta. unfold kubernetes_OnDisconnect. rewrite k_with_mutex by done.
  do 2 k_step. cbn [network set_network set_n_mutex n_disconnected n_pod n_done]. rewrite Hd, Hp, Hn. do 2 k_step.
  unfold pod_remove, timeout, retry. do 4 k_step. rewrite Hs, Hmode. do 3 k_step.
  rewrite decide_False by done. do 3 k_step.
  edestruct (delete_loop (pod_Namespace (kp_pod k)) (pod_Name (kp_pod k))
    (waits env (PodStop (Kubernetes_Timeouts (cfg env))))) as (m & r & Hle & Hr & Hg).
  rewrite (bind_done _ _ _ _ _ Hr). exists m. eexists. split; [done|].
  rewrite history_deletes in Hg. split; [reflexivity|]. split; [by etransitivity; [apply history_deletes|]|]. split; [exact Hg|].
  reflexivity.
Qed.
End removal.

(** ** Pods are marked with their connection *)

(** What happens on a connection after the handshake. *)
Inductive kubernetes_op (W : Type) :=
| OpSession (s : nat) (meta : ChannelMetadata) (session : SessionChannel)
| OpRequest (i : nat) (r : session_request W)
| OpProgramEnds (e : nat)
| OpClose (i : nat)
| OpShutdown (i : nat)
| OpForwardTCP (s : nat) (host : string) (port : Z) (ohost : string) (oport : Z)
| OpForwardUnix (s : nat) (path : string)
| OpReverseTCP (s : nat) (host : string) (port : Z)
| OpReverseUnix (s : nat) (path : string)
| OpCancelTCP (s : nat) (host : string) (port : Z)
| OpCancelUnix (s : nat) (path : string)
| OpDisconnect.

Arguments OpSession {W} _ _ _.
Arguments OpRequest {W} _ _.
Arguments OpProgramEnds {W} _.
Arguments OpClose {W} _.
Arguments OpShutdown {W} _.
Arguments OpForwardTCP {W} _ _ _ _ _.
Arguments OpForwardUnix {W} _ _.
Arguments OpReverseTCP {W} _ _ _.
Arguments OpReverseUnix {W} _ _.
Arguments OpCancelTCP {W} _ _ _.
Arguments OpCancelUnix {W} _ _.
Arguments OpDisconnect {W}.

Definition kubernetes_call {W} `{!Field W kubernetes_store} `{!Field W kubernetes_objects} (env : Surroundings W)
    (op : kubernetes_op W) : prog W unit :=
  match op with
  | OpSession s meta session => let* _ := kubernetes_OnSessionChannel env s meta session in prog_ret tt
  | OpRequest i r => let* _ := session_call (kubernetes_channelHandler env i) r in prog_ret tt
  | OpProgramEnds e => program_ends env e
  | OpClose i => kubernetes_OnClose env i
  | OpShutdown i => kubernetes_OnShutdown env i
  | OpForwardTCP s host port ohost oport =>
      let* _ := kubernetes_OnTCPForwardChannel env s host port ohost oport in prog_ret tt
  | OpForwardUnix s path => let* _ := kubernetes_OnDirectStreamLocal env s path in prog_ret tt
  | OpReverseTCP s host port => let* _ := kubernetes_OnRequestTCPReverseForward env s host port in prog_ret tt
  | OpReverseUnix s path => let* _ := kubernetes_OnRequestStreamLocal env s path in prog_ret tt
  | OpCancelTCP s host port => let* _ := on_forwards s (CancelTCPForwarding (encode_error env) host port) in prog_ret tt
  | OpCancelUnix s path => let* _ := on_forwards s (CancelStreamLocalForwarding (encode_error env) path) in prog_ret tt
  | OpDisconnect => kubernetes_OnDisconnect env
  end.

(** The session channels of the SSH server do not touch the backend's objects. *)
Definition untouched {T} (w w' : world T) : Prop := w'.1 = w.1 ∧ w'.2.1 = w.2.1.

Record quiet_session {T} (ob : Objects (world T)) : Prop := {
  quiet_Stdin r : keeps untouched (obj_Stdin ob r);
  quiet_Stdout r : keeps untouched (obj_Stdout ob r);
  quiet_Stderr r : keeps untouched (obj_Stderr ob r);
  quiet_ExitStatus r z : keeps untouched (obj_ExitStatus ob r z);
  quiet_CloseWrite r : keeps untouched (obj_CloseWrite ob r);
  quiet_Close r : keeps untouched (obj_Close ob r);
  quiet_Write r data : keeps untouched (obj_Write ob r data);
}.

Section marks.
Context {T : Type} (env : Surroundings (world T)) (labels annotations : gmap string string).
Abbreviation W := (world T).
Abbreviation lib := (library env).
Abbreviation config := (cfg env).

(** The pod carries these labels and annotations, whatever the configuration
    gives it. *)
Definition marked (r : request) : Prop :=
  match r with
  | PodCreate m _ => ∃ l a, om_Labels m = Some l ∧ labels ⊆ l ∧ om_Annotations m = Some a ∧ annotations ⊆ a
  | _ => True
  end.

Definition marks (o : kubernetes_objects) : Prop :=
  n_labels (network o) = labels ∧ n_annotations (network o) = annotations.

(** A call on a connection with these marks: it keeps them, and all pods it asks
    for have them. *)
Definition all_marked (w w' : W) : Prop := ∃ rs, history w'.1 = (history w.1 ++ rs)%list ∧ Forall marked rs.
Definition follows (w w' : W) : Prop := marks w.2.1 → marks w'.2.1 ∧ all_marked w w'.

Lemma all_marked_same (w w' : W) : history w'.1 = history w.1 → all_marked w w'.
Proof. intros E. exists []. by rewrite E, app_nil_r. Qed.
Lemma all_marked_refl w : all_marked w w.
Proof. by apply all_marked_same. Qed.
Lemma all_marked_trans w1 w2 w3 : all_marked w1 w2 → all_marked w2 w3 → all_marked w1 w3.
Proof.
  intros (rs & E & H) (rs' & E' & H'). exists (rs ++ rs')%list. rewrite E', E, app_assoc. split; [done|]. by apply Forall_app.
Qed.

#[local] Instance follows_preorder : PreOrder follows.
Proof.
  split.
  - intros w Hm. split; [done|apply all_marked_refl].
  - intros w1 w2 w3 H12 H23 H. destruct (H12 H) as [H2 A12]. destruct (H23 H2) as [H3 A23].
    split; [done|]. by eapply all_marked_trans.
Qed.

Abbreviation ok := (keeps follows).

Lemma ok_untouched {A} (c : prog W A) : keeps untouched c → ok c.
Proof.
  intros H w. eapply wlp_mono; [apply H|]. intros a [s' [o' t']] [Es Eo] Hm. cbn in *. subst.
  split; [done|by apply all_marked_same].
Qed.

Lemma ok_store : ok store.
Proof. intros w Hm. split; [done|apply all_marked_refl]. Qed.
Lemma ok_objs : ok objs.
Proof. intros w Hm. split; [done|apply all_marked_refl]. Qed.
Lemma ok_update_store g : (∀ s, history (g s) = history s) → ok (update_store g).
Proof. intros H [s [o t]] Hm. split; [done|]. exists []. cbn. by rewrite H, app_nil_r. Qed.
Lemma ok_update_objs g : (∀ o, marks o → marks (g o)) → ok (update_objs g).
Proof. intros H [s [o t]] Hm. split; [by apply H|by apply all_marked_same]. Qed.
Lemma ok_update_net g : (∀ n, n_labels (g n) = n_labels n ∧ n_annotations (g n) = n_annotations n) → ok (update_net g).
Proof. intros H. apply ok_update_objs. intros o [H1 H2]. destruct (H (network o)) as [E1 E2]. split; cbn; congruence. Qed.
Lemma ok_ask {A} r (answer : list request → A) : marked r → ok (ask r answer).
Proof. intros H [s [o t]] Hm. split; [done|]. exists [r]. split; [done|]. by constructor. Qed.

Lemma ok_bind_net {A} (f : networkHandler → prog W A) :
  (∀ n, n_labels n = labels → n_annotations n = annotations → ok (f n)) → ok (prog_bind f net).
Proof.
  intros H [s [o t]]. unfold wlp. rewrite k_bind_net. destruct (f (network o) (s, (o, t))) as [[a w']| |] eqn:E; [|done..].
  intros [H1 H2]. apply (wlp_done _ _ _ _ _ (H (network o) H1 H2 (s, (o, t))) E). done.
Qed.

Lemma ok_net : ok net.
Proof. intros w Hm. split; [done|apply all_marked_refl]. Qed.
Lemma ok_channel_at i : ok (channel_at i).
Proof. unfold channel_at. keeps_steps. apply ok_objs. Qed.
Lemma ok_update_channel i f : ok (update_channel i f).
Proof. by apply ok_update_objs. Qed.
Lemma ok_connection_at i : ok (connection_at i).
Proof. unfold connection_at. keeps_steps. apply ok_objs. Qed.
Lemma ok_pod_at p : ok (pod_at p).
Proof. unfold pod_at. keeps_steps. apply ok_store. Qed.
Lemma ok_exec_at e : ok (exec_at e).
Proof. unfold exec_at. keeps_steps. apply ok_store. Qed.
Lemma ok_update_pod p f : ok (update_pod p f).
Proof. by apply ok_update_store. Qed.
Lemma ok_update_exec e f : ok (update_exec e f).
Proof. by apply ok_update_store. Qed.
Lemma ok_index {A} (l : list A) i : ok (index l i).
Proof. unfold index. keeps_steps. Qed.

#[local] Hint Resolve ok_store ok_objs ok_net ok_channel_at ok_update_channel ok_connection_at ok_pod_at ok_exec_at
  ok_update_pod ok_update_exec ok_index : keeps.
#[local] Hint Extern 2 (ok (update_store _)) => apply ok_update_store; intros; reflexivity : keeps.
#[local] Hint Extern 2 (ok (update_objs (set_connections _))) => apply ok_update_objs; done : keeps.
#[local] Hint Extern 2 (ok (update_objs (set_channels _))) => apply ok_update_objs; done : keeps.
#[local] Hint Extern 2 (ok (update_net _)) => apply ok_update_net; done : keeps.
#[local] Hint Extern 2 (ok (ask _ _)) => apply ok_ask; exact I : keeps.

Lemma ok_wg p : ok (wg_Done p) ∧ ok (wg_Add p) ∧ ok (wg_Wait p).
Proof. unfold wg_Done, wg_Add, wg_Wait. split_and!; keeps_steps. Qed.

Lemma ok_new_exec p r tty : ok (new_exec lib p r tty).
Proof. unfold new_exec. keeps_steps. Qed.
Lemma ok_attach p : ok (attach lib config p).
Proof. unfold attach. keeps_steps. apply ok_new_exec. Qed.
Lemma ok_createExecLocked p program e tty : ok (createExecLocked lib config p program e tty).
Proof. unfold createExecLocked. keeps_steps. apply ok_new_exec. Qed.
#[local] Hint Resolve ok_attach ok_createExecLocked : keeps.
Lemma ok_createExec p program e tty : ok (createExec lib config p program e tty).
Proof. unfold createExec. keeps_steps; apply ok_wg. Qed.

Lemma ok_pod_remove p c : ok (pod_remove lib config p c).
Proof. unfold pod_remove. keeps_steps; apply ok_wg. Qed.

Lemma ok_getExitCode p c : ok (getExitCode lib config p c).
Proof. unfold getExitCode. keeps_steps. Qed.
#[local] Hint Resolve ok_createExec ok_pod_remove ok_getExitCode : keeps.

(** The callbacks of a stream keep the marks. *)
Record ok_streams (st : streams W) : Prop := {
  ok_stdout d : ok (st_stdout st d);
  ok_stderr d : ok (st_stderr st d);
  ok_closeWrite : ok (st_closeWrite st);
  ok_onExit z : ok (st_onExit st z);
}.

Lemma ok_to_buffers : ok_streams to_buffers.
Proof. split; intros; apply call_keeps_ret; apply _. Qed.

Lemma ok_copy_pieces st a b pieces : ok_streams st → ok (copy_pieces st a b pieces).
Proof.
  intros [Ho He _ _]. revert a b. induction pieces as [|[[] d] pieces IH]; intros a b; cbn; keeps_steps.
Qed.

Lemma ok_read_pid st s b pieces : ok_streams st → ok (read_pid st s b pieces).
Proof.
  intros [Ho He _ _]. revert s b. induction pieces as [|[[] d] pieces IH]; intros s b; cbn; keeps_steps.
Qed.

Lemma ok_start_stream e : ok (start_stream lib config e).
Proof. unfold start_stream. keeps_steps. Qed.

Lemma ok_sendExitCode ws p onExit : (∀ z, ok (onExit z)) → ok (sendExitCodeToClient lib config ws p onExit).
Proof. intros. unfold sendExitCodeToClient. keeps_steps. Qed.
#[local] Hint Resolve ok_start_stream ok_sendExitCode ok_to_buffers ok_copy_pieces ok_read_pid : keeps.

Lemma ok_run e st : ok_streams st → ok (run lib config e st).
Proof. intros. unfold run. keeps_steps. Qed.

Lemma ok_stream_ends ws e st : ok_streams st → ok (stream_ends lib config ws e st).
Proof.
  intros Hst. pose proof Hst as [Ho He Hc Hx]. unfold stream_ends. keeps_steps; apply ok_wg.
Qed.
#[local] Hint Resolve ok_run ok_stream_ends : keeps.

Lemma ok_writeFile p path content : ok (writeFile lib config p path content).
Proof. unfold writeFile. keeps_steps. Qed.

Lemma ok_processSignalExec ws e sig pid : ok (processSignalExec lib config ws e sig pid).
Proof. unfold processSignalExec. keeps_steps; apply ok_wg. Qed.
#[local] Hint Resolve ok_processSignalExec ok_writeFile : keeps.

Lemma ok_signal ws e sig : ok (signal lib config ws e sig).
Proof. unfold signal, lock_exec, unlock_exec. keeps_steps; apply ok_wg. Qed.
#[local] Hint Resolve ok_signal : keeps.

Lemma ok_term ws e : ok (term lib config ws e).
Proof. unfold term. keeps_steps. Qed.
Lemma ok_kill ws e : ok (kill lib config ws e).
Proof. unfold kill. keeps_steps. Qed.
Lemma ok_resize e height width : ok (resize lib e height width).
Proof. unfold resize, Push. keeps_steps. Qed.
#[local] Hint Resolve ok_term ok_kill ok_resize : keeps.

Lemma ok_write_files p files : ok (write_files env p files).
Proof. induction files as [|[path content] files IH]; cbn; keeps_steps. Qed.
#[local] Hint Resolve ok_write_files : keeps.

(** The metadata of the pod of a configuration with labels and annotations. *)
Lemma getPodConfig_marked tty cmd e (w : W) :
  wlp (getPodConfig lib config tty cmd labels annotations e) w (λ r w', w' = w ∧
    match r with inl p => marked (PodCreate (pod_Metadata p) (pod_Spec p)) | inr _ => True end).
Proof.
  unfold getPodConfig. destruct (Copy lib (Pod config)) as [p|err]; [|done].
  assert (∀ f spec, wlp (change_console config f spec) w (λ _ w', w' = w)) as Hc.
  { intros f spec. unfold change_console, index. case_decide; [|done]. by destruct (Containers spec !! _). }
  apply wlp_bind.
  assert (∀ A (c : prog W A), wlp c w (λ _ w', w' = w) → ∀ f : A → k8s_PodSpec,
    wlp (let* spec := c in prog_ret (f spec)) w (λ _ w', w' = w)) as Hret.
  { intros A c H f. apply wlp_bind. eapply wlp_mono; [apply H|]. by intros a w' ->. }
  apply (wlp_mono _ _ (λ _ w', w' = w)).
  { case_decide; [by apply Hret|apply Hc]. }
  intros spec w' ->. split; [done|]. cbn. do 2 eexists. split; [done|].
  split; [apply map_union_subseteq_l|]. split; [done|]. apply map_union_subseteq_l.
Qed.

Lemma ok_attemptPodCreate p tty : marked (PodCreate (pod_Metadata p) (pod_Spec p)) → ok (attemptPodCreate lib p tty).
Proof.
  intros. unfold attemptPodCreate, new_pod, pod_wait. keeps_steps. by apply ok_ask.
Qed.

Lemma ok_createPod c e tty cmd : ok (createPod lib config c labels annotations e tty cmd).
Proof.
  intros w. unfold createPod. apply wlp_bind. eapply wlp_mono; [apply getPodConfig_marked|]. intros [p|err] w' [-> Hp].
  - apply keeps_retry; [apply _| |]; intros; keeps_steps. by apply ok_attemptPodCreate.
  - apply call_keeps_ret, _.
Qed.
#[local] Hint Resolve ok_createPod : keeps.

(** *** The handlers *)

Lemma ok_with_mutex {A} (body : prog W A) : ok body → ok (with_mutex body).
Proof. intros. unfold with_mutex. keeps_steps. Qed.

#[local] Hint Extern 2 (ok (update_objs _)) => apply ok_update_objs; intros ? ?; done : keeps.
#[local] Hint Extern 3 (ok (with_mutex _)) => apply ok_with_mutex; keeps_steps : keeps.

Lemma ok_setupAgent e : ok (setupAgent env e).
Proof. unfold setupAgent. keeps_steps. Qed.

Lemma ok_on_forwards {A} i (op : prog agentForward A) : ok (on_forwards i op).
Proof. unfold on_forwards. keeps_steps. Qed.
#[local] Hint Resolve ok_setupAgent ok_on_forwards : keeps.

Lemma ok_with_agent {A} i needed (op : agent_setup → prog agentForward A) : ok (on_forwards_with_agent env i needed op).
Proof. unfold on_forwards_with_agent. keeps_steps. Qed.
#[local] Hint Resolve ok_with_agent : keeps.

Context (Hq : quiet_session (objects env)).

Lemma ok_channel_streams session : keeps untouched (channel_streams env session) ∧
  ∀ w, wlp (channel_streams env session) w (λ st _, ok_streams st).
Proof.
  destruct Hq as [Hi Ho He Hx Hw Hc Hwr].
  assert (PreOrder (@untouched T)) as Hpre by (split; [done|intros ??? [??] [??]; split; congruence]).
  split; [unfold channel_streams; keeps_steps|].
  intros w. unfold channel_streams. apply wlp_bind. eapply wlp_mono; [apply Hi|]. intros _ w1 _.
  apply wlp_bind. eapply wlp_mono; [apply Ho|]. intros stdout w2 _.
  apply wlp_bind. eapply wlp_mono; [apply He|]. intros stderr w3 _. cbn.
  split; intros; cbn; [| |by apply ok_untouched|]; apply ok_untouched; unfold channel_write, channel_exit; keeps_steps.
Qed.

Lemma ok_bind_streams {A} session (f : streams W → prog W A) :
  (∀ st, ok_streams st → ok (f st)) → ok (prog_bind f (channel_streams env session)).
Proof.
  intros H w. apply wlp_bind. destruct (ok_channel_streams session) as [Hk Hs]. specialize (Hs w).
  pose proof (ok_untouched _ Hk w) as Hw. unfold wlp in *. destruct (channel_streams env session w) as [[st w1]| |]; [|done..].
  pose proof (H st Hs w1) as Hf. unfold wlp in Hf. destruct (f st w1) as [[a w2]| |]; [|done..]. by etransitivity.
Qed.

Ltac handler_steps := repeat first [apply ok_bind_streams; intros | progress keeps_step | solve [eauto with keeps]].

Lemma ok_handleExecModeSession i c program : ok (handleExecModeSession env i c program).
Proof.
  unfold handleExecModeSession, removePod. apply ok_bind_net. intros n Hl Ha. rewrite Hl, Ha. keeps_steps.
Qed.
#[local] Hint Resolve ok_handleExecModeSession : keeps.

Lemma ok_run_channel i c program : ok (run_channel env i c program).
Proof.
  apply ok_with_mutex. unfold handleExecModeConnection. handler_steps.
Qed.
#[local] Hint Resolve ok_run_channel : keeps.

Lemma ok_request i r : ok (session_call (kubernetes_channelHandler env i) r).
Proof.
  destruct r; cbn; unfold kubernetes_OnEnvRequest, kubernetes_OnPtyRequest, kubernetes_OnX11Request,
    kubernetes_OnExecRequest, parseProgram, kubernetes_OnShell, kubernetes_OnSubsystem, kubernetes_OnSignal,
    kubernetes_OnWindow; keeps_steps.
Qed.

Lemma ok_call op : ok (kubernetes_call env op).
Proof.
  destruct op as [s meta session|i r|e|i|i|s host port oh op|s path|s host port|s path|s host port|s path|]; cbn;
    unfold kubernetes_OnSessionChannel, program_ends, kubernetes_OnClose, removePod, kubernetes_OnShutdown,
      kubernetes_OnTCPForwardChannel, kubernetes_OnDirectStreamLocal, kubernetes_OnRequestTCPReverseForward,
      kubernetes_OnRequestStreamLocal, kubernetes_OnDisconnect; handler_steps.
  all: try apply ok_request; handler_steps.
Qed.

Lemma ok_calls ops : ok (range ops (kubernetes_call env)).
Proof. apply keeps_range; [apply _|]. apply ok_call. Qed.
End marks.

Section handshake.
Context {T : Type} (env : Surroundings (world T)) (Hq : quiet_session (objects env)).
Abbreviation W := (world T).
Implicit Types (s : kubernetes_store) (o : kubernetes_objects) (t : T).

Lemma k_wlp_with_mutex {A} (body : prog W A) s o t (Q : A → W → Prop) :
  wlp body (s, (set_network (set_n_mutex true (network o)) o, t))
    (λ a w, Q a (w.1, (set_network (set_n_mutex false (network w.2.1)) w.2.1, w.2.2))) →
  wlp (with_mutex body) (s, (o, t)) Q.
Proof.
  intros H. unfold wlp. destruct (n_mutex (network o)) eqn:E; [by unfold with_mutex; rewrite k_bind_net, E|].
  rewrite k_with_mutex by done. unfold wlp in H. unfold prog_bind.
  destruct (body _) as [[a [s1 [o1 t1]]]| |]; [exact H|done..].
Qed.

(** The names the backend uses itself are not given to exposed metadata. *)
Definition own_names_free : Prop :=
  (∀ k, pod_ExposeAuthMetadataAsLabels (Pod (cfg env)) !! k ≠ Some "containerssh_connection_id") ∧
  (∀ k, pod_ExposeAuthMetadataAsLabels (Pod (cfg env)) !! k ≠ Some "containerssh_username") ∧
  (∀ k, pod_ExposeAuthMetadataAsAnnotations (Pod (cfg env)) !! k ≠ Some "containerssh_ip").

Definition labels_of (meta : ConnectionAuthenticatedMetadata) := (connection_labels env (connection_env env meta).2).1.
Definition annotations_of (meta : ConnectionAuthenticatedMetadata) :=
  (connection_annotations env (connection_labels env (connection_env env meta).2).2).1.

Lemma set_all_ne l (m : gmap string string) k : (∀ v, (k, v) ∉ l) → set_all l m !! k = m !! k.
Proof.
  unfold set_all. revert m. induction l as [|[k' v'] l IH]; intros m H; [done|]. cbn. rewrite IH by set_solver.
  apply lookup_insert_ne. intros ->. by apply (H v'), list_elem_of_here.
Qed.

Lemma metadata_for_names names meta k v : (k, v) ∈ (metadata_for names meta).1 → ∃ n, names !! n = Some k.
Proof.
  unfold metadata_for. case_decide; [by intros ?%elem_of_nil|]. destruct (GetMetadata _) as [m c]. cbn. unfold exposed.
  rewrite list_elem_of_bind. intros ([n k'] & Hv & Hn). apply elem_of_map_to_list in Hn. exists n.
  cbn in Hv. destruct (value_texts m !! n); [|by apply elem_of_nil in Hv]. apply list_elem_of_singleton in Hv. by injection Hv as -> _.
Qed.

Lemma kept_name names meta (m : gmap string string) k :
  (∀ n, names !! n ≠ Some k) → set_all (metadata_for names meta).1 m !! k = m !! k.
Proof. intros H. apply set_all_ne. intros v [n Hn]%metadata_for_names. by apply (H n). Qed.

Lemma connection_env_user meta : AuthenticatedUsername (connection_env env meta).2 = AuthenticatedUsername meta.
Proof.
  unfold connection_env, metadata_for. destruct (GetEnvironment _) as [m c].
  assert (∀ c meta, AuthenticatedUsername (set_meta_conn c meta) = AuthenticatedUsername meta) as H by (by intros [c'|] meta').
  case_decide; [apply H|]. destruct (GetMetadata (Some _)) as [m' c']. cbn [snd]. by rewrite !H.
Qed.

Lemma labels_identify meta :
  own_names_free →
  labels_of meta !! "containerssh_connection_id" = Some (connectionID env) ∧
  labels_of meta !! "containerssh_username" =
    (if decide (String.length (AuthenticatedUsername meta) ≤ 63)%nat then Some (label_safe (AuthenticatedUsername meta)) else None) ∧
  annotations_of meta !! "containerssh_ip" = Some (dashes (client_IP env)).
Proof.
  intros (H1 & H2 & H3). unfold labels_of, annotations_of, connection_labels at 1 3, connection_annotations.
  split_and!.
  - destruct (metadata_for _ _) as [l m] eqn:E. cbn [fst].
    replace l with (metadata_for (pod_ExposeAuthMetadataAsLabels (Pod (cfg env))) (connection_env env meta).2).1 by (by rewrite E).
    rewrite kept_name by done. case_decide; [rewrite lookup_insert_ne by done|]; apply lookup_singleton_eq.
  - unfold connection_labels. destruct (metadata_for _ _) as [l m] eqn:E. cbn [fst].
    replace l with (metadata_for (pod_ExposeAuthMetadataAsLabels (Pod (cfg env))) (connection_env env meta).2).1 by (by rewrite E).
    rewrite kept_name, connection_env_user by done. case_decide; [apply lookup_insert_eq | by apply lookup_singleton_ne].
  - destruct (metadata_for (pod_ExposeAuthMetadataAsAnnotations _) _) as [l m] eqn:E. cbn [fst].
    apply (f_equal fst) in E. cbn in E. rewrite <- E, kept_name by done. apply lookup_singleton_eq.
Qed.

(** A call under marks, in terms of what it asks for. *)
Lemma wlp_marked {A} L N (c : prog W A) w0 w (Q : A → W → Prop) :
  keeps (follows L N) c → marks L N w.2.1 → all_marked L N w0 w →
  (∀ a w', marks L N w'.2.1 → all_marked L N w0 w' → Q a w') → wlp c w Q.
Proof.
  intros Hc Hm Ha HQ. eapply wlp_mono; [apply Hc|]. intros a w' Hf. destruct (Hf Hm) as [Hm' Ha'].
  apply HQ; [done|]. by eapply all_marked_trans.
Qed.

(** What remains of the handshake once the marks are set. *)
Lemma handshake_marks meta s o t :
  let L := labels_of meta in
  let N := annotations_of meta in
  wlp (handshake env meta) (s, (o, t)) (λ r w,
    all_marked L N (s, (o, t)) w ∧ (r.1.1 ≠ None → marks L N w.2.1)).
Proof.
  cbn zeta. apply k_wlp_with_mutex. apply wlp_bind. cbn. destruct (n_pod (network o)); [split; [by apply all_marked_same|done]|].
  destruct (connection_env env meta) as [environment meta1] eqn:E1. apply wlp_bind.
  assert (∀ w : W, wlp (index (Containers (pod_Spec (Pod (cfg env)))) (ConsoleContainerNumber (Pod (cfg env)))) w (λ _ w', w' = w)) as Hi.
  { intros w. unfold index. case_decide; [|done]. by destruct (_ !! _). }
  eapply wlp_mono; [apply Hi|]. intros _ w ->.
  unfold labels_of, annotations_of. rewrite E1. cbn [snd].
  destruct (connection_labels env meta1) as [L meta2] eqn:E2. cbn [fst snd].
  destruct (connection_annotations env meta2) as [N meta3] eqn:E3. cbn [fst].
  apply wlp_bind. cbn.
  eapply (wlp_marked L N _ (s, (o, t))); [|done|by apply all_marked_same|].
  - pose proof (@follows_preorder T L N).
    repeat first [by apply ok_createPod | by apply ok_update_net | apply ok_write_files | progress keeps_step].
    all: unfold new_connection; keeps_steps; first [apply ok_objs | by apply ok_update_objs].
  - intros a w' Hm Ha. split; [|done]. destruct Ha as (rs & Hh & HP). by exists rs.
Qed.

(** Claim C13. Unless the configuration puts exposed metadata under the names that the
    backend uses itself, every pod that is asked for on a connection, by its
    handshake and by whatever happens on it afterwards, carries the label
    "containerssh_connection_id" with the identifier of the connection, the
    annotation "containerssh_ip" with the address, and, if the user name has at
    most 63 bytes, the label "containerssh_username" with its characters that a
    label may have (a longer name leaves no label); whatever the cluster
    answers. *)
Theorem pods_are_marked meta ops s o t :
  own_names_free →
  ∃ L N,
    L !! "containerssh_connection_id" = Some (connectionID env) ∧
    L !! "containerssh_username" =
      (if decide (String.length (AuthenticatedUsername meta) ≤ 63)%nat then Some (label_safe (AuthenticatedUsername meta)) else None) ∧
    N !! "containerssh_ip" = Some (dashes (client_IP env)) ∧
    wlp (handshake env meta) (s, (o, t)) (λ r w,
      all_marked L N (s, (o, t)) w ∧
      (r.1.1 ≠ None → wlp (range ops (kubernetes_call env)) w (λ _ w', all_marked L N (s, (o, t)) w'))).
Proof.
  intros Hf. destruct (labels_identify meta Hf) as (H1 & H2 & H3).
  exists (labels_of meta), (annotations_of meta). split_and!; [done..|].
  eapply wlp_mono; [apply handshake_marks|]. intros r w [Ha Hm]. split; [done|]. intros Hr.
  eapply wlp_marked; [by apply ok_calls|by apply Hm|exact Ha|]. auto.
Qed.
End handshake.

(** ** Exit codes *)

(** What the client of a session sees of its program. *)
Inductive session_event := Output (stderr : bool) (data : list byte) | OutputClosed | Exited (code : Z).

Section exit.
Context (lib : KubernetesLibrary) (config : KubernetesConfig) (ws : Z → nat).
Abbreviation W := (world (list session_event)).
Implicit Types (s : kubernetes_store) (o : kubernetes_objects) (t : list session_event).

Definition see (ev : session_event) (w : W) : W := (w.1, (w.2.1, w.2.2 ++ [ev]))%list.

(** A session that takes everything. *)
Definition seen : streams W :=
  MkStreams (λ d w, Done (None, see (Output false d) w)) (λ d w, Done (None, see (Output true d) w))
    (λ w, Done (None, see OutputClosed w)) (λ z w, Done (tt, see (Exited z) w)).

Lemma copy_pieces_seen pieces s o t :
  copy_pieces seen true true pieces (s, (o, t)) = Done (tt, (s, (o, t ++ ((λ p, Output p.1 p.2) <$> pieces))))%list.
Proof.
  revert t. induction pieces as [|[[] d] pieces IH]; intros t; cbn [copy_pieces fmap list_fmap]; [by rewrite app_nil_r|..].
  all: unfold prog_bind at 1; cbn [seen st_stdout st_stderr]; rewrite bool_decide_eq_true_2 by done.
  all: unfold see; cbn [fst snd]; by rewrite IH, <- app_assoc.
Qed.

(** The exit code of the console container of a pod, as the cluster answers for it
    within [n] waits; 137 if it does not. *)
Fixpoint fetched (ns name : string) (n : nat) (h : list request) : Z :=
  let again := match n with 0%nat => 137 | S n => fetched ns name n (h ++ [PodGet ns name])%list end in
  match Pods_Get lib h ns name with
  | inl pod => match pod_ContainerStatuses pod !! Z.to_nat (ConsoleContainerNumber (Pod config)) with
               | Some (Some code) => code
               | _ => again
               end
  | inr err => if IsNotFound lib err then 137 else again
  end.

(** The cluster tells the status of every container. *)
Definition tells_statuses : Prop :=
  0 ≤ ConsoleContainerNumber (Pod config) ∧
  ∀ h ns name pod, Pods_Get lib h ns name = inl pod →
    is_Some (pod_ContainerStatuses pod !! Z.to_nat (ConsoleContainerNumber (Pod config))).

Lemma sendExitCode_fetched p k s o t :
  tells_statuses → pods s !! p = Some k →
  let code := fetched (pod_Namespace (kp_pod k)) (pod_Name (kp_pod k)) (ws (PodStop (Kubernetes_Timeouts config))) (history s) in
  ∃ h, sendExitCodeToClient lib config ws p (st_onExit seen) (s, (o, t)) =
    Done (code, (MkKubernetesStore h (pods s) (executions s) (backendRequestsMetric s) (backendFailuresMetric s),
                 (o, t ++ [Exited code])))%list.
Proof.
  intros [H0 Hs] Hk. cbn zeta. unfold sendExitCodeToClient, getExitCode, deadline, retry. rewrite bind_bind.
  rewrite (k_bind_pod_at _ _ k) by done. generalize (ws (PodStop (Kubernetes_Timeouts config))) as n. intros n.
  set (ns := pod_Namespace _). set (name := pod_Name _). clearbody ns name. clear Hk.
  set (round := prog_bind _ (ask _ _)).
  assert (∀ s', ∃ v, round (s', (o, t)) = Done (v, (add_history (PodGet ns name) s', (o, t))) ∧
    ∀ n, fetched ns name n (history s') =
      match v with
      | Return (code, err) => match err with None => code | Some _ => 137 end
      | Again _ => match n with 0%nat => 137 | S n => fetched ns name n (history s' ++ [PodGet ns name])%list end
      end) as Hround.
  { clear s. intros s. unfold round. rewrite k_bind_ask. destruct (Pods_Get lib (history s) ns name) as [pod|err] eqn:E.
    - unfold index. rewrite decide_True by done. destruct (Hs _ _ _ _ E) as [status Hc]. rewrite Hc. cbv iota. rewrite bind_ret.
      eexists. split; [reflexivity|]. intros m. destruct m; cbn [fetched]; rewrite E, Hc; by destruct status.
    - destruct (IsNotFound lib err) eqn:En; (eexists; split; [reflexivity|]); intros m; destruct m; cbn [fetched]; by rewrite E, En. }
  clearbody round. revert s. induction n as [|n IH]; intros s; cbn [retry_loop]; rewrite bind_bind.
  all: destruct (Hround s) as ([[code err]|err] & Hr & Hf); rewrite (bind_done _ _ _ _ _ Hr), Hf; [by eexists; destruct err|].
  - by eexists.
  - destruct (IH (add_history (PodGet ns name) s)) as [h Hl]. exists h. exact Hl.
Qed.

(** The end of a stream: the rest of the output, its end and the exit code. *)
Lemma stream_ends_reports e x k s o t :
  tells_statuses → executions s !! e = Some x → x_exited x = false → pods s !! x_pod x = Some k →
  (pod_Mode (Pod config) = KubernetesExecutionModeConnection → 1 ≤ kp_wg k) →
  let connection := bool_decide (pod_Mode (Pod config) = KubernetesExecutionModeConnection) in
  let fetch := fetched (pod_Namespace (kp_pod k)) (pod_Name (kp_pod k)) (ws (PodStop (Kubernetes_Timeouts config))) (history s) in
  let code :=
    match x_result x with
    | None => if connection then 0 else fetch
    | Some err => default fetch (CodeExitError lib err)
    end in
  ∃ w, stream_ends lib config ws e seen (s, (o, t)) = Done (code, w) ∧
    w.2 = (o, t ++ ((λ p, Output p.1 p.2) <$> x_stream x) ++ [OutputClosed; Exited code])%list ∧
    executions w.1 !! e = Some (set_x_exited x).
Proof.
  intros Ht Hx He Hk Hw. cbn zeta. unfold stream_ends. rewrite (k_bind_exec_at _ _ x) by done.
  rewrite (bind_done _ _ _ _ _ (copy_pieces_seen _ _ _ _)), He, k_bind_update_exec. unfold prog_bind at 1.
  cbn [seen st_closeWrite]. unfold see at 1. cbn [fst snd].
  set (s1 := set_executions _ s). set (t1 := (_ ++ [OutputClosed])%list).
  set (connection := bool_decide _).
  assert (connection = true → 1 ≤ kp_wg k) as Hw' by (intros H%bool_decide_eq_true_1; auto). clear Hw.
  assert (executions s1 !! e = Some (set_x_exited x)) as Hx1 by (cbn; by rewrite list_lookup_alter_eq, Hx).
  assert (pods s1 !! x_pod x = Some k) as Hk1 by done.
  assert (∃ s2, (if connection then wg_Done (x_pod x) else prog_ret tt) (s1, (o, t1)) = Done (tt, (s2, (o, t1))) ∧
    history s2 = history s ∧ executions s2 = executions s1 ∧
    ∃ k2, pods s2 !! x_pod x = Some k2 ∧ kp_pod k2 = kp_pod k) as (s2 & E2 & Hh & Hx2 & k2 & Hk2 & Ek).
  { destruct connection; [|exists s1; split_and!; [done..|by exists k]]. eexists. split.
    { unfold wg_Done. rewrite (k_bind_pod_at _ _ k) by done. rewrite decide_False by (specialize (Hw' eq_refl); lia). reflexivity. } split; [done|]. split; [done|].
    eexists. cbn. rewrite list_lookup_alter_eq, Hk. by split. }
  rewrite (bind_done _ _ _ _ _ E2).
  destruct (sendExitCode_fetched (x_pod x) k2 s2 o t1 Ht Hk2) as [h Hf]. rewrite Ek, Hh in Hf.
  assert (∀ z, (t1 ++ [Exited z] = t ++ ((λ p, Output p.1 p.2) <$> x_stream x) ++ [OutputClosed; Exited z])%list) as Et.
  { intros z. unfold t1. by rewrite <- !app_assoc. }
  destruct (x_result x) as [err|]; [destruct (CodeExitError lib err)|destruct connection].
  all: first [rewrite Hf | unfold prog_bind; cbn [seen st_onExit]; unfold see; cbn [fst snd]].
  all: eexists; split; [reflexivity|]; unfold see; cbn [fst snd executions]; by rewrite Et, ?Hx2.
Qed.
(** *** Output with the agent *)

(** The bytes on one of the two streams. *)
Definition bytes_of (stderr : bool) (pieces : list (bool * list byte)) : list byte :=
  concat ((λ p, p.2) <$> filter (λ p, p.1 = stderr) pieces).

Lemma bytes_of_cons b c d pieces :
  bytes_of b ((c, d) :: pieces) = ((if bool_decide (c = b) then d else []) ++ bytes_of b pieces)%list.
Proof. unfold bytes_of. rewrite filter_cons. cbn [fst]. destruct (decide (c = b)) as [->|H]; [by rewrite bool_decide_eq_true_2|by rewrite bool_decide_eq_false_2]. Qed.

Lemma bytes_of_app b l l' : bytes_of b (l ++ l') = (bytes_of b l ++ bytes_of b l')%list.
Proof. unfold bytes_of. by rewrite filter_app, fmap_app, concat_app. Qed.

Definition events (pieces : list (bool * list byte)) : list session_event := (λ p, Output p.1 p.2) <$> pieces.

(** Before the process ID only the standard error reaches the client. *)
Lemma read_pid_seen tty buf pieces s o t :
  (length buf < threshold tty)%nat →
  let all := (buf ++ bytes_of false pieces)%list in
  if decide (threshold tty ≤ length all)%nat then
    ∃ early rest,
      read_pid seen (MkStdoutProxyWriter false buf tty) true pieces (s, (o, t)) =
        Done (Some (LittleEndian (take 4 all), rest), (s, (o, t ++ events early)))%list ∧
      bytes_of false (early ++ rest) = drop 4 all ∧ bytes_of true (early ++ rest) = bytes_of true pieces
  else ∃ early, read_pid seen (MkStdoutProxyWriter false buf tty) true pieces (s, (o, t)) =
        Done (None, (s, (o, t ++ events early)))%list.
Proof.
  cbn zeta. assert (4 ≤ threshold tty)%nat as H4 by (destruct tty; cbn; lia).
  revert buf t. induction pieces as [|[[] d] pieces IH]; intros buf t Hb; cbn [read_pid].
  - change (bytes_of false []) with (@nil byte). rewrite app_nil_r, decide_False by lia. exists []. by rewrite app_nil_r.
  - unfold prog_bind at 1 2. cbn [seen st_stderr]. rewrite bool_decide_eq_true_2 by done. unfold see. cbn [fst snd].
    rewrite !bytes_of_cons. cbn [bool_decide decide decide_rel].
    change (bool_decide (true = false)) with false. change (bool_decide (true = true)) with true. cbn [app].
    specialize (IH buf (t ++ [Output true d])%list Hb). case_decide as Ha.
    + destruct IH as (early & rest & -> & H1 & H2). exists ((true, d) :: early), rest. split; [by rewrite <- app_assoc|].
      cbn [app]. rewrite !bytes_of_cons, H1, H2. done.
    + destruct IH as (early & ->). exists ((true, d) :: early). by rewrite <- app_assoc.
  - rewrite write_threshold, !bytes_of_cons. change (bool_decide (false = false)) with true.
    change (bool_decide (false = true)) with false. cbn [app]. rewrite app_assoc.
    destruct (decide (threshold tty ≤ length (buf ++ d))%nat) as [Hp|Hp].
    + rewrite decide_True by (rewrite !length_app in *; lia). exists []. eexists.
      split; [by rewrite app_nil_r, (take_app_le (buf ++ d)) by lia|]. cbn [app].
      rewrite !bytes_of_app, (drop_app_le (buf ++ d)) by lia. split.
      all: destruct (drop 4 (buf ++ d)); unfold bytes_of; cbn; repeat case_decide; try done; cbn; by rewrite ?app_nil_r.
    + specialize (IH (buf ++ d)%list t). apply IH. lia.
Qed.

(** Whether the stream of a program has a terminal: in session mode it is the
    console of the pod that is attached to. *)
Definition stream_tty (x : kubernetesExecutionImpl) (k : kubernetesPodImpl) : option bool :=
  if decide (pod_Mode (Pod config) = KubernetesExecutionModeSession) then kp_tty k else Some (x_tty x).

(** The code a program ends with: its own if it failed; if it succeeded, zero
    next to others in its pod and the code of the pod it had for itself; and
    that of the pod, too, when the stream broke. *)
Definition program_code (result : option error) (k : kubernetesPodImpl) (h : list request) : Z :=
  let of_pod := fetched (pod_Namespace (kp_pod k)) (pod_Name (kp_pod k)) (ws (PodStop (Kubernetes_Timeouts config))) h in
  match result with
  | None => if bool_decide (pod_Mode (Pod config) = KubernetesExecutionModeConnection) then 0 else of_pod
  | Some err => default of_pod (CodeExitError lib err)
  end.

(** Claim C24. A program run with the agent, in either mode, against a cluster that tells the
    statuses of its containers: the client gets the output without its first
    four bytes, both streams in order, then the end of the output, then the exit
    code, once: the one of the program or of its pod.  The process ID is the
    number in the four bytes and known from the start.  If the output is too
    short to hold one, which with a terminal takes six bytes, the call never
    returns. *)
Theorem program_output_is_delivered e x k tty pieces result s o t :
  pod_DisableAgent (Pod config) = false →
  tells_statuses → executions s !! e = Some x → x_exited x = false → pods s !! x_pod x = Some k →
  stream_tty x k = Some tty → (pod_Mode (Pod config) = KubernetesExecutionModeConnection → 1 ≤ kp_wg k) →
  Stream lib (history s) (x_request x) tty = MkStream pieces result →
  let out := bytes_of false pieces in
  let code := program_code result k (history s ++ [PodStream (x_request x)])%list in
  if decide (threshold (x_tty x) ≤ length out)%nat then
    ∃ w1 w2 delivered x1,
      run lib config e seen (s, (o, t)) = Done (tt, w1) ∧ stream_ends lib config ws e seen w1 = Done (code, w2) ∧
      executions w1.1 !! e = Some x1 ∧ x_pid x1 = LittleEndian (take 4 out) ∧
      w2.2 = (o, t ++ events delivered ++ [OutputClosed; Exited code])%list ∧
      bytes_of false delivered = drop 4 out ∧ bytes_of true delivered = bytes_of true pieces
  else run lib config e seen (s, (o, t)) = Blocked "pidChannel".
Proof.
  intros Ha Ht Hx He Hk Htty Hw Hs. cbn zeta.
  set (s1 := add_history (PodStream (x_request x)) (inc_requests s)).
  assert (run lib config e seen (s, (o, t)) =
    (let* r := read_pid seen (MkStdoutProxyWriter false [] (x_tty x)) true pieces in
     match r with
     | None => block "pidChannel"
     | Some (pid, rest) => do* update_exec e (set_x_stream rest result) in update_exec e (set_x_pid pid)
     end) (s1, (o, t))) as E.
  { unfold run, start_stream, stream_tty in *. rewrite Ha. repeat k_step. case_decide as Hm.
    - repeat k_step. rewrite Htty. repeat k_step. cbn [history inc_requests]. by rewrite Hs.
    - injection Htty as ->. repeat k_step. cbn [history inc_requests]. by rewrite Hs. }
  pose proof (read_pid_seen (x_tty x) [] pieces s1 o t) as Hr. cbn zeta in Hr. cbn [app length] in Hr. case_decide as Hl.
  - destruct Hr as (early & rest & Hr & H1 & H2); [destruct (x_tty x); cbn; lia|]. rewrite (bind_done _ _ _ _ _ Hr) in E.
    set (x1 := set_x_pid (LittleEndian (take 4 (bytes_of false pieces))) (set_x_stream rest result x)).
    edestruct (ex_intro (λ s2, run lib config e seen (s, (o, t)) = Done (tt, (s2, (o, t ++ events early)%list)) ∧
      executions s2 !! e = Some x1 ∧ pods s2 = pods s ∧ history s2 = (history s ++ [PodStream (x_request x)])%list))
      as (s2 & E2 & Hx2 & Hp2 & Hh2).
    { rewrite E, k_bind_update_exec. split_and!; [reflexivity| |done|done]. cbn. by rewrite !list_lookup_alter_eq, Hx. }
    destruct (stream_ends_reports e x1 k s2 o (t ++ events early)%list) as (w2 & E3 & Hw2 & _);
      [done..|by rewrite Hp2|done|].
    cbn zeta in E3, Hw2. rewrite Hh2 in E3, Hw2. exists (s2, (o, t ++ events early)%list), w2, (early ++ rest)%list, x1.
    split_and!; [done| |done|done| |done|done]; unfold program_code.
    + rewrite E3. subst x1. cbn. by destruct result.
    + rewrite Hw2. subst x1. cbn. unfold events. rewrite fmap_app, <- !app_assoc. by destruct result.
  - destruct Hr as [early Hr]; [destruct (x_tty x); cbn; lia|]. rewrite E, (bind_done _ _ _ _ _ Hr). done.
Qed.
End exit.

(** ** Deviations *)

Section deviations.
Context {T : Type} (env : Surroundings (world T)).
Abbreviation W := (world T).
Implicit Types (s : kubernetes_store) (o : kubernetes_objects) (t : T).

(** A change of the window after the program's stream has ended stops the server
    process: the queue of window sizes is closed, and written to. *)
Theorem window_change_after_exit_panics i c e x columns rows s o t :
  n_mutex (network o) = false → channels o !! i = Some c → ch_exec c = Some e →
  executions s !! e = Some x → x_exited x = true →
  kubernetes_OnWindow env i columns rows (s, (o, t)) = Panic "send on closed channel".
Proof.
  intros Hm Hc He Hx Hex. unfold kubernetes_OnWindow. rewrite k_with_mutex by done.
  repeat k_step. rewrite He. unfold resize, Push. repeat k_step. by rewrite Hex.
Qed.

(** In session mode neither the end of the channel nor that of the connection
    removes the channel's pod. *)
Theorem session_pods_are_left i c e x s o t :
  pod_Mode (Pod (cfg env)) = KubernetesExecutionModeSession →
  n_mutex (network o) = false → n_pod (network o) = None → n_disconnected (network o) = false → n_done (network o) = false →
  channels o !! i = Some c → ch_exec c = Some e → ch_x11 c = false → executions s !! e = Some x → x_exited x = true →
  kubernetes_OnClose env i (s, (o, t)) = Done (tt, (s, (o, t))) ∧
  ∃ o', kubernetes_OnDisconnect env (s, (o, t)) = Done (tt, (s, (o', t))) ∧ n_done (network o') = true.
Proof.
  intros Hmode Hm Hp Hd Hn Hc He Hx11 Hx Hex. split.
  - unfold kubernetes_OnClose. repeat k_step. rewrite He. unfold kill. repeat k_step. rewrite Hex. repeat k_step.
    rewrite Hx11. repeat k_step. by rewrite Hp.
  - unfold kubernetes_OnDisconnect. rewrite k_with_mutex by done. do 2 k_step.
    cbn [network set_network set_n_mutex n_disconnected n_pod n_done]. rewrite Hd, Hp, Hn. repeat k_step.
    eexists. split; reflexivity.
Qed.

(** The requests for a number of pods that do not come up. *)
Definition abandoned ns name (metadata : k8s_ObjectMeta) (spec : k8s_PodSpec) (n : nat) : list request :=
  concat (replicate n [PodCreate metadata spec; PodWatch ns name]).

(** Every round of the retry loop creates a pod of its own; those that did not
    come up in time are forgotten, no request removes them. *)
Theorem unready_pods_are_left pod err podConfig labels annotations environment tty n s o t :
  (∀ h m sp, Pods_Create (library env) h m sp = inl pod) →
  (∀ h ns name f, UntilWithSync (library env) h ns name f = (None, Some err)) →
  getPodConfig (library env) (cfg env) tty [] labels annotations environment (s, (o, t)) = Done (inl podConfig, (s, (o, t))) →
  ∃ e s', createPod (library env) (cfg env) (Deadline n) labels annotations environment tty [] (s, (o, t)) =
      Done (inr e, (s', (o, t))) ∧
    history s' = (history s ++
      abandoned (pod_Namespace pod) (pod_Name pod) (pod_Metadata podConfig) (pod_Spec podConfig) (S n))%list.
Proof.
  intros Hc Hu Hg. unfold createPod. rewrite (bind_done _ _ _ _ _ Hg). cbn [retry]. clear Hg. revert s.
  set (round := prog_bind _ (attemptPodCreate _ _ _)).
  assert (∀ s, ∃ e s', round (s, (o, t)) = Done (Again e, (s', (o, t))) ∧
    history s' = history s ++ abandoned (pod_Namespace pod) (pod_Name pod) (pod_Metadata podConfig) (pod_Spec podConfig) 1)%list as Hr.
  { intros s. unfold round, attemptPodCreate. repeat k_step. rewrite Hc. unfold new_pod, pod_wait. repeat k_step.
    erewrite k_bind_pod_at by (cbn; by rewrite lookup_app_r, Nat.sub_diag by done). repeat k_step. rewrite Hu. repeat k_step.
    eexists _, _. split; [reflexivity|]. cbn. by rewrite <- app_assoc. }
  clearbody round. induction n as [|n IH]; intros s; cbn [retry_loop].
  all: destruct (Hr s) as (e & s1 & E & Hh); rewrite (bind_done _ _ _ _ _ E).
  - by exists (WrapUser (Some e) "KUBERNETES_POD_CREATE_FAILED" UserMessageInitializeSSHSession "Failed to create pod, giving up" []), s1.
  - destruct (IH s1) as (e' & s2 & E2 & Hh2). exists e', s2. split; [done|]. rewrite Hh2, Hh, <- app_assoc. done.
Qed.
End deviations.

(** * Examples

    A cluster whose pods come up at once and whose programs write their process ID
    and a greeting. *)
Module kubernetes_demo.

Definition container : k8s_Container := MkK8sContainer "shell" "image" [] [] false false false 0.

Definition kubernetes (mode : string) : KubernetesConfig :=
  let k := AppConfig.app_demo.kubernetes in
  MkKubernetesConfig (Kubernetes_Connection k)
    (MkKubernetesPodConfig (MkObjectMeta "default" (Some {[ "app" := "demo" ]}) None 0) (MkPodSpec [container] [] "" 0) 0
       ["/bin/sleep"] ["/bin/sh"] "/usr/bin/agent" false ∅ mode ∅ {[ "TEAM" := "team" ]} ∅)
    (Kubernetes_Timeouts k).

Definition pod : core_Pod := MkPod "pod-1" "default" [container] [Some 3] "Running" [("Ready", "True")].

(** Process ID 7 in two pieces, a line on the standard error, and a greeting. *)
Definition output : list (bool * list byte) :=
  [(true, [x21]); (false, [x07; x00]); (false, [x00; x00; x68]); (false, [x69])].

(** The first deletion fails. *)
Fixpoint deletions (h : list request) : nat :=
  match h with [] => 0 | PodDelete _ _ :: h => S (deletions h) | _ :: h => deletions h end.

Definition lib : KubernetesLibrary :=
  MkKubernetesLibrary (λ _, None) (λ _, None) (λ _ _ _, inl pod) (λ _ _ _, inl pod)
    (λ h _ _, if decide (deletions h = 0)%nat then Some (ErrorString "busy") else None)
    (λ _ _ _ _, (Some (MkEvent false (Some pod)), None)) (λ _, None) (λ _ _ _, MkStream output (Some (ErrorString "exit 3")))
    (λ _ _, true) (λ _, false) (ErrorString "not found") (λ err, match err with ErrorString _ => Some 3 | _ => None end) inl.

Abbreviation W := (world (list session_event)).
Definition session : Objects W :=
  MkObjects W (λ r, prog_ret r) (λ r, prog_ret r) (λ r, prog_ret r) (λ _ z, st_onExit seen z) (λ _ _ _ _ _, prog_ret tt)
    (λ _, prog_ret None) (λ _, prog_ret None) (λ _ _, prog_ret ([], None)) (λ _ d, prog_ret (Z.of_nat (length d), None)).

Definition env (mode : string) : Surroundings W :=
  MkSurroundings W lib (kubernetes mode) "id" "10.0.0.1:22" (λ _, 2%nat) (λ _, inl ["/bin/true"]) (λ _ _, None)
    (λ _, ([], None)) (λ _, ([], None)) (λ _, []) session.

Definition meta : ConnectionAuthenticatedMetadata :=
  MkAuthenticated (MkAuthPending (MkConnectionMetadata (MkRemoteAddress [] 0) "id"
    (Some {[ "TEAM" := MkValue "a" false ]}) (Some {[ "LANG" := MkValue "C" false ]}) None) "" "bob") "bob@example".

Definition empty : W := (MkKubernetesStore [] [] [] 0 0, (MkKubernetesObjects (MkNetworkHandler false None false ∅ ∅ false) [] [], [])).

(** A session channel is opened after the handshake. *)
Definition opened (mode : string) : W :=
  match (let* _ := handshake (env mode) meta in kubernetes_call (env mode) (OpSession 0 (Channel meta 0) 5)) empty with
  | Done (_, w) => w
  | _ => empty
  end.

(** ... and a program started in it. *)
Definition started (mode : string) : W :=
  match kubernetes_OnShell (env mode) 0 (opened mode) with Done (_, w) => w | _ => empty end.

(** ... which has ended. *)
Definition ended (mode : string) : W :=
  match program_ends (env mode) 0 (started mode) with Done (_, w) => w | _ => empty end.

Lemma demo_quiet : quiet_session session.
Proof. split; by intros. Qed.

Definition store0 : kubernetes_store := (opened "connection").1.
Definition objects0 : kubernetes_objects := (opened "connection").2.1.

Lemma disconnect_removes_pod_witness :
  ∃ m w, (m ≤ 2)%nat ∧ kubernetes_OnDisconnect (env "connection") (store0, (objects0, [])) = Done (tt, w) ∧
    history w.1 = (history store0 ++ replicate (S m) (PodDelete "default" "pod-1"))%list ∧
    kubernetes_OnDisconnect (env "connection") w = Done (tt, w).
Proof.
  destruct (disconnect_removes_pod (env "connection") 0 (MkKubernetesPod pod None 0 false false) store0 objects0 [])
    as (m & w & H1 & H2 & H3 & _ & H5); [vm_compute; reflexivity..|].
  exists m, w. split_and!; [exact H1|exact H2|exact H3|exact H5].
Defined.

Definition ops : list (kubernetes_op W) := [OpSession 0 (Channel meta 0) 5; OpRequest 0 (ReqShell 1); OpProgramEnds 0; OpClose 0; OpDisconnect].

Lemma pods_are_marked_witness :
  ∃ L N, L !! "containerssh_username" = Some "bob-example" ∧ N !! "containerssh_ip" = Some "10.0.0.1-22" ∧
    wlp (handshake (env "session") meta) empty (λ r w,
      all_marked L N empty w ∧
      (r.1.1 ≠ None → wlp (range ops (kubernetes_call (env "session"))) w (λ _ w', all_marked L N empty w'))).
Proof.
  destruct (pods_are_marked (env "session") demo_quiet meta ops empty.1 empty.2.1 []) as (L & N & _ & H2 & H3 & H4).
  { split_and!; intros k; [change (({[ "TEAM" := "team" ]} : gmap string string) !! k ≠ Some "containerssh_connection_id")
    |change (({[ "TEAM" := "team" ]} : gmap string string) !! k ≠ Some "containerssh_username")|done].
    all: rewrite lookup_singleton_Some; naive_solver. }
  exists L, N. split_and!; [exact H2|exact H3|exact H4].
Defined.

(** The program as it is before it runs. *)
Definition created : W :=
  match createExec lib (kubernetes "connection") 0 ["/bin/sh"] ∅ false (opened "connection") with
  | Done (_, w) => w
  | _ => empty
  end.

Lemma demo_tells mode : tells_statuses lib (kubernetes mode).
Proof. split; [done|]. intros h ns name p [= <-]. by eexists. Qed.

Lemma program_output_is_delivered_witness :
  ∃ w1 w2 delivered, run lib (kubernetes "connection") 0 seen (created.1, (created.2.1, [])) = Done (tt, w1) ∧
    stream_ends lib (kubernetes "connection") (λ _, 2%nat) 0 seen w1 = Done (3, w2) ∧
    w2.2.2 = (events delivered ++ [OutputClosed; Exited 3])%list ∧
    bytes_of false delivered = [x68; x69] ∧ bytes_of true delivered = [x21].
Proof.
  pose proof (program_output_is_delivered lib (kubernetes "connection") (λ _, 2%nat) 0
    (default (MkKubernetesExecution 0 (PodAttach "" "" "" false) false 0 false false [] None Internal) (executions created.1 !! 0%nat))
    (default (MkKubernetesPod pod None 0 false false) (pods created.1 !! 0%nat)) false output (Some (ErrorString "exit 3"))
    created.1 created.2.1 []) as H.
  cbn zeta in H. rewrite decide_True in H by (vm_compute; lia).
  destruct H as (w1 & w2 & l & x1 & H1 & H2 & _ & _ & H3 & H4 & H5);
    [reflexivity|apply demo_tells|vm_compute; reflexivity..|intros _; vm_compute; done|vm_compute; reflexivity|].
  exists w1, w2, l. split_and!; [exact H1|exact H2|by rewrite H3|exact H4|exact H5].
Defined.

(** A cluster in which no pod becomes ready. *)
Definition slow : KubernetesLibrary :=
  MkKubernetesLibrary (λ _, None) (λ _, None) (λ _ _ _, inl pod) (λ _ _ _, inl pod) (λ _ _ _, None)
    (λ _ _ _ _, (None, Some (ErrorString "timeout"))) (λ _, None) (λ _ _ _, MkStream [] None)
    (λ _ _, true) (λ _, false) (ErrorString "not found") (λ _, None) inl.

Definition slow_env : Surroundings W :=
  MkSurroundings W slow (kubernetes "connection") "id" "10.0.0.1:22" (λ _, 2%nat) (λ _, inl ["/bin/true"]) (λ _ _, None)
    (λ _, ([], None)) (λ _, ([], None)) (λ _, []) session.

Definition slow_config : outcome ((KubernetesPodConfig + error) * W) := getPodConfig slow (kubernetes "connection") None [] ∅ ∅ ∅ empty.

(** Three pods are left. *)
Lemma unready_pods_are_left_witness :
  ∃ podConfig e s', createPod slow (kubernetes "connection") (Deadline 2) ∅ ∅ ∅ None [] empty = Done (inr e, (s', empty.2)) ∧
    history s' = abandoned "default" "pod-1" (pod_Metadata podConfig) (pod_Spec podConfig) 3.
Proof.
  destruct slow_config as [[[podConfig|e] w]|?|?] eqn:E; [|vm_compute in E; discriminate..].
  exists podConfig.
  destruct (unready_pods_are_left slow_env pod (ErrorString "timeout") podConfig ∅ ∅ ∅ None 2 empty.1 empty.2.1 empty.2.2)
    as (e & s' & H1 & H2); [done|done| |].
  { assert (w = empty) as -> by (vm_compute in E; injection E as _ <-; reflexivity). exact E. }
  exists e, s'. split; [exact H1|exact H2].
Defined.

(** Nothing keeps a client from starting a second program in a channel. *)
Example second_program_is_started :
  (let* a := kubernetes_OnShell (env "connection") 0 in
   let* b := kubernetes_OnShell (env "connection") 0 in prog_ret (a, b)) (opened "connection") =
  match (let* _ := kubernetes_OnShell (env "connection") 0 in kubernetes_OnShell (env "connection") 0) (opened "connection") with
  | Done (_, w) => Done ((None, None), w)
  | _ => panic "" empty
  end.
Proof. vm_compute. reflexivity. Qed.
End kubernetes_demo.
