(* ===== verification/SSHProxy.v ===== *)
(** * The SSH proxy backend

    [internal/sshproxy/New.go], [networkConnectionHandler.go],
    [sshConnectionHandler.go] and [sshChannelHandler.go]: a connection is handed on
    to another SSH server, over which the model makes no assumption. *)

From stdpp Require Import base gmap strings list.
From Stdlib Require Import Strings.Byte.
From S2P Require Import Prelude Messages Metadata Handler GoStrings ConfigHTTP ConfigSSH Requests.

Local Open Scope Z_scope.

(** ** What is sent to the backend *)

(** The payloads handed to [ssh.Marshal]; [RawPayload]: bytes that are passed on. *)
Inductive payload :=
| RawPayload (data : list byte)
| envRequestPayload (Name Value : string)
| ptyRequestPayload (Term : string) (Columns Rows Width Height : Z) (ModeList : list byte)
| execRequestPayload (Exec : string)
| subsystemRequestPayload (Subsystem : string)
| signalRequestPayload (Signal : string)
| windowRequestPayload (Columns Rows Width Height : Z)
| X11RequestPayload (SingleConnection : bool) (Protocol Cookie : string) (Screen : Z)
| ForwardTCPIPRequestPayload (Address : string) (Port : Z)
| ForwardTCPChannelOpenPayload (ConnectedAddress : string) (ConnectedPort : Z) (OriginatorAddress : string) (OriginatorPort : Z)
| DirectStreamLocalChannelOpenPayload (SocketPath Reserved1 : string) (Reserved2 : Z)
| StreamLocalForwardRequestPayload (SocketPath : string).

(** [ssh.ClientConfig] without the host key callback. *)
Record ssh_ClientConfig := MkClientConfig {
  cl_KeyExchanges : list string;
  cl_Ciphers : list string;
  cl_MACs : list string;
  cl_User : string;
  cl_Password : string;
  cl_PrivateKey : option nat;
  cl_ClientVersion : string;
  cl_HostKeyAlgorithms : list string;
  cl_Timeout : Z;
}.

(** Calls of the network and SSH libraries; connections of the proxy are numbered,
    channels are what the library returned for them. *)
Inductive backend_call :=
| TCPDial (target : string)
| SSHConnect (target : string) (config : ssh_ClientConfig)
| TCPClose
| OpenChannel (conn : nat) (type : string) (p : payload)
| GlobalRequest (conn : nat) (name : string) (p : payload)
| ChannelRequest (channel : nat) (name : string) (p : payload)
| ChannelWrite (channel : nat) (data : list byte)
| ChannelCloseWrite (channel : nat)
| ChannelClose (channel : nat)
| ChannelAccept (id : nat)
| ChannelReject (id : nat)
| RequestReply (ok : bool) (data : list byte).

(** What the backend sends. *)
Record ssh_Request := MkRequest { rq_Type : string; rq_WantReply : bool; rq_Payload : list byte }.
Record ssh_NewChannel := MkNewChannel { nc_id : nat; nc_ChannelType : string; nc_ExtraData : list byte }.

Record exitSignalPayload := MkExitSignal {
  es_Signal : string;
  es_CoreDumped : bool;
  es_ErrorMessage : string;
  es_LanguageTag : string;
}.

(** The libraries: the backend answers by everything it was asked before.
    [as_OpenChannelError] is [errors.As] with the reasons that have a name.  What
    [ssh.Unmarshal] has read is also there if it failed. *)
Record ProxyLibrary := MkProxyLibrary {
  net_Dial : list backend_call → string → option error;
  NewClientConn : list backend_call → ssh_ClientConfig → (list byte → option error) → option error;
  FingerprintSHA256 : list byte → string;
  conn_OpenChannel : list backend_call → nat → string → payload → nat + error;
  conn_SendRequest : list backend_call → nat → string → payload → bool + error;
  channel_SendRequest : list backend_call → nat → string → payload → bool + error;
  channel_Write : list backend_call → nat → list byte → option error;
  newChannel_Accept : list backend_call → nat → nat + error;
  as_OpenChannelError : error → option (RejectionReason * string);
  Unmarshal_exitStatus : list byte → Z * option error;
  Unmarshal_exitSignal : list byte → exitSignalPayload * option error;
  Unmarshal_ForwardTCP : list byte → (string * Z * string * Z) * option error;
  Unmarshal_StreamLocal : list byte → string * option error;
  Unmarshal_X11 : list byte → (string * Z) * option error;
}.

(** ** Objects *)

(** [lock] is held while [OnDisconnect] waits; the other methods hold it for a few
    assignments, or while they call the backend. *)
Record proxy_network := MkProxyNetwork {
  pn_lock : bool;
  pn_wg : Z;
  pn_tcpConn : bool;
  pn_disconnected : bool;
  pn_done : bool;
}.

(** The reverse handler is a reference. *)
Record proxy_connection := MkProxyConnection { pc_reverseHandler : option nat }.

(** [outWg] counts the two output streams of a program. *)
Record sshChannelHandler := MkSSHChannelHandler {
  px_backingChannel : nat;
  px_session : SessionChannel;
  px_started : bool;
  px_done : bool;
  px_exited : bool;
  px_outWg : Z;
}.

(** A forward: the channel to the client, the channel to the backend, and whether
    they have been closed. *)
Record proxy_forward := MkProxyForward {
  pf_client : option ForwardChannel;
  pf_server : option nat;
  pf_closed : bool;
}.

Record proxy_store := MkProxyStore {
  px_history : list backend_call;
  px_network : proxy_network;
  px_connections : list proxy_connection;
  px_channels : list sshChannelHandler;
  px_forwards : list proxy_forward;
  px_requestsMetric : Z;
  px_failuresMetric : list string;
}.

Definition px_add_call (c : backend_call) (s : proxy_store) :=
  MkProxyStore (px_history s ++ [c]) (px_network s) (px_connections s) (px_channels s) (px_forwards s)
    (px_requestsMetric s) (px_failuresMetric s).
Definition px_set_network (n : proxy_network) (s : proxy_store) :=
  MkProxyStore (px_history s) n (px_connections s) (px_channels s) (px_forwards s) (px_requestsMetric s) (px_failuresMetric s).
Definition px_set_connections (l : list proxy_connection) (s : proxy_store) :=
  MkProxyStore (px_history s) (px_network s) l (px_channels s) (px_forwards s) (px_requestsMetric s) (px_failuresMetric s).
Definition px_set_channels (l : list sshChannelHandler) (s : proxy_store) :=
  MkProxyStore (px_history s) (px_network s) (px_connections s) l (px_forwards s) (px_requestsMetric s) (px_failuresMetric s).
Definition px_set_forwards (l : list proxy_forward) (s : proxy_store) :=
  MkProxyStore (px_history s) (px_network s) (px_connections s) (px_channels s) l (px_requestsMetric s) (px_failuresMetric s).
Definition px_inc_requests (s : proxy_store) :=
  MkProxyStore (px_history s) (px_network s) (px_connections s) (px_channels s) (px_forwards s) (px_requestsMetric s + 1) (px_failuresMetric s).
Definition px_inc_failures (failure : string) (s : proxy_store) :=
  MkProxyStore (px_history s) (px_network s) (px_connections s) (px_channels s) (px_forwards s) (px_requestsMetric s) (px_failuresMetric s ++ [failure]).

Definition pn_set_wg (n : Z) (w : proxy_network) := MkProxyNetwork (pn_lock w) n (pn_tcpConn w) (pn_disconnected w) (pn_done w).
Definition pn_set_tcpConn (w : proxy_network) := MkProxyNetwork (pn_lock w) (pn_wg w) true (pn_disconnected w) (pn_done w).
Definition pn_set_done (w : proxy_network) := MkProxyNetwork (pn_lock w) (pn_wg w) (pn_tcpConn w) true true.

Definition px_set_started (c : sshChannelHandler) :=
  MkSSHChannelHandler (px_backingChannel c) (px_session c) true (px_done c) (px_exited c) 2.
Definition px_set_exited (c : sshChannelHandler) :=
  MkSSHChannelHandler (px_backingChannel c) (px_session c) (px_started c) true true (px_outWg c).
Definition px_set_outWg (n : Z) (c : sshChannelHandler) :=
  MkSSHChannelHandler (px_backingChannel c) (px_session c) (px_started c) (px_done c) (px_exited c) n.

(** ** The surroundings

    [px_waits]: how often the loop that connects waits within a timeout.
    [px_reference] and [px_reverse_at]: a reverse handler as a reference.
    [px_private_key]: the signer [New] has loaded. *)
Record ProxySurroundings (W : Type) := MkProxySurroundings {
  px_library : ProxyLibrary;
  px_config : SSHProxyConfig;
  px_private_key : option nat;
  px_waits : Z → nat;
  px_reference : ReverseForward W → nat;
  px_reverse_at : nat → ReverseForward W;
  px_objects : Objects W;
}.

Arguments px_library {W} _.
Arguments px_config {W} _.
Arguments px_private_key {W} _.
Arguments px_waits {W} _ _.
Arguments px_reference {W} _ _.
Arguments px_reverse_at {W} _ _.
Arguments px_objects {W} _.

Section proxy.
Context {W : Type} `{!Field W proxy_store}.
Context (env : ProxySurroundings W).

Abbreviation call A := (prog W A).
Abbreviation lib := (px_library env).
Abbreviation config := (px_config env).

Definition px_store : call proxy_store := λ w, Done (fget w, w).
Definition px_update (f : proxy_store → proxy_store) : call unit := λ w, Done (tt, fset (f (fget w)) w).

(** A call of the libraries: it is recorded, and answered by the calls before. *)
Definition px_ask {A} (c : backend_call) (answer : list backend_call → A) : call A :=
  let* s := px_store in
  do* px_update (px_add_call c) in
  prog_ret (answer (px_history s)).
Definition px_tell (c : backend_call) : call unit := px_ask c (λ _, tt).

Definition px_net : call proxy_network := let* s := px_store in prog_ret (px_network s).
Definition px_update_net (f : proxy_network → proxy_network) : call unit :=
  px_update (λ s, px_set_network (f (px_network s)) s).
Definition px_connection_at (i : nat) : call proxy_connection :=
  let* s := px_store in match px_connections s !! i with Some c => prog_ret c | None => panic nil_pointer end.
Definition px_channel_at (i : nat) : call sshChannelHandler :=
  let* s := px_store in match px_channels s !! i with Some c => prog_ret c | None => panic nil_pointer end.
Definition px_update_channel (i : nat) (f : sshChannelHandler → sshChannelHandler) : call unit :=
  px_update (λ s, px_set_channels (alter f i (px_channels s)) s).

(** [networkHandler.lock.Lock()] *)
Definition px_locked {A} (body : call A) : call A :=
  let* n := px_net in if pn_lock n then block "sync.Mutex.Lock" else body.

Definition px_wg_Done : call unit :=
  let* n := px_net in
  if decide (pn_wg n - 1 < 0) then panic "sync: negative WaitGroup counter" else px_update_net (pn_set_wg (pn_wg n - 1)).

(** ** The network connection *)

Definition proxy_no_authentication (meta : ConnectionAuthPendingMetadata)
  : call (AuthResponse * ConnectionAuthenticatedMetadata * option error) :=
  prog_ret (AuthResponseUnavailable, AuthFailed meta, Some (Errorf "ssh proxy does not support authentication" [])).

Definition proxy_target : string := Sprintf "%s:%d" [VString (px_Server config); VInt (px_Port config)].

Definition connection_failed (lastError : error) (text : string) : error :=
  WrapUser (Some lastError) "SSHPROXY_BACKEND_FAILED" "service currently unavailable" text [].

Definition createBackendTCPConnection (target : string) : call (option error) :=
  retry (Deadline (px_waits env (px_Timeout config)))
    (let* lastError := px_ask (TCPDial target) (λ h, net_Dial lib h target) in
     match lastError with
     | None => prog_ret (Return None)
     | Some lastError => do* px_update (px_inc_failures "tcp") in prog_ret (Again lastError)
     end)
    (λ lastError, prog_ret (Some (connection_failed lastError "connection to SSH backend failed, giving up"))).

Definition HostKeyCallback (key : list byte) : option error :=
  let fingerprint := FingerprintSHA256 lib key in
  if decide (fingerprint ∈ px_AllowedHostKeyFingerprints config) then None
  else Some (MsgError (Label "fingerprint" (VString fingerprint)
               (UserMessage "SSHPROXY_INVALID_FINGERPRINT" "SSH service currently unavailable"
                  "invalid host key fingerprint: %s" [VString fingerprint]))).

Definition createClientConfig (username : string) : ssh_ClientConfig :=
  let username := if negb (px_UsernamePassThrough config) then px_Username config else username in
  MkClientConfig (px_KexAlgorithms config) (px_Ciphers config) (px_MACs config) username (px_Password config)
    (px_private_key env) (px_ClientVersion config) (px_HostKeyAlgorithms config) (px_Timeout config).

Definition createBackendSSHConnection (username : string) : call (option error) :=
  do* px_update px_inc_requests in
  let* err := createBackendTCPConnection proxy_target in
  match err with
  | Some err => prog_ret (Some err)
  | None =>
      do* px_update_net pn_set_tcpConn in
      let sshClientConfig := createClientConfig username in
      let* err := px_ask (SSHConnect proxy_target sshClientConfig)
                    (λ h, NewClientConn lib h sshClientConfig HostKeyCallback) in
      match err with
      | Some err =>
          do* px_update (px_inc_failures "handshake") in
          prog_ret (Some (error_Label "backend" (VString proxy_target)
            (WrapUser (Some err) "SSHPROXY_BACKEND_HANDSHAKE_FAILED" "SSH service is currently unavailable."
               "Failed to authenticate with the backend." [])))
      | None => prog_ret None
      end
  end.

(** [OnHandshakeSuccess]; the result is the new connection. *)
Definition proxy_handshake (meta : ConnectionAuthenticatedMetadata) : call (option nat * option error) :=
  px_locked
    (let* n := px_net in
     if pn_disconnected n then
       prog_ret (None, Some (MsgError (NewMessage "SSHPROXY_DISCONNECTED"
         "could not connect to backend because the user already disconnected" [])))
     else
       let* err := createBackendSSHConnection (Username (auth_pending meta)) in
       match err with
       | Some err => prog_ret (None, Some err)
       | None =>
           let* s := px_store in
           do* px_update (px_set_connections (px_connections s ++ [MkProxyConnection None])) in
           prog_ret (Some (length (px_connections s)), None)
       end).

(** The lock is held while the sessions are waited for. *)
Definition proxy_OnDisconnect : call unit :=
  px_locked
    (let* n := px_net in
     if decide (pn_wg n ≠ 0) then block "sync.WaitGroup.Wait"
     else
       do* px_update_net pn_set_done in
       if pn_tcpConn n then px_tell TCPClose else prog_ret tt).

(** ** Session channels *)

(** [sendRequest]; the reply of the backend is always asked for. *)
Definition sendRequest (channel : nat) (name : string) (p : payload) : call (option error) :=
  let* r := px_ask (ChannelRequest channel name p) (λ h, channel_SendRequest lib h channel name p) in
  prog_ret
    match r with
    | inr err => Some (WrapUser (Some err) "SSHPROXY_BACKEND_REQUEST_FAILED" "Cannot complete request."
                         "Sending a %s request to the backend resulted in an error." [VString name])
    | inl false => Some (MsgError (UserMessage "SSHPROXY_BACKEND_REQUEST_FAILED" "Cannot complete request."
                         "Sending a %s request resulted in a rejection from the backend." [VString name]))
    | inl true => None
    end.

Definition already_started (text explanation : string) : option error :=
  Some (MsgError (UserMessage "SSHPROXY_PROGRAM_ALREADY_STARTED" text explanation [])).
Definition not_started (text explanation : string) : option error :=
  Some (MsgError (UserMessage "SSHPROXY_PROGRAM_NOT_STARTED" text explanation [])).

(** [streamStdio]: the streams start; they are copied by the definitions below. *)
Definition streamStdio (i : nat) : call (option error) :=
  let* c := px_channel_at i in
  if px_started c then
    prog_ret (already_started "Cannot start new program after program has started."
                "Client tried to start a program after the program was already started.")
  else do* px_update_channel i px_set_started in prog_ret None.

Definition proxy_OnEnvRequest (i : nat) (name val : string) : call (option error) :=
  let* c := px_channel_at i in
  if px_started c then
    prog_ret (already_started "Cannot set environment variable after program has started."
                "Client tried to set environment variables after the program was already started.")
  else sendRequest (px_backingChannel c) "env" (envRequestPayload name val).

Definition proxy_OnPtyRequest (i : nat) (term : string) (columns rows width height : Z) (modeList : list byte)
  : call (option error) :=
  let* c := px_channel_at i in
  if px_started c then
    prog_ret (already_started "Cannot request PTY after program has started."
                "Client tried request PTY after the program was already started.")
  else sendRequest (px_backingChannel c) "pty-req" (ptyRequestPayload term columns rows width height modeList).

Definition second_program : option error :=
  already_started "Cannot start a program after another program has started."
    "Client tried start a second program after the program was already started.".

Definition proxy_OnExecRequest (i : nat) (program : string) : call (option error) :=
  let* c := px_channel_at i in
  if px_started c then prog_ret second_program
  else
    let* err := sendRequest (px_backingChannel c) "exec" (execRequestPayload program) in
    match err with Some _ => prog_ret err | None => streamStdio i end.

Definition proxy_OnShell (i : nat) : call (option error) :=
  let* c := px_channel_at i in
  if px_started c then prog_ret second_program
  else
    let* err := sendRequest (px_backingChannel c) "shell" (RawPayload []) in
    match err with Some _ => prog_ret err | None => streamStdio i end.

Definition proxy_OnSubsystem (i : nat) (subsystem : string) : call (option error) :=
  let* c := px_channel_at i in
  if px_started c then prog_ret second_program
  else
    let* err := sendRequest (px_backingChannel c) "subsystem" (subsystemRequestPayload subsystem) in
    match err with Some _ => prog_ret err | None => streamStdio i end.

Definition proxy_OnSignal (i : nat) (sig : string) : call (option error) :=
  let* c := px_channel_at i in
  if negb (px_started c) then
    prog_ret (not_started "Cannot signal before program has started."
                "Client tried send a signal before the program was started.")
  else sendRequest (px_backingChannel c) "signal" (signalRequestPayload sig).

Definition proxy_OnWindow (i : nat) (columns rows width height : Z) : call (option error) :=
  let* c := px_channel_at i in
  if negb (px_started c) then
    prog_ret (not_started "Cannot resize window before program has started."
                "Client tried request a window change before the program was started.")
  else
    let* err := sendRequest (px_backingChannel c) "window-change" (windowRequestPayload columns rows width height) in
    prog_ret match err with
             | Some _ => Some (WrapUser err "SSHPROXY_BACKEND_WINDOW_CHANGE_FAILED" "Cannot change window size."
                 "ContainerSSH cannot change the window size because of an error on the backend connection." [])
             | None => None
             end.

(** The reverse handler is not kept. *)
Definition proxy_OnX11Request (i : nat) (singleConnection : bool) (protocol cookie : string) (screen : Z) : call (option error) :=
  let* c := px_channel_at i in
  let* err := sendRequest (px_backingChannel c) "x11-req" (X11RequestPayload singleConnection protocol cookie screen) in
  prog_ret match err with
           | Some _ => Some (WrapUser err "SSHPROXY_X11_FAILED" "Error requesting X11 forwarding"
               "ContainerSSH cannot enable X11 forwarding because of an error on the backend connection" [])
           | None => None
           end.

Definition proxy_OnClose (i : nat) : call unit :=
  let* c := px_channel_at i in
  do* (if negb (px_started c) then px_tell (ChannelClose (px_backingChannel c)) else prog_ret tt) in
  do* px_tell (ChannelClose (px_backingChannel c)) in
  do* (if px_done c then panic "close of closed channel" else px_update_channel i px_set_exited) in
  px_wg_Done.

(** [OnShutdown] waits for the end of the shutdown context or of the channel. *)
Definition proxy_OnShutdown (i : nat) : call unit :=
  let* c := px_channel_at i in
  let* _ := sendRequest (px_backingChannel c) "signal" (signalRequestPayload "TERM") in
  let* c := px_channel_at i in
  if px_done c then prog_ret tt
  else if px_exited c then prog_ret tt
  else
    let* err := sendRequest (px_backingChannel c) "signal" (signalRequestPayload "KILL") in
    match err with
    | Some _ => px_tell (ChannelClose (px_backingChannel c))
    | None => prog_ret tt
    end.

(** *** The streams of a program

    [io.Copy] of what is read until the end of the stream, up to the first error of
    the writer. *)
Fixpoint copy_to_backend (channel : nat) (chunks : list (list byte)) : call unit :=
  match chunks with
  | [] => prog_ret tt
  | data :: chunks =>
      let* err := px_ask (ChannelWrite channel data) (λ h, channel_Write lib h channel data) in
      match err with Some _ => prog_ret tt | None => copy_to_backend channel chunks end
  end.

Fixpoint copy_to_client (ref : nat) (chunks : list (list byte)) : call unit :=
  match chunks with
  | [] => prog_ret tt
  | data :: chunks =>
      let* '(_, err) := obj_Write (px_objects env) ref data in
      match err with Some _ => prog_ret tt | None => copy_to_client ref chunks end
  end.

(** The end of the input closes the backing channel, not only its input. *)
Definition streamStdin (i : nat) (chunks : list (list byte)) : call unit :=
  let* c := px_channel_at i in
  do* copy_to_backend (px_backingChannel c) chunks in
  do* px_tell (ChannelCloseWrite (px_backingChannel c)) in
  px_tell (ChannelClose (px_backingChannel c)).

Definition outWg_Done (i : nat) : call unit :=
  let* c := px_channel_at i in
  if decide (px_outWg c - 1 < 0) then panic "sync: negative WaitGroup counter"
  else px_update_channel i (px_set_outWg (px_outWg c - 1)).

Definition streamStdout (i : nat) (chunks : list (list byte)) : call unit :=
  let* c := px_channel_at i in
  let* stdout := obj_Stdout (px_objects env) (px_session c) in
  do* copy_to_client stdout chunks in
  outWg_Done i.

Definition streamStderr (i : nat) (chunks : list (list byte)) : call unit :=
  let* c := px_channel_at i in
  let* stderr := obj_Stderr (px_objects env) (px_session c) in
  do* copy_to_client stderr chunks in
  outWg_Done i.

Definition closeOnOutputComplete (i : nat) : call unit :=
  let* c := px_channel_at i in
  if decide (px_outWg c ≠ 0) then block "sync.WaitGroup.Wait"
  else let* _ := obj_CloseWrite (px_objects env) (px_session c) in prog_ret tt.

(** *** Requests of the backend on a session channel *)

Definition reply_if_wanted (r : ssh_Request) (ok : bool) (data : list byte) : call unit :=
  if rq_WantReply r then px_tell (RequestReply ok data) else prog_ret tt.

Definition failed_to_decode : list byte := String.list_byte_of_string "Failed to decode message.".

Definition handleExitStatusFromBackend (r : ssh_Request) (session : SessionChannel) : call unit :=
  match Unmarshal_exitStatus lib (rq_Payload r) with
  | (_, Some _) => reply_if_wanted r false failed_to_decode
  | (exitStatus, None) =>
      do* obj_ExitStatus (px_objects env) session exitStatus in
      reply_if_wanted r true []
  end.

Definition handleExitSignalFromBackend (r : ssh_Request) (session : SessionChannel) : call unit :=
  match Unmarshal_exitSignal lib (rq_Payload r) with
  | (_, Some _) => reply_if_wanted r false []
  | (p, None) =>
      do* obj_ExitSignal (px_objects env) session (es_Signal p) (es_CoreDumped p) (es_ErrorMessage p) (es_LanguageTag p) in
      reply_if_wanted r true []
  end.

(** The loop over the requests until the backend closes the channel; it ends when
    the client has closed the session. *)
Fixpoint handleBackendClientRequests (i : nat) (requests : list ssh_Request) : call unit :=
  let* c := px_channel_at i in
  if px_done c then prog_ret tt
  else
    match requests with
    | [] => let* _ := obj_Close (px_objects env) (px_session c) in prog_ret tt
    | r :: requests =>
        do* (if decide (rq_Type r = "exit-status") then handleExitStatusFromBackend r (px_session c)
             else if decide (rq_Type r = "exit-signal") then handleExitSignalFromBackend r (px_session c)
             else reply_if_wanted r false []) in
        handleBackendClientRequests i requests
    end.

Definition proxy_channelHandler (i : nat) : SessionChannelHandler W :=
  {| OnUnsupportedChannelRequest := λ _ _ _, prog_ret tt;
     OnFailedDecodeChannelRequest := λ _ _ _ _, prog_ret tt;
     OnEnvRequest := λ _ name val, proxy_OnEnvRequest i name val;
     OnPtyRequest := λ _ term columns rows width height modeList, proxy_OnPtyRequest i term columns rows width height modeList;
     OnX11Request := λ _ single protocol cookie screen _, proxy_OnX11Request i single protocol cookie screen;
     OnExecRequest := λ _ program, proxy_OnExecRequest i program;
     OnShell := λ _, proxy_OnShell i;
     OnSubsystem := λ _ subsystem, proxy_OnSubsystem i subsystem;
     OnSignal := λ _ sig, proxy_OnSignal i sig;
     OnWindow := λ _ columns rows width height, proxy_OnWindow i columns rows width height;
     OnClose := proxy_OnClose i;
     OnShutdown := λ _, proxy_OnShutdown i |}.

(** ** The SSH connection *)

(** How a channel the backend did not open is refused. *)
Definition open_rejection (code user : string) (err : error) : ChannelRejection :=
  match as_OpenChannelError lib err with
  | Some (reason, text) =>
      NewChannelRejection reason code text "Backend rejected channel with message: %s" [VString text]
  | None =>
      NewChannelRejection ConnectionFailed code user "Backend rejected channel with message: %s" [VString (Error err)]
  end.

Definition open_channel (conn : nat) (type : string) (p : payload) : call (nat + error) :=
  px_ask (OpenChannel conn type p) (λ h, conn_OpenChannel lib h conn type p).

Definition closing (user explanation : string) : ChannelRejection :=
  NewChannelRejection ConnectionFailed "SSHPROXY_SHUTTING_DOWN" user explanation [].

(** The part under the lock: whether the connection is open; a session or forward
    is counted. *)
Definition px_register : call bool :=
  px_locked
    (let* n := px_net in
     if pn_done n then prog_ret false
     else do* px_update_net (pn_set_wg (pn_wg n + 1)) in prog_ret true).

Definition proxy_OnSessionChannel (conn : nat) (extraData : list byte) (session : SessionChannel)
  : call (option (SessionChannelHandler W) * option ChannelRejection) :=
  let* open := px_register in
  if negb open then
    prog_ret (None, Some (closing "Cannot open session." "Rejected new session because connection is closing."))
  else
    let* r := open_channel conn "session" (RawPayload extraData) in
    match r with
    | inr err =>
        do* px_wg_Done in
        prog_ret (None, Some (open_rejection "SSHPROXY_BACKEND_SESSION_FAILED" "Cannot open session." err))
    | inl backingChannel =>
        let* s := px_store in
        do* px_update (px_set_channels (px_channels s ++ [MkSSHChannelHandler backingChannel session false false false 0])) in
        prog_ret (Some (proxy_channelHandler (length (px_channels s))), None)
    end.

(** The wait group is not told when a forward ends, or was not opened. *)
Definition proxy_OnTCPForwardChannel (conn : nat) (hostToConnect : string) (portToConnect : Z) (originatorHost : string)
    (originatorPort : Z) : call (option ForwardChannel * option ChannelRejection) :=
  let* open := px_register in
  if negb open then
    prog_ret (None, Some (closing "Cannot open forward." "Rejected new forwarding because connection is closing."))
  else
    let* r := open_channel conn "direct-tcpip"
                (ForwardTCPChannelOpenPayload hostToConnect portToConnect originatorHost originatorPort) in
    prog_ret match r with
             | inr err => (None, Some (open_rejection "SSHPROXY_BACKEND_FORWARD_FAILED" "Cannot open session." err))
             | inl backingChannel => (Some backingChannel, None)
             end.

Definition proxy_OnDirectStreamLocal (conn : nat) (path : string) : call (option ForwardChannel * option ChannelRejection) :=
  let* r := open_channel conn "direct-streamlocal@openssh.com" (DirectStreamLocalChannelOpenPayload path "" 0) in
  prog_ret match r with
           | inr err => (None, Some (open_rejection "SSHPROXY_BACKEND_FORWARD_FAILED" "Cannot open session." err))
           | inl backingChannel => (Some backingChannel, None)
           end.

(** A global request of the client that is handed on. *)
Definition forward_request (conn : nat) (name : string) (p : payload) (refused : string) : call (option error) :=
  let* r := px_ask (GlobalRequest conn name p) (λ h, conn_SendRequest lib h conn name p) in
  prog_ret match r with
           | inr err => Some err
           | inl false => Some (MsgError (NewMessage "SSHPROXY_BACKEND_REQUEST_FAILED" refused []))
           | inl true => None
           end.

(** The first reverse handler of a connection is kept. *)
Definition keep_reverse_handler (conn : nat) (reverseHandler : ReverseForward W) : call unit :=
  let* c := px_connection_at conn in
  match pc_reverseHandler c with
  | Some _ => prog_ret tt
  | None =>
      px_update (λ s, px_set_connections
        (<[conn := MkProxyConnection (Some (px_reference env reverseHandler))]> (px_connections s)) s)
  end.

Definition proxy_OnRequestTCPReverseForward (conn : nat) (bindHost : string) (bindPort : Z) (reverseHandler : ReverseForward W)
  : call (option error) :=
  let* err := forward_request conn "tcpip-forward" (ForwardTCPIPRequestPayload bindHost bindPort)
                "Failed to request forwarding because the backing SSH server rejected the request" in
  match err with
  | Some _ => prog_ret err
  | None => do* keep_reverse_handler conn reverseHandler in prog_ret None
  end.

Definition proxy_OnRequestCancelTCPReverseForward (conn : nat) (bindHost : string) (bindPort : Z) : call (option error) :=
  forward_request conn "cancel-tcpip-forward" (ForwardTCPIPRequestPayload bindHost bindPort)
    "Failed to request forwarding cancellation because the backing SSH server rejected the request".

Definition proxy_OnRequestStreamLocal (conn : nat) (path : string) (reverseHandler : ReverseForward W) : call (option error) :=
  let* err := forward_request conn "streamlocal-forward@openssh.com" (StreamLocalForwardRequestPayload path)
                "Failed to request streamlocal because the backing SSH server rejected the request" in
  match err with
  | Some _ => prog_ret err
  | None => do* keep_reverse_handler conn reverseHandler in prog_ret None
  end.

Definition proxy_OnRequestCancelStreamLocal (conn : nat) (path : string) : call (option error) :=
  forward_request conn "cancel-streamlocal-forward@openssh.com" (StreamLocalForwardRequestPayload path)
    "Failed to request streamlocal cancellation because the backing SSH server rejected the request".

(** *** Channels and requests of the backend on the connection *)

(** The common part of the three handlers below: the client is asked for a channel
    first; errors are only logged, and a forward with what there is is started.
    [None]: there is no reverse handler. *)
Definition start_forward (conn : nat) (newChannel : ssh_NewChannel)
    (open : ReverseForward W → call (option ForwardChannel * Z * option error)) : call unit :=
  let* c := px_connection_at conn in
  match pc_reverseHandler c with
  | None => panic nil_pointer
  | Some r =>
      let* '(clientChannel, _, _) := open (px_reverse_at env r) in
      let* accepted := px_ask (ChannelAccept (nc_id newChannel)) (λ h, newChannel_Accept lib h (nc_id newChannel)) in
      let serverChannel := match accepted with inl channel => Some channel | inr _ => None end in
      px_update (λ s, px_set_forwards (px_forwards s ++ [MkProxyForward clientChannel serverChannel false]) s)
  end.

Definition handleReverseForwardChannel (conn : nat) (newChannel : ssh_NewChannel) : call unit :=
  let '(ConnectedAddress, ConnectedPort, OriginatorAddress, OriginatorPort, _) :=
    Unmarshal_ForwardTCP lib (nc_ExtraData newChannel) in
  start_forward conn newChannel (λ h, NewChannelTCP h ConnectedAddress ConnectedPort OriginatorAddress OriginatorPort).

Definition handleStreamLocalChannel (conn : nat) (newChannel : ssh_NewChannel) : call unit :=
  let '(SocketPath, _) := Unmarshal_StreamLocal lib (nc_ExtraData newChannel) in
  start_forward conn newChannel (λ h, NewChannelUnix h SocketPath).

Definition handleX11Channel (conn : nat) (newChannel : ssh_NewChannel) : call unit :=
  let '(OriginatorAddress, OriginatorPort, _) := Unmarshal_X11 lib (nc_ExtraData newChannel) in
  start_forward conn newChannel (λ h, NewChannelX11 h OriginatorAddress OriginatorPort).

(** One round of [handleChannels]. *)
Definition proxy_handleChannel (conn : nat) (newChannel : ssh_NewChannel) : call unit :=
  if decide (nc_ChannelType newChannel = "x11") then handleX11Channel conn newChannel
  else if decide (nc_ChannelType newChannel = "forwarded-streamlocal@openssh.com") then handleStreamLocalChannel conn newChannel
  else if decide (nc_ChannelType newChannel = "forwarded-tcpip") then handleReverseForwardChannel conn newChannel
  else px_tell (ChannelReject (nc_id newChannel)).

Definition proxy_handleChannels (conn : nat) (newChannels : list ssh_NewChannel) : call unit :=
  range newChannels (proxy_handleChannel conn).

(** Every global request of the backend is refused, also one without reply. *)
Definition proxy_handleRequests (requests : list ssh_Request) : call unit :=
  range requests (λ _, px_tell (RequestReply false [])).

Definition rejectAllRequests (requests : list ssh_Request) : call unit :=
  range requests (λ r, if rq_WantReply r then px_tell (RequestReply false []) else prog_ret tt).

(** [handleForward] in both directions: the chunks that are read, then, once, both
    channels are closed. *)
Definition px_forward_at (f : nat) : call proxy_forward :=
  let* s := px_store in match px_forwards s !! f with Some x => prog_ret x | None => panic nil_pointer end.

Definition close_client (client : ForwardChannel) : call unit :=
  let* _ := obj_Close (px_objects env) client in prog_ret tt.

Definition close_forward (f : nat) (close_both : call unit) : call unit :=
  let* x := px_forward_at f in
  if pf_closed x then prog_ret tt
  else
    do* px_update (λ s, px_set_forwards (<[f := MkProxyForward (pf_client x) (pf_server x) true]> (px_forwards s)) s) in
    close_both.

Definition handleForward_to_client (f : nat) (chunks : list (list byte)) : call unit :=
  let* x := px_forward_at f in
  match pf_client x, pf_server x with
  | Some client, Some server => 
      do* copy_to_client client chunks in close_forward f (do* close_client client in px_tell (ChannelClose server))
  | _, _ => panic nil_pointer
  end.

Definition handleForward_to_server (f : nat) (chunks : list (list byte)) : call unit :=
  let* x := px_forward_at f in
  match pf_client x, pf_server x with
  | Some client, Some server => 
      do* copy_to_backend server chunks in close_forward f (do* px_tell (ChannelClose server) in close_client client)
  | _, _ => panic nil_pointer
  end.

Definition proxy_sshConnection (conn : nat) : SSHConnectionHandler W :=
  {| OnUnsupportedGlobalRequest := λ _ _ _, prog_ret tt;
     OnFailedDecodeGlobalRequest := λ _ _ _ _, prog_ret tt;
     OnUnsupportedChannel := λ _ _ _, prog_ret tt;
     OnSessionChannel := λ _ extraData session, proxy_OnSessionChannel conn extraData session;
     OnTCPForwardChannel := λ _ host port ohost oport, proxy_OnTCPForwardChannel conn host port ohost oport;
     OnRequestTCPReverseForward := proxy_OnRequestTCPReverseForward conn;
     OnRequestCancelTCPReverseForward := proxy_OnRequestCancelTCPReverseForward conn;
     OnDirectStreamLocal := λ _ path, proxy_OnDirectStreamLocal conn path;
     OnRequestStreamLocal := proxy_OnRequestStreamLocal conn;
     OnRequestCancelStreamLocal := proxy_OnRequestCancelStreamLocal conn;
     OnConnShutdown := λ _, prog_ret tt |}.

(** ** The handler of the network connection *)

Definition proxy_networkHandler : NetworkConnectionHandler W :=
  {| OnAuthPassword := λ meta _, proxy_no_authentication meta;
     OnAuthPubKey := λ meta _, proxy_no_authentication meta;
     OnAuthKeyboardInteractive := λ meta _, proxy_no_authentication meta;
     OnAuthGSSAPI := λ _, prog_ret None;
     OnHandshakeFailed := λ _ _, prog_ret tt;
     OnHandshakeSuccess := λ meta,
       let* '(conn, err) := proxy_handshake meta in
       prog_ret (proxy_sshConnection <$> conn, meta, err);
     OnDisconnect := proxy_OnDisconnect;
     OnNetShutdown := λ _, prog_ret tt |}.
End proxy.

(** [New]; the result is the handler with the key that was loaded. *)
Definition sshproxy_New {W} `{!Field W proxy_store} (keys : KeyLibrary) (lib : ProxyLibrary) (config : SSHProxyConfig)
    (waits : Z → nat) (reference : ReverseForward W → nat) (reverse_at : nat → ReverseForward W) (objects : Objects W)
  : prog W (option (NetworkConnectionHandler W) * option error) :=
  match SSHProxyConfig_Validate config with
  | Some err => prog_ret (None, Some err)
  | None =>
      match LoadPrivateKey keys config with
      | Panic why => panic why
      | Blocked why => block why
      | Done (inr err) => prog_ret (None, Some err)
      | Done (inl privateKey) =>
          let env := MkProxySurroundings W lib config privateKey waits reference reverse_at objects in
          do* px_update (px_set_network (MkProxyNetwork false 0 false false false)) in
          prog_ret (Some (proxy_networkHandler env), None)
      end
  end.
