(* ===== verification/SSHProxySpec.v ===== *)
(** * What the SSH proxy backend guarantees

    Theorems on [SSHProxy]. *)

From stdpp Require Import base gmap strings list.
From Stdlib Require Import Strings.Byte.
From S2P Require Import Prelude Messages Metadata Handler GoStrings ConfigHTTP ConfigSSH Requests SSHProxy.

Local Open Scope Z_scope.

(** ** Steps *)

Section steps.
Context {T A : Type}.
Abbreviation W := (proxy_store * T)%type.
Implicit Types (s : proxy_store) (t : T).

Lemma px_bind_store (f : proxy_store → prog W A) s t : prog_bind f px_store (s, t) = f s (s, t).
Proof. done. Qed.
Lemma px_bind_update (f : unit → prog W A) g s t : prog_bind f (px_update g) (s, t) = f tt (g s, t).
Proof. done. Qed.
Lemma px_bind_ask {B} (f : B → prog W A) c answer s t :
  prog_bind f (px_ask c answer) (s, t) = f (answer (px_history s)) (px_add_call c s, t).
Proof. done. Qed.
Lemma px_bind_tell (f : unit → prog W A) c s t : prog_bind f (px_tell c) (s, t) = f tt (px_add_call c s, t).
Proof. done. Qed.
Lemma px_bind_net (f : proxy_network → prog W A) s t : prog_bind f px_net (s, t) = f (px_network s) (s, t).
Proof. done. Qed.
Lemma px_bind_update_net (f : unit → prog W A) g s t :
  prog_bind f (px_update_net g) (s, t) = f tt (px_set_network (g (px_network s)) s, t).
Proof. done. Qed.
Lemma px_bind_channel_at (f : sshChannelHandler → prog W A) i c s t :
  px_channels s !! i = Some c → prog_bind f (px_channel_at i) (s, t) = f c (s, t).
Proof. intros H. unfold px_channel_at, prog_bind, px_store. cbn. by rewrite H. Qed.
Lemma px_bind_update_channel (f : unit → prog W A) i g s t :
  prog_bind f (px_update_channel i g) (s, t) = f tt (px_set_channels (alter g i (px_channels s)) s, t).
Proof. done. Qed.
Lemma px_bind_connection_at (f : proxy_connection → prog W A) i c s t :
  px_connections s !! i = Some c → prog_bind f (px_connection_at i) (s, t) = f c (s, t).
Proof. intros H. unfold px_connection_at, prog_bind, px_store. cbn. by rewrite H. Qed.
Lemma px_bind_forward_at (f : proxy_forward → prog W A) i x s t :
  px_forwards s !! i = Some x → prog_bind f (px_forward_at i) (s, t) = f x (s, t).
Proof. intros H. unfold px_forward_at, prog_bind, px_store. cbn. by rewrite H. Qed.
Lemma px_locked_free (body : prog W A) s t : pn_lock (px_network s) = false → px_locked body (s, t) = body (s, t).
Proof. intros H. unfold px_locked. by rewrite px_bind_net, H. Qed.
End steps.

Ltac px_find :=
  cbn [px_history px_network px_connections px_channels px_forwards px_add_call px_set_network px_set_connections
       px_set_channels px_set_forwards px_inc_requests px_inc_failures];
  rewrite ?list_lookup_alter_eq;
  repeat match goal with H : ?l !! ?i = Some _ |- context [?l !! ?i] => rewrite H end; reflexivity.

(** One call of a sequence. *)
Ltac px_step :=
  first
  [ rewrite bind_ret | rewrite bind_bind | rewrite px_bind_store | rewrite px_bind_update | rewrite px_bind_ask
  | rewrite px_bind_tell | rewrite px_bind_net | rewrite px_bind_update_net | rewrite px_bind_update_channel
  | erewrite px_bind_channel_at by px_find | erewrite px_bind_connection_at by px_find
  | erewrite px_bind_forward_at by px_find ]; cbv beta.

(** ** Requests of the client

    What the backend is asked for a request, when it is asked, and what starts a
    program. *)

Definition wire {W} (r : session_request W) : string * payload :=
  match r with
  | ReqEnv _ name val => ("env", envRequestPayload name val)
  | ReqPty _ term columns rows width height modeList => ("pty-req", ptyRequestPayload term columns rows width height modeList)
  | ReqX11 _ single protocol cookie screen _ => ("x11-req", X11RequestPayload single protocol cookie screen)
  | ReqExec _ program => ("exec", execRequestPayload program)
  | ReqShell _ => ("shell", RawPayload [])
  | ReqSubsystem _ subsystem => ("subsystem", subsystemRequestPayload subsystem)
  | ReqSignal _ sig => ("signal", signalRequestPayload sig)
  | ReqWindow _ columns rows width height => ("window-change", windowRequestPayload columns rows width height)
  end.

Definition starts_program {W} (r : session_request W) : bool :=
  match r with ReqExec _ _ | ReqShell _ | ReqSubsystem _ _ => true | _ => false end.

Definition admissible {W} (started : bool) (r : session_request W) : bool :=
  match r with
  | ReqX11 _ _ _ _ _ _ => true
  | ReqSignal _ _ | ReqWindow _ _ _ _ _ => started
  | _ => negb started
  end.

(** The requests of a channel, as a proxy has to treat them: which are accepted,
    what the backend is asked, and whether a program runs afterwards. *)
Fixpoint proxied_requests {W} (lib : ProxyLibrary) (b : nat) (started : bool) (h : list backend_call)
    (rs : list (session_request W)) : list bool * list backend_call * bool :=
  match rs with
  | [] => ([], [], started)
  | r :: rs =>
      if admissible started r then
        let '(name, p) := wire r in
        let ok := match channel_SendRequest lib h b name p with inl ok => ok | inr _ => false end in
        let '(answers, calls, ended) :=
          proxied_requests lib b (started || (ok && starts_program r)) (h ++ [ChannelRequest b name p]) rs in
        (ok :: answers, ChannelRequest b name p :: calls, ended)
      else
        let '(answers, calls, ended) := proxied_requests lib b started h rs in (false :: answers, calls, ended)
  end.

Section requests.
Context {T : Type} (env : ProxySurroundings (proxy_store * T)).
Abbreviation W := (proxy_store * T)%type.
Abbreviation lib := (px_library env).
Implicit Types (s : proxy_store) (t : T).

Fixpoint proxy_serve (i : nat) (rs : list (session_request W)) : prog W (list (option error)) :=
  match rs with
  | [] => prog_ret []
  | r :: rs =>
      let* answer := session_call (proxy_channelHandler env i) r in
      let* answers := proxy_serve i rs in
      prog_ret (answer :: answers)
  end.

(** The state of the channel after a request. *)
Definition after_request (ok : bool) (r : session_request W) (i : nat) (s : proxy_store) : proxy_store :=
  if ok && starts_program r then px_set_channels (alter px_set_started i (px_channels s)) s else s.

Lemma session_request_proxied i c r s t :
  px_channels s !! i = Some c →
  ∃ answer,
    if admissible (px_started c) r then
      let '(name, p) := wire r in
      let ok := match channel_SendRequest lib (px_history s) (px_backingChannel c) name p with inl ok => ok | inr _ => false end in
      session_call (proxy_channelHandler env i) r (s, t) =
        Done (answer, (after_request ok r i (px_add_call (ChannelRequest (px_backingChannel c) name p) s), t)) ∧
      bool_decide (answer = None) = ok
    else session_call (proxy_channelHandler env i) r (s, t) = Done (answer, (s, t)) ∧ bool_decide (answer = None) = false.
Proof.
  intros Hc. destruct r; cbn [admissible wire session_call proxy_channelHandler OnEnvRequest OnPtyRequest OnX11Request
    OnExecRequest OnShell OnSubsystem OnSignal OnWindow starts_program after_request];
  unfold proxy_OnEnvRequest, proxy_OnPtyRequest, proxy_OnX11Request, proxy_OnExecRequest, proxy_OnShell, proxy_OnSubsystem,
    proxy_OnSignal, proxy_OnWindow, sendRequest, streamStdio;
  repeat px_step; destruct (px_started c) eqn:Es; cbn [negb]; try (eexists; split; reflexivity);
  unfold after_request; cbn [starts_program]; rewrite ?andb_false_r, ?andb_true_r; repeat px_step;
  unfold prog_bind, px_ask, px_store, px_update; cbn;
  destruct (channel_SendRequest _ _ _ _ _) as [[]|]; cbn; rewrite ?Hc; cbn; rewrite ?Es; eexists; split; reflexivity.
Qed.

(** Claim C15. The requests of a session: exactly those that make sense at their time are
    handed to the backend, once, in order and unchanged; the client gets the
    backend's answers; a program is only started where none was. *)
Theorem session_requests_are_proxied i c rs s t :
  px_channels s !! i = Some c →
  let '(accepted, calls, started) := proxied_requests lib (px_backingChannel c) (px_started c) (px_history s) rs in
  ∃ answers s',
    proxy_serve i rs (s, t) = Done (answers, (s', t)) ∧
    (λ a, bool_decide (a = None)) <$> answers = accepted ∧
    px_history s' = (px_history s ++ calls)%list ∧
    px_started <$> px_channels s' !! i = Some started ∧ px_network s' = px_network s.
Proof.
  revert c s. induction rs as [|r rs IH]; intros c s Hc; cbn [proxied_requests proxy_serve].
  - exists [], s. split_and!; [done|done|by rewrite app_nil_r|by rewrite Hc|done].
  - destruct (session_request_proxied i c r s t Hc) as [answer Ha]. destruct (admissible (px_started c) r) eqn:Ead.
    + destruct (wire r) as [name p]. destruct Ha as [E Hok].
      set (ok := match channel_SendRequest _ _ _ _ _ with inl ok => ok | inr _ => false end) in *.
      set (s1 := after_request _ _ _ _) in E. set (c1 := if ok && starts_program r then px_set_started c else c).
      assert (px_channels s1 !! i = Some c1) as Hc1.
      { subst s1 c1. unfold after_request. destruct (ok && starts_program r); [|done]. cbn. by rewrite list_lookup_alter_eq, Hc. }
      assert (px_history s1 = px_history s ++ [ChannelRequest (px_backingChannel c) name p])%list as Hh.
      { subst s1. unfold after_request. by destruct (ok && starts_program r). }
      assert (px_backingChannel c1 = px_backingChannel c) as Hb by (subst c1; by destruct (ok && starts_program r)).
      assert (px_started c1 = px_started c || (ok && starts_program r)) as Hs.
      { subst c1. destruct (ok && starts_program r); cbn; by rewrite ?orb_true_r, ?orb_false_r. }
      assert (px_network s1 = px_network s) as Hn by (subst s1; unfold after_request; by destruct (ok && starts_program r)).
      specialize (IH c1 s1 Hc1). rewrite Hb, Hs, Hh in IH.
      destruct (proxied_requests _ _ _ _ rs) as [[accepted calls] started].
      destruct IH as (answers & s' & E' & H1 & H2 & H3 & H4). exists (answer :: answers), s'.
      rewrite (bind_done _ _ _ _ _ E), (bind_done _ _ _ _ _ E'). split_and!; [done| | |done|congruence].
      * cbn [fmap list_fmap]. by rewrite Hok, H1.
      * by rewrite H2, <- app_assoc.
    + destruct Ha as [E Hok]. specialize (IH c s Hc). destruct (proxied_requests _ _ _ _ rs) as [[accepted calls] started].
      destruct IH as (answers & s' & E' & H1 & H2 & H3 & H4). exists (answer :: answers), s'.
      rewrite (bind_done _ _ _ _ _ E), (bind_done _ _ _ _ _ E'). split_and!; [done| |done..].
      cbn [fmap list_fmap]. by rewrite Hok, H1.
Qed.
End requests.

(** ** The end of a connection *)

(** What happens on a connection of the proxy before its end: calls of the server,
    channels and requests of the backend, and the streams. *)
Inductive proxy_op (W : Type) :=
| PSession (conn : nat) (extraData : list byte) (session : SessionChannel)
| PRequest (i : nat) (r : session_request W)
| PClose (i : nat)
| PShutdown (i : nat)
| PForwardTCP (conn : nat) (host : string) (port : Z) (ohost : string) (oport : Z)
| PForwardUnix (conn : nat) (path : string)
| PReverseTCP (conn : nat) (host : string) (port : Z) (rev : ReverseForward W)
| PReverseUnix (conn : nat) (path : string) (rev : ReverseForward W)
| PCancelTCP (conn : nat) (host : string) (port : Z)
| PCancelUnix (conn : nat) (path : string)
| PBackendChannel (conn : nat) (newChannel : ssh_NewChannel)
| PBackendRequests (i : nat) (requests : list ssh_Request)
| PGlobalRequests (requests : list ssh_Request)
| PStdin (i : nat) (chunks : list (list byte))
| PStdout (i : nat) (chunks : list (list byte))
| PStderr (i : nat) (chunks : list (list byte))
| POutputComplete (i : nat)
| PToClient (f : nat) (chunks : list (list byte))
| PToServer (f : nat) (chunks : list (list byte)).

Arguments PSession {W} _ _ _.
Arguments PRequest {W} _ _.
Arguments PClose {W} _.
Arguments PShutdown {W} _.
Arguments PForwardTCP {W} _ _ _ _ _.
Arguments PForwardUnix {W} _ _.
Arguments PReverseTCP {W} _ _ _ _.
Arguments PReverseUnix {W} _ _ _.
Arguments PCancelTCP {W} _ _ _.
Arguments PCancelUnix {W} _ _.
Arguments PBackendChannel {W} _ _.
Arguments PBackendRequests {W} _ _.
Arguments PGlobalRequests {W} _.
Arguments PStdin {W} _ _.
Arguments PStdout {W} _ _.
Arguments PStderr {W} _ _.
Arguments POutputComplete {W} _.
Arguments PToClient {W} _ _.
Arguments PToServer {W} _ _.

Definition ignore {W A} (c : prog W A) : prog W unit := let* _ := c in prog_ret tt.

Definition proxy_call {W} `{!Field W proxy_store} (env : ProxySurroundings W) (op : proxy_op W) : prog W unit :=
  match op with
  | PSession conn data session => ignore (proxy_OnSessionChannel env conn data session)
  | PRequest i r => ignore (session_call (proxy_channelHandler env i) r)
  | PClose i => proxy_OnClose i
  | PShutdown i => proxy_OnShutdown env i
  | PForwardTCP conn host port ohost oport => ignore (proxy_OnTCPForwardChannel env conn host port ohost oport)
  | PForwardUnix conn path => ignore (proxy_OnDirectStreamLocal env conn path)
  | PReverseTCP conn host port rev => ignore (proxy_OnRequestTCPReverseForward env conn host port rev)
  | PReverseUnix conn path rev => ignore (proxy_OnRequestStreamLocal env conn path rev)
  | PCancelTCP conn host port => ignore (proxy_OnRequestCancelTCPReverseForward env conn host port)
  | PCancelUnix conn path => ignore (proxy_OnRequestCancelStreamLocal env conn path)
  | PBackendChannel conn newChannel => proxy_handleChannel env conn newChannel
  | PBackendRequests i requests => handleBackendClientRequests env i requests
  | PGlobalRequests requests => proxy_handleRequests requests
  | PStdin i chunks => streamStdin env i chunks
  | PStdout i chunks => streamStdout env i chunks
  | PStderr i chunks => streamStderr env i chunks
  | POutputComplete i => closeOnOutputComplete env i
  | PToClient f chunks => handleForward_to_client env f chunks
  | PToServer f chunks => handleForward_to_server env f chunks
  end.

(** The session channels and reverse forwards of the SSH server do not touch the
    objects of the proxy. *)
Definition same_proxy {T} (w w' : proxy_store * T) : Prop := w'.1 = w.1.

Record quiet_client {T} (env : ProxySurroundings (proxy_store * T)) : Prop := {
  px_quiet_Stdout r : keeps same_proxy (obj_Stdout (px_objects env) r);
  px_quiet_Stderr r : keeps same_proxy (obj_Stderr (px_objects env) r);
  px_quiet_ExitStatus r z : keeps same_proxy (obj_ExitStatus (px_objects env) r z);
  px_quiet_ExitSignal r a b c d : keeps same_proxy (obj_ExitSignal (px_objects env) r a b c d);
  px_quiet_CloseWrite r : keeps same_proxy (obj_CloseWrite (px_objects env) r);
  px_quiet_Close r : keeps same_proxy (obj_Close (px_objects env) r);
  px_quiet_Write r data : keeps same_proxy (obj_Write (px_objects env) r data);
  px_quiet_TCP r a b c d : keeps same_proxy (NewChannelTCP (px_reverse_at env r) a b c d);
  px_quiet_Unix r a : keeps same_proxy (NewChannelUnix (px_reverse_at env r) a);
  px_quiet_X11 r a b : keeps same_proxy (NewChannelX11 (px_reverse_at env r) a b);
}.

(** Sessions the client has not closed. *)
Fixpoint open_among (l : list sshChannelHandler) : Z :=
  match l with [] => 0 | c :: l => (if px_exited c then 0 else 1) + open_among l end.

Lemma open_among_app l l' : open_among (l ++ l') = open_among l + open_among l'.
Proof. induction l as [|c l IH]; cbn; [done|]. rewrite IH. lia. Qed.

Lemma open_among_alter f i l : (∀ c, px_exited (f c) = px_exited c) → open_among (alter f i l) = open_among l.
Proof.
  intros Hf. revert i. induction l as [|c l IH]; intros [|i]; cbn; [done|done| |].
  - by rewrite Hf.
  - by rewrite IH.
Qed.

Lemma open_among_exited i c l : l !! i = Some c → px_exited c = false → open_among (alter px_set_exited i l) = open_among l - 1.
Proof.
  revert i. induction l as [|d l IH]; intros [|i] Hi He; [done..| |].
  - injection Hi as ->. cbn. rewrite He. lia.
  - cbn. change (open_among (alter px_set_exited i l)) with (open_among (alter px_set_exited i l)). rewrite (IH i) by done. lia.
Qed.

Section counting.
Context {T : Type} (env : ProxySurroundings (proxy_store * T)) (Hq : quiet_client env).
Abbreviation W := (proxy_store * T)%type.
Abbreviation lib := (px_library env).
Implicit Types (s : proxy_store) (t : T).

(** What the wait group counts beyond the open sessions does not change. *)
Definition balance s : Z := pn_wg (px_network s) - open_among (px_channels s).
Definition marked_exited s : Prop := ∀ i c, px_channels s !! i = Some c → px_done c = px_exited c.

Definition balanced (d : Z) (w w' : W) : Prop :=
  marked_exited w.1 → marked_exited w'.1 ∧ balance w'.1 = balance w.1 + d ∧
  pn_lock (px_network w'.1) = pn_lock (px_network w.1) ∧ pn_done (px_network w'.1) = pn_done (px_network w.1).

#[local] Instance balanced_preorder : PreOrder (balanced 0).
Proof.
  split; [intros w H; split_and!; [done|lia|done|done]|]. intros w1 w2 w3 H12 H23 H.
  destruct (H12 H) as (H2 & Eb & El & Ed). destruct (H23 H2) as (H3 & Eb' & El' & Ed'). split_and!; [done|lia|congruence|congruence].
Qed.

Abbreviation ok := (keeps (balanced 0)).

Lemma px_ok_same {A} (c : prog W A) : keeps same_proxy c → ok c.
Proof. intros H w. eapply wlp_mono; [apply H|]. intros a w' E Hm. red in E. rewrite E. split_and!; [done|lia|done|done]. Qed.

Lemma px_ok_update f :
  (∀ s, px_channels (f s) = px_channels s ∧ px_network (f s) = px_network s) → ok (px_update f).
Proof.
  intros H [s t] Hm. cbn in *. destruct (H s) as [Ec En]. unfold marked_exited, balance in *. rewrite Ec, En. split_and!; [done|lia|done|done].
Qed.

Lemma px_ok_update_channel i f : (∀ c, px_exited (f c) = px_exited c ∧ px_done (f c) = px_done c) → ok (px_update_channel i f).
Proof.
  intros Hf [s t] Hm. cbn in *. split_and!; [|unfold balance; cbn; rewrite open_among_alter by apply Hf; lia|done|done].
  intros j c. cbn. destruct (decide (i = j)) as [->|Hn].
  - rewrite list_lookup_alter_eq. intros (c' & Hc & ->)%fmap_Some. destruct (Hf c') as [-> ->]. by eapply Hm.
  - rewrite list_lookup_alter_ne by done. apply Hm.
Qed.

Lemma px_ok_store : ok px_store.
Proof. intros [s t] Hm. cbn. split_and!; [done|lia|done|done]. Qed.
Lemma px_ok_tell c : ok (px_tell c).
Proof. apply call_keeps_bind; [apply _|apply px_ok_store|]. intros s. apply call_keeps_bind; [apply _|by apply px_ok_update|intros _; by apply call_keeps_ret; apply _]. Qed.
Lemma px_ok_ask {A} c (f : _ → A) : ok (px_ask c f).
Proof. apply call_keeps_bind; [apply _|apply px_ok_store|]. intros s. apply call_keeps_bind; [apply _|by apply px_ok_update|intros _; by apply call_keeps_ret; apply _]. Qed.
Lemma px_ok_channel_at i : ok (px_channel_at i).
Proof. unfold px_channel_at. keeps_steps. apply px_ok_store. Qed.
Lemma px_ok_connection_at i : ok (px_connection_at i).
Proof. unfold px_connection_at. keeps_steps. apply px_ok_store. Qed.
Lemma px_ok_forward_at i : ok (px_forward_at i).
Proof. unfold px_forward_at. keeps_steps. apply px_ok_store. Qed.
Lemma px_ok_net : ok px_net.
Proof. unfold px_net. keeps_steps. apply px_ok_store. Qed.

#[local] Hint Resolve px_ok_store px_ok_tell px_ok_ask px_ok_channel_at px_ok_connection_at px_ok_forward_at px_ok_net : keeps.
#[local] Hint Extern 1 (ok (px_update _)) => (apply px_ok_update; intros; by split) : keeps.
#[local] Hint Extern 1 (ok (px_update_channel _ _)) => (apply px_ok_update_channel; intros; by split) : keeps.
#[local] Hint Extern 1 (ok (obj_Stdout _ _)) => (apply px_ok_same, px_quiet_Stdout, Hq) : keeps.
#[local] Hint Extern 1 (ok (obj_Stderr _ _)) => (apply px_ok_same, px_quiet_Stderr, Hq) : keeps.
#[local] Hint Extern 1 (ok (obj_ExitStatus _ _ _)) => (apply px_ok_same, px_quiet_ExitStatus, Hq) : keeps.
#[local] Hint Extern 1 (ok (obj_ExitSignal _ _ _ _ _ _)) => (apply px_ok_same, px_quiet_ExitSignal, Hq) : keeps.
#[local] Hint Extern 1 (ok (obj_CloseWrite _ _)) => (apply px_ok_same, px_quiet_CloseWrite, Hq) : keeps.
#[local] Hint Extern 1 (ok (obj_Close _ _)) => (apply px_ok_same, px_quiet_Close, Hq) : keeps.
#[local] Hint Extern 1 (ok (obj_Write _ _ _)) => (apply px_ok_same, px_quiet_Write, Hq) : keeps.
#[local] Hint Extern 1 (ok (NewChannelTCP _ _ _ _ _)) => (apply px_ok_same, px_quiet_TCP, Hq) : keeps.
#[local] Hint Extern 1 (ok (NewChannelUnix _ _)) => (apply px_ok_same, px_quiet_Unix, Hq) : keeps.
#[local] Hint Extern 1 (ok (NewChannelX11 _ _ _)) => (apply px_ok_same, px_quiet_X11, Hq) : keeps.

(** *** Calls that open and close nothing *)

Lemma px_ok_copy_to_backend b chunks : ok (copy_to_backend env b chunks).
Proof. induction chunks as [|d chunks IH]; cbn [copy_to_backend]; keeps_steps; apply IH. Qed.
Lemma px_ok_copy_to_client r chunks : ok (copy_to_client env r chunks).
Proof. induction chunks as [|d chunks IH]; cbn [copy_to_client]; keeps_steps; apply IH. Qed.
#[local] Hint Resolve px_ok_copy_to_backend px_ok_copy_to_client : keeps.

Lemma px_ok_backend_requests i rs : ok (handleBackendClientRequests env i rs).
Proof.
  induction rs as [|r rs IH]; cbn [handleBackendClientRequests];
    unfold handleExitStatusFromBackend, handleExitSignalFromBackend, reply_if_wanted; keeps_steps; apply IH.
Qed.

Lemma px_ok_request i r : ok (session_call (proxy_channelHandler env i) r).
Proof.
  destruct r; cbn [session_call proxy_channelHandler OnEnvRequest OnPtyRequest OnX11Request OnExecRequest OnShell OnSubsystem
    OnSignal OnWindow];
  unfold proxy_OnEnvRequest, proxy_OnPtyRequest, proxy_OnX11Request, proxy_OnExecRequest, proxy_OnShell, proxy_OnSubsystem,
    proxy_OnSignal, proxy_OnWindow, sendRequest, streamStdio; keeps_steps.
Qed.

Lemma px_ok_start_forward conn nc open : (∀ r, ok (open (px_reverse_at env r))) → ok (start_forward env conn nc open).
Proof. intros H. unfold start_forward. keeps_steps. Qed.

Lemma px_ok_backend_channel conn nc : ok (proxy_handleChannel env conn nc).
Proof.
  unfold proxy_handleChannel, handleX11Channel, handleStreamLocalChannel, handleReverseForwardChannel.
  keeps_steps; apply px_ok_start_forward; intros; eauto with keeps.
Qed.

(** *** Sessions and forwards *)

Lemma register_effect s t :
  wlp px_register (s, t) (λ open w',
    w' = (if open : bool then px_set_network (pn_set_wg (pn_wg (px_network s) + 1) (px_network s)) s else s, t) ∧
    open = negb (pn_done (px_network s))).
Proof.
  unfold wlp, px_register, px_locked. rewrite px_bind_net. destruct (pn_lock _); [done|]. repeat px_step.
  destruct (pn_done _) eqn:E; repeat px_step; by cbn.
Qed.

Lemma wg_Done_effect s t :
  wlp px_wg_Done (s, t) (λ _ w', w' = (px_set_network (pn_set_wg (pn_wg (px_network s) - 1) (px_network s)) s, t)).
Proof. unfold wlp, px_wg_Done. rewrite px_bind_net. by case_decide. Qed.

(** A session that is opened is counted on both sides; one that is refused on
    neither. *)
Lemma px_ok_session conn data session : ok (proxy_OnSessionChannel env conn data session).
Proof.
  intros [s t]. unfold proxy_OnSessionChannel. apply wlp_bind. eapply wlp_mono; [apply register_effect|].
  intros open w [-> _]. destruct open; cbn [negb]; [|intros Hm; split_and!; [done|lia|done|done]].
  unfold wlp, open_channel. rewrite px_bind_ask. destruct (conn_OpenChannel _ _ _ _ _) as [b|err].
  - repeat px_step. intros Hm. unfold balance. cbn. rewrite open_among_app. cbn. split_and!; [|lia|done|done].
    intros j c. cbn. rewrite lookup_app. destruct (px_channels s !! j) eqn:Ej; [intros [= <-]; by eapply Hm|].
    by intros [_ <-]%list_lookup_singleton_Some.
  - match goal with |- context [prog_bind ?f ?c ?w] => change (wlp (prog_bind f c) w (λ _ w', balanced 0 (s, t) w')) end.
    apply wlp_bind. eapply wlp_mono; [apply wg_Done_effect|]. intros [] w ->. intros Hm. unfold balance. cbn. split_and!; [done|lia|done|done].
Qed.

Lemma px_ok_close i : ok (proxy_OnClose i).
Proof.
  intros [s t]. unfold wlp, proxy_OnClose, px_channel_at. repeat px_step. destruct (px_channels s !! i) as [c|] eqn:Hc; [|done].
  repeat px_step. destruct (negb _); repeat px_step.
  all: cbn; destruct (px_done c) eqn:Ed; [done|]; cbn; case_decide; [done|]; intros Hm.
  all: unfold balance; cbn; rewrite (open_among_exited i c) by (first [done|by rewrite <- (Hm i c)]); split_and!; [|lia|done|done].
  all: intros j d; cbn; destruct (decide (i = j)) as [->|Hn];
    [rewrite list_lookup_alter_eq, Hc; by intros [= <-]|rewrite list_lookup_alter_ne by done; apply Hm].
Qed.

Lemma forward_balance conn host port ohost oport s t :
  pn_done (px_network s) = false →
  wlp (proxy_OnTCPForwardChannel env conn host port ohost oport) (s, t) (λ _, balanced 1 (s, t)).
Proof.
  intros Hd. unfold proxy_OnTCPForwardChannel. apply wlp_bind. eapply wlp_mono; [apply register_effect|].
  intros open w [-> ->]. rewrite Hd. cbn [negb]. unfold wlp, open_channel. repeat px_step. cbn. intros Hm. unfold balance. cbn.
  split_and!; [done|lia|done|done].
Qed.

Definition is_tcp_forward (op : proxy_op W) : bool := match op with PForwardTCP _ _ _ _ _ => true | _ => false end.

(** Requests for a TCP forward, opened or not, ended or not. *)
Fixpoint tcp_forwards (ops : list (proxy_op W)) : Z :=
  match ops with [] => 0 | op :: ops => (if is_tcp_forward op then 1 else 0) + tcp_forwards ops end.

Lemma px_ok_ignore {A} (c : prog W A) : ok c → ok (ignore c).
Proof. intros H. unfold ignore. keeps_steps. Qed.

#[local] Hint Resolve px_ok_session px_ok_close px_ok_request px_ok_backend_channel px_ok_backend_requests : keeps.

Lemma call_balance op s t :
  pn_done (px_network s) = false →
  wlp (proxy_call env op) (s, t) (λ _, balanced (if is_tcp_forward op then 1 else 0) (s, t)).
Proof.
  intros Hd. destruct (is_tcp_forward op) eqn:Eop.
  - destruct op; try done. cbn [proxy_call]. unfold ignore. apply wlp_bind. eapply wlp_mono; [by apply forward_balance|].
    intros a w H. exact H.
  - assert (ok (proxy_call env op)) as Hok; [|apply Hok].
    destruct op; try done; cbn [proxy_call]; try apply px_ok_ignore; eauto with keeps.
    all: unfold proxy_OnShutdown, sendRequest, proxy_OnDirectStreamLocal, open_channel, proxy_OnRequestTCPReverseForward,
      proxy_OnRequestStreamLocal, proxy_OnRequestCancelTCPReverseForward, proxy_OnRequestCancelStreamLocal, forward_request,
      keep_reverse_handler, proxy_handleRequests, streamStdin, streamStdout, streamStderr, outWg_Done, closeOnOutputComplete,
      handleForward_to_client, handleForward_to_server, close_forward, close_client; keeps_steps.
Qed.

Lemma calls_balance ops s t :
  marked_exited s → pn_done (px_network s) = false →
  wlp (range ops (proxy_call env)) (s, t) (λ _ w,
    balance w.1 = balance s + tcp_forwards ops ∧ pn_done (px_network w.1) = false ∧
    pn_lock (px_network w.1) = pn_lock (px_network s)).
Proof.
  revert s t. induction ops as [|op ops IH]; intros s t Hm Hd; cbn [range tcp_forwards]; [cbn; split_and!; [lia|done|done]|].
  apply wlp_bind. eapply wlp_mono; [by apply call_balance|]. intros [] [s1 t1] H. destruct (H Hm) as (Hm1 & Hb & Hl & Hdone).
  cbn in Hm1, Hb, Hl, Hdone. eapply wlp_mono; [apply IH; [done|congruence]|]. intros [] w (H1 & H2 & H3). split_and!; [lia|done|congruence].
Qed.

(** The end of a connection, after whatever has happened on it: the call returns
    if every session has been closed and no TCP forward was ever requested;
    otherwise it waits, with the lock held, for good if a forward was requested. *)
Theorem disconnect_waits_for_forwards ops s t :
  px_channels s = [] → pn_wg (px_network s) = 0 → pn_lock (px_network s) = false → pn_done (px_network s) = false →
  wlp (range ops (proxy_call env)) (s, t) (λ _ w,
    pn_wg (px_network w.1) = open_among (px_channels w.1) + tcp_forwards ops ∧
    if decide (open_among (px_channels w.1) = 0 ∧ tcp_forwards ops = 0) then
      ∃ w', proxy_OnDisconnect w = Done (tt, w') ∧ pn_done (px_network w'.1) = true ∧
        px_history w'.1 = (px_history w.1 ++ if pn_tcpConn (px_network w.1) then [TCPClose] else [])%list
    else proxy_OnDisconnect w = Blocked "sync.WaitGroup.Wait").
Proof.
  intros Hc Hw Hl Hd. eapply wlp_mono; [apply calls_balance; [|done]|].
  { intros i c. by rewrite Hc. }
  intros [] [s1 t1] (Hb & Hd1 & Hl1). unfold balance in Hb. rewrite Hc, Hw in Hb. cbn [fst] in *. cbn in Hb. split; [lia|].
  assert (0 ≤ open_among (px_channels s1)) as Ho by (clear; induction (px_channels s1) as [|c l IH]; cbn; [lia|destruct (px_exited c); lia]).
  assert (0 ≤ tcp_forwards ops) as Hf by (clear; induction ops as [|op l IH]; cbn; [lia|destruct (is_tcp_forward op); lia]).
  unfold proxy_OnDisconnect. rewrite px_locked_free by congruence. rewrite px_bind_net. case_decide as H.
  - rewrite decide_False by lia. px_step. destruct (pn_tcpConn _); eexists; (split; [reflexivity|]); split; [done|done|done|].
    cbn. by rewrite app_nil_r.
  - by rewrite decide_True by lia.
Qed.
End counting.

(** ** Connecting to the backend *)

Section connecting.
Context {T : Type} (env : ProxySurroundings (proxy_store * T)).
Abbreviation W := (proxy_store * T)%type.
Abbreviation lib := (px_library env).
Implicit Types (s : proxy_store) (t : T).

(** The user the backend is told. *)
Definition backend_user (username : string) : string :=
  if px_UsernamePassThrough (px_config env) then username else px_Username (px_config env).

Definition dials (n : nat) : list backend_call := replicate n (TCPDial (proxy_target env)).

Definition fails_to_dial (n : nat) (h : list backend_call) : Prop :=
  ∀ m, (m < n)%nat → net_Dial lib (h ++ dials m) (proxy_target env) ≠ None.

Lemma dials_S n : dials (S n) = TCPDial (proxy_target env) :: dials n.
Proof. done. Qed.

(** The loop dials until it gets a connection or there is no time left. *)
Lemma dial_loop n s t :
  ∃ m err s',
    retry_loop n
      (let* lastError := px_ask (TCPDial (proxy_target env)) (λ h, net_Dial lib h (proxy_target env)) in
       match lastError with
       | None => prog_ret (Return None)
       | Some lastError => do* px_update (px_inc_failures "tcp") in prog_ret (Again lastError)
       end)
      (λ lastError, prog_ret (Some (connection_failed lastError "connection to SSH backend failed, giving up"))) (s, t) =
      Done (err, (s', t)) ∧
    (m ≤ n)%nat ∧ px_history s' = (px_history s ++ dials (S m))%list ∧ px_network s' = px_network s ∧
    px_connections s' = px_connections s ∧ fails_to_dial m (px_history s) ∧
    match err with
    | None => net_Dial lib (px_history s ++ dials m) (proxy_target env) = None
    | Some _ => m = n ∧ net_Dial lib (px_history s ++ dials m) (proxy_target env) ≠ None
    end.
Proof.
  revert s. induction n as [|n IH]; intros s; cbn [retry_loop]; rewrite bind_bind, px_bind_ask.
  all: destruct (net_Dial lib (px_history s) (proxy_target env)) as [err|] eqn:E.
  - exists 0%nat. eexists _, _. split; [reflexivity|]. rewrite app_nil_r. split_and!; [lia|done..| |done|by rewrite E].
    intros m Hm. lia.
  - exists 0%nat. eexists _, _. split; [reflexivity|]. rewrite app_nil_r. split_and!; [lia|done..| |done]. intros m Hm. lia.
  - rewrite bind_bind, px_bind_update, bind_ret. cbv beta iota.
    destruct (IH (px_inc_failures "tcp" (px_add_call (TCPDial (proxy_target env)) s))) as (m & err' & s' & E' & Hm & Hh & Hn & Hc & Hf & He).
    exists (S m), err', s'. cbn [px_history px_inc_failures px_add_call] in *. rewrite <- app_assoc in *. cbn [app] in *.
    rewrite dials_S. split_and!; [done|lia|done|done|done| |].
    + intros [|k] Hk; [by rewrite app_nil_r, E|]. specialize (Hf k). rewrite <- app_assoc in Hf. apply Hf. lia.
    + destruct err'; [|done]. destruct He as [-> He]. by split.
  - exists 0%nat. eexists _, _. split; [reflexivity|]. rewrite app_nil_r. split_and!; [lia|done..| |done]. intros m Hm. lia.
Qed.

(** Claim C14. When a user has logged in, the backend is dialled until it answers or the
    timeout leaves no further attempt, then SSH is spoken once, as the configured
    user or the one that logged in; the call returns, and a connection is only made
    to a server whose host key has an allowed fingerprint. *)
Theorem backend_is_verified presented meta s t :
  (∀ h config callback, NewClientConn lib h config callback = None → callback (presented h) = None) →
  pn_lock (px_network s) = false → pn_disconnected (px_network s) = false →
  let limit := px_waits env (px_Timeout (px_config env)) in
  let connect := SSHConnect (proxy_target env) (createClientConfig env (Username (auth_pending meta))) in
  cl_User (createClientConfig env (Username (auth_pending meta))) = backend_user (Username (auth_pending meta)) ∧
  ∃ m conn err s',
    proxy_handshake env meta (s, t) = Done ((conn, err), (s', t)) ∧ (m ≤ limit)%nat ∧ fails_to_dial m (px_history s) ∧
    let dialled := (px_history s ++ dials (S m))%list in
    match conn with
    | Some conn =>
        err = None ∧ px_connections s' !! conn = Some (MkProxyConnection None) ∧ px_history s' = (dialled ++ [connect])%list ∧
        FingerprintSHA256 lib (presented dialled) ∈ px_AllowedHostKeyFingerprints (px_config env)
    | None =>
        is_Some err ∧ px_connections s' = px_connections s ∧
        (m = limit ∧ px_history s' = dialled ∨ px_history s' = (dialled ++ [connect])%list)
    end.
Proof.
  intros Hp Hl Hd. cbn zeta. split.
  { unfold createClientConfig, backend_user. cbn. by destruct (px_UsernamePassThrough _). }
  unfold proxy_handshake. rewrite px_locked_free by done. rewrite px_bind_net, Hd.
  unfold createBackendSSHConnection, createBackendTCPConnection, retry. rewrite !bind_bind, px_bind_update.
  destruct (dial_loop (px_waits env (px_Timeout (px_config env))) (px_inc_requests s) t)
    as (m & err & s1 & E & Hm & Hh & Hn & Hc & Hf & He). cbn [px_history px_inc_requests px_network px_connections] in Hh, Hn, Hc, Hf, He.
  rewrite bind_bind, (bind_done _ _ _ _ _ E). destruct err as [err|].
  - rewrite bind_ret. exists m. eexists _, _, _. split; [reflexivity|]. split_and!; [done|done|by eexists|done|].
    left. by destruct He.
  - repeat px_step. unfold px_ask, HostKeyCallback.
    destruct (NewClientConn _ _ _ _) as [err|] eqn:En; repeat px_step; exists m; eexists _, _, _; (split; [reflexivity|]).
    + split_and!; [done|done|by eexists|done|right]. cbn. by rewrite Hh.
    + cbn in En. apply Hp in En. rewrite Hh in En. unfold HostKeyCallback in En. case_decide; [|done].
      split_and!; [done|done|done| | |done].
      * cbn. by rewrite Hc, lookup_app_r, Nat.sub_diag by done.
      * cbn. by rewrite Hh.
Qed.
End connecting.

(** ** What reaches the client *)

(** What the client of a session sees; a stream is known by its reference. *)
Inductive client_event :=
| Wrote (ref : nat) (data : list byte)
| WriteClosed (session : SessionChannel)
| ExitStatus (session : SessionChannel) (code : Z)
| ExitSignal (session : SessionChannel) (p : exitSignalPayload)
| SessionClosed (session : SessionChannel).

Section client.
Context (env : ProxySurroundings (proxy_store * list client_event)).
Abbreviation W := (proxy_store * list client_event)%type.
Abbreviation lib := (px_library env).
Implicit Types (s : proxy_store) (t : list client_event).

Definition event (ev : client_event) (w : W) : W := (w.1, w.2 ++ [ev])%list.

(** The client's side of a session takes everything; [out] and [err] tell its two
    streams. *)
Record takes_everything (out err : SessionChannel → nat) : Prop := {
  te_Stdout x w : obj_Stdout (px_objects env) x w = Done (out x, w);
  te_Stderr x w : obj_Stderr (px_objects env) x w = Done (err x, w);
  te_Write r d w : obj_Write (px_objects env) r d w = Done (Z.of_nat (length d), None, event (Wrote r d) w);
  te_CloseWrite x w : obj_CloseWrite (px_objects env) x w = Done (None, event (WriteClosed x) w);
  te_ExitStatus x z w : obj_ExitStatus (px_objects env) x z w = Done (tt, event (ExitStatus x z) w);
  te_ExitSignal x a b c d w : obj_ExitSignal (px_objects env) x a b c d w = Done (tt, event (ExitSignal x (MkExitSignal a b c d)) w);
  te_Close x w : obj_Close (px_objects env) x w = Done (None, event (SessionClosed x) w);
}.

Context {out err : SessionChannel → nat} (Hte : takes_everything out err).

(** A request of the backend: what it is for the client, and the answer. *)
Definition tells (session : SessionChannel) (r : ssh_Request) : option client_event :=
  if decide (rq_Type r = "exit-status") then
    match Unmarshal_exitStatus lib (rq_Payload r) with (z, None) => Some (ExitStatus session z) | _ => None end
  else if decide (rq_Type r = "exit-signal") then
    match Unmarshal_exitSignal lib (rq_Payload r) with (p, None) => Some (ExitSignal session p) | _ => None end
  else None.

Definition replied (session : SessionChannel) (r : ssh_Request) : option backend_call :=
  if rq_WantReply r then
    Some (match tells session r with
          | Some _ => RequestReply true []
          | None => RequestReply false (if decide (rq_Type r = "exit-status") then failed_to_decode else [])
          end)
  else None.

Definition reply_calls session (r : ssh_Request) (s : proxy_store) : proxy_store :=
  match replied session r with Some c => px_add_call c s | None => s end.

Lemma reply_calls_history session r s : px_history (reply_calls session r s) = (px_history s ++ option_list (replied session r))%list.
Proof. unfold reply_calls. destruct (replied session r); cbn; by rewrite ?app_nil_r. Qed.
Lemma reply_calls_channels session r s : px_channels (reply_calls session r s) = px_channels s.
Proof. unfold reply_calls. by destruct (replied session r). Qed.

Lemma one_backend_request (session : SessionChannel) r s t :
  (if decide (rq_Type r = "exit-status") then handleExitStatusFromBackend env r session
   else if decide (rq_Type r = "exit-signal") then handleExitSignalFromBackend env r session
   else reply_if_wanted r false []) (s, t) =
  Done (tt, (reply_calls session r s, t ++ option_list (tells session r)))%list.
Proof.
  unfold handleExitStatusFromBackend, handleExitSignalFromBackend, reply_if_wanted, reply_calls, replied, tells.
  destruct (decide (rq_Type r = "exit-status")) as [E1|E1]; [|destruct (decide (rq_Type r = "exit-signal")) as [E2|E2]].
  - destruct (Unmarshal_exitStatus _ _) as [z [e|]]; [destruct (rq_WantReply r); cbn; by rewrite app_nil_r|].
    unfold prog_bind. rewrite (te_ExitStatus _ _ Hte). by destruct (rq_WantReply r).
  - destruct (Unmarshal_exitSignal _ _) as [p [e|]]; [destruct (rq_WantReply r); cbn; by rewrite app_nil_r|].
    unfold prog_bind. rewrite (te_ExitSignal _ _ Hte). destruct p. by destruct (rq_WantReply r).
  - destruct (rq_WantReply r); cbn; by rewrite app_nil_r.
Qed.

(** The requests of the backend on the channel of an open session, up to its end:
    the client gets the exit statuses and signals that can be read, in order and
    unchanged, then the session is closed; each request that wants a reply gets
    one, which says whether it was understood. *)
Theorem exit_reaches_client i c rs s t :
  px_channels s !! i = Some c → px_done c = false →
  let session := px_session c in
  ∃ s', handleBackendClientRequests env i rs (s, t) =
      Done (tt, (s', t ++ omap (tells session) rs ++ [SessionClosed session]))%list ∧
    px_history s' = (px_history s ++ omap (replied session) rs)%list.
Proof.
  cbn zeta. intros Hc Hd. revert s t Hc. induction rs as [|r rs IH]; intros s t Hc; cbn [handleBackendClientRequests].
  - px_step. rewrite Hd. unfold prog_bind. rewrite (te_Close _ _ Hte). exists s. by rewrite app_nil_r.
  - px_step. rewrite Hd, (bind_done _ _ _ _ _ (one_backend_request (px_session c) r s t)).
    destruct (IH (reply_calls (px_session c) r s) (t ++ option_list (tells (px_session c) r))%list) as (s' & -> & Hh).
    { by rewrite reply_calls_channels. }
    exists s'. rewrite Hh, reply_calls_history. cbn [omap list_omap].
    destruct (tells _ r), (replied _ r); cbn; by rewrite <- ?app_assoc, ?app_nil_r.
Qed.

Lemma copy_to_client_all ref chunks s t : copy_to_client env ref chunks (s, t) = Done (tt, (s, t ++ (Wrote ref <$> chunks)))%list.
Proof.
  revert t. induction chunks as [|d chunks IH]; intros t; cbn [copy_to_client]; [by rewrite app_nil_r|].
  unfold prog_bind at 1. rewrite (te_Write _ _ Hte). cbn. unfold event. cbn. by rewrite IH, <- app_assoc.
Qed.

(** One of the two output streams of a program, and the reference of its writer. *)
Definition program_stream (stdout : bool) (i : nat) (chunks : list (list byte)) : prog W unit :=
  if stdout then streamStdout env i chunks else streamStderr env i chunks.
Definition writer_of (stdout : bool) (session : SessionChannel) : nat := if stdout then out session else err session.

Lemma stream_copied b i c n chunks s t :
  px_channels s !! i = Some c → px_outWg c = n → 1 ≤ n →
  program_stream b i chunks (s, t) =
    Done (tt, (px_set_channels (alter (px_set_outWg (n - 1)) i (px_channels s)) s,
               t ++ (Wrote (writer_of b (px_session c)) <$> chunks)))%list.
Proof.
  intros Hc Hn H1. unfold program_stream, writer_of, streamStdout, streamStderr. destruct b; px_step; unfold prog_bind at 1;
    rewrite ?(te_Stdout _ _ Hte), ?(te_Stderr _ _ Hte), (bind_done _ _ _ _ _ (copy_to_client_all _ _ _ _)); unfold outWg_Done;
    px_step; by rewrite decide_False by lia; subst n.
Qed.

Lemma close_waits i c s t :
  px_channels s !! i = Some c →
  closeOnOutputComplete env i (s, t) =
    if decide (px_outWg c = 0) then Done (tt, (s, t ++ [WriteClosed (px_session c)]))%list else Blocked "sync.WaitGroup.Wait".
Proof.
  intros Hc. unfold closeOnOutputComplete. px_step. case_decide; [by rewrite decide_False by lia|].
  rewrite decide_True by lia. unfold prog_bind. by rewrite (te_CloseWrite _ _ Hte).
Qed.

(** The output of a program: both streams reach the client unchanged, whichever
    ends first, and the client is told the end of the output once both have ended,
    not before. *)
Theorem output_is_proxied i c first first_chunks second_chunks s t :
  px_channels s !! i = Some c → px_outWg c = 2 →
  let output b chunks := Wrote (writer_of b (px_session c)) <$> chunks in
  ∃ s1 s2,
    program_stream first i first_chunks (s, t) = Done (tt, (s1, t ++ output first first_chunks))%list ∧
    (∀ t', closeOnOutputComplete env i (s1, t') = Blocked "sync.WaitGroup.Wait") ∧
    (do* program_stream first i first_chunks in
     do* program_stream (negb first) i second_chunks in closeOnOutputComplete env i) (s, t) =
      Done (tt, (s2, t ++ output first first_chunks ++ output (negb first) second_chunks ++ [WriteClosed (px_session c)]))%list ∧
    px_history s2 = px_history s.
Proof.
  intros Hc Hw. cbn zeta. pose proof (stream_copied first i c 2 first_chunks s t Hc Hw ltac:(lia)) as H1.
  set (s1 := px_set_channels _ s) in H1. set (t1 := (t ++ _)%list) in H1.
  assert (px_channels s1 !! i = Some (px_set_outWg 1 c)) as Hc1 by (cbn; by rewrite list_lookup_alter_eq, Hc).
  pose proof (stream_copied (negb first) i _ 1 second_chunks s1 t1 Hc1 eq_refl ltac:(lia)) as H2.
  set (s2 := px_set_channels _ s1) in H2.
  assert (px_channels s2 !! i = Some (px_set_outWg 0 (px_set_outWg 1 c))) as Hc2 by (cbn; by rewrite !list_lookup_alter_eq, Hc).
  exists s1, s2. split_and!; [done| | |done].
  - intros t'. by rewrite (close_waits i _ _ _ Hc1).
  - rewrite (bind_done _ _ _ _ _ H1), (bind_done _ _ _ _ _ H2), (close_waits i _ _ _ Hc2). cbn. subst t1. by rewrite <- !app_assoc.
Qed.
End client.

(** ** Deviations *)

Section deviations.
Context {T : Type} (env : ProxySurroundings (proxy_store * T)).
Abbreviation W := (proxy_store * T)%type.
Abbreviation lib := (px_library env).
Implicit Types (s : proxy_store) (t : T).

Definition reverse_types : list string := ["x11"; "forwarded-streamlocal@openssh.com"; "forwarded-tcpip"].

(** A backend that opens a forwarded channel nobody asked for stops the server
    process; after a request for X11 forwarding that the backend has accepted even
    the channel that was asked for does. *)
Theorem unrequested_channel_panics conn newChannel s t :
  nc_ChannelType newChannel ∈ reverse_types → px_connections s !! conn = Some (MkProxyConnection None) →
  proxy_handleChannel env conn newChannel (s, t) = Panic nil_pointer ∧
  (∀ i c single protocol cookie screen, px_channels s !! i = Some c →
    ∃ answer s', proxy_OnX11Request env i single protocol cookie screen (s, t) = Done (answer, (s', t)) ∧
      proxy_handleChannel env conn newChannel (s', t) = Panic nil_pointer).
Proof.
  intros Ht. 
  assert (∀ s, px_connections s !! conn = Some (MkProxyConnection None) →
    proxy_handleChannel env conn newChannel (s, t) = Panic nil_pointer) as Hp.
  { intros s' Hc. unfold proxy_handleChannel, handleX11Channel, handleStreamLocalChannel, handleReverseForwardChannel.
    destruct (Unmarshal_X11 _ _) as [[? ?] ?], (Unmarshal_StreamLocal _ _) as [? ?], (Unmarshal_ForwardTCP _ _) as [[[[? ?] ?] ?] ?].
    unfold start_forward. repeat case_decide; try (by rewrite (px_bind_connection_at _ _ _ _ _ Hc)).
    unfold reverse_types in Ht. set_solver. }
  intros Hc. split; [by apply Hp|]. intros i c single protocol cookie screen Hi. unfold proxy_OnX11Request, sendRequest.
  repeat px_step. eexists _, _. split; [reflexivity|]. by apply Hp.
Qed.

(** So does a forwarded channel the client does not take: the copying starts
    without it. *)
Theorem refused_forward_panics conn newChannel r server s s1 t t1 errs chunks :
  nc_ChannelType newChannel ∈ reverse_types → px_connections s !! conn = Some (MkProxyConnection (Some r)) →
  (∀ a b c d w, NewChannelTCP (px_reverse_at env r) a b c d w = Done (None, 0, Some errs, w)) →
  (∀ a w, NewChannelUnix (px_reverse_at env r) a w = Done (None, 0, Some errs, w)) →
  (∀ a b w, NewChannelX11 (px_reverse_at env r) a b w = Done (None, 0, Some errs, w)) →
  newChannel_Accept lib (px_history s) (nc_id newChannel) = inl server →
  proxy_handleChannel env conn newChannel (s, t) = Done (tt, (s1, t1)) →
  handleForward_to_client env (length (px_forwards s)) chunks (s1, t1) = Panic nil_pointer ∧
  handleForward_to_server env (length (px_forwards s)) chunks (s1, t1) = Panic nil_pointer.
Proof.
  intros Ht Hc H1 H2 H3 Ha. unfold proxy_handleChannel, handleX11Channel, handleStreamLocalChannel, handleReverseForwardChannel.
  destruct (Unmarshal_X11 _ _) as [[? ?] ?], (Unmarshal_StreamLocal _ _) as [? ?], (Unmarshal_ForwardTCP _ _) as [[[[? ?] ?] ?] ?].
  unfold start_forward. intros E.
  assert (px_forwards s1 = px_forwards s ++ [MkProxyForward None (Some server) false])%list as Hf.
  { revert E. repeat case_decide; [..|exfalso; unfold reverse_types in Ht; set_solver].
    all: rewrite (px_bind_connection_at _ _ _ _ _ Hc); cbn [pc_reverseHandler]; unfold prog_bind at 1; rewrite ?H1, ?H2, ?H3;
      unfold prog_bind, px_ask, px_store, px_update; cbn; rewrite Ha; by intros [= <- <-]. }
  assert (px_forwards s1 !! length (px_forwards s) = Some (MkProxyForward None (Some server) false)) as Hl
    by by rewrite Hf, lookup_app_r, Nat.sub_diag by done.
  unfold handleForward_to_client, handleForward_to_server. by rewrite !(px_bind_forward_at _ _ _ _ _ Hl).
Qed.

(** When the client has no more input, the whole channel to the backend is closed,
    while the program still runs and its output is still to come. *)
Theorem input_end_closes_session i c chunks s t :
  px_channels s !! i = Some c → (∀ h d, channel_Write lib h (px_backingChannel c) d = None) →
  ∃ s', streamStdin env i chunks (s, t) = Done (tt, (s', t)) ∧
    px_history s' = (px_history s ++ (ChannelWrite (px_backingChannel c) <$> chunks) ++
      [ChannelCloseWrite (px_backingChannel c); ChannelClose (px_backingChannel c)])%list ∧
    px_channels s' !! i = Some c.
Proof.
  intros Hc Hw. unfold streamStdin. px_step.
  assert (∃ s1, copy_to_backend env (px_backingChannel c) chunks (s, t) = Done (tt, (s1, t)) ∧
    px_history s1 = px_history s ++ (ChannelWrite (px_backingChannel c) <$> chunks) ∧ px_channels s1 = px_channels s)%list
    as (s1 & E & Hh & Hch).
  { clear Hc. revert s. induction chunks as [|d chunks IH]; intros s; cbn [copy_to_backend]; [exists s; by rewrite app_nil_r|].
    px_step. rewrite Hw. destruct (IH (px_add_call (ChannelWrite (px_backingChannel c) d) s)) as (s1 & -> & Hh & Hch).
    exists s1. rewrite Hh, Hch. cbn. by rewrite <- app_assoc. }
  rewrite (bind_done _ _ _ _ _ E), px_bind_tell. eexists. split; [reflexivity|]. cbn. rewrite Hh, Hch. split; [|done].
  by rewrite <- !app_assoc.
Qed.
End deviations.

(** * Examples

    A backend that takes everything but environment variables. *)
Module proxy_demo.

Abbreviation W := (proxy_store * list client_event)%type.

Definition the_key : list byte := [x01].

Definition lib : ProxyLibrary :=
  MkProxyLibrary
    (λ h _, match h with [] => Some (ErrorString "refused") | _ => None end)
    (λ _ _ callback, callback the_key)
    (λ _, "SHA256:abc")
    (λ h _ _ _, inl (length h)) (λ _ _ _ _, inl true)
    (λ _ _ name _, inl (negb (bool_decide (name = "env")))) (λ _ _ _, None) (λ h _, inl (length h)) (λ _, None)
    (λ d, (Z.of_nat (length d), None)) (λ _, (MkExitSignal "TERM" false "" "", None))
    (λ _, ("", 0, "", 0, None)) (λ _, ("", None)) (λ _, ("", 0, None)).

Definition refusing : ReverseForward W :=
  MkReverseForward W (λ _ _ _ _, prog_ret (None, 0, Some (ErrorString "no"))) (λ _, prog_ret (None, 0, Some (ErrorString "no")))
    (λ _ _, prog_ret (None, 0, Some (ErrorString "no"))).

Definition client : Objects W :=
  MkObjects W (λ r, prog_ret r) (λ r, prog_ret r) (λ r, prog_ret (r + 100)%nat) (λ x z w, Done (tt, event (ExitStatus x z) w))
    (λ x a b c d w, Done (tt, event (ExitSignal x (MkExitSignal a b c d)) w)) (λ x w, Done (None, event (WriteClosed x) w))
    (λ x w, Done (None, event (SessionClosed x) w)) (λ _ _, prog_ret ([], None))
    (λ r d w, Done (Z.of_nat (length d), None, event (Wrote r d) w)).

Definition config : SSHProxyConfig :=
  MkSSHProxyConfig "backend" 22 true "" "secret" "" ["SHA256:abc"] [] [] [] [] 0 "SSH-2.0-x".

Definition env : ProxySurroundings W := MkProxySurroundings W lib config None (λ _, 3%nat) (λ _, 0%nat) (λ _, refusing) client.

Definition fresh : proxy_store := MkProxyStore [] (MkProxyNetwork false 0 false false false) [] [] [] 0 [].

Definition meta : ConnectionAuthenticatedMetadata :=
  MkAuthenticated (MkAuthPending (MkConnectionMetadata (MkRemoteAddress [] 0) "id" None None None) "" "bob") "bob".

Definition connected : proxy_store := match proxy_handshake env meta (fresh, []) with Done (_, w) => w.1 | _ => fresh end.
Definition opened : proxy_store :=
  match proxy_OnSessionChannel env 0 [] 5%nat (connected, []) with Done (_, w) => w.1 | _ => fresh end.
Definition opened_channel : sshChannelHandler := MkSSHChannelHandler 3 5 false false false 0.

Lemma backend_is_verified_witness :
  ∃ m conn err s', proxy_handshake env meta (fresh, []) = Done ((conn, err), (s', [])) ∧ (m ≤ 3)%nat ∧
    match conn with Some _ => FingerprintSHA256 lib the_key ∈ ["SHA256:abc"] | None => is_Some err end.
Proof.
  destruct (backend_is_verified env (λ _, the_key) meta fresh []) as (_ & m & conn & err & s' & H1 & H2 & _ & H3).
  { intros h c callback. exact (λ H, H). }
  { reflexivity. }
  { reflexivity. }
  exists m, conn, err, s'. split; [exact H1|]. split; [exact H2|]. destruct conn; [apply H3|apply H3].
Defined.

Definition requests : list (session_request W) :=
  [ReqSignal 1 "INT"; ReqEnv 2 "A" "1"; ReqExec 3 "ls"; ReqShell 4; ReqWindow 5 80 25 0 0].

Lemma session_requests_are_proxied_witness :
  ∃ answers s', proxy_serve env 0 requests (opened, []) = Done (answers, (s', [])) ∧
    (λ a, bool_decide (a = None)) <$> answers = [false; false; true; false; true] ∧
    px_history s' = (px_history opened ++ [ChannelRequest 3 "env" (envRequestPayload "A" "1");
      ChannelRequest 3 "exec" (execRequestPayload "ls"); ChannelRequest 3 "window-change" (windowRequestPayload 80 25 0 0)])%list.
Proof.
  destruct (session_requests_are_proxied env 0 opened_channel requests opened [] ltac:(vm_compute; reflexivity))
    as (answers & s' & H1 & H2 & H3 & _).
  exists answers, s'. split; [exact H1|]. split; [exact H2|exact H3].
Defined.

Lemma demo_quiet_client : quiet_client env.
Proof. split; by intros. Qed.

Definition is_done {A} (o : outcome A) : bool := match o with Done _ => true | _ => false end.

Definition ops : list (proxy_op W) := [PSession 0 [] 5; PRequest 0 (ReqShell 1); PForwardTCP 0 "host" 80 "" 0; PClose 0].

Lemma wlp_is_done {A} (c : prog W A) w Q : wlp c w Q → is_done (c w) = true → ∃ a w', c w = Done (a, w') ∧ Q a w'.
Proof. unfold wlp. destruct (c w) as [[a w']|?|?]; [|done..]. intros H _. by exists a, w'. Qed.

Lemma disconnect_waits_for_forwards_witness :
  ∃ w, range ops (proxy_call env) (connected, []) = Done (tt, w) ∧ proxy_OnDisconnect w = Blocked "sync.WaitGroup.Wait".
Proof.
  pose proof (disconnect_waits_for_forwards env demo_quiet_client ops connected [] ltac:(vm_compute; reflexivity)
    ltac:(vm_compute; reflexivity) ltac:(vm_compute; reflexivity) ltac:(vm_compute; reflexivity)) as H.
  destruct (wlp_is_done _ _ _ H ltac:(vm_compute; reflexivity)) as ([] & w & E & _ & Hb).
  exists w. split; [exact E|]. rewrite decide_False in Hb; [exact Hb|]. intros [_ Hf]. exact (Z.neq_succ_diag_l 0 Hf).
Defined.

Lemma takes_all : takes_everything env (λ r, r) (λ r, r + 100)%nat.
Proof. by split. Qed.

Lemma exit_reaches_client_witness :
  ∃ s', handleBackendClientRequests env 0 [MkRequest "exit-status" true [x00; x00; x00]] (opened, []) =
      Done (tt, (s', [ExitStatus 5 3; SessionClosed 5])) ∧ px_history s' = (px_history opened ++ [RequestReply true []])%list.
Proof.
  destruct (exit_reaches_client env takes_all 0 opened_channel [MkRequest "exit-status" true [x00; x00; x00]] opened [])
    as (s' & H1 & H2); [vm_compute; reflexivity|reflexivity|].
  exists s'. split; [exact H1|exact H2].
Defined.

Definition running : proxy_store := match proxy_OnShell env 0 (opened, []) with Done (_, w) => w.1 | _ => fresh end.

Lemma output_is_proxied_witness :
  ∃ s2, (do* program_stream env false 0 [[x02]] in do* program_stream env true 0 [[x00]; [x01]] in closeOnOutputComplete env 0) (running, []) =
      Done (tt, (s2, [Wrote 105 [x02]; Wrote 5 [x00]; Wrote 5 [x01]; WriteClosed 5])).
Proof.
  destruct (output_is_proxied env takes_all 0 (px_set_started opened_channel) false [[x02]] [[x00]; [x01]] running [])
    as (s1 & s2 & _ & _ & H & _); [vm_compute; reflexivity|reflexivity|].
  exists s2. exact H.
Defined.

(** The backend opens a channel for X11 connections after the request for them. *)
Lemma unrequested_channel_panics_witness :
  ∃ answer s', proxy_OnX11Request env 0 false "MIT" "cookie" 0 (opened, []) = Done (answer, (s', [])) ∧
    proxy_handleChannel env 0 (MkNewChannel 1 "x11" []) (s', []) = Panic nil_pointer.
Proof.
  refine (proj2 (unrequested_channel_panics env 0 (MkNewChannel 1 "x11" []) opened [] _ _) 0%nat opened_channel _ _ _ _ _).
  - left.
  - vm_compute. reflexivity.
  - vm_compute. reflexivity.
Defined.
End proxy_demo.
