(* ===== verification/AuditSpec.v ===== *)
(** * What the audit log records

    Theorems on [AuditMessage] and [AuditLog]: comparison of messages, every
    call recorded as one message that the codec tables know, the complete trail
    of a connection, and the interception of input and output. *)

From stdpp Require Import base gmap strings list.
From Stdlib Require Import Strings.Byte.
From S2P Require Import Prelude Messages Metadata Handler AuditMessage AuditLog.

Local Open Scope Z_scope.
Local Arguments log : simpl never.

(** The Go struct behind a payload. *)
Definition payload_kind (p : Payload) : string :=
  match p with
  | PayloadConnect _ _ => "PayloadConnect"
  | PayloadAuthPassword _ _ => "PayloadAuthPassword"
  | PayloadAuthPasswordSuccessful _ _ _ _ _ _ => "PayloadAuthPasswordSuccessful"
  | PayloadAuthPasswordBackendError _ _ _ => "PayloadAuthPasswordBackendError"
  | PayloadAuthPubKey _ _ => "PayloadAuthPubKey"
  | PayloadAuthPubKeyBackendError _ _ _ => "PayloadAuthPubKeyBackendError"
  | PayloadAuthKeyboardInteractiveChallenge _ _ _ => "PayloadAuthKeyboardInteractiveChallenge"
  | PayloadAuthKeyboardInteractiveAnswer _ _ => "PayloadAuthKeyboardInteractiveAnswer"
  | PayloadAuthKeyboardInteractiveFailed _ => "PayloadAuthKeyboardInteractiveFailed"
  | PayloadAuthKeyboardInteractiveBackendError _ _ => "PayloadAuthKeyboardInteractiveBackendError"
  | PayloadHandshakeFailed _ => "PayloadHandshakeFailed"
  | PayloadHandshakeSuccessful _ => "PayloadHandshakeSuccessful"
  | PayloadGlobalRequestUnknown _ => "PayloadGlobalRequestUnknown"
  | PayloadGlobalRequestDecodeFailed _ _ _ _ => "PayloadGlobalRequestDecodeFailed"
  | PayloadNewChannel _ => "PayloadNewChannel"
  | PayloadNewChannelFailed _ _ => "PayloadNewChannelFailed"
  | PayloadNewChannelSuccessful _ => "PayloadNewChannelSuccessful"
  | PayloadRequestReverseForward _ _ => "PayloadRequestReverseForward"
  | PayloadNewForwardChannel _ _ _ _ => "PayloadNewForwardChannel"
  | PayloadNewReverseForwardChannel _ _ _ _ => "PayloadNewReverseForwardChannel"
  | PayloadNewReverseX11ForwardChannel _ _ => "PayloadNewReverseX11ForwardChannel"
  | PayloadRequestStreamLocal _ => "PayloadRequestStreamLocal"
  | PayloadChannelRequestUnknownType _ _ _ => "PayloadChannelRequestUnknownType"
  | PayloadChannelRequestDecodeFailed _ _ _ _ => "PayloadChannelRequestDecodeFailed"
  | PayloadChannelRequestSetEnv _ _ _ => "PayloadChannelRequestSetEnv"
  | PayloadChannelRequestExec _ _ => "PayloadChannelRequestExec"
  | PayloadChannelRequestPty _ _ _ _ _ _ _ => "PayloadChannelRequestPty"
  | PayloadChannelRequestX11 _ _ _ _ _ => "PayloadChannelRequestX11"
  | PayloadChannelRequestShell _ => "PayloadChannelRequestShell"
  | PayloadChannelRequestSignal _ _ => "PayloadChannelRequestSignal"
  | PayloadChannelRequestSubsystem _ _ => "PayloadChannelRequestSubsystem"
  | PayloadChannelRequestWindow _ _ _ _ _ => "PayloadChannelRequestWindow"
  | PayloadExit _ => "PayloadExit"
  | PayloadExitSignal _ _ _ _ => "PayloadExitSignal"
  | PayloadIO _ _ => "PayloadIO"
  | PayloadRequestFailed _ _ => "PayloadRequestFailed"
  end.

(** Two messages are equal for [Equals] exactly when they agree on everything
    but the fields the payload comparisons leave out: the country of a connect
    message, the metadata of a successful password login, and the raw bytes of
    unknown or undecodable requests. *)
Theorem message_equals_iff m other :
  Message_Equals m other = true ↔
  ConnectionID m = ConnectionID other ∧ Timestamp m = Timestamp other ∧
  MessageType m = MessageType other ∧ ChannelID m = ChannelID other ∧
  erase <$> msg_Payload m = erase <$> msg_Payload other.
Proof.
  assert (∀ p q, Some (erase p) = Some (erase q) ↔ Equals p q = true) as He.
  { intros p q. rewrite Equals_erase. split; [by intros [= ?] | by intros ->]. }
  unfold Message_Equals.
  repeat (case_decide; [by split; [discriminate | intros (? & ? & ? & ? & _)]|]).
  destruct (msg_Payload m) as [p|], (msg_Payload other) as [q|]; cbn; rewrite ?He;
    (split; [intros HE; do 4 (split; [assumption|]); done | by intros (_ & _ & _ & _ & HE)]).
Qed.

(** ** One call, one message *)

(** The payload of the message is the kind the type's template announces. *)
Definition well_typed (m : Message) : Prop :=
  ∃ template, Type_Payload (MessageType m) = Some template ∧
    payload_kind <$> template = payload_kind <$> msg_Payload m.

(** The two calls that take an error need one. *)
Definition call_ok (c : audit_call) : Prop :=
  match c with
  | Call_OnGlobalRequestDecodeFailed _ _ _ reason => reason ≠ None
  | CallChannel_OnRequestFailed _ _ reason => reason ≠ None
  | _ => True
  end.

Definition text_of_reason (reason : option error) : string := from_option Error "" reason.

(** The message that stands for a call: the number of its type in the format of
    the audit log, a payload with all that was passed, and the channel, if the
    call is about one. *)
Definition call_message (id : string) (now : Z) (c : audit_call) : Message :=
  let msg number payload channelID := MkMessage id now number payload channelID in
  match c with
  | Call_OnAuthPassword username password => msg 100 (Some (PayloadAuthPassword username password)) None
  | Call_OnAuthPasswordSuccess username password => msg 101 (Some (PayloadAuthPassword username password)) None
  | Call_OnAuthPasswordFailed username password => msg 102 (Some (PayloadAuthPassword username password)) None
  | Call_OnAuthPasswordBackendError username password reason => msg 103 (Some (PayloadAuthPasswordBackendError
      username password reason)) None
  | Call_OnAuthPubKey username pubKey => msg 104 (Some (PayloadAuthPubKey username pubKey)) None
  | Call_OnAuthPubKeySuccess username pubKey => msg 105 (Some (PayloadAuthPubKey username pubKey)) None
  | Call_OnAuthPubKeyFailed username pubKey => msg 106 (Some (PayloadAuthPubKey username pubKey)) None
  | Call_OnAuthPubKeyBackendError username pubKey reason => msg 107 (Some (PayloadAuthPubKeyBackendError username
      pubKey reason)) None
  | Call_OnAuthKeyboardInteractiveChallenge username instruction questions => msg 108 (Some
      (PayloadAuthKeyboardInteractiveChallenge username instruction questions)) None
  | Call_OnAuthKeyboardInteractiveAnswer username answers => msg 109 (Some (PayloadAuthKeyboardInteractiveAnswer
      username answers)) None
  | Call_OnAuthKeyboardInteractiveFailed username => msg 110 (Some (PayloadAuthKeyboardInteractiveFailed username))
      None
  | Call_OnAuthKeyboardInteractiveBackendError username reason => msg 111 (Some
      (PayloadAuthKeyboardInteractiveBackendError username reason)) None
  | Call_OnHandshakeFailed reason => msg 198 (Some (PayloadHandshakeFailed reason)) None
  | Call_OnHandshakeSuccessful username => msg 199 (Some (PayloadHandshakeSuccessful username)) None
  | Call_OnGlobalRequestUnknown requestType => msg 200 (Some (PayloadGlobalRequestUnknown requestType)) None
  | Call_OnGlobalRequestDecodeFailed requestID requestType payload reason => msg 201 (Some
      (PayloadGlobalRequestDecodeFailed requestID requestType payload (text_of_reason reason))) None
  | Call_OnNewChannel channelID channelType => msg 300 (Some (PayloadNewChannel channelType)) channelID
  | Call_OnNewChannelFailed channelID channelType reason => msg 302 (Some (PayloadNewChannelFailed channelType
      reason)) channelID
  | Call_OnNewChannelSuccess channelID channelType => msg 301 (Some (PayloadNewChannelSuccessful channelType))
      channelID
  | Call_OnRequestTCPReverseForward bindHost bindPort => msg 202 (Some (PayloadRequestReverseForward bindHost
      bindPort)) None
  | Call_OnRequestCancelTCPReverseForward bindHost bindPort => msg 203 (Some (PayloadRequestReverseForward bindHost
      bindPort)) None
  | Call_OnTCPForwardChannel channelID hostToConnect portToConnect originatorHost originatorPort => msg 303 (Some
      (PayloadNewForwardChannel hostToConnect portToConnect originatorHost originatorPort)) channelID
  | Call_OnReverseForwardChannel channelID connectedHost connectedPort originatorHost originatorPort => msg 304 (Some
      (PayloadNewReverseForwardChannel connectedHost connectedPort originatorHost originatorPort)) channelID
  | Call_OnReverseStreamLocalChannel channelID path => msg 307 (Some (PayloadRequestStreamLocal path)) channelID
  | Call_OnReverseX11ForwardChannel channelID originatorHost originatorPort => msg 305 (Some
      (PayloadNewReverseX11ForwardChannel originatorHost originatorPort)) channelID
  | Call_OnDirectStreamLocal channelID path => msg 306 (Some (PayloadRequestStreamLocal path)) channelID
  | Call_OnRequestStreamLocal path => msg 204 (Some (PayloadRequestStreamLocal path)) None
  | Call_OnRequestCancelStreamLocal path => msg 205 (Some (PayloadRequestStreamLocal path)) None
  | CallChannel_OnRequestUnknown channelID requestID requestType payload => msg 400 (Some
      (PayloadChannelRequestUnknownType requestID requestType payload)) channelID
  | CallChannel_OnRequestDecodeFailed channelID requestID requestType payload reason => msg 401 (Some
      (PayloadChannelRequestDecodeFailed requestID requestType payload reason)) channelID
  | CallChannel_OnRequestSetEnv channelID requestID name value_ => msg 402 (Some (PayloadChannelRequestSetEnv
      requestID name value_)) channelID
  | CallChannel_OnRequestExec channelID requestID program => msg 403 (Some (PayloadChannelRequestExec requestID
      program)) channelID
  | CallChannel_OnRequestPty channelID requestID term columns rows width height modelist => msg 404 (Some
      (PayloadChannelRequestPty requestID term columns rows width height modelist)) channelID
  | CallChannel_OnRequestX11 channelID requestID singleConnection protocol cookie screen => msg 409 (Some
      (PayloadChannelRequestX11 requestID singleConnection protocol cookie screen)) channelID
  | CallChannel_OnRequestShell channelID requestID => msg 405 (Some (PayloadChannelRequestShell requestID)) channelID
  | CallChannel_OnRequestSignal channelID requestID signal => msg 406 (Some (PayloadChannelRequestSignal requestID
      signal)) channelID
  | CallChannel_OnRequestSubsystem channelID requestID subsystem => msg 407 (Some (PayloadChannelRequestSubsystem
      requestID subsystem)) channelID
  | CallChannel_OnRequestWindow channelID requestID columns rows width height => msg 408 (Some
      (PayloadChannelRequestWindow requestID columns rows width height)) channelID
  | CallChannel_io channelID stream data => msg 500 (Some (PayloadIO stream data)) channelID
  | CallChannel_OnRequestFailed channelID requestID reason => msg 501 (Some (PayloadRequestFailed requestID
      (text_of_reason reason))) channelID
  | CallChannel_OnExit channelID exitStatus => msg 499 (Some (PayloadExit exitStatus)) channelID
  | CallChannel_OnExitSignal channelID signal coreDumped errorMessage languageTag => msg 498 (Some (PayloadExitSignal
      signal coreDumped errorMessage languageTag)) channelID
  | CallChannel_OnWriteClose channelID => msg 496 None channelID
  | CallChannel_OnClose channelID => msg 497 None channelID
  end.

(** The identifier and the name of the call's type; the tables leave out the
    types of the two handshake calls. *)
Definition call_names (c : audit_call) : string * string :=
  match c with
  | Call_OnAuthPassword _ _ => ("auth_password", "Password authentication")
  | Call_OnAuthPasswordSuccess _ _ => ("auth_password_successful", "Password authentication successful")
  | Call_OnAuthPasswordFailed _ _ => ("auth_password_failed", "Password authentication failed")
  | Call_OnAuthPasswordBackendError _ _ _ => ("auth_password_backend_error", "Password authentication backend error")
  | Call_OnAuthPubKey _ _ => ("auth_pubkey", "Public key authentication")
  | Call_OnAuthPubKeySuccess _ _ => ("auth_pubkey_successful", "Public key authentication successful")
  | Call_OnAuthPubKeyFailed _ _ => ("auth_pubkey_failed", "Public key authentication failed")
  | Call_OnAuthPubKeyBackendError _ _ _ => ("auth_pubkey_backend_error", "Public key authentication backend error")
  | Call_OnAuthKeyboardInteractiveChallenge _ _ _ =>
      ("auth_keyboard_interactive_challenge", "Keyboard-interactive authentication challenge")
  | Call_OnAuthKeyboardInteractiveAnswer _ _ =>
      ("auth_keyboard_interactive_answer", "Keyboard-interactive authentication answer")
  | Call_OnAuthKeyboardInteractiveFailed _ =>
      ("auth_keyboard_interactive_failed", "Keyboard-interactive authentication failed")
  | Call_OnAuthKeyboardInteractiveBackendError _ _ =>
      ("auth_keyboard_interactive_backend_error", "Keyboard-interactive authentication backend error")
  | Call_OnHandshakeFailed _ => ("invalid", "invalid")
  | Call_OnHandshakeSuccessful _ => ("invalid", "invalid")
  | Call_OnGlobalRequestUnknown _ => ("global_request_unknown", "Unknown global request")
  | Call_OnGlobalRequestDecodeFailed _ _ _ _ => ("global_request_decode_failed", "Failed to decode global request")
  | Call_OnNewChannel _ _ => ("new_channel", "New channel request")
  | Call_OnNewChannelFailed _ _ _ => ("new_channel_failed", "New channel failed")
  | Call_OnNewChannelSuccess _ _ => ("new_channel_successful", "New channel successful")
  | Call_OnRequestTCPReverseForward _ _ => ("forward_tcpip", "Request reverse port forwarding")
  | Call_OnRequestCancelTCPReverseForward _ _ => ("cancel_forward_tcpip", "Request to stop reverse port forwarding")
  | Call_OnTCPForwardChannel _ _ _ _ _ => ("new_channel_direct_tcpip", "New client-to-server port forwarding channel")
  | Call_OnReverseForwardChannel _ _ _ _ _ =>
      ("new_channel_forwarded_tcpip", "New server-to-client port forwarding channel")
  | Call_OnReverseStreamLocalChannel _ _ =>
      ("new_channel_forwarded_streamlocal", "New server-to-client unix socket forwarding channel")
  | Call_OnReverseX11ForwardChannel _ _ _ => ("new_channel_x11", "New server-to-client X11 forwarding channel")
  | Call_OnDirectStreamLocal _ _ =>
      ("new_channel_direct_streamlocal", "New client-to-server unix socket forwarding channel")
  | Call_OnRequestStreamLocal _ => ("forward_streamlocal", "Request reverse socket forwarding")
  | Call_OnRequestCancelStreamLocal _ => ("cancel_forward_streamlocal", "Request to stop reverse socket forwarding")
  | CallChannel_OnRequestUnknown _ _ _ _ => ("channel_request_unknown", "Unknown channel request")
  | CallChannel_OnRequestDecodeFailed _ _ _ _ _ =>
      ("channel_request_decode_failed", "Failed to decode channel request")
  | CallChannel_OnRequestSetEnv _ _ _ _ => ("setenv", "Set environment variable")
  | CallChannel_OnRequestExec _ _ _ => ("exec", "Execute program")
  | CallChannel_OnRequestPty _ _ _ _ _ _ _ _ => ("pty", "Request interactive terminal")
  | CallChannel_OnRequestX11 _ _ _ _ _ _ => ("x11-req", "Request X11 forwarding")
  | CallChannel_OnRequestShell _ _ => ("shell", "Run shell")
  | CallChannel_OnRequestSignal _ _ _ => ("signal", "Send signal to running process")
  | CallChannel_OnRequestSubsystem _ _ _ => ("subsystem", "Request subsystem")
  | CallChannel_OnRequestWindow _ _ _ _ _ _ => ("window", "Change window size")
  | CallChannel_io _ _ _ => ("io", "I/O")
  | CallChannel_OnRequestFailed _ _ _ => ("request_failed", "Request failed")
  | CallChannel_OnExit _ _ => ("exit", "Program exited")
  | CallChannel_OnExitSignal _ _ _ _ _ => ("exit_signal", "Program exited with signal")
  | CallChannel_OnWriteClose _ => ("close_write", "Close channel for writing")
  | CallChannel_OnClose _ => ("close", "Close channel")
  end.

(** The logger once the encoder has taken [m]. *)
Definition took (stops : list Message → bool) (m : Message) (l : loggerConnection) : loggerConnection :=
  MkLoggerConnection (lc_connectionID l) (lc_closed l) (lc_chanClosed l) (lc_received l ++ [m])
    (negb (stops (lc_received l ++ [m]))).

Definition accepts (l : loggerConnection) : Prop :=
  lc_closed l = false ∧ lc_chanClosed l = false ∧ lc_reading l = true.

(** The message of a call: the one it stands for, with a payload that the
    decoder expects and names that a reader of the log sees. *)
Definition records (id : string) (now : Z) (c : audit_call) (m : Message) : Prop :=
  m = call_message id now c ∧ well_typed m ∧ (Type_ID (MessageType m), Type_Name (MessageType m)) = call_names c.

Lemma call_not_disconnect id now c : MessageType (call_message id now c) ≠ TypeDisconnect.
Proof. by destruct c. Qed.

Lemma call_records id now c : records id now c (call_message id now c).
Proof. split; [done|]. destruct c; (split; [eexists; split; vm_compute; reflexivity | vm_compute; reflexivity]). Qed.

(** Every call comes down to logging its message. *)
Lemma audit_exec_log stops now c l :
  call_ok c → audit_exec stops now c l = log stops (call_message (lc_connectionID l) now c) l.
Proof.
  intros Hc. destruct c; cbn in Hc |- *; try (destruct reason; [|done]); try reflexivity.
  unfold loggerConnection_OnNewChannelSuccess, prog_bind, get.
  unfold call_message, TypeNewChannelSuccessful.
  match goal with |- context [log stops ?m l] => by destruct (log stops m l) as [[[] l']| |] end.
Qed.

Lemma log_takes stops m l : accepts l → log stops m l = Done (tt, took stops m l).
Proof. intros (H1 & H2 & H3). unfold log, took. run_prog. by rewrite H1, H2, H3. Qed.

(** Claim C40. Every call on an open connection or channel logger, whose encoder still
    reads, hands the encoder exactly one message: the one that the table
    [call_message] gives for the call, with the number of its type, the
    connection's identifier, the time, the channel and everything that was
    passed; its payload is of the kind that the decoder expects for the type,
    and the type has the identifier and the name of the table (for the two
    handshake calls there are none). *)
Theorem audit_calls_record_one_message stops now c l :
  accepts l → call_ok c →
  ∃ m, audit_exec stops now c l = Done (tt, took stops m l) ∧ records (lc_connectionID l) now c m.
Proof.
  intros Hl Hc. eexists. split; [|apply call_records]. by rewrite audit_exec_log, log_takes.
Qed.

(** *** An encoder that writes what it gets *)

(** It only ever stops at the disconnect message. *)
Definition healthy (stops : list Message → bool) : Prop :=
  ∀ received, at_disconnect received = false → stops received = false.

Lemma at_disconnect_healthy : healthy at_disconnect.
Proof. by intros l. Qed.

Definition append_message (m : Message) (l : loggerConnection) : loggerConnection :=
  MkLoggerConnection (lc_connectionID l) (lc_closed l) (lc_chanClosed l) (lc_received l ++ [m]) (lc_reading l).

Lemma at_disconnect_snoc l m : at_disconnect (l ++ [m]) = bool_decide (MessageType m = TypeDisconnect).
Proof. unfold at_disconnect. by rewrite last_snoc. Qed.

Lemma healthy_stops stops l m : healthy stops → MessageType m ≠ TypeDisconnect → stops (l ++ [m]) = false.
Proof. intros Hs Hm. apply Hs. rewrite at_disconnect_snoc. by apply bool_decide_eq_false. Qed.

Lemma log_accepts stops m l :
  healthy stops → accepts l → MessageType m ≠ TypeDisconnect → log stops m l = Done (tt, append_message m l).
Proof.
  intros Hs Hl Hm. rewrite log_takes by done. unfold took, append_message.
  rewrite healthy_stops by done. by destruct Hl as (_ & _ & ->).
Qed.

Lemma audit_exec_records stops now c l :
  healthy stops → accepts l → call_ok c →
  ∃ m, audit_exec stops now c l = Done (tt, append_message m l) ∧ records (lc_connectionID l) now c m.
Proof.
  intros Hs Hl Hc. eexists. split; [|apply call_records]. rewrite audit_exec_log by done.
  apply log_accepts; [done..|apply call_not_disconnect].
Qed.

Lemma accepts_append m l : accepts l → accepts (append_message m l).
Proof. by intros (?&?&?). Qed.

(** ** The trail of a connection *)

Definition audit_calls (stops : list Message → bool) (calls : list (Z * audit_call)) : prog loggerConnection unit :=
  range calls (λ x, audit_exec stops x.1 x.2).

Definition calls_messages (id : string) (calls : list (Z * audit_call)) : list Message :=
  (λ x, call_message id x.1 x.2) <$> calls.

(** The messages are taken as long as the encoder reads; the one that comes
    after it has returned waits for ever. *)
Lemma audit_calls_run stops calls l :
  lc_closed l = false → lc_chanClosed l = false → lc_reading l = negb (stops (lc_received l)) →
  Forall (λ x, call_ok x.2) calls →
  let ms := calls_messages (lc_connectionID l) calls in
  let reads p := stops (lc_received l ++ p) = false in
  ((∀ p q, ms = p ++ q → q ≠ [] → reads p) →
     audit_calls stops calls l =
     Done (tt, MkLoggerConnection (lc_connectionID l) false false (lc_received l ++ ms) (negb (stops (lc_received l ++ ms))))) ∧
  (∀ p q, ms = p ++ q → ¬ reads p →
     audit_calls stops calls l = Blocked "messageChannel" ∨
     q = [] ∧ audit_calls stops calls l =
       Done (tt, MkLoggerConnection (lc_connectionID l) false false (lc_received l ++ ms) false)).
Proof.
  intros H1 H2 H3 Hc. cbn zeta. revert l H1 H2 H3. induction Hc as [|[now c] calls Hc _ IH]; intros l H1 H2 H3.
  { split; [intros _; destruct l; cbn in *; subst; by rewrite app_nil_r |].
    intros p q Hpq Hp. symmetry in Hpq. apply app_eq_nil in Hpq as [-> ->]. apply not_false_is_true in Hp.
    right. split; [done|]. destruct l. cbn in *. rewrite app_nil_r in *. by rewrite Hp in H3; subst. }
  set (m := call_message (lc_connectionID l) now c). cbn in Hc.
  assert (audit_exec stops now c l = if stops (lc_received l) then Blocked "messageChannel" else Done (tt, took stops m l)) as Hm.
  { rewrite audit_exec_log by done. unfold log, took. run_prog. rewrite H1, H2, H3. by destruct (stops (lc_received l)). }
  destruct (IH (took stops m l)) as [IH1 IH2]; [done..|]. cbn [took lc_connectionID lc_received] in IH1, IH2.
  unfold audit_calls, calls_messages in *. cbn [range fmap list_fmap fst snd] in *. fold m. unfold prog_bind. rewrite Hm. split.
  - intros Hp. pose proof (Hp [] _ eq_refl ltac:(done)) as H0. rewrite app_nil_r in H0. rewrite H0, IH1; rewrite <- ?app_assoc; [done|].
    intros p q Hpq Hq. rewrite <- app_assoc. apply (Hp (m :: p) q); [by rewrite Hpq | done].
  - intros p q Hpq Hs. destruct (stops (lc_received l)) eqn:E; [by left|].
    destruct p as [|m' p]; [by rewrite app_nil_r in Hs|]. injection Hpq as <- Hpq.
    destruct (IH2 p q Hpq) as [->|[-> ->]]; [by rewrite <- app_assoc|by left|right]. by rewrite <- app_assoc.
Qed.

Lemma closed_drops stops now c l :
  lc_closed l = true → call_ok c → audit_exec stops now c l = Done (tt, l).
Proof.
  intros Hl Hc. rewrite (audit_exec_log stops now c l Hc). unfold log. run_prog. by rewrite Hl.
Qed.

Lemma closed_drops_all stops calls l :
  lc_closed l = true → Forall (λ x, call_ok x.2) calls → audit_calls stops calls l = Done (tt, l).
Proof.
  intros Hl Hc. induction Hc as [|[now c] calls Hc _ IH]; [done|].
  unfold audit_calls in *. cbn. unfold prog_bind. by rewrite (closed_drops _ _ _ _ Hl Hc).
Qed.

(** The life of a connection as the log sees it: the connect, the calls one
    after the other, the disconnect, and calls that come too late. *)
Definition logged_connection (stops : list Message → bool) (t0 : Z) (id ip country : string)
    (calls : list (Z * audit_call)) (t1 : Z) (late : list (Z * audit_call)) : outcome (unit * loggerConnection) :=
  match loggerImplementation_OnConnect stops t0 id None ip country with
  | Done (Some l, _) => (do* audit_calls stops calls in do* loggerConnection_OnDisconnect stops t1 in audit_calls stops late) l
  | Done (None, _) => Panic "no connection"
  | Panic s => Panic s
  | Blocked s => Blocked s
  end.

Lemma disconnect_run stops t1 l :
  lc_closed l = false → lc_chanClosed l = false →
  loggerConnection_OnDisconnect stops t1 l =
  if lc_reading l then
    Done (tt, MkLoggerConnection (lc_connectionID l) true true
                (lc_received l ++ [MkMessage (lc_connectionID l) t1 TypeDisconnect None None])
                (negb (stops (lc_received l ++ [MkMessage (lc_connectionID l) t1 TypeDisconnect None None]))))
  else Blocked "messageChannel".
Proof.
  intros H1 H2. unfold loggerConnection_OnDisconnect, log, loggerConnection_close. run_prog. rewrite H1, H2. by destruct (lc_reading l).
Qed.

(** Splitting a list that ends in [x] before its end. *)
Lemma snoc_split {A} (l p q : list A) x : l ++ [x] = p ++ q → q ≠ [] → ∃ q', l = p ++ q'.
Proof.
  intros H Hq. destruct q as [|y q] using rev_ind; [done|]. rewrite app_assoc in H. apply app_inj_tail in H as [-> _]. by exists q.
Qed.

(** Claim C19. The whole life of a connection whose calls come one after the other: the
    messages are the connect message, the message of each call in the order of
    the calls, and the disconnect message, and nothing after it. If the encoder
    reads on after each of them but the last then all are received and every
    call returns, those that come too late without recording anything. If it
    returns early, because a write to the storage failed, then the first call
    after that never returns. *)
Theorem audit_trail_complete stops t0 id ip country calls t1 late :
  Forall (λ x, call_ok x.2) calls → Forall (λ x, call_ok x.2) late →
  let all := MkMessage id t0 TypeConnect (Some (PayloadConnect ip country)) None ::
    calls_messages id calls ++ [MkMessage id t1 TypeDisconnect None None] in
  ((∀ p q, all = p ++ q → q ≠ [] → stops p = false) →
     ∃ l', logged_connection stops t0 id ip country calls t1 late = Done (tt, l') ∧ lc_received l' = all) ∧
  (∀ p q, all = p ++ q → q ≠ [] → stops p = true →
     logged_connection stops t0 id ip country calls t1 late = Blocked "messageChannel").
Proof.
  intros Hc Hlate. cbn zeta. set (m0 := MkMessage id t0 TypeConnect (Some (PayloadConnect ip country)) None).
  set (m1 := MkMessage id t1 TypeDisconnect None None). set (ms := calls_messages id calls).
  set (l := MkLoggerConnection id false false [m0] (negb (stops [m0]))).
  assert (loggerImplementation_OnConnect stops t0 id None ip country =
          if stops [] then Blocked "messageChannel" else Done (Some l, None)) as Hconn.
  { unfold loggerImplementation_OnConnect, log. run_prog. cbn. by destruct (stops []). }
  destruct (audit_calls_run stops calls l) as [Hrun Hstuck]; [done..|]. cbn [l lc_connectionID lc_received] in Hrun, Hstuck. fold ms in Hrun, Hstuck.
  unfold logged_connection. rewrite Hconn. split.
  - intros Hp. rewrite (Hp [] (m0 :: ms ++ [m1]) eq_refl) by done. unfold prog_bind. rewrite Hrun.
    2:{ intros p q Hpq Hq. apply (Hp ([m0] ++ p) (q ++ [m1])); [cbn; by rewrite Hpq, <- app_assoc | by destruct q]. }
    rewrite disconnect_run by done. cbn [lc_reading lc_connectionID lc_received]. fold m1.
    rewrite (Hp ([m0] ++ ms) [m1]) by done. cbn [negb].
    rewrite closed_drops_all by done. eexists. split; [done|]. done.
  - intros p q Hpq Hq Hs. destruct (stops []) eqn:E0; [done|]. destruct p as [|m p]; [congruence|]. injection Hpq as <- Hpq.
    destruct (snoc_split _ _ _ _ Hpq Hq) as [q' Hq']. unfold prog_bind.
    destruct (Hstuck p q' Hq') as [->|[_ ->]]; [cbn; congruence|done|]. by rewrite disconnect_run.
Qed.

(** Between the disconnect message and the closing of the channel a second
    goroutine's call waits forever on the channel, holding the lock that
    [OnDisconnect] needs next, when the encoder stops at the disconnect message,
    as the binary and the none encoder do. *)
Theorem call_during_disconnect_blocks now t1 c l :
  accepts l → call_ok c →
  ∃ l1, log at_disconnect (MkMessage (lc_connectionID l) t1 TypeDisconnect None None) l = Done (tt, l1) ∧
    audit_exec at_disconnect now c l1 = Blocked "messageChannel".
Proof.
  intros (A1 & A2 & A3) Hc. eexists. split; [by apply log_takes|].
  rewrite audit_exec_log by done. unfold log. run_prog. cbn. rewrite A1, A2, at_disconnect_snoc. done.
Qed.

(** ** Interception *)

Section proxies.
Context {W : Type} `{!Field W loggerConnection} (stops : list Message → bool) (Hstops : healthy stops) (now : Z) (channelID : option Z).

Definition io_message (l : loggerConnection) (stream : Z) (data : list byte) : Message :=
  MkMessage (lc_connectionID l) now TypeIO (Some (PayloadIO stream data)) channelID.

Lemma io_logged stream data w :
  accepts (fget w) →
  on_logger (loggerChannel_io stops now channelID stream data) w
  = Done (tt, fset (append_message (io_message (fget w) stream data) (fget w)) w).
Proof.
  intros Hl. unfold on_logger. change (loggerChannel_io stops now channelID stream data (fget w))
    with (log stops (io_message (fget w) stream data) (fget w)).
  by rewrite log_accepts.
Qed.
End proxies.

(** Reading through the proxy gives the caller what the backend returned, and
    records the bytes if there are any; writing through it records the bytes
    first and then gives the backend's answer. *)
Theorem interception_is_transparent {W} `{!Field W loggerConnection} stops now channelID stream
    (read : Reader W) (write : Writer W) n p w :
  healthy stops →
  (∀ data err w', read n w = Done ((data, err), w') → accepts (fget w') →
     interceptingReader_Read stops now channelID read stream n w =
     Done ((data, err),
       if decide (data = []) then w'
       else fset (append_message (io_message now channelID (fget w') stream data) (fget w')) w')) ∧
  (accepts (fget w) →
     interceptingWriter_Write stops now channelID write stream p w =
     write p (if decide (p = []) then w
              else fset (append_message (io_message now channelID (fget w) stream p) (fget w)) w)).
Proof.
  intros Hs. split.
  - intros data err w' E Hl. unfold interceptingReader_Read. run_prog. rewrite E.
    destruct data as [|x data]; [done|]. rewrite (decide_True _ _) by (cbn; lia).
    by rewrite io_logged.
  - intros Hl. unfold interceptingWriter_Write. run_prog.
    destruct p as [|x p]; [done|]. rewrite (decide_True _ _) by (cbn; lia). by rewrite io_logged.
Qed.

(** Whether the standard error is recorded depends on the setting for the
    standard output; the setting for the standard error has no effect. *)
Theorem stderr_follows_stdout_setting {W} `{!Field W loggerConnection} stops now channelID
    stdin stdout stderr stderr' passwords forwarding (w : Writer W) :
  let cfg b := MkAuditLogInterceptConfig stdin stdout b passwords forwarding in
  GetStderrProxy stops now channelID (cfg stderr) w = GetStderrProxy stops now channelID (cfg stderr') w ∧
  GetStderrProxy stops now channelID (cfg stderr) w =
    if stdout then interceptingWriter_Write stops now channelID w StreamStderr else w.
Proof. by destruct stdout. Qed.

(** ** A concrete connection *)

Definition demo_logger : loggerConnection := MkLoggerConnection "c1" false false [] true.

Lemma audit_calls_record_one_message_witness :
  ∃ m, audit_exec at_disconnect 17 (CallChannel_OnRequestExec (Some 0) 1 "ls") demo_logger
      = Done (tt, took at_disconnect m demo_logger) ∧
    records "c1" 17 (CallChannel_OnRequestExec (Some 0) 1 "ls") m.
Proof.
  apply audit_calls_record_one_message; [split_and!; reflexivity | exact I].
Defined.

Definition demo_calls : list (Z * audit_call) :=
  [(11, Call_OnAuthPubKeySuccess "bob" "ssh-rsa"); (12, Call_OnHandshakeSuccessful "bob")].

(** With a healthy encoder all is recorded; with one whose disk is full after two
    messages the third call never returns. *)
Lemma audit_trail_complete_witness :
  (∃ l', logged_connection at_disconnect 10 "c1" "127.0.0.1" "XX" demo_calls 20 [(21, CallChannel_OnClose (Some 0))] = Done (tt, l') ∧
     lc_received l' =
       [MkMessage "c1" 10 0 (Some (PayloadConnect "127.0.0.1" "XX")) None;
        MkMessage "c1" 11 105 (Some (PayloadAuthPubKey "bob" "ssh-rsa")) None;
        MkMessage "c1" 12 199 (Some (PayloadHandshakeSuccessful "bob")) None;
        MkMessage "c1" 20 1 None None]) ∧
  logged_connection (λ l, bool_decide (length l = 2%nat)) 10 "c1" "127.0.0.1" "XX" demo_calls 20 [] = Blocked "messageChannel".
Proof.
  split.
  - refine (proj1 (audit_trail_complete at_disconnect 10 "c1" "127.0.0.1" "XX" demo_calls 20 [(21, CallChannel_OnClose (Some 0))] _ _) _);
      [repeat constructor .. |].
    intros p q Hpq Hq. do 4 (destruct p as [|? p]; [cbn in Hpq; simplify_eq; reflexivity|]).
    exfalso. apply Hq. cbn in Hpq. simplify_eq. by destruct p.
  - refine (proj2 (audit_trail_complete _ 10 "c1" "127.0.0.1" "XX" demo_calls 20 [] _ _)
      [MkMessage "c1" 10 0 (Some (PayloadConnect "127.0.0.1" "XX")) None; MkMessage "c1" 11 105 (Some (PayloadAuthPubKey "bob" "ssh-rsa")) None]
      _ eq_refl _ _); [repeat constructor .. | discriminate | reflexivity].
Defined.

Lemma call_during_disconnect_blocks_witness :
  ∃ l1, log at_disconnect (MkMessage (lc_connectionID demo_logger) 5 TypeDisconnect None None) demo_logger = Done (tt, l1) ∧
    audit_exec at_disconnect 6 (CallChannel_OnExit (Some 0) 0) l1 = Blocked "messageChannel".
Proof. apply call_during_disconnect_blocks; [split_and!; reflexivity | exact I]. Defined.
