(* ===== verification/AuditIntegration.v ===== *)
(** * The audit log in the handler chain

    [internal/auditlogintegration]: the handlers that sit between the SSH server
    and the backend, record every event in the audit log and pass it on; and the
    proxies through which the backend reaches the client, so that its output,
    its exit status and the channels it opens are recorded too.

    The objects the audit layer creates (session proxies, intercepting readers,
    writers and forwarding channels) live on a heap, because the backend keeps
    references to them while the audit layer still changes them. *)

From stdpp Require Import base gmap strings list.
From Stdlib Require Import Strings.Byte.
From S2P Require Import Prelude Messages Metadata Handler AuditMessage AuditLog.

Local Open Scope Z_scope.

(** ** Objects *)

(** [sessionProxy]: [sp_audit] is nil until the channel is open; a channel
    logger is known by its channel ID. *)
Record sessionProxy := MkSessionProxy {
  sp_backend : SessionChannel;
  sp_audit : option (option Z);
  sp_stdin : option nat;
  sp_stdout : option nat;
  sp_stderr : option nat;
}.

(** The objects of the audit layer that others hold references to: a session
    proxy and the proxies of [intercept.go]. *)
Inductive auditObject :=
| SessionProxy (s : sessionProxy)
| InterceptingReader (backend : nat) (stream : Z) (channelID : option Z)
| InterceptingWriter (backend : nat) (stream : Z) (channelID : option Z)
| InterceptingForward (backend : option ForwardChannel) (channelID : option Z).

(** [next] is above every reference in use. *)
Record auditHeap := MkAuditHeap { objects : gmap nat auditObject; next : nat }.

Definition ChannelTypeReverseForward : string := "forwarded-tcpip".
Definition ChannelTypeX11 : string := "x11".
Definition ChannelTypeDirectStreamLocal : string := "direct-streamlocal@openssh.com".
Definition ChannelTypeForwardedStreamLocal : string := "forwarded-streamlocal@openssh.com".

Section integration.
Context {W : Type} `{!Field W loggerConnection} `{!Field W auditHeap}.
(** [stops]: whether the encoder ends at the disconnect message; [clock]:
    [time.Now]; [under]: the objects of the layer below. *)
Context (stops : list Message → bool) (clock : W → Z) (intercept : AuditLogInterceptConfig) (under : Objects W).

(** ** Calls on the logger and on the heap *)

(** A method of the connection's or a channel's logger, at the current time. *)
Definition audit (c : audit_call) : prog W unit := λ w, on_logger (audit_exec stops (clock w) c) w.

Definition heap : prog W auditHeap := λ w, Done (fget w, w).

Definition alloc (o : auditObject) : prog W nat :=
  let* h := heap in
  do* modify (fset (MkAuditHeap (<[next h := o]> (objects h)) (S (next h)))) in
  prog_ret (next h).

(** Assignment to a field of a session proxy. *)
Definition update_proxy (r : nat) (f : sessionProxy → sessionProxy) : prog W unit :=
  let* h := heap in
  match objects h !! r with
  | Some (SessionProxy s) => modify (fset (MkAuditHeap (<[r := SessionProxy (f s)]> (objects h)) (next h)))
  | _ => prog_ret tt
  end.

(** [audit.OnNewChannelSuccess], which returns the channel's logger. *)
Definition audit_OnNewChannelSuccess (channelID : Z) (channelType : string) : prog W (option Z) :=
  do* audit (Call_OnNewChannelSuccess (Some channelID) channelType) in prog_ret (Some channelID).

Definition channel_GetForwardingProxy (auditChannel : option Z) (forward : option ForwardChannel)
  : prog W (option ForwardChannel) :=
  if negb (intercept_Forwarding intercept) then prog_ret forward
  else let* r := alloc (InterceptingForward forward auditChannel) in prog_ret (Some r).

Definition channel_GetStdinProxy (auditChannel : option Z) (stdin : nat) : prog W nat :=
  if negb (intercept_Stdin intercept) then prog_ret stdin
  else alloc (InterceptingReader stdin StreamStdin auditChannel).

Definition channel_GetStdoutProxy (auditChannel : option Z) (stdout : nat) : prog W nat :=
  if negb (intercept_Stdout intercept) then prog_ret stdout
  else alloc (InterceptingWriter stdout StreamStdout auditChannel).

Definition channel_GetStderrProxy (auditChannel : option Z) (stderr : nat) : prog W nat :=
  if negb (intercept_Stdout intercept) then prog_ret stderr
  else alloc (InterceptingWriter stderr StreamStderr auditChannel).

(** ** The session proxy *)

Definition set_sp_audit (a : option Z) (s : sessionProxy) : sessionProxy :=
  MkSessionProxy (sp_backend s) (Some a) (sp_stdin s) (sp_stdout s) (sp_stderr s).
Definition set_sp_stdin (x : nat) (s : sessionProxy) : sessionProxy :=
  MkSessionProxy (sp_backend s) (sp_audit s) (Some x) (sp_stdout s) (sp_stderr s).
Definition set_sp_stdout (x : nat) (s : sessionProxy) : sessionProxy :=
  MkSessionProxy (sp_backend s) (sp_audit s) (sp_stdin s) (Some x) (sp_stderr s).
Definition set_sp_stderr (x : nat) (s : sessionProxy) : sessionProxy :=
  MkSessionProxy (sp_backend s) (sp_audit s) (sp_stdin s) (sp_stdout s) (Some x).

Definition sessionProxy_Stdin (r : nat) (s : sessionProxy) : prog W nat :=
  match sp_audit s with
  | None => panic "BUG: stdin requested before channel is open"
  | Some auditChannel =>
      match sp_stdin s with
      | Some stdin => prog_ret stdin
      | None =>
          let* backend_stdin := obj_Stdin under (sp_backend s) in
          let* stdin := channel_GetStdinProxy auditChannel backend_stdin in
          do* update_proxy r (set_sp_stdin stdin) in
          prog_ret stdin
      end
  end.

Definition sessionProxy_Stdout (r : nat) (s : sessionProxy) : prog W nat :=
  match sp_audit s with
  | None => panic "BUG: stdout requested before channel is open"
  | Some auditChannel =>
      match sp_stdout s with
      | Some stdout => prog_ret stdout
      | None =>
          let* backend_stdout := obj_Stdout under (sp_backend s) in
          let* stdout := channel_GetStdoutProxy auditChannel backend_stdout in
          do* update_proxy r (set_sp_stdout stdout) in
          prog_ret stdout
      end
  end.

Definition sessionProxy_Stderr (r : nat) (s : sessionProxy) : prog W nat :=
  match sp_audit s with
  | None => panic "BUG: stderr requested before channel is open"
  | Some auditChannel =>
      match sp_stderr s with
      | Some stderr => prog_ret stderr
      | None =>
          let* backend_stderr := obj_Stderr under (sp_backend s) in
          let* stderr := channel_GetStderrProxy auditChannel backend_stderr in
          do* update_proxy r (set_sp_stderr stderr) in
          prog_ret stderr
      end
  end.

Definition sessionProxy_ExitStatus (s : sessionProxy) (code : Z) : prog W unit :=
  match sp_audit s with
  | None => panic "BUG: exit status requested before channel is open"
  | Some auditChannel =>
      do* audit (CallChannel_OnExit auditChannel code) in
      obj_ExitStatus under (sp_backend s) code
  end.

Definition sessionProxy_ExitSignal (s : sessionProxy) (signal : string) (coreDumped : bool)
    (errorMessage languageTag : string) : prog W unit :=
  match sp_audit s with
  | None => panic "BUG: exit signal requested before channel is open"
  | Some auditChannel =>
      do* audit (CallChannel_OnExitSignal auditChannel signal coreDumped errorMessage languageTag) in
      obj_ExitSignal under (sp_backend s) signal coreDumped errorMessage languageTag
  end.

Definition sessionProxy_CloseWrite (s : sessionProxy) : prog W (option error) :=
  match sp_audit s with
  | None => panic "BUG: write close requested before channel is open"
  | Some auditChannel =>
      do* audit (CallChannel_OnWriteClose auditChannel) in
      obj_CloseWrite under (sp_backend s)
  end.

Definition sessionProxy_Close (s : sessionProxy) : prog W (option error) :=
  obj_Close under (sp_backend s).

(** ** Intercepted input and output *)

Definition audited_Read (backend : nat) (stream : Z) (channelID : option Z) : Reader W := λ n,
  let* '(data, err) := obj_Read under backend n in
  do* (if decide (0 < length data)%nat then audit (CallChannel_io channelID stream data) else prog_ret tt) in
  prog_ret (data, err).

Definition audited_Write (backend : nat) (stream : Z) (channelID : option Z) : Writer W := λ p,
  do* (if decide (0 < length p)%nat then audit (CallChannel_io channelID stream p) else prog_ret tt) in
  obj_Write under backend p.

(** A method call on a reference goes to the audit layer's object if there is
    one, and to the layer below otherwise. *)
Definition on_session {A} (r : nat) (f : sessionProxy → prog W A) (direct : prog W A) : prog W A :=
  let* h := heap in
  match objects h !! r with
  | Some (SessionProxy s) => f s
  | _ => direct
  end.

(** The objects as the backend sees them. *)
Definition audited : Objects W :=
  {| obj_Stdin := λ r, on_session r (sessionProxy_Stdin r) (obj_Stdin under r);
     obj_Stdout := λ r, on_session r (sessionProxy_Stdout r) (obj_Stdout under r);
     obj_Stderr := λ r, on_session r (sessionProxy_Stderr r) (obj_Stderr under r);
     obj_ExitStatus := λ r code, on_session r (λ s, sessionProxy_ExitStatus s code) (obj_ExitStatus under r code);
     obj_ExitSignal := λ r signal coreDumped errorMessage languageTag,
       on_session r (λ s, sessionProxy_ExitSignal s signal coreDumped errorMessage languageTag)
         (obj_ExitSignal under r signal coreDumped errorMessage languageTag);
     obj_CloseWrite := λ r, on_session r sessionProxy_CloseWrite (obj_CloseWrite under r);
     obj_Close := λ r, let* h := heap in
       match objects h !! r with
       | Some (SessionProxy s) => sessionProxy_Close s
       | Some (InterceptingForward (Some b) _) => obj_Close under b
       | Some (InterceptingForward None _) => panic nil_pointer
       | _ => obj_Close under r
       end;
     obj_Read := λ r n, let* h := heap in
       match objects h !! r with
       | Some (InterceptingReader b stream ch) => audited_Read b stream ch n
       | Some (InterceptingForward (Some b) ch) => audited_Read b StreamStdin ch n
       | Some (InterceptingForward None _) => panic nil_pointer
       | _ => obj_Read under r n
       end;
     obj_Write := λ r p, let* h := heap in
       match objects h !! r with
       | Some (InterceptingWriter b stream ch) => audited_Write b stream ch p
       | Some (InterceptingForward (Some b) ch) => audited_Write b StreamStdout ch p
       | Some (InterceptingForward None ch) =>
           do* (if decide (0 < length p)%nat then audit (CallChannel_io ch StreamStdout p) else prog_ret tt) in
           panic nil_pointer
       | _ => obj_Write under r p
       end |}.

(** ** Channels opened by the backend *)

Definition reverseHandlerProxy (backend : ReverseForward W) (channelType : string) : ReverseForward W :=
  {| NewChannelTCP := λ connectedAddress connectedPort originatorAddress originatorPort,
       let* '(channel, id, err) :=
         NewChannelTCP backend connectedAddress connectedPort originatorAddress originatorPort in
       match err with
       | Some _ => prog_ret (None, 0, err)
       | None =>
           do* audit (Call_OnReverseForwardChannel (Some id) connectedAddress connectedPort
                        originatorAddress originatorPort) in
           let* auditChannel := audit_OnNewChannelSuccess id channelType in
           let* forwardProxy := channel_GetForwardingProxy auditChannel channel in
           prog_ret (forwardProxy, id, None)
       end;
     NewChannelUnix := λ path,
       let* '(channel, id, err) := NewChannelUnix backend path in
       match err with
       | Some _ => prog_ret (None, 0, err)
       | None =>
           do* audit (Call_OnReverseStreamLocalChannel (Some id) path) in
           let* auditChannel := audit_OnNewChannelSuccess id channelType in
           let* forwardProxy := channel_GetForwardingProxy auditChannel channel in
           prog_ret (forwardProxy, id, None)
       end;
     NewChannelX11 := λ originatorAddress originatorPort,
       let* '(channel, id, err) := NewChannelX11 backend originatorAddress originatorPort in
       match err with
       | Some _ => prog_ret (None, 0, err)
       | None =>
           do* audit (Call_OnReverseX11ForwardChannel (Some id) originatorAddress originatorPort) in
           let* auditChannel := audit_OnNewChannelSuccess id channelType in
           let* forwardProxy := channel_GetForwardingProxy auditChannel channel in
           prog_ret (forwardProxy, id, None)
       end |}.

(** ** Session channels *)

Section sessionChannelHandler.
(** [backend] may be a nil interface value; [auditChannel] is the logger. *)
Context (backend : SessionChannelHandler W) (auditChannel : option Z).

Definition session_OnClose : prog W unit :=
  do* audit (CallChannel_OnClose auditChannel) in OnClose backend.

Definition session_OnUnsupportedChannelRequest (requestID : Z) (requestType : string) (payload : list byte)
  : prog W unit :=
  do* OnUnsupportedChannelRequest backend requestID requestType payload in
  audit (CallChannel_OnRequestUnknown auditChannel requestID requestType payload).

Definition session_OnFailedDecodeChannelRequest (requestID : Z) (requestType : string) (payload : list byte)
    (reason : option error) : prog W unit :=
  do* OnFailedDecodeChannelRequest backend requestID requestType payload reason in
  match reason with
  | None => panic nil_pointer
  | Some e => audit (CallChannel_OnRequestDecodeFailed auditChannel requestID requestType payload (Error e))
  end.

(** [if err := ...; err != nil { s.audit.OnRequestFailed(requestID, err); return err }] *)
Definition or_failed (requestID : Z) (call : prog W (option error)) : prog W (option error) :=
  let* err := call in
  match err with
  | Some _ => do* audit (CallChannel_OnRequestFailed auditChannel requestID err) in prog_ret err
  | None => prog_ret None
  end.

Definition session_OnEnvRequest (requestID : Z) (name val : string) : prog W (option error) :=
  do* audit (CallChannel_OnRequestSetEnv auditChannel requestID name val) in
  or_failed requestID (OnEnvRequest backend requestID name val).

Definition session_OnExecRequest (requestID : Z) (program : string) : prog W (option error) :=
  do* audit (CallChannel_OnRequestExec auditChannel requestID program) in
  let* err := OnExecRequest backend requestID program in
  match err with
  | Some _ => prog_ret err
  | None => prog_ret None
  end.

Definition session_OnPtyRequest (requestID : Z) (term : string) (columns rows width height : Z)
    (modeList : list byte) : prog W (option error) :=
  do* audit (CallChannel_OnRequestPty auditChannel requestID term columns rows width height modeList) in
  or_failed requestID (OnPtyRequest backend requestID term columns rows width height modeList).

Definition session_OnShell (requestID : Z) : prog W (option error) :=
  do* audit (CallChannel_OnRequestShell auditChannel requestID) in
  or_failed requestID (OnShell backend requestID).

Definition session_OnSignal (requestID : Z) (signal : string) : prog W (option error) :=
  do* audit (CallChannel_OnRequestSignal auditChannel requestID signal) in
  or_failed requestID (OnSignal backend requestID signal).

Definition session_OnSubsystem (requestID : Z) (subsystem : string) : prog W (option error) :=
  do* audit (CallChannel_OnRequestSubsystem auditChannel requestID subsystem) in
  or_failed requestID (OnSubsystem backend requestID subsystem).

Definition session_OnWindow (requestID columns rows width height : Z) : prog W (option error) :=
  do* audit (CallChannel_OnRequestWindow auditChannel requestID columns rows width height) in
  or_failed requestID (OnWindow backend requestID columns rows width height).

Definition session_OnX11Request (requestID : Z) (singleConnection : bool) (protocol cookie : string)
    (screen : Z) (reverseHandler : ReverseForward W) : prog W (option error) :=
  do* audit (CallChannel_OnRequestX11 auditChannel requestID singleConnection protocol cookie screen) in
  OnX11Request backend requestID singleConnection protocol cookie screen
    (reverseHandlerProxy reverseHandler ChannelTypeX11).

Definition sessionChannelHandler : SessionChannelHandler W :=
  {| OnUnsupportedChannelRequest := session_OnUnsupportedChannelRequest;
     OnFailedDecodeChannelRequest := session_OnFailedDecodeChannelRequest;
     OnEnvRequest := session_OnEnvRequest;
     OnPtyRequest := session_OnPtyRequest;
     OnX11Request := session_OnX11Request;
     OnExecRequest := session_OnExecRequest;
     OnShell := session_OnShell;
     OnSubsystem := session_OnSubsystem;
     OnSignal := session_OnSignal;
     OnWindow := session_OnWindow;
     OnClose := session_OnClose;
     OnShutdown := OnShutdown backend |}.

End sessionChannelHandler.

(** ** SSH connections *)

Section sshConnectionHandler.
Context (backend : SSHConnectionHandler W).

Definition ssh_OnUnsupportedGlobalRequest (requestID : Z) (requestType : string) (payload : list byte)
  : prog W unit :=
  do* audit (Call_OnGlobalRequestUnknown requestType) in
  OnUnsupportedGlobalRequest backend requestID requestType payload.

Definition ssh_OnFailedDecodeGlobalRequest (requestID : Z) (requestType : string) (payload : list byte)
    (reason : option error) : prog W unit :=
  do* audit (Call_OnGlobalRequestDecodeFailed requestID requestType payload reason) in
  OnFailedDecodeGlobalRequest backend requestID requestType payload reason.

Definition ssh_OnUnsupportedChannel (channelID : Z) (channelType : string) (extraData : list byte)
  : prog W unit :=
  do* audit (Call_OnNewChannelFailed (Some channelID) channelType "unsupported channel type") in
  OnUnsupportedChannel backend channelID channelType extraData.

(** The backend gets the proxy before the proxy has a logger. *)
Definition ssh_OnSessionChannel (meta : ChannelMetadata) (extraData : list byte) (session : SessionChannel)
  : prog W (option (SessionChannelHandler W) * option ChannelRejection) :=
  let* proxy := alloc (SessionProxy (MkSessionProxy session None None None None)) in
  let* '(backend, err) := OnSessionChannel backend meta extraData proxy in
  match err with
  | Some _ => prog_ret (None, err)
  | None =>
      let* auditChannel := audit_OnNewChannelSuccess (Metadata.ChannelID meta) "session" in
      do* update_proxy proxy (set_sp_audit auditChannel) in
      prog_ret (Some (sessionChannelHandler (default nil_SessionChannelHandler backend) auditChannel), None)
  end.

Definition ssh_OnTCPForwardChannel (channelID : Z) (hostToConnect : string) (portToConnect : Z)
    (originatorHost : string) (originatorPort : Z) : prog W (option ForwardChannel * option ChannelRejection) :=
  do* audit (Call_OnTCPForwardChannel (Some channelID) hostToConnect portToConnect originatorHost originatorPort) in
  let* '(channel, err) :=
    OnTCPForwardChannel backend channelID hostToConnect portToConnect originatorHost originatorPort in
  match err with
  | Some _ => prog_ret (None, err)
  | None =>
      let* auditChannel := audit_OnNewChannelSuccess channelID "direct-tcpip" in
      let* forwardProxy := channel_GetForwardingProxy auditChannel channel in
      prog_ret (forwardProxy, None)
  end.

Definition ssh_OnRequestTCPReverseForward (bindHost : string) (bindPort : Z)
    (reverseHandler : ReverseForward W) : prog W (option error) :=
  do* audit (Call_OnRequestTCPReverseForward bindHost bindPort) in
  OnRequestTCPReverseForward backend bindHost bindPort
    (reverseHandlerProxy reverseHandler ChannelTypeReverseForward).

Definition ssh_OnRequestCancelTCPReverseForward (bindHost : string) (bindPort : Z) : prog W (option error) :=
  do* audit (Call_OnRequestCancelTCPReverseForward bindHost bindPort) in
  OnRequestCancelTCPReverseForward backend bindHost bindPort.

Definition ssh_OnDirectStreamLocal (channelID : Z) (path : string)
  : prog W (option ForwardChannel * option ChannelRejection) :=
  do* audit (Call_OnDirectStreamLocal (Some channelID) path) in
  let* '(channel, err) := OnDirectStreamLocal backend channelID path in
  match err with
  | Some _ => prog_ret (None, err)
  | None =>
      let* auditChannel := audit_OnNewChannelSuccess channelID ChannelTypeDirectStreamLocal in
      let* forwardProxy := channel_GetForwardingProxy auditChannel channel in
      prog_ret (forwardProxy, None)
  end.

Definition ssh_OnRequestStreamLocal (path : string) (reverseHandler : ReverseForward W)
  : prog W (option error) :=
  do* audit (Call_OnRequestStreamLocal path) in
  OnRequestStreamLocal backend path (reverseHandlerProxy reverseHandler ChannelTypeForwardedStreamLocal).

Definition ssh_OnRequestCancelStreamLocal (path : string) : prog W (option error) :=
  do* audit (Call_OnRequestCancelStreamLocal path) in
  OnRequestCancelStreamLocal backend path.

Definition sshConnectionHandler : SSHConnectionHandler W :=
  {| OnUnsupportedGlobalRequest := ssh_OnUnsupportedGlobalRequest;
     OnFailedDecodeGlobalRequest := ssh_OnFailedDecodeGlobalRequest;
     OnUnsupportedChannel := ssh_OnUnsupportedChannel;
     OnSessionChannel := ssh_OnSessionChannel;
     OnTCPForwardChannel := ssh_OnTCPForwardChannel;
     OnRequestTCPReverseForward := ssh_OnRequestTCPReverseForward;
     OnRequestCancelTCPReverseForward := ssh_OnRequestCancelTCPReverseForward;
     OnDirectStreamLocal := ssh_OnDirectStreamLocal;
     OnRequestStreamLocal := ssh_OnRequestStreamLocal;
     OnRequestCancelStreamLocal := ssh_OnRequestCancelStreamLocal;
     OnConnShutdown := OnConnShutdown backend |}.

End sshConnectionHandler.

(** ** Network connections *)

Section networkConnectionHandler.
Context (backend : NetworkConnectionHandler W).

Definition reason_text (reason : option error) : string :=
  match reason with Some e => Error e | None => "" end.

Definition network_OnAuthPassword (meta : ConnectionAuthPendingMetadata) (password : list byte)
  : prog W (AuthResponse * ConnectionAuthenticatedMetadata * option error) :=
  do* audit (Call_OnAuthPassword (Username meta) password) in
  let* '(response, authenticatedMetadata, reason) := OnAuthPassword backend meta password in
  do* match response with
      | AuthResponseSuccess => audit (Call_OnAuthPasswordSuccess (Username meta) password)
      | AuthResponseFailure => audit (Call_OnAuthPasswordFailed (Username meta) password)
      | AuthResponseUnavailable =>
          audit (Call_OnAuthPasswordBackendError (Username meta) password (reason_text reason))
      | AuthResponseOther _ => prog_ret tt
      end in
  prog_ret (response, authenticatedMetadata, reason).

Definition network_OnAuthPubKey (meta : ConnectionAuthPendingMetadata) (pubKey : string)
  : prog W (AuthResponse * ConnectionAuthenticatedMetadata * option error) :=
  do* audit (Call_OnAuthPubKey (Username meta) pubKey) in
  let* '(response, authMeta, reason) := OnAuthPubKey backend meta pubKey in
  let username := Username (auth_pending authMeta) in
  do* match response with
      | AuthResponseSuccess => audit (Call_OnAuthPubKeySuccess username pubKey)
      | AuthResponseFailure => audit (Call_OnAuthPubKeyFailed username pubKey)
      | AuthResponseUnavailable => audit (Call_OnAuthPubKeyBackendError username pubKey (reason_text reason))
      | AuthResponseOther _ => prog_ret tt
      end in
  prog_ret (response, authMeta, reason).

(** The loop over the questions: the answers found, or the first error. *)
Fixpoint collect_answers (answers : KeyboardInteractiveAnswers) (questions : list KeyboardInteractiveQuestion)
    (auditAnswers : list KIAnswer) : list KIAnswer + error :=
  match questions with
  | [] => inl auditAnswers
  | q :: questions =>
      match Answers_Get answers q with
      | (_, Some err) => inr err
      | (a, None) => collect_answers answers questions (auditAnswers ++ [MkKIAnswer (Question q) a])
      end
  end.

Definition audit_challenge (username : string) (challenge : Challenge W) : Challenge W :=
  λ instruction questions,
    let auditQuestions := map (λ q, MkKIQuestion (Question q) (EchoResponse q)) questions in
    do* audit (Call_OnAuthKeyboardInteractiveChallenge username instruction auditQuestions) in
    let* '(answers, err) := challenge instruction questions in
    match err with
    | Some _ => prog_ret (answers, err)
    | None =>
        match collect_answers answers questions [] with
        | inr err => prog_ret (answers, Some err)
        | inl auditAnswers =>
            do* audit (Call_OnAuthKeyboardInteractiveAnswer username auditAnswers) in
            prog_ret (answers, None)
        end
    end.

Definition network_OnAuthKeyboardInteractive (meta : ConnectionAuthPendingMetadata) (challenge : Challenge W)
  : prog W (AuthResponse * ConnectionAuthenticatedMetadata * option error) :=
  OnAuthKeyboardInteractive backend meta (audit_challenge (Username meta) challenge).

Definition network_OnHandshakeFailed (meta : ConnectionMetadata) (reason : option error) : prog W unit :=
  do* OnHandshakeFailed backend meta reason in
  match reason with
  | None => panic nil_pointer
  | Some e => audit (Call_OnHandshakeFailed (Error e))
  end.

Definition network_OnHandshakeSuccess (meta : ConnectionAuthenticatedMetadata)
  : prog W (option (SSHConnectionHandler W) * ConnectionAuthenticatedMetadata * option error) :=
  do* audit (Call_OnHandshakeSuccessful (Username (auth_pending meta))) in
  let* '(backend, meta, err) := OnHandshakeSuccess backend meta in
  match err with
  | Some _ => prog_ret (None, meta, err)
  | None => prog_ret (Some (sshConnectionHandler (default nil_SSHConnectionHandler backend)), meta, None)
  end.

Definition network_OnDisconnect : prog W unit :=
  do* (λ w, on_logger (loggerConnection_OnDisconnect stops (clock w)) w) in
  OnDisconnect backend.

Definition audit_networkConnectionHandler : NetworkConnectionHandler W :=
  {| OnAuthPassword := network_OnAuthPassword;
     OnAuthPubKey := network_OnAuthPubKey;
     OnAuthKeyboardInteractive := network_OnAuthKeyboardInteractive;
     OnAuthGSSAPI := OnAuthGSSAPI backend;
     OnHandshakeFailed := network_OnHandshakeFailed;
     OnHandshakeSuccess := network_OnHandshakeSuccess;
     OnDisconnect := network_OnDisconnect;
     OnNetShutdown := OnNetShutdown backend |}.

End networkConnectionHandler.

(** ** The handler *)

Section handler.
(** [OpenWriter] of the storage, [Lookup] of the GeoIP database, [Shutdown] of
    the logger, the text form of an address. *)
Context (OpenWriter : string → prog W (option error)) (Lookup : list byte → string)
  (logger_Shutdown : Context → prog W unit) (IP_String : list byte → string).
Context (backend : Handler W).

(** The logger's [OnConnect]; the new connection logger is put in its field. *)
Definition logger_OnConnect (connectionID : string) (addr : RemoteAddress) : prog W (option error) :=
  let* openErr := OpenWriter connectionID in
  λ w, match loggerImplementation_OnConnect stops (clock w) connectionID openErr (IP_String (IP addr))
               (Lookup (IP addr)) with
       | Done (Some conn, err) => Done (err, fset conn w)
       | Done (None, err) => Done (err, w)
       | Panic s => Panic s
       | Blocked s => Blocked s
       end.

(** The two goroutines of [OnShutdown], which waits for both; [backendFirst]
    is the order in which they run. *)
Definition audit_OnShutdown (backendFirst : bool) (shutdownContext : Context) : prog W unit :=
  if backendFirst
  then do* OnHandlerShutdown backend shutdownContext in logger_Shutdown shutdownContext
  else do* logger_Shutdown shutdownContext in OnHandlerShutdown backend shutdownContext.

Definition audit_OnNetworkConnection (meta : ConnectionMetadata)
  : prog W (option (NetworkConnectionHandler W) * ConnectionMetadata * option error) :=
  let* '(backend, meta, err) := OnNetworkConnection backend meta in
  match err with
  | Some _ => prog_ret (None, meta, err)
  | None =>
      let* err := logger_OnConnect (Metadata.ConnectionID meta) (RemoteAddr meta) in
      match err with
      | Some e =>
          prog_ret (None, meta, Some (WrapError
            (Sprintf "failed to initialize audit logger for connection from %s (%w)"
               [VString (IP_String (IP (RemoteAddr meta))); VString (Error e)]) e))
      | None =>
          prog_ret (Some (audit_networkConnectionHandler (default nil_NetworkConnectionHandler backend)), meta, None)
      end
  end.

Definition audit_handler (backendFirst : bool) : Handler W :=
  {| OnReady := OnReady backend; OnHandlerShutdown := audit_OnShutdown backendFirst;
     OnNetworkConnection := audit_OnNetworkConnection |}.

(** [New]: without audit logging the backend is used directly; [auditlog_New]
    is the error of building the logger. *)
Definition auditlogintegration_New (Enable : bool) (auditlog_New : option error) (backendFirst : bool)
  : option (Handler W) * option error :=
  if negb Enable then (Some backend, None)
  else match auditlog_New with
       | Some e => (None, Some (WrapError (Sprintf "failed to create audit logger (%w)" [VString (Error e)]) e))
       | None => (Some (audit_handler backendFirst), None)
       end.

End handler.

End integration.
