(* ===== verification/AuditIntegrationSpec.v ===== *)
(** * The audit log sees everything that reaches the backend

    Theorems on [AuditIntegration]: what the audited handlers record, in which
    order with respect to the backend's own work, and that they hand the
    backend's answers on unchanged. *)

From stdpp Require Import base gmap strings list.
From Stdlib Require Import Strings.Byte.
From S2P Require Import Prelude Messages Metadata Handler AuditMessage AuditLog AuditSpec AuditIntegration.

Local Open Scope Z_scope.
Local Arguments log : simpl never.

(** ** What a request looks like in the log *)

Definition request_id {W} (r : session_request W) : Z :=
  match r with
  | ReqEnv id _ _ | ReqPty id _ _ _ _ _ _ | ReqX11 id _ _ _ _ _ | ReqExec id _ | ReqShell id
  | ReqSubsystem id _ | ReqSignal id _ | ReqWindow id _ _ _ _ => id
  end.

(** The message that stands for a client's request: its type, and a payload with
    everything the client sent. *)
Definition request_message {W} (conn : string) (now : Z) (ch : option Z) (r : session_request W) : Message :=
  let msg type payload := MkMessage conn now type (Some payload) ch in
  match r with
  | ReqEnv id n v => msg TypeChannelRequestSetEnv (PayloadChannelRequestSetEnv id n v)
  | ReqPty id t c r w h ml => msg TypeChannelRequestPty (PayloadChannelRequestPty id t c r w h ml)
  | ReqX11 id s p c sc _ => msg TypeChannelRequestX11 (PayloadChannelRequestX11 id s p c sc)
  | ReqExec id p => msg TypeChannelRequestExec (PayloadChannelRequestExec id p)
  | ReqShell id => msg TypeChannelRequestShell (PayloadChannelRequestShell id)
  | ReqSubsystem id s => msg TypeChannelRequestSubsystem (PayloadChannelRequestSubsystem id s)
  | ReqSignal id s => msg TypeChannelRequestSignal (PayloadChannelRequestSignal id s)
  | ReqWindow id c r w h => msg TypeChannelRequestWindow (PayloadChannelRequestWindow id c r w h)
  end.

Definition failure_message (conn : string) (now : Z) (ch : option Z) (requestID : Z) (e : error) : Message :=
  MkMessage conn now TypeRequestFailed (Some (PayloadRequestFailed requestID (Error e))) ch.

(** The requests whose failure is recorded: all but program executions and X11. *)
Definition failure_recorded {W} (r : session_request W) : bool :=
  match r with ReqExec _ _ | ReqX11 _ _ _ _ _ _ => false | _ => true end.

(** A message between the connect and the disconnect message of a trail, with a
    payload of the kind its type announces. *)
Definition within (m : Message) : Prop :=
  well_typed m ∧ MessageType m ≠ TypeConnect ∧ MessageType m ≠ TypeDisconnect.

Ltac solve_within :=
  split; [eexists; split; vm_compute; reflexivity | split; discriminate].

Lemma call_within id now c : within (call_message id now c).
Proof. destruct (call_records id now c) as (_ & Hw & _). split; [done|]. by destruct c. Qed.

Lemma request_within {W} conn now ch (r : session_request W) : within (request_message conn now ch r).
Proof. destruct r; solve_within. Qed.

Lemma failure_within conn now ch id e : within (failure_message conn now ch id e).
Proof. solve_within. Qed.

Section spec.
Context {W : Type} `{!Field W loggerConnection} `{!Field W auditHeap}.
Context (stops : list Message → bool) (clock : W → Z) (intercept : AuditLogInterceptConfig) (under : Objects W).
Context (Hstops : healthy stops).

(** The messages the encoder has received, and the store after one more. *)
Definition trail (w : W) : list Message := lc_received (fget w).
Definition connection (w : W) : string := lc_connectionID (fget w).
Definition recorded (m : Message) (w : W) : W := fset (append_message m (fget w)) w.

(** The request as the backend gets it: an X11 request carries the proxy of
    the audit layer for the channels the backend opens. *)
Definition proxied (r : session_request W) : session_request W :=
  match r with
  | ReqX11 id s p c sc rev =>
      ReqX11 id s p c sc (reverseHandlerProxy stops clock intercept rev ChannelTypeX11)
  | _ => r
  end.

(** ** Programs that only add to the log *)

(** Later: the logger still takes messages, and the trail has grown by [ms]. *)
Definition extends (ms : list Message) (w w' : W) : Prop :=
  accepts (fget w') ∧ connection w' = connection w ∧ trail w' = trail w ++ ms ∧ Forall within ms.

(** What the audit layer needs of the code it calls: it returns, does not close
    the connection's logger, and at most adds messages (through the proxies). *)
Definition only_adds {A} (c : prog W A) : Prop :=
  ∀ w, accepts (fget w) → ∃ a w' ms, c w = Done (a, w') ∧ extends ms w w'.

Lemma extends_refl w : accepts (fget w) → extends [] w w.
Proof. intros. split_and!; try done. by rewrite app_nil_r. Qed.

Lemma extends_trans ms ms' w w1 w2 : extends ms w w1 → extends ms' w1 w2 → extends (ms ++ ms') w w2.
Proof.
  intros (A & C & T & F) (A' & C' & T' & F'). split_and!; [done | congruence| |by apply Forall_app].
  by rewrite T', T, app_assoc.
Qed.

Lemma extends_recorded m w : accepts (fget w) → within m → extends [m] w (recorded m w).
Proof.
  intros A Hm. unfold extends, recorded, trail, connection. rewrite fget_fset.
  split_and!; [by apply accepts_append | done | done | by apply Forall_singleton].
Qed.

Lemma only_adds_ret {A} (a : A) : only_adds (prog_ret a).
Proof. intros w Hw. exists a, w, []. auto using extends_refl. Qed.

Lemma only_adds_bind {A B} (c : prog W A) (f : A → prog W B) :
  only_adds c → (∀ a, only_adds (f a)) → only_adds (prog_bind f c).
Proof.
  intros Hc Hf w Hw. destruct (Hc w Hw) as (a & w1 & ms & E & X).
  destruct (Hf a w1 (proj1 X)) as (b & w2 & ms' & E' & X').
  exists b, w2, (ms ++ ms'). unfold prog_bind. rewrite E. eauto using extends_trans.
Qed.

(** ** One call on the logger *)

(** The session requests, as calls on the channel's logger. *)
Definition request_call (ch : option Z) (r : session_request W) : audit_call :=
  match r with
  | ReqEnv id n v => CallChannel_OnRequestSetEnv ch id n v
  | ReqPty id t c r w h ml => CallChannel_OnRequestPty ch id t c r w h ml
  | ReqX11 id s p c sc _ => CallChannel_OnRequestX11 ch id s p c sc
  | ReqExec id p => CallChannel_OnRequestExec ch id p
  | ReqShell id => CallChannel_OnRequestShell ch id
  | ReqSubsystem id s => CallChannel_OnRequestSubsystem ch id s
  | ReqSignal id s => CallChannel_OnRequestSignal ch id s
  | ReqWindow id c r w h => CallChannel_OnRequestWindow ch id c r w h
  end.

Lemma audit_eq c w :
  accepts (fget w) → call_ok c →
  audit stops clock c w = Done (tt, recorded (call_message (connection w) (clock w) c) w).
Proof.
  intros Hw Hc. unfold audit, on_logger. rewrite audit_exec_log, log_accepts by (done || apply call_not_disconnect). done.
Qed.

Lemma audit_request ch r w :
  accepts (fget w) →
  audit stops clock (request_call ch r) w = Done (tt, recorded (request_message (connection w) (clock w) ch r) w).
Proof. intros Hw. rewrite audit_eq by (done || by destruct r). by destruct r. Qed.

Lemma audit_only_adds c : call_ok c → only_adds (audit stops clock c).
Proof.
  intros Hc w Hw. exists tt, (recorded (call_message (connection w) (clock w) c) w), [call_message (connection w) (clock w) c].
  rewrite audit_eq by done. auto using extends_recorded, call_within.
Qed.

(** ** Session requests *)

(** What comes from the client on a session channel: a request, one of an unknown
    type, one that cannot be decoded, and the end of the channel. *)
Inductive channel_event :=
| EvRequest (r : session_request W)
| EvUnsupported (requestID : Z) (requestType : string) (payload : list byte)
| EvFailedDecode (requestID : Z) (requestType : string) (payload : list byte) (reason : error)
| EvClose.

Definition channel_call (h : SessionChannelHandler W) (ev : channel_event) : prog W (option error) :=
  match ev with
  | EvRequest r => session_call h r
  | EvUnsupported id ty payload => do* OnUnsupportedChannelRequest h id ty payload in prog_ret None
  | EvFailedDecode id ty payload e => do* OnFailedDecodeChannelRequest h id ty payload (Some e) in prog_ret None
  | EvClose => do* OnClose h in prog_ret None
  end.

(** The event as the backend gets it. *)
Definition passed_on (ev : channel_event) : channel_event :=
  match ev with EvRequest r => EvRequest (proxied r) | _ => ev end.

(** The message recorded before the backend gets to know of the event, ... *)
Definition message_before (ch : option Z) (ev : channel_event) (w : W) : option Message :=
  match ev with
  | EvRequest r => Some (request_message (connection w) (clock w) ch r)
  | EvClose => Some (MkMessage (connection w) (clock w) TypeClose None ch)
  | EvUnsupported _ _ _ | EvFailedDecode _ _ _ _ => None
  end.

(** ... and the one after it answered: a failure, if it is of a request whose
    failures are recorded, and the requests the server could not make sense of. *)
Definition message_after (ch : option Z) (ev : channel_event) (err : option error) (w : W) : option Message :=
  match ev, err with
  | EvRequest r, Some e => if failure_recorded r then Some (failure_message (connection w) (clock w) ch (request_id r) e) else None
  | EvUnsupported id ty payload, _ =>
      Some (MkMessage (connection w) (clock w) TypeChannelRequestUnknownType (Some (PayloadChannelRequestUnknownType id ty payload)) ch)
  | EvFailedDecode id ty payload e, _ =>
      Some (MkMessage (connection w) (clock w) TypeChannelRequestDecodeFailed
              (Some (PayloadChannelRequestDecodeFailed id ty payload (Error e))) ch)
  | _, _ => None
  end.

(** The store after a message, if there is one. *)
Definition noted (m : option Message) (w : W) : W := match m with Some m => recorded m w | None => w end.

Lemma before_within ch ev w m : message_before ch ev w = Some m → within m.
Proof. destruct ev; intros [= <-]; [apply request_within | solve_within]. Qed.

Lemma after_within ch ev err w m : message_after ch ev err w = Some m → within m.
Proof.
  destruct ev as [r| | |]; [|intros [= <-]; solve_within..|done]. destruct err as [e|]; [|done]. cbn.
  destruct (failure_recorded r); [|done]. intros [= <-]. apply failure_within.
Qed.

Lemma extends_noted m w : accepts (fget w) → (∀ m', m = Some m' → within m') → extends (option_list m) w (noted m w).
Proof. intros Hw Hm. destruct m as [m|]; [apply extends_recorded; auto | by apply extends_refl]. Qed.

Lemma audited_event_eq backend ch ev w err w2 :
  accepts (fget w) → channel_call backend (passed_on ev) (noted (message_before ch ev w) w) = Done (err, w2) →
  accepts (fget w2) →
  channel_call (sessionChannelHandler stops clock intercept backend ch) ev w
  = Done (err, noted (message_after ch ev err w2) w2).
Proof.
  intros Hw E H2. destruct ev as [r|id ty p|id ty p e|].
  - pose proof (audit_request ch r w Hw) as Ha.
    destruct r; cbn in Ha, E |- *;
      unfold session_OnEnvRequest, session_OnPtyRequest, session_OnX11Request, session_OnExecRequest,
        session_OnShell, session_OnSubsystem, session_OnSignal, session_OnWindow, or_failed;
      unfold prog_bind; rewrite Ha, E;
      destruct err as [e|]; cbn; rewrite ?(audit_eq _ _ H2) by done; done.
  - cbn in E |- *. unfold session_OnUnsupportedChannelRequest, prog_bind in *.
    destruct (OnUnsupportedChannelRequest _ _ _ _ w) as [[[] wx]| |]; [|done..]. injection E as <- <-. by rewrite audit_eq.
  - cbn in E |- *. unfold session_OnFailedDecodeChannelRequest, prog_bind in *.
    destruct (OnFailedDecodeChannelRequest _ _ _ _ _ w) as [[[] wx]| |]; [|done..]. injection E as <- <-. by rewrite audit_eq.
  - cbn in E |- *. unfold session_OnClose, prog_bind in *. rewrite audit_eq by done.
    change (call_message _ _ _) with (MkMessage (connection w) (clock w) TypeClose None ch).
    destruct (OnClose _ _) as [[[] wx]| |]; [|done..]. by injection E as <- <-.
Qed.

(** The message before, then what the backend's work adds, then the one after. *)
Lemma audited_event backend ch ev w :
  accepts (fget w) → only_adds (channel_call backend (passed_on ev)) →
  ∃ err w2 own, channel_call backend (passed_on ev) (noted (message_before ch ev w) w) = Done (err, w2) ∧
    extends (option_list (message_before ch ev w) ++ own) w w2 ∧
    extends (option_list (message_after ch ev err w2)) w2 (noted (message_after ch ev err w2) w2) ∧
    channel_call (sessionChannelHandler stops clock intercept backend ch) ev w
      = Done (err, noted (message_after ch ev err w2) w2).
Proof.
  intros Hw Hb.
  pose proof (extends_noted (message_before ch ev w) w Hw (before_within ch ev w)) as X.
  destruct (Hb _ (proj1 X)) as (err & w2 & own & E & X2).
  exists err, w2, own. split_and!; [done | exact (extends_trans _ _ _ _ _ X X2)
    | apply extends_noted; [apply X2 | apply after_within] | by apply audited_event_eq; [| |apply X2]].
Qed.

(** ** A whole session *)

Definition serve (h : SessionChannelHandler W) (evs : list channel_event) : prog W unit :=
  range evs (λ ev, do* channel_call h ev in prog_ret tt).

(** What the log of a session holds: for each event in turn, served by the
    backend in the store that the one before left, the message before it,
    whatever the backend's work added ([own]), and the message after it. *)
Inductive audited_events (backend : SessionChannelHandler W) (ch : option Z) :
    list channel_event → W → list Message → W → Prop :=
| audited_nil w : audited_events backend ch [] w [] w
| audited_cons ev evs w err w2 own tr w' :
    channel_call backend (passed_on ev) (noted (message_before ch ev w) w) = Done (err, w2) →
    trail w2 = trail w ++ option_list (message_before ch ev w) ++ own →
    audited_events backend ch evs (noted (message_after ch ev err w2) w2) tr w' →
    audited_events backend ch (ev :: evs) w
      (option_list (message_before ch ev w) ++ own ++ option_list (message_after ch ev err w2) ++ tr) w'.

Lemma serve_audited backend ch evs w :
  (∀ ev, only_adds (channel_call backend ev)) → accepts (fget w) →
  ∃ tr w', serve (sessionChannelHandler stops clock intercept backend ch) evs w = Done (tt, w') ∧
    audited_events backend ch evs w tr w' ∧ extends tr w w'.
Proof.
  intros Hb. revert w. induction evs as [|ev evs IH]; intros w Hw.
  { exists [], w. split_and!; [done | constructor | by apply extends_refl]. }
  destruct (audited_event backend ch ev w Hw (Hb _)) as (err & w2 & own & E1 & X1 & X2 & E).
  destruct (IH _ (proj1 X2)) as (tr & w' & E' & Hev & X3).
  eexists _, w'. split_and!; [|by eapply audited_cons; [exact E1 | apply X1 | exact Hev] |].
  - unfold serve in *. cbn. unfold prog_bind. by rewrite E.
  - rewrite app_assoc. exact (extends_trans _ _ _ _ _ X1 (extends_trans _ _ _ _ _ X2 X3)).
Qed.

End spec.

Arguments EvRequest {W} _.
Arguments EvUnsupported {W} _ _ _.
Arguments EvFailedDecode {W} _ _ _ _.
Arguments EvClose {W}.

(** Claim C16. With an encoder that writes what it gets, everything that comes from the
    client on a session channel is recorded once. A request, and the end of the
    channel, is recorded, with all that the client sent, before the backend sees
    it; a request of an unknown type, or one that cannot be decoded, after the
    backend was told of it. The backend gets the same request (for X11 with the
    audited way back to the client), its answer is handed on unchanged, and if
    it is an error then that is recorded as well, unless the request was to
    execute a program or for X11. *)
Theorem session_requests_are_audited {W} `{!Field W loggerConnection} `{!Field W auditHeap}
    stops clock intercept (backend : SessionChannelHandler W) ch ev w :
  healthy stops → accepts (fget w) →
  only_adds (channel_call backend (passed_on stops clock intercept ev)) →
  ∃ err w2 own,
    channel_call backend (passed_on stops clock intercept ev) (noted (message_before clock ch ev w) w) = Done (err, w2) ∧
    trail w2 = trail w ++ option_list (message_before clock ch ev w) ++ own ∧
    ∃ w3, channel_call (sessionChannelHandler stops clock intercept backend ch) ev w = Done (err, w3) ∧
      w3 = noted (message_after clock ch ev err w2) w2 ∧
      trail w3 = trail w2 ++ option_list (message_after clock ch ev err w2).
Proof.
  intros Hs Hw Hb. destruct (audited_event stops clock intercept Hs backend ch ev w Hw Hb)
    as (err & w2 & own & E & (_ & _ & T & _) & (_ & _ & T' & _) & E'). exists err, w2, own. split_and!; [done..|]. eauto.
Qed.

(** ** Authentication attempts *)

Section authentication.
Context {W : Type} `{!Field W loggerConnection} `{!Field W auditHeap}.
Context (stops : list Message → bool) (clock : W → Z) (intercept : AuditLogInterceptConfig).
Context (Hstops : healthy stops).

(** The verdict on a password that the log carries, and the one on a key. *)
Definition password_verdict (user : string) (password : list byte) (resp : AuthResponse) (reason : option error)
  : option audit_call :=
  match resp with
  | AuthResponseSuccess => Some (Call_OnAuthPasswordSuccess user password)
  | AuthResponseFailure => Some (Call_OnAuthPasswordFailed user password)
  | AuthResponseUnavailable => Some (Call_OnAuthPasswordBackendError user password (reason_text reason))
  | AuthResponseOther _ => None
  end.

Definition pubkey_verdict (user key : string) (resp : AuthResponse) (reason : option error) : option audit_call :=
  match resp with
  | AuthResponseSuccess => Some (Call_OnAuthPubKeySuccess user key)
  | AuthResponseFailure => Some (Call_OnAuthPubKeyFailed user key)
  | AuthResponseUnavailable => Some (Call_OnAuthPubKeyBackendError user key (reason_text reason))
  | AuthResponseOther _ => None
  end.

(** The attempt is on record before the backend decides. *)
Definition attempt_recorded (first : audit_call) (w w1 : W) : Prop :=
  ∃ m, w1 = recorded m w ∧ records (connection w) (clock w) first m.

(** ... and its verdict after it did. *)
Definition verdict_recorded (verdict : option audit_call) (w w1 : W) : Prop :=
  match verdict with
  | None => w1 = w
  | Some c => ∃ m, w1 = recorded m w ∧ records (connection w) (clock w) c m
  end.

Lemma audit_recorded c w :
  accepts (fget w) → call_ok c →
  ∃ w1, audit stops clock c w = Done (tt, w1) ∧ attempt_recorded c w w1 ∧ accepts (fget w1).
Proof.
  intros Hw Hc. destruct (audit_exec_records stops (clock w) c (fget w) Hstops Hw Hc) as (m & E & Hr).
  exists (recorded m w). unfold audit, on_logger. rewrite E. split_and!; [done | by exists m |].
  unfold recorded. rewrite fget_fset. by apply accepts_append.
Qed.

(** An attempt: on record, decided by [c], then the verdict on record. *)
Lemma audited_attempt {R} first (c : prog W R) (verdict : R → option audit_call) w :
  accepts (fget w) → call_ok first → only_adds c → (∀ r v, verdict r = Some v → call_ok v) →
  ∃ w1 r w2 w3, attempt_recorded first w w1 ∧ c w1 = Done (r, w2) ∧ verdict_recorded (verdict r) w2 w3 ∧
    (do* audit stops clock first in let* r := c in
     do* match verdict r with Some v => audit stops clock v | None => prog_ret tt end in prog_ret r) w
      = Done (r, w3).
Proof.
  intros Hw Hf Hc Hv. destruct (audit_recorded first w Hw Hf) as (w1 & E1 & R1 & A1).
  destruct (Hc w1 A1) as (r & w2 & ms & E2 & X). unfold prog_bind. rewrite E1, E2.
  destruct (verdict r) as [v|] eqn:Ev.
  - destruct (audit_recorded v w2 (proj1 X) (Hv _ _ Ev)) as (w3 & E3 & R3 & _).
    exists w1, r, w2, w3. by rewrite Ev, E3.
  - exists w1, r, w2, w2. by rewrite Ev.
Qed.
End authentication.

(** A password or key presented by the client is recorded before the backend
    sees it, the backend's verdict after it has been given, and both reach the
    server as the backend returned them. *)
Theorem authentication_is_audited {W} `{!Field W loggerConnection} `{!Field W auditHeap}
    stops clock intercept (backend : NetworkConnectionHandler W) meta password key w :
  healthy stops → accepts (fget w) →
  let h := audit_networkConnectionHandler stops clock intercept backend in
  only_adds (OnAuthPassword backend meta password) → only_adds (OnAuthPubKey backend meta key) →
  (∃ w1 resp md reason w2 w3,
    attempt_recorded clock (Call_OnAuthPassword (Username meta) password) w w1 ∧
    OnAuthPassword backend meta password w1 = Done ((resp, md, reason), w2) ∧
    verdict_recorded clock (password_verdict (Username meta) password resp reason) w2 w3 ∧
    OnAuthPassword h meta password w = Done ((resp, md, reason), w3)) ∧
  (∃ w1 resp md reason w2 w3,
    attempt_recorded clock (Call_OnAuthPubKey (Username meta) key) w w1 ∧
    OnAuthPubKey backend meta key w1 = Done ((resp, md, reason), w2) ∧
    verdict_recorded clock (pubkey_verdict (Username (auth_pending md)) key resp reason) w2 w3 ∧
    OnAuthPubKey h meta key w = Done ((resp, md, reason), w3)).
Proof.
  intros Hs Hw h Hp Hk. split.
  - destruct (audited_attempt stops clock Hs (Call_OnAuthPassword (Username meta) password) _
      (λ r, password_verdict (Username meta) password r.1.1 r.2) w Hw I Hp)
      as (w1 & [[resp md] reason] & w2 & w3 & H1 & H2 & H3 & E); [by intros [[[] ?] ?] ? [= <-]|].
    exists w1, resp, md, reason, w2, w3. split_and!; [done..|].
    rewrite <- E. cbn. unfold network_OnAuthPassword, prog_bind. destruct (audit _ _ _ w) as [[[] wx]| |]; [|done..].
    by destruct (OnAuthPassword _ _ _ wx) as [[[[[] ?] ?] ?]| |].
  - destruct (audited_attempt stops clock Hs (Call_OnAuthPubKey (Username meta) key) _
      (λ r, pubkey_verdict (Username (auth_pending r.1.2)) key r.1.1 r.2) w Hw I Hk)
      as (w1 & [[resp md] reason] & w2 & w3 & H1 & H2 & H3 & E); [by intros [[[] ?] ?] ? [= <-]|].
    exists w1, resp, md, reason, w2, w3. split_and!; [done..|].
    rewrite <- E. cbn. unfold network_OnAuthPubKey, prog_bind. destruct (audit _ _ _ w) as [[[] wx]| |]; [|done..].
    by destruct (OnAuthPubKey _ _ _ wx) as [[[[[] ?] ?] ?]| |].
Qed.

(** ** Session channels *)

Section sessions.
Context {W : Type} `{!Field W loggerConnection} `{!Field W auditHeap} `{!Separate W loggerConnection auditHeap}.
Context (stops : list Message → bool) (clock : W → Z) (intercept : AuditLogInterceptConfig) (under : Objects W).
Context (Hstops : healthy stops).

Definition object (w : W) (r : nat) : option auditObject := objects (fget w) !! r.

(** The session proxy behind a reference is open, with its channel's logger. *)
Definition open_session (w : W) (r : nat) (session : SessionChannel) (ch : option Z) : Prop :=
  ∃ i o e, object w r = Some (SessionProxy (MkSessionProxy session (Some ch) i o e)).

(** Code that leaves the references it was given alone. *)
Definition keeps_objects {A} (c : prog W A) : Prop :=
  ∀ w a w', c w = Done (a, w') → ∀ r o, object w r = Some o → object w' r = Some o.

Lemma object_recorded m w r : object (recorded m w) r = object w r.
Proof. unfold object, recorded. by rewrite fget_other_r. Qed.

Definition with_heap (h : auditHeap) (w : W) : W := fset h w.

Lemma update_proxy_eq r s f w :
  object w r = Some (SessionProxy s) →
  update_proxy r f w = Done (tt, with_heap (MkAuditHeap (<[r := SessionProxy (f s)]> (objects (fget w))) (next (fget w))) w).
Proof. unfold object, update_proxy, heap. intros E. run_prog. by rewrite E. Qed.

Lemma trail_with_heap h w : trail (with_heap h w) = trail w.
Proof. unfold trail, with_heap. by rewrite fget_other_l. Qed.

Lemma accepts_with_heap h w : accepts (fget w) → accepts (fget (with_heap h w)).
Proof. unfold with_heap. by rewrite fget_other_l. Qed.

Lemma alloc_eq o w :
  alloc o w = Done (next (fget w),
    with_heap (MkAuditHeap (<[next (fget w) := o]> (objects (fget w))) (S (next (fget w)))) w).
Proof. done. Qed.

Definition channel_message (conn : string) (now : Z) (id : Z) (channelType : string) : Message :=
  MkMessage conn now TypeNewChannelSuccessful (Some (PayloadNewChannelSuccessful channelType)) (Some id).

Lemma audit_new_channel id channelType w :
  accepts (fget w) →
  audit_OnNewChannelSuccess stops clock id channelType w
  = Done (Some id, recorded (channel_message (connection w) (clock w) id channelType) w).
Proof.
  intros Hw. unfold audit_OnNewChannelSuccess, audit, on_logger, prog_bind. cbn.
  unfold loggerConnection_OnNewChannelSuccess, prog_bind, get. by rewrite log_accepts.
Qed.

(** The first request for the standard output: a new intercepting writer, kept
    in the proxy. *)
Lemma first_Stdout r session ch i e out w :
  intercept_Stdout intercept = true →
  object w r = Some (SessionProxy (MkSessionProxy session (Some ch) i None e)) → r ≠ next (fget w) →
  obj_Stdout under session w = Done (out, w) →
  let x := next (fget w) in
  ∃ h w1, obj_Stdout (audited stops clock intercept under) r w = Done (x, w1) ∧ w1 = with_heap h w ∧
    object w1 x = Some (InterceptingWriter out StreamStdout ch) ∧
    object w1 r = Some (SessionProxy (MkSessionProxy session (Some ch) i (Some x) e)).
Proof.
  intros Hi Ho Hr E x. set (s := MkSessionProxy session (Some ch) i None e) in *.
  assert (obj_Stdout (audited stops clock intercept under) r w = sessionProxy_Stdout intercept under r s w) as ->.
  { cbn. unfold on_session, prog_bind, heap. unfold object in Ho. by rewrite Ho. }
  unfold sessionProxy_Stdout, prog_bind. cbn [sp_audit sp_stdout sp_backend s]. rewrite E.
  unfold channel_GetStdoutProxy. rewrite Hi. cbn [negb]. rewrite alloc_eq. fold x.
  set (w0 := with_heap _ w). assert (object w0 r = Some (SessionProxy s)) as Ho0.
  { unfold object, w0, with_heap. rewrite fget_fset. cbn. by rewrite lookup_insert_ne. }
  erewrite update_proxy_eq by exact Ho0. eexists _, _. split; [done|].
  unfold w0, with_heap, object. rewrite fset_fset, fget_fset. split; [done|]. rewrite !fget_fset. cbn.
  by rewrite lookup_insert_ne, lookup_insert_eq, lookup_insert_eq by done.
Qed.
End sessions.

(** Opening a session channel: the backend gets a proxy of the client's channel
    that has no logger yet.  If the backend accepts, the channel is recorded, the
    proxy gets its logger and the server gets the audited handler; if it
    rejects, the rejection is handed on and nothing is recorded. *)
Theorem session_channels_are_audited {W} `{!Field W loggerConnection} `{!Field W auditHeap}
    `{!Separate W loggerConnection auditHeap} stops clock intercept
    (backend : SSHConnectionHandler W) meta extraData session w :
  healthy stops → accepts (fget w) →
  let proxy := next (fget w) in
  let call := OnSessionChannel backend meta extraData proxy in
  only_adds call → keeps_objects call →
  ∃ w1 ch rejection w2,
    object w1 proxy = Some (SessionProxy (MkSessionProxy session None None None None)) ∧ trail w1 = trail w ∧
    call w1 = Done ((ch, rejection), w2) ∧
    match rejection with
    | Some _ => ssh_OnSessionChannel stops clock intercept backend meta extraData session w
                = Done ((None, rejection), w2)
    | None =>
        let id := Metadata.ChannelID meta in
        ∃ w3, ssh_OnSessionChannel stops clock intercept backend meta extraData session w
          = Done ((Some (sessionChannelHandler stops clock intercept
                     (default nil_SessionChannelHandler ch) (Some id)), None), w3) ∧
          trail w3 = trail w2 ++ [channel_message (connection w2) (clock w2) id "session"] ∧
          open_session w3 proxy session (Some id)
    end.
Proof.
  intros Hs Hw proxy call Ha Hk. unfold ssh_OnSessionChannel, prog_bind. rewrite !alloc_eq.
  fold proxy. fold call. set (w1 := with_heap _ w). destruct (Ha w1 (accepts_with_heap _ w Hw)) as ([ch rej] & w2 & ms & E & X).
  assert (object w1 proxy = Some (SessionProxy (MkSessionProxy session None None None None))) as Ho.
  { unfold object, w1, with_heap. rewrite fget_fset. apply lookup_insert_eq. }
  exists w1, ch, rej, w2. split; [done|]. split; [apply trail_with_heap|]. split; [done|].
  rewrite !E. destruct rej as [rej|]; [done|].
  rewrite (audit_new_channel stops clock Hs) by apply X.
  erewrite update_proxy_eq by (rewrite object_recorded; apply (Hk _ _ _ E _ _ Ho)).
  eexists. split; [done|]. split.
  - rewrite trail_with_heap. unfold trail, recorded. by rewrite fget_fset.
  - eexists _, _, _. unfold object, with_heap. rewrite fget_fset. apply lookup_insert_eq.
Qed.

(** What the backend writes to the standard output it got from the proxy is
    recorded, with the channel it belongs to, and then written to the client; the
    proxy hands out the same writer every time; and an exit status is recorded
    before it is sent. *)
Theorem session_output_is_recorded {W} `{!Field W loggerConnection} `{!Field W auditHeap}
    `{!Separate W loggerConnection auditHeap} stops clock intercept (under : Objects W)
    r session ch i e out p code w :
  let objs := audited stops clock intercept under in
  healthy stops → accepts (fget w) → intercept_Stdout intercept = true → p ≠ [] →
  object w r = Some (SessionProxy (MkSessionProxy session (Some ch) i None e)) → r ≠ next (fget w) →
  obj_Stdout under session w = Done (out, w) →
  ∃ stdout w1,
    obj_Stdout objs r w = Done (stdout, w1) ∧ obj_Stdout objs r w1 = Done (stdout, w1) ∧ trail w1 = trail w ∧
    obj_Write objs stdout p w1
      = obj_Write under out p (recorded (io_message (clock w1) ch (fget w1) StreamStdout p) w1) ∧
    obj_ExitStatus objs r code w1
      = obj_ExitStatus under session code
          (recorded (MkMessage (connection w1) (clock w1) TypeExit (Some (PayloadExit code)) ch) w1).
Proof.
  intros objs Hst Hw Hi Hp Ho Hr E.
  destruct (first_Stdout stops clock intercept under r session ch i e out w Hi Ho Hr E)
    as (h & w1 & E1 & Ew & Hx & Hs).
  assert (accepts (fget w1)) as Hw1 by (subst w1; by apply accepts_with_heap).
  exists (next (fget w)), w1. split; [done|]. unfold object in Hx, Hs.
  split; [cbn; unfold on_session, prog_bind, heap; by rewrite Hs|].
  split; [subst w1; apply trail_with_heap|]. split.
  - cbn. unfold prog_bind, heap. rewrite Hx. unfold audited_Write, prog_bind.
    rewrite decide_True by (destruct p; [done | cbn; lia]).
    by rewrite (audit_eq stops clock Hst).
  - cbn. unfold on_session, prog_bind, heap. rewrite Hs. unfold sessionProxy_ExitStatus, prog_bind. cbn [sp_audit].
    by rewrite (audit_eq stops clock Hst).
Qed.

(** A backend that reaches for the client's channel while it is still deciding
    about it panics, and takes the connection's goroutine with it. *)
Theorem early_channel_use_panics {W} `{!Field W loggerConnection} `{!Field W auditHeap}
    stops clock intercept under (backend : SSHConnectionHandler W) k meta extraData session w :
  (∀ s, OnSessionChannel backend meta extraData s =
        let* stdout := obj_Stdout (audited stops clock intercept under) s in k stdout) →
  ssh_OnSessionChannel stops clock intercept backend meta extraData session w
  = Panic "BUG: stdout requested before channel is open".
Proof.
  intros Hb. unfold ssh_OnSessionChannel, prog_bind. rewrite alloc_eq, Hb.
  cbn. unfold on_session, heap, prog_bind, with_heap. rewrite fget_fset. cbn. by rewrite lookup_insert_eq.
Qed.

(** ** A concrete connection *)

Module audit_demo.

Abbreviation store := (loggerConnection * auditHeap)%type.
Definition clock (w : store) : Z := 100 + Z.of_nat (length (lc_received w.1)).
Definition everything : AuditLogInterceptConfig := MkAuditLogInterceptConfig true true true true true.
Definition w0 : store := (MkLoggerConnection "c1" false false [] true, MkAuditHeap ∅ 7).

(** A backend that refuses to run programs and takes everything else. *)
Definition session : SessionChannelHandler store :=
  let ok := prog_ret None in
  {| OnUnsupportedChannelRequest := λ _ _ _, prog_ret tt;
     OnFailedDecodeChannelRequest := λ _ _ _ _, prog_ret tt;
     OnEnvRequest := λ _ _ _, ok; OnPtyRequest := λ _ _ _ _ _ _ _, ok; OnX11Request := λ _ _ _ _ _ _, ok;
     OnExecRequest := λ _ _, prog_ret (Some (ErrorString "no program"));
     OnShell := λ _, prog_ret (Some (ErrorString "no shell"));
     OnSubsystem := λ _ _, ok; OnSignal := λ _ _, ok; OnWindow := λ _ _ _ _ _, ok;
     OnClose := prog_ret tt; OnShutdown := λ _, prog_ret tt |}.

Definition connection : SSHConnectionHandler store :=
  {| OnUnsupportedGlobalRequest := λ _ _ _, prog_ret tt;
     OnFailedDecodeGlobalRequest := λ _ _ _ _, prog_ret tt;
     OnUnsupportedChannel := λ _ _ _, prog_ret tt;
     OnSessionChannel := λ _ _ _, prog_ret (Some session, None);
     OnTCPForwardChannel := λ _ _ _ _ _, prog_ret (Some 3%nat, None);
     OnRequestTCPReverseForward := λ _ _ _, prog_ret None;
     OnRequestCancelTCPReverseForward := λ _ _, prog_ret None;
     OnDirectStreamLocal := λ _ _, prog_ret (Some 3%nat, None);
     OnRequestStreamLocal := λ _ _, prog_ret None;
     OnRequestCancelStreamLocal := λ _, prog_ret None;
     OnConnShutdown := λ _, prog_ret tt |}.

(** A network backend that knows one password and no keys. *)
Definition network : NetworkConnectionHandler store :=
  {| OnAuthPassword := λ p pw, prog_ret (if decide (pw = ["x"%byte]) then AuthResponseSuccess else AuthResponseFailure,
                                         AuthFailed p, None);
     OnAuthPubKey := λ p _, prog_ret (AuthResponseUnavailable, AuthFailed p, None);
     OnAuthKeyboardInteractive := λ p _, prog_ret (AuthResponseFailure, AuthFailed p, None);
     OnAuthGSSAPI := λ _, prog_ret None;
     OnHandshakeFailed := λ _ _, prog_ret tt;
     OnHandshakeSuccess := λ md, prog_ret (Some connection, md, None);
     OnDisconnect := prog_ret tt;
     OnNetShutdown := λ _, prog_ret tt |}.

(** The objects of the layer below: one output, on which writing succeeds. *)
Definition under : Objects store :=
  {| obj_Stdin := λ _, prog_ret 1%nat; obj_Stdout := λ _, prog_ret 2%nat; obj_Stderr := λ _, prog_ret 3%nat;
     obj_ExitStatus := λ _ _, prog_ret tt; obj_ExitSignal := λ _ _ _ _ _, prog_ret tt;
     obj_CloseWrite := λ _, prog_ret None; obj_Close := λ _, prog_ret None;
     obj_Read := λ _ _, prog_ret ([], None); obj_Write := λ _ p, prog_ret (Z.of_nat (length p), None) |}.

Definition pending : ConnectionAuthPendingMetadata :=
  StartAuthentication (MkConnectionMetadata (MkRemoteAddress [] 22) "c1" None None None) "SSH-2.0-demo" "bob".

Lemma session_only_adds ev : only_adds (channel_call session ev).
Proof. destruct ev as [r| | |]; [destruct r|..]; apply only_adds_ret. Qed.

(** A shell that is refused, and a request of a type that the server does not
    know. *)
Lemma session_requests_are_audited_witness :
  (∃ w3, channel_call (sessionChannelHandler at_disconnect clock everything session (Some 0)) (EvRequest (ReqShell 4)) w0
      = Done (Some (ErrorString "no shell"), w3) ∧
    trail w3 = [MkMessage "c1" 100 405 (Some (PayloadChannelRequestShell 4)) (Some 0);
                MkMessage "c1" 101 501 (Some (PayloadRequestFailed 4 "no shell")) (Some 0)]) ∧
  (∃ w3, channel_call (sessionChannelHandler at_disconnect clock everything session (Some 0)) (EvUnsupported 5 "keepalive" []) w0
      = Done (None, w3) ∧
    trail w3 = [MkMessage "c1" 100 400 (Some (PayloadChannelRequestUnknownType 5 "keepalive" [])) (Some 0)]).
Proof.
  split.
  - destruct (session_requests_are_audited at_disconnect clock everything session (Some 0) (EvRequest (ReqShell 4)) w0)
      as (err & w2 & ms & H1 & _ & w3 & H3 & _ & T); [exact at_disconnect_healthy | split_and!; reflexivity | apply session_only_adds |].
    injection H1 as <- <-. exists w3. split; [exact H3|]. rewrite T. reflexivity.
  - destruct (session_requests_are_audited at_disconnect clock everything session (Some 0) (EvUnsupported 5 "keepalive" []) w0)
      as (err & w2 & ms & H1 & _ & w3 & H3 & _ & T); [exact at_disconnect_healthy | split_and!; reflexivity | apply session_only_adds |].
    injection H1 as <- <-. exists w3. split; [exact H3|]. rewrite T. reflexivity.
Defined.

Lemma authentication_is_audited_witness :
  ∃ w1 resp md reason w2 w3,
    attempt_recorded clock (Call_OnAuthPassword "bob" ["y"%byte]) w0 w1 ∧
    OnAuthPassword network pending ["y"%byte] w1 = Done ((resp, md, reason), w2) ∧
    verdict_recorded clock (password_verdict "bob" ["y"%byte] resp reason) w2 w3 ∧
    OnAuthPassword (audit_networkConnectionHandler at_disconnect clock everything network) pending ["y"%byte] w0
      = Done ((resp, md, reason), w3).
Proof.
  destruct (authentication_is_audited at_disconnect clock everything network pending ["y"%byte] "ssh-rsa" w0)
    as [H _]; [exact at_disconnect_healthy | split_and!; reflexivity | apply only_adds_ret.. |]. exact H.
Defined.

Lemma session_channels_are_audited_witness :
  ∃ w3, ssh_OnSessionChannel at_disconnect clock everything connection (MkChannelMetadata (AuthFailed pending) 5) [] 9%nat w0
      = Done ((Some (sessionChannelHandler at_disconnect clock everything session (Some 5)), None), w3) ∧
    open_session w3 7 9%nat (Some 5).
Proof.
  destruct (session_channels_are_audited at_disconnect clock everything connection
    (MkChannelMetadata (AuthFailed pending) 5) [] 9%nat w0) as (w1 & ch & rej & w2 & _ & _ & E & H);
    [exact at_disconnect_healthy | split_and!; reflexivity | apply only_adds_ret | by intros w a w' [= <- <-] | ].
  injection E as <- <- <-. destruct H as (w3 & E3 & _ & H3). by exists w3.
Defined.

Lemma session_output_is_recorded_witness :
  let w := (w0.1, MkAuditHeap {[ 6%nat := SessionProxy (MkSessionProxy 9%nat (Some (Some 5)) None None None) ]} 7) in
  ∃ stdout w1,
    obj_Stdout (audited at_disconnect clock everything under) 6%nat w = Done (stdout, w1) ∧
    obj_Write (audited at_disconnect clock everything under) stdout ["h"%byte] w1
      = Done ((1, None), recorded (io_message (clock w1) (Some 5) (fget w1) StreamStdout ["h"%byte]) w1).
Proof.
  intros w. destruct (session_output_is_recorded at_disconnect clock everything under 6%nat 9%nat (Some 5) None None 2%nat
    ["h"%byte] 0 w) as (stdout & w1 & E1 & _ & _ & E2 & _); [exact at_disconnect_healthy | split_and!; reflexivity | done.. |].
  by exists stdout, w1.
Defined.

Lemma early_channel_use_panics_witness :
  let eager := {| OnUnsupportedGlobalRequest := λ _ _ _, prog_ret tt;
     OnFailedDecodeGlobalRequest := λ _ _ _ _, prog_ret tt;
     OnUnsupportedChannel := λ _ _ _, prog_ret tt;
     OnSessionChannel := λ _ _ s, let* _ := obj_Stdout (audited at_disconnect clock everything under) s in
                                  prog_ret (Some session, None);
     OnTCPForwardChannel := λ _ _ _ _ _, prog_ret (Some 3%nat, None);
     OnRequestTCPReverseForward := λ _ _ _, prog_ret None;
     OnRequestCancelTCPReverseForward := λ _ _, prog_ret None;
     OnDirectStreamLocal := λ _ _, prog_ret (Some 3%nat, None);
     OnRequestStreamLocal := λ _ _, prog_ret None;
     OnRequestCancelStreamLocal := λ _, prog_ret None;
     OnConnShutdown := λ _, prog_ret tt |} in
  ssh_OnSessionChannel at_disconnect clock everything eager (MkChannelMetadata (AuthFailed pending) 5) [] 9%nat w0
  = Panic "BUG: stdout requested before channel is open".
Proof.
  intros eager. by apply (early_channel_use_panics at_disconnect clock everything under eager
    (λ _, prog_ret (Some session, None))).
Defined.

End audit_demo.
