(* ===== verification/AuditCodec.v ===== *)
(** * Audit log codecs

    [internal/auditlog/codec]: the asciinema, binary and none encoders and the
    binary decoder.  Gzip, CBOR and JSON are below the model: a stream is the
    list of what was written to it. *)

From stdpp Require Import base gmap strings list.
From Stdlib Require Import Strings.Byte.
From S2P Require Import Prelude Messages AuditMessage.

Local Open Scope Z_scope.

(** ** Integers *)

(** An [int64] wraps around between -2^63 and 2^63 - 1. *)
Definition i64 (z : Z) : Z := (z + 2 ^ 63) `mod` 2 ^ 64 - 2 ^ 63.

(** Go's division of integers truncates towards zero. *)
Definition seconds (nanos : Z) : Z := Z.quot nanos 1000000000.

(** A [SetMetadata] call of the storage writer. *)
Record storage_metadata := MkStorageMetadata {
  sm_startTime : Z;
  sm_sourceIP : string;
  sm_country : string;
  sm_username : option string;
}.

Definition bad_assertion : string := "interface conversion".

(** ** Asciinema *)

Module asciinema.

Record Header := MkHeader {
  Version : Z;
  Width : Z;
  Height : Z;
  header_Timestamp : Z;
  Command : string;
  Title : string;
  Env : gmap string string;
}.

(** A frame; its time is kept in nanoseconds (the code divides by 10^9 into a
    float64), its type is always output. *)
Record Frame := MkFrame { frame_nanos : Z; frame_data : list byte }.

(** One line of the file. *)
Inductive line :=
| HeaderLine (h : Header)
| FrameLine (f : Frame).

(** What the encoder threads through its loop: the header is a shared object,
    [lines] the file written so far, [metadata] the [SetMetadata] calls and
    [closes] how often the storage writer was closed. *)
Record enc := MkEnc {
  startTime : Z;
  headerWritten : bool;
  ip : string;
  username : option string;
  header : Header;
  lines : list line;
  metadata : list storage_metadata;
  closes : nat;
}.

Definition set_header (h : Header) (e : enc) : enc :=
  MkEnc (startTime e) (headerWritten e) (ip e) (username e) h (lines e) (metadata e) (closes e).

Section encoder.
(** [Lookup] of the geo-IP provider applied to the parsed address text, and
    whether writing a line after those already in the file fails. *)
Context (Lookup : string → string) (write_error : list line → line → option error).

Abbreviation ecall A := (prog enc A).

Definition write_line (l : line) : ecall (option error) :=
  let* e := get in
  match write_error (lines e) l with
  | Some err => prog_ret (Some err)
  | None =>
      do* put (MkEnc (startTime e) (headerWritten e) (ip e) (username e) (header e) (lines e ++ [l])
                 (metadata e) (closes e)) in
      prog_ret None
  end.

Definition sendHeader (h : Header) : ecall (option error) := write_line (HeaderLine h).

Definition sendFrame (f : Frame) : ecall (option error) :=
  let* err := write_line (FrameLine f) in
  match err with
  | Some e => prog_ret (Some (WrapError (Sprintf "failed to write Asciicast frame (%w)" [VString (Error e)]) e))
  | None => prog_ret None
  end.

Definition SetMetadata (m : storage_metadata) : ecall unit :=
  modify (λ e, MkEnc (startTime e) (headerWritten e) (ip e) (username e) (header e) (lines e)
                 (metadata e ++ [m]) (closes e)).

Definition set_login (i : string) (u : option string) : ecall unit :=
  modify (λ e, MkEnc (startTime e) (headerWritten e) i u (header e) (lines e) (metadata e) (closes e)).

Definition handleConnect (msg : Message) (country : string) : ecall unit :=
  match msg_Payload msg with
  | Some (PayloadConnect remoteAddr _) =>
      let* e := get in
      do* SetMetadata (MkStorageMetadata (seconds (startTime e)) remoteAddr country (username e)) in
      set_login remoteAddr (username e)
  | _ => panic bad_assertion
  end.

Definition handleLogin (name : string) (country : string) : ecall unit :=
  let* e := get in
  do* SetMetadata (MkStorageMetadata (seconds (startTime e)) (ip e) country (Some name)) in
  set_login (ip e) (Some name).

Definition handleAuthPasswordSuccessful (msg : Message) (country : string) : ecall unit :=
  match msg_Payload msg with
  | Some (PayloadAuthPassword name _) => handleLogin name country
  | _ => panic bad_assertion
  end.

Definition handleAuthPubkeySuccessful (msg : Message) (country : string) : ecall unit :=
  match msg_Payload msg with
  | Some (PayloadAuthPubKey name _) => handleLogin name country
  | _ => panic bad_assertion
  end.

Definition handleHandshakeSuccessful (msg : Message) (country : string) : ecall unit :=
  match msg_Payload msg with
  | Some (PayloadHandshakeSuccessful name) => handleLogin name country
  | _ => panic bad_assertion
  end.

Definition handleSetEnv (msg : Message) : ecall unit :=
  match msg_Payload msg with
  | Some (PayloadChannelRequestSetEnv _ name value_) =>
      modify (λ e, let h := header e in
        set_header (MkHeader (Version h) (Width h) (Height h) (header_Timestamp h) (Command h) (Title h)
                      (<[name := value_]> (Env h))) e)
  | _ => panic bad_assertion
  end.

Definition handleChannelRequestPty (msg : Message) : ecall unit :=
  match msg_Payload msg with
  | Some (PayloadChannelRequestPty _ term columns rows _ _ _) =>
      modify (λ e, let h := header e in
        set_header (MkHeader (Version h) columns rows (header_Timestamp h) (Command h) (Title h)
                      (<["TERM" := term]> (Env h))) e)
  | _ => panic bad_assertion
  end.

(** Writes the header with the command, the first time it is called. *)
Definition handleRun (program : string) : ecall (option error) :=
  let* e := get in
  if negb (headerWritten e) then
    do* modify (λ e, let h := header e in
          set_header (MkHeader (Version h) (Width h) (Height h) (header_Timestamp h) program (Title h) (Env h)) e) in
    let* e := get in
    let* err := sendHeader (header e) in
    match err with
    | Some _ => prog_ret err
    | None =>
        do* modify (λ e, MkEnc (startTime e) true (ip e) (username e) (header e) (lines e) (metadata e) (closes e)) in
        prog_ret None
    end
  else prog_ret None.

Definition handleIO (msg : Message) (shell : string) : ecall (option error) :=
  let* err := handleRun shell in
  match err with
  | Some _ => prog_ret err
  | None =>
      match msg_Payload msg with
      | Some (PayloadIO stream data) =>
          if decide (stream = StreamStdout ∨ stream = StreamStderr) then
            let* e := get in
            sendFrame (MkFrame (i64 (Timestamp msg - startTime e)) data)
          else prog_ret None
      | _ => panic bad_assertion
      end
  end.

Definition no_error (c : ecall unit) : ecall (option error) := do* c in prog_ret None.

Definition encodeMessage (msg : Message) (shell : string) : ecall (option error) :=
  do* (if decide (MessageType msg = TypeConnect) then
         modify (λ e, let h := header e in
           MkEnc (Timestamp msg) (headerWritten e) (ip e) (username e)
             (MkHeader (Version h) (Width h) (Height h) (seconds (Timestamp msg)) (Command h) (Title h) (Env h))
             (lines e) (metadata e) (closes e))
       else prog_ret tt) in
  let* e := get in
  let country := Lookup (ip e) in
  let t := MessageType msg in
  if decide (t = TypeConnect) then no_error (handleConnect msg country)
  else if decide (t = TypeAuthPasswordSuccessful) then no_error (handleAuthPasswordSuccessful msg country)
  else if decide (t = TypeAuthPubKeySuccessful) then no_error (handleAuthPubkeySuccessful msg country)
  else if decide (t = TypeHandshakeSuccessful) then no_error (handleHandshakeSuccessful msg country)
  else if decide (t = TypeChannelRequestSetEnv) then no_error (handleSetEnv msg)
  else if decide (t = TypeChannelRequestPty) then no_error (handleChannelRequestPty msg)
  else if decide (t = TypeChannelRequestExec) then
    match msg_Payload msg with
    | Some (PayloadChannelRequestExec _ program) => handleRun program
    | _ => panic bad_assertion
    end
  else if decide (t = TypeChannelRequestShell) then handleRun shell
  else if decide (t = TypeChannelRequestSubsystem) then handleRun shell
  else if decide (t = TypeIO) then handleIO msg shell
  else prog_ret None.

Definition storage_Close : ecall unit :=
  modify (λ e, MkEnc (startTime e) (headerWritten e) (ip e) (username e) (header e) (lines e) (metadata e)
                 (S (closes e))).

(** The loop over the messages received until the channel is closed. *)
Fixpoint encodeMessages (messages : list Message) (shell : string) : ecall (option error) :=
  match messages with
  | [] => prog_ret None
  | msg :: rest =>
      let* err := encodeMessage msg shell in
      match err with
      | Some _ => prog_ret err
      | None => encodeMessages rest shell
      end
  end.

Definition enc0 : enc :=
  MkEnc 0 false "" None (MkHeader 2 80 25 0 "" "" ∅) [] [] 0.

Definition asciinema_Encode (messages : list Message) : ecall (option error) :=
  let* err := encodeMessages messages "/bin/sh" in
  match err with
  | Some _ => do* storage_Close in prog_ret err
  | None =>
      let* e := get in
      let* err :=
        if negb (headerWritten e) then sendHeader (header e) else prog_ret None in
      do* storage_Close in
      prog_ret err
  end.

End encoder.
End asciinema.

(** ** The binary format *)

Module binary.

Definition FileFormatMagic : string := "ContainerSSH-Auditlog".
Definition FileFormatLength : nat := 32.
Definition CurrentVersion : Z := 2.

(** [fileFormatBytes], as [init] fills it: the magic, padded with zeroes. *)
Definition fileFormatBytes : list byte :=
  let magic := String.list_byte_of_string FileFormatMagic in
  magic ++ replicate (FileFormatLength - length magic) x00.

Record BinaryHeader := MkBinaryHeader { Magic : list byte; Version : Z }.

(** [binary.LittleEndian.PutUint64] and [Uint64] *)
Fixpoint PutUint (n : nat) (v : Z) : list byte :=
  match n with
  | O => []
  | S n' => byte_of v :: PutUint n' (Z.shiftr v 8)
  end.

Fixpoint Uint (l : list byte) : Z :=
  match l with
  | [] => 0
  | b :: l' => Z_of_byte b + Z.shiftl (Uint l') 8
  end.

Definition getBytes (h : BinaryHeader) : list byte :=
  let versionBytes := PutUint 8 (Version h) in
  take FileFormatLength fileFormatBytes ++ take 8 versionBytes.

Definition newHeader (version : Z) : BinaryHeader := MkBinaryHeader fileFormatBytes version.

(** [readHeader]: the version and the rest of the stream, or an error. *)
Definition readHeader (input : list byte) (maxVersion : Z) : (Z * list byte) + error :=
  if decide (length input < FileFormatLength + 8)%nat
  then inr (ErrorString (if decide (input = []) then "EOF" else "unexpected EOF"))
  else
    let headerBytes := take (FileFormatLength + 8) input in
    if decide (take FileFormatLength headerBytes ≠ fileFormatBytes)
    then inr (ErrorString "invalid file format header")
    else
      let version := Uint (drop FileFormatLength headerBytes) in
      if decide (maxVersion < version)
      then inr (ErrorString (Sprintf "file format version is higher than supported: %d" [VInt version]))
      else inl (version, drop (FileFormatLength + 8) input).

(** *** The encoder *)

(** What the encoder has written: the header bytes, the messages encoded into
    the gzip stream, the [SetMetadata] calls, and whether the storage is closed. *)
Record out := MkOut {
  out_header : list byte;
  out_messages : list Message;
  out_metadata : list storage_metadata;
  out_closed : bool;
}.

Section encoder.
Context (Lookup : string → string) (write_error : list byte → option error).
Context (encode_error : list Message → Message → option error) (close_error : option error).

Abbreviation bcall A := (prog out A).

Definition set_metadata (m : storage_metadata) : bcall unit :=
  modify (λ o, MkOut (out_header o) (out_messages o) (out_metadata o ++ [m]) (out_closed o)).

(** The country assigned in the connect case is a new variable of that case:
    the one returned is unchanged. *)
Definition storeMetadata (msg : Message) (startTime : Z) (ip country : string) (username : option string)
  : bcall (string * string * option string) :=
  let login name :=
    do* set_metadata (MkStorageMetadata (seconds startTime) ip country (Some name)) in
    prog_ret (ip, country, Some name) in
  let t := MessageType msg in
  if decide (t = TypeConnect) then
    match msg_Payload msg with
    | Some (PayloadConnect remoteAddr _) =>
        let ip := remoteAddr in
        let country' := Lookup ip in
        do* set_metadata (MkStorageMetadata (seconds startTime) ip country' username) in
        prog_ret (ip, country, username)
    | _ => panic bad_assertion
    end
  else if decide (t = TypeAuthPasswordSuccessful) then
    match msg_Payload msg with
    | Some (PayloadAuthPassword name _) => login name
    | _ => panic bad_assertion
    end
  else if decide (t = TypeAuthPubKeySuccessful) then
    match msg_Payload msg with
    | Some (PayloadAuthPubKey name _) => login name
    | _ => panic bad_assertion
    end
  else if decide (t = TypeHandshakeSuccessful) then
    match msg_Payload msg with
    | Some (PayloadHandshakeSuccessful name) => login name
    | _ => panic bad_assertion
    end
  else prog_ret (ip, country, username).

(** The loop: it ends with the channel or after the disconnect message. *)
Fixpoint encode_loop (messages : list Message) (startTime : Z) (ip country : string) (username : option string)
  : bcall (option error) :=
  match messages with
  | [] => prog_ret None
  | msg :: rest =>
      let startTime := if decide (startTime = 0) then Timestamp msg else startTime in
      let* '(ip, country, username) := storeMetadata msg startTime ip country username in
      let* o := get in
      match encode_error (out_messages o) msg with
      | Some e =>
          prog_ret (Some (WrapError (Sprintf "failed to encode audit log message (%w)" [VString (Error e)]) e))
      | None =>
          do* put (MkOut (out_header o) (out_messages o ++ [msg]) (out_metadata o) (out_closed o)) in
          if decide (MessageType msg = TypeDisconnect) then prog_ret None
          else encode_loop rest startTime ip country username
      end
  end.

Definition binary_Encode (messages : list Message) : bcall (option error) :=
  let header := getBytes (newHeader CurrentVersion) in
  match write_error header with
  | Some e => prog_ret (Some e)
  | None =>
      do* modify (λ o, MkOut header (out_messages o) (out_metadata o) (out_closed o)) in
      let* err := encode_loop messages 0 "" "XX" None in
      match err with
      | Some _ => prog_ret err
      | None =>
          match close_error with
          | Some e =>
              prog_ret (Some (WrapError (Sprintf "failed to close audit log gzip stream (%w)" [VString (Error e)]) e))
          | None =>
              do* modify (λ o, MkOut (out_header o) (out_messages o) (out_metadata o) true) in
              prog_ret None
          end
      end
  end.

End encoder.

(** *** The decoder *)

Section decoder.
(** A payload as a map of fields, and [mapstructure.Decode] into a payload
    template. *)
Context (fields : Type) (mapstructure_Decode : fields → Payload → Payload + error).

Record decodedMessage := MkDecodedMessage {
  dm_ConnectionID : string;
  dm_Timestamp : Z;
  dm_MessageType : Z;
  dm_Payload : fields;
  dm_ChannelID : option Z;
}.

Definition decodeMessage (v : decodedMessage) : Message + error :=
  match Type_Payload (dm_MessageType v) with
  | None => inr (ErrorString (Sprintf "invalid message type: %d" [VInt (dm_MessageType v)]))
  | Some None =>
      inl (MkMessage (dm_ConnectionID v) (dm_Timestamp v) (dm_MessageType v) None (dm_ChannelID v))
  | Some (Some template) =>
      match mapstructure_Decode (dm_Payload v) template with
      | inr e => inr e
      | inl payload =>
          inl (MkMessage (dm_ConnectionID v) (dm_Timestamp v) (dm_MessageType v) (Some payload) (dm_ChannelID v))
      end
  end.

(** What comes out of the two channels: the messages, and the errors. *)
Definition decode_result : Type := list Message * list error.

(** Format 1: one list of messages; an error does not end the loop. *)
Fixpoint decode_v1 (l : list decodedMessage) : decode_result :=
  match l with
  | [] => ([], [])
  | v :: rest =>
      let '(ms, es) := decode_v1 rest in
      match decodeMessage v with
      | inr e => (ms, e :: es)
      | inl m => (m :: ms, es)
      end
  end.

(** Format 2: messages one by one until the stream ends, with [ending] the
    CBOR decoder's error there unless it is an unexpected end of file, which is
    how the stream of an unclosed gzip writer ends. *)
Fixpoint decode_v2 (l : list decodedMessage) (ending : option error) : decode_result :=
  match l with
  | [] =>
      ([], match ending with
           | Some e => [WrapError (Sprintf "failed to decode messages (%w)" [VString (Error e)]) e]
           | None => []
           end)
  | v :: rest =>
      match decodeMessage v with
      | inr e => ([], [e])
      | inl m => let '(ms, es) := decode_v2 rest ending in (m :: ms, es)
      end
  end.

(** [gzip.NewReader] on the rest of the input, and the CBOR decoder on the
    opened stream: as one list of messages, or as one message after the other
    with the way the stream ends. *)
Context (stream : Type) (gunzip : list byte → stream + error).
Context (cbor_list : stream → list decodedMessage + error).
Context (cbor_values : stream → list decodedMessage * option error).

Definition binary_Decode (input : list byte) : decode_result :=
  match readHeader input CurrentVersion with
  | inr e => ([], [e])
  | inl (version, rest) =>
      match gunzip rest with
      | inr e => ([], [WrapError (Sprintf "failed to open gzip stream (%w)" [VString (Error e)]) e])
      | inl gz =>
          if decide (version = 1) then
            match cbor_list gz with
            | inr e => ([], [WrapError (Sprintf "failed to decode messages (%w)" [VString (Error e)]) e])
            | inl messages => decode_v1 messages
            end
          else if decide (version = 2) then let '(values, ending) := cbor_values gz in decode_v2 values ending
          else ([], [])
      end
  end.

End decoder.
End binary.

(** ** The none encoder *)

(** It consumes messages up to the disconnect message; the result is what it
    leaves on the channel. *)
Fixpoint none_Encode (messages : list Message) : list Message :=
  match messages with
  | [] => []
  | msg :: rest => if decide (MessageType msg = TypeDisconnect) then rest else none_Encode rest
  end.
