(* ===== verification/AuditCodecSpec.v ===== *)
(** * What the audit log codecs write and read back

    Theorems on [AuditCodec]: the file header, the round trip of the binary
    format, the shape of an asciinema recording and the country that is stored
    with a recording. *)

From stdpp Require Import base gmap strings list.
From Stdlib Require Import Strings.Byte.
From S2P Require Import Prelude Messages AuditMessage AuditLog AuditSpec AuditCodec.

Local Open Scope Z_scope.

(** ** The file header *)

Lemma Uint_PutUint n v : binary.Uint (binary.PutUint n v) = v `mod` 256 ^ Z.of_nat n.
Proof.
  revert v. induction n as [|n IH]; intros v; [cbn; by rewrite Z.mod_1_r|].
  cbn [binary.PutUint binary.Uint]. rewrite IH, Z_of_byte_of, Z.shiftl_mul_pow2, Z.shiftr_div_pow2 by lia.
  change (2 ^ 8) with 256. rewrite Nat2Z.inj_succ, Z.pow_succ_r by lia.
  rewrite Z.rem_mul_r by (try apply Z.pow_pos_nonneg; lia). lia.
Qed.

Lemma PutUint_Uint l : binary.PutUint (length l) (binary.Uint l) = l.
Proof.
  induction l as [|b l IH]; [done|]. cbn [length binary.PutUint binary.Uint].
  pose proof (Z_of_byte_range b) as Hb.
  rewrite Z.shiftl_mul_pow2 by lia. change (2 ^ 8) with 256. f_equal.
  - rewrite <- (byte_roundtrip b) at 2. unfold byte_of. f_equal. f_equal. f_equal.
    by rewrite Z_mod_plus_full.
  - rewrite Z.shiftr_div_pow2 by lia. change (2 ^ 8) with 256.
    rewrite Z.div_add by lia. rewrite Z.div_small by lia. exact IH.
Qed.

Lemma Uint_range l : 0 ≤ binary.Uint l < 256 ^ Z.of_nat (length l).
Proof.
  induction l as [|b l IH]; [cbn; lia|]. cbn [binary.Uint length].
  pose proof (Z_of_byte_range b). rewrite Z.shiftl_mul_pow2 by lia. change (2 ^ 8) with 256.
  rewrite Nat2Z.inj_succ, Z.pow_succ_r by lia. lia.
Qed.

Lemma PutUint_length n v : length (binary.PutUint n v) = n.
Proof. revert v. induction n; intros; cbn; auto. Qed.

Lemma getBytes_newHeader v :
  binary.getBytes (binary.newHeader v) = binary.fileFormatBytes ++ binary.PutUint 8 v.
Proof.
  unfold binary.getBytes. rewrite !take_ge; [done|rewrite PutUint_length; lia|by vm_compute].
Qed.

Lemma readHeader_iff input maxVersion v rest :
  binary.readHeader input maxVersion = inl (v, rest) ↔
  input = binary.getBytes (binary.newHeader v) ++ rest ∧ is_u64 v ∧ v ≤ maxVersion.
Proof.
  rewrite getBytes_newHeader. unfold binary.readHeader.
  change (binary.FileFormatLength + 8)%nat with 40%nat. change binary.FileFormatLength with 32%nat. split.
  - case_decide as Hl; [done|]. case_decide as Hm; [done|]. case_decide as Hv; [done|].
    intros [= <- <-].
    assert (length (drop 32 (take 40 input)) = 8%nat) as Hd by (rewrite length_drop, length_take; lia).
    split; [|split; [|lia]].
    + pose proof (PutUint_Uint (drop 32 (take 40 input))) as E. rewrite Hd in E.
      by rewrite E, <- Hm, take_drop, take_drop.
    + pose proof (Uint_range (drop 32 (take 40 input))) as H. rewrite Hd in H. exact H.
  - intros (-> & Hv & Hm).
    assert (length binary.fileFormatBytes = 32%nat) as Hf by done.
    pose proof (PutUint_length 8 v) as Hp.
    rewrite decide_False by (rewrite !length_app; lia).
    rewrite (take_app_length' (binary.fileFormatBytes ++ binary.PutUint 8 v)) by (rewrite length_app; lia).
    rewrite (drop_app_length' (binary.fileFormatBytes ++ binary.PutUint 8 v)) by (rewrite length_app; lia).
    rewrite take_app_length', drop_app_length' by done.
    rewrite decide_False by (intros H; by apply H).
    rewrite Uint_PutUint. change (256 ^ Z.of_nat 8) with (2 ^ 64).
    rewrite Z.mod_small by exact Hv. by rewrite decide_False by lia.
Qed.

(** A stream is accepted with version [v] and rest [rest] exactly when it is
    the header of a version that the reader supports followed by [rest]. *)
Theorem header_accepted_iff input maxVersion v rest :
  binary.readHeader input maxVersion = inl (v, rest) ↔
  input = binary.getBytes (binary.newHeader v) ++ rest ∧ is_u64 v ∧ v ≤ maxVersion.
Proof. apply readHeader_iff. Qed.

(** ** The binary encoder *)

(** The messages up to and including the first disconnect message. *)
Fixpoint upto_disconnect (ms : list Message) : list Message :=
  match ms with
  | [] => []
  | m :: rest => m :: if decide (MessageType m = TypeDisconnect) then [] else upto_disconnect rest
  end.

Lemma upto_disconnect_incl m ms : m ∈ upto_disconnect ms → m ∈ ms.
Proof.
  induction ms as [|x ms IH]; [done|]. cbn. intros [->|H]%elem_of_cons; [left|right].
  case_decide; [by apply elem_of_nil in H | by apply IH].
Qed.

(** What the template of a type says about the payload. *)
Lemma well_typed_kind m k t :
  well_typed m → MessageType m = t → payload_kind <$> mjoin (Type_Payload t) = Some k →
  ∃ p, msg_Payload m = Some p ∧ payload_kind p = k.
Proof.
  intros (tmpl & H1 & H2) Ht. rewrite <- Ht, H1. cbn. rewrite H2.
  destruct (msg_Payload m) as [p|]; cbn; [|done]. intros [= <-]. eauto.
Qed.

(** Cases a payload by its kind. *)
Ltac payload_of H k :=
  let p := fresh "p" in let Hp := fresh "Hp" in let Hk := fresh "Hk" in
  destruct (well_typed_kind _ k _ H ltac:(eassumption) ltac:(vm_compute; reflexivity)) as (p & Hp & Hk);
  destruct p; try discriminate Hk; rewrite Hp; clear Hk.

Definition login_country_XX (md : storage_metadata) : Prop :=
  is_Some (sm_username md) → sm_country md = "XX".

Section binary_encoder.
Context (Lookup : string → string).

(** On a well-typed message the metadata step returns, keeps the country and
    stores no other country with a user. *)
Lemma storeMetadata_returns msg startTime ip username o :
  well_typed msg → (MessageType msg = TypeConnect → username = None) →
  Forall login_country_XX (binary.out_metadata o) →
  ∃ ip' username' mds,
    binary.storeMetadata Lookup msg startTime ip "XX" username o =
      Done ((ip', "XX", username'),
        binary.MkOut (binary.out_header o) (binary.out_messages o) (binary.out_metadata o ++ mds)
          (binary.out_closed o)) ∧
    Forall login_country_XX mds.
Proof.
  intros Hw Hc Ho. unfold binary.storeMetadata, binary.set_metadata.
  case_decide as Ht; [|case_decide as Ht2; [|case_decide as Ht3; [|case_decide as Ht4]]].
  - payload_of Hw "PayloadConnect". run_prog. do 3 eexists. split; [reflexivity|].
    repeat constructor. intros Hu. cbn in Hu. rewrite (Hc Ht) in Hu. by destruct Hu.
  - payload_of Hw "PayloadAuthPassword". run_prog. do 3 eexists. split; [reflexivity|]. by repeat constructor.
  - payload_of Hw "PayloadAuthPubKey". run_prog. do 3 eexists. split; [reflexivity|]. by repeat constructor.
  - payload_of Hw "PayloadHandshakeSuccessful". run_prog. do 3 eexists.
    split; [reflexivity|]. by repeat constructor.
  - run_prog. do 2 eexists. exists []. rewrite app_nil_r. split; [by destruct o | constructor].
Qed.

Lemma encode_loop_writes ms startTime ip username o :
  Forall well_typed ms → Forall (λ m, MessageType m ≠ TypeConnect) ms →
  Forall login_country_XX (binary.out_metadata o) →
  ∃ o', binary.encode_loop Lookup (λ _ _, None) ms startTime ip "XX" username o = Done (None, o') ∧
    binary.out_header o' = binary.out_header o ∧
    binary.out_messages o' = binary.out_messages o ++ upto_disconnect ms ∧
    Forall login_country_XX (binary.out_metadata o').
Proof.
  intros Hw Hc. revert startTime ip username o.
  induction ms as [|m ms IH]; intros startTime ip username o Ho.
  - exists o. cbn. rewrite app_nil_r. by split_and!.
  - apply Forall_cons in Hw as [Hw Hws], Hc as [Hcm Hcs].
    destruct (storeMetadata_returns m (if decide (startTime = 0) then Timestamp m else startTime) ip username o)
      as (ip' & u' & mds & E & Hmds); [done|done|done|].
    cbn [binary.encode_loop upto_disconnect]. unfold prog_bind at 1. rewrite E. run_prog. cbn.
    destruct (decide (MessageType m = TypeDisconnect)).
    + eexists. split; [reflexivity|]. cbn. split_and!; try done. by apply Forall_app.
    + edestruct (IH Hws Hcs) as (o' & E' & H1 & H2 & H3); [|rewrite E'; exists o'].
      { cbn. by apply Forall_app. }
      cbn in H1, H2. split_and!; try done. by rewrite H2, <- app_assoc.
Qed.

End binary_encoder.

(** A recording as the logger produces it: the connect message, then messages
    of other types. *)
Definition recording (m0 : Message) (ms : list Message) : Prop :=
  MessageType m0 = TypeConnect ∧ well_typed m0 ∧ Forall well_typed ms ∧
  Forall (λ m, MessageType m ≠ TypeConnect) ms.

Lemma binary_encode_recording Lookup m0 ms :
  recording m0 ms →
  ∃ o, binary.binary_Encode Lookup (λ _, None) (λ _ _, None) None (m0 :: ms) (binary.MkOut [] [] [] false)
      = Done (None, o) ∧
    binary.out_header o = binary.getBytes (binary.newHeader binary.CurrentVersion) ∧
    binary.out_messages o = m0 :: upto_disconnect ms ∧ binary.out_closed o = true ∧
    Forall login_country_XX (binary.out_metadata o).
Proof.
  intros (Ht & Hw & Hws & Hcs). unfold binary.binary_Encode, prog_bind at 1, modify at 1.
  set (o1 := binary.MkOut _ _ _ _).
  destruct (storeMetadata_returns Lookup m0 (Timestamp m0) "" None o1) as (ip & u & mds & E & Hmds); [done..|].
  destruct (encode_loop_writes Lookup ms (Timestamp m0) ip u
    (binary.MkOut (binary.out_header o1) [m0] mds false)) as (o2 & E2 & H1 & H2 & H3); [done..|].
  exists (binary.MkOut (binary.out_header o2) (binary.out_messages o2) (binary.out_metadata o2) true).
  assert (binary.encode_loop Lookup (λ _ _, None) (m0 :: ms) 0 "" "XX" None o1 = Done (None, o2)) as E1.
  { cbn [binary.encode_loop]. rewrite decide_True by done. unfold prog_bind at 1. rewrite E. run_prog. cbn.
    rewrite Ht. exact E2. }
  split_and!.
  - unfold prog_bind at 1. by rewrite E1.
  - by rewrite H1.
  - by rewrite H2.
  - done.
  - done.
Qed.

(** The binary encoder writes the header and then every message up to the
    disconnect message, in order, and closes the storage.  The country it stores
    with a user's name is always the placeholder XX, whatever the lookup
    answers: the looked-up country is lost after the connect message. *)
Theorem binary_encoder_writes_recording Lookup m0 ms :
  recording m0 ms →
  ∃ o, binary.binary_Encode Lookup (λ _, None) (λ _ _, None) None (m0 :: ms) (binary.MkOut [] [] [] false)
      = Done (None, o) ∧
    binary.out_header o = binary.getBytes (binary.newHeader binary.CurrentVersion) ∧
    binary.out_messages o = m0 :: upto_disconnect ms ∧ binary.out_closed o = true ∧
    Forall login_country_XX (binary.out_metadata o).
Proof. apply binary_encode_recording. Qed.

(** ** The binary round trip *)

Section roundtrip.
(** CBOR turns a payload into a map of its fields, and [mapstructure] fills a
    struct of the same type from such a map. *)
Context {fields stream : Type} (payload_fields : Payload → fields) (nil_fields : fields).
Context (mapstructure_Decode : fields → Payload → Payload + error).
Context (gunzip : list byte → stream + error).
Context (cbor_list : stream → list (binary.decodedMessage fields) + error).
Context (cbor_values : stream → list (binary.decodedMessage fields) * option error).

Definition decodes_same_kind : Prop :=
  ∀ p template, payload_kind template = payload_kind p →
    mapstructure_Decode (payload_fields p) template = inl p.

Definition to_decoded (m : Message) : binary.decodedMessage fields :=
  binary.MkDecodedMessage fields (ConnectionID m) (Timestamp m) (MessageType m)
    (from_option payload_fields nil_fields (msg_Payload m)) (ChannelID m).

Lemma decodeMessage_to_decoded m :
  decodes_same_kind → well_typed m →
  binary.decodeMessage fields mapstructure_Decode (to_decoded m) = inl m.
Proof.
  intros Hd (tmpl & H1 & H2). unfold binary.decodeMessage, to_decoded.
  cbn [binary.dm_MessageType binary.dm_Payload binary.dm_ConnectionID binary.dm_Timestamp binary.dm_ChannelID].
  rewrite H1. clear H1.
  destruct m as [cid ts t [p|] ch], tmpl as [tm|]; cbn in H2 |- *; try discriminate; [|done].
  injection H2 as H2. by rewrite (Hd p tm H2).
Qed.

Lemma decode_v2_to_decoded ms :
  decodes_same_kind → Forall well_typed ms →
  binary.decode_v2 fields mapstructure_Decode (to_decoded <$> ms) None = (ms, []).
Proof.
  intros Hd. induction 1 as [|m ms Hw _ IH]; [done|].
  rewrite fmap_cons. cbn [binary.decode_v2]. by rewrite decodeMessage_to_decoded, IH.
Qed.

End roundtrip.

(** What the binary encoder wrote is read back, up to the disconnect message. *)
Lemma binary_decode_encoded {fields stream} (payload_fields : Payload → fields) nil_fields mapstructure_Decode
    (gunzip : list byte → stream + error) cbor_list cbor_values Lookup m0 ms :
  decodes_same_kind payload_fields mapstructure_Decode → recording m0 ms →
  ∃ o, binary.binary_Encode Lookup (λ _, None) (λ _ _, None) None (m0 :: ms) (binary.MkOut [] [] [] false)
      = Done (None, o) ∧
    ∀ body st, gunzip body = inl st →
      cbor_values st = (to_decoded payload_fields nil_fields <$> binary.out_messages o, None) →
      binary.binary_Decode fields mapstructure_Decode stream gunzip cbor_list cbor_values
        (binary.out_header o ++ body) = (m0 :: upto_disconnect ms, []).
Proof.
  intros Hd Hr. destruct (binary_encode_recording Lookup m0 ms Hr) as (o & E & Hh & Hm & _).
  exists o. split; [done|]. intros body st Hg Hv. unfold binary.binary_Decode.
  assert (binary.readHeader (binary.out_header o ++ body) binary.CurrentVersion = inl (2, body)) as ->.
  { apply readHeader_iff. rewrite Hh. by split_and!. }
  rewrite Hg. rewrite decide_False, decide_True by done. rewrite Hv, Hm.
  destruct Hr as (_ & Hw & Hws & _). apply decode_v2_to_decoded; [done|]. constructor; [done|].
  apply Forall_forall. intros m H%upto_disconnect_incl. by eapply Forall_forall in Hws.
Qed.

(** Claim C35. What the binary encoder wrote is read back as the recording up to the
    disconnect message, without errors: [body] is the compressed stream after
    the header, whose CBOR values are those of the encoded messages. *)
Theorem binary_roundtrip {fields stream} (payload_fields : Payload → fields) nil_fields mapstructure_Decode
    (gunzip : list byte → stream + error) cbor_list cbor_values Lookup m0 ms :
  decodes_same_kind payload_fields mapstructure_Decode → recording m0 ms →
  ∃ o, binary.binary_Encode Lookup (λ _, None) (λ _ _, None) None (m0 :: ms) (binary.MkOut [] [] [] false)
      = Done (None, o) ∧
    ∀ body st, gunzip body = inl st →
      cbor_values st = (to_decoded payload_fields nil_fields <$> binary.out_messages o, None) →
      binary.binary_Decode fields mapstructure_Decode stream gunzip cbor_list cbor_values
        (binary.out_header o ++ body) = (m0 :: upto_disconnect ms, []).
Proof. apply binary_decode_encoded. Qed.

(** ** Asciinema recordings *)

Module asciinema_spec.
Import asciinema.

(** The output frames of a recording: the standard output and error data, each
    at its distance from the last connect message before it. *)
Definition frame_of (start : Z) (m : Message) : list Frame :=
  if decide (MessageType m = TypeIO) then
    match msg_Payload m with
    | Some (PayloadIO stream data) =>
        if decide (stream = StreamStdout ∨ stream = StreamStderr)
        then [MkFrame (i64 (Timestamp m - start)) data] else []
    | _ => []
    end
  else [].

Fixpoint frames_of (start : Z) (ms : list Message) : list Frame :=
  match ms with
  | [] => []
  | m :: rest =>
      let start := if decide (MessageType m = TypeConnect) then Timestamp m else start in
      frame_of start m ++ frames_of start rest
  end.

(** The file so far: nothing, or the header followed by the frames. *)
Definition shape (e : enc) (fs : list Frame) : Prop :=
  if headerWritten e then ∃ h, lines e = HeaderLine h :: (FrameLine <$> fs)
  else lines e = [] ∧ fs = [].

Section encoder.
Context (Lookup : string → string).
Abbreviation no_write_error := (λ (_ : list line) (_ : line), @None error).

Lemma handleRun_shape program e fs :
  shape e fs →
  ∃ e', handleRun no_write_error program e = Done (None, e') ∧ headerWritten e' = true ∧ shape e' fs ∧
    startTime e' = startTime e ∧ closes e' = closes e.
Proof.
  unfold shape, handleRun. run_prog. destruct (headerWritten e) eqn:Eh; cbn.
  - intros [h Hh]. exists e. rewrite Eh. split_and!; eauto.
  - intros [Hl ->]. eexists. split; [reflexivity|]. cbn. rewrite Hl. split_and!; try done. by eexists.
Qed.

Lemma handleIO_shape msg e fs :
  well_typed msg → MessageType msg = TypeIO → shape e fs →
  ∃ e', handleIO no_write_error msg "/bin/sh" e = Done (None, e') ∧
    shape e' (fs ++ frame_of (startTime e) msg) ∧ startTime e' = startTime e ∧ closes e' = closes e.
Proof.
  intros Hw Ht Hs. unfold handleIO, prog_bind at 1, frame_of. rewrite decide_True by done.
  destruct (handleRun_shape "/bin/sh" e fs Hs) as (e1 & E1 & Hw1 & Hs1 & Hst1 & Hc1). rewrite E1.
  payload_of Hw "PayloadIO". case_decide.
  - unfold sendFrame, write_line. run_prog. cbn. eexists. split; [reflexivity|].
    unfold shape in Hs1 |- *. cbn. rewrite Hw1 in Hs1 |- *. destruct Hs1 as [h Hh].
    split_and!; try done. exists h. rewrite Hh, fmap_app, Hst1. done.
  - exists e1. rewrite app_nil_r. done.
Qed.

(** Steps that neither write nor change the start time. *)
Lemma quiet_shape (c : prog enc unit) e fs e' :
  c e = Done (tt, e') → shape e fs → headerWritten e' = headerWritten e → lines e' = lines e →
  startTime e' = startTime e → closes e' = closes e →
  ∃ e', no_error c e = Done (None, e') ∧ shape e' fs ∧ startTime e' = startTime e ∧ closes e' = closes e.
Proof.
  intros E Hs Hh Hl Ht Hc. exists e'. unfold no_error. run_prog. rewrite E. split_and!; try done.
  unfold shape in *. by rewrite Hh, Hl.
Qed.

Lemma encodeMessage_shape msg e fs :
  well_typed msg → shape e fs →
  let start := if decide (MessageType msg = TypeConnect) then Timestamp msg else startTime e in
  ∃ e', encodeMessage Lookup no_write_error msg "/bin/sh" e = Done (None, e') ∧
    shape e' (fs ++ frame_of start msg) ∧ startTime e' = start ∧ closes e' = closes e.
Proof.
  intros Hw Hs. unfold encodeMessage, prog_bind at 1.
  case_decide as Hc.
  { (* the connect message sets the start time *)
    unfold modify. cbn [prog_bind]. unfold prog_bind at 1, get at 1.
    unfold frame_of. rewrite (decide_False (P:=MessageType msg = TypeIO)) by (rewrite Hc; discriminate).
    rewrite app_nil_r. unfold handleConnect. payload_of Hw "PayloadConnect".
    eexists. split; [reflexivity|]. done. }
  unfold prog_ret at 1, prog_bind at 1, get at 1. cbv beta zeta.
  assert (∀ t, MessageType msg = t → t ≠ TypeIO → fs ++ frame_of (startTime e) msg = fs) as Hno.
  { intros t Ht Hne. unfold frame_of. rewrite decide_False by congruence. apply app_nil_r. }
  destruct (decide (MessageType msg = TypeAuthPasswordSuccessful)) as [Ht|_].
  { rewrite (Hno _ Ht) by discriminate. unfold handleAuthPasswordSuccessful.
    payload_of Hw "PayloadAuthPassword". by eapply quiet_shape. }
  destruct (decide (MessageType msg = TypeAuthPubKeySuccessful)) as [Ht|_].
  { rewrite (Hno _ Ht) by discriminate. unfold handleAuthPubkeySuccessful.
    payload_of Hw "PayloadAuthPubKey". by eapply quiet_shape. }
  destruct (decide (MessageType msg = TypeHandshakeSuccessful)) as [Ht|_].
  { rewrite (Hno _ Ht) by discriminate. unfold handleHandshakeSuccessful.
    payload_of Hw "PayloadHandshakeSuccessful". by eapply quiet_shape. }
  destruct (decide (MessageType msg = TypeChannelRequestSetEnv)) as [Ht|_].
  { rewrite (Hno _ Ht) by discriminate. unfold handleSetEnv.
    payload_of Hw "PayloadChannelRequestSetEnv". by eapply quiet_shape. }
  destruct (decide (MessageType msg = TypeChannelRequestPty)) as [Ht|_].
  { rewrite (Hno _ Ht) by discriminate. unfold handleChannelRequestPty.
    payload_of Hw "PayloadChannelRequestPty". by eapply quiet_shape. }
  destruct (decide (MessageType msg = TypeChannelRequestExec)) as [Ht|_].
  { rewrite (Hno _ Ht) by discriminate. payload_of Hw "PayloadChannelRequestExec".
    destruct (handleRun_shape Program e fs Hs) as (e1 & E1 & _ & H1 & H2 & H3). eauto. }
  destruct (decide (MessageType msg = TypeChannelRequestShell)) as [Ht|_].
  { rewrite (Hno _ Ht) by discriminate.
    destruct (handleRun_shape "/bin/sh" e fs Hs) as (e1 & E1 & _ & H1 & H2 & H3). eauto. }
  destruct (decide (MessageType msg = TypeChannelRequestSubsystem)) as [Ht|_].
  { rewrite (Hno _ Ht) by discriminate.
    destruct (handleRun_shape "/bin/sh" e fs Hs) as (e1 & E1 & _ & H1 & H2 & H3). eauto. }
  destruct (decide (MessageType msg = TypeIO)) as [Ht|Ht].
  { by apply handleIO_shape. }
  exists e. unfold frame_of. rewrite (decide_False _ _ Ht), app_nil_r. done.
Qed.

Lemma encodeMessages_shape ms e fs :
  Forall well_typed ms → shape e fs →
  ∃ e', encodeMessages Lookup no_write_error ms "/bin/sh" e = Done (None, e') ∧
    shape e' (fs ++ frames_of (startTime e) ms) ∧ closes e' = closes e.
Proof.
  intros Hw. revert e fs. induction Hw as [|m ms Hw _ IH]; intros e fs Hs.
  - exists e. cbn. rewrite app_nil_r. done.
  - destruct (encodeMessage_shape m e fs Hw Hs) as (e1 & E1 & Hs1 & Ht1 & Hc1).
    destruct (IH e1 _ Hs1) as (e2 & E2 & Hs2 & Hc2).
    exists e2. cbn [encodeMessages frames_of]. unfold prog_bind. rewrite E1. split; [done|].
    rewrite Ht1, <- app_assoc in Hs2. split; [done | congruence].
Qed.

End encoder.
End asciinema_spec.

(** Whatever well-typed messages a connection logs, the asciinema file is one
    header line followed by exactly the standard output and standard error data,
    in order and timed from the connect message, and the storage is closed once. *)
Theorem asciinema_recording Lookup ms :
  Forall well_typed ms →
  ∃ h e, asciinema.asciinema_Encode Lookup (λ _ _, None) ms asciinema.enc0 = Done (None, e) ∧
    asciinema.lines e =
      asciinema.HeaderLine h :: (asciinema.FrameLine <$> asciinema_spec.frames_of 0 ms) ∧
    asciinema.closes e = 1%nat.
Proof.
  intros Hw. destruct (asciinema_spec.encodeMessages_shape Lookup ms asciinema.enc0 [] Hw)
    as (e & E & Hs & Hc); [done|]. cbn in Hs, Hc.
  unfold asciinema.asciinema_Encode, prog_bind at 1. rewrite E. unfold asciinema_spec.shape in Hs.
  unfold asciinema.sendHeader, asciinema.write_line, asciinema.storage_Close. run_prog.
  destruct (asciinema.headerWritten e); cbn.
  - destruct Hs as [h Hh]. exists h. eexists. split; [reflexivity|]. cbn. by rewrite Hc.
  - destruct Hs as [Hl ->]. do 2 eexists. split; [reflexivity|]. cbn. by rewrite Hl, Hc.
Qed.

(** The country stored with a recording of a login from [addr]: the asciinema
    encoder looks the country up before it knows the address, so the connect
    entry carries the country of the empty address; the binary encoder forgets
    what it looked up, so the login entry carries XX. *)
Theorem stored_country_diverges Lookup cid addr country user key t0 t1 :
  t0 ≠ 0 →
  let ms := [MkMessage cid t0 TypeConnect (Some (PayloadConnect addr country)) None;
             MkMessage cid t1 TypeAuthPubKeySuccessful (Some (PayloadAuthPubKey user key)) None] in
  let login c := MkStorageMetadata (seconds t0) addr c (Some user) in
  let connect c := MkStorageMetadata (seconds t0) addr c None in
  (∃ e, asciinema.asciinema_Encode Lookup (λ _ _, None) ms asciinema.enc0 = Done (None, e) ∧
     asciinema.metadata e = [connect (Lookup ""); login (Lookup addr)]) ∧
  (∃ o, binary.binary_Encode Lookup (λ _, None) (λ _ _, None) None ms (binary.MkOut [] [] [] false)
       = Done (None, o) ∧
     binary.out_metadata o = [connect (Lookup addr); login "XX"]).
Proof.
  intros Ht ms login connect. split.
  - eexists. split; [vm_compute; reflexivity|]. vm_compute. reflexivity.
  - unfold ms, binary.binary_Encode. cbn [binary.encode_loop]. run_prog. cbn.
    rewrite (decide_False (P:=t0 = 0)) by done. eexists. split; [reflexivity|]. reflexivity.
Qed.

(** ** A concrete recording *)

Definition demo_connect : Message := MkMessage "c1" 1000 TypeConnect (Some (PayloadConnect "192.0.2.1" "US")) None.
Definition demo_messages : list Message :=
  [MkMessage "c1" 2000 TypeAuthPubKeySuccessful (Some (PayloadAuthPubKey "bob" "ssh-rsa")) None;
   MkMessage "c1" 3000 TypeChannelRequestExec (Some (PayloadChannelRequestExec 0 "ls")) (Some 0);
   MkMessage "c1" 4000 TypeIO (Some (PayloadIO StreamStdout [x41])) (Some 0);
   MkMessage "c1" 5000 TypeDisconnect None None].

Lemma demo_recording : recording demo_connect demo_messages.
Proof.
  split_and!; [reflexivity | by eexists | |]; repeat constructor; try (by eexists); discriminate.
Qed.

Definition demo_Lookup (addr : string) : string := if decide (addr = "") then "XX" else "US".

Lemma binary_encoder_writes_recording_witness :
  ∃ o, binary.binary_Encode demo_Lookup (λ _, None) (λ _ _, None) None (demo_connect :: demo_messages)
      (binary.MkOut [] [] [] false) = Done (None, o) ∧
    binary.out_header o = binary.getBytes (binary.newHeader binary.CurrentVersion) ∧
    binary.out_messages o = demo_connect :: upto_disconnect demo_messages ∧ binary.out_closed o = true ∧
    Forall login_country_XX (binary.out_metadata o).
Proof. apply binary_encoder_writes_recording. exact demo_recording. Defined.

(** A representation of the fields by the payload itself, and streams by the
    values they hold. *)
Definition demo_mapstructure (fields : Payload) (template : Payload) : Payload + error :=
  if decide (payload_kind template = payload_kind fields) then inl fields else inr (ErrorString "kind").
Definition demo_stream : Type := list (binary.decodedMessage Payload).

Lemma binary_roundtrip_witness :
  ∃ o, binary.binary_Encode demo_Lookup (λ _, None) (λ _ _, None) None (demo_connect :: demo_messages)
      (binary.MkOut [] [] [] false) = Done (None, o) ∧
    ∀ body st, (λ _ : list byte, @inl demo_stream error
        (to_decoded (λ p, p) (PayloadExit 0) <$> (demo_connect :: demo_messages))) body = inl st →
      (λ l : demo_stream, (l, @None error)) st =
        (to_decoded (λ p, p) (PayloadExit 0) <$> binary.out_messages o, None) →
      binary.binary_Decode Payload demo_mapstructure demo_stream
        (λ _, inl (to_decoded (λ p, p) (PayloadExit 0) <$> (demo_connect :: demo_messages)))
        (λ l, inl l) (λ l, (l, None)) (binary.out_header o ++ body)
      = (demo_connect :: upto_disconnect demo_messages, []).
Proof.
  apply (binary_roundtrip (λ p, p) (PayloadExit 0) demo_mapstructure); [|exact demo_recording].
  intros p tmpl Hk. unfold demo_mapstructure. by rewrite decide_True.
Defined.

Lemma asciinema_recording_witness :
  ∃ h e, asciinema.asciinema_Encode demo_Lookup (λ _ _, None) (demo_connect :: demo_messages) asciinema.enc0
      = Done (None, e) ∧
    asciinema.lines e =
      asciinema.HeaderLine h :: (asciinema.FrameLine <$> asciinema_spec.frames_of 0 (demo_connect :: demo_messages)) ∧
    asciinema.closes e = 1%nat.
Proof.
  apply asciinema_recording. destruct demo_recording as (_ & H1 & H2 & _). by constructor.
Defined.

Lemma stored_country_diverges_witness :
  ∃ o, binary.binary_Encode demo_Lookup (λ _, None) (λ _ _, None) None
      [demo_connect; MkMessage "c1" 2000 TypeAuthPubKeySuccessful (Some (PayloadAuthPubKey "bob" "ssh-rsa")) None]
      (binary.MkOut [] [] [] false) = Done (None, o) ∧
    binary.out_metadata o = [MkStorageMetadata 0 "192.0.2.1" "US" None; MkStorageMetadata 0 "192.0.2.1" "XX" (Some "bob")].
Proof.
  apply (stored_country_diverges demo_Lookup "c1" "192.0.2.1" "US" "bob" "ssh-rsa" 1000 2000). discriminate.
Defined.
