(* ===== verification/AuditEndToEnd.v ===== *)
(** * From the client's request to the audit file and back

    The audited handlers ([AuditIntegration]) on top of the logger ([AuditLog])
    and the binary codec ([AuditCodec]): what the client asked for in a session
    can be read back from the recording. *)

From stdpp Require Import base gmap strings list.
From Stdlib Require Import Strings.Byte.
From S2P Require Import Prelude Messages Metadata Handler AuditMessage AuditLog AuditSpec AuditIntegration AuditIntegrationSpec AuditCodec AuditCodecSpec.

Local Open Scope Z_scope.
Local Arguments log : simpl never.

Section connection.
Context {W : Type} `{!Field W loggerConnection} `{!Field W auditHeap}.
Context (stops : list Message → bool) (Hstops : healthy stops) (clock : W → Z) (intercept : AuditLogInterceptConfig).
Context (OpenWriter : string → prog W (option error)) (Lookup : list byte → string) (IP_String : list byte → string).

Definition connect_message (id : string) (now : Z) (addr : RemoteAddress) : Message :=
  MkMessage id now TypeConnect (Some (PayloadConnect (IP_String (IP addr)) (Lookup (IP addr)))) None.

Definition disconnect_message (id : string) (now : Z) : Message := MkMessage id now TypeDisconnect None None.

Lemma logger_connected id addr w w0 :
  OpenWriter id w = Done (None, w0) →
  ∃ w1, logger_OnConnect stops clock OpenWriter Lookup IP_String id addr w = Done (None, w1) ∧
    accepts (fget w1) ∧ connection w1 = id ∧ trail w1 = [connect_message id (clock w0) addr].
Proof.
  intros E. unfold logger_OnConnect, prog_bind. rewrite E. unfold loggerImplementation_OnConnect.
  rewrite (Hstops []), log_accepts by done. eexists. split; [done|].
  unfold connection, trail, accepts. by rewrite !fget_fset.
Qed.

(** A backend that, told of the disconnect, adds nothing to a closed log. *)
Definition quiet_disconnect (backend : NetworkConnectionHandler W) : Prop :=
  ∀ w, lc_closed (fget w) = true → ∃ w', OnDisconnect backend w = Done (tt, w') ∧ trail w' = trail w.

Lemma logger_disconnected backend w :
  accepts (fget w) → quiet_disconnect backend →
  ∃ w', network_OnDisconnect stops clock backend w = Done (tt, w') ∧
    trail w' = trail w ++ [disconnect_message (connection w) (clock w)].
Proof.
  intros (A1 & A2 & A3) Hq. unfold network_OnDisconnect, on_logger, loggerConnection_OnDisconnect,
    loggerConnection_close, log. run_prog. rewrite A1, A2, A3. cbn.
  match goal with |- context [OnDisconnect backend (fset ?l w)] =>
    destruct (Hq (fset l w)) as (w' & E & T); [by rewrite fget_fset|] end.
  exists w'. split; [done|]. rewrite T. unfold trail. by rewrite fget_fset.
Qed.

(** The life of a connection with one session: the logger is told of the
    connection, what comes from the client is served, the connection ends. *)
Definition audited_connection (id : string) (addr : RemoteAddress) (backend : NetworkConnectionHandler W)
    (session : SessionChannelHandler W) (ch : option Z) (evs : list (channel_event (W:=W))) : prog W unit :=
  do* logger_OnConnect stops clock OpenWriter Lookup IP_String id addr in
  do* serve (sessionChannelHandler stops clock intercept session ch) evs in
  OnDisconnect (audit_networkConnectionHandler stops clock intercept backend).

Lemma upto_disconnect_app tr m :
  Forall within tr → MessageType m = TypeDisconnect → upto_disconnect (tr ++ [m]) = tr ++ [m].
Proof.
  intros Htr Hm. induction Htr as [|x tr (_ & _ & Hx) _ IH]; cbn.
  - by rewrite decide_True.
  - rewrite decide_False by done. by rewrite IH.
Qed.

Lemma audited_connection_trail id addr backend session ch evs w w0 :
  OpenWriter id w = Done (None, w0) → (∀ ev, only_adds (channel_call session ev)) → quiet_disconnect backend →
  ∃ w1 tr w2 w',
    logger_OnConnect stops clock OpenWriter Lookup IP_String id addr w = Done (None, w1) ∧
    audited_events stops clock intercept session ch evs w1 tr w2 ∧
    audited_connection id addr backend session ch evs w = Done (tt, w') ∧
    trail w' = connect_message id (clock w0) addr :: tr ++ [disconnect_message id (clock w2)] ∧ Forall within tr.
Proof.
  intros Ho Hs Hq. destruct (logger_connected id addr w w0 Ho) as (w1 & E1 & A1 & C1 & T1).
  destruct (serve_audited stops clock intercept Hstops session ch evs w1 Hs A1) as (tr & w2 & E2 & Hev & X).
  destruct X as (A2 & C2 & T2 & Htr).
  destruct (logger_disconnected backend w2 A2 Hq) as (w' & E3 & T3).
  exists w1, tr, w2, w'. unfold audited_connection, prog_bind. rewrite E1, E2. split_and!; [done..| |done].
  by rewrite T3, T2, T1, C2, C1.
Qed.
End connection.

(** Claim C11. The recording of a connection, decoded again without an error, is the trail
    of the connection: first the connect message, last the disconnect message,
    and in between exactly what [audited_events] says of the client's session:
    for each request (of a known or an unknown type, one that cannot be decoded
    too) and for its end, one after the other, the message that stands for it,
    the failure if that is recorded, and what the backend's own work added. The
    encoder's writes succeed, and [body] is a compressed stream from which the
    library reads back the values that were encoded. *)
Theorem recorded_session_reads_back {W fields stream} `{!Field W loggerConnection} `{!Field W auditHeap}
    clock intercept OpenWriter Lookup IP_String
    (payload_fields : Payload → fields) nil_fields mapstructure_Decode
    (gunzip : list byte → stream + error) cbor_list cbor_values CountryLookup
    id addr backend session ch evs (w w0 : W) :
  OpenWriter id w = Done (None, w0) → (∀ ev, only_adds (channel_call session ev)) → quiet_disconnect backend →
  decodes_same_kind payload_fields mapstructure_Decode →
  ∃ w1 tr w2 w' o,
    logger_OnConnect at_disconnect clock OpenWriter Lookup IP_String id addr w = Done (None, w1) ∧
    audited_events at_disconnect clock intercept session ch evs w1 tr w2 ∧
    audited_connection at_disconnect clock intercept OpenWriter Lookup IP_String id addr backend session ch evs w
      = Done (tt, w') ∧
    trail w' = connect_message Lookup IP_String id (clock w0) addr :: tr ++ [disconnect_message id (clock w2)] ∧
    binary.binary_Encode CountryLookup (λ _, None) (λ _ _, None) None (trail w') (binary.MkOut [] [] [] false)
      = Done (None, o) ∧
    ∀ body st, gunzip body = inl st →
      cbor_values st = (to_decoded payload_fields nil_fields <$> binary.out_messages o, None) →
      binary.binary_Decode fields mapstructure_Decode stream gunzip cbor_list cbor_values
        (binary.out_header o ++ body) = (trail w', []).
Proof.
  intros Ho Hs Hq Hd.
  destruct (audited_connection_trail at_disconnect at_disconnect_healthy clock intercept OpenWriter Lookup IP_String
    id addr backend session ch evs w w0) as (w1 & tr & w2 & w' & E1 & Hev & E & T & Htr); [done..|].
  set (m0 := connect_message Lookup IP_String id (clock w0) addr) in *.
  set (ms' := tr ++ [disconnect_message id (clock w2)]) in *.
  destruct (binary_decode_encoded payload_fields nil_fields mapstructure_Decode gunzip cbor_list cbor_values
    CountryLookup m0 ms' Hd) as (o & Eo & Hdec).
  { split_and!; [done | eexists; split; vm_compute; reflexivity | |].
    - apply Forall_app. split; [eapply Forall_impl; [done|]; by intros ? []|]. apply Forall_singleton.
      eexists. split; vm_compute; reflexivity.
    - apply Forall_app. split; [eapply Forall_impl; [done|]; by intros ? (_ & ? & _)|]. by apply Forall_singleton. }
  exists w1, tr, w2, w', o. rewrite T. do 5 (split; [done|]).
  intros body st Hg Hv. rewrite (Hdec body st Hg Hv). f_equal. f_equal. by apply upto_disconnect_app.
Qed.

(** ** A concrete connection *)

(** A client that sets a variable, sends a request of an unknown type and one
    that makes no sense, asks for a shell in vain, and closes the channel. *)
Definition demo_events : list (channel_event (W:=audit_demo.store)) :=
  [EvRequest (ReqEnv 0 "LANG" "C"); EvUnsupported 1 "keepalive" []; EvFailedDecode 2 "exec" [] (ErrorString "short");
   EvRequest (ReqShell 3); EvClose].

Definition demo_recorded : list Message :=
  [MkMessage "c2" 100 0 (Some (PayloadConnect "192.0.2.1" "US")) None;
   MkMessage "c2" 101 402 (Some (PayloadChannelRequestSetEnv 0 "LANG" "C")) (Some 0);
   MkMessage "c2" 102 400 (Some (PayloadChannelRequestUnknownType 1 "keepalive" [])) (Some 0);
   MkMessage "c2" 103 401 (Some (PayloadChannelRequestDecodeFailed 2 "exec" [] "short")) (Some 0);
   MkMessage "c2" 104 405 (Some (PayloadChannelRequestShell 3)) (Some 0);
   MkMessage "c2" 105 501 (Some (PayloadRequestFailed 3 "no shell")) (Some 0);
   MkMessage "c2" 106 497 None (Some 0);
   MkMessage "c2" 107 1 None None].

(** The recording of this client is encoded and decoded again: the compressed
    stream is the list of the values. *)
Lemma recorded_session_reads_back_witness :
  ∃ w' o,
    audited_connection at_disconnect audit_demo.clock audit_demo.everything (λ _, prog_ret None) (λ _, "US") (λ _, "192.0.2.1")
      "c2" (MkRemoteAddress [] 22) audit_demo.network audit_demo.session (Some 0) demo_events audit_demo.w0 = Done (tt, w') ∧
    binary.binary_Encode demo_Lookup (λ _, None) (λ _ _, None) None (trail w') (binary.MkOut [] [] [] false) = Done (None, o) ∧
    binary.binary_Decode Payload demo_mapstructure demo_stream
      (λ _, inl (to_decoded (λ p, p) (PayloadExit 0) <$> demo_recorded)) (λ l, inl l) (λ l, (l, None)) (binary.out_header o)
    = (demo_recorded, []).
Proof.
  destruct (recorded_session_reads_back audit_demo.clock audit_demo.everything (λ _, prog_ret None)
    (λ _, "US") (λ _, "192.0.2.1") (λ p : Payload, p) (PayloadExit 0) demo_mapstructure
    (λ _, inl (to_decoded (λ p, p) (PayloadExit 0) <$> demo_recorded)) (λ l : demo_stream, inl l) (λ l, (l, None)) demo_Lookup
    "c2" (MkRemoteAddress [] 22) audit_demo.network audit_demo.session (Some 0) demo_events audit_demo.w0 audit_demo.w0)
    as (w1 & tr & w2 & w' & o & _ & _ & H3 & _ & H5 & H6).
  - done.
  - apply audit_demo.session_only_adds.
  - intros w _. by exists w.
  - intros p tmpl Hk. unfold demo_mapstructure. by rewrite decide_True.
  - exists w', o. split; [exact H3|]. split; [exact H5|].
    vm_compute in H3. injection H3 as <-. vm_compute in H5. injection H5 as <-.
    specialize (H6 [] _ eq_refl). rewrite app_nil_r in H6. apply H6. reflexivity.
Defined.
