(* ===== verification/AuditStorage.v ===== *)
(** * The storage of audit logs

    [internal/auditlog/storage]: the queue that uploads audit logs to an object
    store while they are written ([s3/queue.go], [s3/upload.go], [s3/writer.go],
    [s3/new.go], [s3/list.go], [s3/read.go]), and the file and empty storages. *)

From stdpp Require Import base gmap strings list pretty.
From Stdlib Require Import Strings.Byte.
From S2P Require Import Prelude Messages Handler GoStrings ConfigHTTP AuditLog AppConfig.

Local Open Scope Z_scope.

(** ** What is asked of the operating system and the object store *)

Record queueEntryMetadata := MkQueueMetadata {
  qm_StartTime : Z;
  qm_RemoteAddr : string;
  qm_Authenticated : bool;
  qm_Username : string;
  qm_Country : string;
}.

Definition no_metadata : queueEntryMetadata := MkQueueMetadata 0 "" false "" "".

(** A nil pointer in the map is [None]. *)
Definition ToMap (meta : queueEntryMetadata) (showUsername showIP : bool) : gmap string (option string) :=
  let username := if qm_Authenticated meta then Some (qm_Username meta) else None in
  let metadata : gmap string (option string) :=
    <["timestamp" := Some (Sprintf "%d" [VInt (qm_StartTime meta)])]>
    (<["authenticated" := Some (if qm_Authenticated meta then "true" else "false")]>
    {[ "country" := Some (qm_Country meta) ]}) in
  let metadata := if showUsername then <["username" := username]> metadata else metadata in
  if showIP then <["ip" := Some (qm_RemoteAddr meta)]> metadata else metadata.

(** Calls for one audit log; [MetadataWrite] carries the document, JSON text is
    below the model. *)
Inductive storage_call :=
| FileCreate | FileOpen | FileStat | FileWrite (data : list byte) | FileClose | ReadHandleClose | FileRemove
| MetadataCreate | MetadataWrite (m : queueEntryMetadata) | MetadataOpen | MetadataStat | MetadataRemove
| PutObject (body : list byte) (metadata : gmap string (option string))
| CreateMultipartUpload (metadata : gmap string (option string))
| UploadPart (uploadID : string) (partNumber : Z) (body : list byte)
| CompleteMultipartUpload (uploadID : string) (parts : list (string * Z))
| AbortMultipartUpload (uploadID : string)
| ListMultipartUploads
| GetObject.

(** The libraries: every answer may depend on the key and on all calls made for it
    before.  [st_s3]: the upload identifier or the tag of a part.  [st_uploads]:
    key and identifier of each unfinished upload.  [st_metadata]: the document in a
    metadata file, if it can be read.  [st_short]: how many bytes of a write that
    failed are in the file all the same. *)
Record StorageLibrary := MkStorageLibrary {
  st_file : string → list storage_call → storage_call → option error;
  st_s3 : string → list storage_call → storage_call → string + error;
  st_uploads : string → list storage_call → list (string * string) + error;
  st_metadata : string → list storage_call → option queueEntryMetadata;
  st_short : string → list storage_call → list byte → nat;
}.

(** ** The queue *)

Definition minPartSize : Z := 5 * 1024 * 1024.
Definition maxPartSize : Z := 5 * 1024 * 1024 * 1024.

(** Where the upload loop of an entry is; [Uploading] and [PartUpload] know the size
    [Stat] has told. *)
Inductive phase :=
| LoopTop
| Waiting
| Acquiring
| Statting
| Uploading (size : Z)
| PartUpload (size : Z)
| RoundEnd (errorHappened : bool)
| Ended.

(** [u_content], [u_exists]: the local file; [u_lock]: whether the mutex has been
    made; [u_calls]: the calls made for the log.  The rest is [queueEntry] and the
    variables of [uploadLoop].  Every entry has a file of its own: the names of
    logs are the identifiers of connections, and no two are the same. *)
Record queueEntry := MkQueueEntry {
  u_name : string;
  u_content : list byte;
  u_exists : bool;
  u_calls : list storage_call;
  u_finished : bool;
  u_partAvailable : bool;
  u_metadata : queueEntryMetadata;
  u_lock : bool;
  u_phase : phase;
  u_uploadedBytes : Z;
  u_uploadID : option string;
  u_completedParts : list (string * Z);
  u_failures : Z;
}.

(** [go m.onPart()] and [go m.onClose()]: goroutines that have been started and
    have not run yet. *)
Record monitoringWriter := MkMonitoringWriter {
  mw_entry : nat;
  mw_bytesWritten : Z;
  mw_lastPart : Z;
  mw_parts_pending : nat;
  mw_closes_pending : nat;
}.

Record uploadQueue := MkUploadQueue {
  q_parallelUploads : Z;
  q_partSize : Z;
  q_workerSem : Z;
  q_metadataIP : bool;
  q_metadataUsername : bool;
  q_queue : gmap string nat;
  q_entries : list queueEntry;
  q_writers : list monitoringWriter;
  q_wg : Z;
  q_cancelled : bool;
  q_shutdownContext : option bool;      (** whether it has expired *)
}.

Definition set_u_calls (l : list storage_call) (e : queueEntry) :=
  MkQueueEntry (u_name e) (u_content e) (u_exists e) l (u_finished e) (u_partAvailable e) (u_metadata e) (u_lock e)
    (u_phase e) (u_uploadedBytes e) (u_uploadID e) (u_completedParts e) (u_failures e).
Definition set_u_content (c : list byte) (e : queueEntry) :=
  MkQueueEntry (u_name e) c (u_exists e) (u_calls e) (u_finished e) (u_partAvailable e) (u_metadata e) (u_lock e)
    (u_phase e) (u_uploadedBytes e) (u_uploadID e) (u_completedParts e) (u_failures e).
Definition set_u_removed (e : queueEntry) :=
  MkQueueEntry (u_name e) (u_content e) false (u_calls e) (u_finished e) (u_partAvailable e) (u_metadata e) (u_lock e)
    (u_phase e) (u_uploadedBytes e) (u_uploadID e) (u_completedParts e) (u_failures e).
Definition set_u_finished (e : queueEntry) :=
  MkQueueEntry (u_name e) (u_content e) (u_exists e) (u_calls e) true (u_partAvailable e) (u_metadata e) (u_lock e)
    (u_phase e) (u_uploadedBytes e) (u_uploadID e) (u_completedParts e) (u_failures e).
Definition set_u_available (b : bool) (e : queueEntry) :=
  MkQueueEntry (u_name e) (u_content e) (u_exists e) (u_calls e) (u_finished e) b (u_metadata e) (u_lock e)
    (u_phase e) (u_uploadedBytes e) (u_uploadID e) (u_completedParts e) (u_failures e).
Definition set_u_metadata (m : queueEntryMetadata) (e : queueEntry) :=
  MkQueueEntry (u_name e) (u_content e) (u_exists e) (u_calls e) (u_finished e) (u_partAvailable e) m (u_lock e)
    (u_phase e) (u_uploadedBytes e) (u_uploadID e) (u_completedParts e) (u_failures e).
Definition set_u_phase (p : phase) (e : queueEntry) :=
  MkQueueEntry (u_name e) (u_content e) (u_exists e) (u_calls e) (u_finished e) (u_partAvailable e) (u_metadata e) (u_lock e)
    p (u_uploadedBytes e) (u_uploadID e) (u_completedParts e) (u_failures e).
Definition set_u_uploaded (n : Z) (parts : list (string * Z)) (e : queueEntry) :=
  MkQueueEntry (u_name e) (u_content e) (u_exists e) (u_calls e) (u_finished e) (u_partAvailable e) (u_metadata e) (u_lock e)
    (u_phase e) n (u_uploadID e) parts (u_failures e).
Definition set_u_uploadID (id : string) (e : queueEntry) :=
  MkQueueEntry (u_name e) (u_content e) (u_exists e) (u_calls e) (u_finished e) (u_partAvailable e) (u_metadata e) (u_lock e)
    (u_phase e) (u_uploadedBytes e) (Some id) (u_completedParts e) (u_failures e).
Definition set_u_failures (n : Z) (e : queueEntry) :=
  MkQueueEntry (u_name e) (u_content e) (u_exists e) (u_calls e) (u_finished e) (u_partAvailable e) (u_metadata e) (u_lock e)
    (u_phase e) (u_uploadedBytes e) (u_uploadID e) (u_completedParts e) n.

Definition set_q_entries (l : list queueEntry) (q : uploadQueue) :=
  MkUploadQueue (q_parallelUploads q) (q_partSize q) (q_workerSem q) (q_metadataIP q) (q_metadataUsername q) (q_queue q) l
    (q_writers q) (q_wg q) (q_cancelled q) (q_shutdownContext q).
Definition set_q_queue (m : gmap string nat) (q : uploadQueue) :=
  MkUploadQueue (q_parallelUploads q) (q_partSize q) (q_workerSem q) (q_metadataIP q) (q_metadataUsername q) m (q_entries q)
    (q_writers q) (q_wg q) (q_cancelled q) (q_shutdownContext q).
Definition set_q_writers (l : list monitoringWriter) (q : uploadQueue) :=
  MkUploadQueue (q_parallelUploads q) (q_partSize q) (q_workerSem q) (q_metadataIP q) (q_metadataUsername q) (q_queue q)
    (q_entries q) l (q_wg q) (q_cancelled q) (q_shutdownContext q).
Definition set_q_workerSem (n : Z) (q : uploadQueue) :=
  MkUploadQueue (q_parallelUploads q) (q_partSize q) n (q_metadataIP q) (q_metadataUsername q) (q_queue q) (q_entries q)
    (q_writers q) (q_wg q) (q_cancelled q) (q_shutdownContext q).
Definition set_q_wg (n : Z) (q : uploadQueue) :=
  MkUploadQueue (q_parallelUploads q) (q_partSize q) (q_workerSem q) (q_metadataIP q) (q_metadataUsername q) (q_queue q)
    (q_entries q) (q_writers q) n (q_cancelled q) (q_shutdownContext q).
Definition set_q_shutdown (expired : bool) (q : uploadQueue) :=
  MkUploadQueue (q_parallelUploads q) (q_partSize q) (q_workerSem q) (q_metadataIP q) (q_metadataUsername q) (q_queue q)
    (q_entries q) (q_writers q) (q_wg q) true (Some expired).

Section storage.
Context {W : Type} `{!Field W uploadQueue} (lib : StorageLibrary).
(** [path.Join(q.directory, name)] *)
Context (file_of : string → string).

Abbreviation call A := (prog W A).

Definition the_queue : call uploadQueue := λ w, Done (fget w, w).
Definition update_queue (f : uploadQueue → uploadQueue) : call unit := λ w, Done (tt, fset (f (fget w)) w).

Definition entry_at (i : nat) : call queueEntry :=
  let* q := the_queue in match q_entries q !! i with Some e => prog_ret e | None => panic nil_pointer end.
Definition update_entry (i : nat) (f : queueEntry → queueEntry) : call unit :=
  update_queue (λ q, set_q_entries (alter f i (q_entries q)) q).

(** A call for an entry: it is recorded, and answered by the calls before. *)
Definition storage_ask {A} (i : nat) (c : storage_call) (answer : string → list storage_call → A) : call A :=
  let* e := entry_at i in
  do* update_entry i (set_u_calls (u_calls e ++ [c])) in
  prog_ret (answer (u_name e) (u_calls e)).
Definition os_call (i : nat) (c : storage_call) : call (option error) := storage_ask i c (λ name h, st_file lib name h c).
Definition s3_ask (i : nat) (c : storage_call) : call (string + error) := storage_ask i c (λ name h, st_s3 lib name h c).

(** [markPartAvailable] and [waitPartAvailable]: a channel for one value. *)
Definition markPartAvailable (i : nat) : call unit := update_entry i (set_u_available true).
Definition waitPartAvailable (i : nat) : call unit :=
  let* e := entry_at i in
  if u_partAvailable e then update_entry i (set_u_available false) else block "<-partAvailable".

(** [entry.lock.Lock()] of a mutex that is only held for a few assignments. *)
Definition lock_entry (i : nat) : call unit :=
  let* e := entry_at i in if u_lock e then prog_ret tt else panic nil_pointer.

Definition remove_entry (i : nat) : call (option error) :=
  let* e := entry_at i in
  let* err := os_call i ReadHandleClose in
  match err with
  | Some _ => prog_ret (Some (Wrap err "AUDIT_S3_CLOSE_FAILED" "failed to close audit log file %s (%w)" [VString (file_of (u_name e))]))
  | None =>
      let* err := os_call i FileRemove in
      match err with
      | Some _ => prog_ret (Some (Wrap err "AUDIT_S3_REMOVE_FAILED" "failed to remove audit log file %s" [VString (u_name e)]))
      | None =>
          do* update_entry i set_u_removed in
          let* err := os_call i MetadataStat in
          match err with
          | None => let* _ := os_call i MetadataRemove in prog_ret None
          | Some _ => prog_ret None
          end
      end
  end.

(** ** Uploading *)

Definition abortSpecificMultipartUpload (i : nat) (uploadID : string) : call (option error) :=
  let* e := entry_at i in
  let* r := s3_ask i (AbortMultipartUpload uploadID) in
  prog_ret match r with
           | inl _ => None
           | inr err => Some (Wrap (Some err) "AUDIT_S3_MULTIPART_FAILED_ABORT" "failed to abort %s" [VString (u_name e)])
           end.

Definition queue_delete (name : string) : call unit := update_queue (λ q, set_q_queue (delete name (q_queue q)) q).

Definition processShouldAbort (i : nat) : call bool :=
  let* e := entry_at i in
  let* q := the_queue in
  let abort :=
    do* (match u_uploadID e with
         | Some uploadID => let* _ := abortSpecificMultipartUpload i uploadID in prog_ret tt
         | None => prog_ret tt
         end) in
    do* queue_delete (u_name e) in prog_ret true in
  if decide (q_shutdownContext q = Some true) then abort
  else if decide (u_failures e > 20) then abort
  else if decide (u_failures e > 3 ∧ q_cancelled q = true) then abort
  else prog_ret false.

Definition processSingleUpload (i : nat) (e : queueEntry) (q : uploadQueue) : call (Z + error) :=
  let* err := os_call i FileStat in
  match err with
  | Some _ => prog_ret (inr (Wrap err "AUDIT_S3_SINGLE_UPLOAD_FAILED" "single upload failed for audit log %s" [VString (u_name e)]))
  | None =>
      let metadata := ToMap (u_metadata e) (q_metadataUsername q) (q_metadataIP q) in
      let* r := s3_ask i (PutObject (u_content e) metadata) in
      prog_ret match r with
               | inl _ => inl (Z.of_nat (length (u_content e)))
               | inr err => inr (Wrap (Some err) "AUDIT_S3_SINGLE_UPLOAD_FAILED" "single upload failed for audit log %s" [VString (u_name e)])
               end
  end.

(** [io.NewSectionReader] *)
Definition section (content : list byte) (startingByte endingByte : Z) : list byte :=
  take (Z.to_nat (endingByte - startingByte)) (drop (Z.to_nat startingByte) content).

(** [doMultipartUpload]: the error of a part is only logged. *)
Definition doMultipartUpload (i : nat) (size : Z) (uploadID : string) : call unit :=
  let* e := entry_at i in
  let* q := the_queue in
  let partNumber := u_uploadedBytes e `quot` q_partSize q in
  let startingByte := partNumber * q_partSize q in
  let endingByte := (partNumber + 1) * q_partSize q in
  let endingByte := if decide (size < endingByte) then size else endingByte in
  let endingByte := if decide (u_finished e = true ∧ size - endingByte < q_partSize q) then size else endingByte in
  let contentLength := endingByte - startingByte in
  let* r := s3_ask i (UploadPart uploadID partNumber (section (u_content e) startingByte endingByte)) in
  match r with
  | inl etag =>
      update_entry i (set_u_uploaded (u_uploadedBytes e + contentLength) (u_completedParts e ++ [(etag, partNumber)]))
  | inr _ => prog_ret tt
  end.

(** What one step of the loop leads to. *)
Definition go_to (i : nat) (p : phase) : call unit := update_entry i (set_u_phase p).

Definition release : call unit := update_queue (λ q, set_q_workerSem (q_workerSem q - 1) q).

Definition loop_ends (i : nat) : call unit :=
  do* go_to i Ended in
  let* q := the_queue in
  if decide (q_wg q - 1 < 0) then panic "sync: negative WaitGroup counter" else update_queue (set_q_wg (q_wg q - 1)).

(** [processUpload], up to the upload of a part. *)
Definition processUpload (i : nat) (size : Z) : call unit :=
  let* e := entry_at i in
  let* q := the_queue in
  let remainingBytes := size - u_uploadedBytes e in
  if decide (u_finished e = true ∧ u_uploadedBytes e = 0) then
    let* r := processSingleUpload i e q in
    match r with
    | inr _ => go_to i (RoundEnd true)
    | inl partBytes =>
        do* update_entry i (set_u_uploaded (u_uploadedBytes e + partBytes) (u_completedParts e)) in
        go_to i (RoundEnd false)
    end
  else if decide ((u_finished e = true ∧ remainingBytes > 0) ∨ remainingBytes >= q_partSize q) then
    match u_uploadID e with
    | Some _ => go_to i (PartUpload size)
    | None =>
        let metadata := ToMap (u_metadata e) (q_metadataUsername q) (q_metadataIP q) in
        let* r := s3_ask i (CreateMultipartUpload metadata) in
        match r with
        | inr _ => go_to i (RoundEnd true)
        | inl uploadID => do* update_entry i (set_u_uploadID uploadID) in go_to i (PartUpload size)
        end
    end
  else if decide (u_finished e = true ∧ remainingBytes = 0) then
    let* failed :=
      match u_uploadID e with
      | Some uploadID =>
          let* r := s3_ask i (CompleteMultipartUpload uploadID (u_completedParts e)) in
          prog_ret match r with inl _ => false | inr _ => true end
      | None => prog_ret false
      end in
    if (failed : bool) then go_to i (RoundEnd true)
    else
      let* _ := remove_entry i in
      do* queue_delete (u_name e) in
      do* release in
      loop_ends i
  else go_to i (RoundEnd false).

(** [uploadLoop] as the steps between which other goroutines run. *)
Definition upload_step (i : nat) : call unit :=
  let* e := entry_at i in
  let* q := the_queue in
  match u_phase e with
  | LoopTop =>
      let* abort := processShouldAbort i in
      if (abort : bool) then loop_ends i else go_to i Waiting
  | Waiting => do* waitPartAvailable i in go_to i Acquiring
  | Acquiring =>
      if decide (q_workerSem q < q_parallelUploads q) then
        do* update_queue (λ q, set_q_workerSem (q_workerSem q + 1) q) in go_to i Statting
      else block "workerSem<-"
  | Statting =>
      let* err := os_call i FileStat in
      go_to i match err with None => Uploading (Z.of_nat (length (u_content e))) | Some _ => RoundEnd true end
  | Uploading size => processUpload i size
  | PartUpload size =>
      match u_uploadID e with
      | Some uploadID => do* doMultipartUpload i size uploadID in go_to i (RoundEnd false)
      | None => panic nil_pointer
      end
  | RoundEnd errorHappened =>
      do* release in
      do* lock_entry i in
      do* (if errorHappened || u_finished e then markPartAvailable i else prog_ret tt) in
      do* update_entry i (set_u_failures (if errorHappened then u_failures e + 1 else 0)) in
      go_to i LoopTop
  | Ended => block "returned"
  end.

(** ** The queue's operations *)

Definition upload (name : string) : call (option error) :=
  let* q := the_queue in
  match q_queue q !! name with
  | None => prog_ret (Some (MsgError (NewMessage "AUDIT_S3_NO_SUCH_QUEUE_ENTRY" "no such queue entry: %s" [VString name])))
  | Some _ => do* update_queue (set_q_wg (q_wg q + 1)) in prog_ret None
  end.

Definition store_entry (e : queueEntry) : call nat :=
  let* q := the_queue in
  let i := length (q_entries q) in
  do* update_queue (set_q_entries (q_entries q ++ [e])) in
  do* update_queue (λ q, set_q_queue (<[u_name e := i]> (q_queue q)) q) in
  prog_ret i.

(** The calls made before there is an entry. *)
Definition new_entry (name : string) (calls : list storage_call) (content : list byte) (finished : bool)
    (m : queueEntryMetadata) (lock : bool) : queueEntry :=
  MkQueueEntry name content true calls finished false m lock LoopTop 0 None [] 0.

Definition OpenWriter (name : string) : call (nat + error) :=
  match st_file lib name [] FileCreate with
  | Some err => prog_ret (inr err)
  | None =>
      match st_file lib name [FileCreate] FileOpen with
      | Some err => prog_ret (inr err)
      | None =>
          let* i := store_entry (new_entry name [FileCreate; FileOpen] [] false no_metadata true) in
          let* err := upload name in
          match err with
          | Some err => prog_ret (inr err)
          | None =>
              let* q := the_queue in
              do* update_queue (set_q_writers (q_writers q ++ [MkMonitoringWriter i 0 0 0 0])) in
              prog_ret (inl (length (q_writers q)))
          end
      end
  end.

Definition writer_at (k : nat) : call monitoringWriter :=
  let* q := the_queue in match q_writers q !! k with Some m => prog_ret m | None => panic nil_pointer end.
Definition update_writer (k : nat) (m : monitoringWriter) : call unit :=
  update_queue (λ q, set_q_writers (<[k := m]> (q_writers q)) q).

Definition writeMetadataFile (i : nat) (m : queueEntryMetadata) : call unit :=
  let* err := os_call i MetadataCreate in
  match err with
  | Some _ => prog_ret tt
  | None => let* _ := os_call i (MetadataWrite m) in prog_ret tt
  end.

Definition SetMetadata (k : nat) (startTime : Z) (remoteAddr country : string) (username : option string) : call unit :=
  let* m := writer_at k in
  let meta := MkQueueMetadata startTime remoteAddr (bool_decide (is_Some username)) (default "" username) country in
  do* update_entry (mw_entry m) (set_u_metadata meta) in
  writeMetadataFile (mw_entry m) meta.

(** [lastPart] never changes, so every write after the first part notifies. *)
Definition storage_Write (k : nat) (p : list byte) : call (Z * option error) :=
  let* m := writer_at k in
  let* e := entry_at (mw_entry m) in
  let* err := os_call (mw_entry m) (FileWrite p) in
  let written := match err with None => p | Some _ => take (st_short lib (u_name e) (u_calls e) p) p end in
  let n := Z.of_nat (length written) in
  do* update_entry (mw_entry m) (λ e, set_u_content (u_content e ++ written) e) in
  let* q := the_queue in
  let bytesWritten := u64 (mw_bytesWritten m + n) in
  let partsAvailable := bytesWritten `div` q_partSize q in
  do* update_writer k (MkMonitoringWriter (mw_entry m) bytesWritten (mw_lastPart m)
        (mw_parts_pending m + if decide (partsAvailable > mw_lastPart m)%Z then 1 else 0)%nat (mw_closes_pending m)) in
  prog_ret (n, err).

Definition storage_Close (k : nat) : call (option error) :=
  let* m := writer_at k in
  let* err := os_call (mw_entry m) FileClose in
  do* update_writer k (MkMonitoringWriter (mw_entry m) (mw_bytesWritten m) (mw_lastPart m) (mw_parts_pending m)
        (mw_closes_pending m + 1)) in
  prog_ret err.

(** The goroutines of the writer. *)
Definition run_onPart (k : nat) : call unit :=
  let* m := writer_at k in
  match mw_parts_pending m with
  | 0%nat => prog_ret tt
  | S n =>
      do* update_writer k (MkMonitoringWriter (mw_entry m) (mw_bytesWritten m) (mw_lastPart m) n (mw_closes_pending m)) in
      markPartAvailable (mw_entry m)
  end.

Definition finish (name : string) : call (option error) :=
  let* q := the_queue in
  match q_queue q !! name with
  | None => prog_ret (Some (MsgError (NewMessage "AUDIT_S3_NO_SUCH_QUEUE_ENTRY" "no such queue entry: %s" [VString name])))
  | Some i =>
      do* lock_entry i in
      do* update_entry i set_u_finished in
      do* markPartAvailable i in
      prog_ret None
  end.

Definition run_onClose (k : nat) : call unit :=
  let* m := writer_at k in
  match mw_closes_pending m with
  | 0%nat => prog_ret tt
  | S n =>
      do* update_writer k (MkMonitoringWriter (mw_entry m) (mw_bytesWritten m) (mw_lastPart m) (mw_parts_pending m) n) in
      let* e := entry_at (mw_entry m) in
      let* _ := finish (u_name e) in
      prog_ret tt
  end.

(** [abortMultiPartUpload], before there is an entry: the calls made, and the
    error. *)
Fixpoint abort_uploads (name : string) (calls : list storage_call) (uploads : list (string * string))
  : list storage_call * option error :=
  match uploads with
  | [] => (calls, None)
  | (key, uploadID) :: uploads =>
      if decide (key = name) then
        let c := AbortMultipartUpload uploadID in
        match st_s3 lib name calls c with
        | inr err => (calls ++ [c], Some (Wrap (Some err) "AUDIT_S3_MULTIPART_FAILED_ABORT" "failed to abort %s" [VString name]))%list
        | inl _ => abort_uploads name (calls ++ [c])%list uploads
        end
      else abort_uploads name calls uploads
  end.

Definition abortMultiPartUpload (name : string) (calls : list storage_call) : list storage_call * option error :=
  match st_uploads lib name calls with
  | inr err => ((calls ++ [ListMultipartUploads])%list,
                Some (Wrap (Some err) "AUDIT_S3_MULTIPART_FAILED_LIST" "failed to list existing multipart upload for audit log %s" [VString name]))
  | inl uploads => abort_uploads name (calls ++ [ListMultipartUploads])%list uploads
  end.

(** The entry of a recovered log gets no mutex. *)
Definition recover (name : string) (content : list byte) : call (option error) :=
  match st_file lib name [] FileOpen with
  | Some err => prog_ret (Some err)
  | None =>
      let '(calls, err) := abortMultiPartUpload name [FileOpen] in
      match err with
      | Some _ => prog_ret err
      | None =>
          let m := default no_metadata (st_metadata lib name calls) in
          let* i := store_entry (new_entry name (calls ++ [MetadataOpen])%list content true m false) in
          do* markPartAvailable i in
          upload name
      end
  end.

(** [Shutdown]; the context may expire while it waits. *)
Definition storage_Shutdown (expired : bool) : call unit :=
  do* update_queue (set_q_shutdown expired) in
  let* q := the_queue in
  if decide (q_wg q ≠ 0) then block "sync.WaitGroup.Wait" else prog_ret tt.

Definition OpenReader (name : string) (calls : list storage_call) : option error :=
  match st_s3 lib name calls GetObject with inl _ => None | inr err => Some err end.
End storage.

Definition newUploadQueue (partSize parallelUploads : Z) (metadataUsername metadataIP : bool) : uploadQueue :=
  let partSize := if decide (partSize < minPartSize) then minPartSize else partSize in
  let partSize := if decide (partSize > maxPartSize) then maxPartSize else partSize in
  let parallelUploads := if decide (parallelUploads < 1) then 1 else parallelUploads in
  MkUploadQueue parallelUploads partSize 0 metadataIP metadataUsername ∅ [] [] 0 false None.

(** ** Creating the storage *)

(** A file found in the local directory. *)
Record walked_file := MkWalkedFile { wk_Name : string; wk_IsDir : bool; wk_content : list byte }.

(** Logs left by an earlier run: files that are not empty and have no dot in their
    names. *)
Definition left_behind (f : walked_file) : bool :=
  negb (wk_IsDir f) && Nat.ltb 0 (length (wk_content f)) && negb (Contains (wk_Name f) ".").

Definition getHTTPClient (AppendCertsFromPEM : string → bool) (cfg : AuditLogS3Config) : option error :=
  if decide (s3_CACert cfg ≠ "") then
    if AppendCertsFromPEM (s3_CACert cfg) then None else Some (Errorf "failed to add certificate from config file" [])
  else None.

Section new.
Context {W : Type} `{!Field W uploadQueue} (lib : StorageLibrary).

Fixpoint recover_all (files : list walked_file) : prog W (option error) :=
  match files with
  | [] => prog_ret None
  | f :: files =>
      if left_behind f then
        let* err := recover lib (wk_Name f) (wk_content f) in
        match err with
        | Some err => prog_ret (Some (wrap_error ("failed to enqueue old audit log file " ++ wk_Name f) err))
        | None => recover_all files
        end
      else recover_all files
  end.

(** [NewStorage] of the object storage; [stat]: the local directory, [walk]: its
    files. *)
Definition s3_NewStorage (files : Library) (AppendCertsFromPEM : string → bool) (NewSession : option error)
    (stat : option error) (walk : list walked_file) (cfg : AuditLogS3Config) : prog W (option error) :=
  match AuditLogS3Config_Validate files cfg with
  | Some err => prog_ret (Some err)
  | None =>
      match getHTTPClient AppendCertsFromPEM cfg with
      | Some err => prog_ret (Some err)
      | None =>
          match NewSession with
          | Some err => prog_ret (Some err)
          | None =>
              do* update_queue (λ _, newUploadQueue (s3_UploadPartSize cfg) (s3_ParallelUploads cfg) (s3_Metadata_Username cfg)
                                      (s3_Metadata_IP cfg)) in
              match stat with
              | Some err => prog_ret (Some (wrap_error ("invalid local audit directory " ++ s3_Local cfg) err))
              | None => recover_all walk
              end
          end
      end
  end.
End new.

(** [List] of the object storage: the pages the store returns for a continuation
    token, and the metadata of an object; at most [fuel] pages. *)
Fixpoint s3_List (ListObjectsV2 : option string → (list string * option string) + error)
    (HeadObject : string → gmap string (option string) + error) (fuel : nat) (continuationToken : option string)
  : list ((string * gmap string string) + error) :=
  match fuel with
  | 0%nat => []
  | S fuel =>
      match ListObjectsV2 continuationToken with
      | inr err => [inr err]
      | inl (contents, next) =>
          ((λ name,
             match HeadObject name with
             | inr err => inr (wrap_error ("failed to fetch metadata for audit log " ++ name) err)
             | inl metadata => inl (name, omap id metadata)
             end) <$> contents) ++
          match next with None => [] | Some _ => s3_List ListObjectsV2 HeadObject fuel next end
      end
  end.

(** ** The other storages *)

(** [file.NewStorage]; [stat]: whether the path is a directory. *)
Definition file_NewStorage (path_Join : string → string → string) (stat : string → bool + error)
    (WriteFile : string → option error) (cfg : AuditLogFileConfig)
  : option error :=
  if decide (file_Directory cfg = "") then Some (Errorf "invalid audit log directory" [])
  else
    match stat (file_Directory cfg) with
    | inr err => Some (wrap_error ("failed to access audit log directory " ++ file_Directory cfg) err)
    | inl false => Some (ErrorString ("specified audit log directory is not a directory " ++ file_Directory cfg ++ " (%!w(<nil>))"))
    | inl true =>
        match WriteFile (path_Join (file_Directory cfg) ".accesstest") with
        | Some err => Some (wrap_error ("failed to create file in audit log directory " ++ file_Directory cfg) err)
        | None => None
        end
    end.

(** [List] of the file storage. *)
Definition file_List (walk : list walked_file) : list string := wk_Name <$> filter (λ f, left_behind f = true) walk.

Inductive storage_kind := NoneStorage | FileStorage | S3Storage.
Inductive codec_kind := NoneCodec | AsciinemaCodec | BinaryCodec.

(** [NewEncoder] and [NewStorage]: what is chosen. *)
Definition NewEncoder (encoder : string) : codec_kind + error :=
  if decide (encoder = "none") then inl NoneCodec
  else if decide (encoder = "asciinema") then inl AsciinemaCodec
  else if decide (encoder = "binary") then inl BinaryCodec
  else inr (Errorf "invalid audit log encoder: %s" [VString encoder]).

Definition NewStorage (cfg : AuditLogConfig) : storage_kind + error :=
  if decide (audit_Storage cfg = "none") then inl NoneStorage
  else if decide (audit_Storage cfg = "file") then inl FileStorage
  else if decide (audit_Storage cfg = "s3") then inl S3Storage
  else inr (Errorf "invalid audit log storage: %s" [VString (audit_Storage cfg)]).

(** [New]; [None]: the logger that does nothing.  [create]: the storage of the kind
    that is configured. *)
Definition auditlog_New (create : storage_kind → option error) (cfg : AuditLogConfig)
  : option (codec_kind * storage_kind) + error :=
  if negb (audit_Enable cfg) then inl None
  else
    match NewEncoder (audit_Format cfg) with
    | inr err => inr err
    | inl encoder =>
        match NewStorage cfg with
        | inr err => inr err
        | inl kind => match create kind with Some err => inr err | None => inl (Some (encoder, kind)) end
        end
    end.
