(* ===== verification/AuditStorageSpec.v ===== *)
(** * What the storage of audit logs guarantees

    Theorems on [AuditStorage]. *)

From stdpp Require Import base gmap strings list.
From Stdlib Require Import Strings.Byte.
From S2P Require Import Prelude Messages Handler GoStrings ConfigHTTP AuditLog AppConfig AuditStorage.

Local Open Scope Z_scope.

(** ** What the object store holds

    The documented effect of the calls that succeed: an object is replaced as a
    whole, a part by its number, and completing an upload puts its parts together
    in the order of the list. *)
Record stored_object := MkStored {
  so_object : option (list byte);
  so_parts : gmap (string * Z) (string * list byte);
}.

Section stored.
Context (lib : StorageLibrary) (name : string).

Definition part_body (st : stored_object) (uploadID : string) (part : string * Z) : option (list byte) :=
  match so_parts st !! (uploadID, part.2) with
  | Some (etag, body) => if decide (etag = part.1) then Some body else None
  | None => None
  end.

Definition apply_call (h : list storage_call) (c : storage_call) (st : stored_object) : stored_object :=
  match st_s3 lib name h c with
  | inr _ => st
  | inl answer =>
      match c with
      | PutObject body _ => MkStored (Some body) (so_parts st)
      | UploadPart uploadID n body => MkStored (so_object st) (<[(uploadID, n) := (answer, body)]> (so_parts st))
      | CompleteMultipartUpload uploadID parts => MkStored (@concat byte <$> mapM (part_body st uploadID) parts) (so_parts st)
      | _ => st
      end
  end.

Fixpoint apply_calls (h : list storage_call) (cs : list storage_call) (st : stored_object) : stored_object :=
  match cs with [] => st | c :: cs => apply_calls (h ++ [c]) cs (apply_call h c st) end.

Definition stored (calls : list storage_call) : stored_object := apply_calls [] calls (MkStored None ∅).

Lemma apply_calls_snoc h cs c st : apply_calls h (cs ++ [c]) st = apply_call (h ++ cs) c (apply_calls h cs st).
Proof.
  revert h st. induction cs as [|d cs IH]; intros h st; cbn [apply_calls app]; [by rewrite app_nil_r|].
  by rewrite IH, <- app_assoc.
Qed.

Lemma stored_snoc calls c : stored (calls ++ [c]) = apply_call calls c (stored calls).
Proof. unfold stored. by rewrite apply_calls_snoc. Qed.

(** Calls of the operating system do not change it. *)
Definition local_call (c : storage_call) : bool :=
  match c with PutObject _ _ | UploadPart _ _ _ | CompleteMultipartUpload _ _ => false | _ => true end.

Lemma stored_local calls c : local_call c = true → stored (calls ++ [c]) = stored calls.
Proof. intros H. rewrite stored_snoc. unfold apply_call. destruct (st_s3 _ _ _ _); [|done]. by destruct c. Qed.
End stored.

(** ** The invariant of an entry *)

Section entries.
Context (lib : StorageLibrary) (P : Z).

(** Nothing has been uploaded; or the parts so far are the first bytes of the log;
    or the whole log has been uploaded at once. *)
Inductive progress (e : queueEntry) : Prop :=
| nothing_uploaded :
    u_uploadedBytes e = 0 → u_completedParts e = [] → progress e
| parts_uploaded uploadID bodies :
    u_uploadID e = Some uploadID → u_completedParts e ≠ [] →
    mapM (part_body (stored lib (u_name e) (u_calls e)) uploadID) (u_completedParts e) = Some bodies →
    snd <$> u_completedParts e = seqZ 0 (Z.of_nat (length (u_completedParts e))) →
    concat bodies = take (Z.to_nat (u_uploadedBytes e)) (u_content e) →
    0 < u_uploadedBytes e ≤ Z.of_nat (length (u_content e)) →
    (u_uploadedBytes e = P * Z.of_nat (length (u_completedParts e)) ∨
     u_finished e = true ∧ u_uploadedBytes e = Z.of_nat (length (u_content e))) →
    progress e
| all_uploaded :
    u_finished e = true → u_completedParts e = [] →
    u_uploadedBytes e = Z.of_nat (length (u_content e)) →
    so_object (stored lib (u_name e) (u_calls e)) = Some (u_content e) →
    progress e.

(** The size the loop knows is that of the log, or, while the log is written, not
    more. *)
Definition size_known (e : queueEntry) (size : Z) : Prop :=
  size ≤ Z.of_nat (length (u_content e)) ∧ (u_finished e = true → size = Z.of_nat (length (u_content e))).

Definition phase_ok (e : queueEntry) : Prop :=
  match u_phase e with
  | Uploading size => size_known e size
  | PartUpload size =>
      size_known e size ∧ is_Some (u_uploadID e) ∧ u_uploadedBytes e < size ∧
      (u_finished e = true → u_uploadedBytes e ≠ 0) ∧ (u_finished e = false → P ≤ size - u_uploadedBytes e)
  | _ => True
  end.

Record entry_ok (e : queueEntry) : Prop := {
  eo_progress : progress e;
  eo_phase : phase_ok e;
  eo_removed : u_exists e = false →
    u_finished e = true ∧ so_object (stored lib (u_name e) (u_calls e)) = Some (u_content e) ∧ u_phase e = Ended;
}.

(** *** Changes that keep it *)

Definition same_stored (e e' : queueEntry) : Prop :=
  stored lib (u_name e') (u_calls e') = stored lib (u_name e) (u_calls e).

(** The fields the progress is about. *)
Definition same_upload (e e' : queueEntry) : Prop :=
  same_stored e e' ∧ u_content e' = u_content e ∧ u_finished e' = u_finished e ∧ u_uploadedBytes e' = u_uploadedBytes e ∧
  u_completedParts e' = u_completedParts e.

Lemma progress_same e e' :
  same_upload e e' → (u_uploadID e' = u_uploadID e ∨ u_uploadID e = None) → progress e → progress e'.
Proof.
  intros (Hs & Hc & Hf & Hu & Hp) Hid [H1 H2|uploadID bodies H1 H2 H3 H4 H5 H6 H7|H1 H2 H3 H4].
  - apply nothing_uploaded; congruence.
  - destruct Hid as [Hid|Hid]; [|congruence].
    apply (parts_uploaded _ uploadID bodies); rewrite ?Hs, ?Hc, ?Hf, ?Hu, ?Hp; [congruence|done..].
  - apply all_uploaded; rewrite ?Hs, ?Hc, ?Hf, ?Hu, ?Hp; done.
Qed.

Lemma progress_finished e : progress e → progress (set_u_finished e).
Proof.
  intros [H1 H2|uploadID bodies H1 H2 H3 H4 H5 H6 H7|H1 H2 H3 H4]; [by apply nothing_uploaded| |by apply all_uploaded].
  apply (parts_uploaded _ uploadID bodies); cbn; try done. destruct H7 as [H7|[H7 H8]]; [by left|by right].
Qed.

Lemma progress_written p e : u_finished e = false → progress e → progress (set_u_content (u_content e ++ p) e).
Proof.
  intros Hf [H1 H2|uploadID bodies H1 H2 H3 H4 H5 H6 H7|H1 H2 H3 H4]; [by apply nothing_uploaded| |congruence].
  apply (parts_uploaded _ uploadID bodies); cbn [u_uploadID u_completedParts u_content u_uploadedBytes u_finished u_name u_calls set_u_content]; try done.
  - rewrite take_app_le by lia. done.
  - rewrite length_app. lia.
  - destruct H7 as [H7|[H7 H8]]; [by left|congruence].
Qed.

(** Calls that leave the object store alone. *)
Lemma same_upload_call e c :
  local_call c = true ∨ (∃ err, st_s3 lib (u_name e) (u_calls e) c = inr err) → same_upload e (set_u_calls (u_calls e ++ [c]) e).
Proof.
  intros H. split_and!; [|done..]. unfold same_stored. cbn [u_name u_calls set_u_calls]. destruct H as [H|[err H]]; [by apply stored_local|].
  rewrite stored_snoc. unfold apply_call. by rewrite H.
Qed.

(** *** The upload of everything at once *)
Lemma progress_single e m answer :
  u_finished e = true → u_uploadedBytes e = 0 → st_s3 lib (u_name e) (u_calls e) (PutObject (u_content e) m) = inl answer →
  0 < P → progress e →
  progress (set_u_uploaded (u_uploadedBytes e + Z.of_nat (length (u_content e))) (u_completedParts e)
              (set_u_calls (u_calls e ++ [PutObject (u_content e) m]) e)).
Proof.
  intros Hf Hu Ha HP [H1 H2|uploadID bodies H1 H2 H3 H4 H5 H6 H7|H1 H2 H3 H4]; [|lia|].
  all: apply all_uploaded; cbn [u_finished u_completedParts u_uploadedBytes u_content u_name u_calls set_u_uploaded set_u_calls]; [done|done|lia|].
  all: rewrite stored_snoc; unfold apply_call; by rewrite Ha.
Qed.

(** *** The upload of a part *)

Lemma part_body_other st uploadID n answer body part :
  part.2 ≠ n → part_body (MkStored (so_object st) (<[(uploadID, n) := (answer, body)]> (so_parts st))) uploadID part = part_body st uploadID part.
Proof. intros H. unfold part_body. cbn. by rewrite lookup_insert_ne by congruence. Qed.

Lemma mapM_parts_other st uploadID n answer body parts bodies :
  mapM (part_body st uploadID) parts = Some bodies → n ∉ snd <$> parts →
  mapM (part_body (MkStored (so_object st) (<[(uploadID, n) := (answer, body)]> (so_parts st))) uploadID) parts = Some bodies.
Proof.
  rewrite !mapM_Some. intros Hm Hn. induction Hm as [|x b parts bodies Hx Hm IH]; constructor.
  - rewrite part_body_other; [done|]. intros E. apply Hn. rewrite <- E. by left.
  - apply IH. intros H. apply Hn. by right.
Qed.

Lemma part_sections content a b : 0 ≤ a → a ≤ b → b ≤ Z.of_nat (length content) →
  (take (Z.to_nat a) content ++ section content a b)%list = take (Z.to_nat b) content.
Proof.
  intros Ha Hab Hb. unfold section. rewrite <- (take_drop (Z.to_nat a) content) at 3.
  rewrite take_app, length_take, take_take. f_equal; f_equal; lia.
Qed.

(** The bounds [doMultipartUpload] computes, where the number of bytes is a
    multiple of the part size. *)
Definition part_end (size uploaded : Z) (finished : bool) : Z :=
  let endingByte := (uploaded `quot` P + 1) * P in
  let endingByte := if decide (size < endingByte) then size else endingByte in
  if decide (finished = true ∧ size - endingByte < P) then size else endingByte.

Lemma part_end_bounds size n finished :
  0 < P → 0 ≤ n → P * n < size → (finished = false → P ≤ size - P * n) →
  (P * n) `quot` P = n ∧ P * n < part_end size (P * n) finished ≤ size ∧
  (part_end size (P * n) finished = P * (n + 1) ∨ finished = true ∧ part_end size (P * n) finished = size).
Proof.
  intros HP Hn Hs Hf. assert ((P * n) `quot` P = n) as Hq by (rewrite Z.mul_comm; apply Z.quot_mul; lia). split; [done|].
  unfold part_end. rewrite Hq. destruct finished; repeat case_decide; nia || (repeat case_decide; try nia).
Qed.

Lemma progress_part e size uploadID answer :
  0 < P → size_known e size → u_uploadID e = Some uploadID → u_uploadedBytes e < size →
  (u_finished e = true → u_uploadedBytes e ≠ 0) → (u_finished e = false → P ≤ size - u_uploadedBytes e) →
  let n := u_uploadedBytes e `quot` P in
  let b := part_end size (u_uploadedBytes e) (u_finished e) in
  let c := UploadPart uploadID n (section (u_content e) (n * P) b) in
  st_s3 lib (u_name e) (u_calls e) c = inl answer → progress e →
  progress (set_u_uploaded (u_uploadedBytes e + (b - n * P)) (u_completedParts e ++ [(answer, n)])
              (set_u_calls (u_calls e ++ [c]) e)).
Proof.
  intros HP [Hs1 Hs2] Hid Hlt Hf1 Hf2. cbn zeta. intros Ha Hp.
  assert (∃ m bodies, u_uploadedBytes e = P * Z.of_nat m ∧ length (u_completedParts e) = m ∧
    mapM (part_body (stored lib (u_name e) (u_calls e)) uploadID) (u_completedParts e) = Some bodies ∧
    snd <$> u_completedParts e = seqZ 0 (Z.of_nat m) ∧
    concat bodies = take (Z.to_nat (u_uploadedBytes e)) (u_content e)) as (m & bodies & Hu & Hm & Hb & Hn & Hc).
  { destruct Hp as [H1 H2|uploadID' bodies H1 H2 H3 H4 H5 H6 H7|H1 H2 H3 H4].
    - exists 0%nat, []. rewrite H1, H2. split_and!; [lia|done..].
    - exists (length (u_completedParts e)), bodies. split_and!; [|done|congruence|done|done]. destruct H7 as [H7|[_ H7]]; lia.
    - exfalso. lia. }
  rewrite Hu in *. destruct (part_end_bounds size (Z.of_nat m) (u_finished e)) as (Hq & Hend & Hfull); [lia|lia|lia|done|].
  rewrite Hq in *. set (b := part_end _ _ _) in *. set (c := UploadPart _ _ _) in *.
  apply (parts_uploaded _ uploadID (bodies ++ [section (u_content e) (Z.of_nat m * P) b]));
    cbn [u_uploadID u_completedParts u_content u_uploadedBytes u_finished u_name u_calls set_u_uploaded set_u_calls].
  - done.
  - by destruct (u_completedParts e).
  - rewrite stored_snoc. unfold apply_call. rewrite Ha. subst c. cbn match. apply mapM_Some, Forall2_app.
    + apply mapM_Some, mapM_parts_other; [done|]. rewrite Hn. intros Hin%elem_of_seqZ. lia.
    + constructor; [|constructor]. unfold part_body. cbn. by rewrite lookup_insert_eq, decide_True by done.
  - rewrite fmap_app, Hn, length_app, Hm. cbn. rewrite Nat2Z.inj_add, seqZ_app by lia. done.
  - rewrite concat_app, Hc. cbn. rewrite app_nil_r, (Z.mul_comm (Z.of_nat m)).
    rewrite part_sections by lia. f_equal. f_equal. lia.
  - lia.
  - rewrite length_app. cbn. destruct Hfull as [Hfull|[Hfin Hfull]]; [left; lia|right]. split; [done|]. rewrite <- Hs2 by done. lia.
Qed.

(** *** The end of the upload *)

(** The object store does not complete an upload without parts. *)
Definition rejects_empty : Prop :=
  ∀ name h uploadID, ∃ err, st_s3 lib name h (CompleteMultipartUpload uploadID []) = inr err.

Lemma progress_completed e uploadID answer :
  let c := CompleteMultipartUpload uploadID (u_completedParts e) in
  rejects_empty → u_uploadID e = Some uploadID → u_finished e = true → u_uploadedBytes e ≠ 0 →
  u_uploadedBytes e = Z.of_nat (length (u_content e)) → st_s3 lib (u_name e) (u_calls e) c = inl answer → progress e →
  progress (set_u_calls (u_calls e ++ [c]) e) ∧ so_object (stored lib (u_name e) (u_calls e ++ [c])) = Some (u_content e).
Proof.
  cbn zeta. intros Hr Hid Hf Hne Hu Ha [H1 H2|uploadID' bodies H1 H2 H3 H4 H5 H6 H7|H1 H2 H3 H4]; [lia| |].
  - assert (uploadID' = uploadID) as -> by congruence.
    rewrite stored_snoc. unfold apply_call. rewrite Ha, H3. split.
    + apply (parts_uploaded _ uploadID bodies); cbn [u_uploadID u_completedParts u_content u_uploadedBytes u_finished u_name u_calls set_u_calls]; try done.
      rewrite stored_snoc. unfold apply_call. by rewrite Ha.
    + cbn. rewrite H5, Hu, Nat2Z.id, firstn_all. done.
  - destruct (Hr (u_name e) (u_calls e) uploadID) as [err Herr]. congruence.
Qed.
End entries.

(** The bounds of a part, as [part_end]. *)
Ltac fold_part_end P e size :=
  let b := fresh in
  pose (b := part_end P size (u_uploadedBytes e) (u_finished e)); cbv beta zeta delta [part_end] in b; fold b;
  change b with (part_end P size (u_uploadedBytes e) (u_finished e)); clear b.

(** ** Steps of the loop *)

Section steps.
Context (lib : StorageLibrary) (file_of : string → string) {A : Type}.
Abbreviation W := uploadQueue.

Lemma s_bind_queue (f : uploadQueue → prog W A) q : prog_bind f the_queue q = f q q.
Proof. done. Qed.
Lemma s_bind_update_queue (f : unit → prog W A) g q : prog_bind f (update_queue g) q = f tt (g q).
Proof. done. Qed.
Lemma s_bind_entry_at (f : queueEntry → prog W A) i e q :
  q_entries q !! i = Some e → prog_bind f (entry_at i) q = f e q.
Proof. intros H. unfold entry_at, prog_bind, the_queue. cbn. by rewrite H. Qed.
Lemma s_bind_update_entry (f : unit → prog W A) i g q :
  prog_bind f (update_entry i g) q = f tt (set_q_entries (alter g i (q_entries q)) q).
Proof. done. Qed.
Lemma s_bind_ask {B} (f : B → prog W A) i e c answer q :
  q_entries q !! i = Some e →
  prog_bind f (storage_ask i c answer) q =
    f (answer (u_name e) (u_calls e)) (set_q_entries (alter (set_u_calls (u_calls e ++ [c])) i (q_entries q)) q).
Proof. intros H. unfold storage_ask. rewrite bind_bind, (s_bind_entry_at _ _ e) by done. done. Qed.
Lemma s_bind_writer_at (f : monitoringWriter → prog W A) k m q :
  q_writers q !! k = Some m → prog_bind f (writer_at k) q = f m q.
Proof. intros H. unfold writer_at, prog_bind, the_queue. cbn. by rewrite H. Qed.
End steps.

Ltac s_find :=
  cbn [q_entries q_writers set_q_entries set_q_queue set_q_writers set_q_workerSem set_q_wg];
  rewrite ?list_lookup_alter_eq;
  repeat match goal with H : ?l !! ?i = Some _ |- context [?l !! ?i] => rewrite H end; reflexivity.

(** One call of a sequence. *)
Ltac s_step :=
  first
  [ rewrite bind_ret | rewrite bind_bind | rewrite s_bind_queue | rewrite s_bind_update_queue | rewrite s_bind_update_entry
  | erewrite s_bind_entry_at by s_find | erewrite s_bind_ask by s_find | erewrite s_bind_writer_at by s_find ]; cbv beta.

Section invariant.
Context (lib : StorageLibrary) (file_of : string → string) (P : Z).
Abbreviation W := uploadQueue.

Definition storage_ok (q : uploadQueue) : Prop :=
  q_partSize q = P ∧ ∀ i e, q_entries q !! i = Some e → entry_ok lib P e.

Lemma ok_alter f q q' i e :
  storage_ok q → q_entries q !! i = Some e → q_entries q' = alter f i (q_entries q) → q_partSize q' = q_partSize q →
  entry_ok lib P (f e) → storage_ok q'.
Proof.
  intros [HP Hq] Hi He Hs Hf. split; [congruence|]. intros j e'. rewrite He. destruct (decide (i = j)) as [->|Hn].
  - rewrite list_lookup_alter_eq, Hi. by intros [= <-].
  - rewrite list_lookup_alter_ne by done. apply Hq.
Qed.

Lemma ok_same_entries q q' : storage_ok q → q_entries q' = q_entries q → q_partSize q' = q_partSize q → storage_ok q'.
Proof. intros [HP Hq] He Hs. split; [congruence|]. by rewrite He. Qed.

Lemma entry_ok_change e e' :
  entry_ok lib P e → u_phase e ≠ Ended → same_upload lib e e' → (u_uploadID e' = u_uploadID e ∨ u_uploadID e = None) →
  u_exists e' = u_exists e → phase_ok P e' → entry_ok lib P e'.
Proof.
  intros [Hp Hph Hr] Hne Hs Hid Hx Hph'. split; [by eapply progress_same|done|].
  rewrite Hx. intros H. destruct (Hr H) as (_ & _ & Hend). done.
Qed.

Lemma same_upload_phase e p : same_upload lib e (set_u_phase p e).
Proof. by split_and!. Qed.

Lemma ok_go_to i p q e :
  storage_ok q → q_entries q !! i = Some e → entry_ok lib P (set_u_phase p e) → wlp (go_to i p) q (λ _, storage_ok).
Proof. intros Hq He Hp. cbn. by eapply ok_alter. Qed.

Lemma ok_loop_ends i q e :
  storage_ok q → q_entries q !! i = Some e → entry_ok lib P (set_u_phase Ended e) → wlp (loop_ends i) q (λ _, storage_ok).
Proof.
  intros Hq He Hp. unfold wlp, loop_ends, go_to. rewrite s_bind_update_entry, s_bind_queue. cbn.
  case_decide; [done|]. by eapply ok_alter.
Qed.

(** A step that only makes calls the object store does not notice, or that fail. *)
Lemma entry_ok_calls e c p :
  entry_ok lib P e → u_phase e ≠ Ended → local_call c = true ∨ (∃ err, st_s3 lib (u_name e) (u_calls e) c = inr err) →
  phase_ok P (set_u_phase p (set_u_calls (u_calls e ++ [c]) e)) →
  entry_ok lib P (set_u_phase p (set_u_calls (u_calls e ++ [c]) e)).
Proof.
  intros Hok Hne Hc Hph. eapply entry_ok_change; [done|done| |by left|done|done].
  destruct (same_upload_call lib e c Hc) as (H1 & H2). by split.
Qed.

Lemma ok_abort i q e :
  storage_ok q → q_entries q !! i = Some e → u_phase e = LoopTop →
  wlp (processShouldAbort lib i) q (λ (abort : bool) q', storage_ok q' ∧
    ∃ e', q_entries q' !! i = Some e' ∧ entry_ok lib P e' ∧ u_phase e' = LoopTop).
Proof.
  intros Hq He Hph. pose proof (proj2 Hq _ _ He) as Hok.
  assert (wlp (do* (match u_uploadID e with
         | Some uploadID => let* _ := abortSpecificMultipartUpload lib i uploadID in prog_ret tt
         | None => prog_ret tt
         end) in
    do* queue_delete (u_name e) in prog_ret true) q (λ (abort : bool) q', storage_ok q' ∧
    ∃ e', q_entries q' !! i = Some e' ∧ entry_ok lib P e' ∧ u_phase e' = LoopTop)) as Ha.
  { unfold wlp. destruct (u_uploadID e) as [id|].
    - unfold abortSpecificMultipartUpload, s3_ask. repeat s_step. cbn.
      assert (entry_ok lib P (set_u_calls (u_calls e ++ [AbortMultipartUpload id]) e)) as Hok'.
      { pose proof (entry_ok_calls e (AbortMultipartUpload id) LoopTop Hok ltac:(by rewrite Hph) (or_introl eq_refl) I) as H.
        destruct e; cbn in *; by subst. }
      split; [by eapply ok_alter|]. eexists. rewrite list_lookup_alter_eq, He. by split.
    - repeat s_step. cbn. split; [by eapply ok_same_entries|]. by exists e. }
  unfold wlp, processShouldAbort. s_step. s_step. repeat case_decide; [exact Ha..|]. cbn. split; [done|]. by exists e.
Qed.

Ltac s_ok e :=
  eapply (ok_alter _ _ _ _ e); [eassumption|eassumption|cbn; rewrite ?alter_alter; reflexivity|reflexivity|].

Lemma ok_part_upload i q e size uploadID :
  0 < P → storage_ok q → q_entries q !! i = Some e → u_phase e = PartUpload size → u_uploadID e = Some uploadID →
  wlp (do* doMultipartUpload lib i size uploadID in go_to i (RoundEnd false)) q (λ _, storage_ok).
Proof.
  intros HP Hq He Hph Hid. pose proof (proj2 Hq _ _ He) as Hok.
  pose proof (eo_phase _ _ _ Hok) as Hphase. unfold phase_ok in Hphase. rewrite Hph in Hphase.
  destruct Hphase as (Hk & _ & Hlt & H1 & H2).
  unfold wlp, doMultipartUpload, s3_ask. repeat s_step. rewrite (proj1 Hq).
  fold_part_end P e size.
  set (c := UploadPart _ _ _). destruct (st_s3 lib _ _ c) as [answer|err] eqn:Ha.
  - repeat s_step. cbn. s_ok e. split; [|done|].
    + pose proof (progress_part lib P e size uploadID answer HP Hk Hid Hlt H1 H2 Ha (eo_progress _ _ _ Hok)) as Hp.
      refine (progress_same lib P _ _ _ (or_introl _) Hp); [by split_and!|done].
    + cbn. intros Hx. pose proof (eo_removed _ _ _ Hok Hx) as (_ & _ & H). congruence.
  - repeat s_step. cbn. s_ok e. apply entry_ok_calls; [done|congruence| |done]. right. by exists err.
Qed.

(** Calls of the operating system for an entry, and perhaps the removal of its
    file. *)
Definition local_changes (e e' : queueEntry) : Prop :=
  same_upload lib e e' ∧ u_name e' = u_name e ∧ u_phase e' = u_phase e ∧ u_uploadID e' = u_uploadID e ∧
  (u_exists e' = u_exists e ∨ u_exists e' = false).

Lemma local_changes_refl e : local_changes e e.
Proof. split_and!; [by split_and!|done..|by left]. Qed.

Lemma local_changes_trans e1 e2 e3 : local_changes e1 e2 → local_changes e2 e3 → local_changes e1 e3.
Proof. unfold local_changes, same_upload, same_stored. intros (?&?&?&?&Hx) (?&?&?&?&Hy). intuition congruence. Qed.

Definition keeps_locally {A} (i : nat) (c : prog W A) : Prop :=
  ∀ q e, q_entries q !! i = Some e →
    wlp c q (λ _ q', ∃ e', local_changes e e' ∧ q' = set_q_entries (<[i := e']> (q_entries q)) q).

Lemma locally_ret {A} i (a : A) : keeps_locally i (prog_ret a).
Proof.
  intros q e He. apply wlp_ret. exists e. split; [apply local_changes_refl|]. rewrite list_insert_id by done. by destruct q.
Qed.

Lemma locally_bind {A B} i (c : prog W A) (f : A → prog W B) :
  keeps_locally i c → (∀ a, keeps_locally i (f a)) → keeps_locally i (let* a := c in f a).
Proof.
  intros Hc Hf q e He. apply wlp_bind. eapply wlp_mono; [exact (Hc q e He)|]. intros a q' (e1 & H1 & ->).
  eapply wlp_mono; [apply (Hf a _ e1), list_lookup_insert_eq; by eapply lookup_lt_Some|].
  intros b q'' (e2 & H2 & ->). exists e2. split; [by eapply local_changes_trans|]. cbn. by rewrite list_insert_insert_eq.
Qed.

Lemma locally_update i f : (∀ e, local_changes e (f e)) → keeps_locally i (update_entry i f).
Proof.
  intros Hf q e He. cbn. exists (f e). split; [done|]. by rewrite (alter_is_insert _ _ _ e He).
Qed.

Lemma locally_entry_at i : keeps_locally i (entry_at i).
Proof.
  intros q e He. unfold wlp, entry_at, prog_bind, the_queue. cbn. rewrite He. cbn. exists e. split; [apply local_changes_refl|].
  rewrite list_insert_id by done. by destruct q.
Qed.

Lemma locally_call i c : local_call c = true → keeps_locally i (os_call lib i c).
Proof.
  intros Hc q e He. unfold wlp, os_call, storage_ask. repeat s_step. cbn. eexists. split; [|by rewrite (alter_is_insert _ _ _ e He)].
  split_and!; [by apply same_upload_call; left|done..|by left].
Qed.

Lemma locally_remove_entry i : keeps_locally i (remove_entry lib file_of i).
Proof.
  unfold remove_entry. apply locally_bind; [apply locally_entry_at|intros e0].
  apply locally_bind; [by apply locally_call|intros [?|]; [apply locally_ret|]].
  apply locally_bind; [by apply locally_call|intros [?|]; [apply locally_ret|]].
  apply locally_bind; [apply locally_update; intros e; split_and!; [by split_and!|done..|by right]|intros _].
  apply locally_bind; [by apply locally_call|intros [?|]; [apply locally_ret|]].
  apply locally_bind; [by apply locally_call|intros ?; apply locally_ret].
Qed.

(** The loop ends with the removal of the log. *)
Definition removes (i : nat) (name : string) : prog W unit :=
  let* _ := remove_entry lib file_of i in do* queue_delete name in do* release in loop_ends i.

Lemma ok_removes i name q e :
  storage_ok q → q_entries q !! i = Some e → progress lib P e → u_finished e = true →
  so_object (stored lib (u_name e) (u_calls e)) = Some (u_content e) →
  wlp (removes i name) q (λ _, storage_ok).
Proof.
  intros Hq He Hp Hf Ho. unfold removes. apply wlp_bind. eapply wlp_mono; [exact (locally_remove_entry i q e He)|].
  intros _ q' (e' & ((Hs & Hc & Hfin & Hu & Hpa) & Hn & Hph & Hid & Hx) & ->).
  assert (entry_ok lib P (set_u_phase Ended e')) as Hok.
  { split; [|done|].
    - refine (progress_same lib P e _ _ (or_introl _) Hp); [by split_and!|done].
    - intros _. cbn [u_finished u_name u_calls u_content u_phase set_u_phase]. rewrite Hs, Hc, Hfin. done. }
  unfold wlp. repeat s_step. unfold release. repeat s_step. unfold loop_ends, go_to. repeat s_step. 
  cbn. case_decide; [done|]. split; [apply Hq|]. cbn. intros j e2. rewrite alter_is_insert with (x := e') by (apply list_lookup_insert_eq; by eapply lookup_lt_Some).
  rewrite list_insert_insert_eq. intros [(<- & <- & _)|[_ Hj]]%list_lookup_insert_Some; [done|]. by eapply Hq.
Qed.

Context (HP : 0 < P) (Hempty : rejects_empty lib).

Lemma ok_processUpload i size q e :
  storage_ok q → q_entries q !! i = Some e → u_phase e = Uploading size → wlp (processUpload lib file_of i size) q (λ _, storage_ok).
Proof.
  intros Hq He Hph. pose proof (proj2 Hq _ _ He) as Hok. pose proof (eo_phase _ _ _ Hok) as Hk. unfold phase_ok in Hk. rewrite Hph in Hk.
  assert (u_exists e = false → False) as Hx by (intros (_ & _ & H)%(eo_removed _ _ _ Hok); congruence).
  unfold wlp, processUpload. s_step. s_step. rewrite (proj1 Hq). case_decide as H1; [|case_decide as H2; [|case_decide as H3]].
  - unfold processSingleUpload, os_call, s3_ask. repeat s_step. destruct (st_file _ _ _ _).
    { repeat s_step. cbn. s_ok e. apply entry_ok_calls; [done|congruence|by left|done]. }
    repeat s_step. set (e1 := set_u_calls (u_calls e ++ [FileStat]) e).
    assert (entry_ok lib P e1) as Hok1.
    { eapply entry_ok_change; [done|congruence|by apply same_upload_call; left|by left|done|]. unfold phase_ok. cbn. by rewrite Hph. }
    change (u_content e) with (u_content e1). change (u_name e) with (u_name e1). change (u_calls e ++ [FileStat])%list with (u_calls e1).
    destruct (st_s3 _ _ _ _) as [answer|err] eqn:Ha; repeat s_step; cbn; s_ok e.
    + pose proof (progress_single lib P e1 _ answer (proj1 H1) (proj2 H1) Ha HP (eo_progress _ _ _ Hok1)) as Hp.
      split; [|done|by intros []%Hx]. refine (progress_same lib P _ _ _ (or_introl _) Hp); [by split_and!|done].
    + exact (entry_ok_calls e1 _ (RoundEnd true) Hok1 ltac:(cbn; congruence) (or_intror (ex_intro _ err Ha)) I).
  - assert (∀ e', size_known e' size → u_uploadedBytes e' = u_uploadedBytes e → u_finished e' = u_finished e → is_Some (u_uploadID e') →
      phase_ok P (set_u_phase (PartUpload size) e')) as Hph'.
    { intros e' Hk' Hu' Hf' Hid'. unfold phase_ok. cbn. rewrite Hu', Hf'. split_and!; [done|done|destruct H2 as [[_ ?]|?]; lia|tauto|].
      intros Hf. destruct H2 as [[? _]|?]; [congruence|lia]. }
    destruct (u_uploadID e) as [id|] eqn:Hid; [|unfold s3_ask; repeat s_step; destruct (st_s3 _ _ _ _) as [id|err] eqn:Ha].
    + cbn. s_ok e. eapply entry_ok_change; [done|congruence|by split_and!|by left|done|]. by apply Hph'.
    + repeat s_step. cbn. s_ok e. eapply entry_ok_change; [done|congruence| |by right|done|by apply Hph'].
      destruct (same_upload_call lib e (CreateMultipartUpload (ToMap (u_metadata e) (q_metadataUsername q) (q_metadataIP q))) (or_introl eq_refl)).
      by split.
    + repeat s_step. cbn. s_ok e. apply entry_ok_calls; [done|congruence|by left|done].
  - destruct H3 as [Hf Hr]. assert (u_uploadedBytes e = Z.of_nat (length (u_content e))) as Hu by (destruct Hk as [_ Hk]; rewrite <- Hk; [lia|done]).
    destruct (u_uploadID e) as [id|] eqn:Hid.
    + unfold s3_ask. repeat s_step. destruct (st_s3 _ _ _ _) as [answer|err] eqn:Ha; repeat s_step; cbn [orb].
      * destruct (progress_completed lib P e id answer Hempty Hid Hf ltac:(tauto) Hu Ha (eo_progress _ _ _ Hok)) as [Hp Ho].
        match goal with |- context [set_q_entries ?l q] => set (q1 := set_q_entries l q) end.
        apply (ok_removes i (u_name e) q1 (set_u_calls (u_calls e ++ [CompleteMultipartUpload id (u_completedParts e)]) e)); [|by subst q1; s_find|done..].
        subst q1. s_ok e. split; [done| |by intros []%Hx]. unfold phase_ok. cbn. by rewrite Hph.
      * cbn. s_ok e. apply entry_ok_calls; [done|congruence|right; by exists err|done].
    + repeat s_step. apply (ok_removes i (u_name e) q e); [done|done|apply Hok|done|].
      destruct (eo_progress _ _ _ Hok) as [G1 G2|id' bodies G1|G1 G2 G3 G4]; [tauto|congruence|done].
  - cbn. s_ok e. eapply entry_ok_change; [done|congruence|by split_and!|by left|done|done].
Qed.

Theorem step_ok i q : storage_ok q → wlp (upload_step lib file_of i) q (λ _, storage_ok).
Proof.
  intros Hq. destruct (q_entries q !! i) as [e|] eqn:He.
  2:{ unfold wlp, upload_step, entry_at, prog_bind, the_queue. cbn. by rewrite He. }
  pose proof (proj2 Hq _ _ He) as Hok.
  unfold wlp, upload_step. s_step. s_step. destruct (u_phase e) as [| | | |size|size|failed|] eqn:Hph.
  - apply wlp_bind. eapply wlp_mono; [exact (ok_abort i q e Hq He Hph)|].
    intros abort q' (Hq' & e' & He' & Hok' & Hph'). destruct abort.
    + eapply ok_loop_ends; [done|done|]. eapply entry_ok_change; [done|congruence|by split_and!|by left|done|done].
    + eapply ok_go_to; [done|done|]. eapply entry_ok_change; [done|congruence|by split_and!|by left|done|done].
  - unfold waitPartAvailable. repeat s_step. destruct (u_partAvailable e); [|done]. repeat s_step. cbn. s_ok e.
    eapply entry_ok_change; [done|congruence|by split_and!|by left|done|done].
  - case_decide; [|done]. repeat s_step. cbn. s_ok e.
    eapply entry_ok_change; [done|congruence|by split_and!|by left|done|done].
  - unfold os_call. repeat s_step. cbn. s_ok e. apply entry_ok_calls; [done|congruence|by left|].
    unfold phase_ok. cbn. destruct (st_file _ _ _ _); [done|]. cbn. done.
  - by eapply ok_processUpload.
  - destruct (u_uploadID e) as [id|] eqn:Hid; [|done]. by eapply ok_part_upload.
  - unfold release, lock_entry. repeat s_step. destruct (u_lock e); [|done].
    unfold markPartAvailable. destruct (failed || u_finished e); repeat s_step; cbn; s_ok e;
    (eapply entry_ok_change; [done|congruence|by split_and!|by left|done|done]).
  - done.
Qed.
End invariant.

(** ** What happens to a storage

    [EFinish]: the goroutine [Close] has started; [EPart]: one of those [Write]
    has started; [EStep]: a step of the loop of an entry. *)
Inductive storage_event :=
| EOpen (name : string)
| EWrite (k : nat) (p : list byte)
| EMetadata (k : nat) (startTime : Z) (remoteAddr country : string) (username : option string)
| EClose (k : nat)
| EPart (k : nat)
| EFinish (k : nat)
| EStep (i : nat)
| EShutdown (expired : bool).

Section runs.
Context (lib : StorageLibrary) (file_of : string → string).
Abbreviation W := uploadQueue.

Definition event_run (ev : storage_event) : prog W unit :=
  match ev with
  | EOpen name => let* _ := OpenWriter lib name in prog_ret tt
  | EWrite k p => let* _ := storage_Write lib k p in prog_ret tt
  | EMetadata k t a c u => SetMetadata lib k t a c u
  | EClose k => let* _ := storage_Close lib k in prog_ret tt
  | EPart k => run_onPart k
  | EFinish k => run_onClose k
  | EStep i => upload_step lib file_of i
  | EShutdown expired => update_queue (set_q_shutdown expired)
  end.

Fixpoint events_run (evs : list storage_event) : prog W unit :=
  match evs with [] => prog_ret tt | ev :: evs => do* event_run ev in events_run evs end.

(** The entry a writer belongs to. *)
Definition entry_of (q : uploadQueue) (k : nat) : option queueEntry :=
  m ← q_writers q !! k; q_entries q !! mw_entry m.

(** The loop has asked for the size of the log and not uploaded yet. *)
Definition knows_size (e : queueEntry) : bool :=
  match u_phase e with Uploading _ | PartUpload _ => true | _ => false end.

(** The order in which things happen: nothing is written to a log that is finished,
    and none is finished between the question for its size and the upload. *)
Definition in_order (q : uploadQueue) (ev : storage_event) : bool :=
  match ev with
  | EWrite k _ => match entry_of q k with Some e => negb (u_finished e) | None => true end
  | EFinish k =>
      match e0 ← entry_of q k; i ← q_queue q !! u_name e0; q_entries q !! i with
      | Some e => negb (knows_size e)
      | None => true
      end
  | _ => true
  end.

Fixpoint orderly (q : uploadQueue) (evs : list storage_event) : bool :=
  match evs with
  | [] => true
  | ev :: evs =>
      in_order q ev && match event_run ev q with Done (_, q') => orderly q' evs | _ => true end
  end.

Context (P : Z) (HP : 0 < P) (Hempty : rejects_empty lib).
Abbreviation ok := (storage_ok lib P).

Lemma entry_ok_same e e' :
  entry_ok lib P e → same_upload lib e e' → u_uploadID e' = u_uploadID e → u_exists e' = u_exists e → u_phase e' = u_phase e →
  entry_ok lib P e'.
Proof.
  intros [Hp Hph Hr] Hs Hid Hx Hphase. pose proof Hs as (Hst & Hc & Hf & Hu & Hpa). split.
  - eapply progress_same; [done|by left|done].
  - unfold phase_ok, size_known in *. rewrite Hphase, Hc, Hf, Hu, Hid. done.
  - rewrite Hx, Hf, Hc, Hphase. unfold same_stored in Hst. by rewrite Hst.
Qed.

Lemma entry_ok_local e c : entry_ok lib P e → local_call c = true → entry_ok lib P (set_u_calls (u_calls e ++ [c]) e).
Proof. intros Hok Hc. eapply entry_ok_same; [done|apply same_upload_call; by left|done..]. Qed.

Lemma entry_ok_written p e : u_finished e = false → entry_ok lib P e → entry_ok lib P (set_u_content (u_content e ++ p) e).
Proof.
  intros Hf [Hp Hph Hr]. split.
  - by apply progress_written.
  - unfold phase_ok, size_known in *. cbn. destruct (u_phase e); try done; rewrite length_app; intuition (congruence || lia).
  - cbn. intros Hx. destruct (Hr Hx). congruence.
Qed.

Lemma entry_ok_finished e : knows_size e = false → entry_ok lib P e → entry_ok lib P (set_u_finished e).
Proof.
  intros Hk [Hp Hph Hr]. split; [by apply progress_finished| |].
  - unfold phase_ok, knows_size in *. cbn. by destruct (u_phase e).
  - cbn. intros Hx. destruct (Hr Hx) as (_ & H). done.
Qed.

Lemma entry_ok_new name calls content finished m lock : entry_ok lib P (new_entry name calls content finished m lock).
Proof. split; [by apply nothing_uploaded|done|done]. Qed.

(** A change of one entry, and of what is not in the entries. *)
Lemma ok_update_entry i f q :
  ok q → (∀ e, q_entries q !! i = Some e → entry_ok lib P (f e)) → ok (set_q_entries (alter f i (q_entries q)) q).
Proof.
  intros [Hs Hq] Hf. split; [done|]. cbn. intros j e. destruct (decide (i = j)) as [->|Hn].
  - rewrite list_lookup_alter_eq. destruct (q_entries q !! j) as [e0|]; cbn; [|done]. intros [= <-]. by apply Hf.
  - rewrite list_lookup_alter_ne by done. apply Hq.
Qed.

Lemma ok_mark i q : ok q → wlp (markPartAvailable i) q (λ _, ok).
Proof.
  intros Hq. cbn. apply ok_update_entry; [done|]. intros e He. eapply entry_ok_same; [by apply (proj2 Hq i)|by split_and!|done..].
Qed.

Lemma ok_local_call i c q : ok q → local_call c = true → wlp (os_call lib i c) q (λ _ q', ok q' ∧ q_writers q' = q_writers q ∧
  ∃ e, q_entries q !! i = Some e ∧ q_entries q' !! i = Some (set_u_calls (u_calls e ++ [c]) e)).
Proof.
  intros Hq Hc. unfold wlp, os_call, storage_ask. destruct (q_entries q !! i) as [e|] eqn:He.
  - repeat s_step. cbn. split; [|split; [done|]].
    + eapply ok_alter; [done|done|reflexivity|done|]. apply entry_ok_local; [|done]. by apply (proj2 Hq i).
    + exists e. by rewrite list_lookup_alter_eq, He.
  - unfold entry_at, prog_bind, the_queue. cbn. by rewrite He.
Qed.

Lemma ok_append e q : ok q → entry_ok lib P e → ok (set_q_entries (q_entries q ++ [e]) q).
Proof.
  intros [Hs Hq] He. split; [done|]. intros j e' [Hj|[_ Hj]]%lookup_app_Some; [by eapply Hq|].
  apply list_lookup_singleton_Some in Hj as [_ <-]. done.
Qed.

Lemma ok_store_entry e q : ok q → entry_ok lib P e → wlp (store_entry e) q (λ _, ok).
Proof.
  intros Hq He. unfold wlp, store_entry. repeat s_step. cbn. eapply ok_same_entries; [exact (ok_append e q Hq He)|done..].
Qed.

Lemma ok_upload name q : ok q → wlp (upload name) q (λ _, ok).
Proof.
  intros Hq. unfold wlp, upload. s_step. destruct (q_queue q !! name); [|done]. repeat s_step. cbn. by eapply ok_same_entries.
Qed.

Lemma ok_OpenWriter name q : ok q → wlp (OpenWriter lib name) q (λ _, ok).
Proof.
  intros Hq. unfold OpenWriter. destruct (st_file _ _ _ _); [done|]. destruct (st_file _ _ _ _); [done|].
  apply wlp_bind. eapply wlp_mono; [apply ok_store_entry; [done|apply entry_ok_new]|]. intros i q1 H1.
  apply wlp_bind. eapply wlp_mono; [by apply ok_upload|]. intros [err|] q2 H2; [done|].
  unfold wlp. repeat s_step. cbn. by eapply ok_same_entries.
Qed.

Lemma ok_writer_at {A} k (f : monitoringWriter → prog W A) q Q :
  (∀ m, q_writers q !! k = Some m → wlp (f m) q Q) → wlp (let* m := writer_at k in f m) q Q.
Proof.
  intros Hf. destruct (q_writers q !! k) as [m|] eqn:Hm.
  - unfold wlp. erewrite s_bind_writer_at by done. by apply Hf.
  - unfold wlp, writer_at, prog_bind, the_queue. cbn. by rewrite Hm.
Qed.

Lemma ok_entry_at {A} i (f : queueEntry → prog W A) q Q :
  (∀ e, q_entries q !! i = Some e → wlp (f e) q Q) → wlp (let* e := entry_at i in f e) q Q.
Proof.
  intros Hf. destruct (q_entries q !! i) as [e|] eqn:He.
  - unfold wlp. erewrite s_bind_entry_at by done. by apply Hf.
  - unfold wlp, entry_at, prog_bind, the_queue. cbn. by rewrite He.
Qed.

Lemma ok_writes k p q : ok q → in_order q (EWrite k p) = true → wlp (storage_Write lib k p) q (λ _, ok).
Proof.
  intros Hq Hord. unfold storage_Write. apply ok_writer_at. intros m Hm.
  apply ok_entry_at. intros e1 _. apply wlp_bind.
  eapply wlp_mono; [by apply (ok_local_call (mw_entry m) (FileWrite p))|]. intros err q1 (H1 & Hw1 & e0 & He0 & He1).
  cbn zeta. set (written := match err with None => p | Some _ => _ end).
  assert (wlp (update_entry (mw_entry m) (λ e, set_u_content (u_content e ++ written) e)) q1 (λ _, ok)) as Hw.
  { cbn. apply ok_update_entry; [done|]. intros e He. apply entry_ok_written; [|by apply (proj2 H1 (mw_entry m))].
    cbn in Hord. unfold entry_of in Hord. rewrite Hm in Hord. cbn in Hord.
    rewrite He0 in Hord. rewrite He1 in He. injection He as <-. by apply negb_true_iff in Hord. }
  apply wlp_bind. eapply wlp_mono; [exact Hw|]. intros [] q2 H2. unfold wlp. repeat s_step. cbn. by eapply ok_same_entries.
Qed.

Lemma ok_SetMetadata k t a c u q : ok q → wlp (SetMetadata lib k t a c u) q (λ _, ok).
Proof.
  intros Hq. unfold SetMetadata. apply ok_writer_at. intros m Hm.
  apply wlp_bind. eapply (wlp_mono _ _ (λ _, ok)).
  { unfold wlp, update_entry, update_queue. cbn. refine (ok_update_entry (mw_entry m) _ q Hq (λ e He, _)).
    eapply entry_ok_same; [by apply (proj2 Hq (mw_entry m))|by split_and!|done..]. }
  intros [] q1 H1. unfold writeMetadataFile. apply wlp_bind. eapply wlp_mono; [by apply (ok_local_call (mw_entry m) MetadataCreate)|].
  intros [err|] q2 [H2 _]; [done|]. apply wlp_bind. eapply wlp_mono; [by eapply (ok_local_call (mw_entry m) (MetadataWrite _))|].
  by intros _ q3 [H3 _].
Qed.

Lemma ok_Close k q : ok q → wlp (storage_Close lib k) q (λ _, ok).
Proof.
  intros Hq. unfold storage_Close. apply ok_writer_at. intros m Hm.
  apply wlp_bind. eapply wlp_mono; [by apply (ok_local_call (mw_entry m) FileClose)|]. intros err q1 [H1 _].
  unfold wlp. repeat s_step. cbn. by eapply ok_same_entries.
Qed.

Lemma ok_onPart k q : ok q → wlp (run_onPart k) q (λ _, ok).
Proof.
  intros Hq. unfold run_onPart. apply ok_writer_at. intros m Hm. destruct (mw_parts_pending m); [done|].
  unfold wlp, update_writer. s_step. apply ok_mark. by eapply ok_same_entries.
Qed.

Lemma ok_finish name q :
  ok q → (∀ i e, q_queue q !! name = Some i → q_entries q !! i = Some e → knows_size e = false) → wlp (finish name) q (λ _, ok).
Proof.
  intros Hq Hk. unfold wlp, finish. s_step. destruct (q_queue q !! name) as [i|] eqn:Hi; [|done].
  unfold lock_entry. rewrite bind_bind. destruct (q_entries q !! i) as [e|] eqn:He.
  2:{ unfold entry_at, prog_bind, the_queue. cbn. by rewrite He. }
  s_step. destruct (u_lock e); [|done]. unfold markPartAvailable. repeat s_step. cbn.
  eapply ok_alter; [done|done|cbn; by rewrite alter_alter|done|].
  eapply (entry_ok_same (set_u_finished e)); [apply entry_ok_finished; [by eapply Hk|by apply (proj2 Hq i)]|by split_and!|done..].
Qed.

Lemma ok_onClose k q : ok q → in_order q (EFinish k) = true → wlp (run_onClose k) q (λ _, ok).
Proof.
  intros Hq Hord. unfold run_onClose. apply ok_writer_at. intros m Hm. cbn in Hord. unfold entry_of in Hord. rewrite Hm in Hord. cbn in Hord.
  destruct (mw_closes_pending m); [done|]. destruct (q_entries q !! mw_entry m) as [e0|] eqn:He0.
  2:{ unfold wlp, update_writer. s_step. unfold entry_at, prog_bind, the_queue. cbn. by rewrite He0. }
  unfold wlp, update_writer. repeat s_step.
  match goal with |- context [set_q_writers ?l q] => set (q1 := set_q_writers l q) end.
  apply wlp_bind. eapply wlp_mono; [apply (ok_finish (u_name e0) q1)|done]; [by eapply ok_same_entries|].
  intros i e Hi He. change (q_queue q !! u_name e0 = Some i) in Hi. change (q_entries q !! i = Some e) in He.
  cbn in Hord. rewrite Hi in Hord. cbn in Hord. rewrite He in Hord. by apply negb_true_iff in Hord.
Qed.

Lemma ok_event ev q : ok q → in_order q ev = true → wlp (event_run ev) q (λ _, ok).
Proof.
  intros Hq Hord. destruct ev; cbn [event_run].
  - apply wlp_bind. eapply wlp_mono; [by apply ok_OpenWriter|done].
  - apply wlp_bind. eapply wlp_mono; [by apply ok_writes|done].
  - by apply ok_SetMetadata.
  - apply wlp_bind. eapply wlp_mono; [by apply ok_Close|done].
  - by apply ok_onPart.
  - by apply ok_onClose.
  - by apply step_ok.
  - cbn. by eapply ok_same_entries.
Qed.

Lemma ok_events evs q : ok q → orderly q evs = true → wlp (events_run evs) q (λ _, ok).
Proof.
  revert q. induction evs as [|ev evs IH]; intros q Hq; [done|]. cbn. intros [Hord Hrest]%andb_true_iff.
  pose proof (ok_event ev q Hq Hord) as H. apply wlp_bind. unfold wlp in *. destruct (event_run ev q) as [[[] q']| |]; [|done..]. by apply IH.
Qed.

Lemma ok_recover name content q : ok q → wlp (recover lib name content) q (λ _, ok).
Proof.
  intros Hq. unfold recover. destruct (st_file _ _ _ _); [done|]. destruct (abortMultiPartUpload _ _ _) as [calls [err|]]; [done|].
  apply wlp_bind. eapply wlp_mono; [apply ok_store_entry; [done|apply entry_ok_new]|]. intros i q1 H1.
  apply wlp_bind. eapply wlp_mono; [by apply ok_mark|]. intros [] q2 H2. by apply ok_upload.
Qed.

Lemma ok_recover_all files q : ok q → wlp (recover_all lib files) q (λ _, ok).
Proof.
  revert q. induction files as [|f files IH]; intros q Hq; [done|]. cbn. destruct (left_behind f); [|by apply IH].
  apply wlp_bind. eapply wlp_mono; [by apply ok_recover|]. intros [err|] q1 H1; [done|]. by apply IH.
Qed.
End runs.

Section storages.
Context (lib : StorageLibrary) (file_of : string → string).

Lemma newUploadQueue_partSize ps n mu mi : minPartSize ≤ q_partSize (newUploadQueue ps n mu mi) ≤ maxPartSize.
Proof. unfold newUploadQueue, minPartSize, maxPartSize. cbn. repeat case_decide; lia. Qed.

Lemma ok_newUploadQueue ps n mu mi : storage_ok lib (q_partSize (newUploadQueue ps n mu mi)) (newUploadQueue ps n mu mi).
Proof. split; [done|]. intros i e H. cbn in H. by rewrite lookup_nil in H. Qed.

(** What holds of a storage that [NewStorage] has made, in every orderly run. *)
Lemma storage_invariant files pem session stat walk cfg w0 q0 evs q :
  rejects_empty lib →
  s3_NewStorage (W := uploadQueue) lib files pem session stat walk cfg w0 = Done (None, q0) →
  orderly lib file_of q0 evs = true → events_run lib file_of evs q0 = Done (tt, q) →
  ∃ P, minPartSize ≤ P ≤ maxPartSize ∧ storage_ok lib P q.
Proof.
  intros Hempty Hnew Hord Hrun. unfold s3_NewStorage in Hnew.
  destruct (AuditLogS3Config_Validate files cfg); [done|]. destruct (getHTTPClient pem cfg); [done|]. destruct session; [done|].
  rewrite s_bind_update_queue in Hnew. destruct stat; [done|].
  pose proof (newUploadQueue_partSize (s3_UploadPartSize cfg) (s3_ParallelUploads cfg) (s3_Metadata_Username cfg) (s3_Metadata_IP cfg)) as HP.
  set (q1 := newUploadQueue _ _ _ _) in *. exists (q_partSize q1). split; [done|].
  assert (storage_ok lib (q_partSize q1) q0) as H0.
  { exact (wlp_done _ _ _ _ _ (ok_recover_all lib (q_partSize q1) walk q1 (ok_newUploadQueue _ _ _ _)) Hnew). }
  assert (0 < q_partSize q1) as HP0 by (unfold minPartSize in HP; lia).
  exact (wlp_done _ _ _ _ _ (ok_events lib file_of (q_partSize q1) HP0 Hempty evs q0 H0 Hord) Hrun).
Qed.

(** Claim C20. Whatever the object store and the operating system answer: while things happen
    in order, the local file of an audit log is only removed when the log is
    finished and the object store holds all that has been written to it. *)
Theorem no_log_is_lost files pem session stat walk cfg w0 q0 evs q i e :
  rejects_empty lib →
  s3_NewStorage (W := uploadQueue) lib files pem session stat walk cfg w0 = Done (None, q0) →
  orderly lib file_of q0 evs = true → events_run lib file_of evs q0 = Done (tt, q) →
  q_entries q !! i = Some e → u_exists e = false →
  u_finished e = true ∧ so_object (stored lib (u_name e) (u_calls e)) = Some (u_content e).
Proof.
  intros Hempty Hnew Hord Hrun He Hx.
  destruct (storage_invariant _ _ _ _ _ _ _ _ _ _ Hempty Hnew Hord Hrun) as (P & _ & _ & Hq).
  destruct (eo_removed _ _ _ (Hq _ _ He) Hx) as (Hf & Ho & _). done.
Qed.
End storages.

(** ** Rounds of the loop *)

Section rounds.
Context (lib : StorageLibrary) (file_of : string → string) (i : nat).
Abbreviation W := uploadQueue.
Abbreviation step := (upload_step (W := W) lib file_of i).

Fixpoint run_steps (n : nat) : prog W unit := match n with 0%nat => prog_ret tt | S n => do* step in run_steps n end.

(** The entry is replaced. *)
Definition put_entry (e : queueEntry) (q : uploadQueue) : uploadQueue := set_q_entries (<[i := e]> (q_entries q)) q.

Lemma put_lookup e0 e q : q_entries q !! i = Some e0 → q_entries (put_entry e q) !! i = Some e.
Proof. intros H. apply list_lookup_insert_eq. by eapply lookup_lt_Some. Qed.
Lemma put_put e e' q : put_entry e' (put_entry e q) = put_entry e' q.
Proof. unfold put_entry, set_q_entries. cbn. by rewrite list_insert_insert_eq. Qed.
Lemma alter_put e f q : q_entries q !! i = Some e → set_q_entries (alter f i (q_entries q)) q = put_entry (f e) q.
Proof. intros H. unfold put_entry. by rewrite (alter_is_insert _ _ _ _ H). Qed.

Lemma run_steps_S n q q' : step q = Done (tt, q') → run_steps (S n) q = run_steps n q'.
Proof. intros H. cbn. unfold prog_bind. by rewrite H. Qed.
Lemma run_steps_add n m q q' : run_steps n q = Done (tt, q') → run_steps (n + m) q = run_steps m q'.
Proof.
  revert q. induction n as [|n IH]; intros q; [by intros [= ->]|]. cbn. unfold prog_bind. destruct (step q) as [[[] q1]| |]; [apply IH|done..].
Qed.

Lemma removes_done e1 name q1 :
  q_entries q1 !! i = Some e1 → (∀ h c, c = ReadHandleClose ∨ c = FileRemove → st_file lib (u_name e1) h c = None) → q_wg q1 > 0 →
  ∃ q' e', removes lib file_of i name q1 = Done (tt, q') ∧ q_entries q' !! i = Some e' ∧ u_exists e' = false ∧
    u_name e' = u_name e1 ∧ u_content e' = u_content e1 ∧ stored lib (u_name e1) (u_calls e') = stored lib (u_name e1) (u_calls e1).
Proof.
  intros He Hfile Hwg. unfold removes, remove_entry, os_call. repeat s_step. rewrite Hfile by tauto. repeat s_step. cbn [u_name set_u_calls].
  rewrite Hfile by tauto. repeat s_step.
  destruct (st_file lib _ _ MetadataStat); repeat s_step; unfold release, loop_ends, go_to; repeat s_step; cbn.
  all: rewrite decide_False by lia; rewrite !alter_alter; do 2 eexists; split; [reflexivity|]; cbn; rewrite list_lookup_alter_eq, He; cbn.
  all: split_and!; [done..|]; cbn -[stored]; by rewrite !stored_local.
Qed.

Context (q : uploadQueue) (e : queueEntry) (He : q_entries q !! i = Some e).

Ltac s_put :=
  unfold go_to, update_entry, update_queue, put_entry, set_q_entries; cbn;
  rewrite ?alter_alter, (alter_is_insert _ _ _ _ He); try reflexivity.

Lemma step_LoopTop : u_phase e = LoopTop → q_shutdownContext q ≠ Some true → u_failures e ≤ 3 → step q = Done (tt, put_entry (set_u_phase Waiting e) q).
Proof.
  intros Hph Hs Hf. unfold upload_step. s_step. s_step. rewrite Hph. unfold processShouldAbort. rewrite bind_bind. s_step. rewrite bind_bind. s_step.
  rewrite decide_False by done. rewrite decide_False by lia. rewrite decide_False by (intros [? _]; lia). s_step. s_put.
Qed.

Lemma step_Waiting : u_phase e = Waiting → u_partAvailable e = true → step q = Done (tt, put_entry (set_u_phase Acquiring (set_u_available false e)) q).
Proof.
  intros Hph Ha. unfold upload_step. s_step. s_step. rewrite Hph. unfold waitPartAvailable. repeat s_step. rewrite Ha. repeat s_step. s_put.
Qed.

Lemma step_Acquiring : u_phase e = Acquiring → q_workerSem q < q_parallelUploads q →
  step q = Done (tt, put_entry (set_u_phase Statting e) (set_q_workerSem (q_workerSem q + 1) q)).
Proof.
  intros Hph Hs. unfold upload_step. s_step. s_step. rewrite Hph, decide_True by done. repeat s_step. s_put.
Qed.

Lemma step_Statting : u_phase e = Statting →
  step q = Done (tt, put_entry (set_u_phase match st_file lib (u_name e) (u_calls e) FileStat with
                                      | None => Uploading (Z.of_nat (length (u_content e)))
                                      | Some _ => RoundEnd true
                                      end (set_u_calls (u_calls e ++ [FileStat]) e)) q).
Proof.
  intros Hph. unfold upload_step, os_call. s_step. s_step. rewrite Hph. repeat s_step. s_put.
Qed.

Lemma step_RoundEnd failed : u_phase e = RoundEnd failed → u_lock e = true →
  step q = Done (tt, put_entry (set_u_phase LoopTop (set_u_failures (if failed then u_failures e + 1 else 0)
                       (if failed || u_finished e then set_u_available true e else e))) (set_q_workerSem (q_workerSem q - 1) q)).
Proof.
  intros Hph Hl. unfold upload_step, release, lock_entry, markPartAvailable. s_step. s_step. rewrite Hph. repeat s_step. rewrite Hl.
  destruct (failed || u_finished e); repeat s_step; s_put.
Qed.

(** Without a mutex the process stops. *)
Lemma step_RoundEnd_unlockable failed : u_phase e = RoundEnd failed → u_lock e = false → step q = Panic nil_pointer.
Proof.
  intros Hph Hl. unfold upload_step, release, lock_entry. s_step. s_step. rewrite Hph. repeat s_step. by rewrite Hl.
Qed.

(** A finished log of which nothing has been uploaded. *)
Lemma step_single size : u_phase e = Uploading size → u_finished e = true → u_uploadedBytes e = 0 →
  ∃ failed e', step q = Done (tt, put_entry (set_u_phase (RoundEnd failed) e') q) ∧ u_lock e' = u_lock e ∧
    (st_file lib (u_name e) (u_calls e) FileStat = None →
     let c := PutObject (u_content e) (ToMap (u_metadata e) (q_metadataUsername q) (q_metadataIP q)) in
     let e1 := set_u_calls (u_calls e ++ [FileStat; c])%list e in
     ∀ answer, st_s3 lib (u_name e) (u_calls e ++ [FileStat]) c = inl answer →
     failed = false ∧ e' = set_u_uploaded (Z.of_nat (length (u_content e))) (u_completedParts e) e1).
Proof.
  intros Hph Hf Hu. unfold upload_step. s_step. s_step. rewrite Hph. unfold processUpload. s_step. s_step. rewrite decide_True by done.
  unfold processSingleUpload, os_call, s3_ask. repeat s_step. destruct (st_file _ _ _ _) eqn:Hs; repeat s_step.
  - s_put. eexists true, _. split_and!; [reflexivity|done..].
  - cbn [u_name u_calls set_u_calls]. destruct (st_s3 _ _ _ _) as [answer|err] eqn:Ha; repeat s_step; s_put.
    + eexists false, _. split_and!; [reflexivity|done|]. intros _ answer' _. split; [done|]. rewrite Hu, <- app_assoc. done.
    + eexists true, _. split_and!; [reflexivity|done|]. intros _ answer'. congruence.
Qed.

(** The rest of a finished log. *)
Lemma step_part size uploadID :
  u_phase e = Uploading size → u_finished e = true → u_uploadedBytes e ≠ 0 → u_uploadedBytes e < size → u_uploadID e = Some uploadID →
  step q = Done (tt, put_entry (set_u_phase (PartUpload size) e) q).
Proof.
  intros Hph Hf Hu Hlt Hid. unfold upload_step. s_step. s_step. rewrite Hph. unfold processUpload. s_step. s_step.
  rewrite decide_False by tauto. rewrite decide_True by (left; split; [done|lia]). rewrite Hid. s_put.
Qed.

Lemma step_part_upload size uploadID answer :
  let n := u_uploadedBytes e `quot` q_partSize q in
  let b := part_end (q_partSize q) size (u_uploadedBytes e) (u_finished e) in
  let c := UploadPart uploadID n (section (u_content e) (n * q_partSize q) b) in
  u_phase e = PartUpload size → u_uploadID e = Some uploadID → st_s3 lib (u_name e) (u_calls e) c = inl answer →
  step q = Done (tt, put_entry (set_u_phase (RoundEnd false)
    (set_u_uploaded (u_uploadedBytes e + (b - n * q_partSize q)) (u_completedParts e ++ [(answer, n)]) (set_u_calls (u_calls e ++ [c]) e))) q).
Proof.
  cbn zeta. intros Hph Hid Ha. unfold upload_step. s_step. s_step. rewrite Hph, Hid. unfold doMultipartUpload, s3_ask. repeat s_step.
  fold_part_end (q_partSize q) e size. rewrite Ha. repeat s_step. s_put.
Qed.

Lemma step_complete size :
  u_phase e = Uploading size → u_finished e = true → u_uploadedBytes e ≠ 0 → u_uploadedBytes e = size → q_wg q > 0 → 0 < q_partSize q →
  (∀ uploadID, u_uploadID e = Some uploadID →
    ∃ answer, st_s3 lib (u_name e) (u_calls e) (CompleteMultipartUpload uploadID (u_completedParts e)) = inl answer) →
  (∀ h c, c = ReadHandleClose ∨ c = FileRemove → st_file lib (u_name e) h c = None) →
  ∃ q' e', step q = Done (tt, q') ∧ q_entries q' !! i = Some e' ∧ u_exists e' = false ∧ u_name e' = u_name e ∧ u_content e' = u_content e ∧
    stored lib (u_name e) (u_calls e') = stored lib (u_name e) (u_calls e ++ match u_uploadID e with
                                                                       | Some uploadID => [CompleteMultipartUpload uploadID (u_completedParts e)]
                                                                       | None => []
                                                                       end).
Proof.
  intros Hph Hf Hu Hsize Hwg HP Hc Hfile. unfold upload_step. s_step. s_step. rewrite Hph. unfold processUpload. s_step. s_step.
  rewrite decide_False by tauto. rewrite decide_False by (intros [[_ ?]|?]; lia). rewrite decide_True by (split; [done|lia]).
  destruct (u_uploadID e) as [id|] eqn:Hid.
  - destruct (Hc id eq_refl) as [answer Ha]. unfold s3_ask. repeat s_step. rewrite Ha. repeat s_step.
    destruct (removes_done (set_u_calls (u_calls e ++ [CompleteMultipartUpload id (u_completedParts e)]) e) (u_name e)
      (set_q_entries (alter (set_u_calls (u_calls e ++ [CompleteMultipartUpload id (u_completedParts e)])) i (q_entries q)) q)) as (q' & e' & Hr); [by s_find|done..|].
    by exists q', e'.
  - repeat s_step. destruct (removes_done e (u_name e) q He Hfile Hwg) as (q' & e' & Hr). rewrite app_nil_r. by exists q', e'.
Qed.
End rounds.

Section logs.
Context (lib : StorageLibrary) (file_of : string → string).
Abbreviation W := uploadQueue.

Lemma run_steps_panic n i q why : upload_step (W := W) lib file_of i q = Panic why → run_steps lib file_of i (S n) q = Panic why.
Proof. intros H. cbn. unfold prog_bind. by rewrite H. Qed.

(** From the top of the loop to the question for the size. *)
Lemma run_to_size i q e :
  q_entries q !! i = Some e → u_phase e = LoopTop → q_shutdownContext q ≠ Some true → u_failures e ≤ 3 → u_partAvailable e = true →
  q_workerSem q < q_parallelUploads q →
  run_steps lib file_of i 4 q =
    Done (tt, put_entry i (set_u_phase match st_file lib (u_name e) (u_calls e) FileStat with
                                 | None => Uploading (Z.of_nat (length (u_content e)))
                                 | Some _ => RoundEnd true
                                 end (set_u_calls (u_calls e ++ [FileStat]) (set_u_available false e)))
                (set_q_workerSem (q_workerSem q + 1) q)).
Proof.
  intros He Hph Hs Hf Ha Hw.
  rewrite (run_steps_S _ _ _ _ _ _ (step_LoopTop _ _ _ _ _ He Hph Hs Hf)).
  erewrite run_steps_S by (eapply step_Waiting; [by eapply put_lookup|done|done]). rewrite put_put.
  erewrite run_steps_S by (eapply step_Acquiring; [by eapply put_lookup|done|done]).
  erewrite run_steps_S by (eapply step_Statting; [eapply put_lookup; cbn; by apply (put_lookup i e)|done]).
  cbn. unfold put_entry. cbn. rewrite !list_insert_insert_eq. done.
Qed.

Definition recovered_entry (name : string) (calls : list storage_call) (content : list byte) (m : queueEntryMetadata) : queueEntry :=
  set_u_available true (new_entry name calls content true m false).

Lemma recover_run name content q q1 :
  recover (W := W) lib name content q = Done (None, q1) →
  (∃ calls m, q_entries q1 = q_entries q ++ [recovered_entry name calls content m]) ∧ q_workerSem q1 = q_workerSem q ∧
  q_parallelUploads q1 = q_parallelUploads q ∧ q_shutdownContext q1 = q_shutdownContext q.
Proof.
  unfold recover. destruct (st_file _ _ _ _); [done|]. destruct (abortMultiPartUpload _ _ _) as [calls [err|]]; [done|].
  unfold store_entry, markPartAvailable, upload. rewrite bind_bind. repeat s_step. cbn. rewrite lookup_insert_eq. cbn. intros [= <-]. cbn.
  split; [|done]. do 2 eexists. 
  rewrite <- (Nat.add_0_r (length (q_entries q))), alter_app_r. cbn. done.
Qed.

(** Claim C26. A log that an earlier run has left is taken up without a mutex: whatever the
    object store and the operating system answer, its loop stops the process at the
    end of its first round. *)
Theorem recovered_log_stops_the_server name content q q1 :
  recover (W := W) lib name content q = Done (None, q1) → q_workerSem q < q_parallelUploads q → q_shutdownContext q ≠ Some true →
  run_steps lib file_of (length (q_entries q)) 6 q1 = Panic nil_pointer.
Proof.
  intros Hr Hw Hs. destruct (recover_run _ _ _ _ Hr) as ((calls & m & He) & Hsem & Hpar & Hsh).
  assert (q_entries q1 !! length (q_entries q) = Some (recovered_entry name calls content m)) as Hi by (rewrite He; by apply list_lookup_middle).
  change 6%nat with (4 + 2)%nat. erewrite run_steps_add by (apply run_to_size with (1 := Hi); [done|congruence|done|done|congruence]).
  set (e1 := set_u_phase _ _). set (q2 := put_entry _ _ _). assert (q_entries q2 !! length (q_entries q) = Some e1) as Hi2.
  { subst q2. exact (put_lookup _ _ _ (set_q_workerSem _ q1) Hi). }
  destruct (st_file _ _ _ FileStat) as [err|] eqn:Hst.
  - apply run_steps_panic. by apply step_RoundEnd_unlockable with (e := e1) (failed := true).
  - destruct (step_single lib file_of _ q2 e1 Hi2 _ eq_refl eq_refl eq_refl) as (failed & e' & Hstep & Hlock & _).
    rewrite (run_steps_S _ _ _ _ _ _ Hstep). apply run_steps_panic.
    apply step_RoundEnd_unlockable with (e := set_u_phase (RoundEnd failed) e') (failed := failed); [by apply (put_lookup _ _ _ _ Hi2)|done|exact Hlock].
Qed.

(** *** When everything is answered well *)

(** The file can be read and removed, and the object store takes everything but an
    upload without parts. *)
Record accepts (name : string) : Prop := {
  ac_file : ∀ h c, c = FileStat ∨ c = ReadHandleClose ∨ c = FileRemove → st_file lib name h c = None;
  ac_s3 : ∀ h c, (∀ uploadID, c ≠ CompleteMultipartUpload uploadID []) → ∃ answer, st_s3 lib name h c = inl answer;
}.

(** The loop of a finished log that nothing keeps from going on. *)
Record going_on (i : nat) (q : uploadQueue) (e : queueEntry) : Prop := {
  go_entry : q_entries q !! i = Some e;
  go_top : u_phase e = LoopTop;
  go_finished : u_finished e = true;
  go_available : u_partAvailable e = true;
  go_lock : u_lock e = true;
  go_failures : u_failures e ≤ 3;
  go_shutdown : q_shutdownContext q ≠ Some true;
  go_worker : q_workerSem q < q_parallelUploads q;
}.

Lemma put_sem i e q n : put_entry i e (set_q_workerSem n q) = set_q_workerSem n (put_entry i e q).
Proof. done. Qed.
Lemma set_sem_twice n m q : set_q_workerSem n (set_q_workerSem m q) = set_q_workerSem n q.
Proof. done. Qed.
Lemma set_sem_same n q : n = q_workerSem q → set_q_workerSem n q = q.
Proof. intros ->. by destruct q. Qed.

(** The end of a round without an error. *)
Definition next_round (e : queueEntry) : queueEntry := set_u_phase LoopTop (set_u_failures 0 (set_u_available true e)).

Lemma run_end i q e n :
  q_entries q !! i = Some e → u_phase e = RoundEnd false → u_lock e = true → u_finished e = true →
  run_steps lib file_of i (S n) q = run_steps lib file_of i n (put_entry i (next_round e) (set_q_workerSem (q_workerSem q - 1) q)).
Proof.
  intros He Hph Hl Hf. erewrite run_steps_S by (eapply step_RoundEnd; done). by rewrite Hf.
Qed.

Lemma run_round i q e e1 :
  going_on i q e → st_file lib (u_name e) (u_calls e) FileStat = None → ∀ n,
  u_lock e1 = true → u_finished e1 = true → 
  (∀ sem, run_steps lib file_of i n (put_entry i (set_u_phase (Uploading (Z.of_nat (length (u_content e)))) (set_u_calls (u_calls e ++ [FileStat]) (set_u_available false e))) (set_q_workerSem sem q)) =
    Done (tt, put_entry i (set_u_phase (RoundEnd false) e1) (set_q_workerSem sem q))) →
  run_steps lib file_of i (4 + (n + 1)) q = Done (tt, put_entry i (next_round e1) q).
Proof.
  intros [He Hph Hf Ha Hl Hfa Hs Hw] Hst n Hl1 Hf1 Hn.
  erewrite run_steps_add by (by eapply run_to_size). rewrite Hst. erewrite run_steps_add by apply Hn.
  erewrite run_end by first [by eapply (put_lookup i e _ (set_q_workerSem _ q))|done].
  cbn [run_steps]. unfold prog_ret. do 2 f_equal. rewrite !put_sem, !put_put, set_sem_twice. cbn. 
  apply set_sem_same. cbn. lia.
Qed.

Lemma round_single i q e :
  going_on i q e → accepts (u_name e) → u_uploadedBytes e = 0 →
  let c := PutObject (u_content e) (ToMap (u_metadata e) (q_metadataUsername q) (q_metadataIP q)) in
  run_steps lib file_of i 6 q =
    Done (tt, put_entry i (next_round (set_u_uploaded (Z.of_nat (length (u_content e))) (u_completedParts e)
                                   (set_u_calls (u_calls e ++ [FileStat; FileStat; c]) e))) q).
Proof.
  intros Hgo [Hfile Hs3] Hu. cbn zeta.
  change 6%nat with (4 + (1 + 1))%nat.
  erewrite (run_round i q e (set_u_uploaded (Z.of_nat (length (u_content e))) (u_completedParts e) (set_u_calls (u_calls e ++ [FileStat; FileStat; PutObject (u_content e) (ToMap (u_metadata e) (q_metadataUsername q) (q_metadataIP q))]) (set_u_available false e))) Hgo _ 1);
    [done|apply (go_lock _ _ _ Hgo)|apply (go_finished _ _ _ Hgo)|].
  intros sem. set (e1 := set_u_phase _ _). set (q1 := put_entry _ _ _).
  assert (q_entries q1 !! i = Some e1) as He1 by (subst q1; exact (put_lookup i e e1 (set_q_workerSem sem q) (go_entry _ _ _ Hgo))).
  destruct (step_single lib file_of i q1 e1 He1 _ eq_refl (go_finished _ _ _ Hgo) Hu) as (failed & e' & Hstep & _ & Hok).
  destruct (Hs3 (u_calls e1 ++ [FileStat]) (PutObject (u_content e1) (ToMap (u_metadata e1) (q_metadataUsername q1) (q_metadataIP q1)))) as [answer Ha]; [done|].
  destruct (Hok (Hfile _ _ ltac:(by left)) answer Ha) as [-> ->].
  rewrite (run_steps_S _ _ _ _ _ _ Hstep). cbn [run_steps]. unfold prog_ret. subst q1 e1. rewrite put_put. do 3 f_equal.
  cbn. rewrite <- app_assoc. done.
Unshelve. apply Hfile. by left.
Qed.

(** A finished log without content is uploaded again and again: its file stays and
    its loop does not end. *)
Theorem empty_log_is_uploaded_forever n i q e :
  going_on i q e → accepts (u_name e) → u_content e = [] → u_uploadedBytes e = 0 →
  let c := PutObject [] (ToMap (u_metadata e) (q_metadataUsername q) (q_metadataIP q)) in
  ∃ q' e', run_steps lib file_of i (n * 6) q = Done (tt, q') ∧ going_on i q' e' ∧ u_exists e' = u_exists e ∧
    u_calls e' = u_calls e ++ concat (replicate n [FileStat; FileStat; c]).
Proof.
  revert q e. induction n as [|n IH]; intros q e Hgo Hacc Hc Hu; cbn zeta.
  { exists q, e. by rewrite app_nil_r. }
  pose proof (round_single i q e Hgo Hacc Hu) as Hround. cbn zeta in Hround. rewrite Hc in Hround.
  set (e1 := next_round _) in Hround. set (q1 := put_entry i e1 q) in Hround.
  destruct (IH q1 e1) as (q' & e' & Hrun & Hgo' & Hx & Hcalls); [|done..|].
  { destruct Hgo. split; try done. by apply (put_lookup i e). }
  exists q', e'. split_and!; [|done|done|].
  - change (S n * 6)%nat with (6 + n * 6)%nat. by erewrite run_steps_add.
  - rewrite Hcalls. cbn [replicate concat]. rewrite app_assoc. done.
Qed.

(** *** A finished log reaches the object store *)

Lemma ok_run_steps P n i q : 0 < P → rejects_empty lib → storage_ok lib P q → wlp (run_steps lib file_of i n) q (λ _, storage_ok lib P).
Proof.
  intros HP Hr. revert q. induction n as [|n IH]; intros q Hq; [done|]. cbn. apply wlp_bind.
  eapply wlp_mono; [by apply (step_ok lib file_of P)|]. intros [] q' Hq'. by apply IH.
Qed.

Lemma run_completes i q e :
  going_on i q e → accepts (u_name e) → u_uploadedBytes e ≠ 0 → u_uploadedBytes e = Z.of_nat (length (u_content e)) →
  (u_uploadID e = None ∨ u_completedParts e ≠ []) → q_wg q > 0 → 0 < q_partSize q →
  ∃ q' e', run_steps lib file_of i 5 q = Done (tt, q') ∧ q_entries q' !! i = Some e' ∧ u_exists e' = false ∧
    u_name e' = u_name e ∧ u_content e' = u_content e.
Proof.
  intros [He Hph Hf Ha Hl Hfa Hs Hw] [Hfile Hs3] Hne Hu Hid Hwg HP.
  pose proof (run_to_size i q e He Hph Hs Hfa Ha Hw) as Hrun. rewrite (Hfile _ _ ltac:(by left)) in Hrun.
  set (e1 := set_u_phase _ _) in Hrun. set (q1 := put_entry _ _ _) in Hrun.
  assert (q_entries q1 !! i = Some e1) as He1 by exact (put_lookup i e e1 (set_q_workerSem _ q) He).
  destruct (step_complete lib file_of i q1 e1 He1 (Z.of_nat (length (u_content e)))) as (q' & e' & Hstep & Hr); try done.
  - intros uploadID HuID. apply Hs3. intros id [= -> Hp]. destruct Hid as [Hid|Hid]; [|done]. cbn in HuID. congruence.
  - intros h c Hc. apply Hfile. tauto.
  - exists q', e'. destruct Hr as (Hr1 & Hr2 & Hr3 & Hr4 & _). split; [|done].
    change 5%nat with (4 + 1)%nat. erewrite run_steps_add by exact Hrun. by erewrite run_steps_S.
Qed.

Lemma round_part P i q e uploadID :
  0 < P → storage_ok lib P q → going_on i q e → accepts (u_name e) → u_uploadedBytes e ≠ 0 → u_uploadID e = Some uploadID →
  u_uploadedBytes e < Z.of_nat (length (u_content e)) →
  ∃ e', run_steps lib file_of i 7 q = Done (tt, put_entry i e' q) ∧ going_on i (put_entry i e' q) e' ∧ u_name e' = u_name e ∧ u_content e' = u_content e ∧
    u_uploadID e' = Some uploadID ∧ u_completedParts e' ≠ [] ∧
    let b := part_end P (Z.of_nat (length (u_content e))) (u_uploadedBytes e) true in
    u_uploadedBytes e' = u_uploadedBytes e + (b - u_uploadedBytes e `quot` P * P).
Proof.
  intros HP [HPq _] Hgo Hacc Hne Hid Hlt. set (size := Z.of_nat (length (u_content e))) in *.
  pose proof (go_finished _ _ _ Hgo) as Hf. pose proof (go_entry _ _ _ Hgo) as He. destruct Hacc as [Hfile Hs3].
  set (e0 := set_u_calls (u_calls e ++ [FileStat]) (set_u_available false e)).
  set (n := u_uploadedBytes e `quot` P). set (b := part_end P size (u_uploadedBytes e) true).
  set (c := UploadPart uploadID n (section (u_content e) (n * P) b)).
  destruct (Hs3 (u_calls e0) c) as [answer Ha]; [done|].
  set (e1 := set_u_uploaded (u_uploadedBytes e + (b - n * P)) (u_completedParts e ++ [(answer, n)]) (set_u_calls (u_calls e0 ++ [c]) e0)).
  exists (next_round e1). split.
  - change 7%nat with (4 + (2 + 1))%nat. apply run_round with (e := e); [done|apply Hfile; tauto|apply (go_lock _ _ _ Hgo)|done|].
    intros sem. set (q1 := put_entry _ _ _). assert (q_entries q1 !! i = Some (set_u_phase (Uploading size) e0)) as He1
      by exact (put_lookup i e _ (set_q_workerSem sem q) He).
    rewrite (run_steps_S _ _ _ _ _ _ (step_part lib file_of i q1 _ He1 size uploadID eq_refl Hf Hne Hlt Hid)). subst q1. rewrite put_put.
    set (q1 := put_entry _ _ _). assert (q_entries q1 !! i = Some (set_u_phase (PartUpload size) e0)) as He2
      by exact (put_lookup i e _ (set_q_workerSem sem q) He).
    erewrite run_steps_S; [|apply (step_part_upload lib file_of i q1 _ He2 size uploadID answer); [done|done|]].
    + cbn [run_steps]. unfold prog_ret. subst q1. rewrite put_put. cbn. rewrite HPq, Hf. done.
    + cbn. rewrite HPq, Hf. exact Ha.
  - destruct Hgo. split_and!; try done.
    + split; try done. by apply (put_lookup i e).
    + cbn. by destruct (u_completedParts e).
Qed.

Lemma run_parts P i k q e :
  0 < P → rejects_empty lib → storage_ok lib P q → going_on i q e → accepts (u_name e) → u_uploadedBytes e ≠ 0 →
  (u_uploadID e = None ∨ u_completedParts e ≠ []) → Z.of_nat (length (u_content e)) - u_uploadedBytes e ≤ P * Z.of_nat k → q_wg q > 0 →
  ∃ n q' e', (n ≤ 7 * k + 5)%nat ∧ run_steps lib file_of i n q = Done (tt, q') ∧ q_entries q' !! i = Some e' ∧ u_exists e' = false ∧
    u_name e' = u_name e ∧ u_content e' = u_content e.
Proof.
  intros HP Hempty. revert q e. induction k as [|k IH]; intros q e Hq Hgo Hacc Hne Hid Hk Hwg.
  all: pose proof (eo_progress _ _ _ (proj2 Hq _ _ (go_entry _ _ _ Hgo))) as Hp.
  all: destruct (decide (u_uploadedBytes e = Z.of_nat (length (u_content e)))) as [Hu|Hu];
    [destruct (run_completes i q e Hgo Hacc Hne Hu Hid Hwg ltac:(by rewrite (proj1 Hq))) as (q' & e' & Hr); exists 5%nat, q', e'; split; [lia|done]|].
  all: destruct Hp as [H1 _|uploadID bodies H1 H2 H3 H4 H5 H6 H7|_ _ H1 _]; [done| |done].
  { lia. }
  destruct H7 as [H7|[_ H7]]; [|done]. set (m := Z.of_nat (length (u_completedParts e))) in *.
  assert (u_uploadedBytes e < Z.of_nat (length (u_content e))) as Hlt by lia.
  destruct (part_end_bounds P (Z.of_nat (length (u_content e))) m true) as (Hquot & Hend & Hfull); [done|lia|lia|done|].
  destruct (round_part P i q e uploadID HP Hq Hgo Hacc Hne H1 Hlt) as (e1 & Hrun & Hgo1 & Hn1 & Hc1 & Hid1 & Hp1 & Hu1).
  cbn zeta in Hu1. rewrite H7, Hquot in Hu1.
  assert (storage_ok lib P (put_entry i e1 q)) as Hq1 by exact (wlp_done _ _ _ _ _ (ok_run_steps P 7 i q HP Hempty Hq) Hrun).
  destruct (IH (put_entry i e1 q) e1) as (n & q' & e' & Hn & Hrun' & He' & Hx & Hname & Hcont); [done|done|by rewrite Hn1|lia|by right| |done|].
  { rewrite Hc1, Hu1. destruct Hfull as [Hfull|[_ Hfull]]; rewrite Hfull; lia. }
  exists (7 + n)%nat, q', e'. split_and!; [lia| |done|done|congruence|congruence]. by erewrite run_steps_add.
Qed.

(** Claim C21. A finished log that is not empty is in the object store as a whole and removed
    after so many steps of its loop, if nothing is refused; [k]: the number of parts
    that are left. *)
Theorem finished_log_is_stored P i k q e :
  0 < P → rejects_empty lib → storage_ok lib P q → going_on i q e → accepts (u_name e) → u_content e ≠ [] →
  (u_uploadID e = None ∨ u_completedParts e ≠ []) → Z.of_nat (length (u_content e)) - u_uploadedBytes e ≤ P * Z.of_nat k → q_wg q > 0 →
  ∃ n q' e', (n ≤ 7 * k + 11)%nat ∧ run_steps lib file_of i n q = Done (tt, q') ∧ q_entries q' !! i = Some e' ∧ u_exists e' = false ∧
    so_object (stored lib (u_name e) (u_calls e')) = Some (u_content e).
Proof.
  intros HP Hempty Hq Hgo Hacc Hne Hid Hk Hwg.
  assert (∃ n q' e', (n ≤ 7 * k + 11)%nat ∧ run_steps lib file_of i n q = Done (tt, q') ∧ q_entries q' !! i = Some e' ∧ u_exists e' = false ∧
    u_name e' = u_name e ∧ u_content e' = u_content e) as (n & q' & e' & Hn & Hrun & He' & Hx & Hname & Hcont).
  { destruct (decide (u_uploadedBytes e = 0)) as [Hu|Hu].
    2:{ destruct (run_parts P i k q e HP Hempty Hq Hgo Hacc Hu Hid Hk Hwg) as (n & q' & e' & Hn & Hr). exists n, q', e'. split; [lia|done]. }
    pose proof (round_single i q e Hgo Hacc Hu) as Hrun. cbn zeta in Hrun. set (e1 := next_round _) in Hrun. set (q1 := put_entry i e1 q) in Hrun.
    assert (storage_ok lib P q1) as Hq1 by exact (wlp_done _ _ _ _ _ (ok_run_steps P 6 i q HP Hempty Hq) Hrun).
    assert (going_on i q1 e1) as Hgo1 by (destruct Hgo; split; try done; by apply (put_lookup i e)).
    destruct (run_parts P i 0 q1 e1) as (n & q' & e' & Hn & Hrun' & Hr); try done.
    - cbn. destruct (u_content e); [done|]. cbn. lia.
    - cbn. lia.
    - exists (6 + n)%nat, q', e'. split; [lia|]. split; [by erewrite run_steps_add|done]. }
  exists n, q', e'. split_and!; try done.
  pose proof (wlp_done _ _ _ _ _ (ok_run_steps P n i q HP Hempty Hq) Hrun) as [_ Hok].
  destruct (eo_removed _ _ _ (Hok _ _ He') Hx) as (_ & Ho & _). by rewrite <- Hname, <- Hcont.
Qed.

(** A log that is finished between the question for its size and the upload may lose
    its end: what has been written in between is removed with the local file. *)
Theorem late_finish_loses_the_end P i q e size uploadID answer :
  0 < P → storage_ok lib P q → q_entries q !! i = Some e → u_phase e = Uploading size → u_uploadID e = Some uploadID →
  u_lock e = true → u_finished e = false → u_uploadedBytes e = size → size ≠ 0 → q_queue q !! u_name e = Some i → q_wg q > 0 →
  (∀ h c, c = ReadHandleClose ∨ c = FileRemove → st_file lib (u_name e) h c = None) →
  st_s3 lib (u_name e) (u_calls e) (CompleteMultipartUpload uploadID (u_completedParts e)) = inl answer →
  ∃ q' e', (let* _ := finish (u_name e) in upload_step lib file_of i) q = Done (tt, q') ∧ q_entries q' !! i = Some e' ∧ u_exists e' = false ∧
    u_content e' = u_content e ∧ so_object (stored lib (u_name e) (u_calls e')) = Some (take (Z.to_nat size) (u_content e)).
Proof.
  intros HP Hq He Hph Hid Hl Hf Hu Hne Hname Hwg Hfile Ha. set (e1 := set_u_available true (set_u_finished e)).
  assert (prog_bind (λ _, upload_step lib file_of i) (finish (u_name e)) q = upload_step lib file_of i (put_entry i e1 q)) as ->.
  { unfold finish, lock_entry, markPartAvailable. repeat s_step. rewrite Hname. repeat s_step. rewrite Hl. repeat s_step.
    unfold put_entry. cbn. by rewrite alter_alter, (alter_is_insert _ _ _ _ He). }
  assert (q_entries (put_entry i e1 q) !! i = Some e1) as He1 by by apply (put_lookup i e).
  destruct (step_complete lib file_of i (put_entry i e1 q) e1 He1 size) as (q' & e' & Hstep & He' & Hx & _ & Hcont & Hst); try done.
  { cbn. congruence. }
  { cbn. by rewrite (proj1 Hq). }
  { cbn. intros id Hid'. assert (id = uploadID) as -> by congruence. by exists answer. }
  exists q', e'. split_and!; try done. change (u_name e) with (u_name e1). rewrite Hst. cbn -[stored]. rewrite Hid, stored_snoc. unfold apply_call. rewrite Ha. cbn.
  destruct (eo_progress _ _ _ (proj2 Hq _ _ He)) as [H1 _|id bodies H1 H2 H3 H4 H5 H6 H7|H1 _ _ _]; [congruence| |congruence].
  assert (id = uploadID) as -> by congruence. rewrite H3. cbn. by rewrite H5, Hu.
Qed.
End logs.

(** ** A storage at work *)
Module storage_demo.
Definition files : Library :=
  MkLibrary (λ _, inl true) (λ _, inr (ErrorString "no such file")) (λ _, None) (λ _, None) (λ _, None) (λ _ _, None)
    (λ _, true) None (λ _ _, None) (λ _, "0s").
Definition cfg : AuditLogS3Config :=
  MkAuditLogS3Config "/var/audit" "key" "secret" "logs" "" "" "" "" false 5242880 20 true true.

(** A store that refuses what has no content and takes everything else. *)
Definition answer (c : storage_call) : string + error :=
  match c with CompleteMultipartUpload _ [] => inr (ErrorString "MalformedXML") | _ => inl "tag" end.
Definition lib : StorageLibrary :=
  MkStorageLibrary (λ _ _ c, match c with MetadataStat => Some (ErrorString "not found") | _ => None end) (λ _ _ c, answer c)
    (λ _ _, inl []) (λ _ _, None) (λ _ _ _, 0%nat).
Definition file_of (name : string) : string := "/var/audit/" ++ name.

Definition written : list byte := [x68; x69].
Definition evs : list storage_event :=
  [EOpen "log"; EMetadata 0 0 "127.0.0.1" "XX" (Some "foo"); EStep 0; EWrite 0 written; EClose 0; EFinish 0] ++ repeat (EStep 0) 10.

Definition start : outcome (option error * uploadQueue) :=
  s3_NewStorage (W := uploadQueue) lib files (λ _, true) None None [] cfg (newUploadQueue 0 0 false false).
Definition q0 : uploadQueue := match start with Done (_, q) => q | _ => newUploadQueue 0 0 false false end.
Definition q : uploadQueue := match events_run lib file_of evs q0 with Done (_, q) => q | _ => q0 end.
Definition e : queueEntry := default (new_entry "" [] [] false no_metadata false) (q_entries q !! 0%nat).

Lemma store_rejects_empty : rejects_empty lib.
Proof. intros name h uploadID. by eexists. Qed.

Lemma no_log_is_lost_witness :
  u_finished e = true ∧ so_object (stored lib (u_name e) (u_calls e)) = Some written.
Proof.
  apply (no_log_is_lost lib file_of files (λ _, true) None None [] cfg (newUploadQueue 0 0 false false) q0 evs q 0%nat e store_rejects_empty);
    ltac:(vm_compute; reflexivity).
Defined.

(** *** With parts of four bytes *)
Definition text : list byte := [x31; x32; x33; x34; x35; x36; x37; x38; x39].
(** The first part has been uploaded. *)
Definition entry (p : phase) (content : list byte) (finished : bool) : queueEntry :=
  MkQueueEntry "log" content true [FileCreate; FileOpen; CreateMultipartUpload ∅; UploadPart "tag" 0 (take 4 text)] finished finished
    no_metadata true p 4 (Some "tag") [("tag", 0)] 0.
Definition fresh (content : list byte) : queueEntry :=
  set_u_available true (new_entry "log" [FileCreate; FileOpen] content true no_metadata true).
Definition queue (e : queueEntry) (sem : Z) : uploadQueue :=
  MkUploadQueue 20 4 sem false false {[ "log" := 0%nat ]} [e] [] 1 false None.

Lemma demo_accepts : accepts lib "log".
Proof.
  split; [by intros h c [->|[->| ->]]|]. intros h c Hc. destruct c; try by exists "tag". destruct parts; [|by exists "tag"]. by destruct (Hc uploadID).
Qed.

Lemma demo_going_on e :
  u_phase e = LoopTop → u_finished e = true → u_partAvailable e = true → u_lock e = true → u_failures e = 0 → going_on 0 (queue e 0) e.
Proof. intros Hp Hf Ha Hl Hfa. split; try done. rewrite Hfa. done. Qed.

Lemma demo_entry_ok p rest finished : (p = LoopTop ∨ finished = false ∧ p = Uploading 4) → entry_ok lib 4 (entry p (take 4 text ++ rest) finished).
Proof.
  intros Hp. split; [|by destruct Hp as [->|[-> ->]]; [|split; [cbn; lia|]]|done].
  apply (parts_uploaded _ _ _ "tag" [take 4 text]); [done|done|by vm_compute|done|done|cbn; lia|by left].
Qed.

Lemma demo_storage_ok e sem : entry_ok lib 4 e → storage_ok lib 4 (queue e sem).
Proof. intros He. split; [done|]. intros [|i] e' H; [by injection H as <-|done]. Qed.

Lemma finished_log_is_stored_witness :
  ∃ n q' e', (n ≤ 25)%nat ∧ run_steps lib file_of 0 n (queue (entry LoopTop text true) 0) = Done (tt, q') ∧ q_entries q' !! 0%nat = Some e' ∧
    u_exists e' = false ∧ so_object (stored lib "log" (u_calls e')) = Some text.
Proof.
  apply (finished_log_is_stored lib file_of 4 0 2 (queue (entry LoopTop text true) 0) (entry LoopTop text true)); try done.
  - apply store_rejects_empty.
  - apply demo_storage_ok, (demo_entry_ok LoopTop (drop 4 text)). by left.
  - apply demo_accepts.
  - by right.
Defined.

Lemma late_finish_loses_the_end_witness :
  ∃ q' e', (let* _ := finish "log" in upload_step lib file_of 0) (queue (entry (Uploading 4) (take 6 text) false) 1) = Done (tt, q') ∧
    q_entries q' !! 0%nat = Some e' ∧ u_exists e' = false ∧ u_content e' = take 6 text ∧
    so_object (stored lib "log" (u_calls e')) = Some (take 4 text).
Proof.
  apply (late_finish_loses_the_end lib file_of 4 0 (queue (entry (Uploading 4) (take 6 text) false) 1) (entry (Uploading 4) (take 6 text) false) 4 "tag" "tag");
    try done.
  - apply demo_storage_ok, (demo_entry_ok (Uploading 4) [x35; x36]). by right.
  - by intros h c [->| ->].
Defined.

Lemma empty_log_is_uploaded_forever_witness :
  ∃ q' e', run_steps lib file_of 0 600 (queue (fresh []) 0) = Done (tt, q') ∧ going_on 0 q' e' ∧ u_exists e' = true ∧
    u_calls e' = [FileCreate; FileOpen] ++ concat (replicate 100 [FileStat; FileStat; PutObject [] (ToMap no_metadata false false)]).
Proof.
  apply (empty_log_is_uploaded_forever lib file_of 100 0 (queue (fresh []) 0) (fresh [])); [by apply demo_going_on|apply demo_accepts|done|done].
Defined.

Definition recovered : uploadQueue :=
  match recover (W := uploadQueue) lib "log" text (newUploadQueue 0 0 false false) with Done (_, q) => q | _ => q0 end.
Lemma recovered_log_stops_the_server_witness : run_steps lib file_of 0 6 recovered = Panic nil_pointer.
Proof.
  apply (recovered_log_stops_the_server lib file_of "log" text (newUploadQueue 0 0 false false) recovered); [ltac:(vm_compute; reflexivity)|done|done].
Defined.
End storage_demo.
