(* ===== verification/Metrics.v ===== *)
(** * Metrics

    [internal/metrics]: the collector with its counters and gauges, their text
    form and the handler that serves it.  [internal/metricsintegration]: the
    handler that counts connections and handshakes.

    The collector's mutex is held for the whole of every operation that changes
    it, so the operations are atomic.  Counters are primed with labels at most
    once in this program, on a counter without labels, so the slices of labels
    never share an array and are values here.  Floating point numbers are an
    argument. *)

From stdpp Require Import base gmap strings list.
From Stdlib Require Import Ascii Strings.Byte.
From S2P Require Import Prelude Messages Metadata MetadataJSON Handler GoStrings.

(** What is used of [float64]. *)
Record Float := MkFloat {
  float : Type;
  f_zero : float;
  f_one : float;
  f_add : float → float → float;
  f_sub : float → float → float;
  f_negative : float → bool;
  f_text : float → string;
}.

Inductive MetricType := MetricTypeCounter | MetricTypeGauge.

#[export] Instance MetricType_eq_dec : EqDecision MetricType.
Proof. solve_decision. Defined.

Definition MetricType_text (t : MetricType) : string :=
  match t with MetricTypeCounter => "counter" | MetricTypeGauge => "gauge" end.

Record Metric := MkMetric {
  metric_Name : string;
  metric_Help : string;
  metric_Unit : string;
  metric_Type : MetricType;
}.

#[export] Instance Metric_eq_dec : EqDecision Metric.
Proof. solve_decision. Defined.

Definition nl : string := String (ascii_of_nat 10) "".

Definition Metric_String (m : Metric) : string :=
  Sprintf ("# HELP %s %s" ++ nl ++ "# UNIT %s %s" ++ nl ++ "# TYPE %s %s" ++ nl)
    [VString (metric_Name m); VString (metric_Help m); VString (metric_Name m); VString (metric_Unit m);
     VString (metric_Name m); VString (MetricType_text (metric_Type m))].

(** ** Labels *)

Abbreviation MetricLabel := (string * string)%type.

(** [Label] panics on misuse. *)
Definition metrics_Label (name value : string) : outcome MetricLabel :=
  if decide (name = "") then Panic "BUG: the name cannot be empty"
  else if decide (name = "country") then Panic "BUG: the name 'country' is reserved for GeoIP lookups"
  else if decide (value = "") then Panic "BUG: the value cannot be empty"
  else Done (name, value).

(** [metricLabels.toMap]: later labels win. *)
Definition toMap (labels : list MetricLabel) : gmap string string :=
  foldl (λ m l, <[l.1 := l.2]> m) ∅ labels.

(** [strings.NewReplacer] on the two characters. *)
Fixpoint escape (s : string) : string :=
  match s with
  | EmptyString => EmptyString
  | String c s' =>
      if decide (c = ascii_of_nat 34 ∨ c = "\"%char) then String "\" (String c (escape s')) else String c (escape s')
  end.

(** [sort.Strings] *)
Fixpoint insert_sorted (x : string) (l : list string) : list string :=
  match l with
  | [] => [x]
  | y :: l' => if String.leb x y then x :: l else y :: insert_sorted x l'
  end.
Definition sort_Strings (l : list string) : list string := foldr insert_sorted [] l.

Section float.
Context (F : Float).

Record MetricValue := MkMetricValue {
  mv_Name : string;
  mv_Labels : gmap string string;
  mv_Value : float F;
}.

Definition label_text (labels : gmap string string) (k : string) : string :=
  (k ++ "=" ++ quote ++ escape (default "" (labels !! k)) ++ quote)%string.

(** [CombinedName]: the labels in the order of their names, whatever the order in
    which the map is visited. *)
Definition combined_name (name : string) (labels : gmap string string) : string :=
  let keys := sort_Strings (map_to_list labels).*1 in
  let labelList := label_text labels <$> keys in
  (name ++ match labelList with [] => "" | _ => "{" ++ Join "," labelList ++ "}" end)%string.

Definition CombinedName (v : MetricValue) : string := combined_name (mv_Name v) (mv_Labels v).

Definition MetricValue_String (v : MetricValue) : string :=
  (CombinedName v ++ " " ++ f_text F (mv_Value v) ++ nl)%string.

(** ** The collector *)

(** The values of a metric in the order they appeared, and where the value of a
    set of labels is among them. *)
Record metricValue := MkMetricValues {
  metricValueMap : gmap string nat;
  metricValues : list MetricValue;
}.

Record collector := MkCollector {
  metricsMap : gmap string Metric;
  metrics_list : list Metric;
  values : gmap string metricValue;
}.

Definition new_collector : collector := MkCollector ∅ [] ∅.

Definition set_values (v : gmap string metricValue) (c : collector) : collector :=
  MkCollector (metricsMap c) (metrics_list c) v.

Definition MetricAlreadyExists : error := ErrorString "the specified metric already exists".
Definition CounterCannotBeIncrementedByNegative : error :=
  ErrorString "a counter cannot be incremented by a negative number".

Definition createMetric (name unit_ help : string) (metricType : MetricType) (c : collector)
  : collector * option error :=
  match metricsMap c !! name with
  | Some existingMetric =>
      if decide (metric_Name existingMetric = name ∧ metric_Unit existingMetric = unit_ ∧
                 metric_Help existingMetric = help ∧ metric_Type existingMetric = metricType)
      then (c, None) else (c, Some MetricAlreadyExists)
  | None =>
      let metric := MkMetric name help unit_ metricType in
      (MkCollector (<[name := metric]> (metricsMap c)) (metrics_list c ++ [metric]) (values c), None)
  end.

(** [getValueStruct]: the place of the value, created on the first use. *)
Definition getValueStruct (name : string) (labels : gmap string string) (c : collector) : nat * collector :=
  let v := default (MkMetricValues ∅ []) (values c !! name) in
  let key := combined_name name labels in
  match metricValueMap v !! key with
  | Some i => (i, set_values (<[name := v]> (values c)) c)
  | None =>
      let i := length (metricValues v) in
      (i, set_values (<[name := MkMetricValues (<[key := i]> (metricValueMap v))
                                  (metricValues v ++ [MkMetricValue name labels (f_zero F)])]> (values c)) c)
  end.

Definition metric_get (name : string) (labels : gmap string string) (c : collector) : float F * collector :=
  let '(i, c) := getValueStruct name labels c in
  (match values c !! name with
   | Some v => match metricValues v !! i with Some x => mv_Value x | None => f_zero F end
   | None => f_zero F
   end, c).

Definition set_value (x : float F) (v : MetricValue) : MetricValue := MkMetricValue (mv_Name v) (mv_Labels v) x.

Definition metric_set (name : string) (labels : gmap string string) (value : float F) (c : collector) : collector :=
  let '(i, c) := getValueStruct name labels c in
  set_values (alter (λ v, MkMetricValues (metricValueMap v) (alter (set_value value) i (metricValues v))) name (values c)) c.

Definition ListMetrics (c : collector) : list Metric := metrics_list c.

Definition GetMetric (name : string) (c : collector) : list MetricValue :=
  match values c !! name with Some v => metricValues v | None => [] end.

Definition concat_strings (l : list string) : string := foldr String.append "" l.

Definition collector_String (c : collector) : string :=
  (concat_strings ((λ m, Metric_String m ++ concat_strings (MetricValue_String <$> GetMetric (metric_Name m) c))%string
                     <$> metrics_list c) ++ "# EOF" ++ nl)%string.

(** ** Counters and gauges *)

(** A handle on a metric: its name and the labels it is primed with. *)
Record handle := MkHandle { handle_name : string; handle_labels : list MetricLabel }.

Definition WithLabels (h : handle) (labels : list MetricLabel) : handle :=
  MkHandle (handle_name h) (handle_labels h ++ labels).

Definition realLabels (h : handle) (labels : list MetricLabel) : gmap string string := toMap (handle_labels h ++ labels).

Section operations.
Context {W : Type} `{!Field W collector}.
(** [geoIpLookupProvider.Lookup] *)
Context (Lookup : list byte → string).

Definition update (f : collector → collector) : prog W unit := λ w, Done (tt, fset (f (fget w)) w).

Definition create (metricType : MetricType) (name unit_ help : string) : prog W (option handle * option error) :=
  λ w, let '(c, err) := createMetric name unit_ help metricType (fget w) in
       Done (match err with None => (Some (MkHandle name []), None) | Some e => (None, Some e) end, fset c w).

Definition CreateCounter := create MetricTypeCounter.
Definition CreateCounterGeo := create MetricTypeCounter.
Definition CreateGauge := create MetricTypeGauge.
Definition CreateGaugeGeo := create MetricTypeGauge.

Definition MustCreate (metricType : MetricType) (name unit_ help : string) : prog W handle :=
  let* '(h, err) := create metricType name unit_ help in
  match h, err with
  | Some h, None => prog_ret h
  | _, Some e => panic (Error e)
  | None, None => panic nil_pointer
  end.

Definition MustCreateCounter := MustCreate MetricTypeCounter.
Definition MustCreateCounterGeo := MustCreate MetricTypeCounter.
Definition MustCreateGauge := MustCreate MetricTypeGauge.
Definition MustCreateGaugeGeo := MustCreate MetricTypeGauge.

Definition change (name : string) (labels : gmap string string) (f : float F → float F) (c : collector) : collector :=
  let '(value, c) := metric_get name labels c in metric_set name labels (f value) c.

Definition counter_IncrementBy (h : handle) (by_ : float F) (labels : list MetricLabel) : prog W (option error) :=
  if f_negative F by_ then prog_ret (Some CounterCannotBeIncrementedByNegative)
  else do* update (change (handle_name h) (realLabels h labels) (λ v, f_add F v by_)) in prog_ret None.

Definition counter_Increment (h : handle) (labels : list MetricLabel) : prog W unit :=
  let* _ := counter_IncrementBy h (f_one F) labels in prog_ret tt.

Definition geoLabels (h : handle) (ip : list byte) (labels : list MetricLabel) : gmap string string :=
  <["country" := Lookup ip]> (realLabels h labels).

Definition counterGeo_IncrementBy (h : handle) (ip : list byte) (by_ : float F) (labels : list MetricLabel)
  : prog W (option error) :=
  if f_negative F by_ then prog_ret (Some CounterCannotBeIncrementedByNegative)
  else do* update (change (handle_name h) (geoLabels h ip labels) (λ v, f_add F v by_)) in prog_ret None.

Definition counterGeo_Increment (h : handle) (ip : list byte) (labels : list MetricLabel) : prog W unit :=
  let* _ := counterGeo_IncrementBy h ip (f_one F) labels in prog_ret tt.

Definition gauge_IncrementBy (h : handle) (by_ : float F) (labels : list MetricLabel) : prog W unit :=
  update (change (handle_name h) (realLabels h labels) (λ v, f_add F v by_)).
Definition gauge_Increment (h : handle) := gauge_IncrementBy h (f_one F).
Definition gauge_DecrementBy (h : handle) (by_ : float F) (labels : list MetricLabel) : prog W unit :=
  update (change (handle_name h) (realLabels h labels) (λ v, f_sub F v by_)).
Definition gauge_Decrement (h : handle) := gauge_DecrementBy h (f_one F).
Definition gauge_Set (h : handle) (value : float F) (labels : list MetricLabel) : prog W unit :=
  update (metric_set (handle_name h) (realLabels h labels) value).

Definition gaugeGeo_IncrementBy (h : handle) (ip : list byte) (by_ : float F) (labels : list MetricLabel) : prog W unit :=
  update (change (handle_name h) (geoLabels h ip labels) (λ v, f_add F v by_)).
Definition gaugeGeo_Increment (h : handle) (ip : list byte) := gaugeGeo_IncrementBy h ip (f_one F).
Definition gaugeGeo_DecrementBy (h : handle) (ip : list byte) (by_ : float F) (labels : list MetricLabel) : prog W unit :=
  update (change (handle_name h) (geoLabels h ip labels) (λ v, f_sub F v by_)).
Definition gaugeGeo_Decrement (h : handle) (ip : list byte) := gaugeGeo_DecrementBy h ip (f_one F).
Definition gaugeGeo_Set (h : handle) (ip : list byte) (value : float F) (labels : list MetricLabel) : prog W unit :=
  update (metric_set (handle_name h) (geoLabels h ip labels) value).
End operations.
End float.
