(* ===== verification/MetricsIntegration.v ===== *)
(** * Counting connections

    [internal/metricsintegration]: the handler in front of the others that
    counts connections and handshakes by the country of the client.  The objects
    of the connections live in a store; a connection's lock is held while its
    backend is disconnected. *)

From stdpp Require Import base gmap strings list.
From Stdlib Require Import Strings.Byte.
From S2P Require Import Prelude Messages Metadata Handler Metrics.

Definition MetricNameConnections : string := "containerssh_ssh_connections_total".
Definition MetricNameCurrentConnections : string := "containerssh_ssh_current_connections".
Definition MetricNameSuccessfulHandshake : string := "containerssh_ssh_successful_handshakes_total".
Definition MetricNameFailedHandshake : string := "containerssh_ssh_failed_handshakes_total".

Record metricsHandler := MkMetricsHandler {
  connectionsMetric : handle;
  currentConnectionsMetric : handle;
  handshakeSuccessfulMetric : handle;
  handshakeFailedMetric : handle;
}.

(** The fields of a [metricsNetworkHandler] besides its backend. *)
Record metricsNetwork := MkMetricsNetwork {
  mn_client : list byte;
  mn_lock : bool;
  mn_disconnected : bool;
}.

Abbreviation networks := (list metricsNetwork).

Definition set_mn_lock (b : bool) (n : metricsNetwork) : metricsNetwork :=
  MkMetricsNetwork (mn_client n) b (mn_disconnected n).
Definition set_mn_disconnected (n : metricsNetwork) : metricsNetwork :=
  MkMetricsNetwork (mn_client n) (mn_lock n) true.

Section integration.
Context (F : Float) {W : Type} `{!Field W (collector F)} `{!Field W networks}.
Context (Lookup : list byte → string).
Context (backend : Handler W) (m : metricsHandler).

Definition network_at (i : nat) : prog W metricsNetwork :=
  λ w, match (fget w : networks) !! i with Some n => Done (n, w) | None => Panic nil_pointer end.
Definition update_network (i : nat) (f : metricsNetwork → metricsNetwork) : prog W unit :=
  λ w, Done (tt, fset (alter f i (fget w : networks)) w).
Definition new_network (ip : list byte) : prog W nat :=
  λ w, Done (length (fget w : networks), fset ((fget w : networks) ++ [MkMetricsNetwork ip false false]) w).

Section network.
Context (network_backend : NetworkConnectionHandler W) (i : nat).

Definition metrics_OnHandshakeFailed (meta : ConnectionMetadata) (reason : option error) : prog W unit :=
  let* n := network_at i in
  do* counterGeo_Increment F Lookup (handshakeFailedMetric m) (mn_client n) [] in
  OnHandshakeFailed network_backend meta reason.

Definition metrics_OnHandshakeSuccess (meta : ConnectionAuthenticatedMetadata)
  : prog W (option (SSHConnectionHandler W) * ConnectionAuthenticatedMetadata * option error) :=
  let* '(connectionHandler, meta, failureReason) := OnHandshakeSuccess network_backend meta in
  let* n := network_at i in
  match failureReason with
  | Some _ =>
      do* counterGeo_Increment F Lookup (handshakeFailedMetric m) (mn_client n) [] in
      prog_ret (connectionHandler, meta, failureReason)
  | None =>
      do* counterGeo_Increment F Lookup (handshakeSuccessfulMetric m) (mn_client n) [] in
      prog_ret (connectionHandler, meta, failureReason)
  end.

Definition metrics_OnDisconnect : prog W unit :=
  let* n := network_at i in
  if mn_lock n then block "metricsNetworkHandler.lock"
  else
    do* update_network i (set_mn_lock true) in
    do* (if mn_disconnected n then prog_ret tt
         else
           do* gaugeGeo_Decrement F Lookup (currentConnectionsMetric m) (mn_client n) [] in
           update_network i set_mn_disconnected) in
    do* OnDisconnect network_backend in
    update_network i (set_mn_lock false).

Definition metricsNetworkHandler : NetworkConnectionHandler W :=
  {| OnAuthPassword := OnAuthPassword network_backend;
     OnAuthPubKey := OnAuthPubKey network_backend;
     OnAuthKeyboardInteractive := OnAuthKeyboardInteractive network_backend;
     OnAuthGSSAPI := OnAuthGSSAPI network_backend;
     OnHandshakeFailed := metrics_OnHandshakeFailed;
     OnHandshakeSuccess := metrics_OnHandshakeSuccess;
     OnDisconnect := metrics_OnDisconnect;
     OnNetShutdown := OnNetShutdown network_backend |}.
End network.

(** A nil handler next to no error would be wrapped as it is. *)
Definition metrics_OnNetworkConnection (meta : ConnectionMetadata)
  : prog W (option (NetworkConnectionHandler W) * ConnectionMetadata * option error) :=
  let* '(networkBackend, meta, err) := OnNetworkConnection backend meta in
  match err with
  | Some _ => prog_ret (networkBackend, meta, err)
  | None =>
      do* counterGeo_Increment F Lookup (connectionsMetric m) (IP (RemoteAddr meta)) [] in
      do* gaugeGeo_Increment F Lookup (currentConnectionsMetric m) (IP (RemoteAddr meta)) [] in
      let* i := new_network (IP (RemoteAddr meta)) in
      prog_ret (Some (metricsNetworkHandler (default nil_NetworkConnectionHandler networkBackend) i), meta, None)
  end.

Definition metrics_handler : Handler W :=
  {| OnReady := OnReady backend;
     OnHandlerShutdown := OnHandlerShutdown backend;
     OnNetworkConnection := metrics_OnNetworkConnection |}.
End integration.

(** [NewHandler]: nothing is counted when the metrics are disabled. *)
Definition metricsintegration_NewHandler (F : Float) {W} `{!Field W (collector F)} `{!Field W networks} Lookup
    (Enable : bool) (backend : Handler W) : prog W (Handler W) :=
  if negb Enable then prog_ret backend
  else
    let* connections := MustCreateCounterGeo F MetricNameConnections "connections_total"
                          "Number of connections since start" in
    let* current := MustCreateGaugeGeo F MetricNameCurrentConnections "connections"
                      "Current open SSH connections" in
    let* successful := MustCreateCounterGeo F MetricNameSuccessfulHandshake "handshakes_total"
                         "Successful SSH handshakes since start" in
    let* failed := MustCreateCounterGeo F MetricNameFailedHandshake "handshakes_total"
                     "Failed SSH handshakes since start" in
    prog_ret (metrics_handler F Lookup backend (MkMetricsHandler connections current successful failed)).
