(* ===== verification/MetricsSpec.v ===== *)
(** * What the metrics show

    Theorems on [Metrics] and [MetricsIntegration]: the text under which a value
    is kept identifies its labels, an operation changes the value it names and
    no other, and the gauge of open connections counts the open connections. *)

From stdpp Require Import base gmap strings list.
From Stdlib Require Import Ascii Strings.Byte.
From S2P Require Import Prelude Messages Metadata MetadataJSON Handler GoStrings Metrics MetricsIntegration.

(** ** The text of labels *)

Lemma app_cancel (a b c : string) : (a ++ b = a ++ c)%string → b = c.
Proof. induction a as [|x a IH]; [done|]. cbn. intros [= H]. by apply IH. Qed.

Definition no_equals (k : string) : Prop := "="%char ∉ String.list_ascii_of_string k.

(** A name without an equals sign ends at the first one. *)
Lemma key_split k k' r r' :
  no_equals k → no_equals k' → (k ++ "=" ++ r = k' ++ "=" ++ r')%string → k = k' ∧ r = r'.
Proof.
  unfold no_equals. revert k'. induction k as [|c k IH]; intros [|c' k'] Hk Hk' H; cbn in Hk, Hk';
    rewrite ?elem_of_cons in *.
  - split; [done|]. by injection H.
  - exfalso. injection H. naive_solver.
  - exfalso. injection H. naive_solver.
  - injection H as -> H. destruct (IH k') as [-> ->]; naive_solver.
Qed.

(** An escaped value ends at the first quote that is not escaped. *)
Lemma escape_split a b r r' :
  (escape a ++ quote ++ r = escape b ++ quote ++ r')%string → a = b ∧ r = r'.
Proof.
  assert (∀ c s r, escape (String c s) ++ r
    = if decide (c = ascii_of_nat 34 ∨ c = "\"%char) then String "\" (String c (escape s ++ r))
      else String c (escape s ++ r))%string as Hstep by (intros c s q; cbn; by case_decide).
  revert b. induction a as [|c a IH]; intros [|d b]; rewrite ?Hstep.
  - intros H. split; [done|]. by injection H.
  - case_decide as Hd; intros H; injection H; [done|]. intros _ <-. naive_solver.
  - case_decide as Hd; intros H; injection H; [done|]. intros _ ->. naive_solver.
  - destruct (decide (c = ascii_of_nat 34 ∨ c = "\"%char)) as [Hc|Hc];
      destruct (decide (d = ascii_of_nat 34 ∨ d = "\"%char)) as [Hd|Hd]; intros H.
    + injection H as -> H. destruct (IH b) as [-> ->]; [exact H|done].
    + exfalso. injection H as <- _. naive_solver.
    + exfalso. injection H as -> _. naive_solver.
    + injection H as -> H. destruct (IH b) as [-> ->]; [exact H|done].
Qed.

Lemma label_text_app labels k r :
  (label_text labels k ++ r = k ++ "=" ++ (quote ++ (escape (default "" (labels !! k)) ++ quote ++ r)))%string.
Proof. unfold label_text. by rewrite <- !string_app_assoc. Qed.

(** What follows the text of a label: the next one or the end. *)
Definition labels_rest (labels : gmap string string) (ks : list string) : string :=
  match ks with
  | [] => "}"
  | _ => ("," ++ Join "," (label_text labels <$> ks) ++ "}")%string
  end.

Lemma labels_cons labels k ks :
  (Join "," (label_text labels <$> k :: ks) ++ "}" = label_text labels k ++ labels_rest labels ks)%string.
Proof. destruct ks as [|k' ks]; [done|]. cbn -[label_text]. by rewrite <- !string_app_assoc. Qed.

Lemma labels_rest_cons labels k ks :
  labels_rest labels (k :: ks) = String "," (label_text labels k ++ labels_rest labels ks)%string.
Proof. rewrite <- labels_cons. done. Qed.

Lemma labels_text_inj l1 l2 ks1 ks2 :
  Forall no_equals ks1 → Forall no_equals ks2 → labels_rest l1 ks1 = labels_rest l2 ks2 →
  ks1 = ks2 ∧ Forall (λ k, default "" (l1 !! k) = default "" (l2 !! k)) ks1.
Proof.
  intros H1. revert ks2. induction H1 as [|k ks1 Hk H1 IH]; intros [|k' ks2] H2 E.
  - done.
  - exfalso. by rewrite labels_rest_cons in E.
  - exfalso. by rewrite labels_rest_cons in E.
  - apply Forall_cons in H2 as [Hk' H2]. rewrite !labels_rest_cons in E. injection E as E. rewrite !label_text_app in E.
    apply key_split in E as [<- E]; [|done..]. apply app_cancel in E. apply escape_split in E as [Ev E].
    apply IH in E as [<- Hv]; [|done]. split; [done|]. by constructor.
Qed.

Lemma elem_of_sort x l : x ∈ sort_Strings l ↔ x ∈ l.
Proof.
  assert (∀ y l, x ∈ insert_sorted y l ↔ x = y ∨ x ∈ l) as Hi.
  { intros y l'. induction l' as [|z l' IH]; cbn; [set_solver|]. destruct (String.leb y z); set_solver. }
  induction l as [|y l IH]; cbn; [done|]. rewrite Hi, IH. set_solver.
Qed.

Lemma elem_of_keys (l : gmap string string) k : k ∈ sort_Strings (map_to_list l).*1 ↔ is_Some (l !! k).
Proof.
  rewrite elem_of_sort, list_elem_of_fmap. split.
  - intros ([k' v] & -> & H). apply elem_of_map_to_list in H. by exists v.
  - intros [v H]. exists (k, v). split; [done|]. by apply elem_of_map_to_list.
Qed.

(** The names of labels are identifiers in this program. *)
Definition plain_labels (l : gmap string string) : Prop := map_Forall (λ k _, no_equals k) l.

Lemma plain_keys l : plain_labels l → Forall no_equals (sort_Strings (map_to_list l).*1).
Proof. intros H. apply Forall_forall. intros k [v Hk]%elem_of_keys. by apply (H k v). Qed.

Lemma combined_name_inj name l1 l2 :
  plain_labels l1 → plain_labels l2 → combined_name name l1 = combined_name name l2 → l1 = l2.
Proof.
  intros H1%plain_keys H2%plain_keys E. unfold combined_name in E. apply app_cancel in E.
  assert (labels_rest l1 (sort_Strings (map_to_list l1).*1) = labels_rest l2 (sort_Strings (map_to_list l2).*1)) as E'.
  { destruct (sort_Strings (map_to_list l1).*1), (sort_Strings (map_to_list l2).*1); [done|discriminate E..|].
    unfold labels_rest. exact (f_equal (String ",") (app_cancel "{" _ _ E)). }
  apply labels_text_inj in E' as [Ek Ev]; [|done..]. apply map_eq. intros k.
  rewrite Forall_forall in Ev. destruct (l1 !! k) as [v|] eqn:E1.
  - specialize (Ev k). rewrite elem_of_keys, E1 in Ev. cbn in Ev.
    assert (is_Some (l2 !! k)) as [v' E2] by (apply elem_of_keys; rewrite <- Ek; by apply elem_of_keys).
    rewrite E2 in Ev |- *. cbn in Ev. rewrite Ev; [done|]. by exists v.
  - destruct (l2 !! k) as [v|] eqn:E2; [|done]. exfalso.
    assert (is_Some (l1 !! k)) as [v' E'] by (apply elem_of_keys; rewrite Ek; apply elem_of_keys; by exists v).
    by rewrite E1 in E'.
Qed.

(** Values with different labels are never kept under the same name: the text of
    the labels, in which values are escaped, determines the labels. *)
Theorem series_are_distinct name l1 l2 :
  plain_labels l1 → plain_labels l2 → combined_name name l1 = combined_name name l2 → l1 = l2.
Proof. apply combined_name_inj. Qed.

(** ** Values *)

Section values.
Context (F : Float).
Implicit Types (c : collector F) (l : gmap string string).

(** The place recorded for a text holds the value with these labels. *)
Definition wf_values (name : string) (v : metricValue F) : Prop :=
  map_Forall (λ key i, ∃ x, metricValues F v !! i = Some x ∧ combined_name name (mv_Labels F x) = key) (metricValueMap F v).
Definition wf_collector c : Prop := map_Forall wf_values (values F c).

(** The value of a metric for a set of labels; zero until it is first used. *)
Definition value_of (name : string) l c : float F :=
  match values F c !! name ≫= λ v, metricValueMap F v !! combined_name name l ≫= λ i, metricValues F v !! i with
  | Some x => mv_Value F x
  | None => f_zero F
  end.

Lemma value_of_at name l c v i x :
  values F c !! name = Some v → metricValueMap F v !! combined_name name l = Some i → metricValues F v !! i = Some x →
  value_of name l c = mv_Value F x.
Proof. intros E1 E2 E3. unfold value_of. rewrite E1. cbn. rewrite E2. cbn. by rewrite E3. Qed.

(** The place of a value, found or created: nothing else changes. *)
Lemma getValueStruct_spec name l c i c' :
  wf_collector c → getValueStruct F name l c = (i, c') →
  wf_collector c' ∧ (∀ n' l', value_of n' l' c' = value_of n' l' c) ∧
  (∃ v x, values F c' !! name = Some v ∧ metricValueMap F v !! combined_name name l = Some i ∧
          metricValues F v !! i = Some x) ∧
  getValueStruct F name l c' = (i, c').
Proof.
  intros Hwf E. unfold getValueStruct in E.
  assert (wf_values name (default (MkMetricValues F ∅ []) (values F c !! name))) as Hv.
  { destruct (values F c !! name) as [v|] eqn:Ev; [by apply (Hwf name v)|]. apply map_Forall_empty. }
  destruct (metricValueMap F _ !! combined_name name l) as [j|] eqn:Ek; injection E as <- <-.
  - destruct (values F c !! name) as [v|] eqn:Ev; [|cbn in Ek; by rewrite lookup_empty in Ek]. cbn in *.
    rewrite insert_id by done.
    assert (set_values F (values F c) c = c) as -> by (by destruct c). split_and!; [done..| |].
    + destruct (Hv _ _ Ek) as (x & Hx & _). by exists v, x.
    + unfold getValueStruct. rewrite Ev. cbn. rewrite Ek. rewrite insert_id by done. by destruct c.
  - set (v := default (MkMetricValues F ∅ []) (values F c !! name)) in *.
    set (v' := MkMetricValues F (<[combined_name name l := length (metricValues F v)]> (metricValueMap F v))
                 (metricValues F v ++ [MkMetricValue F name l (f_zero F)])).
    assert (values F (set_values F (<[name := v']> (values F c)) c) !! name = Some v') as Hl by apply lookup_insert_eq.
    assert (wf_values name v') as Hv'.
    { intros key i. cbn. destruct (decide (key = combined_name name l)) as [->|Hne].
      - rewrite lookup_insert_eq. intros [= <-]. exists (MkMetricValue F name l (f_zero F)).
        split; [|done]. by rewrite lookup_app_r, Nat.sub_diag by lia.
      - rewrite lookup_insert_ne by done. intros (x & Hx & Hk)%Hv. exists x. split; [|done]. by apply lookup_app_l_Some. }
    split_and!.
    + intros n' u. cbn. destruct (decide (n' = name)) as [->|Hn].
      * rewrite lookup_insert_eq. by intros [= <-].
      * rewrite lookup_insert_ne by done. apply Hwf.
    + intros n' l'. unfold value_of. cbn. destruct (decide (n' = name)) as [->|Hn]; [|by rewrite lookup_insert_ne].
      rewrite lookup_insert_eq. cbn. destruct (decide (combined_name name l' = combined_name name l)) as [->|Hne].
      * rewrite lookup_insert_eq. cbn. rewrite lookup_app_r, Nat.sub_diag by lia. cbn.
        subst v. destruct (values F c !! name); cbn in *; [by rewrite Ek|done].
      * rewrite lookup_insert_ne by done. subst v. destruct (values F c !! name) as [u|] eqn:Eu; cbn in *; [|by rewrite lookup_empty].
        destruct (metricValueMap F u !! combined_name name l') as [j|] eqn:Ej; cbn; [|done].
        destruct (Hv _ _ Ej) as (x & Hx & _). by rewrite (lookup_app_l_Some _ _ _ _ Hx), Hx.
    + exists v', (MkMetricValue F name l (f_zero F)). split; [done|]. split; [apply lookup_insert_eq|].
      cbn. by rewrite lookup_app_r, Nat.sub_diag by lia.
    + unfold getValueStruct. rewrite Hl. cbn. rewrite lookup_insert_eq. by rewrite insert_insert_eq.
Qed.

(** Another series than that of [name] and [l]. *)
Definition other_series (name : string) l (n' : string) (l' : gmap string string) : Prop :=
  n' ≠ name ∨ combined_name name l' ≠ combined_name name l.

Lemma metric_set_spec name l x c :
  wf_collector c →
  wf_collector (metric_set F name l x c) ∧ value_of name l (metric_set F name l x c) = x ∧
  ∀ n' l', other_series name l n' l' → value_of n' l' (metric_set F name l x c) = value_of n' l' c.
Proof.
  intros Hwf. unfold metric_set. destruct (getValueStruct F name l c) as [i c1] eqn:E.
  apply getValueStruct_spec in E as (Hwf1 & Hsame & (v & y & Hv & Hk & Hy) & _); [|done].
  set (v' := MkMetricValues F (metricValueMap F v) (alter (set_value F x) i (metricValues F v))).
  assert (values F (set_values F (alter (λ v, MkMetricValues F (metricValueMap F v)
    (alter (set_value F x) i (metricValues F v))) name (values F c1)) c1) !! name = Some v') as Hv'.
  { cbn. by rewrite lookup_alter_eq, Hv. }
  assert (∀ j z, metricValues F v !! j = Some z → ∃ z', metricValues F v' !! j = Some z' ∧ mv_Labels F z' = mv_Labels F z) as Hl.
  { intros j z Hz. cbn. destruct (decide (i = j)) as [->|Hn].
    - rewrite list_lookup_alter_eq, Hz. by eexists.
    - rewrite list_lookup_alter_ne by done. by exists z. }
  split_and!.
  - intros n' u. cbn. destruct (decide (n' = name)) as [->|Hn]; [|rewrite lookup_alter_ne by done; apply Hwf1].
    rewrite lookup_alter_eq, Hv. intros [= <-]. intros key j Hj. destruct (Hwf1 name v Hv key j Hj) as (z & Hz & <-).
    destruct (Hl _ _ Hz) as (z' & Hz' & <-). by exists z'.
  - rewrite (value_of_at _ _ _ v' i (set_value F x y)); [done..|]. cbn. by rewrite list_lookup_alter_eq, Hy.
  - intros n' l' Ho. rewrite <- Hsame. unfold value_of. cbn.
    destruct (decide (n' = name)) as [->|Hn]; [|by rewrite lookup_alter_ne]. destruct Ho as [|Ho]; [done|].
    rewrite lookup_alter_eq, Hv. cbn. destruct (metricValueMap F v !! combined_name name l') as [j|] eqn:Ej; cbn; [|done].
    assert (i ≠ j); [|by rewrite list_lookup_alter_ne]. intros <-.
    destruct (Hwf1 name v Hv _ _ Ej) as (z & Hz & Ez). destruct (Hwf1 name v Hv _ _ Hk) as (z' & Hz' & Ez'). congruence.
Qed.

(** An operation on a metric changes the value of its labels and no other
    value, and keeps the collector consistent. *)
Lemma change_spec name l f c :
  wf_collector c →
  wf_collector (change F name l f c) ∧ value_of name l (change F name l f c) = f (value_of name l c) ∧
  ∀ n' l', other_series name l n' l' → value_of n' l' (change F name l f c) = value_of n' l' c.
Proof.
  intros Hwf. unfold change, metric_get. destruct (getValueStruct F name l c) as [i c1] eqn:E.
  apply getValueStruct_spec in E as (Hwf1 & Hsame & (v & y & Hv & Hk & Hy) & _); [|done].
  rewrite Hv, Hy. destruct (metric_set_spec name l (f (mv_Value F y)) c1 Hwf1) as (H1 & H2 & H3).
  split_and!; [done| |].
  - rewrite H2, <- Hsame. f_equal. symmetry. by eapply value_of_at.
  - intros n' l' Ho. by rewrite H3, Hsame.
Qed.
End values.

(** ** Counting connections *)

(** Numbers that count exactly as far as is needed. *)
Record counts (F : Float) (limit : nat) (of_nat : nat → float F) : Prop := {
  counts_zero : of_nat 0 = f_zero F;
  counts_add n : n < limit → f_add F (of_nat n) (f_one F) = of_nat (S n);
  counts_sub n : n < limit → f_sub F (of_nat (S n)) (f_one F) = of_nat n;
  counts_one : f_negative F (f_one F) = false;
}.

(** What a client does, and the server for it: a connection with an address, its
    handshake, and its end, which may be reported more than once. *)
Inductive connection_event :=
| Connect (meta : ConnectionMetadata)
| HandshakeOk (i : nat) (meta : ConnectionAuthenticatedMetadata)
| HandshakeBad (i : nat) (meta : ConnectionMetadata) (reason : option error)
| Gone (i : nat).

Section connections.
Context (F : Float) {W : Type} `{!Field W (collector F)} `{!Field W networks}.
Context `{!Separate W (collector F) networks}.
Context (Lookup : list byte → string) (backend : Handler W) (network_backend : nat → NetworkConnectionHandler W).

Definition own_metrics : list string :=
  [MetricNameConnections; MetricNameCurrentConnections; MetricNameSuccessfulHandshake; MetricNameFailedHandshake].

Definition counting : metricsHandler :=
  MkMetricsHandler (MkHandle MetricNameConnections []) (MkHandle MetricNameCurrentConnections [])
    (MkHandle MetricNameSuccessfulHandshake []) (MkHandle MetricNameFailedHandshake []).

(** The code behind the handler returns, does not touch its connections and its
    metrics, and leaves the collector consistent. *)
Definition minds_own_metrics {A} (c : prog W A) : Prop :=
  ∀ w, wf_collector F (fget w) → ∃ a w', c w = Done (a, w') ∧ (fget w' : networks) = fget w ∧
    wf_collector F (fget w') ∧
    ∀ n l, n ∈ own_metrics → value_of F n l (fget w') = value_of F n l (fget w).

Definition by_country (ip : list byte) : gmap string string := geoLabels Lookup (MkHandle "" []) ip [].

(** The call of an event, with the address of the connection it lets in. *)
Definition step (e : connection_event) : prog W (option (list byte)) :=
  match e with
  | Connect meta =>
      let* '(_, meta, err) := metrics_OnNetworkConnection F Lookup backend counting meta in
      prog_ret (match err with None => Some (IP (RemoteAddr meta)) | Some _ => None end)
  | HandshakeOk i meta =>
      let* _ := metrics_OnHandshakeSuccess F Lookup counting (network_backend i) i meta in prog_ret None
  | HandshakeBad i meta reason =>
      do* metrics_OnHandshakeFailed F Lookup counting (network_backend i) i meta reason in prog_ret None
  | Gone i => do* metrics_OnDisconnect F Lookup counting (network_backend i) i in prog_ret None
  end.

(** *** A ledger of the events

    The connections that were let in, in their order: the address of each, and
    whether its end has not been reported yet.  It is kept from the events and
    the answers to them alone, without a look at the handler's own records. *)
Abbreviation ledger := (list (list byte * bool)).
Definition enter (e : connection_event) (admitted : option (list byte)) (l : ledger) : ledger :=
  match e with
  | Connect _ => match admitted with Some ip => l ++ [(ip, true)] | None => l end
  | Gone i => alter (λ c, (c.1, false)) i l
  | _ => l
  end.

Definition open_in (country : string) (l : ledger) : nat :=
  length (filter (λ c, Lookup c.1 = country ∧ c.2 = true) l).
Definition all_in (country : string) (l : ledger) : nat := length (filter (λ c, Lookup c.1 = country) l).

(** What the handler's records say of the connections. *)
Definition recorded (ns : networks) : ledger := (λ n, (mn_client n, negb (mn_disconnected n))) <$> ns.

(** The connections from a country that the handler takes for open, and all of them. *)
Definition open_from (country : string) (ns : networks) : nat :=
  length (filter (λ n, Lookup (mn_client n) = country ∧ mn_disconnected n = false) ns).
Definition all_from (country : string) (ns : networks) : nat :=
  length (filter (λ n, Lookup (mn_client n) = country) ns).

Definition country_labels (country : string) : gmap string string := {[ "country" := country ]}.

Context (limit : nat) (of_nat : nat → float F).

Record counted (w : W) : Prop := {
  counted_wf : wf_collector F (fget w);
  counted_open country :
    value_of F MetricNameCurrentConnections (country_labels country) (fget w) = of_nat (open_from country (fget w));
  counted_all country :
    value_of F MetricNameConnections (country_labels country) (fget w) = of_nat (all_from country (fget w));
  counted_unlocked : Forall (λ n, mn_lock n = false) (fget w : networks);
}.

Hypothesis exact : counts F limit of_nat.

Lemma plain_country country : plain_labels (country_labels country).
Proof.
  intros k v Hk. unfold country_labels in Hk. apply lookup_singleton_Some in Hk as [<- <-].
  unfold no_equals. cbn. rewrite !elem_of_cons, elem_of_nil. naive_solver.
Qed.

Lemma other_country name c c' : c ≠ c' → other_series name (country_labels c) name (country_labels c').
Proof.
  intros Hne. right. intros E%combined_name_inj; [|apply plain_country..].
  assert (country_labels c' !! "country" = country_labels c !! "country") as E' by (by rewrite E).
  unfold country_labels in E'. rewrite !lookup_singleton_eq in E'. congruence.
Qed.

Lemma other_name name name' c c' : name ≠ name' → other_series name (country_labels c) name' (country_labels c').
Proof. intros. by left. Qed.

(** What an operation on one of the metrics does to the whole store. *)
Definition bumped (name country : string) (f : float F → float F) (w w' : W) : Prop :=
  (fget w' : networks) = fget w ∧ wf_collector F (fget w') ∧
  value_of F name (country_labels country) (fget w') = f (value_of F name (country_labels country) (fget w)) ∧
  (∀ c, c ≠ country → value_of F name (country_labels c) (fget w') = value_of F name (country_labels c) (fget w)) ∧
  (∀ n c, n ≠ name → value_of F n (country_labels c) (fget w') = value_of F n (country_labels c) (fget w)).

Lemma update_bumped name ip f w :
  wf_collector F (fget w) →
  ∃ w', update F (change F name (geoLabels Lookup (MkHandle name []) ip []) f) w = Done (tt, w') ∧
    bumped name (Lookup ip) f w w'.
Proof.
  intros Hwf. unfold update. eexists. split; [reflexivity|].
  destruct (change_spec F name (country_labels (Lookup ip)) f (fget w) Hwf) as (H1 & H2 & H3).
  split_and!; rewrite ?fget_other_r, ?fget_fset; try done.
  - intros c Hc. by apply H3, other_country.
  - intros n c Hn. by apply H3, other_name.
Qed.

Lemma counter_bumped name ip w :
  wf_collector F (fget w) →
  ∃ w', counterGeo_Increment F Lookup (MkHandle name []) ip [] w = Done (tt, w') ∧
    bumped name (Lookup ip) (λ v, f_add F v (f_one F)) w w'.
Proof.
  intros Hwf. unfold counterGeo_Increment, counterGeo_IncrementBy. rewrite (counts_one _ _ _ exact).
  destruct (update_bumped name ip (λ v, f_add F v (f_one F)) w Hwf) as (w' & E & Hb). exists w'. split; [|done].
  rewrite bind_bind, (bind_done _ _ _ _ _ E). done.
Qed.

(** Handshake counters do not matter for the connections. *)
Lemma counted_bumped name country f w w' :
  name ≠ MetricNameConnections → name ≠ MetricNameCurrentConnections →
  counted w → bumped name country f w w' → counted w'.
Proof.
  intros H1 H2 [Hwf Ho Ha Hl] (En & Hwf' & _ & _ & Hn). constructor; [done|..|by rewrite En].
  - intros c. rewrite Hn by done. by rewrite Ho, En.
  - intros c. rewrite Hn by done. by rewrite Ha, En.
Qed.

Lemma counted_backend {A} (c : prog W A) w :
  minds_own_metrics c → counted w → wp c w (λ _ w', counted w' ∧ (fget w' : networks) = fget w).
Proof.
  intros Hc [Hwf Ho Ha Hl]. destruct (Hc w Hwf) as (a & w' & E & En & Hwf' & Hv). unfold wp. rewrite E.
  split; [|done]. constructor; [done|..|by rewrite En].
  - intros country. rewrite Hv by (unfold own_metrics; set_solver). by rewrite Ho, En.
  - intros country. rewrite Hv by (unfold own_metrics; set_solver). by rewrite Ha, En.
Qed.

Hypothesis backend_minds : ∀ meta, minds_own_metrics (OnNetworkConnection backend meta).
Hypothesis networks_mind : ∀ i, (∀ meta, minds_own_metrics (OnHandshakeSuccess (network_backend i) meta)) ∧
  (∀ meta reason, minds_own_metrics (OnHandshakeFailed (network_backend i) meta reason)) ∧
  minds_own_metrics (OnDisconnect (network_backend i)).

Lemma open_le_all country ns : open_from country ns ≤ all_from country ns.
Proof.
  unfold open_from, all_from. induction ns as [|n ns IH]; [done|]. rewrite !filter_cons.
  repeat case_decide; cbn; naive_solver lia.
Qed.

Lemma all_le_length country ns : all_from country ns ≤ length ns.
Proof. apply length_filter. Qed.

Lemma open_snoc country ns ip : open_from country (ns ++ [MkMetricsNetwork ip false false])
  = open_from country ns + if decide (Lookup ip = country) then 1 else 0.
Proof. unfold open_from. rewrite filter_app, length_app, filter_cons, filter_nil. cbn. repeat case_decide; cbn; naive_solver. Qed.

Lemma all_snoc country ns ip : all_from country (ns ++ [MkMetricsNetwork ip false false])
  = all_from country ns + if decide (Lookup ip = country) then 1 else 0.
Proof. unfold all_from. rewrite filter_app, length_app, filter_cons, filter_nil. cbn. repeat case_decide; cbn; naive_solver. Qed.

(** A connection that changes its lock or ends. *)
Lemma open_count_alter country ns i n f :
  ns !! i = Some n → mn_client (f n) = mn_client n →
  open_from country (alter f i ns) + (if decide (Lookup (mn_client n) = country ∧ mn_disconnected n = false) then 1 else 0)
  = open_from country ns + (if decide (Lookup (mn_client n) = country ∧ mn_disconnected (f n) = false) then 1 else 0).
Proof.
  intros Hi Hc. unfold open_from. revert i Hi. induction ns as [|x ns IH]; intros [|i] Hi; [done..| |].
  - injection Hi as ->. change (alter f 0 (n :: ns)) with (f n :: ns). rewrite !filter_cons, Hc.
    repeat case_decide; cbn; lia.
  - change (alter f (S i) (x :: ns)) with (x :: alter f i ns). rewrite !filter_cons. specialize (IH i Hi).
    destruct (decide (Lookup (mn_client x) = country ∧ mn_disconnected x = false)); cbn; lia.
Qed.

Lemma all_count_alter country ns i n f :
  ns !! i = Some n → mn_client (f n) = mn_client n → all_from country (alter f i ns) = all_from country ns.
Proof.
  intros Hi Hc. unfold all_from. revert i Hi. induction ns as [|x ns IH]; intros [|i] Hi; [done..| |].
  - injection Hi as ->. change (alter f 0 (n :: ns)) with (f n :: ns). rewrite !filter_cons, Hc. by case_decide.
  - change (alter f (S i) (x :: ns)) with (x :: alter f i ns). rewrite !filter_cons. specialize (IH i Hi).
    case_decide; cbn; lia.
Qed.

Lemma open_recorded country ns : open_in country (recorded ns) = open_from country ns.
Proof.
  unfold open_in, open_from, recorded. induction ns as [|n ns IH]; [done|]. cbn [fmap list_fmap].
  rewrite !filter_cons. cbn [fst snd]. destruct (mn_disconnected n); cbn [negb];
    repeat case_decide; cbn [length]; naive_solver.
Qed.

Lemma all_recorded country ns : all_in country (recorded ns) = all_from country ns.
Proof.
  unfold all_in, all_from, recorded. induction ns as [|n ns IH]; [done|]. cbn [fmap list_fmap].
  rewrite !filter_cons. cbn [fst]. case_decide; cbn [length]; by rewrite IH.
Qed.

(** ** One event

    After the call of an event the counts are right, and the handler's records
    are those of the ledger. *)
Definition keeps_up (e : connection_event) (w : W) (a : option (list byte)) (w' : W) : Prop :=
  counted w' ∧ recorded (fget w') = enter e a (recorded (fget w)).

Lemma connect_counted meta w :
  counted w → length (fget w : networks) < limit →
  wp (step (Connect meta)) w (keeps_up (Connect meta) w).
Proof.
  intros Hc Hl. unfold step, metrics_OnNetworkConnection. apply wp_bind, wp_bind.
  eapply wp_mono; [by apply counted_backend|]. intros [[b m'] err] w1 [Hc1 En1]. cbn beta iota.
  destruct err as [err|]; [apply wp_ret, wp_ret; split; [done|]; cbn; by rewrite En1|].
  destruct Hc1 as [Hwf Ho Ha Hlk].
  destruct (counter_bumped MetricNameConnections (IP (RemoteAddr m')) w1 Hwf) as (w2 & E2 & N2 & Wf2 & V2 & O2 & X2).
  apply wp_bind. unfold wp at 1, counting at 1. cbn [connectionsMetric]. rewrite E2. apply wp_bind. unfold wp at 1.
  destruct (update_bumped MetricNameCurrentConnections (IP (RemoteAddr m')) (λ v, f_add F v (f_one F)) w2 Wf2)
    as (w3 & E3 & N3 & Wf3 & V3 & O3 & X3).
  unfold gaugeGeo_Increment, gaugeGeo_IncrementBy. cbn [handle_name currentConnectionsMetric counting] in *.
  rewrite E3. apply wp_bind. unfold wp at 1, new_network. apply wp_ret, wp_ret.
  assert (∀ country, all_from country (fget w1) < limit) as Hlim.
  { intros country. pose proof (all_le_length country (fget w1)). rewrite En1 in *. lia. }
  split; [constructor|].
  - by rewrite fget_other_l.
  - intros country. rewrite fget_other_l, fget_fset, open_snoc, N3, N2.
    destruct (decide (Lookup (IP (RemoteAddr m')) = country)) as [<-|Hne].
    + rewrite V3, X2, Ho by done. rewrite (counts_add _ _ _ exact); [f_equal; lia|].
      pose proof (open_le_all (Lookup (IP (RemoteAddr m'))) (fget w1)). specialize (Hlim (Lookup (IP (RemoteAddr m')))). lia.
    + rewrite O3, X2, Ho by done. f_equal. lia.
  - intros country. rewrite fget_other_l, fget_fset, all_snoc, N3, N2.
    destruct (decide (Lookup (IP (RemoteAddr m')) = country)) as [<-|Hne].
    + rewrite X3, V2, Ha by done. rewrite (counts_add _ _ _ exact); [f_equal; lia|apply Hlim].
    + rewrite X3, O2, Ha by done. f_equal. lia.
  - rewrite fget_fset, N3, N2. apply Forall_app. by split; [|repeat constructor].
  - rewrite fget_fset, N3, N2, En1. unfold recorded. by rewrite fmap_app.
Qed.

Lemma bind_network_at {B} (f : metricsNetwork → prog W B) i n w :
  (fget w : networks) !! i = Some n → prog_bind f (network_at i) w = f n w.
Proof. intros E. apply bind_done. unfold network_at. by rewrite E. Qed.

Lemma handshake_ok_counted i meta w :
  counted w → i < length (fget w : networks) →
  wp (step (HandshakeOk i meta)) w (keeps_up (HandshakeOk i meta) w).
Proof.
  intros Hc Hi. unfold step, metrics_OnHandshakeSuccess. apply wp_bind, wp_bind.
  eapply wp_mono; [apply counted_backend; [apply networks_mind|done]|]. intros [[conn m'] err] w1 [Hc1 En1]. cbn beta iota.
  destruct (lookup_lt_is_Some_2 (fget w1 : networks) i) as [n Hn]; [by rewrite En1|].
  unfold wp at 1. rewrite (bind_network_at _ i n) by done.
  destruct err as [err|].
  all: match goal with |- context [counterGeo_Increment F Lookup ?h _ _] =>
         destruct (counter_bumped (handle_name h) (mn_client n) w1 (counted_wf _ Hc1)) as (w2 & E2 & Hb) end.
  all: cbn [handle_name handshakeFailedMetric handshakeSuccessfulMetric counting] in E2, Hb |- *.
  all: rewrite (bind_done _ _ _ _ _ E2); cbn.
  all: split; [by eapply counted_bumped; [..|exact Hb]|cbn; by rewrite (proj1 Hb), En1].
Qed.

Lemma handshake_bad_counted i meta reason w :
  counted w → i < length (fget w : networks) →
  wp (step (HandshakeBad i meta reason)) w (keeps_up (HandshakeBad i meta reason) w).
Proof.
  intros Hc Hi. unfold step, metrics_OnHandshakeFailed. destruct (lookup_lt_is_Some_2 (fget w : networks) i Hi) as [n Hn].
  apply wp_bind. unfold wp at 1. rewrite (bind_network_at _ i n) by done.
  destruct (counter_bumped MetricNameFailedHandshake (mn_client n) w (counted_wf _ Hc)) as (w2 & E2 & Hb).
  cbn [handshakeFailedMetric counting]. rewrite (bind_done _ _ _ _ _ E2).
  assert (counted w2) as Hc2 by (by eapply counted_bumped; [..|exact Hb]).
  pose proof (counted_backend _ w2 (proj1 (proj2 (networks_mind i)) meta reason) Hc2) as Hw. unfold wp in Hw.
  destruct (OnHandshakeFailed _ meta reason w2) as [[[] w3]| |]; try done. apply wp_ret.
  destruct Hw as [Hc3 E3]. split; [done|]. cbn. by rewrite E3, (proj1 Hb).
Qed.

(** The connection while its backend is told that it ended. *)
Definition leaving (n : metricsNetwork) : metricsNetwork := set_mn_disconnected (set_mn_lock true n).

(** The first part of a disconnect: the gauge goes down the first time. *)
Definition leave (i : nat) (n : metricsNetwork) : prog W unit :=
  do* update_network i (set_mn_lock true) in
  (if mn_disconnected n then prog_ret tt
   else do* gaugeGeo_Decrement F Lookup (currentConnectionsMetric counting) (mn_client n) [] in
        update_network i set_mn_disconnected).

Lemma alter_twice (f g h : metricsNetwork → metricsNetwork) i n (ns : networks) :
  ns !! i = Some n → f (g n) = h n → alter f i (alter g i ns) = alter h i ns.
Proof.
  intros Hn E. apply list_eq. intros j. destruct (decide (i = j)) as [<-|]; [|by rewrite !list_lookup_alter_ne].
  rewrite !list_lookup_alter_eq, Hn. cbn. by rewrite E.
Qed.

(** The gauge, one less for the country of the connection, is the number of
    open connections without it. *)
Lemma open_leaving country (ns : networks) i n :
  ns !! i = Some n → length ns ≤ limit → mn_disconnected n = false →
  of_nat (open_from country (alter leaving i ns)) =
  if decide (Lookup (mn_client n) = country) then f_sub F (of_nat (open_from country ns)) (f_one F)
  else of_nat (open_from country ns).
Proof.
  intros Hn Hlim Ed. pose proof (open_count_alter country ns i n leaving Hn eq_refl) as H. cbn in H. rewrite Ed in H.
  rewrite (decide_False (P := _ ∧ true = false)), Nat.add_0_r in H by naive_solver.
  destruct (decide (Lookup (mn_client n) = country)) as [Hc|Hne].
  - rewrite decide_True in H by done. rewrite <- H, Nat.add_1_r. rewrite (counts_sub _ _ _ exact); [done|].
    pose proof (open_le_all country ns). pose proof (all_le_length country ns). lia.
  - rewrite decide_False in H by naive_solver. f_equal. lia.
Qed.

Lemma leave_counted i n w :
  counted w → (fget w : networks) !! i = Some n → length (fget w : networks) ≤ limit →
  ∃ w2, leave i n w = Done (tt, w2) ∧ wf_collector F (fget w2) ∧
    (fget w2 : networks) = alter leaving i (fget w : networks) ∧
    (∀ country, value_of F MetricNameCurrentConnections (country_labels country) (fget w2)
       = of_nat (open_from country (alter leaving i (fget w : networks)))) ∧
    (∀ country, value_of F MetricNameConnections (country_labels country) (fget w2)
       = of_nat (all_from country (fget w))).
Proof.
  intros [Hwf Ho Ha _] Hn Hlim. unfold leave. rewrite (bind_done _ _ _ _ _ (eq_refl : update_network i _ w = _)).
  set (w1 := fset (alter (set_mn_lock true) i (fget w : networks)) w).
  assert ((fget w1 : networks) = alter (set_mn_lock true) i (fget w : networks)) as N1 by apply fget_fset.
  assert ((fget w1 : collector F) = fget w) as C1 by apply fget_other_l.
  destruct (mn_disconnected n) eqn:Ed.
  - exists w1. assert (alter leaving i (fget w : networks) = fget w1) as En.
    { rewrite N1. apply list_eq. intros j. destruct (decide (i = j)) as [<-|]; [|by rewrite !list_lookup_alter_ne].
      rewrite !list_lookup_alter_eq, Hn. cbn. unfold leaving, set_mn_disconnected, set_mn_lock. cbn. by rewrite Ed. }
    rewrite En. split; [done|]. rewrite C1. split_and!; [done..| |done]. intros country. rewrite Ho. f_equal.
    rewrite N1. pose proof (open_count_alter country (fget w) i n (set_mn_lock true) Hn eq_refl) as H. cbn in H.
    rewrite Ed in H. rewrite !decide_False in H by naive_solver. lia.
  - destruct (update_bumped MetricNameCurrentConnections (mn_client n) (λ v, f_sub F v (f_one F)) w1)
      as (w2 & E2 & N2 & Wf2 & V2 & O2 & X2); [by rewrite C1|].
    unfold gaugeGeo_Decrement, gaugeGeo_DecrementBy. cbn [handle_name currentConnectionsMetric counting].
    rewrite (bind_done _ _ _ _ _ E2). unfold update_network. eexists. split; [reflexivity|].
    rewrite fget_other_l, fget_fset, N2, N1, (alter_twice _ _ leaving i n) by done.
    split_and!; [done..| |].
    + intros country. rewrite (open_leaving _ _ _ n) by done. case_decide as Hc.
      * rewrite <- Hc, V2, C1, Ho. done.
      * by rewrite O2, C1, Ho by done.
    + intros country. by rewrite X2, C1, Ha.
Qed.

Lemma recorded_gone i ns :
  recorded (alter (set_mn_lock false) i (alter leaving i ns)) = alter (λ c, (c.1, false)) i (recorded ns).
Proof.
  unfold recorded. apply list_eq. intros j. rewrite list_lookup_fmap. destruct (decide (i = j)) as [<-|Hne].
  - rewrite !list_lookup_alter_eq, list_lookup_fmap. by destruct (ns !! i).
  - by rewrite !list_lookup_alter_ne, list_lookup_fmap.
Qed.

Lemma gone_counted i w :
  counted w → i < length (fget w : networks) → length (fget w : networks) ≤ limit →
  wp (step (Gone i)) w (keeps_up (Gone i) w).
Proof.
  intros Hc Hi Hlim. destruct (lookup_lt_is_Some_2 (fget w : networks) i Hi) as [n Hn].
  destruct (leave_counted i n w Hc Hn Hlim) as (w2 & E2 & Wf2 & N2 & O2 & A2). destruct Hc as [_ _ _ Hl].
  unfold step, metrics_OnDisconnect. apply wp_bind. unfold wp at 1. rewrite (bind_network_at _ i n) by done.
  rewrite (Forall_lookup_1 _ _ _ _ Hl Hn). rewrite <- bind_bind. fold (leave i n). rewrite (bind_done _ _ _ _ _ E2).
  destruct (proj2 (proj2 (networks_mind i)) w2 Wf2) as (a & w3 & E3 & N3 & Wf3 & V3).
  rewrite (bind_done _ _ _ _ _ E3). unfold update_network. apply wp_ret.
  split; [constructor|]; rewrite ?fget_other_l, ?fget_fset, ?N3, ?N2; [done|..|by apply recorded_gone].
  - intros country. rewrite V3 by (unfold own_metrics; set_solver). rewrite O2. f_equal.
    pose proof (open_count_alter country (alter leaving i (fget w : networks)) i (leaving n) (set_mn_lock false)) as H2.
    rewrite list_lookup_alter_eq, Hn in H2. specialize (H2 eq_refl eq_refl). cbn in H2.
    rewrite !decide_False in H2 by naive_solver. lia.
  - intros country. rewrite V3 by (unfold own_metrics; set_solver). rewrite A2. f_equal.
    rewrite (all_count_alter country (alter leaving i (fget w : networks)) i (leaving n)), (all_count_alter country (fget w) i n); [done..| |done].
    by rewrite list_lookup_alter_eq, Hn.
  - apply Forall_forall. intros x [j Hj]%list_elem_of_lookup. destruct (decide (i = j)) as [<-|Hne].
    + rewrite !list_lookup_alter_eq, Hn in Hj. by injection Hj as <-.
    + rewrite !list_lookup_alter_ne in Hj by done. by apply (Forall_lookup_1 _ _ _ _ Hl Hj).
Qed.

(** ** Any sequence of events *)

(** An event concerns a connection that was made. *)
Definition known (e : connection_event) (k : nat) : Prop :=
  match e with Connect _ => True | HandshakeOk i _ | HandshakeBad i _ _ | Gone i => i < k end.

(** Events one after the other, with the ledger of them. *)
Inductive observed (w : W) : list connection_event → ledger → W → Prop :=
| no_event : observed w [] [] w
| next_event es e l w1 a w2 :
    observed w es l w1 → known e (length l) → step e w1 = Done (a, w2) → observed w (es ++ [e]) (enter e a l) w2.

Lemma length_recorded ns : length (recorded ns) = length ns.
Proof. apply length_fmap. Qed.

Lemma length_enter e a l : length (enter e a l) ≤ S (length l).
Proof. destruct e, a; cbn; rewrite ?length_app, ?length_alter; cbn; lia. Qed.

Lemma step_counted e w :
  counted w → known e (length (fget w : networks)) → length (fget w : networks) < limit →
  wp (step e) w (keeps_up e w).
Proof.
  intros Hc Hk Hl. destruct e as [meta|i meta|i meta reason|i]; cbn in Hk.
  - by apply connect_counted.
  - by apply handshake_ok_counted.
  - by apply handshake_bad_counted.
  - apply gone_counted; [done..|lia].
Qed.

Lemma observed_counted w es l w' :
  observed w es l w' → counted w → (fget w : networks) = [] → length es < limit →
  counted w' ∧ recorded (fget w') = l ∧ length l ≤ length es.
Proof.
  intros Ho Hc En. induction Ho as [|es e l w1 a w2 Ho IH Hk E]; intros Hl; [by rewrite En|].
  rewrite length_app in *. cbn in *. destruct IH as (Hc1 & <- & Hl1); [lia|]. rewrite length_recorded in *.
  pose proof (step_counted e w1 Hc1 Hk) as Hs. unfold wp in Hs. rewrite E in Hs.
  destruct Hs as (Hc2 & El); [lia|]. split; [done|]. split; [done|].
  pose proof (length_enter e a (recorded (fget w1))). rewrite length_recorded in *. lia.
Qed.

(** The store when the server starts: nothing has been counted. *)
Definition fresh (w : W) : Prop := fget w = new_collector F ∧ (fget w : networks) = [].

Lemma MustCreate_new ty name unit_ help (w : W) :
  metricsMap F (fget w) !! name = None →
  ∃ w', MustCreate F ty name unit_ help w = Done (MkHandle name [], w') ∧
    metricsMap F (fget w') = <[name := MkMetric name help unit_ ty]> (metricsMap F (fget w)) ∧
    values F (fget w') = values F (fget w) ∧ (fget w' : networks) = fget w.
Proof.
  intros E. unfold MustCreate, create, createMetric, prog_bind. rewrite E. eexists. split; [reflexivity|].
  by rewrite fget_fset, fget_other_r.
Qed.

Lemma fresh_handler w :
  fresh w → ∃ w', metricsintegration_NewHandler F Lookup true backend w = Done (metrics_handler F Lookup backend counting, w') ∧
    counted w' ∧ (fget w' : networks) = [].
Proof.
  intros [Ec En]. unfold metricsintegration_NewHandler, MustCreateCounterGeo, MustCreateGaugeGeo. cbn [negb].
  edestruct (MustCreate_new MetricTypeCounter MetricNameConnections) as (w1 & E1 & M1 & V1 & N1); [by rewrite Ec|].
  edestruct (MustCreate_new MetricTypeGauge MetricNameCurrentConnections) as (w2 & E2 & M2 & V2 & N2); [by rewrite M1, Ec|].
  edestruct (MustCreate_new MetricTypeCounter MetricNameSuccessfulHandshake) as (w3 & E3 & M3 & V3 & N3); [by rewrite M2, M1, Ec|].
  edestruct (MustCreate_new MetricTypeCounter MetricNameFailedHandshake) as (w4 & E4 & M4 & V4 & N4); [by rewrite M3, M2, M1, Ec|].
  exists w4. rewrite (bind_done _ _ _ _ _ E1), (bind_done _ _ _ _ _ E2), (bind_done _ _ _ _ _ E3), (bind_done _ _ _ _ _ E4).
  assert (values F (fget w4) = ∅) as Ev by (by rewrite V4, V3, V2, V1, Ec).
  assert ((fget w4 : networks) = []) as En4 by congruence.
  split; [done|]. split; [constructor|done].
  - unfold wf_collector. rewrite Ev. apply map_Forall_empty.
  - intros country. unfold value_of. rewrite Ev, En4. cbn. by rewrite (counts_zero _ _ _ exact).
  - intros country. unfold value_of. rewrite Ev, En4. cbn. by rewrite (counts_zero _ _ _ exact).
  - by rewrite En4.
Qed.

(** Claim C33. From the start of the server on, whatever connections come, shake hands and
    end, however often their end is reported: the gauge of open connections of
    every country is the number of connections that were let in from it and
    whose end has not been reported, the counter of connections the number of
    all that were let in from it, and the handler returns from every call.  Both
    numbers are taken from the events and the answers alone. *)
Theorem gauge_counts_open_connections w0 :
  fresh w0 →
  ∃ w, metricsintegration_NewHandler F Lookup true backend w0 = Done (metrics_handler F Lookup backend counting, w) ∧
  ∀ es l w', observed w es l w' → length es < limit →
    (∀ country, value_of F MetricNameCurrentConnections (country_labels country) (fget w')
                = of_nat (open_in country l)) ∧
    (∀ country, value_of F MetricNameConnections (country_labels country) (fget w')
                = of_nat (all_in country l)) ∧
    (∀ e, known e (length l) → ∃ a w'', step e w' = Done (a, w'')).
Proof.
  intros Hf. destruct (fresh_handler w0 Hf) as (w & E & Hc & En). exists w. split; [done|]. intros es l w' Ho Hl.
  destruct (observed_counted w es l w' Ho Hc En Hl) as (Hc' & <- & Hl'). rewrite length_recorded in Hl'.
  split; [intros country; rewrite open_recorded; exact (counted_open w' Hc' country)|].
  split; [intros country; rewrite all_recorded; exact (counted_all w' Hc' country)|]. intros e Hk. rewrite length_recorded in Hk.
  pose proof (step_counted e w' Hc' Hk) as Hs. unfold wp in Hs.
  destruct (step e w') as [[a w'']| |]; [by exists a, w''|..]; destruct Hs; lia.
Qed.
End connections.

(** ** A server with two clients *)

Module metrics_demo.
Definition F : Float := MkFloat nat 0 1 Nat.add Nat.sub (λ _, false) (λ n, if decide (n = 0) then "0" else "1").
Abbreviation W := (collector F * networks)%type.

Lemma F_counts limit : counts F limit id.
Proof. split; [done|cbn; lia..|done]. Qed.

Definition country_of (ip : list byte) : string := if decide (ip = [x7f; x00; x00; x01]) then "XX" else "HU".
Definition accepting : Handler W :=
  {| OnReady := prog_ret None;
     OnHandlerShutdown := λ _, prog_ret tt;
     OnNetworkConnection := λ meta, prog_ret (Some nil_NetworkConnectionHandler, meta, None) |}.
Definition quiet (_ : nat) : NetworkConnectionHandler W :=
  {| OnAuthPassword := OnAuthPassword nil_NetworkConnectionHandler;
     OnAuthPubKey := OnAuthPubKey nil_NetworkConnectionHandler;
     OnAuthKeyboardInteractive := OnAuthKeyboardInteractive nil_NetworkConnectionHandler;
     OnAuthGSSAPI := OnAuthGSSAPI nil_NetworkConnectionHandler;
     OnHandshakeFailed := λ _ _, prog_ret tt;
     OnHandshakeSuccess := λ meta, prog_ret (None, meta, None);
     OnDisconnect := prog_ret tt;
     OnNetShutdown := λ _, prog_ret tt |}.

Lemma ret_minds {A} (a : A) : minds_own_metrics F (W := W) (prog_ret a).
Proof. intros w Hw. by exists a, w. Qed.

Definition from_home : ConnectionMetadata := pending_conn (auth_pending demo_authenticated).

(** Two clients come and one leaves, which is reported twice. *)
Definition events : list connection_event := [Connect from_home; Connect from_home; Gone 0; Gone 0].

Definition after {A} (r : outcome (A * W)) (w : W) : W := match r with Done (_, w') => w' | _ => w end.
Definition start : W := after (metricsintegration_NewHandler F country_of true accepting (new_collector F, [])) (new_collector F, []).
Definition next (lw : list (list byte * bool) * W) (e : connection_event) : list (list byte * bool) * W :=
  match step F country_of accepting quiet e lw.2 with
  | Done (a, w') => (enter e a lw.1, w')
  | _ => lw
  end.
Definition final : list (list byte * bool) * W := foldl next ([], start) events.

Definition returns (w : W) (e : connection_event) : bool :=
  match step F country_of accepting quiet e w with Done _ => true | _ => false end.

Lemma observe es lw e :
  observed F country_of accepting quiet start es lw.1 lw.2 → known e (length lw.1) → returns lw.2 e = true →
  observed F country_of accepting quiet start (es ++ [e]) (next lw e).1 (next lw e).2.
Proof.
  intros Ho Hk Hr. unfold returns, next in *. destruct (step F country_of accepting quiet e lw.2) as [[a w']| |] eqn:E; [|done..].
  by eapply next_event.
Qed.

Lemma gauge_counts_open_connections_witness :
  observed F country_of accepting quiet start events final.1 final.2 ∧
  value_of F MetricNameCurrentConnections (country_labels "HU") (fget final.2) = 1 ∧
  value_of F MetricNameConnections (country_labels "HU") (fget final.2) = 2.
Proof.
  assert (observed F country_of accepting quiet start events final.1 final.2) as Ho.
  { change events with ([] ++ [Connect from_home] ++ [Connect from_home] ++ [Gone 0] ++ [Gone 0]). rewrite !app_assoc.
    unfold final, events. cbn [foldl].
    do 4 (apply observe; [|vm_compute; first [exact I|lia]|vm_compute; reflexivity]). constructor. }
  split; [exact Ho|].
  destruct (gauge_counts_open_connections F country_of accepting quiet 10 id (F_counts 10)
              (λ meta, ret_minds _) (λ i, conj (λ meta, ret_minds _) (conj (λ meta reason, ret_minds _) (ret_minds _)))
              (new_collector F, []) (conj eq_refl eq_refl)) as (w & E & H).
  assert (w = start) as -> by (unfold start; by rewrite E).
  destruct (H events final.1 final.2 Ho) as (H1 & H2 & _); [cbn; lia|]. rewrite H1, H2. split; vm_compute; reflexivity.
Defined.

Definition label_pair : gmap string string := {[ "country" := "HU"; "type" := "pass" ]}.

Lemma plain_two k v k' v' : no_equals k → no_equals k' → plain_labels {[ k := v; k' := v' ]}.
Proof. intros H H'. apply map_Forall_insert_2; [done|]. by apply map_Forall_singleton. Qed.

Lemma series_are_distinct_witness :
  plain_labels label_pair ∧ label_pair = {[ "type" := "pass"; "country" := "HU" ]}.
Proof.
  assert (no_equals "country" ∧ no_equals "type") as [H1 H2].
  { split; apply (bool_decide_unpack _); vm_compute; exact I. }
  split; [by apply plain_two|].
  apply (series_are_distinct "auth" label_pair); [by apply plain_two| by apply plain_two|by vm_compute].
Defined.
End metrics_demo.
