(* ===== verification/Endpoints.v ===== *)
(** * Health check, metrics endpoint and GeoIP lookup

    [internal/health]: the service that tells whether the server is up and the
    client that asks it.  [internal/metrics/server.go],
    [internal/metrics/server_handler.go]: the text of the collector over HTTP.
    [internal/geoip]: the choice of a lookup and its fallback. *)

From stdpp Require Import base gmap strings list.
From Stdlib Require Import Ascii Strings.Byte.
From S2P Require Import Prelude Messages MetadataJSON Handler GoStrings ConfigHTTP Http AppConfig Metrics WebhookSpec.

Local Open Scope Z_scope.

(** ** The health check *)

(** The object shared by the HTTP handler and [ChangeStatus]. *)
Record health_requestHandler := MkHealthRequestHandler { health_ok : bool }.

Definition text_body (s : string) : body := MkBody (DString s) (inl (JString (coerce_utf8 s))).

Section health.
Context {W : Type} `{!Field W health_requestHandler}.

Definition ChangeStatus (ok : bool) : prog W unit := λ w, Done (tt, fset (MkHealthRequestHandler ok) w).

Definition health_OnRequest : RequestHandler W :=
  λ _ response w,
    if health_ok (fget w) then Done (MkServerResponse (statusCode response) (text_body "ok"), None, w)
    else Done (MkServerResponse 503 (text_body "not ok"), None, w).

(** [health.New]: the configuration and the handler of the service. *)
Definition health_New (lib : Library) (cfg : HealthConfig)
  : outcome ((HTTPServerConfiguration * option tls_Config * http_handler W) + error) :=
  match HealthConfig_Validate lib cfg with
  | Some err => Done (inr err)
  | None =>
      match NewServer lib (health_HTTPServer cfg) with
      | Done (inl (config, tls)) => Done (inl (config, tls, NewServerHandlerNegotiate health_OnRequest))
      | Done (inr err) => Done (inr err)
      | Panic why => Panic why
      | Blocked why => Blocked why
      end
  end.

(** [health.NewClient]: no client when the check is disabled. *)
Definition health_NewClient (lib : Library) (cfg : HealthConfig) : outcome (option client + error) :=
  if negb (health_Enable cfg) then Done (inl None)
  else
    match HealthConfig_Validate lib cfg with
    | Some err => Done (inr (wrap_error "invalid health check configuration" err))
    | None =>
        match NewClient lib (health_Client cfg) with
        | Done (inl c) => Done (inl (Some c))
        | Done (inr err) => Done (inr (wrap_error "failed to create health check client" err))
        | Panic why => Panic why
        | Blocked why => Blocked why
        end
    end.

(** The JSON text a response is read into. *)
Definition decode_string : option (bool → json → outcome (string * option error)) :=
  Some (λ _ j, Done (match j with
                     | JString s => (s, None)
                     | JNull => ("", None)
                     | _ => ("", Some (ErrorString "json: cannot unmarshal into Go value of type string"))
                     end)).

(** [healthCheckClient.Run]: an error is only logged, the status decides. *)
Definition health_Run (NewRequest : string → string → option error)
    (Do : http_Client → http_Request → prog W (http_Response + error)) (c : client) : prog W bool :=
  let* '(statusCode, err, _) := client_Get NewRequest Do c "" decode_string in
  prog_ret (bool_decide (statusCode = 200)).
End health.

(** ** The metrics endpoint *)

Section metrics.
Context (F : Float) {W : Type} `{!Field W (collector F)}.

Definition metrics_ServeHTTP (path : string) (request : server_request) (writer : ResponseWriter) : prog W ResponseWriter :=
  λ w,
  if decide (path ≠ sr_Path request) then Done (WriteHeader 404 writer, w)
  else
    let writer := MkResponseWriter
      (Header_Set "Content-Type" "application/openmetrics-text; version=1.0.0; charset=utf-8" (rw_header writer))
      (rw_sent writer) (rw_body writer) in
    let writer := WriteHeader 200 writer in
    Done (writer_Write (Text (collector_String F (fget w))) writer, w).

(** [metrics.NewServer]: no server when metrics are disabled. *)
Definition metrics_NewServer (lib : Library) (cfg : MetricsConfig)
  : outcome (option (HTTPServerConfiguration * option tls_Config * (server_request → ResponseWriter → prog W ResponseWriter)) + error) :=
  if negb (metrics_Enable cfg) then Done (inl None)
  else
    match NewServer lib (metrics_HTTPServer cfg) with
    | Done (inl (config, tls)) => Done (inl (Some (config, tls, metrics_ServeHTTP (metrics_Path cfg))))
    | Done (inr err) => Done (inr err)
    | Panic why => Panic why
    | Blocked why => Blocked why
    end.
End metrics.

(** ** GeoIP *)

(** [oschwald.New] and [Lookup]: the country database opens a file and answers
    with an ISO code or an error. *)
Definition oschwald_Lookup (Country : list byte → string + error) (remoteAddr : list byte) : string :=
  match Country remoteAddr with
  | inr _ => "XX"
  | inl IsoCode => if decide (IsoCode = "") then "XX" else IsoCode
  end.

Definition dummy_Lookup (_ : list byte) : string := "XX".

Definition geoip_New (lib : Library) (Open : string → (list byte → string + error) + error) (cfg : GeoIPConfig)
  : (list byte → string) + error :=
  match GeoIPConfig_Validate lib cfg with
  | Some err => inr err
  | None =>
      if decide (geo_Provider cfg = "dummy") then inl dummy_Lookup
      else if decide (geo_Provider cfg = "maxmind") then
        match Open (geo_GeoIP2File cfg) with
        | inl Country => inl (oschwald_Lookup Country)
        | inr err => inr err
        end
      else inr (Errorf "invalid provider: %s" [VString (geo_Provider cfg)])
  end.

(** ** The client sees the state of the service *)

Lemma new_client_encoding lib config c :
  NewClient lib config = Done (inl c) →
  cl_config c = config ∧ cl_extraHeaders c = [] ∧
  (hc_RequestEncoding config = "" ∨ hc_RequestEncoding config = "JSON" ∨ hc_RequestEncoding config = "WWW-URLENCODED").
Proof.
  unfold NewClient, NewClientWithHeaders. destruct (HTTPClient_ValidateWithCerts lib config) as [certs|] eqn:E; [|done].
  destruct (createTLSConfig config certs); [|done..]. intros [= <-]. split_and!; [done..|]. revert E.
  unfold HTTPClient_ValidateWithCerts. destruct (url_ParseRequestURI _ _); [done|]. case_decide; [done|].
  destruct (validateCACert lib config) as [pool|err]; [|by destruct (wrap (Some err) "cacert")].
  unfold RequestEncoding_Validate. repeat (case_decide; [by auto|]). done.
Qed.

Section exchange.
Context {W : Type} `{!Field W health_requestHandler}.
Context {float : Type} (one : float) (greater : float → float → bool) (ParseFloat : string → option float).
Context (path_of : string → string).

(** The network between a client and the service: the handler gets the request,
    the client the response. *)
Definition health_delivered : http_Client → http_Request → prog W (http_Response + error) :=
  λ _ r, let* rw := ServeHTTP one greater ParseFloat (NewServerHandlerNegotiate health_OnRequest) (received path_of r) new_writer in
         prog_ret (inl (response_from rw)).

Lemma header_get_set key value h : Header_Get key (Header_Set key value h) = value.
Proof. unfold Header_Get, Header_Set. by rewrite lookup_insert_eq. Qed.

(** What the client gets back, whatever encoding it uses for requests. *)
Lemma health_answer r (w : W) hc :
  Header_Get "Accept" (rq_Header r) = "application/json" →
  health_delivered hc r w =
  Done (inl (if health_ok (fget w) then MkHttpResponse 200 (inl (Some (JString "ok")))
             else MkHttpResponse 503 (inl (Some (JString "not ok")))), w).
Proof.
  intros Ha. unfold health_delivered, ServeHTTP, health_OnRequest, prog_bind, findMarshaller. cbn [requestHandler NewServerHandlerNegotiate sr_Header received].
  rewrite Ha. by destruct (health_ok (fget w)).
Qed.

(** Claim C34. The health check succeeds exactly when the service was last told that all is
    well, for every client the configuration allows. *)
Theorem health_check_agrees lib cfg c NewRequest (ok : bool) (w : W) :
  health_NewClient lib cfg = Done (inl (Some c)) →
  NewRequest "GET" (hc_URL (health_Client cfg) ++ "")%string = None →
  (do* ChangeStatus ok in health_Run NewRequest health_delivered c) w = Done (ok, fset (MkHealthRequestHandler ok) w).
Proof.
  unfold health_NewClient. destruct (negb _); [done|]. destruct (HealthConfig_Validate lib cfg); [done|].
  destruct (NewClient lib (health_Client cfg)) as [[c'|err]| |] eqn:E; [|done..]. intros [= ->] Hn.
  apply new_client_encoding in E as (Ec & Eh & He). rewrite (bind_done _ _ _ _ _ (eq_refl : ChangeStatus ok w = _)).
  assert (∃ h, createRequestForURL NewRequest c "GET" (hc_URL (cl_config c) ++ "") None
                 = Done (inl (MkHttpRequest "GET" (hc_URL (cl_config c) ++ "") h NoContent)) ∧
               Header_Get "Accept" h = "application/json") as (h & E & Ha).
  { unfold createRequestForURL. rewrite Ec, Hn. destruct (decide (_ ∨ _)).
    { eexists. split; [reflexivity|]. apply header_get_set. }
    rewrite decide_True by naive_solver. eexists. split; [reflexivity|]. apply header_get_set. }
  unfold health_Run, client_Get, request, requestURLWithLogger. rewrite E. cbn [of_outcome].
  unfold prog_bind. cbn [of_outcome]. rewrite health_answer by done. rewrite fget_fset. by destruct ok.
Qed.
End exchange.

(** ** A service that goes down *)

Module endpoints_demo.
Definition lib : Library :=
  MkLibrary (λ _, inl false) (λ _, inl []) (λ _, None) (λ _, None) (λ _, None) (λ _ _, None) (λ _, true) None (λ _ _, None)
    (λ _, "").
Definition cfg : HealthConfig :=
  MkHealthConfig true (MkHTTPServerConfiguration "127.0.0.1:23074" "" "" "" "1.2" [] [])
    (MkHTTPClientConfiguration "http://127.0.0.1:23074" false (5 * Second) "" "" "" "1.2" [] [] "WWW-URLENCODED").
Definition c : client := MkClient (health_Client cfg) None [] false.

Lemma health_check_agrees_witness :
  (do* ChangeStatus false in
   health_Run (λ _ _, None) (health_delivered 1 Z.gtb (λ _, None) (λ _, "/")) c) (MkHealthRequestHandler true)
  = Done (false, MkHealthRequestHandler false).
Proof.
  refine (health_check_agrees 1 Z.gtb (λ _, None) (λ _, "/") lib cfg c (λ _ _, None) false (MkHealthRequestHandler true) _ _);
    vm_compute; reflexivity.
Defined.
End endpoints_demo.
