(* ===== verification/Lifecycle.v ===== *)
(** * Service lifecycles

    [service/lifecycle_impl.go] and [service/lifecycle_factory.go]: the state of
    a service, its hooks, and how it is run, stopped and waited for. *)

From stdpp Require Import base gmap strings list.
From S2P Require Import Prelude Messages.

(** [service.State] *)
Inductive State :=
| StateStopped
| StateStarting
| StateRunning
| StateStopping
| StateCrashed.

#[export] Instance State_eq_dec : EqDecision State.
Proof. solve_decision. Defined.

(** What a hook was called with; hooks are named by numbers. *)
Inductive hook_call :=
| CallStateChange (hook : nat) (s : State)
| CallStarting (hook : nat)
| CallRunning (hook : nat)
| CallStopping (hook : nat) (shutdownContext : nat)
| CallStopped (hook : nat)
| CallCrashed (hook : nat) (err : error).

(** The background context. *)
Definition Background : nat := 0.

(** [lf_mutex]: a call has returned without unlocking; [lf_cancelled]: the
    running context has been cancelled; [lf_waitContext]: nil, or whether it has
    been cancelled; [lf_calls]: the hook calls made, those of one list in the
    order of the list although they run concurrently. *)
Record lifecycle := MkLifecycle {
  lf_state : State;
  lf_mutex : bool;
  lf_cancelled : bool;
  lf_shutdownContext : option nat;
  lf_lastError : option error;
  lf_waitContext : option bool;
  lf_onStateChange : list nat;
  lf_onStarting : list nat;
  lf_onRunning : list nat;
  lf_onStopping : list nat;
  lf_onStopped : list nat;
  lf_onCrashed : list nat;
  lf_calls : list hook_call;
}.

Definition NewLifecycle : lifecycle :=
  MkLifecycle StateStopped false false (Some Background) None None [] [] [] [] [] [] [].

Definition set_lf_mutex (b : bool) (l : lifecycle) : lifecycle :=
  MkLifecycle (lf_state l) b (lf_cancelled l) (lf_shutdownContext l) (lf_lastError l) (lf_waitContext l)
    (lf_onStateChange l) (lf_onStarting l) (lf_onRunning l) (lf_onStopping l) (lf_onStopped l) (lf_onCrashed l)
    (lf_calls l).
Definition set_lf_state (s : State) (l : lifecycle) : lifecycle :=
  MkLifecycle s (lf_mutex l) (lf_cancelled l) (lf_shutdownContext l) (lf_lastError l) (lf_waitContext l)
    (lf_onStateChange l) (lf_onStarting l) (lf_onRunning l) (lf_onStopping l) (lf_onStopped l) (lf_onCrashed l)
    (lf_calls l).
Definition set_lf_cancelled (l : lifecycle) : lifecycle :=
  MkLifecycle (lf_state l) (lf_mutex l) true (lf_shutdownContext l) (lf_lastError l) (lf_waitContext l)
    (lf_onStateChange l) (lf_onStarting l) (lf_onRunning l) (lf_onStopping l) (lf_onStopped l) (lf_onCrashed l)
    (lf_calls l).
Definition set_lf_shutdownContext (c : nat) (l : lifecycle) : lifecycle :=
  MkLifecycle (lf_state l) (lf_mutex l) (lf_cancelled l) (Some c) (lf_lastError l) (lf_waitContext l)
    (lf_onStateChange l) (lf_onStarting l) (lf_onRunning l) (lf_onStopping l) (lf_onStopped l) (lf_onCrashed l)
    (lf_calls l).
Definition set_lf_lastError (e : option error) (l : lifecycle) : lifecycle :=
  MkLifecycle (lf_state l) (lf_mutex l) (lf_cancelled l) (lf_shutdownContext l) e (lf_waitContext l)
    (lf_onStateChange l) (lf_onStarting l) (lf_onRunning l) (lf_onStopping l) (lf_onStopped l) (lf_onCrashed l)
    (lf_calls l).
Definition set_lf_waitContext (b : option bool) (l : lifecycle) : lifecycle :=
  MkLifecycle (lf_state l) (lf_mutex l) (lf_cancelled l) (lf_shutdownContext l) (lf_lastError l) b
    (lf_onStateChange l) (lf_onStarting l) (lf_onRunning l) (lf_onStopping l) (lf_onStopped l) (lf_onCrashed l)
    (lf_calls l).
Definition add_lf_calls (cs : list hook_call) (l : lifecycle) : lifecycle :=
  MkLifecycle (lf_state l) (lf_mutex l) (lf_cancelled l) (lf_shutdownContext l) (lf_lastError l) (lf_waitContext l)
    (lf_onStateChange l) (lf_onStarting l) (lf_onRunning l) (lf_onStopping l) (lf_onStopped l) (lf_onCrashed l)
    (lf_calls l ++ cs).

Abbreviation lfcall A := (prog lifecycle A).

Definition mutex_Lock : lfcall unit :=
  let* l := get in
  if lf_mutex l then block "mutex" else put (set_lf_mutex true l).
Definition mutex_Unlock : lfcall unit := modify (set_lf_mutex false).

(** ** Reading the lifecycle *)

Definition ShouldStop : lfcall bool :=
  do* mutex_Lock in
  let* l := get in
  do* mutex_Unlock in
  prog_ret (lf_cancelled l).

(** In the final states [Wait] returns before it unlocks. *)
Definition Wait : lfcall (option error) :=
  do* mutex_Lock in
  let* l := get in
  if decide (lf_state l = StateCrashed) then prog_ret (lf_lastError l)
  else if decide (lf_state l = StateStopped) then prog_ret None
  else
    do* mutex_Unlock in
    match lf_waitContext l with
    | Some false => block "waitContext"
    | _ => let* l := get in prog_ret (lf_lastError l)
    end.

(** ** Hooks *)

Definition stateChange (s : State) : lfcall unit :=
  modify (λ l, add_lf_calls ((λ h, CallStateChange h s) <$> lf_onStateChange l) l).

Definition starting : lfcall unit :=
  do* mutex_Lock in
  do* modify (set_lf_state StateStarting) in
  do* mutex_Unlock in
  do* stateChange StateStarting in
  modify (λ l, add_lf_calls (CallStarting <$> lf_onStarting l) l).

Definition lifecycle_Running : lfcall unit :=
  do* mutex_Lock in
  do* modify (set_lf_state StateRunning) in
  do* mutex_Unlock in
  do* stateChange StateRunning in
  modify (λ l, add_lf_calls (CallRunning <$> lf_onRunning l) l).

Definition lifecycle_Stopping : lfcall nat :=
  do* mutex_Lock in
  let* l := get in
  let shutdownContext := default Background (lf_shutdownContext l) in
  do* modify (set_lf_shutdownContext shutdownContext) in
  do* modify (set_lf_state StateStopping) in
  let* l := get in
  let handlers := lf_onStopping l in
  do* mutex_Unlock in
  do* stateChange StateStopping in
  do* modify (add_lf_calls ((λ h, CallStopping h shutdownContext) <$> handlers)) in
  prog_ret shutdownContext.

Definition stopped : lfcall unit :=
  do* mutex_Lock in
  do* modify (set_lf_state StateStopped) in
  do* mutex_Unlock in
  do* stateChange StateStopped in
  modify (λ l, add_lf_calls (CallStopped <$> lf_onStopped l) l).

Definition crashed (err : error) : lfcall unit :=
  do* mutex_Lock in
  do* modify (set_lf_lastError (Some err)) in
  do* modify (set_lf_state StateCrashed) in
  do* mutex_Unlock in
  do* stateChange StateCrashed in
  modify (λ l, add_lf_calls ((λ h, CallCrashed h err) <$> lf_onCrashed l) l).

(** ** Running and stopping *)

(** [cancelRun] makes the service's running context expire; the service then
    finishes in its own goroutine, which is what [Wait] waits for. *)
Definition Stop_request (shutdownContext : nat) : lfcall bool :=
  do* mutex_Lock in
  let* l := get in
  if decide (lf_state l = StateStopping ∨ lf_state l = StateStopped ∨ lf_state l = StateCrashed) then
    do* mutex_Unlock in prog_ret false
  else
    do* modify (set_lf_shutdownContext shutdownContext) in
    do* mutex_Unlock in
    do* modify set_lf_cancelled in
    prog_ret true.

Definition Stop (shutdownContext : nat) : lfcall unit :=
  let* wait := Stop_request shutdownContext in
  if (wait : bool) then let* _ := Wait in prog_ret tt else prog_ret tt.

(** [service] is the call of [RunWithLifecycle]: it returns an error or nil, or
    panics, which [Run] recovers from; then [Run] returns nil. *)
Definition Run (service : lfcall (option error + string)) : lfcall (option error) :=
  do* modify (set_lf_lastError None) in
  do* modify (set_lf_waitContext (Some false)) in
  do* starting in
  let* result := service in
  let* err :=
    match result with
    | inl (Some err) => do* crashed err in prog_ret (Some err)
    | inl None => do* stopped in prog_ret None
    | inr crash =>
        do* crashed (ErrorString (Sprintf "service paniced (%v)" [VString crash])) in prog_ret None
    end in
  do* modify (set_lf_waitContext (Some true)) in
  prog_ret err.

(** ** Registering hooks *)

Inductive hook_kind := OnStateChange | OnStarting | OnRunning | OnStopping | OnStopped | OnCrashed.

Definition add_hook (k : hook_kind) (h : nat) (l : lifecycle) : lifecycle :=
  MkLifecycle (lf_state l) (lf_mutex l) (lf_cancelled l) (lf_shutdownContext l) (lf_lastError l) (lf_waitContext l)
    (match k with OnStateChange => lf_onStateChange l ++ [h] | _ => lf_onStateChange l end)
    (match k with OnStarting => lf_onStarting l ++ [h] | _ => lf_onStarting l end)
    (match k with OnRunning => lf_onRunning l ++ [h] | _ => lf_onRunning l end)
    (match k with OnStopping => lf_onStopping l ++ [h] | _ => lf_onStopping l end)
    (match k with OnStopped => lf_onStopped l ++ [h] | _ => lf_onStopped l end)
    (match k with OnCrashed => lf_onCrashed l ++ [h] | _ => lf_onCrashed l end)
    (lf_calls l).

Definition register_hook (k : hook_kind) (h : nat) : lfcall unit :=
  do* mutex_Lock in
  do* modify (add_hook k h) in
  mutex_Unlock.
