(* ===== verification/LifecycleSpec.v ===== *)
(** * What a lifecycle promises

    Theorems on [Lifecycle]: how a run ends, what the hooks see, and what
    waiting for a service that has ended does to its lifecycle. *)

From stdpp Require Import base gmap strings list.
From S2P Require Import Prelude Messages Lifecycle.

(** ** A run from start to end *)

(** The final state and error of a service's result. *)
Definition final_state (r : option error + string) : State :=
  match r with inl None => StateStopped | _ => StateCrashed end.
Definition final_error (r : option error + string) : option error :=
  match r with
  | inl e => e
  | inr crash => Some (ErrorString (Sprintf "service paniced (%v)" [VString crash]))
  end.
Definition final_calls (r : option error + string) (l : lifecycle) : list hook_call :=
  ((λ h, CallStateChange h (final_state r)) <$> lf_onStateChange l) ++
  match final_error r with
  | None => CallStopped <$> lf_onStopped l
  | Some e => (λ h, CallCrashed h e) <$> lf_onCrashed l
  end.

(** What the service finds when it is called. *)
Definition started (l : lifecycle) : lifecycle :=
  add_lf_calls (((λ h, CallStateChange h StateStarting) <$> lf_onStateChange l) ++ (CallStarting <$> lf_onStarting l))
    (set_lf_state StateStarting (set_lf_waitContext (Some false) (set_lf_lastError None l))).

Lemma starting_effect l :
  lf_mutex l = false →
  starting (set_lf_waitContext (Some false) (set_lf_lastError None l)) = Done (tt, started l).
Proof.
  intros Hm. unfold starting, mutex_Lock, mutex_Unlock, stateChange. run_prog. cbn. rewrite Hm. cbn.
  unfold started, add_lf_calls. cbn. by rewrite Hm, <- app_assoc.
Qed.

(** A service that is run while the mutex is free and that leaves it free when
    it finishes: the run ends, in the stopped state if the service returned
    without error and in the crashed state if it returned an error or panicked;
    the error is kept for [Wait] and [Error]; every state-change hook and every
    stopped or crashed hook is called exactly once more; waiters are released.
    [Run] itself reports a returned error but not a panic. *)
Theorem lifecycle_run_ends l service r l1 :
  lf_mutex l = false →
  service (started l) = Done (r, l1) → lf_mutex l1 = false → lf_lastError l1 = None →
  ∃ l2, Run service l = Done (match r with inl e => e | inr _ => None end, l2) ∧
    lf_state l2 = final_state r ∧ lf_lastError l2 = final_error r ∧
    lf_waitContext l2 = Some true ∧ lf_mutex l2 = false ∧
    lf_calls l2 = lf_calls l1 ++ final_calls r l1.
Proof.
  intros Hm Hs Hm1 He. unfold Run, prog_bind at 1 2, modify at 1 2. unfold prog_bind at 1.
  rewrite (starting_effect l Hm). unfold prog_bind at 1. rewrite Hs.
  unfold final_calls.
  destruct r as [[e|]|crash]; unfold crashed, stopped, mutex_Lock, mutex_Unlock, stateChange; run_prog;
    rewrite Hm1; cbn; (eexists; split; [reflexivity|]); cbn; rewrite <- app_assoc; by rewrite ?He.
Qed.

(** ** Waiting for a service that has ended *)

(** Calls that start by locking the mutex. *)
Lemma locked_blocks l {A} (k : unit → prog lifecycle A) :
  lf_mutex l = true → (let* x := mutex_Lock in k x) l = Blocked "mutex".
Proof. intros Hm. unfold mutex_Lock. run_prog. by rewrite Hm. Qed.

(** [Wait] on a service that has stopped or crashed returns the right error, but
    leaves the mutex locked: from then on a second [Wait], [Stop], [ShouldStop],
    [Running], [Stopping], a new [Run] and the registration of hooks all wait
    forever. *)
Theorem wait_after_end_blocks_everything l :
  lf_mutex l = false → lf_state l = StateStopped ∨ lf_state l = StateCrashed →
  ∃ l', Wait l = Done (if decide (lf_state l = StateCrashed) then lf_lastError l else None, l') ∧
    Wait l' = Blocked "mutex" ∧
    (∀ ctx, Stop ctx l' = Blocked "mutex") ∧
    ShouldStop l' = Blocked "mutex" ∧
    lifecycle_Running l' = Blocked "mutex" ∧
    lifecycle_Stopping l' = Blocked "mutex" ∧
    (∀ service, Run service l' = Blocked "mutex") ∧
    (∀ k h, register_hook k h l' = Blocked "mutex").
Proof.
  intros Hm Hs. exists (set_lf_mutex true l). split.
  - unfold Wait, mutex_Lock. run_prog. rewrite Hm. cbn.
    destruct Hs as [Hs|Hs]; rewrite Hs; done.
  - split_and!; intros; try (by apply locked_blocks).
    + unfold Stop, Stop_request, mutex_Lock. run_prog. by cbn.
    + unfold Run, starting, mutex_Lock. run_prog. by cbn.
Qed.

(** ** Stopping *)

(** [Stop] before the service has entered its run, or after it has ended,
    changes nothing: the request is not remembered for the run that follows. *)
Theorem stop_before_start_is_lost l ctx :
  lf_mutex l = false → lf_state l = StateStopped ∨ lf_state l = StateCrashed ∨ lf_state l = StateStopping →
  Stop ctx l = Done (tt, l).
Proof.
  intros Hm Hs. unfold Stop, Stop_request, mutex_Lock, mutex_Unlock. run_prog. rewrite Hm. cbn.
  rewrite decide_True by naive_solver. cbn. unfold set_lf_mutex. cbn. rewrite <- Hm. by destruct l.
Qed.

(** While the service is starting or running a stop request reaches it: the
    service sees that it should stop, with the requested shutdown context. *)
Theorem stop_reaches_running_service l ctx :
  lf_mutex l = false → lf_state l = StateStarting ∨ lf_state l = StateRunning →
  ∃ l', Stop_request ctx l = Done (true, l') ∧
    ShouldStop l' = Done (true, l') ∧
    ∃ l'', lifecycle_Stopping l' = Done (ctx, l'') ∧ lf_state l'' = StateStopping ∧
      lf_calls l'' = lf_calls l ++ ((λ h, CallStateChange h StateStopping) <$> lf_onStateChange l) ++
        ((λ h, CallStopping h ctx) <$> lf_onStopping l).
Proof.
  intros Hm Hs. eexists. split; [|split].
  - unfold Stop_request, mutex_Lock, mutex_Unlock. run_prog. rewrite Hm. cbn.
    rewrite decide_False by (destruct Hs as [-> | ->]; naive_solver). reflexivity.
  - reflexivity.
  - eexists. split.
    + unfold lifecycle_Stopping, mutex_Lock, mutex_Unlock, stateChange. run_prog. cbn. reflexivity.
    + split; [reflexivity|]. cbn. by rewrite <- app_assoc.
Qed.

(** ** A concrete service *)

(** A service that announces itself and ends. *)
Definition demo_service : prog lifecycle (option error + string) :=
  do* lifecycle_Running in let* _ := lifecycle_Stopping in prog_ret (inl None).
Definition demo_lifecycle : lifecycle := add_hook OnStopped 1 (add_hook OnStateChange 7 NewLifecycle).
Definition demo_ended : lifecycle :=
  match Run demo_service demo_lifecycle with Done (_, l) => l | _ => NewLifecycle end.
Definition demo_service_end : lifecycle :=
  match demo_service (started demo_lifecycle) with Done (_, l) => l | _ => NewLifecycle end.

Lemma lifecycle_run_ends_witness :
  ∃ l2, Run demo_service demo_lifecycle = Done (None, l2) ∧
    lf_state l2 = StateStopped ∧ lf_lastError l2 = None ∧ lf_waitContext l2 = Some true ∧ lf_mutex l2 = false ∧
    lf_calls l2 = lf_calls demo_service_end ++ final_calls (inl None) demo_service_end.
Proof. apply (lifecycle_run_ends demo_lifecycle demo_service (inl None) demo_service_end);
  vm_compute; reflexivity. Defined.

Lemma wait_after_end_blocks_everything_witness :
  ∃ l', Wait demo_ended = Done (if decide (lf_state demo_ended = StateCrashed) then lf_lastError demo_ended else None, l') ∧
    Wait l' = Blocked "mutex" ∧
    (∀ ctx, Stop ctx l' = Blocked "mutex") ∧
    ShouldStop l' = Blocked "mutex" ∧
    lifecycle_Running l' = Blocked "mutex" ∧
    lifecycle_Stopping l' = Blocked "mutex" ∧
    (∀ service, Run service l' = Blocked "mutex") ∧
    (∀ k h, register_hook k h l' = Blocked "mutex").
Proof. apply wait_after_end_blocks_everything; [vm_compute; reflexivity | left; vm_compute; reflexivity]. Defined.

Lemma stop_before_start_is_lost_witness : Stop 5 NewLifecycle = Done (tt, NewLifecycle).
Proof. apply stop_before_start_is_lost; [vm_compute; reflexivity | left; vm_compute; reflexivity]. Defined.

Lemma stop_reaches_running_service_witness :
  ∃ l', Stop_request 5 (started demo_lifecycle) = Done (true, l') ∧
    ShouldStop l' = Done (true, l') ∧
    ∃ l'', lifecycle_Stopping l' = Done (5, l'') ∧ lf_state l'' = StateStopping ∧
      lf_calls l'' = lf_calls (started demo_lifecycle) ++
        ((λ h, CallStateChange h StateStopping) <$> lf_onStateChange (started demo_lifecycle)) ++
        ((λ h, CallStopping h 5) <$> lf_onStopping (started demo_lifecycle)).
Proof. apply stop_reaches_running_service; [vm_compute; reflexivity | left; vm_compute; reflexivity]. Defined.
