(* ===== verification/Service.v ===== *)
(** * The whole server

    [factory.go]: the services of a configuration, the chain of handlers behind the
    SSH server, and the health check that follows the services.  The parts are the
    factories of the other files; a handler is given by how it was made. *)

From stdpp Require Import base gmap strings list.
From Stdlib Require Import Strings.Byte.
From S2P Require Import Prelude Messages GoStrings ConfigHTTP ConfigSSH ConfigAuth ConfigLog Http AuditLog AppConfig Backend Metrics Endpoints.
From S2P Require Import AuthIntegration Webhook OAuth2 Kerberos AuthFactory AuditStorage Logger Lifecycle LifecycleSpec.

Definition ECoreConfig : string := "CORE_CONFIG_ERROR".

Section container.
Context {Keytab KrbConfig : Type} (F : Float).
Context (lib : Library) (keys : KeyLibrary) (path_Join : string → string → string) (IsNone : string → bool).
(** The order in which the sections of a configuration are validated. *)
Context (order : list string).
Context (url_parse : string → URL + error) (has_index : string → bool).
Context (keytab_Load : string → Keytab + error) (krb5cfg_Load : string → KrbConfig + error) (Hostname : string + error)
        (KRB_NT_PRINCIPAL : Z) (NewPrincipalName : Z → string → PrincipalName).
(** Opening the country database, and creating the storage of the audit log. *)
Context (Open : string → (list byte → string + error) + error) (create_storage : AuditLogConfig → storage_kind → option error).

(** The handlers of the SSH server, from the outside to the backend. *)
Inductive chain :=
| BackendHandler (client : option client)
| AuthHandler (a : @authenticators Keytab KrbConfig) (next : chain)
| AuditHandler (encoder : codec_kind) (storage : storage_kind) (next : chain)
| MetricsHandler (next : chain).

Abbreviation http_service := (HTTPServerConfiguration * option tls_Config)%type.

(** The services in the pool. *)
Inductive pool_service :=
| HealthService (s : http_service)
| MetricsServer (s : http_service)
| RedirectServer (s : http_service)
| SSHServer (cfg : SSHConfig) (hostKeys : list nat) (handler : chain).

(** [if err != nil { return err }] *)
Definition then_ {A B} (m : outcome (A + error)) (k : A → outcome (B + error)) : outcome (B + error) :=
  match m with
  | Done (inl a) => k a
  | Done (inr err) => Done (inr err)
  | Panic why => Panic why
  | Blocked why => Blocked why
  end.

Definition createMetricsServer (cfg : AppConfig) : outcome (list pool_service + error) :=
  then_ (metrics_NewServer (W := collector F) F lib (App_Metrics cfg)) (λ server,
  Done (inl match server with Some (config, tls, _) => [MetricsServer (config, tls)] | None => [] end)).

(** [backend.New]: the client of the configuration server. *)
Definition backend_New (cfg : AppConfig) : outcome (chain + error) :=
  then_ (config_NewClient lib (App_ConfigServer cfg)) (λ client, Done (inl (BackendHandler client))).

Definition createBackend (cfg : AppConfig) : outcome (chain + error) := backend_New cfg.

Definition createAuthHandler (cfg : AppConfig) (backend : chain) : outcome ((chain * list pool_service) + error) :=
  then_ (authintegration_factory lib path_Join url_parse has_index keytab_Load krb5cfg_Load Hostname KRB_NT_PRINCIPAL NewPrincipalName
           (App_Auth cfg) true BehaviorNoPassthrough) (λ '(handler, services),
  Done (inl (AuthHandler handler backend, RedirectServer <$> services))).

(** [auditlogintegration.New]: without audit logging the handler itself. *)
Definition createAuditLogHandler (cfg : AppConfig) (authHandler : chain) : outcome (chain + error) :=
  if negb (audit_Enable (App_Audit cfg)) then Done (inl authHandler)
  else
    match auditlog_New (create_storage (App_Audit cfg)) (App_Audit cfg) with
    | inr err => Done (inr (WrapError (Sprintf "failed to create audit logger (%w)" [VString (Error err)]) err))
    | inl (Some (encoder, kind)) => Done (inl (AuditHandler encoder kind authHandler))
    | inl None => Done (inl authHandler)
    end.

Definition createMetricsBackend (cfg : AppConfig) (handler : chain) : chain :=
  if metrics_Enable (App_Metrics cfg) then MetricsHandler handler else handler.

(** [sshserver.New] *)
Definition createSSHServer (cfg : AppConfig) (handler : chain) : outcome (pool_service + error) :=
  match SSHConfig_Validate (App_SSH cfg) with
  | Some err => Done (inr err)
  | None => then_ (LoadHostKeys keys (App_SSH cfg)) (λ hostKeys, Done (inl (SSHServer (App_SSH cfg) hostKeys handler)))
  end.

(** [New]; [factory]: the logger factory it is given.  The result is the content of
    the pool. *)
Definition container_New (factory : LogConfig → outcome (logger + error)) (cfg : AppConfig) : outcome (list pool_service + error) :=
  match AppConfig_Validate lib path_Join IsNone false order cfg with
  | Some err => Done (inr (Wrap (Some err) ECoreConfig "invalid ContainerSSH configuration" []))
  | None =>
      then_ (factory (App_Log cfg)) (λ _,
      then_ (health_New (W := health_requestHandler) lib (App_Health cfg)) (λ '(config, tls, _),
      then_ (match geoip_New lib Open (App_GeoIP cfg) with inl l => Done (inl l) | inr err => Done (inr err) end) (λ _,
      then_ (createMetricsServer cfg) (λ metrics,
      then_ (createBackend cfg) (λ backend,
      then_ (createAuthHandler cfg backend) (λ '(authHandler, redirect),
      then_ (createAuditLogHandler cfg authHandler) (λ auditHandler,
      then_ (createSSHServer cfg (createMetricsBackend cfg auditHandler)) (λ ssh,
      Done (inl (HealthService (config, tls) :: metrics ++ redirect ++ [ssh]))))))))))
  end.

(** ** What is made *)

Lemma then_made {A B} (m : outcome (A + error)) (k : A → outcome (B + error)) r :
  then_ m k = Done (inl r) → ∃ a, m = Done (inl a) ∧ k a = Done (inl r).
Proof. unfold then_. destruct m as [[a|]| |]; [|done..]. by exists a. Qed.

Lemma createAuditLogHandler_made cfg next h : createAuditLogHandler cfg next = Done (inl h) →
  if audit_Enable (App_Audit cfg) then ∃ encoder storage, h = AuditHandler encoder storage next else h = next.
Proof.
  unfold createAuditLogHandler, auditlog_New. destruct (audit_Enable (App_Audit cfg)); cbn [negb]; [|congruence].
  destruct (NewEncoder _) as [e|]; [|done]. destruct (NewStorage _) as [k|]; [|done]. destruct (create_storage _ k); [done|].
  intros [= <-]. by exists e, k.
Qed.

Lemma createMetricsServer_made cfg l : createMetricsServer cfg = Done (inl l) →
  if metrics_Enable (App_Metrics cfg) then ∃ s, l = [MetricsServer s] else l = [].
Proof.
  unfold createMetricsServer. intros (server & Hs & [= <-])%then_made. revert Hs. unfold metrics_NewServer.
  destruct (metrics_Enable _); cbn [negb]; [|by intros [= <-]].
  destruct (NewServer lib _) as [[[c t]|]| |]; [|done..]. intros [= <-]. by eexists.
Qed.

(** The handlers between the SSH server and the backend. *)
Definition guarded (cfg : AppConfig) (h : chain) : Prop :=
  ∃ a client, follows (App_Auth cfg) BehaviorNoPassthrough a ∧
    let auth := AuthHandler a (BackendHandler client) in
    ∃ recorded, (if audit_Enable (App_Audit cfg) then ∃ encoder storage, recorded = AuditHandler encoder storage auth else recorded = auth) ∧
      h = (if metrics_Enable (App_Metrics cfg) then MetricsHandler recorded else recorded).

(** Every connection to the server goes through the authentication handler that the
    configuration describes before it reaches a backend, and through the audit log
    and the metrics in front of it if they are enabled.  The pool runs the health
    service, the servers of the metrics and the OAuth2 page if there are any, and the
    SSH server last. *)
Theorem container_is_guarded factory cfg services :
  container_New factory cfg = Done (inl services) →
  AppConfig_Validate lib path_Join IsNone false order cfg = None ∧
  ∃ health metrics redirect hostKeys h, guarded cfg h ∧
    services = HealthService health :: metrics ++ (RedirectServer <$> redirect) ++ [SSHServer (App_SSH cfg) hostKeys h] ∧
    LoadHostKeys keys (App_SSH cfg) = Done (inl hostKeys) ∧
    (if metrics_Enable (App_Metrics cfg) then ∃ s, metrics = [MetricsServer s] else metrics = []) ∧
    services_of (kbd_Method (KeyboardInteractiveAuth (App_Auth cfg))) redirect.
Proof.
  unfold container_New. destruct (AppConfig_Validate _ _ _ _ _ _); [done|]. intros H. split; [done|]. revert H.
  intros (l & _ & H)%then_made. revert H. intros ([[config tls] hh] & _ & H)%then_made. revert H.
  intros (geo & _ & H)%then_made. revert H. intros (metrics & Hm%createMetricsServer_made & H)%then_made. revert H.
  intros (backend & Hb & H)%then_made. revert H. intros ([auth redirect] & Ha & H)%then_made. revert H.
  intros (audit & Haudit%createAuditLogHandler_made & H)%then_made. revert H. intros (ssh & Hssh & [= <-])%then_made.
  unfold createBackend, backend_New in Hb. apply then_made in Hb as (client & _ & [= <-]).
  unfold createAuthHandler in Ha. apply then_made in Ha as ([a svcs] & Hauth & [= <- <-]).
  apply authenticators_follow_configuration in Hauth as (Hfollows & Hsvc).
  unfold createSSHServer in Hssh. destruct (SSHConfig_Validate _); [done|]. apply then_made in Hssh as (hostKeys & Hkeys & [= <-]).
  exists (config, tls), metrics, svcs, hostKeys, (createMetricsBackend cfg audit). split_and!; [|done..].
  exists a, client. split_and!; [done..|]. by exists audit.
Qed.
End container.

(** ** The health check

    [setUpService]: the health service is told about the states of the pool. *)

Definition hook_running : nat := 0.
Definition hook_stopping : nat := 1.
Definition hook_crashed : nat := 2.

Definition setUpService : lfcall unit :=
  do* register_hook OnRunning hook_running in
  do* register_hook OnStopping hook_stopping in
  register_hook OnCrashed hook_crashed.

Definition pool_lifecycle : lifecycle := match setUpService NewLifecycle with Done (_, l) => l | _ => NewLifecycle end.

(** What [New] returns for the services it has made. *)
Definition with_lifecycle {S} (made : outcome (S + error)) : outcome (S * lifecycle + error) :=
  then_ made (λ services, Done (inl (services, pool_lifecycle))).

(** What the hooks do to the status of the health service. *)
Definition ChangeStatus_of (ok : bool) (c : hook_call) : bool :=
  match c with
  | CallRunning h => if decide (h = hook_running) then true else ok
  | CallStopping h _ => if decide (h = hook_stopping) then false else ok
  | CallCrashed h _ => if decide (h = hook_crashed) then false else ok
  | _ => ok
  end.
Definition healthy (calls : list hook_call) : bool := foldl ChangeStatus_of false calls.

(** A pool that has its hooks and whose mutex is free. *)
Definition watched (l : lifecycle) : Prop :=
  lf_mutex l = false ∧ lf_onStateChange l = [] ∧ lf_onRunning l = [hook_running] ∧ lf_onStopping l = [hook_stopping] ∧
  lf_onCrashed l = [hook_crashed].

Lemma pool_lifecycle_watched : watched pool_lifecycle.
Proof. by vm_compute. Qed.

Lemma healthy_snoc calls c : healthy (calls ++ [c]) = ChangeStatus_of (healthy calls) c.
Proof. unfold healthy. by rewrite foldl_app. Qed.

(** The server is reported as healthy when its services run, and no longer when they
    are asked to stop or when one has crashed. *)
Theorem health_follows_services l : watched l →
  (∃ l', lifecycle_Running l = Done (tt, l') ∧ watched l' ∧ healthy (lf_calls l') = true) ∧
  (∃ c l', lifecycle_Stopping l = Done (c, l') ∧ watched l' ∧ healthy (lf_calls l') = false) ∧
  (∀ err, ∃ l', crashed err l = Done (tt, l') ∧ watched l' ∧ healthy (lf_calls l') = false).
Proof.
  intros (Hm & Hs & Hr & Ht & Hc). split_and!; [| |intros err];
    unfold lifecycle_Running, lifecycle_Stopping, crashed, mutex_Lock, mutex_Unlock, stateChange, watched; run_prog; rewrite Hm; cbn;
    rewrite ?Hs, ?Hr, ?Ht, ?Hc; cbn.
  - eexists. split; [done|]. cbn. split_and!; [done..|]. by rewrite app_nil_r, healthy_snoc.
  - do 2 eexists. split; [done|]. cbn. split_and!; [done..|]. by rewrite app_nil_r, healthy_snoc.
  - eexists. split; [done|]. cbn. split_and!; [done..|]. by rewrite app_nil_r, healthy_snoc.
Qed.

(** ** An example *)

Module service_demo.
Definition keys : KeyLibrary := MkKeyLibrary (λ _, None) (λ k, inl k) (λ _, None) (λ _, inl (7, "ssh-ed25519")).
Definition join (a b : string) : string := (a ++ b)%string.
Definition listen (address : string) : HTTPServerConfiguration :=
  MkHTTPServerConfiguration address "" "" "" "1.3" ["x25519"] ["TLS_AES_128_GCM_SHA256"].

(** The example of [AppConfig] with the health check at an address. *)
Definition config (address : string) : AppConfig :=
  let c := app_demo.config "docker" in
  MkAppConfig (App_SSH c) (App_ConfigServer c) (App_Auth c) (App_Log c) (App_Metrics c) (App_GeoIP c) (App_Audit c)
    (MkHealthConfig false (listen address) app_demo.no_http) (App_Security c) (App_Backend c) (App_Docker c) (App_DockerRun c)
    (App_Kubernetes c) (App_KubeRun c) (App_SSHProxy c).
Definition order : list string := (map_to_list (validation_queue app_demo.files join (λ _, true) false (config ""))).*1.
Definition naturals : Float := MkFloat nat 0 1 Nat.add Nat.sub (λ _, false) (λ _, "").
Definition to_stdout (c : LogConfig) : outcome (logger + error) := Done (inl (MkLogger (log_Level c) ∅ (stdoutWriter (log_Format c)))).

Definition new (address : string) : outcome (list (@pool_service unit unit) + error) :=
  container_New naturals app_demo.files keys join (λ _, true) order (λ _, inr (ErrorString "not parsed")) (λ _, true) (λ _, inl tt) (λ _, inl tt)
    (inl "ssh") 1%Z (λ t name, MkPrincipalName t [name]) (λ _, inr (ErrorString "no database")) (λ _ _, None) to_stdout (config address).

Definition running : list (@pool_service unit unit) := match new "0.0.0.0:7000" with Done (inl l) => l | _ => [] end.

Lemma container_is_guarded_witness :
  new "0.0.0.0:7000" = Done (inl running) ∧
  AppConfig_Validate app_demo.files join (λ _, true) false order (config "0.0.0.0:7000") = None ∧
  ∃ health metrics redirect hostKeys h, guarded (config "0.0.0.0:7000") h ∧
    running = HealthService health :: metrics ++ (RedirectServer <$> redirect) ++ [SSHServer (App_SSH (config "0.0.0.0:7000")) hostKeys h] ∧
    LoadHostKeys keys (App_SSH (config "0.0.0.0:7000")) = Done (inl hostKeys) ∧
    (if metrics_Enable (App_Metrics (config "0.0.0.0:7000")) then ∃ s, metrics = [MetricsServer s] else metrics = []) ∧
    services_of (kbd_Method (KeyboardInteractiveAuth (App_Auth (config "0.0.0.0:7000")))) redirect.
Proof.
  assert (new "0.0.0.0:7000" = Done (inl running)) as H by (vm_compute; reflexivity). split; [exact H|].
  exact (container_is_guarded naturals app_demo.files keys join (λ _, true) order (λ _, inr (ErrorString "not parsed")) (λ _, true) (λ _, inl tt)
    (λ _, inl tt) (inl "ssh") 1%Z (λ t name, MkPrincipalName t [name]) (λ _, inr (ErrorString "no database")) (λ _ _, None) to_stdout
    (config "0.0.0.0:7000") running H).
Defined.

(** The health check is disabled here: with an address it runs all the same, and
    without one the server does not start. *)
Example disabled_health_check_needs_an_address :
  match running with HealthService s :: _ => hs_Listen s.1 | _ => "" end = "0.0.0.0:7000" ∧
  AppConfig_Validate app_demo.files join (λ _, true) false order (config "") = None ∧
  new "" = Done (inr (ErrorString "no listen address provided")).
Proof. split_and!; vm_compute; reflexivity. Qed.

Lemma health_follows_services_witness :
  watched pool_lifecycle ∧
  (∃ l', lifecycle_Running pool_lifecycle = Done (tt, l') ∧ watched l' ∧ healthy (lf_calls l') = true) ∧
  (∃ c l', lifecycle_Stopping pool_lifecycle = Done (c, l') ∧ watched l' ∧ healthy (lf_calls l') = false) ∧
  (∀ err, ∃ l', crashed err pool_lifecycle = Done (tt, l') ∧ watched l' ∧ healthy (lf_calls l') = false).
Proof. split; [exact pool_lifecycle_watched|]. exact (health_follows_services pool_lifecycle pool_lifecycle_watched). Defined.
End service_demo.
