(* ===== verification/Main.v ===== *)
(** * The command

    [main.go], [internal/config/saver_writer.go]: reading the configuration, the
    actions of the command, host keys that are generated and kept in the
    configuration file, and running the services until they end.  What [Main] returns
    is the exit code of the process. *)

From stdpp Require Import base gmap strings list.
From Stdlib Require Import Strings.Byte.
From S2P Require Import Prelude Messages GoStrings ConfigHTTP ConfigSSH ConfigAuth ConfigLog Http AppConfig Backend Endpoints Logger.
From S2P Require Import Lifecycle Service.

Local Open Scope Z_scope.

Definition ECoreHealthCheckFailed : string := "CORE_HEALTH_CHECK_FAILED".

(** ** The system *)

(** Files are opened, created and renamed by name; a created file is written through
    a handle.  [os_Open]: the text a reader of the file gets. *)
Record command_system (W : Type) := MkCommandSystem {
  filepath_Abs : string → string + error;
  os_Open : string → prog W (string + error);
  os_Create : string → prog W (nat + error);
  handle_Write : nat → string → prog W (option error);
  handle_Close : nat → prog W (option error);
  os_Rename : string → string → prog W (option error);
  os_ReadFile : string → prog W (string + error);
  stdout_Write : string → prog W (option error);
}.
Arguments filepath_Abs {W} _ _.
Arguments os_Open {W} _ _.
Arguments os_Create {W} _ _.
Arguments handle_Write {W} _ _ _.
Arguments handle_Close {W} _ _.
Arguments os_Rename {W} _ _ _.
Arguments os_ReadFile {W} _ _.
Arguments stdout_Write {W} _ _.

(** The actions of the command line; the first that is given counts. *)
Record arguments := MkArguments {
  configFile : string;
  actionDumpConfig : bool;
  actionLicenses : bool;
  actionHealthCheck : bool;
}.

Section command.
Context {W : Type} (sys : command_system W) (lib : Library).
(** The logger factory, which is asked three times, [cfg.Default()], the decoders for
    a file, [structutils.Defaults], the encoders, and a new key as PEM text. *)
Context (Make : LogConfig → prog W (logger + error)).
Context (default_config : AppConfig) (Defaults : AppConfig → AppConfig).
Context (decode_yaml decode_json : string → AppConfig → AppConfig * option error).
Context (encode_yaml encode_json : AppConfig → string + error).
Context (GenerateKey : string + error).
Context (NewRequest : string → string → option error) (Do : http_Client → http_Request → prog W (http_Response + error)).
(** [New] of [factory.go], and [RunWithLifecycle] of the pool it has made. *)
Context {S : Type} (New : AppConfig → outcome (S * lifecycle + error)) (run_pool : S → lfcall (option error + string)).

(** ** Saving *)

(** [writerSaver.Save]; [write]: the writer it was made with. *)
Definition Save (write : string → prog W (option error)) (format : string) (cfg : AppConfig) : prog W (option error) :=
  if decide (format = FormatYAML) then match encode_yaml cfg with inl data => write data | inr err => prog_ret (Some err) end
  else if decide (format = FormatJSON) then match encode_json cfg with inl data => write data | inr err => prog_ret (Some err) end
  else prog_ret (Some (Errorf "invalid format: %s" [VString format])).

Definition getConfigFileFormat (configFile : string) : string := if HasSuffix configFile ".json" then FormatJSON else FormatYAML.

Definition dumpConfig (cfg : AppConfig) : prog W (option error) := Save (stdout_Write sys) FormatYAML cfg.

(** ** Host keys *)

Definition set_host_keys (ks : list string) (cfg : AppConfig) : AppConfig :=
  let s := App_SSH cfg in
  MkAppConfig
    (MkSSHConfig (Listen s) (ServerVersion s) (Ciphers s) (KexAlgorithms s) (MACs s) (Banner s) ks (ClientAliveInterval s) (ClientAliveCountMax s))
    (App_ConfigServer cfg) (App_Auth cfg) (App_Log cfg) (App_Metrics cfg) (App_GeoIP cfg) (App_Audit cfg) (App_Health cfg) (App_Security cfg)
    (App_Backend cfg) (App_Docker cfg) (App_DockerRun cfg) (App_Kubernetes cfg) (App_KubeRun cfg) (App_SSHProxy cfg).

(** [SSHConfig.GenerateHostKey] *)
Definition GenerateHostKey (cfg : AppConfig) : AppConfig + error :=
  match GenerateKey with
  | inr err => inr err
  | inl pem => inl (set_host_keys (cfg_HostKeys (App_SSH cfg) ++ [pem]) cfg)
  end.

(** [generateHostKeys]: the configuration afterwards and the error; most failures
    are only logged. *)
Definition generateHostKeys (configFile : string) (cfg : AppConfig) : prog W (AppConfig * option error) :=
  match GenerateHostKey cfg with
  | inr err => prog_ret (cfg, Some err)
  | inl cfg =>
      let tmpFile := Sprintf "%s~" [VString configFile] in
      let* fh := os_Create sys tmpFile in
      match fh with
      | inr _ => prog_ret (cfg, None)
      | inl fh =>
          let* err := Save (handle_Write sys fh) (getConfigFileFormat configFile) cfg in
          match err with
          | Some _ => do* handle_Close sys fh in prog_ret (cfg, None)
          | None =>
              let* err := handle_Close sys fh in
              match err with
              | Some _ => prog_ret (cfg, None)
              | None =>
                  let* err := os_Rename sys tmpFile configFile in
                  match err with
                  | Some err =>
                      prog_ret (cfg, Some (WrapError (Sprintf "failed to rename temporary file %s to %s (%w)"
                                                        [VString tmpFile; VString configFile; VString (Error err)]) err))
                  | None => prog_ret (cfg, None)
                  end
              end
          end
      end
  end.

(** ** Running the services *)

Definition hook_starting : nat := 3.

(** [startPool]: the run goes on in a goroutine, in which requests to stop arrive
    from signals; the command waits for its end. *)
Definition startPool (service : lfcall (option error + string)) : lfcall (option error) :=
  do* register_hook OnStarting hook_starting in
  let* _ := Run service in
  Wait.

Definition startServices (cfg : AppConfig) : outcome (option error) :=
  match New cfg with
  | Panic why => Panic why
  | Blocked why => Blocked why
  | Done (inr err) => Done (Some err)
  | Done (inl (pool, l)) =>
      match startPool (run_pool pool) l with
      | Done (err, _) => Done err
      | Panic why => Panic why
      | Blocked why => Blocked why
      end
  end.

(** ** The actions *)

Definition exit_code (err : option error) : Z := match err with Some _ => 1 | None => 0 end.

Definition healthCheck (cfg : AppConfig) : prog W (option error) :=
  let* healthClient := of_outcome (health_NewClient lib (App_Health cfg)) in
  match healthClient with
  | inr err => prog_ret (Some err)
  | inl None => prog_ret None
  | inl (Some c) =>
      let* ok := health_Run (W := W) NewRequest Do c in
      prog_ret (if (ok : bool) then None else Some (MsgError (NewMessage ECoreHealthCheckFailed "Health check failed" [])))
  end.

Definition printLicenses : prog W (option error) :=
  let* licenseData := os_ReadFile sys "LICENSE.md" in
  match licenseData with
  | inr err => prog_ret (Some (WrapError (Sprintf "failed to read LICENSE.md (%w)" [VString (Error err)]) err))
  | inl licenseData =>
      let* noticeData := os_ReadFile sys "NOTICE.md" in
      match noticeData with
      | inr err => prog_ret (Some (WrapError (Sprintf "failed to read NOTICE.md (%w)" [VString (Error err)]) err))
      | inl noticeData =>
          let* err := stdout_Write sys ("# The ContainerSSH license" ++ line_feed ++ line_feed ++ licenseData ++ line_feed ++ noticeData ++ line_feed) in
          prog_ret match err with
                   | Some err => Some (WrapError (Sprintf "failed to write licenes information (%w)" [VString (Error err)]) err)
                   | None => None
                   end
      end
  end.

(** [readConfigFile]: the configuration that is read into the one there is. *)
Definition readConfigFile (configFile : string) (cfg : AppConfig) : prog W (AppConfig * option error) :=
  let* configLogger := Make (App_Log cfg) in
  match configLogger with
  | inr err => prog_ret (cfg, Some err)
  | inl _ =>
      let* configFH := os_Open sys configFile in
      match configFH with
      | inr err => prog_ret (cfg, Some err)
      | inl text =>
          let format := getConfigFileFormat configFile in
          match Format_Validate format with
          | Some err => prog_ret (cfg, Some err)
          | None =>
              let '(cfg, err) := readerLoader_Load (decode_yaml text) (decode_json text) Defaults format cfg in
              prog_ret (cfg, match err with
                             | Some err => Some (WrapError (Sprintf "failed to read configuration file %s (%w)"
                                                              [VString configFile; VString (Error err)]) err)
                             | None => None
                             end)
          end
      end
  end.

Definition runHealthCheck (cfg : AppConfig) : prog W Z := let* err := healthCheck cfg in prog_ret (exit_code err).
Definition runActionLicenses : prog W Z := let* err := printLicenses in prog_ret (exit_code err).
Definition runDumpConfig (cfg : AppConfig) : prog W Z := let* err := dumpConfig cfg in prog_ret (exit_code err).

Definition runContainerSSH (cfg : AppConfig) (configFile : string) : prog W Z :=
  let* '(cfg, err) :=
    match cfg_HostKeys (App_SSH cfg) with
    | [] => generateHostKeys configFile cfg
    | _ => prog_ret (cfg, None)
    end in
  match err with
  | Some _ => prog_ret 1
  | None => let* err := of_outcome (startServices cfg) in prog_ret (exit_code err)
  end.

Definition Main (args : arguments) : prog W Z :=
  let* l := Make (App_Log default_config) in
  match l with
  | inr err => panic (Error err)
  | inl _ =>
      let file := if decide (configFile args = "") then "config.yaml" else configFile args in
      match filepath_Abs sys file with
      | inr _ => prog_ret 1
      | inl file =>
          let* '(cfg, err) := readConfigFile file default_config in
          match err with
          | Some _ => prog_ret 1
          | None =>
              let* configuredLogger := Make (App_Log cfg) in
              match configuredLogger with
              | inr _ => prog_ret 1
              | inl _ =>
                  if actionDumpConfig args then runDumpConfig cfg
                  else if actionLicenses args then runActionLicenses
                  else if actionHealthCheck args then runHealthCheck cfg
                  else runContainerSSH cfg file
              end
          end
      end
  end.
End command.
