(* ===== verification/MainSpec.v ===== *)
(** * What the command promises

    Theorems on [Main]: generated host keys never leave a torn configuration file and
    are found again by the next start, and the exit code tells how the services
    ended. *)

From stdpp Require Import base gmap strings list.
From S2P Require Import Prelude Messages GoStrings ConfigHTTP ConfigSSH ConfigLog Http AppConfig Backend Logger.
From S2P Require Import Lifecycle LifecycleSpec Service Main.

Local Open Scope Z_scope.

Section command_spec.
Context {W : Type} (sys : command_system W) (lib : Library).
Context (Make : LogConfig → prog W (logger + error)) (Defaults : AppConfig → AppConfig).
Context (decode_yaml decode_json : string → AppConfig → AppConfig * option error).
Context (encode_yaml encode_json : AppConfig → string + error) (GenerateKey : string + error).
Context {S : Type} (New : AppConfig → outcome (S * lifecycle + error)) (run_pool : S → lfcall (option error + string)).

(** The content of each file, and the name of the file behind a handle. *)
Context (content : W → string → option string) (named : W → nat → string).

(** The calls return, and touch the files they are about: a created file is empty, a
    write appends, and a rename replaces the target by the source or leaves it as it
    is. *)
Record file_system : Prop := {
  create_law name w : ∃ r w', os_Create sys name w = Done (r, w') ∧ (∀ f, f ≠ name → content w' f = content w f) ∧
    match r with inl h => content w' name = Some "" ∧ named w' h = name | inr _ => True end;
  write_law h data w : ∃ r w', handle_Write sys h data w = Done (r, w') ∧ (∀ f, f ≠ named w h → content w' f = content w f) ∧
    (r = None → content w' (named w h) = (λ old, (old ++ data)%string) <$> content w (named w h));
  close_law h w : ∃ r w', handle_Close sys h w = Done (r, w') ∧ content w' = content w;
  rename_law a b w : ∃ r w', os_Rename sys a b w = Done (r, w') ∧ (∀ f, f ≠ a → f ≠ b → content w' f = content w f) ∧
    match r with None => content w' b = content w a | Some _ => content w' b = content w b end;
}.

(** The text of a configuration in the format of its file. *)
Definition encoded (file : string) (cfg : AppConfig) : string + error :=
  if HasSuffix file ".json" then encode_json cfg else encode_yaml cfg.

Lemma Save_in_format write file cfg :
  Save encode_yaml encode_json write (getConfigFileFormat file) cfg =
  match encoded file cfg with inl text => write text | inr err => prog_ret (W := W) (Some err) end.
Proof. unfold Save, getConfigFileFormat, encoded. by destruct (HasSuffix file ".json"). Qed.

Definition tmp (file : string) : string := Sprintf "%s~" [VString file].

Lemma tmp_eq file : tmp file = (file ++ "~")%string.
Proof. done. Qed.

(** What happened to the files when keys were generated. *)
Definition stored (file : string) (cfg : AppConfig) (err : option error) (w w' : W) : Prop :=
  (∀ f, f ≠ file → f ≠ tmp file → content w' f = content w f) ∧
  (content w' file = content w file ∨ err = None ∧ ∃ text, encoded file cfg = inl text ∧ content w' file = Some text).

Lemma tmp_neq file : file ≠ tmp file.
Proof. rewrite tmp_eq. induction file as [|c file IH]; [done|]. cbn. by intros [= E%IH]. Qed.

(** Saving through a new handle: only the file of the handle changes, and it holds the
    whole text if there was no error. *)
Lemma Save_effect (FS : file_system) file cfg h w : content w (named w h) = Some "" →
  ∃ err w', Save encode_yaml encode_json (handle_Write sys h) (getConfigFileFormat file) cfg w = Done (err, w') ∧
    (∀ f, f ≠ named w h → content w' f = content w f) ∧
    (err = None → ∃ text, encoded file cfg = inl text ∧ content w' (named w h) = Some text).
Proof.
  intros Hh. rewrite Save_in_format. destruct (encoded file cfg) as [text|err]; [|by exists (Some err), w].
  destruct (write_law FS h text w) as (err & w' & -> & Hother & Hw). exists err, w'. split_and!; [done..|].
  intros E. exists text. split; [done|]. by rewrite (Hw E), Hh.
Qed.

(** Claim C27. Generating host keys always returns.  Without a key the configuration and the
    files are as they were.  With a key it is added to the configuration, and the
    configuration file holds what it held before or the whole new configuration, at
    no point a part of it; an error means that it holds what it held before.  Besides
    the file and its temporary copy no file is touched. *)
Theorem configuration_file_is_never_torn (FS : file_system) file cfg w :
  ∃ cfg' err w', generateHostKeys sys encode_yaml encode_json GenerateKey file cfg w = Done ((cfg', err), w') ∧
    match GenerateKey with
    | inr e => cfg' = cfg ∧ err = Some e ∧ w' = w
    | inl pem => cfg' = set_host_keys (cfg_HostKeys (App_SSH cfg) ++ [pem]) cfg ∧ stored file cfg' err w w'
    end.
Proof.
  unfold generateHostKeys, GenerateHostKey. destruct GenerateKey as [pem|e]; [|by exists cfg, (Some e), w].
  set (cfg' := set_host_keys _ cfg). exists cfg'. change (Sprintf "%s~" [VString file]) with (tmp file).
  destruct (create_law FS (tmp file) w) as (r & w1 & Hc & Ho1 & Hr). erewrite bind_done by exact Hc.
  pose proof (tmp_neq file) as Hne.
  destruct r as [h|]; [|exists None, w1; split; [done|]; split; [done|]; split; [auto|left; auto]].
  destruct Hr as [Hempty Hname].
  destruct (Save_effect FS file cfg' h w1) as (err & w2 & Hs & Ho2 & Htext); [by rewrite Hname|].
  erewrite bind_done by exact Hs. rewrite Hname in Ho2, Htext.
  destruct (close_law FS h w2) as (cerr & w3 & Hcl & H3).
  assert (∀ f, f ≠ tmp file → content w3 f = content w f) as Hkeep by (intros f Hf; by rewrite H3, Ho2, Ho1).
  assert (∀ e, stored file cfg' e w w3) as Hsame by (intros e; split; [auto|left; auto]).
  destruct err as [err|]; (erewrite bind_done by exact Hcl).
  { by exists None, w3. }
  destruct cerr as [cerr|]; [by exists None, w3|]. destruct (Htext eq_refl) as (text & Henc & Hfull).
  destruct (rename_law FS (tmp file) file w3) as (rerr & w4 & Hren & Ho4 & Hr). erewrite bind_done by exact Hren.
  destruct rerr as [rerr|].
  - do 2 eexists. split; [reflexivity|]. split; [done|]. split; [intros f ??; rewrite Ho4; auto|]. left. rewrite Hr. auto.
  - exists None, w4. split; [done|]. split; [done|]. split; [intros f ??; rewrite Ho4; auto|].
    right. split; [done|]. exists text. split; [done|]. by rewrite Hr, H3.
Qed.

(** ** The next start *)

(** The calls succeed, and a file that is there can be read. *)
Record reliable : Prop := {
  create_ok name w : ∃ h w', os_Create sys name w = Done (inl h, w');
  write_ok h data w : is_Some (content w (named w h)) → ∃ w', handle_Write sys h data w = Done (None, w');
  close_ok h w : ∃ w', handle_Close sys h w = Done (None, w');
  rename_ok a b w : is_Some (content w a) → ∃ w', os_Rename sys a b w = Done (None, w');
  open_ok name w text : content w name = Some text → os_Open sys name w = Done (inl text, w);
}.

Lemma generateHostKeys_reliable (FS : file_system) (OK : reliable) file cfg w pem text : GenerateKey = inl pem →
  let cfg' := set_host_keys (cfg_HostKeys (App_SSH cfg) ++ [pem]) cfg in
  encoded file cfg' = inl text →
  ∃ w', generateHostKeys sys encode_yaml encode_json GenerateKey file cfg w = Done ((cfg', None), w') ∧ content w' file = Some text.
Proof.
  intros Hk cfg' Henc. unfold generateHostKeys, GenerateHostKey. rewrite Hk. fold cfg'. change (Sprintf "%s~" [VString file]) with (tmp file).
  destruct (create_ok OK (tmp file) w) as (h & w1 & Hc). erewrite bind_done by exact Hc.
  destruct (create_law FS (tmp file) w) as (r & w1' & Hc' & _ & Hr). rewrite Hc in Hc'. injection Hc' as <- <-. destruct Hr as [Hempty Hname].
  destruct (Save_effect FS file cfg' h w1) as (err & w2 & Hs & _ & Htext); [by rewrite Hname|].
  destruct (write_ok OK h text w1) as (w2' & Hw); [by rewrite Hname, Hempty|]. pose proof Hs as Hs'. rewrite Save_in_format, Henc, Hw in Hs'. injection Hs' as <- ->.
  erewrite bind_done by exact Hs. cbv beta iota. destruct (Htext eq_refl) as (text' & Henc' & Hfull). assert (text' = text) as -> by congruence.
  destruct (close_ok OK h w2) as (w3 & Hcl). erewrite bind_done by exact Hcl.
  destruct (close_law FS h w2) as (? & ? & Hcl' & H3). rewrite Hcl in Hcl'. injection Hcl' as <- <-.
  destruct (rename_ok OK (tmp file) file w3) as (w4 & Hren); [rewrite H3, <- Hname, Hfull; eauto|]. erewrite bind_done by exact Hren.
  destruct (rename_law FS (tmp file) file w3) as (? & ? & Hren' & _ & Hr). rewrite Hren in Hren'. injection Hren' as <- <-.
  exists w4. split; [done|]. by rewrite Hr, H3, <- Hname.
Qed.

Lemma fixCompatibility_SSH cfg : App_SSH (fixCompatibility cfg) = App_SSH cfg.
Proof. unfold fixCompatibility. by repeat case_decide. Qed.

Definition decode_in (file : string) : string → AppConfig → AppConfig * option error :=
  if HasSuffix file ".json" then decode_json else decode_yaml.

(** A start without host keys generates one, and the next start reads it from the
    configuration file: the identity of the server does not change with every start.
    This needs that the file can be written, that what is decoded from the written
    text has its host keys, and that no default replaces them. *)
Theorem host_key_is_kept (FS : file_system) (OK : reliable) file cfg cfg0 cfg1 w pem text l :
  GenerateKey = inl pem →
  encoded file (set_host_keys (cfg_HostKeys (App_SSH cfg) ++ [pem]) cfg) = inl text →
  decode_in file text cfg0 = (cfg1, None) → cfg_HostKeys (App_SSH cfg1) = cfg_HostKeys (App_SSH cfg) ++ [pem] →
  (∀ c, cfg_HostKeys (App_SSH (Defaults c)) = cfg_HostKeys (App_SSH c)) →
  (∀ w, Make (App_Log cfg0) w = Done (inl l, w)) →
  ∃ cfg2 w', (let* _ := generateHostKeys sys encode_yaml encode_json GenerateKey file cfg in
              readConfigFile sys Make Defaults decode_yaml decode_json file cfg0) w = Done ((cfg2, None), w') ∧
    cfg_HostKeys (App_SSH cfg2) = cfg_HostKeys (App_SSH cfg) ++ [pem].
Proof.
  intros Hk Henc Hdec Hkeys Hdef Hlog. destruct (generateHostKeys_reliable FS OK file cfg w pem text Hk Henc) as (w1 & Hg & Hfile).
  erewrite bind_done by exact Hg. unfold readConfigFile. erewrite bind_done by apply Hlog. cbv beta iota.
  erewrite bind_done by (apply (open_ok OK); exact Hfile). cbv beta iota. unfold readerLoader_Load.
  exists (Defaults (fixCompatibility cfg1)), w1. rewrite Hdef, fixCompatibility_SSH. split; [|done].
  revert Hdec. unfold decode_in, getConfigFileFormat. by destruct (HasSuffix file ".json"); intros Hdec; cbn; rewrite Hdec.
Qed.

(** ** The exit code *)

Lemma startPool_result service l r l1 : lf_mutex l = false →
  service (started (add_hook OnStarting hook_starting l)) = Done (r, l1) → lf_mutex l1 = false → lf_lastError l1 = None →
  ∃ l2, startPool service l = Done (final_error r, l2).
Proof.
  intros Hm Hr Hm1 He. unfold startPool.
  destruct (lifecycle_run_ends _ service r l1 (Hm : lf_mutex (add_hook OnStarting hook_starting l) = false) Hr Hm1 He)
    as (l2 & Hrun & Hst & Herr & _ & Hm2 & _).
  assert (register_hook OnStarting hook_starting l = Done (tt, add_hook OnStarting hook_starting l)) as Hreg.
  { unfold register_hook, mutex_Lock, mutex_Unlock. run_prog. rewrite Hm. cbn. unfold add_hook, set_lf_mutex. cbn. by rewrite Hm. }
  erewrite bind_done by exact Hreg. erewrite bind_done by exact Hrun. unfold Wait, mutex_Lock. run_prog. rewrite Hm2. cbn.
  rewrite Hst, Herr. by destruct r as [[e|]|]; eexists.
Qed.

(** The process ends with code 0 exactly when the services ended without error and
    without a panic. *)
Theorem exit_code_tells_how_services_ended cfg file w pool l r l1 :
  cfg_HostKeys (App_SSH cfg) ≠ [] → New cfg = Done (inl (pool, l)) → lf_mutex l = false →
  run_pool pool (started (add_hook OnStarting hook_starting l)) = Done (r, l1) → lf_mutex l1 = false → lf_lastError l1 = None →
  runContainerSSH sys encode_yaml encode_json GenerateKey New run_pool cfg file w =
  Done (match final_error r with None => 0 | Some _ => 1 end, w).
Proof.
  intros Hk Hn Hm Hr Hm1 He. unfold runContainerSSH. destruct (cfg_HostKeys (App_SSH cfg)); [done|].
  unfold prog_bind at 1. cbn. unfold startServices. rewrite Hn.
  destruct (startPool_result (run_pool pool) l r l1 Hm Hr Hm1 He) as (l2 & ->). by destruct (final_error r).
Qed.
End command_spec.

(** ** An example *)

Module main_demo.
(** Files by name, and the names of the open files. *)
Abbreviation world := (gmap string string * list string)%type.
Definition content (w : world) (f : string) : option string := w.1 !! f.
Definition named (w : world) (h : nat) : string := default "" (w.2 !! h).

Definition disk : command_system world := MkCommandSystem world
  (λ f, inl ("/etc/" ++ f)%string)
  (λ f w, Done (match w.1 !! f with Some t => inl t | None => inr (ErrorString "no such file") end, w))
  (λ f w, Done (inl (length w.2), (<[f := ""]> w.1, w.2 ++ [f])))
  (λ h data w, Done (None, (alter (λ old, (old ++ data)%string) (named w h) w.1, w.2)))
  (λ _ w, Done (None, w))
  (λ a b w, match w.1 !! a with
            | Some t => Done (None, (<[b := t]> (delete a w.1), w.2))
            | None => Done (Some (ErrorString "no such file"), w)
            end)
  (λ f w, Done (match w.1 !! f with Some t => inl t | None => inr (ErrorString "no such file") end, w))
  (λ _ w, Done (None, w)).

Lemma disk_is_a_file_system : file_system disk content named.
Proof.
  unfold content, named. split; intros; cbn.
  - do 2 eexists. split; [done|]. cbn. split; [intros; by simplify_map_eq|]. by rewrite lookup_insert_eq, list_lookup_middle.
  - do 2 eexists. split; [done|]. cbn. split; [intros; by rewrite lookup_alter_ne|]. intros _. by rewrite lookup_alter_eq.
  - by do 2 eexists.
  - destruct (w.1 !! a) as [t|] eqn:E; do 2 eexists; (split; [done|]); cbn; [|done]. split; [intros; by simplify_map_eq|].
    by simplify_map_eq.
Qed.

Lemma disk_is_reliable : reliable disk content named.
Proof.
  unfold content. split; cbn; intros; [by do 2 eexists|by eexists|by eexists| |].
  - destruct H as [t ->]. by eexists.
  - by rewrite H.
Qed.

(** Configuration files that consist of a host key. *)
Definition config : AppConfig := set_host_keys [] (app_demo.config "docker").
Definition encode (cfg : AppConfig) : string + error := inl (foldr String.append "" (cfg_HostKeys (App_SSH cfg))).
Definition decode (text : string) (cfg : AppConfig) : AppConfig * option error := (set_host_keys [text] cfg, None).
Definition file : string := "/etc/containerssh.yaml".
Definition before : world := ({[ file := "" ]}, []).
Definition new_key : string + error := inl "PRIVATE KEY".
Definition log_to_stdout (c : LogConfig) : prog world (logger + error) := prog_ret (inl (MkLogger (log_Level c) ∅ (stdoutWriter (log_Format c)))).

Lemma configuration_file_is_never_torn_witness :
  file_system disk content named ∧
  ∃ cfg' err w', generateHostKeys disk encode encode new_key file config before = Done ((cfg', err), w') ∧
    cfg' = set_host_keys (cfg_HostKeys (App_SSH config) ++ ["PRIVATE KEY"]) config ∧
    stored encode encode content file cfg' err before w'.
Proof.
  split; [exact disk_is_a_file_system|].
  exact (configuration_file_is_never_torn disk encode encode new_key content named disk_is_a_file_system file config before).
Defined.

(** The configuration file after the run has the key, and its temporary copy is gone. *)
Example key_is_stored :
  match generateHostKeys disk encode encode new_key file config before with
  | Done (_, err, w) => err = None ∧ content w file = Some "PRIVATE KEY" ∧ content w (tmp file) = None
  | _ => False
  end.
Proof. by vm_compute. Qed.

Lemma host_key_is_kept_witness :
  cfg_HostKeys (App_SSH config) = [] ∧
  ∃ cfg2 w', (let* _ := generateHostKeys disk encode encode new_key file config in
              readConfigFile disk log_to_stdout (λ c, c) decode decode file config) before = Done ((cfg2, None), w') ∧
    cfg_HostKeys (App_SSH cfg2) = cfg_HostKeys (App_SSH config) ++ ["PRIVATE KEY"].
Proof.
  split; [reflexivity|].
  refine (host_key_is_kept disk log_to_stdout (λ c, c) decode decode encode encode new_key content named disk_is_a_file_system disk_is_reliable
    file config config (set_host_keys ["PRIVATE KEY"] config) before "PRIVATE KEY" "PRIVATE KEY" _ _ _ _ _ _ _); reflexivity.
Defined.

(** The services of the example of [Service], which are asked to stop when they run. *)
Definition services (_ : AppConfig) := with_lifecycle (service_demo.new "0.0.0.0:7000").
Definition run_services {S} (_ : S) : lfcall (option error + string) := demo_service.
Definition ended : lifecycle :=
  match demo_service (started (add_hook OnStarting hook_starting pool_lifecycle)) with Done (_, l) => l | _ => NewLifecycle end.

Lemma exit_code_tells_how_services_ended_witness :
  cfg_HostKeys (App_SSH (app_demo.config "docker")) ≠ [] ∧
  runContainerSSH disk encode encode new_key services run_services (app_demo.config "docker") file before = Done (0, before).
Proof.
  split; [discriminate|].
  refine (exit_code_tells_how_services_ended disk encode encode new_key services run_services (app_demo.config "docker") file before
    service_demo.running pool_lifecycle (inl None) ended _ _ _ _ _ _); [discriminate|vm_compute; reflexivity..].
Defined.
End main_demo.
