(* ===== verification/Pool.v ===== *)
(** * Service pools

    [service/pool_impl.go]: a pool runs its services in goroutines and stops all
    of them once one has ended.  The pool's [RunWithLifecycle], the goroutines of
    its services with the hooks they call, and the goroutines that stop services
    run concurrently: the pool is a state machine whose events are the steps
    between the points where these goroutines meet (the mutexes, the two
    channels, the wait groups). *)

From stdpp Require Import base strings list relations.
From S2P Require Import Prelude Messages Lifecycle.

(** ** The goroutine of a service *)

(** Where the goroutine is in [lifecycle.Run]: the service's own code, or the
    pool's hook ([onServiceStateChange]) for a state it has just entered.  In a
    hook that calls [triggerStop], [Hook] is before the call, [Wait] inside. *)
Inductive phase :=
| PNew                                (** [Run] has not begun *)
| PStarting                           (** the service is starting *)
| PRunningHook                        (** the hook for [StateRunning] *)
| PRunning                            (** the service is running *)
| PStoppingHook | PStoppingWait       (** the hook for [StateStopping] *)
| PStopping                           (** the service is shutting down *)
| PEndHook (err : option error)       (** the hook for [StateStopped] or [StateCrashed] *)
| PEndWait (err : option error)
| PEndSend (err : option error)       (** before the send on [stopComplete] *)
| PDone (err : option error).         (** [Run] has returned *)

(** The goroutine of [triggerStop] that calls [Stop] on a service's lifecycle. *)
Inductive stopper :=
| NoStop
| StopCalled         (** before it looks at the state *)
| StopCancelled      (** [cancelRun] was called, [Wait] was not *)
| StopWaiting        (** in [Wait], on the wait context *)
| StopDone.

(** [svc_ran]: the service has reported that it is running. *)
Record svc := MkSvc {
  svc_phase : phase;
  svc_ran : bool;
  svc_cancelled : bool;
  svc_stopper : stopper;
}.

(** The state of the service's lifecycle. *)
Definition svc_state (s : svc) : State :=
  match svc_phase s with
  | PNew => StateStopped
  | PStarting => StateStarting
  | PRunningHook | PRunning => StateRunning
  | PStoppingHook | PStoppingWait | PStopping => StateStopping
  | PEndHook e | PEndWait e | PEndSend e | PDone e =>
      match e with Some _ => StateCrashed | None => StateStopped end
  end.

(** ** The pool *)

(** Where [RunWithLifecycle] is; [rem] is [startedServices]. *)
Inductive runner :=
| RIdle
| RCollect (i : nat)              (** the select of the first loop, round [i] *)
| RSelect                         (** the select of [processRunning] *)
| RTrigger (rem : nat)            (** before [triggerStop] *)
| RTriggerWait (rem : nat)        (** in [triggerStop] *)
| RDrain (rem : nat)              (** the last loop *)
| RReturned (err : option error).

(** [startupComplete] and [stopComplete] are the numbers of values buffered in
    the channels, of capacity 1 and [len(p.services)]. *)
Record pool := MkPool {
  services : list svc;
  serviceStates : list State;
  running : bool;
  startupComplete : nat;
  stopComplete : nat;
  lastError : option error;
  stopping : bool;
  cancelled : bool;               (** the context of the pool's lifecycle *)
  poolState : State;              (** the state of the pool's lifecycle *)
  main : runner;
}.

Definition set_main m p := MkPool (services p) (serviceStates p) (running p) (startupComplete p) (stopComplete p)
  (lastError p) (stopping p) (cancelled p) (poolState p) m.
Definition set_poolState s p := MkPool (services p) (serviceStates p) (running p) (startupComplete p) (stopComplete p)
  (lastError p) (stopping p) (cancelled p) s (main p).
Definition set_running b p := MkPool (services p) (serviceStates p) b (startupComplete p) (stopComplete p)
  (lastError p) (stopping p) (cancelled p) (poolState p) (main p).
Definition set_cancelled p := MkPool (services p) (serviceStates p) (running p) (startupComplete p) (stopComplete p)
  (lastError p) (stopping p) true (poolState p) (main p).
Definition set_stopping b p := MkPool (services p) (serviceStates p) (running p) (startupComplete p) (stopComplete p)
  (lastError p) b (cancelled p) (poolState p) (main p).
Definition set_lastError e p := MkPool (services p) (serviceStates p) (running p) (startupComplete p) (stopComplete p)
  e (stopping p) (cancelled p) (poolState p) (main p).
Definition set_startup n p := MkPool (services p) (serviceStates p) (running p) n (stopComplete p)
  (lastError p) (stopping p) (cancelled p) (poolState p) (main p).
Definition set_stopComplete n p := MkPool (services p) (serviceStates p) (running p) (startupComplete p) n
  (lastError p) (stopping p) (cancelled p) (poolState p) (main p).
Definition set_services l p := MkPool l (serviceStates p) (running p) (startupComplete p) (stopComplete p)
  (lastError p) (stopping p) (cancelled p) (poolState p) (main p).
Definition set_serviceStates l p := MkPool (services p) l (running p) (startupComplete p) (stopComplete p)
  (lastError p) (stopping p) (cancelled p) (poolState p) (main p).

Definition NewPool : pool := MkPool [] [] false 0 0 None false false StateStopped RIdle.

(** [Add]: the new service's lifecycle, with the pool's hook registered. *)
Definition new_svc : svc := MkSvc PNew false false NoStop.

Definition Add : prog pool unit :=
  let* p := get in
  if running p then panic "bug: pool already running, cannot add service"
  else put (set_services (services p ++ [new_svc]) (set_serviceStates (serviceStates p ++ [StateStopped]) p)).

(** The beginning of [RunWithLifecycle], up to the first loop: the services'
    goroutines are created; with no services the first loop is left at once. *)
Definition begin_collect (n : nat) (p : pool) : pool :=
  if decide (n = 0) then set_main RSelect (set_poolState StateRunning p) else set_main (RCollect 0) p.

Definition RunWithLifecycle_begin : prog pool unit :=
  let* p := get in
  if running p then panic "bug: pool already running, cannot run again"
  else
    put (begin_collect (length (services p)) (set_stopping false (set_running true (set_stopComplete 0 p)))).

(** ** Operations of the goroutines *)

(** Assignment to the fields of one service. *)
Definition set_phase (ph : phase) (s : svc) : svc := MkSvc ph (svc_ran s) (svc_cancelled s) (svc_stopper s).
Definition set_ran (s : svc) : svc := MkSvc (svc_phase s) true (svc_cancelled s) (svc_stopper s).
Definition set_stopper (t : stopper) (s : svc) : svc := MkSvc (svc_phase s) (svc_ran s) (svc_cancelled s) t.
Definition cancelRun (s : svc) : svc := MkSvc (svc_phase s) (svc_ran s) true (svc_stopper s).

Definition upd (i : nat) (f : svc → svc) (p : pool) : pool := set_services (alter f i (services p)) p.

(** [triggerStop], up to its wait: the first caller starts a goroutine per
    service that calls [Stop]; for later callers it returns at once. *)
Definition triggerStop (p : pool) : bool * pool :=
  if stopping p then (false, p)
  else (true, set_services (set_stopper StopCalled <$> services p) (set_stopping true p)).

(** [wg.Wait] of [triggerStop] can return. *)
Definition stoppers_done (p : pool) : bool :=
  forallb (λ s, match svc_stopper s with StopDone => true | _ => false end) (services p).

(** The first half of [onServiceStateChange]: the state is noted; a repeated
    state is ignored. *)
Definition noteState (i : nat) (newState : State) (p : pool) : bool * pool :=
  (bool_decide (serviceStates p !! i ≠ Some newState), set_serviceStates (<[i := newState]> (serviceStates p)) p).

(** The second half, up to where it may wait. *)
Definition onRunning (i : nat) (p : pool) : pool :=
  upd i (set_phase PRunning) (set_startup (Nat.max 1 (startupComplete p)) p).

Definition onStopping (i : nat) (p : pool) : pool :=
  let '(first, p) := triggerStop p in
  upd i (set_phase (if first then PStoppingWait else PStopping)) p.

Definition onEnd (i : nat) (err : option error) (p : pool) : pool :=
  let p := match err with Some _ => set_lastError err p | None => p end in
  let '(first, p) := triggerStop p in
  upd i (set_phase (if first then PEndWait err else PEndSend err)) p.

(** A service enters a state: its lifecycle changes, and the pool's hook is
    called ([next]) unless it has seen that state last ([skip]). *)
Definition enter (i : nat) (newState : State) (next skip : phase) (p : pool) : pool :=
  let '(changed, p) := noteState i newState p in
  upd i (set_phase (if (changed : bool) then next else skip)) p.

(** ** Events *)

Inductive event :=
| Cancel                              (** [Stop] is called on the pool's lifecycle *)
(* the goroutine of service [i] *)
| Begin (i : nat)                     (** [starting()] *)
| ReportRunning (i : nat)             (** the service calls [Running()] *)
| SendStartup (i : nat)
| ReportStopping (i : nat)            (** the service calls [Stopping()] *)
| End (i : nat) (err : option error)  (** [RunWithLifecycle] returns; [stopped()] or [crashed()] *)
| Trigger (i : nat)
| Triggered (i : nat)
| SendStop (i : nat)
(* the goroutine that stops service [i] *)
| CallStop (i : nat)
| CallWait (i : nat)
| EndWait (i : nat)
(* [RunWithLifecycle] of the pool *)
| RecvStartup
| RecvStop
| SeeCancel
| MainTrigger
| MainTriggered
| Return.

Definition is_end (s : State) : bool := match s with StateStopped | StateCrashed => true | _ => false end.

(** [Stop] returns at once in these states. *)
Definition stop_returns (s : State) : bool :=
  match s with StateStopping | StateStopped | StateCrashed => true | _ => false end.

Definition service_step (i : nat) (s : svc) (p : pool) (e : event) : option pool :=
  match e, svc_phase s with
  | Begin _, PNew => Some (enter i StateStarting PStarting PStarting p)
  | ReportRunning _, PStarting =>
      Some (enter i StateRunning PRunningHook PRunning (upd i set_ran p))
  | SendStartup _, PRunningHook => Some (onRunning i p)
  | ReportStopping _, (PStarting | PRunning) => Some (enter i StateStopping PStoppingHook PStopping p)
  | End _ err, (PStarting | PRunning | PStopping) =>
      Some (enter i (match err with Some _ => StateCrashed | None => StateStopped end)
              (PEndHook err) (PDone err) p)
  | Trigger _, PStoppingHook => Some (onStopping i p)
  | Trigger _, PEndHook err => Some (onEnd i err p)
  | Triggered _, PStoppingWait => if stoppers_done p then Some (upd i (set_phase PStopping) p) else None
  | Triggered _, PEndWait err => if stoppers_done p then Some (upd i (set_phase (PEndSend err)) p) else None
  | SendStop _, PEndSend err =>
      if decide (stopComplete p < length (services p))
      then Some (upd i (set_phase (PDone err)) (set_stopComplete (S (stopComplete p)) p)) else None
  | _, _ => None
  end.

(** [Stop] and [Wait] of the lifecycle: [Wait] returns at once when the service
    has ended, otherwise when its [Run] has returned. *)
Definition stopper_step (i : nat) (s : svc) (p : pool) (e : event) : option pool :=
  match e, svc_stopper s with
  | CallStop _, StopCalled =>
      Some (upd i (if stop_returns (svc_state s) then set_stopper StopDone
                   else λ s, cancelRun (set_stopper StopCancelled s)) p)
  | CallWait _, StopCancelled =>
      Some (upd i (set_stopper (if is_end (svc_state s) then StopDone else StopWaiting)) p)
  | EndWait _, StopWaiting =>
      match svc_phase s with PDone _ => Some (upd i (set_stopper StopDone) p) | _ => None end
  | _, _ => None
  end.

Definition main_step (p : pool) (e : event) : option pool :=
  match e, main p with
  | RecvStartup, RCollect i =>
      match startupComplete p with
      | 0 => None
      | S n =>
          let p := set_startup n p in
          Some (if decide (S i < length (services p)) then set_main (RCollect (S i)) p
                else set_main RSelect (set_poolState StateRunning p))
      end
  | RecvStop, RCollect i =>
      match stopComplete p with
      | 0 => None
      | S n => Some (set_main (RTrigger (length (services p) - 1)) (set_poolState StateStopping (set_stopComplete n p)))
      end
  | RecvStop, RSelect =>
      match stopComplete p with
      | 0 => None
      | S n => Some (set_main (RDrain (length (services p) - 1)) (set_stopComplete n p))
      end
  | SeeCancel, RSelect =>
      if cancelled p then Some (set_main (RTrigger (length (services p))) (set_poolState StateStopping p)) else None
  | MainTrigger, RTrigger rem =>
      let '(first, p) := triggerStop p in
      Some (set_main (if (first : bool) then RTriggerWait rem else RDrain rem) p)
  | MainTriggered, RTriggerWait rem => if stoppers_done p then Some (set_main (RDrain rem) p) else None
  | RecvStop, RDrain (S rem) =>
      match stopComplete p with 0 => None | S n => Some (set_main (RDrain rem) (set_stopComplete n p)) end
  | Return, RDrain 0 => Some (set_main (RReturned (lastError p)) (set_running false p))
  | _, _ => None
  end.

(** The service an event belongs to. *)
Definition event_service (e : event) : option nat :=
  match e with
  | Begin i | ReportRunning i | SendStartup i | ReportStopping i | End i _ | Trigger i | Triggered i | SendStop i
  | CallStop i | CallWait i | EndWait i => Some i
  | _ => None
  end.

Definition is_stopper_event (e : event) : bool :=
  match e with CallStop _ | CallWait _ | EndWait _ => true | _ => false end.

Definition pool_step (p : pool) (e : event) : option pool :=
  match event_service e with
  | Some i =>
      match services p !! i with
      | Some s => if is_stopper_event e then stopper_step i s p e else service_step i s p e
      | None => None
      end
  | None =>
      match e with
      | Cancel => if cancelled p then None else Some (set_cancelled p)
      | _ => main_step p e
      end
  end.

Fixpoint pool_run (p : pool) (es : list event) : option pool :=
  match es with
  | [] => Some p
  | e :: es => match pool_step p e with Some p' => pool_run p' es | None => None end
  end.

(** A pool of [n] services whose [RunWithLifecycle] has begun. *)
Fixpoint add_services (n : nat) : prog pool unit :=
  match n with 0 => prog_ret tt | S n => do* Add in add_services n end.

Definition started_pool (n : nat) : outcome (unit * pool) :=
  (do* add_services n in RunWithLifecycle_begin) NewPool.
