(* ===== verification/PoolSpec.v ===== *)
(** * What a service pool guarantees

    Theorems on [Pool], by induction over the steps of its goroutines: the pool
    returns only after all its services, it reports running only when they all
    run, every execution is finite; and in which states it can be stuck. *)

From stdpp Require Import base strings list relations.
From S2P Require Import Prelude Messages Lifecycle Pool.

(** ** Counting services *)

(** What the pool's properties depend on in a service: its phase and whether
    it has reported that it runs. *)
Abbreviation core := (phase * bool)%type.
Definition core_of (s : svc) : core := (svc_phase s, svc_ran s).
Definition cores (p : pool) : list core := core_of <$> services p.

Definition count (f : core → bool) (l : list core) : nat := sum_list_with (λ s, if f s then 1 else 0) l.

Lemma count_cons f x l : count f (x :: l) = (if f x then 1 else 0) + count f l.
Proof. done. Qed.

Lemma count_insert f i l x y :
  l !! i = Some x → count f (<[i := y]> l) + (if f x then 1 else 0) = count f l + (if f y then 1 else 0).
Proof.
  revert i. induction l as [|z l IH]; intros [|i] H; [done..| |].
  - injection H as ->. change (<[0:=y]> (x :: l)) with (y :: l). rewrite !count_cons. lia.
  - change (<[S i:=y]> (z :: l)) with (z :: <[i:=y]> l). rewrite !count_cons. specialize (IH i H). lia.
Qed.

Lemma count_le f l : count f l ≤ length l.
Proof. unfold count. induction l as [|x l IH]; cbn; [done|]. destruct (f x); lia. Qed.

Lemma count_full f l : count f l = length l → Forall (λ s, f s = true) l.
Proof.
  induction l as [|x l IH]; [done|]. rewrite count_cons.
  pose proof (count_le f l). cbn [length]. intros E. destruct (f x) eqn:Ef.
  - constructor; [done | apply IH; lia].
  - lia.
Qed.

Lemma count_lt f l i x : l !! i = Some x → f x = false → count f l < length l.
Proof.
  intros H Hf. destruct (decide (count f l = length l)) as [E|]; [|pose proof (count_le f l); lia].
  apply count_full in E. rewrite Forall_lookup in E. specialize (E i x H). congruence.
Qed.

(** ** Runs *)

Definition step (p p' : pool) : Prop := ∃ e, pool_step p e = Some p'.

(** A state that a pool of [n] services can get into. *)
Definition reachable (n : nat) (p : pool) : Prop :=
  ∃ p0, started_pool n = Done (tt, p0) ∧ rtc step p0 p.

Definition phase_state (ph : phase) : State := svc_state (MkSvc ph false false NoStop).

(** The services that have sent their end, and those that have announced to
    the pool that they run. *)
Definition has_sent (c : core) : bool := match c.1 with PDone _ => true | _ => false end.
Definition announced (c : core) : bool :=
  c.2 && match c.1 with PNew | PStarting | PRunningHook => false | _ => true end.

(** The error of a service that the pool has taken note of. *)
Definition noted_error (c : core) : option error :=
  match c.1 with PEndWait e | PEndSend e | PDone e => e | _ => None end.

(** What [RunWithLifecycle] has received from the two channels. *)
Definition received_stops (n : nat) (r : runner) : nat :=
  match r with
  | RTrigger rem | RTriggerWait rem | RDrain rem => n - rem
  | RReturned _ => n
  | _ => 0
  end.

Definition received_starts (n : nat) (r : runner) : nat :=
  match r with RCollect i => i | RSelect => n | _ => 0 end.

Definition main_ok (n : nat) (r : runner) : Prop :=
  match r with
  | RIdle => False
  | RCollect i => i < n
  | RTrigger rem | RTriggerWait rem | RDrain rem => rem ≤ n
  | _ => True
  end.

(** The accounting between the services ([cs]), the channels ([su], [so]), the
    error of the pool ([le]) and [RunWithLifecycle] ([m]). *)
Record accounts (n : nat) (cs : list core) (m : runner) (su so : nat) (le : option error) : Prop := {
  acc_length : length cs = n;
  acc_main : main_ok n m;
  acc_stops : count has_sent cs = so + received_stops n m;
  acc_starts : su + received_starts n m ≤ count announced cs;
  acc_error e : le = Some e → ∃ c, c ∈ cs ∧ noted_error c = Some e;
  acc_crash c : c ∈ cs → noted_error c ≠ None → le ≠ None;
  acc_result e : m = RReturned e → le = e;
}.

(** A service whose hook is being called has reported that it runs. *)
Definition ran_ok (c : core) : Prop := match c.1 with PRunningHook => c.2 = true | _ => True end.

Definition pool_inv (n : nat) (p : pool) : Prop :=
  accounts n (cores p) (main p) (startupComplete p) (stopComplete p) (lastError p) ∧
  serviceStates p = (phase_state ∘ fst) <$> cores p ∧ Forall ran_ok (cores p).

(** ** The invariant is preserved *)

(** The error the pool keeps when a service goes from [c] to [c']. *)
Definition next_error (c c' : core) (le : option error) : option error :=
  match noted_error c with
  | Some _ => le
  | None => match noted_error c' with Some e => Some e | None => le end
  end.

Lemma accounts_update n cs m su so le i c c' su' so' :
  accounts n cs m su so le → cs !! i = Some c →
  so' + (if has_sent c then 1 else 0) = so + (if has_sent c' then 1 else 0) →
  su' + (if announced c then 1 else 0) ≤ su + (if announced c' then 1 else 0) →
  (noted_error c ≠ None → noted_error c' = noted_error c) →
  has_sent c = false →
  accounts n (<[i := c']> cs) m su' so' (next_error c c' le).
Proof.
  intros [Hl Hm Hs Hr He Hc Hx] Hi Hso Hsu Hn Hret.
  pose proof (count_insert has_sent i cs c c' Hi). pose proof (count_insert announced i cs c c' Hi).
  assert (i < length cs) as Hlt by (apply lookup_lt_is_Some; eauto).
  split; try done; [by rewrite length_insert | lia | lia | | |].
  - intros e E. assert ((noted_error c = None ∧ noted_error c' = Some e) ∨ le = Some e) as [[E0 E']|El].
    { unfold next_error in E. destruct (noted_error c); [by right|]. destruct (noted_error c'); [by left|by right]. }
    + exists c'. split; [|done]. apply list_elem_of_lookup. exists i. by apply list_lookup_insert_eq.
    + destruct (He e El) as (d & [j Hj]%list_elem_of_lookup & Hd). destruct (decide (i = j)) as [<-|Hij].
      * simplify_eq. exists c'. split; [|rewrite Hn; congruence].
        apply list_elem_of_lookup. exists i. by apply list_lookup_insert_eq.
      * exists d. split; [|done]. apply list_elem_of_lookup. exists j. by rewrite list_lookup_insert_ne.
  - intros d [j Hj]%list_elem_of_lookup Hd. unfold next_error.
    destruct (decide (i = j)) as [<-|Hij].
    + rewrite list_lookup_insert_eq in Hj by done. simplify_eq.
      destruct (noted_error c) eqn:E0; [|by destruct (noted_error d)].
      apply (Hc c); [by apply list_elem_of_lookup; exists i | congruence].
    + rewrite list_lookup_insert_ne in Hj by done.
      assert (le ≠ None) by (apply (Hc d); [by apply list_elem_of_lookup; exists j | done]).
      by destruct (noted_error c), (noted_error c').
  - intros e E. rewrite <- (Hx e E).
    assert (count has_sent cs < length cs) by (by eapply count_lt).
    rewrite E in Hs. cbn in Hs. lia.
Qed.

Lemma cores_upd i f s p :
  services p !! i = Some s → cores (upd i f p) = <[i := core_of (f s)]> (cores p).
Proof.
  intros Hi. unfold cores, upd. cbn. apply list_eq. intros j. rewrite list_lookup_fmap.
  assert (i < length (services p)) by (apply lookup_lt_is_Some; eauto).
  destruct (decide (i = j)) as [<-|Hij].
  - rewrite list_lookup_alter_eq, Hi, list_lookup_insert_eq by (by rewrite length_fmap). done.
  - rewrite list_lookup_alter_ne, list_lookup_insert_ne by done. by rewrite list_lookup_fmap.
Qed.

Lemma cores_lookup i s p : services p !! i = Some s → cores p !! i = Some (core_of s).
Proof. intros Hi. unfold cores. by rewrite list_lookup_fmap, Hi. Qed.

Lemma cores_upd_stopper i f p : (∀ s, core_of (f s) = core_of s) → cores (upd i f p) = cores p.
Proof.
  intros Hf. unfold cores, upd. cbn. apply list_eq. intros j. rewrite !list_lookup_fmap.
  destruct (decide (i = j)) as [<-|Hij].
  - rewrite list_lookup_alter_eq. destruct (services p !! i); cbn; [by rewrite Hf | done].
  - by rewrite list_lookup_alter_ne.
Qed.

(** [triggerStop] changes the stopping flag and the stoppers. *)
Lemma triggerStop_frame first p p' :
  triggerStop p = (first, p') →
  cores p' = cores p ∧ serviceStates p' = serviceStates p ∧ startupComplete p' = startupComplete p ∧
  stopComplete p' = stopComplete p ∧ lastError p' = lastError p ∧ main p' = main p ∧
  ∀ i s, services p !! i = Some s → ∃ s', services p' !! i = Some s' ∧ core_of s' = core_of s.
Proof.
  unfold triggerStop. destruct (stopping p); intros [= <- <-].
  - split_and!; try done. eauto.
  - unfold cores. cbn. rewrite <- list_fmap_compose. split_and!; try done.
    intros i s Hi. rewrite list_lookup_fmap, Hi. by eexists.
Qed.

(** A step of one service, from [c] to [c']. *)
Lemma inv_service n p p' i c c' :
  pool_inv n p → cores p !! i = Some c → cores p' = <[i := c']> (cores p) → main p' = main p →
  (serviceStates p' = <[i := phase_state c'.1]> (serviceStates p) ∨
   serviceStates p' = serviceStates p ∧ phase_state c'.1 = phase_state c.1) →
  has_sent c = false →
  stopComplete p' = stopComplete p + (if has_sent c' then 1 else 0) →
  startupComplete p' + (if announced c then 1 else 0) ≤ startupComplete p + (if announced c' then 1 else 0) →
  (noted_error c ≠ None → noted_error c' = noted_error c) →
  lastError p' = next_error c c' (lastError p) → ran_ok c' → pool_inv n p'.
Proof.
  intros (Ha & Hst & Hf) Hi Hc Hm Hs Hsent Hso Hsu Hn Hle Hy. split_and!; [| |rewrite Hc; by apply Forall_insert].
  - rewrite Hc, Hm, Hle. eapply accounts_update; try done. rewrite Hsent, Hso. lia.
  - rewrite Hc, list_fmap_insert, <- Hst. destruct Hs as [->|[-> E]]; [done|].
    symmetry. apply list_insert_id. rewrite Hst, list_lookup_fmap, Hi. cbn. by f_equal.
Qed.

(** The pool has not seen a service in the state it enters. *)
Lemma enter_eq n p i s st next skip :
  pool_inv n p → services p !! i = Some s → phase_state (svc_phase s) ≠ st →
  enter i st next skip p = upd i (set_phase next) (set_serviceStates (<[i:=st]> (serviceStates p)) p).
Proof.
  intros (_ & Hst & _) Hi Hne. unfold enter, noteState. rewrite bool_decide_true; [done|].
  rewrite Hst, list_lookup_fmap, (cores_lookup _ _ _ Hi). cbn. congruence.
Qed.

(** A service changes its state and the pool notes it. *)
Lemma inv_enter n p i s st next skip :
  pool_inv n p → services p !! i = Some s → phase_state next = st → phase_state (svc_phase s) ≠ st →
  noted_error (core_of s) = None → noted_error (next, svc_ran s) = None → has_sent (core_of s) = false →
  has_sent (next, svc_ran s) = false →
  (announced (core_of s) = true → announced (next, svc_ran s) = true) → ran_ok (next, svc_ran s) →
  pool_inv n (enter i st next skip p) ∧
  cores (enter i st next skip p) = <[i := (next, svc_ran s)]> (cores p) ∧
  ∃ s', services (enter i st next skip p) !! i = Some s' ∧ core_of s' = (next, svc_ran s).
Proof.
  intros Hinv Hi Hst Hne Hn Hn' Hsent Hsent' Hann Hy.
  pose proof (enter_eq n p i s st next skip Hinv Hi Hne) as E.
  set (q := set_serviceStates _ p) in E. assert (services q !! i = Some s) as Hq by done.
  pose proof (cores_upd i (set_phase next) s q Hq) as Hc. rewrite E. split_and!.
  - eapply (inv_service _ p); eauto using cores_lookup; try done; cbn.
    + left. by rewrite Hst.
    + change (core_of (set_phase next s)) with (next, svc_ran s). rewrite Hsent'. lia.
    + change (core_of (set_phase next s)) with (next, svc_ran s).
      destruct (announced (core_of s)); [by rewrite Hann|]. destruct (announced _); lia.
    + unfold next_error. change (core_of (set_phase next s)) with (next, svc_ran s). by rewrite Hn, Hn'.
  - done.
  - unfold upd. cbn. rewrite list_lookup_alter_eq. unfold q in Hq. cbn in Hq. rewrite Hq. by eexists.
Qed.

Lemma ran_in_hook n p i s :
  pool_inv n p → services p !! i = Some s → svc_phase s = PRunningHook → svc_ran s = true.
Proof.
  intros (_ & _ & Hf) Hi E. rewrite Forall_lookup in Hf. specialize (Hf i _ (cores_lookup _ _ _ Hi)).
  unfold ran_ok in Hf. cbn in Hf. by rewrite E in Hf.
Qed.

(** The hooks that call [triggerStop]. *)
Lemma inv_trigger n p i s first q c' :
  pool_inv n p → services p !! i = Some s → triggerStop p = (first, q) →
  c' = (c'.1, svc_ran s) → phase_state c'.1 = phase_state (svc_phase s) →
  has_sent (core_of s) = false → has_sent c' = false → announced c' = announced (core_of s) →
  noted_error (core_of s) = None → ran_ok c' →
  pool_inv n (upd i (set_phase c'.1) (match noted_error c' with Some _ => set_lastError (noted_error c') q | None => q end)).
Proof.
  intros Hinv Hi Ht Hc Hst Hs Hs' Ha Hn Hy.
  destruct (triggerStop_frame _ _ _ Ht) as (F1 & F2 & F3 & F4 & F5 & F6 & F7).
  destruct (F7 i s Hi) as (s' & Hi' & Es'). injection Es' as Ep Er.
  set (q' := match noted_error c' with Some _ => _ | None => q end).
  assert (services q' !! i = Some s') as Hq by (unfold q'; by destruct (noted_error c')).
  assert (cores q' = cores p) as Cq by (unfold q', cores in *; by destruct (noted_error c')).
  assert (core_of (set_phase c'.1 s') = c') as Ec by (rewrite Hc; unfold core_of; cbn; by rewrite Er).
  pose proof (cores_upd i (set_phase c'.1) s' q' Hq) as Hcc. rewrite Ec, Cq in Hcc.
  eapply (inv_service n p _ i (core_of s) c'); eauto using cores_lookup.
  - unfold q'. by destruct (noted_error c').
  - right. split; [|done]. unfold q'. by destruct (noted_error c').
  - rewrite Hs'. unfold q'. destruct (noted_error c'); cbn; lia.
  - rewrite Ha. unfold q'. destruct (noted_error c'); cbn; lia.
  - by rewrite Hn.
  - unfold next_error. rewrite Hn. unfold q'. destruct (noted_error c') eqn:E; cbn; congruence.
Qed.

(** A service moves on within a hook, without a change of state. *)
Lemma inv_phase n p i s next su :
  pool_inv n p → services p !! i = Some s → phase_state next = phase_state (svc_phase s) →
  has_sent (core_of s) = false → has_sent (next, svc_ran s) = false →
  su + (if announced (core_of s) then 1 else 0)
    ≤ startupComplete p + (if announced (next, svc_ran s) then 1 else 0) →
  noted_error (next, svc_ran s) = noted_error (core_of s) → ran_ok (next, svc_ran s) →
  pool_inv n (upd i (set_phase next) (set_startup su p)).
Proof.
  intros Hinv Hi Hst Hs Hs' Ha Hn Hy.
  pose proof (cores_upd i (set_phase next) s (set_startup su p) Hi) as Hc.
  change (core_of (set_phase next s)) with (next, svc_ran s) in Hc.
  eapply (inv_service n p); eauto using cores_lookup; cbn.
  - rewrite Hs'. lia.
  - unfold next_error. rewrite Hn. by destruct (noted_error (core_of s)).
Qed.

Ltac in_phase E := unfold core_of, has_sent, announced, noted_error, ran_ok, phase_state, svc_state; cbn; rewrite ?E; cbn; rewrite ?andb_true_r, ?andb_false_r; try done; try discriminate; try lia.

(** [ReportRunning]: the flag of the service, then its phase. *)
Lemma set_ran_inv n p i s :
  pool_inv n p → services p !! i = Some s → svc_phase s = PStarting →
  pool_inv n (upd i set_ran p) ∧ services (upd i set_ran p) !! i = Some (set_ran s).
Proof.
  intros Hinv Hi E. split; [|unfold upd; cbn; by rewrite list_lookup_alter_eq, Hi].
  pose proof (cores_upd i set_ran s p Hi) as Hc.
  eapply (inv_service n p _ i (core_of s) (core_of (set_ran s))); eauto using cores_lookup; in_phase E.
Qed.

Lemma report_running_inv n p i s :
  pool_inv n p → services p !! i = Some s → svc_phase s = PStarting →
  pool_inv n (enter i StateRunning PRunningHook PRunning (upd i set_ran p)).
Proof.
  intros Hinv Hi E. destruct (set_ran_inv n p i s Hinv Hi E) as [H1 H2].
  eapply proj1, (inv_enter n _ i (set_ran s)); in_phase E.
Qed.

Lemma onEnd_eq i err p first q :
  triggerStop p = (first, q) →
  onEnd i err p = upd i (set_phase (if first then PEndWait err else PEndSend err))
    (match err with Some _ => set_lastError err q | None => q end).
Proof.
  unfold onEnd, triggerStop. destruct err as [e|]; cbn; destruct (stopping p); by intros [= <- <-].
Qed.

(** The send on [stopComplete]. *)
Lemma send_stop_inv n p i s err :
  pool_inv n p → services p !! i = Some s → svc_phase s = PEndSend err →
  pool_inv n (upd i (set_phase (PDone err)) (set_stopComplete (S (stopComplete p)) p)).
Proof.
  intros Hinv Hi E.
  pose proof (cores_upd i (set_phase (PDone err)) s (set_stopComplete (S (stopComplete p)) p) Hi) as Hc.
  eapply (inv_service n p _ i (core_of s) (PDone err, svc_ran s)); eauto using cores_lookup; in_phase E.
  - right. split; [done|]. by destruct err.
  - unfold next_error. in_phase E. by destruct err.
Qed.

Lemma service_step_inv n p i s e p' :
  pool_inv n p → services p !! i = Some s → service_step i s p e = Some p' → pool_inv n p'.
Proof.
  intros Hinv Hi Hstep. pose proof (ran_in_hook n p i s Hinv Hi) as Hran.
  destruct e; try discriminate; unfold service_step in Hstep;
    destruct (svc_phase s) eqn:E; try discriminate; try (injection Hstep as <-).
  - eapply proj1, (inv_enter n p i s); in_phase E.
  - by apply (report_running_inv n p i s).
  - apply (inv_phase n p i s); in_phase E. rewrite Hran by done. cbn. lia.
  - eapply proj1, (inv_enter n p i s); in_phase E.
  - eapply proj1, (inv_enter n p i s); in_phase E.
  - eapply proj1, (inv_enter n p i s); in_phase E; by destruct err.
  - eapply proj1, (inv_enter n p i s); in_phase E; by destruct err.
  - eapply proj1, (inv_enter n p i s); in_phase E; by destruct err.
  - unfold onStopping. destruct (triggerStop p) as [first q] eqn:Et.
    pose proof (inv_trigger n p i s first q (if first then PStoppingWait else PStopping, svc_ran s) Hinv Hi Et) as H.
    destruct first; apply H; in_phase E.
  - destruct (triggerStop p) as [first q] eqn:Et. rewrite (onEnd_eq _ _ _ _ _ Et).
    pose proof (inv_trigger n p i s first q (if first then PEndWait err else PEndSend err, svc_ran s) Hinv Hi Et) as H.
    destruct first; apply H; in_phase E.
  - destruct (stoppers_done p); [|done]. injection Hstep as <-.
    apply (inv_phase n p i s PStopping (startupComplete p)); in_phase E.
  - destruct (stoppers_done p); [|done]. injection Hstep as <-.
    apply (inv_phase n p i s (PEndSend err) (startupComplete p)); in_phase E.
  - case_decide; [|done]. injection Hstep as <-. by apply (send_stop_inv n p i s).
Qed.

Lemma stopper_step_inv n p i s e p' :
  pool_inv n p → stopper_step i s p e = Some p' → pool_inv n p'.
Proof.
  intros Hinv Hstep.
  assert (∃ f, p' = upd i f p ∧ ∀ s, core_of (f s) = core_of s) as (f & -> & Hf).
  { destruct e; try discriminate; unfold stopper_step in Hstep; destruct (svc_stopper s); try discriminate.
    - injection Hstep as <-. eexists. split; [done|]. by destruct (stop_returns _).
    - injection Hstep as <-. by eexists.
    - destruct (svc_phase s); try discriminate. injection Hstep as <-. by eexists. }
  unfold pool_inv. by rewrite (cores_upd_stopper i f p Hf).
Qed.

Lemma inv_runner n p p' :
  pool_inv n p → cores p' = cores p → serviceStates p' = serviceStates p → lastError p' = lastError p →
  main_ok n (main p') →
  stopComplete p' + received_stops n (main p') = stopComplete p + received_stops n (main p) →
  startupComplete p' + received_starts n (main p') ≤ startupComplete p + received_starts n (main p) →
  (∀ e, main p' = RReturned e → lastError p = e) → pool_inv n p'.
Proof.
  intros ([Hl Hm Hs Hr He Hc Hx] & Hst & Hf) Ec Es El Hm' Hso Hsu Hret. unfold pool_inv. rewrite Ec, Es, El.
  split; [|done]. split; try done; lia.
Qed.

Lemma main_step_inv n p e p' :
  pool_inv n p → main_step p e = Some p' → pool_inv n p'.
Proof.
  intros Hinv Hstep. pose proof Hinv as ([Hl Hm Hs Hr _ _ _] & _).
  pose proof (count_le has_sent (cores p)) as Hle. pose proof Hl as Hl'. unfold cores in Hl'. rewrite length_fmap in Hl'.
  destruct e; try discriminate; unfold main_step in Hstep; destruct (main p) as [|i| |rem|rem|rem|r] eqn:Em;
    try discriminate; cbn in Hm, Hs, Hr.
  - destruct (startupComplete p) as [|m] eqn:Es; [done|]. injection Hstep as <-. cbn. rewrite Hl'.
    case_decide; eapply (inv_runner n p); try done; cbn; rewrite ?Em, ?Es; cbn; lia.
  - destruct (stopComplete p) as [|m] eqn:Es; [done|]. injection Hstep as <-.
    eapply (inv_runner n p); try done; cbn; rewrite ?Em, ?Es, ?Hl'; cbn; lia.
  - destruct (stopComplete p) as [|m] eqn:Es; [done|]. injection Hstep as <-.
    eapply (inv_runner n p); try done; cbn; rewrite ?Em, ?Es, ?Hl'; cbn; lia.
  - destruct rem as [|rem]; [done|]. destruct (stopComplete p) as [|m] eqn:Es; [done|]. injection Hstep as <-.
    eapply (inv_runner n p); try done; cbn; rewrite ?Em, ?Es, ?Hl'; cbn; lia.
  - destruct (cancelled p); [|done]. injection Hstep as <-.
    eapply (inv_runner n p); try done; cbn; rewrite ?Em, ?Hl'; cbn; lia.
  - destruct (triggerStop p) as [first q] eqn:Et. injection Hstep as <-.
    destruct (triggerStop_frame _ _ _ Et) as (F1 & F2 & F3 & F4 & F5 & F6 & _).
    eapply (inv_runner n p); try done; destruct first; cbn; rewrite ?Em, ?F3, ?F4; cbn; try done; lia.
  - destruct (stoppers_done p); [|done]. injection Hstep as <-.
    eapply (inv_runner n p); try done; cbn; rewrite ?Em; cbn; lia.
  - destruct rem as [|rem]; [|done]. injection Hstep as <-.
    eapply (inv_runner n p); try done; cbn; rewrite ?Em; cbn; try lia. by intros ? [= ->].
Qed.

Lemma step_inv n p p' : pool_inv n p → step p p' → pool_inv n p'.
Proof.
  intros Hinv [e Hstep]. unfold pool_step in Hstep. destruct (event_service e) as [i|] eqn:Ee.
  - destruct (services p !! i) as [s|] eqn:Hi; [|done]. destruct (is_stopper_event e).
    + eauto using stopper_step_inv.
    + eauto using service_step_inv.
  - destruct e; try discriminate; try by eapply main_step_inv.
    destruct (cancelled p); [done|]. by injection Hstep as <-.
Qed.

(** ** The pool that has just been started *)

Lemma add_services_spec n p :
  running p = false →
  add_services n p = Done (tt, set_services (services p ++ replicate n new_svc)
    (set_serviceStates (serviceStates p ++ replicate n StateStopped) p)).
Proof.
  revert p. induction n as [|n IH]; intros p Hr.
  - cbn. rewrite !app_nil_r. by destruct p.
  - cbn. unfold Add. run_prog. rewrite Hr, IH by done. cbn. by rewrite <- !app_assoc.
Qed.

Definition fresh_pool (n : nat) : pool :=
  begin_collect n (MkPool (replicate n new_svc) (replicate n StateStopped) true 0 0 None false false StateStopped RIdle).

Lemma started_pool_eq n : started_pool n = Done (tt, fresh_pool n).
Proof.
  unfold started_pool, prog_bind. rewrite add_services_spec by done.
  unfold RunWithLifecycle_begin. run_prog. cbn. by rewrite length_replicate.
Qed.

Lemma count_replicate f n c : f c = false → count f (replicate n c) = 0.
Proof. intros Hf. induction n as [|n IH]; [done|]. cbn [replicate]. by rewrite count_cons, Hf, IH. Qed.

Lemma fresh_pool_inv n : pool_inv n (fresh_pool n).
Proof.
  assert (cores (fresh_pool n) = replicate n (PNew, false)) as Hc.
  { unfold cores, fresh_pool, begin_collect. case_decide; cbn; by rewrite fmap_replicate. }
  unfold pool_inv. rewrite Hc, fmap_replicate. split_and!; [split|..].
  - apply length_replicate.
  - unfold fresh_pool, begin_collect. case_decide; cbn; [done|lia].
  - rewrite count_replicate by done. unfold fresh_pool, begin_collect. by case_decide.
  - rewrite count_replicate by done. unfold fresh_pool, begin_collect. case_decide; cbn; lia.
  - intros e. unfold fresh_pool, begin_collect. by case_decide.
  - intros c [i [-> _]%lookup_replicate]%list_elem_of_lookup. done.
  - intros e. unfold fresh_pool, begin_collect. by case_decide.
  - unfold fresh_pool, begin_collect. by case_decide.
  - apply Forall_replicate. done.
Qed.

Lemma reachable_inv n p : reachable n p → pool_inv n p.
Proof.
  intros (p0 & E & Hsteps). rewrite started_pool_eq in E. injection E as <-.
  pose proof (fresh_pool_inv n) as H. induction Hsteps; eauto using step_inv.
Qed.

(** ** The pool and its services *)

Lemma sent_all n p err :
  pool_inv n p → main p = RReturned err → Forall (λ c, has_sent c = true) (cores p).
Proof.
  intros ([Hl _ Hs _ _ _ _] & _) Em. rewrite Em in Hs. cbn in Hs. apply count_full.
  pose proof (count_le has_sent (cores p)). lia.
Qed.

(** A service's send on [stopComplete] finds room in the channel. *)
Lemma send_enabled n p i s err :
  pool_inv n p → services p !! i = Some s → svc_phase s = PEndSend err →
  service_step i s p (SendStop i) = Some (upd i (set_phase (PDone err)) (set_stopComplete (S (stopComplete p)) p)).
Proof.
  intros ([Hl _ Hs _ _ _ _] & _) Hi E. cbn. rewrite E, decide_True; [done|].
  assert (count has_sent (cores p) < length (cores p)) as Hlt.
  { eapply count_lt; [by apply cores_lookup|]. unfold has_sent. cbn. by rewrite E. }
  unfold cores in *. rewrite length_fmap in Hlt. lia.
Qed.

Lemma services_sent p :
  0 < count has_sent (cores p) → ∃ s, s ∈ services p ∧ ∃ e, svc_phase s = PDone e.
Proof.
  unfold cores. induction (services p) as [|s l IH]; [cbn; lia|]. rewrite fmap_cons, count_cons.
  unfold has_sent at 1. cbn. destruct (svc_phase s) eqn:E; intros H;
    try (destruct (IH H) as (x & Hx & He); exists x; split; [by right | done]).
  exists s. split; [by left | by eexists].
Qed.

Lemma services_unsent p :
  count has_sent (cores p) < length (services p) → ∃ s, s ∈ services p ∧ has_sent (core_of s) = false.
Proof.
  unfold cores. induction (services p) as [|s l IH]; [cbn; lia|]. rewrite fmap_cons, count_cons. cbn [length].
  destruct (has_sent (core_of s)) eqn:E.
  - intros H. destruct IH as (x & Hx & He); [lia|]. exists x. split; [by right | done].
  - intros _. exists s. split; [by left | done].
Qed.

(** Claim C29. The pool's [RunWithLifecycle] returns only when every service has ended; it
    returns an error exactly when one of them has crashed, and then the error of
    a crashed service. *)
Theorem pool_outlives_services n p err :
  reachable n p → main p = RReturned err →
  Forall (λ s, ∃ e, svc_phase s = PDone e) (services p) ∧
  (err = None ↔ Forall (λ s, svc_phase s = PDone None) (services p)) ∧
  (∀ e, err = Some e → Exists (λ s, svc_phase s = PDone (Some e)) (services p)).
Proof.
  intros Hr Em. apply reachable_inv in Hr as Hinv. pose proof (sent_all n p err Hinv Em) as Hall.
  destruct Hinv as ([_ _ _ _ He Hc Hx] & _). rewrite (Hx err Em) in He, Hc.
  unfold cores in *. rewrite Forall_fmap in Hall.
  assert (∀ s, s ∈ services p → ∃ e, svc_phase s = PDone e) as Hd.
  { intros s Hs. rewrite Forall_forall in Hall. specialize (Hall s Hs). unfold has_sent in Hall. cbn in Hall.
    destruct (svc_phase s); try done. by eexists. }
  split_and!; [by apply Forall_forall | split |].
  - intros ->. apply Forall_forall. intros s Hs. destruct (Hd s Hs) as [[e|] E]; [|done]. exfalso.
    apply (Hc (core_of s)); [by apply list_elem_of_fmap_2 | unfold noted_error; cbn; by rewrite E | done].
  - intros Hall'. destruct err as [e|]; [|done]. destruct (He e eq_refl) as (c & (s & -> & Hs)%list_elem_of_fmap & Hn).
    rewrite Forall_forall in Hall'. specialize (Hall' s Hs). unfold noted_error in Hn. cbn in Hn. by rewrite Hall' in Hn.
  - intros e ->. destruct (He e eq_refl) as (c & (s & -> & Hs)%list_elem_of_fmap & Hn).
    apply Exists_exists. exists s. split; [done|]. destruct (Hd s Hs) as [e' E]. unfold noted_error in Hn. cbn in Hn.
    rewrite E in Hn. by simplify_eq.
Qed.

(** The pool reports that it runs only after every service has done so; and a
    service's send on [stopComplete] never waits, the channel has room. *)
Theorem pool_runs_when_services_run n p :
  reachable n p →
  (main p = RSelect → Forall (λ s, svc_ran s = true) (services p)) ∧
  (∀ i s err, services p !! i = Some s → svc_phase s = PEndSend err →
     pool_step p (SendStop i) =
     Some (upd i (set_phase (PDone err)) (set_stopComplete (S (stopComplete p)) p))).
Proof.
  intros Hinv%reachable_inv. split.
  - intros Em. destruct Hinv as ([Hl _ _ Hr _ _ _] & _). rewrite Em in Hr. cbn in Hr.
    pose proof (count_le announced (cores p)).
    assert (Forall (λ c, announced c = true) (cores p)) as Hall by (apply count_full; lia).
    unfold cores in Hall. rewrite Forall_fmap in Hall. eapply Forall_impl; [exact Hall|].
    intros s Ha. unfold announced in Ha. by apply andb_true_iff in Ha as [? _].
  - intros i s err Hi E. unfold pool_step. cbn [event_service]. rewrite Hi. by apply (send_enabled n).
Qed.

(** ** Every execution is finite *)

Definition phase_weight (ph : phase) : nat :=
  match ph with
  | PNew => 10 | PStarting => 9 | PRunningHook => 8 | PRunning => 7 | PStoppingHook => 6 | PStoppingWait => 5
  | PStopping => 4 | PEndHook _ => 3 | PEndWait _ => 2 | PEndSend _ => 1 | PDone _ => 0
  end.

Definition stopper_weight (t : stopper) : nat :=
  match t with StopCalled => 3 | StopCancelled => 2 | StopWaiting => 1 | _ => 0 end.

Definition svc_weight (s : svc) : nat := phase_weight (svc_phase s) + stopper_weight (svc_stopper s).

Definition main_weight (n : nat) (r : runner) : nat :=
  match r with
  | RReturned _ => 0
  | RDrain rem => rem + 1
  | RTriggerWait rem => rem + 2
  | RTrigger rem => rem + 3
  | RSelect => n + 4
  | RCollect i => n + 5 + (n - i)
  | RIdle => 2 * n + 6
  end.

(** The number of steps that are left at most. *)
Definition weight (p : pool) : nat :=
  let n := length (services p) in
  sum_list_with svc_weight (services p) + main_weight n (main p) +
  (if stopping p then 0 else 3 * n + 1) + (if cancelled p then 0 else 1).

Lemma sum_alter {A} (f : A → nat) g i (l : list A) x :
  l !! i = Some x → sum_list_with f (alter g i l) + f x = sum_list_with f l + f (g x).
Proof.
  revert i. induction l as [|y l IH]; intros [|i] H; [done..| |].
  - injection H as ->. change (alter g 0 (x :: l)) with (g x :: l). cbn [sum_list_with]. lia.
  - change (alter g (S i) (y :: l)) with (y :: alter g i l). cbn [sum_list_with]. specialize (IH i H). lia.
Qed.

Lemma upd_weight i g p s :
  services p !! i = Some s → svc_weight (g s) < svc_weight s → weight (upd i g p) < weight p.
Proof.
  intros Hi Hg. pose proof (sum_alter svc_weight g i _ _ Hi) as H. unfold weight. cbn. rewrite length_alter. lia.
Qed.

Lemma stoppers_weight l :
  sum_list_with svc_weight (set_stopper StopCalled <$> l) ≤ sum_list_with svc_weight l + 3 * length l.
Proof.
  induction l as [|s l IH]; [done|]. rewrite fmap_cons. cbn. unfold svc_weight at 1 3. cbn. lia.
Qed.

(** [triggerStop] pays for the goroutines it starts. *)
Lemma triggerStop_weight first p q :
  triggerStop p = (first, q) →
  weight q ≤ weight p ∧ main q = main p ∧ length (services q) = length (services p) ∧
  ∀ i s, services p !! i = Some s → ∃ s', services q !! i = Some s' ∧ svc_phase s' = svc_phase s.
Proof.
  unfold triggerStop. destruct (stopping p) eqn:E; intros [= <- <-].
  - split_and!; try done. eauto.
  - unfold weight. cbn. rewrite E, length_fmap. pose proof (stoppers_weight (services p)).
    split_and!; try done; [lia|]. intros i s Hi. rewrite list_lookup_fmap, Hi. by eexists.
Qed.

(** The weight depends on these fields. *)
Lemma weight_eq p q :
  services q = services p → main q = main p → stopping q = stopping p → cancelled q = cancelled p →
  weight q = weight p.
Proof. unfold weight. by intros -> -> -> ->. Qed.

(** A service's phase advances after it has called [triggerStop]. *)
Lemma phase_weight_lt i ph p q s s' :
  weight q ≤ weight p → services q !! i = Some s' → svc_phase s' = svc_phase s →
  phase_weight ph < phase_weight (svc_phase s) → weight (upd i (set_phase ph) q) < weight p.
Proof.
  intros Hw Hi Es Hlt. eapply Nat.lt_le_trans; [|exact Hw]. eapply upd_weight; [exact Hi|].
  unfold svc_weight. cbn. rewrite Es. lia.
Qed.

Lemma enter_weight i st next skip p s :
  services p !! i = Some s → phase_weight next < phase_weight (svc_phase s) →
  phase_weight skip < phase_weight (svc_phase s) → weight (enter i st next skip p) < weight p.
Proof.
  intros Hi Hn Hs. unfold enter, noteState. eapply (phase_weight_lt i _ p _ s s); [done..|].
  by destruct (bool_decide _).
Qed.

Lemma service_step_weight i s p e p' :
  services p !! i = Some s → service_step i s p e = Some p' → weight p' < weight p.
Proof.
  intros Hi Hstep. destruct (triggerStop p) as [first q] eqn:Et.
  destruct (triggerStop_weight _ _ _ Et) as (Hw & _ & _ & Hq). destruct (Hq i s Hi) as (s' & Hi' & Es).
  destruct e; try discriminate; unfold service_step in Hstep;
    destruct (svc_phase s) eqn:E; try discriminate; try (injection Hstep as <-).
  - eapply enter_weight; eauto; rewrite E; cbn; lia.
  - assert (services (upd i set_ran p) !! i = Some (set_ran s)) as Hi2
      by (unfold upd; cbn; by rewrite list_lookup_alter_eq, Hi).
    eapply Nat.lt_le_trans; [eapply enter_weight; [exact Hi2|..]; cbn; rewrite E; cbn; lia|].
    unfold weight. cbn. rewrite length_alter. pose proof (sum_alter svc_weight set_ran i _ _ Hi).
    assert (svc_weight (set_ran s) = svc_weight s) by done. lia.
  - eapply (phase_weight_lt i PRunning p (set_startup _ p) s); eauto; rewrite E; cbn; lia.
  - eapply enter_weight; eauto; rewrite E; cbn; lia.
  - eapply enter_weight; eauto; rewrite E; cbn; lia.
  - eapply enter_weight; eauto; rewrite E; cbn; lia.
  - eapply enter_weight; eauto; rewrite E; cbn; lia.
  - eapply enter_weight; eauto; rewrite E; cbn; lia.
  - unfold onStopping. rewrite Et. eapply (phase_weight_lt i _ p q s); eauto; [congruence|].
    rewrite E. destruct first; cbn; lia.
  - rewrite (onEnd_eq _ _ _ _ _ Et).
    eapply (phase_weight_lt i _ p (match err with Some _ => set_lastError err q | None => q end) s);
      [by destruct err | by destruct err | congruence |]. rewrite E. destruct first; cbn; lia.
  - destruct (stoppers_done p); [|done]. injection Hstep as <-.
    eapply (phase_weight_lt i _ p p s); eauto; rewrite E; cbn; lia.
  - destruct (stoppers_done p); [|done]. injection Hstep as <-.
    eapply (phase_weight_lt i _ p p s); eauto; rewrite E; cbn; lia.
  - case_decide; [|done]. injection Hstep as <-.
    eapply (phase_weight_lt i _ p (set_stopComplete _ p) s); eauto; rewrite E; cbn; lia.
Qed.

Lemma stopper_step_weight i s p e p' :
  services p !! i = Some s → stopper_step i s p e = Some p' → weight p' < weight p.
Proof.
  intros Hi Hstep. destruct e; try discriminate; unfold stopper_step in Hstep;
    destruct (svc_stopper s) eqn:E; try discriminate.
  - injection Hstep as <-. eapply upd_weight; [done|].
    destruct (stop_returns _); unfold svc_weight; cbn; rewrite E; cbn; lia.
  - injection Hstep as <-. eapply upd_weight; [done|].
    destruct (is_end _); unfold svc_weight; cbn; rewrite E; cbn; lia.
  - destruct (svc_phase s); try discriminate. injection Hstep as <-. eapply upd_weight; [done|].
    unfold svc_weight; cbn; rewrite E; cbn; lia.
Qed.

Lemma main_step_weight p e p' : main_step p e = Some p' → weight p' < weight p.
Proof.
  intros Hstep. destruct e; try discriminate; unfold main_step in Hstep;
    destruct (main p) as [|i| |rem|rem|rem|r] eqn:Em; try discriminate.
  - destruct (startupComplete p); [done|]. injection Hstep as <-. cbn.
    case_decide; unfold weight; cbn; rewrite Em; cbn; lia.
  - destruct (stopComplete p); [done|]. injection Hstep as <-. unfold weight; cbn; rewrite Em; cbn; lia.
  - destruct (stopComplete p); [done|]. injection Hstep as <-. unfold weight; cbn; rewrite Em; cbn; lia.
  - destruct rem; [done|]. destruct (stopComplete p); [done|]. injection Hstep as <-.
    unfold weight; cbn; rewrite Em; cbn; lia.
  - destruct (cancelled p) eqn:Ec; [|done]. injection Hstep as <-.
    unfold weight; cbn; rewrite Em; cbn; rewrite Ec; lia.
  - destruct (triggerStop p) as [first q] eqn:Et. injection Hstep as <-.
    destruct (triggerStop_weight _ _ _ Et) as (Hw & Hm & Hlen & _).
    eapply Nat.lt_le_trans; [|exact Hw]. unfold weight; destruct first; cbn; rewrite Hm, Em; cbn; lia.
  - destruct (stoppers_done p); [|done]. injection Hstep as <-. unfold weight; cbn; rewrite Em; cbn; lia.
  - destruct rem; [|done]. injection Hstep as <-. unfold weight; cbn; rewrite Em; cbn; lia.
Qed.

Lemma step_weight p e p' : pool_step p e = Some p' → weight p' < weight p.
Proof.
  unfold pool_step. destruct (event_service e) as [i|] eqn:Ee.
  - destruct (services p !! i) as [s|] eqn:Hi; [|done]. destruct (is_stopper_event e);
      eauto using stopper_step_weight, service_step_weight.
  - destruct e; try discriminate; try apply main_step_weight.
    destruct (cancelled p) eqn:Ec; [done|]. intros [= <-]. unfold weight. cbn. rewrite Ec. lia.
Qed.

Lemma pool_run_weight es p p' : pool_run p es = Some p' → length es + weight p' ≤ weight p.
Proof.
  revert p. induction es as [|e es IH]; intros p; cbn; [intros [= <-]; lia|].
  destruct (pool_step p e) as [q|] eqn:E; [|done]. intros H. apply step_weight in E. specialize (IH q H). lia.
Qed.

(** Claim C30. Nothing in a pool goes on forever: whatever the services do, the goroutines
    of a pool of [n] services take at most [15 n + 7] steps together. *)
Theorem pool_executions_are_finite n p0 es p :
  started_pool n = Done (tt, p0) → pool_run p0 es = Some p → length es ≤ 15 * n + 7.
Proof.
  rewrite started_pool_eq. intros [= <-] H%pool_run_weight.
  assert (weight (fresh_pool n) ≤ 15 * n + 7) as Hw; [|lia].
  assert (∀ k, sum_list_with svc_weight (replicate k new_svc) = 10 * k) as Hs by (induction k; cbn in *; lia).
  unfold weight, fresh_pool, begin_collect. case_decide; cbn; rewrite Hs, length_replicate; lia.
Qed.

(** ** When the pool stands still *)

(** The phases in which a hook waits in [triggerStop], and those that are only
    reached after [triggerStop] was called. *)
Definition waits (ph : phase) : bool := match ph with PStoppingWait | PEndWait _ => true | _ => false end.
Definition after_trigger (ph : phase) : bool :=
  match ph with PStoppingWait | PStopping | PEndWait _ | PEndSend _ | PDone _ => true | _ => false end.

Record svc_ok (stopping : bool) (s : svc) : Prop := {
  ok_own : waits (svc_phase s) = true → svc_stopper s = StopCalled ∨ svc_stopper s = StopDone;
  ok_cancel : svc_stopper s = StopCancelled ∨ svc_stopper s = StopWaiting → svc_cancelled s = true;
  ok_called : stopping = true → svc_stopper s ≠ NoStop;
  ok_after : after_trigger (svc_phase s) = true → stopping = true;
}.

Definition main_after_trigger (r : runner) : bool :=
  match r with RTriggerWait _ | RDrain _ => true | _ => false end.

Definition stop_inv (p : pool) : Prop :=
  Forall (svc_ok (stopping p)) (services p) ∧ (main_after_trigger (main p) = true → stopping p = true).

Lemma stop_inv_upd i f p s :
  stop_inv p → services p !! i = Some s → svc_ok (stopping p) (f s) → stop_inv (upd i f p).
Proof.
  intros [Hf Hm] Hi Hs. split; [|done]. cbn. apply Forall_alter; [done|].
  intros x E. congruence.
Qed.

(** After [triggerStop] the pool is stopping; a stopper has just been called. *)
Lemma stop_inv_trigger first p q :
  stop_inv p → triggerStop p = (first, q) →
  stop_inv q ∧ stopping q = true ∧
  ∀ i s, services p !! i = Some s →
    ∃ s', services q !! i = Some s' ∧ svc_phase s' = svc_phase s ∧ (first = true → svc_stopper s' = StopCalled).
Proof.
  intros [Hf Hm]. unfold triggerStop. destruct (stopping p) eqn:Es; intros [= <- <-].
  - split; [by split; rewrite ?Es|]. split; [done|]. intros i s Hi. by exists s.
  - split; [split; [|done] | split; [done|]].
    + cbn. apply Forall_fmap. eapply Forall_impl; [exact Hf|]. intros s [H1 H2 _ H4].
      split; cbn; try done; [by left | by intros [|]].
    + intros i s Hi. cbn. rewrite list_lookup_fmap, Hi. by eexists.
Qed.

(** Advancing a phase that is not behind [triggerStop]. *)
Lemma svc_ok_phase b s ph :
  svc_ok b s → waits ph = false → (after_trigger ph = true → b = true) → svc_ok b (set_phase ph s).
Proof. intros [H1 H2 H3 H4] Hw Ha. split; cbn; try done. by rewrite Hw. Qed.

Lemma stop_inv_enter n p i s st next skip :
  pool_inv n p → stop_inv p → services p !! i = Some s → phase_state (svc_phase s) ≠ st →
  after_trigger next = false → stop_inv (enter i st next skip p).
Proof.
  intros Hinv Hstop Hi Hne Ha. rewrite (enter_eq n p i s) by done.
  eapply (stop_inv_upd i _ (set_serviceStates _ p) s); [done | done |]. cbn.
  destruct Hstop as [Hf _]. rewrite Forall_lookup in Hf. apply svc_ok_phase; [by eapply Hf | | by rewrite Ha].
  by destruct next.
Qed.

(** A hook calls [triggerStop]: the first caller waits, with its own stopper
    just called. *)
Lemma stop_inv_hook p i s first q ph_first ph_later le :
  stop_inv p → services p !! i = Some s → triggerStop p = (first, q) → waits ph_later = false →
  stop_inv (upd i (set_phase (if first then ph_first else ph_later))
    (match le with Some _ => set_lastError le q | None => q end)).
Proof.
  intros Hstop Hi Et Hw. destruct (stop_inv_trigger first p q Hstop Et) as ([Hf Hm] & Hs & Hq).
  destruct (Hq i s Hi) as (s' & Hi' & _ & Hc).
  set (q' := match le with Some _ => _ | None => q end).
  assert (services q' = services q ∧ stopping q' = stopping q ∧ main q' = main q) as (E1 & E2 & E3)
    by (unfold q'; by destruct le).
  apply (stop_inv_upd i _ q' s'); [split; rewrite ?E1, ?E2, ?E3; done | by rewrite E1 |].
  rewrite E2, Hs. rewrite Forall_lookup in Hf. specialize (Hf i s' Hi'). rewrite Hs in Hf.
  destruct first; [|by apply svc_ok_phase].
  destruct Hf as [H1 H2 H3 H4]. split; cbn; try done. left. by apply Hc.
Qed.

Lemma stop_inv_service n p i s e p' :
  pool_inv n p → stop_inv p → services p !! i = Some s → service_step i s p e = Some p' → stop_inv p'.
Proof.
  intros Hinv Hstop Hi Hstep. pose proof Hstop as [Hf _]. rewrite Forall_lookup in Hf. specialize (Hf i s Hi).
  pose proof (ok_after _ _ Hf) as Ha.
  destruct (triggerStop p) as [first q] eqn:Et.
  destruct e; try discriminate; unfold service_step in Hstep;
    destruct (svc_phase s) eqn:E; try discriminate; try (injection Hstep as <-).
  - eapply (stop_inv_enter n); [done | done | done | by rewrite E | done].
  - destruct (set_ran_inv n p i s Hinv Hi E) as [H1 H2].
    eapply (stop_inv_enter n); [done | | exact H2 | by cbn; rewrite E | done].
    eapply stop_inv_upd; [done..|]. destruct Hf. by split.
  - eapply (stop_inv_upd i _ (set_startup _ p) s); [done | done | by apply svc_ok_phase].
  - eapply (stop_inv_enter n); [done | done | done | by rewrite E | done].
  - eapply (stop_inv_enter n); [done | done | done | by rewrite E | done].
  - eapply (stop_inv_enter n); [done | done | done | rewrite E; by destruct err | by destruct err].
  - eapply (stop_inv_enter n); [done | done | done | rewrite E; by destruct err | by destruct err].
  - eapply (stop_inv_enter n); [done | done | done | rewrite E; by destruct err | by destruct err].
  - unfold onStopping. rewrite Et. by apply (stop_inv_hook p i s first q PStoppingWait PStopping None).
  - rewrite (onEnd_eq _ _ _ _ _ Et). by apply (stop_inv_hook p i s first q (PEndWait err) (PEndSend err) err).
  - destruct (stoppers_done p); [|done]. injection Hstep as <-. eapply stop_inv_upd; eauto.
    apply svc_ok_phase; [done..|]. intros _. by apply Ha.
  - destruct (stoppers_done p); [|done]. injection Hstep as <-. eapply stop_inv_upd; eauto.
    apply svc_ok_phase; [done..|]. intros _. by apply Ha.
  - case_decide; [|done]. injection Hstep as <-. eapply (stop_inv_upd i _ (set_stopComplete _ p) s); [done | done |].
    apply svc_ok_phase; [done..|]. intros _. by apply Ha.
Qed.

Lemma stop_inv_stopper p i s e p' :
  stop_inv p → services p !! i = Some s → stopper_step i s p e = Some p' → stop_inv p'.
Proof.
  intros Hstop Hi Hstep. pose proof Hstop as [Hf _]. rewrite Forall_lookup in Hf.
  destruct (Hf i s Hi) as [H1 H2 H3 H4]. destruct e; try discriminate; unfold stopper_step in Hstep;
    destruct (svc_stopper s) eqn:E; try discriminate.
  - injection Hstep as <-. eapply stop_inv_upd; [done..|]. destruct (stop_returns (svc_state s)) eqn:Er.
    + split; cbn; try done; [by right | by intros [|]].
    + split; cbn; try done. unfold svc_state in Er. by destruct (svc_phase s) as [| | | | | | |[]|[]|[]|[]].
  - injection Hstep as <-. eapply stop_inv_upd; [done..|]. specialize (H2 (or_introl eq_refl)).
    split; cbn; destruct (is_end (svc_state s)); try done; try (by right);
      intros Hw; by destruct (H1 Hw).
  - destruct (svc_phase s) eqn:Ep; try discriminate. injection Hstep as <-. eapply stop_inv_upd; [done..|].
    split; cbn; rewrite ?Ep; try done; [by intros [|]].
Qed.

Lemma stop_inv_step n p p' : pool_inv n p → stop_inv p → step p p' → stop_inv p'.
Proof.
  intros Hinv Hstop [e Hstep]. unfold pool_step in Hstep. destruct (event_service e) as [i|] eqn:Ee.
  { destruct (services p !! i) as [s|] eqn:Hi; [|done]. destruct (is_stopper_event e);
      eauto using stop_inv_stopper, stop_inv_service. }
  assert (∀ q, services q = services p → stopping q = stopping p → main_after_trigger (main q) = false → stop_inv q)
    as Hsame by (intros q E1 E2 E3; unfold stop_inv; rewrite E1, E2, E3; split; [apply Hstop|done]).
  assert (∀ q, services q = services p → stopping q = stopping p → stopping p = true → stop_inv q)
    as Hon by (intros q E1 E2 E3; unfold stop_inv; rewrite E1, E2; split; [apply Hstop|done]).
  destruct Hstop as [Hf Hm].
  destruct e; try discriminate; [destruct (cancelled p); [done|]; injection Hstep as <-; by split|..];
    unfold main_step in Hstep; destruct (main p) as [|i| |rem|rem|rem|r] eqn:Em; try discriminate.
  - destruct (startupComplete p); [done|]. injection Hstep as <-. case_decide; by apply Hsame.
  - destruct (stopComplete p); [done|]. injection Hstep as <-. by apply Hsame.
  - destruct (stopComplete p) as [|m] eqn:Es; [done|]. injection Hstep as <-. apply Hon; try done.
    destruct Hinv as ([_ _ Hs _ _ _ _] & _). rewrite Em, Es in Hs. cbn in Hs.
    destruct (services_sent p) as (s & Hs1 & e & Hs2); [lia|].
    rewrite Forall_forall in Hf. apply (ok_after _ _ (Hf s Hs1)). by rewrite Hs2.
  - destruct rem; [done|]. destruct (stopComplete p); [done|]. injection Hstep as <-. apply Hon; try done. by apply Hm.
  - destruct (cancelled p); [|done]. injection Hstep as <-. by apply Hsame.
  - destruct (triggerStop p) as [first q] eqn:Et. injection Hstep as <-.
    destruct (stop_inv_trigger first p q) as ([Hq _] & Hs & _); [|done|].
    + split; [done|]. by rewrite Em.
    + split; [exact Hq|done].
  - destruct (stoppers_done p); [|done]. injection Hstep as <-. apply Hon; try done. by apply Hm.
  - destruct rem; [|done]. injection Hstep as <-. by apply Hsame.
Qed.

Lemma reachable_stop_inv n p : reachable n p → pool_inv n p ∧ stop_inv p.
Proof.
  intros (p0 & E & Hsteps). rewrite started_pool_eq in E. injection E as <-.
  assert (stop_inv (fresh_pool n)) as H.
  { unfold stop_inv, fresh_pool, begin_collect. case_decide; cbn; (split; [|done]); apply Forall_replicate;
      split; cbn; try done; by intros [|]. }
  pose proof (fresh_pool_inv n) as Hinv. induction Hsteps as [|p q r Hstep _ IH]; [done|].
  apply IH; [by eapply stop_inv_step | by eapply step_inv].
Qed.

(** An event that is not up to anyone's choice: all but a call of [Stop] on the
    pool, and the end of a service that runs and has not been told to stop. *)
Definition due (p : pool) (e : event) : bool :=
  match e with
  | Cancel => false
  | ReportStopping i | End i _ =>
      match services p !! i with
      | Some s => match svc_phase s with PRunning => svc_cancelled s | _ => true end
      | None => false
      end
  | _ => true
  end.

Definition at_rest (p : pool) : Prop := ∀ e, due p e = true → pool_step p e = None.

(** A service that runs and has not been told to stop. *)
Definition undisturbed (s : svc) : Prop := svc_phase s = PRunning ∧ svc_cancelled s = false.

Section at_rest.
Context (n : nat) (p : pool) (Hinv : pool_inv n p) (Hstop : stop_inv p) (Hrest : at_rest p).

(** No due event of a service is possible. *)
Lemma rest_event i s e :
  services p !! i = Some s → event_service e = Some i → due p e = true →
  (if is_stopper_event e then stopper_step i s p e else service_step i s p e) = None.
Proof. intros Hi Ee Hd. specialize (Hrest e Hd). unfold pool_step in Hrest. by rewrite Ee, Hi in Hrest. Qed.

Lemma rest_phase i s :
  services p !! i = Some s → undisturbed s ∨ (∃ e, svc_phase s = PDone e) ∨ waits (svc_phase s) = true.
Proof.
  intros Hi. assert (∀ e, event_service e = Some i → is_stopper_event e = false → due p e = true →
    service_step i s p e = None) as Hno.
  { intros e Ee Es Hd. pose proof (rest_event i s e Hi Ee Hd) as H. by rewrite Es in H. }
  assert (svc_phase s = PRunning → undisturbed s) as Hrun.
  { intros Er. split; [done|]. destruct (svc_cancelled s) eqn:Ec; [|done]. exfalso.
    specialize (Hno (End i None) eq_refl eq_refl). cbn in Hno. rewrite Hi, Er in Hno. by specialize (Hno Ec). }
  destruct (svc_phase s) eqn:E; eauto; exfalso.
  - specialize (Hno (Begin i) eq_refl eq_refl eq_refl). cbn in Hno. by rewrite E in Hno.
  - specialize (Hno (ReportRunning i) eq_refl eq_refl eq_refl). cbn in Hno. by rewrite E in Hno.
  - specialize (Hno (SendStartup i) eq_refl eq_refl eq_refl). cbn in Hno. by rewrite E in Hno.
  - specialize (Hno (Trigger i) eq_refl eq_refl eq_refl). cbn in Hno. by rewrite E in Hno.
  - specialize (Hno (End i None) eq_refl eq_refl). cbn in Hno. rewrite Hi, E in Hno. by specialize (Hno eq_refl).
  - specialize (Hno (Trigger i) eq_refl eq_refl eq_refl). cbn in Hno. by rewrite E in Hno.
  - specialize (Hno (SendStop i) eq_refl eq_refl eq_refl). by rewrite (send_enabled n p i s err Hinv Hi E) in Hno.
Qed.

Lemma rest_stopper i s :
  services p !! i = Some s → svc_stopper s = NoStop ∨ svc_stopper s = StopDone.
Proof.
  intros Hi. destruct Hstop as [Hf _]. rewrite Forall_lookup in Hf. destruct (Hf i s Hi) as [Hown Hc _ _].
  destruct (svc_stopper s) eqn:E; eauto; exfalso.
  - pose proof (rest_event i s (CallStop i) Hi eq_refl eq_refl) as H. cbn in H. by rewrite E in H.
  - pose proof (rest_event i s (CallWait i) Hi eq_refl eq_refl) as H. cbn in H. by rewrite E in H.
  - destruct (rest_phase i s Hi) as [[_ Hu]|[[e Hd]|Hw]].
    + rewrite Hc in Hu by auto. done.
    + pose proof (rest_event i s (EndWait i) Hi eq_refl eq_refl) as H. cbn in H. by rewrite E, Hd in H.
    + by destruct (Hown Hw).
Qed.

Lemma rest_stoppers_done : stopping p = true → stoppers_done p = true.
Proof.
  intros Hs. unfold stoppers_done. apply forallb_forall. intros s [i Hi]%list_elem_of_In%list_elem_of_lookup.
  destruct Hstop as [Hf _]. rewrite Forall_lookup in Hf. pose proof (ok_called _ _ (Hf i s Hi) Hs).
  by destruct (rest_stopper i s Hi) as [E|E]; rewrite E.
Qed.

Lemma rest_service s : s ∈ services p → undisturbed s ∨ ∃ e, svc_phase s = PDone e.
Proof.
  intros [i Hi]%list_elem_of_lookup. destruct (rest_phase i s Hi) as [|[|Hw]]; [eauto..|]. exfalso.
  destruct Hstop as [Hf _]. rewrite Forall_lookup in Hf. pose proof (ok_after _ _ (Hf i s Hi)) as Ha.
  pose proof (rest_event i s (Triggered i) Hi eq_refl eq_refl) as H. cbn in H.
  rewrite rest_stoppers_done in H by (apply Ha; by destruct (svc_phase s)). by destruct (svc_phase s).
Qed.

Lemma rest_all_running : count has_sent (cores p) = 0 → Forall undisturbed (services p).
Proof.
  intros H0. apply Forall_forall. intros s Hs. destruct (rest_service s Hs) as [|[e He]]; [done|].
  apply list_elem_of_lookup in Hs as [i Hi]. exfalso.
  pose proof (count_insert has_sent i _ _ (PNew, false) (cores_lookup i s p Hi)) as H.
  unfold has_sent at 2 4 in H. cbn in H. rewrite He in H. lia.
Qed.
End at_rest.

(** Where a pool can come to rest while its services behave: it has returned;
    or it runs, and all services run; or it still waits for its services to
    start although they all run (a notification was lost); or it waits for a
    running service that was never told to stop. *)
Theorem pool_rests n p :
  reachable n p → at_rest p →
  (∃ err, main p = RReturned err) ∨
  (main p = RSelect ∧ cancelled p = false ∧ Forall undisturbed (services p)) ∨
  (∃ i, main p = RCollect i ∧ startupComplete p = 0 ∧ Forall undisturbed (services p)) ∨
  (∃ rem, main p = RDrain (S rem) ∧ stopping p = true ∧ Exists undisturbed (services p)).
Proof.
  intros Hr Hrest. destruct (reachable_stop_inv n p Hr) as [Hinv Hstop].
  pose proof Hinv as ([Hl Hm Hs _ _ _ _] & _). pose proof Hstop as [_ Hafter].
  assert (∀ e, due p e = true → event_service e = None → main_step p e = None) as Hmain.
  { intros e Hd Ee. specialize (Hrest e Hd). unfold pool_step in Hrest. rewrite Ee in Hrest. by destruct e. }
  destruct (main p) as [|i| |rem|rem|rem|r] eqn:Em; eauto; [done|..]; cbn in Hs, Hm.
  - right. right. left. exists i.
    pose proof (Hmain RecvStartup eq_refl eq_refl) as H1. pose proof (Hmain RecvStop eq_refl eq_refl) as H2.
    unfold main_step in H1, H2. rewrite Em in H1, H2.
    destruct (startupComplete p); [|done]. destruct (stopComplete p); [|done].
    split_and!; try done. by apply (rest_all_running n).
  - right. left. pose proof (Hmain SeeCancel eq_refl eq_refl) as H1. pose proof (Hmain RecvStop eq_refl eq_refl) as H2.
    unfold main_step in H1, H2. rewrite Em in H1, H2.
    destruct (cancelled p); [done|]. destruct (stopComplete p); [|done].
    split_and!; try done. by apply (rest_all_running n).
  - pose proof (Hmain MainTrigger eq_refl eq_refl) as H. unfold main_step in H. rewrite Em in H.
    by destruct (triggerStop p).
  - pose proof (Hmain MainTriggered eq_refl eq_refl) as H. unfold main_step in H.
    by rewrite Em, (rest_stoppers_done n p Hinv Hstop Hrest (Hafter eq_refl)) in H.
  - destruct rem as [|rem].
    { pose proof (Hmain Return eq_refl eq_refl) as H. unfold main_step in H. by rewrite Em in H. }
    right. right. right. exists rem. pose proof (Hmain RecvStop eq_refl eq_refl) as H. unfold main_step in H.
    rewrite Em in H. destruct (stopComplete p); [|done].
    destruct (services_unsent p) as (s & Hs1 & Hs2); [unfold cores in Hl; rewrite length_fmap in Hl; lia|].
    split_and!; [done | by apply Hafter |]. apply Exists_exists. exists s. split; [done|].
    destruct (rest_service n p Hinv Hstop Hrest s Hs1) as [|[e He]]; [done|].
    unfold has_sent in Hs2. cbn in Hs2. by rewrite He in Hs2.
Qed.

(** ** Pools that hang *)

(** Both services start before the pool takes the first notification, for which
    the channel has one place. *)
Definition lost_notification : list event :=
  [Begin 0; Begin 1; ReportRunning 0; ReportRunning 1; SendStartup 0; SendStartup 1; RecvStartup; Cancel].

(** A service crashes before the other one's goroutine has begun: the call of
    [Stop] finds that one not started and returns. *)
Definition missed_stop (crash : error) : list event :=
  [Begin 0; End 0 (Some crash); Trigger 0; CallStop 0; CallStop 1; Triggered 0; SendStop 0;
   RecvStop; MainTrigger; Begin 1; ReportRunning 1; SendStartup 1; Cancel].

(** Evaluates the steps of a concrete pool of two services. *)
Ltac at_rest_by_cases :=
  intros e Hdue; destruct e as [|i|i|i|i|i ?|i|i|i|i|i|i| | | | | |]; try discriminate; try reflexivity;
  destruct i as [|[|i]]; try discriminate; reflexivity.

(** The states these executions lead to. *)
Definition run_two (es : list event) : pool := default NewPool (pool_run (fresh_pool 2) es).
Definition hung_starting : pool := Eval vm_compute in run_two lost_notification.
Definition hung_stopping : error → pool := Eval vm_compute in λ crash, run_two (missed_stop crash).

(** A pool of two services can hang although both behave, and stopping it does
    not help: it can lose a start notification and then never report that it
    runs nor look at the request to stop; and it can fail to stop a service that
    begins after another one has crashed, and wait for it forever. *)
Theorem pool_can_hang crash :
  ∃ p0 p1 p2, started_pool 2 = Done (tt, p0) ∧
    (pool_run p0 lost_notification = Some p1 ∧ at_rest p1 ∧ cancelled p1 = true ∧
     main p1 = RCollect 1 ∧ Forall undisturbed (services p1)) ∧
    (pool_run p0 (missed_stop crash) = Some p2 ∧ at_rest p2 ∧ cancelled p2 = true ∧
     main p2 = RDrain 1 ∧ services p2 !! 0 = Some (MkSvc (PDone (Some crash)) false false StopDone) ∧
     services p2 !! 1 = Some (MkSvc PRunning true false StopDone)).
Proof.
  exists (fresh_pool 2), hung_starting, (hung_stopping crash). split; [apply started_pool_eq|]. split.
  - split; [vm_compute; reflexivity|]. split_and!; try reflexivity; [at_rest_by_cases | by repeat constructor].
  - split; [vm_compute; reflexivity|]. split_and!; try reflexivity. at_rest_by_cases.
Qed.

(** ** Concrete pools *)

(** A service ends, the other one is stopped, the pool returns. *)
Definition orderly_end : list event :=
  [Begin 0; ReportRunning 0; SendStartup 0; RecvStartup; Begin 1; ReportRunning 1; SendStartup 1; RecvStartup;
   End 0 None; Trigger 0; CallStop 0; CallStop 1; CallWait 1; ReportStopping 1; Trigger 1; End 1 None; Trigger 1;
   SendStop 1; EndWait 1; Triggered 0; SendStop 0; RecvStop; RecvStop; Return].

Lemma pool_run_rtc es p p' : pool_run p es = Some p' → rtc step p p'.
Proof.
  revert p. induction es as [|e es IH]; intros p; cbn; [by intros [= <-]|].
  destruct (pool_step p e) as [q|] eqn:E; [|done]. intros H. eapply rtc_l; [by exists e | by apply IH].
Qed.

Lemma run_reachable n es p0 p :
  started_pool n = Done (tt, p0) → pool_run p0 es = Some p → reachable n p.
Proof. intros E H. exists p0. eauto using pool_run_rtc. Qed.

Definition ended_pool : pool := Eval vm_compute in run_two orderly_end.
Definition running_pool : pool := Eval vm_compute in run_two (take 8 orderly_end).

Lemma ended_pool_run : pool_run (fresh_pool 2) orderly_end = Some ended_pool.
Proof. vm_compute. reflexivity. Qed.

Lemma running_pool_reachable : reachable 2 running_pool.
Proof. apply (run_reachable 2 (take 8 orderly_end) (fresh_pool 2)); [apply started_pool_eq | vm_compute; reflexivity]. Qed.

Lemma pool_outlives_services_witness : Forall (λ s, svc_phase s = PDone None) (services ended_pool).
Proof.
  apply (pool_outlives_services 2 ended_pool None); [|reflexivity..].
  exact (run_reachable 2 orderly_end (fresh_pool 2) ended_pool (started_pool_eq 2) ended_pool_run).
Defined.

Lemma pool_runs_when_services_run_witness : Forall (λ s, svc_ran s = true) (services running_pool).
Proof. apply (pool_runs_when_services_run 2 running_pool running_pool_reachable). reflexivity. Defined.

Lemma pool_executions_are_finite_witness : length orderly_end ≤ 15 * 2 + 7.
Proof. exact (pool_executions_are_finite 2 _ _ _ (started_pool_eq 2) ended_pool_run). Defined.

Lemma pool_rests_witness :
  (∃ err, main running_pool = RReturned err) ∨
  (main running_pool = RSelect ∧ cancelled running_pool = false ∧ Forall undisturbed (services running_pool)) ∨
  (∃ i, main running_pool = RCollect i ∧ startupComplete running_pool = 0 ∧ Forall undisturbed (services running_pool)) ∨
  (∃ rem, main running_pool = RDrain (S rem) ∧ stopping running_pool = true ∧
     Exists undisturbed (services running_pool)).
Proof. apply (pool_rests 2 running_pool running_pool_reachable). at_rest_by_cases. Defined.
