(* ===== verification/ServerStore.v ===== *)
(** * The objects of the SSH server

    [internal/sshserver]: the fields of [serverImpl] (serverImpl.go), the
    shutdown registry (shutdownRegistry.go, shutdownCloser.go), the wrapper of a
    session channel that the backends write to (channelWrapper.go) and the
    object through which they open channels to the client
    (reverseForwardHandlerImpl.go).

    The calls these objects make on [golang.org/x/crypto/ssh] and on forwarding
    channels of the backends are recorded in order in [events]; the error each
    of them returns is the argument [lib_error] of the definitions, a function
    of the calls made so far.  A mutex that is only held during one of these
    operations makes it atomic and is not modelled; [serverImpl.lock] is held
    while a backend is called, and is. *)

From stdpp Require Import base gmap strings list.
From Stdlib Require Import Strings.Byte.
From S2P Require Import Prelude Messages Metadata Handler.

Local Open Scope Z_scope.

(** ** Data *)

(** [ssh.Request], [ssh.NewChannel], [ssh.ConnMetadata]: what the library hands
    to the server.  A channel is named by a number. *)
Record Request := MkRequest {
  Type_ : string;
  WantReply : bool;
  Payload : list byte;
}.

Record NewChannel := MkNewChannel {
  nc_ref : nat;
  ChannelType : string;
  ExtraData : list byte;
}.

(** The channel payloads that are sent ([internal/ssh]). *)
Record ExitStatusPayload := MkExitStatus { ExitStatus : Z }.

Record ExitSignalPayload := MkExitSignal {
  Signal_ : string;
  CoreDumped : bool;
  ErrorMessage : string;
  LanguageTag : string;
}.

(** What the server does to the library's objects and to the forwarding
    channels it is given. *)
Inductive event :=
| EReply (request : Request) (ok : bool) (payload : string)
| EReject (ch : NewChannel) (reason : RejectionReason) (msg : string)
| EAccept (ch : NewChannel)
| EExitStatus (channel : nat) (p : ExitStatusPayload)
| EExitSignal (channel : nat) (p : ExitSignalPayload)
| ECloseWrite (channel : nat)
| EClose (channel : nat)
| EOpenChannel (sshConn : nat) (channelType : string) (payload : list byte)
| ECopy (dst src : nat)
| EForwardClose (channel : ForwardChannel)
| EKeepAlive (sshConn : nat)
| EConnClose (sshConn : nat)
| ESocketClose (conn : nat)
| EListenClose.

(** [channelWrapper]: [channel] is nil until the session channel is accepted. *)
Record channelWrapper := MkChannelWrapper {
  channel : option nat;
  exitSent : bool;
  exitSignalSent : bool;
  closedWrite : bool;
  closed : bool;
}.

(** The objects the shutdown registry holds: the handlers of a connection and
    of its session channels, and a [shutdownCloser] of a forwarding channel. *)
Inductive shutdownHandler :=
| NetworkShutdown (connectionID : string)
| SSHShutdown (connectionID : string)
| SessionShutdown (connectionID : string) (channelID : Z)
| shutdownCloser (closer : option ForwardChannel).

Record serverImpl := MkServerImpl {
  listenSocket : bool;                      (** not nil *)
  wg : Z;
  lock : bool;
  clientSockets : gset nat;
  connMap : gmap string nat;                (** [connection.sshConn] *)
  nextGlobalRequestID : Z;
  nextChannelID : Z;
  shutdownHandlers : gmap string shutdownHandler;
  shuttingDown : bool;
  wrappers : list channelWrapper;           (** the channel wrappers made so far *)
  wrapperMetadata : gmap string ConnectionAuthenticatedMetadata;
  events : list event;
}.

Definition set_listenSocket b s := MkServerImpl b (wg s) (lock s) (clientSockets s) (connMap s)
  (nextGlobalRequestID s) (nextChannelID s) (shutdownHandlers s) (shuttingDown s) (wrappers s) (wrapperMetadata s) (events s).
Definition set_wg n s := MkServerImpl (listenSocket s) n (lock s) (clientSockets s) (connMap s)
  (nextGlobalRequestID s) (nextChannelID s) (shutdownHandlers s) (shuttingDown s) (wrappers s) (wrapperMetadata s) (events s).
Definition set_lock b s := MkServerImpl (listenSocket s) (wg s) b (clientSockets s) (connMap s)
  (nextGlobalRequestID s) (nextChannelID s) (shutdownHandlers s) (shuttingDown s) (wrappers s) (wrapperMetadata s) (events s).
Definition set_clients c m s := MkServerImpl (listenSocket s) (wg s) (lock s) c m
  (nextGlobalRequestID s) (nextChannelID s) (shutdownHandlers s) (shuttingDown s) (wrappers s) (wrapperMetadata s) (events s).
Definition set_nextGlobalRequestID n s := MkServerImpl (listenSocket s) (wg s) (lock s) (clientSockets s) (connMap s)
  n (nextChannelID s) (shutdownHandlers s) (shuttingDown s) (wrappers s) (wrapperMetadata s) (events s).
Definition set_nextChannelID n s := MkServerImpl (listenSocket s) (wg s) (lock s) (clientSockets s) (connMap s)
  (nextGlobalRequestID s) n (shutdownHandlers s) (shuttingDown s) (wrappers s) (wrapperMetadata s) (events s).
Definition set_shutdownHandlers m s := MkServerImpl (listenSocket s) (wg s) (lock s) (clientSockets s) (connMap s)
  (nextGlobalRequestID s) (nextChannelID s) m (shuttingDown s) (wrappers s) (wrapperMetadata s) (events s).
Definition set_shuttingDown b s := MkServerImpl (listenSocket s) (wg s) (lock s) (clientSockets s) (connMap s)
  (nextGlobalRequestID s) (nextChannelID s) (shutdownHandlers s) b (wrappers s) (wrapperMetadata s) (events s).
Definition set_wrappers l s := MkServerImpl (listenSocket s) (wg s) (lock s) (clientSockets s) (connMap s)
  (nextGlobalRequestID s) (nextChannelID s) (shutdownHandlers s) (shuttingDown s) l (wrapperMetadata s) (events s).
Definition set_wrapperMetadata m s := MkServerImpl (listenSocket s) (wg s) (lock s) (clientSockets s) (connMap s)
  (nextGlobalRequestID s) (nextChannelID s) (shutdownHandlers s) (shuttingDown s) (wrappers s) m (events s).
Definition add_event e s := MkServerImpl (listenSocket s) (wg s) (lock s) (clientSockets s) (connMap s)
  (nextGlobalRequestID s) (nextChannelID s) (shutdownHandlers s) (shuttingDown s) (wrappers s) (wrapperMetadata s) (events s ++ [e]).

(** [New]: the server before it is run. *)
Definition New : serverImpl :=
  MkServerImpl false 0 false ∅ ∅ 0 0 ∅ false [] ∅ [].

Section store.
Context {W : Type} `{!Field W serverImpl}.
Context (lib_error : list event → event → option error).

Definition server : prog W serverImpl := λ w, Done (fget w, w).
Definition update (f : serverImpl → serverImpl) : prog W unit := λ w, Done (tt, fset (f (fget w)) w).

(** One call on an object of the library; the error it returns. *)
Definition call (e : event) : prog W (option error) :=
  let* s := server in
  do* update (add_event e) in
  prog_ret (lib_error (events s) e).

(** The same where the source ignores the error or only logs it. *)
Definition call_ (e : event) : prog W unit := do* call e in prog_ret tt.

(** ** Locks and wait groups *)

Definition Lock : prog W unit :=
  let* s := server in
  if lock s then block "serverImpl.lock" else update (set_lock true).

Definition Unlock : prog W unit := update (set_lock false).

Definition wg_Add : prog W unit := update (λ s, set_wg (wg s + 1) s).

Definition wg_Done : prog W unit :=
  let* s := server in
  if decide (wg s ≤ 0) then panic "sync: negative WaitGroup counter"
  else update (set_wg (wg s - 1)).

Definition wg_Wait : prog W unit :=
  let* s := server in
  if decide (wg s = 0) then prog_ret tt else block "serverImpl.wg".

(** ** The shutdown registry *)

Definition Register (key : string) (h : shutdownHandler) : prog W unit :=
  update (λ s, set_shutdownHandlers (<[key := h]> (shutdownHandlers s)) s).

Definition Unregister (key : string) : prog W unit :=
  update (λ s, set_shutdownHandlers (delete key (shutdownHandlers s)) s).

Definition shutdownCloser_OnShutdown (closer : option ForwardChannel) : prog W unit :=
  match closer with
  | Some c => call_ (EForwardClose c)
  | None => panic nil_pointer
  end.

(** [Shutdown]: every registered handler is told, then waited for.  The handlers
    run in goroutines of their own; here one after the other.  [on_shutdown] is
    the [OnShutdown] method of the connection and session handlers. *)
Definition Shutdown (on_shutdown : shutdownHandler → Context → prog W unit) (ctx : Context)
  : prog W unit :=
  let* s := server in
  range (snd <$> map_to_list (shutdownHandlers s))
    (λ h, match h with
          | shutdownCloser c => shutdownCloser_OnShutdown c
          | h => on_shutdown h ctx
          end).

(** ** The session channel given to the backends *)

(** [&channelWrapper{...}] *)
Definition new_channelWrapper : prog W SessionChannel :=
  let* s := server in
  do* update (set_wrappers (wrappers s ++ [MkChannelWrapper None false false false false])) in
  prog_ret (length (wrappers s)).

Definition wrapper (c : SessionChannel) : prog W channelWrapper :=
  let* s := server in
  match wrappers s !! c with
  | Some o => prog_ret o
  | None => panic nil_pointer
  end.

Definition set_wrapper (c : SessionChannel) (f : channelWrapper → channelWrapper) : prog W unit :=
  update (λ s, set_wrappers (alter f c (wrappers s)) s).

(** [channelCallbacks.channel = channel] *)
Definition set_channel (c : SessionChannel) (ch : nat) : prog W unit :=
  set_wrapper c (λ o, MkChannelWrapper (Some ch) (exitSent o) (exitSignalSent o) (closedWrite o) (closed o)).

Definition Stdin (c : SessionChannel) : prog W nat :=
  let* o := wrapper c in
  match channel o with
  | None => panic "BUG: stdin requested before channel is open"
  | Some ch => prog_ret ch
  end.

Definition Stdout (c : SessionChannel) : prog W nat :=
  let* o := wrapper c in
  match channel o with
  | None => panic "BUG: stdout requested before channel is open"
  | Some ch => prog_ret ch
  end.

Definition Stderr (c : SessionChannel) : prog W nat :=
  let* o := wrapper c in
  match channel o with
  | None => panic "BUG: stderr requested before channel is open"
  | Some ch => prog_ret ch
  end.

Definition channelWrapper_ExitStatus (c : SessionChannel) (exitCode : Z) : prog W unit :=
  let* o := wrapper c in
  match channel o with
  | None => panic "BUG: exit status sent before channel is open"
  | Some ch =>
      if (exitSent o || closed o)%bool then prog_ret tt
      else
        do* set_wrapper c (λ o, MkChannelWrapper (channel o) true (exitSignalSent o) (closedWrite o) (closed o)) in
        call_ (EExitStatus ch (MkExitStatus exitCode))
  end.

Definition channelWrapper_ExitSignal (c : SessionChannel) (signal : string) (coreDumped : bool)
    (errorMessage languageTag : string) : prog W unit :=
  let* o := wrapper c in
  match channel o with
  | None => panic "BUG: exit signal sent before channel is open"
  | Some ch =>
      if (exitSignalSent o || closed o)%bool then prog_ret tt
      else
        do* set_wrapper c (λ o, MkChannelWrapper (channel o) (exitSent o) true (closedWrite o) (closed o)) in
        call_ (EExitSignal ch (MkExitSignal signal coreDumped errorMessage languageTag))
  end.

Definition CloseWrite (c : SessionChannel) : prog W (option error) :=
  let* o := wrapper c in
  match channel o with
  | None => panic "BUG: channel closed for writing before channel is open"
  | Some ch => if (closed o || closedWrite o)%bool then prog_ret None else call (ECloseWrite ch)
  end.

Definition channelWrapper_Close (c : SessionChannel) : prog W (option error) :=
  let* o := wrapper c in
  match channel o with
  | None => panic "BUG: channel closed before channel is open"
  | Some ch =>
      do* set_wrapper c (λ o, MkChannelWrapper (channel o) (exitSent o) (exitSignalSent o) (closedWrite o) true) in
      call (EClose ch)
  end.

Definition onClose (c : SessionChannel) : prog W unit :=
  set_wrapper c (λ o, MkChannelWrapper (channel o) (exitSent o) (exitSignalSent o) (closedWrite o) true).

(** ** Channels opened by the backends *)

(** [ReverseForwardHandler]: [rf_server] tells whether its [server] field is set. *)
Record ReverseForwardHandler := MkReverseForwardHandler {
  rf_sshConn : nat;
  rf_server : bool;
}.

Definition ChannelTypeReverseForward : string := "forwarded-tcpip".
Definition ChannelTypeX11 : string := "x11".
Definition ChannelTypeForwardedStreamLocal : string := "forwarded-streamlocal@openssh.com".

(** [openChannel]; the channel the library returns is named by the number of
    calls made before. *)
Definition openChannel (r : ReverseForwardHandler) (channelType : string) (payload : list byte)
  : prog W (option ForwardChannel * Z * option error) :=
  if rf_server r then
    do* Lock in
    let* s := server in
    let channelId := nextChannelID s in
    do* update (set_nextChannelID (u64 (channelId + 1))) in
    do* Unlock in
    let* s := server in
    let* err := call (EOpenChannel (rf_sshConn r) channelType payload) in
    match err with
    | Some _ => prog_ret (None, 0, err)
    | None => prog_ret (Some (length (events s)), channelId, None)
    end
  else panic nil_pointer.

(** [ssh.Marshal] of the three channel open payloads. *)
Context (Marshal_tcp : string → Z → string → Z → list byte).
Context (Marshal_unix : string → string → list byte).
Context (Marshal_x11 : string → Z → list byte).

Definition reverse_NewChannelTCP (r : ReverseForwardHandler) (connectedAddress : string)
    (connectedPort : Z) (originatorAddress : string) (originatorPort : Z) :=
  openChannel r ChannelTypeReverseForward
    (Marshal_tcp connectedAddress connectedPort originatorAddress originatorPort).

Definition reverse_NewChannelUnix (r : ReverseForwardHandler) (path : string) :=
  openChannel r ChannelTypeForwardedStreamLocal (Marshal_unix path "").

Definition reverse_NewChannelX11 (r : ReverseForwardHandler) (originatorAddress : string) (originatorPort : Z) :=
  openChannel r ChannelTypeX11 (Marshal_x11 originatorAddress originatorPort).

(** The handler as the interface value the backends receive. *)
Definition reverseForward (r : ReverseForwardHandler) : ReverseForward W :=
  {| NewChannelTCP := reverse_NewChannelTCP r;
     NewChannelUnix := reverse_NewChannelUnix r;
     NewChannelX11 := reverse_NewChannelX11 r |}.

(** Requests on a channel opened this way are all refused. *)
Definition serveRequestChannel (c : list Request) : prog W unit :=
  range c (λ req, if WantReply req then call_ (EReply req false "") else prog_ret tt).
End store.
