(* ===== verification/Server.v ===== *)
(** * The SSH server

    [internal/sshserver/serverImpl.go]: global requests, channels and the
    requests on them, as the server takes them from [golang.org/x/crypto/ssh]
    and dispatches them to the handlers.  [ssh.Unmarshal] is the argument
    [codec] of the definitions.  The Go channels the library delivers requests
    on are lists: what arrives until the channel is closed.

    The decoders return [payload, ssh.Unmarshal(..., &payload)]; Go leaves open
    whether the variable is read before or after the call.  The model reads it
    after the call, as the Go compiler does. *)

From stdpp Require Import base gmap strings list.
From Stdlib Require Import Strings.Byte.
From S2P Require Import Prelude Messages Metadata Handler Security ServerStore.

Local Open Scope Z_scope.

(** ** Request types and payloads ([internal/ssh]) *)

Definition RequestTypeEnv : string := "env".
Definition RequestTypePty : string := "pty-req".
Definition RequestTypeShell : string := "shell".
Definition RequestTypeExec : string := "exec".
Definition RequestTypeSubsystem : string := "subsystem".
Definition RequestTypeWindow : string := "window-change".
Definition RequestTypeSignal : string := "signal".
Definition RequestTypeX11 : string := "x11-req".
Definition RequestTypeReverseForward : string := "tcpip-forward".
Definition RequestTypeCancelReverseForward : string := "cancel-tcpip-forward".
Definition RequestTypeStreamLocalForward : string := "streamlocal-forward@openssh.com".
Definition RequestTypeCancelStreamLocalForward : string := "cancel-streamlocal-forward@openssh.com".

Record EnvRequestPayload := MkEnvRequest { Name : string; EnvValue : string }.
Record ExecRequestPayload := MkExecRequest { Exec : string }.
Record PtyRequestPayload := MkPtyRequest {
  Term : string; pty_Columns : Z; pty_Rows : Z; pty_Width : Z; pty_Height : Z; ModeList : list byte }.
Record ShellRequestPayload := MkShellRequest { }.
Record SignalRequestPayload := MkSignalRequest { Signal : string }.
Record SubsystemRequestPayload := MkSubsystemRequest { Subsystem : string }.
Record WindowRequestPayload := MkWindowRequest { Columns : Z; Rows : Z; Width : Z; Height : Z }.
Record X11RequestPayload := MkX11Request {
  SingleConnection : bool; Protocol : string; Cookie : string; Screen : Z }.
Record ForwardTCPIPRequestPayload := MkForwardTCPIP { Address : string; FwdPort : Z }.
Record StreamLocalForwardRequestPayload := MkStreamLocalForward { SocketPath : string }.
Record ForwardTCPChannelOpenPayload := MkForwardTCPChannelOpen {
  ConnectedAddress : string; ConnectedPort : Z; OriginatorAddress : string; OriginatorPort : Z }.
Record DirectStreamLocalChannelOpenPayload := MkDirectStreamLocal {
  ds_SocketPath : string; Reserved1 : string; Reserved2 : Z }.

(** The [interface{}] that carries a decoded request. *)
Inductive payload :=
| PEnv (p : EnvRequestPayload)
| PPty (p : PtyRequestPayload)
| PShell (p : ShellRequestPayload)
| PExec (p : ExecRequestPayload)
| PSubsystem (p : SubsystemRequestPayload)
| PWindow (p : WindowRequestPayload)
| PSignal (p : SignalRequestPayload)
| PX11 (p : X11RequestPayload)
| PTCPIPForward (p : ForwardTCPIPRequestPayload)
| PStreamLocalForward (p : StreamLocalForwardRequestPayload).

(** [ssh.Unmarshal] at the types it is used with: what is decoded and the error. *)
Record sshCodec := MkSshCodec {
  Unmarshal_Env : list byte → EnvRequestPayload * option error;
  Unmarshal_Pty : list byte → PtyRequestPayload * option error;
  Unmarshal_Shell : list byte → ShellRequestPayload * option error;
  Unmarshal_Exec : list byte → ExecRequestPayload * option error;
  Unmarshal_Subsystem : list byte → SubsystemRequestPayload * option error;
  Unmarshal_Window : list byte → WindowRequestPayload * option error;
  Unmarshal_Signal : list byte → SignalRequestPayload * option error;
  Unmarshal_X11 : list byte → X11RequestPayload * option error;
  Unmarshal_TCPIPForward : list byte → ForwardTCPIPRequestPayload * option error;
  Unmarshal_StreamLocalForward : list byte → StreamLocalForwardRequestPayload * option error;
  Unmarshal_TCPChannelOpen : list byte → ForwardTCPChannelOpenPayload * option error;
  Unmarshal_DirectStreamLocal : list byte → DirectStreamLocalChannelOpenPayload * option error;
  Marshal_TCPChannelOpen : string → Z → string → Z → list byte;
  Marshal_ForwardedStreamLocal : string → string → list byte;
  Marshal_X11ChanOpen : string → Z → list byte;
}.

Definition type_assertion : string := "interface conversion: interface {} is of another type".

Section requests.
Context {W : Type} `{!Field W serverImpl}.
Context (lib_error : list event → event → option error) (codec : sshCodec).

Abbreviation call e := (call lib_error e).
Abbreviation call_ e := (call_ lib_error e).

Definition reverse (r : ReverseForwardHandler) : ReverseForward W :=
  reverseForward lib_error (Marshal_TCPChannelOpen codec) (Marshal_ForwardedStreamLocal codec)
    (Marshal_X11ChanOpen codec) r.

(** ** Decoding *)

Definition unmarshalEnv (request : Request) := Unmarshal_Env codec (Payload request).
Definition unmarshalPty (request : Request) := Unmarshal_Pty codec (Payload request).

Definition unmarshalShell (request : Request) : ShellRequestPayload * option error :=
  if decide (length (Payload request) ≠ 0%nat) then Unmarshal_Shell codec (Payload request)
  else (MkShellRequest, None).

Definition unmarshalExec (request : Request) := Unmarshal_Exec codec (Payload request).
Definition unmarshalSubsystem (request : Request) := Unmarshal_Subsystem codec (Payload request).
Definition unmarshalWindow (request : Request) := Unmarshal_Window codec (Payload request).
Definition unmarshalSignal (request : Request) := Unmarshal_Signal codec (Payload request).
Definition unmarshalTCPIPForward (request : Request) := Unmarshal_TCPIPForward codec (Payload request).
Definition unmarshalStreamLocalForward (request : Request) :=
  Unmarshal_StreamLocalForward codec (Payload request).
Definition unmarshalX11 (request : Request) := Unmarshal_X11 codec (Payload request).

Definition some_payload {P} (f : P → payload) (r : P * option error) : option payload * option error :=
  (Some (f r.1), r.2).

Definition unmarshalChannelRequestPayload (request : Request) : option payload * option error :=
  let t := Type_ request in
  if decide (t = RequestTypeEnv) then some_payload PEnv (unmarshalEnv request)
  else if decide (t = RequestTypePty) then some_payload PPty (unmarshalPty request)
  else if decide (t = RequestTypeShell) then some_payload PShell (unmarshalShell request)
  else if decide (t = RequestTypeExec) then some_payload PExec (unmarshalExec request)
  else if decide (t = RequestTypeSubsystem) then some_payload PSubsystem (unmarshalSubsystem request)
  else if decide (t = RequestTypeWindow) then some_payload PWindow (unmarshalWindow request)
  else if decide (t = RequestTypeSignal) then some_payload PSignal (unmarshalSignal request)
  else if decide (t = RequestTypeX11) then some_payload PX11 (unmarshalX11 request)
  else (None, None).

Definition unmarshalGlobalRequestPayload (request : Request) : option payload * option error :=
  let t := Type_ request in
  if decide (t = RequestTypeReverseForward) then some_payload PTCPIPForward (unmarshalTCPIPForward request)
  else if decide (t = RequestTypeCancelReverseForward) then
    some_payload PTCPIPForward (unmarshalTCPIPForward request)
  else if decide (t = RequestTypeStreamLocalForward) then
    some_payload PStreamLocalForward (unmarshalStreamLocalForward request)
  else if decide (t = RequestTypeCancelStreamLocalForward) then
    some_payload PStreamLocalForward (unmarshalStreamLocalForward request)
  else (None, None).

(** The function [createReply] returns. *)
Definition createReply (request : Request) (success : bool) (msg : string) : prog W unit :=
  if WantReply request then call_ (EReply request success msg) else prog_ret tt.

(** ** Requests on a session channel *)

Definition onEnvRequest (requestID : Z) (h : SessionChannelHandler W) (p : payload) : prog W (option error) :=
  match p with
  | PEnv p => OnEnvRequest h requestID (Name p) (EnvValue p)
  | _ => panic type_assertion
  end.

Definition onPtyRequest (requestID : Z) (h : SessionChannelHandler W) (p : payload) : prog W (option error) :=
  match p with
  | PPty p => OnPtyRequest h requestID (Term p) (pty_Columns p) (pty_Rows p) (pty_Width p) (pty_Height p) (ModeList p)
  | _ => panic type_assertion
  end.

Definition onShell (requestID : Z) (h : SessionChannelHandler W) : prog W (option error) :=
  OnShell h requestID.

Definition onExec (requestID : Z) (h : SessionChannelHandler W) (p : payload) : prog W (option error) :=
  match p with
  | PExec p => OnExecRequest h requestID (Exec p)
  | _ => panic type_assertion
  end.

Definition onSignal (requestID : Z) (h : SessionChannelHandler W) (p : payload) : prog W (option error) :=
  match p with
  | PSignal p => OnSignal h requestID (Signal p)
  | _ => panic type_assertion
  end.

Definition onSubsystem (requestID : Z) (h : SessionChannelHandler W) (p : payload) : prog W (option error) :=
  match p with
  | PSubsystem p => OnSubsystem h requestID (Subsystem p)
  | _ => panic type_assertion
  end.

Definition onChannel (requestID : Z) (h : SessionChannelHandler W) (p : payload) : prog W (option error) :=
  match p with
  | PWindow p => OnWindow h requestID (Columns p) (Rows p) (Width p) (Height p)
  | _ => panic type_assertion
  end.

Definition not_in_map : error :=
  ErrorString "Couldn't find connection in map, something terrible happened".

(** The lock of the server is held until the backend has returned. *)
Definition with_connection (connectionID : string) (k : nat → prog W (option error))
  : prog W (option error) :=
  do* Lock in
  let* s := server in
  match connMap s !! connectionID with
  | None => do* Unlock in prog_ret (Some not_in_map)
  | Some conn =>
      let* err := k conn in
      do* Unlock in
      prog_ret err
  end.

(** The handler for X11 is built without its [server] field. *)
Definition onX11 (connectionID : string) (requestID : Z) (h : SessionChannelHandler W) (p : payload)
  : prog W (option error) :=
  match p with
  | PX11 p =>
      with_connection connectionID (λ conn,
        OnX11Request h requestID (SingleConnection p) (Protocol p) (Cookie p) (Screen p)
          (reverse (MkReverseForwardHandler conn false)))
  | _ => panic type_assertion
  end.

Definition handleDecodedChannelRequest (channelMetadata : ChannelMetadata) (requestID : Z)
    (requestType : string) (p : payload) (h : SessionChannelHandler W) : prog W (option error) :=
  if decide (requestType = RequestTypeEnv) then onEnvRequest requestID h p
  else if decide (requestType = RequestTypePty) then onPtyRequest requestID h p
  else if decide (requestType = RequestTypeShell) then onShell requestID h
  else if decide (requestType = RequestTypeExec) then onExec requestID h p
  else if decide (requestType = RequestTypeSubsystem) then onSubsystem requestID h p
  else if decide (requestType = RequestTypeWindow) then onChannel requestID h p
  else if decide (requestType = RequestTypeSignal) then onSignal requestID h p
  else if decide (requestType = RequestTypeX11) then
    onX11 (ConnectionID (pending_conn (auth_pending (Connection channelMetadata)))) requestID h p
  else prog_ret None.

Definition handleChannelRequest (channelMetadata : ChannelMetadata) (requestID : Z)
    (request : Request) (sessionChannel : SessionChannelHandler W) : prog W unit :=
  let reply := createReply request in
  match unmarshalChannelRequestPayload request with
  | (None, _) =>
      do* OnUnsupportedChannelRequest sessionChannel requestID (Type_ request) (Payload request) in
      reply false (Sprintf "unsupported request type: %s" [VString (Type_ request)])
  | (Some _, Some err) =>
      do* OnFailedDecodeChannelRequest sessionChannel requestID (Type_ request) (Payload request) (Some err) in
      reply false "failed to unmarshal payload"
  | (Some p, None) =>
      let* err := handleDecodedChannelRequest channelMetadata requestID (Type_ request) p sessionChannel in
      match err with
      | Some e => reply false (Error e)
      | None => reply true ""
      end
  end.

(** ** Global requests *)

Definition onForwardTCPIP (md : ConnectionAuthenticatedMetadata) (p : payload)
    (connection : SSHConnectionHandler W) : prog W (option error) :=
  match p with
  | PTCPIPForward p =>
      with_connection (ConnectionID (pending_conn (auth_pending md))) (λ conn,
        OnRequestTCPReverseForward connection (Address p) (FwdPort p) (reverse (MkReverseForwardHandler conn true)))
  | _ => panic type_assertion
  end.

Definition onForwardStreamLocal (md : ConnectionAuthenticatedMetadata) (p : payload)
    (connection : SSHConnectionHandler W) : prog W (option error) :=
  match p with
  | PStreamLocalForward p =>
      with_connection (ConnectionID (pending_conn (auth_pending md))) (λ conn,
        OnRequestStreamLocal connection (SocketPath p) (reverse (MkReverseForwardHandler conn true)))
  | _ => panic type_assertion
  end.

Definition onCancelForward (p : payload) (connection : SSHConnectionHandler W) : prog W (option error) :=
  match p with
  | PTCPIPForward p => OnRequestCancelTCPReverseForward connection (Address p) (FwdPort p)
  | _ => panic type_assertion
  end.

Definition onCancelForwardStreamLocal (p : payload) (connection : SSHConnectionHandler W) : prog W (option error) :=
  match p with
  | PStreamLocalForward p => OnRequestCancelStreamLocal connection (SocketPath p)
  | _ => panic type_assertion
  end.

Definition handleDecodedGlobalRequest (md : ConnectionAuthenticatedMetadata) (requestType : string)
    (p : payload) (connection : SSHConnectionHandler W) : prog W (option error) :=
  if decide (requestType = RequestTypeReverseForward) then onForwardTCPIP md p connection
  else if decide (requestType = RequestTypeCancelReverseForward) then onCancelForward p connection
  else if decide (requestType = RequestTypeStreamLocalForward) then onForwardStreamLocal md p connection
  else if decide (requestType = RequestTypeCancelStreamLocalForward) then
    onCancelForwardStreamLocal p connection
  else prog_ret None.

Definition handleGlobalRequest (md : ConnectionAuthenticatedMetadata) (requestID : Z)
    (connection : SSHConnectionHandler W) (req : Request) : prog W unit :=
  let reply := createReply req in
  match unmarshalGlobalRequestPayload req with
  | (None, _) =>
      do* OnUnsupportedGlobalRequest connection requestID (Type_ req) (Payload req) in
      reply false (Sprintf "unsupported global request type: %s" [VString (Type_ req)])
  | (Some _, Some err) =>
      do* OnFailedDecodeGlobalRequest connection requestID (Type_ req) (Payload req) (Some err) in
      reply false "failed to unmarshal payload"
  | (Some p, None) =>
      let* err := handleDecodedGlobalRequest md (Type_ req) p connection in
      match err with
      | Some e => reply false (Error e)
      | None => reply true ""
      end
  end.

Definition handleKeepAliveRequest (req : Request) : prog W unit :=
  if WantReply req then call_ (EReply req false "") else prog_ret tt.

Definition handleGlobalRequests (md : ConnectionAuthenticatedMetadata) (requests : list Request)
    (connection : SSHConnectionHandler W) : prog W unit :=
  range requests (λ request,
    let* s := server in
    let requestID := nextGlobalRequestID s in
    do* update (set_nextGlobalRequestID (u64 (requestID + 1))) in
    if decide (Type_ request = "keepalive@openssh.com") then handleKeepAliveRequest request
    else handleGlobalRequest md requestID connection request).

(** ** Channels *)

Definition ChannelTypeSession : string := "session".
Definition ChannelTypeDirectTCPIP : string := "direct-tcpip".
Definition ChannelTypeDirectStreamLocal : string := "direct-streamlocal@openssh.com".

(** [newChannel.Accept()]: the channel is named by the number of calls made before. *)
Definition Accept (newChannel : NewChannel) : prog W (nat * option error) :=
  let* s := server in
  let* err := call (EAccept newChannel) in
  prog_ret (length (events s), err).

Definition channel_key (kind : string) (m : ChannelMetadata) : string :=
  Sprintf (kind ++ "-%s-%d")
    [VString (ConnectionID (pending_conn (auth_pending (Connection m)))); VInt (ChannelID m)].

(** The loop over the requests of a session channel, from a request ID on. *)
Fixpoint session_requests (channelMetadata : ChannelMetadata) (nextRequestID : Z)
    (requests : list Request) (h : SessionChannelHandler W) : prog W unit :=
  match requests with
  | [] => prog_ret tt
  | request :: rest =>
      do* handleChannelRequest channelMetadata nextRequestID request h in
      session_requests channelMetadata (u64 (nextRequestID + 1)) rest h
  end.

Definition handleSessionChannel (channelMetadata : ChannelMetadata) (newChannel : NewChannel)
    (requests : list Request) (connection : SSHConnectionHandler W) : prog W unit :=
  let* channelCallbacks := new_channelWrapper in
  let* '(h, rejection) := OnSessionChannel connection channelMetadata (ExtraData newChannel) channelCallbacks in
  match rejection with
  | Some r => call_ (EReject newChannel (ChannelRejection_Reason r) (ChannelRejection_UserMessage r))
  | None =>
      let handlerChannel := default nil_SessionChannelHandler h in
      let shutdownHandlerID := channel_key "session" channelMetadata in
      do* Register shutdownHandlerID
            (SessionShutdown (ConnectionID (pending_conn (auth_pending (Connection channelMetadata))))
               (ChannelID channelMetadata)) in
      let* '(ch, err) := Accept newChannel in
      match err with
      | Some _ => Unregister shutdownHandlerID
      | None =>
          do* set_channel channelCallbacks ch in
          do* session_requests channelMetadata 0 requests handlerChannel in
          do* Unregister shutdownHandlerID in
          do* onClose channelCallbacks in
          OnClose handlerChannel
      end
  end.

(** The end the two forwarding handlers share, from the handler's answer on:
    two goroutines copy the data, further requests are refused.  The goroutines
    dereference the handler's channel, so a nil one panics. *)
Definition serve_forward (channelMetadata : ChannelMetadata) (newChannel : NewChannel)
    (requests : list Request) (answer : option ForwardChannel * option ChannelRejection) : prog W unit :=
  let '(handlerChannel, rejection) := answer in
  match rejection with
  | Some r => call_ (EReject newChannel (ChannelRejection_Reason r) (ChannelRejection_UserMessage r))
  | None =>
      let shutdownHandlerID := channel_key "direct-tcpip" channelMetadata in
      do* Register shutdownHandlerID (shutdownCloser handlerChannel) in
      let* '(ch, err) := Accept newChannel in
      match err with
      | Some _ => Unregister shutdownHandlerID
      | None =>
          match handlerChannel with
          | None => panic nil_pointer
          | Some fc =>
              do* call_ (ECopy fc ch) in
              do* call_ (ECopy ch fc) in
              do* range requests (λ request,
                if WantReply request then call_ (EReply request false "") else prog_ret tt) in
              do* Unregister shutdownHandlerID in
              call_ (EForwardClose fc)
          end
      end
  end.

Definition handleDirectForwardingChannel (channelMetadata : ChannelMetadata) (newChannel : NewChannel)
    (requests : list Request) (connection : SSHConnectionHandler W) : prog W unit :=
  let '(p, err) := Unmarshal_TCPChannelOpen codec (ExtraData newChannel) in
  match err with
  | Some _ => prog_ret tt
  | None =>
      let* answer := OnTCPForwardChannel connection (ChannelID channelMetadata) (ConnectedAddress p)
                       (ConnectedPort p) (OriginatorAddress p) (OriginatorPort p) in
      serve_forward channelMetadata newChannel requests answer
  end.

Definition handleDirectStreamLocalChannel (channelMetadata : ChannelMetadata) (newChannel : NewChannel)
    (requests : list Request) (connection : SSHConnectionHandler W) : prog W unit :=
  let '(p, err) := Unmarshal_DirectStreamLocal codec (ExtraData newChannel) in
  match err with
  | Some _ => prog_ret tt
  | None =>
      let* answer := OnDirectStreamLocal connection (ChannelID channelMetadata) (ds_SocketPath p) in
      serve_forward channelMetadata newChannel requests answer
  end.

(** The goroutines [handleChannels] starts, and what each of them runs. *)
Inductive task :=
| TaskSession (m : ChannelMetadata) (ch : NewChannel)
| TaskDirectTCPIP (m : ChannelMetadata) (ch : NewChannel)
| TaskDirectStreamLocal (m : ChannelMetadata) (ch : NewChannel).

Definition run_task (requests : list Request) (connection : SSHConnectionHandler W) (t : task) : prog W unit :=
  match t with
  | TaskSession m ch => handleSessionChannel m ch requests connection
  | TaskDirectTCPIP m ch => handleDirectForwardingChannel m ch requests connection
  | TaskDirectStreamLocal m ch => handleDirectStreamLocalChannel m ch requests connection
  end.

(** One turn of the loop of [handleChannels]. *)
Definition handleChannel (md : ConnectionAuthenticatedMetadata) (newChannel : NewChannel)
    (connection : SSHConnectionHandler W) : prog W (list task) :=
  do* Lock in
  let* s := server in
  let channelID := nextChannelID s in
  do* update (set_nextChannelID (u64 (channelID + 1))) in
  do* Unlock in
  if decide (ChannelType newChannel = ChannelTypeSession) then
    prog_ret [TaskSession (Channel md channelID) newChannel]
  else if decide (ChannelType newChannel = ChannelTypeDirectTCPIP) then
    prog_ret [TaskDirectTCPIP (Channel md channelID) newChannel]
  else if decide (ChannelType newChannel = ChannelTypeDirectStreamLocal) then
    prog_ret [TaskDirectStreamLocal (Channel md channelID) newChannel]
  else
    do* OnUnsupportedChannel connection channelID (ChannelType newChannel) (ExtraData newChannel) in
    do* call_ (EReject newChannel UnknownChannelType "unsupported channel type") in
    prog_ret [].

Fixpoint handleChannels (md : ConnectionAuthenticatedMetadata) (channels : list NewChannel)
    (connection : SSHConnectionHandler W) : prog W (list task) :=
  match channels with
  | [] => prog_ret []
  | newChannel :: rest =>
      let* t := handleChannel md newChannel connection in
      let* ts := handleChannels md rest connection in
      prog_ret (t ++ ts)
  end.
End requests.
