(* ===== verification/ServerConnection.v ===== *)
(** * Connections of the SSH server

    [internal/sshserver/serverImpl.go]: running the server, the authentication
    callbacks it gives to [golang.org/x/crypto/ssh], the life of a connection
    from the accepted socket to the disconnect, and keep-alives.  The library's
    handshake is the argument [NewServerConn]. *)

From stdpp Require Import base gmap strings list.
From Stdlib Require Import Ascii Strings.Byte.
From S2P Require Import Prelude Messages Metadata MetadataJSON Handler ConfigSSH ServerStore.

Local Open Scope Z_scope.

(** ** Message codes ([message/ssh.go]) *)

Definition ESSHAuthUnavailable : string := "SSH_AUTH_UNAVAILABLE".
Definition ESSHAuthFailed : string := "SSH_AUTH_FAILED".
Definition ESSHAlreadyRunning : string := "SSH_ALREADY_RUNNING".
Definition ESSHStartFailed : string := "SSH_START_FAILED".
Definition ESSHBackendRejected : string := "SSH_BACKEND_REJECTED_HANDSHAKE".

(** [strings.TrimSpace] on ASCII text. *)
Definition is_space (c : Ascii.ascii) : bool := (between 9 13 c || between 32 32 c)%bool.

Fixpoint trim_left (s : string) : string :=
  match s with
  | String c s' => if is_space c then trim_left s' else s
  | EmptyString => EmptyString
  end.

Definition TrimSpace (s : string) : string :=
  String.rev (trim_left (String.rev (trim_left s))).

(** ** What the library provides *)

Record ConnMetadata := MkConnMetadata { conn_User : string; conn_ClientVersion : string }.

(** [ssh.Permissions]: its extensions. *)
Abbreviation Permissions := (gmap string json).

(** [ssh.KeyboardInteractiveChallenge] *)
Abbreviation SSHChallenge W :=
  (string → string → list string → list bool → prog W (list string * option error)).

Abbreviation callback_result := (option Permissions * option error)%type.

(** [ssh.ServerConfig] *)
Record ServerConfig (W PublicKey : Type) := MkServerConfig {
  KeyExchanges : list string;
  sc_Ciphers : list string;
  sc_MACs : list string;
  NoClientAuth : bool;
  MaxAuthTries : Z;
  PasswordCallback : ConnMetadata → list byte → prog W callback_result;
  PublicKeyCallback : ConnMetadata → PublicKey → prog W callback_result;
  KeyboardInteractiveCallback : ConnMetadata → SSHChallenge W → prog W callback_result;
  GSSAPIWithMICConfig : option ((ConnMetadata → string → prog W callback_result) * GSSAPIServer W);
  sc_ServerVersion : string;
  BannerCallback : ConnMetadata → string;
  HostKeys : list nat;
}.

Arguments PasswordCallback {W PublicKey} _ _ _.
Arguments PublicKeyCallback {W PublicKey} _ _ _.
Arguments KeyboardInteractiveCallback {W PublicKey} _ _ _.
Arguments GSSAPIWithMICConfig {W PublicKey} _.
Arguments MaxAuthTries {W PublicKey} _.
Arguments NoClientAuth {W PublicKey} _.

Section connection.
Context {W PublicKey : Type} `{!Field W serverImpl}.
Context (lib_error : list event → event → option error).
Context (IP_String : list byte → string) (ParseIP : string → list byte).
Context (MarshalAuthorizedKey : PublicKey → string).
Context (cfg : SSHConfig) (hostKeys : list nat).

Abbreviation call_ e := (call_ lib_error e).

(** ** Authentication callbacks *)

Definition wrapAndLogAuthUnavailable (conn : ConnectionAuthPendingMetadata) (authMethod : string)
    (err : option error) : prog W (option error) :=
  match err with
  | None => panic nil_pointer
  | Some e =>
      prog_ret (Some
        (error_Label "reason" (VString (Error e))
          (error_Label "method" (VString (ToLower authMethod))
            (error_Label "username" (VString (Username conn))
              (WrapUser err ESSHAuthUnavailable
                 "Authentication is currently unavailable, please try a different authentication method or try again later."
                 "%s authentication for user %s currently unavailable."
                 [VString authMethod; VString (Username conn)])))))
  end.

Definition wrapAndLogAuthFailure (conn : ConnectionAuthPendingMetadata) (authMethod : string)
    (err : option error) : option error :=
  match err with
  | None =>
      Some (error_Label "method" (VString (ToLower authMethod))
        (error_Label "username" (VString (Username conn))
          (MsgError (UserMessage ESSHAuthFailed "Authentication failed."
             "%s authentication for user %s failed." [VString authMethod; VString (Username conn)]))))
  | Some e =>
      Some (error_Label "reason" (VString (Error e))
        (error_Label "method" (VString (ToLower authMethod))
          (error_Label "username" (VString (Username conn))
            (WrapUser err ESSHAuthFailed "Authentication failed."
               "%s authentication for user %s failed." [VString authMethod; VString (Username conn)]))))
  end.

(** The [switch authResponse] of the three authenticators. *)
Definition answer_auth (pending : ConnectionAuthPendingMetadata) (authMethod : string)
    (r : AuthResponse * ConnectionAuthenticatedMetadata * option error)
  : prog W (option Permissions * ConnectionAuthenticatedMetadata * option error) :=
  let '(authResponse, authenticatedMetadata, err) := r in
  match authResponse with
  | AuthResponseSuccess => prog_ret (Some ∅, authenticatedMetadata, None)
  | AuthResponseFailure =>
      prog_ret (None, authenticatedMetadata, wrapAndLogAuthFailure pending authMethod err)
  | AuthResponseUnavailable =>
      let* err := wrapAndLogAuthUnavailable pending authMethod err in
      prog_ret (None, authenticatedMetadata, err)
  | AuthResponseOther _ =>
      prog_ret (None, authenticatedMetadata, Some (ErrorString "authentication currently unavailable"))
  end.

Definition createPasswordAuthenticator (meta : ConnectionMetadata) (h : NetworkConnectionHandler W)
    (conn : ConnMetadata) (password : list byte)
  : prog W (option Permissions * ConnectionAuthenticatedMetadata * option error) :=
  let authenticatingMetadata := StartAuthentication meta (conn_ClientVersion conn) (conn_User conn) in
  let* r := OnAuthPassword h authenticatingMetadata password in
  answer_auth authenticatingMetadata "Password" r.

Definition createPubKeyAuthenticator (meta : ConnectionMetadata) (h : NetworkConnectionHandler W)
    (conn : ConnMetadata) (pubKey : PublicKey)
  : prog W (option Permissions * ConnectionAuthenticatedMetadata * option error) :=
  let authenticatingMetadata := StartAuthentication meta (conn_ClientVersion conn) (conn_User conn) in
  let authorizedKey := TrimSpace (MarshalAuthorizedKey pubKey) in
  let* r := OnAuthPubKey h authenticatingMetadata authorizedKey in
  answer_auth authenticatingMetadata "Public key" r.

(** [for index, rawAnswer := range answerList]: more answers than questions panic. *)
Fixpoint collect_answers (questions : list KeyboardInteractiveQuestion) (answerList : list string)
    (acc : gmap string string) : prog W (gmap string string) :=
  match answerList with
  | [] => prog_ret acc
  | rawAnswer :: answerList' =>
      match questions with
      | [] => panic index_out_of_range
      | question :: questions' => collect_answers questions' answerList' (<[getID question := rawAnswer]> acc)
      end
  end.

Definition challengeWrapper (conn : ConnMetadata) (challenge : SSHChallenge W) : Challenge W :=
  λ instruction questions,
    let* '(answerList, err) := challenge (conn_User conn) instruction
                                 (Question <$> questions) (EchoResponse <$> questions) in
    let* m := collect_answers questions answerList ∅ in
    prog_ret (MkAnswers m, err).

Definition createKeyboardInteractiveHandler (meta : ConnectionMetadata) (h : NetworkConnectionHandler W)
    (conn : ConnMetadata) (challenge : SSHChallenge W)
  : prog W (option Permissions * ConnectionAuthenticatedMetadata * option error) :=
  let authenticatingMetadata := StartAuthentication meta (conn_ClientVersion conn) (conn_User conn) in
  let* r := OnAuthKeyboardInteractive h authenticatingMetadata (challengeWrapper conn challenge) in
  answer_auth authenticatingMetadata "Keyboard-interactive" r.

Definition metadata_key : string := "containerssh-metadata".

(** The end of the callbacks: the authenticated metadata as an extension. *)
Definition grant (md : ConnectionAuthenticatedMetadata) : callback_result :=
  (Some {[ metadata_key := Marshal IP_String md ]}, None).

Definition createPasswordCallback (meta : ConnectionMetadata) (h : NetworkConnectionHandler W)
    (conn : ConnMetadata) (password : list byte) : prog W callback_result :=
  let* '(_, md, err) := createPasswordAuthenticator meta h conn password in
  match err with
  | Some _ => prog_ret (None, err)
  | None => prog_ret (grant md)
  end.

Definition createPubKeyCallback (meta : ConnectionMetadata) (h : NetworkConnectionHandler W)
    (conn : ConnMetadata) (key : PublicKey) : prog W callback_result :=
  let* '(_, md, err) := createPubKeyAuthenticator meta h conn key in
  match err with
  | Some _ => prog_ret (None, err)
  | None => prog_ret (grant md)
  end.

Definition createKeyboardInteractiveCallback (meta : ConnectionMetadata) (h : NetworkConnectionHandler W)
    (conn : ConnMetadata) (challenge : SSHChallenge W) : prog W callback_result :=
  let* '(_, md, err) := createKeyboardInteractiveHandler meta h conn challenge in
  match err with
  | Some _ => prog_ret (None, err)
  | None => prog_ret (grant md)
  end.

(** [AllowLogin] of the GSSAPI configuration. *)
Definition gssapi_AllowLogin (meta : ConnectionMetadata) (gssServer : GSSAPIServer W)
    (conn : ConnMetadata) (srcName : string) : prog W callback_result :=
  let* ok := gss_Success gssServer in
  if negb ok then
    let* e := gss_Error gssServer in
    match e with
    | None => prog_ret (None, Some (MsgError (NewMessage ESSHAuthFailed "Authentication failed" [])))
    | Some _ => let* e := gss_Error gssServer in prog_ret (None, e)
    end
  else
    let authenticating := StartAuthentication meta (conn_ClientVersion conn) (conn_User conn) in
    let* '(authenticated, err) := gss_AllowLogin gssServer (conn_User conn) authenticating in
    match err with
    | Some _ => prog_ret (None, wrapAndLogAuthFailure authenticating "GSSAPI" err)
    | None =>
        do* update (λ s, set_wrapperMetadata (<[ConnectionID meta := authenticated]> (wrapperMetadata s)) s) in
        prog_ret (grant authenticated)
    end.

Definition createGSSAPIConfig (meta : ConnectionMetadata) (h : NetworkConnectionHandler W)
  : prog W (option ((ConnMetadata → string → prog W callback_result) * GSSAPIServer W)) :=
  let* gssServer := OnAuthGSSAPI h meta in
  match gssServer with
  | Some g => prog_ret (Some (gssapi_AllowLogin meta g, g))
  | None => prog_ret None
  end.

Definition createConfiguration (meta : ConnectionMetadata) (h : NetworkConnectionHandler W)
  : prog W (ServerConfig W PublicKey) :=
  let* gssConfig := createGSSAPIConfig meta h in
  prog_ret
    {| KeyExchanges := KexAlgorithms cfg;
       sc_Ciphers := Ciphers cfg;
       sc_MACs := MACs cfg;
       NoClientAuth := false;
       MaxAuthTries := 6;
       PasswordCallback := createPasswordCallback meta h;
       PublicKeyCallback := createPubKeyCallback meta h;
       KeyboardInteractiveCallback := createKeyboardInteractiveCallback meta h;
       GSSAPIWithMICConfig := gssConfig;
       sc_ServerVersion := ServerVersion cfg;
       BannerCallback := λ _, Banner cfg;
       HostKeys := hostKeys |}.

(** ** A connection *)

(** [ssh.NewServerConn]: the connection and its permissions, or an error. *)
Context (NewServerConn : ServerConfig W PublicKey → prog W ((nat * option Permissions) + error)).
Context (handler : Handler W).

(** What [handleConnection] leaves running: the goroutines that serve the
    channels and global requests of an authenticated connection. *)
Record established := MkEstablished {
  est_conn : nat;
  est_metadata : ConnectionAuthenticatedMetadata;
  est_connection : SSHConnectionHandler W;
  est_network : NetworkConnectionHandler W;
}.

Definition network_key (connectionID : string) : string := ("network-" ++ connectionID)%string.
Definition ssh_key (connectionID : string) : string := ("ssh-" ++ connectionID)%string.

Definition abortCleanup (conn : nat) (meta : ConnectionMetadata) (connectionID : string)
    (h : NetworkConnectionHandler W) (err : option error) : prog W (option established) :=
  do* OnHandshakeFailed h meta err in
  do* Unregister (network_key connectionID) in
  do* OnDisconnect h in
  do* call_ (ESocketClose conn) in
  do* wg_Done in
  prog_ret None.

(** The metadata in the permissions of the connection. *)
Definition read_permissions (perms : option Permissions)
  : prog W (ConnectionAuthenticatedMetadata + option error) :=
  match perms with
  | None => panic nil_pointer
  | Some extensions =>
      match extensions !! metadata_key with
      | None => prog_ret (inr None)
      | Some doc =>
          match Unmarshal ParseIP doc with
          | Done (inl md) => prog_ret (inl md)
          | Done (inr e) => prog_ret (inr (Some e))
          | Panic s => panic s
          | Blocked s => block s
          end
      end
  end.

(** The first part of [handleConnection], up to the goroutine that waits for
    the disconnect. *)
Definition handleConnection_start (conn : nat) (addr : RemoteAddress) (connectionID : string)
  : prog W (option established) :=
  let connectionMeta := MkConnectionMetadata addr connectionID (Some ∅) (Some ∅) (Some ∅) in
  let* '(hnc, connectionMeta, err) := OnNetworkConnection handler connectionMeta in
  match err with
  | Some _ =>
      do* call_ (ESocketClose conn) in
      do* wg_Done in
      prog_ret None
  | None =>
      let h := default nil_NetworkConnectionHandler hnc in
      do* Register (network_key connectionID) (NetworkShutdown connectionID) in
      let* config := createConfiguration connectionMeta h in
      let* r := NewServerConn config in
      match r with
      | inr e => abortCleanup conn connectionMeta connectionID h (Some e)
      | inl (sshConn, perms) =>
          let* p := read_permissions perms in
          match p with
          | inr err => abortCleanup conn connectionMeta connectionID h err
          | inl authenticatedMetadata =>
              let* '(hsc, _, err) := OnHandshakeSuccess h authenticatedMetadata in
              match err with
              | Some _ =>
                  abortCleanup conn connectionMeta connectionID h
                    (Some (WrapUser err ESSHBackendRejected
                       "Authentication currently unavailable, please try again later."
                       "The backend has rejected the user after successful authentication." []))
              | None =>
                  do* update (λ s, set_wrapperMetadata
                               (<[connectionID := authenticatedMetadata]> (wrapperMetadata s)) s) in
                  do* Lock in
                  do* update (λ s, set_clients ({[sshConn]} ∪ clientSockets s)
                                     (<[connectionID := sshConn]> (connMap s)) s) in
                  do* Unlock in
                  prog_ret (Some (MkEstablished sshConn authenticatedMetadata
                                    (default nil_SSHConnectionHandler hsc) h))
              end
          end
      end
  end.

(** The whole of it: the SSH handler is registered for the shutdown after the
    goroutine has been started. *)
Definition handleConnection (conn : nat) (addr : RemoteAddress) (connectionID : string)
  : prog W (option established) :=
  let* r := handleConnection_start conn addr connectionID in
  match r with
  | None => prog_ret None
  | Some e =>
      do* Register (ssh_key connectionID) (SSHShutdown connectionID) in
      prog_ret (Some e)
  end.

(** The goroutine that waits for the disconnect, once [sshConn.Wait] returns, in
    its steps. *)
Definition closing_steps (connectionID : string) (e : established) : list (prog W unit) :=
  [Unregister (network_key connectionID); Unregister (ssh_key connectionID); OnDisconnect (est_network e); wg_Done].

Definition connection_closed (connectionID : string) (e : established) : prog W unit :=
  range (closing_steps connectionID e) (λ step, step).

(** The goroutine runs beside the last step of [handleConnection], the
    registration of the SSH handler, which comes after the first [n] of the
    goroutine's steps. *)
Definition registered_after (n : nat) (connectionID : string) (e : established) : prog W unit :=
  do* range (take n (closing_steps connectionID e)) (λ step, step) in
  do* Register (ssh_key connectionID) (SSHShutdown connectionID) in
  range (drop n (closing_steps connectionID e)) (λ step, step).

(** ** Keep-alives *)

(** The keep-alive goroutine for a number of intervals: whether it has closed
    the connection. *)
Fixpoint keepAlive (sshConn : nat) (missedAlives : Z) (ticks : nat) : prog W bool :=
  match ticks with
  | O => prog_ret false
  | S ticks' =>
      let* err := call lib_error (EKeepAlive sshConn) in
      match err with
      | Some _ =>
          let missedAlives := missedAlives + 1 in
          if decide (ClientAliveCountMax cfg ≤ missedAlives) then
            do* call_ (EConnClose sshConn) in prog_ret true
          else keepAlive sshConn missedAlives ticks'
      | None => keepAlive sshConn 0 ticks'
      end
  end.

Definition start_keepAlive (sshConn : nat) (ticks : nat) : prog W bool :=
  if decide (0 < ClientAliveInterval cfg) then keepAlive sshConn 0 ticks else prog_ret false.

(** ** Running the server *)

(** [RunWithLifecycle] up to the accept loop; [listen] is the result of
    [listenConfig.Listen].  [None] means that connections are being accepted. *)
Definition RunWithLifecycle_start (listen : option error) : prog W (option error) :=
  do* Lock in
  let* s := server in
  if listenSocket s then
    do* update (set_shuttingDown false) in
    do* Unlock in
    prog_ret (Some (MsgError (NewMessage ESSHAlreadyRunning "SSH server is already running" [])))
  else
    do* update (set_clients ∅ ∅) in
    do* update (set_shuttingDown false) in
    match listen with
    | Some _ =>
        do* Unlock in
        prog_ret (Some (Wrap listen ESSHStartFailed "failed to start SSH server on %s" [VString (Listen cfg)]))
    | None =>
        do* update (set_listenSocket true) in
        do* Unlock in
        let* err := OnReady handler in
        match err with
        | Some _ => do* call_ EListenClose in prog_ret err
        | None => prog_ret None
        end
    end.

(** An accepted connection: [s.wg.Add(1)], then [handleConnection]; up to the
    start of the goroutine that waits for the disconnect, and the whole of it. *)
Definition accept_start (conn : nat) (addr : RemoteAddress) (connectionID : string)
  : prog W (option established) :=
  do* wg_Add in handleConnection_start conn addr connectionID.

Definition accept (conn : nat) (addr : RemoteAddress) (connectionID : string)
  : prog W (option established) :=
  do* wg_Add in handleConnection conn addr connectionID.

(** The goroutine that closes the listening socket. *)
Definition handleListenSocketOnShutdown : prog W unit :=
  do* Lock in
  let* s := server in
  if listenSocket s then
    do* call_ EListenClose in
    do* update (set_listenSocket false) in
    Unlock
  else panic nil_pointer.

(** The goroutine that disconnects the remaining clients when the shutdown
    context expires. *)
Definition disconnectClients : prog W unit :=
  do* Lock in
  let* s := server in
  do* range (elements (clientSockets s)) (λ c, call_ (EConnClose c)) in
  do* update (λ s, set_clients ∅ (connMap s) s) in
  Unlock.

(** The end of [RunWithLifecycle], after the accept loop: it waits for the
    connections and for the shutdown of the handler.  [meanwhile] is what the
    goroutines started before the wait do until then: [Shutdown] of the registry,
    [disconnectClients] and the ends of the connections. *)
Definition RunWithLifecycle_stop (meanwhile : prog W unit) (ctx : Context) : prog W unit :=
  do* update (set_shuttingDown true) in
  do* meanwhile in
  do* wg_Wait in
  OnHandlerShutdown handler ctx.
End connection.
