(* ===== verification/ServerSpec.v ===== *)
(** * What the SSH server's channels promise

    Theorems about [ServerStore] and [Server]: the session channel the backends
    write to, the requests of a session, the opening of channels. *)

From stdpp Require Import base gmap strings list.
From Stdlib Require Import Strings.Byte.
From S2P Require Import Prelude Messages Metadata Handler Security ServerStore Server.

Local Open Scope Z_scope.

(** [run_server] runs the operations of the store down to its fields. *)
Ltac run_server :=
  cbv beta delta [Lock Unlock Register Unregister wg_Add wg_Done wg_Wait call_ call server update
    set_wrapper onClose set_channel wrapper new_channelWrapper
    prog_bind prog_ret get put modify panic block] in *;
  cbn beta iota in *;
  repeat (rewrite ?fget_fset, ?fset_fset; cbn beta iota).

(** ** The session channel given to a backend *)

Inductive channel_op :=
| OpExitStatus (exitCode : Z)
| OpExitSignal (p : ExitSignalPayload)
| OpCloseWrite
| OpClose
| OpOnClose.

Section channel_wrapper.
Context {W : Type} `{!Field W serverImpl} (lib_error : list event → event → option error).

Definition run_op (c : SessionChannel) (op : channel_op) : prog W unit :=
  match op with
  | OpExitStatus n => channelWrapper_ExitStatus lib_error c n
  | OpExitSignal p => channelWrapper_ExitSignal lib_error c (Signal_ p) (CoreDumped p) (ErrorMessage p) (LanguageTag p)
  | OpCloseWrite => do* CloseWrite lib_error c in prog_ret tt
  | OpClose => do* channelWrapper_Close lib_error c in prog_ret tt
  | OpOnClose => onClose c
  end.

(** The operations before the channel is closed from either side. *)
Fixpoint before_close (ops : list channel_op) : list channel_op :=
  match ops with
  | [] => []
  | OpClose :: _ | OpOnClose :: _ => []
  | op :: ops' => op :: before_close ops'
  end.

Definition op_status (op : channel_op) : option Z := match op with OpExitStatus n => Some n | _ => None end.
Definition op_signal (op : channel_op) : option ExitSignalPayload :=
  match op with OpExitSignal p => Some p | _ => None end.
Definition op_closewrite (op : channel_op) : option unit := match op with OpCloseWrite => Some tt | _ => None end.
Definition op_close (op : channel_op) : option unit := match op with OpClose => Some tt | _ => None end.

Definition ev_status (e : event) : option Z := match e with EExitStatus _ p => Some (ExitStatus p) | _ => None end.
Definition ev_signal (e : event) : option ExitSignalPayload :=
  match e with EExitSignal _ p => Some p | _ => None end.
Definition ev_closewrite (e : event) : option unit := match e with ECloseWrite _ => Some tt | _ => None end.
Definition ev_close (e : event) : option unit := match e with EClose _ => Some tt | _ => None end.

(** What the client gets to see of the operations from a state of the wrapper. *)
Record shown (es ss cl : bool) (ops : list channel_op) (evs : list event) : Prop := {
  shown_status : omap ev_status evs =
    if (es || cl)%bool then [] else take 1 (omap op_status (before_close ops));
  shown_signal : omap ev_signal evs =
    if (ss || cl)%bool then [] else take 1 (omap op_signal (before_close ops));
  shown_closewrite : omap ev_closewrite evs =
    if cl then [] else omap op_closewrite (before_close ops);
  shown_close : omap ev_close evs = omap op_close ops;
}.

Definition on_channel (ch : nat) (e : event) : Prop :=
  match e with
  | EExitStatus c _ | EExitSignal c _ | ECloseWrite c | EClose c => c = ch
  | _ => False
  end.

Lemma wrapper_ops c ch ops : ∀ es ss cl w,
  wrappers (fget w) !! c = Some (MkChannelWrapper (Some ch) es ss false cl) →
  ∃ w' evs, range ops (run_op c) w = Done (tt, w') ∧
    events (fget w') = events (fget w) ++ evs ∧ Forall (on_channel ch) evs ∧
    shown es ss cl ops evs.
Proof.
  induction ops as [|op ops IH]; intros es ss cl w Hw.
  { exists w, []. rewrite app_nil_r. repeat split; by destruct es, ss, cl. }
  cbn [range]. unfold prog_bind at 1.
  assert (∃ w1 ev1 es1 ss1 cl1, run_op c op w = Done (tt, w1) ∧
    wrappers (fget w1) !! c = Some (MkChannelWrapper (Some ch) es1 ss1 false cl1) ∧
    events (fget w1) = events (fget w) ++ ev1 ∧ Forall (on_channel ch) ev1 ∧
    (∀ evs, shown es1 ss1 cl1 ops evs → shown es ss cl (op :: ops) (ev1 ++ evs)))
    as (w1 & ev1 & es1 & ss1 & cl1 & -> & Hw1 & He1 & Hc1 & Hs1).
  { destruct op as [n|p| | |]; cbn [run_op];
      unfold channelWrapper_ExitStatus, channelWrapper_ExitSignal, CloseWrite, channelWrapper_Close;
      run_server; rewrite ?Hw; cbn; destruct es, ss, cl; cbn; run_server;
      (eexists _, _, _, _, _; split; [reflexivity|]; autorewrite with go; cbn;
       rewrite ?list_lookup_alter_eq, ?Hw; cbn;
       split; [reflexivity|];
       split; [first [symmetry; apply app_nil_r | reflexivity]|];
       split; [first [apply Forall_nil_2 | apply Forall_singleton; reflexivity]|]; intros evs []; constructor; rewrite ?omap_app; cbn;
       rewrite ?shown_status0, ?shown_signal0, ?shown_closewrite0, ?shown_close0; cbn; try reflexivity;
       try (by destruct p)). }
  destruct (IH es1 ss1 cl1 w1 Hw1) as (w2 & evs & -> & He & Hc & Hs).
  exists w2, (ev1 ++ evs). rewrite He, He1, app_assoc. split; [done|]. split; [done|].
  split; [by apply Forall_app|auto].
Qed.
End channel_wrapper.

(** ** Well-behaved handlers *)

(** The events that answer the client: replies to requests, and acceptance or
    rejection of a channel. *)
Definition is_answer (e : event) : bool :=
  match e with EReply _ _ _ | EReject _ _ _ | EAccept _ => true | _ => false end.

Definition answers (evs : list event) : list event := filter is_answer evs.

(** What the code of a backend may do to the server while it handles a call: use
    the channels it was given, but not answer the client in the server's place. *)
Record quiet_step (s s' : serverImpl) : Prop := {
  quiet_lock : lock s' = lock s;
  quiet_handlers : shutdownHandlers s' = shutdownHandlers s;
  quiet_connMap : connMap s' = connMap s;
  quiet_events : ∃ evs, events s' = events s ++ evs ∧ answers evs = [];
}.

#[export] Instance quiet_step_preorder : PreOrder quiet_step.
Proof.
  split.
  - intros s. constructor; try done. exists []. by rewrite app_nil_r.
  - intros s1 s2 s3 [?? ? (e1 & E1 & A1)] [?? ? (e2 & E2 & A2)].
    constructor; [congruence..|]. exists (e1 ++ e2). unfold answers in *.
    rewrite E2, E1, app_assoc, filter_app, A1, A2. done.
Qed.

Definition quiet {W} `{!Field W serverImpl} {A} (c : prog W A) : Prop :=
  ∀ w, ∃ a w', c w = Done (a, w') ∧ quiet_step (fget w) (fget w').

(** The obligations of a session handler towards the server. *)
Class QuietSession {W} `{!Field W serverImpl} (h : SessionChannelHandler W) : Prop := {
  qs_call r : quiet (session_call h r);
  qs_unsupported id t p : quiet (OnUnsupportedChannelRequest h id t p);
  qs_failed id t p e : quiet (OnFailedDecodeChannelRequest h id t p e);
  qs_close : quiet (OnClose h);
}.

(** The obligations of a connection handler: a channel handler or a rejection. *)
Class QuietConnection {W} `{!Field W serverImpl} (c : SSHConnectionHandler W) : Prop := {
  qc_unsupported id t p : quiet (OnUnsupportedChannel c id t p);
  qc_session m p cb w : ∃ h r w', OnSessionChannel c m p cb w = Done ((h, r), w') ∧
    quiet_step (fget w) (fget w') ∧
    (r = None → ∃ hs, h = Some hs ∧ QuietSession hs);
  qc_tcp id ca cp oa op w : ∃ f r w', OnTCPForwardChannel c id ca cp oa op w = Done ((f, r), w') ∧
    quiet_step (fget w) (fget w') ∧ (r = None → is_Some f);
  qc_unix id path w : ∃ f r w', OnDirectStreamLocal c id path w = Done ((f, r), w') ∧
    quiet_step (fget w) (fget w') ∧ (r = None → is_Some f);
}.

(** The obligations of a connection handler for global requests. *)
Class QuietGlobal {W} `{!Field W serverImpl} (c : SSHConnectionHandler W) : Prop := {
  qg_unsupported id t p : quiet (OnUnsupportedGlobalRequest c id t p);
  qg_failed id t p e : quiet (OnFailedDecodeGlobalRequest c id t p e);
  qg_tcp a p rev : quiet (OnRequestTCPReverseForward c a p rev);
  qg_cancel_tcp a p : quiet (OnRequestCancelTCPReverseForward c a p);
  qg_unix path rev : quiet (OnRequestStreamLocal c path rev);
  qg_cancel_unix path : quiet (OnRequestCancelStreamLocal c path);
}.

Section sessions.
Context {W : Type} `{!Field W serverImpl}.
Context (lib_error : list event → event → option error) (codec : sshCodec).

(** ** Dispatching a request *)

(** The handler call a channel request stands for, by its type; the number is
    the connection an X11 request may open channels on. *)
Definition request_of (id : Z) (req : Request) : option ((nat → session_request W) + error) :=
  let decoded {P} (r : P * option error) (f : P → nat → session_request W) :=
    match r.2 with Some e => Some (inr e) | None => Some (inl (f r.1)) end in
  let t := Type_ req in
  let data := Payload req in
  if decide (t = "env") then decoded (Unmarshal_Env codec data) (λ p _, ReqEnv id (Name p) (EnvValue p))
  else if decide (t = "pty-req") then
    decoded (Unmarshal_Pty codec data)
      (λ p _, ReqPty id (Term p) (pty_Columns p) (pty_Rows p) (pty_Width p) (pty_Height p) (ModeList p))
  else if decide (t = "shell") then
    if decide (data = []) then Some (inl (λ _, ReqShell id))
    else decoded (Unmarshal_Shell codec data) (λ _ _, ReqShell id)
  else if decide (t = "exec") then decoded (Unmarshal_Exec codec data) (λ p _, ReqExec id (Exec p))
  else if decide (t = "subsystem") then
    decoded (Unmarshal_Subsystem codec data) (λ p _, ReqSubsystem id (Subsystem p))
  else if decide (t = "window-change") then
    decoded (Unmarshal_Window codec data) (λ p _, ReqWindow id (Columns p) (Rows p) (Width p) (Height p))
  else if decide (t = "signal") then decoded (Unmarshal_Signal codec data) (λ p _, ReqSignal id (Signal p))
  else if decide (t = "x11-req") then
    decoded (Unmarshal_X11 codec data)
      (λ p conn, ReqX11 id (SingleConnection p) (Protocol p) (Cookie p) (Screen p)
         (reverse lib_error codec (MkReverseForwardHandler conn false)))
  else None.

Definition connection_of (m : ChannelMetadata) : string :=
  ConnectionID (pending_conn (auth_pending (Connection m))).

(** The answer to a request: what the handler made of it. *)
Definition dispatch (m : ChannelMetadata) (id : Z) (req : Request) (h : SessionChannelHandler W)
  : prog W (bool * string) :=
  match request_of id req with
  | None =>
      do* OnUnsupportedChannelRequest h id (Type_ req) (Payload req) in
      prog_ret (false, "unsupported request type: " ++ Type_ req)%string
  | Some (inr e) =>
      do* OnFailedDecodeChannelRequest h id (Type_ req) (Payload req) (Some e) in
      prog_ret (false, "failed to unmarshal payload")
  | Some (inl r) =>
      let* err := (if decide (Type_ req = "x11-req")
                   then with_connection (connection_of m) (λ conn, session_call h (r conn))
                   else session_call h (r 0%nat)) in
      prog_ret (match err with None => (true, "") | Some e => (false, Error e) end)
  end.

Lemma Sprintf_unsupported t :
  Sprintf "unsupported request type: %s" [VString t] = ("unsupported request type: " ++ t)%string.
Proof.
  transitivity ("unsupported request type: " ++ (t ++ ""))%string; [done|by rewrite string_app_nil].
Qed.

Lemma unmarshalShell_eq req :
  unmarshalShell codec req =
  if decide (Payload req = []) then (MkShellRequest, None) else Unmarshal_Shell codec (Payload req).
Proof. unfold unmarshalShell. destruct (Payload req); by repeat case_decide. Qed.

(** The server's dispatch is this one, followed by the reply. *)
Lemma handleChannelRequest_dispatch m id req h w :
  handleChannelRequest lib_error codec m id req h w
  = prog_bind (λ r, createReply lib_error req r.1 r.2) (dispatch m id req h) w.
Proof.
  unfold handleChannelRequest, dispatch, request_of, connection_of, unmarshalChannelRequestPayload,
    RequestTypeEnv, RequestTypePty, RequestTypeShell, RequestTypeExec, RequestTypeSubsystem,
    RequestTypeWindow, RequestTypeSignal, RequestTypeX11.
  rewrite unmarshalShell_eq.
  repeat case_decide; try congruence; unfold some_payload, unmarshalEnv, unmarshalPty,
    unmarshalExec, unmarshalSubsystem, unmarshalWindow, unmarshalSignal, unmarshalX11;
    repeat (rewrite decide_False by done); repeat (rewrite decide_True by done).
  all: match goal with
       | |- context [?u codec (Payload ?r)] => destruct (u codec (Payload r)) as [p [e|]]
       | _ => idtac
       end; cbn [fst snd].
  all: try (unfold handleDecodedChannelRequest, RequestTypeEnv, RequestTypePty, RequestTypeShell,
    RequestTypeExec, RequestTypeSubsystem, RequestTypeWindow, RequestTypeSignal, RequestTypeX11;
    repeat (rewrite decide_False by done); repeat (rewrite decide_True by done);
    cbn [onEnvRequest onPtyRequest onShell onExec onSubsystem onChannel onSignal onX11 session_call]).
  all: unfold onShell, prog_bind, prog_ret;
       match goal with |- context [match ?c ?w with _ => _ end] => destruct (c w) as [[[] ?]| |] end; try done.
  cbn [fst snd]. by rewrite Sprintf_unsupported.
Qed.
(** ** Running a session *)

(** Under the lock a quiet call stays quiet, and the lock is given back. *)
Lemma with_connection_quiet id (k : nat → prog W (option error)) w :
  (∀ n, quiet (k n)) → lock (fget w) = false →
  ∃ err w', with_connection id k w = Done (err, w') ∧ quiet_step (fget w) (fget w').
Proof.
  intros Hk Hl. unfold with_connection. run_server. rewrite Hl. cbn. run_server. cbn [connMap set_lock].
  destruct (connMap (fget w) !! id) as [conn|].
  - destruct (Hk conn (fset (set_lock true (fget w)) w)) as (err & w' & -> & [Q1 Q2 Q3 Q4]).
    rewrite fget_fset in *. cbn in Q1, Q2, Q3, Q4.
    eexists _, _. split; [done|]. rewrite fget_fset.
    constructor; cbn; [by rewrite Hl|done..].
  - eexists _, _. split; [done|]. rewrite !fget_fset. constructor; cbn; [by rewrite Hl|done..|].
    exists []. by rewrite app_nil_r.
Qed.

Lemma dispatch_quiet `{!QuietSession h} m id req w :
  lock (fget w) = false →
  ∃ r w', dispatch m id req h w = Done (r, w') ∧ quiet_step (fget w) (fget w').
Proof.
  intros Hl. unfold dispatch. destruct (request_of id req) as [[r|e]|].
  - unfold prog_bind. case_decide.
    + destruct (with_connection_quiet (connection_of m) (λ conn, session_call h (r conn)) w)
        as (err & w' & -> & Q); [intros; apply qs_call|done|]. by eexists _, _.
    + destruct (qs_call (r 0%nat) w) as (err & w' & -> & Q). by eexists _, _.
  - unfold prog_bind. destruct (qs_failed id (Type_ req) (Payload req) (Some e) w) as ([] & w' & -> & Q).
    by eexists _, _.
  - unfold prog_bind. destruct (qs_unsupported id (Type_ req) (Payload req) w) as ([] & w' & -> & Q).
    by eexists _, _.
Qed.

(** The store after the reply to a request, if the client wants one. *)
Definition replied (req : Request) (r : bool * string) (w : W) : W :=
  if WantReply req then fset (add_event (EReply req r.1 r.2) (fget w)) w else w.

(** The answers to a list of requests, from one store to another: each is dispatched
    once, in order, under consecutive request IDs, in the store the reply to the one
    before it has left; nothing else happens in between. *)
Inductive served (m : ChannelMetadata) (h : SessionChannelHandler W)
  : Z → list Request → list (bool * string) → W → W → Prop :=
| served_nil id w : served m h id [] [] w w
| served_cons id req reqs r rs w w1 w' :
    dispatch m id req h w = Done (r, w1) →
    served m h (u64 (id + 1)) reqs rs (replied req r w1) w' →
    served m h id (req :: reqs) (r :: rs) w w'.

(** The replies the client gets: one for each request that wants one. *)
Fixpoint replies (reqs : list Request) (rs : list (bool * string)) : list event :=
  match reqs, rs with
  | req :: reqs', (ok, msg) :: rs' =>
      (if WantReply req then [EReply req ok msg] else []) ++ replies reqs' rs'
  | _, _ => []
  end.

Lemma answers_app l1 l2 : answers (l1 ++ l2) = answers l1 ++ answers l2.
Proof. apply filter_app. Qed.

Lemma createReply_run req ok msg (w : W) : ∃ w',
  createReply lib_error req ok msg w = Done (tt, w') ∧ w' = replied req (ok, msg) w ∧
  lock (fget w') = lock (fget w) ∧ shutdownHandlers (fget w') = shutdownHandlers (fget w) ∧
  connMap (fget w') = connMap (fget w) ∧
  events (fget w') = events (fget w) ++ (if WantReply req then [EReply req ok msg] else []).
Proof.
  unfold createReply, replied. destruct (WantReply req); run_server.
  - eexists. split; [done|]. split; [done|]. by rewrite fget_fset.
  - exists w. by rewrite app_nil_r.
Qed.

Lemma session_requests_run `{!QuietSession h} m reqs : ∀ id w,
  lock (fget w) = false →
  ∃ w' rs evs, session_requests lib_error codec m id reqs h w = Done (tt, w') ∧
    served m h id reqs rs w w' ∧ lock (fget w') = false ∧
    shutdownHandlers (fget w') = shutdownHandlers (fget w) ∧
    events (fget w') = events (fget w) ++ evs ∧ answers evs = replies reqs rs.
Proof.
  induction reqs as [|req reqs IH]; intros id w Hl.
  { exists w, [], []. rewrite app_nil_r. repeat split; [constructor|done]. }
  cbn [session_requests]. unfold prog_bind at 1. rewrite handleChannelRequest_dispatch. unfold prog_bind at 1.
  destruct (dispatch_quiet m id req w Hl) as ([ok msg] & w1 & E & [Q1 Q2 Q3 (ev1 & Q4 & A1)]). rewrite E. cbn [fst snd].
  destruct (createReply_run req ok msg w1) as (w2 & -> & Hw2 & R1 & R2 & _ & R4).
  destruct (IH (u64 (id + 1)) w2) as (w3 & rs & evs & -> & S & L & H & Ev & A); [congruence|].
  exists w3, ((ok, msg) :: rs), (ev1 ++ (if WantReply req then [EReply req ok msg] else []) ++ evs).
  split; [done|]. split; [econstructor; [exact E|by rewrite <- Hw2]|]. split; [done|]. split; [congruence|].
  split; [by rewrite Ev, R4, Q4, <-!app_assoc|].
  rewrite !answers_app, A1, A. cbn. f_equal. by destruct (WantReply req).
Qed.
(** ** A session channel from the open request to its close *)

(** The store in which the connection handler is asked for a session. *)
Definition with_wrapper (w : W) : W :=
  fset (set_wrappers (wrappers (fget w) ++ [MkChannelWrapper None false false false false]) (fget w)) w.

Lemma handlers_delete_insert (k : string) (x : shutdownHandler) (m : gmap string shutdownHandler) :
  delete k (<[k := x]> m) = delete k m.
Proof. apply delete_insert_eq. Qed.

(** What the server notes about a channel when it is accepted: the registration for the
    shutdown, the acceptance, and the channel in its wrapper. *)
Definition channel_opened (m : ChannelMetadata) (nc : NewChannel) (c : SessionChannel) (s : serverImpl) : serverImpl :=
  set_wrappers (alter (λ o, MkChannelWrapper (Some (length (events s))) (exitSent o) (exitSignalSent o) (closedWrite o) (closed o)) c (wrappers s))
    (add_event (EAccept nc)
       (set_shutdownHandlers
          (<[channel_key "session" m := SessionShutdown (ConnectionID (pending_conn (auth_pending (Connection m)))) (ChannelID m)]>
             (shutdownHandlers s)) s)).

(** ... and when its requests have ended: the registration is gone and the wrapper is
    closed. *)
Definition channel_ended (m : ChannelMetadata) (c : SessionChannel) (s : serverImpl) : serverImpl :=
  set_wrappers (alter (λ o, MkChannelWrapper (channel o) (exitSent o) (exitSignalSent o) (closedWrite o) true) c (wrappers s))
    (set_shutdownHandlers (delete (channel_key "session" m) (shutdownHandlers s)) s).

(** The part of [handleSessionChannel] after the connection handler's answer. *)
Lemma session_channel_end `{!QuietSession h} m nc reqs conn w w1 :
  OnSessionChannel conn m (ExtraData nc) (length (wrappers (fget w))) (with_wrapper w)
    = Done ((Some h, None), w1) →
  quiet_step (fget w) (fget w1) → lock (fget w) = false →
  ∃ w' evs, handleSessionChannel lib_error codec m nc reqs conn w = Done (tt, w') ∧
    lock (fget w') = false ∧ events (fget w') = events (fget w) ++ evs ∧
    shutdownHandlers (fget w') = delete (channel_key "session" m) (shutdownHandlers (fget w)) ∧
    ((∃ hist, lib_error hist (EAccept nc) ≠ None) ∧ answers evs = [EAccept nc] ∨
     ∃ rs w2, served m h 0 reqs rs (fset (channel_opened m nc (length (wrappers (fget w))) (fget w1)) w1) w2 ∧
       OnClose h (fset (channel_ended m (length (wrappers (fget w))) (fget w2)) w2) = Done (tt, w') ∧
       answers evs = EAccept nc :: replies reqs rs).
Proof.
  intros E [Q1 Q2 Q3 (ev1 & Q4 & A1)] Hl. unfold handleSessionChannel, Accept.
  run_server. fold (with_wrapper w). rewrite E. cbn [from_option id]. run_server.
  cbn [events set_shutdownHandlers].
  destruct (lib_error (events (fget w1)) (EAccept nc)) as [e|] eqn:EA; run_server.
  - eexists _, (ev1 ++ [EAccept nc]). split; [done|]. rewrite fget_fset. cbn.
    split; [by rewrite Q1|]. split; [by rewrite Q4, app_assoc|].
    split; [by rewrite handlers_delete_insert, Q2|]. left. split; [by eexists; rewrite EA|].
    by rewrite answers_app, A1.
  - match goal with |- context [session_requests _ _ _ _ _ _ ?w2] =>
      destruct (session_requests_run m reqs 0 w2) as (w3 & rs & evs & -> & S & L & H & Ev & A) end.
    { rewrite fget_fset. cbn. congruence. }
    rewrite fget_fset in H, Ev. cbn in H, Ev. run_server.
    match goal with |- context [OnClose h ?w4] => destruct (qs_close w4) as ([] & w5 & Ec & [C1 C2 C3 (ev5 & C4 & A5)]) end.
    rewrite Ec.
    rewrite fget_fset in C1, C2, C4. cbn in C1, C2, C4.
    eexists _, (ev1 ++ [EAccept nc] ++ evs ++ ev5). split; [done|]. split; [congruence|].
    split; [by rewrite C4, Ev, Q4, <-!app_assoc|].
    split; [by rewrite C2, H, handlers_delete_insert, Q2|].
    right. exists rs, w3. split; [exact S|]. split; [exact Ec|]. by rewrite !answers_app, A1, A, A5, app_nil_r.
Qed.

Lemma session_channel_rejected m nc reqs conn h r w w1 :
  OnSessionChannel conn m (ExtraData nc) (length (wrappers (fget w))) (with_wrapper w)
    = Done ((h, Some r), w1) →
  quiet_step (fget w) (fget w1) →
  ∃ w' evs, handleSessionChannel lib_error codec m nc reqs conn w = Done (tt, w') ∧
    lock (fget w') = lock (fget w) ∧ events (fget w') = events (fget w) ++ evs ∧
    shutdownHandlers (fget w') = shutdownHandlers (fget w) ∧
    answers evs = [EReject nc (ChannelRejection_Reason r) (ChannelRejection_UserMessage r)].
Proof.
  intros E [Q1 Q2 Q3 (ev1 & Q4 & A1)]. unfold handleSessionChannel.
  run_server. fold (with_wrapper w). rewrite E. run_server.
  eexists _, (ev1 ++ [_]). split; [done|]. rewrite fget_fset. cbn.
  split; [done|]. split; [by rewrite Q4, app_assoc|]. split; [done|]. by rewrite answers_app, A1.
Qed.
(** ** Opening channels *)

Definition is_open (e : event) : bool := match e with EReject _ _ _ | EAccept _ => true | _ => false end.
Definition opens (evs : list event) : list event := filter is_open evs.

Lemma opens_app l1 l2 : opens (l1 ++ l2) = opens l1 ++ opens l2.
Proof. apply filter_app. Qed.

#[local] Arguments opens : simpl never.
#[local] Arguments answers : simpl never.

Lemma opens_cons e l : opens (e :: l) = if is_open e then e :: opens l else opens l.
Proof. unfold opens. rewrite filter_cons. by destruct e. Qed.

Lemma opens_answers evs : opens evs = opens (answers evs).
Proof.
  induction evs as [|e evs IH]; [done|]. unfold opens, answers in *.
  by destruct e; rewrite !filter_cons; cbn; rewrite ?filter_cons, ?IH.
Qed.

Lemma opens_replies reqs rs : opens (replies reqs rs) = [].
Proof.
  revert rs. induction reqs as [|req reqs IH]; intros [|[ok msg] rs]; [done..|].
  cbn. destruct (WantReply req); cbn; apply IH.
Qed.

Lemma refuse_run reqs (w : W) : ∃ w' evs,
  range reqs (λ req, if WantReply req then call_ lib_error (EReply req false "") else prog_ret tt) w
    = Done (tt, w') ∧
  lock (fget w') = lock (fget w) ∧ shutdownHandlers (fget w') = shutdownHandlers (fget w) ∧
  events (fget w') = events (fget w) ++ evs ∧ opens evs = [].
Proof.
  revert w. induction reqs as [|req reqs IH]; intros w.
  { exists w, []. by rewrite app_nil_r. }
  cbn [range]. unfold prog_bind at 1. destruct (WantReply req).
  - destruct (IH (fset (add_event (EReply req false "") (fget w)) w)) as (w' & evs & E & H1 & H2 & H3 & H4).
    run_server. rewrite fget_fset in *. cbn in H1, H2, H3.
    exists w', (EReply req false "" :: evs). rewrite E, H3, <-app_assoc. done.
  - run_server. apply IH.
Qed.

(** What the peer learns about its open request: exactly one answer. *)
Definition answered (nc : NewChannel) (evs : list event) : Prop :=
  opens evs = [EAccept nc] ∨ ∃ reason msg, opens evs = [EReject nc reason msg].

Lemma serve_forward_run m nc reqs f r w :
  (r = None → is_Some f) →
  ∃ w' evs, serve_forward lib_error m nc reqs (f, r) w = Done (tt, w') ∧
    lock (fget w') = lock (fget w) ∧ events (fget w') = events (fget w) ++ evs ∧ answered nc evs.
Proof.
  intros Hf. destruct r as [r|]; unfold serve_forward, Accept; run_server.
  { eexists _, [_]. split; [done|]. rewrite fget_fset. cbn. repeat split. right. by eexists _, _. }
  cbn [events set_shutdownHandlers].
  destruct (lib_error (events (fget w)) (EAccept nc)) as [e|]; run_server.
  { eexists _, [_]. split; [done|]. rewrite fget_fset. cbn. repeat split. by left. }
  destruct (Hf eq_refl) as [fc ->]. run_server.
  match goal with |- context [range reqs _ ?w2] =>
    destruct (refuse_run reqs w2) as (w3 & evs & E & L & _ & Ev & A) end.
  rewrite fget_fset in L, Ev. cbn in L, Ev. run_server. rewrite E. run_server.
  eexists _, ([EAccept nc; ECopy fc _; ECopy _ fc] ++ evs ++ [EForwardClose fc]).
  split; [done|]. rewrite fget_fset. cbn. split; [done|].
  split; [by rewrite Ev, <-!app_assoc|]. left. by rewrite !opens_cons; cbn; rewrite opens_app, A.
Qed.

(** A forwarding channel whose payload cannot be decoded. *)
Definition undecodable (nc : NewChannel) : Prop :=
  (ChannelType nc = ChannelTypeDirectTCPIP ∧ (Unmarshal_TCPChannelOpen codec (ExtraData nc)).2 ≠ None) ∨
  (ChannelType nc = ChannelTypeDirectStreamLocal ∧ (Unmarshal_DirectStreamLocal codec (ExtraData nc)).2 ≠ None).

(** The store after a channel ID has been handed out. *)
Definition next_channel (w : W) : W :=
  fset (set_nextChannelID (u64 (nextChannelID (fget w) + 1)) (set_lock false (fget w))) w.

Lemma handleChannel_run `{!QuietConnection conn} md nc w :
  lock (fget w) = false →
  ∃ ts w1 evs, handleChannel lib_error md nc conn w = Done (ts, w1) ∧
    lock (fget w1) = false ∧ events (fget w1) = events (fget w) ++ evs ∧
    let m := Channel md (nextChannelID (fget w)) in
    (ts = [TaskSession m nc] ∧ ChannelType nc = ChannelTypeSession ∧ evs = [] ∨
     ts = [TaskDirectTCPIP m nc] ∧ ChannelType nc = ChannelTypeDirectTCPIP ∧ evs = [] ∨
     ts = [TaskDirectStreamLocal m nc] ∧ ChannelType nc = ChannelTypeDirectStreamLocal ∧ evs = [] ∨
     ts = [] ∧ ChannelType nc ∉ [ChannelTypeSession; ChannelTypeDirectTCPIP; ChannelTypeDirectStreamLocal] ∧
       opens evs = [EReject nc UnknownChannelType "unsupported channel type"]).
Proof.
  intros Hl. unfold handleChannel. run_server. rewrite Hl. run_server. cbn [nextChannelID set_lock].
  repeat case_decide; cbn.
  1,2,3: eexists _, _, []; rewrite app_nil_r; (split; [done|]); rewrite fget_fset;
    (split; [done|]); (split; [done|]); naive_solver.
  match goal with |- context [OnUnsupportedChannel conn ?i ?t ?p ?w2] =>
    destruct (qc_unsupported (c:=conn) i t p w2) as ([] & w3 & -> & [Q1 _ _ (ev & Q4 & A)]) end.
  rewrite fget_fset in Q1, Q4. cbn in Q1, Q4. run_server.
  eexists _, _, (ev ++ [_]). split; [done|]. rewrite fget_fset. cbn.
  split; [done|]. split; [by rewrite Q4, app_assoc|]. do 3 right. split; [done|]. split.
  - rewrite !elem_of_cons, elem_of_nil. naive_solver.
  - by rewrite opens_app, (opens_answers ev), A.
Qed.

(** One accepted or rejected channel, by the task that serves it. *)
Lemma run_task_answered `{!QuietConnection conn} reqs t w :
  lock (fget w) = false →
  let nc := match t with TaskSession _ nc | TaskDirectTCPIP _ nc | TaskDirectStreamLocal _ nc => nc end in
  let bad := match t with
             | TaskSession _ _ => None
             | TaskDirectTCPIP _ nc => (Unmarshal_TCPChannelOpen codec (ExtraData nc)).2
             | TaskDirectStreamLocal _ nc => (Unmarshal_DirectStreamLocal codec (ExtraData nc)).2
             end in
  ∃ w' evs, run_task lib_error codec reqs conn t w = Done (tt, w') ∧
    lock (fget w') = false ∧ events (fget w') = events (fget w) ++ evs ∧
    match bad with Some _ => evs = [] | None => answered nc evs end.
Proof.
  intros Hl. destruct t as [m nc|m nc|m nc]; cbn beta iota zeta delta [run_task].
  - destruct (qc_session (c:=conn) m (ExtraData nc) (length (wrappers (fget w))) (with_wrapper w))
      as (h & r & w1 & E & Q & Hh).
    assert (quiet_step (fget w) (fget w1)) as Q'.
    { etrans; [|exact Q]. unfold with_wrapper. rewrite fget_fset. constructor; [done..|].
      exists []. by rewrite app_nil_r. }
    destruct r as [r|].
    + destruct (session_channel_rejected m nc reqs conn h r w w1 E Q') as (w' & evs & -> & L & Ev & _ & A).
      exists w', evs. split; [done|]. split; [congruence|]. split; [done|]. right.
      rewrite opens_answers, A. by eexists _, _.
    + destruct (Hh eq_refl) as (hs & -> & Hq).
      destruct (session_channel_end m nc reqs conn w w1 E Q' Hl) as (w' & evs & -> & L & Ev & _ & D).
      exists w', evs. do 3 (split; [done|]). left. rewrite opens_answers.
      destruct D as [[_ ->]|(rs & _ & _ & _ & ->)]; [done|]. by rewrite opens_cons; cbn; rewrite opens_replies.
  - unfold handleDirectForwardingChannel.
    destruct (Unmarshal_TCPChannelOpen codec (ExtraData nc)) as [p [e|]]; cbn [fst snd].
    { exists w, []. by rewrite app_nil_r. }
    unfold prog_bind.
    destruct (qc_tcp (c:=conn) (ChannelID m) (ConnectedAddress p) (ConnectedPort p) (OriginatorAddress p)
      (OriginatorPort p) w) as (f & r & w1 & -> & [Q1 _ _ (ev & Q4 & A)] & Hf).
    destruct (serve_forward_run m nc reqs f r w1 Hf) as (w' & evs & -> & L & Ev & Ha).
    exists w', (ev ++ evs). split; [done|]. split; [congruence|].
    split; [by rewrite Ev, Q4, app_assoc|]. unfold answered. by rewrite opens_app, (opens_answers ev), A.
  - unfold handleDirectStreamLocalChannel.
    destruct (Unmarshal_DirectStreamLocal codec (ExtraData nc)) as [p [e|]]; cbn [fst snd].
    { exists w, []. by rewrite app_nil_r. }
    unfold prog_bind.
    destruct (qc_unix (c:=conn) (ChannelID m) (ds_SocketPath p) w) as (f & r & w1 & -> & [Q1 _ _ (ev & Q4 & A)] & Hf).
    destruct (serve_forward_run m nc reqs f r w1 Hf) as (w' & evs & -> & L & Ev & Ha).
    exists w', (ev ++ evs). split; [done|]. split; [congruence|].
    split; [by rewrite Ev, Q4, app_assoc|]. unfold answered. by rewrite opens_app, (opens_answers ev), A.
Qed.
(** ** Global requests *)

Inductive global_request :=
| GlobalForward (address : string) (port : Z)
| GlobalCancel (address : string) (port : Z)
| GlobalSocket (path : string)
| GlobalCancelSocket (path : string).

(** The handler call a global request stands for, by its type. *)
Definition global_of (req : Request) : option (global_request + error) :=
  let tcp f :=
    let '(p, e) := Unmarshal_TCPIPForward codec (Payload req) in
    match e with Some e => Some (inr e) | None => Some (inl (f (Address p) (FwdPort p))) end in
  let unix f :=
    let '(p, e) := Unmarshal_StreamLocalForward codec (Payload req) in
    match e with Some e => Some (inr e) | None => Some (inl (f (SocketPath p))) end in
  let t := Type_ req in
  if decide (t = "tcpip-forward") then tcp GlobalForward
  else if decide (t = "cancel-tcpip-forward") then tcp GlobalCancel
  else if decide (t = "streamlocal-forward@openssh.com") then unix GlobalSocket
  else if decide (t = "cancel-streamlocal-forward@openssh.com") then unix GlobalCancelSocket
  else None.

(** New forwards are made with the server locked. *)
Definition global_call (md : ConnectionAuthenticatedMetadata) (c : SSHConnectionHandler W) (r : global_request)
  : prog W (option error) :=
  let locked := with_connection (ConnectionID (pending_conn (auth_pending md))) in
  match r with
  | GlobalForward a p => locked (λ conn, OnRequestTCPReverseForward c a p
                                           (reverse lib_error codec (MkReverseForwardHandler conn true)))
  | GlobalCancel a p => OnRequestCancelTCPReverseForward c a p
  | GlobalSocket path => locked (λ conn, OnRequestStreamLocal c path
                                           (reverse lib_error codec (MkReverseForwardHandler conn true)))
  | GlobalCancelSocket path => OnRequestCancelStreamLocal c path
  end.

(** The answer to a global request; a keep-alive is answered without a call. *)
Definition global_dispatch (md : ConnectionAuthenticatedMetadata) (id : Z) (req : Request)
    (c : SSHConnectionHandler W) : prog W (bool * string) :=
  if decide (Type_ req = "keepalive@openssh.com") then prog_ret (false, "")
  else
    match global_of req with
    | None =>
        do* OnUnsupportedGlobalRequest c id (Type_ req) (Payload req) in
        prog_ret (false, "unsupported global request type: " ++ Type_ req)%string
    | Some (inr e) =>
        do* OnFailedDecodeGlobalRequest c id (Type_ req) (Payload req) (Some e) in
        prog_ret (false, "failed to unmarshal payload")
    | Some (inl r) =>
        let* err := global_call md c r in
        prog_ret (match err with None => (true, "") | Some e => (false, Error e) end)
    end.

Lemma Sprintf_unsupported_global t :
  Sprintf "unsupported global request type: %s" [VString t] = ("unsupported global request type: " ++ t)%string.
Proof.
  transitivity ("unsupported global request type: " ++ (t ++ ""))%string; [done|by rewrite string_app_nil].
Qed.

(** One turn of the loop of [handleGlobalRequests], after the ID was taken. *)
Lemma handleGlobalRequest_dispatch md id req c (w : W) :
  (if decide (Type_ req = "keepalive@openssh.com") then handleKeepAliveRequest lib_error req
   else handleGlobalRequest lib_error codec md id c req) w
  = prog_bind (λ r, createReply lib_error req r.1 r.2) (global_dispatch md id req c) w.
Proof.
  unfold global_dispatch. case_decide as Hk; [done|].
  unfold handleGlobalRequest, global_of, unmarshalGlobalRequestPayload, RequestTypeReverseForward,
    RequestTypeCancelReverseForward, RequestTypeStreamLocalForward, RequestTypeCancelStreamLocalForward.
  repeat case_decide; try congruence; unfold some_payload, unmarshalTCPIPForward, unmarshalStreamLocalForward.
  all: match goal with
       | |- context [?u codec (Payload ?r)] => destruct (u codec (Payload r)) as [p [e|]]
       | _ => idtac
       end; cbn [fst snd].
  all: try (unfold handleDecodedGlobalRequest, RequestTypeReverseForward, RequestTypeCancelReverseForward,
      RequestTypeStreamLocalForward, RequestTypeCancelStreamLocalForward;
    repeat (rewrite decide_False by done); repeat (rewrite decide_True by done);
    unfold onForwardTCPIP, onCancelForward, onForwardStreamLocal, onCancelForwardStreamLocal, global_call).
  all: unfold prog_bind, prog_ret;
       match goal with |- context [match ?c ?w with _ => _ end] => destruct (c w) as [[[] ?]| |] end; try done.
  cbn [fst snd]. by rewrite Sprintf_unsupported_global.
Qed.

Lemma global_dispatch_quiet `{!QuietGlobal c} md id req w :
  lock (fget w) = false →
  ∃ r w', global_dispatch md id req c w = Done (r, w') ∧ quiet_step (fget w) (fget w').
Proof.
  intros Hl. unfold global_dispatch. case_decide; [by eexists _, w|]. unfold prog_bind.
  destruct (global_of req) as [[r|e]|].
  - assert (∃ err w', global_call md c r w = Done (err, w') ∧ quiet_step (fget w) (fget w'))
      as (err & w' & -> & Q); [|by eexists _, _].
    destruct r; [apply with_connection_quiet; [intros; apply qg_tcp|done] | apply qg_cancel_tcp
                |apply with_connection_quiet; [intros; apply qg_unix|done] | apply qg_cancel_unix].
  - destruct (qg_failed (c:=c) id (Type_ req) (Payload req) (Some e) w) as ([] & w' & -> & Q). by eexists _, _.
  - destruct (qg_unsupported (c:=c) id (Type_ req) (Payload req) w) as ([] & w' & -> & Q). by eexists _, _.
Qed.

(** The store after an ID for a global request has been handed out. *)
Definition next_global (w : W) : W := fset (set_nextGlobalRequestID (u64 (nextGlobalRequestID (fget w) + 1)) (fget w)) w.

(** The answers to a list of global requests, from one store to another: each is
    dispatched once, in order, under the number of the server's counter, in the store
    the reply to the one before it has left and with the counter raised by one; nothing
    else happens in between. *)
Inductive globally_served (md : ConnectionAuthenticatedMetadata) (c : SSHConnectionHandler W)
  : list Request → list (bool * string) → W → W → Prop :=
| globally_served_nil w : globally_served md c [] [] w w
| globally_served_cons req reqs r rs w w1 w' :
    global_dispatch md (nextGlobalRequestID (fget w)) req c (next_global w) = Done (r, w1) →
    globally_served md c reqs rs (replied req r w1) w' →
    globally_served md c (req :: reqs) (r :: rs) w w'.

Lemma handleGlobalRequests_run `{!QuietGlobal c} md reqs : ∀ w,
  lock (fget w) = false →
  ∃ w' rs evs, handleGlobalRequests lib_error codec md reqs c w = Done (tt, w') ∧
    globally_served md c reqs rs w w' ∧ lock (fget w') = false ∧
    shutdownHandlers (fget w') = shutdownHandlers (fget w) ∧
    events (fget w') = events (fget w) ++ evs ∧ answers evs = replies reqs rs.
Proof.
  unfold handleGlobalRequests.
  induction reqs as [|req reqs IH]; intros w Hl.
  { exists w, [], []. rewrite app_nil_r. repeat split; [constructor|done]. }
  set (w0 := next_global w).
  cbn [range]. unfold prog_bind at 1.
  match goal with |- context [match ?t with Done _ => _ | Panic s => Panic s | Blocked s => Blocked s end] =>
    replace t with (prog_bind (λ r, createReply lib_error req r.1 r.2)
      (global_dispatch md (nextGlobalRequestID (fget w)) req c) w0)
      by (symmetry; apply (handleGlobalRequest_dispatch md (nextGlobalRequestID (fget w)) req c w0)) end.
  unfold prog_bind at 1.
  assert (fget w0 = set_nextGlobalRequestID (u64 (nextGlobalRequestID (fget w) + 1)) (fget w)) as F0
    by apply fget_fset.
  destruct (global_dispatch_quiet (c:=c) md (nextGlobalRequestID (fget w)) req w0) as ([ok msg] & w1 & E & [Q1 Q2 Q3 (ev1 & Q4 & A1)]);
    [by rewrite F0|]. rewrite F0 in Q1, Q2, Q4. cbn in Q1, Q2, Q4. rewrite E. cbn [fst snd].
  destruct (createReply_run req ok msg w1) as (w2 & -> & Hw2 & R1 & R2 & _ & R4).
  destruct (IH w2) as (w3 & rs & evs & E3 & S & L & H & Ev & A); [congruence|].
  exists w3, ((ok, msg) :: rs), (ev1 ++ (if WantReply req then [EReply req ok msg] else []) ++ evs).
  split; [exact E3|]. split; [econstructor; [exact E|by rewrite <- Hw2]|]. split; [done|]. split; [congruence|].
  split; [by rewrite Ev, R4, Q4, <-!app_assoc|].
  rewrite !answers_app, A1, A. cbn. f_equal. by destruct (WantReply req).
Qed.
End sessions.

(** ** Theorems *)

(** What the client sees of the calls a backend makes on its session channel:
    at most one exit status, the first one reported before the channel was
    closed, at most one exit signal likewise, nothing of either after the close,
    and every close.  Before the channel is open every one of these calls
    panics. *)
Theorem exit_notifications {W} `{!Field W serverImpl} (lib_error : list event → event → option error)
    (c : SessionChannel) (ch : nat) (ops : list channel_op) (w : W)
    (Hopen : wrappers (fget w) !! c = Some (MkChannelWrapper (Some ch) false false false false)) :
  (∃ w' evs, range ops (run_op lib_error c) w = Done (tt, w') ∧
    events (fget w') = events (fget w) ++ evs ∧ Forall (on_channel ch) evs ∧
    omap ev_status evs = take 1 (omap op_status (before_close ops)) ∧
    omap ev_signal evs = take 1 (omap op_signal (before_close ops)) ∧
    omap ev_closewrite evs = omap op_closewrite (before_close ops) ∧
    omap ev_close evs = omap op_close ops) ∧
  (∀ w0 op, wrappers (fget w0) !! c = Some (MkChannelWrapper None false false false false) →
    op ≠ OpOnClose → ∃ why, run_op (W:=W) lib_error c op w0 = Panic why).
Proof.
  split.
  - destruct (wrapper_ops lib_error c ch ops false false false w Hopen) as (w' & evs & E & He & Hc & [H1 H2 H3 H4]).
    by exists w', evs.
  - intros w0 op Hw Hop.
    destruct op as [n|p| | |]; try done; cbn [run_op];
      unfold channelWrapper_ExitStatus, channelWrapper_ExitSignal, CloseWrite, channelWrapper_Close;
      run_server; rewrite Hw; by eexists.
Qed.

(** Claim C10. A session channel the connection handler accepts is served to its end: the
    channel is accepted; from the store that leaves, every request is dispatched once,
    in order, under the request IDs 0, 1, 2, ..., to the handler method of its type
    with the decoded arguments, each in the very store the reply to the one before it
    has left; then the channel is taken off the shutdown registry, its wrapper is
    closed and [OnClose] of the handler is called, once, and its store is the last.
    Every request that wants a reply gets exactly one, in order, positive exactly when
    that method returned no error, and the others get none; the server is unlocked at
    the end. *)
Theorem session_channel_served {W} `{!Field W serverImpl} (lib_error : list event → event → option error)
    (codec : sshCodec) (conn : SSHConnectionHandler W) (h : SessionChannelHandler W)
    (m : ChannelMetadata) (nc : NewChannel) (reqs : list Request) (w w1 : W)
    (Hh : QuietSession h)
    (Hsession : OnSessionChannel conn m (ExtraData nc) (length (wrappers (fget w))) (with_wrapper w)
                  = Done ((Some h, None), w1))
    (Hquiet : quiet_step (fget w) (fget w1))
    (Hlock : lock (fget w) = false)
    (Haccept : ∀ hist, lib_error hist (EAccept nc) = None) :
  let c := length (wrappers (fget w)) in
  ∃ w' w2 evs rs, handleSessionChannel lib_error codec m nc reqs conn w = Done (tt, w') ∧
    served lib_error codec m h 0 reqs rs (fset (channel_opened m nc c (fget w1)) w1) w2 ∧
    OnClose h (fset (channel_ended m c (fget w2)) w2) = Done (tt, w') ∧
    events (fget w') = events (fget w) ++ evs ∧
    answers evs = EAccept nc :: replies reqs rs ∧
    lock (fget w') = false ∧
    shutdownHandlers (fget w') = delete (channel_key "session" m) (shutdownHandlers (fget w)).
Proof.
  destruct (session_channel_end lib_error codec m nc reqs conn w w1 Hsession Hquiet Hlock)
    as (w' & evs & E & L & Ev & Hs & [[(hist & Hc) _]|(rs & w2 & S & Hc & A)]); [by rewrite Haccept in Hc|].
  by exists w', w2, evs, rs.
Qed.

(** Every channel a client opens is answered exactly once, accepted or rejected,
    whatever its type, except a forwarding channel whose payload cannot be
    decoded: that one is neither accepted nor rejected, and its client waits
    forever. *)
Theorem channel_open_answered {W} `{!Field W serverImpl} (lib_error : list event → event → option error)
    (codec : sshCodec) (conn : SSHConnectionHandler W) (md : ConnectionAuthenticatedMetadata)
    (nc : NewChannel) (reqs : list Request) (w : W)
    (Hconn : QuietConnection conn) (Hlock : lock (fget w) = false) :
  ∃ ts w1 w2 evs,
    handleChannel lib_error md nc conn w = Done (ts, w1) ∧
    range ts (run_task lib_error codec reqs conn) w1 = Done (tt, w2) ∧
    events (fget w2) = events (fget w) ++ evs ∧
    (undecodable codec nc → evs = []) ∧
    (¬ undecodable codec nc → answered nc evs).
Proof.
  destruct (handleChannel_run lib_error md nc w Hlock) as (ts & w1 & ev1 & E & L & Ev & D). cbn in D.
  destruct D as [(-> & T & ->)|[(-> & T & ->)|[(-> & T & ->)|(-> & T & A)]]];
    [ destruct (run_task_answered lib_error codec reqs (TaskSession (Channel md (nextChannelID (fget w))) nc) w1 L)
        as (w2 & evs & E2 & _ & Ev2 & B)
    | destruct (run_task_answered lib_error codec reqs (TaskDirectTCPIP (Channel md (nextChannelID (fget w))) nc) w1 L)
        as (w2 & evs & E2 & _ & Ev2 & B)
    | destruct (run_task_answered lib_error codec reqs (TaskDirectStreamLocal (Channel md (nextChannelID (fget w))) nc) w1 L)
        as (w2 & evs & E2 & _ & Ev2 & B)
    | ].
  4: { exists [], w1, w1, ev1. do 3 (split; [done|]). split.
       - intros [[HT _]|[HT _]]; exfalso; apply T; rewrite HT; set_solver.
       - intros _. right. by eexists _, _. }
  all: eexists _, w1, w2, evs; split; [done|];
    split; [cbn [range]; unfold prog_bind; by rewrite E2|];
    split; [by rewrite Ev2, Ev, app_nil_r|]; unfold undecodable; rewrite T; cbn in B.
  - split; [by intros [[? _]|[? _]]|done].
  - destruct (Unmarshal_TCPChannelOpen codec (ExtraData nc)).2; naive_solver.
  - destruct (Unmarshal_DirectStreamLocal codec (ExtraData nc)).2; naive_solver.
Qed.

(** Claim C37. The global requests of a connection (port and socket forwards, their
    cancellation, keep-alives) are all served: from the first store to the last, each
    is dispatched once, in order, under the next request ID, to the connection
    handler's method for its type with the decoded arguments, in the very store the
    reply to the one before it has left; each that wants a reply gets exactly one, in
    order, positive exactly when that method returned no error (a keep-alive
    never is), and the others get none.  The server is unlocked at the end. *)
Theorem global_requests_served {W} `{!Field W serverImpl} (lib_error : list event → event → option error)
    (codec : sshCodec) (c : SSHConnectionHandler W) (md : ConnectionAuthenticatedMetadata)
    (reqs : list Request) (w : W) (Hc : QuietGlobal c) (Hlock : lock (fget w) = false) :
  ∃ w' rs evs, handleGlobalRequests lib_error codec md reqs c w = Done (tt, w') ∧
    globally_served lib_error codec md c reqs rs w w' ∧
    events (fget w') = events (fget w) ++ evs ∧ answers evs = replies reqs rs ∧
    lock (fget w') = false ∧ shutdownHandlers (fget w') = shutdownHandlers (fget w).
Proof.
  destruct (handleGlobalRequests_run lib_error codec md reqs w Hlock) as (w' & rs & evs & E & S & L & H & Ev & A).
  by exists w', rs, evs.
Qed.

(** ** Channels opened by a backend *)

(** The store while a backend is called under the lock. *)
Definition locked {W} `{!Field W serverImpl} (w : W) : W := fset (set_lock true (fget w)) w.

(** An X11 request hands the session handler an object for opening channels
    whose [server] field was never set: whatever the backend does with it, and
    whenever, opening an X11 channel panics. *)
Theorem x11_channels_panic {W} `{!Field W serverImpl} (lib_error : list event → event → option error)
    (codec : sshCodec) (h : SessionChannelHandler W) (m : ChannelMetadata) (id : Z) (req : Request)
    (p : X11RequestPayload) (conn : nat) (w : W)
    (Htype : Type_ req = RequestTypeX11)
    (Hdecode : Unmarshal_X11 codec (Payload req) = (p, None))
    (Hlock : lock (fget w) = false)
    (Hconn : connMap (fget w) !! connection_of m = Some conn) :
  ∃ rev,
    (∀ why, OnX11Request h id (SingleConnection p) (Protocol p) (Cookie p) (Screen p) rev (locked w) = Panic why →
       handleChannelRequest lib_error codec m id req h w = Panic why) ∧
    (∀ w', OnX11Request h id (SingleConnection p) (Protocol p) (Cookie p) (Screen p) rev (locked w) = Done (None, w') →
       ∃ w2, handleChannelRequest lib_error codec m id req h w = Done (tt, w2)) ∧
    (∀ originatorAddress originatorPort w', NewChannelX11 rev originatorAddress originatorPort w' = Panic nil_pointer).
Proof.
  exists (reverse lib_error codec (MkReverseForwardHandler conn false)).
  assert (∀ r, OnX11Request h id (SingleConnection p) (Protocol p) (Cookie p) (Screen p)
      (reverse lib_error codec (MkReverseForwardHandler conn false)) (locked w) = r →
    dispatch lib_error codec m id req h w =
    match r with
    | Done (err, w') => Done (match err with None => (true, "") | Some e => (false, Error e) end,
                              fset (set_lock false (fget w')) w')
    | Panic s => Panic s
    | Blocked s => Blocked s
    end) as Hd.
  { intros r <-. unfold dispatch, request_of. rewrite Htype, Hdecode. cbn [decide snd fst].
    repeat (rewrite decide_False by done). repeat (rewrite decide_True by done). cbn [snd fst session_call].
    unfold with_connection. run_server. rewrite Hlock. run_server. cbn [connMap set_lock]. rewrite Hconn.
    unfold locked. by destruct (OnX11Request _ _ _ _ _ _ _ _) as [[]| |]. }
  split; [|split].
  - intros why E. rewrite handleChannelRequest_dispatch. unfold prog_bind. by rewrite (Hd _ E).
  - intros w' E. rewrite handleChannelRequest_dispatch. unfold prog_bind. rewrite (Hd _ E). cbn [fst snd].
    edestruct (createReply_run lib_error req true "") as (w2 & -> & _). by exists w2.
  - done.
Qed.

(** A backend that opens a channel to the client before it has returned from a
    request to forward a port never returns: the server's lock, which opening
    the channel needs, is held during the call. *)
Theorem forward_under_lock_blocks {W} `{!Field W serverImpl} (lib_error : list event → event → option error)
    (codec : sshCodec) (connection : SSHConnectionHandler W) (md : ConnectionAuthenticatedMetadata)
    (p : ForwardTCPIPRequestPayload) (conn : nat) (w : W) ca cp oa op k
    (Hlock : lock (fget w) = false)
    (Hconn : connMap (fget w) !! ConnectionID (pending_conn (auth_pending md)) = Some conn)
    (Hsync : ∀ rev, OnRequestTCPReverseForward connection (Address p) (FwdPort p) rev
                    = prog_bind k (NewChannelTCP rev ca cp oa op)) :
  onForwardTCPIP lib_error codec md (PTCPIPForward p) connection w = Blocked "serverImpl.lock".
Proof.
  unfold onForwardTCPIP, with_connection. run_server. rewrite Hlock. run_server. cbn [connMap set_lock].
  rewrite Hconn, Hsync. cbn [reverse reverseForward NewChannelTCP]. unfold reverse_NewChannelTCP, openChannel.
  cbn [rf_server]. run_server. done.
Qed.

(** ** Instances *)

Definition demo_lib : list event → event → option error := λ _ _, None.

(** A decoder in which a payload is text and the empty one is malformed. *)
Definition text_codec {P} (f : string → P) (data : list byte) : P * option error :=
  (f (String.string_of_list_byte data),
   match data with [] => Some (ErrorString "ssh: short read") | _ => None end).

Definition demo_codec : sshCodec :=
  {| Unmarshal_Env := text_codec (λ s, MkEnvRequest s "");
     Unmarshal_Pty := text_codec (λ s, MkPtyRequest s 80 25 0 0 []);
     Unmarshal_Shell := text_codec (λ _, MkShellRequest);
     Unmarshal_Exec := text_codec MkExecRequest;
     Unmarshal_Subsystem := text_codec MkSubsystemRequest;
     Unmarshal_Window := text_codec (λ _, MkWindowRequest 80 25 0 0);
     Unmarshal_Signal := text_codec MkSignalRequest;
     Unmarshal_X11 := text_codec (λ s, MkX11Request false s "cookie" 0);
     Unmarshal_TCPIPForward := text_codec (λ s, MkForwardTCPIP s 8080);
     Unmarshal_StreamLocalForward := text_codec MkStreamLocalForward;
     Unmarshal_TCPChannelOpen := text_codec (λ s, MkForwardTCPChannelOpen s 80 "127.0.0.1" 4000);
     Unmarshal_DirectStreamLocal := text_codec (λ s, MkDirectStreamLocal s "" 0);
     Marshal_TCPChannelOpen := λ _ _ _ _, [];
     Marshal_ForwardedStreamLocal := λ _ _, [];
     Marshal_X11ChanOpen := λ _ _, [] |}.

(** A backend that runs every program but "false". *)
Definition demo_session : SessionChannelHandler serverImpl :=
  {| OnUnsupportedChannelRequest := λ _ _ _, prog_ret tt;
     OnFailedDecodeChannelRequest := λ _ _ _ _, prog_ret tt;
     OnEnvRequest := λ _ _ _, prog_ret None;
     OnPtyRequest := λ _ _ _ _ _ _ _, prog_ret None;
     OnX11Request := λ _ _ _ _ _ _, prog_ret None;
     OnExecRequest := λ _ p, prog_ret (if decide (p = "false") then Some (ErrorString "cannot run") else None);
     OnShell := λ _, prog_ret None;
     OnSubsystem := λ _ _, prog_ret None;
     OnSignal := λ _ _, prog_ret None;
     OnWindow := λ _ _ _ _ _, prog_ret None;
     OnClose := prog_ret tt;
     OnShutdown := λ _, prog_ret tt |}.

Definition demo_connection : SSHConnectionHandler serverImpl :=
  {| OnUnsupportedGlobalRequest := λ _ _ _, prog_ret tt;
     OnFailedDecodeGlobalRequest := λ _ _ _ _, prog_ret tt;
     OnUnsupportedChannel := λ _ _ _, prog_ret tt;
     OnSessionChannel := λ _ _ _, prog_ret (Some demo_session, None);
     OnTCPForwardChannel := λ _ _ _ _ _, prog_ret (Some 7%nat, None);
     OnRequestTCPReverseForward := λ _ _ rev,
       let* _ := NewChannelTCP rev "10.0.0.1" 80 "10.0.0.2" 4000 in prog_ret None;
     OnRequestCancelTCPReverseForward := λ _ _, prog_ret None;
     OnDirectStreamLocal := λ _ _, prog_ret (Some 8%nat, None);
     OnRequestStreamLocal := λ _ _, prog_ret None;
     OnRequestCancelStreamLocal := λ _, prog_ret None;
     OnConnShutdown := λ _, prog_ret tt |}.

Lemma quiet_ret {A} (a : A) : quiet (W:=serverImpl) (prog_ret a).
Proof. intros w. by exists a, w. Qed.

#[export] Instance demo_session_quiet : QuietSession demo_session.
Proof. split; intros; try apply quiet_ret. destruct r; apply quiet_ret. Qed.

#[export] Instance demo_connection_quiet : QuietConnection demo_connection.
Proof.
  split; intros; try apply quiet_ret; cbn; eexists _, _, _;
    (split; [reflexivity|split; [reflexivity|]]); intros _; eauto using demo_session_quiet.
Qed.

Definition demo_md : ConnectionAuthenticatedMetadata :=
  MkAuthenticated (MkAuthPending (MkConnectionMetadata (MkRemoteAddress [] 22) "c1" None None None) "SSH-2.0-x" "alice") "alice".

Definition demo_bytes (s : string) : list byte := String.list_byte_of_string s.

Definition demo_requests : list Request :=
  [MkRequest "env" false (demo_bytes "LANG"); MkRequest "exec" true (demo_bytes "true");
   MkRequest "exec" true (demo_bytes "false"); MkRequest "auth-agent-req@openssh.com" true [];
   MkRequest "signal" true []].

Definition demo_channel (t p : string) : NewChannel := MkNewChannel 1 t (demo_bytes p).

Definition demo_server : serverImpl := set_clients {[3%nat]} {[ "c1" := 3%nat ]} New.

Example demo_session_answers :
  match handleSessionChannel demo_lib demo_codec (Channel demo_md 0) (demo_channel "session" "") demo_requests
          demo_connection demo_server with
  | Done (_, s) =>
      answers (events s) =
      [EAccept (demo_channel "session" "");
       EReply (MkRequest "exec" true (demo_bytes "true")) true "";
       EReply (MkRequest "exec" true (demo_bytes "false")) false "cannot run";
       EReply (MkRequest "auth-agent-req@openssh.com" true []) false
         "unsupported request type: auth-agent-req@openssh.com";
       EReply (MkRequest "signal" true []) false "failed to unmarshal payload"]
  | _ => False
  end.
Proof. vm_compute. reflexivity. Qed.

Lemma exit_notifications_witness :
  ∃ w' evs,
    range [OpExitStatus 3; OpExitStatus 0; OpClose; OpExitSignal (MkExitSignal "TERM" false "" "")]
      (run_op demo_lib 0%nat) (set_wrappers [MkChannelWrapper (Some 5%nat) false false false false] New)
      = Done (tt, w') ∧
    events w' = [] ++ evs ∧ omap ev_status evs = [3] ∧ omap ev_signal evs = [].
Proof.
  pose proof (exit_notifications (W:=serverImpl) demo_lib 0%nat 5%nat
    [OpExitStatus 3; OpExitStatus 0; OpClose; OpExitSignal (MkExitSignal "TERM" false "" "")]
    (set_wrappers [MkChannelWrapper (Some 5%nat) false false false false] New)) as H.
  destruct (proj1 (H eq_refl)) as (w' & evs & E & Ev & _ & H1 & H2 & _).
  by exists w', evs.
Defined.

Lemma session_channel_served_witness :
  ∃ w' w2 evs rs,
    handleSessionChannel demo_lib demo_codec (Channel demo_md 0) (demo_channel "session" "") demo_requests
      demo_connection demo_server = Done (tt, w') ∧
    served demo_lib demo_codec (Channel demo_md 0) demo_session 0 demo_requests rs
      (channel_opened (Channel demo_md 0) (demo_channel "session" "") 0%nat (with_wrapper demo_server)) w2 ∧
    OnClose demo_session (channel_ended (Channel demo_md 0) 0%nat w2) = Done (tt, w') ∧
    events w' = [] ++ evs ∧
    answers evs = EAccept (demo_channel "session" "") :: replies demo_requests rs.
Proof.
  destruct (session_channel_served demo_lib demo_codec demo_connection demo_session (Channel demo_md 0)
    (demo_channel "session" "") demo_requests demo_server (with_wrapper demo_server)
    demo_session_quiet eq_refl) as (w' & w2 & evs & rs & H1 & H2 & H3 & H4 & H5 & _).
  - constructor; try reflexivity. exists []. split; reflexivity.
  - reflexivity.
  - reflexivity.
  - by exists w', w2, evs, rs.
Defined.

(** A forwarding request with an empty, undecodable payload. *)
Lemma channel_open_answered_witness :
  ∃ ts w1 w2,
    handleChannel demo_lib demo_md (demo_channel "direct-tcpip" "") demo_connection demo_server = Done (ts, w1) ∧
    range ts (run_task demo_lib demo_codec [] demo_connection) w1 = Done (tt, w2) ∧ events w2 = [].
Proof.
  destruct (channel_open_answered demo_lib demo_codec demo_connection demo_md (demo_channel "direct-tcpip" "") []
    demo_server demo_connection_quiet eq_refl) as (ts & w1 & w2 & evs & H1 & H2 & H3 & H4 & _).
  exists ts, w1, w2. split; [exact H1|]. split; [exact H2|].
  rewrite H4 in H3; [exact H3|]. left. split; [reflexivity|]. discriminate.
Defined.

Lemma x11_channels_panic_witness :
  ∃ rev : ReverseForward serverImpl,
    (∀ a n w', NewChannelX11 rev a n w' = Panic nil_pointer) ∧
    (∃ w2, handleChannelRequest demo_lib demo_codec (Channel demo_md 0) 0
             (MkRequest "x11-req" true (demo_bytes "MIT-MAGIC-COOKIE-1")) demo_session demo_server = Done (tt, w2)).
Proof.
  pose proof (x11_channels_panic (W:=serverImpl) demo_lib demo_codec demo_session (Channel demo_md 0) 0
    (MkRequest "x11-req" true (demo_bytes "MIT-MAGIC-COOKIE-1"))
    (MkX11Request false "MIT-MAGIC-COOKIE-1" "cookie" 0) 3%nat demo_server) as H.
  destruct (H eq_refl eq_refl eq_refl eq_refl) as (rev & _ & H2 & H3).
  exists rev. split; [exact H3|]. apply (H2 (locked demo_server)). reflexivity.
Defined.

Lemma forward_under_lock_blocks_witness :
  onForwardTCPIP demo_lib demo_codec demo_md (PTCPIPForward (MkForwardTCPIP "0.0.0.0" 8080)) demo_connection demo_server
  = Blocked "serverImpl.lock".
Proof.
  pose proof (forward_under_lock_blocks (W:=serverImpl) demo_lib demo_codec demo_connection demo_md
    (MkForwardTCPIP "0.0.0.0" 8080) 3%nat demo_server "10.0.0.1" 80 "10.0.0.2" 4000 (λ _, prog_ret None)) as H.
  exact (H eq_refl eq_refl (λ _, eq_refl)).
Defined.

(** A connection handler that accepts every forward and starts listening later. *)
Definition patient_connection : SSHConnectionHandler serverImpl :=
  {| OnUnsupportedGlobalRequest := λ _ _ _, prog_ret tt;
     OnFailedDecodeGlobalRequest := λ _ _ _ _, prog_ret tt;
     OnUnsupportedChannel := λ _ _ _, prog_ret tt;
     OnSessionChannel := λ _ _ _, prog_ret (Some demo_session, None);
     OnTCPForwardChannel := λ _ _ _ _ _, prog_ret (Some 7%nat, None);
     OnRequestTCPReverseForward := λ _ _ _, prog_ret None;
     OnRequestCancelTCPReverseForward := λ _ _, prog_ret (Some (ErrorString "no such forward"));
     OnDirectStreamLocal := λ _ _, prog_ret (Some 8%nat, None);
     OnRequestStreamLocal := λ _ _, prog_ret None;
     OnRequestCancelStreamLocal := λ _, prog_ret None;
     OnConnShutdown := λ _, prog_ret tt |}.

#[export] Instance patient_connection_quiet : QuietGlobal patient_connection.
Proof. split; intros; apply quiet_ret. Qed.

Definition demo_globals : list Request :=
  [MkRequest "tcpip-forward" true (demo_bytes "0.0.0.0"); MkRequest "keepalive@openssh.com" true [];
   MkRequest "cancel-tcpip-forward" true (demo_bytes "10.0.0.1")].

Example demo_global_answers :
  match handleGlobalRequests demo_lib demo_codec demo_md demo_globals patient_connection demo_server with
  | Done (_, s) =>
      answers (events s) =
      [EReply (MkRequest "tcpip-forward" true (demo_bytes "0.0.0.0")) true "";
       EReply (MkRequest "keepalive@openssh.com" true []) false "";
       EReply (MkRequest "cancel-tcpip-forward" true (demo_bytes "10.0.0.1")) false "no such forward"]
  | _ => False
  end.
Proof. vm_compute. reflexivity. Qed.

Lemma global_requests_served_witness :
  ∃ w' rs evs,
    handleGlobalRequests demo_lib demo_codec demo_md demo_globals patient_connection demo_server = Done (tt, w') ∧
    globally_served demo_lib demo_codec demo_md patient_connection demo_globals rs demo_server w' ∧
    answers evs = replies demo_globals rs.
Proof.
  pose proof (global_requests_served (W:=serverImpl) demo_lib demo_codec patient_connection demo_md demo_globals
    demo_server patient_connection_quiet) as H.
  destruct (H eq_refl) as (w' & rs & evs & H1 & H2 & _ & H3 & _). by exists w', rs, evs.
Defined.
