(* ===== verification/ServerConnectionSpec.v ===== *)
(** * What the SSH server promises about connections

    Theorems about [ServerConnection]: who gets past the handshake, what is left
    of a connection after it, keep-alives and starting the server. *)

From stdpp Require Import base gmap strings list.
From Stdlib Require Import Strings.Byte.
From S2P Require Import Prelude Messages Metadata MetadataJSON Handler ConfigSSH ServerStore ServerConnection.

Local Open Scope Z_scope.

Ltac run_conn :=
  cbv beta delta [Lock Unlock Register Unregister wg_Add wg_Done wg_Wait call_ call server update
    prog_bind prog_ret get put modify panic block] in *;
  cbn beta iota in *;
  repeat (rewrite ?fget_fset, ?fset_fset; cbn beta iota).

Section authentication.
Context {W PublicKey : Type} `{!Field W serverImpl}.
Context (IP_String : list byte → string) (ParseIP : string → list byte).
Context (MarshalAuthorizedKey : PublicKey → string).

(** ** The callbacks *)

(** A user may log in as [md]: the network connection handler has accepted one of
    the four authentication methods. *)
Definition login_accepted (h : NetworkConnectionHandler W) (meta : ConnectionMetadata)
    (md : ConnectionAuthenticatedMetadata) : Prop :=
  ∃ conn w1 w2,
    let pending := StartAuthentication meta (conn_ClientVersion conn) (conn_User conn) in
    (∃ password err, OnAuthPassword h pending password w1 = Done ((AuthResponseSuccess, md, err), w2)) ∨
    (∃ key err, OnAuthPubKey h pending (TrimSpace (MarshalAuthorizedKey key)) w1
                = Done ((AuthResponseSuccess, md, err), w2)) ∨
    (∃ challenge err, OnAuthKeyboardInteractive h pending (challengeWrapper conn challenge) w1
                      = Done ((AuthResponseSuccess, md, err), w2)) ∨
    (∃ g w0 w0' w3, OnAuthGSSAPI h meta w0 = Done (Some g, w0') ∧
       gss_Success g w1 = Done (true, w2) ∧ gss_AllowLogin g (conn_User conn) pending w2 = Done ((md, None), w3)).

(** One of the callbacks in the configuration has returned these permissions. *)
Definition callback_granted (config : ServerConfig W PublicKey) (perms : option Permissions) : Prop :=
  ∃ conn w1 w2,
    (∃ password, PasswordCallback config conn password w1 = Done ((perms, None), w2)) ∨
    (∃ key, PublicKeyCallback config conn key w1 = Done ((perms, None), w2)) ∨
    (∃ challenge, KeyboardInteractiveCallback config conn challenge w1 = Done ((perms, None), w2)) ∨
    (∃ allow g src, GSSAPIWithMICConfig config = Some (allow, g) ∧ allow conn src w1 = Done ((perms, None), w2)).

Lemma wrapAndLogAuthFailure_err pending m err : wrapAndLogAuthFailure pending m err ≠ None.
Proof. by destruct err. Qed.

Lemma answer_auth_granted pending m r (w : W) p md w' :
  answer_auth pending m r w = Done ((p, md, None), w') → ∃ err, r = (AuthResponseSuccess, md, err).
Proof.
  destruct r as [[resp md'] err]. unfold answer_auth. destruct resp; run_conn; intros E.
  - injection E as <- <- <-. by exists err.
  - injection E as _ _ E _. by apply wrapAndLogAuthFailure_err in E.
  - unfold wrapAndLogAuthUnavailable in E. by destruct err.
  - done.
Qed.

(** The end of the three callbacks. *)
Lemma grant_step (c : prog W (option Permissions * ConnectionAuthenticatedMetadata * option error)) w perms w' :
  prog_bind (λ r, match r with
                  | (_, md, err) =>
                      match err with Some _ => prog_ret (None, err) | None => prog_ret (grant IP_String md) end
                  end) c w = Done ((perms, None), w') →
  ∃ p md, c w = Done ((p, md, None), w') ∧ perms = (grant IP_String md).1.
Proof.
  unfold prog_bind. destruct (c w) as [[[[p md] [e|]] w1]| |]; try done.
  intros [= <- <-]. by exists p, md.
Qed.

Lemma auth_step pending m (c : prog W (AuthResponse * ConnectionAuthenticatedMetadata * option error)) w p md w' :
  prog_bind (answer_auth pending m) c w = Done ((p, md, None), w') →
  ∃ err w1, c w = Done ((AuthResponseSuccess, md, err), w1).
Proof.
  unfold prog_bind. destruct (c w) as [[r w1]| |]; try done. intros E.
  apply answer_auth_granted in E as [err ->]. by exists err, w1.
Qed.

(** Whatever callback of the server's configuration grants permissions, the
    handler has accepted the login, and the permissions carry its metadata.  (The
    error of a GSSAPI server is read twice; if the second read finds none, the
    permissions are nil.) *)
Lemma callback_granted_login cfg hostKeys meta h w0 config w0' perms :
  createConfiguration IP_String MarshalAuthorizedKey cfg hostKeys meta h w0 = Done (config, w0') →
  callback_granted config perms →
  perms = None ∨ ∃ md, login_accepted h meta md ∧ perms = (grant IP_String md).1.
Proof.
  unfold createConfiguration, createGSSAPIConfig. run_conn.
  destruct (OnAuthGSSAPI h meta w0) as [[g wg]| |] eqn:Eg; [|done|done].
  intros Econf (conn & w1 & w2 & H).
  assert (config = MkServerConfig W PublicKey (KexAlgorithms cfg) (Ciphers cfg) (MACs cfg) false 6
    (createPasswordCallback IP_String meta h) (createPubKeyCallback IP_String MarshalAuthorizedKey meta h)
    (createKeyboardInteractiveCallback IP_String meta h)
    ((λ g, (gssapi_AllowLogin IP_String meta g, g)) <$> g)
    (ServerVersion cfg) (λ _, Banner cfg) hostKeys) as -> by (destruct g; by injection Econf).
  cbn in H. destruct H as [(pw & H)|[(key & H)|[(ch & H)|(allow & gs & src & Eallow & H)]]].
  - apply grant_step in H as (p & md & H & ->). apply auth_step in H as (err & wx & H).
    right. exists md. split; [|done]. exists conn, w1, wx. left. eauto.
  - apply grant_step in H as (p & md & H & ->). apply auth_step in H as (err & wx & H).
    right. exists md. split; [|done]. exists conn, w1, wx. right. left. eauto.
  - apply grant_step in H as (p & md & H & ->). apply auth_step in H as (err & wx & H).
    right. exists md. split; [|done]. exists conn, w1, wx. do 2 right. left. eauto.
  - destruct g as [g|]; [|done]. injection Eallow as <- <-. unfold gssapi_AllowLogin in H. run_conn.
    destruct (gss_Success g w1) as [[[] wx]| |] eqn:Es; [| |done|done]; cbn in H.
    + destruct (gss_AllowLogin g _ _ wx) as [[[md [e|]] wy]| |] eqn:Ea; try done.
      injection H as <- <-. right. exists md. split; [|done]. exists conn, w1, wx. do 3 right.
      exists g, w0, wg, wy. done.
    + destruct (gss_Error g wx) as [[[e|] wy]| |]; try done.
      destruct (gss_Error g wy) as [[[e'|] wz]| |]; try done.
      injection H as <- <-. by left.
Qed.

(** ** The handshake *)

Context (lib_error : list event → event → option error).
Context (cfg : SSHConfig) (hostKeys : list nat).
Context (NewServerConn : ServerConfig W PublicKey → prog W ((nat * option Permissions) + error)).
Context (handler : Handler W).

Abbreviation start := (handleConnection_start lib_error IP_String ParseIP MarshalAuthorizedKey cfg hostKeys
  NewServerConn handler).

Lemma abortCleanup_None conn meta id h err w e w' :
  abortCleanup (W:=W) lib_error conn meta id h err w ≠ Done (Some e, w').
Proof.
  unfold abortCleanup. run_conn.
  repeat match goal with
         | |- match ?c with _ => _ end ≠ _ => destruct c as [[? ?]| |]
         | |- (if ?b then _ else _) _ ≠ _ => destruct b
         end; try done.
  all: case_decide; done.
Qed.

(** An established connection comes out of a successful handshake, with the
    metadata read from its permissions. *)
Lemma start_established conn addr id w e w' :
  start conn addr id w = Done (Some e, w') →
  ∃ h meta w1 w2 config w3 perms w4 w5 w6 conn' hsc m2,
    OnNetworkConnection handler (MkConnectionMetadata addr id (Some ∅) (Some ∅) (Some ∅)) w = Done ((h, meta, None), w1) ∧
    createConfiguration IP_String MarshalAuthorizedKey cfg hostKeys meta (default nil_NetworkConnectionHandler h) w2
      = Done (config, w3) ∧
    NewServerConn config w3 = Done (inl (conn', perms), w4) ∧
    read_permissions ParseIP perms w4 = Done (inl (est_metadata e), w5) ∧
    OnHandshakeSuccess (default nil_NetworkConnectionHandler h) (est_metadata e) w5 = Done ((hsc, m2, None), w6) ∧
    est_network e = default nil_NetworkConnectionHandler h ∧
    est_connection e = default nil_SSHConnectionHandler hsc.
Proof.
  unfold handleConnection_start. unfold prog_bind at 1.
  destruct (OnNetworkConnection handler _ w) as [[[[h meta] [err|]] w1]| |] eqn:E1; [|..|done|done].
  { run_conn. repeat case_decide; done. }
  unfold prog_bind at 1. unfold Register at 1, update at 1. unfold prog_bind at 1.
  destruct (createConfiguration _ _ _ _ _ _ _) as [[config w3]| |] eqn:E2; [|done|done].
  unfold prog_bind at 1. destruct (NewServerConn config w3) as [[[[conn' perms]|er] w4]| |] eqn:E3; [| |done|done].
  2: { intros E. by apply abortCleanup_None in E. }
  unfold prog_bind at 1. destruct (read_permissions ParseIP perms w4) as [[[md|er] w5]| |] eqn:E4; [| |done|done].
  2: { intros E. by apply abortCleanup_None in E. }
  unfold prog_bind at 1.
  destruct (OnHandshakeSuccess _ md w5) as [[[[hsc m2] [er|]] w6]| |] eqn:E5; [| |done|done].
  { intros E. by apply abortCleanup_None in E. }
  run_conn. destruct (lock _); [done|]. intros [= <- _].
  by eexists _, _, _, _, _, _, _, _, _, _, _, _, _.
Qed.

End authentication.

(** Where a connection that is being served comes from. *)
Lemma connection_established {W PublicKey} `{!Field W serverImpl}
    (lib_error : list event → event → option error)
    (IP_String : list byte → string) (ParseIP : string → list byte) (MarshalAuthorizedKey : PublicKey → string)
    (cfg : SSHConfig) (hostKeys : list nat)
    (NewServerConn : ServerConfig W PublicKey → prog W ((nat * option Permissions) + error))
    (handler : Handler W) conn addr id w e w'
    (Hlibrary : ∀ config w sshConn perms w', NoClientAuth config = false →
       NewServerConn config w = Done (inl (sshConn, perms), w') → callback_granted config perms)
    (Hrun : handleConnection lib_error IP_String ParseIP MarshalAuthorizedKey cfg hostKeys NewServerConn handler
              conn addr id w = Done (Some e, w')) :
  ∃ h meta w1 md w2 w3 hsc m2,
    OnNetworkConnection handler (MkConnectionMetadata addr id (Some ∅) (Some ∅) (Some ∅)) w = Done ((h, meta, None), w1) ∧
    est_network e = default nil_NetworkConnectionHandler h ∧
    login_accepted MarshalAuthorizedKey (est_network e) meta md ∧
    Unmarshal ParseIP (Marshal IP_String md) = Done (inl (est_metadata e)) ∧
    OnHandshakeSuccess (est_network e) (est_metadata e) w2 = Done ((hsc, m2, None), w3) ∧
    est_connection e = default nil_SSHConnectionHandler hsc.
Proof.
  unfold handleConnection in Hrun. unfold prog_bind at 1 in Hrun.
  destruct (handleConnection_start _ _ _ _ _ _ _ _ conn addr id w) as [[[e'|] wx]| |] eqn:E; try done.
  assert (e' = e) as -> by (run_conn; by injection Hrun).
  apply start_established in E
    as (h & meta & w1 & w2 & config & w3 & perms & w4 & w5 & w6 & conn' & hsc & m2 & E1 & E2 & E3 & E4 & E5 & E6 & E7).
  assert (NoClientAuth config = false) as Hauth.
  { revert E2. unfold createConfiguration. unfold prog_bind. destruct (createGSSAPIConfig _ _ _ _) as [[]| |]; [|done|done].
    by intros [= <- _]. }
  destruct (callback_granted_login IP_String MarshalAuthorizedKey cfg hostKeys meta _ w2 config w3 perms E2)
    as [->|(md & Hlogin & ->)]; [by eapply Hlibrary|done|].
  exists h, meta, w1, md, w5, w6, hsc, m2. rewrite E6. do 3 (split; [done|]). split; [|done].
  revert E4. unfold read_permissions, grant. cbn [fst]. rewrite lookup_singleton_eq.
  by destruct (Unmarshal ParseIP (Marshal IP_String md)) as [[md'|er]| |]; [intros [= -> _]|..].
Qed.

(** A connection is served only after its user has been authenticated: when
    [handleConnection] goes on to serve the channels and requests of a
    connection, the network connection handler that was asked for this
    connection has accepted a login by one of the four methods, and the metadata
    the backends get is what that login returned, read back from the permissions
    of the connection.  Of the library it is used that a handshake without
    [NoClientAuth] succeeds only with the permissions one of the callbacks
    returned. *)
Theorem sessions_need_authentication {W PublicKey} `{!Field W serverImpl}
    (lib_error : list event → event → option error)
    (IP_String : list byte → string) (ParseIP : string → list byte) (MarshalAuthorizedKey : PublicKey → string)
    (cfg : SSHConfig) (hostKeys : list nat)
    (NewServerConn : ServerConfig W PublicKey → prog W ((nat * option Permissions) + error))
    (handler : Handler W) conn addr id w e w'
    (Hlibrary : ∀ config w sshConn perms w', NoClientAuth config = false →
       NewServerConn config w = Done (inl (sshConn, perms), w') → callback_granted config perms)
    (Hrun : handleConnection lib_error IP_String ParseIP MarshalAuthorizedKey cfg hostKeys NewServerConn handler
              conn addr id w = Done (Some e, w')) :
  ∃ h meta w1 md w2 w3 hsc m2,
    OnNetworkConnection handler (MkConnectionMetadata addr id (Some ∅) (Some ∅) (Some ∅)) w = Done ((h, meta, None), w1) ∧
    est_network e = default nil_NetworkConnectionHandler h ∧
    login_accepted MarshalAuthorizedKey (est_network e) meta md ∧
    Unmarshal ParseIP (Marshal IP_String md) = Done (inl (est_metadata e)) ∧
    OnHandshakeSuccess (est_network e) (est_metadata e) w2 = Done ((hsc, m2, None), w3) ∧
    est_connection e = default nil_SSHConnectionHandler hsc.
Proof. by eapply connection_established. Qed.

(** ** Bookkeeping *)

(** What the handlers and the library's handshake leave alone. *)
Record keeps (s s' : serverImpl) : Prop := {
  keeps_wg : wg s' = wg s;
  keeps_lock : lock s' = lock s;
  keeps_clients : clientSockets s' = clientSockets s;
  keeps_connMap : connMap s' = connMap s;
  keeps_handlers : shutdownHandlers s' = shutdownHandlers s;
}.

#[export] Instance keeps_preorder : PreOrder keeps.
Proof. split; [by intros ?|]. intros ??? [] []. constructor; congruence. Qed.

Definition keeping {W} `{!Field W serverImpl} {A} (c : prog W A) : Prop :=
  ∀ w, ∃ a w', c w = Done (a, w') ∧ keeps (fget w) (fget w').

(** A network connection handler that returns from every call the server makes. *)
Class KeepingNetwork {W} `{!Field W serverImpl} (h : NetworkConnectionHandler W) : Prop := {
  kn_gssapi meta : keeping (OnAuthGSSAPI h meta);
  kn_failed meta err : keeping (OnHandshakeFailed h meta err);
  kn_success md : keeping (OnHandshakeSuccess h md);
  kn_disconnect : keeping (OnDisconnect h);
}.

Section bookkeeping.
Context {W PublicKey : Type} `{!Field W serverImpl}.
Context (lib_error : list event → event → option error).
Context (IP_String : list byte → string) (ParseIP : string → list byte).
Context (MarshalAuthorizedKey : PublicKey → string).
Context (cfg : SSHConfig) (hostKeys : list nat).
Context (NewServerConn : ServerConfig W PublicKey → prog W ((nat * option Permissions) + error)).
Context (handler : Handler W).

(** The handshake returns; its permissions come from the server's callbacks. *)
Definition handshake_returns : Prop :=
  ∀ config w, ∃ r w', NewServerConn config w = Done (r, w') ∧ keeps (fget w) (fget w') ∧
    ∀ conn perms, r = inl (conn, perms) →
      ∃ md md', perms = (grant IP_String md).1 ∧ Unmarshal ParseIP (Marshal IP_String md) = Done md'.

Definition network_returns : Prop :=
  ∀ meta w, ∃ h m err w', OnNetworkConnection handler meta w = Done ((h, m, err), w') ∧
    keeps (fget w) (fget w') ∧ (err = None → KeepingNetwork (default nil_NetworkConnectionHandler h)).

Lemma createConfiguration_keeps `{!KeepingNetwork h} meta w :
  ∃ config w', createConfiguration IP_String MarshalAuthorizedKey cfg hostKeys meta h w = Done (config, w') ∧
    keeps (fget w) (fget w').
Proof.
  unfold createConfiguration, createGSSAPIConfig. run_conn.
  destruct (kn_gssapi meta w) as (g & w' & -> & K). destruct g; by eexists _, _.
Qed.

(** The state an aborted connection leaves, from the state before it was accepted. *)
Definition aborted (s s' : serverImpl) (id : string) : Prop :=
  wg s' = wg s - 1 ∧ lock s' = lock s ∧ clientSockets s' = clientSockets s ∧ connMap s' = connMap s ∧
  shutdownHandlers s' = delete (network_key id) (shutdownHandlers s).

Lemma abortCleanup_run `{!KeepingNetwork h} conn meta id err w :
  0 < wg (fget w) →
  ∃ w', abortCleanup lib_error conn meta id h err w = Done (None, w') ∧ aborted (fget w) (fget w') id.
Proof.
  intros Hwg. unfold abortCleanup. unfold prog_bind at 1.
  destruct (kn_failed meta err w) as ([] & w1 & -> & K1).
  unfold prog_bind at 1. unfold Unregister at 1, update at 1. unfold prog_bind at 1.
  match goal with |- context [OnDisconnect h ?w2] => destruct (kn_disconnect (h:=h) w2) as ([] & w3 & -> & K3) end.
  rewrite fget_fset in K3. destruct K1, K3. cbn in *. run_conn. cbn.
  rewrite decide_False by lia. run_conn. eexists. split; [done|]. rewrite fget_fset. cbn.
  unfold aborted. cbn. repeat split; congruence.
Qed.

(** An aborted connection forgets the registration it made itself. *)
Lemma aborted_registered s s0 s1 s' id x :
  keeps s s0 → keeps (set_shutdownHandlers (<[network_key id := x]> (shutdownHandlers s0)) s0) s1 →
  aborted s1 s' id → aborted s s' id.
Proof.
  intros [A1 A2 A3 A4 A5] [B1 B2 B3 B4 B5] (C1 & C2 & C3 & C4 & C5). cbn in *.
  unfold aborted. repeat split; try congruence. rewrite C5, B5, delete_insert_eq. congruence.
Qed.

(** Running [handleConnection] to its end: aborted, or serving. *)
Lemma handleConnection_start_run (Hnew : handshake_returns) (Hnet : network_returns) conn addr id w :
  lock (fget w) = false → 0 < wg (fget w) → shutdownHandlers (fget w) !! network_key id = None →
  ∃ r w', handleConnection_start lib_error IP_String ParseIP MarshalAuthorizedKey cfg hostKeys NewServerConn handler
            conn addr id w = Done (r, w') ∧
    match r with
    | None => aborted (fget w) (fget w') id
    | Some e =>
        wg (fget w') = wg (fget w) ∧ lock (fget w') = false ∧
        clientSockets (fget w') = {[est_conn e]} ∪ clientSockets (fget w) ∧
        connMap (fget w') = <[id := est_conn e]> (connMap (fget w)) ∧
        shutdownHandlers (fget w') =
          <[network_key id := NetworkShutdown id]> (shutdownHandlers (fget w)) ∧
        KeepingNetwork (est_network e)
    end.
Proof.
  intros Hl Hwg Hfresh. unfold handleConnection_start. unfold prog_bind at 1.
  destruct (Hnet (MkConnectionMetadata addr id (Some ∅) (Some ∅) (Some ∅)) w) as (h & m & err & w1 & -> & K1 & Hh).
  destruct err as [err|].
  { destruct K1. run_conn. cbn. rewrite decide_False by lia. run_conn.
    eexists _, _. split; [done|]. rewrite fget_fset. cbn. unfold aborted. cbn.
    repeat split; [congruence..|]. by rewrite delete_id; [congruence|]. }
  specialize (Hh eq_refl). set (hn := default nil_NetworkConnectionHandler h) in *.
  unfold prog_bind at 1. unfold Register at 1, update at 1. unfold prog_bind at 1.
  match goal with |- context [createConfiguration _ _ _ _ m hn ?w2] =>
    destruct (createConfiguration_keeps m w2) as (config & w3 & -> & K3) end.
  unfold prog_bind at 1. destruct (Hnew config w3) as (r & w4 & -> & K4 & Hr).
  rewrite fget_fset in K3. assert (K := transitivity K3 K4).
  assert (∀ err w5, keeps (fget w4) (fget w5) →
    ∃ w', abortCleanup lib_error conn m id hn err w5 = Done (None, w') ∧ aborted (fget w) (fget w') id) as Habort.
  { intros err w5 K5. destruct (abortCleanup_run (h:=hn) conn m id err w5) as (w' & E & A).
    - pose proof (keeps_wg _ _ K5). pose proof (keeps_wg _ _ K). pose proof (keeps_wg _ _ K1). cbn in *. lia.
    - exists w'. split; [done|]. eapply aborted_registered; [exact K1| |exact A]. by etrans. }
  destruct r as [[conn' perms]|er].
  2: { destruct (Habort (Some er) w4 ltac:(done)) as (w' & -> & A). by eexists None, _. }
  destruct (Hr conn' perms eq_refl) as (md & md' & -> & Em).
  unfold prog_bind at 1. unfold read_permissions at 1, grant. cbn [fst]. rewrite lookup_singleton_eq, Em.
  destruct md' as [md'|er]; cbn [prog_ret].
  2: { unfold prog_ret. destruct (Habort (Some er) w4 ltac:(done)) as (w' & -> & A). by eexists None, _. }
  unfold prog_ret at 1. unfold prog_bind at 1.
  destruct (kn_success (h:=hn) md' w4) as ([[hsc m2] er] & w6 & -> & K6).
  destruct er as [er|].
  { match goal with |- context [abortCleanup _ _ _ _ _ ?err _] =>
      destruct (Habort err w6 K6) as (w' & -> & A) end. by eexists None, _. }
  assert (K' := transitivity K K6). destruct K1, K'. cbn in *. run_conn. cbn.
  assert (lock (fget w6) = false) as -> by congruence. run_conn.
  eexists _, _. split; [done|]. rewrite fget_fset. cbn. split_and!; try congruence; done.
Qed.

(** The goroutine's steps, with the registration after the first [n] of them. *)
Lemma registered_after_run n id e w :
  KeepingNetwork (est_network e) → 0 < wg (fget w) →
  ∃ w', registered_after n id e w = Done (tt, w') ∧
    wg (fget w') = wg (fget w) - 1 ∧ clientSockets (fget w') = clientSockets (fget w) ∧
    connMap (fget w') = connMap (fget w) ∧
    shutdownHandlers (fget w') =
      if decide (n ≤ 1)%nat then delete (ssh_key id) (delete (network_key id) (shutdownHandlers (fget w)))
      else <[ssh_key id := SSHShutdown id]> (delete (network_key id) (shutdownHandlers (fget w))).
Proof.
  intros Hk Hwg. unfold registered_after.
  assert (∀ w0, ∃ w1, OnDisconnect (est_network e) w0 = Done (tt, w1) ∧ keeps (fget w0) (fget w1)) as Hd.
  { intros w0. destruct (kn_disconnect (h:=est_network e) w0) as ([] & w1 & E & K). by exists w1. }
  destruct n as [|[|[|[|n]]]]; cbn [take drop closing_steps range]; rewrite ?take_nil, ?drop_nil; cbn [range]; run_conn.
  all: match goal with |- context [OnDisconnect _ ?w2] => destruct (Hd w2) as (w3 & -> & K3) end;
    rewrite fget_fset in K3; destruct K3; cbn in *; run_conn; rewrite ?fget_fset; cbn; rewrite decide_False by lia;
    (eexists; split; [done|]); rewrite !fget_fset; cbn; split_and!; try congruence.
  - rewrite keeps_handlers0. by rewrite delete_insert_ne, delete_insert_eq.
  - rewrite keeps_handlers0. by rewrite delete_insert_eq.
  - rewrite keeps_handlers0. by rewrite insert_delete_eq.
  - rewrite keeps_handlers0. by rewrite insert_delete_eq.
  - rewrite keeps_handlers0. by rewrite insert_delete_eq.
Qed.
End bookkeeping.

Lemma ssh_network_key id id' : ssh_key id ≠ network_key id'.
Proof. done. Qed.

(** Claim C22. An accepted connection is counted once and released once, however the
    goroutine that waits for its end runs beside the registration of its SSH
    handler. One that does not get past the handshake leaves nothing behind: the
    wait group and the shutdown registrations are as before it was accepted. One
    that does is counted and registered while it is served, and at its end the
    wait group is as before; the registrations are too, if the client left after
    the SSH handler was registered or at least before its key was unregistered,
    and otherwise the SSH handler stays registered for ever. The connection
    itself stays in [connMap] and [clientSockets] in any case. *)
Theorem connection_bookkeeping {W PublicKey} `{!Field W serverImpl}
    (lib_error : list event → event → option error)
    (IP_String : list byte → string) (ParseIP : string → list byte) (MarshalAuthorizedKey : PublicKey → string)
    (cfg : SSHConfig) (hostKeys : list nat)
    (NewServerConn : ServerConfig W PublicKey → prog W ((nat * option Permissions) + error))
    (handler : Handler W) conn addr id w
    (Hlibrary : handshake_returns IP_String ParseIP NewServerConn)
    (Hhandler : network_returns handler)
    (Hlock : lock (fget w) = false) (Hwg : 0 ≤ wg (fget w))
    (Hfresh : shutdownHandlers (fget w) !! network_key id = None ∧ shutdownHandlers (fget w) !! ssh_key id = None) :
  ∃ r w', accept_start lib_error IP_String ParseIP MarshalAuthorizedKey cfg hostKeys NewServerConn handler
            conn addr id w = Done (r, w') ∧
    match r with
    | None =>
        accept lib_error IP_String ParseIP MarshalAuthorizedKey cfg hostKeys NewServerConn handler conn addr id w = Done (None, w') ∧
        wg (fget w') = wg (fget w) ∧ shutdownHandlers (fget w') = shutdownHandlers (fget w) ∧
        clientSockets (fget w') = clientSockets (fget w) ∧ connMap (fget w') = connMap (fget w)
    | Some e =>
        (∃ w1, accept lib_error IP_String ParseIP MarshalAuthorizedKey cfg hostKeys NewServerConn handler conn addr id w
                 = Done (Some e, w1) ∧
           wg (fget w1) = wg (fget w) + 1 ∧
           shutdownHandlers (fget w1) =
             <[ssh_key id := SSHShutdown id]> (<[network_key id := NetworkShutdown id]> (shutdownHandlers (fget w)))) ∧
        ∀ n, ∃ w'', registered_after n id e w' = Done (tt, w'') ∧
          wg (fget w'') = wg (fget w) ∧
          shutdownHandlers (fget w'') =
            (if decide (n ≤ 1)%nat then shutdownHandlers (fget w)
             else <[ssh_key id := SSHShutdown id]> (shutdownHandlers (fget w))) ∧
          connMap (fget w'') !! id = Some (est_conn e) ∧ est_conn e ∈ clientSockets (fget w'')
    end.
Proof.
  destruct Hfresh as [Hfn Hfs].
  set (start := accept_start lib_error IP_String ParseIP MarshalAuthorizedKey cfg hostKeys NewServerConn handler conn addr id).
  destruct (handleConnection_start_run lib_error IP_String ParseIP MarshalAuthorizedKey cfg hostKeys NewServerConn handler
    Hlibrary Hhandler conn addr id (fset (set_wg (wg (fget w) + 1) (fget w)) w)) as (r & w' & E & H);
    [by rewrite fget_fset; cbn; first [done|lia] ..|].
  rewrite fget_fset in H. cbn in H. change (start w = Done (r, w')) in E.
  assert (accept lib_error IP_String ParseIP MarshalAuthorizedKey cfg hostKeys NewServerConn handler conn addr id w =
    match r with None => Done (None, w') | Some e => (do* Register (ssh_key id) (SSHShutdown id) in prog_ret (Some e)) w' end) as Ea.
  { change (accept _ _ _ _ _ _ _ _ _ _ _ w) with ((let* r := start in
      match r with None => prog_ret None | Some e => do* Register (ssh_key id) (SSHShutdown id) in prog_ret (Some e) end) w).
    unfold prog_bind at 1. rewrite E. by destruct r. }
  exists r, w'. split; [exact E|]. rewrite Ea. destruct r as [e|].
  - destruct H as (H1 & H2 & H3 & H4 & H5 & Hk). split.
    + eexists. split; [reflexivity|]. rewrite fget_fset. cbn. by rewrite H5.
    + intros n. destruct (registered_after_run n id e w' Hk ltac:(lia)) as (w'' & -> & C1 & C2 & C3 & C4).
      exists w''. split; [done|]. split; [lia|]. split.
      * rewrite C4, H5, delete_insert_eq, (delete_id _ (network_key id)) by done. case_decide; [by rewrite delete_id|done].
      * rewrite C3, C2, H4, H3. split; [apply lookup_insert_eq|set_solver].
  - destruct H as (H1 & H2 & H3 & H4 & H5). cbn in *. split; [done|]. split; [lia|]. by rewrite H5, delete_id.
Qed.

(** ** Starting the server *)

(** A start that fails because the backends are not ready closes the listening
    socket but keeps it in the server's field: every later start is refused with
    the claim that the server is already running. *)
Theorem failed_start_is_final {W} `{!Field W serverImpl} (lib_error : list event → event → option error)
    (cfg : SSHConfig) (handler : Handler W) w err w1 listen
    (Hready : ∀ w, ∃ w', OnReady handler w = Done (Some err, w') ∧ fget w' = fget w)
    (Hlock : lock (fget w) = false) (Hfirst : listenSocket (fget w) = false)
    (Hstart : RunWithLifecycle_start lib_error cfg handler None w = Done (Some err, w1)) :
  ∃ w2, RunWithLifecycle_start lib_error cfg handler listen w1
        = Done (Some (MsgError (NewMessage ESSHAlreadyRunning "SSH server is already running" [])), w2).
Proof.
  unfold RunWithLifecycle_start in *. run_conn. rewrite Hlock in Hstart. run_conn. rewrite fget_fset in Hstart.
  cbn in Hstart. rewrite Hfirst in Hstart. run_conn.
  match type of Hstart with context [OnReady handler ?w0] => destruct (Hready w0) as (w' & E & Ef) end.
  rewrite E in Hstart. repeat rewrite fget_fset in Ef. run_conn. injection Hstart as <-.
  rewrite !fget_fset, Ef. cbn. rewrite !fget_fset. cbn. by eexists.
Qed.

(** ** Keep-alives *)

Section keepalive.
Context {W : Type} `{!Field W serverImpl} (lib_error : list event → event → option error) (cfg : SSHConfig).

(** A client that never answers is disconnected by the keep-alive that makes
    the maximum, and gets no more of them. *)
Lemma keepAlive_dead sshConn k : ∀ missed w ticks,
  (∀ hist, lib_error hist (EKeepAlive sshConn) ≠ None) →
  missed + Z.of_nat (S k) = ClientAliveCountMax cfg → (S k ≤ ticks)%nat →
  ∃ w', keepAlive lib_error cfg sshConn missed ticks w = Done (true, w') ∧
    events (fget w') = events (fget w) ++ replicate (S k) (EKeepAlive sshConn) ++ [EConnClose sshConn].
Proof.
  induction k as [|k IH]; intros missed w ticks Hdead Hmax Hticks;
    (destruct ticks as [|ticks]; [lia|]); cbn [keepAlive]; unfold prog_bind at 1, call, server, update;
    run_conn; (destruct (lib_error (events (fget w)) (EKeepAlive sshConn)) eqn:El; [|by apply Hdead in El]).
  - rewrite decide_True by lia. run_conn. eexists. split; [done|]. rewrite fget_fset. cbn.
    by rewrite <-app_assoc.
  - rewrite decide_False by lia.
    destruct (IH (missed + 1) (fset (add_event (EKeepAlive sshConn) (fget w)) w) ticks Hdead ltac:(lia) ltac:(lia))
      as (w' & E & Ev).
    exists w'. split; [done|]. rewrite Ev, fget_fset. cbn. by rewrite <-app_assoc.
Qed.
End keepalive.

(** ** Instances *)

Definition demo_cfg : SSHConfig := MkSSHConfig "0.0.0.0:2222" "SSH-2.0-ContainerSSH" [] [] [] "" [] 0 3.

Definition demo_password : list byte := String.list_byte_of_string "secret".

(** A network connection handler that knows one password. *)
Definition demo_network : NetworkConnectionHandler serverImpl :=
  {| OnAuthPassword := λ p pw,
       prog_ret (if decide (pw = demo_password) then (AuthResponseSuccess, Authenticated p (Username p), None)
                 else (AuthResponseFailure, AuthFailed p, None));
     OnAuthPubKey := λ p _, prog_ret (AuthResponseFailure, AuthFailed p, None);
     OnAuthKeyboardInteractive := λ p _, prog_ret (AuthResponseFailure, AuthFailed p, None);
     OnAuthGSSAPI := λ _, prog_ret None;
     OnHandshakeFailed := λ _ _, prog_ret tt;
     OnHandshakeSuccess := λ md, prog_ret (Some nil_SSHConnectionHandler, md, None);
     OnDisconnect := prog_ret tt;
     OnNetShutdown := λ _, prog_ret tt |}.

Definition demo_handler : Handler serverImpl :=
  {| OnReady := prog_ret None; OnHandlerShutdown := λ _, prog_ret tt;
     OnNetworkConnection := λ m, prog_ret (Some demo_network, m, None) |}.

(** A client that sends one password. *)
Definition demo_handshake {W} (password : list byte) (config : ServerConfig W unit)
  : prog W ((nat * option Permissions) + error) :=
  let* '(perms, err) := PasswordCallback config (MkConnMetadata "alice" "SSH-2.0-OpenSSH_9.6") password in
  prog_ret (match err with None => inl (3%nat, perms) | Some e => inr e end).

Lemma demo_handshake_granted {W} password (config : ServerConfig W unit) w sshConn perms w' :
  demo_handshake password config w = Done (inl (sshConn, perms), w') → callback_granted config perms.
Proof.
  unfold demo_handshake, prog_bind. intros E.
  exists (MkConnMetadata "alice" "SSH-2.0-OpenSSH_9.6"), w.
  destruct (PasswordCallback config _ password w) as [[[p [er|]] wx]| |] eqn:Ep; try done.
  injection E as <- <- <-. exists wx. left. by exists password.
Qed.

Definition demo_addr : RemoteAddress := MkRemoteAddress ["192"; "000"; "002"; "007"]%byte 54022.

Definition demo_run (password : list byte) : outcome (option established * serverImpl) :=
  handleConnection (λ _ _, None) demo_IP_String demo_ParseIP (λ _ : unit, "") demo_cfg []
    (demo_handshake password) demo_handler 1 demo_addr "c1" (set_wg 1 New).

Lemma sessions_need_authentication_witness :
  ∃ e w', demo_run demo_password = Done (Some e, w') ∧
    ∃ md, login_accepted (λ _ : unit, "") (est_network e)
            (MkConnectionMetadata demo_addr "c1" (Some ∅) (Some ∅) (Some ∅)) md ∧
      Unmarshal demo_ParseIP (Marshal demo_IP_String md) = Done (inl (est_metadata e)).
Proof.
  destruct (demo_run demo_password) as [[[e|] w']| |] eqn:E;
    [|exfalso; vm_compute in E; discriminate..].
  exists e, w'. split; [reflexivity|].
  destruct (sessions_need_authentication (W:=serverImpl) (λ _ _, None) demo_IP_String demo_ParseIP (λ _ : unit, "")
    demo_cfg [] (demo_handshake demo_password) demo_handler 1 demo_addr "c1" (set_wg 1 New) e w')
    as (h & meta & w1 & md & w2 & w3 & hsc & m2 & E1 & E2 & Hl & Hm & _).
  - intros config w sshConn perms w'' _. apply demo_handshake_granted.
  - exact E.
  - exists md. split; [|exact Hm]. injection E1 as <- <- <-. exact Hl.
Defined.

#[export] Instance demo_network_keeping : KeepingNetwork demo_network.
Proof. split; intros; intros w; by eexists _, w. Qed.

(** A handshake that ends with the permissions of the demonstration user. *)
Definition demo_granted (config : ServerConfig serverImpl unit)
  : prog serverImpl ((nat * option Permissions) + error) :=
  prog_ret (inl (3%nat, (grant demo_IP_String demo_authenticated).1)).

(** A client that leaves at once: if it does so before the SSH handler is
    registered, that registration is left behind. *)
Lemma connection_bookkeeping_witness :
  ∃ e w' w1 w2,
    accept_start (λ _ _, None) demo_IP_String demo_ParseIP (λ _ : unit, "") demo_cfg [] demo_granted demo_handler
      1 demo_addr "c1" New = Done (Some e, w') ∧
    (registered_after 0 "c1" e w' = Done (tt, w1) ∧ wg w1 = 0 ∧ shutdownHandlers w1 = ∅ ∧ connMap w1 !! "c1" = Some (est_conn e)) ∧
    (registered_after 4 "c1" e w' = Done (tt, w2) ∧ wg w2 = 0 ∧ shutdownHandlers w2 = {[ ssh_key "c1" := SSHShutdown "c1" ]}).
Proof.
  pose proof (connection_bookkeeping (W:=serverImpl) (λ _ _, None) demo_IP_String demo_ParseIP (λ _ : unit, "")
    demo_cfg [] demo_granted demo_handler 1 demo_addr "c1" New) as H.
  destruct H as (r & w' & E & H).
  - intros config w. eexists _, w. split; [reflexivity|]. split; [reflexivity|].
    intros conn perms [= <- <-]. exists demo_authenticated. eexists. split; [reflexivity|]. vm_compute. reflexivity.
  - intros meta w. eexists _, _, _, w. split; [reflexivity|]. split; [reflexivity|]. intros _. exact demo_network_keeping.
  - reflexivity.
  - reflexivity.
  - split; reflexivity.
  - destruct r as [e|]; [|exfalso; vm_compute in E; discriminate].
    destruct H as [_ H]. destruct (H 0%nat) as (w1 & A1 & A2 & A3 & A4 & _), (H 4%nat) as (w2 & B1 & B2 & B3 & _).
    exists e, w', w1, w2. split; [exact E|]. split; [exact (conj A1 (conj A2 (conj A3 A4)))|exact (conj B1 (conj B2 B3))].
Defined.

Lemma failed_start_is_final_witness :
  ∃ w2,
    RunWithLifecycle_start (λ _ _, None) demo_cfg
      (MkHandler serverImpl (prog_ret (Some (ErrorString "not ready"))) (λ _, prog_ret tt) (OnNetworkConnection demo_handler))
      None (add_event EListenClose (set_listenSocket true New))
    = Done (Some (MsgError (NewMessage ESSHAlreadyRunning "SSH server is already running" [])), w2).
Proof.
  apply (failed_start_is_final (W:=serverImpl) (λ _ _, None) demo_cfg
      (MkHandler serverImpl (prog_ret (Some (ErrorString "not ready"))) (λ _, prog_ret tt) (OnNetworkConnection demo_handler))
      New (ErrorString "not ready") (add_event EListenClose (set_listenSocket true New)) None).
  - intros w. by exists w.
  - reflexivity.
  - reflexivity.
  - reflexivity.
Defined.
