(* ===== verification/KerberosSpec.v ===== *)
(** * What Kerberos authentication guarantees

    Theorems on [Kerberos] and the server's side of GSSAPI logins
    ([ServerConnection]): who is let in after a conversation, and under which name;
    what becomes of a login with a password. *)

From stdpp Require Import base gmap strings list.
From Stdlib Require Import Strings.Byte.
From S2P Require Import Prelude Messages Metadata MetadataJSON Handler ConfigHTTP ConfigAuth Http AuthIntegration Webhook Kerberos.
From S2P Require Import ServerStore ServerConnection.

Local Open Scope Z_scope.

(** ** GSSAPI conversations *)

Section conversations.
Context {W Keytab KrbConfig Token APReq Key MICToken Delegation Login CCache : Type}.
Context (krb : @KerberosLibrary W Keytab KrbConfig Token APReq Key MICToken Delegation Login CCache).
Context `{!Field W (list (@kerberosAuthContext Keytab KrbConfig Key))}.
Abbreviation accepted := (list byte * string * bool * option error)%type.
Abbreviation kclient := (@kerberosAuthClient Keytab KrbConfig).
Abbreviation kcontext := (@kerberosAuthContext Keytab KrbConfig Key).
Abbreviation contexts w := (fget (S := list kcontext) w).

(** The library does not touch the contexts of this package. *)
Record quiet_library : Prop := {
  quiet_token kt skew st w : wlp (token_Verify krb kt skew st) w (λ _ w', contexts w' = contexts w);
  quiet_request kt skew addr acc a w : wlp (APReq_Verify krb kt skew addr acc a) w (λ _ w', contexts w' = contexts w);
}.
Context (Hquiet : quiet_library).

(** The library has found a token good, and [p] in it. *)
Definition names (c : kclient) (token : list byte) (p : string) (a : APReq) : Prop :=
  ∃ st w1 w2, token_Unmarshal krb token = inl st ∧
    token_Verify krb (kl_keytab c) (krb_ClockSkew (kl_config c)) st w1 = Done (true, Some p, a, w2).

(** It has also found the request in it good: for this server and this client. *)
Definition verified_request (c : kclient) (addr token : list byte) (p : string) (a' : APReq) : Prop :=
  ∃ a w1 w2, names c token p a ∧
    APReq_Verify krb (kl_keytab c) (krb_ClockSkew (kl_config c)) (HostAddressFromNetIP krb addr) (acceptor c) a w1 = Done (true, None, a', w2).

(** The library has found the signature of a login request as [user] good. *)
Definition signed (key : Key) (micField micToken : list byte) (user : string) : Prop :=
  ∃ t field, mic_Unmarshal krb micToken = inl t ∧ mic_Verify krb key micField t = (true, None) ∧
    micField_Unmarshal krb micField = inl field ∧ mic_Request field = SSH_MSG_USERAUTH_REQUEST ∧
    mic_Service field = "ssh-connection" ∧ mic_Method field = "gssapi-with-mic" ∧ mic_UserName field = user.

(** The conversation at [i], and what of it never changes. *)
Definition talking (i : nat) (c : kclient) (addr : list byte) (k : kcontext) (w : W) : Prop :=
  contexts w !! i = Some k ∧ kc_client k = Some c ∧ kc_remoteAddr k = addr.

Lemma talking_update i c addr k f w :
  kc_client (f k) = kc_client k → kc_remoteAddr (f k) = kc_remoteAddr k → talking i c addr k w →
  wlp (update_context i f) w (λ _ w', talking i c addr (f k) w').
Proof.
  intros Hc Ha (Hi & Hk & Haddr). unfold wlp, update_context, talking. rewrite fget_fset, list_lookup_alter_eq, Hi. cbn. by rewrite Hc, Ha.
Qed.

Lemma talking_at {A} i c addr k (f : kcontext → prog W A) w Q :
  talking i c addr k w → wlp (f k) w Q → wlp (let* k := context_at i in f k) w Q.
Proof. intros (Hi & _) H. apply wlp_bind. unfold wlp at 1, context_at. by rewrite Hi. Qed.

Lemma talking_quiet i c addr k w w' : talking i c addr k w → contexts w' = contexts w → talking i c addr k w'.
Proof. unfold talking. by intros H ->. Qed.

(** What the answer to a verified request leaves. *)
Lemma answer_token_talks i c addr k a w : talking i c addr k w →
  wlp (answer_token krb i a) w (λ _ w', ∃ k', talking i c addr k' w' ∧ kc_success k' = kc_success k ∧ loginUsername k' = loginUsername k ∧
    principalUsername k' = principalUsername k ∧ kc_key k' = SubKey krb a).
Proof.
  intros Hk. unfold answer_token. apply wlp_bind. eapply wlp_mono; [by apply (talking_update i c addr k)|]. intros [] w1 H1.
  assert (∃ k', talking i c addr k' w1 ∧ kc_success k' = kc_success k ∧ loginUsername k' = loginUsername k ∧
    principalUsername k' = principalUsername k ∧ kc_key k' = SubKey krb a) as Hset by (by eexists).
  destruct (NewAPRep krb a); [by apply wlp_ret|]. destruct (reply_Marshal krb a); [|by apply wlp_ret].
  destruct (delegated_credentials krb a) as [[mar|]|r]; [| |by apply wlp_ret].
  - apply wlp_bind. eapply wlp_mono; [by eapply (talking_update i c addr)|]. intros [] w2 H2.
    eapply talking_at; [exact H2|]. apply wlp_ret. by eexists.
  - apply wlp_bind, wlp_ret. eapply talking_at; [exact H1|]. by apply wlp_ret.
Qed.

(** What accepting a token does to a conversation. *)
Definition after_token (c : kclient) (addr token : list byte) (k : kcontext) (r : accepted) (k' : kcontext) : Prop :=
  kc_success k' = kc_success k ∧ loginUsername k' = loginUsername k ∧
  ((principalUsername k' = principalUsername k ∧ kc_key k' = kc_key k ∧ r.2 ≠ None) ∨
   (∃ a, names c token (principalUsername k') a) ∧
   (kc_key k' = kc_key k ∧ r.2 ≠ None ∨ ∃ a, verified_request c addr token (principalUsername k') a ∧ kc_key k' = SubKey krb a)).

Lemma AcceptSecContext_talks i c addr k token w : talking i c addr k w →
  wlp (AcceptSecContext krb i token) w (λ r w', ∃ k', talking i c addr k' w' ∧ after_token c addr token k r k').
Proof.
  intros Hk. unfold AcceptSecContext, after_token. destruct (token_Unmarshal krb token) as [st|err] eqn:Hst; [|apply wlp_ret; exists k; naive_solver].
  eapply talking_at; [exact Hk|]. destruct Hk as (Hi & Hc & Ha). rewrite Hc. assert (talking i c addr k w) as Hk by done.
  apply wlp_bind. pose proof (quiet_token Hquiet (kl_keytab c) (krb_ClockSkew (kl_config c)) st w) as Hq. unfold wlp at 1. unfold wlp in Hq.
  destruct (token_Verify _ _ _ _ _) as [[[[verified id] a] w1]| |] eqn:Hv; [|done..]. eapply talking_quiet in Hq; [|exact Hk].
  destruct verified; cbn [negb]; [|apply wlp_ret; exists k; naive_solver]. destruct id as [p|]; [|done].
  apply wlp_bind. eapply wlp_mono; [by apply (talking_update i c addr k)|]. intros [] w2 H2.
  assert (names c token p a) as Hn by (by exists st, w, w1).
  apply wlp_bind. rewrite Ha.
  pose proof (quiet_request Hquiet (kl_keytab c) (krb_ClockSkew (kl_config c)) (HostAddressFromNetIP krb addr) (acceptor c) a w2) as Hq2.
  unfold wlp at 1. unfold wlp in Hq2. destruct (APReq_Verify _ _ _ _ _ _ _) as [[[[ok err] a'] w3]| |] eqn:Hr; [|done..].
  eapply talking_quiet in Hq2; [|exact H2].
  assert (∀ r : accepted, r.2 ≠ None → ∃ k', talking i c addr k' w3 ∧ after_token c addr token k r k') as Hkeep.
  { intros r Hne. eexists. split; [exact Hq2|]. split_and!; [done..|]. right. split; [by exists a|]. by left. }
  destruct err; [by apply wlp_ret, Hkeep|]. destruct ok; cbn [negb]; [|by apply wlp_ret, Hkeep].
  eapply wlp_mono; [by eapply answer_token_talks|]. intros r w4 (k' & H' & Hs & Hl & Hp & Hkey). exists k'. split; [done|]. split_and!; [done..|].
  right. rewrite Hp. split; [by exists a|]. right. exists a'. split; [|done]. by exists a, w2, w3.
Qed.

(** What verifying a signature does. *)
Definition after_mic (c : kclient) (micField micToken : list byte) (k : kcontext) (err : option error) (k' : kcontext) : Prop :=
  kc_key k' = kc_key k ∧ principalUsername k' = principalUsername k ∧
  match err with
  | Some _ => k' = k
  | None => kc_success k' = true ∧ signed (kc_key k) micField micToken (loginUsername k') ∧
      (krb_EnforceUsername (kl_config c) = true → loginUsername k' = principalUsername k)
  end.

Lemma VerifyMIC_talks i c addr k micField micToken w : talking i c addr k w →
  wlp (VerifyMIC krb i micField micToken) w (λ err w', ∃ k', talking i c addr k' w' ∧ after_mic c micField micToken k err k').
Proof.
  intros Hk. assert (∀ err : error, ∃ k', talking i c addr k' w ∧ after_mic c micField micToken k (Some err) k') as Hkeep by (by exists k).
  unfold VerifyMIC. destruct (mic_Unmarshal krb micToken) as [t|err] eqn:Ht; [|by apply wlp_ret].
  eapply talking_at; [exact Hk|]. destruct (mic_Verify krb (kc_key k) micField t) as [[|] [err|]] eqn:Hv; [by apply wlp_ret| |by apply wlp_ret..].
  destruct (micField_Unmarshal krb micField) as [field|err] eqn:Hf; [|by apply wlp_ret].
  case_decide as Hvals; [by apply wlp_ret|]. assert (kc_client k = Some c) as -> by apply Hk. case_decide as Henf; [by apply wlp_ret|].
  apply wlp_bind. eapply wlp_mono; [by apply (talking_update i c addr k)|]. intros [] w1 H1. apply wlp_ret. eexists. split; [exact H1|].
  split_and!; [done..| |].
  - exists t, field. split_and!; [done..| | | |done].
    + destruct (decide (mic_Request field = SSH_MSG_USERAUTH_REQUEST)); [done|]. destruct Hvals. by left.
    + destruct (decide (mic_Service field = "ssh-connection")); [done|]. destruct Hvals. auto.
    + destruct (decide (mic_Method field = "gssapi-with-mic")); [done|]. destruct Hvals. auto.
  - intros He. cbn. destruct (decide (mic_UserName field = principalUsername k)); [done|]. by destruct Henf.
Qed.

(** What a context says about a login. *)
Lemma AllowLogin_decides (c : kclient) (k : kcontext) username meta r : kc_client k = Some c →
  kerberos_AllowLogin k username meta = Done r →
  r.2 = None ∧
  (r.1 = Authenticated meta username ∧ kc_success k = true ∧ loginUsername k = username ∧
     (krb_EnforceUsername (kl_config c) = true → username = principalUsername k) ∨
   r.1 = AuthFailed meta ∧ (kc_success k = false ∨ loginUsername k ≠ username ∨
     krb_EnforceUsername (kl_config c) = true ∧ username ≠ principalUsername k)).
Proof.
  intros Hc. unfold kerberos_AllowLogin, kerberos_Success. rewrite Hc. destruct (kc_success k); cbn [negb]; [|intros [= <-]; auto].
  case_decide as Hl; [intros [= <-]; auto 6|]. case_decide as He; intros [= <-]; [by auto 7|].
  split; [done|]. left. split_and!; [done..|]. intros Henf. destruct (decide (username = principalUsername k)); [done|]. by destruct He.
Qed.

(** *** In any order *)

Inductive kerberos_call := CallAccept (token : list byte) | CallMIC (micField micToken : list byte).

Fixpoint run_calls (i : nat) (l : list kerberos_call) : prog W unit :=
  match l with
  | [] => prog_ret tt
  | CallAccept token :: l => do* AcceptSecContext krb i token in run_calls i l
  | CallMIC f t :: l => do* VerifyMIC krb i f t in run_calls i l
  end.

(** Keys come from tickets, or nowhere. *)
Definition from_tickets (c : kclient) (addr : list byte) (no_key key : Key) (l : list kerberos_call) : Prop :=
  key = no_key ∨ ∃ token p a, CallAccept token ∈ l ∧ verified_request c addr token p a ∧ key = SubKey krb a.

(** What a conversation knows after some calls. *)
Definition knows (c : kclient) (addr : list byte) (no_key : Key) (l : list kerberos_call) (k : kcontext) : Prop :=
  from_tickets c addr no_key (kc_key k) l ∧
  (principalUsername k = "" ∨ ∃ token a, CallAccept token ∈ l ∧ names c token (principalUsername k) a) ∧
  (kc_success k = true → ∃ f t key, CallMIC f t ∈ l ∧ from_tickets c addr no_key key l ∧ signed key f t (loginUsername k)).

Lemma knows_more c addr no_key l l' k : knows c addr no_key l k → knows c addr no_key (l ++ l') k.
Proof.
  assert (∀ x, x ∈ l → x ∈ l ++ l') as Hin by set_solver. unfold knows, from_tickets. intros (Hk & Hp & Hs). split_and!; [naive_solver..|].
  intros H. destruct (Hs H) as (f & t & key & ? & Hkey & ?). exists f, t, key. split_and!; [auto| |done]. naive_solver.
Qed.

Lemma knows_token c addr no_key l token k r k' :
  after_token c addr token k r k' → knows c addr no_key l k → knows c addr no_key (l ++ [CallAccept token]) k'.
Proof.
  intros (Hs & Hl & H) Hk. apply (knows_more _ _ _ _ [CallAccept token]) in Hk as (Hkey & Hp & Hsig). unfold knows. rewrite Hs, Hl.
  assert (CallAccept token ∈ l ++ [CallAccept token]) as Hin by set_solver.
  destruct H as [(-> & -> & _)|((a & Hn) & H)]; [done|]. split_and!; [|by eauto|done].
  destruct H as [(-> & _)|(a' & Hr & ->)]; [done|]. right. eauto 6.
Qed.

Lemma knows_mic c addr no_key l f t k err k' :
  after_mic c f t k err k' → knows c addr no_key l k → knows c addr no_key (l ++ [CallMIC f t]) k'.
Proof.
  intros (Hkey & Hp & H) Hk. apply (knows_more _ _ _ _ [CallMIC f t]) in Hk as Hk'. destruct err; [by subst k'|].
  destruct H as (Hs & Hsig & _), Hk' as (Hk1 & Hk2 & _). unfold knows. rewrite Hkey, Hp. split_and!; [done..|].
  intros _. exists f, t, (kc_key k). split_and!; [set_solver|done..].
Qed.

Lemma run_calls_know c addr no_key i l l0 k w : talking i c addr k w → knows c addr no_key l0 k →
  wlp (run_calls i l) w (λ _ w', ∃ k', talking i c addr k' w' ∧ knows c addr no_key (l0 ++ l) k').
Proof.
  revert l0 k w. induction l as [|[token|f t] l IH]; intros l0 k w Hk Hkn; cbn [run_calls].
  - apply wlp_ret. exists k. by rewrite app_nil_r.
  - apply wlp_bind. eapply wlp_mono; [by apply (AcceptSecContext_talks i c addr k)|]. intros r w1 (k1 & H1 & Ha).
    rewrite (cons_middle (CallAccept token)), (assoc_L app). eapply IH; [done|by eapply knows_token].
  - apply wlp_bind. eapply wlp_mono; [by apply (VerifyMIC_talks i c addr k)|]. intros r w1 (k1 & H1 & Ha).
    rewrite (cons_middle (CallMIC f t)), (assoc_L app). eapply IH; [done|by eapply knows_mic].
Qed.

(** In whatever order a new conversation is used: [AllowLogin] lets a user in only
    under a name that was signed for in the conversation, with the key of a request
    the library has verified or the zero key; if names are enforced, a token the
    library has verified named the user. *)
Theorem kerberos_allows_signed_logins c no_key meta0 l w username meta :
  username ≠ "" → authType c = AuthenticationTypeGSSAPI →
  wlp (let* i' := GSSAPI no_key c meta0 in do* run_calls i' l in prog_ret i') w
    (λ i' w', ∀ k r, contexts w' !! i' = Some k → kerberos_AllowLogin k username meta = Done r → AuthenticatedUsername r.1 ≠ "" →
       r.1 = Authenticated meta username ∧
       (∃ f t key, CallMIC f t ∈ l ∧ from_tickets c (IP (RemoteAddr meta0)) no_key key l ∧ signed key f t username) ∧
       (krb_EnforceUsername (kl_config c) = true → ∃ token a, CallAccept token ∈ l ∧ names c token username a)).
Proof.
  intros Hne Htype. set (addr := IP (RemoteAddr meta0)). unfold GSSAPI. rewrite decide_False by (by intros [? _]).
  apply wlp_bind. unfold wlp at 1, new_kerberos_context.
  set (k0 := MkKerberosAuthContext (Some c) addr no_key "" "" None no_metadata false None).
  set (w1 := fset (contexts w ++ [k0]) w).
  assert (talking (length (contexts w)) c addr k0 w1) as H1.
  { unfold talking, w1. rewrite fget_fset. split; [by apply list_lookup_middle|done]. }
  apply wlp_bind. eapply wlp_mono; [apply (run_calls_know c addr no_key _ l [] k0 w1 H1)|].
  { split_and!; [by left|by left|done]. }
  intros [] w2 (k2 & H2 & _ & Hp & Hs). apply wlp_ret. intros k r Hk Hr Hu. destruct H2 as (H2 & Hc & _).
  assert (k = k2) as -> by congruence. destruct (AllowLogin_decides c k2 _ _ r Hc Hr) as [_ [(Hr1 & Hsucc & <- & He)|(Hr1 & _)]]; [|by rewrite Hr1 in Hu].
  split; [done|]. split; [by apply Hs|]. intros Henf. rewrite (He Henf). destruct Hp as [Hp|Hp]; [|done]. rewrite (He Henf), Hp in Hne. done.
Qed.
(** *** In the order of the SSH library

    The library asks for the verdict on a token, then on the signature of the
    request it has seen, then for the permissions of the connection. *)
Definition gssapi_exchange (s : GSSAPIServer W) (AllowLogin : string → prog W callback_result) (token micField micToken : list byte)
  : prog W (option callback_result) :=
  let* '(_, srcName, _, err) := gss_AcceptSecContext s token in
  match err with
  | Some _ => prog_ret None
  | None =>
      let* err := gss_VerifyMIC s micField micToken in
      match err with
      | Some _ => prog_ret None
      | None => let* r := AllowLogin srcName in do* gss_DeleteSecContext s in prog_ret (Some r)
      end
  end.

Context `{!Field W serverImpl} (IP_String : list byte → string).

(** What is known of a client that has permissions. *)
Definition kerberos_proved (c : kclient) (addr token micField micToken : list byte) (user : string) : Prop :=
  ∃ p a, verified_request c addr token p a ∧ signed (SubKey krb a) micField micToken user ∧
    (krb_EnforceUsername (kl_config c) = true → user = p).

(** Claim C8. A client that gets permissions after the conversation has a ticket for this
    server, and has signed its login with the key in it; if names are enforced, the
    ticket has the name it has signed.  The permissions are those of this name, or,
    if the login is for another, those of nobody: the refusal of [AllowLogin] is not
    one to the server. *)
Theorem kerberos_login_is_verified c addr i k token micField micToken meta conn w :
  talking i c addr k w →
  wlp (gssapi_exchange (kerberos_server krb i) (gssapi_AllowLogin IP_String meta (kerberos_server krb i) conn) token micField micToken) w
    (λ r _, ∀ perms, r = Some (Some perms, None) →
       ∃ user, kerberos_proved c addr token micField micToken user ∧
         let pending := StartAuthentication meta (conn_ClientVersion conn) (conn_User conn) in
         (Some perms, None) = grant IP_String (if decide (user = conn_User conn) then Authenticated pending user else AuthFailed pending)).
Proof.
  intros Hk. unfold gssapi_exchange. apply wlp_bind. eapply wlp_mono; [by apply (AcceptSecContext_talks i c addr k)|].
  intros [[[out src] more] [err|]] w1 (k1 & H1 & _ & _ & Ha); [by apply wlp_ret|].
  destruct Ha as [(_ & _ & ?)|[_ [(_ & ?)|(a & Hr & Hkey)]]]; [done|done|].
  apply wlp_bind. eapply wlp_mono; [by eapply (VerifyMIC_talks i c addr k1)|]. intros [err|] w2 (k2 & H2 & Hkey2 & Hp2 & Hm); [by apply wlp_ret|].
  destruct Hm as (Hs & Hsig & Henf). apply wlp_bind. unfold gssapi_AllowLogin. cbn [gss_Success gss_AllowLogin kerberos_server].
  apply wlp_bind. eapply talking_at; [exact H2|]. apply wlp_ret. unfold kerberos_Success. rewrite Hs. cbn [negb].
  apply wlp_bind. eapply talking_at; [exact H2|]. unfold wlp.
  unfold of_outcome. destruct (kerberos_AllowLogin k2 _ _) as [r| |] eqn:Hr2; [|done..]. assert (kc_client k2 = Some c) as Hc by apply H2.
  destruct (AllowLogin_decides c k2 _ _ r Hc Hr2) as [Herr Hdec]. destruct r as [m err]. cbn in Herr. subst err. cbn.
  intros perms [= <-]. exists (loginUsername k2). split; [|].
  - exists (principalUsername k1), a. rewrite Hkey in Hsig. by split_and!.
  - cbn in Hdec. destruct Hdec as [(-> & _ & <- & _)|(-> & Hno)]; [by rewrite decide_True|].
    rewrite decide_False; [done|]. intros He. destruct Hno as [?|[?|[Hen Hne]]]; [congruence|done|]. apply Hne. rewrite <- He, Hp2. auto.
Qed.
End conversations.

(** ** Logins with a password *)

Section passwords.
Context {W Keytab KrbConfig Token APReq Key MICToken Delegation Login CCache : Type}.
Context (krb : @KerberosLibrary W Keytab KrbConfig Token APReq Key MICToken Delegation Login CCache) (no_key : Key).
Context (c : @kerberosAuthClient Keytab KrbConfig) (conf : KrbConfig).
Context (Htype : authType c = AuthenticationTypePassword) (Hconf : clientConf c = Some conf).

(** What is left of a login: the credentials as a file, and nothing of the connection. *)
Definition nobody_with (credentials : list byte) : ConnectionAuthenticatedMetadata :=
  let path := krb_CredentialCachePath (kl_config c) in
  if decide (path = "") then no_metadata
  else
    MkAuthenticated
      (MkAuthPending
         (MkConnectionMetadata (MkRemoteAddress [] 0) "" None (Some {[ "KRB5CCNAME" := MkValue ("FILE:" ++ path) false ]})
            (Some {[ path := MkBinaryValue credentials true ]})) "" "") "".

(** The credentials the Kerberos server has issued for a password. *)
Definition issued (meta : ConnectionAuthPendingMetadata) (password : list byte) (w w' : W) (credentials : list byte) : Prop :=
  ∃ cl ccache, client_Login krb conf (Username meta) (DefaultRealm krb conf) password w = Done (inl cl, w') ∧
    GetCCache krb cl = inl ccache ∧ ccache_Marshal krb ccache = inl credentials.

(** A password is accepted exactly if the Kerberos server issues credentials for it
    that can be stored; every other login fails with an error.  What is reported about
    an accepted login is the file with these credentials: the user, the connection and
    its address are lost. *)
Theorem kerberos_password_login ref meta password w :
  wlp (kerberos_authenticator krb no_key ref c meta password) w (λ ctx w',
    (ctx_Success ctx = true ↔ ∃ credentials, issued meta password w w' credentials) ∧
    (ctx_Success ctx = true → ctx_Error ctx = None ∧ ∃ credentials, issued meta password w w' credentials ∧ ctx_Metadata ctx = nobody_with credentials) ∧
    (ctx_Success ctx = false → is_Some (ctx_Error ctx) ∧ ctx_Metadata ctx = no_metadata)).
Proof.
  unfold kerberos_authenticator, kerberos_Password, issued. rewrite Htype, Hconf, decide_False by (by intros [? _]).
  apply wlp_bind, wlp_bind. unfold wlp at 1.
  assert (∀ err w', (¬ ∃ credentials, issued meta password w w' credentials) →
    wlp (prog_ret (password_failed no_key c err)) w' (λ r w', wlp (prog_ret (kerberos_context ref r)) w' (λ ctx w',
    (ctx_Success ctx = true ↔ ∃ credentials, issued meta password w w' credentials) ∧
    (ctx_Success ctx = true → ctx_Error ctx = None ∧ ∃ credentials, issued meta password w w' credentials ∧ ctx_Metadata ctx = nobody_with credentials) ∧
    (ctx_Success ctx = false → is_Some (ctx_Error ctx) ∧ ctx_Metadata ctx = no_metadata)))) as Hfail.
  { intros err w' Hno. apply wlp_ret, wlp_ret. cbn. split_and!; [split; [done|]; by intros ?%Hno|done|eauto]. }
  unfold issued in Hfail.
  destruct (client_Login krb conf _ _ password w) as [[[cl|err] w1]| |] eqn:Hl; [|by apply Hfail; intros (? & ? & ? & [=] & _)|done..].
  destruct (GetCCache krb cl) as [ccache|err] eqn:Hg; [|by apply Hfail; intros (? & ? & ? & [= <-] & ? & _); congruence].
  destruct (ccache_Marshal krb ccache) as [mar|err] eqn:Hm; [|by apply Hfail; intros (? & ? & ? & [= <-] & ? & ?); congruence].
  unfold kerberos_AllowLogin. cbn [kerberos_Success kc_success negb loginUsername principalUsername kc_client].
  rewrite decide_False by auto. rewrite decide_False by (by intros [_ ?]).
  apply wlp_bind. unfold wlp at 1, of_outcome. apply wlp_ret, wlp_ret. split; [split; [|done]|split; [|done]].
  { intros _. by exists mar, cl, ccache. }
  intros _. split; [done|]. exists mar. split; [by exists cl, ccache|].
  unfold nobody_with. cbn. unfold kerberos_Metadata. cbn. repeat case_decide; done.
Qed.
End passwords.

(** ** A realm with one user *)

Module kerberos_demo.
Abbreviation demo_contexts := (list (@kerberosAuthContext unit unit nat)).
Abbreviation demo_world := (demo_contexts * serverImpl)%type.

(** Tokens and signatures are right when they are not empty; alice's password is right
    when it is not empty. *)
Definition realm : @KerberosLibrary demo_world unit unit (list byte) nat nat (list byte) unit unit unit := {|
  token_Unmarshal := inl;
  token_Verify _ _ st := prog_ret (bool_decide (st ≠ []), Some "alice", 7%nat);
  HostAddressFromNetIP ip := ip;
  APReq_Verify _ _ _ _ a := prog_ret (true, None, a);
  SubKey a := S a;
  reply_Marshal _ := inl ["r"%byte];
  NewAPRep _ := None;
  GetCredDelegation _ := inl None;
  KRBCred_Unmarshal _ := inl tt;
  DecryptEncPart _ _ := inl tt;
  ToCredentials _ := inl tt;
  ccache_Marshal _ := inl ["c"%byte];
  mic_Unmarshal := inl;
  mic_Verify key _ t := (bool_decide (key = 8%nat ∧ t ≠ []), None);
  micField_Unmarshal f := inl (MkGSSAPIMicField "s" 50 (String.string_of_list_byte f) "ssh-connection" "gssapi-with-mic");
  DefaultRealm _ := "EXAMPLE.COM";
  client_Login _ _ _ password := prog_ret (if decide (password = []) then inr (ErrorString "KDC_ERR_PREAUTH_FAILED") else inl tt);
  GetCCache _ := inl tt |}.

Lemma realm_quiet : quiet_library realm.
Proof. by split. Qed.

Definition demo_config : AuthKerberosClientConfig := MkAuthKerberosClientConfig "/etc/krb5.keytab" "any" true "/tmp/krb5cc" "" (300 * Second).
Definition demo_client (type : string) : @kerberosAuthClient unit unit := MkKerberosAuthClient demo_config tt (Some tt) None type.
Definition pending : ConnectionAuthPendingMetadata := auth_pending demo_authenticated.
Definition address : list byte := ["192"; "000"; "002"; "007"]%byte.
Definition demo_context : @kerberosAuthContext unit unit nat :=
  MkKerberosAuthContext (Some (demo_client "gssapi")) address 0%nat "" "" None no_metadata false None.
Definition started : demo_world := ([demo_context], New).
Definition as_string (_ : list byte) : string := "192.0.2.7".

Abbreviation demo_exchange user :=
  (gssapi_exchange (kerberos_server realm 0)
     (gssapi_AllowLogin as_string (pending_conn pending) (kerberos_server realm 0) (MkConnMetadata user "SSH-2.0-OpenSSH_9.6"))
     ["t"%byte] (String.list_byte_of_string "alice") ["m"%byte]).

Lemma kerberos_login_is_verified_witness :
  talking 0 (demo_client "gssapi") address demo_context started ∧
  wlp (demo_exchange "alice") started
    (λ r _, ∀ perms, r = Some (Some perms, None) →
       ∃ user, kerberos_proved realm (demo_client "gssapi") address ["t"%byte] (String.list_byte_of_string "alice") ["m"%byte] user ∧
         let pending := StartAuthentication (pending_conn pending) "SSH-2.0-OpenSSH_9.6" "alice" in
         (Some perms, None) = grant as_string (if decide (user = "alice") then Authenticated pending user else AuthFailed pending)).
Proof.
  assert (talking 0 (demo_client "gssapi") address demo_context started) as H by done. split; [exact H|].
  exact (kerberos_login_is_verified realm realm_quiet as_string (demo_client "gssapi") address 0 demo_context ["t"%byte]
    (String.list_byte_of_string "alice") ["m"%byte] (pending_conn pending) (MkConnMetadata "alice" "SSH-2.0-OpenSSH_9.6") started H).
Defined.

Definition permissions (r : outcome (option callback_result * demo_world)) : option callback_result :=
  match r with Done (r, _) => r | _ => None end.

(** Alice gets in; a login as root with her signature is served for nobody. *)
Example alice_gets_in : permissions (demo_exchange "alice" started) =
  Some (grant as_string (Authenticated (StartAuthentication (pending_conn pending) "SSH-2.0-OpenSSH_9.6" "alice") "alice")).
Proof. vm_compute. reflexivity. Qed.
Example root_is_not_refused : permissions (demo_exchange "root" started) =
  Some (grant as_string (AuthFailed (StartAuthentication (pending_conn pending) "SSH-2.0-OpenSSH_9.6" "root"))).
Proof. vm_compute. reflexivity. Qed.

Definition conversation : list kerberos_call := [CallAccept ["t"%byte]; CallMIC (String.list_byte_of_string "alice") ["m"%byte]].

Lemma kerberos_allows_signed_logins_witness :
  wlp (let* i := GSSAPI 0%nat (demo_client "gssapi") (pending_conn pending) in do* run_calls realm i conversation in prog_ret i) started
    (λ i w, ∀ k r, fget (S := demo_contexts) w !! i = Some k → kerberos_AllowLogin k "alice" pending = Done r → AuthenticatedUsername r.1 ≠ "" →
       r.1 = Authenticated pending "alice" ∧
       (∃ f t key, CallMIC f t ∈ conversation ∧
          from_tickets realm (demo_client "gssapi") (IP (RemoteAddr (pending_conn pending))) 0%nat key conversation ∧ signed realm key f t "alice") ∧
       (krb_EnforceUsername demo_config = true → ∃ token a, CallAccept token ∈ conversation ∧ names realm (demo_client "gssapi") token "alice" a)).
Proof.
  exact (kerberos_allows_signed_logins realm realm_quiet (demo_client "gssapi") 0%nat (pending_conn pending) conversation started "alice" pending
    ltac:(discriminate) eq_refl).
Defined.

Lemma kerberos_password_login_witness :
  wlp (kerberos_authenticator realm 0%nat 0 (demo_client "password") pending ["p"%byte]) started (λ ctx w',
    (ctx_Success ctx = true ↔ ∃ credentials, issued realm tt pending ["p"%byte] started w' credentials) ∧
    (ctx_Success ctx = true → ctx_Error ctx = None ∧ ∃ credentials, issued realm tt pending ["p"%byte] started w' credentials ∧
       ctx_Metadata ctx = nobody_with (demo_client "password") credentials) ∧
    (ctx_Success ctx = false → is_Some (ctx_Error ctx) ∧ ctx_Metadata ctx = no_metadata)).
Proof.
  exact (kerberos_password_login realm 0%nat (demo_client "password") tt eq_refl eq_refl 0 pending ["p"%byte] started).
Defined.

Example password_login_forgets :
  match kerberos_authenticator realm 0%nat 0 (demo_client "password") pending ["p"%byte] started with
  | Done (ctx, _) => (ctx_Success ctx, AuthenticatedUsername (ctx_Metadata ctx), ConnectionID (pending_conn (auth_pending (ctx_Metadata ctx))))
  | _ => (false, "", "none")
  end = (true, "", "").
Proof. vm_compute. reflexivity. Qed.
End kerberos_demo.
