(* ===== verification/EndToEnd.v ===== *)
(** * From the login to the session

    The SSH server ([ServerConnection]) on top of the authentication layer
    ([AuthIntegration]): the property the two have together. *)

From stdpp Require Import base gmap strings list.
From Stdlib Require Import Strings.Byte.
From S2P Require Import Prelude Messages Metadata MetadataJSON Handler ConfigSSH AuthIntegration AuthSpec ServerStore ServerConnection ServerConnectionSpec.

Section chain_logins.
Context {W PublicKey : Type} `{!Field W (option AuthenticationContext)} `{!Field W (option AuthorizationResponse)}.
Context (MarshalAuthorizedKey : PublicKey → string) (ctx_OnDisconnect : nat → prog W unit) (h : authIntegration W).

(** The authenticator configured for a method ran and reported success, and the
    authorization provider, if there is one, accepted the result. *)
Definition authenticated_as (md : ConnectionAuthenticatedMetadata) : Prop :=
  ∃ meta r auth w1 ctx w2,
    authenticate h meta r = Some auth ∧ auth w1 = Done (ctx, w2) ∧ ctx_Success ctx = true ∧
    match ai_authz h with
    | None => md = ctx_Metadata ctx
    | Some Authorize =>
        ∃ w3 resp w4, Authorize (ctx_Metadata ctx) w3 = Done (resp, w4) ∧
          authz_Success resp = true ∧ md = authz_Metadata resp
    end.

(** The Kerberos conversation succeeded and allowed the login; there is no
    authorization provider. *)
Definition kerberos_as (md : ConnectionAuthenticatedMetadata) : Prop :=
  ai_authz h = None ∧
  ∃ authenticator meta w0 g w0' user pending w1 w2 w3,
    ai_gssapi h = Some authenticator ∧ authenticator meta w0 = Done (g, w0') ∧
    gss_Success g w1 = Done (true, w2) ∧ gss_AllowLogin g user pending w2 = Done ((md, None), w3).

Lemma attempt_login b meta r w md err w' :
  ai_behavior h = BehaviorNoPassthrough →
  auth_call (connection_chain ctx_OnDisconnect h b) meta r w = Done ((AuthResponseSuccess, md, err), w') →
  authenticated_as md.
Proof.
  intros Hb E. destruct (chain_login ctx_OnDisconnect h b b meta r w md err w' Hb E)
    as (_ & auth & w1 & ctx & w2 & H1 & H2 & H3 & H4).
  exists meta, r, auth, w1, ctx, w2. do 3 (split; [done|]).
  destruct (ai_authz h); [|by destruct H4]. destruct H4 as (resp & H4 & H5 & ->). by eexists _, _, _.
Qed.

(** A handler that lets somebody in as [md], by one of the four methods. *)
Definition logs_in (n : NetworkConnectionHandler W) (md : ConnectionAuthenticatedMetadata) : Prop :=
  (∃ pending r w err w', auth_call n pending r w = Done ((AuthResponseSuccess, md, err), w')) ∨
  (∃ meta g w0 w0' user pending w1 w2 w3, OnAuthGSSAPI n meta w0 = Done (Some g, w0') ∧
     gss_Success g w1 = Done (true, w2) ∧ gss_AllowLogin g user pending w2 = Done ((md, None), w3)).

Lemma login_accepted_logs_in n meta md : login_accepted MarshalAuthorizedKey n meta md → logs_in n md.
Proof.
  intros (conn & w1 & w2 & [(pw & err & E)|[(key & err & E)|[(ch & err & E)|(g & w0 & w0' & w3 & E)]]]).
  - left. by exists (StartAuthentication meta (conn_ClientVersion conn) (conn_User conn)), (AttemptPassword pw), w1, err, w2.
  - left. eexists _, (AttemptPubKey _), w1, err, w2. exact E.
  - left. eexists _, (AttemptKeyboard _), w1, err, w2. exact E.
  - right. by eexists _, _, _, _, _, _, _, _, _.
Qed.

(** Nobody gets through the chain of a connection otherwise. *)
Lemma chain_logs_in b md :
  ai_behavior h = BehaviorNoPassthrough → logs_in (connection_chain ctx_OnDisconnect h b) md → authenticated_as md ∨ kerberos_as md.
Proof.
  intros Hb [(pending & r & w & err & w' & E)|(meta & g & w0 & w0' & user & pending & w1 & w2 & w3 & Eg & Es & Ea)].
  - left. by eapply attempt_login.
  - right. unfold connection_chain in Eg. destruct (ai_authz h) as [Authorize|] eqn:Ez; cbn in Eg.
    + unfold authzNetworkConnectionHandler_OnAuthGSSAPI in Eg. run_prog. split_hyp Eg; try done.
      match goal with p : _ * _ |- _ => destruct p as [srv wa] end. injection Eg as <- <-.
      cbn in Ea. unfold authzGssApiServer_AllowLogin in Ea. run_prog.
      by destruct (gss_AllowLogin _ _ _ _) as [[[m [e|]] wb]| |].
    + split; [done|]. unfold networkConnectionHandler_OnAuthGSSAPI in Eg. cbn in Eg.
      destruct (ai_gssapi h) as [a|]; [|done]. run_prog.
      destruct (a meta w0) as [[g' wx]| |] eqn:E; try done. injection Eg as <- <-.
      by eexists _, _, _, _, _, _, _, _, _, _.
Qed.

(** A login the server accepts from the chain of a connection. *)
Lemma chain_login_accepted b meta md :
  ai_behavior h = BehaviorNoPassthrough →
  login_accepted MarshalAuthorizedKey (connection_chain ctx_OnDisconnect h b) meta md →
  authenticated_as md ∨ kerberos_as md.
Proof. intros Hb Hl%login_accepted_logs_in. by apply chain_logs_in in Hl. Qed.
End chain_logins.

(** Claim C2. Whoever gets a session has been authenticated: when the server, with the
    authentication layer in front of the backends and no passthrough, goes on to
    serve a connection, then the authenticator configured for a method has run
    and reported success and the configured authorization provider has accepted
    its result (or, without such a provider, a Kerberos conversation has
    succeeded); and the metadata handed to the backends is the one this last
    step returned, as read back from the connection's permissions. *)
Theorem served_users_are_authenticated {W PublicKey} `{!Field W serverImpl}
    `{!Field W (option AuthenticationContext)} `{!Field W (option AuthorizationResponse)}
    (lib_error : list event → event → option error)
    (IP_String : list byte → string) (ParseIP : string → list byte) (MarshalAuthorizedKey : PublicKey → string)
    (cfg : SSHConfig) (hostKeys : list nat)
    (NewServerConn : ServerConfig W PublicKey → prog W ((nat * option Permissions) + error))
    (ctx_OnDisconnect : nat → prog W unit) (h : authIntegration W) conn addr id w e w'
    (Hbehavior : ai_behavior h = BehaviorNoPassthrough)
    (Hlibrary : ∀ config w sshConn perms w', NoClientAuth config = false →
       NewServerConn config w = Done (inl (sshConn, perms), w') → callback_granted config perms)
    (Hrun : handleConnection lib_error IP_String ParseIP MarshalAuthorizedKey cfg hostKeys NewServerConn
              (authintegration_handler ctx_OnDisconnect h) conn addr id w = Done (Some e, w')) :
  ∃ md, (authenticated_as h md ∨ kerberos_as h md) ∧
    Unmarshal ParseIP (Marshal IP_String md) = Done (inl (est_metadata e)).
Proof.
  apply connection_established in Hrun as (hn & meta & w1 & md & w2 & w3 & hsc & m2 & E1 & E2 & Hl & Hm & _); [|done].
  exists md. split; [|done]. rewrite E2 in Hl. cbn in E1. unfold handler_OnNetworkConnection in E1. run_prog.
  destruct (match ai_backend h with Some b => OnNetworkConnection b _ | None => _ end w)
    as [[[[b m] [err|]] wx]| |]; try done.
  injection E1 as <- <- <-. by apply (chain_login_accepted _ _ _ _ _ _ Hbehavior) in Hl.
Qed.

(** ** An instance *)

Abbreviation demo_store := (serverImpl * (option AuthenticationContext * option AuthorizationResponse))%type.

(** An authenticator that knows one password, in front of a backend that takes
    every authenticated user. *)
Definition demo_backend : NetworkConnectionHandler demo_store :=
  {| OnAuthPassword := λ p _, prog_ret (AuthResponseFailure, AuthFailed p, None);
     OnAuthPubKey := λ p _, prog_ret (AuthResponseFailure, AuthFailed p, None);
     OnAuthKeyboardInteractive := λ p _, prog_ret (AuthResponseFailure, AuthFailed p, None);
     OnAuthGSSAPI := λ _, prog_ret None;
     OnHandshakeFailed := λ _ _, prog_ret tt;
     OnHandshakeSuccess := λ md, prog_ret (Some nil_SSHConnectionHandler, md, None);
     OnDisconnect := prog_ret tt;
     OnNetShutdown := λ _, prog_ret tt |}.

Definition demo_auth : authIntegration demo_store :=
  {| ai_backend := Some {| OnReady := prog_ret None; OnHandlerShutdown := λ _, prog_ret tt;
       OnNetworkConnection := λ m, prog_ret (Some demo_backend, m, None) |};
     ai_password := Some (λ p pw,
       prog_ret (MkAuthContext 0 (bool_decide (pw = demo_password)) None (Authenticated p (Username p))));
     ai_publicKey := None; ai_gssapi := None; ai_keyboard := None;
     ai_authz := Some (λ m, prog_ret (MkAuthorizationResponse true None m));
     ai_behavior := BehaviorNoPassthrough |}.

Definition demo_login (password : list byte) : outcome (option established * demo_store) :=
  handleConnection (λ _ _, None) demo_IP_String demo_ParseIP (λ _ : unit, "") demo_cfg []
    (demo_handshake password) (authintegration_handler (λ _, prog_ret tt) demo_auth)
    1 demo_addr "c1" (set_wg 1 New, (None, None)).

Example demo_wrong_password :
  match demo_login [] with Done (None, _) => True | _ => False end.
Proof. vm_compute. exact I. Qed.

Lemma served_users_are_authenticated_witness :
  ∃ e w', demo_login demo_password = Done (Some e, w') ∧
    ∃ md, (authenticated_as demo_auth md ∨ kerberos_as demo_auth md) ∧
      Unmarshal demo_ParseIP (Marshal demo_IP_String md) = Done (inl (est_metadata e)).
Proof.
  destruct (demo_login demo_password) as [[[e|] w']| |] eqn:E;
    [|exfalso; vm_compute in E; discriminate..].
  exists e, w'. split; [reflexivity|].
  apply (served_users_are_authenticated (W:=demo_store) (λ _ _, None) demo_IP_String demo_ParseIP (λ _ : unit, "")
    demo_cfg [] (demo_handshake demo_password) (λ _, prog_ret tt) demo_auth 1 demo_addr "c1"
    (set_wg 1 New, (None, None)) e w').
  - reflexivity.
  - intros config w sshConn perms w'' _. apply demo_handshake_granted.
  - exact E.
Defined.
