(* ===== verification/WholeServer.v ===== *)
(** * The whole server

    What [factory.go] puts together, run: the handlers of the chain of [Service] as the
    handlers of [MetricsIntegration], [AuditIntegration] and [AuthIntegration] in front
    of a backend, below the SSH server of [ServerConnection]. *)

From stdpp Require Import base gmap strings list.
From Stdlib Require Import Strings.Byte.
From S2P Require Import Prelude Messages Metadata MetadataJSON Handler ConfigHTTP ConfigSSH ConfigAuth ConfigLog AppConfig Http OAuth2 Kerberos.
From S2P Require Import AuthIntegration AuthSpec Webhook AuthFactory AuditMessage AuditLog AuditIntegration Metrics MetricsIntegration Service.
From S2P Require Import ServerStore ServerConnection ServerConnectionSpec EndToEnd.

Section stack.
Context {Keytab KrbConfig W : Type} (F : Float).
Context `{!Field W (option AuthenticationContext)} `{!Field W (option AuthorizationResponse)}.
Context `{!Field W loggerConnection} `{!Field W auditHeap} `{!Field W (collector F)} `{!Field W networks}.
Abbreviation client := (@auth_client Keytab KrbConfig).

(** What the clients do when they are asked ([Webhook], [OAuth2], [Kerberos]), and the
    backend of a configuration client ([Backend]). *)
Context (password_of : client → PasswordAuthenticator W) (publicKey_of : client → PublicKeyAuthenticator W)
  (keyboard_of : client → KeyboardInteractiveAuthenticator W) (gssapi_of : client → GSSAPIAuthenticator W)
  (authz_of : client → AuthzProvider W) (ctx_OnDisconnect : nat → prog W unit) (backend_of : option Http.client → Handler W).
(** What [AuditIntegration] and [MetricsIntegration] need. *)
Context (stops : list AuditMessage.Message → bool) (clock : W → Z) (intercept : AuditLogInterceptConfig) (OpenWriter : string → prog W (option error))
  (Lookup : list byte → string) (logger_Shutdown : Context → prog W unit) (IP_String : list byte → string) (backendFirst : bool).

Definition auth_of (a : @authenticators Keytab KrbConfig) (next : Handler W) : authIntegration W :=
  MkAuthIntegration W (Some next) (password_of <$> passwordAuthenticator a) (publicKey_of <$> publicKeyAuthenticator a)
    (gssapi_of <$> gssapiAuthenticator a) (keyboard_of <$> keyboardInteractiveAuthenticator a) (authz_of <$> authorizationProvider a)
    (auth_behavior a).

(** The handlers of a chain. *)
Fixpoint handler_of (c : @chain Keytab KrbConfig) : prog W (Handler W) :=
  match c with
  | BackendHandler client => prog_ret (backend_of client)
  | AuthHandler a next => let* next := handler_of next in prog_ret (authintegration_handler ctx_OnDisconnect (auth_of a next))
  | AuditHandler _ _ next =>
      let* next := handler_of next in
      prog_ret (audit_handler stops clock intercept OpenWriter Lookup logger_Shutdown IP_String next backendFirst)
  | MetricsHandler next => let* next := handler_of next in metricsintegration_NewHandler F Lookup true next
  end.

(** ** Layers that let nobody in on their own *)

(** Whoever a handler lets in satisfies [P]. *)
Definition admits_only (P : ConnectionAuthenticatedMetadata → Prop) (h : Handler W) : Prop :=
  ∀ meta w n meta' w' md, OnNetworkConnection h meta w = Done ((n, meta', None), w') → logs_in (default nil_NetworkConnectionHandler n) md → P md.

Lemma result_after {A} (c : prog W unit) (a a' : A) w w' : (do* c in prog_ret a) w = Done (a', w') → a' = a.
Proof. unfold prog_bind, prog_ret. destruct (c w) as [[[] ?]| |]; [|done..]. by intros [= <- _]. Qed.

(** What the server gets is the answer of the layer below. *)
Lemma audit_attempt b pending r md err w w' :
  auth_call (audit_networkConnectionHandler stops clock intercept b) pending r w = Done ((AuthResponseSuccess, md, err), w') →
  ∃ r' w1 w2, auth_call b pending r' w1 = Done ((AuthResponseSuccess, md, err), w2).
Proof.
  destruct r as [p|k|c]; cbn; [| |intros E; by eexists (AttemptKeyboard _), _, _].
  - unfold network_OnAuthPassword. unfold prog_bind at 1 2. destruct (audit _ _ _ w) as [[[] w1]| |]; [|done..].
    destruct (OnAuthPassword b pending p w1) as [[[[resp md'] err'] w2]| |] eqn:E; [|done..].
    intros [= -> -> ->]%result_after. by exists (AttemptPassword p), w1, w2.
  - unfold network_OnAuthPubKey. unfold prog_bind at 1 2. destruct (audit _ _ _ w) as [[[] w1]| |]; [|done..].
    destruct (OnAuthPubKey b pending k w1) as [[[[resp md'] err'] w2]| |] eqn:E; [|done..].
    intros [= -> -> ->]%result_after. by exists (AttemptPubKey k), w1, w2.
Qed.

Lemma audit_admits P h : admits_only P h →
  admits_only P (audit_handler stops clock intercept OpenWriter Lookup logger_Shutdown IP_String h backendFirst).
Proof.
  intros HP meta w n meta' w' md. cbn. unfold audit_OnNetworkConnection. intros E.
  unfold prog_bind at 1 in E. destruct (OnNetworkConnection h meta w) as [[[[b m] [e|]] w1]| |] eqn:Eb; [done| |done..].
  unfold prog_bind in E. destruct (logger_OnConnect _ _ _ _ _ _ _ w1) as [[[e|] w2]| |]; [done| |done..]. injection E as <- <- <-.
  intros Hl. apply (HP meta w b m w1 md Eb). destruct Hl as [(pending & r & wa & err & wb & Ha)|Hg]; [|by right].
  left. apply audit_attempt in Ha as (r' & w3 & w4 & Ha). by eexists pending, r', w3, err, w4.
Qed.

Lemma metrics_admits P h mh : admits_only P h → admits_only P (metrics_handler F Lookup h mh).
Proof.
  intros HP meta w n meta' w' md. cbn. unfold metrics_OnNetworkConnection. intros E.
  unfold prog_bind at 1 in E. destruct (OnNetworkConnection h meta w) as [[[[b m] [e|]] w1]| |] eqn:Eb; [done| |done..].
  unfold prog_bind in E. destruct (counterGeo_Increment _ _ _ _ _ w1) as [[[] w2]| |]; [|done..].
  destruct (gaugeGeo_Increment _ _ _ _ _ w2) as [[[] w3]| |]; [|done..]. destruct (new_network _ w3) as [[i w4]| |]; [|done..].
  injection E as <- <- <-. intros Hl. apply (HP meta w b m w1 md Eb).
  destruct Hl as [(pending & r & wa & err & wb & Ha)|Hg]; [left|by right]. exists pending, r, wa, err, wb. by destruct r.
Qed.

Lemma auth_admits a next : auth_behavior a = BehaviorNoPassthrough →
  admits_only (λ md, authenticated_as (auth_of a next) md ∨ kerberos_as (auth_of a next) md)
    (authintegration_handler ctx_OnDisconnect (auth_of a next)).
Proof.
  intros Hb meta w n meta' w' md. cbn. unfold handler_OnNetworkConnection. cbn. unfold prog_bind. intros E.
  destruct (OnNetworkConnection next meta w) as [[[[b m] [e|]] w1]| |]; [done| |done..].
  injection E as <- <- <-. by apply chain_logs_in.
Qed.

(** The handlers of a guarded chain admit whom the configured authenticators admit. *)
Lemma guarded_admits cfg c w h w' : guarded cfg c → handler_of c w = Done (h, w') →
  ∃ a next,
    follows (App_Auth cfg) BehaviorNoPassthrough a ∧
    admits_only (λ md, authenticated_as (auth_of a next) md ∨ kerberos_as (auth_of a next) md) h.
Proof.
  intros (a & client & Hf & recorded & Hrec & ->) Hh. exists a, (backend_of client). split; [done|].
  assert (auth_behavior a = BehaviorNoPassthrough) as Hb by apply Hf.
  assert (∃ hr wr, handler_of recorded w = Done (hr, wr) ∧
    admits_only (λ md, authenticated_as (auth_of a (backend_of client)) md ∨ kerberos_as (auth_of a (backend_of client)) md) hr)
    as (hr & wr & Er & Hr).
  { destruct (audit_Enable _).
    - destruct Hrec as (encoder & storage & ->). do 2 eexists. split; [reflexivity|]. by apply audit_admits, auth_admits.
    - subst. do 2 eexists. split; [reflexivity|]. by apply auth_admits. }
  destruct (metrics_Enable _); [|rewrite Er in Hh; by injection Hh as <- <-]. cbn in Hh. erewrite bind_done in Hh by exact Er.
  unfold metricsintegration_NewHandler in Hh. cbn in Hh. unfold prog_bind in Hh.
  repeat (match type of Hh with match ?c with _ => _ end = _ => destruct c as [[? ?]| |]; [|done..] end).
  injection Hh as <- <-. by apply metrics_admits.
Qed.
End stack.

(** ** From the configuration to the session *)

Section server.
Context {Keytab KrbConfig W PublicKey : Type} (F : Float) `{!Field W serverImpl}.
Context `{!Field W (option AuthenticationContext)} `{!Field W (option AuthorizationResponse)}.
Context `{!Field W loggerConnection} `{!Field W auditHeap} `{!Field W (collector F)} `{!Field W networks}.
Abbreviation client := (@auth_client Keytab KrbConfig).
Context (password_of : client → PasswordAuthenticator W) (publicKey_of : client → PublicKeyAuthenticator W)
  (keyboard_of : client → KeyboardInteractiveAuthenticator W) (gssapi_of : client → GSSAPIAuthenticator W)
  (authz_of : client → AuthzProvider W) (ctx_OnDisconnect : nat → prog W unit) (backend_of : option Http.client → Handler W).
Context (stops : list AuditMessage.Message → bool) (clock : W → Z) (intercept : AuditLogInterceptConfig) (OpenWriter : string → prog W (option error))
  (Lookup : list byte → string) (logger_Shutdown : Context → prog W unit) (IP_String : list byte → string) (backendFirst : bool).
(** What [New] needs. *)
Context (lib : Library) (keys : KeyLibrary) (path_Join : string → string → string) (IsNone : string → bool) (order : list string).
Context (url_parse : string → URL + error) (has_index : string → bool) (keytab_Load : string → Keytab + error)
  (krb5cfg_Load : string → KrbConfig + error) (Hostname : string + error) (KRB_NT_PRINCIPAL : Z) (NewPrincipalName : Z → string → PrincipalName)
  (Open : string → (list byte → string + error) + error) (create_storage : AuditLogConfig → AuditStorage.storage_kind → option error)
  (factory : LogConfig → outcome (Logger.logger + error)).
(** The SSH library, which returns from a handshake only with permissions that a
    callback has granted. *)
Context (lib_error : list event → event → option error) (ParseIP : string → list byte) (MarshalAuthorizedKey : PublicKey → string)
  (NewServerConn : ServerConfig W PublicKey → prog W ((nat * option Permissions) + error)).
Context (Hlibrary : ∀ config w sshConn perms w', NoClientAuth config = false →
  NewServerConn config w = Done (inl (sshConn, perms), w') → callback_granted config perms).

Abbreviation handlers := (handler_of F password_of publicKey_of keyboard_of gssapi_of authz_of ctx_OnDisconnect backend_of stops clock intercept
  OpenWriter Lookup logger_Shutdown IP_String backendFirst).
Abbreviation made := (container_New F lib keys path_Join IsNone order url_parse has_index keytab_Load krb5cfg_Load Hostname KRB_NT_PRINCIPAL
  NewPrincipalName Open create_storage factory).
Abbreviation authentication := (auth_of password_of publicKey_of keyboard_of gssapi_of authz_of).

(** The SSH server of what [New] has made. *)
Lemma server_admits cfg services ssh hostKeys c w0 handler w0' :
  made cfg = Done (inl services) → SSHServer ssh hostKeys c ∈ services → handlers c w0 = Done (handler, w0') →
  ssh = App_SSH cfg ∧ ∃ a next,
    follows (App_Auth cfg) BehaviorNoPassthrough a ∧
    admits_only (λ md, authenticated_as (authentication a next) md ∨ kerberos_as (authentication a next) md) handler.
Proof.
  intros (_ & health & metrics & redirect & ks & h & Hg & -> & _ & Hm & _)%container_is_guarded Hin Hh.
  assert (ssh = App_SSH cfg ∧ c = h) as [-> ->].
  { apply elem_of_cons in Hin as [Hin|Hin]; [done|]. apply elem_of_app in Hin as [Hin|Hin].
    - destruct (metrics_Enable _); [destruct Hm as [s ->]; by apply list_elem_of_singleton in Hin|subst; by apply elem_of_nil in Hin].
    - apply elem_of_app in Hin as [(? & ? & _)%list_elem_of_fmap|Hin]; [done|]. apply list_elem_of_singleton in Hin. by injection Hin. }
  split; [done|]. by eapply guarded_admits.
Qed.

Lemma served_admitted P ssh hostKeys handler conn addr id w e w' : admits_only P handler →
  handleConnection lib_error IP_String ParseIP MarshalAuthorizedKey ssh hostKeys NewServerConn handler conn addr id w = Done (Some e, w') →
  ∃ md, P md ∧ Unmarshal ParseIP (Marshal IP_String md) = Done (inl (est_metadata e)).
Proof.
  intros HP Hrun. apply connection_established in Hrun as (hn & meta & w1 & md & w2 & w3 & hsc & m2 & E1 & E2 & Hl & Hm & _); [|done].
  exists md. split; [|done]. rewrite E2 in Hl. by apply login_accepted_logs_in, (HP _ _ _ _ _ _ E1) in Hl.
Qed.

(** Claim C1. A server that [New] has made of a configuration: when it goes on to serve a
    connection, an authenticator for a method that the configuration names (or Kerberos,
    if it names that and no authorization) has reported success and the configured
    authorization provider has accepted its result, whatever the audit log, the metrics
    and the backend do; and the user the backend gets is the one they returned. *)
Theorem every_connection_is_authenticated cfg services ssh hostKeys c w0 handler w0' conn addr id w e w' :
  made cfg = Done (inl services) → SSHServer ssh hostKeys c ∈ services → handlers c w0 = Done (handler, w0') →
  handleConnection lib_error IP_String ParseIP MarshalAuthorizedKey ssh hostKeys NewServerConn handler conn addr id w = Done (Some e, w') →
  ssh = App_SSH cfg ∧ ∃ a next md,
    follows (App_Auth cfg) BehaviorNoPassthrough a ∧
    (authenticated_as (authentication a next) md ∨ kerberos_as (authentication a next) md) ∧
    Unmarshal ParseIP (Marshal IP_String md) = Done (inl (est_metadata e)).
Proof.
  intros Hmade Hin Hh Hrun. destruct (server_admits cfg services ssh hostKeys c w0 handler w0' Hmade Hin Hh) as (-> & a & next & Hf & HP).
  split; [done|]. destruct (served_admitted _ _ _ _ _ _ _ _ _ _ HP Hrun) as (md & Hmd & Hu). by exists a, next, md.
Qed.
End server.

(** ** An example *)

Module whole_demo.
Abbreviation store :=
  (serverImpl * (option AuthenticationContext * (option AuthorizationResponse *
    (loggerConnection * (auditHeap * (collector service_demo.naturals * networks))))))%type.

(** The configuration of the example of [Service], with metrics. *)
Definition config : AppConfig :=
  let c := service_demo.config "0.0.0.0:7000" in
  MkAppConfig (App_SSH c) (App_ConfigServer c) (App_Auth c) (App_Log c) (MkMetricsConfig (service_demo.listen "0.0.0.0:9100") true "/metrics") (App_GeoIP c) (App_Audit c) (App_Health c)
    (App_Security c) (App_Backend c) (App_Docker c) (App_DockerRun c) (App_Kubernetes c) (App_KubeRun c) (App_SSHProxy c).

Definition new : outcome (list (@pool_service unit unit) + error) :=
  container_New service_demo.naturals app_demo.files service_demo.keys service_demo.join (λ _, true) service_demo.order
    (λ _, inr (ErrorString "not parsed")) (λ _, true) (λ _, inl tt) (λ _, inl tt) (inl "ssh") 1%Z (λ t name, MkPrincipalName t [name])
    (λ _, inr (ErrorString "no database")) (λ _ _, None) service_demo.to_stdout config.
Definition services : list (@pool_service unit unit) := match new with Done (inl l) => l | _ => [] end.
Definition server_chain : chain :=
  match last services with Some (SSHServer _ _ c) => c | _ => BackendHandler None end.

(** A client that knows one password, in front of a backend that takes everybody. *)
Definition passwords_of (_ : @auth_client unit unit) : PasswordAuthenticator store :=
  λ p pw, prog_ret (MkAuthContext 0 (bool_decide (pw = demo_password)) None (Authenticated p (Username p))).
Definition nobody (meta : ConnectionAuthPendingMetadata) : prog store AuthenticationContext := prog_ret (MkAuthContext 0 false None (AuthFailed meta)).
Definition backend : Handler store :=
  {| OnReady := prog_ret None; OnHandlerShutdown := λ _, prog_ret tt;
     OnNetworkConnection := λ m, prog_ret (Some
       {| OnAuthPassword := λ p _, prog_ret (AuthResponseSuccess, AuthFailed p, None);
          OnAuthPubKey := λ p _, prog_ret (AuthResponseSuccess, AuthFailed p, None);
          OnAuthKeyboardInteractive := λ p _, prog_ret (AuthResponseSuccess, AuthFailed p, None);
          OnAuthGSSAPI := λ _, prog_ret None;
          OnHandshakeFailed := λ _ _, prog_ret tt;
          OnHandshakeSuccess := λ md, prog_ret (Some nil_SSHConnectionHandler, md, None);
          OnDisconnect := prog_ret tt;
          OnNetShutdown := λ _, prog_ret tt |}, m, None) |}.

Definition start : store :=
  (set_wg 1 New, (None, (None, (MkLoggerConnection "" false false [] true, (MkAuditHeap ∅ 7, (new_collector service_demo.naturals, [])))))).

Definition everything : AuditLogInterceptConfig := MkAuditLogInterceptConfig true true true true true.
Definition handlers (c : chain) : prog store (Handler store) :=
  handler_of service_demo.naturals passwords_of (λ _ p _, nobody p) (λ _ p _, nobody p) (λ _ _, prog_ret nil_GSSAPIServer)
    (λ _ m, prog_ret (MkAuthorizationResponse true None m)) (λ _, prog_ret tt) (λ _, backend)
    at_disconnect (λ _, 0%Z) everything (λ _, prog_ret None) (λ _, "XX") (λ _, prog_ret tt) demo_IP_String true c.

Definition authentication (a : @authenticators unit unit) (next : Handler store) : authIntegration store :=
  auth_of passwords_of (λ _ p _, nobody p) (λ _ p _, nobody p) (λ _ _, prog_ret nil_GSSAPIServer)
    (λ _ m, prog_ret (MkAuthorizationResponse true None m)) a next.
Definition built : Handler store * store := match handlers server_chain start with Done r => r | _ => (backend, start) end.

Definition login (password : list byte) : outcome (option established * store) :=
  handleConnection (λ _ _, None) demo_IP_String demo_ParseIP (λ _ : unit, "") (App_SSH config) [7]
    (demo_handshake password) built.1 1 demo_addr "c1" built.2.

(** The backend of the example would let everybody in; the server does not. *)
Example only_the_password_logs_in :
  match login demo_password with Done (Some _, _) => True | _ => False end ∧
  match login [] with Done (None, _) => True | _ => False end.
Proof. split; vm_compute; exact I. Qed.

Lemma built_from_chain : handlers server_chain start = Done (built.1, built.2).
Proof.
  assert (match handlers server_chain start with Done _ => true | _ => false end = true) as H by (vm_compute; reflexivity).
  unfold built. by destruct (handlers server_chain start) as [[]| |].
Qed.

Lemma every_connection_is_authenticated_witness :
  ∃ e w', login demo_password = Done (Some e, w') ∧ App_SSH config = App_SSH config ∧ ∃ a next md,
    follows (App_Auth config) BehaviorNoPassthrough a ∧
    (authenticated_as (authentication a next) md ∨ kerberos_as (authentication a next) md) ∧
    Unmarshal demo_ParseIP (Marshal demo_IP_String md) = Done (inl (est_metadata e)).
Proof.
  assert (match login demo_password with Done (Some _, _) => true | _ => false end = true) as Hlogin by (vm_compute; reflexivity).
  destruct (login demo_password) as [[[e|] w']| |] eqn:E; [clear Hlogin|discriminate Hlogin..].
  exists e, w'. split; [reflexivity|].
  refine (every_connection_is_authenticated service_demo.naturals passwords_of (λ _ p _, nobody p) (λ _ p _, nobody p) (λ _ _, prog_ret nil_GSSAPIServer)
    (λ _ m, prog_ret (MkAuthorizationResponse true None m)) (λ _, prog_ret tt) (λ _, backend)
    at_disconnect (λ _, 0%Z) everything (λ _, prog_ret None) (λ _, "XX") (λ _, prog_ret tt) demo_IP_String true
    app_demo.files service_demo.keys service_demo.join (λ _, true) service_demo.order
    (λ _, inr (ErrorString "not parsed")) (λ _, true) (λ _, inl tt) (λ _, inl tt) (inl "ssh") 1%Z (λ t name, MkPrincipalName t [name])
    (λ _, inr (ErrorString "no database")) (λ _ _, None) service_demo.to_stdout
    (λ _ _, None) demo_ParseIP (λ _ : unit, "") (demo_handshake demo_password) _
    config services (App_SSH config) [7] server_chain start built.1 built.2 1 demo_addr "c1" built.2 e w' _ _ _ E).
  - intros c w sshConn perms w'' _. apply demo_handshake_granted.
  - vm_compute. reflexivity.
  - apply last_Some_elem_of. vm_compute. reflexivity.
  - exact built_from_chain.
Defined.
End whole_demo.
